(* ===== verification/_CoqProject ===== *)
-Q . S2P
Prelude.v
Bio.v
Sjd.v
JournalLog.v
Commit.v
Coalesce.v
Checkpoint.v
JournalSystem.v
TxBuild.v
EndToEnd.v
StageArea.v
Layout.v
InodeAlloc.v
Bitmap.v
SefsAlloc.v
SefsFile.v
SefsDir.v
RingMpmc.v
Slab.v
BufferCache.v
DirtyPages.v
DirtyRanges.v
IrdFrames.v
StageTx.v
StageReplay.v
Ext4Extent.v
Ext4Tree.v
Ext4Insert.v
Ext4Map.v
Ext4File.v
Ext4Bitmap.v
Ext4Balloc.v
Ext4Disk.v
Ext4Dir.v
Ext4Hash.v
Ext4Htree.v
Ext4Index.v
Ext4Front.v
Ext4DirMap.v
Ext4DirIter.v
Ext4Ialloc.v
Ext4Names.v
Ext4NameSpace.v
Ext4Reuse.v
