(* ===== verification/Prelude.v ===== *)
(** * Oxbow: a verification of its journal, stage area and file systems

    Oxbow splits a file system over three programs.  _libfs_ runs inside the
    application and serves reads and writes from a mapping shared with the
    daemon (src/oxbow/libfs).  The _secure daemon_ on the host owns the
    metadata, collects dirty pages, stages fsyncs and builds background
    transactions (src/oxbow/secure_daemon).  _devfs_ on the storage device
    fetches the transactions, writes them to a circular journal and later
    copies the blocks to their home addresses (src/oxbow/devfs).

    A write marks page bits in the shared mapping.  An fsync gathers the dirty
    pages of a file and writes them, with tags that name their home blocks, as
    one contiguous transaction into the _stage area_.  From time to time the
    daemon builds a background transaction of all dirty files; it refers to
    the staged transactions by _trace blocks_ and carries the other dirty
    blocks itself.  The device commits it to the journal and checkpoints it
    when log space is needed.

    ** Files and what they model

    - [Prelude]: machine integers, the result type of fallible code ([Ok],
      [Abort] for a failed assertion, [Blocked] for a wait or exhausted fuel),
      tactics and lemmas on integer ranges and sums.
    - [Bio]: block I/O requests and their dispatch as NVMe-oF commands
      (devfs/include/common/bio.h, devfs/src/common/storage_engine).
    - [Sjd]: byte layout of the journal blocks (devfs/include/common/sjd.h).
    - [JournalLog]: the circular log; [Commit]: the handlers that persist data,
      metadata and the commit record; [Coalesce] and [Checkpoint]: the five
      passes of do_checkpoint_coalesce; [JournalSystem]: their interleavings
      (all devfs/src/journal.c).
    - [TxBuild]: the host's transaction builder
      (secure_daemon/src/fs/journal.c); [EndToEnd]: builder, commit and
      checkpoint composed.
    - [StageArea]: the circular stage area; [StageTx]: stage_file, the fsync
      of a regular file; [StageReplay]: the staged transaction read back by
      the device (secure_daemon/src/fs/sync.c).
    - [Layout]: the geometry both mkfs programs compute and the device derives
      (secure_daemon/src/fs/sefs/mkfs.c, lwext4/ext4_mkfs.c, devfs/src/fs).
    - [Bitmap], [SefsAlloc], [SefsFile], [SefsDir]: bitmaps, allocator, block
      index and directories of SEFS (secure_daemon/src/fs/sefs).
    - [RingMpmc]: the lock-free request ring
      (devfs/src/common/ring_buffer_mpmc.c); [Slab]: the lock-free slab
      allocator (devfs/src/common/oxb_slab.c).
    - [BufferCache]: the buffer cache with its locks and device requests
      (secure_daemon/src/fs/buffer.c, submit_bh and bh_end_io of
      io_dispatcher.c, ext4_block_get of lwext4).
    - [DirtyPages]: libfs_read and libfs_write on the shared mapping
      (libfs/src/filesystem/read_write.c); [DirtyRanges]: collection of the
      dirty bits as ranges (secure_daemon/src/libfs/shm.c); [IrdFrames]: range
      lists as frames on disk.
    - [InodeAlloc]: growth of a file over the get_blocks operation of either
      file system (secure_daemon/src/fs/inode.c).
    - [Ext4Extent]: extent trees of lwext4, search, insertion with splits, and
      ext4_extent_get_blocks; [Ext4Tree], [Ext4Insert]: their invariant and
      what an insertion does; [Ext4Map]: the way from lwext4_get_block to the
      tree; [Ext4File]: the file over an abstract allocator ([Balloc],
      [BallocLaws]); [Ext4Bitmap], [Ext4Balloc]: the allocator with its bitmaps
      (secure_daemon/src/fs/lwext4: ext4_extent.c, ext4_fs.c, ext4_inode.c,
      ext4_bitmap.c, ext4_balloc.c); [Ext4Disk]: files on that allocator.
    - [Ext4Dir]: entries of directory blocks (ext4_dir.c); [Ext4Hash]: the hash
      functions (ext4_hash.c); [Ext4Htree]: the hash index with its searches
      and splits (ext4_dir_idx.c); [Ext4Index], [Ext4Front]: the invariant of
      the index; [Ext4DirMap]: a directory as a finite map of names;
      [Ext4DirIter]: the iterator and listings (ext4_dir.c, ext4_iterate).
    - [Ext4Ialloc]: allocation of inodes (ext4_ialloc.c).
    - [Ext4Names]: lookup, creation, removal and the two halves of renaming
      (ext4_inode.c, ext4_link and ext4_unlink of ext4.c) with the inodes on
      disk and in memory (ext4_fs.c, secure_daemon/src/fs/inode.c), over an
      interface of directories ([DirOps], [DirSpec]) that [Ext4DirMap]
      implements; [Ext4NameSpace]: the tree of names they implement;
      [Ext4Reuse]: the numbers they give out.
    ** State and steps

    The device state is a record ([devfs] of [Commit]) with the disk as a
    function from block numbers to blocks of 4096 bytes.  A handler is a
    function from state to result and state; [JournalSystem], [RingMpmc],
    [Slab] and [BufferCache] have step relations in which the handlers, or
    single shared accesses, interleave; in [BufferCache] the load and the store
    of a non-atomic update are two accesses.  Memory shared by pointer in C is either part of the state or
    a position in a list (the metadata buffer of a transaction, the sequence
    buffers of a thread).  Integers keep their C width: [u16], [u32], [u64],
    [s32] are applied where the code computes in that width.

    ** What the theorems show

    The theorems are case analyses: besides what the code does when all goes
    well they state, where it is reachable, how it stops, waits or goes wrong
    in the other cases, and each doc comment names the conditions it is under.

    - Journal: the log is a FIFO queue of extents; live transactions do not
      overlap as long as the data of a transaction fit the free space, which
      the code does not check; commits happen in order, a checkpoint has the
      effect of applying the transaction tag by tag, and a transaction built by
      the host reaches exactly its home blocks unless its last data chunk would
      start behind the end of the log, or too little of the log is free
      afterwards.
    - Stage area: a FIFO queue of contiguous runs, broken by a reservation that
      fits exactly; what an fsync writes is what the device replays, and the
      cases in which it is not.
    - File systems: layouts partition the device; the allocator of SEFS returns
      free blocks and marks them if they are contiguous in the group it takes,
      and blocks in use otherwise; the block index implements the interface
      ([FileMap]) the transaction builder is proved against; creation in a
      directory keeps its counters and entries consistent, on a store of blocks
      in which a new extent may not overlap blocks in use.
    - Shared memory: reads see the last write, up to its length modulo 2^32;
      every page written is collected exactly once and survives the trip
      through range lists and frames.
    - The ring delivers every element once, in order, without data races; the
      slab allocator gives no object to two callers, loses none, and an
      allocation ends if its thread runs.  The buffer cache presents one
      contents per block over the interleavings with the device in which no two
      updates of the state word of a buffer overlap and a block is filled by one
      thread alone; an overlapping update loses a dirty mark.
    - Error theorems state where the code stops at an assertion, loses data or
      loops, with the exact condition; the corresponding defects are listed
      with the source lines.
    - lwext4: the tree stays sorted, balanced and within its node sizes, maps
      the new blocks and keeps the old mapping; the allocator takes and gives
      back exactly the blocks it says; together a file that grows on disk
      serves transaction building like one of SEFS.  The hash functions agree
      with a reference given by tables.
    - Directories of lwext4: over all splits of blocks and of the index a
      directory is a finite map that searches, insertions, removals and
      listings read and change; its blocks stay well formed and its size stays
      bounded.  On top of them the operations on inodes implement a tree of
      names; the theorems on errors show names left behind or lost.
    ** Bounds and fuel

    Loops that are not structural take fuel: the number of blocks left for
    copy loops, the number of nodes for list passes, the ring capacity for
    retries.  Each such function is proved to end before its fuel does
    ([Blocked] is excluded by the theorems that state a result).  Bounds on
    sizes ([2 ^ 32] blocks, [2 ^ 64] bytes) are hypotheses only where the code
    computes in that width; each property with hypotheses has a witness.

    ** Parameters

    Code that is not in the repository is a parameter with its documented
    behaviour as hypothesis: the data fetcher's buffer allocation ([TxBuild]),
    the contents of a fresh DMA buffer ([stale] of [StageTx]), whether a block
    can be read ([bread], [eread], [getbuf]), SPDK's commands
    as block copies that are complete when the code has waited for them.

    ** Not modelled

    - Process set-up, option parsing, CPU pinning, logging, profiling and the
      dump tools (print_tx.c, sync_device.c, time_stat.c, profile.c,
      config.c, test programs): no file system state.
    - The message layer (msg.c, msg_handler.c, io_dispatcher.c beyond its
      ring) and SPDK set-up and polling (nvme.c, se_nvme.c): I/O glue around
      the handlers that are modelled.
    - The kernel interface (kernfs/file_ops.c, dir_ops.c) and the interposed
      POSIX layer of libfs (posix_interface.c, shim.c, file.c, fs.c): they
      translate requests to the operations above and to the kernel module,
      which is not in the repository.
    - mpage.c: page cache reads over SPDK.  The models of the file systems take
      cached blocks as state; that the cache presents them is the theorem of
      [BufferCache], which leaves out buffers of several blocks, the lists
      of dirty buffers of an inode and the reset of a freed buffer.
    - lwext4 besides the files above: removal of extents and conversion of
      unwritten ones (which the daemon does not create), indirect block maps,
      extended attributes, block cache and mount code, the path interface of
      ext4.c (which the daemon does not call), checksums (off in file systems
      made by its mkfs).  Its own journal (ext4_journal.c) is not compiled.
    - Names and inodes of lwext4 are operated on by one thread at a time;
      times, owners and the memory of inodes are left out.
    - Weak memory: [RingMpmc], [Slab] and [BufferCache] interleave under
      sequential consistency. *)

From stdpp Require Export base numbers list.
From stdpp Require Import gmap.

#[global] Open Scope Z_scope.

(** ** Machine integers

    A C integer of width [w] is a [Z]; every place where the C code computes
    in a fixed width applies the wrap of that width explicitly. *)

Notation U32_MOD := 4294967296 (only parsing).
Notation U64_MOD := 18446744073709551616 (only parsing).

Definition u16 (x : Z) : Z := x mod 65536.
Definition u32 (x : Z) : Z := x mod U32_MOD.
Definition u64 (x : Z) : Z := x mod U64_MOD.

(** Conversion to [int32_t] (two's complement). *)
Definition s32 (x : Z) : Z :=
  let y := x mod U32_MOD in if y <? 2147483648 then y else y - U32_MOD.

(** Conversion to [int64_t] / [intptr_t]. *)
Definition s64 (x : Z) : Z :=
  let y := x mod U64_MOD in if y <? 9223372036854775808 then y else y - U64_MOD.

(** The pattern [(unsigned long)-1] the code uses as "no address". *)
Definition NOADDR : Z := 18446744073709551615.

Create HintDb wrap.

(** Decide linear goals that mention wraps: every [mod] and [/] becomes its
    defining equations. *)
Ltac wrap_lia :=
  unfold u16, u32, u64, s32, s64, NOADDR in *;
  Z.div_mod_to_equations; lia.

Lemma s32_small x : 0 <= x < 2147483648 -> s32 x = x.
Proof. intros H. unfold s32. rewrite Z.mod_small by lia. by rewrite (proj2 (Z.ltb_lt x 2147483648)) by lia. Qed.

Lemma u32_id x : 0 <= x < U32_MOD -> u32 x = x.
Proof. apply Z.mod_small. Qed.

Lemma u64_id x : 0 <= x < U64_MOD -> u64 x = x.
Proof. apply Z.mod_small. Qed.

Lemma u32_range x : 0 <= u32 x < U32_MOD.
Proof. apply Z.mod_pos_bound. lia. Qed.

Lemma u64_range x : 0 <= u64 x < U64_MOD.
Proof. apply Z.mod_pos_bound. lia. Qed.

#[export] Hint Resolve u32_range u64_range : wrap.

(** Remove the wraps whose argument is provably in range. *)
Ltac unwrap :=
  repeat first
    [ rewrite u64_id by lia
    | rewrite u32_id by lia ].

Tactic Notation "unwrap" "in" hyp(H) :=
  repeat first
    [ rewrite u64_id in H by lia
    | rewrite u32_id in H by lia ].

(** ** Results of code that can abort

    [oxbow_assert], [BUG_ON] and [panic] stop the process: such code returns
    a [res], with [Abort] for the stopped process.  Code that waits on a
    condition variable until another thread changes the state returns
    [Blocked] in the states in which it waits. *)

Inductive res (A : Type) : Type :=
| Ok (a : A)
| Abort
| Blocked.
Arguments Ok {A} a.
Arguments Abort {A}.
Arguments Blocked {A}.

Definition res_bind {A B} (c : res A) (k : A -> res B) : res B :=
  match c with Ok a => k a | Abort => Abort | Blocked => Blocked end.

Declare Scope oxbow_scope.
Delimit Scope oxbow_scope with oxbow.
#[global] Open Scope oxbow_scope.

Notation "'let*' x := c 'in' k" := (res_bind c (fun x => k))
  (at level 200, x pattern, c at level 100, k at level 200, right associativity)
  : oxbow_scope.

(** [oxbow_assert(b); k] *)
Definition assert_ (b : bool) {A} (k : res A) : res A := if b then k else Abort.

Notation "'assert!' b 'in' k" := (assert_ b k)
  (at level 200, b at level 100, k at level 200, right associativity) : oxbow_scope.

(** [while (!b) pthread_cond_wait(...); k] *)
Definition wait_until (b : bool) {A} (k : res A) : res A := if b then k else Blocked.

Notation "'wait!' b 'in' k" := (wait_until b k)
  (at level 200, b at level 100, k at level 200, right associativity) : oxbow_scope.

Lemma assert_true {A} (k : res A) : (assert! true in k) = k.
Proof. reflexivity. Qed.

Lemma res_bind_Ok {A B} (c : res A) (k : A -> res B) b :
  res_bind c k = Ok b -> exists a, c = Ok a /\ k a = Ok b.
Proof. destruct c; cbn; [eauto | discriminate..]. Qed.

(** Invert a chain of binds and asserts that returned [Ok]. *)
Ltac inv_res :=
  repeat match goal with
  | H : Ok _ = Ok _ |- _ => injection H as H; try subst
  | H : Abort = Ok _ |- _ => discriminate H
  | H : Blocked = Ok _ |- _ => discriminate H
  | H : res_bind _ _ = Ok _ |- _ =>
      let a := fresh "r" in let E := fresh "E" in
      apply res_bind_Ok in H as (a & E & H)
  | H : assert_ ?b _ = Ok _ |- _ =>
      let E := fresh "E" in destruct b eqn:E; cbn [assert_] in H; [| discriminate H]
  | H : wait_until ?b _ = Ok _ |- _ =>
      let E := fresh "E" in destruct b eqn:E; cbn [wait_until] in H; [| discriminate H]
  end.

(** Turn boolean comparisons into propositions, in the goal and everywhere. *)
Ltac bool_prop :=
  repeat match goal with
  | H : _ && _ = true |- _ => apply andb_true_iff in H as [? ?]
  | H : (_ <? _) = true |- _ => apply Z.ltb_lt in H
  | H : (_ <? _) = false |- _ => apply Z.ltb_ge in H
  | H : (_ <=? _) = true |- _ => apply Z.leb_le in H
  | H : (_ <=? _) = false |- _ => apply Z.leb_gt in H
  | H : (_ =? _) = true |- _ => apply Z.eqb_eq in H
  | H : (_ =? _) = false |- _ => apply Z.eqb_neq in H
  end.

(** Case analysis on the first comparison of the goal. *)
Ltac case_cmp :=
  match goal with
  | |- context [?a <? ?b] => destruct (Z.ltb_spec a b)
  | |- context [?a <=? ?b] => destruct (Z.leb_spec a b)
  | |- context [?a =? ?b] => destruct (Z.eqb_spec a b)
  end.

(** ** Ranges of integers *)

(** [seqz a n] is [a, a+1, ..., a+n-1]; empty when [n <= 0]. *)
Definition seqz (a n : Z) : list Z := (fun i => a + Z.of_nat i) <$> seq 0 (Z.to_nat n).

Lemma elem_of_seqz a n x : x ∈ seqz a n <-> a <= x < a + n.
Proof.
  unfold seqz. rewrite list_elem_of_fmap. split.
  - intros (i & -> & Hi%elem_of_seq). lia.
  - intros. exists (Z.to_nat (x - a)). split; [lia|]. apply elem_of_seq. lia.
Qed.

Lemma length_seqz a n : length (seqz a n) = Z.to_nat n.
Proof. unfold seqz. by rewrite length_fmap, length_seq. Qed.

Lemma seqz_nil a n : n <= 0 -> seqz a n = [].
Proof. intros. unfold seqz. by replace (Z.to_nat n) with 0%nat by lia. Qed.

Lemma seqz_cons a n : 0 < n -> seqz a n = a :: seqz (a + 1) (n - 1).
Proof.
  intros. unfold seqz. replace (Z.to_nat n) with (S (Z.to_nat (n - 1))) by lia.
  cbn [seq]. rewrite <- seq_shift. cbn. rewrite Z.add_0_r. f_equal.
  rewrite <- list_fmap_compose. apply list_fmap_ext. intros; cbn; lia.
Qed.

Lemma seqz_app a n m : 0 <= n -> 0 <= m -> seqz a (n + m) = seqz a n ++ seqz (a + n) m.
Proof.
  intros. unfold seqz. rewrite Z2Nat.inj_add, seq_app, fmap_app by lia. f_equal.
  replace (0 + Z.to_nat n)%nat with (Z.to_nat n + 0)%nat by lia.
  rewrite <- fmap_add_seq, <- list_fmap_compose. apply list_fmap_ext. intros; cbn; lia.
Qed.

Lemma seqz_snoc a n : 0 <= n -> seqz a (n + 1) = seqz a n ++ [a + n].
Proof. intros. rewrite seqz_app, (seqz_cons (a + n)), (seqz_nil (a + n + 1)) by lia. done. Qed.

Lemma NoDup_seqz a n : NoDup (seqz a n).
Proof. unfold seqz. apply NoDup_fmap_2; [intros ? ? ?; lia | apply NoDup_seq]. Qed.

Lemma lookup_seqz a n (i : nat) : Z.of_nat i < n -> seqz a n !! i = Some (a + Z.of_nat i).
Proof.
  intros. unfold seqz. rewrite list_lookup_fmap, lookup_seq_lt by lia. cbn. do 2 f_equal; lia.
Qed.

(** Sum of a [Z]-valued function over a list. *)
Definition sumz {A} (f : A -> Z) (l : list A) : Z := foldr (fun x s => f x + s) 0 l.

#[global] Arguments sumz : simpl never.

Lemma sumz_app {A} (f : A -> Z) l1 l2 : sumz f (l1 ++ l2) = sumz f l1 + sumz f l2.
Proof. induction l1; unfold sumz in *; cbn in *; [done|lia]. Qed.

Lemma sumz_cons {A} (f : A -> Z) x l : sumz f (x :: l) = f x + sumz f l.
Proof. done. Qed.

Lemma sumz_nonneg {A} (f : A -> Z) l : Forall (fun x => 0 <= f x) l -> 0 <= sumz f l.
Proof. induction 1; unfold sumz in *; cbn; lia. Qed.

Lemma sumz_nil {A} (f : A -> Z) : sumz f [] = 0.
Proof. done. Qed.

Lemma elem_of_sumz_le {A} (f : A -> Z) l x :
  Forall (fun x => 0 <= f x) l -> x ∈ l -> f x <= sumz f l.
Proof.
  intros Hl Hx. induction Hl as [|y l Hy Hl IH]; [by apply not_elem_of_nil in Hx|].
  rewrite sumz_cons. pose proof (sumz_nonneg f l Hl).
  apply elem_of_cons in Hx as [->|Hx]; [lia|]. specialize (IH Hx). lia.
Qed.

Lemma sumz_take_mono {A} (f : A -> Z) l a b :
  Forall (fun x => 0 <= f x) l -> (a <= b)%nat -> sumz f (take a l) <= sumz f (take b l).
Proof.
  intros Hl Hab. replace b with (a + (b - a))%nat by lia. rewrite <- take_take_drop, sumz_app.
  assert (0 <= sumz f (take (b - a) (drop a l))); [|lia].
  by apply sumz_nonneg, Forall_take, Forall_drop.
Qed.

Create HintDb oxbow.
#[export] Hint Rewrite @sumz_app @sumz_cons @sumz_nil : oxbow.

(** ** Pairwise relations on lists *)

Notation pairwise := (List.ForallOrdPairs).

Lemma pairwise_perm {A} (R : A -> A -> Prop) (Rsym : forall x y, R x y -> R y x) l1 l2 :
  l1 ≡ₚ l2 -> pairwise R l1 -> pairwise R l2.
Proof.
  induction 1 as [|x l1 l2 Hp IH|x y l|l1 l2 l3 _ IH1 _ IH2]; intros H.
  - done.
  - inversion_clear H. constructor; [by rewrite <- Hp | auto].
  - inversion_clear H as [|? ? Hy Hl]. inversion_clear Hl as [|? ? Hx Hl'].
    apply Forall_cons in Hy as [Hyx Hy]. repeat constructor; auto.
  - auto.
Qed.

Lemma pairwise_app {A} (R : A -> A -> Prop) l1 l2 :
  pairwise R (l1 ++ l2) <->
  pairwise R l1 /\ pairwise R l2 /\ Forall (fun x => Forall (R x) l2) l1.
Proof.
  induction l1 as [|x l1 IH]; cbn.
  - split; [intros; repeat split; [constructor|done|constructor] | tauto].
  - split.
    + intros H. inversion_clear H as [|? ? Hx Hl]. apply Forall_app in Hx as [? ?].
      apply IH in Hl as (? & ? & ?). repeat split; [constructor|..|constructor]; done.
    + intros (H & ? & Hf). inversion_clear H. inversion_clear Hf.
      constructor; [by apply Forall_app | by apply IH].
Qed.
