(* ===== verification/Bio.v ===== *)
(** * Block I/O

    The block-granular device, page-granular memory buffers and the block I/O
    requests of [devfs/include/common/bio.h] and
    [devfs/include/common/oxbow.h], the construction of request lists
    ([add_bio_to_bl] of [devfs/src/journal.c]), and the dispatch loop of the
    NVMe-oF engine ([nvmf_dispatch_io_fast] of
    [devfs/src/common/storage_engine/se_nvmf_fast.c]) with the proof that the
    commands it submits move exactly the blocks the request names. *)

From S2P Require Import Prelude.

(** ** Units *)

Definition OXBOW_BLOCK_SIZE : Z := 4096.
Definition SECTOR_SIZE : Z := 512.
Definition DATA_FETCHER_BUF_SIZE : Z := 32 * 1024 * 1024.
Definition BIO_MAX_BIO_SIZE : Z := DATA_FETCHER_BUF_SIZE.
Definition OXBOW_MAX_DEV_SIZE : Z := 2 * 1024 * 1024 * 1024 * 1024.

Definition CEILING (x y : Z) : Z := (x + y - 1) / y.

Definition nblks_to_bytes (n_blks : Z) : Z := u64 (Z.shiftl (u32 n_blks) 12).

Definition bytes_to_nblks (size_in_bytes : Z) : res Z :=
  assert! (size_in_bytes mod OXBOW_BLOCK_SIZE =? 0) in
  Ok (u32 (Z.shiftr size_in_bytes 12)).

Definition byte_to_lba_cnt (size_in_bytes : Z) : Z :=
  u32 (CEILING size_in_bytes SECTOR_SIZE).

Definition baddr_to_lba (baddr : Z) : Z :=
  u32 (u64 (baddr * (OXBOW_BLOCK_SIZE / SECTOR_SIZE))).

(** ** Memory, disk and requests

    A block is its list of bytes.  Disk and memory are total functions from
    block (page) numbers to blocks; buffers are block aligned, so a buffer
    address is counted in blocks. *)

Definition block : Type := list Z.
Definition disk : Type := Z -> block.
Definition mem : Type := Z -> block.

(** A request: a contiguous range of device blocks and the buffer that holds
    their content.  Every request the journal builds has one [bio_vec]. *)
Record bio := mk_bio { bi_blk_no : Z; bv_buf : Z; bv_nblks : Z }.

Definition bio_list : Type := list bio.

Definition bio_list_add (bl : bio_list) (b : bio) : bio_list := bl ++ [b].

(** [alloc_bio_n_bvecs(blk_no, 1)] followed by [set_bvec(bio, 0, buf, n_blks)]. *)
Definition set_bvec (blk_no buf n_blks : Z) : bio := mk_bio blk_no buf (u32 n_blks).

(** The loop of [add_bio_to_bl]: requests of at most [BIO_MAX_BIO_SIZE]. *)
Fixpoint add_bio_loop (fuel : nat) (bl : bio_list) (buf_p cur_start size_copied size_total : Z)
  : res bio_list :=
  match fuel with
  | O => Ok bl
  | S f =>
      if size_copied <? size_total then
        let size_to_copy := Z.min (size_total - size_copied) BIO_MAX_BIO_SIZE in
        let* n_blks_to_copy := bytes_to_nblks size_to_copy in
        add_bio_loop f (bio_list_add bl (set_bvec cur_start buf_p n_blks_to_copy))
          (buf_p + n_blks_to_copy) (u64 (cur_start + n_blks_to_copy))
          (size_copied + BIO_MAX_BIO_SIZE) size_total
      else Ok bl
  end.

(** Enough iterations for a loop that advances by [BIO_MAX_BIO_SIZE]. *)
Definition add_bio_fuel (size_total : Z) : nat :=
  Z.to_nat (CEILING size_total BIO_MAX_BIO_SIZE).

Definition add_bio_to_bl (bl : bio_list) (buf start n_blks : Z) : res bio_list :=
  let size_total := nblks_to_bytes n_blks in
  add_bio_loop (add_bio_fuel size_total) bl buf start 0 size_total.

(** ** Meaning of a request list

    [write_blks d m dst buf n] is the disk after the [n] blocks at [dst] took
    the content of the buffer; [read_blks] is the converse transfer. *)

Definition write_blks (d : disk) (m : mem) (dst buf n : Z) : disk :=
  fun b => if (dst <=? b) && (b <? dst + n) then m (buf + (b - dst)) else d b.

Definition read_blks (m : mem) (d : disk) (src buf n : Z) : mem :=
  fun p => if (buf <=? p) && (p <? buf + n) then d (src + (p - buf)) else m p.

Definition bl_write (m : mem) (bl : bio_list) (d : disk) : disk :=
  foldl (fun d b => write_blks d m (bi_blk_no b) (bv_buf b) (bv_nblks b)) d bl.

Definition bl_read (d : disk) (bl : bio_list) (m : mem) : mem :=
  foldl (fun m b => read_blks m d (bi_blk_no b) (bv_buf b) (bv_nblks b)) m bl.

#[global] Arguments bl_write : simpl never.
#[global] Arguments bl_read : simpl never.

(** ** The NVMe-oF dispatch loop

    Commands as submitted to SPDK: direction, first LBA, first sector of the
    payload and number of sectors.  [max_io_size] is the namespace's maximum
    transfer size in bytes.  Without a buffer of the caller the payload of a
    request is a DMA buffer, to which the data of a write are copied before its
    first command is submitted, and from which the data of a read are copied
    when its last command is complete: the payload is named by the place in the
    buffer of the request it is a copy of.  A submission SPDK refuses with
    [EINVAL] or [ENOMEM] is retried until it is accepted, so a command of the
    list is one accepted command; the wait for a free place in the queue pair
    and the completions it processes change no command. *)

Record nvme_cmd := mk_cmd { c_read : bool; c_lba : Z; c_payload : Z; c_nlba : Z }.

(** The inner [while (left_bytes > 0)] loop. *)
Fixpoint dispatch_bio (fuel : nat) (is_read : bool) (max_io_size baddr payload left_bytes : Z)
  : list nvme_cmd :=
  match fuel with
  | O => []
  | S f =>
      if 0 <? left_bytes then
        let single_io_size := if max_io_size <? left_bytes then max_io_size else left_bytes in
        mk_cmd is_read (baddr_to_lba baddr) payload (byte_to_lba_cnt single_io_size)
          :: dispatch_bio f is_read max_io_size
               (u64 (baddr + Z.shiftr single_io_size 12))
               (payload + single_io_size / SECTOR_SIZE)
               (left_bytes - single_io_size)
      else []
  end.

(** The loop over the bios; [custom_buf] allows a single bio, and no command
    that reads.  Returns the commands and [total_req_cnt]. *)
Fixpoint dispatch_bios (max_io_size : Z) (is_read custom_buf : bool) (i : Z) (bl : bio_list)
  : res (list nvme_cmd) :=
  match bl with
  | [] => Ok []
  | b :: bl' =>
      assert! (negb custom_buf || (i =? 0)) in
      let bv_len := nblks_to_bytes (bv_nblks b) in
      assert! (negb (is_read && custom_buf && (0 <? bv_len))) in
      let cmds := dispatch_bio (Z.to_nat (CEILING bv_len max_io_size)) is_read max_io_size
                    (bi_blk_no b) (bv_buf b * (OXBOW_BLOCK_SIZE / SECTOR_SIZE)) bv_len in
      let* rest := dispatch_bios max_io_size is_read custom_buf (i + 1) bl' in
      Ok (cmds ++ rest)
  end.

Definition nvmf_dispatch_io_fast (max_io_size : Z) (bl : bio_list) (is_read custom_buf : bool)
  : res (list nvme_cmd * Z) :=
  let* cmds := dispatch_bios max_io_size is_read custom_buf 0 bl in
  Ok (cmds, u32 (Z.of_nat (length cmds))).

(** The device at sector granularity, and the effect of an accepted write. *)
Definition sector : Type := list Z.

Definition exec_cmd (m : Z -> sector) (dev : Z -> sector) (c : nvme_cmd) : Z -> sector :=
  fun s => if negb (c_read c) && ((c_lba c <=? s) && (s <? c_lba c + c_nlba c))
           then m (c_payload c + (s - c_lba c)) else dev s.

Definition exec_cmds (m : Z -> sector) (cmds : list nvme_cmd) (dev : Z -> sector)
  : Z -> sector := foldl (exec_cmd m) dev cmds.

(** The 8 sectors of every page / block. *)
Definition sectors_of (m : Z -> block) : Z -> sector :=
  fun s => take 512 (drop (Z.to_nat (512 * (s mod 8))) (m (s / 8))).

(** ** Facts on units *)

Lemma nblks_to_bytes_eq n : 0 <= n < U32_MOD -> nblks_to_bytes n = 4096 * n.
Proof. intros. unfold nblks_to_bytes. rewrite Z.shiftl_mul_pow2 by lia. unwrap. lia. Qed.

Lemma bytes_to_nblks_eq n :
  0 <= n < U32_MOD -> bytes_to_nblks (4096 * n) = Ok n.
Proof.
  intros. unfold bytes_to_nblks, OXBOW_BLOCK_SIZE.
  rewrite Z.mul_comm, Z_mod_mult, Z.shiftr_div_pow2 by lia. cbn [Z.eqb assert_].
  change (2 ^ 12) with 4096. rewrite Z_div_mult by lia. by rewrite u32_id.
Qed.

Lemma bytes_to_nblks_inv sz n :
  0 <= sz < 4096 * U32_MOD -> bytes_to_nblks sz = Ok n -> sz = 4096 * n /\ 0 <= n < U32_MOD.
Proof.
  unfold bytes_to_nblks, OXBOW_BLOCK_SIZE. intros Hsz H. inv_res. bool_prop.
  rewrite Z.shiftr_div_pow2 by lia. change (2 ^ 12) with 4096. wrap_lia.
Qed.

(** Conversion to LBAs is exact on every supported device. *)
Lemma baddr_to_lba_eq b :
  0 <= b -> b * OXBOW_BLOCK_SIZE < OXBOW_MAX_DEV_SIZE -> baddr_to_lba b = 8 * b.
Proof.
  unfold baddr_to_lba, OXBOW_BLOCK_SIZE, OXBOW_MAX_DEV_SIZE, SECTOR_SIZE. intros.
  change (4096 / 512) with 8. unwrap. lia.
Qed.

(** ** Pointwise equality of disks *)

Notation "d1 ≡d d2" := (forall b : Z, d1 b = d2 b) (at level 70).

Lemma write_blks_in d m dst buf n b :
  dst <= b < dst + n -> write_blks d m dst buf n b = m (buf + (b - dst)).
Proof. intros. unfold write_blks. by rewrite (proj2 (Z.leb_le _ _)), (proj2 (Z.ltb_lt _ _)) by lia. Qed.

Lemma write_blks_out d m dst buf n b :
  ~ (dst <= b < dst + n) -> write_blks d m dst buf n b = d b.
Proof.
  intros. unfold write_blks. destruct (Z.leb_spec dst b), (Z.ltb_spec b (dst + n)); done || lia.
Qed.

Lemma read_blks_in m d src buf n p :
  buf <= p < buf + n -> read_blks m d src buf n p = d (src + (p - buf)).
Proof. intros. unfold read_blks. by rewrite (proj2 (Z.leb_le _ _)), (proj2 (Z.ltb_lt _ _)) by lia. Qed.

Lemma read_blks_out m d src buf n p :
  ~ (buf <= p < buf + n) -> read_blks m d src buf n p = m p.
Proof.
  intros. unfold read_blks. destruct (Z.leb_spec buf p), (Z.ltb_spec p (buf + n)); done || lia.
Qed.

(** Point update of a disk, memory or table. *)
Definition upd {A} (f : Z -> A) (k : Z) (v : A) : Z -> A := fun i => if i =? k then v else f i.

Lemma upd_eq {A} (f : Z -> A) k v : upd f k v k = v.
Proof. unfold upd. by rewrite Z.eqb_refl. Qed.

Lemma upd_ne {A} (f : Z -> A) k k' v : k' <> k -> upd f k v k' = f k'.
Proof. intros. unfold upd. by case_cmp. Qed.

(** Two adjacent transfers are one. *)
Lemma write_blks_app d m dst buf n1 n2 :
  0 <= n1 -> 0 <= n2 ->
  write_blks (write_blks d m dst buf n1) m (dst + n1) (buf + n1) n2 ≡d
  write_blks d m dst buf (n1 + n2).
Proof.
  intros ? ? b. destruct (decide (dst + n1 <= b < dst + n1 + n2)).
  - rewrite !write_blks_in by lia. f_equal; lia.
  - rewrite write_blks_out by lia. destruct (decide (dst <= b < dst + n1)).
    + by rewrite !write_blks_in by lia.
    + by rewrite !write_blks_out by lia.
Qed.

Lemma read_blks_app m d src buf n1 n2 :
  0 <= n1 -> 0 <= n2 ->
  read_blks (read_blks m d src buf n1) d (src + n1) (buf + n1) n2 ≡d
  read_blks m d src buf (n1 + n2).
Proof.
  intros ? ? p. destruct (decide (buf + n1 <= p < buf + n1 + n2)).
  - rewrite !read_blks_in by lia. f_equal; lia.
  - rewrite read_blks_out by lia. destruct (decide (buf <= p < buf + n1)).
    + by rewrite !read_blks_in by lia.
    + by rewrite !read_blks_out by lia.
Qed.

Lemma write_blks_ext d1 d2 m dst buf n :
  d1 ≡d d2 -> write_blks d1 m dst buf n ≡d write_blks d2 m dst buf n.
Proof. intros E b. unfold write_blks. by rewrite E. Qed.

Lemma read_blks_ext m1 m2 d src buf n :
  m1 ≡d m2 -> read_blks m1 d src buf n ≡d read_blks m2 d src buf n.
Proof. intros E b. unfold read_blks. by rewrite E. Qed.

Lemma bl_write_cons m x bl d :
  bl_write m (x :: bl) d = bl_write m bl (write_blks d m (bi_blk_no x) (bv_buf x) (bv_nblks x)).
Proof. done. Qed.

Lemma bl_read_cons d x bl m :
  bl_read d (x :: bl) m = bl_read d bl (read_blks m d (bi_blk_no x) (bv_buf x) (bv_nblks x)).
Proof. done. Qed.

Lemma bl_write_app m bl1 bl2 d : bl_write m (bl1 ++ bl2) d = bl_write m bl2 (bl_write m bl1 d).
Proof. apply foldl_app. Qed.

Lemma bl_read_app d bl1 bl2 m : bl_read d (bl1 ++ bl2) m = bl_read d bl2 (bl_read d bl1 m).
Proof. apply foldl_app. Qed.

Lemma bl_write_ext m bl d1 d2 : d1 ≡d d2 -> bl_write m bl d1 ≡d bl_write m bl d2.
Proof.
  revert d1 d2. induction bl as [|x bl IH]; intros d1 d2 E; [done|].
  apply IH, write_blks_ext, E.
Qed.

(** Only the buffers of the list matter. *)
Lemma bl_write_mem_ext m1 m2 bl d nb :
  (forall p, p < nb -> m1 p = m2 p) -> Forall (fun x => bv_buf x + bv_nblks x <= nb) bl ->
  bl_write m1 bl d ≡d bl_write m2 bl d.
Proof.
  intros Em H. revert d. induction H as [|x bl Hx _ IH]; intros d b; [done|].
  rewrite !bl_write_cons, IH. apply bl_write_ext. clear b. intros b. unfold write_blks.
  destruct (Z.leb_spec (bi_blk_no x) b), (Z.ltb_spec b (bi_blk_no x + bv_nblks x)); cbn; try done.
  apply Em. lia.
Qed.

(** ** [add_bio_to_bl] builds requests for exactly the given range

    [transfers bs start buf n]: executing [bs] moves the [n] blocks between
    device address [start] and buffer [buf], in either direction, in requests
    of at most 32 MB. *)
Record transfers (bs : bio_list) (start buf n : Z) : Prop := {
  tr_write : forall m d, bl_write m bs d ≡d write_blks d m start buf n;
  tr_read : forall d m, bl_read d bs m ≡d read_blks m d start buf n;
  tr_len : Z.of_nat (length bs) = CEILING n 8192;
  tr_size : Forall (fun b => 0 < bv_nblks b <= 8192 /\ start <= bi_blk_no b /\
                             bi_blk_no b + bv_nblks b <= start + n /\
                             buf <= bv_buf b /\ bv_buf b + bv_nblks b <= buf + n) bs
}.

Lemma transfers_nil start buf : transfers [] start buf 0.
Proof.
  split; [| | done | constructor]; intros; cbn.
  - by rewrite write_blks_out by lia.
  - by rewrite read_blks_out by lia.
Qed.

Lemma transfers_cons bs start buf k n :
  0 < k <= 8192 -> 0 <= n -> (k = 8192 \/ n = 0) ->
  transfers bs (start + k) (buf + k) n ->
  transfers (mk_bio start buf k :: bs) start buf (k + n).
Proof.
  intros Hk Hn Hkn [Hw Hr Hl Hs]. split.
  - intros m d b. rewrite bl_write_cons, Hw. apply write_blks_app; lia.
  - intros d m p. rewrite bl_read_cons, Hr. apply read_blks_app; lia.
  - cbn [length]. rewrite Nat2Z.inj_succ, Hl. unfold CEILING.
    destruct Hkn as [->| ->]; wrap_lia.
  - constructor; [cbn; lia |]. eapply Forall_impl; [exact Hs|]. cbn. lia.
Qed.

Lemma add_bio_loop_ok fuel bl buf start copied total r :
  0 <= r < U32_MOD -> 0 <= start -> start + r < U64_MOD ->
  total - copied <= 4096 * r -> (0 < r -> total - copied = 4096 * r) ->
  r <= 8192 * Z.of_nat fuel ->
  exists bs, add_bio_loop fuel bl buf start copied total = Ok (bl ++ bs) /\
             transfers bs start buf r.
Proof.
  revert bl buf start copied r.
  induction fuel as [|f IH]; intros bl buf start copied r Hr Hst Hend Hle Heq Hfuel; cbn [add_bio_loop].
  { exists []. rewrite app_nil_r. split; [done|]. replace r with 0 by lia. apply transfers_nil. }
  case_cmp; cycle 1.
  { exists []. rewrite app_nil_r. split; [done|]. replace r with 0 by lia. apply transfers_nil. }
  assert (0 < r) as Hpos by lia. specialize (Heq Hpos).
  set (k := Z.min r 8192).
  replace (Z.min (total - copied) BIO_MAX_BIO_SIZE) with (4096 * k)
    by (unfold k, BIO_MAX_BIO_SIZE, DATA_FETCHER_BUF_SIZE; lia).
  rewrite bytes_to_nblks_eq by lia. cbn [res_bind].
  rewrite (u64_id (start + k)) by lia.
  destruct (IH (bio_list_add bl (set_bvec start buf k)) (buf + k) (start + k)
              (copied + BIO_MAX_BIO_SIZE) (r - k)) as (bs & E & T);
    try (unfold BIO_MAX_BIO_SIZE, DATA_FETCHER_BUF_SIZE; lia).
  exists (mk_bio start buf k :: bs). split.
  - rewrite E. unfold bio_list_add, set_bvec. rewrite u32_id by lia.
    by rewrite <- (assoc_L app).
  - replace r with (k + (r - k)) by lia. apply transfers_cons; [lia..|done].
Qed.

Lemma add_bio_to_bl_ok bl buf start n :
  0 <= n < U32_MOD -> 0 <= start -> start + n < U64_MOD ->
  exists bs, add_bio_to_bl bl buf start n = Ok (bl ++ bs) /\ transfers bs start buf n.
Proof.
  intros Hn Hst Hend. unfold add_bio_to_bl, add_bio_fuel. rewrite nblks_to_bytes_eq by done.
  apply add_bio_loop_ok; try lia.
  unfold CEILING, BIO_MAX_BIO_SIZE, DATA_FETCHER_BUF_SIZE. wrap_lia.
Qed.

(** ** Requests with disjoint ranges commute

    The device may complete the requests of a list in any order; for
    pairwise disjoint ranges the order does not matter. *)

Definition covers (x : bio) (b : Z) : Prop := bi_blk_no x <= b < bi_blk_no x + bv_nblks x.
Definition bio_disjoint (x y : bio) : Prop := forall b, covers x b -> covers y b -> False.

Lemma bl_write_none m bl d b :
  Forall (fun x => ~ covers x b) bl -> bl_write m bl d b = d b.
Proof.
  intros H. revert d. induction H as [|x bl Hx _ IH]; intros d; [done|].
  rewrite bl_write_cons, IH. by apply write_blks_out.
Qed.

Lemma bl_write_elem m bl d b x :
  pairwise bio_disjoint bl -> x ∈ bl -> covers x b ->
  bl_write m bl d b = m (bv_buf x + (b - bi_blk_no x)).
Proof.
  intros H. revert d. induction H as [|y bl Hy Hl IH]; intros d Hx Hb.
  { by apply not_elem_of_nil in Hx. }
  rewrite bl_write_cons. apply elem_of_cons in Hx as [<-|Hx]; [|auto].
  rewrite bl_write_none; [by apply write_blks_in|].
  eapply Forall_impl; [exact Hy|]. intros z Hz Hc. exact (Hz b Hb Hc).
Qed.

#[global] Instance covers_dec x b : Decision (covers x b).
Proof. unfold covers. apply _. Defined.

Lemma bl_write_perm m bl bl' d :
  bl ≡ₚ bl' -> pairwise bio_disjoint bl -> bl_write m bl d ≡d bl_write m bl' d.
Proof.
  intros Hp Hd b.
  assert (pairwise bio_disjoint bl') as Hd'.
  { eapply pairwise_perm; [|exact Hp|exact Hd]. intros x y H c Hy Hx. exact (H c Hx Hy). }
  destruct (decide (Exists (fun x => covers x b) bl)) as [He|Hn].
  - apply Exists_exists in He as (x & Hx & Hc).
    rewrite !(bl_write_elem m) with (x := x); [done|..]; try done. by rewrite <- Hp.
  - apply not_Exists_Forall in Hn; [|intros x; apply covers_dec].
    rewrite !bl_write_none; [done| |done]. by rewrite <- Hp.
Qed.

(** ** The dispatch loop submits exactly the requested blocks *)

Definition on_device (b : bio) : Prop :=
  0 <= bi_blk_no b /\ 0 < bv_nblks b < U32_MOD /\
  (bi_blk_no b + bv_nblks b) * OXBOW_BLOCK_SIZE <= OXBOW_MAX_DEV_SIZE.

Lemma dispatch_bio_ok m fuel mx b pay n dev :
  0 < mx < 1048576 -> 0 <= b -> 0 <= n -> (b + n) * 4096 <= OXBOW_MAX_DEV_SIZE ->
  n <= mx * Z.of_nat fuel ->
  (forall s, exec_cmds m (dispatch_bio fuel false (4096 * mx) b pay (4096 * n)) dev s =
     if (8 * b <=? s) && (s <? 8 * (b + n)) then m (pay + (s - 8 * b)) else dev s) /\
  Z.of_nat (length (dispatch_bio fuel false (4096 * mx) b pay (4096 * n))) = CEILING n mx.
Proof.
  intros Hmx. revert b pay n dev. induction fuel as [|f IH]; intros b pay n dev Hb Hn Hdev Hf;
    cbn [dispatch_bio].
  { assert (n = 0) as -> by lia. cbn. split.
    - intros s. repeat case_cmp; cbn; done || lia.
    - unfold CEILING. rewrite Z.div_small; lia. }
  case_cmp; cycle 1.
  { assert (n = 0) as -> by lia. cbn. split.
    - intros s. repeat case_cmp; cbn; done || lia.
    - unfold CEILING. rewrite Z.div_small; lia. }
  set (k := Z.min mx n).
  replace (if 4096 * mx <? 4096 * n then 4096 * mx else 4096 * n) with (4096 * k)
    by (case_cmp; lia).
  unfold OXBOW_MAX_DEV_SIZE in Hdev.
  rewrite Z.shiftr_div_pow2 by lia. change (2 ^ 12) with 4096.
  replace (4096 * k / 4096) with k by (rewrite Z.mul_comm, Z_div_mult; lia).
  rewrite (u64_id (b + k)) by lia.
  replace (4096 * k / SECTOR_SIZE) with (8 * k)
    by (unfold SECTOR_SIZE; replace (4096 * k) with (8 * k * 512) by lia; rewrite Z_div_mult; lia).
  replace (4096 * n - 4096 * k) with (4096 * (n - k)) by lia.
  rewrite baddr_to_lba_eq by (unfold OXBOW_BLOCK_SIZE, OXBOW_MAX_DEV_SIZE; lia).
  assert (byte_to_lba_cnt (4096 * k) = 8 * k) as Elba.
  { unfold byte_to_lba_cnt, CEILING, SECTOR_SIZE. replace ((4096 * k + 512 - 1) / 512) with (8 * k)
      by (Z.div_mod_to_equations; lia). rewrite u32_id; lia. }
  rewrite Elba.
  destruct (IH (b + k) (pay + 8 * k) (n - k)
              (exec_cmd m dev (mk_cmd false (8 * b) pay (8 * k)))) as [IHe IHl];
    [lia | lia | unfold OXBOW_MAX_DEV_SIZE; lia | nia |].
  split.
  - intros s. unfold exec_cmds in *. cbn [foldl]. rewrite IHe. unfold exec_cmd; cbn [c_lba c_payload c_nlba].
    repeat case_cmp; cbn [andb]; try lia; try done. all: f_equal; lia.
  - cbn [length]. rewrite Nat2Z.inj_succ, IHl. unfold CEILING.
    destruct (Z.min_spec mx n) as [[? E]|[? E]]; subst k; rewrite E.
    + replace (n + mx - 1) with ((n - mx + mx - 1) + 1 * mx) by lia. rewrite Z_div_plus; lia.
    + rewrite (Z.div_small (n - n + mx - 1)) by lia.
      replace (n + mx - 1) with ((n - 1) + 1 * mx) by lia. rewrite Z_div_plus, Z.div_small; lia.
Qed.

Lemma exec_cmds_app m c1 c2 dev : exec_cmds m (c1 ++ c2) dev = exec_cmds m c2 (exec_cmds m c1 dev).
Proof. apply foldl_app. Qed.

Lemma exec_cmds_ext m cmds d1 d2 s :
  (forall s, d1 s = d2 s) -> exec_cmds m cmds d1 s = exec_cmds m cmds d2 s.
Proof.
  revert d1 d2. induction cmds as [|c cmds IH]; intros d1 d2 E; [apply E|].
  apply IH. intros s'. unfold exec_cmd. by rewrite E.
Qed.

(** Sector view of one block transfer. *)
Lemma sectors_of_write_blks m d dst buf n s :
  sectors_of (write_blks d m dst buf n) s =
  if (8 * dst <=? s) && (s <? 8 * (dst + n))
  then sectors_of m (buf * 8 + (s - 8 * dst)) else sectors_of d s.
Proof.
  unfold sectors_of.
  assert ((8 * dst <=? s) && (s <? 8 * (dst + n)) = (dst <=? s / 8) && (s / 8 <? dst + n)) as ->.
  { f_equal; repeat case_cmp; done || (Z.div_mod_to_equations; lia). }
  unfold write_blks. destruct ((dst <=? s / 8) && (s / 8 <? dst + n)); [|done].
  replace ((buf * 8 + (s - 8 * dst)) / 8) with (buf + (s / 8 - dst)) by (Z.div_mod_to_equations; lia).
  by replace ((buf * 8 + (s - 8 * dst)) mod 8) with (s mod 8) by (Z.div_mod_to_equations; lia).
Qed.

Lemma dispatch_bios_ok mx i bl m d :
  0 < mx < 1048576 -> Forall on_device bl ->
  exists cmds, dispatch_bios (4096 * mx) false false i bl = Ok cmds /\
    Z.of_nat (length cmds) = sumz (fun b => CEILING (bv_nblks b) mx) bl /\
    forall s, exec_cmds (sectors_of m) cmds (sectors_of d) s = sectors_of (bl_write m bl d) s.
Proof.
  intros Hmx Hbl. revert i d. induction Hbl as [|b bl (Hb0 & Hbn & Hbd) Hbl IH]; intros i d.
  { by exists []. }
  unfold OXBOW_BLOCK_SIZE in Hbd.
  destruct (IH (i + 1) (write_blks d m (bi_blk_no b) (bv_buf b) (bv_nblks b))) as (rest & Er & El & Ex).
  cbn [dispatch_bios negb orb assert_]. rewrite Er. cbn [res_bind].
  rewrite nblks_to_bytes_eq by lia. change (OXBOW_BLOCK_SIZE / SECTOR_SIZE) with 8.
  replace (CEILING (4096 * bv_nblks b) (4096 * mx)) with (CEILING (4096 * bv_nblks b) (mx * 4096))
    by (f_equal; lia).
  destruct (dispatch_bio_ok (sectors_of m) (Z.to_nat (CEILING (4096 * bv_nblks b) (mx * 4096)))
              mx (bi_blk_no b) (bv_buf b * 8) (bv_nblks b) (sectors_of d)) as [He Hl]; try lia.
  { unfold CEILING.
    assert (bv_nblks b <= mx * ((4096 * bv_nblks b + mx * 4096 - 1) / (mx * 4096))).
    { pose proof (Z.div_mod (4096 * bv_nblks b + mx * 4096 - 1) (mx * 4096) ltac:(nia)).
      pose proof (Z.mod_pos_bound (4096 * bv_nblks b + mx * 4096 - 1) (mx * 4096) ltac:(nia)).
      nia. }
    pose proof (Z.div_pos (4096 * bv_nblks b + mx * 4096 - 1) (mx * 4096)). lia. }
  eexists. split; [done|]. split.
  - rewrite length_app, Nat2Z.inj_add, Hl, El. by rewrite sumz_cons.
  - intros s. rewrite exec_cmds_app, bl_write_cons, <- Ex. apply exec_cmds_ext.
    intros s'. by rewrite He, sectors_of_write_blks.
Qed.

(** C10: for every list of requests that fit the largest supported device
    (2 TB), to be written, the dispatch loop of the NVMe-oF engine submits one command per
    started [max_io_size] of each request, and executing the commands leaves
    the device, sector by sector, in the state that writing each request's
    buffer to its block range describes. *)
Theorem nvmf_dispatch_io_fast_correct mx bl m d :
  0 < mx < 1048576 -> Forall on_device bl ->
  exists cmds,
    nvmf_dispatch_io_fast (OXBOW_BLOCK_SIZE * mx) bl false false =
      Ok (cmds, u32 (sumz (fun b => CEILING (bv_nblks b) mx) bl)) /\
    forall s, exec_cmds (sectors_of m) cmds (sectors_of d) s = sectors_of (bl_write m bl d) s.
Proof.
  intros Hmx Hbl. destruct (dispatch_bios_ok mx 0 bl m d Hmx Hbl) as (cmds & E & L & X).
  exists cmds. split; [|done]. unfold nvmf_dispatch_io_fast, OXBOW_BLOCK_SIZE.
  rewrite E. cbn [res_bind]. by rewrite L.
Qed.

Lemma nvmf_dispatch_io_fast_correct_witness :
  exists cmds, nvmf_dispatch_io_fast (OXBOW_BLOCK_SIZE * 32) [mk_bio 100 0 70; mk_bio 7 70 1] false false =
    Ok (cmds, u32 (sumz (fun b => CEILING (bv_nblks b) 32) [mk_bio 100 0 70; mk_bio 7 70 1])).
Proof.
  destruct (nvmf_dispatch_io_fast_correct 32 [mk_bio 100 0 70; mk_bio 7 70 1]
              (fun _ => []) (fun _ => [])) as (cmds & E & _).
  - lia.
  - repeat constructor; vm_compute; congruence.
  - exists cmds. exact E.
Defined.

(** The number of commands of a list, as the dispatch loop counts them. *)
Lemma dispatch_custom_count mx b :
  0 < mx < 1048576 -> on_device b -> bv_nblks b <= 8192 ->
  exists cmds, nvmf_dispatch_io_fast (4096 * mx) [b] false true = Ok (cmds, CEILING (bv_nblks b) mx) /\
    1 <= CEILING (bv_nblks b) mx <= 8192.
Proof.
  intros Hmx Hb Hn.
  destruct (dispatch_bios_ok mx 0 [b] (fun _ => []) (fun _ => []) Hmx) as (cmds & E & L & _);
    [by constructor|].
  destruct Hb as (? & ? & ?). exists cmds. autorewrite with oxbow in L.
  assert (1 <= CEILING (bv_nblks b) mx <= 8192).
  { unfold CEILING. split.
    - apply Z.div_le_lower_bound; lia.
    - apply Z.div_le_upper_bound; nia. }
  split; [|done]. unfold nvmf_dispatch_io_fast.
  change (dispatch_bios (4096 * mx) false true 0 [b]) with (dispatch_bios (4096 * mx) false false 0 [b]).
  rewrite E. cbn [res_bind]. rewrite L, u32_id by lia. do 2 f_equal. lia.
Qed.

(** With a caller-supplied DMA buffer at most one request is accepted. *)
Lemma dispatch_custom_buf_ok mx bl :
  (exists r, nvmf_dispatch_io_fast mx bl false true = Ok r) <-> (length bl <= 1)%nat.
Proof.
  unfold nvmf_dispatch_io_fast. destruct bl as [|b [|b' bl]]; cbn.
  - split; [lia | eauto].
  - split; [lia | eauto].
  - split; [intros [r H]; discriminate H | lia].
Qed.
