(* ===== verification/Sjd.v ===== *)
(** * On-disk formats

    The packed structures of [devfs/include/common/sjd.h] as byte layouts:
    little-endian fields at fixed offsets of a 4096-byte block, extent tags
    of 12 bytes, and the accessors both sides use.  The laws say that a field
    written is the field read back and that writing one field leaves the
    others alone. *)

From S2P Require Import Prelude Bio.

(** ** Little-endian fields *)

Fixpoint le (n : nat) (x : Z) : list Z :=
  match n with
  | O => []
  | S k => x mod 256 :: le k (x / 256)
  end.

Fixpoint un_le (bs : list Z) : Z :=
  match bs with
  | [] => 0
  | b :: bs' => b + 256 * un_le bs'
  end.

(** Read [n] bytes at offset [off] as an unsigned integer; overwrite bytes. *)
Definition rd (n : nat) (blk : block) (off : Z) : Z := un_le (take n (drop (Z.to_nat off) blk)).

Definition splice (blk : block) (off : Z) (bs : list Z) : block :=
  take (Z.to_nat off) blk ++ bs ++ drop (Z.to_nat off + length bs) blk.

Definition wr (n : nat) (blk : block) (off x : Z) : block := splice blk off (le n x).

Definition zero_block : block := replicate 4096 0.

(** ** Block types, headers and tags *)

Definition SUPER_BLK : Z := 1.
Definition DESC_BLK : Z := 2.
Definition COMMIT_BLK : Z := 3.
Definition ETAG_BLK : Z := 4.
Definition STAGE_TRACE_BLK : Z := 5.
Definition STAGE_DESC_BLK : Z := 6.

Record etag_t := mk_etag { et_start : Z; et_cnt : Z }.

Definition etag_size : Z := 12.
Definition rd_etag (blk : block) (off : Z) : etag_t := mk_etag (rd 8 blk off) (rd 4 blk (off + 8)).
Definition enc_etag (t : etag_t) : list Z := le 8 (et_start t) ++ le 4 (et_cnt t).

(** An array of [n] tags at offset [off]. *)
Definition rd_etags (blk : block) (off n : Z) : list etag_t :=
  (fun i => rd_etag blk (off + etag_size * i)) <$> seqz 0 n.

(** [struct journal_descriptor_block] *)
Definition desc_hdr_size : Z := 24.
Definition JOURNAL_DESC_TAG_MAX : Z := (4096 - desc_hdr_size) / etag_size.
Definition jd_blocktype (b : block) : Z := rd 4 b 0.
Definition jd_transaction_id (b : block) : Z := rd 4 b 4.
Definition jd_nr_etag_blks (b : block) : Z := rd 4 b 8.
Definition jd_nr_stage_trace_blks (b : block) : Z := rd 4 b 12.
Definition jd_nr_tags (b : block) : Z := rd 4 b 16.
Definition jd_meta_start_baddr (b : block) : Z := rd 4 b 20.
Definition jd_tags (b : block) : list etag_t := rd_etags b desc_hdr_size (jd_nr_tags b).
Definition jd_set_meta_start_baddr (b : block) (x : Z) : block := wr 4 b 20 x.

(** [struct journal_meta_header], extent tag and stage trace blocks *)
Definition meta_hdr_size : Z := 8.
Definition JOURNAL_ETAG_MAX : Z := (4096 - meta_hdr_size) / etag_size.
Definition JOURNAL_TRACE_MAX : Z := (4096 - meta_hdr_size) / 8.
Definition mh_blocktype (b : block) : Z := rd 4 b 0.
Definition mh_nr (b : block) : Z := rd 4 b 4.
Definition je_tags (b : block) : list etag_t := rd_etags b meta_hdr_size (mh_nr b).
Definition st_tx_list (b : block) : list Z :=
  (fun i => rd 8 b (meta_hdr_size + 8 * i)) <$> seqz 0 (mh_nr b).

(** [struct stage_descriptor_block] *)
Definition INODE_MAX_SIZE : Z := 256.
Definition stage_hdr_size : Z := 300.
Definition STAGE_DESC_BLK_TAG_MAX : Z := (4096 - stage_hdr_size) / etag_size.
Definition sd_inode (b : block) : list Z := take 256 b.
Definition sd_blocktype (b : block) : Z := rd 4 b 256.
Definition sd_ino (b : block) : Z := rd 8 b 260.
Definition sd_mrc_tx_id (b : block) : Z := rd 4 b 268.
Definition sd_nr_etag_blks (b : block) : Z := rd 4 b 272.
Definition sd_nr_tags (b : block) : Z := rd 4 b 276.
Definition sd_next_etag_blk (b : block) : Z := rd 4 b 280.
Definition sd_inode_baddr (b : block) : Z := rd 8 b 284.
Definition sd_inode_index (b : block) : Z := rd 4 b 292.
Definition sd_inode_size (b : block) : Z := rd 4 b 296.
Definition sd_tags (b : block) : list etag_t := rd_etags b stage_hdr_size (sd_nr_tags b).

Definition is_jnr_desc_blk (b : block) : bool := jd_blocktype b =? DESC_BLK.
Definition is_stage_trace_blk (b : block) : bool := mh_blocktype b =? STAGE_TRACE_BLK.
Definition is_etag_blk (b : block) : bool := mh_blocktype b =? ETAG_BLK.

(** [struct journal_superblock], in memory and as its block *)
Record journal_superblock := mk_jsb {
  h_magic : Z; h_blocktype : Z; h_txid : Z;
  jsb_block_size : Z; jsb_first : Z; jsb_maxlen : Z;
  jsb_tx_id : Z; jsb_start : Z;
  jsb_err_no : Z; jsb_max_transaction : Z; jsb_max_trans_data : Z
}.

Definition enc_jsb (s : journal_superblock) : block :=
  let b := wr 4 (wr 4 (wr 4 zero_block 0 (h_magic s)) 4 (h_blocktype s)) 8 (h_txid s) in
  let b := wr 8 (wr 8 (wr 4 b 12 (jsb_block_size s)) 16 (jsb_first s)) 24 (jsb_maxlen s) in
  let b := wr 8 (wr 4 b 32 (jsb_tx_id s)) 40 (jsb_start s) in
  wr 4 (wr 4 (wr 4 b 48 (jsb_err_no s)) 52 (jsb_max_transaction s)) 56 (jsb_max_trans_data s).

Definition dec_jsb (b : block) : journal_superblock :=
  mk_jsb (rd 4 b 0) (rd 4 b 4) (rd 4 b 8) (rd 4 b 12) (rd 8 b 16) (rd 8 b 24)
    (rd 4 b 32) (rd 8 b 40) (rd 4 b 48) (rd 4 b 52) (rd 4 b 56).

(** [struct commit_header] *)
Definition enc_commit (magic txid sec nsec : Z) : block :=
  let b := wr 4 (wr 4 (wr 4 zero_block 0 magic) 4 COMMIT_BLK) 8 txid in
  wr 4 (wr 8 b 16 sec) 24 nsec.

(** ** Laws of the codec *)

Lemma length_le n x : length (le n x) = n.
Proof. revert x. induction n; intros; cbn; auto. Qed.

Lemma un_le_le n x : un_le (le n x) = x mod 256 ^ Z.of_nat n.
Proof.
  revert x. induction n as [|n IH]; intros x; cbn [le un_le].
  - by rewrite Z.mod_1_r.
  - rewrite IH, Nat2Z.inj_succ, Z.pow_succ_r by lia.
    rewrite Z.rem_mul_r by (try apply Z.pow_nonzero; lia). done.
Qed.

Lemma un_le_bound bs :
  Forall (fun b => 0 <= b < 256) bs -> 0 <= un_le bs < 256 ^ Z.of_nat (length bs).
Proof.
  induction 1 as [|b bs Hb _ IH]; cbn [un_le length].
  - cbn. lia.
  - rewrite Nat2Z.inj_succ, Z.pow_succ_r by lia. lia.
Qed.

Lemma length_splice blk off bs :
  0 <= off -> (Z.to_nat off + length bs <= length blk)%nat ->
  length (splice blk off bs) = length blk.
Proof. intros. unfold splice. rewrite !length_app, length_take, length_drop. lia. Qed.

(** Reading exactly the bytes just written. *)
Lemma rd_splice_eq n blk off bs :
  0 <= off -> (Z.to_nat off <= length blk)%nat -> length bs = n ->
  rd n (splice blk off bs) off = un_le bs.
Proof.
  intros Ho Hl Hb. unfold rd, splice. f_equal.
  rewrite drop_app_ge by (rewrite length_take; lia).
  rewrite length_take, Nat.min_l, Nat.sub_diag, drop_0 by lia.
  by rewrite take_app_le, firstn_all2 by lia.
Qed.

(** Reading bytes outside the written range. *)
Lemma rd_splice_ne n blk off off' bs :
  0 <= off -> 0 <= off' -> (Z.to_nat off + length bs <= length blk)%nat ->
  off' + Z.of_nat n <= off \/ off + Z.of_nat (length bs) <= off' ->
  rd n (splice blk off bs) off' = rd n blk off'.
Proof.
  intros Ho Ho' Hl Hd. unfold rd, splice. f_equal. apply list_eq. intros i.
  destruct (decide (i < n)%nat); [|rewrite !lookup_take_ge by lia; done].
  rewrite !lookup_take_lt, !lookup_drop by lia.
  destruct Hd as [Hd|Hd].
  - rewrite lookup_app_l by (rewrite length_take; lia). rewrite lookup_take_lt by lia. done.
  - rewrite lookup_app_r by (rewrite length_take; lia). rewrite length_take, Nat.min_l by lia.
    rewrite lookup_app_r by lia. rewrite lookup_drop. f_equal. lia.
Qed.

Lemma length_wr n blk off x :
  0 <= off -> (Z.to_nat off + n <= length blk)%nat -> length (wr n blk off x) = length blk.
Proof. intros. unfold wr. apply length_splice; rewrite ?length_le; lia. Qed.

Lemma rd_wr_eq n blk off x :
  0 <= off -> (Z.to_nat off + n <= length blk)%nat ->
  rd n (wr n blk off x) off = x mod 256 ^ Z.of_nat n.
Proof. intros. unfold wr. rewrite rd_splice_eq, un_le_le by (rewrite ?length_le; lia || done). done. Qed.

Lemma rd_wr_ne n n' blk off off' x :
  0 <= off -> 0 <= off' -> (Z.to_nat off + n' <= length blk)%nat ->
  off' + Z.of_nat n <= off \/ off + Z.of_nat n' <= off' ->
  rd n (wr n' blk off x) off' = rd n blk off'.
Proof. intros. unfold wr. apply rd_splice_ne; rewrite ?length_le; lia || done. Qed.

(** ** Whole blocks *)

Definition block_ok (b : block) : Prop := length b = 4096%nat.

Create HintDb sjd.

Lemma zero_block_ok : block_ok zero_block.
Proof. apply length_replicate. Qed.

Lemma wr_ok n blk off x :
  block_ok blk -> 0 <= off -> off + Z.of_nat n <= 4096 -> block_ok (wr n blk off x).
Proof. unfold block_ok. intros H ? ?. rewrite length_wr; lia. Qed.

Lemma field_eq n blk off x :
  block_ok blk -> 0 <= off -> off + Z.of_nat n <= 4096 -> 0 <= x < 256 ^ Z.of_nat n ->
  rd n (wr n blk off x) off = x.
Proof. unfold block_ok. intros H ? ? ?. rewrite rd_wr_eq by lia. by apply Z.mod_small. Qed.

Lemma field_ne n n' blk off off' x :
  block_ok blk -> 0 <= off -> off + Z.of_nat n' <= 4096 -> 0 <= off' ->
  off' + Z.of_nat n <= off \/ off + Z.of_nat n' <= off' ->
  rd n (wr n' blk off x) off' = rd n blk off'.
Proof. unfold block_ok. intros H ? ? ? ?. apply rd_wr_ne; lia. Qed.

#[export] Hint Resolve zero_block_ok wr_ok : sjd.

(** Side conditions of the field laws. *)
Ltac field_side :=
  first [ lia | done | solve [ repeat first [ exact zero_block_ok | assumption | apply wr_ok; [|lia|lia] ] ] ].

(** Evaluate a field of a block built by field writes. *)
Ltac fields :=
  repeat first [ rewrite field_eq by field_side | rewrite field_ne by field_side ].

Definition jsb_ok (s : journal_superblock) : Prop :=
  Forall (fun x => 0 <= x < U32_MOD)
    [h_magic s; h_blocktype s; h_txid s; jsb_block_size s; jsb_tx_id s; jsb_err_no s;
     jsb_max_transaction s; jsb_max_trans_data s] /\
  Forall (fun x => 0 <= x < U64_MOD) [jsb_first s; jsb_maxlen s; jsb_start s].

(** The journal superblock survives its on-disk encoding: reading the
    block back gives every field as written. *)
Lemma journal_superblock_roundtrip s : jsb_ok s -> dec_jsb (enc_jsb s) = s.
Proof.
  intros [H32 H64]. repeat rewrite Forall_cons in H32. repeat rewrite Forall_cons in H64.
  change (256 ^ Z.of_nat 4) with U32_MOD. unfold dec_jsb, enc_jsb.
  destruct s; cbn in *. f_equal; fields; done.
Qed.

(** ** Tag arrays *)

(** [nr_tags] consecutive tags at [off]. *)
Fixpoint wr_etags (blk : block) (off : Z) (ts : list etag_t) : block :=
  match ts with
  | [] => blk
  | t :: ts' => wr_etags (wr 4 (wr 8 blk off (et_start t)) (off + 8) (et_cnt t)) (off + etag_size) ts'
  end.

Definition etag_ok (t : etag_t) : Prop := 0 <= et_start t < U64_MOD /\ 0 <= et_cnt t < U32_MOD.

Lemma wr_etags_ok blk off ts :
  block_ok blk -> 0 <= off -> off + 12 * Z.of_nat (length ts) <= 4096 -> block_ok (wr_etags blk off ts).
Proof.
  revert blk off. induction ts as [|t ts IH]; intros blk off Hb Ho Hl; [done|].
  cbn [length wr_etags] in *. unfold etag_size. apply IH; [|lia|lia].
  apply wr_ok; [apply wr_ok|..]; done || lia.
Qed.

(** A field below or above the array is not touched. *)
Lemma wr_etags_ne n blk off ts off' :
  block_ok blk -> 0 <= off -> off + 12 * Z.of_nat (length ts) <= 4096 -> 0 <= off' ->
  off' + Z.of_nat n <= off \/ off + 12 * Z.of_nat (length ts) <= off' ->
  rd n (wr_etags blk off ts) off' = rd n blk off'.
Proof.
  revert blk off. induction ts as [|t ts IH]; intros blk off Hb Ho Hl Ho' Hd; [done|].
  cbn [length wr_etags] in *. unfold etag_size.
  rewrite IH; [by fields | | lia | lia | lia | lia].
  apply wr_ok; [apply wr_ok|..]; done || lia.
Qed.

Lemma rd_etags_wr_etags blk off ts :
  block_ok blk -> 0 <= off -> off + 12 * Z.of_nat (length ts) <= 4096 -> Forall etag_ok ts ->
  rd_etags (wr_etags blk off ts) off (Z.of_nat (length ts)) = ts.
Proof.
  intros Hb Ho Hl Hts. revert blk off Hb Ho Hl.
  induction Hts as [|t ts [Ht1 Ht2] Hts IH]; intros blk off Hb Ho Hl; [done|].
  cbn [length wr_etags] in *. unfold rd_etags. rewrite seqz_cons by lia. cbn [fmap list_fmap].
  set (blk' := wr 4 (wr 8 blk off (et_start t)) (off + 8) (et_cnt t)).
  assert (block_ok blk') as Hb' by (unfold blk'; apply wr_ok; [apply wr_ok|..]; done || lia).
  f_equal.
  - unfold rd_etag. unfold etag_size. rewrite !wr_etags_ne by (done || lia).
    rewrite Z.mul_0_r, Z.add_0_r. unfold blk'.
    rewrite field_ne, !field_eq by field_side. by destruct t.
  - rewrite <- (IH blk' (off + etag_size)) at 2 by (unfold etag_size; done || lia).
    unfold rd_etags. replace (Z.of_nat (S (length ts)) - 1) with (Z.of_nat (length ts)) by lia.
    apply list_eq. intros i. rewrite !list_lookup_fmap.
    destruct (decide (Z.of_nat i < Z.of_nat (length ts))).
    + rewrite !lookup_seqz by lia. cbn. do 2 f_equal. unfold etag_size. lia.
    + rewrite !lookup_ge_None_2 by (rewrite length_seqz; lia). done.
Qed.
