(* ===== verification/JournalLog.v ===== *)
(** * The circular journal log

    [struct journal_log] of [devfs/include/journal.h] and the operations of
    [devfs/src/journal.c] that allocate, account and release log space and
    that build requests across the wrap-around point.  The log is proved to
    implement a FIFO queue of extents: allocation appends an extent that is
    disjoint from every live one, release removes the oldest. *)

From S2P Require Import Prelude Bio.

Record journal_log := mk_log {
  df_id : Z;
  first : Z;
  last : Z;
  head : Z;
  tail : Z;
  n_free_blks : Z
}.

(** ** Operations *)

Definition check_wrap_around (start n_blks last : Z) : bool :=
  last <? u64 (start + n_blks - 1).

Definition check_wrap_around_journal_tx (start n_blks : Z) (j_log : journal_log) : bool :=
  check_wrap_around start n_blks (last j_log).

Definition wrapped_baddr (first last target : Z) : Z := u64 (first + u64 (target - last - 1)).

Definition journal_free_percent (j_log : journal_log) : Z :=
  let total_blks := u64 (last j_log - first j_log + 1) in
  let free_blks := n_free_blks j_log in
  s32 (u64 (free_blks * 100) / total_blks).

(** The pointer update shared by allocation (head) and release (tail). *)
Definition advance (first last p n : Z) : Z :=
  if last <? u64 (p + n) then
    let alloced := u64 (last - p + 1) in
    let remains := u64 (n - alloced) in
    u64 (first + remains)
  else u64 (p + n).

(** Without enough free blocks the code runs into [oxbow_assert(0)]. *)
Definition alloc_journal_space (j_log : journal_log) (size : Z) : res (journal_log * Z) :=
  let* n_blk_req := bytes_to_nblks size in
  let nr_free_blks := u32 (n_free_blks j_log) in
  assert! (negb (nr_free_blks <? n_blk_req)) in
  let start_baddr := head j_log in
  Ok (mk_log (df_id j_log) (first j_log) (last j_log)
        (advance (first j_log) (last j_log) (head j_log) n_blk_req)
        (tail j_log) (u64 (n_free_blks j_log - n_blk_req)),
      start_baddr).

Definition update_log_state (j_log : journal_log) (n_blk_added : Z) : journal_log :=
  mk_log (df_id j_log) (first j_log) (last j_log)
    (advance (first j_log) (last j_log) (head j_log) n_blk_added)
    (tail j_log) (u64 (n_free_blks j_log - n_blk_added)).

Definition get_chunck_start (j_log : journal_log) (req_id : Z) : Z :=
  let n_blks_per_chunk := Z.shiftr DATA_FETCHER_BUF_SIZE 12 in
  if req_id =? 0 then head j_log
  else u64 (head j_log + req_id * n_blks_per_chunk + 1).

Definition free_journal_space (j_log : journal_log) (start_baddr size : Z) : res journal_log :=
  let* n_blk_req := bytes_to_nblks size in
  assert! (start_baddr =? tail j_log) in
  Ok (mk_log (df_id j_log) (first j_log) (last j_log) (head j_log)
        (advance (first j_log) (last j_log) (tail j_log) n_blk_req)
        (u64 (n_free_blks j_log + n_blk_req))).

(** Requests for [size] bytes at [start_baddr]; also returns the address of
    the next block, wrap not checked. *)
Definition add_bios_considering_wrap (j_log : journal_log) (bl : bio_list)
    (start_baddr buf size : Z) : res (bio_list * Z) :=
  let* n_blks_total := bytes_to_nblks size in
  if check_wrap_around_journal_tx start_baddr n_blks_total j_log then
    let n_blks1 := u32 (last j_log - start_baddr + 1) in
    let* bl := add_bio_to_bl bl buf start_baddr n_blks1 in
    let buf2 := buf + n_blks1 in
    let n_blks2 := u32 (n_blks_total - n_blks1) in
    let* bl := add_bio_to_bl bl buf2 (first j_log) n_blks2 in
    Ok (bl, u64 (first j_log + n_blks2))
  else
    let* bl := add_bio_to_bl bl buf start_baddr n_blks_total in
    Ok (bl, u64 (start_baddr + n_blks_total)).

(** Same split into two lists; the result also holds the second buffer. *)
Definition add_bios_considering_wrap_into_separate_bls (j_log : journal_log)
    (bl_first bl_second : bio_list) (start_baddr buf size : Z)
  : res (bio_list * bio_list * option Z) :=
  let* n_blks_total := bytes_to_nblks size in
  if check_wrap_around_journal_tx start_baddr n_blks_total j_log then
    let n_blks1 := u32 (last j_log - start_baddr + 1) in
    let* bl_first := add_bio_to_bl bl_first buf start_baddr n_blks1 in
    let buf2 := buf + n_blks1 in
    let n_blks2 := u32 (n_blks_total - n_blks1) in
    let* bl_second := add_bio_to_bl bl_second buf2 (first j_log) n_blks2 in
    Ok (bl_first, bl_second, Some buf2)
  else
    let* bl_first := add_bio_to_bl bl_first buf start_baddr n_blks_total in
    Ok (bl_first, bl_second, None).

(** One block; returns the request list and the next address. *)
Definition add_bio_considering_wrap (j_log : journal_log) (bl : bio_list) (dst_baddr buf : Z)
  : bio_list * Z :=
  let dst_baddr :=
    if check_wrap_around_journal_tx dst_baddr 1 j_log
    then wrapped_baddr (first j_log) (last j_log) dst_baddr else dst_baddr in
  (bio_list_add bl (set_bvec dst_baddr buf 1), u64 (dst_baddr + 1)).

(** [init_journal]: the log area is divided between the two data fetchers. *)
Definition init_logs (sb_first sb_maxlen : Z) : journal_log * journal_log :=
  let half_log_size := sb_maxlen / 2 in
  let first1 := sb_first in
  let last1 := u64 (first1 + half_log_size - 1) in
  let first2 := u64 (last1 + 1) in
  let last2 := u64 (first2 + half_log_size - 1) in
  (mk_log 0 first1 last1 first1 first1 (u64 (last1 - first1 + 1)),
   mk_log 1 first2 last2 first2 first2 (u64 (last2 - first2 + 1))).

(** ** Abstract view: a queue of extents

    [pos j k] is the address of the [k]-th block after the tail. *)

Definition log_len (j : journal_log) : Z := last j - first j + 1.
Definition pos (j : journal_log) (k : Z) : Z :=
  first j + (tail j - first j + k) mod log_len j.

Record log_geom (j : journal_log) : Prop := {
  lg_first : 0 < first j;
  lg_len : 0 < log_len j < U32_MOD;
  lg_last : last j + log_len j < U64_MOD
}.

(** [log_rep j q]: the live extents, oldest first, have sizes [q]. *)
Record log_rep (j : journal_log) (q : list Z) : Prop := {
  lr_geom : log_geom j;
  lr_tail : first j <= tail j <= last j;
  lr_pos : Forall (fun n => 0 <= n) q;
  lr_free : n_free_blks j = log_len j - sumz id q;
  lr_fits : sumz id q <= log_len j;
  lr_head : head j = pos j (sumz id q)
}.

(** ** Lemmas *)

Lemma advance_eq j p n :
  log_geom j -> first j <= p <= last j -> 0 <= n <= log_len j ->
  advance (first j) (last j) p n = first j + (p - first j + n) mod log_len j.
Proof.
  intros [H1 H2 H3] Hp Hn. unfold advance, log_len in *. rewrite (u64_id (p + n)) by lia.
  case_cmp.
  - rewrite (u64_id (last j - p + 1)), (u64_id (n - (last j - p + 1))), u64_id by lia.
    f_equal. replace (p - first j + n) with (n - (last j - p + 1) + 1 * (last j - first j + 1)) by lia.
    rewrite Z_mod_plus_full, Z.mod_small; lia.
  - rewrite Z.mod_small; lia.
Qed.

Lemma pos_range j k : 0 < log_len j -> first j <= pos j k <= last j.
Proof.
  intros H. unfold pos. pose proof (Z.mod_pos_bound (tail j - first j + k) (log_len j) H).
  unfold log_len in *. lia.
Qed.

Lemma mod_inj_window a k1 k2 n :
  0 < n -> 0 <= k1 < n -> 0 <= k2 < n -> (a + k1) mod n = (a + k2) mod n -> k1 = k2.
Proof.
  intros Hn H1 H2 E.
  assert ((k1 - k2) mod n = 0) as E'.
  { replace (k1 - k2) with ((a + k1) - (a + k2)) by lia.
    rewrite Zminus_mod, E, Z.sub_diag. apply Zmod_0_l. }
  apply Zmod_divides in E' as [c Hc]; [|lia].
  destruct (Z.lt_trichotomy c 0) as [?|[?|?]]; nia.
Qed.

Lemma pos_inj j k1 k2 :
  0 <= k1 < log_len j -> 0 <= k2 < log_len j -> pos j k1 = pos j k2 -> k1 = k2.
Proof.
  unfold pos. intros H1 H2 E. eapply (mod_inj_window (tail j - first j)); [| eassumption..|]; lia.
Qed.

Lemma mod_add_shift a b k n :
  0 < n -> (a + k) mod n = (((a + b) mod n) + (k - b)) mod n.
Proof.
  intros. rewrite Zplus_mod_idemp_l. f_equal. lia.
Qed.

(** Moving the head past [n] more blocks keeps the representation. *)
Lemma log_rep_advance j q n :
  log_rep j q -> 0 <= n -> sumz id q + n <= log_len j ->
  log_rep (update_log_state j n) (q ++ [n]).
Proof.
  intros [Hg Ht Hq Hf Hfit Hh] Hn Hfits. pose proof Hg as [H1 H2 H3].
  pose proof (sumz_nonneg id q Hq) as Hs. pose proof (pos_range j (sumz id q)) as Hp.
  split; cbn; [by split | done | | | | ]; unfold log_len in *; cbn in *; autorewrite with oxbow; cbn.
  - apply Forall_app. split; [done | repeat constructor; lia].
  - unwrap. lia.
  - lia.
  - rewrite advance_eq by (unfold log_len; done || lia). rewrite Hh.
    unfold pos, log_len; cbn. f_equal.
    rewrite (mod_add_shift (tail j - first j) (sumz id q) (sumz id q + (n + 0))) by lia.
    f_equal. f_equal; lia.
Qed.

Lemma alloc_ok j q n :
  log_rep j q -> 0 <= n < U32_MOD ->
  alloc_journal_space j (4096 * n) =
    if decide (sumz id q + n <= log_len j)
    then Ok (update_log_state j n, pos j (sumz id q)) else Abort.
Proof.
  intros [Hg Ht Hq Hf Hfit Hh] Hn. pose proof Hg as [H1 H2 H3].
  pose proof (sumz_nonneg id q Hq) as Hs.
  unfold alloc_journal_space. rewrite bytes_to_nblks_eq by done. cbn [res_bind].
  rewrite (u32_id (n_free_blks j)) by lia.
  destruct (decide _); case_cmp; try lia; cbn [negb assert_]; [|done].
  unfold update_log_state. by rewrite Hh.
Qed.

(** The log after releasing [n] blocks from the tail. *)
Definition tail_advanced (j : journal_log) (n : Z) : journal_log :=
  mk_log (df_id j) (first j) (last j) (head j)
    (advance (first j) (last j) (tail j) n) (u64 (n_free_blks j + n)).

Lemma free_ok j n q start :
  log_rep j (n :: q) ->
  free_journal_space j start (4096 * n) =
    (if start =? tail j then Ok (tail_advanced j n) else Abort) /\
  log_rep (tail_advanced j n) q /\
  forall k, pos (tail_advanced j n) k = pos j (n + k).
Proof.
  intros [Hg Ht Hq Hf Hfit Hh]. pose proof Hg as [H1 H2 H3].
  apply Forall_cons in Hq as [Hn Hq]. pose proof (sumz_nonneg id q Hq) as Hs.
  rewrite sumz_cons in *. cbn [id] in *.
  assert (forall k, pos (tail_advanced j n) k = pos j (n + k)) as Hpos.
  { intros k. unfold pos, log_len; cbn. rewrite advance_eq by (done || lia). unfold log_len in *. f_equal.
    rewrite (mod_add_shift (tail j - first j) n (n + k)) by lia. f_equal. f_equal; lia. }
  split; [|split; [|done]].
  - unfold free_journal_space. rewrite bytes_to_nblks_eq by lia. cbn [res_bind].
    by destruct (start =? tail j).
  - split; cbn; [by split | | done | | unfold log_len in *; cbn; lia | by rewrite Hpos].
    + rewrite advance_eq by (done || lia).
      pose proof (Z.mod_pos_bound (tail j - first j + n) (log_len j)). unfold log_len in *. lia.
    + unfold log_len in *; cbn. unwrap. lia.
Qed.

(** ** The log as a queue of extents

    The log with the extents handed out, oldest first, as the transactions
    waiting for checkpoint record them. *)

Inductive log_op := OpAlloc (n : Z) | OpFree.

Definition log_step (s : journal_log * list (Z * Z)) (o : log_op)
  : res (journal_log * list (Z * Z)) :=
  let '(j, exts) := s in
  match o with
  | OpAlloc n =>
      let* (j', start) := alloc_journal_space j (4096 * n) in Ok (j', exts ++ [(start, n)])
  | OpFree =>
      match exts with
      | [] => Ok s
      | (start, n) :: exts' =>
          let* j' := free_journal_space j start (4096 * n) in Ok (j', exts')
      end
  end.

Fixpoint log_run (s : journal_log * list (Z * Z)) (ops : list log_op)
  : res (journal_log * list (Z * Z)) :=
  match ops with
  | [] => Ok s
  | o :: ops' => let* s' := log_step s o in log_run s' ops'
  end.

(** The specification: a bounded queue of sizes. *)
Definition queue_step (cap : Z) (q : list Z) (o : log_op) : option (list Z) :=
  match o with
  | OpAlloc n => if decide (sumz id q + n <= cap) then Some (q ++ [n]) else None
  | OpFree => Some (tl q)
  end.

Fixpoint queue_run (cap : Z) (q : list Z) (ops : list log_op) : option (list Z) :=
  match ops with
  | [] => Some q
  | o :: ops' => match queue_step cap q o with Some q' => queue_run cap q' ops' | None => None end
  end.

(** The extents lie one after the other from block offset [k] on. *)
Fixpoint contiguous (j : journal_log) (k : Z) (exts : list (Z * Z)) : Prop :=
  match exts with
  | [] => True
  | (start, n) :: exts' => start = pos j k /\ contiguous j (k + n) exts'
  end.

(** Block [i] of an extent, after wrap-around. *)
Definition ext_blk (j : journal_log) (e : Z * Z) (i : Z) : Z :=
  first j + (e.1 - first j + i) mod log_len j.

Record log_inv (s : journal_log * list (Z * Z)) : Prop := {
  li_rep : log_rep s.1 (snd <$> s.2);
  li_ext : contiguous s.1 0 s.2
}.

Lemma contiguous_snoc j k exts e :
  contiguous j k (exts ++ [e]) <->
  contiguous j k exts /\ e.1 = pos j (k + sumz id (snd <$> exts)).
Proof.
  revert k. induction exts as [|[st n] exts IH]; intros k; cbn.
  - destruct e; cbn. rewrite Z.add_0_r. tauto.
  - rewrite IH, sumz_cons, (Z.add_assoc k). tauto.
Qed.

Lemma contiguous_ext j j' c k exts :
  (forall i, pos j' i = pos j (c + i)) -> contiguous j (c + k) exts -> contiguous j' k exts.
Proof.
  intros E. revert k. induction exts as [|[st n] exts IH]; intros k; cbn; [done|].
  intros [-> H]. split; [by rewrite E|]. apply IH. by rewrite Z.add_assoc.
Qed.

Lemma pos_update j n k : pos (update_log_state j n) k = pos j k.
Proof. done. Qed.

(** Releasing the oldest extent, which starts at the tail. *)
Lemma log_inv_free j st n exts :
  log_inv (j, (st, n) :: exts) ->
  st = tail j /\ free_journal_space j st (4096 * n) = Ok (tail_advanced j n) /\
  log_inv (tail_advanced j n, exts).
Proof.
  intros [Hr [-> Hc]]; cbn [fst snd] in *. rewrite fmap_cons in Hr. cbn [snd] in Hr.
  destruct (free_ok j n (snd <$> exts) (pos j 0) Hr) as (E & Hr' & Hpos).
  assert (pos j 0 = tail j) as E0.
  { unfold pos. destruct Hr as [[? ? ?] ? ? ? ? ?]. unfold log_len in *.
    rewrite Z.add_0_r, Z.mod_small; lia. }
  rewrite E0 in *. rewrite E, Z.eqb_refl. split_and!; try done. split; cbn; [done|].
  apply (contiguous_ext j _ n); [done|]. by rewrite Z.add_comm.
Qed.

(** A new extent at the head. *)
Lemma log_inv_alloc j j' exts n :
  log_inv (j, exts) -> log_rep j' ((snd <$> exts) ++ [n]) -> (forall k, pos j' k = pos j k) ->
  log_inv (j', exts ++ [(head j, n)]).
Proof.
  intros [Hr Hc] Hr' E. cbn in Hr, Hc. split; cbn; [by rewrite fmap_app|].
  apply contiguous_snoc. split; [by apply (contiguous_ext j _ 0)|]. cbn. rewrite E. apply (lr_head _ _ Hr).
Qed.

Lemma log_step_ok s o :
  log_inv s -> (forall n, o = OpAlloc n -> 0 <= n < U32_MOD) ->
  match queue_step (log_len s.1) (snd <$> s.2) o with
  | Some q => exists s', log_step s o = Ok s' /\ log_inv s' /\ snd <$> s'.2 = q /\
                         log_len s'.1 = log_len s.1
  | None => log_step s o = Abort
  end.
Proof.
  destruct s as [j exts]. intros [Hr Hc] Ho; cbn in Hr, Hc. destruct o as [n|]; cbn.
  - specialize (Ho n eq_refl). rewrite (alloc_ok j (snd <$> exts)) by done.
    destruct (decide _) as [Hfit|]; [|done]. cbn [res_bind]. eexists. split; [done|].
    split; [split; cbn|].
    + rewrite fmap_app. apply log_rep_advance; [done|lia|done].
    + apply contiguous_snoc. split; [|done]. by apply (contiguous_ext j _ 0).
    + split; [by cbn; rewrite fmap_app | done].
  - destruct exts as [|[st n] exts]; cbn in *; [eexists; split; [done|]; by split|].
    destruct (log_inv_free j st n exts) as (-> & E & Hi); [by split|].
    rewrite E. cbn [res_bind]. by eexists.
Qed.

(** C5: the circular log implements a bounded FIFO queue of extents.  From any
    log whose live extents satisfy the invariant, a sequence of allocations and
    in-order releases succeeds exactly when the queue never exceeds the log
    size (otherwise the allocation stops in its assertion), and the resulting
    live extents have the sizes of the queue and are contiguous in the ring. *)
Theorem journal_log_refines_queue s ops :
  log_inv s -> Forall (fun o => match o with OpAlloc n => 0 <= n < U32_MOD | OpFree => True end) ops ->
  match queue_run (log_len s.1) (snd <$> s.2) ops with
  | Some q => exists s', log_run s ops = Ok s' /\ log_inv s' /\ snd <$> s'.2 = q
  | None => log_run s ops = Abort
  end.
Proof.
  intros Hs Hops. revert s Hs. induction Hops as [|o ops Ho _ IH]; intros s Hs; cbn [queue_run log_run].
  { by exists s. }
  pose proof (log_step_ok s o Hs) as Hstep.
  destruct (queue_step _ _ o) as [q|]; cycle 1.
  { rewrite Hstep; [done|]. intros n ->. done. }
  destruct Hstep as (s' & E & Hs' & Hq & Hl); [by intros n ->|].
  rewrite E. cbn [res_bind]. specialize (IH s' Hs'). by rewrite <- Hl, <- Hq.
Qed.

Lemma journal_log_refines_queue_witness :
  exists s', log_run (mk_log 0 10 19 10 10 10, []) [OpAlloc 6; OpAlloc 3; OpFree; OpAlloc 5] = Ok s'
             /\ log_inv s' /\ snd <$> s'.2 = [3; 5].
Proof.
  apply (journal_log_refines_queue (mk_log 0 10 19 10 10 10, [])
           [OpAlloc 6; OpAlloc 3; OpFree; OpAlloc 5]).
  - split; [|done]. split; [split; vm_compute; done | vm_compute; done | constructor | reflexivity | vm_compute; done | reflexivity].
  - repeat constructor; vm_compute; done.
Defined.

(** Extents of one contiguous run occupy disjoint blocks. *)
Lemma contiguous_blk j k exts i e b :
  0 < log_len j -> contiguous j k exts -> exts !! i = Some e ->
  ext_blk j e b = pos j (k + sumz id (snd <$> take i exts) + b).
Proof.
  intros Hl. revert k i. induction exts as [|[st n] exts IH]; intros k i Hc He; [done|].
  destruct Hc as [-> Hc]. destruct i as [|i]; cbn in He.
  - simplify_eq. unfold ext_blk, pos; cbn. rewrite Z.add_0_r. f_equal.
    replace (first j + (tail j - first j + k) mod log_len j - first j)
      with ((tail j - first j + k) mod log_len j) by lia.
    rewrite Zplus_mod_idemp_l. f_equal. lia.
  - rewrite (IH _ _ Hc He). cbn. f_equal. unfold sumz; cbn. lia.
Qed.

(** Live extents never overlap and stay inside the log: two blocks of the
    extents of a valid log state are at the same address only if they are the
    same block of the same extent. *)
Lemma log_inv_disjoint s i1 i2 e1 e2 b1 b2 :
  log_inv s -> s.2 !! i1 = Some e1 -> s.2 !! i2 = Some e2 ->
  0 <= b1 < e1.2 -> 0 <= b2 < e2.2 ->
  (first s.1 <= ext_blk s.1 e1 b1 <= last s.1) /\
  (ext_blk s.1 e1 b1 = ext_blk s.1 e2 b2 -> i1 = i2 /\ b1 = b2).
Proof.
  destruct s as [j exts]; cbn. intros [Hr Hc] H1 H2 Hb1 Hb2; cbn in *.
  destruct Hr as [[Hf Hl Hla] Ht Hq Hfree Hfit Hh].
  assert (forall i e b, exts !! i = Some e -> 0 <= b < e.2 ->
    0 <= sumz id (snd <$> take i exts) /\
    sumz id (snd <$> take i exts) + b < sumz id (snd <$> take (S i) exts) <= log_len j) as Hbound.
  { intros i e b He Hb. rewrite (take_S_r _ _ e He), fmap_app, sumz_app.
    rewrite <- (take_drop_middle exts i e He), fmap_app, fmap_cons in Hfit, Hq.
    apply Forall_app in Hq as [Hq1 Hq2]. apply Forall_cons in Hq2 as [_ Hq2].
    pose proof (sumz_nonneg id _ Hq1). pose proof (sumz_nonneg id _ Hq2).
    rewrite sumz_app, sumz_cons in Hfit. cbn in *. autorewrite with oxbow. unfold id in *. lia. }
  split.
  - rewrite (contiguous_blk j 0 exts i1 e1 b1) by (done || lia). apply pos_range. lia.
  - rewrite (contiguous_blk j 0 exts i1 e1 b1), (contiguous_blk j 0 exts i2 e2 b2) by (done || lia).
    destruct (Hbound _ _ _ H1 Hb1) as [? ?]. destruct (Hbound _ _ _ H2 Hb2) as [? ?].
    intros E. apply pos_inj in E; [|lia|lia].
    assert (forall a b, (a <= b)%nat -> sumz id (snd <$> take a exts) <= sumz id (snd <$> take b exts)) as Hmono.
    { intros a b Hab. rewrite !fmap_take. by apply sumz_take_mono. }
    destruct (Nat.lt_trichotomy i1 i2) as [Hlt|[->|Hlt]].
    + pose proof (Hmono (S i1) i2 ltac:(lia)). lia.
    + split; [done|lia].
    + pose proof (Hmono (S i2) i1 ltac:(lia)). lia.
Qed.

(** [init_journal] gives the two data fetchers logs of equal size that
    partition the even part of the log area, both empty and well formed. *)
Lemma init_logs_ok sb_first sb_maxlen :
  0 < sb_first -> 2 <= sb_maxlen < U32_MOD -> sb_first + 2 * sb_maxlen < U64_MOD ->
  let '(l1, l2) := init_logs sb_first sb_maxlen in
  log_inv (l1, []) /\ log_inv (l2, []) /\
  first l1 = sb_first /\ last l1 + 1 = first l2 /\ last l2 <= sb_first + sb_maxlen - 1 /\
  log_len l1 = sb_maxlen / 2 /\ log_len l2 = sb_maxlen / 2.
Proof.
  intros Hf Hm He. unfold init_logs. set (h := sb_maxlen / 2).
  assert (1 <= h /\ 2 * h <= sb_maxlen) as [Hh1 Hh2] by (unfold h; Z.div_mod_to_equations; lia).
  rewrite (u64_id (sb_first + h - 1)) by lia.
  rewrite (u64_id (sb_first + h - 1 + 1)) by lia.
  rewrite (u64_id (sb_first + h - 1 + 1 + h - 1)) by lia.
  unfold log_len; cbn. split_and!; try lia.
  all: split; [|done]; cbn; split; cbn; unfold pos, log_len; cbn; autorewrite with oxbow; try done; try lia.
  all: try (split; cbn; unfold log_len; cbn; lia).
  all: try (unwrap; lia).
  all: rewrite Z.sub_diag, Z.mod_small; lia.
Qed.

(** ** Requests across the wrap-around point *)

(** The disk after [n] blocks of the buffer went to the ring from [start]. *)
Definition write_ring (d : disk) (m : mem) (j : journal_log) (start buf n : Z) : disk :=
  fun b => if (first j <=? b) && (b <=? last j) && ((b - start) mod log_len j <? n)
           then m (buf + (b - start) mod log_len j) else d b.

(** No wrap: the ring write is a plain write. *)
Lemma write_ring_flat d m j start buf n :
  log_geom j -> first j <= start -> 0 <= n -> start + n - 1 <= last j ->
  write_blks d m start buf n ≡d write_ring d m j start buf n.
Proof.
  intros [H1 H2 H3] Hs Hn He b. unfold write_blks, write_ring, log_len in *.
  destruct (Z.leb_spec start b), (Z.ltb_spec b (start + n)); cbn.
  - rewrite (Z.mod_small (b - start)) by lia. repeat case_cmp; cbn; done || lia.
  - destruct (Z.leb_spec (first j) b), (Z.leb_spec b (last j)); cbn; try done.
    rewrite (Z.mod_small (b - start)) by lia. case_cmp; done || lia.
  - destruct (Z.leb_spec (first j) b), (Z.leb_spec b (last j)); cbn; try done.
    replace (b - start) with (b - start + (last j - first j + 1) + (-1) * (last j - first j + 1)) by lia.
    rewrite Z_mod_plus_full, Z.mod_small by lia. case_cmp; done || lia.
  - lia.
Qed.

(** Wrap: the part up to the last block, then the rest from the first. *)
Lemma write_ring_split d m j start buf n1 n :
  log_geom j -> first j <= start <= last j + 1 -> n1 = last j - start + 1 -> n1 <= n <= log_len j ->
  write_blks (write_blks d m start buf n1) m (first j) (buf + n1) (n - n1) ≡d
  write_ring d m j start buf n.
Proof.
  intros [H1 H2 H3] Hs -> Hn b. unfold write_blks, write_ring, log_len in *.
  destruct (decide (first j <= b <= last j)); cycle 1.
  { repeat case_cmp; cbn; done || lia. }
  destruct (decide (start <= b)).
  - rewrite (Z.mod_small (b - start)) by lia. repeat case_cmp; cbn; try done; try lia.
  - replace (b - start) with (b - start + (last j - first j + 1) + (-1) * (last j - first j + 1)) by lia.
    rewrite Z_mod_plus_full, (Z.mod_small (b - start + _)) by lia.
    repeat case_cmp; cbn; try done; try lia. f_equal; lia.
Qed.

Lemma check_wrap_eq j start n :
  log_geom j -> first j <= start <= last j + 1 -> 0 <= n <= log_len j ->
  check_wrap_around_journal_tx start n j = (last j <? start + n - 1).
Proof.
  intros [H1 H2 H3] Hs Hn. unfold check_wrap_around_journal_tx, check_wrap_around.
  by rewrite u64_id by (unfold log_len in *; lia).
Qed.

(** The block after the [n] blocks from [start], in the ring. *)
Definition ring_next (j : journal_log) (start n : Z) : Z :=
  if last j <? start + n - 1 then first j + (n - (last j - start + 1)) else start + n.

Lemma add_bios_considering_wrap_ok j bl start buf n :
  log_geom j -> first j <= start <= last j + 1 -> 0 <= n <= log_len j ->
  exists bs, add_bios_considering_wrap j bl start buf (4096 * n) = Ok (bl ++ bs, ring_next j start n) /\
    forall m d, bl_write m bs d ≡d write_ring d m j start buf n.
Proof.
  intros Hg Hs Hn. pose proof Hg as [H1 H2 H3]. unfold add_bios_considering_wrap, ring_next.
  rewrite bytes_to_nblks_eq by lia. cbn [res_bind]. rewrite check_wrap_eq by done.
  unfold log_len in *. case_cmp.
  - rewrite (u32_id (last j - start + 1)) by lia. rewrite (u32_id (n - _)) by lia.
    destruct (add_bio_to_bl_ok bl buf start (last j - start + 1)) as (b1 & -> & T1); [lia..|].
    cbn [res_bind].
    destruct (add_bio_to_bl_ok (bl ++ b1) (buf + (last j - start + 1)) (first j)
                (n - (last j - start + 1))) as (b2 & -> & T2); [lia..|].
    cbn [res_bind]. exists (b1 ++ b2). rewrite (assoc_L (++)), u64_id by lia. split; [done|].
    intros m d b. rewrite bl_write_app, (tr_write _ _ _ _ T2).
    rewrite (write_blks_ext _ _ _ _ _ _ (tr_write _ _ _ _ T1 m d)).
    apply write_ring_split; unfold log_len; done || lia.
  - destruct (add_bio_to_bl_ok bl buf start n) as (b1 & -> & T1); [lia..|].
    cbn [res_bind]. exists b1. rewrite u64_id by lia. split; [done|].
    intros m d b. rewrite (tr_write _ _ _ _ T1). apply write_ring_flat; done || lia.
Qed.

Lemma add_bios_separate_ok j start buf n :
  log_geom j -> first j <= start <= last j + 1 -> 0 <= n <= log_len j ->
  exists b1 b2 buf2,
    add_bios_considering_wrap_into_separate_bls j [] [] start buf (4096 * n) = Ok (b1, b2, buf2) /\
    (forall m d, bl_write m b2 (bl_write m b1 d) ≡d write_ring d m j start buf n) /\
    Z.of_nat (length b1) = CEILING (Z.min n (last j - start + 1)) 8192 /\
    Z.of_nat (length b2) = CEILING (Z.max 0 (n - (last j - start + 1))) 8192 /\
    Forall (fun b => 0 < bv_nblks b <= 8192 /\ first j <= bi_blk_no b /\
                     bi_blk_no b + bv_nblks b <= last j + 1) (b1 ++ b2).
Proof.
  intros Hg Hs Hn. pose proof Hg as [H1 H2 H3].
  unfold add_bios_considering_wrap_into_separate_bls.
  rewrite bytes_to_nblks_eq by lia. cbn [res_bind]. rewrite check_wrap_eq by done.
  unfold log_len in *. case_cmp.
  - rewrite (u32_id (last j - start + 1)) by lia. rewrite (u32_id (n - _)) by lia.
    destruct (add_bio_to_bl_ok [] buf start (last j - start + 1)) as (b1 & -> & T1); [lia..|].
    cbn [res_bind].
    destruct (add_bio_to_bl_ok [] (buf + (last j - start + 1)) (first j)
                (n - (last j - start + 1))) as (b2 & -> & T2); [lia..|].
    cbn [res_bind]. exists b1, b2, (Some (buf + (last j - start + 1))). split_and!; [done|..].
    + intros m d b. rewrite (tr_write _ _ _ _ T2).
      rewrite (write_blks_ext _ _ _ _ _ _ (tr_write _ _ _ _ T1 m d)).
      apply write_ring_split; unfold log_len; done || lia.
    + rewrite (tr_len _ _ _ _ T1). f_equal. lia.
    + rewrite (tr_len _ _ _ _ T2). f_equal. lia.
    + apply Forall_app. split; eapply Forall_impl;
        [apply (tr_size _ _ _ _ T1)| |apply (tr_size _ _ _ _ T2)|]; cbn; lia.
  - destruct (add_bio_to_bl_ok [] buf start n) as (b1 & -> & T1); [lia..|].
    cbn [res_bind]. exists b1, [], None. split_and!; [done|..].
    + intros m d b. cbn [bl_write foldl]. change (bl_write m b1 d b = write_ring d m j start buf n b).
      rewrite (tr_write _ _ _ _ T1). apply write_ring_flat; done || lia.
    + rewrite (tr_len _ _ _ _ T1). f_equal. lia.
    + cbn [length]. replace (Z.max 0 _) with 0 by lia. done.
    + rewrite app_nil_r. eapply Forall_impl; [apply (tr_size _ _ _ _ T1)|]. cbn; lia.
Qed.

Lemma add_bio_considering_wrap_ok j bl dst buf :
  log_geom j -> first j <= dst <= last j + 1 ->
  add_bio_considering_wrap j bl dst buf =
    (bl ++ [mk_bio (first j + (dst - first j) mod log_len j) buf 1],
     first j + (dst - first j) mod log_len j + 1).
Proof.
  intros Hg Hs. pose proof Hg as [H1 H2 H3]. unfold add_bio_considering_wrap.
  rewrite check_wrap_eq by (done || lia). unfold log_len, wrapped_baddr, set_bvec, bio_list_add in *.
  rewrite (u32_id 1) by lia. case_cmp.
  - assert (dst = last j + 1) as -> by lia.
    replace ((last j + 1 - first j) mod (last j - first j + 1)) with 0.
    + rewrite (u64_id (last j + 1 - last j - 1)), (u64_id (first j + _)), u64_id by lia.
      do 3 f_equal; [|lia]. f_equal; lia.
    + symmetry. replace (last j + 1 - first j) with (1 * (last j - first j + 1)) by lia.
      apply Z_mod_mult.
  - rewrite Z.mod_small, u64_id by lia. do 3 f_equal; [|lia]. f_equal; lia.
Qed.

(** ** Reading back what went to the ring *)

(** The address of ring position [x]. *)
Definition ring (j : journal_log) (x : Z) : Z := first j + (x - first j) mod log_len j.

Lemma ring_range j x : 0 < log_len j -> first j <= ring j x <= last j.
Proof.
  intros H. unfold ring. pose proof (Z.mod_pos_bound (x - first j) (log_len j) H).
  unfold log_len in *. lia.
Qed.

Lemma ring_small j x : first j <= x <= last j -> ring j x = x.
Proof. intros. unfold ring, log_len. rewrite Z.mod_small; lia. Qed.

Lemma ring_offset j start i :
  0 < log_len j -> (ring j (start + i) - start) mod log_len j = i mod log_len j.
Proof.
  intros. unfold ring.
  replace (first j + (start + i - first j) mod log_len j - start)
    with ((start + i - first j) mod log_len j + (first j - start)) by lia.
  rewrite Zplus_mod_idemp_l. f_equal. lia.
Qed.

Lemma write_ring_at d m j start buf n i :
  0 < log_len j -> 0 <= i < log_len j ->
  write_ring d m j start buf n (ring j (start + i)) =
    if decide (i < n) then m (buf + i) else d (ring j (start + i)).
Proof.
  intros Hl Hi. unfold write_ring. rewrite ring_offset, (Z.mod_small i) by lia.
  pose proof (ring_range j (start + i) Hl).
  destruct (decide (i < n)); repeat case_cmp; cbn; done || lia.
Qed.

Lemma write_ring_off d m j start buf n b :
  ~ (first j <= b <= last j) -> write_ring d m j start buf n b = d b.
Proof. intros. unfold write_ring. repeat case_cmp; cbn; done || lia. Qed.

Lemma ring_add j x k : 0 < log_len j -> ring j (ring j x + k) = ring j (x + k).
Proof.
  intros. unfold ring.
  replace (first j + (x - first j) mod log_len j + k - first j)
    with ((x - first j) mod log_len j + k) by lia.
  rewrite Zplus_mod_idemp_l. do 2 f_equal. lia.
Qed.

Lemma ring_inj j x i1 i2 :
  0 <= i1 < log_len j -> 0 <= i2 < log_len j -> ring j (x + i1) = ring j (x + i2) -> i1 = i2.
Proof.
  unfold ring. intros H1 H2 E. apply (mod_inj_window (x - first j) i1 i2 (log_len j)); [lia..|].
  replace (x - first j + i1) with (x + i1 - first j) by lia.
  replace (x - first j + i2) with (x + i2 - first j) by lia. lia.
Qed.

Lemma pos_ring j k : pos j k = ring j (tail j + k).
Proof. unfold pos, ring. do 2 f_equal. lia. Qed.

(** The representation depends on the sizes only through their sum. *)
Lemma log_rep_merge j q a b : log_rep j (q ++ [a; b]) -> log_rep j (q ++ [a + b]).
Proof.
  intros [Hg Ht Hq Hf Hfit Hh].
  assert (sumz id (q ++ [a; b]) = sumz id (q ++ [a + b])) as E.
  { autorewrite with oxbow. unfold id. lia. }
  rewrite E in *. split; try done. apply Forall_app in Hq as [Hq Hab].
  repeat rewrite Forall_cons in Hab. apply Forall_app. split; [done|]. repeat constructor. lia.
Qed.

Lemma log_rep_head j q : log_rep j q -> first j <= head j <= last j.
Proof. intros [[? ? ?] ? ? ? ? ->]. apply pos_range. lia. Qed.
