(* ===== verification/Commit.v ===== *)
(** * Background journal commit

    The device-side handling of a background journal transaction in
    [devfs/src/journal.c]: persisting the data chunks ([persist_data]),
    writing metadata, superblock snapshot, descriptor and commit record
    ([persist_meta_and_commit]), and the list of transactions waiting for
    checkpoint.  The handler is split at its wait for the transaction's turn;
    [persist_meta_and_commit] is the composition. *)

From S2P Require Import Prelude Bio Sjd JournalLog.

(** ** State *)

Record fetch_ctx := mk_fctx { req_cnt : Z; desc_blk_baddr : Z; total_log_size : Z }.

(** A committed transaction; [ce_log] is the index of its log. *)
Record ckpt_list_entry := mk_ce {
  ce_log : Z;
  ce_j_start_baddr : Z;
  ce_total_tx_size : Z;
  ce_tx_id : Z;
  ce_desc_blk : block;
  ce_meta : list block;
  ce_ready : bool
}.

Record devfs := mk_devfs {
  d_sb : journal_superblock;
  d_logs : Z -> journal_log;
  d_fctx : Z -> fetch_ctx;
  d_tx_seqn : Z;
  d_ckpt_list : list ckpt_list_entry;
  d_disk : disk
}.

Definition set_sb (s : devfs) x := mk_devfs x (d_logs s) (d_fctx s) (d_tx_seqn s) (d_ckpt_list s) (d_disk s).
Definition set_log (s : devfs) i x :=
  mk_devfs (d_sb s) (upd (d_logs s) i x) (d_fctx s) (d_tx_seqn s) (d_ckpt_list s) (d_disk s).
Definition set_fctx (s : devfs) i x :=
  mk_devfs (d_sb s) (d_logs s) (upd (d_fctx s) i x) (d_tx_seqn s) (d_ckpt_list s) (d_disk s).
Definition set_seqn (s : devfs) x := mk_devfs (d_sb s) (d_logs s) (d_fctx s) x (d_ckpt_list s) (d_disk s).
Definition set_ckpt_list (s : devfs) x := mk_devfs (d_sb s) (d_logs s) (d_fctx s) (d_tx_seqn s) x (d_disk s).
Definition set_disk (s : devfs) x := mk_devfs (d_sb s) (d_logs s) (d_fctx s) (d_tx_seqn s) (d_ckpt_list s) x.

Definition sb_set_start (sb : journal_superblock) (x : Z) : journal_superblock :=
  mk_jsb (h_magic sb) (h_blocktype sb) (h_txid sb) (jsb_block_size sb) (jsb_first sb)
    (jsb_maxlen sb) (jsb_tx_id sb) x (jsb_err_no sb) (jsb_max_transaction sb) (jsb_max_trans_data sb).

Definition sb_set_tx_id (sb : journal_superblock) (x : Z) : journal_superblock :=
  mk_jsb (h_magic sb) (h_blocktype sb) (h_txid sb) (jsb_block_size sb) (jsb_first sb)
    (jsb_maxlen sb) x (jsb_start sb) (jsb_err_no sb) (jsb_max_transaction sb) (jsb_max_trans_data sb).

Definition reset_fetch_ctx (ctx : fetch_ctx) : fetch_ctx := mk_fctx 0 0 0.

Definition reset_jnr_ctx (s : devfs) : devfs :=
  let s := set_seqn s 0 in
  let s := set_fctx s 0 (reset_fetch_ctx (d_fctx s 0)) in
  set_fctx s 1 (reset_fetch_ctx (d_fctx s 1)).

(** ** Data chunks *)

(** Dispatch with the caller's DMA buffer: the disk afterwards and the number
    of submitted commands. *)
Definition se_dispatch_io_nocopy_async (max_io_size : Z) (m : mem) (bl : bio_list) (d : disk)
  : res (disk * Z) :=
  let* (cmds, req_cnt) := nvmf_dispatch_io_fast max_io_size bl false true in
  Ok (bl_write m bl d, req_cnt).

(** [persist_data]: result code and state. *)
Definition persist_data (max_io_size : Z) (m : mem) (s : devfs)
    (df_id req_id rdma_buf size : Z) : res (Z * devfs) :=
  let j_log := d_logs s df_id in
  assert! (negb (size =? 0)) in
  let chunk_start := get_chunck_start j_log req_id in
  let* (data_start, s) :=
    if req_id =? 0 then
      let f_ctx := d_fctx s df_id in
      assert! (desc_blk_baddr f_ctx =? 0) in
      Ok (u64 (chunk_start + 1),
          set_fctx s df_id (mk_fctx (req_cnt f_ctx) chunk_start (total_log_size f_ctx)))
    else Ok (chunk_start, s) in
  let* (bl_first, bl_second, rdma_buf_second) :=
    add_bios_considering_wrap_into_separate_bls j_log [] [] data_start rdma_buf size in
  let* (d, nr_total_reqs) := se_dispatch_io_nocopy_async max_io_size m bl_first (d_disk s) in
  let s := set_disk s d in
  if s32 nr_total_reqs =? 0 then Ok (0, s) (* goto free *)
  else
    let* (ret, s) :=
      if negb (match bl_second with [] => true | _ => false end) then
        let* (d, n) := se_dispatch_io_nocopy_async max_io_size m bl_second (d_disk s) in
        Ok (s32 n, set_disk s d)
      else Ok (0, s) in
    if ret <? 0 then Ok (ret, s) (* goto free *)
    else
      let f_ctx := d_fctx s df_id in
      Ok (ret, set_fctx s df_id (mk_fctx (u32 (req_cnt f_ctx + 1)) (desc_blk_baddr f_ctx)
                                   (u64 (total_log_size f_ctx + size)))).

(** [handle_fetch_data], once the buffer is fetched from the host. *)
Definition handle_fetch_data (max_io_size : Z) (m : mem) (s : devfs)
    (df_id req_id read_buf size : Z) : res (Z * devfs) :=
  let* (ret, s) := persist_data max_io_size m s df_id req_id read_buf size in
  if ret <? 0 then Ok (-1, s) else Ok (0, s).

(** ** Metadata and commit record *)

Definition wait_for_all_persist_data_completion (f_ctx : fetch_ctx)
    (total_data_size n_fetch_reqs : Z) : res unit :=
  wait! (req_cnt f_ctx =? n_fetch_reqs) in
  assert! (total_data_size =? total_log_size f_ctx) in
  Ok tt.

(** Stack buffers of the handler: superblock snapshot and commit header. *)
Definition SB_BUF : Z := -1.
Definition CH_BUF : Z := -2.

(** What the first part leaves for the second: the checkpoint entry, the
    address of the commit record, the log tail seen under the lock. *)
Record pending_tx := mk_pending {
  p_df : Z; p_ce : ckpt_list_entry; p_commit_baddr : Z; p_log_tail : Z; p_commit_bl : bio_list
}.

(** The descriptor block and the metadata blocks kept in memory. *)
Definition copy_desc_and_meta_to_tx_meta (m : mem) (rdma_buf : Z) : block * list block :=
  let jdh := m rdma_buf in
  (jdh,
   if (jd_nr_etag_blks jdh =? 0) && (jd_nr_stage_trace_blks jdh =? 0) then []
   else m <$> seqz (rdma_buf + 1) (u32 (jd_nr_etag_blks jdh + jd_nr_stage_trace_blks jdh))).

(** Space accounting under the log lock; returns start of the metadata. *)
Definition alloc_tx_space (s : devfs) (df_id md_size total_data_size n_fetch_reqs : Z)
  : res (devfs * Z) :=
  let* s :=
    if n_fetch_reqs =? 0 then
      assert! (total_data_size =? 0) in
      let* (j_log, jnl_alloc_start) := alloc_journal_space (d_logs s df_id) OXBOW_BLOCK_SIZE in
      let s := set_log s df_id j_log in
      let f_ctx := d_fctx s df_id in
      assert! (req_cnt f_ctx =? 0) in
      assert! (desc_blk_baddr f_ctx =? 0) in
      assert! (total_log_size f_ctx =? 0) in
      Ok (set_fctx s df_id (mk_fctx (req_cnt f_ctx) jnl_alloc_start (total_log_size f_ctx)))
    else
      let* _ := wait_for_all_persist_data_completion (d_fctx s df_id) total_data_size
                  (u32 n_fetch_reqs) in
      Ok (set_log s df_id
            (update_log_state (d_logs s df_id) (u64 (Z.shiftr total_data_size 12 + 1)))) in
  let jnl_md_size := u64 (md_size - OXBOW_BLOCK_SIZE) in
  let jnl_meta_alloc_size := u64 (jnl_md_size + OXBOW_BLOCK_SIZE * 2) in
  let* (j_log, start_baddr) := alloc_journal_space (d_logs s df_id) jnl_meta_alloc_size in
  Ok (set_log s df_id j_log, start_baddr).

(** [persist_meta_and_commit] up to its wait for the transaction's turn. *)
Definition journal_write_meta (m : mem) (s : devfs)
    (df_id rdma_buf md_size total_data_size n_fetch_reqs : Z) : res (devfs * pending_tx * mem) :=
  assert! (negb (md_size =? 0)) in
  let* (s, start_baddr) := alloc_tx_space s df_id md_size total_data_size n_fetch_reqs in
  let j_log := d_logs s df_id in
  let log_tail := tail j_log in
  let jnl_md_size := u64 (md_size - OXBOW_BLOCK_SIZE) in
  let jnl_meta_alloc_size := u64 (jnl_md_size + OXBOW_BLOCK_SIZE * 2) in
  let* (meta_bl, next_baddr) :=
    add_bios_considering_wrap j_log [] start_baddr (rdma_buf + 1) jnl_md_size in
  let m := upd m SB_BUF (enc_jsb (sb_set_start (d_sb s) log_tail)) in
  let '(meta_bl, next_baddr) := add_bio_considering_wrap j_log meta_bl next_baddr SB_BUF in
  let m := upd m rdma_buf (jd_set_meta_start_baddr (m rdma_buf) start_baddr) in
  let jdb := m rdma_buf in
  let desc := desc_blk_baddr (d_fctx s df_id) in
  let '(meta_bl, _) := add_bio_considering_wrap j_log meta_bl desc rdma_buf in
  let s := set_disk s (bl_write m meta_bl (d_disk s)) in
  let commit_baddr := next_baddr in
  let '(commit_bl, _) := add_bio_considering_wrap j_log [] commit_baddr CH_BUF in
  let total_tx_size := u64 (total_data_size + jnl_meta_alloc_size + nblks_to_bytes 1) in
  let '(desc_blk, meta) := copy_desc_and_meta_to_tx_meta m rdma_buf in
  let ce := mk_ce df_id desc total_tx_size (jd_transaction_id jdb) desc_blk meta false in
  Ok (s, mk_pending df_id ce commit_baddr log_tail commit_bl, m).

Definition ckpt_list_enqueue (s : devfs) (ce : ckpt_list_entry) : devfs :=
  set_ckpt_list s (d_ckpt_list s ++ [ce]).

(** The rest: wait for the turn, write the commit record, publish. *)
Definition journal_commit (m : mem) (sec nsec : Z) (s : devfs) (p : pending_tx) : res devfs :=
  let tx_id := ce_tx_id (p_ce p) in
  let cur_seqn := d_tx_seqn s in
  wait! ((cur_seqn =? 0) || (tx_id =? u32 (cur_seqn + 1))) in
  let s := set_sb s (sb_set_start (d_sb s) (p_log_tail p)) in
  let m := upd m CH_BUF (enc_commit (h_magic (d_sb s)) tx_id sec nsec) in
  let s := set_disk s (bl_write m (p_commit_bl p) (d_disk s)) in
  let s := if jsb_tx_id (d_sb s) =? 0 then set_sb s (sb_set_tx_id (d_sb s) tx_id) else s in
  let s := set_fctx s (p_df p) (reset_fetch_ctx (d_fctx s (p_df p))) in
  let s := ckpt_list_enqueue s (p_ce p) in
  Ok (set_seqn s tx_id).

Definition persist_meta_and_commit (m : mem) (sec nsec : Z) (s : devfs)
    (df_id rdma_buf md_size total_data_size n_fetch_reqs : Z) : res devfs :=
  let* (s, p, m) := journal_write_meta m s df_id rdma_buf md_size total_data_size n_fetch_reqs in
  journal_commit m sec nsec s p.

(** [handle_journal], once the metadata is fetched: the transaction id for
    the response and the state. *)
Definition handle_journal (m : mem) (sec nsec : Z) (s : devfs)
    (df_id read_buf md_size total_data_size n_fetch_reqs : Z) : res (Z * devfs) :=
  let tx_id := jd_transaction_id (m read_buf) in
  let* s := persist_meta_and_commit m sec nsec s df_id read_buf md_size total_data_size n_fetch_reqs in
  Ok (tx_id, s).

(** ** The list of transactions to checkpoint *)

Definition CKPT_THRESHOLD_FREE_TARGET : Z := 80.
Definition CKPT_THRESHOLD_FREE_TRIGGER : Z := 2.

Definition ce_set_ready (ce : ckpt_list_entry) : ckpt_list_entry :=
  mk_ce (ce_log ce) (ce_j_start_baddr ce) (ce_total_tx_size ce) (ce_tx_id ce)
    (ce_desc_blk ce) (ce_meta ce) true.

(** [prepare_ckpt] of the [i]-th entry; below the threshold it stops in
    [oxbow_assert(0)]. *)
Definition prepare_ckpt (s : devfs) (i : nat) : res devfs :=
  match d_ckpt_list s !! i with
  | None => Ok s
  | Some ce =>
      let s := set_ckpt_list s (<[i := ce_set_ready ce]> (d_ckpt_list s)) in
      let free_perc := journal_free_percent (d_logs s (ce_log ce)) in
      assert! (negb (free_perc <? CKPT_THRESHOLD_FREE_TRIGGER)) in
      Ok s
  end.

Definition ckpt_list_dequeue (s : devfs) : option ckpt_list_entry * devfs :=
  match d_ckpt_list s with
  | [] => (None, s)
  | ce :: rest => if ce_ready ce then (Some ce, set_ckpt_list s rest) else (None, s)
  end.

Definition lower_journal_free_percent (s : devfs) : Z :=
  Z.min (journal_free_percent (d_logs s 0)) (journal_free_percent (d_logs s 1)).

Definition increase_journal_sb_tx_id (s : devfs) (this_tx_id : Z) : devfs :=
  set_sb s (sb_set_tx_id (d_sb s) (u32 (this_tx_id + 1))).

(** [sync_journal_sb]: the on-disk superblock takes the in-memory one with
    the tail of the given log; [jsb_baddr] is the global [g_jsb_baddr]. *)
Definition sync_journal_sb (jsb_baddr : Z) (s : devfs) (j_log : journal_log) : devfs :=
  let s := set_sb s (sb_set_start (d_sb s) (tail j_log)) in
  set_disk s (upd (d_disk s) jsb_baddr (enc_jsb (d_sb s))).

(** Release the space of a checkpointed transaction and persist the tail. *)
Definition release_tx (jsb_baddr : Z) (s : devfs) (ce : ckpt_list_entry) : res devfs :=
  let s := increase_journal_sb_tx_id s (ce_tx_id ce) in
  let* j_log := free_journal_space (d_logs s (ce_log ce)) (ce_j_start_baddr ce) (ce_total_tx_size ce) in
  Ok (sync_journal_sb jsb_baddr (set_log s (ce_log ce) j_log) j_log).

(** ** Data chunks land in the ring *)

(** The log area lies on a supported device. *)
Definition log_on_device (j : journal_log) : Prop :=
  (last j + 1) * OXBOW_BLOCK_SIZE <= OXBOW_MAX_DEV_SIZE.

(** First data block of chunk [req_id] of the transaction at the head. *)
Definition chunk_data_start (j : journal_log) (req_id : Z) : Z := head j + 1 + req_id * 8192.

Lemma dispatch_le1 mx m bl d :
  0 < mx < 1048576 -> (length bl <= 1)%nat ->
  Forall (fun b => on_device b /\ bv_nblks b <= 8192) bl ->
  exists cnt, se_dispatch_io_nocopy_async (4096 * mx) m bl d = Ok (bl_write m bl d, cnt) /\
    0 <= cnt <= 8192 /\ (cnt = 0 <-> bl = []).
Proof.
  intros Hmx Hl Hb. destruct bl as [|b [|b' bl]]; cbn in Hl; [| |lia].
  - by exists 0.
  - apply Forall_cons in Hb as [[Hb Hn] _].
    destruct (dispatch_custom_count mx b Hmx Hb Hn) as (cmds & E & Hc).
    exists (CEILING (bv_nblks b) mx). unfold se_dispatch_io_nocopy_async. rewrite E. cbn [res_bind].
    split; [done|]. split; [lia|]. split; [lia|done].
Qed.

Lemma persist_data_ok mx m s df req_id buf n :
  let j := d_logs s df in
  let f := d_fctx s df in
  0 < mx < 1048576 -> log_geom j -> log_on_device j -> first j <= head j <= last j ->
  0 <= req_id < U32_MOD -> 0 < n <= 8192 -> n <= log_len j ->
  chunk_data_start j req_id <= last j ->
  (req_id = 0 -> desc_blk_baddr f = 0) ->
  0 <= req_cnt f < U32_MOD - 1 -> 0 <= total_log_size f -> total_log_size f + 4096 * n < U64_MOD ->
  exists ret s', persist_data (4096 * mx) m s df req_id buf (4096 * n) = Ok (ret, s') /\ 0 <= ret /\
    d_disk s' ≡d write_ring (d_disk s) m j (chunk_data_start j req_id) buf n /\
    d_logs s' = d_logs s /\ d_sb s' = d_sb s /\ d_tx_seqn s' = d_tx_seqn s /\
    d_ckpt_list s' = d_ckpt_list s /\
    (forall i, d_fctx s' i = if i =? df then
       mk_fctx (req_cnt f + 1) (if req_id =? 0 then head j else desc_blk_baddr f)
         (total_log_size f + 4096 * n) else d_fctx s i).
Proof.
  intros j f Hmx Hg Hdev Hh Hr Hn Hnl Hst Hdesc Hcnt Htot Htot'.
  pose proof Hg as [H1 H2 H3]. unfold chunk_data_start, log_on_device, OXBOW_BLOCK_SIZE, OXBOW_MAX_DEV_SIZE in *.
  unfold persist_data. fold j f. destruct (Z.eqb_spec (4096 * n) 0); [lia|]. cbn [negb assert_].
  set (s1 := if req_id =? 0 then set_fctx s df (mk_fctx (req_cnt f) (head j) (total_log_size f)) else s).
  assert (d_disk s1 = d_disk s /\ d_logs s1 = d_logs s /\ d_sb s1 = d_sb s /\
          d_tx_seqn s1 = d_tx_seqn s /\ d_ckpt_list s1 = d_ckpt_list s) as (Ed & El & Es & Eq & Ec)
    by (unfold s1; case_cmp; done).
  assert (forall i, d_fctx s1 i = if i =? df then
            mk_fctx (req_cnt f) (if req_id =? 0 then head j else desc_blk_baddr f) (total_log_size f)
          else d_fctx s i) as Ef.
  { intros i. unfold s1. destruct (req_id =? 0); cbn; unfold upd; case_cmp; subst; try done.
    by destruct (d_fctx s df). }
  match goal with |- context [res_bind (if req_id =? 0 then ?x else ?y) ?k] =>
    assert ((if req_id =? 0 then x else y) = Ok (head j + 1 + req_id * 8192, s1)) as -> end.
  { unfold get_chunck_start, s1. destruct (Z.eqb_spec req_id 0) as [->|].
    - rewrite Hdesc, Z.eqb_refl by done. cbn [assert_]. rewrite u64_id by lia. do 2 f_equal. lia.
    - change (Z.shiftr DATA_FETCHER_BUF_SIZE 12) with 8192. rewrite u64_id by lia. do 2 f_equal. lia. }
  cbn [res_bind].
  destruct (add_bios_separate_ok j (head j + 1 + req_id * 8192) buf n) as
    (b1 & b2 & buf2 & -> & Hw & L1 & L2 & Hb); [done|unfold log_len in *; lia|lia|].
  cbn [res_bind].
  assert (Forall (fun b => on_device b /\ bv_nblks b <= 8192) (b1 ++ b2)) as Hb'.
  { eapply Forall_impl; [exact Hb|]. unfold on_device, OXBOW_BLOCK_SIZE, OXBOW_MAX_DEV_SIZE. cbn. lia. }
  apply Forall_app in Hb' as [Hb1 Hb2].
  unfold CEILING in L1, L2.
  assert (length b1 = 1)%nat as Hl1 by (clear - L1 Hn Hst; Z.div_mod_to_equations; lia).
  assert (length b2 <= 1)%nat as Hl2 by (clear - L2 Hn Hst; Z.div_mod_to_equations; lia).
  destruct (dispatch_le1 mx m b1 (d_disk s1) Hmx ltac:(lia) Hb1) as (c1 & -> & Hc1 & Hz1).
  cbn [res_bind]. rewrite s32_small by lia. destruct (Z.eqb_spec c1 0) as [->|_].
  { by rewrite (proj1 Hz1 eq_refl) in Hl1. }
  destruct (dispatch_le1 mx m b2 (d_disk (set_disk s1 (bl_write m b1 (d_disk s1)))) Hmx Hl2 Hb2)
    as (c2 & E2 & Hc2 & _).
  match goal with |- context [res_bind (if ?c then ?x else ?y) ?k] =>
    assert (exists r, (if c then x else y) = Ok (r, set_disk s1 (bl_write m b2 (bl_write m b1 (d_disk s1))))
                      /\ 0 <= r) as (r & -> & Hr0) end.
  { destruct b2 as [|b b2]; cbn [negb].
    - by exists 0.
    - rewrite E2. cbn [res_bind]. exists (s32 c2). rewrite s32_small by lia. split; [done|lia]. }
  cbn [res_bind]. destruct (Z.ltb_spec r 0); [lia|].
  eexists r, _. split; [done|]. split; [lia|]. cbn. split_and!; try done.
  - intros b. rewrite Ed. apply Hw.
  - intros i. unfold upd. case_cmp; [subst|rewrite Ef; by case_cmp].
    rewrite Ef, Z.eqb_refl. cbn. by rewrite u32_id, u64_id by lia.
Qed.

(** ** A whole transaction

    The host sends the data in chunks, all of them full except the last, and
    then the metadata. *)

Fixpoint persist_chunks (max_io_size : Z) (m : mem) (s : devfs) (df_id req_id : Z)
    (cs : list (Z * Z)) : res devfs :=
  match cs with
  | [] => Ok s
  | (buf, n) :: cs' =>
      let* (_, s) := persist_data max_io_size m s df_id req_id buf (4096 * n) in
      persist_chunks max_io_size m s df_id (req_id + 1) cs'
  end.

(** Block [x] of the data. *)
Fixpoint data_at (m : mem) (cs : list (Z * Z)) (x : Z) : block :=
  match cs with
  | [] => []
  | (buf, n) :: cs' => if x <? n then m (buf + x) else data_at m cs' (x - n)
  end.

Definition chunk_blks (cs : list (Z * Z)) : Z := sumz snd cs.

(** Chunk sizes: positive, at most the buffer, full except for the last. *)
Fixpoint chunks_ok (cs : list (Z * Z)) : Prop :=
  match cs with
  | [] => True
  | (buf, n) :: cs' => 0 < n <= 8192 /\ (cs' <> [] -> n = 8192) /\ chunks_ok cs'
  end.

Lemma chunk_blks_nonneg cs : chunks_ok cs -> 0 <= chunk_blks cs.
Proof.
  induction cs as [|[b n] cs IH]; cbn; unfold chunk_blks; autorewrite with oxbow; [lia|].
  intros (? & ? & H). specialize (IH H). unfold chunk_blks in IH. cbn. lia.
Qed.

Lemma persist_chunks_ok mx m df cs : forall s r,
  let j := d_logs s df in
  let f := d_fctx s df in
  0 < mx < 1048576 -> log_geom j -> log_on_device j -> first j <= head j <= last j ->
  0 <= r -> r + Z.of_nat (length cs) < U32_MOD -> chunks_ok cs ->
  (cs <> [] -> r * 8192 + chunk_blks cs < log_len j) ->
  (cs <> [] -> chunk_data_start j (r + Z.of_nat (length cs) - 1) <= last j) ->
  (r = 0 -> desc_blk_baddr f = 0) -> (r <> 0 -> desc_blk_baddr f = head j) ->
  req_cnt f = r -> total_log_size f = 4096 * (r * 8192) \/ cs = [] ->
  exists s', persist_chunks (4096 * mx) m s df r cs = Ok s' /\
    (forall i, 0 <= i < log_len j ->
       d_disk s' (ring j (head j + 1 + i)) =
         if decide (r * 8192 <= i < r * 8192 + chunk_blks cs) then data_at m cs (i - r * 8192)
         else d_disk s (ring j (head j + 1 + i))) /\
    (forall b, ~ (first j <= b <= last j) -> d_disk s' b = d_disk s b) /\
    d_logs s' = d_logs s /\ d_sb s' = d_sb s /\ d_tx_seqn s' = d_tx_seqn s /\
    d_ckpt_list s' = d_ckpt_list s /\
    (forall i, i <> df -> d_fctx s' i = d_fctx s i) /\
    (cs <> [] -> d_fctx s' df = mk_fctx (r + Z.of_nat (length cs)) (head j) (4096 * (r * 8192 + chunk_blks cs))) /\
    (cs = [] -> d_fctx s' df = f).
Proof.
  induction cs as [|[buf n] cs IH]; intros s r j f Hmx Hg Hdev Hh Hr Hlen Hcs Hfit Hst Hd0 Hd1 Hc Ht.
  { exists s. cbn [persist_chunks]. split_and!; try done.
    intros i Hi. unfold chunk_blks. rewrite sumz_nil. destruct (decide _); [lia|done]. }
  destruct Hcs as (Hn & Hfull & Hcs). cbn [length] in Hlen, Hst.
  destruct Ht as [Ht|?]; [|done]. pose proof (chunk_blks_nonneg cs Hcs) as Hnn.
  assert (chunk_blks ((buf, n) :: cs) = n + chunk_blks cs) as Ecb by done. rewrite Ecb in *.
  specialize (Hst ltac:(done)). specialize (Hfit ltac:(done)). unfold chunk_data_start in Hst. pose proof Hg as [H1 H2 H3].
  destruct (persist_data_ok mx m s df r buf n) as (ret & s1 & E & _ & Hdisk & El & Es & Eq & Ec & Ef);
    fold j f; try (done || lia).
  { unfold chunk_data_start. lia. }
  fold j f in Hdisk, Ef. cbn [persist_chunks]. rewrite E. cbn [res_bind].
  pose proof (Ef df) as Efd. rewrite Z.eqb_refl in Efd.
  assert ((if r =? 0 then head j else desc_blk_baddr f) = head j) as Edesc
    by (case_cmp; [done | by apply Hd1]).
  rewrite Edesc in Efd.
  destruct (IH s1 (r + 1)) as (s2 & E2 & Hin & Hoff & El2 & Es2 & Eq2 & Ec2 & Efo & Efs & Efn);
    rewrite ?El, ?Efd; fold j; cbn [req_cnt desc_blk_baddr total_log_size]; try (done || lia).
  { intros Hne. rewrite Hfull in Hfit by done. lia. }
  { intros Hne. unfold chunk_data_start. lia. }
  { destruct cs as [|c cs]; [by right|left]. rewrite Hfull, Ht by done. lia. }
  rewrite El in Hin, Hoff, Efs. fold j in Hin, Hoff, Efs.
  exists s2. split; [done|]. split_and!; try congruence.
  - intros i Hi. rewrite Hin by done.
    assert (d_disk s1 (ring j (head j + 1 + i)) =
      if decide (r * 8192 <= i < r * 8192 + n) then m (buf + (i - r * 8192))
      else d_disk s (ring j (head j + 1 + i))) as E1.
    { rewrite Hdisk. unfold chunk_data_start.
      assert (i = r * 8192 + (i - r * 8192)) by lia.
      destruct (decide (r * 8192 <= i)) as [Hge|Hlt].
      - replace (head j + 1 + i) with (head j + 1 + r * 8192 + (i - r * 8192)) by lia.
        rewrite write_ring_at by lia. repeat destruct (decide _); try lia; done.
      - assert (ring j (head j + 1 + i) =
                ring j (head j + 1 + r * 8192 + (i - r * 8192 + log_len j))) as Ering.
        { unfold ring. replace (head j + 1 + r * 8192 + (i - r * 8192 + log_len j) - first j)
            with (head j + 1 + i - first j + 1 * log_len j) by lia. by rewrite Z_mod_plus_full. }
        rewrite Ering, write_ring_at by lia. repeat destruct (decide _); try lia; done. }
    rewrite E1. cbn [data_at].
    destruct cs as [|c cs].
    + unfold chunk_blks in *. rewrite sumz_nil in *.
      repeat destruct (decide _); try lia; try done. case_cmp; [done|lia].
    + rewrite Hfull in * by done.
      repeat destruct (decide _); try lia; try done; case_cmp; try lia; try done.
      f_equal. lia.
  - intros b Hb. rewrite Hoff, Hdisk by done. by apply write_ring_off.
  - intros i Hi. rewrite Efo by done. rewrite Ef. case_cmp; done.
  - intros _. destruct cs as [|c cs].
    + rewrite Efn, Efd by done. unfold chunk_blks. rewrite sumz_nil, Hc, Ht. cbn [length]. f_equal; lia.
    + rewrite Efs by done. rewrite Hfull by done. cbn [length]. f_equal; lia.
Qed.

(** Space for the descriptor and data ([N + 1] blocks), then for the metadata,
    superblock and commit blocks ([M + 2]). *)
Lemma alloc_tx_space_ok s df q N M k :
  let j := d_logs s df in
  let f := d_fctx s df in
  log_rep j q -> 0 <= N -> 0 <= M -> sumz id q + N + M + 3 <= log_len j ->
  0 <= k < U32_MOD ->
  (k = 0 -> N = 0 /\ f = mk_fctx 0 0 0) -> (k <> 0 -> f = mk_fctx k (head j) (4096 * N)) ->
  let j' := update_log_state (update_log_state j (N + 1)) (M + 2) in
  exists s', alloc_tx_space s df (4096 * (M + 1)) (4096 * N) k = Ok (s', ring j (head j + (N + 1))) /\
    log_rep j' (q ++ [N + M + 3]) /\ d_logs s' df = j' /\
    (forall i, i <> df -> d_logs s' i = d_logs s i) /\
    desc_blk_baddr (d_fctx s' df) = head j /\ (forall i, i <> df -> d_fctx s' i = d_fctx s i) /\
    d_disk s' = d_disk s /\ d_sb s' = d_sb s /\ d_tx_seqn s' = d_tx_seqn s /\
    d_ckpt_list s' = d_ckpt_list s.
Proof.
  intros j f Hrep HN HM Hfit Hk Hk0 Hk1 j'.
  pose proof (lr_geom _ _ Hrep) as [H1 H2 H3].
  pose proof (log_rep_advance j q (N + 1) Hrep ltac:(lia) ltac:(lia)) as Hrep1.
  set (j1 := update_log_state j (N + 1)) in *.
  assert (sumz id (q ++ [N + 1]) = sumz id q + (N + 1)) as Es by (autorewrite with oxbow; unfold id; lia).
  assert (log_len j1 = log_len j) as El1 by done.
  pose proof (log_rep_advance j1 (q ++ [N + 1]) (M + 2) Hrep1 ltac:(lia) ltac:(rewrite Es, El1; lia)) as Hrep2.
  assert (log_rep j' (q ++ [N + M + 3])) as Hrep'.
  { rewrite <- (assoc_L (++)) in Hrep2. apply log_rep_merge in Hrep2.
    by replace (N + M + 3) with (N + 1 + (M + 2)) by lia. }
  pose proof (sumz_nonneg id q (lr_pos _ _ Hrep)) as Hs0.
  assert (pos j1 (sumz id (q ++ [N + 1])) = ring j (head j + (N + 1))) as Epos.
  { rewrite Es, (lr_head _ _ Hrep), pos_ring, pos_ring, ring_add by lia. unfold ring; cbn. do 2 f_equal. lia. }
  unfold alloc_tx_space. fold j f.
  match goal with |- context [res_bind (if ?c then ?x else ?y) ?k] =>
    assert (exists s1, (if c then x else y) = Ok s1 /\ d_logs s1 df = j1 /\
      (forall i, i <> df -> d_logs s1 i = d_logs s i) /\ desc_blk_baddr (d_fctx s1 df) = head j /\
      (forall i, i <> df -> d_fctx s1 i = d_fctx s i) /\
      d_disk s1 = d_disk s /\ d_sb s1 = d_sb s /\ d_tx_seqn s1 = d_tx_seqn s /\
      d_ckpt_list s1 = d_ckpt_list s) as (s1 & -> & Ej & Ejo & Ed & Efo & ? & ? & ? & ?) end.
  { destruct (Z.eqb_spec k 0) as [->|Hne].
    - destruct (Hk0 eq_refl) as [-> Ef]. cbn [Z.eqb Z.mul assert_].
      change OXBOW_BLOCK_SIZE with (4096 * 1). rewrite (alloc_ok j q 1) by (done || lia).
      rewrite decide_True by lia. cbn [res_bind d_fctx set_log]. fold f. rewrite Ef. cbn.
      eexists. split; [done|]. cbn. rewrite !upd_eq. split_and!; try done.
      all: try (intros i Hi; by apply upd_ne).
      by rewrite (lr_head _ _ Hrep).
    - rewrite (Hk1 Hne) in *. unfold wait_for_all_persist_data_completion. cbn [req_cnt total_log_size].
      rewrite (u32_id k), !Z.eqb_refl by lia. cbn [wait_until assert_ res_bind].
      rewrite Z.shiftr_div_pow2 by lia. change (2 ^ 12) with 4096.
      rewrite Z.mul_comm, Z_div_mult, u64_id by lia.
      eexists. split; [done|]. cbn. rewrite upd_eq. split_and!; try done.
      + intros i Hi. by apply upd_ne.
      + fold f. by rewrite (Hk1 Hne). }
  cbn [res_bind]. unfold OXBOW_BLOCK_SIZE. rewrite Ej.
  rewrite (u64_id (4096 * (M + 1) - 4096)), u64_id by lia.
  replace (4096 * (M + 1) - 4096 + 4096 * 2) with (4096 * (M + 2)) by lia.
  rewrite (alloc_ok j1 (q ++ [N + 1])) by (done || lia).
  rewrite decide_True by (rewrite Es, El1; lia). cbn [res_bind].
  eexists. rewrite Epos. split; [done|]. split; [done|]. cbn. rewrite upd_eq. split_and!; try done.
  intros i Hi. rewrite upd_ne by done. by apply Ejo.
Qed.

Lemma bl_write_snoc1 m bl a buf d b :
  bl_write m (bl ++ [mk_bio a buf 1]) d b = if decide (b = a) then m buf else bl_write m bl d b.
Proof.
  rewrite bl_write_app, bl_write_cons. cbn. change (bl_write m [] ?d b) with (d b).
  unfold write_blks. destruct (decide (b = a)) as [->|].
  - replace (buf + (a - a)) with buf by lia. repeat case_cmp; cbn; done || lia.
  - repeat case_cmp; cbn; done || lia.
Qed.

(** The metadata list: etag and trace blocks from [start], the superblock
    snapshot after them, the descriptor at the head of the transaction. *)
Lemma ring_next_ring j x n :
  log_geom j -> first j <= x <= last j -> 0 <= n <= log_len j ->
  first j <= ring_next j x n <= last j + 1 /\ ring j (ring_next j x n) = ring j (x + n).
Proof.
  intros [H1 H2 H3] Hx Hn. unfold ring_next, ring, log_len in *. case_cmp; [|split; [lia|done]].
  split; [lia|]. replace (x + n - first j)
    with (first j + (n - (last j - x + 1)) - first j + 1 * (last j - first j + 1)) by lia.
  by rewrite Z_mod_plus_full.
Qed.

(** The ring offset seen from another start. *)
Lemma ring_rebase j x c i :
  0 < log_len j -> ring j (x + i) = ring j (ring j (x + c) + (i - c) mod log_len j).
Proof.
  intros. rewrite ring_add by lia. unfold ring. f_equal.
  replace (x + c + (i - c) mod log_len j - first j)
    with ((i - c) mod log_len j + (x + c - first j)) by lia.
  rewrite Zplus_mod_idemp_l. f_equal. lia.
Qed.

Lemma meta_bl_disk j m d bs hd buf sbp dp N M :
  log_geom j -> first j <= hd <= last j -> 0 <= N -> 0 <= M -> N + M + 3 <= log_len j ->
  (forall d, bl_write m bs d ≡d write_ring d m j (ring j (hd + (N + 1))) buf M) ->
  let bl := (bs ++ [mk_bio (ring j (hd + (N + M + 1))) sbp 1]) ++ [mk_bio hd dp 1] in
  (forall i, 0 <= i < log_len j ->
     bl_write m bl d (ring j (hd + i)) =
       if decide (i = 0) then m dp
       else if decide (N + 1 <= i < N + 1 + M) then m (buf + (i - (N + 1)))
       else if decide (i = N + M + 1) then m sbp else d (ring j (hd + i))) /\
  (forall b, ~ (first j <= b <= last j) -> bl_write m bl d b = d b).
Proof.
  intros [H1 H2 H3] Hh HN HM Hl Hbs bl. split.
  - intros i Hi. unfold bl. rewrite !bl_write_snoc1.
    assert (ring j (hd + 0) = hd) as Ehd by (rewrite Z.add_0_r; apply ring_small; lia).
    assert (forall i', 0 <= i' < log_len j -> i <> i' -> ring j (hd + i) <> ring j (hd + i')) as Hinj.
    { intros i' Hi' Hne E. by apply Hne, (ring_inj j hd). }
    destruct (decide (i = 0)) as [->|Hi0]; [by rewrite decide_True|].
    rewrite (decide_False (P := _ = hd)) by (rewrite <- Ehd at 2; apply Hinj; lia).
    destruct (decide (i = N + M + 1)) as [->|Hisb]; [by rewrite decide_True, decide_False by lia|].
    rewrite (decide_False (P := _ = ring j (hd + (N + M + 1)))) by (apply Hinj; lia).
    rewrite Hbs. set (i2 := (i - (N + 1)) mod log_len j).
    assert (ring j (hd + i) = ring j (ring j (hd + (N + 1)) + i2)) as Er by (apply ring_rebase; lia).
    pose proof (Z.mod_pos_bound (i - (N + 1)) (log_len j) ltac:(lia)).
    rewrite Er, write_ring_at by (unfold i2; lia).
    destruct (decide (N + 1 <= i < N + 1 + M)) as [Hin|Hout].
    + assert (i2 = i - (N + 1)) as -> by (unfold i2; rewrite Z.mod_small; lia).
      by rewrite decide_True by lia.
    + rewrite decide_False; [done|]. unfold i2. destruct (decide (N + 1 <= i)).
      * rewrite Z.mod_small; lia.
      * replace (i - (N + 1)) with (i - (N + 1) + log_len j + (-1) * log_len j) by lia.
        rewrite Z_mod_plus_full, Z.mod_small; lia.
  - intros b Hb. pose proof (ring_range j (hd + (N + M + 1)) ltac:(lia)).
    unfold bl. rewrite !bl_write_snoc1, !decide_False by lia. rewrite Hbs. by apply write_ring_off.
Qed.

Lemma journal_write_meta_ok m s df q N M k rdma_buf :
  let j := d_logs s df in
  let f := d_fctx s df in
  let desc := jd_set_meta_start_baddr (m rdma_buf) (ring j (head j + (N + 1))) in
  let sb := enc_jsb (sb_set_start (d_sb s) (tail j)) in
  log_rep j q -> 0 <= N -> 0 <= M -> sumz id q + N + M + 3 <= log_len j ->
  0 <= k < U32_MOD -> 0 <= rdma_buf ->
  (k = 0 -> N = 0 /\ f = mk_fctx 0 0 0) -> (k <> 0 -> f = mk_fctx k (head j) (4096 * N)) ->
  let j' := update_log_state (update_log_state j (N + 1)) (M + 2) in
  exists s' m', let ce := mk_ce df (head j) (4096 * (N + M + 3)) (jd_transaction_id desc) desc
                       (copy_desc_and_meta_to_tx_meta m' rdma_buf).2 false in
    journal_write_meta m s df rdma_buf (4096 * (M + 1)) (4096 * N) k =
      Ok (s', mk_pending df ce (ring j (head j + (N + M + 1)) + 1) (tail j)
                [mk_bio (ring j (head j + (N + M + 2))) CH_BUF 1], m') /\
    (forall i, 0 <= i < log_len j ->
       d_disk s' (ring j (head j + i)) =
         if decide (i = 0) then desc
         else if decide (N + 1 <= i < N + 1 + M) then m (rdma_buf + (i - N))
         else if decide (i = N + M + 1) then sb else d_disk s (ring j (head j + i))) /\
    (forall b, ~ (first j <= b <= last j) -> d_disk s' b = d_disk s b) /\
    (forall p, 0 <= p -> p <> rdma_buf -> m' p = m p) /\ m' rdma_buf = desc /\
    log_rep j' (q ++ [N + M + 3]) /\ d_logs s' df = j' /\
    (forall i, i <> df -> d_logs s' i = d_logs s i) /\
    (forall i, i <> df -> d_fctx s' i = d_fctx s i) /\
    d_sb s' = d_sb s /\ d_tx_seqn s' = d_tx_seqn s /\ d_ckpt_list s' = d_ckpt_list s.
Proof.
  intros j f desc sb Hrep HN HM Hfit Hk Hbuf Hk0 Hk1 j'.
  pose proof (lr_geom _ _ Hrep) as Hg. pose proof Hg as [H1 H2 H3].
  pose proof (log_rep_head _ _ Hrep) as Hh.
  pose proof (sumz_nonneg id q (lr_pos _ _ Hrep)) as Hs0.
  unfold journal_write_meta. destruct (Z.eqb_spec (4096 * (M + 1)) 0); [lia|]. cbn [negb assert_].
  destruct (alloc_tx_space_ok s df q N M k Hrep HN HM Hfit Hk Hk0 Hk1)
    as (s1 & -> & Hrep' & Ej & Ejo & Ed & Efo & Edisk & Esb & Eseq & Eck).
  fold j in Hrep', Ej, Ed |- *. fold j' in Hrep', Ej. cbn [res_bind]. rewrite Ej. unfold OXBOW_BLOCK_SIZE.
  rewrite (u64_id (4096 * (M + 1) - 4096)) by lia.
  rewrite (u64_id (4096 * (M + 1) - 4096 + 4096 * 2)) by lia.
  replace (4096 * (M + 1) - 4096) with (4096 * M) by lia.
  set (st := ring j (head j + (N + 1))) in *.
  pose proof (ring_range j (head j + (N + 1)) ltac:(lia)) as Hst. fold st in Hst.
  assert (log_geom j') as Hg' by apply (lr_geom _ _ Hrep').
  destruct (add_bios_considering_wrap_ok j' [] st (rdma_buf + 1) M) as (bs & -> & Hbs);
    [done | cbn; lia | unfold log_len in *; cbn; lia |].
  cbn [res_bind]. rewrite app_nil_l.
  destruct (ring_next_ring j' st M) as [Hnx Enx]; [done | cbn; lia | unfold log_len in *; cbn; lia |].
  change (ring j') with (ring j) in Enx. change (first j') with (first j) in *.
  change (last j') with (last j) in *.
  rewrite add_bio_considering_wrap_ok by done. change (first j') with (first j).
  change (log_len j') with (log_len j).
  assert (first j + (ring_next j' st M - first j) mod log_len j = ring j (head j + (N + M + 1))) as Esbaddr.
  { change (ring j (ring_next j' st M) = ring j (head j + (N + M + 1))). rewrite Enx. unfold st.
    rewrite ring_add by lia. f_equal. lia. }
  rewrite Esbaddr. rewrite Ed.
  rewrite add_bio_considering_wrap_ok by (change (first j') with (first j); change (last j') with (last j); done || lia).
  change (first j') with (first j). change (log_len j') with (log_len j).
  assert (first j + (head j - first j) mod log_len j = head j) as Ehead by (apply ring_small; lia).
  rewrite Ehead.
  pose proof (ring_range j (head j + (N + M + 1)) ltac:(lia)) as Hsbr.
  rewrite add_bio_considering_wrap_ok by (change (first j') with (first j); change (last j') with (last j); done || lia).
  change (first j') with (first j). change (log_len j') with (log_len j).
  assert (first j + (ring j (head j + (N + M + 1)) + 1 - first j) mod log_len j =
          ring j (head j + (N + M + 2))) as Ecom.
  { change (ring j (ring j (head j + (N + M + 1)) + 1) = ring j (head j + (N + M + 2))).
    rewrite ring_add by lia. f_equal. lia. }
  rewrite Ecom. change (nblks_to_bytes 1) with 4096. rewrite (u64_id (4096 * N + _ + 4096)) by lia.
  set (m' := upd (upd m SB_BUF _) rdma_buf _).
  assert (m' rdma_buf = desc) as Edesc.
  { unfold m'. rewrite upd_eq. rewrite upd_ne by (unfold SB_BUF; lia). done. }
  assert (m' SB_BUF = sb) as Em'sb.
  { unfold m'. rewrite upd_ne by (unfold SB_BUF; lia). rewrite upd_eq. unfold sb. by rewrite Esb. }
  assert (forall p, 0 <= p -> p <> rdma_buf -> m' p = m p) as Emo.
  { intros p Hp Hpr. unfold m'. rewrite !upd_ne by (unfold SB_BUF; lia). done. }
  destruct (meta_bl_disk j m' (d_disk s1) bs (head j) (rdma_buf + 1) SB_BUF rdma_buf N M) as [Hin Hoff];
    [done|done|lia|lia|lia|exact (Hbs m')|].
  eexists _, m'. cbn zeta. split.
  { replace (4096 * N + (4096 * M + 4096 * 2) + 4096) with (4096 * (N + M + 3)) by lia.
    unfold copy_desc_and_meta_to_tx_meta. rewrite Edesc. reflexivity. }
  split_and!; try done.
  - intros i Hi. cbn [d_disk set_disk]. rewrite Hin by done. rewrite Edesc, Em'sb, Edisk.
    repeat destruct (decide _); try done. rewrite Emo by lia. f_equal. lia.
  - intros b Hb. cbn [d_disk set_disk]. rewrite Hoff by done. by rewrite Edisk.
Qed.

(** One background transaction, as the host drives it. *)
Definition run_tx (max_io_size : Z) (m : mem) (sec nsec : Z) (s : devfs) (df_id : Z)
    (cs : list (Z * Z)) (rdma_buf M : Z) : res devfs :=
  let* s := persist_chunks max_io_size m s df_id 0 cs in
  persist_meta_and_commit m sec nsec s df_id rdma_buf (4096 * (M + 1)) (4096 * chunk_blks cs)
    (Z.of_nat (length cs)).

(** The state of a data fetcher between transactions. *)
Record tx_idle (s : devfs) (df : Z) (q : list Z) : Prop := {
  ti_rep : log_rep (d_logs s df) q;
  ti_dev : log_on_device (d_logs s df);
  ti_fctx : d_fctx s df = mk_fctx 0 0 0
}.

(** The turn of a transaction has come. *)
Definition tx_turn (s : devfs) (tx_id : Z) : Prop :=
  d_tx_seqn s = 0 \/ tx_id = u32 (d_tx_seqn s + 1).

(** Layout of a committed transaction of [N] data and [M] metadata blocks:
    block [i] of its extent. *)
Definition tx_block (m : mem) (cs : list (Z * Z)) (rdma_buf M : Z) (desc sb commit : block) (i : Z) : block :=
  let N := chunk_blks cs in
  if decide (i = 0) then desc
  else if decide (i <= N) then data_at m cs (i - 1)
  else if decide (i <= N + M) then m (rdma_buf + (i - N))
  else if decide (i = N + M + 1) then sb else commit.

Lemma commit_step_ok m sec nsec s p a :
  tx_turn s (ce_tx_id (p_ce p)) -> p_commit_bl p = [mk_bio a CH_BUF 1] ->
  exists s', journal_commit m sec nsec s p = Ok s' /\
    (forall b, d_disk s' b = if decide (b = a) then enc_commit (h_magic (d_sb s)) (ce_tx_id (p_ce p)) sec nsec
                             else d_disk s b) /\
    d_logs s' = d_logs s /\ d_fctx s' (p_df p) = mk_fctx 0 0 0 /\
    d_tx_seqn s' = ce_tx_id (p_ce p) /\ d_ckpt_list s' = d_ckpt_list s ++ [p_ce p].
Proof.
  intros Ht Hbl. unfold journal_commit.
  assert ((d_tx_seqn s =? 0) || (ce_tx_id (p_ce p) =? u32 (d_tx_seqn s + 1)) = true) as ->.
  { destruct Ht as [-> | ->]; [done|]. by rewrite Z.eqb_refl, orb_true_r. }
  cbn [wait_until]. eexists. split; [reflexivity|]. rewrite Hbl.
  assert (forall m d b, bl_write m [mk_bio a CH_BUF 1] d b = if decide (b = a) then m CH_BUF else d b) as Hw
    by (intros; apply (bl_write_snoc1 _ [])).
  destruct (jsb_tx_id _ =? 0); cbn -[bl_write]; split_and!; try done; try apply upd_eq.
  all: intros b; rewrite Hw; by rewrite upd_eq.
Qed.

(** The descriptor block with the address of the metadata filled in. *)
Definition tx_desc (m : mem) (s : devfs) (df : Z) (cs : list (Z * Z)) (rdma_buf : Z) : block :=
  let j := d_logs s df in
  jd_set_meta_start_baddr (m rdma_buf) (ring j (head j + (chunk_blks cs + 1))).

(** What a transaction of [cs] data chunks and [M] metadata blocks leaves. *)
Record tx_committed (m : mem) (sec nsec : Z) (s : devfs) (df : Z) (cs : list (Z * Z)) (rdma_buf M : Z)
    (q : list Z) (s' : devfs) : Prop := {
  tc_layout i : 0 <= i < chunk_blks cs + M + 3 ->
    d_disk s' (ring (d_logs s df) (head (d_logs s df) + i)) =
      tx_block m cs rdma_buf M (tx_desc m s df cs rdma_buf)
        (enc_jsb (sb_set_start (d_sb s) (tail (d_logs s df))))
        (enc_commit (h_magic (d_sb s)) (jd_transaction_id (tx_desc m s df cs rdma_buf)) sec nsec) i;
  tc_log i : chunk_blks cs + M + 3 <= i < log_len (d_logs s df) ->
    d_disk s' (ring (d_logs s df) (head (d_logs s df) + i)) =
      d_disk s (ring (d_logs s df) (head (d_logs s df) + i));
  tc_other b : ~ (first (d_logs s df) <= b <= last (d_logs s df)) -> d_disk s' b = d_disk s b;
  tc_idle : tx_idle s' df (q ++ [chunk_blks cs + M + 3]);
  tc_area : first (d_logs s' df) = first (d_logs s df) /\ last (d_logs s' df) = last (d_logs s df);
  tc_tail : tail (d_logs s' df) = tail (d_logs s df);
  tc_entry : exists ce, d_ckpt_list s' = d_ckpt_list s ++ [ce] /\ ce_log ce = df /\
    ce_j_start_baddr ce = head (d_logs s df) /\ ce_total_tx_size ce = 4096 * (chunk_blks cs + M + 3) /\
    ce_tx_id ce = jd_transaction_id (tx_desc m s df cs rdma_buf) /\
    ce_desc_blk ce = tx_desc m s df cs rdma_buf /\
    ce_meta ce = m <$> seqz (rdma_buf + 1) (u32 (jd_nr_etag_blks (tx_desc m s df cs rdma_buf) +
                                                  jd_nr_stage_trace_blks (tx_desc m s df cs rdma_buf))) /\
    ce_ready ce = false;
  tc_seqn : d_tx_seqn s' = jd_transaction_id (tx_desc m s df cs rdma_buf)
}.

Lemma run_tx_ok mx m sec nsec s df cs rdma_buf M q :
  let j := d_logs s df in
  let N := chunk_blks cs in
  0 < mx < 1048576 -> tx_idle s df q -> chunks_ok cs -> Z.of_nat (length cs) < U32_MOD ->
  0 <= M -> 0 <= rdma_buf -> sumz id q + N + M + 3 <= log_len j ->
  (cs <> [] -> chunk_data_start j (Z.of_nat (length cs) - 1) <= last j) ->
  tx_turn s (jd_transaction_id (tx_desc m s df cs rdma_buf)) ->
  exists s', run_tx (4096 * mx) m sec nsec s df cs rdma_buf M = Ok s' /\
    tx_committed m sec nsec s df cs rdma_buf M q s'.
Proof.
  intros j N Hmx [Hrep Hdev Hf] Hcs Hlen HM Hbuf Hfit Hst Hturn. set (desc := tx_desc m s df cs rdma_buf) in *.
  pose proof (lr_geom _ _ Hrep) as Hg. pose proof Hg as [H1 H2 H3].
  pose proof (log_rep_head _ _ Hrep) as Hh. fold j in Hg, H1, H2, H3, Hh.
  pose proof (sumz_nonneg id q (lr_pos _ _ Hrep)) as Hs0. pose proof (chunk_blks_nonneg cs Hcs) as HN. fold N in HN.
  unfold run_tx. fold N.
  destruct (persist_chunks_ok mx m df cs s 0) as
    (s1 & -> & Hd1 & Ho1 & El1 & Esb1 & Eq1 & Ec1 & _ & Efs & Efn); fold j; rewrite ?Hf; try (done || lia || (intros; fold N; lia)).
  { by left. }
  fold j N in Hd1, Ho1, Efs. cbn [res_bind]. unfold persist_meta_and_commit.
  destruct (journal_write_meta_ok m s1 df q N M (Z.of_nat (length cs)) rdma_buf) as
    (s2 & m2 & -> & Hd2 & Ho2 & Hm2 & Em2 & Hrep2 & Ej2 & _ & _ & Esb2 & Eq2 & Ec2);
    rewrite ?El1; fold j; try (done || lia).
  { intros Hz. destruct cs; [|cbn in Hz; lia]. by rewrite Efn, Hf by done. }
  { intros Hz. rewrite Efs; [f_equal; lia|]. by destruct cs. }
  cbn [res_bind]. rewrite El1, Esb1 in *. fold j in Hd2, Ho2, Hrep2, Ej2 |- *. change (jd_set_meta_start_baddr (m rdma_buf) (ring j (head j + (N + 1)))) with desc in *.
  edestruct commit_step_ok as (s3 & -> & Hd3 & El3 & Ef3 & Eq3 & Ec3); [| reflexivity |].
  { cbn [p_ce ce_tx_id]. unfold tx_turn. by rewrite Eq2, Eq1. }
  cbn [p_ce p_df ce_tx_id] in *.
  assert (forall i, 0 <= i < log_len j -> d_disk s1 (ring j (head j + i)) =
            if decide (1 <= i <= N) then data_at m cs (i - 1) else d_disk s (ring j (head j + i))) as Hd1'.
  { intros i Hi. destruct (decide (i = 0)) as [->|].
    - rewrite decide_False by lia.
      replace (ring j (head j + 0)) with (ring j (head j + 1 + (log_len j - 1))).
      + rewrite Hd1, decide_False by lia. done.
      + unfold ring. replace (head j + 1 + (log_len j - 1) - first j)
          with (head j + 0 - first j + 1 * log_len j) by lia. by rewrite Z_mod_plus_full.
    - replace (head j + i) with (head j + 1 + (i - 1)) by lia. rewrite Hd1 by lia.
      replace (i - 1 - 0 * 8192) with (i - 1) by lia. repeat destruct (decide _); try lia; done. }
  exists s3. split; [done|]. split; fold j N desc.
  - intros i Hi. rewrite Hd3. unfold tx_block. fold N. destruct (decide (i = N + M + 2)) as [->|Hne].
    { rewrite decide_True by done. rewrite !decide_False by lia. by rewrite Esb2. }
    rewrite decide_False by (intros E%ring_inj; lia). rewrite Hd2, Hd1' by lia.
    repeat destruct (decide _); try lia; try done.
  - intros i Hi. rewrite Hd3, decide_False by (intros E%ring_inj; lia). rewrite Hd2, Hd1' by lia.
    by rewrite !decide_False by lia.
  - intros b Hb. pose proof (ring_range j (head j + (N + M + 2)) ltac:(lia)).
    rewrite Hd3, decide_False by lia. rewrite Ho2, Ho1 by done. done.
  - split; rewrite ?El3, ?Ej2; done.
  - by rewrite El3, Ej2.
  - by rewrite El3, Ej2.
  - eexists. rewrite Ec3, Ec2, Ec1. split_and!; try done. cbn [ce_meta].
    change (m2 rdma_buf = desc) in Em2. unfold copy_desc_and_meta_to_tx_meta. rewrite Em2. cbn [snd].
    assert (m2 <$> seqz (rdma_buf + 1) (u32 (jd_nr_etag_blks desc + jd_nr_stage_trace_blks desc)) =
            m <$> seqz (rdma_buf + 1) (u32 (jd_nr_etag_blks desc + jd_nr_stage_trace_blks desc))) as Em.
    { apply list_fmap_ext. intros i x Hx. apply list_elem_of_lookup_2, elem_of_seqz in Hx. apply Hm2; lia. }
    destruct (Z.eqb_spec (jd_nr_etag_blks desc) 0) as [E1|]; [|exact Em].
    destruct (Z.eqb_spec (jd_nr_stage_trace_blks desc) 0) as [E2|]; [|exact Em]. by rewrite E1, E2.
  - done.
Qed.

(** ** Two ways a chunk does not reach the log *)

(** When a chunk starts one block past the end of the log, it is lost:
    [persist_data] reports success but writes nothing and does not count the
    request. *)
Lemma persist_data_lost_at_log_end mx m s df req_id buf n :
  let j := d_logs s df in
  let f := d_fctx s df in
  log_geom j -> first j <= head j <= last j -> 0 <= req_id < U32_MOD -> 0 < n <= 8192 -> n <= log_len j ->
  chunk_data_start j req_id = last j + 1 -> (req_id = 0 -> desc_blk_baddr f = 0) ->
  exists s', persist_data mx m s df req_id buf (4096 * n) = Ok (0, s') /\
    d_disk s' = d_disk s /\ d_logs s' = d_logs s /\ req_cnt (d_fctx s' df) = req_cnt f.
Proof.
  intros j f Hg Hh Hr Hn Hl Hst Hd. pose proof Hg as [H1 H2 H3]. unfold chunk_data_start in Hst. unfold persist_data. fold j f.
  destruct (Z.eqb_spec (4096 * n) 0); [lia|]. cbn [negb assert_].
  match goal with |- context [res_bind (if req_id =? 0 then ?x else ?y) ?k] =>
    assert (exists s1, (if req_id =? 0 then x else y) = Ok (last j + 1, s1) /\ d_disk s1 = d_disk s /\ d_logs s1 = d_logs s /\ req_cnt (d_fctx s1 df) = req_cnt f) as (s1 & -> & Ed & El & Ef) end.
  { unfold get_chunck_start. destruct (Z.eqb_spec req_id 0) as [->|].
    - rewrite Hd, Z.eqb_refl by done. cbn [assert_]. rewrite u64_id by (unfold log_len in *; lia). eexists. split; [do 2 f_equal; lia|]. cbn. by rewrite upd_eq.
    - change (Z.shiftr DATA_FETCHER_BUF_SIZE 12) with 8192. rewrite u64_id by (unfold log_len in *; lia). eexists. split; [do 2 f_equal; lia|done]. }
  cbn [res_bind].
  destruct (add_bios_separate_ok j (last j + 1) buf n) as (b1 & b2 & buf2 & -> & _ & L1 & _);
    [done|unfold log_len in *; lia|lia|].
  assert (b1 = []) as ->.
  { destruct b1; [done|]. cbn [length] in L1. unfold CEILING in L1.
    rewrite Z.min_r, Z.div_small in L1 by (unfold log_len in *; lia). lia. }
  cbn [res_bind se_dispatch_io_nocopy_async nvmf_dispatch_io_fast dispatch_bios length].
  change (s32 (u32 (Z.of_nat 0)) =? 0) with true. cbn match. eexists. split; [reflexivity|]. done.
Qed.

(** A chunk whose first block lies past the end of the log aborts the
    daemon: the block count before the wrap-around underflows, and the
    resulting requests violate the single-request rule of the dispatch. *)
Lemma persist_data_chunk_past_end_aborts mx m s df req_id buf n :
  let j := d_logs s df in
  log_geom j -> log_on_device j -> first j <= head j <= last j -> 0 < req_id < 65536 -> 0 < n <= 8192 ->
  last j + 2 <= chunk_data_start j req_id ->
  persist_data mx m s df req_id buf (4096 * n) = Abort.
Proof.
  intros j Hg Hdev Hh Hr Hn Hst. pose proof Hg as [H1 H2 H3].
  unfold persist_data, chunk_data_start, log_len, log_on_device, OXBOW_BLOCK_SIZE, OXBOW_MAX_DEV_SIZE in *.
  fold j. destruct (Z.eqb_spec (4096 * n) 0); [lia|]. cbn [negb assert_].
  destruct (Z.eqb_spec req_id 0); [lia|]. cbn [res_bind]. unfold get_chunck_start.
  destruct (Z.eqb_spec req_id 0); [lia|]. change (Z.shiftr DATA_FETCHER_BUF_SIZE 12) with 8192.
  rewrite u64_id by lia. set (st := head j + req_id * 8192 + 1) in *.
  unfold add_bios_considering_wrap_into_separate_bls, check_wrap_around_journal_tx, check_wrap_around.
  rewrite bytes_to_nblks_eq by lia. cbn [res_bind]. rewrite u64_id by lia.
  destruct (Z.ltb_spec (last j) (st + n - 1)); [|lia].
  assert (u32 (last j - st + 1) = last j - st + 1 + U32_MOD) as ->.
  { unfold u32. rewrite <- (Z_mod_plus_full _ 1), Z.mod_small; lia. }
  destruct (add_bio_to_bl_ok [] buf st (last j - st + 1 + U32_MOD)) as (b1 & -> & T1); [lia..|].
  cbn [res_bind].
  destruct (add_bio_to_bl_ok [] (buf + (last j - st + 1 + U32_MOD)) (first j)
              (u32 (n - (last j - st + 1 + U32_MOD)))) as (b2 & -> & _); [apply u32_range|lia| |].
  { pose proof (u32_range (n - (last j - st + 1 + U32_MOD))). lia. }
  cbn [res_bind]. pose proof (tr_len _ _ _ _ T1) as L1. unfold CEILING in L1.
  destruct b1 as [|x [|y b1]]; cbn [length app] in *; [Z.div_mod_to_equations; lia.. | done].
Qed.

(** The chunks of a transaction whose last one starts past the end. *)
Lemma persist_chunks_past_end mx m df cs : forall s r,
  let j := d_logs s df in
  let f := d_fctx s df in
  let st := chunk_data_start j (r + Z.of_nat (length cs) - 1) in
  0 < mx < 1048576 -> log_geom j -> log_on_device j -> first j <= head j <= last j ->
  0 <= r -> r + Z.of_nat (length cs) < U32_MOD -> chunks_ok cs -> cs <> [] ->
  r * 8192 + chunk_blks cs < log_len j -> last j < st ->
  (r = 0 -> desc_blk_baddr f = 0) -> req_cnt f = r -> total_log_size f = 4096 * (r * 8192) ->
  if st =? last j + 1
  then exists s', persist_chunks (4096 * mx) m s df r cs = Ok s' /\ d_logs s' = d_logs s /\ req_cnt (d_fctx s' df) = r + Z.of_nat (length cs) - 1
  else persist_chunks (4096 * mx) m s df r cs = Abort.
Proof.
  induction cs as [|[buf n] cs IH]; intros s r j f st Hmx Hg Hdev Hh Hr Hlen Hcs Hne Hfit Hst Hd0 Hc Ht; [done|].
  destruct Hcs as (Hn & Hfull & Hcs). pose proof (chunk_blks_nonneg cs Hcs) as Hnn. cbn [length] in Hlen.
  assert (chunk_blks ((buf, n) :: cs) = n + chunk_blks cs) as Ecb by done. rewrite Ecb in *. pose proof Hg as [H1 H2 H3].
  assert (st = chunk_data_start j r + Z.of_nat (length cs) * 8192) as Est by (subst st; unfold chunk_data_start; cbn [length]; lia).
  assert (cs <> [] -> 0 < Z.of_nat (length cs)) as Hl by (destruct cs; cbn; [done|lia]).
  assert (forall r' s', 0 < r' -> r' * 8192 < log_len j -> d_logs s' df = j -> last j + 2 <= chunk_data_start j r' -> forall b k, 0 < k <= 8192 -> persist_data (4096 * mx) m s' df r' b (4096 * k) = Abort) as Habort.
  { intros r' s' Hr' Hr2 Ej Hs' b k Hk. apply persist_data_chunk_past_end_aborts; rewrite ?Ej; try done. unfold log_on_device, OXBOW_BLOCK_SIZE, OXBOW_MAX_DEV_SIZE, log_len in *. lia. }
  cbn [persist_chunks]. destruct (Z.lt_trichotomy (chunk_data_start j r) (last j + 1)) as [Hlt|[Heq|Hgt]].
  - assert (cs <> []) as Hcs0 by (intros ->; cbn in Est; lia).
    destruct (persist_data_ok mx m s df r buf n) as (ret & s1 & E & _ & _ & El & _ & _ & _ & Ef); fold j f; try (done || lia).
    fold j f in Ef. rewrite E. cbn [res_bind]. pose proof (Ef df) as Efd. rewrite Z.eqb_refl in Efd.
    specialize (IH s1 (r + 1)). rewrite El, Efd in IH. cbn [req_cnt desc_blk_baddr total_log_size] in IH. fold j in IH.
    replace (chunk_data_start j (r + 1 + Z.of_nat (length cs) - 1)) with st in IH by (rewrite Est; unfold chunk_data_start; lia).
    rewrite (Hfull Hcs0) in *. specialize (IH Hmx Hg Hdev Hh ltac:(lia) ltac:(lia) Hcs Hcs0 ltac:(lia) Hst ltac:(lia) ltac:(lia) ltac:(lia)).
    destruct (st =? last j + 1); [|done]. destruct IH as (s2 & E2 & El2 & Ec2). exists s2. split_and!; [done|congruence|]. cbn [length]. lia.
  - destruct (persist_data_lost_at_log_end (4096 * mx) m s df r buf n) as (s1 & E & _ & El & Ec); fold j f; try (done || lia).
    rewrite E. cbn [res_bind]. destruct cs as [|[buf' n'] cs].
    + rewrite (proj2 (Z.eqb_eq st _)) by (cbn in Est; lia). exists s1. cbn. split_and!; [done|done|]. fold f in Ec. lia.
    + rewrite (proj2 (Z.eqb_neq st _)) by (cbn [length] in Est; lia). destruct Hcs as (Hn' & _ & Hcs). pose proof (chunk_blks_nonneg cs Hcs). rewrite (Hfull ltac:(done)) in *.
      change (chunk_blks ((buf', n') :: cs)) with (n' + chunk_blks cs) in *. cbn [persist_chunks]. rewrite (Habort (r + 1) s1); [done|lia|lia|by rewrite El|unfold chunk_data_start in *; lia|lia].
  - rewrite (proj2 (Z.eqb_neq st _)) by lia. rewrite (Habort r s); [done| |lia|done|lia|lia]. unfold chunk_data_start in *. lia.
Qed.

(** A last chunk that would start behind the log: at its end the commit waits
    forever, further behind the fetch ends at an assertion. *)
Lemma run_tx_past_end mx m sec nsec s df cs rdma_buf M q :
  let j := d_logs s df in
  let N := chunk_blks cs in
  let st := chunk_data_start j (Z.of_nat (length cs) - 1) in
  0 < mx < 1048576 -> tx_idle s df q -> chunks_ok cs -> cs <> [] -> Z.of_nat (length cs) < U32_MOD ->
  0 <= M -> 0 <= rdma_buf -> sumz id q + N + M + 3 <= log_len j -> last j < st ->
  run_tx (4096 * mx) m sec nsec s df cs rdma_buf M = if st =? last j + 1 then Blocked else Abort.
Proof.
  intros j N st Hmx Hidle Hcs Hne Hlen HM Hbuf Hfit Hst.
  pose proof Hidle as [Hrep Hdev Hf]. pose proof (lr_geom _ _ Hrep) as Hg. pose proof (log_rep_head _ _ Hrep) as Hh.
  pose proof (sumz_nonneg id q (lr_pos _ _ Hrep)) as Hs0. pose proof (persist_chunks_past_end mx m df cs s 0) as H.
  fold j in H, Hf. rewrite Hf in H. cbn [req_cnt desc_blk_baddr total_log_size] in H. replace (0 + Z.of_nat (length cs) - 1) with (Z.of_nat (length cs) - 1) in H by lia.
  fold st in H. specialize (H Hmx Hg Hdev Hh ltac:(lia) ltac:(lia) Hcs Hne ltac:(fold N; lia) Hst ltac:(done) eq_refl eq_refl).
  unfold run_tx. destruct (st =? last j + 1); [|by rewrite H]. destruct H as (s1 & -> & El & Ec). cbn [res_bind].
  assert (length cs <> 0%nat) by (by destruct cs).
  unfold persist_meta_and_commit, journal_write_meta, alloc_tx_space, wait_for_all_persist_data_completion.
  rewrite (proj2 (Z.eqb_neq (4096 * (M + 1)) 0)), (proj2 (Z.eqb_neq (Z.of_nat (length cs)) 0)) by lia. cbn [negb assert_ res_bind].
  rewrite u32_id, Ec, (proj2 (Z.eqb_neq (_ - 1) _)) by lia. done.
Qed.

(** C3: the outcome of a background transaction.  From an idle data fetcher
    whose log has room for it, and with its turn to commit come, it depends on
    where its last data chunk starts.  If that is inside the log (or there are no
    data), fetching the chunks and committing succeeds; in ring order from the
    old head the log then holds descriptor, data, metadata, superblock snapshot
    and commit record; every other block of the log and of the disk is
    unchanged; the log represents one more extent; and the entry queued for
    checkpoint names that extent.  If it is the block after the end, the chunk
    is lost and the commit waits forever; if it is further, the daemon stops in
    an assertion: chunks are not wrapped around the end of the log. *)
Theorem run_tx_correct mx m sec nsec s df cs rdma_buf M q :
  let j := d_logs s df in
  let N := chunk_blks cs in
  let st := chunk_data_start j (Z.of_nat (length cs) - 1) in
  0 < mx < 1048576 -> tx_idle s df q -> chunks_ok cs -> Z.of_nat (length cs) < U32_MOD ->
  0 <= M -> 0 <= rdma_buf -> sumz id q + N + M + 3 <= log_len j ->
  tx_turn s (jd_transaction_id (tx_desc m s df cs rdma_buf)) ->
  if (bool_decide (cs = []) || (st <=? last j))
  then exists s', run_tx (4096 * mx) m sec nsec s df cs rdma_buf M = Ok s' /\ tx_committed m sec nsec s df cs rdma_buf M q s'
  else run_tx (4096 * mx) m sec nsec s df cs rdma_buf M = if st =? last j + 1 then Blocked else Abort.
Proof.
  intros j N st Hmx Hidle Hcs Hlen HM Hbuf Hfit Hturn. case_bool_decide as Hne; cbn [orb].
  { apply run_tx_ok; try done; lia. }
  destruct (Z.leb_spec st (last j)) as [Hst|Hst]; [by apply run_tx_ok; try done; lia|].
  by apply (run_tx_past_end mx m sec nsec s df cs rdma_buf M q).
Qed.

(** A data fetcher of a 20-block log whose head is three blocks before the
    end, and a transaction of four data blocks and one metadata block. *)
Definition demo_sb : journal_superblock := mk_jsb 7 SUPER_BLK 0 4096 10 20 1 10 0 0 0.
Definition demo_state : devfs :=
  mk_devfs demo_sb (fun _ => mk_log 0 10 29 27 25 18) (fun _ => mk_fctx 0 0 0) 4 [] (fun _ => []).
Definition demo_desc : block := wr 4 (wr 4 zero_block 0 DESC_BLK) 4 5.
Definition demo_mem : mem := fun p => if p =? 50 then demo_desc else [p].

Lemma demo_idle : tx_idle demo_state 0 [2].
Proof.
  split; [|vm_compute; congruence|done].
  split; [split; vm_compute; done | vm_compute; done | repeat constructor; vm_compute; congruence
         | done | vm_compute; congruence | done].
Qed.

Lemma run_tx_correct_witness :
  exists s', run_tx (4096 * 32) demo_mem 1 2 demo_state 0 [(100, 4)] 50 1 = Ok s' /\
             d_tx_seqn s' = 5 /\ d_disk s' (ring (d_logs demo_state 0) (27 + 3)) = [102].
Proof.
  destruct (run_tx_correct 32 demo_mem 1 2 demo_state 0 [(100, 4)] 50 1 [2]) as (s' & E & Hc).
  - lia.
  - exact demo_idle.
  - cbn. split; [lia|]. done.
  - cbn. lia.
  - lia.
  - lia.
  - vm_compute. congruence.
  - right. vm_compute. reflexivity.
  - exists s'. split; [exact E|]. split.
    + rewrite (tc_seqn _ _ _ _ _ _ _ _ _ _ Hc). vm_compute. reflexivity.
    + exact (tc_layout _ _ _ _ _ _ _ _ _ _ Hc 3 ltac:(vm_compute; split; congruence)).
Defined.
