(* ===== verification/Coalesce.v ===== *)
(** * Coalescing of checkpoint tags

    The tag list of [do_checkpoint_coalesce] ([devfs/src/journal.c]) and its
    passes 3 (optimise), 4 (coalesce) and 5 (copy).  The list is read as a
    sequence of block slots: a slot says which block of which source group
    goes to which home address, if any.  Pass 3 drops exactly the slots that a
    later slot overwrites, pass 4 keeps the slots, and pass 5 copies them. *)

From stdpp Require Import sets.
From S2P Require Import Prelude Bio JournalLog.

(** ** The tag list *)

Record tag_list_node := mk_node {
  n_start : Z;      (* home address, or NOADDR for an invalidated tag *)
  n_cnt : Z;
  n_src : Z;        (* address of the first data block of the source group *)
  n_stage : bool    (* source is the stage area, not the journal log *)
}.

Definition set_start (n : tag_list_node) (x : Z) : tag_list_node :=
  mk_node x (n_cnt n) (n_src n) (n_stage n).
Definition set_cnt (n : tag_list_node) (x : Z) : tag_list_node :=
  mk_node (n_start n) x (n_src n) (n_stage n).

(** ** Pass 3: invalidate what a later tag overwrites

    One step of the inner loop: the nodes that replace [node_r] when the
    later tag covers [cnt] blocks from [start]. *)
Definition optimize_node (start cnt : Z) (node_r : tag_list_node) : res (list tag_list_node) :=
  let start_r := n_start node_r in
  let cnt_r := n_cnt node_r in
  if start_r =? NOADDR then Ok [node_r]
  else
    let end_r := u64 (start_r + cnt_r) in
    let end_l := u64 (start + cnt) in
    let fresh st c := mk_node st c (n_src node_r) (n_stage node_r) in
    (* no overlap *)
    if (end_r <=? start) || (end_l <=? start_r) then Ok [node_r]
    (* complete overlap *)
    else if (start =? start_r) && (cnt =? cnt_r) then Ok [set_start node_r NOADDR]
    (* later tag inside the old one *)
    else if (start_r <=? start) && (end_l <=? end_r) then
      let tag2 := if 0 <? u64 (end_r - end_l) then [fresh end_l (u32 (end_r - end_l))] else [] in
      let tag1 := if 0 <? cnt then [fresh NOADDR cnt] else [] in
      let node_r := set_cnt node_r (u32 (start - start_r)) in
      let node_r := if n_cnt node_r =? 0 then set_start node_r NOADDR else node_r in
      Ok (node_r :: tag1 ++ tag2)
    (* old tag inside the later one *)
    else if (start <=? start_r) && (end_r <=? end_l) then Ok [set_start node_r NOADDR]
    (* the later tag covers the front *)
    else if (start <? start_r) && (end_l <? end_r) then
      let tag := if 0 <? u64 (end_r - end_l) then [fresh end_l (u32 (end_r - end_l))] else [] in
      Ok (set_cnt (set_start node_r NOADDR) (u32 (end_l - start_r)) :: tag)
    (* the later tag covers the rear *)
    else if (start_r <? start) && (end_r <? end_l) then
      let tag := if 0 <? u64 (end_r - start) then [fresh NOADDR (u32 (end_r - start))] else [] in
      let node_r := set_cnt node_r (u32 (start - start_r)) in
      let node_r := if n_cnt node_r =? 0 then set_start node_r NOADDR else node_r in
      Ok (node_r :: tag)
    else Abort.

(** The inner loop walks the earlier nodes backwards; new nodes go right
    after the one they are split from. *)
Fixpoint optimize_back (start cnt : Z) (before_rev acc : list tag_list_node)
  : res (list tag_list_node) :=
  match before_rev with
  | [] => Ok acc
  | node_r :: rest =>
      let* ns := optimize_node start cnt node_r in
      optimize_back start cnt rest (ns ++ acc)
  end.

Fixpoint optimize_tags (before todo : list tag_list_node) : res (list tag_list_node) :=
  match todo with
  | [] => Ok before
  | node :: rest =>
      let* before := optimize_back (n_start node) (n_cnt node) (rev before) [] in
      optimize_tags (before ++ [node]) rest
  end.

(** ** Pass 4: merge neighbours of the same group *)

Definition can_coalesce (node_prev node : tag_list_node) : bool :=
  ((n_start node =? NOADDR) && (n_start node_prev =? NOADDR))
  || ((negb (n_start node =? NOADDR) && negb (n_start node_prev =? NOADDR))
      && (n_start node =? u64 (n_start node_prev + n_cnt node_prev))).

Fixpoint coalesce_tags (last_group : Z) (kept_rev todo : list tag_list_node) : list tag_list_node :=
  match todo with
  | [] => rev kept_rev
  | node :: rest =>
      if negb (last_group =? n_src node) then coalesce_tags (n_src node) (node :: kept_rev) rest
      else
        match kept_rev with
        | node_prev :: kept =>
            if can_coalesce node_prev node then
              coalesce_tags last_group (set_cnt node_prev (u32 (n_cnt node_prev + n_cnt node)) :: kept) rest
            else coalesce_tags last_group (node :: kept_rev) rest
        | [] => coalesce_tags last_group (node :: kept_rev) rest
        end
  end.

(** ** Pass 5: resolve source addresses and copy *)

(** The constant is an expression of type [int], which wraps to 1 GB. *)
Definition OPTIMIZE_CHECKPOINT_MAX_BUF_SIZE : Z := s32 (5 * 1024 * 1024 * 1024).

(** The areas tags are copied from. *)
Record src_area := mk_area { stage_first : Z; stage_last : Z; jnl : journal_log }.

Record copy_state := mk_copy {
  last_group : Z;            (* last_src_start_baddr_group *)
  cur_src : Z;               (* current_src_start_baddr *)
  cur_buf_size : Z;
  read_bl : bio_list;
  write_bl : bio_list;
  c_disk : disk;
  c_mem : mem;
  next_buf : Z               (* first page of the next malloc *)
}.

(** Dispatch the accumulated reads, then the writes. *)
Definition dispatch_copies (st : copy_state) : copy_state :=
  let m := bl_read (c_disk st) (read_bl st) (c_mem st) in
  mk_copy (last_group st) (cur_src st) 0 [] []
    (bl_write m (write_bl st) (c_disk st)) m (next_buf st).

(** Requests of a node whose source address is resolved to [src]; full
    buffers are dispatched.  Invalid tags are skipped. *)
Definition emit_node (st : copy_state) (src : Z) (node : tag_list_node) : res copy_state :=
  if n_start node =? NOADDR then Ok st
  else
    let this_buf_size := nblks_to_bytes (n_cnt node) in
    let cur_size := u64 (cur_buf_size st + this_buf_size) in
    let buf := next_buf st in
    let* rbl := add_bio_to_bl (read_bl st) buf src (n_cnt node) in
    let* wbl := add_bio_to_bl (write_bl st) buf (n_start node) (n_cnt node) in
    let st := mk_copy (last_group st) (cur_src st) cur_size rbl wbl (c_disk st) (c_mem st)
                (buf + n_cnt node) in
    if OPTIMIZE_CHECKPOINT_MAX_BUF_SIZE <=? cur_size then Ok (dispatch_copies st) else Ok st.

(** Body of the loop for one node: the new state and, after a wrap-around,
    the second half that is inserted after the node. *)
Definition copy_node (a : src_area) (st : copy_state) (node : tag_list_node)
  : res (copy_state * list tag_list_node) :=
  if n_cnt node =? 0 then Ok (st, [])
  else
    let group := n_src node in
    let src := if negb (last_group st =? group) then group else cur_src st in
    let first_ := if n_stage node then stage_first a else first (jnl a) in
    let last_ := if n_stage node then stage_last a else last (jnl a) in
    let wrapped := check_wrap_around src (n_cnt node) last_ in
    let cnt := n_cnt node in
    let node := if wrapped then set_cnt node (u32 (last_ - src + 1)) else node in
    let has_second := wrapped && (0 <? u32 (cnt - n_cnt node)) in
    let second :=
      if has_second then
        [mk_node (if n_start node =? NOADDR then NOADDR else u64 (n_start node + n_cnt node))
           (u32 (cnt - n_cnt node)) group (n_stage node)]
      else [] in
    let node := if has_second && (n_cnt node =? 0) then set_start node NOADDR else node in
    let cur := if wrapped then first_ else u64 (src + n_cnt node) in
    let st := mk_copy group cur (cur_buf_size st) (read_bl st) (write_bl st) (c_disk st)
                (c_mem st) (next_buf st) in
    let* st := emit_node st src node in
    Ok (st, second).

Fixpoint copy_tags (fuel : nat) (a : src_area) (st : copy_state) (todo : list tag_list_node)
  : res copy_state :=
  match todo with
  | [] => Ok (dispatch_copies st)
  | node :: rest =>
      match fuel with
      | O => Abort
      | S f =>
          let* (st, second) := copy_node a st node in
          copy_tags f a st (second ++ rest)
      end
  end.

(** A node is split at most once per pass over its area. *)
Definition copy_fuel (a : src_area) (todo : list tag_list_node) : nat :=
  let len n := if n_stage n then stage_last a - stage_first a + 1 else log_len (jnl a) in
  Z.to_nat (sumz (fun n => 3 + n_cnt n / Z.max 1 (len n)) todo).

(** Passes 3 to 5 on a tag list. *)
Definition checkpoint_tags (a : src_area) (d : disk) (tags : list tag_list_node) : res disk :=
  let* tags := optimize_tags [] tags in
  let tags := coalesce_tags NOADDR [] tags in
  let* st := copy_tags (copy_fuel a tags) a
               (mk_copy NOADDR 0 0 [] [] d (fun _ => []) 0) tags in
  Ok (c_disk st).

(** ** Slots *)

Record slot := mk_slot { s_grp : Z; s_off : Z; s_stage : bool; s_dst : option Z }.

(** The slots of a node that starts at offset [off] of its group. *)
Definition slots (n : tag_list_node) (off : Z) : list slot :=
  (fun i => mk_slot (n_src n) (off + i) (n_stage n)
              (if n_start n =? NOADDR then None else Some (n_start n + i))) <$> seqz 0 (n_cnt n).

(** The slots of a list; offsets restart when the group changes, as in pass 5. *)
Fixpoint expand (l o : Z) (ns : list tag_list_node) : list slot :=
  match ns with
  | [] => []
  | n :: ns' =>
      if n_cnt n =? 0 then expand l o ns'
      else let o := if l =? n_src n then o else 0 in
           slots n o ++ expand (n_src n) (o + n_cnt n) ns'
  end.

(** Slots of nodes of one group, from offset [o] on. *)
Fixpoint cat (o : Z) (ns : list tag_list_node) : list slot :=
  match ns with
  | [] => []
  | n :: ns' => slots n o ++ cat (o + n_cnt n) ns'
  end.

Definition node_ok (n : tag_list_node) : Prop :=
  0 <= n_cnt n < U32_MOD /\ 0 <= n_start n <= NOADDR /\
  (n_start n <> NOADDR -> n_start n + n_cnt n < NOADDR).

(** Forget the destinations a later tag covers. *)
Definition kill (start cnt : Z) (s : slot) : slot :=
  mk_slot (s_grp s) (s_off s) (s_stage s)
    (match s_dst s with
     | Some x => if (start <=? x) && (x <? start + cnt) then None else Some x
     | None => None
     end).

Lemma slots_nil n o : n_cnt n = 0 -> slots n o = [].
Proof. intros H. unfold slots. by rewrite H. Qed.

Lemma cat_app o ns1 ns2 : cat o (ns1 ++ ns2) = cat o ns1 ++ cat (o + sumz n_cnt ns1) ns2.
Proof.
  revert o. induction ns1 as [|n ns1 IH]; intros o; cbn.
  - autorewrite with oxbow. by rewrite Z.add_0_r.
  - rewrite IH, sumz_cons, <- (assoc_L (++)). do 3 f_equal. lia.
Qed.

(** Expansion of a run of nodes of one group. *)
Lemma expand_group l o g ns rest :
  Forall (fun n => n_src n = g /\ 0 <= n_cnt n) ns ->
  expand l o (ns ++ rest) =
    if sumz n_cnt ns =? 0 then expand l o rest
    else let o := if l =? g then o else 0 in cat o ns ++ expand g (o + sumz n_cnt ns) rest.
Proof.
  intros H. revert l o. induction H as [|n ns [Hg Hn] Hns IH]; intros l o; [done|].
  assert (0 <= sumz n_cnt ns) as Hs
    by (apply sumz_nonneg; eapply Forall_impl; [exact Hns|]; by intros ? []).
  cbn [app expand cat]. rewrite sumz_cons, !IH, Hg, Z.eqb_refl.
  destruct (Z.eqb_spec (n_cnt n) 0) as [E|E].
  - rewrite (slots_nil n) by done. rewrite E, Z.add_0_l. by rewrite !Z.add_0_r.
  - destruct (Z.eqb_spec (n_cnt n + sumz n_cnt ns) 0); [lia|].
    destruct (Z.eqb_spec (sumz n_cnt ns) 0) as [E0|E0].
    + rewrite E0, Z.add_0_r. f_equal.
      assert (cat ((if l =? g then o else 0) + n_cnt n) ns = []) as ->; [|by rewrite app_nil_r].
      clear - Hns E0. revert E0. generalize ((if l =? g then o else 0) + n_cnt n).
      induction Hns as [|x xs [_ Hx] Hxs IH]; intros z; [done|]. rewrite sumz_cons.
      assert (0 <= sumz n_cnt xs)
        by (apply sumz_nonneg; eapply Forall_impl; [exact Hxs|]; by intros ? []).
      intros ?. cbn. rewrite slots_nil by lia. apply IH. lia.
    + rewrite <- (assoc_L (++)). do 3 f_equal. lia.
Qed.

(** Splitting a valid node around a killed index range [a, b). *)
Lemma kill_split start cnt r off a b :
  n_start r <> NOADDR -> 0 <= a <= b -> b <= n_cnt r -> n_start r + n_cnt r < NOADDR ->
  0 <= n_start r ->
  (forall i, 0 <= i < n_cnt r -> start <= n_start r + i < start + cnt <-> a <= i < b) ->
  kill start cnt <$> slots r off =
    slots (mk_node (n_start r) a (n_src r) (n_stage r)) off ++
    slots (mk_node NOADDR (b - a) (n_src r) (n_stage r)) (off + a) ++
    slots (mk_node (n_start r + b) (n_cnt r - b) (n_src r) (n_stage r)) (off + b).
Proof.
  intros Hv Ha Hb Hend H0 Hi. unfold slots; cbn [n_cnt n_start n_src n_stage].
  rewrite (proj2 (Z.eqb_neq _ _) Hv), Z.eqb_refl.
  replace (seqz 0 (n_cnt r)) with (seqz 0 (a + ((b - a) + (n_cnt r - b)))) by (f_equal; lia).
  rewrite seqz_app, (seqz_app (0 + a)), !fmap_app by lia. rewrite <- !list_fmap_compose.
  assert (forall x y n, seqz (x + y) n = (fun i => x + i) <$> seqz y n) as Hshift.
  { intros x y n. unfold seqz. rewrite <- list_fmap_compose. apply list_fmap_ext. intros; cbn; lia. }
  rewrite Z.add_0_l. f_equal; [|f_equal].
  - apply list_fmap_ext. intros i x Hx%list_elem_of_lookup_2. apply elem_of_seqz in Hx. cbn. unfold kill; cbn.
    f_equal. specialize (Hi x ltac:(lia)).
    destruct (Z.leb_spec start (n_start r + x)), (Z.ltb_spec (n_start r + x) (start + cnt)); cbn; try done; lia.
  - replace a with (a + 0) at 1 by lia. rewrite Hshift, <- list_fmap_compose.
    apply list_fmap_ext. intros i x Hx%list_elem_of_lookup_2. apply elem_of_seqz in Hx. cbn. unfold kill; cbn.
    f_equal; [lia|]. specialize (Hi (a + x) ltac:(lia)).
    destruct (Z.leb_spec start (n_start r + (a + x))), (Z.ltb_spec (n_start r + (a + x)) (start + cnt)); cbn; try done; lia.
  - replace (a + (b - a)) with (b + 0) by lia. rewrite Hshift, <- list_fmap_compose.
    apply list_fmap_ext. intros i x Hx%list_elem_of_lookup_2. apply elem_of_seqz in Hx. cbn. unfold kill; cbn.
    destruct (Z.eqb_spec (n_start r + b) NOADDR); [lia|].
    f_equal; [lia|]. specialize (Hi (b + x) ltac:(lia)).
    destruct (Z.leb_spec start (n_start r + (b + x))), (Z.ltb_spec (n_start r + (b + x)) (start + cnt)); cbn; try lia.
    all: f_equal; lia.
Qed.

Lemma kill_invalid start cnt r off :
  n_start r = NOADDR -> kill start cnt <$> slots r off = slots r off.
Proof.
  intros E. unfold slots. rewrite E, Z.eqb_refl, <- list_fmap_compose. by apply list_fmap_ext.
Qed.

Lemma kill_disjoint start cnt r off :
  (forall i, 0 <= i < n_cnt r -> ~ (start <= n_start r + i < start + cnt)) ->
  kill start cnt <$> slots r off = slots r off.
Proof.
  intros H. unfold slots. rewrite <- list_fmap_compose. apply list_fmap_ext.
  intros i x Hx%list_elem_of_lookup_2. apply elem_of_seqz in Hx. cbn. unfold kill; cbn.
  destruct (n_start r =? NOADDR); [done|]. specialize (H x ltac:(lia)).
  destruct (Z.leb_spec start (n_start r + x)), (Z.ltb_spec (n_start r + x) (start + cnt)); cbn; try done; lia.
Qed.

Record replaces (start cnt : Z) (r : tag_list_node) (ns : list tag_list_node) : Prop := {
  rp_ok : Forall node_ok ns;
  rp_grp : Forall (fun n => n_src n = n_src r /\ n_stage n = n_stage r) ns;
  rp_sum : sumz n_cnt ns = n_cnt r;
  rp_cat : forall off, cat off ns = kill start cnt <$> slots r off
}.

(** The three-way split, with empty parts left out. *)
Lemma replaces_split start cnt r a b x y z :
  node_ok r -> n_start r <> NOADDR -> 0 <= a <= b -> b <= n_cnt r ->
  (forall i, 0 <= i < n_cnt r -> start <= n_start r + i < start + cnt <-> a <= i < b) ->
  x = [mk_node (if a =? 0 then NOADDR else n_start r) a (n_src r) (n_stage r)] \/
  (x = [] /\ a = 0) ->
  y = [mk_node NOADDR (b - a) (n_src r) (n_stage r)] \/ (y = [] /\ a = b) ->
  z = [mk_node (n_start r + b) (n_cnt r - b) (n_src r) (n_stage r)] \/ (z = [] /\ b = n_cnt r) ->
  replaces start cnt r (x ++ y ++ z).
Proof.
  intros (Hc & Hs & Hv) Hval Ha Hb Hi Hx Hy Hz. specialize (Hv Hval).
  assert (NOADDR = 18446744073709551615) as EN by done.
  split.
  - destruct Hx as [->|[-> _]], Hy as [->|[-> _]], Hz as [->|[-> _]]; cbn [app];
      repeat constructor; cbn; try lia; destruct (Z.eqb_spec a 0); lia.
  - destruct Hx as [->|[-> _]], Hy as [->|[-> _]], Hz as [->|[-> _]]; cbn [app]; repeat constructor.
  - rewrite !sumz_app. destruct Hx as [->|[-> Ex]], Hy as [->|[-> Ey]], Hz as [->|[-> Ez]];
      autorewrite with oxbow; cbn; lia.
  - intros off. rewrite (kill_split _ _ _ _ a b) by (done || lia). rewrite !cat_app. f_equal; [|f_equal].
    + destruct Hx as [->|[-> Ex]]; [|subst; by rewrite slots_nil]. cbn. rewrite app_nil_r.
      destruct (Z.eqb_spec a 0) as [E|]; [|done]. by rewrite !slots_nil.
    + assert (sumz n_cnt x = a) as -> by (destruct Hx as [->|[-> Ex]]; autorewrite with oxbow; cbn; lia).
      destruct Hy as [->|[-> Ey]]; [cbn; by rewrite app_nil_r|]. rewrite slots_nil; [done|cbn; lia].
    + assert (sumz n_cnt x = a) as -> by (destruct Hx as [->|[-> Ex]]; autorewrite with oxbow; cbn; lia).
      assert (sumz n_cnt y = b - a) as -> by (destruct Hy as [->|[-> Ey]]; autorewrite with oxbow; cbn; lia).
      replace (off + a + (b - a)) with (off + b) by lia.
      destruct Hz as [->|[-> Ez]]; [cbn; by rewrite app_nil_r|]. rewrite slots_nil; [done|cbn; lia].
Qed.

Lemma replaces_same start cnt r :
  node_ok r -> (forall off, kill start cnt <$> slots r off = slots r off) -> replaces start cnt r [r].
Proof.
  intros Hok Hk. split; [by constructor | by constructor | autorewrite with oxbow; lia |].
  intros off. cbn. by rewrite app_nil_r.
Qed.

Lemma optimize_node_ok start cnt r :
  node_ok r -> 0 <= start -> 0 <= cnt < U32_MOD -> start + cnt < NOADDR ->
  exists ns, optimize_node start cnt r = Ok ns /\ replaces start cnt r ns.
Proof.
  intros Hok Hst Hcnt Hend. pose proof Hok as (Hc & Hs & Hv).
  assert (NOADDR = 18446744073709551615) as EN by done.
  unfold optimize_node. destruct (Z.eqb_spec (n_start r) NOADDR) as [E|Hval].
  { exists [r]. split; [done|]. apply replaces_same; [done|]. intros. by apply kill_invalid. }
  specialize (Hv Hval). rewrite (u64_id (n_start r + n_cnt r)), (u64_id (start + cnt)) by lia.
  destruct ((n_start r + n_cnt r <=? start) || (start + cnt <=? n_start r)) eqn:Eno.
  { exists [r]. split; [done|]. apply replaces_same; [done|]. intros. apply kill_disjoint.
    apply orb_true_iff in Eno as [?|?]; bool_prop; lia. }
  apply orb_false_iff in Eno as [Hno1 Hno2]. bool_prop.
  destruct ((start =? n_start r) && (cnt =? n_cnt r)) eqn:Eeq.
  { bool_prop. eexists. split; [done|].
    apply (replaces_split start cnt r 0 (n_cnt r) [] [_] []); try (done || lia); [by right|left|by right].
    unfold set_start. do 2 f_equal. lia. }
  destruct ((n_start r <=? start) && (start + cnt <=? n_start r + n_cnt r)) eqn:Ein.
  { bool_prop. rewrite (u64_id (_ - _)), (u32_id (n_start r + n_cnt r - _)), (u32_id (start - n_start r)) by lia.
    eexists. split; [done|]. set (a := start - n_start r).
    match goal with |- replaces _ _ _ (?x :: ?y ++ ?z) => change (x :: y ++ z) with ([x] ++ y ++ z) end.
    apply (replaces_split start cnt r a (a + cnt)); try (done || lia); unfold a.
    - left. cbn [n_cnt set_cnt]. by destruct (_ =? 0).
    - destruct (Z.ltb_spec 0 cnt); [left; do 2 f_equal; lia | right; split; [done|lia]].
    - case_cmp; [left; do 2 f_equal; lia | right; split; [done|lia]]. }
  destruct ((start <=? n_start r) && (n_start r + n_cnt r <=? start + cnt)) eqn:Eco.
  { bool_prop. eexists. split; [done|].
    apply (replaces_split start cnt r 0 (n_cnt r) [] [_] []); try (done || lia); [by right|left|by right].
    unfold set_start. do 2 f_equal. lia. }
  destruct ((start <? n_start r) && (start + cnt <? n_start r + n_cnt r)) eqn:Efr.
  { bool_prop. rewrite (u64_id (_ - _)), (u32_id (n_start r + n_cnt r - _)), (u32_id (start + cnt - _)) by lia.
    eexists. split; [done|]. set (b := start + cnt - n_start r).
    match goal with |- replaces _ _ _ (?y :: ?z) => change (y :: z) with ([] ++ [y] ++ z) end.
    apply (replaces_split start cnt r 0 b); try (done || lia); unfold b.
    - by right.
    - left. unfold set_cnt, set_start; cbn. do 2 f_equal. lia.
    - case_cmp; [left; do 2 f_equal; lia | right; split; [done|lia]]. }
  destruct ((n_start r <? start) && (n_start r + n_cnt r <? start + cnt)) eqn:Ere.
  { bool_prop. rewrite (u64_id (_ - _)), (u32_id (n_start r + n_cnt r - _)), (u32_id (start - _)) by lia.
    eexists. split; [done|]. set (a := start - n_start r).
    match goal with |- replaces _ _ _ (?x :: ?y) => rewrite <- (app_nil_r (x :: y)); change (x :: y) with ([x] ++ y) end.
    rewrite <- (assoc_L (++)).
    apply (replaces_split start cnt r a (n_cnt r)); try (done || lia); unfold a.
    - left. cbn [n_cnt set_cnt]. by destruct (_ =? 0).
    - case_cmp; [left; do 2 f_equal; lia | right; split; [done|lia]].
    - by right. }
  exfalso.
  destruct (Z.leb_spec (n_start r) start), (Z.leb_spec start (n_start r)),
    (Z.leb_spec (start + cnt) (n_start r + n_cnt r)), (Z.leb_spec (n_start r + n_cnt r) (start + cnt)),
    (Z.ltb_spec start (n_start r)), (Z.ltb_spec (n_start r) start),
    (Z.ltb_spec (start + cnt) (n_start r + n_cnt r)), (Z.ltb_spec (n_start r + n_cnt r) (start + cnt));
    cbn in *; try discriminate; lia.
Qed.

(** ** Pass 3 on whole lists *)

(** Group and offset after a list. *)
Fixpoint eend (l o : Z) (ns : list tag_list_node) : Z * Z :=
  match ns with
  | [] => (l, o)
  | n :: ns' =>
      if n_cnt n =? 0 then eend l o ns'
      else eend (n_src n) ((if l =? n_src n then o else 0) + n_cnt n) ns'
  end.

Lemma expand_app l o ns1 ns2 :
  expand l o (ns1 ++ ns2) = expand l o ns1 ++ expand (eend l o ns1).1 (eend l o ns1).2 ns2.
Proof.
  revert l o. induction ns1 as [|n ns1 IH]; intros l o; cbn; [done|].
  destruct (n_cnt n =? 0); [by rewrite IH|]. by rewrite IH, (assoc_L (++)).
Qed.

Lemma eend_app l o ns1 ns2 : eend l o (ns1 ++ ns2) = eend (eend l o ns1).1 (eend l o ns1).2 ns2.
Proof.
  revert l o. induction ns1 as [|n ns1 IH]; intros l o; cbn; [done|].
  destruct (n_cnt n =? 0); by rewrite IH.
Qed.

Lemma eend_group l o g ns :
  Forall (fun n => n_src n = g /\ 0 <= n_cnt n) ns ->
  eend l o ns = if sumz n_cnt ns =? 0 then (l, o) else (g, (if l =? g then o else 0) + sumz n_cnt ns).
Proof.
  intros H. revert l o. induction H as [|n ns [Hg Hn] Hns IH]; intros l o; [done|].
  assert (0 <= sumz n_cnt ns) as Hs
    by (apply sumz_nonneg; eapply Forall_impl; [exact Hns|]; by intros ? []).
  cbn [eend]. rewrite sumz_cons, !IH, Hg, Z.eqb_refl.
  destruct (Z.eqb_spec (n_cnt n) 0) as [->|E]; [by rewrite Z.add_0_l|].
  destruct (Z.eqb_spec (n_cnt n + sumz n_cnt ns) 0); [lia|].
  destruct (Z.eqb_spec (sumz n_cnt ns) 0); f_equal; lia.
Qed.

Lemma replaces_expand start cnt r ns l o :
  node_ok r -> replaces start cnt r ns ->
  expand l o ns = kill start cnt <$> expand l o [r] /\ eend l o ns = eend l o [r].
Proof.
  intros Hok [Ho Hg Hs Hc].
  assert (Forall (fun n => n_src n = n_src r /\ 0 <= n_cnt n) ns) as Hns.
  { apply Forall_forall. intros n Hn. rewrite Forall_forall in Ho, Hg.
    destruct (Ho n Hn) as [? _], (Hg n Hn). split; [done|lia]. }
  split.
  - rewrite <- (app_nil_r ns), (expand_group l o (n_src r) ns []) by done. rewrite Hs. cbn [expand].
    destruct (n_cnt r =? 0); [done|]. by rewrite Hc, !app_nil_r.
  - rewrite (eend_group l o (n_src r) ns) by done. rewrite Hs. cbn [eend]. by destruct (n_cnt r =? 0).
Qed.

(** Every node of [ns'] belongs to a group of [ns]. *)
Definition same_groups (ns ns' : list tag_list_node) : Prop :=
  Forall (fun n' => exists n, n ∈ ns /\ n_src n = n_src n' /\ n_stage n = n_stage n') ns'.

Lemma same_groups_refl ns : same_groups ns ns.
Proof. apply Forall_forall. eauto. Qed.

Lemma same_groups_trans a b c : same_groups a b -> same_groups b c -> same_groups a c.
Proof.
  intros H1 H2. eapply Forall_impl; [exact H2|]. intros n (x & Hx & E1 & E2).
  unfold same_groups in H1. rewrite Forall_forall in H1. destruct (H1 x Hx) as (y & Hy & F1 & F2).
  exists y. split; [done|]. split; congruence.
Qed.

Lemma optimize_back_ok start cnt before :
  Forall node_ok before -> 0 <= start -> 0 <= cnt < U32_MOD -> start + cnt < NOADDR ->
  forall acc, exists after,
    optimize_back start cnt (rev before) acc = Ok (after ++ acc) /\ Forall node_ok after /\
    same_groups before after /\
    forall l o, expand l o after = kill start cnt <$> expand l o before /\ eend l o after = eend l o before.
Proof.
  intros Hok Hst Hcnt Hend. induction before as [|r before IH] using rev_ind; intros acc.
  { exists []. repeat split; by constructor. }
  apply Forall_app in Hok as [Hok Hr]. apply Forall_cons in Hr as [Hr _].
  rewrite rev_unit. cbn [optimize_back].
  destruct (optimize_node_ok start cnt r Hr Hst Hcnt Hend) as (ns & -> & Hns). cbn [res_bind].
  destruct (IH Hok (ns ++ acc)) as (after & -> & Ha & Hg & He).
  exists (after ++ ns). rewrite (assoc_L (++)). split; [done|]. split_and!.
  - apply Forall_app. split; [done|]. apply (rp_ok _ _ _ _ Hns).
  - apply Forall_app. split.
    + eapply Forall_impl; [exact Hg|]. intros n (x & Hx & ?). exists x. split; [|done].
      apply elem_of_app. by left.
    + eapply Forall_impl; [apply (rp_grp _ _ _ _ Hns)|]. intros n [? ?]. exists r.
      split; [apply elem_of_app; right; by left | done].
  - intros l o. destruct (He l o) as [He1 He2].
    destruct (replaces_expand start cnt r ns (eend l o before).1 (eend l o before).2 Hr Hns) as [Hr1 Hr2].
    rewrite !expand_app, !eend_app, fmap_app, He1, He2, Hr1, Hr2. done.
Qed.

(** Keep only the last slot of every destination. *)
Definition dsts (sl : list slot) : list Z := omap s_dst sl.

Definition forget_dst (s : slot) : slot := mk_slot (s_grp s) (s_off s) (s_stage s) None.

Fixpoint keep_last (sl : list slot) : list slot :=
  match sl with
  | [] => []
  | s :: sl' =>
      (match s_dst s with
       | Some x => if decide (x ∈ dsts sl') then forget_dst s else s
       | None => s
       end) :: keep_last sl'
  end.

Lemma dsts_app a b : dsts (a ++ b) = dsts a ++ dsts b.
Proof. apply omap_app. Qed.

Lemma dsts_slots n o :
  dsts (slots n o) = if n_start n =? NOADDR then [] else seqz (n_start n) (n_cnt n).
Proof.
  transitivity (if n_start n =? NOADDR then [] else (fun i => n_start n + i) <$> seqz 0 (n_cnt n)).
  - unfold dsts, slots. destruct (n_start n =? NOADDR); induction (seqz 0 (n_cnt n)) as [|i l IH];
      cbn in *; [done..|by rewrite IH].
  - destruct (n_start n =? NOADDR); [done|]. unfold seqz. rewrite <- list_fmap_compose.
    apply list_fmap_ext. intros; cbn; lia.
Qed.

Lemma keep_last_id sl : NoDup (dsts sl) -> keep_last sl = sl.
Proof.
  induction sl as [|s sl IH]; intros H; [done|]. cbn in *.
  destruct (s_dst s) as [x|]; cbn in *.
  - apply NoDup_cons in H as [Hx H]. rewrite IH, decide_False by done. done.
  - by rewrite IH.
Qed.

Lemma keep_last_overwrite X n o :
  n_start n <> NOADDR ->
  keep_last (X ++ slots n o) = (kill (n_start n) (n_cnt n) <$> keep_last X) ++ slots n o.
Proof.
  intros Hv. apply Z.eqb_neq in Hv. induction X as [|s X IH]; cbn.
  - apply keep_last_id. rewrite dsts_slots, Hv. apply NoDup_seqz.
  - rewrite IH. f_equal. rewrite dsts_app, dsts_slots, Hv.
    destruct s as [g off st [x|]]; cbn; [|done]. unfold kill; cbn.
    assert (x ∈ seqz (n_start n) (n_cnt n) <-> (n_start n <=? x) && (x <? n_start n + n_cnt n) = true) as Hin.
    { rewrite elem_of_seqz, andb_true_iff, Z.leb_le, Z.ltb_lt. done. }
    destruct (decide (x ∈ dsts X ++ seqz (n_start n) (n_cnt n))) as [H|H]; rewrite elem_of_app in H.
    + destruct (decide (x ∈ dsts X)); [done|]. cbn. destruct H as [?|H]; [done|].
      rewrite (proj1 Hin H). done.
    + rewrite decide_False by tauto. cbn.
      destruct ((n_start n <=? x) && (x <? n_start n + n_cnt n)) eqn:E; [tauto|done].
Qed.

Definition tag_ok (n : tag_list_node) : Prop := node_ok n /\ n_start n <> NOADDR.

Lemma optimize_tags_ok todo :
  Forall tag_ok todo -> forall before pre,
  Forall node_ok before -> same_groups (pre ++ todo) before ->
  (forall l o, expand l o before = keep_last (expand l o pre) /\ eend l o before = eend l o pre) ->
  exists out, optimize_tags before todo = Ok out /\ Forall node_ok out /\
    same_groups (pre ++ todo) out /\
    forall l o, expand l o out = keep_last (expand l o (pre ++ todo)) /\ eend l o out = eend l o (pre ++ todo).
Proof.
  induction 1 as [|n todo [Hn Hv] Htodo IH]; intros before pre Hb Hg He.
  { exists before. rewrite app_nil_r in *. done. }
  pose proof Hn as (Hc & Hs & Hend). specialize (Hend Hv). cbn [optimize_tags].
  destruct (optimize_back_ok (n_start n) (n_cnt n) before) with (acc := @nil tag_list_node) as
    (after & -> & Ha & Hga & Hea); [done|lia|lia|lia|].
  rewrite app_nil_r. cbn [res_bind].
  destruct (IH (after ++ [n]) (pre ++ [n])) as (out & E & Ho & Hgo & Heo).
  - apply Forall_app. split; [done|by constructor].
  - rewrite <- (assoc_L (++)). cbn [app]. apply Forall_app. split.
    + by eapply same_groups_trans.
    + constructor; [|constructor]. exists n. split; [|done]. rewrite elem_of_app, elem_of_cons. auto.
  - intros l o. destruct (Hea l o) as [E1 E2], (He l o) as [F1 F2].
    rewrite !expand_app, !eend_app, E1, E2, F1, F2. split; [|done].
    cbn [expand]. destruct (n_cnt n =? 0) eqn:Ez.
    + rewrite !app_nil_r. apply Z.eqb_eq in Ez. rewrite Ez.
      rewrite <- (list_fmap_id (keep_last _)) at 2. apply list_fmap_ext. intros _ [g off st [x|]] _; [|done].
      unfold kill; cbn. destruct (Z.leb_spec (n_start n) x), (Z.ltb_spec x (n_start n + 0)); cbn; done || lia.
    + rewrite !app_nil_r. by rewrite keep_last_overwrite.
  - exists out. rewrite <- (assoc_L (++)) in *. done.
Qed.

(** ** Pass 4 keeps the slots *)

Definition stage_consistent (ns : list tag_list_node) : Prop :=
  forall a b, a ∈ ns -> b ∈ ns -> n_src a = n_src b -> n_stage a = n_stage b.

Definition merged (p n : tag_list_node) : tag_list_node := set_cnt p (u32 (n_cnt p + n_cnt n)).

Lemma merged_slots p n off :
  node_ok p -> node_ok n -> n_src p = n_src n -> n_stage p = n_stage n ->
  n_cnt p + n_cnt n < U32_MOD -> can_coalesce p n = true ->
  node_ok (merged p n) /\ n_cnt (merged p n) = n_cnt p + n_cnt n /\
  slots p off ++ slots n (off + n_cnt p) = slots (merged p n) off.
Proof.
  intros (Hpc & Hps & Hpv) (Hnc & Hns & Hnv) Hsrc Hst Hsum Hcan.
  assert (NOADDR = 18446744073709551615) as EN by done.
  assert ((n_start p = NOADDR /\ n_start n = NOADDR) \/
          (n_start p <> NOADDR /\ n_start n <> NOADDR /\ n_start n = n_start p + n_cnt p)) as Hcase.
  { unfold can_coalesce in Hcan. destruct (Z.eqb_spec (n_start n) NOADDR), (Z.eqb_spec (n_start p) NOADDR);
      cbn in Hcan; try discriminate; [by left|right].
    bool_prop. rewrite u64_id in Hcan by lia. done. }
  unfold merged. rewrite u32_id by lia. split_and!.
  - unfold node_ok; cbn. destruct Hcase as [[? ?]|(? & Hnn & E)]; split_and!; try lia.
  - done.
  - unfold slots; cbn [n_cnt n_start n_src n_stage set_cnt]. rewrite seqz_app, fmap_app by lia. f_equal.
    replace (seqz (0 + n_cnt p) (n_cnt n)) with ((fun i => n_cnt p + i) <$> seqz 0 (n_cnt n)).
    2:{ unfold seqz. rewrite <- list_fmap_compose. apply list_fmap_ext. intros; cbn; lia. }
    rewrite <- list_fmap_compose. apply list_fmap_ext. intros i x _. cbn. rewrite Hsrc, Hst.
    f_equal; [lia|]. destruct Hcase as [[-> ->]|(Hp & Hn & E)]; [done|].
    rewrite (proj2 (Z.eqb_neq _ _) Hp), (proj2 (Z.eqb_neq _ _) Hn). f_equal. lia.
Qed.

Lemma merged_expand p n l o :
  node_ok p -> node_ok n -> n_src p = n_src n -> n_stage p = n_stage n ->
  n_cnt p + n_cnt n < U32_MOD -> can_coalesce p n = true ->
  expand l o [p; n] = expand l o [merged p n] /\ eend l o [p; n] = eend l o [merged p n].
Proof.
  intros Hp Hn Hsrc Hst Hsum Hcan. pose proof Hp as [Hpc _]. pose proof Hn as [Hnc _].
  assert (Forall (fun x => n_src x = n_src p /\ 0 <= n_cnt x) [p; n]) as H1
    by (repeat constructor; done || lia).
  destruct (merged_slots p n 0 Hp Hn Hsrc Hst Hsum Hcan) as ((Hmc & _) & Emc & _).
  assert (Forall (fun x => n_src x = n_src p /\ 0 <= n_cnt x) [merged p n]) as H2
    by (repeat constructor; done || lia).
  assert (sumz n_cnt [p; n] = sumz n_cnt [merged p n]) as Esum
    by (autorewrite with oxbow; rewrite Emc; lia).
  split.
  - pose proof (expand_group l o (n_src p) [p; n] [] H1) as E1.
    pose proof (expand_group l o (n_src p) [merged p n] [] H2) as E2.
    rewrite !app_nil_r in E1, E2. rewrite E1, E2, Esum. destruct (sumz n_cnt [merged p n] =? 0); [done|].
    set (off := if l =? n_src p then o else 0). cbn [cat]. rewrite !app_nil_r.
    by apply merged_slots.
  - by rewrite (eend_group l o (n_src p) _ H1), (eend_group l o (n_src p) _ H2), Esum.
Qed.

Lemma coalesce_tags_ok todo : forall g kept,
  Forall node_ok (rev kept ++ todo) -> stage_consistent (rev kept ++ todo) ->
  sumz n_cnt (rev kept ++ todo) < U32_MOD ->
  (match kept with
   | [] => Forall (fun n => n_src n <> g) todo
   | x :: _ => n_src x = g
   end) ->
  let out := coalesce_tags g kept todo in
  Forall node_ok out /\ same_groups (rev kept ++ todo) out /\
  sumz n_cnt out = sumz n_cnt (rev kept ++ todo) /\
  forall l o, expand l o out = expand l o (rev kept ++ todo).
Proof.
  induction todo as [|n todo IH]; intros g kept Hok Hst Hsum Hg; cbn [coalesce_tags].
  { rewrite app_nil_r in *. split; [done|]. split; [apply same_groups_refl|done]. }
  assert (rev (n :: kept) ++ todo = rev kept ++ n :: todo) as Epush
    by (cbn; by rewrite <- (assoc_L (++))).
  destruct (Z.eqb_spec g (n_src n)) as [Eg|Eg]; cbn [negb].
  2:{ rewrite <- Epush in *. by apply IH. }
  destruct kept as [|p kept].
  { apply Forall_cons in Hg as [Hg _]. by destruct Hg. }
  destruct (can_coalesce p n) eqn:Ecan; cycle 1.
  { rewrite <- Epush in *. apply IH; try done. }
  fold (merged p n). cbn [rev] in Hok, Hst, Hsum |- *. rewrite <- (assoc_L (++)) in Hok, Hst, Hsum |- *.
  cbn [app] in Hok, Hst, Hsum |- *.
  pose proof Hok as Hok'. apply Forall_app in Hok' as [Hk Hpn].
  apply Forall_cons in Hpn as [Hp Hpn]. apply Forall_cons in Hpn as [Hn Htodo].
  assert (n_stage p = n_stage n) as Estage.
  { apply Hst; [set_solver..|congruence]. }
  assert (n_cnt p + n_cnt n < U32_MOD) as Hpn.
  { rewrite sumz_app, !sumz_cons in Hsum.
    assert (forall l, Forall node_ok l -> 0 <= sumz n_cnt l) as Hnn.
    { intros l Hl. apply sumz_nonneg. eapply Forall_impl; [exact Hl|]. intros x [? _]. lia. }
    pose proof (Hnn _ Hk). pose proof (Hnn _ Htodo). lia. }
  destruct (merged_slots p n 0 Hp Hn ltac:(congruence) Estage Hpn Ecan) as (Hm & Emc & _).
  assert (rev (merged p n :: kept) ++ todo = rev kept ++ merged p n :: todo) as Em
    by (cbn; by rewrite <- (assoc_L (++))).
  assert (sumz n_cnt (rev kept ++ merged p n :: todo) = sumz n_cnt (rev kept ++ p :: n :: todo)) as Esum.
  { rewrite !sumz_app, !sumz_cons, Emc. lia. }
  destruct (IH g (merged p n :: kept)) as (Ho & Hgo & Hso & Heo).
  - rewrite Em. apply Forall_app. split; [done|by constructor].
  - rewrite Em. intros a b Ha Hb Eab.
    assert (forall x, x ∈ rev kept ++ merged p n :: todo ->
      exists y, y ∈ rev kept ++ p :: n :: todo /\ n_src y = n_src x /\ n_stage y = n_stage x) as Hback.
    { intros x Hx. rewrite elem_of_app, elem_of_cons in Hx. destruct Hx as [?|[->|?]]; [exists x|exists p|exists x]; set_solver. }
    destruct (Hback a Ha) as (a' & ? & ? & <-), (Hback b Hb) as (b' & ? & ? & <-).
    apply Hst; [done..|congruence].
  - by rewrite Em, Esum.
  - done.
  - split; [done|]. rewrite Em in *. split; [|split].
    + eapply same_groups_trans; [|exact Hgo]. apply Forall_forall. intros x Hx.
      rewrite elem_of_app, elem_of_cons in Hx.
      destruct Hx as [?|[->|?]]; [exists x|exists p|exists x]; set_solver.
    + by rewrite Hso, Esum.
    + intros l o. rewrite Heo. rewrite !expand_app.
      change (p :: n :: todo) with ([p; n] ++ todo). change (merged p n :: todo) with ([merged p n] ++ todo).
      rewrite !expand_app.
      destruct (merged_expand p n (eend l o (rev kept)).1 (eend l o (rev kept)).2 Hp Hn ltac:(congruence) Estage Hpn Ecan)
        as [-> ->]. done.
Qed.

(** ** Pass 5 copies the slots *)

Definition afirst (a : src_area) (st : bool) : Z := if st then stage_first a else first (jnl a).
Definition alast (a : src_area) (st : bool) : Z := if st then stage_last a else last (jnl a).
Definition alen (a : src_area) (st : bool) : Z := alast a st - afirst a st + 1.

(** Ring address of position [x] in the area. *)
Definition aring (a : src_area) (st : bool) (x : Z) : Z :=
  afirst a st + (x - afirst a st) mod alen a st.

Definition slot_src (a : src_area) (s : slot) : Z := aring a (s_stage s) (s_grp s + s_off s).

(** Copy every slot, in order, from the disk [d0]. *)
Definition exec_slots (a : src_area) (d0 : disk) (sl : list slot) (d : disk) : disk :=
  foldl (fun d s => match s_dst s with
                    | Some x => upd d x (d0 (slot_src a s))
                    | None => d
                    end) d sl.

Definition in_area (a : src_area) (b : Z) : Prop :=
  (stage_first a <= b <= stage_last a) \/ (first (jnl a) <= b <= last (jnl a)).

Record area_ok (a : src_area) : Prop := {
  ao_first : forall st, 0 < afirst a st;
  ao_len : forall st, 0 < alen a st < U32_MOD;
  ao_last : forall st, alast a st + U32_MOD < U64_MOD
}.

Lemma exec_slots_app a d0 s1 s2 d : exec_slots a d0 (s1 ++ s2) d = exec_slots a d0 s2 (exec_slots a d0 s1 d).
Proof. apply foldl_app. Qed.

Lemma exec_slots_invalid a d0 n off d :
  n_start n = NOADDR -> exec_slots a d0 (slots n off) d = d.
Proof.
  intros E. unfold slots. rewrite E, Z.eqb_refl. unfold exec_slots.
  induction (seqz 0 (n_cnt n)); [done|]. done.
Qed.

(** The slots of a valid node move its blocks to consecutive addresses. *)
Lemma exec_slots_node a d0 n off d b :
  n_start n <> NOADDR ->
  exec_slots a d0 (slots n off) d b =
    if decide (n_start n <= b < n_start n + n_cnt n)
    then d0 (aring a (n_stage n) (n_src n + (off + (b - n_start n)))) else d b.
Proof.
  intros Hv. unfold slots. rewrite (proj2 (Z.eqb_neq _ _) Hv).
  assert (forall c k d, 0 <= k ->
    exec_slots a d0 ((fun i => mk_slot (n_src n) (off + i) (n_stage n) (Some (n_start n + i))) <$> seqz k c) d b =
    if decide (n_start n + k <= b < n_start n + k + c)
    then d0 (aring a (n_stage n) (n_src n + (off + (b - n_start n)))) else d b) as H.
  { intros c. destruct (decide (0 <= c)) as [Hc|Hc].
    2:{ intros k d' _. rewrite seqz_nil by lia. cbn. by rewrite decide_False by lia. }
    pattern c. apply natlike_ind; [|clear c Hc|done].
    - intros k d' _. rewrite seqz_nil by lia. cbn. by rewrite decide_False by lia.
    - intros c Hc IH k d' Hk. rewrite seqz_cons by lia. cbn [fmap list_fmap].
      change (exec_slots a d0 (?s :: ?l) d') with (exec_slots a d0 ([s] ++ l) d').
      rewrite exec_slots_app. replace (Z.succ c - 1) with c by lia. rewrite IH by lia.
      unfold exec_slots; cbn. unfold slot_src, upd; cbn.
      destruct (decide (n_start n + (k + 1) <= b < n_start n + (k + 1) + c)).
      + by rewrite decide_True by lia.
      + case_cmp.
        * rewrite decide_True by lia. do 2 f_equal. lia.
        * by rewrite decide_False by lia. }
  rewrite H by lia. by rewrite Z.add_0_r.
Qed.

Record copy_inv (a : src_area) (d0 : disk) (P : list slot) (st : copy_state) : Prop := {
  ci_flush : c_disk (dispatch_copies st) ≡d exec_slots a d0 P d0;
  ci_area : forall b, in_area a b -> c_disk st b = d0 b;
  ci_write : Forall (fun x => bv_buf x + bv_nblks x <= next_buf st /\
                              forall b, covers x b -> ~ in_area a b) (write_bl st)
}.

(** The state after the requests of one node are added. *)
Definition emitted (st : copy_state) (group cur size k : Z) (rs ws : bio_list) : copy_state :=
  mk_copy group cur size (read_bl st ++ rs) (write_bl st ++ ws) (c_disk st) (c_mem st)
    (next_buf st + k).

Lemma copy_inv_emit a d0 P st g cur size src k rs ws node off :
  copy_inv a d0 P st -> 0 < k -> n_start node <> NOADDR -> n_cnt node = k ->
  transfers rs src (next_buf st) k -> transfers ws (n_start node) (next_buf st) k ->
  (forall i, 0 <= i < k -> aring a (n_stage node) (n_src node + (off + i)) = src + i /\ in_area a (src + i)) ->
  (forall b, n_start node <= b < n_start node + k -> ~ in_area a b) ->
  copy_inv a d0 (P ++ slots node off) (emitted st g cur size k rs ws).
Proof.
  intros [Hf Ha Hw] Hk Hv Hc Tr Tw Hsrc Hdst.
  set (m1 := bl_read (c_disk st) (read_bl st) (c_mem st)).
  set (m2 := bl_read (c_disk st) (read_bl st ++ rs) (c_mem st)).
  assert (forall p, m2 p = read_blks m1 (c_disk st) src (next_buf st) k p) as Em2.
  { intros p. unfold m2. rewrite bl_read_app. apply (tr_read _ _ _ _ Tr). }
  split.
  - intros b. cbn. fold m2. rewrite bl_write_app, (tr_write _ _ _ _ Tw), exec_slots_app, exec_slots_node by done.
    rewrite Hc. unfold write_blks.
    destruct (decide (n_start node <= b < n_start node + k)) as [Hin|Hout].
    + rewrite (proj2 (Z.leb_le _ _)), (proj2 (Z.ltb_lt _ _)) by lia. cbn [andb].
      rewrite Em2, read_blks_in by lia. destruct (Hsrc (b - n_start node)) as [E Hin']; [lia|].
      rewrite E, <- (Ha _ Hin'). f_equal. lia.
    + assert ((n_start node <=? b) && (b <? n_start node + k) = false) as ->.
      { destruct (Z.leb_spec (n_start node) b), (Z.ltb_spec b (n_start node + k)); cbn; done || lia. }
      rewrite <- Hf. cbn. fold m1. apply (bl_write_mem_ext m2 m1 _ _ (next_buf st)).
      * intros p Hp. rewrite Em2. apply read_blks_out. lia.
      * eapply Forall_impl; [exact Hw|]. by intros x [? _].
  - apply Ha.
  - cbn. apply Forall_app. split.
    + eapply Forall_impl; [exact Hw|]. cbn. intros x [? ?]. split; [lia|done].
    + eapply Forall_impl; [apply (tr_size _ _ _ _ Tw)|]. cbn. intros x Hx. split; [lia|].
      intros b Hb. apply Hdst. unfold covers in Hb. lia.
Qed.

(** Dispatching keeps the invariant. *)
Lemma copy_inv_dispatch a d0 P st : copy_inv a d0 P st -> copy_inv a d0 P (dispatch_copies st).
Proof.
  intros [Hf Ha Hw]. split.
  - apply Hf.
  - intros b Hb. cbn. rewrite bl_write_none; [by apply Ha|].
    eapply Forall_impl; [exact Hw|]. intros x [_ Hx] Hc. exact (Hx b Hc Hb).
  - constructor.
Qed.

Lemma copy_inv_skip a d0 P st n off g cur :
  copy_inv a d0 P st -> n_start n = NOADDR \/ n_cnt n = 0 ->
  copy_inv a d0 (P ++ slots n off)
    (mk_copy g cur (cur_buf_size st) (read_bl st) (write_bl st) (c_disk st) (c_mem st) (next_buf st)).
Proof.
  intros [Hf Ha Hw] Hn. split; [|exact Ha|exact Hw].
  intros b. rewrite exec_slots_app. destruct Hn as [Hn|Hn].
  - rewrite exec_slots_invalid by done. apply Hf.
  - rewrite slots_nil by done. apply Hf.
Qed.

Lemma aring_id a st x : afirst a st <= x <= alast a st -> aring a st x = x.
Proof. intros. unfold aring, alen. rewrite Z.mod_small; lia. Qed.

Lemma aring_shift a st x y i : aring a st x = aring a st y -> aring a st (x + i) = aring a st (y + i).
Proof.
  unfold aring. intros E. f_equal.
  replace (x + i - afirst a st) with ((x - afirst a st) + i) by lia.
  replace (y + i - afirst a st) with ((y - afirst a st) + i) by lia.
  rewrite <- (Zplus_mod_idemp_l (x - _)), <- (Zplus_mod_idemp_l (y - _)). do 2 f_equal. lia.
Qed.

Lemma aring_end a st : aring a st (alast a st + 1) = aring a st (afirst a st).
Proof.
  unfold aring, alen. f_equal.
  replace (alast a st + 1 - afirst a st)
    with (afirst a st - afirst a st + 1 * (alast a st - afirst a st + 1)) by lia.
  apply Z_mod_plus_full.
Qed.

(** Emitting [node], whose blocks lie unwrapped at [src]. *)
Lemma emit_node_ok a d0 P st src node off :
  area_ok a -> copy_inv a d0 P st -> node_ok node ->
  (n_start node <> NOADDR -> 0 < n_cnt node) ->
  afirst a (n_stage node) <= src -> src + n_cnt node - 1 <= alast a (n_stage node) ->
  aring a (n_stage node) src = aring a (n_stage node) (n_src node + off) ->
  (n_start node <> NOADDR -> forall b, n_start node <= b < n_start node + n_cnt node -> ~ in_area a b) ->
  exists st', emit_node st src node = Ok st' /\ copy_inv a d0 (P ++ slots node off) st' /\
    last_group st' = last_group st /\ cur_src st' = cur_src st.
Proof.
  intros Ha Hi Hok Hpos Hf Hl Er Hd. unfold emit_node.
  destruct (Z.eqb_spec (n_start node) NOADDR) as [E|Hv].
  { exists st. split; [done|]. split; [|done].
    pose proof (copy_inv_skip a d0 P st node off (last_group st) (cur_src st) Hi (or_introl E)).
    by destruct st. }
  specialize (Hpos Hv). specialize (Hd Hv). destruct Hok as (Hc & Hs & Hend). specialize (Hend Hv).
  pose proof (ao_first a Ha (n_stage node)). pose proof (ao_last a Ha (n_stage node)).
  pose proof (ao_len a Ha (n_stage node)). assert (NOADDR = 18446744073709551615) as EN by done.
  destruct (add_bio_to_bl_ok (read_bl st) (next_buf st) src (n_cnt node)) as (rs & -> & Tr); [lia..|].
  cbn [res_bind].
  destruct (add_bio_to_bl_ok (write_bl st) (next_buf st) (n_start node) (n_cnt node)) as (ws & -> & Tw); [lia..|].
  cbn [res_bind]. set (size := u64 _).
  assert (copy_inv a d0 (P ++ slots node off)
            (emitted st (last_group st) (cur_src st) size (n_cnt node) rs ws)) as Hi'.
  { apply (copy_inv_emit a d0 P st _ _ size src); try done.
    intros i Hi0. split.
    - rewrite Z.add_assoc, <- (aring_shift a _ src), aring_id; [done|lia|done].
    - unfold in_area, afirst, alast in *. destruct (n_stage node); lia. }
  destruct (_ <=? size); eexists; (split; [reflexivity|]); (split; [|done]); [by apply copy_inv_dispatch|done].
Qed.

(** Source address of the next block of the current group. *)
Section copy.
Context (a : src_area) (d0 : disk) (sg : Z -> bool) (Ha : area_ok a).

(** [sg] tells which area a group lies in. *)
Record copy_ok (n : tag_list_node) : Prop := {
  co_node : node_ok n;
  co_stage : n_stage n = sg (n_src n);
  co_src : n_src n <> NOADDR;
  co_base : afirst a (n_stage n) <= n_src n <= alast a (n_stage n) + 1;
  co_dst : n_start n <> NOADDR ->
           forall b, n_start n <= b < n_start n + n_cnt n -> ~ in_area a b
}.

Definition pos_inv (l o : Z) (st : copy_state) : Prop :=
  last_group st = l /\
  (l <> NOADDR -> afirst a (sg l) <= cur_src st <= alast a (sg l) + 1 /\
                  aring a (sg l) (cur_src st) = aring a (sg l) (l + o)).

(** The source address [copy_node] starts from. *)
Lemma src_ok l o st n :
  pos_inv l o st -> copy_ok n ->
  let src := if negb (last_group st =? n_src n) then n_src n else cur_src st in
  let o0 := if l =? n_src n then o else 0 in
  afirst a (n_stage n) <= src <= alast a (n_stage n) + 1 /\
  aring a (n_stage n) src = aring a (n_stage n) (n_src n + o0).
Proof.
  intros [Hl Hp] [Hn Hs Hne Hb _]. rewrite Hl. destruct (Z.eqb_spec l (n_src n)) as [->|]; cbn.
  - rewrite Hs. by apply Hp.
  - rewrite Z.add_0_r. done.
Qed.

Lemma copy_node_flat P st l o n :
  copy_inv a d0 P st -> pos_inv l o st -> copy_ok n -> n_cnt n <> 0 ->
  let src := if negb (last_group st =? n_src n) then n_src n else cur_src st in
  let o0 := if l =? n_src n then o else 0 in
  src + n_cnt n - 1 <= alast a (n_stage n) ->
  exists st', copy_node a st n = Ok (st', []) /\ copy_inv a d0 (P ++ slots n o0) st' /\
    pos_inv (n_src n) (o0 + n_cnt n) st'.
Proof.
  intros Hi Hp Hn Hc src o0 Hfit. destruct (src_ok l o st n Hp Hn) as [Hr Er]. fold src o0 in Hr, Er.
  pose proof Hn as [(Hnc & _) Hs Hne Hb Hd]. pose proof (ao_last a Ha (n_stage n)).
  pose proof (ao_first a Ha (n_stage n)). pose proof (ao_len a Ha (n_stage n)).
  unfold copy_node. rewrite (proj2 (Z.eqb_neq _ _) Hc). fold src.
  change (if n_stage n then stage_last a else last (jnl a)) with (alast a (n_stage n)).
  assert (check_wrap_around src (n_cnt n) (alast a (n_stage n)) = false) as ->.
  { unfold check_wrap_around. rewrite u64_id by lia. case_cmp; [lia|done]. }
  cbn [andb]. rewrite (u64_id (src + n_cnt n)) by lia.
  destruct (emit_node_ok a d0 P
              (mk_copy (n_src n) (src + n_cnt n) (cur_buf_size st) (read_bl st) (write_bl st)
                 (c_disk st) (c_mem st) (next_buf st)) src n o0)
    as (st' & -> & Hi' & El & Ec); try done; try lia.
  - destruct Hi as [? ? ?]. by split.
  - apply Hn.
  - cbn [res_bind]. exists st'. split; [done|]. split; [done|]. split; [done|].
    intros _. rewrite Ec. cbn. rewrite <- Hs. split; [lia|].
    rewrite Z.add_assoc. by apply aring_shift.
Qed.

Lemma copy_node_wrap P st l o n :
  copy_inv a d0 P st -> pos_inv l o st -> copy_ok n -> n_cnt n <> 0 ->
  let src := if negb (last_group st =? n_src n) then n_src n else cur_src st in
  let o0 := if l =? n_src n then o else 0 in
  alast a (n_stage n) < src + n_cnt n - 1 ->
  let k := alast a (n_stage n) - src + 1 in
  let n2 := mk_node (if n_start n =? NOADDR then NOADDR else n_start n + k) (n_cnt n - k)
              (n_src n) (n_stage n) in
  exists st', copy_node a st n = Ok (st', [n2]) /\ copy_inv a d0 (P ++ slots (set_cnt n k) o0) st' /\
    pos_inv (n_src n) (o0 + k) st' /\ cur_src st' = afirst a (n_stage n) /\ 0 <= k < n_cnt n.
Proof.
  intros Hi Hp Hn Hc src o0 Hfit k n2. destruct (src_ok l o st n Hp Hn) as [Hr Er]. fold src o0 in Hr, Er.
  pose proof Hn as [(Hnc & Hns & Hnv) Hs Hne Hb Hd]. pose proof (ao_last a Ha (n_stage n)).
  pose proof (ao_first a Ha (n_stage n)). pose proof (ao_len a Ha (n_stage n)).
  assert (NOADDR = 18446744073709551615) as EN by done.
  unfold copy_node. rewrite (proj2 (Z.eqb_neq _ _) Hc). fold src.
  change (if n_stage n then stage_last a else last (jnl a)) with (alast a (n_stage n)).
  change (if n_stage n then stage_first a else first (jnl a)) with (afirst a (n_stage n)).
  assert (check_wrap_around src (n_cnt n) (alast a (n_stage n)) = true) as ->.
  { unfold check_wrap_around. rewrite u64_id by lia. case_cmp; [done|lia]. }
  cbn [andb n_cnt n_start n_stage n_src set_cnt].
  assert (u32 (alast a (n_stage n) - src + 1) = k) as Ek by (apply u32_id; lia). rewrite Ek.
  rewrite (u32_id (n_cnt n - k)) by lia. destruct (Z.ltb_spec 0 (n_cnt n - k)); [|lia]. cbn [andb].
  assert (mk_node (if n_start n =? NOADDR then NOADDR else u64 (n_start n + k)) (n_cnt n - k)
            (n_src n) (n_stage n) = n2) as ->.
  { unfold n2. f_equal. case_cmp; [done|]. apply u64_id. specialize (Hnv ltac:(done)). lia. }
  set (n1 := if k =? 0 then set_start (set_cnt n k) NOADDR else set_cnt n k).
  destruct (emit_node_ok a d0 P
              (mk_copy (n_src n) (afirst a (n_stage n)) (cur_buf_size st) (read_bl st) (write_bl st)
                 (c_disk st) (c_mem st) (next_buf st)) src n1 o0)
    as (st' & -> & Hi' & El & Ec); try (unfold n1; destruct (k =? 0); cbn; done).
  - destruct Hi as [? ? ?]. by split.
  - unfold n1. destruct (Z.eqb_spec k 0); unfold node_ok; cbn; split_and!; (done || lia || auto with lia).
  - unfold n1. destruct (Z.eqb_spec k 0); cbn; intros; (done || lia).
  - unfold n1. destruct (Z.eqb_spec k 0); cbn; lia.
  - unfold n1. destruct (Z.eqb_spec k 0); cbn; lia.
  - unfold n1. destruct (Z.eqb_spec k 0); cbn; [done|]. intros Hv b ?. apply Hd; [done|lia].
  - cbn [res_bind]. exists st'. split; [done|]. split_and!; try lia.
    + unfold n1 in Hi'. destruct (Z.eqb_spec k 0) as [E|]; [|done].
      rewrite slots_nil in Hi' by done. by rewrite slots_nil by done.
    + split; [done|]. intros _. rewrite Ec. cbn. rewrite <- Hs. unfold alen in *. split; [lia|].
      rewrite <- aring_end, Z.add_assoc. symmetry.
      replace (alast a (n_stage n) + 1) with (src + k) by lia. symmetry. by apply aring_shift.
    + done.
Qed.

Lemma slots_split n k off :
  node_ok n -> 0 <= k <= n_cnt n ->
  slots n off = slots (set_cnt n k) off ++
    slots (mk_node (if n_start n =? NOADDR then NOADDR else n_start n + k) (n_cnt n - k)
             (n_src n) (n_stage n)) (off + k).
Proof.
  intros (Hc & Hs & Hv) Hk. assert (NOADDR = 18446744073709551615) as EN by done.
  unfold slots; cbn [n_cnt n_start n_src n_stage set_cnt].
  replace (seqz 0 (n_cnt n)) with (seqz 0 (k + (n_cnt n - k))) by (f_equal; lia).
  rewrite seqz_app, fmap_app by lia. f_equal.
  replace (seqz (0 + k) (n_cnt n - k)) with ((fun i => k + i) <$> seqz 0 (n_cnt n - k)).
  2:{ unfold seqz. rewrite <- list_fmap_compose. apply list_fmap_ext. intros; cbn; lia. }
  rewrite <- list_fmap_compose. apply list_fmap_ext. intros i x Hx%list_elem_of_lookup_2.
  apply elem_of_seqz in Hx. cbn. f_equal; [lia|].
  destruct (Z.eqb_spec (n_start n) NOADDR) as [E|E]; [by rewrite Z.eqb_refl|]. specialize (Hv E).
  destruct (Z.eqb_spec (n_start n + k) NOADDR); [lia|]. f_equal. lia.
Qed.

Lemma copy_tags_ok todo : forall fuel P st l o,
  Forall (fun n => copy_ok n /\ n_cnt n <= alen a (n_stage n)) todo ->
  copy_inv a d0 P st -> pos_inv l o st -> (2 * length todo <= fuel)%nat ->
  exists st', copy_tags fuel a st todo = Ok st' /\
    c_disk st' ≡d exec_slots a d0 (P ++ expand l o todo) d0.
Proof.
  induction todo as [|n todo IH]; intros fuel P st l o Hn Hi Hp Hf.
  { exists (dispatch_copies st). rewrite app_nil_r. split; [by destruct fuel|]. apply Hi. }
  apply Forall_cons in Hn as [[Hn Hlen] Hn']. cbn [length] in Hf.
  destruct fuel as [|fuel]; [lia|]. cbn [copy_tags expand].
  destruct (Z.eqb_spec (n_cnt n) 0) as [Ez|Ez].
  { unfold copy_node. rewrite Ez. change (0 =? 0) with true. cbn [res_bind app].
    apply IH; [done..|lia]. }
  set (o0 := if l =? n_src n then o else 0).
  set (src := if negb (last_group st =? n_src n) then n_src n else cur_src st).
  destruct (decide (src + n_cnt n - 1 <= alast a (n_stage n))) as [Hflat|Hwrap].
  - destruct (copy_node_flat P st l o n Hi Hp Hn Ez Hflat) as (st' & -> & Hi' & Hp').
    fold o0 in Hi', Hp'. cbn [res_bind app]. rewrite (assoc_L (++)). apply IH; [done..|lia].
  - destruct (copy_node_wrap P st l o n Hi Hp Hn Ez) as (st1 & E1 & Hi1 & Hp1 & Ec1 & Hk); [lia|].
    fold src in E1, Hi1, Hp1, Hk. fold o0 in Hi1, Hp1. rewrite E1. cbn [res_bind app].
    set (k := alast a (n_stage n) - src + 1) in *.
    set (n2 := mk_node _ (n_cnt n - k) (n_src n) (n_stage n)).
    pose proof Hn as [Hnok Hs Hne Hb Hd]. pose proof Hnok as (Hc & Hst & Hv).
    assert (NOADDR = 18446744073709551615) as EN by done.
    assert (copy_ok n2) as Hn2.
    { split; cbn; try done.
      - unfold node_ok; cbn. destruct (Z.eqb_spec (n_start n) NOADDR) as [E|E]; [done || lia|].
        specialize (Hv E). lia.
      - destruct (Z.eqb_spec (n_start n) NOADDR) as [E|E]; [done|]. intros _ b ?. apply (Hd E). lia. }
    destruct Hp1 as [Hl1 Hp1]. unfold alen in Hlen.
    destruct fuel as [|fuel]; [lia|]. cbn [copy_tags].
    destruct (copy_node_flat _ st1 (n_src n) (o0 + k) n2 Hi1 (conj Hl1 Hp1) Hn2) as (st2 & -> & Hi2 & Hp2).
    { cbn. lia. }
    { cbn. rewrite Hl1, Z.eqb_refl. cbn. rewrite Ec1. lia. }
    cbn [n_src n2] in Hi2, Hp2. rewrite Z.eqb_refl in Hi2, Hp2. cbn [n_cnt n2] in Hp2.
    cbn [res_bind app].
    assert (o0 + k + (n_cnt n - k) = o0 + n_cnt n) as Eo by lia. rewrite Eo in Hp2.
    rewrite <- (assoc_L (++)) in Hi2. rewrite (assoc_L (++)).
    rewrite (slots_split n k o0) by (done || lia). apply IH; [done..|lia].
Qed.
End copy.

(** ** The last writer of a destination wins *)

Lemma exec_slots_ext a d0 sl d1 d2 b :
  d1 b = d2 b -> exec_slots a d0 sl d1 b = exec_slots a d0 sl d2 b.
Proof.
  revert d1 d2. induction sl as [|s sl IH]; intros d1 d2 E; [done|].
  apply IH. destruct (s_dst s) as [x|]; [|done]. unfold upd. by case_cmp.
Qed.

Lemma exec_slots_in a d0 sl d1 d2 b :
  b ∈ dsts sl -> exec_slots a d0 sl d1 b = exec_slots a d0 sl d2 b.
Proof.
  revert d1 d2. induction sl as [|s sl IH]; intros d1 d2 Hb; [by apply not_elem_of_nil in Hb|].
  change (exec_slots a d0 (s :: sl) ?d b) with
    (exec_slots a d0 sl (match s_dst s with Some x => upd d x (d0 (slot_src a s)) | None => d end) b).
  cbn in Hb. destruct (s_dst s) as [x|]; [|by apply IH].
  apply elem_of_cons in Hb as [<-|Hb]; [|by apply IH].
  apply exec_slots_ext. by rewrite !upd_eq.
Qed.

Lemma elem_of_keep_last sl b : b ∈ dsts (keep_last sl) <-> b ∈ dsts sl.
Proof.
  induction sl as [|s sl IH]; [done|]. cbn. destruct (s_dst s) as [x|] eqn:E; cbn; [|by rewrite E].
  destruct (decide (x ∈ dsts sl)); cbn; rewrite ?E; cbn; set_solver.
Qed.

Lemma NoDup_keep_last sl : NoDup (dsts (keep_last sl)).
Proof.
  induction sl as [|s sl IH]; [by constructor|]. cbn. destruct (s_dst s) as [x|] eqn:E; cbn; [|by rewrite E].
  destruct (decide (x ∈ dsts sl)); cbn; [done|]. rewrite E. constructor; [|done].
  by rewrite elem_of_keep_last.
Qed.

Lemma exec_keep_last a d0 sl d : exec_slots a d0 (keep_last sl) d ≡d exec_slots a d0 sl d.
Proof.
  revert d. induction sl as [|s sl IH]; intros d b; [done|].
  change (exec_slots a d0 (s :: sl) d b) with
    (exec_slots a d0 sl (match s_dst s with Some x => upd d x (d0 (slot_src a s)) | None => d end) b).
  cbn [keep_last]. destruct (s_dst s) as [x|] eqn:E.
  - destruct (decide (x ∈ dsts sl)) as [Hx|Hx].
    + change (exec_slots a d0 (keep_last sl) d b = exec_slots a d0 sl (upd d x (d0 (slot_src a s))) b).
      rewrite IH. destruct (decide (b = x)) as [->|]; [by apply exec_slots_in|].
      apply exec_slots_ext. by rewrite upd_ne.
    + rewrite <- IH. unfold exec_slots; cbn. by rewrite E.
  - rewrite <- IH. unfold exec_slots; cbn. by rewrite E.
Qed.

(** ** Passes 3 to 5 together *)

(** Number of blocks of a group. *)
Definition grp_blks (g : Z) (sl : list slot) : Z := Z.of_nat (length (filter (fun s => s_grp s = g) sl)).

Lemma grp_blks_app g s1 s2 : grp_blks g (s1 ++ s2) = grp_blks g s1 + grp_blks g s2.
Proof. unfold grp_blks. rewrite filter_app, length_app. lia. Qed.

Lemma grp_blks_slots n off : 0 <= n_cnt n -> grp_blks (n_src n) (slots n off) = n_cnt n.
Proof.
  intros Hc. unfold grp_blks.
  assert (forall sl, Forall (fun s => s_grp s = n_src n) sl -> filter (fun s => s_grp s = n_src n) sl = sl) as Hall.
  { induction 1 as [|s sl Hs _ IH]; [done|]. by rewrite filter_cons_True, IH. }
  rewrite Hall; [unfold slots; rewrite length_fmap, length_seqz; lia|].
  apply Forall_fmap, Forall_true. done.
Qed.

Lemma grp_blks_keep_last g sl : grp_blks g (keep_last sl) = grp_blks g sl.
Proof.
  unfold grp_blks. f_equal. induction sl as [|s sl IH]; [done|]. cbn [keep_last].
  rewrite !filter_cons.
  assert (s_grp (match s_dst s with
                 | Some x => if decide (x ∈ dsts sl) then forget_dst s else s
                 | None => s end) = s_grp s) as ->.
  { destruct (s_dst s); [|done]. by destruct (decide _). }
  destruct (decide (s_grp s = g)); cbn; by rewrite IH.
Qed.

Lemma node_grp_blks l o ns n :
  Forall node_ok ns -> n ∈ ns -> n_cnt n <= grp_blks (n_src n) (expand l o ns).
Proof.
  intros Hok Hn. revert l o. induction Hok as [|x ns [Hx _] Hok IH]; intros l o.
  { by apply not_elem_of_nil in Hn. }
  cbn [expand]. apply elem_of_cons in Hn as [<-|Hn].
  - destruct (Z.eqb_spec (n_cnt n) 0) as [E|E].
    + rewrite E. unfold grp_blks. lia.
    + rewrite grp_blks_app, grp_blks_slots by lia. unfold grp_blks. lia.
  - destruct (n_cnt x =? 0); [by apply IH|]. rewrite grp_blks_app.
    pose proof (IH Hn (n_src x) ((if l =? n_src x then o else 0) + n_cnt x)). unfold grp_blks in *. lia.
Qed.

Lemma length_keep_last sl : length (keep_last sl) = length sl.
Proof. induction sl; cbn; [done|]. by f_equal. Qed.

Lemma length_expand l o ns :
  Forall node_ok ns -> Z.of_nat (length (expand l o ns)) = sumz n_cnt ns.
Proof.
  intros H. revert l o. induction H as [|n ns [Hn _] _ IH]; intros l o; [done|].
  cbn [expand]. rewrite sumz_cons. destruct (Z.eqb_spec (n_cnt n) 0) as [->|]; [by rewrite IH|].
  rewrite length_app, Nat2Z.inj_add, IH. unfold slots. rewrite length_fmap, length_seqz. lia.
Qed.

(** Requirements on the tags of a transaction: home addresses outside the
    journal and stage areas, every group inside its area. *)
Record tags_ok (a : src_area) (sg : Z -> bool) (tags : list tag_list_node) : Prop := {
  to_tag : Forall tag_ok tags;
  to_stage : Forall (fun n => n_stage n = sg (n_src n)) tags;
  to_src : Forall (fun n => n_src n <> NOADDR /\
                     afirst a (n_stage n) <= n_src n <= alast a (n_stage n) + 1) tags;
  to_dst : forall b, b ∈ dsts (expand NOADDR 0 tags) -> ~ in_area a b;
  to_sum : sumz n_cnt tags < U32_MOD;
  to_grp : Forall (fun n => grp_blks (n_src n) (expand NOADDR 0 tags) <= alen a (n_stage n)) tags
}.

Lemma dsts_expand l o ns b :
  Forall node_ok ns ->
  b ∈ dsts (expand l o ns) <->
  exists n, n ∈ ns /\ n_start n <> NOADDR /\ n_start n <= b < n_start n + n_cnt n.
Proof.
  intros H. revert l o. induction H as [|n ns [Hn _] _ IH]; intros l o; cbn [expand].
  { split; [intros Hb; by apply not_elem_of_nil in Hb | intros (n & Hn & _); by apply not_elem_of_nil in Hn]. }
  assert (b ∈ dsts (if n_cnt n =? 0 then expand l o ns else
             slots n (if l =? n_src n then o else 0) ++
             expand (n_src n) ((if l =? n_src n then o else 0) + n_cnt n) ns) <->
          (n_start n <> NOADDR /\ n_start n <= b < n_start n + n_cnt n) \/
          (exists n, n ∈ ns /\ n_start n <> NOADDR /\ n_start n <= b < n_start n + n_cnt n)) as ->.
  { destruct (Z.eqb_spec (n_cnt n) 0) as [->|].
    - rewrite IH. split; [by right|]. intros [?|?]; [lia|done].
    - rewrite dsts_app, elem_of_app, IH, dsts_slots. destruct (Z.eqb_spec (n_start n) NOADDR).
      + split; [intros [H|?]; [by apply not_elem_of_nil in H | by right] | intros [[? _]|?]; [done|by right]].
      + rewrite elem_of_seqz. tauto. }
  split.
  - intros [?|(x & ? & ?)]; [exists n|exists x]; (split; [set_solver|done]).
  - intros (x & [->|Hx]%elem_of_cons & ?); [by left|right; eauto].
Qed.

(** What passes 3 and 4 produce. *)
Record prepared (a : src_area) (sg : Z -> bool) (tags out : list tag_list_node) : Prop := {
  pr_expand : expand NOADDR 0 out = keep_last (expand NOADDR 0 tags);
  pr_copy : Forall (fun n => copy_ok a sg n /\ n_cnt n <= alen a (n_stage n)) out
}.

Lemma prepare_tags_ok a sg tags :
  tags_ok a sg tags ->
  exists opt, optimize_tags [] tags = Ok opt /\ prepared a sg tags (coalesce_tags NOADDR [] opt).
Proof.
  intros [Htag Hst Hsrc Hdst Hsum Hgrp].
  destruct (optimize_tags_ok tags Htag [] []) as (opt & E & Hok & Hg & He);
    [by constructor | by constructor | done |].
  exists opt. split; [done|]. cbn [app] in Hg, He. destruct (He NOADDR 0) as [Eexp _].
  assert (Forall node_ok tags) as Htok by (eapply Forall_impl; [exact Htag|]; by intros ? []).
  assert (sumz n_cnt opt = sumz n_cnt tags) as Esum.
  { rewrite <- (length_expand NOADDR 0 opt), <- (length_expand NOADDR 0 tags) by done.
    by rewrite Eexp, length_keep_last. }
  (* facts every node inherits from the tag of its group *)
  assert (forall ns, same_groups tags ns -> Forall (fun n => n_stage n = sg (n_src n) /\ n_src n <> NOADDR /\
            afirst a (n_stage n) <= n_src n <= alast a (n_stage n) + 1 /\
            grp_blks (n_src n) (expand NOADDR 0 tags) <= alen a (n_stage n)) ns) as Hinh.
  { intros ns Hns. eapply Forall_impl; [exact Hns|]. cbn. intros n (x & Hx & <- & <-).
    rewrite Forall_forall in Hst, Hsrc, Hgrp. pose proof (Hsrc x Hx). split_and!; try apply Hst; try apply Hgrp; tauto. }
  pose proof (Hinh _ Hg) as Hopt.
  destruct (coalesce_tags_ok opt NOADDR []) as (Ho & Hgo & _ & Heo); cbn [rev app].
  - done.
  - intros x y Hx Hy Exy. rewrite Forall_forall in Hopt.
    destruct (Hopt x Hx) as [-> _], (Hopt y Hy) as [-> _]. by rewrite Exy.
  - by rewrite Esum.
  - eapply Forall_impl; [exact Hopt|]. cbn. tauto.
  - cbn [rev app] in Hgo, Heo. split; [by rewrite Heo, Eexp|].
    pose proof (Hinh _ (same_groups_trans _ _ _ Hg Hgo)) as Hout.
    apply Forall_forall. intros n Hn. rewrite Forall_forall in Hout, Ho.
    destruct (Hout n Hn) as (? & ? & ? & Hlen). split; [split; auto|].
    + intros Hv b Hb. apply Hdst. rewrite <- elem_of_keep_last, <- Eexp, <- Heo.
      apply dsts_expand; [by apply Forall_forall|]. eauto.
    + pose proof (node_grp_blks NOADDR 0 (coalesce_tags NOADDR [] opt) n) as Hb.
      rewrite Heo, Eexp, grp_blks_keep_last in Hb. specialize (Hb ltac:(by apply Forall_forall) Hn). lia.
Qed.

Lemma checkpoint_tags_ok a sg d tags :
  area_ok a -> tags_ok a sg tags ->
  exists d', checkpoint_tags a d tags = Ok d' /\
    d' ≡d exec_slots a d (expand NOADDR 0 tags) d.
Proof.
  intros Ha Hok. destruct (prepare_tags_ok a sg tags Hok) as (opt & E & [Hexp Hcopy]).
  unfold checkpoint_tags. rewrite E. cbn [res_bind]. set (out := coalesce_tags NOADDR [] opt) in *.
  destruct (copy_tags_ok a d sg Ha out (copy_fuel a out) [] (mk_copy NOADDR 0 0 [] [] d (fun _ => []) 0) NOADDR 0)
    as (st' & -> & Hd); [done | by split | done | |].
  - unfold copy_fuel.
    assert (3 * Z.of_nat (length out) <=
      sumz (fun n => 3 + n_cnt n / Z.max 1 (if n_stage n then stage_last a - stage_first a + 1
                                            else log_len (jnl a))) out) as Hf; [|lia].
    clear - Hcopy. induction Hcopy as [|n out [Hn _] _ IH]; [done|]. rewrite sumz_cons. cbn [length].
    pose proof (co_node _ _ _ Hn) as (Hc & _).
    assert (0 <= n_cnt n / Z.max 1 (if n_stage n then stage_last a - stage_first a + 1 else log_len (jnl a)))
      by (apply Z.div_pos; lia). lia.
  - cbn [res_bind]. exists (c_disk st'). split; [done|]. intros b. rewrite Hd, app_nil_l, Hexp.
    apply exec_keep_last.
Qed.

(** Home ranges of two nodes do not meet. *)
Definition node_disjoint (x y : tag_list_node) : Prop :=
  n_start x <> NOADDR -> n_start y <> NOADDR ->
  forall b, n_start x <= b < n_start x + n_cnt x -> n_start y <= b < n_start y + n_cnt y -> False.

Lemma NoDup_expand_disjoint l o ns :
  Forall node_ok ns -> NoDup (dsts (expand l o ns)) -> pairwise node_disjoint ns.
Proof.
  intros H. revert l o. induction H as [|n ns [Hn _] Hok IH]; intros l o Hd; [constructor|].
  cbn [expand] in Hd. destruct (Z.eqb_spec (n_cnt n) 0) as [E|].
  - constructor; [|by eapply IH]. apply Forall_true. intros y _ _ b. rewrite E. lia.
  - rewrite dsts_app in Hd. apply NoDup_app in Hd as (_ & Hx & Hd). constructor; [|by eapply IH].
    apply Forall_forall. intros y Hy Hvn Hvy b Hbn Hby. apply (Hx b).
    + rewrite dsts_slots, (proj2 (Z.eqb_neq _ _) Hvn). by apply elem_of_seqz.
    + apply dsts_expand; eauto.
Qed.

(** After passes 3 and 4 no two valid tags overlap in home addresses, so
    the writes of pass 5 may complete in any order. *)
Lemma optimized_tags_disjoint a sg tags :
  tags_ok a sg tags ->
  exists opt, optimize_tags [] tags = Ok opt /\
    pairwise node_disjoint (coalesce_tags NOADDR [] opt).
Proof.
  intros Hok. destruct (prepare_tags_ok a sg tags Hok) as (opt & E & [Hexp Hcopy]).
  exists opt. split; [done|]. apply (NoDup_expand_disjoint NOADDR 0).
  - eapply Forall_impl; [exact Hcopy|]. cbn. intros n [Hn _]. apply (co_node _ _ _ Hn).
  - rewrite Hexp. apply NoDup_keep_last.
Qed.

(** ** An example

    A stage group of two blocks and a journal group of three that overwrites
    the second of them; the journal group wraps around. *)
Definition demo_area : src_area := mk_area 100 139 (mk_log 0 10 29 14 27 13).
Definition demo_tags : list tag_list_node := [mk_node 400 2 111 true; mk_node 401 3 28 false].

Lemma demo_tags_ok : tags_ok demo_area (fun g => 100 <=? g) demo_tags.
Proof.
  split.
  - repeat constructor; cbn; try lia; vm_compute; congruence.
  - repeat constructor.
  - repeat constructor; cbn; try lia; vm_compute; congruence.
  - intros b Hb. change (b ∈ [400; 401; 401; 402; 403]) in Hb. unfold in_area; cbn.
    repeat rewrite elem_of_cons in Hb. rewrite elem_of_nil in Hb. lia.
  - vm_compute. reflexivity.
  - repeat constructor; vm_compute; congruence.
Qed.

