(* ===== verification/Checkpoint.v ===== *)
(** * Checkpoint of a journal transaction

    [do_checkpoint_coalesce] of [devfs/src/journal.c]: scan of the stage trace
    blocks with the inode updates (pass 1), scan of the journal tags (pass 2),
    the coalescing passes of [Coalesce], release of the journal space.  The
    specification [replay] applies the transaction the plain way, stage
    transaction by stage transaction and tag by tag. *)

From stdpp Require Import sets.
From S2P Require Import Prelude Bio Sjd JournalLog Commit Coalesce.

(** ** Reading the stage area *)

(** [read_stage_desc_blk]: the descriptor blocks a trace block names. *)
Definition read_stage_desc_blk (a : src_area) (d : disk) (st_blk : block) : list block :=
  (fun tx =>
     let dst := if check_wrap_around tx 1 (stage_last a)
                then wrapped_baddr (stage_first a) (stage_last a) tx else tx in
     d dst) <$> st_tx_list st_blk.

Definition read_etag_blocks (a : src_area) (d : disk) (sdb : block) (etag_blk_start : Z)
  : res (list block) :=
  let nr := sd_nr_etag_blks sdb in
  let* bl :=
    if check_wrap_around etag_blk_start nr (stage_last a) then
      let n_blks := u64 (stage_last a - etag_blk_start + 1) in
      let* bl := add_bio_to_bl [] 0 etag_blk_start (u32 n_blks) in
      add_bio_to_bl bl n_blks (stage_first a) (u32 (nr - n_blks))
    else add_bio_to_bl [] 0 etag_blk_start nr in
  Ok (bl_read d bl (fun _ => []) <$> seqz 0 nr).

(** [checkpoint_inode]: read-modify-write of the inode table block. *)
Definition checkpoint_inode (d : disk) (sdb : block) : disk :=
  let inode_blk_buf := d (sd_inode_baddr sdb) in
  let dest := u32 (sd_inode_index sdb * sd_inode_size sdb) in
  upd d (sd_inode_baddr sdb)
    (splice inode_blk_buf dest (take (Z.to_nat (sd_inode_size sdb)) sdb)).

(** ** Pass 1: stage trace blocks *)

Definition tag_nodes (src : Z) (stage_tx : bool) (tags : list etag_t) : list tag_list_node :=
  (fun t => mk_node (et_start t) (et_cnt t) src stage_tx) <$> tags.

(** One stage transaction: its inode is checkpointed, its tags are added. *)
Definition scan_stage_tx (a : src_area) (s : disk * list tag_list_node) (sdb : block) (stage_start : Z)
  : res (disk * list tag_list_node) :=
  let '(d, tag_list) := s in
  let d := checkpoint_inode d sdb in
  if sd_nr_tags sdb =? 0 then
    assert! (sd_nr_etag_blks sdb =? 0) in Ok (d, tag_list)
  else
    let* jebs := if 0 <? sd_nr_etag_blks sdb then read_etag_blocks a d sdb (u64 (stage_start + 1))
                 else Ok [] in
    let src_start_baddr := u64 (stage_start + sd_nr_etag_blks sdb + 1) in
    Ok (d, tag_list ++ tag_nodes src_start_baddr true (sd_tags sdb ++ concat (je_tags <$> jebs))).

Fixpoint scan_stage_txs (a : src_area) (s : disk * list tag_list_node) (txs : list (block * Z))
  : res (disk * list tag_list_node) :=
  match txs with
  | [] => Ok s
  | (sdb, stage_start) :: txs' =>
      let* s := scan_stage_tx a s sdb stage_start in scan_stage_txs a s txs'
  end.

(** The scan over the metadata blocks; counts the trace blocks. *)
Fixpoint scan_trace_blks (a : src_area) (s : disk * list tag_list_node) (n_stb : Z) (meta : list block)
  : res (disk * list tag_list_node * Z) :=
  match meta with
  | [] => Ok (s, n_stb)
  | cur :: meta' =>
      if is_stage_trace_blk cur then
        let sdbs := read_stage_desc_blk a s.1 cur in
        let* s := scan_stage_txs a s (zip sdbs (st_tx_list cur)) in
        scan_trace_blks a s (n_stb + 1) meta'
      else scan_trace_blks a s n_stb meta'
  end.

(** ** Pass 2: tags of the background transaction *)

Fixpoint scan_etag_blks (src : Z) (tag_list : list tag_list_node) (meta : list block)
  : res (list tag_list_node) :=
  match meta with
  | [] => Ok tag_list
  | cur :: meta' =>
      if is_stage_trace_blk cur then scan_etag_blks src tag_list meta'
      else
        assert! (is_etag_blk cur) in
        scan_etag_blks src (tag_list ++ tag_nodes src false (je_tags cur)) meta'
  end.

Definition scan_journal (ce : ckpt_list_entry) (meta : list block) (tag_list : list tag_list_node)
  : res (list tag_list_node) :=
  let jdb := ce_desc_blk ce in
  if jd_nr_tags jdb =? 0 then
    assert! (jd_nr_etag_blks jdb =? 0) in Ok tag_list
  else
    let src_start_baddr := u64 (ce_j_start_baddr ce + 1) in
    scan_etag_blks src_start_baddr (tag_list ++ tag_nodes src_start_baddr false (jd_tags jdb)) meta.

(** ** The whole checkpoint *)

Definition stage_area (stage : Z * Z) (j : journal_log) : src_area := mk_area stage.1 stage.2 j.

(** Passes 1 to 6 for one entry: the disk afterwards. *)
Definition checkpoint_entry (a : src_area) (d : disk) (ce : ckpt_list_entry) : res disk :=
  let jdb := ce_desc_blk ce in
  let n_total_blks := u32 (jd_nr_etag_blks jdb + jd_nr_stage_trace_blks jdb) in
  let meta := take (Z.to_nat n_total_blks) (ce_meta ce) in
  let* (d, tag_list, n_stb) := scan_trace_blks a (d, []) 0 meta in
  let n_stage := length tag_list in
  let* tag_list := scan_journal ce meta tag_list in
  assert! ((0 <? n_stb) || (n_stage <? length tag_list)%nat) in
  checkpoint_tags a d tag_list.

(** [do_checkpoint_coalesce]; [stage] holds first and last block of the stage
    area, [jsb_baddr] the address of the journal superblock. *)
Definition do_checkpoint_coalesce (stage : Z * Z) (jsb_baddr : Z) (s : devfs) : res devfs :=
  let '(oce, s) := ckpt_list_dequeue s in
  match oce with
  | None => Ok s
  | Some ce =>
      let* d := checkpoint_entry (stage_area stage (d_logs s (ce_log ce))) (d_disk s) ce in
      release_tx jsb_baddr (set_disk s d) ce
  end.

(** ** Specification: replay in order *)

(** A stage transaction as recorded on disk. *)
Record stage_tx := mk_stx { sx_sdb : block; sx_src : Z; sx_tags : list etag_t }.

Definition parse_stage_tx (a : src_area) (d : disk) (tx : Z) : stage_tx :=
  let sdb := d (aring a true tx) in
  let nr := sd_nr_etag_blks sdb in
  mk_stx sdb (tx + nr + 1)
    (sd_tags sdb ++ concat ((fun i => je_tags (d (aring a true (tx + 1 + i)))) <$> seqz 0 nr)).

Definition parse_stage_txs (a : src_area) (d : disk) (meta : list block) : list stage_tx :=
  parse_stage_tx a d <$> concat (st_tx_list <$> filter (fun b => is_stage_trace_blk b = true) meta).

Definition parse_bg_tags (ce : ckpt_list_entry) (meta : list block) : list etag_t :=
  if jd_nr_tags (ce_desc_blk ce) =? 0 then []
  else jd_tags (ce_desc_blk ce) ++
       concat (je_tags <$> filter (fun b => is_stage_trace_blk b = false) meta).

(** Copy [n] blocks one by one from ring position [src] to [dst]. *)
Fixpoint replay_blks (a : src_area) (st : bool) (d : disk) (src dst : Z) (n : nat) : disk :=
  match n with
  | O => d
  | S k => replay_blks a st (upd d dst (d (aring a st src))) (src + 1) (dst + 1) k
  end.

Fixpoint replay_tags (a : src_area) (st : bool) (d : disk) (src : Z) (tags : list etag_t) : disk :=
  match tags with
  | [] => d
  | t :: ts =>
      replay_tags a st (replay_blks a st d src (et_start t) (Z.to_nat (et_cnt t))) (src + et_cnt t) ts
  end.

Definition replay_stage_tx (a : src_area) (d : disk) (x : stage_tx) : disk :=
  replay_tags a true (checkpoint_inode d (sx_sdb x)) (sx_src x) (sx_tags x).

(** Every stage transaction in trace order, then the background tags. *)
Definition replay (a : src_area) (d : disk) (ce : ckpt_list_entry) : disk :=
  let d' := foldl (replay_stage_tx a) d (parse_stage_txs a d (ce_meta ce)) in
  replay_tags a false d' (ce_j_start_baddr ce + 1) (parse_bg_tags ce (ce_meta ce)).

(** ** Reading back *)

Lemma aring_range a st x : 0 < alen a st -> afirst a st <= aring a st x <= alast a st.
Proof.
  intros H. unfold aring. pose proof (Z.mod_pos_bound (x - afirst a st) (alen a st) H).
  unfold alen in *. lia.
Qed.

Lemma aring_in_area a st x : area_ok a -> in_area a (aring a st x).
Proof.
  intros Ha. pose proof (aring_range a st x (proj1 (ao_len a Ha st))).
  unfold in_area, afirst, alast in *. destruct st; auto.
Qed.

Lemma read_etag_blocks_ok a d sdb start :
  area_ok a -> stage_first a <= start <= stage_last a + 1 ->
  0 <= sd_nr_etag_blks sdb <= alen a true ->
  read_etag_blocks a d sdb start =
    Ok ((fun i => d (aring a true (start + i))) <$> seqz 0 (sd_nr_etag_blks sdb)).
Proof.
  intros Ha Hs Hn. pose proof (ao_first a Ha true). pose proof (ao_last a Ha true).
  pose proof (ao_len a Ha true). cbn in *. unfold alen in *; cbn in *.
  unfold read_etag_blocks, check_wrap_around. set (nr := sd_nr_etag_blks sdb) in *.
  rewrite (u64_id (start + nr - 1)) by lia. case_cmp.
  - set (k := stage_last a - start + 1). rewrite (u64_id k), (u32_id k), (u32_id (nr - k)) by lia.
    destruct (add_bio_to_bl_ok [] 0 start k) as (b1 & -> & T1); [lia..|]. cbn [res_bind].
    destruct (add_bio_to_bl_ok b1 k (stage_first a) (nr - k)) as (b2 & E2 & T2); [lia..|].
    cbn [app]. rewrite E2. cbn [res_bind]. f_equal. apply list_fmap_ext.
    intros i p Hp%list_elem_of_lookup_2. apply elem_of_seqz in Hp.
    rewrite bl_read_app, (tr_read _ _ _ _ T2). destruct (decide (k <= p)).
    + rewrite read_blks_in by lia. f_equal.
      replace (start + p) with (alast a true + 1 + (p - k)) by (cbn; lia).
      rewrite (aring_shift a true _ _ (p - k) (aring_end a true)), aring_id; cbn; lia.
    + rewrite read_blks_out, (tr_read _ _ _ _ T1), read_blks_in by lia. f_equal.
      rewrite aring_id; cbn; lia.
  - destruct (add_bio_to_bl_ok [] 0 start nr) as (b1 & -> & T1); [lia..|]. cbn [res_bind app]. f_equal.
    apply list_fmap_ext. intros i p Hp%list_elem_of_lookup_2. apply elem_of_seqz in Hp.
    rewrite (tr_read _ _ _ _ T1), read_blks_in by lia. f_equal. rewrite aring_id; cbn; lia.
Qed.

(** A stage transaction the checkpoint can read: its blocks lie in the stage
    area, its inode lives outside the journal and stage areas. *)
Record stx_ok (a : src_area) (d : disk) (tx : Z) : Prop := {
  so_addr : stage_first a <= tx <= stage_last a;
  so_nr : 0 <= sd_nr_etag_blks (d tx) <= alen a true;
  so_empty : sd_nr_tags (d tx) = 0 -> sd_nr_etag_blks (d tx) = 0;
  so_inode : ~ in_area a (sd_inode_baddr (d tx))
}.

Definition agree (a : src_area) (d1 d2 : disk) : Prop := forall b, in_area a b -> d1 b = d2 b.

Definition stx_nodes (x : stage_tx) : list tag_list_node := tag_nodes (sx_src x) true (sx_tags x).

Lemma checkpoint_inode_agree a d d0 sdb :
  agree a d d0 -> ~ in_area a (sd_inode_baddr sdb) -> agree a (checkpoint_inode d sdb) d0.
Proof. intros H Hi b Hb. unfold checkpoint_inode. rewrite upd_ne; [auto|]. by intros ->. Qed.

Lemma scan_stage_tx_ok a d0 d nodes tx :
  area_ok a -> stx_ok a d0 tx -> agree a d d0 ->
  scan_stage_tx a (d, nodes) (d0 tx) tx =
    Ok (checkpoint_inode d (d0 tx), nodes ++ stx_nodes (parse_stage_tx a d0 tx)).
Proof.
  intros Ha [Hadr Hnr Hemp Hino] Hag. pose proof (ao_first a Ha true). pose proof (ao_last a Ha true).
  pose proof (ao_len a Ha true). cbn in *.
  assert (agree a (checkpoint_inode d (d0 tx)) d0) as Hag' by (by apply checkpoint_inode_agree).
  unfold scan_stage_tx, stx_nodes, parse_stage_tx. rewrite (aring_id a true tx) by done.
  cbn [sx_src sx_tags]. destruct (Z.eqb_spec (sd_nr_tags (d0 tx)) 0) as [E|E].
  { rewrite (Hemp E). cbn [Z.eqb assert_]. unfold sd_tags. rewrite E. cbn. by rewrite app_nil_r. }
  rewrite (u64_id (tx + 1)), (u64_id (tx + _ + 1)) by lia.
  assert ((if 0 <? sd_nr_etag_blks (d0 tx)
           then read_etag_blocks a (checkpoint_inode d (d0 tx)) (d0 tx) (tx + 1) else Ok []) =
          Ok ((fun i => d0 (aring a true (tx + 1 + i))) <$> seqz 0 (sd_nr_etag_blks (d0 tx)))) as ->.
  { case_cmp.
    - rewrite read_etag_blocks_ok by (done || lia). f_equal. apply list_fmap_ext. intros i p _.
      apply Hag'. by apply aring_in_area.
    - by rewrite seqz_nil by lia. }
  cbn [res_bind]. by rewrite <- list_fmap_compose.
Qed.

Definition inodes_done (d : disk) (xs : list stage_tx) : disk := foldl (fun d x => checkpoint_inode d (sx_sdb x)) d xs.

Lemma scan_stage_txs_ok a d0 txs : forall d nodes,
  area_ok a -> Forall (stx_ok a d0) txs -> agree a d d0 ->
  let xs := parse_stage_tx a d0 <$> txs in
  scan_stage_txs a (d, nodes) (zip (d0 <$> txs) txs) =
    Ok (inodes_done d xs, nodes ++ concat (stx_nodes <$> xs)) /\ agree a (inodes_done d xs) d0.
Proof.
  induction txs as [|tx txs IH]; intros d nodes Ha Hok Hag.
  { cbn. by rewrite app_nil_r. }
  apply Forall_cons in Hok as [Htx Hok]. intros xs.
  change (scan_stage_txs a (d, nodes) (zip (d0 <$> tx :: txs) (tx :: txs))) with
    (let* s := scan_stage_tx a (d, nodes) (d0 tx) tx in scan_stage_txs a s (zip (d0 <$> txs) txs)).
  rewrite scan_stage_tx_ok by done. cbn [res_bind].
  destruct (IH (checkpoint_inode d (d0 tx)) (nodes ++ stx_nodes (parse_stage_tx a d0 tx)) Ha Hok) as [E Hag'].
  { apply checkpoint_inode_agree; [done|]. apply (so_inode _ _ _ Htx). }
  rewrite E. unfold xs. cbn [fmap list_fmap inodes_done foldl concat].
  assert (sx_sdb (parse_stage_tx a d0 tx) = d0 tx) as Esdb.
  { cbn. f_equal. apply aring_id, (so_addr _ _ _ Htx). }
  unfold inodes_done in *. cbn [foldl]. rewrite Esdb. split; [|done]. by rewrite <- (assoc_L (++)).
Qed.

Lemma parse_stage_txs_cons a d b meta :
  parse_stage_txs a d (b :: meta) =
    (if is_stage_trace_blk b then parse_stage_tx a d <$> st_tx_list b else []) ++ parse_stage_txs a d meta.
Proof.
  unfold parse_stage_txs. destruct (is_stage_trace_blk b) eqn:E.
  - rewrite filter_cons_True by done. rewrite fmap_cons. cbn [concat]. by rewrite fmap_app.
  - by rewrite filter_cons_False by congruence.
Qed.

Lemma scan_trace_blks_ok a d0 meta : forall d nodes k,
  area_ok a -> Forall (fun b => is_stage_trace_blk b = true -> Forall (stx_ok a d0) (st_tx_list b)) meta ->
  agree a d d0 ->
  let xs := parse_stage_txs a d0 meta in
  exists n, scan_trace_blks a (d, nodes) k meta =
    Ok (inodes_done d xs, nodes ++ concat (stx_nodes <$> xs), n) /\
    n = k + Z.of_nat (length (filter (fun b => is_stage_trace_blk b = true) meta)) /\
    agree a (inodes_done d xs) d0.
Proof.
  induction meta as [|b meta IH]; intros d nodes k Ha Hok Hag; cbn [scan_trace_blks].
  { exists k. cbn. rewrite app_nil_r. split; [done|]. split; [lia|done]. }
  apply Forall_cons in Hok as [Hb Hok]. rewrite parse_stage_txs_cons, filter_cons.
  destruct (is_stage_trace_blk b) eqn:E; cycle 1.
  { destruct (IH d nodes k Ha Hok Hag) as (n & -> & -> & ?). eexists. cbn. split; [done|]. split; done. }
  specialize (Hb eq_refl).
  assert (read_stage_desc_blk a d b = d0 <$> st_tx_list b) as Er.
  { unfold read_stage_desc_blk. apply list_fmap_ext. intros i tx Htx%list_elem_of_lookup_2.
    rewrite Forall_forall in Hb. pose proof (so_addr _ _ _ (Hb tx Htx)).
    pose proof (ao_last a Ha true). pose proof (ao_len a Ha true). pose proof (ao_first a Ha true). cbn in *.
    unfold check_wrap_around. rewrite u64_id by lia. destruct (Z.ltb_spec (stage_last a) (tx + 1 - 1)); [lia|].
    apply Hag. unfold in_area. by left. }
  cbn [fst]. rewrite Er.
  destruct (scan_stage_txs_ok a d0 (st_tx_list b) d nodes Ha Hb Hag) as [-> Hag'].
  cbn [res_bind].
  destruct (IH (inodes_done d (parse_stage_tx a d0 <$> st_tx_list b))
              (nodes ++ concat (stx_nodes <$> (parse_stage_tx a d0 <$> st_tx_list b))) (k + 1) Ha Hok Hag')
    as (n & -> & -> & Hag2).
  eexists. unfold inodes_done in *. rewrite foldl_app, fmap_app, concat_app, (assoc_L (++)).
  split; [done|]. split; [|done]. rewrite decide_True by done. cbn [length]. lia.
Qed.

Lemma scan_etag_blks_ok src meta : forall nodes,
  Forall (fun b => is_stage_trace_blk b = false -> is_etag_blk b = true) meta ->
  scan_etag_blks src nodes meta =
    Ok (nodes ++ tag_nodes src false (concat (je_tags <$> filter (fun b => is_stage_trace_blk b = false) meta))).
Proof.
  induction meta as [|b meta IH]; intros nodes H; cbn [scan_etag_blks].
  { cbn. by rewrite app_nil_r. }
  apply Forall_cons in H as [Hb H]. rewrite filter_cons. destruct (is_stage_trace_blk b).
  { rewrite decide_False by done. by apply IH. }
  rewrite Hb by done. cbn [assert_]. rewrite decide_True, IH by done.
  rewrite <- (assoc_L (++)). do 2 f_equal. unfold tag_nodes. cbn. by rewrite fmap_app.
Qed.

(** ** Replay and slots *)

Lemma exec_slots_notin a d0 sl d b : b ∉ dsts sl -> exec_slots a d0 sl d b = d b.
Proof.
  revert d. induction sl as [|s sl IH]; intros d Hb; [done|].
  change (exec_slots a d0 (s :: sl) d b) with
    (exec_slots a d0 sl (match s_dst s with Some x => upd d x (d0 (slot_src a s)) | None => d end) b).
  cbn in Hb. destruct (s_dst s) as [x|]; [|by apply IH].
  apply not_elem_of_cons in Hb as [? ?]. rewrite IH by done. by apply upd_ne.
Qed.

Lemma exec_slots_src_ext a d1 d2 sl d :
  area_ok a -> agree a d1 d2 -> exec_slots a d1 sl d ≡d exec_slots a d2 sl d.
Proof.
  intros Ha Hag. revert d. induction sl as [|s sl IH]; intros d b; [done|].
  change (exec_slots a ?x (s :: sl) d b) with
    (exec_slots a x sl (match s_dst s with Some y => upd d y (x (slot_src a s)) | None => d end) b).
  rewrite IH. apply exec_slots_ext. destruct (s_dst s); [|done]. unfold upd. case_cmp; [|done].
  apply Hag, aring_in_area, Ha.
Qed.

(** Block by block, replay reads the live disk, which is never changed in the
    source areas. *)
Lemma replay_blks_eq a st d src dst n b :
  area_ok a -> (forall i, 0 <= i < Z.of_nat n -> ~ in_area a (dst + i)) ->
  replay_blks a st d src dst n b =
    if decide (dst <= b < dst + Z.of_nat n) then d (aring a st (src + (b - dst))) else d b.
Proof.
  intros Ha. revert d src dst. induction n as [|n IH]; intros d src dst Hd; cbn [replay_blks].
  { by rewrite decide_False by lia. }
  rewrite IH.
  - destruct (decide (dst + 1 <= b < dst + 1 + Z.of_nat n)).
    + rewrite decide_True by lia. rewrite upd_ne; [do 2 f_equal; lia|].
      intros E. apply (Hd 0); [lia|]. rewrite Z.add_0_r, <- E. by apply aring_in_area.
    + destruct (decide (b = dst)) as [->|].
      * rewrite upd_eq, decide_True by lia. do 2 f_equal. lia.
      * rewrite upd_ne, decide_False by lia. done.
  - intros i Hi. replace (dst + 1 + i) with (dst + (i + 1)) by lia. apply Hd. lia.
Qed.

(** A tag whose blocks can be copied. *)
Definition etag_valid (t : etag_t) : Prop :=
  0 <= et_start t /\ 0 <= et_cnt t < U32_MOD /\ et_start t + et_cnt t < NOADDR.

Lemma replay_tags_eq a d0 st g ts : forall d off,
  area_ok a -> agree a d d0 -> Forall etag_valid ts ->
  (forall b, b ∈ dsts (cat off (tag_nodes g st ts)) -> ~ in_area a b) ->
  replay_tags a st d (g + off) ts ≡d exec_slots a d0 (cat off (tag_nodes g st ts)) d.
Proof.
  induction ts as [|t ts IH]; intros d off Ha Hag Hv Hd b; [done|].
  apply Forall_cons in Hv as [(Ht0 & Htc & Hte) Hv]. cbn [replay_tags tag_nodes fmap list_fmap cat] in *.
  set (n := mk_node (et_start t) (et_cnt t) g st) in *. fold (tag_nodes g st ts) in *.
  rewrite exec_slots_app. rewrite dsts_app in Hd.
  assert (n_start n <> NOADDR) as Hval by (cbn; lia).
  assert (forall i, 0 <= i < et_cnt t -> ~ in_area a (et_start t + i)) as Hdn.
  { intros i Hi. apply Hd, elem_of_app. left. rewrite dsts_slots, (proj2 (Z.eqb_neq _ _) Hval).
    apply elem_of_seqz. cbn. lia. }
  assert (replay_blks a st d (g + off) (et_start t) (Z.to_nat (et_cnt t)) ≡d exec_slots a d0 (slots n off) d) as E1.
  { intros c. rewrite replay_blks_eq, exec_slots_node by (done || (intros; apply Hdn; lia)).
    rewrite Z2Nat.id by lia. cbn. destruct (decide _); [|done].
    rewrite Hag by (by apply aring_in_area). do 2 f_equal. lia. }
  replace (g + off + et_cnt t) with (g + (off + n_cnt n)) by (cbn; lia).
  rewrite IH; [apply exec_slots_ext, E1|done| |done|].
  - intros c Hc. rewrite E1, exec_slots_notin; [by apply Hag|]. intros Hin. apply (Hd c); [|done].
    apply elem_of_app. by left.
  - intros c Hc. apply Hd, elem_of_app. by right.
Qed.

Lemma checkpoint_inode_ext d1 d2 sdb : d1 ≡d d2 -> checkpoint_inode d1 sdb ≡d checkpoint_inode d2 sdb.
Proof. intros E b. unfold checkpoint_inode, upd. rewrite E. case_cmp; [by rewrite ?E|apply E]. Qed.

(** Inode updates commute with copies that do not touch the inode block. *)
Lemma checkpoint_inode_exec a d0 sl d sdb :
  sd_inode_baddr sdb ∉ dsts sl ->
  checkpoint_inode (exec_slots a d0 sl d) sdb ≡d exec_slots a d0 sl (checkpoint_inode d sdb).
Proof.
  intros Hn b. unfold checkpoint_inode at 1. rewrite exec_slots_notin by done.
  destruct (decide (b = sd_inode_baddr sdb)) as [->|Hne].
  - rewrite upd_eq, exec_slots_notin by done. unfold checkpoint_inode. by rewrite upd_eq.
  - rewrite upd_ne by done. apply exec_slots_ext. unfold checkpoint_inode. by rewrite upd_ne.
Qed.

Lemma inodes_done_exec a d0 sl xs : forall d,
  Forall (fun x => sd_inode_baddr (sx_sdb x) ∉ dsts sl) xs ->
  inodes_done (exec_slots a d0 sl d) xs ≡d exec_slots a d0 sl (inodes_done d xs).
Proof.
  unfold inodes_done. induction xs as [|x xs IH] using rev_ind; intros d H b; [done|].
  apply Forall_app in H as [H Hx]. apply Forall_cons in Hx as [Hx _].
  rewrite !foldl_app. cbn. rewrite (checkpoint_inode_ext _ _ _ (IH d H)). by apply checkpoint_inode_exec.
Qed.

Definition stx_slots (x : stage_tx) : list slot := cat 0 (stx_nodes x).

Lemma replay_stage_txs_eq a d0 xs : forall d,
  area_ok a -> agree a d d0 -> Forall (fun x => Forall etag_valid (sx_tags x)) xs ->
  (forall b, b ∈ dsts (concat (stx_slots <$> xs)) -> ~ in_area a b) ->
  Forall (fun x => ~ in_area a (sd_inode_baddr (sx_sdb x)) /\
                   sd_inode_baddr (sx_sdb x) ∉ dsts (concat (stx_slots <$> xs))) xs ->
  foldl (replay_stage_tx a) d xs ≡d exec_slots a d0 (concat (stx_slots <$> xs)) (inodes_done d xs) /\
  agree a (foldl (replay_stage_tx a) d xs) d0.
Proof.
  intros d Ha Hag. induction xs as [|x xs IH] using rev_ind; intros Hv Hd Hi; [done|].
  rewrite fmap_app, concat_app in Hd, Hi |- *. cbn [fmap list_fmap concat] in *. rewrite app_nil_r in *.
  rewrite dsts_app in Hd, Hi. apply Forall_app in Hv as [Hv Hvx]. apply Forall_app in Hi as [Hi Hix].
  apply Forall_cons in Hvx as [Hvx _]. apply Forall_cons in Hix as [[Hax Hnx] _].
  destruct IH as [E Hag']; [done| | |].
  { intros b Hb. apply Hd, elem_of_app. by left. }
  { eapply Forall_impl; [exact Hi|]. cbn. intros y [? Hy]. split; [done|].
    intros Hin. apply Hy, elem_of_app. by left. }
  rewrite foldl_app. cbn [foldl]. unfold replay_stage_tx at 1 3.
  set (D := foldl (replay_stage_tx a) d xs) in *.
  assert (agree a (checkpoint_inode D (sx_sdb x)) d0) as Hag1 by (by apply checkpoint_inode_agree).
  assert (replay_tags a true (checkpoint_inode D (sx_sdb x)) (sx_src x) (sx_tags x) ≡d
          exec_slots a d0 (stx_slots x) (checkpoint_inode D (sx_sdb x))) as Er.
  { rewrite <- (Z.add_0_r (sx_src x)). apply replay_tags_eq; [done..|].
    intros b Hb. apply Hd, elem_of_app. by right. }
  split.
  - intros b. rewrite Er, exec_slots_app. apply exec_slots_ext.
    rewrite (checkpoint_inode_ext _ _ _ E). unfold inodes_done at 2. rewrite foldl_app. cbn [foldl].
    fold (inodes_done d xs). apply checkpoint_inode_exec. intros Hin. apply Hnx, elem_of_app. by left.
  - intros b Hb. rewrite Er, exec_slots_notin; [by apply Hag1|]. intros Hin. apply (Hd b); [|done].
    apply elem_of_app. by right.
Qed.

(** Groups with distinct bases expand independently. *)
Lemma expand_groups (gs : list (Z * list tag_list_node)) : forall l o,
  Forall (fun g => Forall (fun n => n_src n = g.1 /\ 0 <= n_cnt n) g.2) gs ->
  NoDup (l :: (fst <$> gs)) ->
  expand l o (concat (snd <$> gs)) = concat ((fun g => cat 0 g.2) <$> gs).
Proof.
  induction gs as [|[g ns] gs IH]; intros l o Hg Hnd; [done|]. cbn [fmap list_fmap concat fst snd] in *.
  apply Forall_cons in Hg as [Hg Hgs]. cbn in Hg.
  apply NoDup_cons in Hnd as [Hl Hnd]. apply not_elem_of_cons in Hl as [Hlg Hl].
  rewrite (expand_group l o g) by done.
  destruct (Z.eqb_spec (sumz n_cnt ns) 0) as [E|E].
  - rewrite IH; [|done|]. 2:{ apply NoDup_cons. split; [done|]. by apply NoDup_cons in Hnd as [_ ?]. }
    assert (forall k, cat k ns = []) as ->; [|done]. clear - Hg E.
    induction Hg as [|n ns [_ Hn] Hg IH]; intros k; [done|]. rewrite sumz_cons in E.
    assert (0 <= sumz n_cnt ns)
      by (apply sumz_nonneg; eapply Forall_impl; [exact Hg|]; by intros ? []).
    cbn. rewrite slots_nil by lia. apply IH. lia.
  - rewrite (proj2 (Z.eqb_neq _ _) Hlg). cbn zeta. f_equal. by apply IH.
Qed.

(** ** The checkpoint implements the replay *)

(** Tag list of an entry after passes 1 and 2. *)
Definition entry_nodes (a : src_area) (d : disk) (ce : ckpt_list_entry) : list tag_list_node :=
  concat (stx_nodes <$> parse_stage_txs a d (ce_meta ce)) ++
  tag_nodes (ce_j_start_baddr ce + 1) false (parse_bg_tags ce (ce_meta ce)).

(** A well-formed entry.  [sg] tells stage groups from journal groups; the
    groups have distinct first blocks; home addresses lie outside journal and
    stage area ([tags_ok]); staged inodes are not overwritten by staged data. *)
Record ckpt_ok (a : src_area) (sg : Z -> bool) (d : disk) (ce : ckpt_list_entry) : Prop := {
  ck_area : area_ok a;
  ck_meta : Z.of_nat (length (ce_meta ce)) =
              u32 (jd_nr_etag_blks (ce_desc_blk ce) + jd_nr_stage_trace_blks (ce_desc_blk ce));
  ck_blk : Forall (fun b => is_stage_trace_blk b = false -> is_etag_blk b = true) (ce_meta ce);
  ck_stx : Forall (fun b => is_stage_trace_blk b = true -> Forall (stx_ok a d) (st_tx_list b)) (ce_meta ce);
  ck_notags : jd_nr_tags (ce_desc_blk ce) = 0 -> jd_nr_etag_blks (ce_desc_blk ce) = 0;
  ck_nonempty : Exists (fun b => is_stage_trace_blk b = true) (ce_meta ce) \/
                parse_bg_tags ce (ce_meta ce) <> [];
  ck_start : first (jnl a) <= ce_j_start_baddr ce <= last (jnl a);
  ck_valid : Forall (fun x => Forall etag_valid (sx_tags x)) (parse_stage_txs a d (ce_meta ce));
  ck_valid_bg : Forall etag_valid (parse_bg_tags ce (ce_meta ce));
  ck_nodup : NoDup (NOADDR :: (sx_src <$> parse_stage_txs a d (ce_meta ce)) ++ [ce_j_start_baddr ce + 1]);
  ck_tags : tags_ok a sg (entry_nodes a d ce);
  ck_inode : Forall (fun x => ~ in_area a (sd_inode_baddr (sx_sdb x)) /\
               sd_inode_baddr (sx_sdb x) ∉ dsts (concat (stx_slots <$> parse_stage_txs a d (ce_meta ce))))
               (parse_stage_txs a d (ce_meta ce))
}.

Lemma tag_nodes_group src st ts :
  Forall etag_valid ts -> Forall (fun n => n_src n = src /\ 0 <= n_cnt n) (tag_nodes src st ts).
Proof.
  intros H. apply Forall_fmap. eapply Forall_impl; [exact H|]. intros t (? & ? & ?). cbn. split; [done|lia].
Qed.

(** Expansion of the tag list: the groups one after the other. *)
Lemma expand_entry a sg d ce :
  ckpt_ok a sg d ce ->
  expand NOADDR 0 (entry_nodes a d ce) =
    concat (stx_slots <$> parse_stage_txs a d (ce_meta ce)) ++
    cat 0 (tag_nodes (ce_j_start_baddr ce + 1) false (parse_bg_tags ce (ce_meta ce))).
Proof.
  intros Hok. set (xs := parse_stage_txs a d (ce_meta ce)).
  set (bg := tag_nodes (ce_j_start_baddr ce + 1) false (parse_bg_tags ce (ce_meta ce))).
  pose proof (expand_groups (((fun x => (sx_src x, stx_nodes x)) <$> xs) ++ [(ce_j_start_baddr ce + 1, bg)])
                NOADDR 0) as H.
  rewrite !fmap_app, !concat_app, <- !list_fmap_compose in H. cbn in H. rewrite !app_nil_r in H.
  apply H.
  - apply Forall_app. split.
    + apply Forall_fmap. eapply Forall_impl; [apply (ck_valid _ _ _ _ Hok)|]. intros x Hx. by apply tag_nodes_group.
    + constructor; [|constructor]. apply tag_nodes_group, (ck_valid_bg _ _ _ _ Hok).
  - apply (ck_nodup _ _ _ _ Hok).
Qed.

Lemma scan_journal_ok a sg d ce nodes :
  ckpt_ok a sg d ce ->
  scan_journal ce (ce_meta ce) nodes =
    Ok (nodes ++ tag_nodes (ce_j_start_baddr ce + 1) false (parse_bg_tags ce (ce_meta ce))).
Proof.
  intros Hok. pose proof (ck_start _ _ _ _ Hok). pose proof (ao_last a (ck_area _ _ _ _ Hok) false).
  pose proof (ao_first a (ck_area _ _ _ _ Hok) false). cbn in *.
  unfold scan_journal, parse_bg_tags. destruct (Z.eqb_spec (jd_nr_tags (ce_desc_blk ce)) 0) as [E|E].
  - rewrite (ck_notags _ _ _ _ Hok E). cbn. by rewrite app_nil_r.
  - rewrite u64_id by lia. rewrite scan_etag_blks_ok by apply (ck_blk _ _ _ _ Hok).
    rewrite <- (assoc_L (++)). unfold tag_nodes. by rewrite fmap_app.
Qed.

Lemma checkpoint_entry_ok a sg d ce :
  ckpt_ok a sg d ce -> exists d', checkpoint_entry a d ce = Ok d' /\ d' ≡d replay a d ce.
Proof.
  intros Hok. pose proof (ck_area _ _ _ _ Hok) as Ha. unfold checkpoint_entry.
  rewrite <- (ck_meta _ _ _ _ Hok), Nat2Z.id, firstn_all.
  destruct (scan_trace_blks_ok a d (ce_meta ce) d [] 0 Ha (ck_stx _ _ _ _ Hok) ltac:(done)) as
    (n & -> & Hn & Hag). cbn [res_bind app].
  set (xs := parse_stage_txs a d (ce_meta ce)) in *. set (d1 := inodes_done d xs) in *.
  rewrite (scan_journal_ok a sg d) by done. cbn [res_bind].
  assert ((0 <? n) || (length (concat (stx_nodes <$> xs)) <?
             length (concat (stx_nodes <$> xs) ++
                tag_nodes (ce_j_start_baddr ce + 1) false (parse_bg_tags ce (ce_meta ce))))%nat = true) as ->.
  { apply orb_true_iff. destruct (ck_nonempty _ _ _ _ Hok) as [He|He].
    - left. apply Z.ltb_lt. apply Exists_exists in He as (b & Hb & Eb).
      destruct (filter (fun b => is_stage_trace_blk b = true) (ce_meta ce)) eqn:Ef; [|cbn in Hn; lia].
      exfalso. apply (not_elem_of_nil b). rewrite <- Ef. by apply list_elem_of_filter.
    - right. apply Nat.ltb_lt. rewrite length_app. unfold tag_nodes. rewrite length_fmap.
      destruct (parse_bg_tags ce (ce_meta ce)); [done|cbn; lia]. }
  cbn [assert_]. fold (entry_nodes a d ce).
  change (concat (stx_nodes <$> xs) ++ _) with (entry_nodes a d ce).
  destruct (checkpoint_tags_ok a sg d1 (entry_nodes a d ce) Ha (ck_tags _ _ _ _ Hok)) as (d' & -> & Hd').
  exists d'. split; [done|]. intros b. rewrite Hd'.
  pose proof (to_dst _ _ _ (ck_tags _ _ _ _ Hok)) as Hdst.
  rewrite (expand_entry a sg d ce Hok) in Hdst |- *. fold xs in Hdst |- *. rewrite dsts_app in Hdst.
  destruct (replay_stage_txs_eq a d xs d Ha ltac:(done) (ck_valid _ _ _ _ Hok)) as [E Hag'].
  { intros c Hc. apply Hdst, elem_of_app. by left. }
  { apply (ck_inode _ _ _ _ Hok). }
  unfold replay. fold xs. rewrite <- (Z.add_0_r (ce_j_start_baddr ce + 1)).
  rewrite (replay_tags_eq a d); [|done|done|apply (ck_valid_bg _ _ _ _ Hok)|].
  2:{ intros c Hc. apply Hdst, elem_of_app. by right. }
  rewrite Z.add_0_r, (exec_slots_src_ext a d1 d) by done. rewrite exec_slots_app. apply exec_slots_ext.
  by rewrite E.
Qed.

Lemma do_checkpoint_coalesce_ok stage jsb_baddr sg s ce rest n q :
  let a := stage_area stage (d_logs s (ce_log ce)) in
  d_ckpt_list s = ce :: rest -> ce_ready ce = true -> ckpt_ok a sg (d_disk s) ce ->
  log_rep (d_logs s (ce_log ce)) (n :: q) -> ce_total_tx_size ce = 4096 * n ->
  ce_j_start_baddr ce = tail (d_logs s (ce_log ce)) ->
  exists s', do_checkpoint_coalesce stage jsb_baddr s = Ok s' /\
    (forall b, b <> jsb_baddr -> d_disk s' b = replay a (d_disk s) ce b) /\
    d_disk s' jsb_baddr = enc_jsb (d_sb s') /\
    jsb_tx_id (d_sb s') = u32 (ce_tx_id ce + 1) /\ jsb_start (d_sb s') = tail (d_logs s' (ce_log ce)) /\
    log_rep (d_logs s' (ce_log ce)) q /\ d_ckpt_list s' = rest /\
    (forall i, i <> ce_log ce -> d_logs s' i = d_logs s i).
Proof.
  intros a Hl Hr Hok Hrep Hsz Hst. unfold do_checkpoint_coalesce, ckpt_list_dequeue. rewrite Hl, Hr. fold a.
  cbn [d_logs d_disk set_ckpt_list]. destruct (checkpoint_entry_ok a sg _ ce Hok) as (d' & E & Hd').
  fold a. rewrite E. cbn [res_bind]. unfold release_tx, increase_journal_sb_tx_id.
  cbn [d_logs set_sb set_disk set_ckpt_list].
  destruct (free_ok _ n q (ce_j_start_baddr ce) Hrep) as (Ef & Hrep' & _).
  rewrite Hsz, Ef, Hst, Z.eqb_refl. cbn [res_bind]. eexists. split; [reflexivity|]. cbn. rewrite !upd_eq.
  split_and!; try done.
  - intros b Hb. rewrite upd_ne by done. apply Hd'.
  - intros i Hi. by rewrite upd_ne.
Qed.

(** C2: checkpointing the oldest ready transaction puts the disk in the state
    that replaying the transaction in order produces (staged inodes and data,
    stage transaction by stage transaction, then the background tags), except
    for the journal superblock, which records the next transaction and the new
    tail; the transaction's extent is released and its entry dequeued. *)
Theorem do_checkpoint_coalesce_correct stage jsb_baddr sg s ce rest n q :
  let a := stage_area stage (d_logs s (ce_log ce)) in
  d_ckpt_list s = ce :: rest -> ce_ready ce = true -> ckpt_ok a sg (d_disk s) ce ->
  log_rep (d_logs s (ce_log ce)) (n :: q) -> ce_total_tx_size ce = 4096 * n ->
  ce_j_start_baddr ce = tail (d_logs s (ce_log ce)) ->
  exists s', do_checkpoint_coalesce stage jsb_baddr s = Ok s' /\
    (forall b, b <> jsb_baddr -> d_disk s' b = replay a (d_disk s) ce b) /\
    d_disk s' jsb_baddr = enc_jsb (d_sb s') /\
    jsb_tx_id (d_sb s') = u32 (ce_tx_id ce + 1) /\ jsb_start (d_sb s') = tail (d_logs s' (ce_log ce)) /\
    log_rep (d_logs s' (ce_log ce)) q /\ d_ckpt_list s' = rest /\
    (forall i, i <> ce_log ce -> d_logs s' i = d_logs s i).
Proof. apply do_checkpoint_coalesce_ok. Qed.

(** ** An example

    A transaction at the end of a 20-block log: one staged file write of two
    blocks and a background extent of three blocks that overwrites the second
    of them and wraps around in the log. *)

Definition ex_sdb : block :=
  let b := wr 4 (wr 4 zero_block 256 STAGE_DESC_BLK) 276 1 in
  let b := wr 4 (wr 4 (wr 8 b 284 300) 292 1) 296 256 in
  wr_etags b 300 [mk_etag 400 2].
Definition ex_stb : block := wr 8 (wr 4 (wr 4 zero_block 0 STAGE_TRACE_BLK) 4 1) 8 110.
Definition ex_desc : block :=
  let b := wr 4 (wr 4 (wr 4 (wr 4 zero_block 0 DESC_BLK) 4 5) 12 1) 16 1 in
  wr_etags b 24 [mk_etag 401 3].
Definition ex_ce : ckpt_list_entry := mk_ce 0 27 (4096 * 7) 5 ex_desc [ex_stb] true.
Definition ex_disk : disk := fun b => if b =? 110 then ex_sdb else if b =? 300 then zero_block else [b].
Definition ex_log : journal_log := mk_log 0 10 29 14 27 13.
Definition ex_state : devfs :=
  mk_devfs demo_sb (fun _ => ex_log) (fun _ => mk_fctx 0 0 0) 5 [ex_ce] ex_disk.
Definition ex_area : src_area := stage_area (100, 139) ex_log.

Lemma ex_nodes :
  entry_nodes ex_area ex_disk ex_ce = [mk_node 400 2 111 true; mk_node 401 3 28 false].
Proof. vm_compute. reflexivity. Qed.

Lemma ex_parse :
  parse_stage_txs ex_area ex_disk (ce_meta ex_ce) = [mk_stx ex_sdb 111 [mk_etag 400 2]].
Proof. vm_compute. reflexivity. Qed.

Lemma ex_tags_ok : tags_ok ex_area (fun g => 100 <=? g) (entry_nodes ex_area ex_disk ex_ce).
Proof. rewrite ex_nodes. exact demo_tags_ok. Qed.

Lemma ex_ckpt_ok : ckpt_ok ex_area (fun g => 100 <=? g) ex_disk ex_ce.
Proof.
  assert (etag_valid (mk_etag 400 2)) as Hv1 by (repeat constructor; vm_compute; congruence).
  assert (etag_valid (mk_etag 401 3)) as Hv2 by (repeat constructor; vm_compute; congruence).
  split.
  - split; intros []; vm_compute; split; congruence || (intros; congruence).
  - vm_compute. reflexivity.
  - repeat constructor. intros H. vm_compute in H. discriminate H.
  - constructor; [|constructor]. intros _. change (st_tx_list ex_stb) with [110].
    constructor; [|constructor]. split; vm_compute; try (done || split; congruence).
    intros [[? ?]|[? ?]]; congruence.
  - intros H. vm_compute in H. discriminate H.
  - left. constructor. vm_compute. reflexivity.
  - vm_compute. split; congruence.
  - rewrite ex_parse. by repeat constructor.
  - change (parse_bg_tags ex_ce (ce_meta ex_ce)) with [mk_etag 401 3]. by repeat constructor.
  - rewrite ex_parse. vm_compute. repeat constructor; set_solver.
  - exact ex_tags_ok.
  - rewrite ex_parse. constructor; [|constructor]. split.
    + vm_compute. intros [[? ?]|[? ?]]; congruence.
    + vm_compute. set_solver.
Qed.

Lemma do_checkpoint_coalesce_correct_witness :
  exists s', do_checkpoint_coalesce (100, 139) 5 ex_state = Ok s' /\
    d_disk s' 400 = [111] /\ d_disk s' 401 = [28] /\ d_disk s' 403 = [10] /\ d_ckpt_list s' = [].
Proof.
  destruct (do_checkpoint_coalesce_correct (100, 139) 5 (fun g => 100 <=? g) ex_state ex_ce [] 7 [])
    as (s' & E & Hd & _ & _ & _ & _ & Hl & _).
  - reflexivity.
  - reflexivity.
  - exact ex_ckpt_ok.
  - split; [split; vm_compute; done | vm_compute; done | repeat constructor; vm_compute; congruence
           | reflexivity | vm_compute; congruence | reflexivity].
  - reflexivity.
  - reflexivity.
  - exists s'. rewrite !Hd by lia. split; [exact E|]. split; [vm_compute; reflexivity|].
    split; [vm_compute; reflexivity|]. split; [vm_compute; reflexivity|]. exact Hl.
Defined.
