(* ===== verification/JournalSystem.v ===== *)
(** * The journal as a transition system

    The interleavings of the handlers of [devfs/src/journal.c]: data chunks,
    metadata of a transaction, its commit record once its turn has come, the
    host marking a transaction as ready ([prepare_ckpt]) and the checkpoint
    of the oldest one.  At most one transaction per data fetcher is between
    its metadata and its commit. *)

From stdpp Require Import relations.
From S2P Require Import Prelude Bio Sjd JournalLog Commit Coalesce Checkpoint.

(** The daemon's state and the transactions waiting for their turn. *)
Notation sys := (devfs * list pending_tx)%type.

(** [N] data and [M] metadata blocks in [k] chunks: the data have been
    fetched, nothing of the data fetcher is in flight, sizes in blocks fit their
    32 bits, and transaction ids are not zero. *)
Record meta_ok (m : mem) (s : devfs) (ps : list pending_tx) (df buf M N k : Z) : Prop := {
  mo_df : df = 0 \/ df = 1;
  mo_idle : df ∉ (p_df <$> ps);
  mo_sizes : 0 <= N /\ 0 <= M /\ N + M + 3 < U32_MOD /\ 0 <= k < U32_MOD /\ 0 <= buf;
  mo_nodata : k = 0 -> N = 0 /\ d_fctx s df = mk_fctx 0 0 0;
  mo_data : k <> 0 -> d_fctx s df = mk_fctx k (head (d_logs s df)) (4096 * N);
  mo_id : block_ok (m buf) /\ jd_transaction_id (m buf) <> 0
}.

(** What a step does; for metadata, the data fetcher and the number of data
    blocks and chunks. *)
Inductive label := LData | LMeta (df N k : Z) | LCommit | LReady | LCheckpoint.

(** [stage] and [jsb_baddr] as in [do_checkpoint_coalesce]. *)
Inductive lstep (max_io_size : Z) (stage : Z * Z) (jsb_baddr : Z) : label -> sys -> sys -> Prop :=
| step_data m s ps df req_id buf size ret s' :
    persist_data max_io_size m s df req_id buf size = Ok (ret, s') ->
    lstep max_io_size stage jsb_baddr LData (s, ps) (s', ps)
| step_meta m s ps df buf M N k s' p m' :
    meta_ok m s ps df buf M N k ->
    journal_write_meta m s df buf (4096 * (M + 1)) (4096 * N) k = Ok (s', p, m') ->
    lstep max_io_size stage jsb_baddr (LMeta df N k) (s, ps) (s', ps ++ [p])
| step_commit m sec nsec s ps1 p ps2 s' :
    journal_commit m sec nsec s p = Ok s' ->
    lstep max_io_size stage jsb_baddr LCommit (s, ps1 ++ p :: ps2) (s', ps1 ++ ps2)
| step_ready s ps i s' :
    prepare_ckpt s i = Ok s' ->
    lstep max_io_size stage jsb_baddr LReady (s, ps) (s', ps)
| step_checkpoint s ps s' :
    do_checkpoint_coalesce stage jsb_baddr s = Ok s' ->
    lstep max_io_size stage jsb_baddr LCheckpoint (s, ps) (s', ps).

Definition step (max_io_size : Z) (stage : Z * Z) (jsb_baddr : Z) (x x' : sys) : Prop :=
  exists l, lstep max_io_size stage jsb_baddr l x x'.

(** The descriptor and the data of a transaction fit the free space when its
    metadata arrive.  The code does not check this; the space of the metadata
    it does check. *)
Definition fits (l : label) (x : sys) : Prop :=
  match l with LMeta df N k => k <> 0 -> N + 1 <= n_free_blks (d_logs x.1 df) | _ => True end.

(** Steps in which the data fit. *)
Definition fit_step (max_io_size : Z) (stage : Z * Z) (jsb_baddr : Z) (x x' : sys) : Prop :=
  exists l, fits l x /\ lstep max_io_size stage jsb_baddr l x x'.

(** Start-up: both logs empty, no transaction seen. *)
Record initial (x : sys) : Prop := {
  in_logs : log_inv (d_logs x.1 0, []) /\ log_inv (d_logs x.1 1, []);
  in_empty : d_ckpt_list x.1 = [] /\ x.2 = [];
  in_seqn : d_tx_seqn x.1 = 0
}.

(** ** Invariant *)

Definition ce_ext (df : Z) (ce : ckpt_list_entry) : option (Z * Z) :=
  if ce_log ce =? df then Some (ce_j_start_baddr ce, ce_total_tx_size ce / 4096) else None.

(** The transactions that own log space, oldest first within each log. *)
Definition live (x : sys) : list ckpt_list_entry := d_ckpt_list x.1 ++ (p_ce <$> x.2).

(** The live extents of log [df]. *)
Definition extents (df : Z) (es : list ckpt_list_entry) : list (Z * Z) := omap (ce_ext df) es.
Arguments extents : simpl never.

Fixpoint consecutive (ids : list Z) : Prop :=
  match ids with
  | a :: ((b :: _) as ids') => b = u32 (a + 1) /\ consecutive ids'
  | _ => True
  end.

Definition entry_ok (ce : ckpt_list_entry) : Prop :=
  (ce_log ce = 0 \/ ce_log ce = 1) /\
  exists n, ce_total_tx_size ce = 4096 * n.

Record sys_inv (x : sys) : Prop := {
  si_log : forall df, df = 0 \/ df = 1 -> log_inv (d_logs x.1 df, extents df (live x));
  si_entry : Forall entry_ok (live x);
  si_pend : NoDup (p_df <$> x.2) /\ Forall (fun p => ce_log (p_ce p) = p_df p) x.2
}.

(** Order of the transaction ids. *)
Record ids_inv (x : sys) : Prop := {
  ii_pos : Forall (fun ce => ce_tx_id ce <> 0) (live x);
  ii_ids : consecutive (ce_tx_id <$> d_ckpt_list x.1);
  ii_last : d_ckpt_list x.1 <> [] -> list.last (ce_tx_id <$> d_ckpt_list x.1) = Some (d_tx_seqn x.1)
}.

Lemma extents_app df e1 e2 : extents df (e1 ++ e2) = extents df e1 ++ extents df e2.
Proof. apply omap_app. Qed.

Lemma extents_cons df ce es :
  extents df (ce :: es) =
    (if ce_log ce =? df then [(ce_j_start_baddr ce, ce_total_tx_size ce / 4096)] else []) ++ extents df es.
Proof. unfold extents; cbn. unfold ce_ext at 1. by case_cmp. Qed.

Lemma consecutive_snoc l a : consecutive l ->
  (forall z, list.last l = Some z -> a = u32 (z + 1)) -> consecutive (l ++ [a]).
Proof.
  induction l as [|x [|y l] IH]; cbn; [done|intros _ H; split; [by apply H|done]|].
  intros [-> H] Hz. split; [done|]. apply IH; [done|]. exact Hz.
Qed.

Lemma consecutive_tail a l : consecutive (a :: l) -> consecutive l.
Proof. destruct l; cbn; tauto. Qed.

(** Entries count only through log, extent, id and size. *)
Lemma insert_same {A B} (f : A -> B) (l : list A) i x y :
  l !! i = Some x -> f y = f x -> f <$> <[i := y]> l = f <$> l.
Proof. intros Hl E. rewrite list_fmap_insert, E. apply list_insert_id. by rewrite list_lookup_fmap, Hl. Qed.

Lemma omap_insert_same {A B} (f : A -> option B) (l : list A) i x y :
  l !! i = Some x -> f y = f x -> omap f (<[i := y]> l) = omap f l.
Proof.
  revert i. induction l as [|a l IH]; intros [|i] Hl E; cbn in *; simplify_eq; [by rewrite E|].
  by rewrite IH.
Qed.

(** ** Frame facts *)

Record same_journal (s s' : devfs) : Prop := {
  sj_logs : d_logs s' = d_logs s;
  sj_list : d_ckpt_list s' = d_ckpt_list s;
  sj_seqn : d_tx_seqn s' = d_tx_seqn s
}.

Lemma persist_data_frame mx m s df r buf size ret s' :
  persist_data mx m s df r buf size = Ok (ret, s') -> same_journal s s'.
Proof.
  unfold persist_data, se_dispatch_io_nocopy_async. intros E.
  repeat first [ progress inv_res | case_match ]; simplify_eq; by split.
Qed.

Lemma sys_inv_frame s s' ps : same_journal s s' -> sys_inv (s, ps) -> sys_inv (s', ps).
Proof. intros [El Ec Es] [H1 H2 H3]. split; unfold live in *; cbn in *; rewrite ?El, ?Ec, ?Es; done. Qed.

(** ** Preservation *)

(** Metadata that are accepted fit the free space, if the data do. *)
Lemma alloc_tx_space_room s df q N M k r :
  let j := d_logs s df in
  log_rep j q -> 0 <= N -> 0 <= M -> N + M + 3 < U32_MOD -> (k = 0 -> N = 0) -> (k <> 0 -> N + 1 <= n_free_blks j) ->
  alloc_tx_space s df (4096 * (M + 1)) (4096 * N) k = Ok r -> sumz id q + N + M + 3 <= log_len j.
Proof.
  intros j Hrep HN HM Hb Hk0 Hk1 E. pose proof (lr_geom _ _ Hrep) as [H1 H2 H3]. pose proof (lr_free _ _ Hrep) as Hf. fold j in Hf. unfold alloc_tx_space in E.
  assert (exists s1, d_logs s1 df = update_log_state j (N + 1) /\ sumz id q + (N + 1) <= log_len j /\
    (let* (j_log, start_baddr) := alloc_journal_space (d_logs s1 df) (4096 * (M + 2)) in Ok (set_log s1 df j_log, start_baddr)) = Ok r) as (s1 & Ej & Hfit & E1).
  { unfold OXBOW_BLOCK_SIZE in E. rewrite (u64_id (4096 * (M + 1) - 4096)), (u64_id (4096 * (M + 1) - 4096 + 4096 * 2)) in E by lia. replace (4096 * (M + 1) - 4096 + 4096 * 2) with (4096 * (M + 2)) in E by lia.
    destruct (Z.eqb_spec k 0) as [Hk|Hk].
    - rewrite (Hk0 Hk) in *. fold j in E. change (alloc_journal_space j 4096) with (alloc_journal_space j (4096 * 1)) in E. rewrite (alloc_ok j q 1) in E by (done || lia). cbn [Z.eqb Z.mul assert_ res_bind] in E.
      destruct (decide _); [|done]. cbn [res_bind] in E. repeat match type of E with context [assert_ ?b _] => destruct b; cbn [assert_ res_bind] in E; [|done] end. eexists. split; [|split; [|exact E]]; [cbn; by rewrite upd_eq|lia].
    - unfold wait_for_all_persist_data_completion in E. destruct (req_cnt _ =? _); cbn [wait_until res_bind] in E; [|done]. destruct (_ =? total_log_size _); cbn [assert_ res_bind] in E; [|done].
      rewrite Z.shiftr_div_pow2, (Z.mul_comm 4096 N) in E by lia. change (2 ^ 12) with 4096 in E. rewrite Z.div_mul, u64_id in E by lia. eexists. split; [|split; [|exact E]]; [cbn; by rewrite upd_eq|]. specialize (Hk1 Hk). lia. }
  rewrite Ej in E1. pose proof (log_rep_advance j q (N + 1) Hrep ltac:(lia) Hfit) as Hrep1. rewrite (alloc_ok _ (q ++ [N + 1])) in E1 by (done || lia).
  destruct (decide _) as [Hd|]; [|done]. autorewrite with oxbow in Hd. unfold id in *. change (log_len (update_log_state j (N + 1))) with (log_len j) in Hd. lia.
Qed.

Lemma write_meta_alloc m s df buf md total k x : journal_write_meta m s df buf md total k = Ok x -> exists r, alloc_tx_space s df md total k = Ok r.
Proof. unfold journal_write_meta. intros E. inv_res. by eexists. Qed.

Lemma sys_inv_meta m s ps df buf M N k s' p m' :
  meta_ok m s ps df buf M N k -> (k <> 0 -> N + 1 <= n_free_blks (d_logs s df)) ->
  journal_write_meta m s df buf (4096 * (M + 1)) (4096 * N) k = Ok (s', p, m') ->
  sys_inv (s, ps) -> sys_inv (s', ps ++ [p]).
Proof.
  intros [Hdf Hidle (HN & HM & Hb & Hk & Hbuf) Hk0 Hk1 _] Hroom E [H1 H2 [H3 H3']]. unfold live in *; cbn in *.
  pose proof (H1 df Hdf) as Hinv. pose proof Hinv as [Hrep _]; cbn in Hrep. set (j := d_logs s df) in *.
  destruct (write_meta_alloc _ _ _ _ _ _ _ _ E) as [r Er].
  pose proof (alloc_tx_space_room s df _ N M k r Hrep HN HM Hb (fun H => proj1 (Hk0 H)) Hroom Er) as Hfit.
  destruct (journal_write_meta_ok m s df _ N M k buf Hrep HN HM) as (s1 & m1 & E1 & _ & _ & _ & _ & Hrep' & El & Elo & _ & _ & Es & Ec); [done..|].
  rewrite E1 in E. simplify_eq. fold j in Hrep', El.
  split; unfold live; cbn; rewrite ?Ec, ?fmap_app, ?(assoc_L (++)); cbn.
  - intros i Hi. rewrite extents_app, extents_cons. cbn. fold j. destruct (Z.eqb_spec df i) as [<-|Hne]; cbn.
    + rewrite El, (Z.mul_comm 4096), Z.div_mul by lia. by apply (log_inv_alloc j).
    + rewrite app_nil_r, Elo by done. by apply H1.
  - apply Forall_app. split; [done|]. constructor; [|done]. split; [done|by eexists].
  - split; [|apply Forall_app; split; [done|by repeat constructor]].
    apply NoDup_app. split; [done|]. split; [|apply NoDup_singleton].
    intros x Hx ->%list_elem_of_singleton. done.
Qed.

Lemma journal_commit_effect m sec nsec s p s' : journal_commit m sec nsec s p = Ok s' ->
  d_logs s' = d_logs s /\ d_ckpt_list s' = d_ckpt_list s ++ [p_ce p] /\ d_tx_seqn s' = ce_tx_id (p_ce p) /\
  (d_tx_seqn s = 0 \/ ce_tx_id (p_ce p) = u32 (d_tx_seqn s + 1)).
Proof.
  intros E. unfold journal_commit in E. inv_res. apply orb_true_iff in E0. cbn. rewrite !Z.eqb_eq in E0. by destruct (jsb_tx_id _ =? 0).
Qed.

Lemma sys_inv_commit m sec nsec s ps1 p ps2 s' :
  journal_commit m sec nsec s p = Ok s' -> sys_inv (s, ps1 ++ p :: ps2) -> sys_inv (s', ps1 ++ ps2).
Proof.
  intros E [H1 H2 [H3 H3']]. unfold live in *; cbn in *. destruct (journal_commit_effect _ _ _ _ _ _ E) as (El & Ec & _ & _).
  rewrite fmap_app, fmap_cons in H3. rewrite fmap_app, fmap_cons in H2.
  apply Forall_app in H3' as [H3a H3b]. apply Forall_cons in H3b as [Hp H3b].
  apply NoDup_app in H3 as (Hn1 & Hn2 & Hn3). apply NoDup_cons in Hn3 as [Hn3 Hn4].
  assert (forall l, Forall (fun p => ce_log (p_ce p) = p_df p) l -> p_df p ∉ (p_df <$> l) ->
            extents (p_df p) (p_ce <$> l) = []) as Hnil.
  { induction l as [|q l IH]; intros HF Hni; [done|]. apply Forall_cons in HF as [Hq HF]. cbn in Hni.
    apply not_elem_of_cons in Hni as [Hne Hni]. rewrite fmap_cons, extents_cons.
    destruct (Z.eqb_spec (ce_log (p_ce q)) (p_df p)); [congruence|]. by apply IH. }
  split; unfold live; cbn; rewrite ?El, ?Ec.
  - intros i Hi. specialize (H1 i Hi). rewrite fmap_app, fmap_cons in H1. rewrite fmap_app.
    rewrite !extents_app, !extents_cons, Hp in H1. rewrite !extents_app, !extents_cons, Hp.
    destruct (Z.eqb_spec (p_df p) i) as [Ei|]; [subst i|by rewrite app_nil_r].
    assert (extents (p_df p) (p_ce <$> ps1) = []) as E1
      by (apply Hnil; [done|]; intros Hx; apply (Hn2 _ Hx); by left).
    rewrite E1 in H1 |- *. by rewrite app_nil_r, <- (assoc_L (++)).
  - rewrite fmap_app, <- (assoc_L (++)). apply Forall_app in H2 as [? H2]. apply Forall_app in H2 as [? H2].
    apply Forall_cons in H2 as [? ?]. apply Forall_app. split; [done|]. constructor; [done|]. by apply Forall_app.
  - split; [|by apply Forall_app]. rewrite fmap_app. apply NoDup_app. split_and!; try done.
    intros x Hx Hx'. apply (Hn2 x Hx). by right.
Qed.

Lemma sys_inv_ready s ps i s' : prepare_ckpt s i = Ok s' -> sys_inv (s, ps) -> sys_inv (s', ps).
Proof.
  unfold prepare_ckpt. destruct (d_ckpt_list s !! i) as [ce|] eqn:Hce; intros E Hi; inv_res; [|done].
  destruct Hi as [H1 H2 H3]. unfold live in *; cbn in *. split; unfold live; cbn.
  - intros df Hdf. rewrite extents_app. unfold extents at 1. rewrite (omap_insert_same _ _ _ ce) by done.
    rewrite <- (extents_app df (d_ckpt_list s)). by apply H1.
  - apply Forall_app in H2 as [H2 H2']. apply Forall_app. split; [|done]. apply Forall_insert; [done|].
    apply (Forall_lookup_1 _ _ _ _ H2 Hce).
  - done.
Qed.

(** Releasing the oldest transaction: its extent starts at the tail of its
    log, so the assertion of [free_journal_space] holds. *)
Lemma sys_inv_release s ps ce rest :
  sys_inv (s, ps) -> d_ckpt_list s = ce :: rest ->
  exists j, free_journal_space (d_logs s (ce_log ce)) (ce_j_start_baddr ce) (ce_total_tx_size ce) = Ok j /\
    forall s', d_ckpt_list s' = rest ->
      (forall i, d_logs s' i = if i =? ce_log ce then j else d_logs s i) -> sys_inv (s', ps).
Proof.
  intros [H1 H2 H3] El. unfold live in *; cbn in *. rewrite El in *. cbn in H2.
  apply Forall_cons in H2 as [(Hdf & n & Hn) H2].
  pose proof (H1 _ Hdf) as Hi. cbn in Hi. rewrite extents_cons, Z.eqb_refl, Hn, (Z.mul_comm 4096), Z.div_mul in Hi by lia.
  apply log_inv_free in Hi as (Et & E & Hi). rewrite Hn. eexists. split; [exact E|].
  intros s' Ec Ej. split; unfold live; cbn; rewrite ?Ec.
  - intros df Hd. rewrite Ej. destruct (Z.eqb_spec df (ce_log ce)) as [->|Hne]; [done|].
    specialize (H1 df Hd). cbn in H1. rewrite extents_cons in H1.
    destruct (Z.eqb_spec (ce_log ce) df); [congruence|done].
  - done.
  - done.
Qed.

Lemma sys_inv_checkpoint stage jsb_baddr s ps s' :
  do_checkpoint_coalesce stage jsb_baddr s = Ok s' -> sys_inv (s, ps) -> sys_inv (s', ps).
Proof.
  unfold do_checkpoint_coalesce, ckpt_list_dequeue. intros E Hi.
  destruct (d_ckpt_list s) as [|ce rest] eqn:El; [by inv_res|].
  destruct (ce_ready ce); [|by inv_res]. destruct (sys_inv_release s ps ce rest Hi El) as (j & Ej & H).
  unfold release_tx in E. cbn [res_bind] in E. inv_res. cbn in E1. rewrite Ej in E1. inv_res.
  apply H; cbn; try done. 
Qed.

Lemma step_inv mx stage jsb x x' : fit_step mx stage jsb x x' -> sys_inv x -> sys_inv x'.
Proof.
  intros (l & Hf & H). destruct H.
  - eapply sys_inv_frame, persist_data_frame; eassumption.
  - eapply sys_inv_meta; eassumption.
  - eapply sys_inv_commit; eassumption.
  - eapply sys_inv_ready; eassumption.
  - eapply sys_inv_checkpoint; eassumption.
Qed.

Lemma initial_inv x : initial x -> sys_inv x.
Proof.
  destruct x as [s ps]. intros [[H0 H1] [Hl Hp] Hs]; cbn in *. subst.
  split; unfold live; cbn; rewrite ?Hl; try done.
  - intros df [-> | ->]; done.
  - by split; [constructor|].
Qed.

Lemma reachable_inv mx stage jsb x x' : initial x -> rtc (fit_step mx stage jsb) x x' -> sys_inv x'.
Proof.
  intros Hi%initial_inv H. induction H; [done|]. by eauto using step_inv.
Qed.

(** ** Order of the ids *)

Lemma write_meta_ids m s df buf md total k s' p m' : journal_write_meta m s df buf md total k = Ok (s', p, m') -> 0 <= buf ->
  d_ckpt_list s' = d_ckpt_list s /\ d_tx_seqn s' = d_tx_seqn s /\ exists a, ce_tx_id (p_ce p) = jd_transaction_id (jd_set_meta_start_baddr (m buf) a).
Proof.
  intros E Hbuf. unfold journal_write_meta in E. destruct (negb (md =? 0)); cbn [assert_] in E; [|done].
  destruct (alloc_tx_space s df md total k) as [[s1 start]| |] eqn:E1; cbn [res_bind] in E; [|done..].
  assert (d_ckpt_list s1 = d_ckpt_list s /\ d_tx_seqn s1 = d_tx_seqn s) as [Ec Es].
  { unfold alloc_tx_space in E1. repeat first [progress inv_res | case_match]; by simplify_eq. }
  destruct (add_bios_considering_wrap _ _ _ _ _) as [[bl nb]| |]; cbn [res_bind] in E; [|done..].
  destruct (add_bio_considering_wrap _ bl nb SB_BUF) as [bl2 nb2]. destruct (add_bio_considering_wrap _ bl2 _ buf) as [bl3 ?]. destruct (add_bio_considering_wrap _ [] nb2 CH_BUF) as [bl4 ?].
  injection E as <- <- _. cbn. split_and!; [done|done|]. exists start. rewrite upd_eq. rewrite upd_ne; [done|]. unfold SB_BUF. lia.
Qed.

Lemma ids_inv_step mx stage jsb x x' : step mx stage jsb x x' -> ids_inv x -> ids_inv x'.
Proof.
  intros [l H] [H1 H2 H3]. unfold live in *. destruct H as [m s ps df r buf size ret s' E|m s ps df buf M N k s' p m' [_ _ (_ & _ & _ & _ & Hbuf) _ _ [Hblk Hid]] E|m sec nsec s ps1 p ps2 s' E|s ps i s' E|s ps s' E]; cbn in *.
  - apply persist_data_frame in E as [_ Ec Es]. split; unfold live; cbn; rewrite ?Ec, ?Es; done.
  - destruct (write_meta_ids _ _ _ _ _ _ _ _ _ _ E Hbuf) as (Ec & Es & a & Et). split; unfold live; cbn; rewrite ?Ec, ?Es; try done. rewrite fmap_app, (assoc_L (++)). apply Forall_app. split; [done|]. constructor; [|done].
    rewrite Et. unfold jd_transaction_id, jd_set_meta_start_baddr in *. by rewrite field_ne by (done || lia).
  - destruct (journal_commit_effect _ _ _ _ _ _ E) as (_ & Ec & Es & Ht). rewrite fmap_app, fmap_cons in H1. apply Forall_app in H1 as [H1 H1']. apply Forall_app in H1' as [Ha Hb]. apply Forall_cons in Hb as [Hp Hb].
    split; unfold live; cbn; rewrite ?Ec, ?Es.
    + rewrite fmap_app, <- (assoc_L (++)). apply Forall_app. split; [done|]. constructor; [done|]. by apply Forall_app.
    + rewrite fmap_app. apply consecutive_snoc; [done|]. intros z Hz. assert (d_ckpt_list s <> []) as Hne by (intros E'; by rewrite E' in Hz). rewrite H3 in Hz by done. simplify_eq. destruct Ht as [Ht|]; [|done].
      specialize (H3 Hne). rewrite Ht in H3. apply last_Some_elem_of, list_elem_of_fmap in H3 as (ce & E0 & Hce). rewrite Forall_forall in H1. by destruct (H1 ce Hce).
    + intros _. rewrite fmap_app. apply last_snoc.
  - unfold prepare_ckpt in E. destruct (d_ckpt_list s !! i) as [ce|] eqn:Hce; inv_res; [|done]. apply Forall_app in H1 as [H1 H1']. split; unfold live; cbn.
    + apply Forall_app. split; [|done]. apply Forall_insert; [done|]. apply (Forall_lookup_1 _ _ _ _ H1 Hce).
    + by rewrite (insert_same _ _ _ ce).
    + intros _. rewrite (insert_same _ _ _ ce) by done. apply H3. intros E'. by rewrite E' in Hce.
  - unfold do_checkpoint_coalesce, ckpt_list_dequeue in E. destruct (d_ckpt_list s) as [|ce rest] eqn:El; [inv_res; split; unfold live; cbn; by rewrite El|].
    destruct (ce_ready ce); [|inv_res; split; unfold live; cbn; by rewrite El]. unfold release_tx in E. cbn [res_bind] in E. inv_res. apply Forall_cons in H1 as [_ H1]. split; unfold live; cbn; [done|by eapply consecutive_tail|].
    intros Hne. specialize (H3 ltac:(done)). by destruct rest.
Qed.

Lemma reachable_ids mx stage jsb x x' : initial x -> rtc (step mx stage jsb) x x' -> ids_inv x'.
Proof.
  intros Hi H. assert (ids_inv x) as H0. { destruct Hi as [_ [Hl Hp] _]. split; unfold live; rewrite ?Hl, ?Hp; done. }
  clear Hi. induction H; [done|]. by eauto using ids_inv_step.
Qed.

(** ** Reachable states *)


(** C7: in a state reached by steps in which the data of each transaction fit
    the free space, the oldest committed transaction can always be released:
    the assertion that its extent starts at the tail of its log never fires,
    and the tail moves to the end of the extent. *)
Theorem checkpoint_release_never_aborts mx stage jsb x s ps ce rest d :
  initial x -> rtc (fit_step mx stage jsb) x (s, ps) -> d_ckpt_list s = ce :: rest ->
  exists s', release_tx jsb (set_disk (set_ckpt_list s rest) d) ce = Ok s' /\
    n_free_blks (d_logs s' (ce_log ce)) =
      n_free_blks (d_logs s (ce_log ce)) + ce_total_tx_size ce / 4096 /\
    d_ckpt_list s' = rest.
Proof.
  intros Hi H El. pose proof (reachable_inv _ _ _ _ _ Hi H) as Hinv.
  destruct (sys_inv_release s ps ce rest Hinv El) as (j & Ej & _).
  unfold release_tx. cbn [d_logs set_disk set_ckpt_list increase_journal_sb_tx_id set_sb].
  rewrite Ej. cbn [res_bind]. eexists. split; [done|]. cbn. rewrite upd_eq. split; [|done].
  destruct Hinv as [H1 H2 _]. unfold live in *; cbn in *. rewrite El in *. cbn in H2.
  apply Forall_cons in H2 as [(Hdf & n & Hn) _]. specialize (H1 _ Hdf). cbn in H1.
  rewrite extents_cons, Z.eqb_refl in H1. rewrite Hn, (Z.mul_comm 4096), Z.div_mul in * by lia. rewrite Z.mul_comm in Ej.
  destruct (log_inv_free _ _ _ _ H1) as (_ & Ef & [Hr' _]). rewrite Ef in Ej. inv_res.
  destruct H1 as [Hr _]. cbn in Hr, Hr'. rewrite (lr_free _ _ Hr), (lr_free _ _ Hr'), sumz_cons. unfold log_len, id; cbn. lia.
Qed.

Lemma omap_middle {A B} (f : A -> option B) (l : list A) i c e :
  l !! i = Some c -> f c = Some e -> omap f l = omap f (take i l) ++ e :: omap f (drop (S i) l).
Proof.
  intros Hl He. transitivity (omap f (take i l ++ c :: drop (S i) l)).
  - by rewrite take_drop_middle.
  - rewrite omap_app. cbn. by rewrite He.
Qed.

Lemma omap_lookup_take {A B} (f : A -> option B) (l : list A) i c e :
  l !! i = Some c -> f c = Some e -> omap f l !! length (omap f (take i l)) = Some e.
Proof. intros Hl He. rewrite (omap_middle f l i c e) by done. by rewrite lookup_app_r, Nat.sub_diag by lia. Qed.

Lemma omap_take_lt {A B} (f : A -> option B) (l : list A) i1 i2 c e :
  (i1 < i2)%nat -> l !! i1 = Some c -> f c = Some e ->
  (length (omap f (take i1 l)) < length (omap f (take i2 l)))%nat.
Proof.
  intros Hlt Hl He. rewrite (omap_middle f (take i2 l) i1 c e) by (done || by rewrite lookup_take_lt).
  rewrite take_take, Nat.min_l, length_app by lia. cbn. lia.
Qed.

(** A data transaction larger than the free space: the accounting of its
    descriptor and data underflows, the following allocation of its metadata
    succeeds, and the metadata start inside a live transaction. *)
Lemma overfull_data_overwrites_live s df q N M k :
  let j := d_logs s df in
  log_rep j q -> 0 < k < U32_MOD -> 0 <= N -> N + 1 < log_len j -> log_len j - sumz id q < N + 1 ->
  0 <= M -> N + M + 3 < 2147483648 -> d_fctx s df = mk_fctx k (head j) (4096 * N) ->
  exists s' b, alloc_tx_space s df (4096 * (M + 1)) (4096 * N) k = Ok (s', pos j b) /\
    0 <= b < sumz id q.
Proof.
  intros j Hrep Hk HN HN' Hover HM Hb Hf. pose proof Hrep as [[H1 H2 H3] Ht Hq Hfree Hfit Hh].
  exists (set_log (set_log s df (update_log_state j (N + 1))) df (update_log_state (update_log_state j (N + 1)) (M + 2))).
  exists (sumz id q + (N + 1) - log_len j). split; [|lia].
  unfold alloc_tx_space. destruct (Z.eqb_spec k 0); [lia|]. fold j. rewrite Hf.
  unfold wait_for_all_persist_data_completion. cbn [req_cnt total_log_size].
  rewrite u32_id, !Z.eqb_refl by lia. cbn [wait_until assert_ res_bind].
  rewrite Z.shiftr_div_pow2, (Z.mul_comm 4096 N), Z.div_mul, (u64_id (N + 1)) by lia. cbn [d_logs set_log]. rewrite upd_eq.
  unfold OXBOW_BLOCK_SIZE.
  rewrite (u64_id (4096 * (M + 1) - 4096)), u64_id by lia.
  replace (4096 * (M + 1) - 4096 + 4096 * 2) with (4096 * (M + 2)) by lia.
  unfold alloc_journal_space. rewrite bytes_to_nblks_eq by lia. cbn [res_bind]. cbn [n_free_blks update_log_state].
  assert (u32 (u64 (n_free_blks j - (N + 1))) = n_free_blks j - (N + 1) + U32_MOD) as -> by wrap_lia.
  destruct (Z.ltb_spec (n_free_blks j - (N + 1) + U32_MOD) (M + 2)); [lia|]. cbn [negb assert_ res_bind].
  do 2 f_equal. cbn [head update_log_state]. rewrite advance_eq, Hh by (done || by apply (log_rep_head j q) || lia).
  unfold pos. rewrite (Z.add_comm _ (N + 1)), Z.add_simpl_l, Zplus_mod_idemp_r. f_equal.
  rewrite <- (Z_mod_plus_full (_ + (_ - _)) 1). f_equal. lia.
Qed.

(** A position among the live blocks lies in a live extent. *)
Lemma position_in_extent (exts : list (Z * Z)) b : Forall (fun n => 0 <= n) (snd <$> exts) -> 0 <= b < sumz id (snd <$> exts) ->
  exists i e c, exts !! i = Some e /\ 0 <= c < e.2 /\ b = sumz id (snd <$> take i exts) + c.
Proof.
  revert b. induction exts as [|e exts IH]; intros b Hp Hb; [cbn in Hb; autorewrite with oxbow in Hb; lia|]. rewrite fmap_cons in Hb, Hp. autorewrite with oxbow in Hb. unfold id in Hb at 1. apply Forall_cons in Hp as [_ Hp].
  destruct (Z.lt_ge_cases b e.2) as [Hlt|Hge].
  - exists 0%nat, e, b. split_and!; [done|lia|done|]. cbn. autorewrite with oxbow. lia.
  - destruct (IH (b - e.2) Hp ltac:(lia)) as (i & e' & c & E & Hc & Hs). exists (S i), e', c. split_and!; [done|lia|lia|]. cbn [take]. rewrite fmap_cons. autorewrite with oxbow. unfold id at 1. lia.
Qed.

Lemma ring_ext_blk j e b : ext_blk j e b = ring j (e.1 + b).
Proof. unfold ext_blk, ring. do 2 f_equal. lia. Qed.

(** C6: space in the log.  In a state reached by steps in which the data of each
    transaction fit the free space when its metadata arrive, the blocks of the
    extents of transactions that own log space (committed and not yet
    checkpointed, or waiting for their turn) are pairwise distinct and lie
    inside their logs.  The condition is necessary, and not checked by the code:
    in such a state, metadata that follow more data than there is free space are
    granted a block of a live transaction. *)
Theorem live_transactions_disjoint mx stage jsb x y :
  initial x -> rtc (fit_step mx stage jsb) x y ->
  (forall i1 i2 c1 c2 b1 b2, live y !! i1 = Some c1 -> live y !! i2 = Some c2 -> ce_log c1 = ce_log c2 ->
    0 <= b1 < ce_total_tx_size c1 / 4096 -> 0 <= b2 < ce_total_tx_size c2 / 4096 ->
    let j := d_logs y.1 (ce_log c1) in
    first j <= ring j (ce_j_start_baddr c1 + b1) <= last j /\
    (ring j (ce_j_start_baddr c1 + b1) = ring j (ce_j_start_baddr c2 + b2) -> i1 = i2 /\ b1 = b2)) /\
  (forall df N M k, let j := d_logs y.1 df in
    df = 0 \/ df = 1 -> 0 < k < U32_MOD -> 0 <= N -> 0 <= M -> N + M + 3 < 2147483648 -> d_fctx y.1 df = mk_fctx k (head j) (4096 * N) ->
    n_free_blks j < N + 1 < log_len j ->
    exists s' ce b, alloc_tx_space y.1 df (4096 * (M + 1)) (4096 * N) k = Ok (s', ring j (ce_j_start_baddr ce + b)) /\
      ce ∈ live y /\ ce_log ce = df /\ 0 <= b < ce_total_tx_size ce / 4096).
Proof.
  intros Hi H. destruct (reachable_inv _ _ _ _ _ Hi H) as [H1 H2 _]. split.
  - intros i1 i2 c1 c2 b1 b2 Hl1 Hl2 El Hb1 Hb2 j. assert (ce_log c1 = 0 \/ ce_log c1 = 1) as Hdf by apply (Forall_lookup_1 _ _ _ _ H2 Hl1).
    specialize (H1 _ Hdf). fold j in H1.
    set (e1 := (ce_j_start_baddr c1, ce_total_tx_size c1 / 4096)). set (e2 := (ce_j_start_baddr c2, ce_total_tx_size c2 / 4096)).
    assert (ce_ext (ce_log c1) c1 = Some e1) as He1 by (unfold ce_ext; by rewrite Z.eqb_refl).
    assert (ce_ext (ce_log c1) c2 = Some e2) as He2 by (unfold ce_ext; by rewrite El, Z.eqb_refl).
    pose proof (omap_lookup_take _ _ _ _ _ Hl1 He1) as L1. pose proof (omap_lookup_take _ _ _ _ _ Hl2 He2) as L2.
    destruct (log_inv_disjoint _ _ _ e1 e2 b1 b2 H1 L1 L2 Hb1 Hb2) as [Hr He].
    cbn in Hr, He. rewrite !ring_ext_blk in Hr. rewrite !ring_ext_blk in He. split; [exact Hr|]. intros E. destruct (He E) as [Ei Eb]. split; [|done].
    destruct (Nat.lt_trichotomy i1 i2) as [Hlt|[?|Hlt]]; [|done|].
    + pose proof (omap_take_lt _ _ _ _ _ _ Hlt Hl1 He1). lia.
    + pose proof (omap_take_lt _ _ _ _ _ _ Hlt Hl2 He2). lia.
  - intros df N M k j Hdf Hk HN HM Hb Hf Hov. destruct (H1 _ Hdf) as [Hrep Hc]. cbn in Hrep, Hc. pose proof (lr_free _ _ Hrep) as Hfree. fold j in Hfree, Hrep, Hc.
    destruct (overfull_data_overwrites_live y.1 df _ N M k Hrep Hk HN) as (s' & b & E & Hb'); fold j; [lia|lia|done..|]. fold j in E.
    destruct (position_in_extent _ b (lr_pos _ _ Hrep) Hb') as (i & e & c & Ee & Hce & ->).
    pose proof (list_elem_of_lookup_2 _ _ _ Ee) as Hin. unfold extents in Hin. apply list_elem_of_omap in Hin as (ce & Hlive & Hext). unfold ce_ext in Hext. destruct (Z.eqb_spec (ce_log ce) df) as [Hl|]; [|done]. injection Hext as <-.
    exists s', ce, c. split_and!; try done; try (cbn in Hce; lia). rewrite E. do 2 f_equal. pose proof (lr_geom _ _ Hrep) as [G1 G2 G3]. pose proof (contiguous_blk j 0 _ i _ c ltac:(lia) Hc Ee) as Hp. rewrite Z.add_0_l, ring_ext_blk in Hp. symmetry. exact Hp.
Qed.

(** ** The checkpointing thread *)

(** [start_checkpoint]: checkpoints until the target is free; [None] is an
    execution that has not come to an end within [fuel] rounds. *)
Fixpoint start_checkpoint (fuel : nat) (stage : Z * Z) (jsb_baddr target_perc : Z) (s : devfs)
  : option (res devfs) :=
  if lower_journal_free_percent s <? target_perc then
    match fuel with
    | O => None
    | S fuel' =>
        match do_checkpoint_coalesce stage jsb_baddr s with
        | Ok s' => start_checkpoint fuel' stage jsb_baddr target_perc s'
        | r => Some r
        end
    end
  else Some (Ok s).

Lemma free_percent_empty j : log_inv (j, []) -> journal_free_percent j = 100.
Proof.
  intros [[[H1 H2 H3] _ _ Hf _ _] _]. cbn in *. autorewrite with oxbow in Hf.
  unfold journal_free_percent. rewrite Hf. unfold log_len in *. unwrap.
  rewrite Z.sub_0_r, Z.mul_comm, Z.div_mul by lia. reflexivity.
Qed.

(** The transactions at the front of the list that the host has released. *)
Fixpoint released (l : list ckpt_list_entry) : nat :=
  match l with ce :: l => if ce_ready ce then S (released l) else O | [] => O end.

(** [n] rounds of the loop, each begun below the target. *)
Inductive ckpt_rounds (stage : Z * Z) (jsb_baddr target : Z) : nat -> devfs -> devfs -> Prop :=
| rounds_0 s : ckpt_rounds stage jsb_baddr target 0 s s
| rounds_S n s s1 s' : lower_journal_free_percent s < target -> do_checkpoint_coalesce stage jsb_baddr s = Ok s1 ->
    ckpt_rounds stage jsb_baddr target n s1 s' -> ckpt_rounds stage jsb_baddr target (S n) s s'.

(** The released transactions the loop comes to are well formed: their tags
    parse, as [do_checkpoint_coalesce] needs it. *)
Definition parseable (stage : Z * Z) (jsb_baddr target : Z) (s : devfs) : Prop :=
  forall n s' ce rest, ckpt_rounds stage jsb_baddr target n s s' -> d_ckpt_list s' = ce :: rest -> ce_ready ce = true ->
    exists sg, ckpt_ok (stage_area stage (d_logs s' (ce_log ce))) sg (d_disk s') ce.

(** One round with work to do. *)
Lemma checkpoint_round stage jsb sg s ps ce rest :
  sys_inv (s, ps) -> d_ckpt_list s = ce :: rest -> ce_ready ce = true -> ckpt_ok (stage_area stage (d_logs s (ce_log ce))) sg (d_disk s) ce ->
  exists s', do_checkpoint_coalesce stage jsb s = Ok s' /\ d_ckpt_list s' = rest.
Proof.
  intros [H1 H2 _] El Hr Hok. unfold live in *; cbn in *. rewrite El in *. apply Forall_cons in H2 as [(Hdf & n & Hn) _]. specialize (H1 _ Hdf).
  cbn in H1. rewrite extents_cons, Z.eqb_refl, Hn, (Z.mul_comm 4096), Z.div_mul in H1 by lia. pose proof (log_inv_free _ _ _ _ H1) as (Et & _ & _). destruct H1 as [Hrep _].
  destruct (do_checkpoint_coalesce_ok stage jsb sg s ce rest n _ El Hr Hok Hrep Hn Et) as (s' & E & _ & _ & _ & _ & _ & El' & _). by exists s'.
Qed.

(** If the oldest transaction has not been released by the host (or there
    is none) and the target is not reached, the checkpointing thread spins:
    no number of rounds brings it to an end. *)
Lemma start_checkpoint_spins stage jsb target s fuel :
  released (d_ckpt_list s) = O -> lower_journal_free_percent s < target ->
  start_checkpoint fuel stage jsb target s = None.
Proof.
  intros Hr Ht. induction fuel as [|fuel IH]; cbn; destruct (Z.ltb_spec (lower_journal_free_percent s) target); try lia; [done|].
  assert (do_checkpoint_coalesce stage jsb s = Ok s) as ->; [|done].
  unfold do_checkpoint_coalesce, ckpt_list_dequeue. destruct (d_ckpt_list s) as [|ce rest] eqn:El; [done|].
  cbn in Hr. by destruct (ce_ready ce).
Qed.

Lemma lower_percent_empty s : sys_inv (s, []) -> d_ckpt_list s = [] -> lower_journal_free_percent s = 100.
Proof.
  intros [H1 _ _] El. unfold live in H1; cbn in H1. rewrite El in H1. unfold lower_journal_free_percent. rewrite !free_percent_empty; [done|apply H1; lia..].
Qed.


(** ** An example: a metadata-only transaction, committed *)
Definition demo_initial : devfs :=
  mk_devfs demo_sb (fun i => if i =? 0 then mk_log 0 10 29 10 10 20 else mk_log 1 30 49 30 30 20)
    (fun _ => mk_fctx 0 0 0) 0 [] (fun _ => []).

Lemma demo_initial_ok : initial (demo_initial, []).
Proof.
  split; cbn; [|done|done].
  split; split; cbn; try done; (split; [split|..]; vm_compute; done).
Qed.

Lemma demo_reachable :
  exists s ce, rtc (fit_step (4096 * 32) (100, 139) 5) (demo_initial, []) (s, []) /\
    d_ckpt_list s = [ce] /\ ce_log ce = 0 /\ ce_total_tx_size ce = 4096 * 4 /\ ce_tx_id ce = 5 /\ d_tx_seqn s = 5.
Proof.
  assert (meta_ok demo_mem demo_initial [] 0 50 1 0 0) as Hm.
  { split; try done; [by left|apply not_elem_of_nil]. }
  destruct demo_initial_ok as [[[Hrep _] _] _ _].
  destruct (journal_write_meta_ok demo_mem demo_initial 0 [] 0 1 0 50 Hrep) as
    (s1 & m1 & E1 & _ & _ & _ & _ & _ & _ & _ & _ & _ & Es & Ec); try (vm_compute; done); try lia.
  set (p := mk_pending _ _ _ _ _) in E1.
  assert (exists s2, journal_commit m1 1 2 s1 p = Ok s2 /\ d_ckpt_list s2 = [p_ce p] /\ d_tx_seqn s2 = 5)
    as (s2 & E2 & Hl & Hs).
  { unfold journal_commit. rewrite Es. cbn [d_tx_seqn demo_initial Z.eqb orb wait_until].
    eexists. split; [reflexivity|]. cbn [d_ckpt_list d_tx_seqn set_seqn]. split; [|vm_compute; reflexivity].
    unfold ckpt_list_enqueue. cbn. destruct (jsb_tx_id _ =? 0); cbn; by rewrite Ec. }
  exists s2, (p_ce p). split; [|split_and!; try done; vm_compute; reflexivity].
  eapply rtc_l; [eexists; split; [|apply (step_meta _ _ _ demo_mem _ _ 0 50 1 0 0 _ _ _ Hm E1)]; done|].
  eapply rtc_l; [eexists; split; [|apply (step_commit _ _ _ m1 1 2 _ [] p [] _ E2)]; done|]. apply rtc_refl.
Qed.

Lemma fit_steps mx stage jsb x y : rtc (fit_step mx stage jsb) x y -> rtc (step mx stage jsb) x y.
Proof. apply rtc_subrel. intros a b (l & _ & H). by exists l. Qed.


Lemma checkpoint_release_never_aborts_witness :
  exists s ce s', d_ckpt_list s = [ce] /\
    release_tx 5 (set_disk (set_ckpt_list s []) (d_disk s)) ce = Ok s' /\
    n_free_blks (d_logs s' (ce_log ce)) = n_free_blks (d_logs s (ce_log ce)) + 4.
Proof.
  destruct demo_reachable as (s & ce & H & El & _ & Hn & _).
  destruct (checkpoint_release_never_aborts (4096 * 32) (100, 139) 5 (demo_initial, []) s [] ce [] (d_disk s))
    as (s' & E & Hf & _).
  - exact demo_initial_ok.
  - exact H.
  - exact El.
  - exists s, ce, s'. rewrite Hn in Hf. done.
Defined.

Lemma live_transactions_disjoint_witness :
  exists s ce, d_ckpt_list s = [ce] /\
    let j := d_logs s (ce_log ce) in
    ring j (ce_j_start_baddr ce + 1) <> ring j (ce_j_start_baddr ce + 3).
Proof.
  destruct demo_reachable as (s & ce & H & El & _ & Hn & _). exists s, ce. split; [exact El|]. intros j E.
  assert (live (s, []) !! 0%nat = Some ce) as Hl by (unfold live; cbn; by rewrite El).
  destruct (live_transactions_disjoint (4096 * 32) (100, 139) 5 (demo_initial, []) (s, []) demo_initial_ok H) as [Hd _].
  destruct (Hd 0%nat 0%nat ce ce 1 3 Hl Hl eq_refl) as [_ Hb].
  - rewrite Hn. vm_compute. split; congruence.
  - rewrite Hn. vm_compute. split; congruence.
  - destruct (Hb E) as [_ Hb']. discriminate Hb'.
Defined.

(** A committed and released transaction with a staged part. *)
Definition one_state : devfs :=
  mk_devfs demo_sb (fun i => if i =? 0 then ex_log else mk_log 1 30 49 30 30 20) (fun _ => mk_fctx 0 0 0) 5 [ex_ce] ex_disk.

Lemma one_state_inv : sys_inv (one_state, []).
Proof.
  split; cbn; try done.
  - intros df [-> | ->]; split; cbn; try done; (split; [split|..]; vm_compute; try done; repeat constructor; done).
  - constructor; [|done]. split; [by left|]. by exists 7.
  - split; [constructor|done].
Qed.

Lemma one_state_parseable : parseable (100, 139) 5 90 one_state.
Proof.
  intros n s' ce rest H El Hr. inversion H as [|n' s s1 s2 Hlt E H']; subst.
  - injection El as <- <-. exists (fun g => 100 <=? g). exact ex_ckpt_ok.
  - assert (d_ckpt_list s1 = []) as El1. { destruct (checkpoint_round (100, 139) 5 (fun g => 100 <=? g) one_state [] ex_ce [] one_state_inv eq_refl eq_refl ex_ckpt_ok) as (s2 & E2 & El2). congruence. }
    clear E H Hlt. induction H' as [|k s s2 s3 _ E _ IH]; [congruence|]. apply IH; [done|]. unfold do_checkpoint_coalesce, ckpt_list_dequeue in E. rewrite El1 in E. by injection E as <-.
Qed.

