(* ===== verification/TxBuild.v ===== *)
(** * Building a background transaction

    The host side of a journal transaction, [secure_daemon/src/fs/journal.c]:
    copying dirty blocks into data fetcher buffers ([copy_blk],
    [copy_data_blks], [request_data_fetch]), recording their home addresses
    as tags ([fill_tagblk]) and the staged transactions as trace blocks
    ([journal_stage_trace]), and the whole [build_transaction] and
    [request_commit].  Pointers into the metadata buffer ([desc_blk],
    [ext_blk], [trace_blk]) are block indices of it.

    The data fetcher library is a parameter: [df_alloc_buffer n] is the result
    of the [n]-th allocation, [None] for a null pointer. *)

From S2P Require Import Prelude Bio Sjd.

(** ** State *)

(** A request to fetch a data buffer, with the buffer's content. *)
Record fetch_req := mk_req { fr_req_id : Z; fr_buf_id : Z; fr_size : Z; fr_data : list block }.

(** Data buffer part of [struct journal_transaction]; [pages_unlocked] lists
    the pages whose lock bit was cleared, [sent] the messages to the device. *)
Record data_buf := mk_db {
  cur : option Z; cur_data : list block;
  nr_blocks : Z; tot_nr_blocks : Z; n_df_bufs : Z;
  used_blk_cnt : Z; nr_sent_blks : Z; n_allocs : nat;
  sent : list fetch_req; pages_unlocked : list Z
}.

(** Metadata buffer part. *)
Record meta_buf := mk_mb {
  md : Z -> block; md_cur : Z; md_nr_blocks : Z;
  desc_blk : Z; ext_blk : option Z; trace_blk : option Z
}.

Record journal_tx := mk_tx { tid : Z; db : data_buf; mb : meta_buf }.

Definition BG_JOURNAL_COMMIT_SIZE : Z := DATA_FETCHER_BUF_SIZE.
Definition BUF_BLKS : Z := BG_JOURNAL_COMMIT_SIZE / OXBOW_BLOCK_SIZE.

(** ** Metadata buffer *)

Definition set_md (b : meta_buf) (i : Z) (x : block) : meta_buf :=
  mk_mb (upd (md b) i x) (md_cur b) (md_nr_blocks b) (desc_blk b) (ext_blk b) (trace_blk b).
Definition set_ext_blk (b : meta_buf) (e : option Z) : meta_buf :=
  mk_mb (md b) (md_cur b) (md_nr_blocks b) (desc_blk b) e (trace_blk b).
Definition set_trace_blk (b : meta_buf) (t : option Z) : meta_buf :=
  mk_mb (md b) (md_cur b) (md_nr_blocks b) (desc_blk b) (ext_blk b) t.

(** [None] is the null pointer of the exhausted buffer. *)
Definition reserve_mdblk (b : meta_buf) (cnt : Z) : res (meta_buf * option Z) :=
  assert! (negb (md_nr_blocks b <? cnt)) in
  let ret := md_cur b in
  let b := mk_mb (md b) (md_cur b + cnt) (u32 (md_nr_blocks b - 1))
             (desc_blk b) (ext_blk b) (trace_blk b) in
  if md_nr_blocks b =? 0 then Ok (b, None) else Ok (b, Some ret).

(** Field updates of the descriptor and meta block headers. *)
Definition jd_set_nr_tags (b : block) (x : Z) : block := wr 4 b 16 x.
Definition jd_set_nr_etag_blks (b : block) (x : Z) : block := wr 4 b 8 x.
Definition jd_set_nr_stage_trace_blks (b : block) (x : Z) : block := wr 4 b 12 x.
Definition mh_init (b : block) (blocktype : Z) : block := wr 4 (wr 4 b 4 0) 0 blocktype.
Definition wr_etag (b : block) (off start cnt : Z) : block := wr 4 (wr 8 b off start) (off + 8) cnt.

(** The block with the new tag, and whether it is full now. *)
Definition fill_tag_etagblk (je : block) (start cnt : Z) : block * bool :=
  let nr := mh_nr je in
  let je := wr_etag je (meta_hdr_size + etag_size * nr) start cnt in
  let je := wr 4 je 4 (u32 (nr + 1)) in
  (je, mh_nr je =? JOURNAL_ETAG_MAX).

Definition fill_tag_descblk (jdb : block) (start cnt : Z) : res (block * bool) :=
  assert! (negb (JOURNAL_DESC_TAG_MAX <=? jd_nr_tags jdb)) in
  let nr := jd_nr_tags jdb in
  let jdb := wr_etag jdb (desc_hdr_size + etag_size * nr) start cnt in
  let jdb := jd_set_nr_tags jdb (u32 (nr + 1)) in
  Ok (jdb, jd_nr_tags jdb =? JOURNAL_DESC_TAG_MAX).

(** The next extent tag block; a null block is dereferenced. *)
Definition new_etag_blk (b : meta_buf) : res meta_buf :=
  let* (b, p) := reserve_mdblk b 1 in
  match p with
  | None => Abort
  | Some e => Ok (set_ext_blk (set_md b e (mh_init (md b e) ETAG_BLK)) (Some e))
  end.

Definition fill_tagblk (b : meta_buf) (start cnt : Z) : res meta_buf :=
  match ext_blk b with
  | Some e =>
      let '(je, full) := fill_tag_etagblk (md b e) start cnt in
      let b := set_md b e je in
      if full then
        let jdb := md b (desc_blk b) in
        let b := set_md b (desc_blk b) (jd_set_nr_etag_blks jdb (u32 (jd_nr_etag_blks jdb + 1))) in
        new_etag_blk b
      else Ok b
  | None =>
      let* (jdb, full) := fill_tag_descblk (md b (desc_blk b)) start cnt in
      let b := set_md b (desc_blk b) jdb in
      if full then
        let b := set_md b (desc_blk b) (jd_set_nr_etag_blks (md b (desc_blk b)) 1) in
        new_etag_blk b
      else Ok b
  end.

(** [journal_stage_trace]: the start blocks of the staged transactions, in
    trace blocks of at most [JOURNAL_TRACE_MAX] entries. *)
Definition new_trace_blk (b : meta_buf) : res meta_buf :=
  let* (b, p) := reserve_mdblk b 1 in
  match p with
  | None => Abort
  | Some t =>
      let b := set_trace_blk (set_md b t (mh_init (md b t) STAGE_TRACE_BLK)) (Some t) in
      let jdb := md b (desc_blk b) in
      Ok (set_md b (desc_blk b) (jd_set_nr_stage_trace_blks jdb (u32 (jd_nr_stage_trace_blks jdb + 1))))
  end.

Definition trace_add (tb : block) (start : Z) : block :=
  let nr := mh_nr tb in
  wr 4 (wr 8 tb (meta_hdr_size + 8 * nr) start) 4 (u32 (nr + 1)).

Fixpoint trace_loop (b : meta_buf) (stxs : list Z) : res meta_buf :=
  match stxs, trace_blk b with
  | s :: rest, Some t =>
      let b := set_md b t (trace_add (md b t) s) in
      match rest with
      | [] => Ok b
      | _ :: _ =>
          if mh_nr (md b t) =? JOURNAL_TRACE_MAX then
            let* b := new_trace_blk b in trace_loop b rest
          else trace_loop b rest
      end
  | _, _ => Abort
  end.

Definition journal_stage_trace (b : meta_buf) (stxs : list Z) : res meta_buf :=
  let* b := new_trace_blk b in trace_loop b stxs.

(** ** Data buffers *)

(** An extent of a file as its index returns it: blocks [iblock], ...,
    [iblock + nr - 1] are at [lba] and on. *)
Record buffer_extent := mk_be { be_iblock : Z; be_lba : Z; be_nr : Z }.

Record buffer_head := mk_bh { b_blocknr : Z; b_data : block; b_dirty : bool }.

Definition clear_buffer_dirty (bh : buffer_head) : buffer_head := mk_bh (b_blocknr bh) (b_data bh) false.

(** The tags of one dirty range, extent by extent, written by [wrtag];
    [false] when the file index fails, which ends the loop over the ranges.
    Fuel: one block per round. *)
Section tag_range.
Context {B : Type} (wrtag : B -> Z -> Z -> res B).

Fixpoint tag_range (fuel : nat) (get_blocks : Z -> option buffer_extent) (b : B)
    (start cnt : Z) : res (B * bool) :=
  match fuel with
  | O => Blocked
  | S fuel' =>
      match get_blocks start with
      | None => Ok (b, false)
      | Some be =>
          let eend := u64 (be_iblock be + be_nr be) in
          let lba := u64 (be_lba be + start - be_iblock be) in
          if u64 (start + cnt) <=? eend then
            let* b := wrtag b lba (u32 cnt) in Ok (b, true)
          else if start <? eend then
            let tmp := u64 (eend - start) in
            let* b := wrtag b lba (u32 tmp) in
            let cnt := u64 (cnt - tmp) in
            if cnt =? 0 then Ok (b, true)
            else
              assert! (negb (s64 cnt <? 0)) in
              tag_range fuel' get_blocks b (u64 (start + tmp)) cnt
          else tag_range fuel' get_blocks b start cnt
      end
  end.
End tag_range.

Section build.
Context (df_alloc_buffer : nat -> option Z).

(** The buffer is replaced also when there is none; the return code. *)
Definition tx_alloc_buffer (d : data_buf) : data_buf * Z :=
  match df_alloc_buffer (n_allocs d) with
  | None =>
      (mk_db None [] (nr_blocks d) (tot_nr_blocks d) (n_df_bufs d) (used_blk_cnt d) (nr_sent_blks d)
         (S (n_allocs d)) (sent d) (pages_unlocked d), -1)
  | Some id =>
      (mk_db (Some id) [] BUF_BLKS (u32 (tot_nr_blocks d + BUF_BLKS)) (n_df_bufs d + 1)
         (used_blk_cnt d) (nr_sent_blks d) (S (n_allocs d)) (sent d) (pages_unlocked d), 0)
  end.

(** Sends the blocks not sent yet; -1 if there are none. *)
Definition request_data_fetch (d : data_buf) : data_buf * Z :=
  let n_blks_to_send := u32 (used_blk_cnt d - nr_sent_blks d) in
  if n_blks_to_send =? 0 then (d, -1)
  else
    let req := mk_req (n_df_bufs d - 1) (default 0 (cur d)) (nblks_to_bytes n_blks_to_send) (cur_data d) in
    (mk_db (cur d) (cur_data d) (nr_blocks d) (tot_nr_blocks d) (n_df_bufs d) (used_blk_cnt d)
       (u64 (nr_sent_blks d + n_blks_to_send)) (n_allocs d) (sent d ++ [req]) (pages_unlocked d), 0).

(** A full buffer is sent and replaced. *)
Definition flush_full (d : data_buf) : res data_buf :=
  if nr_blocks d =? 0 then
    let '(d, ret) := request_data_fetch d in
    assert! (ret =? 0) in
    Ok (tx_alloc_buffer d).1
  else Ok d.

(** Blocks stored at the cursor; storing through a null cursor faults. *)
Definition append_blks (d : data_buf) (src : list block) : res data_buf :=
  let cnt := Z.of_nat (length src) in
  match cur d with
  | None => Abort
  | Some id =>
      Ok (mk_db (Some id) (cur_data d ++ src) (u32 (nr_blocks d - cnt)) (tot_nr_blocks d) (n_df_bufs d)
            (u32 (used_blk_cnt d + cnt)) (nr_sent_blks d) (n_allocs d) (sent d) (pages_unlocked d))
  end.

Definition copy_blk (d : data_buf) (src : list block) : res data_buf :=
  assert! (negb (nr_blocks d <? Z.of_nat (length src))) in
  let* d := append_blks d src in
  flush_full d.

Definition unlock_page (d : data_buf) (p : Z) : data_buf :=
  mk_db (cur d) (cur_data d) (nr_blocks d) (tot_nr_blocks d) (n_df_bufs d) (used_blk_cnt d)
    (nr_sent_blks d) (n_allocs d) (sent d) (pages_unlocked d ++ [p]).

(** Pages [start], ..., [start + cnt - 1] of a file; [page] is its mapping. *)
Fixpoint copy_data_blks (d : data_buf) (page : Z -> block) (start : Z) (cnt : nat) : res data_buf :=
  match cnt with
  | O => Ok d
  | S k =>
      let* d := append_blks d [page start] in
      let d := unlock_page d start in
      let* d := flush_full d in
      copy_data_blks d page (start + 1) k
  end.

(** The copy of one dirty range, split at the end of each buffer: [tmp]
    blocks are done.  [fuel] bounds the number of splits. *)
Fixpoint copy_range (fuel : nat) (d : data_buf) (page : Z -> block) (start cnt tmp : Z) : res data_buf :=
  if nr_blocks d <? cnt - tmp then
    match fuel with
    | O => Blocked
    | S fuel' =>
        let split := nr_blocks d in
        let* d := copy_data_blks d page (start + tmp) (Z.to_nat split) in
        copy_range fuel' d page start cnt (tmp + split)
    end
  else if tmp <? cnt then copy_data_blks d page (start + tmp) (Z.to_nat (cnt - tmp))
  else Ok d.

Definition fill_range (fuel : nat) (get_blocks : Z -> option buffer_extent) (b : meta_buf) (start cnt : Z) : res (meta_buf * bool) :=
  tag_range fill_tagblk fuel get_blocks b start cnt.

(** One node of the dirty range list; [false]: ended early. *)
Fixpoint journal_ird (get_blocks : Z -> option buffer_extent) (page : Z -> block)
    (tx : journal_tx) (dirty_pages : list (Z * Z)) : res (journal_tx * bool) :=
  match dirty_pages with
  | [] => Ok (tx, true)
  | (start, cnt) :: rest =>
      if cnt =? 0 then journal_ird get_blocks page tx rest
      else
        let* d := copy_range (Z.to_nat cnt) (db tx) page start cnt 0 in
        let* (b, ok) := fill_range (Z.to_nat cnt) get_blocks (mb tx) start cnt in
        let tx := mk_tx (tid tx) d b in
        if ok then journal_ird get_blocks page tx rest else Ok (tx, false)
  end.

(** The chain of nodes: it ends at the first empty successor. *)
Fixpoint journal_file_data (get_blocks : Z -> option buffer_extent) (page : Z -> block)
    (tx : journal_tx) (irds : list (list (Z * Z))) : res journal_tx :=
  match irds with
  | [] => Ok tx
  | ird :: next =>
      let* (tx, go) := journal_ird get_blocks page tx ird in
      if go then
        match next with
        | (_ :: _) :: _ => journal_file_data get_blocks page tx next
        | _ => Ok tx
        end
      else Ok tx
  end.

(** ** Blocks of the buffer cache *)

Definition journal_bh (tx : journal_tx) (bh : buffer_head) : res journal_tx :=
  let* d := copy_blk (db tx) [b_data bh] in
  let* b := fill_tagblk (mb tx) (b_blocknr bh) 1 in
  Ok (mk_tx (tid tx) d b).

(** Superblock and bitmaps: all blocks of the list, which becomes empty. *)
Fixpoint snapshot_metadata_blocks (tx : journal_tx) (private_list : list buffer_head) : res journal_tx :=
  match private_list with
  | [] => Ok tx
  | bh :: rest => let* tx := journal_bh tx bh in snapshot_metadata_blocks tx rest
  end.

(** Inode blocks collected while the files were journaled. *)
Fixpoint snapshot_inode_blocks (tx : journal_tx) (j_blks : list buffer_head) : res journal_tx :=
  match j_blks with
  | [] => Ok tx
  | bh :: rest => let* tx := journal_bh tx bh in snapshot_inode_blocks tx rest
  end.

(** The dirty blocks of a file's index ([journal_reg_inode]) or of a
    directory ([build_jtx_directory]). *)
Fixpoint journal_dirty_blocks (tx : journal_tx) (private_list : list buffer_head) : res journal_tx :=
  match private_list with
  | [] => Ok tx
  | bh :: rest =>
      let* tx := if b_dirty bh then journal_bh tx bh else Ok tx in
      journal_dirty_blocks tx rest
  end.

(** ** Files and the transaction *)

(** A regular file when it is journaled: dirty index blocks, staged
    transactions, dirty ranges, content and block map. *)
Record reg_file := mk_reg {
  rf_private_list : list buffer_head;
  rf_stage : list Z;
  rf_irds : list (list (Z * Z));
  rf_page : Z -> block;
  rf_get_blocks : Z -> option buffer_extent
}.

(** [JSkip]: deleted, without a worker, or not mapped yet. *)
Inductive jfile := JReg (f : reg_file) | JDir (private_list : list buffer_head) | JSkip.

Definition build_jtx_regular_file (tx : journal_tx) (f : reg_file) : res journal_tx :=
  let* tx := journal_dirty_blocks tx (rf_private_list f) in
  let* tx :=
    match rf_stage f with
    | [] => Ok tx
    | stxs => let* b := journal_stage_trace (mb tx) stxs in Ok (mk_tx (tid tx) (db tx) b)
    end in
  journal_file_data (rf_get_blocks f) (rf_page f) tx (rf_irds f).

Definition build_tx_from_file (tx : journal_tx) (f : jfile) : res journal_tx :=
  match f with
  | JReg f => build_jtx_regular_file tx f
  | JDir bhs => journal_dirty_blocks tx bhs
  | JSkip => Ok tx
  end.

Fixpoint build_files (tx : journal_tx) (fs : list jfile) : res journal_tx :=
  match fs with
  | [] => Ok tx
  | f :: rest => let* tx := build_tx_from_file tx f in build_files tx rest
  end.

(** Before anything is allocated; [n] allocations happened before. *)
Definition new_data_buf (n : nat) : data_buf := mk_db None [] 0 0 0 0 0 n [] [].

Definition desc_init (b : block) (tx_id : Z) : block :=
  let b := wr 4 (wr 4 b 0 DESC_BLK) 4 tx_id in
  jd_set_nr_stage_trace_blks (jd_set_nr_etag_blks (jd_set_nr_tags b 0) 0) 0.

(** The buffers and the descriptor block; [stale] is what the metadata
    buffer held before.  [None]: no buffer, nothing is built this time. *)
Definition tx_start (tx_id : Z) (stale : Z -> block) (n : nat) : res (option journal_tx) :=
  match df_alloc_buffer n with
  | None => Ok None
  | Some _ =>
      let '(d, ret) := tx_alloc_buffer (new_data_buf (S n)) in
      if negb (ret =? 0) then Ok None
      else
        let* (b, p) := reserve_mdblk (mk_mb stale 0 BUF_BLKS 0 None None) 1 in
        match p with
        | None => Abort
        | Some i =>
            let b := mk_mb (upd (md b) i (desc_init (md b i) tx_id)) (md_cur b) (md_nr_blocks b) i None None in
            Ok (Some (mk_tx tx_id d b))
        end
  end.

(** [build_transaction]: [None] also when there is nothing to commit. *)
Definition build_transaction (tx_id : Z) (stale : Z -> block) (n : nat)
    (sb_blks : list buffer_head) (files : list jfile) (inode_blks : list buffer_head)
  : res (option journal_tx) :=
  let* otx := tx_start tx_id stale n in
  match otx with
  | None => Ok None
  | Some tx =>
      let* tx := snapshot_metadata_blocks tx sb_blks in
      let* tx := build_files tx files in
      let* tx := snapshot_inode_blocks tx inode_blks in
      if (used_blk_cnt (db tx) =? 0) && negb (bool_decide (is_Some (trace_blk (mb tx)))) then Ok None
      else Ok (Some tx)
  end.

(** What the device is told: requests, metadata size, data size, number of
    data buffers. *)
Record commit_msg := mk_commit { cm_reqs : list fetch_req; cm_md_size : Z; cm_data_size : Z; cm_n_bufs : Z }.

Definition request_commit (tx : journal_tx) : commit_msg :=
  let '(d, ret) := request_data_fetch (db tx) in
  let n_bufs := if ret <? 0 then n_df_bufs d - 1 else n_df_bufs d in
  mk_commit (sent d) (u64 (BG_JOURNAL_COMMIT_SIZE - u64 (md_nr_blocks (mb tx) * OXBOW_BLOCK_SIZE)))
    (u64 (used_blk_cnt d * OXBOW_BLOCK_SIZE)) n_bufs.

End build.

(** ** The data stream *)

Lemma BUF_BLKS_eq : BUF_BLKS = 8192.
Proof. reflexivity. Qed.

(** What the data fetcher provides for a transaction of at most [B] blocks that
    begins after [n0] allocations: a buffer for the metadata and one for each
    8192 blocks, the one that is begun included. *)
Class Fetcher (df_alloc_buffer : nat -> option Z) (n0 : nat) (B : Z) : Prop := {
  fe_some k : (n0 <= k)%nat -> Z.of_nat k <= Z.of_nat n0 + 1 + B / 8192 -> is_Some (df_alloc_buffer k);
  fe_max : B < U32_MOD
}.

Section stream.
Context (df_alloc_buffer : nat -> option Z) (n0 : nat) (B : Z) {F : Fetcher df_alloc_buffer n0 B}.

(** All blocks copied so far, full buffers first; [k] blocks at most are in
    the current one. *)
Record db_stream (k : Z) (d : data_buf) (D : list block) : Prop := {
  ds_cur : is_Some (cur d);
  ds_data : concat (fr_data <$> sent d) ++ cur_data d = D;
  ds_full : Forall (fun r => Z.of_nat (length (fr_data r)) = 8192 /\ fr_size r = 4096 * 8192) (sent d);
  ds_ids : fr_req_id <$> sent d = seqz 0 (Z.of_nat (length (sent d)));
  ds_len : Z.of_nat (length (cur_data d)) <= k;
  ds_nr : nr_blocks d = 8192 - Z.of_nat (length (cur_data d));
  ds_used : used_blk_cnt d = Z.of_nat (length D);
  ds_max : Z.of_nat (length D) <= B;
  ds_sent : nr_sent_blks d = 8192 * Z.of_nat (length (sent d));
  ds_bufs : n_df_bufs d = Z.of_nat (length (sent d)) + 1;
  ds_allocs : n_allocs d = (n0 + 2 + length (sent d))%nat
}.

(** Between operations there is room for a block. *)
Notation db_inv := (db_stream 8191).

Lemma length_full_bufs (rs : list fetch_req) :
  Forall (fun r => Z.of_nat (length (fr_data r)) = 8192 /\ fr_size r = 4096 * 8192) rs ->
  Z.of_nat (length (concat (fr_data <$> rs))) = 8192 * Z.of_nat (length rs).
Proof.
  induction 1 as [|r rs [Hr _] _ IH]; [done|]. rewrite fmap_cons. cbn [concat length]. rewrite length_app. lia.
Qed.

Lemma db_stream_length k d D :
  db_stream k d D -> Z.of_nat (length D) = nr_sent_blks d + Z.of_nat (length (cur_data d)).
Proof. intros H. rewrite <- (ds_data _ _ _ H), length_app, Nat2Z.inj_add, length_full_bufs, (ds_sent _ _ _ H); [done|apply H]. Qed.

Lemma request_data_fetch_ok k d D :
  db_stream k d D -> cur_data d <> [] -> k <= 8192 ->
  exists id, cur d = Some id /\
  request_data_fetch d =
    (mk_db (cur d) (cur_data d) (nr_blocks d) (tot_nr_blocks d) (n_df_bufs d) (used_blk_cnt d)
       (used_blk_cnt d) (n_allocs d)
       (sent d ++ [mk_req (Z.of_nat (length (sent d))) id (4096 * Z.of_nat (length (cur_data d))) (cur_data d)])
       (pages_unlocked d), 0).
Proof.
  intros H Hne Hk. pose proof (db_stream_length _ _ _ H) as HL. destruct H as [[id Hc] H1 H2 H3 H4 H5 H6 H7 H8 H9 H10].
  pose proof fe_max as HT. exists id. split; [done|]. unfold request_data_fetch.
  assert (0 < Z.of_nat (length (cur_data d))) by (destruct (cur_data d); cbn; [done|lia]).
  assert (used_blk_cnt d - nr_sent_blks d = Z.of_nat (length (cur_data d))) as -> by lia.
  rewrite u32_id by lia. destruct (Z.eqb_spec (Z.of_nat (length (cur_data d))) 0); [lia|].
  rewrite nblks_to_bytes_eq, u64_id, Hc by lia. cbn [default]. repeat f_equal; lia.
Qed.

Lemma flush_full_ok d D :
  db_stream 8192 d D -> exists d', flush_full df_alloc_buffer d = Ok d' /\ db_inv d' D.
Proof.
  intros H. unfold flush_full. destruct (Z.eqb_spec (nr_blocks d) 0) as [Hz|Hz].
  - assert (Z.of_nat (length (cur_data d)) = 8192) as Hl by (rewrite (ds_nr _ _ _ H) in Hz; lia).
    destruct (request_data_fetch_ok _ _ _ H) as (id & Hc & ->); [by intros E; rewrite E in Hl|done|].
    cbn [assert_ Z.eqb]. unfold tx_alloc_buffer. cbn [n_allocs]. pose proof (db_stream_length _ _ _ H) as HL.
    destruct (fe_some (n_allocs d)) as [i ->].
    { rewrite (ds_allocs _ _ _ H). lia. }
    { rewrite (ds_allocs _ _ _ H). pose proof (ds_max _ _ _ H) as Hm. rewrite (ds_sent _ _ _ H) in HL. Z.div_mod_to_equations. lia. }
    eexists. split; [done|].
    destruct H as [_ H1 H2 H3 H4 H5 H6 H7 H8 H9 H10]. split; cbn; rewrite ?fmap_app, ?concat_app, ?length_app; cbn.
    + done.
    + rewrite !app_nil_r. done.
    + apply Forall_app. split; [done|]. repeat constructor; cbn; lia.
    + rewrite H3. replace (Z.of_nat (length (sent d) + 1)) with (Z.of_nat (length (sent d)) + 1) by lia.
      by rewrite seqz_snoc by lia.
    + lia.
    + rewrite BUF_BLKS_eq. lia.
    + done.
    + done.
    + lia.
    + lia.
    + lia.
  - exists d. split; [done|]. destruct H as [H0 H1 H2 H3 H4 H5 H6 H7 H8 H9 H10]. split; try done. lia.
Qed.

Lemma append_ok d D x :
  db_inv d D -> Z.of_nat (length D) + 1 <= B ->
  exists d', append_blks d [x] = Ok d' /\ db_stream 8192 d' (D ++ [x]) /\ pages_unlocked d' = pages_unlocked d.
Proof.
  intros [[id Hc] H1 H2 H3 H4 H5 H6 H7 H8 H9 H10] Hm. pose proof fe_max as HT. unfold append_blks. rewrite Hc. eexists. split; [done|].
  split; [|done]. cbn [length]. split; cbn; rewrite ?length_app; cbn; try done.
  - by rewrite (assoc_L (++)), H1.
  - lia.
  - rewrite u32_id; lia.
  - rewrite u32_id; lia.
  - lia.
Qed.

Lemma copy_blk_ok d D x :
  db_inv d D -> Z.of_nat (length D) + 1 <= B ->
  exists d', copy_blk df_alloc_buffer d [x] = Ok d' /\ db_inv d' (D ++ [x]).
Proof.
  intros H Hm. unfold copy_blk. cbn [length].
  destruct (Z.ltb_spec (nr_blocks d) (Z.of_nat 1)) as [Hlt|_].
  { rewrite (ds_nr _ _ _ H) in Hlt. pose proof (ds_len _ _ _ H). lia. }
  cbn [negb assert_]. destruct (append_ok d D x H Hm) as (d1 & -> & H1 & _). cbn [res_bind].
  by apply flush_full_ok.
Qed.

Lemma db_stream_unlock k d D p : db_stream k d D -> db_stream k (unlock_page d p) D.
Proof. intros [H0 H1 H2 H3 H4 H5 H6 H7 H8 H9 H10]. by split. Qed.

Lemma copy_data_blks_ok page n : forall d D start,
  db_inv d D -> Z.of_nat (length D + n) <= B ->
  exists d', copy_data_blks df_alloc_buffer d page start n = Ok d' /\
    db_inv d' (D ++ (page <$> seqz start (Z.of_nat n))).
Proof.
  induction n as [|n IH]; intros d D start H Hm; cbn [copy_data_blks].
  - exists d. split; [done|]. by rewrite app_nil_r.
  - destruct (append_ok d D (page start) H) as (d1 & -> & H1 & _); [lia|]. cbn [res_bind].
    destruct (flush_full_ok (unlock_page d1 start) _ (db_stream_unlock _ _ _ _ H1)) as (d2 & -> & H2).
    cbn [res_bind]. destruct (IH d2 (D ++ [page start]) (start + 1) H2) as (d3 & -> & H3).
    { rewrite length_app. cbn. lia. }
    eexists. split; [done|]. rewrite (seqz_cons start) by lia. cbn [fmap list_fmap].
    replace (Z.of_nat (S n) - 1) with (Z.of_nat n) by lia. by rewrite <- (assoc_L (++)) in H3.
Qed.

(** Splitting a range at buffer boundaries does not change the stream. *)
Lemma copy_range_ok page fuel : forall d D start cnt tmp,
  db_inv d D -> 0 <= tmp <= cnt -> cnt - tmp <= Z.of_nat fuel ->
  Z.of_nat (length D) + (cnt - tmp) <= B ->
  exists d', copy_range df_alloc_buffer fuel d page start cnt tmp = Ok d' /\
    db_inv d' (D ++ (page <$> seqz (start + tmp) (cnt - tmp))).
Proof.
  induction fuel as [|fuel IH]; intros d D start cnt tmp H Ht Hf Hm; cbn [copy_range].
  - pose proof (ds_nr _ _ _ H). pose proof (ds_len _ _ _ H).
    destruct (Z.ltb_spec (nr_blocks d) (cnt - tmp)); [lia|]. destruct (Z.ltb_spec tmp cnt); [lia|].
    exists d. split; [done|]. rewrite seqz_nil, app_nil_r by lia. done.
  - pose proof (ds_nr _ _ _ H) as Hn. pose proof (ds_len _ _ _ H).
    destruct (Z.ltb_spec (nr_blocks d) (cnt - tmp)).
    + destruct (copy_data_blks_ok page (Z.to_nat (nr_blocks d)) d D (start + tmp) H) as (d1 & -> & Hd1); [lia|].
      cbn [res_bind]. rewrite Z2Nat.id in Hd1 by lia.
      destruct (IH d1 _ start cnt (tmp + nr_blocks d) Hd1) as (d2 & -> & Hd2); [lia|lia| |].
      { rewrite length_app, length_fmap, length_seqz. lia. }
      eexists. split; [done|]. replace (cnt - tmp) with (nr_blocks d + (cnt - (tmp + nr_blocks d))) by lia.
      rewrite seqz_app, fmap_app, (assoc_L (++)) by lia.
      by replace (start + (tmp + nr_blocks d)) with (start + tmp + nr_blocks d) in Hd2 by lia.
    + destruct (Z.ltb_spec tmp cnt).
      * destruct (copy_data_blks_ok page (Z.to_nat (cnt - tmp)) d D (start + tmp) H) as (d1 & -> & Hd1); [lia|].
        eexists. split; [done|]. by rewrite Z2Nat.id in Hd1 by lia.
      * exists d. split; [done|]. rewrite seqz_nil, app_nil_r by lia. done.
Qed.

End stream.

(** ** Slots of the metadata blocks *)

Lemma rd_etags_wr_ne n' b off n o x :
  block_ok b -> 0 <= off -> off + 12 * n <= 4096 -> 0 <= o -> o + Z.of_nat n' <= 4096 ->
  o + Z.of_nat n' <= off \/ off + 12 * n <= o ->
  rd_etags (wr n' b o x) off n = rd_etags b off n.
Proof.
  intros Hb Ho Hn Ho' Hn' Hd. apply list_fmap_ext. intros i y Hy.
  apply list_elem_of_lookup_2, elem_of_seqz in Hy. unfold rd_etag, etag_size.
  by rewrite !field_ne by (done || lia).
Qed.

Lemma rd_etags_wr_etag b off n start cnt :
  block_ok b -> 0 <= off -> 0 <= n -> off + 12 * (n + 1) <= 4096 ->
  0 <= start < U64_MOD -> 0 <= cnt < U32_MOD ->
  rd_etags (wr_etag b (off + etag_size * n) start cnt) off (n + 1) = rd_etags b off n ++ [mk_etag start cnt].
Proof.
  intros Hb Ho Hn Hm Hs Hc. unfold wr_etag, etag_size. unfold rd_etags at 1. rewrite seqz_snoc, fmap_app by lia. f_equal.
  - change ((fun i : Z => rd_etag (wr 4 (wr 8 b (off + 12 * n) start) (off + 12 * n + 8) cnt) (off + etag_size * i)) <$> seqz 0 n)
      with (rd_etags (wr 4 (wr 8 b (off + 12 * n) start) (off + 12 * n + 8) cnt) off n).
    rewrite !rd_etags_wr_ne by (done || lia || (apply wr_ok; done || lia)). done.
  - cbn [fmap list_fmap]. unfold rd_etag, etag_size. rewrite field_ne, !field_eq by (done || lia || (apply wr_ok; done || lia)). done.
Qed.

Lemma fill_tag_etagblk_ok je start cnt :
  block_ok je -> 0 <= mh_nr je < JOURNAL_ETAG_MAX -> 0 <= start < U64_MOD -> 0 <= cnt < U32_MOD ->
  exists je', fill_tag_etagblk je start cnt = (je', mh_nr je + 1 =? JOURNAL_ETAG_MAX) /\ block_ok je' /\
    mh_nr je' = mh_nr je + 1 /\ mh_blocktype je' = mh_blocktype je /\
    je_tags je' = je_tags je ++ [mk_etag start cnt].
Proof.
  change JOURNAL_ETAG_MAX with 340. intros Hb Hn Hs Hc. unfold fill_tag_etagblk, meta_hdr_size, etag_size.
  set (w := wr_etag je (8 + 12 * mh_nr je) start cnt).
  assert (block_ok w) as Hw by (unfold w, wr_etag; repeat apply wr_ok; done || lia).
  assert (mh_nr (wr 4 w 4 (u32 (mh_nr je + 1))) = mh_nr je + 1) as E.
  { unfold mh_nr at 1. rewrite field_eq by (done || lia || apply u32_range). apply u32_id. lia. }
  change JOURNAL_ETAG_MAX with 340. rewrite E. eexists. split; [reflexivity|]. split_and!.
  - apply wr_ok; [done|lia|lia].
  - exact E.
  - unfold mh_blocktype. rewrite field_ne by (done || lia). unfold w, wr_etag.
    by rewrite !field_ne by (done || lia || (apply wr_ok; done || lia)).
  - unfold je_tags at 1. rewrite E, rd_etags_wr_ne by (unfold meta_hdr_size; done || lia).
    apply rd_etags_wr_etag; unfold meta_hdr_size; done || lia.
Qed.

(** What a write of a tag or header field leaves alone in the descriptor. *)
Lemma fill_tag_descblk_ok jdb start cnt :
  block_ok jdb -> 0 <= jd_nr_tags jdb < JOURNAL_DESC_TAG_MAX -> 0 <= start < U64_MOD -> 0 <= cnt < U32_MOD ->
  exists jdb', fill_tag_descblk jdb start cnt = Ok (jdb', jd_nr_tags jdb + 1 =? JOURNAL_DESC_TAG_MAX) /\
    block_ok jdb' /\ jd_nr_tags jdb' = jd_nr_tags jdb + 1 /\
    jd_nr_etag_blks jdb' = jd_nr_etag_blks jdb /\
    jd_nr_stage_trace_blks jdb' = jd_nr_stage_trace_blks jdb /\
    jd_transaction_id jdb' = jd_transaction_id jdb /\
    jd_tags jdb' = jd_tags jdb ++ [mk_etag start cnt].
Proof.
  change JOURNAL_DESC_TAG_MAX with 339. intros Hb Hn Hs Hc. unfold fill_tag_descblk. change JOURNAL_DESC_TAG_MAX with 339.
  destruct (Z.leb_spec 339 (jd_nr_tags jdb)); [lia|]. cbn [negb assert_]. unfold desc_hdr_size, etag_size.
  set (w := wr_etag jdb (24 + 12 * jd_nr_tags jdb) start cnt).
  assert (block_ok w) as Hw by (unfold w, wr_etag; repeat apply wr_ok; done || lia).
  assert (jd_nr_tags (jd_set_nr_tags w (u32 (jd_nr_tags jdb + 1))) = jd_nr_tags jdb + 1) as E.
  { unfold jd_nr_tags at 1, jd_set_nr_tags. rewrite field_eq by (done || lia || apply u32_range). apply u32_id. lia. }
  rewrite E. eexists. split; [reflexivity|].
  assert (forall o, 0 <= o <= 12 -> rd 4 (jd_set_nr_tags w (u32 (jd_nr_tags jdb + 1))) o = rd 4 jdb o) as Eo.
  { intros o Ho. unfold jd_set_nr_tags. rewrite field_ne by (done || lia). unfold w, wr_etag.
    by rewrite !field_ne by (done || lia || (apply wr_ok; done || lia)). }
  split_and!.
  - apply wr_ok; [done|lia|lia].
  - exact E.
  - apply Eo; lia.
  - apply Eo; lia.
  - apply Eo; lia.
  - unfold jd_tags at 1. rewrite E. unfold jd_set_nr_tags. rewrite rd_etags_wr_ne by (unfold desc_hdr_size; done || lia).
    apply rd_etags_wr_etag; unfold desc_hdr_size; done || lia.
Qed.

Lemma trace_add_ok tb start :
  block_ok tb -> 0 <= mh_nr tb < JOURNAL_TRACE_MAX -> 0 <= start < U64_MOD ->
  block_ok (trace_add tb start) /\ mh_nr (trace_add tb start) = mh_nr tb + 1 /\
  mh_blocktype (trace_add tb start) = mh_blocktype tb /\
  st_tx_list (trace_add tb start) = st_tx_list tb ++ [start].
Proof.
  change JOURNAL_TRACE_MAX with 511. intros Hb Hn Hs. unfold trace_add, meta_hdr_size.
  set (w := wr 8 tb (8 + 8 * mh_nr tb) start).
  assert (block_ok w) as Hw by (unfold w; apply wr_ok; done || lia).
  assert (mh_nr (wr 4 w 4 (u32 (mh_nr tb + 1))) = mh_nr tb + 1) as E.
  { unfold mh_nr at 1. rewrite field_eq by (done || lia || apply u32_range). apply u32_id. lia. }
  split_and!.
  - apply wr_ok; [done|lia|lia].
  - exact E.
  - unfold mh_blocktype. rewrite field_ne by (done || lia). unfold w. by rewrite field_ne by (done || lia).
  - unfold st_tx_list at 1. rewrite E, seqz_snoc, fmap_app by lia. unfold meta_hdr_size. f_equal.
    + apply list_fmap_ext. intros i y Hy. apply list_elem_of_lookup_2, elem_of_seqz in Hy.
      rewrite field_ne by (done || lia). unfold w. by rewrite field_ne by (done || lia).
    + cbn [fmap list_fmap]. rewrite field_ne by (done || lia). unfold w. by rewrite field_eq by (done || lia).
Qed.

Lemma mh_init_ok b ty :
  block_ok b -> 0 <= ty < U32_MOD ->
  block_ok (mh_init b ty) /\ mh_nr (mh_init b ty) = 0 /\ mh_blocktype (mh_init b ty) = ty.
Proof.
  intros Hb Hty. unfold mh_init, mh_nr, mh_blocktype. assert (block_ok (wr 4 b 4 0)) by (apply wr_ok; done || lia).
  rewrite field_ne, !field_eq by (done || lia). split_and!; [apply wr_ok; done || lia|done|done].
Qed.

(** ** Tags and traces in the metadata buffer *)

(** The blocks after the descriptor, and what the device reads from them. *)
Definition md_blks (b : meta_buf) : list block := md b <$> seqz 1 (md_cur b - 1).
Definition tags_of (l : list block) : list etag_t :=
  concat (je_tags <$> filter (fun x => is_stage_trace_blk x = false) l).
Definition traces_of (l : list block) : list Z :=
  concat (st_tx_list <$> filter (fun x => is_stage_trace_blk x = true) l).

(** Number of extent tag blocks for [k] tags. *)
Definition n_etag (k : Z) : Z := if k <? 339 then 0 else 1 + (k - 339) / 340.

(** The extent tag block that takes the next tag. *)
Definition ext_inv (b : meta_buf) (k : Z) : Prop :=
  match ext_blk b with
  | None => k < 339
  | Some e => 339 <= k /\ 1 <= e < md_cur b /\ mh_blocktype (md b e) = ETAG_BLK /\
              mh_nr (md b e) = (k - 339) mod 340 /\
              forall i, e < i < md_cur b -> mh_blocktype (md b i) = STAGE_TRACE_BLK
  end.

(** [x] is the transaction id, [T] the tags and [S] the staged transactions
    recorded so far; the header counts [ne] and [nt] extent tag and trace
    blocks, [cur] blocks are in use. *)
Record mb_core (b : meta_buf) (x : Z) (T : list etag_t) (S : list Z) (nt ne cur : Z) : Prop := {
  mc_desc : desc_blk b = 0;
  mc_ok : forall i, block_ok (md b i);
  mc_cur : md_cur b = cur;
  mc_room : 0 < cur < 8192;
  mc_left : md_nr_blocks b = 8192 - cur;
  mc_id : jd_transaction_id (md b 0) = x;
  mc_etags : jd_nr_etag_blks (md b 0) = ne;
  mc_trace : jd_nr_stage_trace_blks (md b 0) = nt;
  mc_nr : jd_nr_tags (md b 0) = Z.min (Z.of_nat (length T)) 339;
  mc_tags : jd_tags (md b 0) ++ tags_of (md_blks b) = T;
  mc_traces : traces_of (md_blks b) = S;
  mc_kinds : forall i, 1 <= i < cur ->
    mh_blocktype (md b i) = ETAG_BLK \/ mh_blocktype (md b i) = STAGE_TRACE_BLK
}.

Record mb_inv (b : meta_buf) (x : Z) (T : list etag_t) (S : list Z) (nt : Z) : Prop := {
  mi_core : mb_core b x T S nt (n_etag (Z.of_nat (length T))) (1 + n_etag (Z.of_nat (length T)) + nt);
  mi_nt : 0 <= nt;
  mi_ext : ext_inv b (Z.of_nat (length T))
}.

Lemma n_etag_nonneg k : 0 <= n_etag k.
Proof. unfold n_etag. case_cmp; [done|]. Z.div_mod_to_equations. lia. Qed.

Lemma n_etag_mono k k' : k <= k' -> n_etag k <= n_etag k'.
Proof.
  intros. unfold n_etag. repeat case_cmp; try lia; [Z.div_mod_to_equations; lia|].
  pose proof (Z.div_le_mono (k - 339) (k' - 339) 340). lia.
Qed.

Lemma n_etag_step_desc : n_etag 339 = 1.
Proof. reflexivity. Qed.

Lemma n_etag_same k : k + 1 < 339 \/ 339 <= k /\ (k - 339) mod 340 + 1 <> 340 -> n_etag (k + 1) = n_etag k.
Proof.
  intros H. unfold n_etag. repeat case_cmp; try lia. Z.div_mod_to_equations. lia.
Qed.

Lemma n_etag_next k : 339 <= k -> (k - 339) mod 340 + 1 = 340 -> n_etag (k + 1) = n_etag k + 1.
Proof.
  intros H H'. unfold n_etag. repeat case_cmp; try lia. Z.div_mod_to_equations. lia.
Qed.

Lemma fmap_upd_out {A} (f : Z -> A) i x a n :
  i < a \/ a + n <= i -> upd f i x <$> seqz a n = f <$> seqz a n.
Proof.
  intros H. apply list_fmap_ext. intros j y Hy. apply list_elem_of_lookup_2, elem_of_seqz in Hy.
  rewrite upd_ne; [done|lia].
Qed.

Lemma seqz_middle a n e : a <= e < a + n -> seqz a n = seqz a (e - a) ++ e :: seqz (e + 1) (a + n - e - 1).
Proof.
  intros. replace n with ((e - a) + (a + n - e)) at 1 by lia. rewrite seqz_app by lia. f_equal.
  rewrite seqz_cons by lia. repeat f_equal; lia.
Qed.

Lemma tags_of_app l1 l2 : tags_of (l1 ++ l2) = tags_of l1 ++ tags_of l2.
Proof. unfold tags_of. by rewrite filter_app, fmap_app, concat_app. Qed.
Lemma traces_of_app l1 l2 : traces_of (l1 ++ l2) = traces_of l1 ++ traces_of l2.
Proof. unfold traces_of. by rewrite filter_app, fmap_app, concat_app. Qed.

Lemma tags_of_one x : mh_blocktype x = ETAG_BLK -> tags_of [x] = je_tags x /\ traces_of [x] = [].
Proof.
  intros E. unfold tags_of, traces_of. rewrite !filter_cons, !filter_nil. unfold is_stage_trace_blk. rewrite E.
  repeat case_decide; try done. cbn. by rewrite app_nil_r.
Qed.

Lemma traces_of_one x : mh_blocktype x = STAGE_TRACE_BLK -> tags_of [x] = [] /\ traces_of [x] = st_tx_list x.
Proof.
  intros E. unfold tags_of, traces_of. rewrite !filter_cons, !filter_nil. unfold is_stage_trace_blk. rewrite E.
  repeat case_decide; try done. cbn. by rewrite app_nil_r.
Qed.

Lemma tags_of_traces (f : Z -> block) a n :
  (forall i, a <= i < a + n -> mh_blocktype (f i) = STAGE_TRACE_BLK) -> tags_of (f <$> seqz a n) = [].
Proof.
  intros H. assert (forall l, (forall i, i ∈ l -> mh_blocktype (f i) = STAGE_TRACE_BLK) -> tags_of (f <$> l) = []) as Hl.
  { induction l as [|i l IH]; intros Hi; [done|]. rewrite fmap_cons.
    change (tags_of ([f i] ++ (f <$> l)) = []). rewrite tags_of_app.
    destruct (traces_of_one (f i)) as [-> _]; [apply Hi; by left|]. apply IH. intros j Hj. apply Hi. by right. }
  apply Hl. intros i Hi%elem_of_seqz. by apply H.
Qed.

(** The blocks with [e] replaced. *)
Lemma md_blks_set b e x :
  1 <= e < md_cur b ->
  md_blks (set_md b e x) =
    (md b <$> seqz 1 (e - 1)) ++ x :: (md b <$> seqz (e + 1) (md_cur b - e - 1)).
Proof.
  intros He. unfold md_blks. cbn. rewrite (seqz_middle 1 (md_cur b - 1) e), fmap_app, fmap_cons by lia.
  rewrite upd_eq, !fmap_upd_out by lia. repeat f_equal; lia.
Qed.

Lemma md_blks_middle b e :
  1 <= e < md_cur b ->
  md_blks b = (md b <$> seqz 1 (e - 1)) ++ md b e :: (md b <$> seqz (e + 1) (md_cur b - e - 1)).
Proof.
  intros He. unfold md_blks. rewrite (seqz_middle 1 (md_cur b - 1) e), fmap_app, fmap_cons by lia.
  repeat f_equal; lia.
Qed.

(** Only the descriptor changes. *)
Lemma md_blks_desc b x : md_blks (set_md b 0 x) = md_blks b.
Proof. unfold md_blks. cbn. apply fmap_upd_out. lia. Qed.

(** Adding a tag to the current extent tag block. *)
Lemma tags_of_add b e je' t :
  1 <= e < md_cur b -> mh_blocktype (md b e) = ETAG_BLK -> mh_blocktype je' = ETAG_BLK ->
  je_tags je' = je_tags (md b e) ++ [t] ->
  (forall i, e < i < md_cur b -> mh_blocktype (md b i) = STAGE_TRACE_BLK) ->
  tags_of (md_blks (set_md b e je')) = tags_of (md_blks b) ++ [t] /\
  traces_of (md_blks (set_md b e je')) = traces_of (md_blks b).
Proof.
  intros He Hk Hk' Ht Hr. rewrite md_blks_set, (md_blks_middle b e) by done.
  rewrite !(cons_middle _ _ (md b <$> seqz (e + 1) _)), !tags_of_app, !traces_of_app.
  rewrite (tags_of_traces _ (e + 1)) by (intros; apply Hr; lia).
  destruct (tags_of_one _ Hk) as [-> ->]. destruct (tags_of_one _ Hk') as [-> ->].
  rewrite Ht, !app_nil_r. by rewrite (assoc_L (++)).
Qed.

(** Updates of the descriptor's counters. *)
Lemma desc_field_ok b o v :
  block_ok b -> o = 8 \/ o = 12 -> 0 <= v < U32_MOD ->
  block_ok (wr 4 b o v) /\ rd 4 (wr 4 b o v) o = v /\
  (forall o', 0 <= o' <= 20 -> o' + 4 <= o \/ o + 4 <= o' -> rd 4 (wr 4 b o v) o' = rd 4 b o') /\
  (jd_nr_tags b <= 339 -> jd_tags (wr 4 b o v) = jd_tags b).
Proof.
  intros Hb Ho Hv. split_and!.
  - apply wr_ok; [done|lia|lia].
  - apply field_eq; done || lia.
  - intros o' H H'. apply field_ne; done || lia.
  - intros Hn. unfold jd_tags. assert (jd_nr_tags (wr 4 b o v) = jd_nr_tags b) as ->.
    { unfold jd_nr_tags. apply field_ne; done || lia. }
    apply rd_etags_wr_ne; unfold desc_hdr_size; done || lia.
Qed.

Lemma mb_core_ok_set b i y : (forall i, block_ok (md b i)) -> block_ok y -> forall j, block_ok (md (set_md b i y) j).
Proof. intros H Hy j. cbn. unfold upd. by case_cmp. Qed.

Lemma core_set_etags b x T S nt ne cur ne' :
  mb_core b x T S nt ne cur -> 0 <= ne' < U32_MOD ->
  mb_core (set_md b 0 (jd_set_nr_etag_blks (md b 0) ne')) x T S nt ne' cur.
Proof.
  intros [H1 H2 H3 H4 H5 H6 H7 H8 H9 H10 H11 H12] Hn. unfold jd_set_nr_etag_blks.
  destruct (desc_field_ok (md b 0) 8 ne' (H2 0) ltac:(lia) Hn) as (Hb & He & Ho & Ht).
  split; try rewrite md_blks_desc; cbn -[rd wr]; rewrite ?upd_eq; try done.
  - by apply mb_core_ok_set.
  - unfold jd_transaction_id in *. rewrite Ho; [done|lia|lia].
  - unfold jd_nr_stage_trace_blks in *. rewrite Ho; [done|lia|lia].
  - unfold jd_nr_tags in *. rewrite Ho; [done|lia|lia].
  - rewrite Ht by lia. done.
  - intros i Hi. rewrite upd_ne by lia. by apply H12.
Qed.

Lemma core_set_traces b x T S nt ne cur nt' :
  mb_core b x T S nt ne cur -> 0 <= nt' < U32_MOD ->
  mb_core (set_md b 0 (jd_set_nr_stage_trace_blks (md b 0) nt')) x T S nt' ne cur.
Proof.
  intros [H1 H2 H3 H4 H5 H6 H7 H8 H9 H10 H11 H12] Hn. unfold jd_set_nr_stage_trace_blks.
  destruct (desc_field_ok (md b 0) 12 nt' (H2 0) ltac:(lia) Hn) as (Hb & He & Ho & Ht).
  split; try rewrite md_blks_desc; cbn -[rd wr]; rewrite ?upd_eq; try done.
  - by apply mb_core_ok_set.
  - unfold jd_transaction_id in *. rewrite Ho; [done|lia|lia].
  - unfold jd_nr_etag_blks in *. rewrite Ho; [done|lia|lia].
  - unfold jd_nr_tags in *. rewrite Ho; [done|lia|lia].
  - rewrite Ht by lia. done.
  - intros i Hi. rewrite upd_ne by lia. by apply H12.
Qed.

(** The buffer with a fresh block of the given type. *)
Definition grown (b : meta_buf) (ty : Z) : meta_buf :=
  mk_mb (upd (md b) (md_cur b) (mh_init (md b (md_cur b)) ty)) (md_cur b + 1) (md_nr_blocks b - 1)
    (desc_blk b) (ext_blk b) (trace_blk b).

Lemma core_grow b x T S nt ne cur ty :
  mb_core b x T S nt ne cur -> cur + 1 < 8192 -> ty = ETAG_BLK \/ ty = STAGE_TRACE_BLK ->
  mb_core (grown b ty) x T S nt ne (cur + 1) /\
  mh_nr (md (grown b ty) cur) = 0 /\ mh_blocktype (md (grown b ty) cur) = ty /\
  (forall i, i <> cur -> md (grown b ty) i = md b i).
Proof.
  intros [H1 H2 H3 H4 H5 H6 H7 H8 H9 H10 H11 H12] Hc Hty.
  destruct (mh_init_ok (md b cur) ty (H2 cur)) as (Hb & Hn & Hk); [destruct Hty as [-> | ->]; done|].
  assert (md (grown b ty) cur = mh_init (md b cur) ty) as Ec by (cbn; by rewrite H3, upd_eq).
  assert (forall i, i <> cur -> md (grown b ty) i = md b i) as Eo by (intros; cbn; rewrite H3; by apply upd_ne).
  assert (md_blks (grown b ty) = md_blks b ++ [mh_init (md b cur) ty]) as Em.
  { unfold md_blks. cbn -[mh_init]. rewrite H3. replace (cur + 1 - 1) with ((cur - 1) + 1) by lia.
    rewrite seqz_snoc, fmap_app, fmap_upd_out by lia. cbn -[mh_init].
    replace (1 + (cur - 1)) with cur by lia. by rewrite upd_eq. }
  assert (tags_of [mh_init (md b cur) ty] = [] /\ traces_of [mh_init (md b cur) ty] = []) as [Et Es].
  { destruct Hty as [-> | ->].
    - destruct (tags_of_one _ Hk) as [-> ->]. split; [|done]. unfold je_tags, rd_etags. by rewrite Hn.
    - destruct (traces_of_one _ Hk) as [-> ->]. split; [done|]. unfold st_tx_list. by rewrite Hn. }
  rewrite Ec. split_and!; try done.
  split; rewrite ?Em, ?tags_of_app, ?traces_of_app, ?Et, ?Es, ?app_nil_r, ?(Eo 0) by lia; try done.
  - intros i. destruct (decide (i = cur)) as [->|]; [by rewrite Ec|by rewrite Eo].
  - cbn. by rewrite H3.
  - lia.
  - cbn. lia.
  - intros i Hi. destruct (decide (i = cur)) as [->|]; [|rewrite Eo by done; apply H12; lia].
    rewrite Ec, Hk. destruct Hty as [-> | ->]; auto.
Qed.

Lemma reserve_ok b x T S nt ne cur :
  mb_core b x T S nt ne cur -> cur + 1 < 8192 ->
  reserve_mdblk b 1 = Ok (mk_mb (md b) (md_cur b + 1) (md_nr_blocks b - 1)
                            (desc_blk b) (ext_blk b) (trace_blk b), Some cur).
Proof.
  intros H Hc. unfold reserve_mdblk. rewrite (mc_left _ _ _ _ _ _ _ H), (mc_cur _ _ _ _ _ _ _ H).
  pose proof (mc_room _ _ _ _ _ _ _ H).
  destruct (Z.ltb_spec (8192 - cur) 1); [lia|]. cbn [negb assert_ md_nr_blocks]. rewrite u32_id by lia.
  destruct (Z.eqb_spec (8192 - cur - 1) 0); [lia|done].
Qed.

Lemma new_etag_blk_ok b x T S nt ne cur :
  mb_core b x T S nt ne cur -> cur + 1 < 8192 ->
  new_etag_blk b = Ok (set_ext_blk (grown b ETAG_BLK) (Some cur)).
Proof.
  intros H Hc. unfold new_etag_blk. rewrite (reserve_ok _ _ _ _ _ _ _ H Hc). cbn [res_bind].
  unfold set_ext_blk, set_md, grown. cbn. by rewrite (mc_cur _ _ _ _ _ _ _ H).
Qed.

Lemma core_set_ext b x T S nt ne cur e :
  mb_core b x T S nt ne cur -> mb_core (set_ext_blk b e) x T S nt ne cur.
Proof. intros [H1 H2 H3 H4 H5 H6 H7 H8 H9 H10 H11 H12]. by split. Qed.

Lemma core_set_trace b x T S nt ne cur t :
  mb_core b x T S nt ne cur -> mb_core (set_trace_blk b t) x T S nt ne cur.
Proof. intros [H1 H2 H3 H4 H5 H6 H7 H8 H9 H10 H11 H12]. by split. Qed.

(** The tag list is full of extents after [k] tags: a fresh block. *)
Lemma grow_etag_inv b x T S nt k ne cur :
  Z.of_nat (length T) = k -> mb_core b x T S nt ne cur ->
  ne = n_etag k -> cur = n_etag k + nt -> 0 <= nt -> 339 <= k -> (k - 339) mod 340 = 0 ->
  1 + n_etag k + nt < 8192 ->
  exists b', new_etag_blk b = Ok b' /\ mb_inv b' x T S nt /\ trace_blk b' = trace_blk b.
Proof.
  intros Ek H -> -> Hnt Hk Hm Hc. eexists. split; [apply (new_etag_blk_ok _ _ _ _ _ _ _ H); lia|]. split; [|done].
  destruct (core_grow _ _ _ _ _ _ _ ETAG_BLK H) as (Hg & Hn & Hty & _); [lia|by left|].
  split; rewrite ?Ek; [|done|].
  - apply core_set_ext. by replace (1 + n_etag k + nt) with (n_etag k + nt + 1) by lia.
  - unfold ext_inv. cbn -[grown]. rewrite (mc_cur _ _ _ _ _ _ _ Hg). split_and!; try lia; try done.
    pose proof (mc_room _ _ _ _ _ _ _ H). lia.
Qed.

Lemma fill_tagblk_ok b x T S nt start cnt :
  mb_inv b x T S nt -> 0 <= start < U64_MOD -> 0 <= cnt < U32_MOD ->
  1 + n_etag (Z.of_nat (length T) + 1) + nt < 8192 ->
  exists b', fill_tagblk b start cnt = Ok b' /\ mb_inv b' x (T ++ [mk_etag start cnt]) S nt /\
    trace_blk b' = trace_blk b.
Proof.
  intros [Hcore Hnt Hext] Hs Hc Hroom. pose proof Hcore as [H1 H2 H3 H4 H5 H6 H7 H8 H9 H10 H11 H12].
  set (k := Z.of_nat (length T)) in *. set (t := mk_etag start cnt).
  assert (Z.of_nat (length (T ++ [t])) = k + 1) as Ek by (rewrite length_app; cbn; lia).
  unfold fill_tagblk. unfold ext_inv in Hext. destruct (ext_blk b) as [e|] eqn:Ee.
  - destruct Hext as (Hk & He & Hty & Hn & Hr). pose proof (Z.mod_pos_bound (k - 339) 340 ltac:(lia)) as Hmb.
    destruct (fill_tag_etagblk_ok (md b e) start cnt (H2 e)) as (je & -> & Hb & Hnr & Hk' & Ht);
      [change JOURNAL_ETAG_MAX with 340; lia|done|done|].
    change JOURNAL_ETAG_MAX with 340.
    destruct (tags_of_add b e je t He Hty ltac:(congruence) Ht Hr) as [Et Etr].
    assert (mb_core (set_md b e je) x (T ++ [t]) S nt (n_etag k) (1 + n_etag k + nt)) as Hc1.
    { split; cbn -[rd wr]; rewrite ?upd_ne by lia; try done.
      - by apply mb_core_ok_set.
      - rewrite Ek, H9. lia.
      - rewrite Et, (assoc_L (++)). by rewrite H10.
      - by rewrite Etr.
      - intros i Hi. unfold upd. destruct (Z.eqb_spec i e); [left; congruence|by apply H12]. }
    rewrite Hn in *. destruct (Z.eqb_spec ((k - 339) mod 340 + 1) 340) as [Hfull|Hfull].
    + cbn [desc_blk set_md md]. rewrite H1. rewrite (upd_ne _ e 0) by lia. rewrite H7.
      rewrite n_etag_next in Hroom by done. pose proof (n_etag_nonneg k).
      pose proof (core_set_etags _ _ _ _ _ _ _ (n_etag k + 1) Hc1 ltac:(lia)) as Hc2.
      cbn [md set_md] in Hc2. rewrite (upd_ne _ e 0) in Hc2 by lia. rewrite u32_id by lia.
      destruct (grow_etag_inv _ _ _ _ nt (k + 1) _ _ Ek Hc2) as (b' & E & Hi & Htb);
        rewrite ?n_etag_next by done; try done; try lia; [Z.div_mod_to_equations; lia|].
      exists b'. by rewrite E.
    + eexists. split; [done|]. split; [|done]. split; rewrite ?Ek, ?n_etag_same by auto; try done.
      unfold ext_inv. cbn [ext_blk set_md md md_cur]. rewrite Ee, upd_eq. split_and!; try lia.
      * rewrite Hnr. Z.div_mod_to_equations. lia.
      * intros i Hi. rewrite upd_ne by lia. by apply Hr.
  - rewrite H1. rewrite Z.min_l in H9 by lia.
    assert (n_etag k = 0) as En by (unfold n_etag; case_cmp; lia).
    destruct (fill_tag_descblk_ok (md b 0) start cnt (H2 0)) as (jdb & -> & Hb & Hnr & He & Htr & Hid & Ht);
      [change JOURNAL_DESC_TAG_MAX with 339; lia|done|done|].
    change JOURNAL_DESC_TAG_MAX with 339. rewrite H9 in *. cbn [res_bind].
    assert (mb_core (set_md b 0 jdb) x (T ++ [t]) S nt (n_etag k) (1 + n_etag k + nt)) as Hc1.
    { split; rewrite ?md_blks_desc; cbn -[rd wr]; rewrite ?upd_eq; try done; try congruence.
      - by apply mb_core_ok_set.
      - rewrite Ek, Hnr. lia.
      - rewrite Ht, <- H10. assert (tags_of (md_blks b) = []) as ->; [|by rewrite !app_nil_r].
        apply (f_equal length) in H10. rewrite length_app in H10.
        assert (length (jd_tags (md b 0)) = length T) as El
          by (unfold jd_tags, rd_etags; rewrite length_fmap, length_seqz, H9; lia).
        destruct (tags_of (md_blks b)); [done|cbn in H10; lia].
      - intros i Hi. rewrite upd_ne by lia. by apply H12. }
    destruct (Z.eqb_spec (k + 1) 339) as [Hfull|Hfull].
    + assert (n_etag (k + 1) = 1) as En' by (by rewrite Hfull). rewrite En' in Hroom.
      pose proof (core_set_etags _ _ _ _ _ _ _ 1 Hc1 ltac:(lia)) as Hc2. cbn [desc_blk set_md]. rewrite H1.
      destruct (grow_etag_inv _ _ _ _ nt (k + 1) _ _ Ek Hc2) as (b' & E & Hi & Htb);
        rewrite ?En'; try done; try lia; [by rewrite Hfull|]. exists b'. by rewrite E.
    + eexists. split; [done|]. split; [|done]. split; rewrite ?Ek, ?n_etag_same by lia; try done.
      unfold ext_inv. cbn. rewrite Ee. lia.
Qed.

(** The trace block being filled is the last one in use. *)
Record trace_open (b : meta_buf) (r : Z) : Prop := {
  to_last : trace_blk b = Some (md_cur b - 1);
  to_kind : mh_blocktype (md b (md_cur b - 1)) = STAGE_TRACE_BLK;
  to_nr : mh_nr (md b (md_cur b - 1)) = r
}.

Lemma new_trace_blk_ok b x T S nt :
  mb_inv b x T S nt -> 1 + n_etag (Z.of_nat (length T)) + (nt + 1) < 8192 ->
  exists b', new_trace_blk b = Ok b' /\ mb_inv b' x T S (nt + 1) /\ trace_open b' 0.
Proof.
  intros [Hc Hnt He] Hroom. set (k := Z.of_nat (length T)) in *. set (cur := 1 + n_etag k + nt) in *.
  destruct (core_grow _ _ _ _ _ _ _ STAGE_TRACE_BLK Hc) as (Hg & Hn & Hty & Ho); [lia|by right|].
  pose proof (mc_room _ _ _ _ _ _ _ Hc) as Hr. pose proof (n_etag_nonneg k).
  set (g := set_trace_blk (grown b STAGE_TRACE_BLK) (Some cur)).
  assert (new_trace_blk b = Ok (set_md g 0 (jd_set_nr_stage_trace_blks (md g 0) (nt + 1)))) as ->.
  { unfold new_trace_blk. rewrite (reserve_ok _ _ _ _ _ _ _ Hc) by lia. cbn [res_bind].
    unfold set_trace_blk, set_md. cbn [desc_blk md md_cur md_nr_blocks ext_blk trace_blk].
    rewrite (mc_desc _ _ _ _ _ _ _ Hc), (upd_ne _ cur 0), (mc_trace _ _ _ _ _ _ _ Hc), u32_id by lia.
    unfold g, grown, set_trace_blk. cbn [desc_blk md md_cur md_nr_blocks ext_blk trace_blk].
    by rewrite (mc_cur _ _ _ _ _ _ _ Hc), (mc_desc _ _ _ _ _ _ _ Hc), (upd_ne _ cur 0) by lia. }
  eexists. split; [done|].
  pose proof (core_set_traces _ _ _ _ _ _ _ (nt + 1) (core_set_trace _ _ _ _ _ _ _ (Some cur) Hg) ltac:(lia)) as Hc'.
  fold g in Hc'. split.
  - split; fold k; [|lia|].
    + by replace (1 + n_etag k + (nt + 1)) with (cur + 1) by (unfold cur; lia).
    + unfold ext_inv in *. cbn [ext_blk set_md g grown set_trace_blk md_cur md].
      rewrite (mc_cur _ _ _ _ _ _ _ Hc) in *. destruct (ext_blk b) as [e|]; [|done].
      destruct He as (H1 & H2 & H3 & H4 & H5). rewrite (upd_ne _ 0 e), (upd_ne _ cur e) by lia.
      split_and!; try done; try lia. intros i Hi. rewrite upd_ne by lia.
      destruct (decide (i = cur)) as [->|]; [|rewrite upd_ne by done; apply H5; lia].
      rewrite upd_eq. cbn [md grown] in Hty. rewrite (mc_cur _ _ _ _ _ _ _ Hc), upd_eq in Hty. done.
  - assert (md_cur (set_md g 0 (jd_set_nr_stage_trace_blks (md g 0) (nt + 1))) - 1 = cur) as E.
    { cbn. rewrite (mc_cur _ _ _ _ _ _ _ Hc). lia. }
    split; rewrite E; [done|..]; cbn [md set_md]; rewrite upd_ne by lia; done.
Qed.

Lemma trace_add_inv b x T S nt r start :
  mb_inv b x T S nt -> trace_open b r -> 0 < nt -> 0 <= r < 511 -> 0 <= start < U64_MOD ->
  let t := md_cur b - 1 in
  mb_inv (set_md b t (trace_add (md b t) start)) x T (S ++ [start]) nt /\
  trace_open (set_md b t (trace_add (md b t) start)) (r + 1).
Proof.
  intros [Hc Hnt He] [T1 T2 T3] Hnt' Hr Hs t. pose proof Hc as [H1 H2 H3 H4 H5 H6 H7 H8 H9 H10 H11 H12].
  destruct (trace_add_ok (md b t) start (H2 t)) as (Hb & Hn & Hk & Ht);
    [change JOURNAL_TRACE_MAX with 511; unfold t; lia|done|].
  set (k := Z.of_nat (length T)) in *. pose proof (n_etag_nonneg k).
  assert (1 <= t < md_cur b) as Hrange by (unfold t; lia).
  assert (tags_of (md_blks (set_md b t (trace_add (md b t) start))) = tags_of (md_blks b) /\
          traces_of (md_blks (set_md b t (trace_add (md b t) start))) = traces_of (md_blks b) ++ [start]) as [E1 E2].
  { rewrite md_blks_set, (md_blks_middle b t) by done. rewrite (seqz_nil (t + 1)) by (unfold t; lia).
    rewrite !tags_of_app, !traces_of_app. unfold fmap at 2 4 6 8; cbn [list_fmap].
    destruct (traces_of_one (md b t) T2) as [-> ->].
    destruct (traces_of_one (trace_add (md b t) start)) as [-> ->]; [by rewrite Hk|].
    rewrite Ht, (assoc_L (++)). done. }
  split.
  - split; [|done|].
    + split; cbn -[rd wr trace_add]; rewrite ?E1, ?E2, ?upd_ne by lia; try done.
      * by apply mb_core_ok_set.
      * by rewrite H11.
      * intros i Hi. unfold upd. destruct (Z.eqb_spec i t) as [->|]; [right; by rewrite Hk|by apply H12].
    + unfold ext_inv in *. cbn [ext_blk set_md md md_cur]. fold k in He |- *. destruct (ext_blk b) as [e|]; [|done].
      destruct He as (G1 & G2 & G3 & G4 & G5).
      assert (e <> t) as Hne by (intros ->; unfold t in *; rewrite T2 in G3; discriminate G3).
      rewrite upd_ne by done. split_and!; try done; try lia. intros i Hi. unfold upd.
      destruct (Z.eqb_spec i t) as [->|]; [by rewrite Hk|apply G5; lia].
  - split; cbn [trace_blk md_cur set_md md]; fold t; rewrite ?upd_eq; [done|by rewrite Hk|]. unfold t in *; lia.
Qed.

(** Number of trace blocks for [k > 0] staged transactions. *)
Definition n_trace (k : Z) : Z := 1 + (k - 1) / 511.

Lemma trace_loop_ok x T es : forall b S nt r,
  mb_inv b x T S nt -> trace_open b r -> 0 < nt -> 0 <= r < 511 -> es <> [] ->
  Forall (fun s => 0 <= s < U64_MOD) es ->
  1 + n_etag (Z.of_nat (length T)) + (nt + (r + Z.of_nat (length es) - 1) / 511) < 8192 ->
  exists b', trace_loop b es = Ok b' /\
    mb_inv b' x T (S ++ es) (nt + (r + Z.of_nat (length es) - 1) / 511) /\ is_Some (trace_blk b').
Proof.
  induction es as [|s rest IH]; intros b S nt r Hi Ho Hnt Hr Hne Hv Hroom; [done|].
  apply Forall_cons in Hv as [Hs Hv]. cbn [trace_loop]. rewrite (to_last _ _ Ho).
  destruct (trace_add_inv _ _ _ _ _ _ s Hi Ho Hnt Hr Hs) as [Hi' Ho'].
  set (b1 := set_md b (md_cur b - 1) (trace_add (md b (md_cur b - 1)) s)) in *.
  destruct rest as [|s' rest].
  - exists b1. cbn [length]. replace (r + Z.of_nat 1 - 1) with r by lia. rewrite Z.div_small, Z.add_0_r by lia.
    split; [done|]. split; [done|]. rewrite (to_last _ _ Ho'). done.
  - pose proof (to_nr _ _ Ho') as Hn. cbn [md_cur b1 set_md] in Hn. fold b1 in Hn. rewrite Hn.
    change JOURNAL_TRACE_MAX with 511. cbn [length] in *.
    destruct (Z.eqb_spec (r + 1) 511) as [Hfull|Hfull].
    + assert ((r + Z.of_nat (Datatypes.S (Datatypes.S (length rest))) - 1) / 511 =
              1 + (0 + Z.of_nat (Datatypes.S (length rest)) - 1) / 511) as Ed by (Z.div_mod_to_equations; lia).
      rewrite Ed in *.
      destruct (new_trace_blk_ok b1 x T (S ++ [s]) nt Hi') as (b2 & -> & Hi2 & Ho2).
      { Z.div_mod_to_equations. lia. }
      cbn [res_bind].
      destruct (IH b2 (S ++ [s]) (nt + 1) 0 Hi2 Ho2) as (b3 & E & Hi3 & Ht3); [lia|lia|done|done|lia|].
      exists b3. split; [done|]. split; [|done]. rewrite <- (assoc_L (++)) in Hi3. by rewrite Z.add_assoc.
    + assert (r + Z.of_nat (Datatypes.S (Datatypes.S (length rest))) - 1 =
              (r + 1) + Z.of_nat (Datatypes.S (length rest)) - 1) as Ed by lia.
      rewrite Ed in *.
      destruct (IH b1 (S ++ [s]) nt (r + 1) Hi' Ho') as (b3 & E & Hi3 & Ht3); [lia|lia|done|done|lia|].
      exists b3. split; [done|]. split; [|done]. by rewrite <- (assoc_L (++)) in Hi3.
Qed.

Lemma journal_stage_trace_ok b x T S nt es :
  mb_inv b x T S nt -> es <> [] -> Forall (fun s => 0 <= s < U64_MOD) es ->
  1 + n_etag (Z.of_nat (length T)) + (nt + n_trace (Z.of_nat (length es))) < 8192 ->
  exists b', journal_stage_trace b es = Ok b' /\
    mb_inv b' x T (S ++ es) (nt + n_trace (Z.of_nat (length es))) /\ is_Some (trace_blk b').
Proof.
  intros Hi Hne Hv Hroom. unfold n_trace in *. unfold journal_stage_trace.
  assert (0 < Z.of_nat (length es)) by (destruct es; cbn; [done|lia]).
  destruct (new_trace_blk_ok b x T S nt Hi) as (b1 & -> & Hi1 & Ho1); [Z.div_mod_to_equations; lia|].
  cbn [res_bind]. rewrite Z.add_assoc in *.
  pose proof (mi_nt _ _ _ _ _ Hi).
  apply (trace_loop_ok x T es b1 S (nt + 1) 0); try done; rewrite ?Z.add_0_l; lia.
Qed.

(** ** Tags of file data *)

(** Home block of page [p] according to the file index. *)
Definition lba_of (get_blocks : Z -> option buffer_extent) (p : Z) : Z :=
  match get_blocks p with Some be => be_lba be + p - be_iblock be | None => 0 end.

(** What the journal expects of a file index on the pages [dom]: it finds an
    extent that covers the page and agrees with itself. *)
Class FileMap (get_blocks : Z -> option buffer_extent) (dom : Z -> Prop) : Prop := {
  fm_get p : dom p -> exists be, get_blocks p = Some be /\
    0 <= be_iblock be <= p /\ p < be_iblock be + be_nr be < U64_MOD;
  fm_lba p q be : dom p -> dom q -> get_blocks p = Some be ->
    be_iblock be <= q < be_iblock be + be_nr be -> lba_of get_blocks q = be_lba be + q - be_iblock be;
  fm_range p : dom p -> 0 <= lba_of get_blocks p < U64_MOD
}.

Definition tag_blks (t : etag_t) : list Z := seqz (et_start t) (et_cnt t).
Definition lbas (T : list etag_t) : list Z := concat (tag_blks <$> T).

Lemma lbas_app T1 T2 : lbas (T1 ++ T2) = lbas T1 ++ lbas T2.
Proof. unfold lbas. by rewrite fmap_app, concat_app. Qed.
Lemma lbas_one t : lbas [t] = tag_blks t.
Proof. unfold lbas. cbn. apply app_nil_r. Qed.

(** Tags that name at least one block. *)
Definition tag_valid (t : etag_t) : Prop := etag_ok t /\ 0 < et_cnt t.

Lemma extent_tag gb dom `{!FileMap gb dom} be start n :
  gb start = Some be -> 0 < n -> start + n <= be_iblock be + be_nr be -> be_iblock be <= start ->
  (forall p, start <= p < start + n -> dom p) ->
  tag_blks (mk_etag (be_lba be + start - be_iblock be) n) = lba_of gb <$> seqz start n.
Proof.
  intros Hb Hn He Hs Hd. unfold tag_blks; cbn. apply list_eq. intros i.
  destruct (decide (Z.of_nat i < n)).
  - rewrite list_lookup_fmap, !lookup_seqz by done. cbn. f_equal.
    rewrite (fm_lba start (start + Z.of_nat i) be); [lia|apply Hd; lia|apply Hd; lia|done|lia].
  - rewrite !lookup_ge_None_2; [done|rewrite length_fmap, length_seqz; lia|rewrite length_seqz; lia].
Qed.

(** Tags of a range, for a writer of tags that keeps the invariant [P] of the
    tags written so far, up to [N] tags. *)
Lemma tag_range_ok {B} (wrtag : B -> Z -> Z -> res B) (P : B -> list etag_t -> Prop) N gb dom `{!FileMap gb dom} :
  (forall b T lba n, P b T -> 0 <= lba < U64_MOD -> 0 <= n < U32_MOD -> Z.of_nat (length T) + 1 <= N ->
     exists b', wrtag b lba n = Ok b' /\ P b' (T ++ [mk_etag lba n])) ->
  forall fuel b T start cnt,
  P b T -> 0 < cnt <= Z.of_nat fuel -> cnt < U32_MOD -> 0 <= start ->
  start + cnt < 9223372036854775808 -> (forall p, start <= p < start + cnt -> dom p) ->
  Z.of_nat (length T) + cnt <= N ->
  exists b' T', tag_range wrtag fuel gb b start cnt = Ok (b', true) /\ P b' (T ++ T') /\
    lbas T' = lba_of gb <$> seqz start cnt /\ Z.of_nat (length T') <= cnt /\ Forall tag_valid T'.
Proof.
  intros Hstep. induction fuel as [|fuel IH]; intros b T start cnt Hi Hc Hc' Hs Hm Hd HN; [lia|].
  cbn [tag_range]. destruct (fm_get start (Hd start ltac:(lia))) as (be & Hbe & Hb1 & Hb2). rewrite Hbe.
  assert (lba_of gb start = be_lba be + start - be_iblock be) as El by (unfold lba_of; by rewrite Hbe).
  pose proof (fm_range start (Hd start ltac:(lia))) as Hl. rewrite El in Hl.
  rewrite (u64_id (be_iblock be + be_nr be)), (u64_id (be_lba be + start - be_iblock be)), (u64_id (start + cnt)) by lia.
  set (lba := be_lba be + start - be_iblock be) in *.
  destruct (Z.leb_spec (start + cnt) (be_iblock be + be_nr be)).
  - rewrite u32_id by lia. destruct (Hstep b T lba cnt Hi) as (b' & -> & Hi'); [lia..|].
    exists b', [mk_etag lba cnt]. cbn [res_bind]. split_and!; try done.
    + rewrite lbas_one. apply (extent_tag gb dom be); try done; lia.
    + cbn. lia.
    + repeat constructor; cbn; lia.
  - destruct (Z.ltb_spec start (be_iblock be + be_nr be)); [|lia].
    set (tmp := be_iblock be + be_nr be - start) in *. rewrite (u64_id tmp), (u32_id tmp) by (unfold tmp; lia).
    destruct (Hstep b T lba tmp Hi) as (b1 & -> & Hi1); [unfold tmp in *; lia..|].
    cbn [res_bind]. rewrite (u64_id (cnt - tmp)), (u64_id (start + tmp)) by (unfold tmp in *; lia).
    destruct (Z.eqb_spec (cnt - tmp) 0); [unfold tmp in *; lia|].
    assert (s64 (cnt - tmp) = cnt - tmp) as -> by (unfold s64; rewrite Z.mod_small by (unfold tmp in *; lia); case_cmp; unfold tmp in *; lia).
    destruct (Z.ltb_spec (cnt - tmp) 0); [unfold tmp in *; lia|]. cbn [negb assert_].
    destruct (IH b1 (T ++ [mk_etag lba tmp]) (start + tmp) (cnt - tmp) Hi1) as (b' & T' & -> & Hi' & HT & Hlen & Hv);
      try (rewrite ?length_app; cbn [length]; unfold tmp in *; lia).
    { intros p Hp. apply Hd. unfold tmp in *. lia. }
    exists b', (mk_etag lba tmp :: T'). split; [done|]. rewrite <- (assoc_L (++)) in Hi'. split_and!; try done.
    + change (mk_etag lba tmp :: T') with ([mk_etag lba tmp] ++ T'). rewrite lbas_app, lbas_one, HT.
      assert (tag_blks (mk_etag lba tmp) = lba_of gb <$> seqz start tmp) as ->.
      { apply (extent_tag gb dom be); try done; try (unfold tmp in *; lia). intros; apply Hd; unfold tmp in *; lia. }
      rewrite <- fmap_app, <- seqz_app by (unfold tmp in *; lia). do 2 f_equal. lia.
    + cbn. unfold tmp in *. lia.
    + constructor; [|done]. split; [split|]; cbn; unfold tmp in *; lia.
Qed.

Lemma fill_range_ok gb dom `{!FileMap gb dom} x S nt fuel b T start cnt :
  mb_inv b x T S nt -> 0 < cnt <= Z.of_nat fuel -> cnt < U32_MOD -> 0 <= start ->
  start + cnt < 9223372036854775808 -> (forall p, start <= p < start + cnt -> dom p) ->
  1 + n_etag (Z.of_nat (length T) + cnt) + nt < 8192 ->
  exists b' T', fill_range fuel gb b start cnt = Ok (b', true) /\ mb_inv b' x (T ++ T') S nt /\
    lbas T' = lba_of gb <$> seqz start cnt /\ Z.of_nat (length T') <= cnt /\
    Forall tag_valid T' /\ trace_blk b' = trace_blk b.
Proof.
  intros Hi Hc Hc' Hs Hm Hd Hroom. unfold fill_range.
  destruct (tag_range_ok fill_tagblk (fun b' T' => mb_inv b' x T' S nt /\ trace_blk b' = trace_blk b)
              (Z.of_nat (length T) + cnt) gb dom) with (fuel := fuel) (b := b) (T := T) (start := start) (cnt := cnt)
    as (b' & T' & E & [Hi' Ht] & HT & Hlen & Hv); try done.
  - intros b1 T1 lba n [H1 H2] Hlba Hn HN. destruct (fill_tagblk_ok b1 x T1 S nt lba n H1) as (b2 & E & H3 & H4); [done|done| |].
    { pose proof (n_etag_mono (Z.of_nat (length T1) + 1) (Z.of_nat (length T) + cnt) HN). lia. }
    exists b2. split; [done|]. split; [done|congruence].
  - by exists b', T'.
Qed.

(** ** The writes of a transaction

    Every block the transaction carries with its home address, in order. *)

Definition bh_write (bh : buffer_head) : Z * block := (b_blocknr bh, b_data bh).
Definition dirty_writes (bhs : list buffer_head) : list (Z * block) :=
  bh_write <$> filter (fun bh => b_dirty bh = true) bhs.
Definition range_writes (f : reg_file) (r : Z * Z) : list (Z * block) :=
  (fun p => (lba_of (rf_get_blocks f) p, rf_page f p)) <$> seqz r.1 r.2.

(** The dirty ranges that are visited. *)
Fixpoint ird_chain (irds : list (list (Z * Z))) : list (Z * Z) :=
  match irds with
  | [] => []
  | ird :: next => ird ++ match next with (_ :: _) :: _ => ird_chain next | _ => [] end
  end.

Definition reg_writes (f : reg_file) : list (Z * block) :=
  dirty_writes (rf_private_list f) ++ concat (range_writes f <$> ird_chain (rf_irds f)).

Definition file_writes (f : jfile) : list (Z * block) :=
  match f with JReg f => reg_writes f | JDir bhs => dirty_writes bhs | JSkip => [] end.
Definition file_stage (f : jfile) : list Z := match f with JReg f => rf_stage f | _ => [] end.
Definition file_traces (f : jfile) : Z :=
  match file_stage f with [] => 0 | es => n_trace (Z.of_nat (length es)) end.

(** Well-formed input. *)
Definition bh_ok (bh : buffer_head) : Prop := 0 <= b_blocknr bh < U64_MOD.
Definition range_ok (f : reg_file) (r : Z * Z) : Prop :=
  0 <= r.1 /\ 0 <= r.2 < U32_MOD /\ r.1 + r.2 < 9223372036854775808.
Record reg_ok (f : reg_file) : Prop := {
  ro_bhs : Forall bh_ok (rf_private_list f);
  ro_stage : Forall (fun s => 0 <= s < U64_MOD) (rf_stage f);
  ro_ranges : Forall (range_ok f) (ird_chain (rf_irds f));
  ro_map : FileMap (rf_get_blocks f) (fun p => exists r, r ∈ ird_chain (rf_irds f) /\ r.1 <= p < r.1 + r.2)
}.
Definition jfile_ok (f : jfile) : Prop :=
  match f with JReg f => reg_ok f | JDir bhs => Forall bh_ok bhs | JSkip => True end.

(** Room for [w] blocks with [nt] trace blocks: their number fits 32 bits, and
    their tags and traces fit the metadata buffer. *)
Definition room (w nt : Z) : Prop := w < U32_MOD /\ 1 + n_etag w + nt < 8192.

Definition files_writes (fs : list jfile) : list (Z * block) := concat (file_writes <$> fs).
Definition files_stage (fs : list jfile) : list Z := concat (file_stage <$> fs).

Section build_ok.
Context (df_alloc_buffer : nat -> option Z) (n0 : nat) (B : Z) {F : Fetcher df_alloc_buffer n0 B}.

(** Room for [w] of the blocks of the transaction. *)
Definition part_room (w nt : Z) : Prop := w <= B /\ 1 + n_etag w + nt < 8192.

Record tx_inv (tx : journal_tx) (x : Z) (W : list (Z * block)) (S : list Z) (nt : Z) : Prop := {
  ti_db : db_stream n0 B 8191 (db tx) W.*2;
  ti_mb : exists T, mb_inv (mb tx) x T S nt /\ lbas T = W.*1 /\
            (length T <= length W)%nat /\ Forall tag_valid T;
  ti_trace : is_Some (trace_blk (mb tx)) <-> S <> []
}.

Lemma room_mono w w' nt nt' : part_room w' nt' -> w <= w' -> nt <= nt' -> part_room w nt.
Proof. intros [H1 H2] Hw Hn. pose proof (n_etag_mono w w' Hw). split; lia. Qed.

Lemma journal_bh_ok tx x W S nt bh :
  tx_inv tx x W S nt -> bh_ok bh -> part_room (Z.of_nat (length W) + 1) nt ->
  exists tx', journal_bh df_alloc_buffer tx bh = Ok tx' /\ tx_inv tx' x (W ++ [bh_write bh]) S nt.
Proof.
  intros [Hd (T & Hm & HT & Hl & Hv) Htr] Hb Hr. unfold journal_bh.
  destruct (copy_blk_ok df_alloc_buffer n0 B _ _ (b_data bh) Hd) as (d' & -> & Hd'); [rewrite length_fmap; apply Hr|].
  cbn [res_bind].
  destruct (fill_tagblk_ok _ x T S nt (b_blocknr bh) 1 Hm) as (b' & -> & Hm' & Htb); [done|done| |].
  { pose proof (n_etag_mono (Z.of_nat (length T) + 1) (Z.of_nat (length W) + 1)). destruct Hr. lia. }
  cbn [res_bind]. eexists. split; [done|]. split; cbn.
  - by rewrite fmap_app.
  - eexists. split; [exact Hm'|]. rewrite lbas_app, lbas_one, HT, fmap_app, !length_app. cbn [length]. split_and!.
    { unfold tag_blks; cbn [et_start et_cnt]. by rewrite seqz_cons, seqz_nil by lia. }
    { lia. }
    apply Forall_app. split; [done|]. repeat constructor; cbn; try lia; apply Hb.
  - rewrite Htb. done.
Qed.

(** Each journaled buffer adds its write. *)
Lemma snapshot_metadata_blocks_ok x S nt bhs : forall tx W,
  tx_inv tx x W S nt -> Forall bh_ok bhs -> part_room (Z.of_nat (length W) + Z.of_nat (length bhs)) nt ->
  exists tx', snapshot_metadata_blocks df_alloc_buffer tx bhs = Ok tx' /\ tx_inv tx' x (W ++ (bh_write <$> bhs)) S nt.
Proof.
  induction bhs as [|bh bhs IH]; intros tx W H Hb Hr; cbn [snapshot_metadata_blocks].
  - exists tx. by rewrite app_nil_r.
  - apply Forall_cons in Hb as [Hb Hbs]. cbn [length] in Hr.
    destruct (journal_bh_ok tx x W S nt bh H Hb) as (tx1 & -> & H1); [eapply room_mono; [exact Hr|lia|lia]|].
    cbn [res_bind]. destruct (IH tx1 _ H1 Hbs) as (tx2 & -> & H2).
    { rewrite length_app. cbn. eapply room_mono; [exact Hr|lia|lia]. }
    exists tx2. split; [done|]. by rewrite <- (assoc_L (++)) in H2.
Qed.

Lemma snapshot_inode_blocks_eq tx bhs :
  snapshot_inode_blocks df_alloc_buffer tx bhs = snapshot_metadata_blocks df_alloc_buffer tx bhs.
Proof. revert tx. induction bhs as [|bh bhs IH]; intros tx; cbn; [done|]. destruct (journal_bh _ tx bh); cbn; auto. Qed.

Lemma journal_dirty_blocks_eq tx bhs :
  journal_dirty_blocks df_alloc_buffer tx bhs =
    snapshot_metadata_blocks df_alloc_buffer tx (filter (fun bh => b_dirty bh = true) bhs).
Proof.
  revert tx. induction bhs as [|bh bhs IH]; intros tx; cbn [journal_dirty_blocks]; [done|].
  rewrite filter_cons. destruct (b_dirty bh); case_decide; try done; cbn [res_bind snapshot_metadata_blocks];
    [destruct (journal_bh _ tx bh); cbn; auto | apply IH].
Qed.

Lemma journal_dirty_blocks_ok x S nt bhs tx W :
  tx_inv tx x W S nt -> Forall bh_ok bhs -> part_room (Z.of_nat (length W) + Z.of_nat (length (dirty_writes bhs))) nt ->
  exists tx', journal_dirty_blocks df_alloc_buffer tx bhs = Ok tx' /\ tx_inv tx' x (W ++ dirty_writes bhs) S nt.
Proof.
  intros H Hb Hr. rewrite journal_dirty_blocks_eq. apply snapshot_metadata_blocks_ok; [done| |].
  - rewrite Forall_forall in *. intros bh Hin. apply list_elem_of_filter in Hin as [_ Hin]. by apply Hb.
  - unfold dirty_writes in Hr. by rewrite length_fmap in Hr.
Qed.

(** One dirty range: its data, then its tags. *)
Lemma journal_ird_ok x S nt f : forall ird tx W,
  tx_inv tx x W S nt -> Forall (range_ok f) ird ->
  (exists dom, FileMap (rf_get_blocks f) dom /\ forall r p, r ∈ ird -> r.1 <= p < r.1 + r.2 -> dom p) ->
  part_room (Z.of_nat (length W + length (concat (range_writes f <$> ird)))) nt ->
  exists tx', journal_ird df_alloc_buffer (rf_get_blocks f) (rf_page f) tx ird = Ok (tx', true) /\
    tx_inv tx' x (W ++ concat (range_writes f <$> ird)) S nt.
Proof.
  induction ird as [|[start cnt] ird IH]; intros tx W H Hf (dom & Hm & Hdom) Hr; cbn [journal_ird].
  { exists tx. by rewrite app_nil_r. }
  apply Forall_cons in Hf as [(Hs & Hc & Hmx) Hf]. cbn [fst snd] in *.
  rewrite fmap_cons in Hr |- *. cbn [concat] in Hr |- *. rewrite length_app in Hr.
  assert (length (range_writes f (start, cnt)) = Z.to_nat cnt) as Elen
    by (unfold range_writes; by rewrite length_fmap, length_seqz).
  rewrite Elen in Hr.
  assert (exists dom, FileMap (rf_get_blocks f) dom /\ forall r p, r ∈ ird -> r.1 <= p < r.1 + r.2 -> dom p) as Hex.
  { exists dom. split; [done|]. intros r p Hin Hp. apply (Hdom r p); [by right|done]. }
  destruct (Z.eqb_spec cnt 0) as [->|Hnz].
  { destruct (IH tx W H Hf Hex) as (tx' & -> & H'); [eapply room_mono; [exact Hr|lia|lia]|].
    exists tx'. split; [done|]. unfold range_writes at 1. cbn [fst snd]. rewrite seqz_nil by lia. done. }
  destruct H as [Hd (T & Hmb & HT & Hl & Hv) Htr].
  destruct (copy_range_ok df_alloc_buffer n0 B (rf_page f) (Z.to_nat cnt) _ _ start cnt 0 Hd) as (d' & -> & Hd');
    [lia|lia|rewrite length_fmap; destruct Hr; lia|].
  rewrite Z.add_0_r, Z.sub_0_r in Hd'. cbn [res_bind].
  destruct (fill_range_ok (rf_get_blocks f) dom x S nt (Z.to_nat cnt) (mb tx) T start cnt Hmb)
    as (b' & T' & -> & Hmb' & HT' & Hl' & Hv' & Htb); [lia|lia|lia|lia| | |].
  { intros p Hp. apply (Hdom (start, cnt) p); [by left|done]. }
  { destruct Hr as [_ Hr]. eapply Z.le_lt_trans; [|exact Hr].
    pose proof (n_etag_mono (Z.of_nat (length T) + cnt) (Z.of_nat (length W + (Z.to_nat cnt + length (concat (range_writes f <$> ird)))))). lia. }
  cbn [res_bind].
  destruct (IH (mk_tx (tid tx) d' b') (W ++ range_writes f (start, cnt))) as (tx' & -> & H'); [|done|done| |].
  - split; cbn.
    + rewrite fmap_app. unfold range_writes. by rewrite <- list_fmap_compose.
    + exists (T ++ T'). split; [done|]. rewrite lbas_app, HT, HT', fmap_app, !length_app, Elen. split_and!; [|lia|by apply Forall_app].
      unfold range_writes. by rewrite <- list_fmap_compose.
    + rewrite Htb. done.
  - rewrite length_app, Elen. eapply room_mono; [exact Hr|lia|lia].
  - exists tx'. split; [done|]. by rewrite <- (assoc_L (++)) in H'.
Qed.

Lemma journal_file_data_ok x S nt f : forall irds tx W,
  tx_inv tx x W S nt -> Forall (range_ok f) (ird_chain irds) ->
  (exists dom, FileMap (rf_get_blocks f) dom /\ forall r p, r ∈ ird_chain irds -> r.1 <= p < r.1 + r.2 -> dom p) ->
  part_room (Z.of_nat (length W + length (concat (range_writes f <$> ird_chain irds)))) nt ->
  exists tx', journal_file_data df_alloc_buffer (rf_get_blocks f) (rf_page f) tx irds = Ok tx' /\
    tx_inv tx' x (W ++ concat (range_writes f <$> ird_chain irds)) S nt.
Proof.
  induction irds as [|ird next IH]; intros tx W H Hf (dom & Hm & Hdom) Hr; cbn [journal_file_data].
  { exists tx. by rewrite app_nil_r. }
  cbn [ird_chain] in *. set (rest := match next with (_ :: _) :: _ => ird_chain next | _ => [] end) in *.
  apply Forall_app in Hf as [Hf1 Hf2]. rewrite fmap_app, concat_app, length_app in Hr.
  destruct (journal_ird_ok x S nt f ird tx W H Hf1) as (tx1 & -> & H1).
  { exists dom. split; [done|]. intros r p Hin. apply Hdom. apply elem_of_app. by left. }
  { eapply room_mono; [exact Hr|lia|lia]. }
  cbn [res_bind]. rewrite fmap_app, concat_app, (assoc_L (++)).
  assert (rest = [] \/ rest = ird_chain next) as Hrest by (unfold rest; destruct next as [|[|]]; auto).
  destruct next as [|[|r0 ird1] next1]; cbn [rest fmap list_fmap concat]; [exists tx1; by rewrite app_nil_r..|].
  apply IH; [done|done| |].
  - exists dom. split; [done|]. intros r p Hin. apply Hdom. apply elem_of_app. by right.
  - rewrite length_app. eapply room_mono; [exact Hr| |lia]. unfold rest. lia.
Qed.

Lemma build_jtx_regular_file_ok x S nt f tx W :
  tx_inv tx x W S nt -> reg_ok f ->
  part_room (Z.of_nat (length W + length (reg_writes f))) (nt + file_traces (JReg f)) ->
  exists tx', build_jtx_regular_file df_alloc_buffer tx f = Ok tx' /\
    tx_inv tx' x (W ++ reg_writes f) (S ++ rf_stage f) (nt + file_traces (JReg f)).
Proof.
  intros H [H1 H2 H3 H4] Hr. unfold build_jtx_regular_file, reg_writes in *. rewrite length_app in Hr.
  assert (0 <= file_traces (JReg f)) as Hft.
  { unfold file_traces. cbn. destruct (rf_stage f); [done|]. unfold n_trace. cbn [length]. Z.div_mod_to_equations. lia. }
  destruct (journal_dirty_blocks_ok x S nt (rf_private_list f) tx W H H1) as (tx1 & -> & Hi1);
    [eapply room_mono; [exact Hr|lia|lia]|]. cbn [res_bind].
  assert (exists tx2, match rf_stage f with
      | [] => Ok tx1
      | stxs => let* b := journal_stage_trace (mb tx1) stxs in Ok (mk_tx (tid tx1) (db tx1) b) end = Ok tx2 /\
      tx_inv tx2 x (W ++ dirty_writes (rf_private_list f)) (S ++ rf_stage f) (nt + file_traces (JReg f))) as (tx2 & -> & Hi2).
  { unfold file_traces in *. cbn [file_stage] in *. destruct (rf_stage f) as [|e es] eqn:Es.
    - exists tx1. split; [done|]. by rewrite app_nil_r, Z.add_0_r.
    - destruct Hi1 as [Hd (T & Hm & HT & Hl & Hv) Htr].
      destruct (journal_stage_trace_ok (mb tx1) x T S nt (e :: es) Hm) as (b & -> & Hm' & Hb); [done|done| |].
      { destruct Hr as [_ Hr]. eapply Z.le_lt_trans; [|exact Hr]. rewrite length_app in Hl.
        pose proof (n_etag_mono (Z.of_nat (length T)) (Z.of_nat (length W + (length (dirty_writes (rf_private_list f)) +
          length (concat (range_writes f <$> ird_chain (rf_irds f))))))). lia. }
      cbn [res_bind]. eexists. split; [done|]. split; cbn; [done|by exists T|].
      split; [|done]. intros _. by destruct S. }
  cbn [res_bind]. rewrite (assoc_L (++)).
  apply journal_file_data_ok; [done|done| |].
  - exists (fun p => exists r, r ∈ ird_chain (rf_irds f) /\ r.1 <= p < r.1 + r.2). split; [done|]. intros r p Hin Hp. by exists r.
  - rewrite length_app. eapply room_mono; [exact Hr|lia|lia].
Qed.

Lemma build_files_ok x fs : forall tx W S nt,
  tx_inv tx x W S nt -> Forall jfile_ok fs ->
  part_room (Z.of_nat (length W + length (files_writes fs))) (nt + sumz file_traces fs) ->
  exists tx', build_files df_alloc_buffer tx fs = Ok tx' /\
    tx_inv tx' x (W ++ files_writes fs) (S ++ files_stage fs) (nt + sumz file_traces fs).
Proof.
  induction fs as [|f fs IH]; intros tx W S nt H Hf Hr; cbn [build_files].
  { exists tx. unfold files_writes, files_stage. cbn. rewrite !app_nil_r, Z.add_0_r. done. }
  apply Forall_cons in Hf as [Hf Hfs]. rewrite sumz_cons in *.
  assert (forall g, 0 <= file_traces g) as Hft.
  { intros g. unfold file_traces. destruct (file_stage g); [done|]. unfold n_trace. cbn [length]. Z.div_mod_to_equations. lia. }
  assert (0 <= sumz file_traces fs) as Hs by (apply sumz_nonneg, Forall_true; done).
  change (files_writes (f :: fs)) with (file_writes f ++ files_writes fs) in *.
  change (files_stage (f :: fs)) with (file_stage f ++ files_stage fs) in *. rewrite length_app in Hr.
  assert (exists tx1, build_tx_from_file df_alloc_buffer tx f = Ok tx1 /\
            tx_inv tx1 x (W ++ file_writes f) (S ++ file_stage f) (nt + file_traces f)) as (tx1 & -> & H1).
  { specialize (Hft f). destruct f as [f|bhs|]; cbn [build_tx_from_file file_writes file_stage] in *.
    - apply build_jtx_regular_file_ok; [done|done|]. cbn in Hr. eapply room_mono; [exact Hr|lia|lia].
    - rewrite app_nil_r. change (file_traces (JDir bhs)) with 0 in *. rewrite Z.add_0_r in *.
      apply journal_dirty_blocks_ok; [done|done|]. eapply room_mono; [exact Hr|lia|lia].
    - exists tx. rewrite !app_nil_r. change (file_traces JSkip) with 0. by rewrite Z.add_0_r. }
  cbn [res_bind]. rewrite !(assoc_L (++)), Z.add_assoc. apply IH; [done|done|].
  rewrite length_app. rewrite Z.add_assoc in Hr. eapply room_mono; [exact Hr|lia|lia].
Qed.

Lemma desc_init_ok b tx_id :
  block_ok b -> 0 <= tx_id < U32_MOD ->
  block_ok (desc_init b tx_id) /\ jd_transaction_id (desc_init b tx_id) = tx_id /\
  jd_nr_tags (desc_init b tx_id) = 0 /\ jd_nr_etag_blks (desc_init b tx_id) = 0 /\
  jd_nr_stage_trace_blks (desc_init b tx_id) = 0.
Proof.
  intros Hb Hx. unfold desc_init, jd_set_nr_stage_trace_blks, jd_set_nr_etag_blks, jd_set_nr_tags,
    jd_transaction_id, jd_nr_tags, jd_nr_etag_blks, jd_nr_stage_trace_blks.
  split_and!; [repeat apply wr_ok; done || lia|..]; fields; done.
Qed.

Lemma tx_start_ok tx_id stale :
  0 <= B -> (forall i, block_ok (stale i)) -> 0 <= tx_id < U32_MOD ->
  exists tx, tx_start df_alloc_buffer tx_id stale n0 = Ok (Some tx) /\ tx_inv tx tx_id [] [] 0 /\ tid tx = tx_id.
Proof.
  intros HT Hs Hx. unfold tx_start. destruct (fe_some n0) as [i0 ->]; [lia|Z.div_mod_to_equations; lia|].
  unfold tx_alloc_buffer, new_data_buf. cbn [n_allocs]. destruct (fe_some (S n0)) as [i1 ->]; [lia|Z.div_mod_to_equations; lia|].
  cbn [negb Z.eqb]. unfold reserve_mdblk. cbn [md_nr_blocks]. rewrite BUF_BLKS_eq.
  cbn -[desc_init u32]. change (u32 (8192 - 1) =? 0) with false. cbn -[desc_init u32].
  eexists. split; [reflexivity|]. split; [|done].
  destruct (desc_init_ok (stale 0) tx_id (Hs 0) Hx) as (Hb & H1 & H2 & H3 & H4).
  split; cbn [db mb fmap list_fmap].
  - split; cbn; try done; lia.
  - exists []. split; [|split_and!; [done|done|constructor]].
    split; [|done|cbn; lia]. change (n_etag (Z.of_nat (length []))) with 0.
    split; cbn [desc_blk md md_cur md_nr_blocks]; rewrite ?upd_eq; try done.
    + intros i. unfold upd. by case_cmp.
    + unfold jd_tags, rd_etags. rewrite H2. done.
    + intros i Hi. lia.
  - cbn. split; [by intros []|done].
Qed.

(** ** The transaction as the device gets it *)

(** Requests in order: full buffers, the last one possibly shorter. *)
Fixpoint chunked (rs : list fetch_req) : Prop :=
  match rs with
  | [] => True
  | r :: rs' =>
      let n := Z.of_nat (length (fr_data r)) in
      0 < n <= 8192 /\ fr_size r = 4096 * n /\ (rs' <> [] -> n = 8192) /\ chunked rs'
  end.

Lemma chunked_full rs tl :
  Forall (fun r => Z.of_nat (length (fr_data r)) = 8192 /\ fr_size r = 4096 * 8192) rs ->
  chunked tl -> chunked (rs ++ tl).
Proof. induction 1 as [|r rs [H1 H2] _ IH]; intros Ht; cbn; [done|]. rewrite H1, H2. split_and!; auto; lia. Qed.

Record commit_ok (cm : commit_msg) (W : list (Z * block)) (md_blocks : Z) : Prop := {
  co_data : concat (fr_data <$> cm_reqs cm) = W.*2;
  co_ids : fr_req_id <$> cm_reqs cm = seqz 0 (Z.of_nat (length (cm_reqs cm)));
  co_chunks : chunked (cm_reqs cm);
  co_bufs : cm_n_bufs cm = Z.of_nat (length (cm_reqs cm));
  co_size : cm_data_size cm = 4096 * Z.of_nat (length W);
  co_md : cm_md_size cm = 4096 * md_blocks
}.

Lemma request_commit_ok tx x W S nt :
  tx_inv tx x W S nt -> commit_ok (request_commit tx) W (md_cur (mb tx)).
Proof.
  intros [Hd (T & [Hc _ _] & _) _]. pose proof (db_stream_length n0 B _ _ _ Hd) as HL.
  pose proof (mc_left _ _ _ _ _ _ _ Hc) as Hleft. pose proof (mc_cur _ _ _ _ _ _ _ Hc) as Hcur.
  pose proof (mc_room _ _ _ _ _ _ _ Hc) as Hroom. rewrite <- Hcur in *. rewrite length_fmap in HL.
  pose proof (ds_max _ _ _ _ _ Hd) as Hmax. rewrite length_fmap in Hmax. pose proof fe_max as HB.
  assert (u64 (BG_JOURNAL_COMMIT_SIZE - u64 (md_nr_blocks (mb tx) * OXBOW_BLOCK_SIZE)) = 4096 * md_cur (mb tx)) as Emd.
  { rewrite Hleft. unfold OXBOW_BLOCK_SIZE. change BG_JOURNAL_COMMIT_SIZE with 33554432.
    rewrite (u64_id ((8192 - _) * 4096)), u64_id by lia. lia. }
  destruct (decide (cur_data (db tx) = [])) as [Ez|Hnz].
  - assert (request_data_fetch (db tx) = (db tx, -1)) as E.
    { unfold request_data_fetch. rewrite (ds_used _ _ _ _ _ Hd), length_fmap, HL, Ez. cbn [length].
      rewrite Z.add_0_r, Z.sub_diag. done. }
    unfold request_commit. rewrite E. cbn [Z.ltb Z.compare]. destruct Hd as [H0 H1 H2 H3 H4 H5 H6 H7 H8 H9 H10].
    split; cbn [cm_reqs cm_n_bufs cm_data_size cm_md_size]; try done.
    + rewrite Ez, app_nil_r in H1. done.
    + rewrite <- (app_nil_r (sent (db tx))). by apply chunked_full.
    + lia.
    + rewrite H6, length_fmap. unfold OXBOW_BLOCK_SIZE. rewrite u64_id; lia.
  - destruct (request_data_fetch_ok df_alloc_buffer n0 B _ _ _ Hd Hnz ltac:(lia)) as (id & Hcr & E).
    unfold request_commit. rewrite E. cbn [Z.ltb Z.compare]. destruct Hd as [H0 H1 H2 H3 H4 H5 H6 H7 H8 H9 H10].
    assert (0 < Z.of_nat (length (cur_data (db tx)))) by (destruct (cur_data (db tx)); cbn; [done|lia]).
    split; cbn [cm_reqs cm_n_bufs cm_data_size cm_md_size used_blk_cnt n_df_bufs sent]; try done.
    + rewrite fmap_app, concat_app. cbn. by rewrite app_nil_r.
    + rewrite fmap_app, length_app, H3. cbn [length fmap list_fmap fr_req_id].
      rewrite Nat2Z.inj_add. by rewrite seqz_snoc by lia.
    + apply chunked_full; [done|]. cbn [chunked fr_data fr_size]. split_and!; done || lia.
    + rewrite length_app. cbn [length]. lia.
    + rewrite H6, length_fmap. unfold OXBOW_BLOCK_SIZE. rewrite u64_id; lia.
Qed.

(** The metadata blocks as the device parses them. *)
Record parsed_ok (b : meta_buf) (tx_id : Z) (W : list (Z * block)) (S : list Z) (nt : Z) : Prop := {
  me_id : jd_transaction_id (md b 0) = tx_id;
  me_tags : lbas (jd_tags (md b 0) ++ tags_of (md_blks b)) = W.*1;
  me_valid : Forall tag_valid (jd_tags (md b 0) ++ tags_of (md_blks b));
  me_traces : traces_of (md_blks b) = S;
  me_count : jd_nr_etag_blks (md b 0) + jd_nr_stage_trace_blks (md b 0) = md_cur b - 1;
  me_kinds : forall i, 1 <= i < md_cur b -> is_etag_blk (md b i) = true \/ is_stage_trace_blk (md b i) = true;
  me_notags : jd_nr_tags (md b 0) = 0 -> jd_nr_etag_blks (md b 0) = 0 /\ W = [];
  me_nr : 0 <= jd_nr_tags (md b 0) <= 339;
  me_ok : forall i, block_ok (md b i);
  me_room : 0 < md_cur b < 8192;
  me_size : md_cur b <= 1 + n_etag (Z.of_nat (length W)) + nt
}.

Lemma tx_inv_meta tx x W S nt : tx_inv tx x W S nt -> parsed_ok (mb tx) x W S nt.
Proof.
  intros [_ (T & [Hc Hnt _] & HT & Hl & Hv) _]. destruct Hc as [H1 H2 H3 H4 H5 H6 H7 H8 H9 H10 H11 H12].
  split; try done.
  - by rewrite H10.
  - by rewrite H10.
  - lia.
  - intros i Hi. rewrite H3 in Hi. unfold is_etag_blk, is_stage_trace_blk. destruct (H12 i Hi) as [-> | ->]; auto.
  - intros E. rewrite H9 in E. assert (T = []) as -> by (destruct T; [done|cbn in E; lia]).
    rewrite H7. split; [done|]. by destruct W.
  - lia.
  - lia.
  - pose proof (n_etag_mono (Z.of_nat (length T)) (Z.of_nat (length W))). lia.
Qed.

End build_ok.

Lemma build_transaction_ok df_alloc_buffer tx_id stale n sb_blks files inode_blks :
  let W := (bh_write <$> sb_blks) ++ files_writes files ++ (bh_write <$> inode_blks) in
  Fetcher df_alloc_buffer n (Z.of_nat (length W)) -> (forall i, block_ok (stale i)) -> 0 <= tx_id < U32_MOD ->
  Forall bh_ok sb_blks -> Forall jfile_ok files -> Forall bh_ok inode_blks ->
  room (Z.of_nat (length W)) (sumz file_traces files) ->
  exists otx, build_transaction df_alloc_buffer tx_id stale n sb_blks files inode_blks = Ok otx /\
    (otx = None <-> W = [] /\ files_stage files = []) /\
    forall tx, otx = Some tx ->
      parsed_ok (mb tx) tx_id W (files_stage files) (sumz file_traces files) /\ commit_ok (request_commit tx) W (md_cur (mb tx)).
Proof.
  intros W Hdf Hst Hx Hsb Hfs Hin Hr. unfold build_transaction.
  assert (0 <= sumz file_traces files) as Hs.
  { apply sumz_nonneg, Forall_true. intros g. unfold file_traces. destruct (file_stage g); [done|].
    unfold n_trace. cbn [length]. Z.div_mod_to_equations. lia. }
  destruct (tx_start_ok df_alloc_buffer n (Z.of_nat (length W)) tx_id stale ltac:(lia) Hst Hx) as (tx0 & -> & H0 & _). cbn [res_bind].
  assert (part_room (Z.of_nat (length W)) (Z.of_nat (length W)) (sumz file_traces files)) as Hp by (split; [done|apply Hr]).
  revert Hp. unfold W at 2. rewrite !length_app, !length_fmap. clear Hr. intros Hr.
  destruct (snapshot_metadata_blocks_ok df_alloc_buffer n (Z.of_nat (length W)) tx_id [] 0 sb_blks tx0 [] H0 Hsb) as (tx1 & -> & H1);
    [eapply room_mono; [exact Hr|cbn; lia|lia]|].
  cbn [res_bind]. rewrite app_nil_l in H1.
  destruct (build_files_ok df_alloc_buffer n (Z.of_nat (length W)) tx_id files tx1 _ [] 0 H1 Hfs) as (tx2 & -> & H2).
  { rewrite length_fmap. eapply room_mono; [exact Hr|lia|lia]. }
  cbn [res_bind]. rewrite app_nil_l, Z.add_0_l in H2. rewrite snapshot_inode_blocks_eq.
  destruct (snapshot_metadata_blocks_ok df_alloc_buffer n (Z.of_nat (length W)) tx_id _ _ inode_blks tx2 _ H2 Hin) as (tx3 & -> & H3).
  { rewrite length_app, length_fmap. eapply room_mono; [exact Hr|lia|lia]. }
  cbn [res_bind]. rewrite <- (assoc_L (++)) in H3. fold W in H3.
  pose proof (ti_trace _ _ _ _ _ _ _ H3) as Htr.
  pose proof (ds_used _ _ _ _ _ (ti_db _ _ _ _ _ _ _ H3)) as Hu. rewrite length_fmap in Hu. rewrite Hu.
  destruct ((Z.of_nat (length W) =? 0) && negb (bool_decide (is_Some (trace_blk (mb tx3))))) eqn:E.
  - eexists. split; [done|]. split; [|done]. split; [|done]. intros _.
    apply andb_true_iff in E as [E1 E2]. apply Z.eqb_eq in E1. split; [destruct W; [done|cbn in E1; lia]|].
    apply negb_true_iff, bool_decide_eq_false in E2. rewrite Htr in E2. destruct (files_stage files); [done|by destruct E2].
  - eexists. split; [done|]. split.
    + split; [done|]. intros [E1 E2]. rewrite E1 in E. cbn in E. rewrite bool_decide_eq_false_2 in E; [done|].
      rewrite Htr, E2. by intros [].
    + intros tx [= <-]. split; [by eapply tx_inv_meta|by eapply request_commit_ok].
Qed.

Lemma build_transaction_no_buffer df_alloc_buffer tx_id stale n sb_blks files inode_blks :
  df_alloc_buffer n = None \/ df_alloc_buffer (S n) = None ->
  build_transaction df_alloc_buffer tx_id stale n sb_blks files inode_blks = Ok None.
Proof.
  intros H. unfold build_transaction, tx_start, tx_alloc_buffer, new_data_buf. cbn [n_allocs].
  destruct (df_alloc_buffer n); [|done]. destruct H as [H|H]; [done|]. rewrite H. done.
Qed.

(** C4: without a buffer for the metadata or for the first data,
    [build_transaction] gives up with no transaction.  For well-formed input
    whose blocks are fewer than 2^32 and whose tags and traces fit the metadata
    buffer, and with the buffers that so many blocks take (one for the
    metadata, one for each 8192 blocks begun), it succeeds.  It produces nothing
    exactly when there is nothing to write and no staged transaction;
    otherwise the requests of [request_commit] carry the blocks of all writes
    in order, in full buffers except for the last, numbered from zero, and the
    metadata blocks parse to tags that name the home blocks of these writes in
    the same order and to the staged transactions in order. *)
Theorem build_transaction_correct df_alloc_buffer tx_id stale n sb_blks files inode_blks :
  let W := (bh_write <$> sb_blks) ++ files_writes files ++ (bh_write <$> inode_blks) in
  (forall i, block_ok (stale i)) -> 0 <= tx_id < U32_MOD ->
  Forall bh_ok sb_blks -> Forall jfile_ok files -> Forall bh_ok inode_blks ->
  room (Z.of_nat (length W)) (sumz file_traces files) ->
  (df_alloc_buffer n = None \/ df_alloc_buffer (S n) = None ->
   build_transaction df_alloc_buffer tx_id stale n sb_blks files inode_blks = Ok None) /\
  (Fetcher df_alloc_buffer n (Z.of_nat (length W)) ->
   exists otx, build_transaction df_alloc_buffer tx_id stale n sb_blks files inode_blks = Ok otx /\
    (otx = None <-> W = [] /\ files_stage files = []) /\
    forall tx, otx = Some tx ->
      parsed_ok (mb tx) tx_id W (files_stage files) (sumz file_traces files) /\
      commit_ok (request_commit tx) W (md_cur (mb tx))).
Proof.
  intros W Hst Hx Hsb Hfs Hin Hr. split; [apply build_transaction_no_buffer|].
  intros HF. by apply build_transaction_ok.
Qed.

(** ** An example: a superblock, a file with a staged transaction and three
    dirty pages in two extents, and an inode block. *)
Definition demo_map (p : Z) : option buffer_extent :=
  if p <? 2 then Some (mk_be 0 400 2) else Some (mk_be 2 900 8).
Definition demo_file : reg_file :=
  mk_reg [mk_bh 31 [1] true; mk_bh 32 [2] false] [110] [[(1, 3)]] (fun p => [100 + p]) demo_map.

Lemma demo_map_ok : FileMap demo_map (fun p => exists r, r ∈ [(1, 3)] /\ r.1 <= p < r.1 + r.2).
Proof.
  assert (forall p, (exists r : Z * Z, r ∈ [(1, 3)] /\ r.1 <= p < r.1 + r.2) -> 1 <= p < 4) as Hd.
  { intros p (r & Hr%list_elem_of_singleton & Hp). subst r. cbn in Hp. lia. }
  split; intros p.
  - intros Hp%Hd. unfold demo_map. case_cmp; eexists; (split; [done|]); cbn; lia.
  - intros q be Hp%Hd Hq%Hd. unfold demo_map, lba_of, demo_map. case_cmp; intros [= <-]; cbn; intros Hr; case_cmp; cbn; lia.
  - intros Hp%Hd. unfold lba_of, demo_map. case_cmp; cbn; lia.
Qed.

Lemma build_transaction_correct_witness :
  exists tx, build_transaction (fun n => Some (Z.of_nat n)) 5 (fun _ => zero_block) 0
      [mk_bh 3 [3] true] [JReg demo_file] [mk_bh 9 [9] true] = Ok (Some tx) /\
    concat (fr_data <$> cm_reqs (request_commit tx)) = [[3]; [1]; [101]; [102]; [103]; [9]] /\
    lbas (jd_tags (md (mb tx) 0) ++ tags_of (md_blks (mb tx))) = [3; 31; 401; 900; 901; 9] /\
    traces_of (md_blks (mb tx)) = [110].
Proof.
  destruct (build_transaction_correct (fun n => Some (Z.of_nat n)) 5 (fun _ => zero_block) 0
      [mk_bh 3 [3] true] [JReg demo_file] [mk_bh 9 [9] true]) as [_ H].
  - intros i. exact zero_block_ok.
  - lia.
  - constructor; [|constructor]. vm_compute. split; congruence.
  - constructor; [|constructor]. split.
    + constructor; [|constructor; [|constructor]]; vm_compute; split; congruence.
    + constructor; [|constructor]. split; [vm_compute; congruence|reflexivity].
    + constructor; [|constructor]. vm_compute. split_and!; congruence.
    + exact demo_map_ok.
  - constructor; [|constructor]. vm_compute. split; congruence.
  - vm_compute. split; congruence.
  - destruct H as (otx & E & Hn & Hs); [split; [intros k _ _; eexists; reflexivity|reflexivity]|].
    destruct otx as [tx|]; [|destruct (proj1 Hn eq_refl) as [_ Hz]; discriminate Hz].
    destruct (Hs tx eq_refl) as [Hm Hc]. exists tx. split; [exact E|].
    split; [exact (co_data _ _ _ Hc)|]. split; [exact (me_tags _ _ _ _ _ Hm)|exact (me_traces _ _ _ _ _ Hm)].
Defined.
