(* ===== verification/EndToEnd.v ===== *)
(** * From the host's buffers to the home blocks

    The components composed: a transaction built by the host ([TxBuild]) is
    fetched and committed by the device ([Commit]) and checkpointed
    ([Checkpoint]).  The theorem states the effect on the file system's blocks:
    every write of the transaction is applied, in order, and nothing else
    changes. *)

From stdpp Require Import sets.
From S2P Require Import Prelude Bio Sjd JournalLog Commit Coalesce Checkpoint TxBuild.

(** ** Specification: apply the writes in order *)

Definition apply_writes (W : list (Z * block)) (d : disk) : disk :=
  foldl (fun d w => upd d w.1 w.2) d W.

Lemma apply_writes_app W1 W2 d : apply_writes (W1 ++ W2) d = apply_writes W2 (apply_writes W1 d).
Proof. apply foldl_app. Qed.

Lemma apply_writes_ext W b : forall d d',
  (b ∈ W.*1 \/ d b = d' b) -> apply_writes W d b = apply_writes W d' b.
Proof.
  induction W as [|w W IH]; intros d d' H; cbn.
  - destruct H as [H|H]; [by apply not_elem_of_nil in H|done].
  - apply IH. destruct (decide (b ∈ W.*1)); [by left|]. right. unfold upd. case_cmp; [done|].
    destruct H as [H|H]; [|done]. cbn in H. apply elem_of_cons in H as [->|?]; done.
Qed.

(** ** Replay of background tags as writes *)

(** The [n] blocks of the log from ring position [src]. *)
Definition src_blks (a : src_area) (st : bool) (d0 : disk) (src n : Z) : list block :=
  (fun i => d0 (aring a st (src + i))) <$> seqz 0 n.

Lemma src_blks_cons a st d0 src n :
  0 < n -> src_blks a st d0 src n = d0 (aring a st src) :: src_blks a st d0 (src + 1) (n - 1).
Proof.
  intros Hn. unfold src_blks. rewrite seqz_cons by done. rewrite fmap_cons, Z.add_0_r. f_equal.
  apply list_eq. intros i. rewrite !list_lookup_fmap. destruct (decide (Z.of_nat i < n - 1)).
  - rewrite !lookup_seqz by done. cbn. do 3 f_equal. lia.
  - rewrite !lookup_ge_None_2 by (rewrite length_seqz; lia). done.
Qed.

Lemma src_blks_app a st d0 src n m :
  0 <= n -> 0 <= m -> src_blks a st d0 src (n + m) = src_blks a st d0 src n ++ src_blks a st d0 (src + n) m.
Proof.
  intros Hn Hm. unfold src_blks. rewrite seqz_app, fmap_app by done. f_equal.
  apply list_eq. intros i. rewrite !list_lookup_fmap. destruct (decide (Z.of_nat i < m)).
  - rewrite !lookup_seqz by done. cbn. do 3 f_equal. lia.
  - rewrite !lookup_ge_None_2 by (rewrite length_seqz; lia). done.
Qed.

Lemma replay_blks_writes a st d0 n : forall d src dst,
  area_ok a -> agree a d d0 -> (forall b, dst <= b < dst + Z.of_nat n -> ~ in_area a b) ->
  replay_blks a st d src dst n =
    apply_writes (zip (seqz dst (Z.of_nat n)) (src_blks a st d0 src (Z.of_nat n))) d /\
  agree a (replay_blks a st d src dst n) d0.
Proof.
  induction n as [|n IH]; intros d src dst Ha Hag Hd; [done|].
  cbn [replay_blks]. rewrite seqz_cons, src_blks_cons by lia. cbn [zip zip_with].
  replace (Z.of_nat (S n) - 1) with (Z.of_nat n) by lia.
  rewrite (Hag (aring a st src)) by (by apply aring_in_area). apply IH; [done| |].
  - intros b Hb. rewrite upd_ne; [by apply Hag|]. intros ->. apply (Hd dst); [lia|done].
  - intros b Hb. apply Hd. lia.
Qed.

Lemma replay_tags_writes a st d0 T : forall d src,
  area_ok a -> agree a d d0 -> Forall (fun t => 0 <= et_cnt t) T -> (forall b, b ∈ lbas T -> ~ in_area a b) ->
  replay_tags a st d src T =
    apply_writes (zip (lbas T) (src_blks a st d0 src (Z.of_nat (length (lbas T))))) d.
Proof.
  induction T as [|t T IH]; intros d src Ha Hag Hc Hd; [done|].
  apply Forall_cons in Hc as [Ht Hc]. cbn [replay_tags].
  change (lbas (t :: T)) with (tag_blks t ++ lbas T) in *.
  assert (length (tag_blks t) = Z.to_nat (et_cnt t)) as El by (unfold tag_blks; by rewrite length_seqz).
  rewrite length_app, El, Nat2Z.inj_add, Z2Nat.id, src_blks_app by lia.
  rewrite zip_with_app by (unfold src_blks; by rewrite length_fmap, length_seqz).
  rewrite apply_writes_app.
  destruct (replay_blks_writes a st d0 (Z.to_nat (et_cnt t)) d src (et_start t) Ha Hag) as [E Hag'].
  { intros b Hb. apply Hd, elem_of_app. left. apply elem_of_seqz. lia. }
  rewrite Z2Nat.id in E by done. rewrite (IH _ _ Ha Hag' Hc).
  - by rewrite E.
  - intros b Hb. apply Hd, elem_of_app. by right.
Qed.

(** ** The host's buffers in the device's memory *)

(** Each request's buffer is at the given address. *)
Definition fetched (m : mem) (cs : list (Z * Z)) (rs : list fetch_req) : Prop :=
  Forall2 (fun c r => c.2 = Z.of_nat (length (fr_data r)) /\
             forall k, 0 <= k < c.2 -> fr_data r !! Z.to_nat k = Some (m (c.1 + k))) cs rs.

Lemma fetched_chunks m cs rs : fetched m cs rs -> chunked rs ->
  chunks_ok cs /\ chunk_blks cs = Z.of_nat (length (concat (fr_data <$> rs))).
Proof.
  induction 1 as [|[buf n] r cs rs [Hn _] Hf IH]; intros Hc; [done|]. cbn in Hn. subst n.
  destruct Hc as (H1 & _ & H2 & Hc). destruct (IH Hc) as [Hok Hb]. cbn [chunks_ok]. split.
  - split_and!; try done; try lia. intros Hne. apply H2. intros ->. by inversion Hf.
  - unfold chunk_blks in *. rewrite sumz_cons, Hb, fmap_cons. cbn [concat snd]. rewrite length_app. lia.
Qed.

Lemma fetched_data m cs rs : fetched m cs rs -> forall i,
  0 <= i < Z.of_nat (length (concat (fr_data <$> rs))) ->
  concat (fr_data <$> rs) !! Z.to_nat i = Some (data_at m cs i).
Proof.
  induction 1 as [|[buf n] r cs rs [Hn Hd] Hf IH]; intros i Hi; [cbn in Hi; lia|]. cbn [fst snd] in *.
  rewrite fmap_cons in Hi |- *. cbn [concat data_at] in Hi |- *. rewrite length_app in Hi.
  destruct (Z.ltb_spec i n).
  - rewrite lookup_app_l by lia. apply Hd. lia.
  - rewrite lookup_app_r by lia. replace (Z.to_nat i - length (fr_data r))%nat with (Z.to_nat (i - n)) by lia.
    apply IH. lia.
Qed.

(** ** The checkpoint entry of a built transaction *)

Definition desc_fields (b b' : block) : Prop :=
  jd_transaction_id b' = jd_transaction_id b /\ jd_nr_etag_blks b' = jd_nr_etag_blks b /\
  jd_nr_stage_trace_blks b' = jd_nr_stage_trace_blks b /\ jd_nr_tags b' = jd_nr_tags b /\ jd_tags b' = jd_tags b.

Lemma set_meta_start_fields b x :
  block_ok b -> 0 <= jd_nr_tags b <= 339 -> desc_fields b (jd_set_meta_start_baddr b x).
Proof.
  intros Hb Hn. unfold jd_set_meta_start_baddr.
  assert (forall o, 0 <= o <= 16 -> rd 4 (wr 4 b 20 x) o = rd 4 b o) as Ho by (intros; apply field_ne; done || lia).
  unfold desc_fields, jd_transaction_id, jd_nr_etag_blks, jd_nr_stage_trace_blks. split_and!; try (apply Ho; lia).
  unfold jd_tags. assert (jd_nr_tags (wr 4 b 20 x) = jd_nr_tags b) as -> by (apply Ho; lia).
  apply rd_etags_wr_ne; unfold desc_hdr_size; done || lia.
Qed.

Section entry.
Context (a : src_area) (d : disk) (ce : ckpt_list_entry) (b : meta_buf) (tx_id : Z) (W : list (Z * block)) (nt : Z).
Hypothesis Ha : area_ok a.
Hypothesis Hp : parsed_ok b tx_id W [] nt.
Hypothesis Hne : W <> [].
Hypothesis Hdesc : desc_fields (md b 0) (ce_desc_blk ce).
Hypothesis Hmeta : ce_meta ce = md_blks b.
Hypothesis Hst : first (jnl a) <= ce_j_start_baddr ce <= last (jnl a).
Hypothesis Hfit : Z.of_nat (length W) <= alen a false.
Hypothesis Hdst : forall l, l ∈ W.*1 -> ~ in_area a l /\ l + 1 < NOADDR.

Let T := jd_tags (md b 0) ++ tags_of (md_blks b).

Lemma entry_bg_tags : parse_bg_tags ce (ce_meta ce) = T.
Proof.
  destruct Hdesc as (_ & _ & _ & E4 & E5). unfold parse_bg_tags. rewrite E4, E5, Hmeta.
  destruct (Z.eqb_spec (jd_nr_tags (md b 0)) 0) as [Hz|]; [|done].
  by destruct (me_notags _ _ _ _ _ Hp Hz) as [_ ?].
Qed.

Lemma entry_stage_txs : parse_stage_txs a d (ce_meta ce) = [].
Proof.
  unfold parse_stage_txs. rewrite Hmeta. pose proof (me_traces _ _ _ _ _ Hp) as Ht. unfold traces_of in Ht. by rewrite Ht.
Qed.

Lemma entry_valid : Forall etag_valid T.
Proof.
  pose proof (me_valid _ _ _ _ _ Hp) as Hv. pose proof (me_tags _ _ _ _ _ Hp) as HT. fold T in Hv, HT.
  rewrite Forall_forall in *. intros t Ht. destruct (Hv t Ht) as [[H1 H2] H3]. split; [lia|]. split; [lia|].
  assert (et_start t + et_cnt t - 1 ∈ W.*1) as Hin.
  { rewrite <- HT. unfold lbas. apply list_elem_of_In, in_concat. exists (tag_blks t). split.
    - apply list_elem_of_In, list_elem_of_fmap_2. done.
    - apply list_elem_of_In, elem_of_seqz. lia. }
  destruct (Hdst _ Hin) as [_ ?]. lia.
Qed.

Lemma lbas_length : sumz et_cnt T = Z.of_nat (length W).
Proof.
  pose proof (me_tags _ _ _ _ _ Hp) as HT. fold T in HT. apply (f_equal length) in HT. rewrite length_fmap in HT. rewrite <- HT.
  pose proof (me_valid _ _ _ _ _ Hp) as Hv. fold T in Hv. clear -Hv. induction Hv as [|t l [_ Ht] _ IH]; [done|].
  rewrite sumz_cons, IH. change (lbas (t :: l)) with (tag_blks t ++ lbas l). rewrite length_app. unfold tag_blks.
  rewrite length_seqz. lia.
Qed.

Lemma entry_nodes_eq : entry_nodes a d ce = tag_nodes (ce_j_start_baddr ce + 1) false T.
Proof. unfold entry_nodes. by rewrite entry_stage_txs, entry_bg_tags. Qed.

Lemma entry_tags_ok : Z.of_nat (length W) < U32_MOD -> tags_ok a (fun _ => false) (entry_nodes a d ce).
Proof.
  intros Hw. rewrite entry_nodes_eq. pose proof entry_valid as Hv. pose proof lbas_length as Hs.
  set (ns := tag_nodes (ce_j_start_baddr ce + 1) false T).
  assert (forall n, n ∈ ns -> exists t, t ∈ T /\ n = mk_node (et_start t) (et_cnt t) (ce_j_start_baddr ce + 1) false) as Hn.
  { intros n Hn. apply list_elem_of_fmap in Hn as (t & -> & Ht). by exists t. }
  rewrite Forall_forall in Hv.
  assert (Forall tag_ok ns) as Htag.
  { rewrite Forall_forall. intros n Hin. destruct (Hn n Hin) as (t & Ht & ->). destruct (Hv t Ht) as (H1 & H2 & H3).
    split; [|cbn; lia]. split; cbn; lia. }
  assert (Forall node_ok ns) as Hnode by (eapply Forall_impl; [exact Htag|by intros n [? _]]).
  assert (sumz n_cnt ns = Z.of_nat (length W)) as Hsum.
  { rewrite <- Hs. unfold ns, tag_nodes. clear. induction T as [|t l IH]; [done|]. rewrite fmap_cons, !sumz_cons, IH. done. }
  pose proof (ao_last _ Ha false) as Hlast. cbn in Hlast.
  split; try done.
  - rewrite Forall_forall. intros n Hin. by destruct (Hn n Hin) as (t & _ & ->).
  - rewrite Forall_forall. intros n Hin. destruct (Hn n Hin) as (t & _ & ->). cbn. unfold NOADDR. lia.
  - intros l Hl. apply dsts_expand in Hl as (n & Hin & _ & Hr); [|done]. destruct (Hn n Hin) as (t & Ht & ->). cbn in Hr.
    apply Hdst. rewrite <- (me_tags _ _ _ _ _ Hp). apply list_elem_of_In, in_concat. exists (tag_blks t). split.
    + apply list_elem_of_In, list_elem_of_fmap_2. done.
    + apply list_elem_of_In, elem_of_seqz. lia.
  - by rewrite Hsum.
  - rewrite Forall_forall. intros n Hin. destruct (Hn n Hin) as (t & _ & ->). cbn [n_stage].
    eapply Z.le_trans; [|exact Hfit]. rewrite <- Hsum, <- (length_expand NOADDR 0) by done. unfold grp_blks.
    apply Nat2Z.inj_le, length_filter.
Qed.

Lemma entry_ckpt_ok : Z.of_nat (length W) < U32_MOD -> ckpt_ok a (fun _ => false) d ce.
Proof.
  intros Hw. pose proof Hdesc as (E1 & E2 & E3 & E4 & E5). pose proof (ao_last _ Ha false) as Hlast. cbn in Hlast.
  pose proof (me_room _ _ _ _ _ Hp) as Hr.
  assert (forall x, x ∈ md_blks b -> exists i, 1 <= i < md_cur b /\ x = md b i) as Hin.
  { intros x Hx. apply list_elem_of_fmap in Hx as (i & -> & Hi%elem_of_seqz). exists i. split; [lia|done]. }
  split; rewrite ?entry_stage_txs, ?entry_bg_tags; try done.
  - rewrite Hmeta, E2, E3, (me_count _ _ _ _ _ Hp). unfold md_blks. rewrite length_fmap, length_seqz, u32_id by lia. lia.
  - rewrite Hmeta, Forall_forall. intros x Hx E. destruct (Hin x Hx) as (i & Hi & ->).
    destruct (me_kinds _ _ _ _ _ Hp i Hi) as [?|Et]; [done|congruence].
  - rewrite Hmeta, Forall_forall. intros x Hx E. pose proof (me_traces _ _ _ _ _ Hp) as Ht.
    assert (st_tx_list x = []) as ->; [|constructor].
    apply (Forall_forall (fun x => is_stage_trace_blk x = true -> st_tx_list x = []) (md_blks b)); [|done|done].
    clear -Ht. unfold traces_of in Ht. induction (md_blks b) as [|y l IH]; [constructor|].
    rewrite filter_cons in Ht. constructor.
    + intros Ey. rewrite decide_True in Ht by done. cbn in Ht. by apply app_eq_nil in Ht as [? _].
    + apply IH. case_decide; [|done]. cbn in Ht. by apply app_eq_nil in Ht as [_ ?].
  - intros Hz. rewrite E4 in Hz. rewrite E2. apply (me_notags _ _ _ _ _ Hp Hz).
  - right. intros E. pose proof (me_tags _ _ _ _ _ Hp) as HT. fold T in HT. rewrite E in HT. by destruct W.
  - apply entry_valid.
  - apply NoDup_cons. split; [|apply NoDup_singleton]. cbn. intros ?%list_elem_of_singleton. unfold NOADDR in *. lia.
  - by apply entry_tags_ok.
Qed.

(** If the log holds the data, replay applies the writes. *)
Lemma entry_replay :
  src_blks a false d (ce_j_start_baddr ce + 1) (Z.of_nat (length W)) = W.*2 ->
  replay a d ce = apply_writes W d.
Proof.
  intros Hsrc. unfold replay. rewrite entry_stage_txs, entry_bg_tags. cbn [foldl].
  pose proof (me_tags _ _ _ _ _ Hp) as HT. fold T in HT.
  rewrite (replay_tags_writes a false d); [|done|done| |].
  - rewrite HT, length_fmap, Hsrc. by rewrite zip_fst_snd.
  - eapply Forall_impl; [exact entry_valid|]. intros t (_ & ? & _). lia.
  - intros l Hl. rewrite HT in Hl. by apply Hdst.
Qed.

End entry.

(** The data blocks of a committed transaction in the log. *)
Lemma committed_data a m sec nsec s df cs rdma_buf M q s1 rs (W : list (Z * block)) :
  let j := d_logs s df in
  tx_committed m sec nsec s df cs rdma_buf M q s1 -> fetched m cs rs -> concat (fr_data <$> rs) = W.*2 ->
  chunk_blks cs = Z.of_nat (length W) -> 0 <= M -> first (jnl a) = first j -> last (jnl a) = last j ->
  src_blks a false (d_disk s1) (head j + 1) (Z.of_nat (length W)) = W.*2.
Proof.
  intros j Hc Hf HD HN HM A1 A2. unfold src_blks. apply list_eq. intros i. rewrite list_lookup_fmap.
  destruct (decide (Z.of_nat i < Z.of_nat (length W))).
  - rewrite lookup_seqz by done. cbn [fmap option_fmap option_map].
    assert (aring a false (head j + 1 + (0 + Z.of_nat i)) = ring j (head j + (Z.of_nat i + 1))) as ->.
    { unfold aring, alen, afirst, alast, ring, log_len. rewrite A1, A2. do 2 f_equal. lia. }
    rewrite (tc_layout _ _ _ _ _ _ _ _ _ _ Hc) by lia. unfold tx_block.
    rewrite decide_False, decide_True, Z.add_simpl_r, <- HD by lia.
    rewrite <- (fetched_data m cs rs Hf); [by rewrite Nat2Z.id|]. rewrite HD, length_fmap. lia.
  - rewrite !lookup_ge_None_2; [done|rewrite length_fmap; lia|rewrite length_seqz; lia].
Qed.

(** ** The composition *)

(** The device's work for one transaction: the requested chunks, then the
    metadata and commit with the sizes of the host's message. *)
Definition device_tx (max_io_size : Z) (m : mem) (sec nsec : Z) (s : devfs) (df_id : Z)
    (cs : list (Z * Z)) (rdma_buf : Z) (cm : commit_msg) : res devfs :=
  let* s := persist_chunks max_io_size m s df_id 0 cs in
  persist_meta_and_commit m sec nsec s df_id rdma_buf (cm_md_size cm) (cm_data_size cm) (cm_n_bufs cm).

Lemma chunks_length cs : chunks_ok cs -> Z.of_nat (length cs) <= chunk_blks cs.
Proof.
  induction cs as [|[b n] cs IH]; [done|]. intros (H1 & _ & H2). specialize (IH H2).
  unfold chunk_blks in *. rewrite sumz_cons. cbn [length snd]. lia.
Qed.

Lemma prepare_ckpt_ok s ce n :
  d_ckpt_list s = [ce] -> log_rep (d_logs s (ce_log ce)) [n] ->
  prepare_ckpt s 0 =
    if 2 * log_len (d_logs s (ce_log ce)) <=? 100 * (log_len (d_logs s (ce_log ce)) - n)
    then Ok (set_ckpt_list s [ce_set_ready ce]) else Abort.
Proof.
  intros El [[H1 H2 H3] _ Hq Hf Hfit _]. unfold prepare_ckpt. rewrite El. cbn [lookup list_lookup].
  cbn [d_logs set_ckpt_list insert list_insert]. unfold journal_free_percent.
  autorewrite with oxbow in Hf, Hfit. unfold id in *. apply Forall_cons in Hq as [Hn _].
  set (j := d_logs s (ce_log ce)) in *. change (last j - first j + 1) with (log_len j). rewrite Hf.
  rewrite (u64_id (log_len j)), u64_id by lia.
  rewrite Z.add_0_r.
  assert (0 <= (log_len j - n) * 100 / log_len j <= 100) as Hd.
  { split; [apply Z.div_le_lower_bound; lia|apply Z.div_le_upper_bound; lia]. }
  rewrite s32_small by lia. unfold CKPT_THRESHOLD_FREE_TRIGGER.
  destruct (Z.leb_spec (2 * log_len j) (100 * (log_len j - n))) as [Hl|Hl].
  - assert (2 <= (log_len j - n) * 100 / log_len j) by (apply Z.div_le_lower_bound; lia).
    by rewrite (proj2 (Z.ltb_ge _ _)).
  - assert ((log_len j - n) * 100 / log_len j < 2) by (apply Z.div_lt_upper_bound; lia).
    by rewrite (proj2 (Z.ltb_lt _ _)).
Qed.

(** The device's work with the host's message is that of a fetched
    transaction. *)
Lemma device_tx_run mx m sec nsec s df cs rdma_buf b tx_id W S nt cm :
  parsed_ok b tx_id W S nt -> commit_ok cm W (md_cur b) -> fetched m cs (cm_reqs cm) ->
  device_tx mx m sec nsec s df cs rdma_buf cm = run_tx mx m sec nsec s df cs rdma_buf (md_cur b - 1) /\
  chunks_ok cs /\ chunk_blks cs = Z.of_nat (length W).
Proof.
  intros Hp Hcm Hf. destruct (fetched_chunks _ _ _ Hf (co_chunks _ _ _ Hcm)) as [Hck HN].
  rewrite (co_data _ _ _ Hcm), length_fmap in HN. split_and!; [|done|done].
  unfold device_tx, run_tx. rewrite (co_md _ _ _ Hcm), (co_size _ _ _ Hcm), (co_bufs _ _ _ Hcm), HN, (Forall2_length _ _ _ Hf).
  by replace (md_cur b - 1 + 1) with (md_cur b) by lia.
Qed.

(** The checkpoint of a transaction that was committed in an empty log. *)
Lemma committed_writes_reach_home mx m sec nsec s df cs rdma_buf stage jsb b tx_id W nt cm :
  let j := d_logs s df in
  let a := stage_area stage j in
  parsed_ok b tx_id W [] nt -> commit_ok cm W (md_cur b) -> W <> [] ->
  fetched m cs (cm_reqs cm) -> (forall i, 0 <= i < md_cur b -> m (rdma_buf + i) = md b i) -> 0 <= rdma_buf ->
  0 < mx < 1048576 -> tx_idle s df [] -> d_ckpt_list s = [] -> tx_turn s tx_id ->
  Z.of_nat (length W) + md_cur b + 2 <= log_len j ->
  chunk_data_start j (Z.of_nat (length cs) - 1) <= last j ->
  area_ok a -> (forall l, l ∈ W.*1 -> ~ in_area a l /\ l + 1 < NOADDR) ->
  exists s1, device_tx (4096 * mx) m sec nsec s df cs rdma_buf cm = Ok s1 /\
    if 2 * log_len j <=? 100 * (log_len j - (Z.of_nat (length W) + md_cur b + 2))
    then exists s2 s3, prepare_ckpt s1 0 = Ok s2 /\ do_checkpoint_coalesce stage jsb s2 = Ok s3 /\
      (forall x, ~ (first j <= x <= last j) -> x <> jsb -> d_disk s3 x = apply_writes W (d_disk s) x) /\
      d_ckpt_list s3 = [] /\ log_rep (d_logs s3 df) []
    else prepare_ckpt s1 0 = Abort.
Proof.
  intros j a Hp Hcm Hne Hf Hmd Hbuf Hmx Hidle Hempty Hturn Hfit Hst Ha Hdst.
  destruct (device_tx_run (4096 * mx) m sec nsec s df cs rdma_buf b tx_id W [] nt cm Hp Hcm Hf) as (-> & Hck & HN).
  pose proof (chunks_length cs Hck) as Hlen.
  pose proof (me_room _ _ _ _ _ Hp) as Hroom. pose proof (lr_geom _ _ (ti_rep _ _ _ Hidle)) as [G1 G2 G3]. fold j in G1, G2, G3.
  assert (m rdma_buf = md b 0) as Em0 by (rewrite <- Hmd by lia; f_equal; lia).
  pose proof (set_meta_start_fields (md b 0) (ring j (head j + (chunk_blks cs + 1))) (me_ok _ _ _ _ _ Hp 0) (me_nr _ _ _ _ _ Hp)) as Hfields.
  assert (tx_desc m s df cs rdma_buf = jd_set_meta_start_baddr (md b 0) (ring j (head j + (chunk_blks cs + 1)))) as Ed
    by (unfold tx_desc; by rewrite Em0).
  pose proof Hfields as (F1 & F2 & F3 & _ & _).
  assert (cs <> []) as Hcs by (intros ->; destruct W; [done|]; change (chunk_blks []) with 0 in HN; cbn in HN; lia).
  destruct (run_tx_ok mx m sec nsec s df cs rdma_buf (md_cur b - 1) []) as (s1 & E1 & Hc); try done; try lia.
  { fold j. unfold sumz. cbn. lia. }
  { by rewrite Ed, F1, (me_id _ _ _ _ _ Hp). }
  destruct (tc_entry _ _ _ _ _ _ _ _ _ _ Hc) as (ce & El & Hlog & Hstart & Hsize & _ & Hdesc & Hmeta & _).
  rewrite Hempty, app_nil_l in El. pose proof (tc_idle _ _ _ _ _ _ _ _ _ _ Hc) as [Hrep1 _ _]. rewrite app_nil_l in Hrep1.
  destruct (tc_area _ _ _ _ _ _ _ _ _ _ Hc) as [A1 A2]. fold j in A1, A2.
  set (n := chunk_blks cs + (md_cur b - 1) + 3) in *.
  assert (log_len (d_logs s1 df) = log_len j) as Ell by (unfold log_len; by rewrite A1, A2).
  exists s1. split; [done|].
  assert (log_rep (d_logs s1 (ce_log ce)) [n]) as Hrep1' by (by rewrite Hlog).
  rewrite (prepare_ckpt_ok s1 ce n El Hrep1'), Hlog, Ell.
  replace (Z.of_nat (length W) + md_cur b + 2) with n by (unfold n; lia).
  destruct (2 * log_len j <=? 100 * (log_len j - n)); [|done].
  exists (set_ckpt_list s1 [ce_set_ready ce]).
  set (a1 := stage_area stage (d_logs s1 df)).
  assert (area_ok a1) as Ha1.
  { destruct Ha as [B1 B2 B3]. split; intros st; [specialize (B1 st)|specialize (B2 st)|specialize (B3 st)];
      destruct st; unfold afirst, alast, alen in *; cbn in *; rewrite ?A1, ?A2; done. }
  assert (forall x, in_area a1 x <-> in_area a x) as Hin by (intros x; unfold in_area; cbn; by rewrite A1, A2).
  rewrite Ed in Hdesc, Hmeta.
  assert (ce_meta ce = md_blks b) as Hmeta'.
  { rewrite Hmeta, F2, F3, (me_count _ _ _ _ _ Hp), u32_id by lia. unfold md_blks. apply list_eq. intros i.
    rewrite !list_lookup_fmap. destruct (decide (Z.of_nat i < md_cur b - 1)).
    - rewrite !lookup_seqz by done. cbn. rewrite <- Hmd by lia. do 2 f_equal. lia.
    - rewrite !lookup_ge_None_2 by (rewrite length_seqz; lia). done. }
  assert (first (jnl a1) <= ce_j_start_baddr ce <= last (jnl a1)) as Hse.
  { rewrite Hstart. cbn. rewrite A1, A2. apply (log_rep_head _ _ (ti_rep _ _ _ Hidle)). }
  assert (forall l, l ∈ W.*1 -> ~ in_area a1 l /\ l + 1 < NOADDR) as Hdst1 by (intros l Hl; rewrite Hin; by apply Hdst).
  set (ce' := ce_set_ready ce).
  destruct (do_checkpoint_coalesce_ok stage jsb (fun _ => false) (set_ckpt_list s1 [ce']) ce' [] n []) as (s3 & E3 & Hd3 & _ & _ & _ & Hrep3 & El3 & _).
  { done. }
  { done. }
  { cbn [d_logs d_disk set_ckpt_list ce_log ce' ce_set_ready]. rewrite Hlog. fold a1.
    apply (entry_ckpt_ok a1 _ ce' b tx_id W nt); try done.
    - cbn. by rewrite Hdesc.
    - unfold alen, alast, afirst. cbn. rewrite A1, A2. fold (log_len j). lia.
    - lia. }
  { cbn. by rewrite Hlog. }
  { done. }
  { cbn. rewrite Hlog, Hstart, (tc_tail _ _ _ _ _ _ _ _ _ _ Hc).
    pose proof (lr_head _ _ (ti_rep _ _ _ Hidle)) as Hh. fold j in Hh |- *. rewrite Hh. unfold pos, sumz. cbn.
    pose proof (lr_tail _ _ (ti_rep _ _ _ Hidle)) as Ht. fold j in Ht. unfold log_len in *. rewrite Z.add_0_r, Z.mod_small; lia. }
  cbn [d_logs set_ckpt_list d_disk ce_log ce' ce_set_ready] in Hd3, Hrep3. rewrite Hlog in Hd3, Hrep3. fold a1 in Hd3.
  exists s3. split_and!; try done. intros x Hx Hj. rewrite Hd3 by done.
  rewrite (entry_replay a1 (d_disk s1) ce' b tx_id W nt); try done.
  - apply apply_writes_ext. right. apply (tc_other _ _ _ _ _ _ _ _ _ _ Hc). done.
  - cbn. by rewrite Hdesc.
  - unfold ce', ce_set_ready. cbn [ce_j_start_baddr]. rewrite Hstart.
    apply (committed_data a1 m sec nsec s df cs rdma_buf (md_cur b - 1) [] s1 (cm_reqs cm)); try done; [apply Hcm|lia].
Qed.

(** C1: the whole path of a transaction without staged parts, for an idle device
    whose log and checkpoint list are empty, with room for the transaction in
    the log, all homes outside log and stage area and below the end mark, the
    transaction's id in turn and its buffers fetched as the host asks.  If the
    last data chunk starts inside the log, the device commits what the host
    built; if then 2 percent of the log are free, the host's release and the
    checkpoint succeed and every block outside the log and the journal
    superblock holds what applying the transaction's writes in order gives,
    otherwise the release ends at the device's assertion.  If the last chunk
    would start behind the log, the commit waits forever for it or the fetch
    ends at an assertion. *)
Theorem journaled_writes_reach_home df_alloc_buffer tx_id stale n sb_blks files inode_blks tx
    mx m sec nsec s df cs rdma_buf stage jsb :
  let W := (bh_write <$> sb_blks) ++ files_writes files ++ (bh_write <$> inode_blks) in
  let M := md_cur (mb tx) in
  let cm := request_commit tx in
  let j := d_logs s df in
  let st := chunk_data_start j (Z.of_nat (length cs) - 1) in
  let dev := device_tx (4096 * mx) m sec nsec s df cs rdma_buf cm in
  (forall i, block_ok (stale i)) -> 0 <= tx_id < U32_MOD ->
  Forall bh_ok sb_blks -> Forall jfile_ok files -> Forall bh_ok inode_blks ->
  room (Z.of_nat (length W)) (sumz file_traces files) -> Fetcher df_alloc_buffer n (Z.of_nat (length W)) ->
  files_stage files = [] ->
  build_transaction df_alloc_buffer tx_id stale n sb_blks files inode_blks = Ok (Some tx) ->
  fetched m cs (cm_reqs cm) -> (forall i, 0 <= i < M -> m (rdma_buf + i) = md (mb tx) i) -> 0 <= rdma_buf ->
  0 < mx < 1048576 -> tx_idle s df [] -> d_ckpt_list s = [] -> tx_turn s tx_id ->
  Z.of_nat (length W) + M + 2 <= log_len j ->
  area_ok (stage_area stage j) -> (forall l, l ∈ W.*1 -> ~ in_area (stage_area stage j) l /\ l + 1 < NOADDR) ->
  if st <=? last j then
    exists s1, dev = Ok s1 /\
      if 2 * log_len j <=? 100 * (log_len j - (Z.of_nat (length W) + M + 2))
      then exists s2 s3, prepare_ckpt s1 0 = Ok s2 /\ do_checkpoint_coalesce stage jsb s2 = Ok s3 /\
        (forall x, ~ (first j <= x <= last j) -> x <> jsb -> d_disk s3 x = apply_writes W (d_disk s) x) /\
        d_ckpt_list s3 = [] /\ log_rep (d_logs s3 df) []
      else prepare_ckpt s1 0 = Abort
  else dev = if st =? last j + 1 then Blocked else Abort.
Proof.
  intros W M cm j st dev Hstale Hx Hsb Hfs Hin Hroom HF Hns Hb Hf Hmd Hbuf Hmx Hidle Hempty Hturn Hfit Ha Hdst.
  destruct (build_transaction_ok df_alloc_buffer tx_id stale n sb_blks files inode_blks) as (otx & E & Hn & Hs); try done.
  rewrite Hb in E. injection E as <-. destruct (Hs tx eq_refl) as [Hp Hcm]. fold W in Hn, Hp, Hcm. rewrite Hns in Hp.
  assert (W <> []) as Hne by (intros E; discriminate (proj2 Hn (conj E Hns))).
  destruct (Z.leb_spec st (last j)) as [Hst|Hst]; [apply (committed_writes_reach_home mx m sec nsec s df cs rdma_buf stage jsb (mb tx) tx_id W _ cm Hp); done|].
  unfold dev. destruct (device_tx_run (4096 * mx) m sec nsec s df cs rdma_buf (mb tx) tx_id W [] _ cm Hp Hcm Hf) as (-> & Hck & HN).
  pose proof (chunks_length cs Hck) as Hlen. pose proof (me_room _ _ _ _ _ Hp) as Hr. destruct Hroom as [Hw _].
  pose proof (run_tx_past_end mx m sec nsec s df cs rdma_buf (M - 1) []) as H. cbv zeta in H. fold j st in H.
  apply H; try done; try lia.
  - intros ->. destruct W; [done|]. change (chunk_blks []) with 0 in HN. cbn in HN. lia.
  - fold j. rewrite HN. unfold sumz. cbn [foldr fmap list_fmap]. fold M in Hr. lia.
Qed.

(** ** An example: one superblock write through the whole path *)

Lemma single_req rs (x : block) : concat (fr_data <$> rs) = [x] -> chunked rs -> exists r, rs = [r] /\ fr_data r = [x].
Proof.
  destruct rs as [|r rs]; [done|]. rewrite fmap_cons. cbn [concat chunked]. intros E (Hn & _ & _ & Hc).
  destruct (fr_data r) as [|y l] eqn:Er; [cbn in Hn; lia|]. cbn in E. injection E as -> E.
  apply app_eq_nil in E as [-> E]. exists r. split; [|done]. f_equal. destruct rs as [|r' rs]; [done|].
  exfalso. rewrite fmap_cons in E. cbn [concat] in E. apply app_eq_nil in E as [E _]. destruct Hc as (Hc & _).
  rewrite E in Hc. cbn in Hc. lia.
Qed.

Definition e2e_state : devfs :=
  mk_devfs demo_sb (fun i => if i =? 0 then mk_log 0 10 29 10 10 20 else mk_log 1 30 49 30 30 20)
    (fun _ => mk_fctx 0 0 0) 0 [] (fun _ => []).

Definition e2e_alloc (n : nat) : option Z := Some (Z.of_nat n).

Lemma e2e_tx : exists tx,
  build_transaction e2e_alloc 5 (fun _ => zero_block) 0 [mk_bh 400 [7] true] [] [] = Ok (Some tx) /\
  parsed_ok (mb tx) 5 [(400, [7])] [] 0 /\ commit_ok (request_commit tx) [(400, [7])] (md_cur (mb tx)).
Proof.
  destruct (build_transaction_ok e2e_alloc 5 (fun _ => zero_block) 0 [mk_bh 400 [7] true] [] []) as (otx & E & Hn & Hs).
  { split; [intros k _ _; by eexists|vm_compute; done]. }
  { intros i. exact zero_block_ok. }
  { lia. }
  { repeat constructor; cbn; lia. }
  { constructor. }
  { constructor. }
  { vm_compute. split; congruence. }
  destruct otx as [tx|]; [|destruct (proj1 Hn eq_refl) as [Hz _]; discriminate Hz].
  destruct (Hs tx eq_refl) as [Hp Hc]. by exists tx.
Qed.

Lemma journaled_writes_reach_home_witness :
  exists m tx cs s1 s2 s3,
    build_transaction e2e_alloc 5 (fun _ => zero_block) 0 [mk_bh 400 [7] true] [] [] = Ok (Some tx) /\
    device_tx (4096 * 32) m 1 2 e2e_state 0 cs 10 (request_commit tx) = Ok s1 /\
    prepare_ckpt s1 0 = Ok s2 /\ do_checkpoint_coalesce (100, 139) 5 s2 = Ok s3 /\
    d_disk s3 400 = [7].
Proof.
  destruct e2e_tx as (tx & Eb & Hp & Hc).
  destruct (single_req _ _ (co_data _ _ _ Hc) (co_chunks _ _ _ Hc)) as (r & Er & Ed).
  pose proof (me_size _ _ _ _ _ Hp) as Hsize. change (md_cur (mb tx) <= 1) in Hsize.
  pose proof (me_room _ _ _ _ _ Hp) as Hroom.
  set (m := fun p : Z => if p =? 0 then [7] else md (mb tx) (p - 10)).
  assert (md_cur (mb tx) = 1) as E1 by lia.
  pose proof (journaled_writes_reach_home e2e_alloc 5 (fun _ => zero_block) 0 [mk_bh 400 [7] true] [] [] tx
                32 m 1 2 e2e_state 0 [(0, 1)] 10 (100, 139) 5) as H.
  cbv zeta in H. rewrite E1 in H. destruct H as (s1 & Es1 & s2 & s3 & Es2 & Es3 & Hd & _).
  - intros i. exact zero_block_ok.
  - lia.
  - repeat constructor; cbn; lia.
  - constructor.
  - constructor.
  - vm_compute. split; congruence.
  - split; [intros k _ _; eexists; reflexivity|reflexivity].
  - reflexivity.
  - exact Eb.
  - rewrite Er. constructor; [|constructor]. rewrite Ed. split; [reflexivity|]. cbn. intros k Hk.
    replace k with 0 by lia. reflexivity.
  - intros i Hi. unfold m. destruct (Z.eqb_spec (10 + i) 0); [lia|]. f_equal. lia.
  - lia.
  - lia.
  - split; [|vm_compute; congruence|reflexivity].
    split; [split; vm_compute; done|vm_compute; done|constructor|reflexivity|vm_compute; done|reflexivity].
  - reflexivity.
  - left. reflexivity.
  - cbn. unfold log_len. cbn. lia.
  - split; intros []; vm_compute; try done; split; congruence.
  - intros l Hl%list_elem_of_singleton. subst l. unfold in_area, NOADDR. cbn. lia.
  - exists m, tx, [(0, 1)], s1, s2, s3. split; [exact Eb|]. split; [exact Es1|]. split; [exact Es2|]. split; [exact Es3|].
    rewrite Hd; [reflexivity|cbn; lia|lia].
Defined.
