(* ===== verification/StageArea.v ===== *)
(** * The stage area

    Fsync writes transactions into a circular area shared by all files,
    [secure_daemon/src/fs/sync.c]: a transaction is contiguous, so the blocks
    before the end of the area are skipped when it does not fit
    ([stage_gap_start]).  The specification is a queue of blocks: a
    reservation appends its blocks, the checkpoint removes the oldest. *)

From S2P Require Import Prelude Bio.

(** ** State and operations *)

(** The stage part of [struct journal_control_ctx]. *)
Record stage_ctx := mk_stage {
  stage_start : Z; stage_tail : Z; stage_gap_start : Z; stage_end : Z; stage_total : Z
}.

Definition stage_base (j : stage_ctx) : Z := u32 (stage_end j - stage_total j).

Definition get_stage_used_blks (j : stage_ctx) : Z :=
  let base := stage_base j in
  let head := u32 (stage_start j - base) in
  let tail := u32 (stage_tail j - base) in
  if tail <=? head then u32 (head - tail) else u32 (stage_total j - tail + head).

Definition stage_free_blks (j : stage_ctx) (nr_blks : Z) : stage_ctx :=
  let base := stage_base j in
  let tail := u32 (stage_tail j + nr_blks) in
  let '(tail, gap) :=
    if negb (stage_gap_start j =? 0) && (stage_gap_start j <=? tail)
    then (u32 (base + (tail - stage_gap_start j)), 0)
    else (tail, stage_gap_start j) in
  let tail := if stage_end j <=? tail then u32 (base + (tail - stage_end j)) else tail in
  mk_stage (stage_start j) tail gap (stage_end j) (stage_total j).

Definition get_stage_usage_pct (j : stage_ctx) (used_blks : Z) : Z :=
  if stage_total j =? 0 then 0 else s32 (u64 (used_blks * 100) / stage_total j).

(** Blocks lost before the end if [nr_blks] do not fit there. *)
Definition stage_gap (j : stage_ctx) (nr_blks : Z) : Z :=
  if stage_end j <? u32 (stage_start j + nr_blks) then u32 (stage_end j - stage_start j) else 0.

(** [stage_reserve_area], without synchronous checkpoints: the state, the
    start and the address of the commit block. *)
Definition stage_reserve_area (j : stage_ctx) (nr_blks : Z) : res (stage_ctx * Z * Z) :=
  let base := stage_base j in
  let free_blks := u32 (stage_total j - get_stage_used_blks j) in
  let gap := stage_gap j nr_blks in
  assert! (negb (free_blks <? u32 (nr_blks + gap))) in
  let new_start := u32 (stage_start j + nr_blks) in
  let* (start, new_start, gap_start) :=
    if stage_end j <? new_start then
      let new_start := u32 (base + nr_blks) in
      assert! (negb (stage_end j <? new_start)) in
      Ok (base, new_start, stage_start j)
    else Ok (stage_start j, new_start, stage_gap_start j) in
  assert! (negb (((stage_start j <? stage_tail j) || (start <? stage_start j)) &&
                 (stage_tail j <? new_start))) in
  let new_head := if new_start =? stage_end j then base else new_start in
  Ok (mk_stage new_head (stage_tail j) gap_start (stage_end j) (stage_total j),
      start, u64 (start + nr_blks - 1)).

(** [fill_journal_sb]: an empty area. *)
Definition stage_init (start end_ block_nr : Z) : stage_ctx := mk_stage start start 0 end_ block_nr.

(** ** Invariant and specification *)

(** The end of the part before the wrap-around. *)
Definition wrap_end (j : stage_ctx) : Z :=
  if stage_gap_start j =? 0 then stage_end j else stage_gap_start j.

(** The blocks that are not checkpointed, oldest first. *)
Definition live_blks (j : stage_ctx) : list Z :=
  if stage_tail j <=? stage_start j then seqz (stage_tail j) (stage_start j - stage_tail j)
  else seqz (stage_tail j) (wrap_end j - stage_tail j) ++
       seqz (stage_base j) (stage_start j - stage_base j).

Record stage_inv (j : stage_ctx) : Prop := {
  sv_base : 0 < stage_end j - stage_total j;
  sv_total : 0 < stage_total j;
  sv_end : 2 * stage_end j < U32_MOD;
  sv_head : stage_end j - stage_total j <= stage_start j < stage_end j;
  sv_tail : stage_end j - stage_total j <= stage_tail j < stage_end j;
  sv_gap : if stage_tail j <=? stage_start j then stage_gap_start j = 0
           else stage_gap_start j = 0 \/ stage_tail j <= stage_gap_start j < stage_end j
}.

Ltac stage_solve :=
  repeat match goal with
  | H : context [?a <=? ?b] |- _ => destruct (Z.leb_spec a b)
  | H : context [?a =? ?b] |- _ => destruct (Z.eqb_spec a b)
  end; try lia.

Lemma stage_base_eq j : stage_inv j -> stage_base j = stage_end j - stage_total j.
Proof. intros []. unfold stage_base. rewrite u32_id; lia. Qed.

Lemma used_eq j : stage_inv j ->
  get_stage_used_blks j =
    if stage_tail j <=? stage_start j then stage_start j - stage_tail j
    else stage_total j - stage_tail j + stage_start j.
Proof.
  intros Hi. pose proof (stage_base_eq j Hi) as Eb. destruct Hi as [H1 H2 H3 H4 H5 H6]. unfold get_stage_used_blks.
  rewrite Eb, (u32_id (stage_start j - _)), (u32_id (stage_tail j - _)) by lia.
  destruct (Z.leb_spec (stage_tail j) (stage_start j)); case_cmp; try lia; rewrite u32_id; lia.
Qed.

Lemma gap_eq j n : stage_inv j -> 0 < n <= stage_total j ->
  stage_gap j n = if stage_end j <? stage_start j + n then stage_end j - stage_start j else 0.
Proof.
  intros [H1 H2 H3 H4 H5 H6] Hn. unfold stage_gap. rewrite (u32_id (stage_start j + n)) by lia.
  case_cmp; [|done]. rewrite u32_id; lia.
Qed.

(** Used blocks: live blocks and the gap. *)
Lemma live_length j : stage_inv j ->
  Z.of_nat (length (live_blks j)) + (if stage_tail j <=? stage_start j then 0 else stage_end j - wrap_end j) =
    get_stage_used_blks j.
Proof.
  intros Hi. rewrite used_eq by done. unfold live_blks, wrap_end. rewrite stage_base_eq by done.
  destruct Hi as [H1 H2 H3 H4 H5 H6].
  destruct (stage_tail j <=? stage_start j) eqn:E; rewrite ?length_app, ?length_seqz; bool_prop; [lia|].
  destruct (Z.eqb_spec (stage_gap_start j) 0); lia.
Qed.

Lemma live_nodup j : stage_inv j -> NoDup (live_blks j).
Proof.
  intros Hi. unfold live_blks, wrap_end. rewrite stage_base_eq by done. destruct Hi as [H1 H2 H3 H4 H5 H6].
  destruct (stage_tail j <=? stage_start j) eqn:E; bool_prop; [apply NoDup_seqz|].
  apply NoDup_app. split; [apply NoDup_seqz|]. split; [|apply NoDup_seqz].
  intros x Hx%elem_of_seqz Hy%elem_of_seqz. destruct (Z.eqb_spec (stage_gap_start j) 0); lia.
Qed.

(** ** Reservation and release *)

(** The result of a reservation that fits strictly. *)
Definition reserved (j : stage_ctx) (n : Z) : stage_ctx * Z :=
  let wraps := stage_end j <? stage_start j + n in
  let start := if wraps then stage_end j - stage_total j else stage_start j in
  (mk_stage (if start + n =? stage_end j then stage_end j - stage_total j else start + n)
            (stage_tail j) (if wraps then stage_start j else stage_gap_start j)
            (stage_end j) (stage_total j), start).

Lemma stage_reserve_eq j n :
  stage_inv j -> 0 < n <= stage_total j -> n + stage_gap j n <= stage_total j - get_stage_used_blks j ->
  stage_reserve_area j n = Ok (reserved j n, (reserved j n).2 + n - 1).
Proof.
  intros Hi Hn Hroom. pose proof (stage_base_eq j Hi) as Eb. pose proof (used_eq j Hi) as Eu.
  pose proof (gap_eq j n Hi ltac:(lia)) as Eg. pose proof Hi as [H1 H2 H3 H4 H5 H6].
  rewrite Eg, Eu in Hroom. unfold stage_reserve_area, reserved. rewrite Eb, Eg, Eu.
  rewrite (u32_id (stage_start j + n)), (u32_id (_ - _ + n)) by lia.
  rewrite (u32_id (stage_total j - _)) by (destruct (stage_tail j <=? stage_start j) eqn:E; bool_prop; lia).
  rewrite (u32_id (n + _)) by (destruct (stage_end j <? stage_start j + n) eqn:E; bool_prop; lia).
  destruct (stage_tail j <=? stage_start j) eqn:E1, (stage_end j <? stage_start j + n) eqn:E2; bool_prop.
  all: cbn [res_bind assert_ fst snd].
  all: repeat (match goal with |- context [?a <? ?b] => destruct (Z.ltb_spec a b); try lia end;
               cbn [negb orb andb res_bind assert_]).
  all: by rewrite ?u64_id by lia.
Qed.

Lemma live_straight s t g e n : t <= s -> live_blks (mk_stage s t g e n) = seqz t (s - t).
Proof. intros H%Z.leb_le. unfold live_blks. cbn. by rewrite H. Qed.

Lemma live_wrapped s t g e n : s < t -> 0 <= e - n < U32_MOD ->
  live_blks (mk_stage s t g e n) =
    seqz t ((if g =? 0 then e else g) - t) ++ seqz (e - n) (s - (e - n)).
Proof. intros H%Z.leb_gt Hb. unfold live_blks, wrap_end, stage_base. cbn. by rewrite H, u32_id by lia. Qed.

Lemma stage_inv_straight s t g e n :
  stage_inv (mk_stage s t g e n) -> t <= s -> g = 0.
Proof. intros [] ?%Z.leb_le. cbn in *. case_match; [done|congruence]. Qed.

Lemma stage_inv_intro s t g e n :
  0 < e - n -> 0 < n -> 2 * e < U32_MOD -> e - n <= s < e -> e - n <= t < e ->
  (t <= s -> g = 0) -> (s < t -> g = 0 \/ t <= g < e) -> stage_inv (mk_stage s t g e n).
Proof. intros. split; cbn; try lia. case_match; bool_prop; auto. Qed.

Lemma stage_inv_gap s t g e n :
  stage_inv (mk_stage s t g e n) -> s < t -> g = 0 \/ t <= g < e.
Proof. intros [] ?%Z.leb_gt. cbn in *. case_match; [congruence|done]. Qed.

Lemma reserved_ok j n :
  stage_inv j -> 0 < n <= stage_total j -> n + stage_gap j n < stage_total j - get_stage_used_blks j ->
  stage_inv (reserved j n).1 /\ live_blks (reserved j n).1 = live_blks j ++ seqz (reserved j n).2 n /\
  stage_end j - stage_total j <= (reserved j n).2 /\ (reserved j n).2 + n <= stage_end j.
Proof.
  intros Hi Hn Hroom. rewrite used_eq, gap_eq in Hroom by done. destruct j as [s t g e N]. unfold reserved.
  pose proof (stage_inv_straight _ _ _ _ _ Hi) as Hs. pose proof (stage_inv_gap _ _ _ _ _ Hi) as Hw.
  destruct Hi as [H1 H2 H3 H4 H5 _]. cbn in *.
  destruct (Z.ltb_spec e (s + n)), (Z.leb_spec t s); try lia.
  - rewrite (proj2 (Z.eqb_neq (e - N + n) e)) by lia. split_and!; [apply stage_inv_intro; lia| |lia..].
    rewrite live_wrapped, live_straight by lia. rewrite (proj2 (Z.eqb_neq s 0)) by lia. do 2 f_equal; lia.
  - rewrite Hs by lia. destruct (Z.eqb_spec (s + n) e).
    + split_and!; [apply stage_inv_intro; lia| |lia..].
      rewrite live_wrapped, live_straight, Z.sub_diag by lia. cbn. rewrite app_nil_r.
      replace (e - t) with ((s - t) + n) by lia. rewrite seqz_app by lia. do 2 f_equal; lia.
    + split_and!; [apply stage_inv_intro; lia| |lia..].
      rewrite !live_straight by lia. replace (s + n - t) with ((s - t) + n) by lia.
      rewrite seqz_app by lia. do 2 f_equal; lia.
  - rewrite (proj2 (Z.eqb_neq (s + n) e)) by lia. split_and!; [apply stage_inv_intro; auto; lia| |lia..].
    rewrite !live_wrapped, <- app_assoc by lia. f_equal.
    replace (s + n - (e - N)) with ((s - (e - N)) + n) by lia. rewrite seqz_app by lia. do 2 f_equal; lia.
Qed.

Lemma drop_seqz a m n : 0 <= n <= m -> drop (Z.to_nat n) (seqz a m) = seqz (a + n) (m - n).
Proof.
  intros. replace m with (n + (m - n)) at 1 by lia. rewrite seqz_app by lia.
  rewrite drop_app_length' by (rewrite length_seqz; lia). done.
Qed.

(** The tail after freeing [n] blocks of a wrapped area whose first part ends
    at [w]. *)
Lemma live_free_wrapped s t w e N n :
  0 < e - N -> e - N <= s < t -> t <= w -> 0 <= n <= w - t + (s - (e - N)) ->
  drop (Z.to_nat n) (seqz t (w - t) ++ seqz (e - N) (s - (e - N))) =
    if w <=? t + n then seqz (e - N + (t + n - w)) (s - (e - N + (t + n - w)))
    else seqz (t + n) (w - (t + n)) ++ seqz (e - N) (s - (e - N)).
Proof.
  intros. destruct (Z.leb_spec w (t + n)).
  - rewrite drop_app_ge by (rewrite length_seqz; lia). rewrite length_seqz, <- Z2Nat.inj_sub by lia.
    rewrite drop_seqz by lia. f_equal; lia.
  - rewrite drop_app_le by (rewrite length_seqz; lia). rewrite drop_seqz by lia. do 2 f_equal; lia.
Qed.

(** Freeing the oldest [n] live blocks. *)
Lemma stage_free_ok j n :
  stage_inv j -> 0 <= n <= Z.of_nat (length (live_blks j)) ->
  stage_inv (stage_free_blks j n) /\ live_blks (stage_free_blks j n) = drop (Z.to_nat n) (live_blks j).
Proof.
  intros Hi Hn. pose proof (live_length j Hi) as Hl. rewrite used_eq in Hl by done.
  destruct j as [s t g e N].
  pose proof (stage_inv_straight _ _ _ _ _ Hi) as Hs. pose proof (stage_inv_gap _ _ _ _ _ Hi) as Hw.
  destruct Hi as [H1 H2 H3 H4 H5 _]. unfold stage_free_blks, stage_base, wrap_end in *. cbn in *.
  rewrite (u32_id (e - N)) by lia.
  destruct (Z.leb_spec t s).
  - rewrite Hs by lia. cbn. rewrite (u32_id (t + n)) by lia. rewrite (proj2 (Z.leb_gt e (t + n))) by lia.
    split; [apply stage_inv_intro; lia|]. rewrite !live_straight by lia.
    rewrite drop_seqz by lia. f_equal; lia.
  - rewrite (live_wrapped s t g e N) by lia. rewrite (u32_id (t + n)) by (destruct (g =? 0) eqn:?; bool_prop; lia).
    destruct (Z.eqb_spec g 0) as [-> | Hg]; cbn.
    + rewrite live_free_wrapped by lia. destruct (Z.leb_spec e (t + n)).
      * rewrite u32_id by lia. rewrite live_straight by lia. split; [apply stage_inv_intro; lia|done].
      * rewrite live_wrapped by lia. split; [apply stage_inv_intro; lia|done].
    + rewrite live_free_wrapped by lia. destruct (Z.leb_spec g (t + n)).
      * rewrite (u32_id (e - N + _)) by lia. rewrite (proj2 (Z.leb_gt e _)) by lia.
        rewrite live_straight by lia. split; [apply stage_inv_intro; lia|done].
      * rewrite (proj2 (Z.leb_gt e _)) by lia. rewrite live_wrapped, (proj2 (Z.eqb_neq g 0)) by lia.
        split; [apply stage_inv_intro; lia|done].
Qed.

Lemma stage_init_ok start end_ N :
  0 < N -> start = end_ - N -> 0 < start -> 2 * end_ < U32_MOD ->
  stage_inv (stage_init start end_ N) /\ live_blks (stage_init start end_ N) = [].
Proof.
  intros. unfold stage_init. split; [apply stage_inv_intro; lia|].
  rewrite live_straight, Z.sub_diag by lia. done.
Qed.

Lemma stage_reserve_abort j n :
  stage_inv j -> 0 < n <= stage_total j -> stage_total j - get_stage_used_blks j < n + stage_gap j n ->
  stage_reserve_area j n = Abort.
Proof.
  intros Hi Hn Hroom. unfold stage_reserve_area. rewrite used_eq, gap_eq in * by done.
  destruct Hi as [H1 H2 H3 H4 H5 _]. rewrite u32_id, (u32_id (n + _)) by (repeat case_match; bool_prop; lia).
  by rewrite (proj2 (Z.ltb_lt _ _) Hroom).
Qed.

(** An area whose head meets the tail accepts a further block. *)
Lemma reserve_at_tail t g e N :
  0 < e - N -> 0 < N -> 2 * e < U32_MOD -> e - N <= t < e ->
  get_stage_used_blks (mk_stage t t g e N) = 0 /\
  exists j', stage_reserve_area (mk_stage t t g e N) 1 = Ok (j', t, t).
Proof.
  intros. assert (get_stage_used_blks (mk_stage t t g e N) = 0) as Eu.
  { unfold get_stage_used_blks. cbn. by rewrite Z.leb_refl, Z.sub_diag. }
  split; [done|]. unfold stage_reserve_area, stage_gap. rewrite Eu. cbn [stage_start stage_tail stage_gap_start stage_end stage_total].
  rewrite (u32_id (t + 1)), (u32_id (N - 0)) by lia. rewrite (proj2 (Z.ltb_ge e (t + 1))) by lia.
  change (u32 (1 + 0)) with 1. rewrite (proj2 (Z.ltb_ge (N - 0) 1)) by lia.
  cbn. rewrite Z.ltb_irrefl. cbn. rewrite u64_id by lia. eexists. do 2 f_equal. lia.
Qed.

(** A reservation that takes exactly the free blocks is accepted, after
    which the head equals the tail and the area reads as empty: the next
    reservation is granted the block at the tail. *)
Lemma full_stage_area_reads_empty j n (Hinv : stage_inv j) (Hn : 0 < n <= stage_total j)
    (Hfull : n + stage_gap j n = stage_total j - get_stage_used_blks j) :
  exists j' start, stage_reserve_area j n = Ok (j', start, start + n - 1) /\
    get_stage_used_blks j' = 0 /\ exists j'', stage_reserve_area j' 1 = Ok (j'', stage_tail j, stage_tail j).
Proof.
  exists (reserved j n).1, (reserved j n).2. rewrite stage_reserve_eq by (done || lia).
  rewrite used_eq, gap_eq in Hfull by done. destruct j as [s t g e N].
  destruct Hinv as [H1 H2 H3 H4 H5 _]. cbn in *.
  assert (stage_start (reserved (mk_stage s t g e N) n).1 = t) as Eh.
  { unfold reserved. cbn. destruct (Z.ltb_spec e (s + n)), (Z.leb_spec t s); case_cmp; lia. }
  unfold reserved in *. cbn in *. rewrite Eh.
  destruct (reserve_at_tail t (if e <? s + n then s else g) e N) as [Eu [j'' Er]]; [lia..|].
  split; [done|]. split; [done|]. by exists j''.
Qed.

(** C11: the stage area is a FIFO queue of blocks.  A reservation that leaves a
    block free succeeds, returns a contiguous run inside the area, disjoint
    from every live block, and appends it to the queue; one that does not fit,
    the skipped blocks before the end included, panics.  One that fits exactly
    breaks the queue: it is granted, after which the area reads as empty, and
    the next reservation is granted the oldest block, live or not.  A checkpoint
    of [n] live blocks removes the [n] oldest, jumping over the skipped
    blocks. *)
Theorem stage_area_refines_queue j n (Hinv : stage_inv j) :
  (0 < n <= stage_total j -> n + stage_gap j n < stage_total j - get_stage_used_blks j ->
   exists j' start, stage_reserve_area j n = Ok (j', start, start + n - 1) /\ stage_inv j' /\
     live_blks j' = live_blks j ++ seqz start n /\ NoDup (live_blks j ++ seqz start n) /\
     stage_end j - stage_total j <= start /\ start + n <= stage_end j) /\
  (0 < n <= stage_total j -> n + stage_gap j n = stage_total j - get_stage_used_blks j ->
   exists j' start, stage_reserve_area j n = Ok (j', start, start + n - 1) /\ get_stage_used_blks j' = 0 /\
     exists j'', stage_reserve_area j' 1 = Ok (j'', stage_tail j, stage_tail j)) /\
  (0 < n <= stage_total j -> stage_total j - get_stage_used_blks j < n + stage_gap j n ->
   stage_reserve_area j n = Abort) /\
  (0 <= n <= Z.of_nat (length (live_blks j)) ->
   stage_inv (stage_free_blks j n) /\ live_blks (stage_free_blks j n) = drop (Z.to_nat n) (live_blks j)).
Proof.
  split_and!; [intros Hn Hr|by apply full_stage_area_reads_empty|by apply stage_reserve_abort|by apply stage_free_ok].
  pose proof (reserved_ok j n Hinv Hn Hr) as (Hi & Hl & Hb & He).
  exists (reserved j n).1, (reserved j n).2. split_and!; [|done..| |done|done].
  - rewrite stage_reserve_eq by (done || lia). by destruct (reserved j n).
  - rewrite <- Hl. by apply live_nodup.
Qed.

(** An area of 8 blocks at 100, wrapped around a gap at 106. *)
Definition demo_stage : stage_ctx := mk_stage 102 104 106 108 8.

Lemma demo_stage_inv : stage_inv demo_stage.
Proof. by apply stage_inv_intro; lia. Qed.

Lemma stage_area_refines_queue_witness :
  (exists j' start, stage_reserve_area demo_stage 1 = Ok (j', start, start + 1 - 1) /\ stage_inv j' /\
     live_blks j' = [104; 105; 100; 101] ++ seqz start 1 /\ NoDup ([104; 105; 100; 101] ++ seqz start 1) /\
     100 <= start /\ start + 1 <= 108) /\
  live_blks (stage_free_blks demo_stage 3) = [101].
Proof.
  pose proof (stage_area_refines_queue demo_stage 1 demo_stage_inv) as [H _].
  pose proof (stage_area_refines_queue demo_stage 3 demo_stage_inv) as (_ & _ & _ & H').
  split; [apply H; vm_compute; intuition congruence|apply H'; vm_compute; intuition congruence].
Defined.

(** Every accepted reservation lies inside the area. *)
Lemma stage_reserve_bounds j n j' start commit :
  stage_inv j -> 0 < n <= stage_total j -> stage_reserve_area j n = Ok (j', start, commit) ->
  commit = start + n - 1 /\ stage_end j - stage_total j <= start /\ start + n <= stage_end j /\
  (stage_end j < stage_start j + n -> start = stage_end j - stage_total j).
Proof.
  intros Hi Hn Hr.
  destruct (Z_le_gt_dec (n + stage_gap j n) (stage_total j - get_stage_used_blks j)).
  - rewrite stage_reserve_eq in Hr by done. destruct Hi as [H1 H2 H3 H4 H5 _]. unfold reserved in Hr. cbn in Hr.
    destruct (Z.ltb_spec (stage_end j) (stage_start j + n)); simplify_eq; lia.
  - rewrite stage_reserve_abort in Hr by (done || lia). done.
Qed.
