(* ===== verification/Layout.v ===== *)
(** * On-disk layout

    The geometry mkfs computes for the two file systems of the host,
    [secure_daemon/src/fs/sefs/mkfs.c] and
    [secure_daemon/src/fs/lwext4/ext4_mkfs.c], the stage context read from it
    at mount time and the geometry the device derives from the same superblock,
    [devfs/src/fs/sefs.c] and [devfs/src/fs/lwext4.c]. *)

From S2P Require Import Prelude Bio Sjd JournalLog StageArea.

(** ** SEFS *)

Definition SEFS_BLOCK_SIZE : Z := 4096.
(** [sizeof(struct sefs_inode)] is 72. *)
Definition SEFS_INODES_PER_BLOCK : Z := SEFS_BLOCK_SIZE / 72.
Definition BITMAP_BLK_NR : Z := SEFS_BLOCK_SIZE * 8.
Definition SEFS_FS_MAX_SIZE : Z := 2048 * 2 ^ 30.
Definition SEFS_MAGIC : Z := 0x012E0BAF.

(** The on-disk part of [struct sefs_sb_info]. *)
Record sefs_sb := mk_sefs_sb {
  nr_blocks : Z; nr_inodes : Z;
  nr_istore_blocks : Z; nr_ifree_blocks : Z; nr_bfree_blocks : Z;
  nr_free_inodes : Z; nr_free_blocks : Z;
  journal_sb : Z; nr_journal_blocks : Z; staging_sb : Z; nr_staging_blocks : Z
}.

Definition idiv_ceil (a b : Z) : Z :=
  let ret := a / b in if negb (a mod b =? 0) then u32 (ret + 1) else ret.

Definition write_superblock (st_size : Z) (has_journal : bool) : sefs_sb :=
  let nr_blocks := u32 (st_size / SEFS_BLOCK_SIZE) in
  let nr_journal := if has_journal then nr_blocks / 5 else 0 in
  let nr_inodes := u32 (nr_blocks - nr_journal) / 64 in
  let mod_ := nr_inodes mod SEFS_INODES_PER_BLOCK in
  let nr_inodes :=
    if negb (mod_ =? 0) then u32 (nr_inodes + (SEFS_INODES_PER_BLOCK - mod_)) else nr_inodes in
  let nr_istore := idiv_ceil nr_inodes SEFS_INODES_PER_BLOCK in
  let nr_ifree := idiv_ceil nr_inodes BITMAP_BLK_NR in
  let nr_bfree := idiv_ceil nr_blocks BITMAP_BLK_NR in
  let nr_data := u32 (nr_blocks - nr_istore - nr_ifree - nr_bfree - 2 * nr_journal - 1) in
  mk_sefs_sb nr_blocks nr_inodes nr_istore nr_ifree nr_bfree
    (u32 (nr_inodes - 1)) (u32 (nr_data - 1))
    (u32 (nr_blocks - 2 * nr_journal)) (u32 (nr_journal - 1))
    (u32 (nr_blocks - nr_journal)) (u32 (nr_journal - 1)).

Definition write_journal_super_block (sb : sefs_sb) : journal_superblock :=
  mk_jsb SEFS_MAGIC SUPER_BLK 0 4096 (journal_sb sb + 1) (nr_journal_blocks sb) 1 0 0 0 0.

(** The geometry fields of [struct staging_superblock]. *)
Record staging_superblock := mk_ssb { ssb_block_nr : Z; ssb_start : Z; ssb_end : Z }.

Definition write_stage_super_block (sb : sefs_sb) : staging_superblock :=
  mk_ssb (nr_staging_blocks sb) (staging_sb sb + 1) (nr_blocks sb).

(** [sefs_fill_journal_sb] and [ext4_fill_journal_sb]: the fields of the
    context are 32 bits wide. *)
Definition fill_journal_sb (ssb : staging_superblock) : stage_ctx :=
  stage_init (u32 (ssb_start ssb)) (u32 (ssb_end ssb)) (ssb_block_nr ssb).

(** [sefs_fill_super]: the bitmaps. *)
Definition ifree_first (sb : sefs_sb) : Z := u32 (nr_istore_blocks sb + 1).
Definition bfree_first (sb : sefs_sb) : Z := u32 (ifree_first sb + nr_ifree_blocks sb).

(** [sefs_journal_ops], on the device. *)
Definition first_stage_log_blk (sb : sefs_sb) : Z := u64 (staging_sb sb + 1).
Definition last_stage_log_blk (sb : sefs_sb) : Z := u64 (staging_sb sb + nr_staging_blocks sb - 1).
Definition sefs_get_inode_region_start : Z := 1.
Definition sefs_get_inode_region_end (sb : sefs_sb) : Z :=
  u64 (sefs_get_inode_region_start + nr_istore_blocks sb - 1).
Definition sefs_get_data_region_start (sb : sefs_sb) : Z :=
  u32 (1 + nr_istore_blocks sb + nr_ifree_blocks sb + nr_bfree_blocks sb).
Definition sefs_get_data_region_end (sb : sefs_sb) : Z := u64 (journal_sb sb - 1).

(** ** lwext4 *)

Definition EXT4_NR_JOURNAL_BLOCKS : Z := 15728640 * 4.
Definition EXT4_TOTAL_PARTITION_SIZE : Z := 180 * 1024 * 1024 * 1024 * 4.

(** The geometry fields of [struct ext4_mkfs_info]. *)
Record ext4_mkfs_info := mk_info {
  len : Z; block_size : Z; journal_blocks : Z;
  e_journal_sb : Z; e_nr_journal_blocks : Z; e_staging_sb : Z; e_nr_staging_blocks : Z
}.

(** The first part of [ext4_mkfs]. *)
Definition ext4_mkfs_geometry (part_size : Z) (info : ext4_mkfs_info) : res ext4_mkfs_info :=
  let* l := if len info =? 0
            then assert! (EXT4_TOTAL_PARTITION_SIZE <=? part_size) in Ok EXT4_TOTAL_PARTITION_SIZE
            else Ok (len info) in
  let bs := if block_size info =? 0 then 4096 else block_size info in
  let l := Z.land l (u64 (Z.lnot (u64 (bs - 1)))) in
  let '(jb, jsb, njb, ssb, nsb) :=
    if journal_blocks info =? 0 then
      let jb := u32 EXT4_NR_JOURNAL_BLOCKS in
      (jb, u64 (l / bs - u32 (2 * jb)), u32 (jb - 1), u64 (l / bs - jb), u32 (jb - 1))
    else (journal_blocks info, e_journal_sb info, e_nr_journal_blocks info,
          e_staging_sb info, e_nr_staging_blocks info) in
  let l := u64 (l - u64 (u64 (2 * njb) * bs)) in
  Ok (mk_info l bs jb jsb njb ssb nsb).

Definition ext4_write_journal_super_block (magic : Z) (info : ext4_mkfs_info) : journal_superblock :=
  mk_jsb magic SUPER_BLK 0 4096 (u64 (e_journal_sb info + 1)) (e_nr_journal_blocks info) 1 0 0 0 0.

Definition ext4_write_stage_super_block (info : ext4_mkfs_info) : staging_superblock :=
  mk_ssb (e_nr_staging_blocks info) (u64 (e_staging_sb info + 1))
         (u64 (e_staging_sb info + e_nr_staging_blocks info - 1)).

(** ** The SEFS partition *)

Lemma idiv_ceil_eq a b : 0 < b < U32_MOD -> 0 <= a < U32_MOD - b -> idiv_ceil a b = (a + b - 1) / b.
Proof.
  intros Hb Ha. unfold idiv_ceil. destruct (Z.eqb_spec (a mod b) 0) as [E | E]; cbn.
  - Z.div_mod_to_equations; nia.
  - rewrite u32_id; Z.div_mod_to_equations; nia.
Qed.

Record sefs_geom (sb : sefs_sb) (n : Z) : Prop := {
  sg_blocks : nr_blocks sb = n;
  sg_range : 100 <= n <= 2 ^ 29;
  sg_istore : 0 < nr_istore_blocks sb;
  sg_inodes : nr_inodes sb = SEFS_INODES_PER_BLOCK * nr_istore_blocks sb;
  sg_ifree : 0 < nr_ifree_blocks sb /\ nr_inodes sb <= BITMAP_BLK_NR * nr_ifree_blocks sb;
  sg_bfree : 0 < nr_bfree_blocks sb /\ n <= BITMAP_BLK_NR * nr_bfree_blocks sb;
  sg_jsb : journal_sb sb = n - 2 * (n / 5);
  sg_ssb : staging_sb sb = n - n / 5;
  sg_journal : nr_journal_blocks sb = n / 5 - 1;
  sg_staging : nr_staging_blocks sb = n / 5 - 1;
  sg_free : nr_free_blocks sb = journal_sb sb - 1 - nr_istore_blocks sb - nr_ifree_blocks sb - nr_bfree_blocks sb - 1;
  sg_data : 0 < nr_free_blocks sb;
  sg_free_ino : nr_free_inodes sb = nr_inodes sb - 1;
  sg_groups : nr_bfree_blocks sb <= 16384 /\ nr_ifree_blocks sb <= 16384
}.

Lemma write_superblock_ok st_size :
  100 * SEFS_BLOCK_SIZE < st_size <= SEFS_FS_MAX_SIZE ->
  sefs_geom (write_superblock st_size true) (st_size / SEFS_BLOCK_SIZE).
Proof.
  intros Hs. unfold SEFS_FS_MAX_SIZE, SEFS_BLOCK_SIZE in *. unfold write_superblock. cbn zeta. unfold SEFS_BLOCK_SIZE.
  set (n := st_size / 4096).
  assert (100 <= n <= 2 ^ 29) as Hn by (unfold n; Z.div_mod_to_equations; lia).
  rewrite (u32_id n) by lia. change SEFS_INODES_PER_BLOCK with 56. change BITMAP_BLK_NR with 32768.
  set (N := n / 5). assert (20 <= N /\ 5 * N <= n < 5 * N + 5) as HN by (unfold N; Z.div_mod_to_equations; lia).
  rewrite (u32_id (n - N)) by lia. set (i0 := (n - N) / 64).
  assert (1 <= i0 <= n / 64) as Hi0 by (unfold i0; Z.div_mod_to_equations; lia).
  assert (i0 <= 8388608) by (transitivity (n / 64); [lia|]; Z.div_mod_to_equations; lia).
  set (q := (i0 + 55) / 56). assert (56 * q <= i0 + 55 < 56 * q + 56) as Hq by (unfold q; Z.div_mod_to_equations; lia).
  assert ((if negb (i0 mod 56 =? 0) then u32 (i0 + (56 - i0 mod 56)) else i0) = 56 * q) as ->.
  { assert (i0 = 56 * (i0 / 56) + i0 mod 56) by (apply Z.div_mod; lia).
    pose proof (Z.mod_pos_bound i0 56 ltac:(lia)). destruct (Z.eqb_spec (i0 mod 56) 0); cbn; [|rewrite u32_id]; lia. }
  rewrite !idiv_ceil_eq by lia. 
  set (a := (56 * q + 56 - 1) / 56). assert (a = q) as -> by (unfold a; Z.div_mod_to_equations; lia).
  set (f := (56 * q + 32768 - 1) / 32768).
  assert (32768 * f <= 56 * q + 32767 < 32768 * f + 32768) as Hf by (unfold f; Z.div_mod_to_equations; lia).
  set (b := (n + 32768 - 1) / 32768).
  assert (32768 * b <= n + 32767 < 32768 * b + 32768) as Hb by (unfold b; Z.div_mod_to_equations; lia).
  assert (64 * i0 <= n) by (unfold i0; Z.div_mod_to_equations; lia).
  rewrite (u32_id (n - q - f - b - 2 * N - 1)), !u32_id by lia. fold N.
  split; cbn; change SEFS_INODES_PER_BLOCK with 56; change BITMAP_BLK_NR with 32768; try lia.
Qed.

(** The areas of a SEFS partition, in the order of the blocks: superblock,
    inode store, inode bitmap, block bitmap, data, journal superblock, log,
    stage superblock, stage area; the bounds are those the host mounts and the
    device derives. *)
Definition sefs_regions (sb : sefs_sb) : list (Z * Z) :=
  let jsb := write_journal_super_block sb in
  let ssb := write_stage_super_block sb in
  [(0, 1);
   (sefs_get_inode_region_start, sefs_get_inode_region_end sb - sefs_get_inode_region_start + 1);
   (ifree_first sb, nr_ifree_blocks sb);
   (bfree_first sb, nr_bfree_blocks sb);
   (sefs_get_data_region_start sb, sefs_get_data_region_end sb - sefs_get_data_region_start sb + 1);
   (journal_sb sb, 1);
   (jsb_first jsb, jsb_maxlen jsb);
   (staging_sb sb, 1);
   (ssb_start ssb, ssb_block_nr ssb)].

(** The regions are not empty and follow each other from [a] to [n]. *)
Fixpoint consecutive (a n : Z) (l : list (Z * Z)) : Prop :=
  match l with
  | [] => a = n
  | (s, k) :: l => s = a /\ 0 < k /\ consecutive (a + k) n l
  end.

Lemma consecutive_le a n l : consecutive a n l -> a <= n.
Proof. revert a. induction l as [|[s k] l IH]; cbn; intros a; [lia|]. intros (? & ? & ?%IH). lia. Qed.

Lemma consecutive_concat a n l :
  consecutive a n l -> concat ((fun r => seqz r.1 r.2) <$> l) = seqz a (n - a).
Proof.
  revert a. induction l as [|[s k] l IH]; cbn; intros a H; [subst; by rewrite Z.sub_diag|].
  destruct H as (-> & Hk & H). rewrite (IH _ H). apply consecutive_le in H.
  rewrite <- seqz_app by lia. f_equal. lia.
Qed.

Lemma sefs_regions_consecutive sb n : sefs_geom sb n -> consecutive 0 n (sefs_regions sb).
Proof.
  intros []. change (2 ^ 29) with 536870912 in *. assert (20 <= n / 5 /\ 5 * (n / 5) <= n) by (Z.div_mod_to_equations; lia).
  cbn. unfold sefs_get_data_region_start, sefs_get_data_region_end, sefs_get_inode_region_end,
    sefs_get_inode_region_start, bfree_first, ifree_first.
  rewrite !u64_id by lia. rewrite (u32_id (nr_istore_blocks sb + 1)), !u32_id by lia. lia.
Qed.

(** C12: for every device mkfs accepts, the areas of a journaled SEFS partition
    are not empty, tile the device, and the number of free blocks is the size
    of the data area less the root directory's block; the stage context
    mounted from it is empty and covers exactly the stage area, and the two
    logs of the device lie in the log area. *)
Theorem sefs_layout_partitions_device st_size
    (Hsize : 100 * SEFS_BLOCK_SIZE < st_size <= SEFS_FS_MAX_SIZE) :
  let sb := write_superblock st_size true in
  let jsb := write_journal_super_block sb in
  let j := fill_journal_sb (write_stage_super_block sb) in
  Forall (fun r => 0 < r.2) (sefs_regions sb) /\
  concat ((fun r => seqz r.1 r.2) <$> sefs_regions sb) = seqz 0 (st_size / SEFS_BLOCK_SIZE) /\
  nr_free_blocks sb = sefs_get_data_region_end sb - sefs_get_data_region_start sb /\
  stage_inv j /\ live_blks j = [] /\ stage_base j = staging_sb sb + 1 /\
  log_inv ((init_logs (jsb_first jsb) (jsb_maxlen jsb)).1, []) /\
  log_inv ((init_logs (jsb_first jsb) (jsb_maxlen jsb)).2, []) /\
  last (init_logs (jsb_first jsb) (jsb_maxlen jsb)).2 < staging_sb sb.
Proof.
  intros sb jsb j. pose proof (write_superblock_ok _ Hsize) as Hg. fold sb in Hg. clearbody sb.
  set (n := st_size / SEFS_BLOCK_SIZE) in *. pose proof (sefs_regions_consecutive sb n Hg) as Hc.
  assert (20 <= n / 5 /\ 5 * (n / 5) <= n <= 536870912) as Hn by (destruct Hg; Z.div_mod_to_equations; lia).
  pose proof (init_logs_ok (jsb_first jsb) (jsb_maxlen jsb)) as Hl.
  destruct (init_logs (jsb_first jsb) (jsb_maxlen jsb)) as [l1 l2].
  destruct Hg. unfold jsb, write_journal_super_block in Hl; cbn in Hl.
  destruct Hl as (Hl1 & Hl2 & Hl3 & Hl4 & Hl5 & _); [lia..|].
  assert (stage_inv j /\ live_blks j = []) as [Hi Hlive].
  { unfold j, fill_journal_sb, write_stage_super_block. cbn. rewrite !u32_id by lia. apply stage_init_ok; lia. }
  split_and!; [|by rewrite (consecutive_concat 0 n _ Hc), Z.sub_0_r| |done|done| |done|done|cbn; lia].
  - clear -Hc. revert Hc. generalize 0 at 1. induction (sefs_regions sb) as [|[s k] l IH]; intros a; [done|].
    intros (? & ? & ?%IH). by constructor.
  - unfold sefs_get_data_region_start, sefs_get_data_region_end. rewrite u64_id, u32_id by lia. lia.
  - rewrite stage_base_eq by done. unfold j. cbn. rewrite u32_id by lia. lia.
Qed.

Lemma sefs_layout_partitions_device_witness :
  let sb := write_superblock 4194304000 true in
  concat ((fun r => seqz r.1 r.2) <$> sefs_regions sb) = seqz 0 1024000 /\
  stage_base (fill_journal_sb (write_stage_super_block sb)) = 819201.
Proof.
  pose proof (sefs_layout_partitions_device 4194304000 ltac:(vm_compute; intuition congruence)) as H.
  cbn zeta in H. destruct H as (_ & H & _ & _ & _ & Hb & _). split; [exact H|]. rewrite Hb. by vm_compute.
Defined.

(** Although the device takes the last stage block to be one before the
    end of the stage area, no part of a SEFS stage transaction but its commit
    block can reach it, so the device never splits a stage transaction at the
    end of the area. *)
Lemma sefs_stage_tx_never_wraps st_size j n j' start commit b k
    (Hsize : 100 * SEFS_BLOCK_SIZE < st_size <= SEFS_FS_MAX_SIZE)
    (Hinv : stage_inv j)
    (Hend : stage_end j = stage_end (fill_journal_sb (write_stage_super_block (write_superblock st_size true))))
    (Htotal : stage_total j = stage_total (fill_journal_sb (write_stage_super_block (write_superblock st_size true))))
    (Hn : 0 < n <= stage_total j) (Hres : stage_reserve_area j n = Ok (j', start, commit))
    (Hb : start <= b) (Hk : 0 < k) (Hlast : b + k <= commit) :
  last_stage_log_blk (write_superblock st_size true) + 1 = stage_end j - 1 /\
  check_wrap_around b k (last_stage_log_blk (write_superblock st_size true)) = false.
Proof.
  pose proof (write_superblock_ok _ Hsize) as Hg. set (sb := write_superblock st_size true) in *. clearbody sb.
  pose proof (stage_reserve_bounds j n j' start commit Hinv Hn Hres) as (Hc & H1 & H2 & _).
  pose proof (sv_base j Hinv).
  set (m := st_size / SEFS_BLOCK_SIZE) in *.
  assert (20 <= m / 5 /\ 5 * (m / 5) <= m <= 536870912) as Hm by (destruct Hg; Z.div_mod_to_equations; lia).
  destruct Hg. cbn in Hend, Htotal. rewrite u32_id in Hend by lia.
  assert (last_stage_log_blk sb = m - 2) as ->.
  { unfold last_stage_log_blk. rewrite u64_id; lia. }
  split; [lia|]. unfold check_wrap_around. rewrite u64_id by lia. case_cmp; [lia|done].
Qed.

(** ** The lwext4 partition *)

(** The geometry for a length given in bytes and the default block size and
    journal size. *)
Lemma ext4_geometry part_size l :
  2 * EXT4_NR_JOURNAL_BLOCKS * 4096 < l < 2 ^ 43 ->
  exists info, ext4_mkfs_geometry part_size (mk_info l 0 0 0 0 0 0) = Ok info /\
    let L := l / 4096 in
    e_journal_sb info = L - 2 * EXT4_NR_JOURNAL_BLOCKS /\ e_nr_journal_blocks info = EXT4_NR_JOURNAL_BLOCKS - 1 /\
    e_staging_sb info = L - EXT4_NR_JOURNAL_BLOCKS /\ e_nr_staging_blocks info = EXT4_NR_JOURNAL_BLOCKS - 1 /\
    len info / 4096 = L - 2 * EXT4_NR_JOURNAL_BLOCKS + 2 /\ block_size info = 4096.
Proof.
  intros Hl. unfold ext4_mkfs_geometry. cbn [len block_size journal_blocks].
  change EXT4_NR_JOURNAL_BLOCKS with 62914560 in *. change (2 ^ 43) with 8796093022208 in Hl.
  rewrite (proj2 (Z.eqb_neq l 0)) by lia. cbn [res_bind]. change (0 =? 0) with true. cbv iota.
  set (l' := Z.land l _). assert (l' = 4096 * (l / 4096)) as El.
  { unfold l'. change (u64 (Z.lnot (u64 (4096 - 1)))) with (Z.ldiff (Z.ones 64) (Z.ones 12)).
    rewrite Z.ldiff_land, Z.land_assoc, Z.land_ones by lia. rewrite (Z.mod_small l) by lia.
    rewrite <- Z.ldiff_land, Z.ldiff_ones_r, Z.shiftr_div_pow2, Z.shiftl_mul_pow2 by lia. change (2 ^ 12) with 4096. lia. }
  eexists. split; [reflexivity|]. cbn -[Z.div u64 u32 Z.mul].
  assert (l' / 4096 = l / 4096) as -> by (rewrite El; Z.div_mod_to_equations; lia).
  set (L := l / 4096) in *. assert (125829120 <= L < 2147483648) by (unfold L; Z.div_mod_to_equations; lia).
  change (u32 62914560) with 62914560. change (u32 (2 * 62914560)) with 125829120.
  change (u32 (62914560 - 1)) with 62914559. change (u64 (u64 (2 * 62914559) * 4096)) with 515396067328.
  rewrite !u64_id by lia. split_and!; try lia; try done. rewrite El. Z.div_mod_to_equations; lia.
Qed.

(** With the stage superblock lwext4's mkfs writes, a reservation of two
    or more blocks that wraps around starts two blocks before the stage area:
    it covers the block of the stage superblock. *)
Lemma ext4_wrapped_stage_tx_overwrites_superblock part_size l info j n j' start commit
    (Hl : 2 * EXT4_NR_JOURNAL_BLOCKS * 4096 < l < 2 ^ 43)
    (Hinfo : ext4_mkfs_geometry part_size (mk_info l 0 0 0 0 0 0) = Ok info)
    (Hinv : stage_inv j)
    (Hend : stage_end j = stage_end (fill_journal_sb (ext4_write_stage_super_block info)))
    (Htotal : stage_total j = stage_total (fill_journal_sb (ext4_write_stage_super_block info)))
    (Hn : 2 <= n <= stage_total j) (Hwrap : stage_end j < stage_start j + n)
    (Hres : stage_reserve_area j n = Ok (j', start, commit)) :
  start = e_staging_sb info - 1 /\ e_staging_sb info ∈ seqz start n.
Proof.
  destruct (ext4_geometry part_size l Hl) as (info' & E & H1 & H2 & H3 & H4 & H5 & H6). rewrite Hinfo in E; injection E as <-.
  pose proof (stage_reserve_bounds j n j' start commit Hinv ltac:(lia) Hres) as (Hc & Hb1 & Hb2 & Hs).
  specialize (Hs Hwrap). cbn in Hend, Htotal.
  change EXT4_NR_JOURNAL_BLOCKS with 62914560 in *. change (2 ^ 43) with 8796093022208 in *.
  assert (125829120 <= l / 4096 < 2147483648) by (Z.div_mod_to_equations; lia).
  rewrite (u64_id (_ + _ - 1)), u32_id in Hend by lia. split; [lia|]. apply elem_of_seqz. lia.
Qed.

(** Lwext4's mkfs shrinks the file system by the journal and the stage
    area without their superblocks: the two last blocks of the file system
    are the journal superblock and the first block of the log. *)
Lemma ext4_fs_overlaps_journal part_size l info
    (Hl : 2 * EXT4_NR_JOURNAL_BLOCKS * 4096 < l < 2 ^ 43)
    (Hinfo : ext4_mkfs_geometry part_size (mk_info l 0 0 0 0 0 0) = Ok info) :
  let jsb := ext4_write_journal_super_block 0 info in
  let fs := seqz 0 (len info / block_size info) in
  e_journal_sb info ∈ fs /\ first (init_logs (jsb_first jsb) (jsb_maxlen jsb)).1 ∈ fs.
Proof.
  destruct (ext4_geometry part_size l Hl) as (info' & E & H1 & H2 & H3 & H4 & H5 & H6). rewrite Hinfo in E; injection E as <-.
  change EXT4_NR_JOURNAL_BLOCKS with 62914560 in *. change (2 ^ 43) with 8796093022208 in *.
  assert (125829120 <= l / 4096 < 2147483648) by (Z.div_mod_to_equations; lia).
  cbn.
  rewrite !elem_of_seqz, H6, H5, u64_id by lia. lia.
Qed.

