(* ===== verification/InodeAlloc.v ===== *)
(** * Growing a file

    [inode_alloc_blocks] of [secure_daemon/src/fs/inode.c], over the
    [get_blocks] operation of the file system the inode belongs to. *)

From S2P Require Import Prelude Bio Sjd JournalLog StageArea Layout.

Definition SIZE_TO_BLK_NR (size : Z) : Z := if size =? 0 then 0 else (size - 1) / 4096 + 1.

Definition nr_blks_to_alloc : Z := BITMAP_BLK_NR / 2.

Section inode.
(** [i_op->get_blocks] on the index [F]: whether a buffer extent is passed,
    the first block and the number of blocks to create. *)
Context {F : Type} (i_op_get_blocks : F -> bool -> Z -> Z -> res (F * Z)).

(** Each call is for at most [nr_blks_to_alloc] blocks, and only the first
    one passes the buffer extent. *)
Fixpoint alloc_loop (fuel : nat) (f : F) (be : bool) (cur cnt : Z) : res (F * Z) :=
  match fuel with
  | O => Blocked
  | S fuel =>
      if nr_blks_to_alloc <? cnt then
        let* (f, ret) := i_op_get_blocks f be cur nr_blks_to_alloc in
        if negb (ret =? 0) then Ok (f, -1)
        else alloc_loop fuel f false (cur + nr_blks_to_alloc) (cnt - nr_blks_to_alloc)
      else
        let* (f, ret) := i_op_get_blocks f be cur cnt in
        if negb (ret =? 0) then Ok (f, -1) else Ok (f, 0)
  end.

Definition inode_alloc_blocks (f : F) (old_size i_size : Z) : res (F * Z) :=
  let old := SIZE_TO_BLK_NR old_size in
  let new := SIZE_TO_BLK_NR i_size in
  if old =? new then Ok (f, 0)
  else if new <? old then Ok (f, 0)
  else alloc_loop (S (Z.to_nat (new - old))) f true old (new - old).
End inode.

Lemma SIZE_TO_BLK_NR_le s s' : 0 <= s <= s' -> 0 <= SIZE_TO_BLK_NR s <= SIZE_TO_BLK_NR s'.
Proof. intros H. unfold SIZE_TO_BLK_NR. destruct (Z.eqb_spec s 0), (Z.eqb_spec s' 0); Z.div_mod_to_equations; lia. Qed.
