(* ===== verification/Bitmap.v ===== *)
(** * Bitmaps

    The word-level bitmap routines of the SEFS allocator,
    [secure_daemon/src/fs/sefs/bitmap.c], and the first-fit search on top of
    them, [secure_daemon/src/fs/sefs/super.c].  A bitmap is an array of 64-bit
    words; its specification is the set of bits [bit m]. *)

From S2P Require Import Prelude.

(** ** Words *)

Definition BITS_PER_LONG : Z := 64.
Definition ULONG_MAX : Z := Z.ones 64.
Notation bitmap := (list Z) (only parsing).

Definition word (map : bitmap) (i : Z) : Z := nth (Z.to_nat i) map 0.
Definition set_word (map : bitmap) (i w : Z) : bitmap := <[Z.to_nat i := w]> map.

Definition BITMAP_FIRST_WORD_MASK (start : Z) : Z :=
  u64 (Z.shiftl ULONG_MAX (Z.land start (BITS_PER_LONG - 1))).
Definition BITMAP_LAST_WORD_MASK (nbits : Z) : Z :=
  Z.shiftr ULONG_MAX (Z.land (- nbits) (BITS_PER_LONG - 1)).

(** [__ffs], the [bsf] instruction: the lowest set bit. *)
Fixpoint ffs_from (fuel : nat) (w i : Z) : Z :=
  match fuel with
  | O => i
  | S fuel => if Z.testbit w i then i else ffs_from fuel w (i + 1)
  end.
Definition __ffs (w : Z) : Z := ffs_from 64 w 0.

(** ** Searching *)

(** The loop of [_find_next_bit]. *)
Fixpoint next_word (fuel : nat) (addr : bitmap) (nbits invert start tmp : Z) : Z :=
  if tmp =? 0 then
    let start := start + BITS_PER_LONG in
    if nbits <=? start then nbits
    else match fuel with
         | O => nbits
         | S fuel => next_word fuel addr nbits invert start (Z.lxor (word addr (start / BITS_PER_LONG)) invert)
         end
  else Z.min (start + __ffs tmp) nbits.

Definition _find_next_bit (addr : bitmap) (nbits start invert : Z) : Z :=
  if (nbits =? 0) || (nbits <=? start) then nbits
  else
    let tmp := Z.lxor (word addr (start / BITS_PER_LONG)) invert in
    let tmp := Z.land tmp (BITMAP_FIRST_WORD_MASK start) in
    next_word (length addr) addr nbits invert (Z.ldiff start (BITS_PER_LONG - 1)) tmp.

Definition find_next_bit (addr : bitmap) (size offset : Z) : Z := _find_next_bit addr size offset 0.
Definition find_next_zero_bit (addr : bitmap) (size offset : Z) : Z :=
  _find_next_bit addr size offset ULONG_MAX.

Fixpoint first_word (fuel : nat) (addr : bitmap) (size idx : Z) : Z :=
  if idx * BITS_PER_LONG <? size then
    if negb (word addr idx =? 0) then Z.min (idx * BITS_PER_LONG + __ffs (word addr idx)) size
    else match fuel with O => size | S fuel => first_word fuel addr size (idx + 1) end
  else size.
Definition find_first_bit (addr : bitmap) (size : Z) : Z := first_word (length addr) addr size 0.

(** ** Updating *)

(** [bitmap_set] and [bitmap_clear] differ in the operation on a word. *)
Fixpoint whole_words (op : Z -> Z -> Z) (fuel : nat) (map : bitmap) (p len bits mask : Z) :
    bitmap * Z * Z * Z :=
  match fuel with
  | O => (map, p, len, mask)
  | S fuel =>
      if 0 <=? len - bits then
        whole_words op fuel (set_word map p (op (word map p) mask)) (p + 1) (len - bits) BITS_PER_LONG ULONG_MAX
      else (map, p, len, mask)
  end.

Definition bitmap_op (op : Z -> Z -> Z) (map : bitmap) (start len : Z) : bitmap :=
  let size := u32 (start + len) in
  let bits := BITS_PER_LONG - start mod BITS_PER_LONG in
  let '(map, p, len, mask) :=
    whole_words op (S (length map)) map (start / BITS_PER_LONG) len bits (BITMAP_FIRST_WORD_MASK start) in
  if negb (len =? 0)
  then set_word map p (op (word map p) (Z.land mask (BITMAP_LAST_WORD_MASK size)))
  else map.

Definition bitmap_set : bitmap -> Z -> Z -> bitmap := bitmap_op Z.lor.
Definition bitmap_clear : bitmap -> Z -> Z -> bitmap := bitmap_op Z.ldiff.

(** ** First fit *)

(** The loop of [get_first_free_bits] from the set bit [bit]. *)
Fixpoint fit_loop (fuel : nat) (freemap : bitmap) (size len bit prev count : Z) : bitmap * Z :=
  match fuel with
  | O => (freemap, 0)
  | S fuel =>
      if bit <? size then
        let count := if negb (prev =? u32 (bit - 1)) then 0 else count in
        let count := u32 (count + 1) in
        if count =? len
        then (bitmap_clear freemap (u32 (bit - len + 1)) len, u32 (bit - len + 1))
        else fit_loop fuel freemap size len (find_next_bit freemap size (bit + 1)) bit count
      else (freemap, 0)
  end.

Definition get_first_free_bits (freemap : bitmap) (size len : Z) : bitmap * Z :=
  fit_loop (Z.to_nat size) freemap size len (find_first_bit freemap size) 0 0.

Definition put_free_bits (freemap : bitmap) (size i len : Z) : bitmap * Z :=
  if size <? u32 (i + len - 1) then (freemap, -1) else (bitmap_set freemap i len, 0).

(** ** The bits of a bitmap *)

Definition bit (m : bitmap) (i : Z) : bool := Z.testbit (word m (i / 64)) (i mod 64).

(** [words] of 64 bits each. *)
Definition bitmap_wf (m : bitmap) : Prop := Forall (fun w => 0 <= w < U64_MOD) m.
Definition nbits_of (m : bitmap) : Z := 64 * Z.of_nat (length m).

(** [r] is the first bit of [P] in [[a, n)], or [n]. *)
Definition next_in (P : Z -> bool) (a n r : Z) : Prop :=
  (forall i, a <= i < r -> P i = false) /\ (r = n \/ a <= r < n /\ P r = true).

Lemma next_in_fun P a n r r' : a <= n -> next_in P a n r -> next_in P a n r' -> r = r'.
Proof.
  intros Han [H1 H2] [H1' H2']. destruct (Z.lt_trichotomy r r') as [Hlt | [? | Hlt]]; [|done|].
  - destruct H2 as [-> | [Hr Hp]]; [lia|]. rewrite H1' in Hp by lia. done.
  - destruct H2' as [-> | [Hr Hp]]; [lia|]. rewrite H1 in Hp by lia. done.
Qed.

Lemma word_range m i : bitmap_wf m -> 0 <= word m i < U64_MOD.
Proof.
  intros Hm. unfold word. destruct (nth_in_or_default (Z.to_nat i) m 0) as [H | ->]; [|lia].
  unfold bitmap_wf in Hm. rewrite Forall_forall in Hm. apply Hm. by apply list_elem_of_In.
Qed.

Lemma word_set m p w q :
  0 <= p < Z.of_nat (length m) -> 0 <= q -> word (set_word m p w) q = if q =? p then w else word m q.
Proof.
  intros Hp Hq. unfold word, set_word. rewrite !nth_lookup. destruct (Z.eqb_spec q p) as [-> | Hne].
  - rewrite list_lookup_insert_eq by lia. done.
  - rewrite list_lookup_insert_ne by lia. done.
Qed.

Lemma testbit_small w i : 0 <= w < U64_MOD -> 64 <= i -> Z.testbit w i = false.
Proof.
  intros Hw Hi. destruct (Z.eq_dec w 0) as [-> | Hz]; [apply Z.bits_0|].
  apply Z.bits_above_log2; [lia|]. apply Z.log2_lt_pow2; [lia|].
  apply Z.lt_le_trans with (2 ^ 64); [change (2 ^ 64) with U64_MOD; lia|]. apply Z.pow_le_mono_r; lia.
Qed.

Lemma word_eq_0 w : 0 <= w < U64_MOD -> (w = 0 <-> forall i, 0 <= i < 64 -> Z.testbit w i = false).
Proof.
  intros Hw. split; [intros -> i _; apply Z.bits_0|]. intros H. apply Z.bits_inj_0. intros i.
  destruct (Z_lt_le_dec i 0); [by apply Z.testbit_neg_r|].
  destruct (Z_lt_le_dec i 64); [apply H; lia|by apply testbit_small].
Qed.

Lemma ffs_from_spec fuel w i :
  (exists k, i <= k < i + Z.of_nat fuel /\ Z.testbit w k = true) ->
  i <= ffs_from fuel w i < i + Z.of_nat fuel /\ Z.testbit w (ffs_from fuel w i) = true /\
  forall k, i <= k < ffs_from fuel w i -> Z.testbit w k = false.
Proof.
  revert i. induction fuel as [|fuel IH]; intros i (k & Hk & Ht); [lia|]. cbn.
  destruct (Z.testbit w i) eqn:E; [split_and!; [lia..|done|intros; lia]|].
  destruct (IH (i + 1)) as (H1 & H2 & H3).
  { exists k. split; [|done]. destruct (Z.eq_dec k i); [congruence|lia]. }
  split_and!; [lia..|done|]. intros k' Hk'. destruct (Z.eq_dec k' i); [congruence|]. apply H3. lia.
Qed.

Lemma ffs_spec w : 0 < w < U64_MOD ->
  0 <= __ffs w < 64 /\ Z.testbit w (__ffs w) = true /\ forall k, 0 <= k < __ffs w -> Z.testbit w k = false.
Proof.
  intros Hw. apply (ffs_from_spec 64 w 0). exists (Z.log2 w).
  split; [|apply Z.bit_log2; lia]. split; [apply Z.log2_nonneg|]. apply Z.log2_lt_pow2; [lia|].
  change (2 ^ (0 + Z.of_nat 64)) with U64_MOD. lia.
Qed.

Lemma first_mask_bits start i : 0 <= i < 64 ->
  Z.testbit (BITMAP_FIRST_WORD_MASK start) i = (start mod 64 <=? i).
Proof.
  intros Hi. unfold BITMAP_FIRST_WORD_MASK, ULONG_MAX, BITS_PER_LONG, u64.
  change (64 - 1) with (Z.ones 6). rewrite Z.land_ones by lia. change (2 ^ 6) with 64.
  change U64_MOD with (2 ^ 64). rewrite Z.mod_pow2_bits_low by lia.
  pose proof (Z.mod_pos_bound start 64). rewrite Z.shiftl_spec by lia.
  destruct (Z.leb_spec (start mod 64) i).
  - rewrite Z.ones_spec_low; [done|lia].
  - by rewrite Z.testbit_neg_r by lia.
Qed.

Lemma last_mask_bits n i : 0 < n mod 64 -> 0 <= i < 64 ->
  Z.testbit (BITMAP_LAST_WORD_MASK n) i = (i <? n mod 64).
Proof.
  intros Hn Hi. unfold BITMAP_LAST_WORD_MASK, ULONG_MAX, BITS_PER_LONG.
  change (64 - 1) with (Z.ones 6). rewrite Z.land_ones by lia. change (2 ^ 6) with 64.
  rewrite Z_mod_nz_opp_full by lia. pose proof (Z.mod_pos_bound n 64).
  rewrite Z.shiftr_spec by lia. destruct (Z.ltb_spec i (n mod 64)).
  - rewrite Z.ones_spec_low; [done|lia].
  - rewrite Z.ones_spec_high; [done|lia].
Qed.

Lemma ldiff63 s : Z.ldiff s (BITS_PER_LONG - 1) = 64 * (s / 64).
Proof.
  unfold BITS_PER_LONG. change (64 - 1) with (Z.ones 6).
  rewrite Z.ldiff_ones_r, Z.shiftr_div_pow2, Z.shiftl_mul_pow2 by lia. change (2 ^ 6) with 64. lia.
Qed.

Lemma bit_word m k b : 0 <= b < 64 -> bit m (64 * k + b) = Z.testbit (word m k) b.
Proof.
  intros Hb. unfold bit. replace ((64 * k + b) / 64) with k by (Z.div_mod_to_equations; lia).
  by replace ((64 * k + b) mod 64) with b by (Z.div_mod_to_equations; lia).
Qed.

(** A bit of the words after inversion. *)
Definition xbit (m : bitmap) (invert i : Z) : bool := xorb (bit m i) (Z.testbit invert (i mod 64)).

Lemma xbit_word m invert k b : 0 <= b < 64 ->
  xbit m invert (64 * k + b) = Z.testbit (Z.lxor (word m k) invert) b.
Proof.
  intros Hb. unfold xbit. rewrite bit_word, Z.lxor_spec by done.
  by replace ((64 * k + b) mod 64) with b by (Z.div_mod_to_equations; lia).
Qed.

Lemma bits_bound x : 0 <= x -> (forall i, 64 <= i -> Z.testbit x i = false) -> 0 <= x < U64_MOD.
Proof.
  intros Hx H. split; [done|]. destruct (Z.eq_dec x 0) as [-> | Hz]; [lia|].
  change U64_MOD with (2 ^ 64). apply Z.log2_lt_pow2; [lia|].
  destruct (Z_lt_le_dec (Z.log2 x) 64) as [? | Hle]; [done|].
  pose proof (Z.bit_log2 x ltac:(lia)) as Hb. by rewrite H in Hb.
Qed.

Lemma lxor_range a b : 0 <= a < U64_MOD -> 0 <= b < U64_MOD -> 0 <= Z.lxor a b < U64_MOD.
Proof.
  intros. apply bits_bound; [apply Z.lxor_nonneg; lia|].
  intros. by rewrite Z.lxor_spec, !testbit_small.
Qed.

Lemma land_range a b : 0 <= a < U64_MOD -> 0 <= Z.land a b < U64_MOD.
Proof. intros. apply bits_bound; [apply Z.land_nonneg; lia|]. intros. by rewrite Z.land_spec, testbit_small. Qed.

(** [tmp] holds the bits of word [k] from bit [a] of the bitmap on. *)
Definition window (m : bitmap) (invert k a tmp : Z) : Prop :=
  0 <= tmp < U64_MOD /\
  forall b, 0 <= b < 64 -> Z.testbit tmp b = (a <=? 64 * k + b) && xbit m invert (64 * k + b).

Lemma window_zero m invert k a i :
  window m invert k a 0 -> 64 * k <= a <= i -> i < 64 * k + 64 -> xbit m invert i = false.
Proof.
  intros [_ H] Ha Hi. specialize (H (i - 64 * k) ltac:(lia)). rewrite Z.bits_0 in H.
  replace (64 * k + (i - 64 * k)) with i in H by lia. destruct (Z.leb_spec a i); [done|lia].
Qed.

Lemma window_ffs m invert k a tmp nbits :
  window m invert k a tmp -> tmp <> 0 -> 64 * k <= a < nbits ->
  next_in (xbit m invert) a nbits (Z.min (64 * k + __ffs tmp) nbits).
Proof.
  intros [Ht H] Hz Ha. destruct (ffs_spec tmp ltac:(lia)) as (H1 & H2 & H3).
  rewrite H in H2 by lia. apply andb_true_iff in H2 as [H2 H2']. bool_prop. split.
  - intros i Hi. specialize (H3 (i - 64 * k) ltac:(lia)). rewrite H in H3 by lia.
    replace (64 * k + (i - 64 * k)) with i in H3 by lia. destruct (Z.leb_spec a i); [done|lia].
  - destruct (Z_lt_le_dec (64 * k + __ffs tmp) nbits); [right; rewrite Z.min_l by lia; split; [lia|done]|left; lia].
Qed.

Lemma next_in_later P a a' n r :
  (forall i, a <= i < a' -> P i = false) -> a <= a' -> next_in P a' n r -> next_in P a n r.
Proof.
  intros H Ha [G1 G2]. split.
  - intros i Hi. destruct (Z_lt_le_dec i a'); [apply H|apply G1]; lia.
  - destruct G2 as [? | [? ?]]; [by left|right; split; [lia|done]].
Qed.

Lemma window_word m invert k : bitmap_wf m -> 0 <= invert < U64_MOD ->
  window m invert k (64 * k) (Z.lxor (word m k) invert).
Proof.
  intros Hm Hi. split; [apply lxor_range; [by apply word_range|done]|].
  intros b Hb. rewrite xbit_word by done. destruct (Z.leb_spec (64 * k) (64 * k + b)); [done|lia].
Qed.

Lemma next_word_spec fuel m nbits invert k tmp a :
  bitmap_wf m -> 0 <= invert < U64_MOD -> 0 <= k -> 64 * k <= a < 64 * k + 64 ->
  nbits <= nbits_of m -> a < nbits -> Z.of_nat (length m) <= k + 1 + Z.of_nat fuel ->
  window m invert k a tmp ->
  next_in (xbit m invert) a nbits (next_word fuel m nbits invert (64 * k) tmp).
Proof.
  intros Hm Hinv. unfold nbits_of. revert k tmp a.
  induction fuel as [|fuel IH]; intros k tmp a Hk Ha Hn Han Hf Hw; cbn; unfold BITS_PER_LONG.
  all: destruct (Z.eqb_spec tmp 0) as [-> | Hz]; [|apply window_ffs; done || lia].
  all: destruct (Z.leb_spec nbits (64 * k + 64));
    [split; [intros; eapply window_zero; [done|lia..]|by left]|].
  - lia.
  - replace (64 * k + 64) with (64 * (k + 1)) in * by lia.
    replace (64 * (k + 1) / 64) with (k + 1) by (Z.div_mod_to_equations; lia).
    apply next_in_later with (64 * (k + 1)); [intros; eapply window_zero; [done|lia..]|lia|].
    apply IH; try lia. by apply window_word.
Qed.

Lemma _find_next_bit_spec m nbits start invert :
  bitmap_wf m -> 0 <= invert < U64_MOD -> 0 <= start -> 0 <= nbits <= nbits_of m ->
  next_in (xbit m invert) start nbits (_find_next_bit m nbits start invert).
Proof.
  intros Hm Hi Hs Hn. unfold _find_next_bit. destruct (Z.eqb_spec nbits 0) as [-> | Hz]; cbn.
  { split; [intros; lia|by left]. }
  destruct (Z.leb_spec nbits start); [split; [intros; lia|by left]|].
  rewrite ldiff63. unfold BITS_PER_LONG. unfold nbits_of in *.
  apply next_word_spec; try done; try (unfold nbits_of; Z.div_mod_to_equations; lia).
  split.
  - apply land_range, lxor_range; [by apply word_range|done].
  - intros b Hb. rewrite Z.land_spec, first_mask_bits, xbit_word, andb_comm by done. f_equal.
    apply eq_true_iff_eq. rewrite !Z.leb_le. Z.div_mod_to_equations; lia.
Qed.

Lemma find_next_bit_ok m nbits start :
  bitmap_wf m -> 0 <= start -> 0 <= nbits <= nbits_of m ->
  next_in (bit m) start nbits (find_next_bit m nbits start).
Proof.
  intros. destruct (_find_next_bit_spec m nbits start 0) as [H1' H2']; [done|lia|done|done|].
  assert (forall i, xbit m 0 i = bit m i) as E by (intros; unfold xbit; by rewrite Z.bits_0, xorb_false_r).
  split; [intros i Hi; rewrite <- E; by apply H1'|]. by rewrite <- E.
Qed.

Lemma find_next_zero_bit_ok m nbits start :
  bitmap_wf m -> 0 <= start -> 0 <= nbits <= nbits_of m ->
  next_in (fun i => negb (bit m i)) start nbits (find_next_zero_bit m nbits start).
Proof.
  intros. destruct (_find_next_bit_spec m nbits start ULONG_MAX) as [H1' H2']; [done|done|done|done|].
  assert (forall i, xbit m ULONG_MAX i = negb (bit m i)) as E.
  { intros i. unfold xbit, ULONG_MAX. pose proof (Z.mod_pos_bound i 64).
    rewrite Z.ones_spec_low by lia. apply xorb_true_r. }
  split; [intros i Hi; rewrite <- E; by apply H1'|]. by rewrite <- E.
Qed.

Lemma first_word_spec fuel m size k :
  bitmap_wf m -> 0 <= k -> size <= nbits_of m -> Z.of_nat (length m) <= k + Z.of_nat fuel ->
  next_in (bit m) (64 * k) size (first_word fuel m size k).
Proof.
  intros Hm. unfold nbits_of. revert k. induction fuel as [|fuel IH]; intros k Hk Hs Hf; cbn; unfold BITS_PER_LONG.
  all: destruct (Z.ltb_spec (k * 64) size); [|split; [intros; lia|by left]].
  { lia. }
  assert (window m 0 k (64 * k) (word m k)) as Hw.
  { rewrite <- (Z.lxor_0_r (word m k)). by apply window_word. }
  assert (forall i, xbit m 0 i = bit m i) as E by (intros; unfold xbit; by rewrite Z.bits_0, xorb_false_r).
  destruct (Z.eqb_spec (word m k) 0) as [Hz | Hz]; cbn.
  - rewrite Hz in Hw. apply next_in_later with (64 * (k + 1)); [|lia|apply IH; lia].
    intros i Hi. rewrite <- E. eapply window_zero; [done|lia..].
  - rewrite (Z.mul_comm k 64). destruct (window_ffs m 0 k (64 * k) (word m k) size) as [H1 H2]; [done..|lia|].
    split; [intros i Hi; rewrite <- E; by apply H1|]. by rewrite <- E.
Qed.

Lemma find_first_bit_ok m size :
  bitmap_wf m -> 0 <= size <= nbits_of m -> next_in (bit m) 0 size (find_first_bit m size).
Proof. intros. apply (first_word_spec (length m) m size 0); done || lia. Qed.

(** ** Updates *)

Lemma bitmap_wf_set m p w : bitmap_wf m -> 0 <= w < U64_MOD -> bitmap_wf (set_word m p w).
Proof. intros. unfold bitmap_wf, set_word. by apply Forall_insert. Qed.

Lemma length_set_word m p w : length (set_word m p w) = length m.
Proof. apply length_insert. Qed.

(** An operation on words that works bit by bit with [g]. *)
Record bit_op (op : Z -> Z -> Z) (g : bool -> bool -> bool) : Prop := {
  bo_bits : forall w m i, Z.testbit (op w m) i = g (Z.testbit w i) (Z.testbit m i);
  bo_range : forall w m, 0 <= w < U64_MOD -> 0 <= m < U64_MOD -> 0 <= op w m < U64_MOD;
  bo_false : forall x, g x false = x
}.

Lemma lor_bit_op : bit_op Z.lor orb.
Proof.
  split; [apply Z.lor_spec| |apply orb_false_r]. intros. apply bits_bound; [apply Z.lor_nonneg; lia|].
  intros. by rewrite Z.lor_spec, !testbit_small.
Qed.

Lemma ldiff_bit_op : bit_op Z.ldiff (fun x y => x && negb y).
Proof.
  split; [apply Z.ldiff_spec| |apply andb_true_r]. intros. apply bits_bound; [apply Z.ldiff_nonneg; lia|].
  intros. by rewrite Z.ldiff_spec, testbit_small.
Qed.

(** One word updated at a mask covers bits [[lo, hi)] of the word. *)
Lemma set_word_bits op g m p mask lo hi :
  bit_op op g -> 0 <= p < Z.of_nat (length m) -> 0 <= lo -> hi <= 64 ->
  (forall b, 0 <= b < 64 -> Z.testbit mask b = (lo <=? b) && (b <? hi)) ->
  forall i, 0 <= i -> bit (set_word m p (op (word m p) mask)) i =
    g (bit m i) ((64 * p + lo <=? i) && (i <? 64 * p + hi)).
Proof.
  intros Hop Hp Hlo Hhi Hmask i Hi. unfold bit. assert (0 <= i / 64) by (Z.div_mod_to_equations; lia).
  assert (0 <= i mod 64 < 64) by (Z.div_mod_to_equations; lia).
  rewrite word_set by done. destruct (Z.eqb_spec (i / 64) p) as [E | E].
  - rewrite (bo_bits op g), Hmask by done. rewrite E. f_equal.
    pose proof (Z.div_mod i 64 ltac:(lia)). f_equal; apply eq_true_iff_eq; rewrite ?Z.leb_le, ?Z.ltb_lt; lia.
  - pose proof (Z.div_mod i 64 ltac:(lia)). replace ((64 * p + lo <=? i) && (i <? 64 * p + hi)) with false.
    + by rewrite (bo_false op g).
    + symmetry. apply andb_false_iff. rewrite Z.leb_gt, Z.ltb_ge. lia.
Qed.

Definition first_mask (off mask : Z) : Prop :=
  0 <= mask < U64_MOD /\ forall b, 0 <= b < 64 -> Z.testbit mask b = (off <=? b).

Lemma ones_first_mask : first_mask 0 ULONG_MAX.
Proof.
  split; [done|]. intros b Hb. unfold ULONG_MAX. rewrite Z.ones_spec_low by lia. symmetry. apply Z.leb_le. lia.
Qed.

(** The part of an update that [whole_words] leaves. *)
Lemma whole_words_spec op g fuel m p len off mask :
  bit_op op g -> bitmap_wf m -> 0 <= p -> 0 <= off < 64 -> 0 <= len -> first_mask off mask ->
  64 * p + off + len <= nbits_of m -> Z.of_nat (length m) < p + Z.of_nat fuel ->
  exists m' p' len' mask' off', whole_words op fuel m p len (64 - off) mask = (m', p', len', mask') /\
    bitmap_wf m' /\ length m' = length m /\ 0 <= p' /\ 0 <= off' < 64 /\ 0 <= len' < 64 - off' /\
    first_mask off' mask' /\ 64 * p' + off' + len' = 64 * p + off + len /\
    64 * p + off <= 64 * p' + off' /\
    forall i, 0 <= i -> bit m' i = g (bit m i) ((64 * p + off <=? i) && (i <? 64 * p' + off')).
Proof.
  intros Hop. unfold nbits_of. revert m p len off mask.
  induction fuel as [|fuel IH]; intros m p len off mask Hm Hp Hoff Hlen Hmask Hn Hf; cbn -[Z.mul]; [lia|].
  unfold BITS_PER_LONG. destruct (Z.leb_spec 0 (len - (64 - off))).
  - set (m1 := set_word m p (op (word m p) mask)).
    assert (length m1 = length m) as El by apply length_set_word.
    destruct (IH m1 (p + 1) (len - (64 - off)) 0 ULONG_MAX) as (m' & p' & len' & mask' & off' & E & G1 & G2 & G3 & G4 & G5 & G6 & G7 & G8 & G9);
      rewrite ?El; try lia.
    { apply bitmap_wf_set; [done|]. apply (bo_range op g Hop); [by apply word_range|apply Hmask]. }
    { apply ones_first_mask. }
    rewrite Z.sub_0_r in E. exists m', p', len', mask', off'. split_and!; try done; try lia.
    intros i Hi. rewrite G9 by done. unfold m1. rewrite (set_word_bits op g m p mask off 64) by (try done; try lia;
      intros b Hb; rewrite (proj2 Hmask) by done; rewrite (proj2 (Z.ltb_lt b 64)) by lia; by rewrite andb_true_r).
    destruct (Z.leb_spec (64 * p + off) i), (Z.ltb_spec i (64 * p + 64)), (Z.leb_spec (64 * (p + 1) + 0) i),
      (Z.ltb_spec i (64 * p' + off')); cbn; rewrite ?(bo_false op g Hop); done || lia.
  - exists m, p, len, mask, off. split_and!; try done; try lia.
    intros i Hi. destruct (Z.leb_spec (64 * p + off) i), (Z.ltb_spec i (64 * p + off)); cbn; rewrite ?(bo_false op g Hop); done || lia.
Qed.

Lemma bitmap_op_spec op g m start len :
  bit_op op g -> bitmap_wf m -> 0 <= start -> 0 <= len -> start + len <= nbits_of m -> start + len < U32_MOD ->
  bitmap_wf (bitmap_op op m start len) /\ length (bitmap_op op m start len) = length m /\
  forall i, 0 <= i -> bit (bitmap_op op m start len) i = g (bit m i) ((start <=? i) && (i <? start + len)).
Proof.
  intros Hop Hm Hs Hl Hn Hu. unfold bitmap_op. rewrite u32_id by lia.
  pose proof (Z.div_mod start 64 ltac:(lia)) as Hd. pose proof (Z.mod_pos_bound start 64 ltac:(lia)) as Hb.
  assert (first_mask (start mod 64) (BITMAP_FIRST_WORD_MASK start)) as Hmask.
  { split; [unfold BITMAP_FIRST_WORD_MASK, u64; apply Z.mod_pos_bound; lia|]. intros. by apply first_mask_bits. }
  assert (0 <= start / 64) by (Z.div_mod_to_equations; lia).
  unfold BITS_PER_LONG. cbn -[Z.mul whole_words].
  destruct (whole_words_spec op g (S (length m)) m (start / 64) len (start mod 64) (BITMAP_FIRST_WORD_MASK start))
    as (m' & p' & len' & mask' & off' & E & G1 & G2 & G3 & G4 & G5 & G6 & G7 & G8 & G9); try done; try lia.
  rewrite E. destruct (Z.eqb_spec len' 0) as [-> | Hz]; cbn.
  - split_and!; [done..|]. intros i Hi. rewrite G9 by done. do 2 f_equal; f_equal; lia.
  - unfold nbits_of in *. assert (p' < Z.of_nat (length m')) by lia.
    assert ((start + len) mod 64 = off' + len') as Em.
    { replace (start + len) with (off' + len' + p' * 64) by lia. rewrite Z_mod_plus_full, Z.mod_small; lia. }
    split_and!.
    + apply bitmap_wf_set; [done|]. apply (bo_range op g Hop); [by apply word_range|apply land_range, G6].
    + by rewrite length_set_word.
    + intros i Hi. rewrite (set_word_bits op g m' p' _ off' (off' + len')); try done; try lia.
      * rewrite G9 by done.
        destruct (Z.leb_spec (64 * (start / 64) + start mod 64) i), (Z.ltb_spec i (64 * p' + off')),
          (Z.leb_spec (64 * p' + off') i), (Z.ltb_spec i (64 * p' + (off' + len'))), (Z.leb_spec start i),
          (Z.ltb_spec i (start + len)); cbn; rewrite ?(bo_false op g Hop); done || lia.
      * intros b Hb'. rewrite Z.land_spec, (proj2 G6), last_mask_bits, Em by lia. done.
Qed.

Lemma bitmap_set_ok m start len :
  bitmap_wf m -> 0 <= start -> 0 <= len -> start + len <= nbits_of m -> start + len < U32_MOD ->
  bitmap_wf (bitmap_set m start len) /\ length (bitmap_set m start len) = length m /\
  forall i, 0 <= i -> bit (bitmap_set m start len) i = bit m i || (start <=? i) && (i <? start + len).
Proof. apply bitmap_op_spec, lor_bit_op. Qed.

Lemma bitmap_clear_ok m start len :
  bitmap_wf m -> 0 <= start -> 0 <= len -> start + len <= nbits_of m -> start + len < U32_MOD ->
  bitmap_wf (bitmap_clear m start len) /\ length (bitmap_clear m start len) = length m /\
  forall i, 0 <= i -> bit (bitmap_clear m start len) i = bit m i && negb ((start <=? i) && (i <? start + len)).
Proof. apply (bitmap_op_spec _ _ m start len ldiff_bit_op). Qed.

(** ** First fit *)

Definition run (m : bitmap) (p len : Z) : Prop := forall i, p <= i < p + len -> bit m i = true.

(** [p] is the lowest start of a run of [len] set bits below [size]. *)
Definition first_fit (m : bitmap) (size len p : Z) : Prop :=
  0 <= p /\ p + len <= size /\ run m p len /\ forall p', 0 <= p' < p -> ~ run m p' len.

Definition no_fit (m : bitmap) (size len : Z) : Prop :=
  forall p, 0 <= p -> p + len <= size -> ~ run m p len.

(** The search has seen the bits below [e]; [count] set bits end there. *)
Record fit_inv (m : bitmap) (size len e b prev count : Z) : Prop := {
  fi_e : 0 <= e <= size;
  fi_next : next_in (bit m) e size b;
  fi_count : 0 <= count < len /\ count <= e;
  fi_run : run m (e - count) count;
  fi_stop : e - count = 0 \/ bit m (e - count - 1) = false;
  fi_none : no_fit m e len;
  fi_prev : count = 0 /\ e = 0 /\ prev = 0 \/ 0 < count /\ prev = e - 1
}.

(** The number of set bits that end at [b]. *)
Lemma fit_count m size len e b prev count :
  fit_inv m size len e b prev count -> b < size -> size < U32_MOD ->
  u32 ((if negb (prev =? u32 (b - 1)) then 0 else count) + 1) = if b =? e then count + 1 else 1.
Proof.
  intros [] Hb Hs. destruct fi_next0 as [_ [? | [? _]]]; [lia|].
  destruct (Z.eqb_spec b e) as [-> | Hne].
  - destruct fi_prev0 as [(-> & -> & ->) | [? ->]]; [done|]. rewrite (u32_id (e - 1)), Z.eqb_refl by lia. cbn. apply u32_id. lia.
  - rewrite (u32_id (b - 1)) by lia. destruct (Z.eqb_spec prev (b - 1)); cbn; [|done].
    destruct fi_prev0 as [(-> & _ & _) | [? ->]]; [done|lia].
Qed.

Lemma fit_step m size len e b prev count c :
  fit_inv m size len e b prev count -> 1 <= len -> b < size -> c = (if b =? e then count + 1 else 1) ->
  0 < c <= len /\ c <= b + 1 /\ run m (b + 1 - c) c /\ (b + 1 - c = 0 \/ bit m (b - c) = false) /\ no_fit m b len.
Proof.
  intros [] Hlen Hb ->. destruct fi_next0 as [Hskip [? | [Hbe Hset]]]; [lia|].
  assert (no_fit m b len) as Hnone.
  { intros p Hp Hpl Hr. destruct (Z_le_gt_dec (p + len) e) as [? | ?]; [by apply (fi_none0 p)|].
    specialize (Hr (p + len - 1) ltac:(lia)). rewrite Hskip in Hr by lia. done. }
  destruct (Z.eqb_spec b e) as [-> | Hne].
  - split_and!; try lia; try done.
    + intros i Hi. destruct (Z.eq_dec i e) as [-> | ?]; [done|]. apply fi_run0. lia.
    + destruct fi_stop0 as [? | Hc]; [left; lia|right; rewrite <- Hc; f_equal; lia].
  - split_and!; try lia; try done.
    + intros i Hi. by replace i with b by lia.
    + right. apply Hskip. lia.
Qed.

Lemma fit_loop_spec fuel m size len e b prev count :
  bitmap_wf m -> 1 <= len -> size <= nbits_of m -> size < U32_MOD ->
  fit_inv m size len e b prev count -> size - b <= Z.of_nat fuel ->
  (exists p, first_fit m size len p /\ fit_loop fuel m size len b prev count = (bitmap_clear m p len, p)) \/
  (no_fit m size len /\ fit_loop fuel m size len b prev count = (m, 0)).
Proof.
  intros Hm Hlen Hs Hu. revert e b prev count.
  assert (forall e b prev count, fit_inv m size len e b prev count -> size <= b -> no_fit m size len) as Hend.
  { intros e b prev count [] Hb p Hp Hpl Hr. destruct (Z_le_gt_dec (p + len) e) as [? | ?]; [by apply (fi_none0 p)|].
    specialize (Hr (p + len - 1) ltac:(lia)). destruct fi_next0 as [Hskip _]. rewrite Hskip in Hr by lia. done. }
  induction fuel as [|fuel IH]; intros e b prev count Hi Hf; cbn.
  { right. split; [|done]. apply (Hend e b prev count Hi). lia. }
  destruct (Z.ltb_spec b size) as [Hb | Hb]; [|right; split; [by eapply Hend|done]].
  rewrite (fit_count m size len e) by done. set (c := if b =? e then count + 1 else 1).
  destruct (fit_step m size len e b prev count c Hi Hlen Hb eq_refl) as (Hc1 & Hc2 & Hrun & Hstop & Hnone).
  assert (e <= b) by (destruct Hi, fi_next0 as [_ [? | ?]]; lia). pose proof (fi_e _ _ _ _ _ _ _ Hi).
  destruct (Z.eqb_spec c len) as [Hcl | Hcl].
  - left. exists (b + 1 - c). rewrite u32_id by lia. replace (b - len + 1) with (b + 1 - c) by lia.
    split; [|done]. rewrite <- Hcl in *. split_and!; try lia; try done.
    intros p' Hp' Hr. apply (Hnone p'); [lia..|done].
  - apply (IH (b + 1)).
    + assert (next_in (bit m) (b + 1) size (find_next_bit m size (b + 1))) by (apply find_next_bit_ok; done || lia).
      split; try done; try lia.
      * destruct Hstop as [? | Hz]; [by left|right; rewrite <- Hz; f_equal; lia].
      * intros p Hp Hpl Hr. destruct (Z_le_gt_dec (p + len) b) as [? | ?]; [by apply (Hnone p)|].
        destruct Hstop as [? | Hz]; [lia|]. rewrite Hr in Hz by lia. done.
    + assert (next_in (bit m) (b + 1) size (find_next_bit m size (b + 1))) as [_ [-> | ?]]
        by (apply find_next_bit_ok; done || lia); lia.
Qed.

Lemma get_first_free_bits_ok m size len :
  bitmap_wf m -> 1 <= len -> 0 <= size <= nbits_of m -> size < U32_MOD ->
  (exists p, first_fit m size len p /\ get_first_free_bits m size len = (bitmap_clear m p len, p)) \/
  (no_fit m size len /\ get_first_free_bits m size len = (m, 0)).
Proof.
  intros Hm Hlen Hs Hu. pose proof (find_first_bit_ok m size Hm Hs) as Hn.
  apply (fit_loop_spec _ m size len 0); try done; try lia.
  - split; try done; try lia; [intros i Hi; lia|intros p ? ? _; lia].
  - destruct Hn as [_ [-> | ?]]; lia.
Qed.

Lemma first_fit_fun m size len p q : 1 <= len -> first_fit m size len p -> first_fit m size len q -> p = q.
Proof.
  intros Hl (H1 & H2 & H3 & H4) (G1 & G2 & G3 & G4).
  destruct (Z.lt_trichotomy p q) as [? | [? | ?]]; [|done|]; exfalso; [apply (G4 p)|apply (H4 q)]; done || lia.
Qed.

(** ** Counting and extensionality *)

Definition popcount (m : bitmap) (n : Z) : Z := sumz (fun i => Z.b2z (bit m i)) (seqz 0 n).

Lemma sumz_ext {A} (f g : A -> Z) l : (forall x, x ∈ l -> f x = g x) -> sumz f l = sumz g l.
Proof.
  induction l as [|x l IH]; intros H; [done|]. rewrite !sumz_cons, H, IH; [done| |by left].
  intros. apply H. by right.
Qed.

Lemma sumz_const {A} c (f : A -> Z) l : (forall x, x ∈ l -> f x = c) -> sumz f l = c * Z.of_nat (length l).
Proof.
  induction l as [|x l IH]; intros H; [rewrite sumz_nil; cbn; lia|].
  rewrite sumz_cons, IH, H; [cbn [length]; lia|by left|].
  intros. apply H. by right.
Qed.

(** How many of the first [n] numbers are in a set. *)
Definition count_bits (f : Z -> bool) (n : Z) : Z := sumz (fun i => Z.b2z (f i)) (seqz 0 n).

(** Changing the numbers of [[p, p + len)] to [c] from [negb c]. *)
Lemma count_range (f f' : Z -> bool) n p len c :
  0 <= p -> 0 <= len -> p + len <= n ->
  (forall i, p <= i < p + len -> f i = negb c /\ f' i = c) ->
  (forall i, 0 <= i < n -> i < p \/ p + len <= i -> f' i = f i) ->
  count_bits f' n = count_bits f n + (if c then len else - len).
Proof.
  intros Hp Hl Hn Hin Hout. unfold count_bits.
  replace n with (p + (len + (n - p - len))) by lia. rewrite !seqz_app, !sumz_app by lia.
  rewrite (sumz_ext (fun i => Z.b2z (f' i)) (fun i => Z.b2z (f i)) (seqz 0 p)).
  2: { intros i Hi%elem_of_seqz. by rewrite Hout by lia. }
  rewrite (sumz_ext (fun i => Z.b2z (f' i)) (fun i => Z.b2z (f i)) (seqz (0 + p + len) _)).
  2: { intros i Hi%elem_of_seqz. by rewrite Hout by lia. }
  rewrite (sumz_const (Z.b2z c) (fun i => Z.b2z (f' i)) (seqz (0 + p) len)).
  2: { intros i Hi%elem_of_seqz. by rewrite (proj2 (Hin i ltac:(lia))). }
  rewrite (sumz_const (Z.b2z (negb c)) (fun i => Z.b2z (f i)) (seqz (0 + p) len)).
  2: { intros i Hi%elem_of_seqz. by rewrite (proj1 (Hin i ltac:(lia))). }
  rewrite length_seqz. destruct c; cbn; lia.
Qed.

Lemma count_bits_range f n : 0 <= n -> 0 <= count_bits f n <= n.
Proof.
  intros Hn. unfold count_bits. split.
  - apply sumz_nonneg. apply Forall_forall. intros i _. destruct (f i); cbn; lia.
  - assert (forall l, sumz (fun i => Z.b2z (f i)) l <= Z.of_nat (length l)) as H.
    { induction l as [|x l IH]; [done|]. rewrite sumz_cons. cbn [length]. destruct (f x); cbn [Z.b2z]; lia. }
    specialize (H (seqz 0 n)). rewrite length_seqz in H. lia.
Qed.

(** The same for the bits of a bitmap. *)
Lemma popcount_range m m' n p len c :
  0 <= p -> 0 <= len -> p + len <= n ->
  (forall i, p <= i < p + len -> bit m i = negb c /\ bit m' i = c) ->
  (forall i, 0 <= i -> i < p \/ p + len <= i -> bit m' i = bit m i) ->
  popcount m' n = popcount m n + (if c then len else - len).
Proof. intros Hp Hl Hn Hin Hout. apply (count_range (bit m) (bit m') n p len c); try done. intros i Hi. apply Hout. lia. Qed.

Lemma bitmap_ext m m' :
  bitmap_wf m -> bitmap_wf m' -> length m = length m' ->
  (forall i, 0 <= i < nbits_of m -> bit m i = bit m' i) -> m = m'.
Proof.
  intros Hm Hm' Hl Hb. apply (nth_ext _ _ 0 0); [done|]. intros k Hk.
  change (nth k m 0) with (nth k m 0). rewrite <- (Nat2Z.id k). fold (word m (Z.of_nat k)) (word m' (Z.of_nat k)).
  apply Z.bits_inj'. intros b Hb0. destruct (Z_lt_le_dec b 64).
  - rewrite <- !bit_word by lia. apply Hb. unfold nbits_of. lia.
  - by rewrite !testbit_small by (done || by apply word_range).
Qed.

(** ** Properties *)

(** The word-level routines implement the operations on sets of bits: the
    searches return the first set (clear) bit from a position on, or the size;
    [bitmap_set] and [bitmap_clear] change exactly the bits of their range. *)
Lemma bitmap_routines_correct m size start len
    (Hm : bitmap_wf m) (Hsize : 0 <= size <= nbits_of m) (Hstart : 0 <= start) (Hlen : 0 <= len)
    (Hfit : start + len <= nbits_of m) (Hw : start + len < U32_MOD) :
  next_in (bit m) start size (find_next_bit m size start) /\
  next_in (fun i => negb (bit m i)) start size (find_next_zero_bit m size start) /\
  next_in (bit m) 0 size (find_first_bit m size) /\
  (forall i, 0 <= i -> bit (bitmap_set m start len) i = bit m i || (start <=? i) && (i <? start + len)) /\
  (forall i, 0 <= i -> bit (bitmap_clear m start len) i = bit m i && negb ((start <=? i) && (i <? start + len))).
Proof.
  split_and!; [by apply find_next_bit_ok|by apply find_next_zero_bit_ok|by apply find_first_bit_ok| |].
  - by apply bitmap_set_ok.
  - by apply bitmap_clear_ok.
Qed.

(** [get_first_free_bits] is first fit: it returns the lowest run of [len]
    free bits and clears exactly this run, or 0 without a change when there is
    none; [put_free_bits] gives the run back and restores the bitmap. *)
Lemma get_first_free_bits_first_fit m size len
    (Hm : bitmap_wf m) (Hlen : 1 <= len) (Hsize : 0 <= size <= nbits_of m) (Hw : size < U32_MOD) :
  (exists m' p, get_first_free_bits m size len = (m', p) /\ first_fit m size len p /\
     (forall i, 0 <= i -> bit m' i = bit m i && negb ((p <=? i) && (i <? p + len))) /\
     put_free_bits m' size p len = (m, 0)) \/
  (no_fit m size len /\ get_first_free_bits m size len = (m, 0)).
Proof.
  destruct (get_first_free_bits_ok m size len Hm Hlen Hsize Hw) as [(p & Hf & E) | [Hn E]]; [left|by right].
  exists (bitmap_clear m p len), p. split; [done|]. split; [done|]. destruct Hf as (H1 & H2 & H3 & H4).
  destruct (bitmap_clear_ok m p len) as (G1 & G2 & G3); [done|lia..|]. split; [done|].
  unfold put_free_bits. rewrite u32_id by lia. rewrite (proj2 (Z.ltb_ge _ _)) by lia. f_equal.
  assert (nbits_of (bitmap_clear m p len) = nbits_of m) as En by (unfold nbits_of; by rewrite G2).
  destruct (bitmap_set_ok (bitmap_clear m p len) p len) as (K1 & K2 & K3); [done|lia..|].
  apply bitmap_ext; [done..|by rewrite K2|]. intros i Hi. rewrite K3, G3 by lia.
  destruct (Z.leb_spec p i), (Z.ltb_spec i (p + len)); cbn; rewrite ?andb_true_r, ?orb_false_r; try done.
  rewrite H3 by lia. done.
Qed.

