(* ===== verification/SefsAlloc.v ===== *)
(** * The SEFS allocator

    Allocation of blocks and inodes from the free bitmaps,
    [secure_daemon/src/fs/sefs/super.c], and the bitmaps mkfs writes,
    [secure_daemon/src/fs/sefs/mkfs.c].  A bitmap block covers a group of
    [BITMAP_BLK_NR] blocks or inodes; a set bit is free. *)

From S2P Require Import Prelude Bio Sjd JournalLog StageArea Layout Bitmap.

(** ** State *)

(** The buffers of the bitmap blocks of one kind with the counters of
    [struct sefs_sb_info]: [ifree_bit_left], [nr_free_inodes] for inodes,
    [bfree_bit_left], [nr_free_blocks] for blocks. *)
Record free_area := mk_area { fa_maps : list (list Z); fa_left : list Z; fa_free : Z }.

Definition fa_map (a : free_area) (i : Z) : list Z := nth (Z.to_nat i) (fa_maps a) [].
Definition bit_left (a : free_area) (i : Z) : Z := nth (Z.to_nat i) (fa_left a) 0.
Definition nr_groups (a : free_area) : Z := Z.of_nat (length (fa_maps a)).

(** The state after the update of group [i]. *)
Definition upd_group (a : free_area) (i : Z) (map : list Z) (nleft free : Z) : free_area :=
  mk_area (<[Z.to_nat i := map]> (fa_maps a)) (<[Z.to_nat i := nleft]> (fa_left a)) free.

(** The first group with at least [len] free bits left. *)
Fixpoint find_group (lefts : list Z) (len i : Z) : Z :=
  match lefts with
  | [] => i
  | l :: lefts => if len <=? l then i else find_group lefts len (i + 1)
  end.

(** ** Operations

    [bread i] tells whether reading the bitmap block of group [i] succeeds. *)

Section operations.
Context (bread : Z -> bool).

Definition sefs_get_free_inode (a : free_area) : free_area * Z :=
  let i := find_group (fa_left a) 1 0 in
  if i =? nr_groups a then (a, 0)
  else if negb (bread i) then (a, 0)
  else
    let '(map, ret) := get_first_free_bits (fa_map a i) BITMAP_BLK_NR 1 in
    if ret =? 0 then (upd_group a i map (bit_left a i) (fa_free a), 0)
    else (upd_group a i map (u32 (bit_left a i - 1)) (u32 (fa_free a - 1)), u64 (ret + i * BITMAP_BLK_NR)).

Definition sefs_get_free_blocks (a : free_area) (len : Z) : res (free_area * Z) :=
  assert! (negb (BITMAP_BLK_NR <? len)) in
  let i := find_group (fa_left a) len 0 in
  if i =? nr_groups a then Ok (a, 0)
  else if negb (bread i) then Ok (a, 0)
  else
    let '(map, ret) := get_first_free_bits (fa_map a i) BITMAP_BLK_NR len in
    Ok (upd_group a i map (u32 (bit_left a i - len)) (u32 (fa_free a - len)), u32 (ret + i * BITMAP_BLK_NR)).

(** A failing [put_free_bits] is only reported. *)
Definition put_group (a : free_area) (n len : Z) : free_area :=
  let i := n / BITMAP_BLK_NR in
  if negb (bread i) then a
  else
    let '(map, _) := put_free_bits (fa_map a i) BITMAP_BLK_NR (n mod BITMAP_BLK_NR) len in
    upd_group a i map (u32 (bit_left a i + len)) (u32 (fa_free a + len)).

Definition sefs_put_inode (a : free_area) (ino : Z) : free_area := put_group a ino 1.
Definition sefs_put_blocks (a : free_area) (bno len : Z) : free_area := put_group a bno len.

End operations.

(** ** mkfs and mount *)

(** 512 words of a block. *)
Definition filled_block (w : Z) : list Z := replicate 512 w.

Definition write_ifree_blocks (sb : sefs_sb) : list (list Z) :=
  (<[0%nat := 0xfffffffffffffffc]> (filled_block ULONG_MAX)) ::
  replicate (Z.to_nat (nr_ifree_blocks sb - 1)) (filled_block ULONG_MAX).

(** The blocks that are fully used: the first loop of [write_bfree_blocks]. *)
Fixpoint used_groups (fuel : nat) (nr_used : Z) : list (list Z) * Z :=
  match fuel with
  | O => ([], nr_used)
  | S fuel =>
      if BITMAP_BLK_NR <? nr_used then
        let '(blks, nr_used) := used_groups fuel (u32 (nr_used - BITMAP_BLK_NR)) in
        (filled_block 0 :: blks, nr_used)
      else ([], nr_used)
  end.

(** One word: clear the low bits one by one while [nr_used] lasts. *)
Fixpoint clear_line (fuel : nat) (line mask nr_used : Z) : Z * Z :=
  match fuel with
  | O => (line, nr_used)
  | S fuel =>
      if mask =? 0 then (line, nr_used)
      else
        let line := Z.ldiff line mask in
        let nr_used := u32 (nr_used - 1) in
        if nr_used =? 0 then (line, nr_used)
        else clear_line fuel line (u64 (Z.shiftl mask 1)) nr_used
  end.

Fixpoint clear_lines (fuel : nat) (bfree : list Z) (j nr_used : Z) : list Z :=
  match fuel with
  | O => bfree
  | S fuel =>
      if negb (nr_used =? 0) then
        let '(line, nr_used) := clear_line 65 ULONG_MAX 1 nr_used in
        clear_lines fuel (set_word bfree j line) (j + 1) nr_used
      else bfree
  end.

Definition nr_used_blocks (sb : sefs_sb) : Z :=
  u32 (nr_istore_blocks sb + nr_ifree_blocks sb + nr_bfree_blocks sb + 2).

Definition write_bfree_blocks (sb : sefs_sb) : list (list Z) :=
  let '(blks, nr_used) := used_groups (Z.to_nat (nr_used_blocks sb)) (nr_used_blocks sb) in
  let blks := blks ++ [clear_lines 513 (filled_block ULONG_MAX) 0 nr_used] in
  blks ++ replicate (Z.to_nat (nr_bfree_blocks sb) - length blks) (filled_block ULONG_MAX).

(** The block of the inode store that holds inode [ino]. *)
Definition SEFS_INO_BLOCK (ino : Z) : Z := ino / SEFS_INODES_PER_BLOCK + 1.

(** [count_zero_bits]: [__builtin_ctzll] of 0 is not defined, [ctz0] is its
    value. *)
Definition ctzll (ctz0 w : Z) : Z := if w =? 0 then ctz0 else __ffs w.
Definition count_zero_bits (ctz0 : Z) (bmap : list Z) : Z :=
  SEFS_BLOCK_SIZE * 8 - sumz (ctzll ctz0) (take 512 bmap).

(** The bitmap part of [sefs_fill_super]. *)
Definition fill_super_area (ctz0 : Z) (maps : list (list Z)) (nr_free : Z) : free_area :=
  mk_area maps ((fun m => u32 (count_zero_bits ctz0 m)) <$> maps) nr_free.

(** ** Invariant *)

(** Block or inode [n] is free. *)
Definition is_free (a : free_area) (n : Z) : bool := bit (fa_map a (n / BITMAP_BLK_NR)) (n mod BITMAP_BLK_NR).

Definition block_map (m : list Z) : Prop := bitmap_wf m /\ length m = 512%nat.

Record area_wf (a : free_area) : Prop := {
  aw_maps : Forall block_map (fa_maps a);
  aw_left : fa_left a = (fun m => popcount m BITMAP_BLK_NR) <$> fa_maps a;
  aw_free : 0 <= fa_free a < U32_MOD;
  aw_size : nr_groups a <= 16384
}.

Lemma bbn : BITMAP_BLK_NR = 32768.
Proof. reflexivity. Qed.

Lemma block_map_bits m : block_map m -> nbits_of m = BITMAP_BLK_NR.
Proof. intros [_ H]. unfold nbits_of. by rewrite H. Qed.

Lemma fa_map_wf a i : area_wf a -> 0 <= i < nr_groups a -> block_map (fa_map a i).
Proof.
  intros Ha Hi. unfold fa_map. apply Forall_nth; [apply aw_maps, Ha|unfold nr_groups in Hi; lia].
Qed.

Lemma bit_left_eq a i : area_wf a -> 0 <= i < nr_groups a -> bit_left a i = popcount (fa_map a i) BITMAP_BLK_NR.
Proof.
  intros Ha Hi. unfold bit_left, fa_map. rewrite (aw_left a Ha). unfold nr_groups in Hi.
  rewrite !nth_lookup, list_lookup_fmap.
  destruct (lookup_lt_is_Some_2 (fa_maps a) (Z.to_nat i)) as [m ->]; [lia|done].
Qed.

Lemma fa_map_upd a i m l f j : 0 <= i < nr_groups a -> 0 <= j ->
  fa_map (upd_group a i m l f) j = if j =? i then m else fa_map a j.
Proof.
  intros Hi Hj. unfold nr_groups in Hi. unfold fa_map, upd_group. cbn. rewrite !nth_lookup.
  destruct (Z.eqb_spec j i) as [-> | ?]; [rewrite list_lookup_insert_eq by lia|rewrite list_lookup_insert_ne by lia]; done.
Qed.

Lemma bit_left_upd a i m l f : area_wf a -> 0 <= i < nr_groups a -> bit_left (upd_group a i m l f) i = l.
Proof.
  intros Ha Hi. unfold bit_left, upd_group. cbn. rewrite nth_lookup, list_lookup_insert_eq; [done|].
  rewrite (aw_left a Ha), length_fmap. unfold nr_groups in Hi. lia.
Qed.

Lemma upd_group_wf a i m f :
  area_wf a -> 0 <= i < nr_groups a -> block_map m ->
  area_wf (upd_group a i m (popcount m BITMAP_BLK_NR) (u32 f)).
Proof.
  intros Ha Hi Hm. split; cbn.
  - apply Forall_insert; [apply aw_maps, Ha|done].
  - by rewrite (aw_left a Ha), list_fmap_insert.
  - apply Z.mod_pos_bound. lia.
  - unfold nr_groups. cbn. rewrite length_insert. apply aw_size, Ha.
Qed.

Lemma nr_groups_upd a i m l f : nr_groups (upd_group a i m l f) = nr_groups a.
Proof. unfold nr_groups. cbn. by rewrite length_insert. Qed.

(** Restoring a group. *)
Lemma upd_group_restore a i m l f :
  area_wf a -> 0 <= i < nr_groups a ->
  upd_group (upd_group a i m l f) i (fa_map a i) (bit_left a i) (fa_free a) = a.
Proof.
  intros Ha Hi. unfold upd_group. cbn. rewrite !list_insert_insert_eq. destruct a as [ms ls fr].
  unfold nr_groups, fa_map, bit_left in *. cbn in *. pose proof (aw_left _ Ha) as El. cbn in El.
  f_equal; rewrite nth_lookup; apply list_insert_id.
  - destruct (lookup_lt_is_Some_2 ms (Z.to_nat i)) as [? ->]; [lia|done].
  - destruct (lookup_lt_is_Some_2 ls (Z.to_nat i)) as [? ->]; [rewrite El, length_fmap; lia|done].
Qed.

Lemma find_group_spec ls len k :
  let i := find_group ls len k in
  k <= i <= k + Z.of_nat (length ls) /\ Forall (fun l => l < len) (take (Z.to_nat (i - k)) ls) /\
  (i < k + Z.of_nat (length ls) -> len <= nth (Z.to_nat (i - k)) ls 0).
Proof.
  revert k. induction ls as [|l ls IH]; intros k; cbn.
  { rewrite Z.sub_diag. split_and!; [lia..|constructor|lia]. }
  destruct (Z.leb_spec len l).
  - rewrite Z.sub_diag. cbn. split_and!; [lia..|constructor|done].
  - destruct (IH (k + 1)) as (H1 & H2 & H3). set (i := find_group ls len (k + 1)) in *.
    replace (Z.to_nat (i - k)) with (S (Z.to_nat (i - (k + 1)))) by lia. cbn.
    split_and!; [lia..|by constructor|]. intros. apply H3. lia.
Qed.

(** The bits of the whole area after a change of group [i]. *)
Lemma is_free_upd a i m l f n :
  area_wf a -> 0 <= i < nr_groups a -> 0 <= n ->
  is_free (upd_group a i m l f) n =
    if (i * BITMAP_BLK_NR <=? n) && (n <? (i + 1) * BITMAP_BLK_NR) then bit m (n - i * BITMAP_BLK_NR) else is_free a n.
Proof.
  intros Ha Hi Hn. unfold is_free. rewrite bbn. rewrite fa_map_upd by (done || Z.div_mod_to_equations; lia).
  pose proof (Z.div_mod n 32768 ltac:(lia)). pose proof (Z.mod_pos_bound n 32768 ltac:(lia)).
  destruct (Z.eqb_spec (n / 32768) i), (Z.leb_spec (i * 32768) n), (Z.ltb_spec n ((i + 1) * 32768)); cbn; try lia; try done.
  f_equal. lia.
Qed.

Lemma is_free_group a i p : 0 <= p < BITMAP_BLK_NR -> is_free a (i * BITMAP_BLK_NR + p) = bit (fa_map a i) p.
Proof.
  rewrite bbn. intros Hp. unfold is_free. rewrite bbn.
  replace ((i * 32768 + p) / 32768) with i by (Z.div_mod_to_equations; lia).
  by replace ((i * 32768 + p) mod 32768) with p by (Z.div_mod_to_equations; lia).
Qed.

(** ** Allocation of a run of a group *)

Lemma popcount_bounds mm n : 0 <= n -> 0 <= popcount mm n <= n.
Proof.
  intros Hn. unfold popcount. assert (forall l, 0 <= sumz (fun k => Z.b2z (bit mm k)) l <= Z.of_nat (length l)) as H.
  { induction l as [|x l IH]; [rewrite sumz_nil; cbn; lia|]. rewrite sumz_cons. cbn [length].
    destruct (bit mm x); cbn; lia. }
  specialize (H (seqz 0 n)). rewrite length_seqz in H. lia.
Qed.

Section alloc.
Context (a : free_area) (i p len : Z).
Hypothesis Ha : area_wf a.
Hypothesis Hi : 0 <= i < nr_groups a.
Hypothesis Hlen : 1 <= len.
Hypothesis Hp : 0 <= p /\ p + len <= BITMAP_BLK_NR.
Hypothesis Hrun : run (fa_map a i) p len.

Let m := fa_map a i.
Let m' := bitmap_clear m p len.
Let a' := upd_group a i m' (u32 (bit_left a i - len)) (u32 (fa_free a - len)).
Let b := i * BITMAP_BLK_NR + p.

Lemma clear_run_ok : block_map m' /\
  forall k, 0 <= k -> bit m' k = bit m k && negb ((p <=? k) && (k <? p + len)).
Proof.
  pose proof (fa_map_wf a i Ha Hi) as [Hm Hl]. pose proof (block_map_bits _ (conj Hm Hl)) as Hb. rewrite bbn in *.
  destruct (bitmap_clear_ok (fa_map a i) p len) as (H1 & H2 & H3); [done|lia..|]. split; [|done].
  split; [done|]. by rewrite <- Hl.
Qed.

Lemma popcount_clear_run : u32 (bit_left a i - len) = popcount m' BITMAP_BLK_NR.
Proof.
  destruct clear_run_ok as [_ Hbits]. rewrite bit_left_eq by done. rewrite bbn in *.
  pose proof (popcount_bounds m' 32768 ltac:(lia)).
  assert (popcount m' 32768 = popcount m 32768 + - len) as E.
  { apply (popcount_range m m' 32768 p len false); [lia..| |].
    - intros k Hk. rewrite Hbits, Hrun by lia. split; [done|].
      rewrite (proj2 (Z.leb_le p k)), (proj2 (Z.ltb_lt k (p + len))) by lia. done.
    - intros k Hk0 Hk. rewrite Hbits by lia.
      destruct (Z.leb_spec p k), (Z.ltb_spec k (p + len)); cbn; rewrite ?andb_true_r; done || lia. }
  fold m. rewrite u32_id by lia. lia.
Qed.

Lemma alloc_run_wf : area_wf a'.
Proof. unfold a'. rewrite popcount_clear_run. apply upd_group_wf; [done..|]. apply clear_run_ok. Qed.

Lemma alloc_run_free k : b <= k < b + len -> is_free a k = true.
Proof.
  unfold b. intros Hk. replace k with (i * BITMAP_BLK_NR + (k - i * BITMAP_BLK_NR)) by lia.
  rewrite is_free_group by lia. apply Hrun. lia.
Qed.

Lemma alloc_run_used k : 0 <= k -> is_free a' k = is_free a k && negb ((b <=? k) && (k <? b + len)).
Proof.
  intros Hk. unfold a', b. rewrite is_free_upd by done.
  destruct (Z.leb_spec (i * BITMAP_BLK_NR) k), (Z.ltb_spec k ((i + 1) * BITMAP_BLK_NR)); cbn.
  - rewrite (proj2 clear_run_ok) by lia. unfold m; rewrite <- is_free_group by lia. f_equal; [f_equal; lia|].
    do 2 f_equal; apply eq_true_iff_eq; rewrite ?Z.leb_le, ?Z.ltb_lt; lia.
  - rewrite (proj2 (Z.ltb_ge k (i * BITMAP_BLK_NR + p + len))) by lia. by rewrite andb_false_r, andb_true_r.
  - rewrite (proj2 (Z.leb_gt (i * BITMAP_BLK_NR + p) k)) by lia. by rewrite andb_true_r.
  - rewrite (proj2 (Z.leb_gt (i * BITMAP_BLK_NR + p) k)) by lia. by rewrite andb_true_r.
Qed.

Lemma put_alloc_run bread : bread i = true -> put_group bread a' b len = a.
Proof.
  intros Hr. destruct clear_run_ok as [[Hm' Hl'] Hbits]. pose proof (fa_map_wf a i Ha Hi) as [Hm Hl].
  unfold put_group, b. pose proof bbn as Eb.
  replace ((i * BITMAP_BLK_NR + p) / BITMAP_BLK_NR) with i by (rewrite bbn in *; Z.div_mod_to_equations; lia).
  replace ((i * BITMAP_BLK_NR + p) mod BITMAP_BLK_NR) with p by (rewrite bbn in *; Z.div_mod_to_equations; lia).
  rewrite Hr. cbn [negb]. unfold a' at 1. rewrite fa_map_upd, Z.eqb_refl by lia. unfold put_free_bits.
  rewrite u32_id by lia. rewrite (proj2 (Z.ltb_ge BITMAP_BLK_NR (p + len - 1))) by lia.
  assert (nbits_of m' = BITMAP_BLK_NR) as Hn by (by apply block_map_bits).
  destruct (bitmap_set_ok m' p len) as (K1 & K2 & K3); [done|lia..|].
  assert (bitmap_set m' p len = m) as ->.
  { apply bitmap_ext; [done..|by rewrite K2, Hl'|]. intros k Hk. rewrite K3, Hbits by lia.
    destruct (Z.leb_spec p k), (Z.ltb_spec k (p + len)); cbn; rewrite ?andb_true_r, ?orb_false_r; try done.
    unfold m. rewrite Hrun by lia. done. }
  unfold a' at 2 3. rewrite bit_left_upd by done. cbn [fa_free upd_group].
  assert (forall x, 0 <= x < U32_MOD -> u32 (u32 (x - len) + len) = x) as Eu.
  { intros x Hx. unfold u32. rewrite Zplus_mod_idemp_l, Z.sub_add. by apply Z.mod_small. }
  rewrite !Eu; [by apply upd_group_restore|by apply aw_free|].
  rewrite bit_left_eq by done. pose proof (popcount_bounds (fa_map a i) BITMAP_BLK_NR). lia.
Qed.

End alloc.

Lemma find_group_range a len : area_wf a -> 0 <= find_group (fa_left a) len 0 <= nr_groups a.
Proof.
  intros Ha. destruct (find_group_spec (fa_left a) len 0) as [H _]. unfold nr_groups.
  assert (length (fa_left a) = length (fa_maps a)) by (rewrite (aw_left a Ha); apply length_fmap). lia.
Qed.

(** [sefs_get_free_blocks] past its guards. *)
Lemma get_free_blocks_eq bread a len :
  area_wf a -> 1 <= len <= BITMAP_BLK_NR -> let i := find_group (fa_left a) len 0 in
  i < nr_groups a -> bread i = true ->
  sefs_get_free_blocks bread a len =
    let '(map, ret) := get_first_free_bits (fa_map a i) BITMAP_BLK_NR len in
    Ok (upd_group a i map (u32 (bit_left a i - len)) (u32 (fa_free a - len)), u32 (ret + i * BITMAP_BLK_NR)).
Proof.
  intros Ha Hlen i Hi Hr. unfold sefs_get_free_blocks. rewrite (proj2 (Z.ltb_ge _ _)) by lia. cbn [negb assert_].
  fold i. rewrite (proj2 (Z.eqb_neq _ _)), Hr by lia. done.
Qed.

(** A group with a run of free blocks. *)
Lemma get_free_blocks_fit bread a len p
    (Ha : area_wf a) (Hlen : 1 <= len <= BITMAP_BLK_NR) :
  let i := find_group (fa_left a) len 0 in
  i < nr_groups a -> bread i = true -> first_fit (fa_map a i) BITMAP_BLK_NR len p ->
  exists a' b, sefs_get_free_blocks bread a len = Ok (a', b) /\ b = i * BITMAP_BLK_NR + p /\ area_wf a' /\
    fa_free a' = u32 (fa_free a - len) /\
    (forall k, b <= k < b + len -> is_free a k = true) /\
    (forall k, 0 <= k -> is_free a' k = is_free a k && negb ((b <=? k) && (k <? b + len))) /\
    sefs_put_blocks bread a' b len = a.
Proof.
  intros i Hi Hread Hfit. pose proof (find_group_range a len Ha) as Hir. fold i in Hir.
  pose proof (fa_map_wf a i Ha ltac:(lia)) as Hm. pose proof (block_map_bits _ Hm) as Hb.
  rewrite (get_free_blocks_eq bread a len Ha Hlen Hi Hread). fold i.
  destruct (get_first_free_bits_ok (fa_map a i) BITMAP_BLK_NR len) as [(p' & Hf & ->) | [Hn _]];
    [apply Hm|lia|rewrite Hb; rewrite bbn; lia|rewrite bbn; lia| |].
  2: { destruct Hfit as (H1 & H2 & H3 & _). by destruct (Hn p H1 H2). }
  assert (p' = p) as -> by (eapply first_fit_fun; [|done..]; lia). destruct Hfit as (H1 & H2 & H3 & _).
  eexists _, (i * BITMAP_BLK_NR + p). split.
  { f_equal. f_equal. pose proof (aw_size a Ha). rewrite bbn in *. rewrite u32_id; lia. }
  split; [done|]. split; [apply alloc_run_wf; done || lia|]. split; [done|].
  split; [intros k; apply alloc_run_free; done || lia|].
  split; [intros k; apply alloc_run_used; done || lia|].
  apply put_alloc_run; done || lia.
Qed.

(** Fragmentation.  If the first group with [len] free blocks has no run
    of [len] of them, the failure of the search is not noticed: the first
    block of the group is returned although the [len] blocks from it are not
    all free, no bit changes, and the counters are decreased. *)
Lemma fragmented_group_returns_used_blocks bread a len
    (Ha : area_wf a) (Hlen : 1 <= len <= BITMAP_BLK_NR) (Hread : bread (find_group (fa_left a) len 0) = true)
    (Hi : find_group (fa_left a) len 0 < nr_groups a)
    (Hnone : no_fit (fa_map a (find_group (fa_left a) len 0)) BITMAP_BLK_NR len) :
  exists a' b, sefs_get_free_blocks bread a len = Ok (a', b) /\
    b = find_group (fa_left a) len 0 * BITMAP_BLK_NR /\
    (forall k, 0 <= k -> is_free a' k = is_free a k) /\ fa_free a' = u32 (fa_free a - len) /\
    ~ (forall k, b <= k < b + len -> is_free a k = true).
Proof.
  set (i := find_group (fa_left a) len 0) in *. pose proof (find_group_range a len Ha) as Hir. fold i in Hir.
  pose proof (fa_map_wf a i Ha ltac:(lia)) as Hm. pose proof (block_map_bits _ Hm) as Hb.
  rewrite (get_free_blocks_eq bread a len Ha Hlen Hi Hread). fold i.
  destruct (get_first_free_bits_ok (fa_map a i) BITMAP_BLK_NR len) as [(p & (H1 & H2 & H3 & _) & _) | [_ ->]];
    [apply Hm|lia|rewrite Hb; rewrite bbn; lia|rewrite bbn; lia| |].
  { by destruct (Hnone p H1 H2). }
  eexists _, (i * BITMAP_BLK_NR). split; [|split; [done|]].
  { f_equal. f_equal. pose proof (aw_size a Ha). rewrite bbn in *. rewrite u32_id; lia. }
  split; [|split; [done|]].
  - intros k Hk. rewrite is_free_upd by (done || lia).
    destruct (Z.leb_spec (i * BITMAP_BLK_NR) k), (Z.ltb_spec k ((i + 1) * BITMAP_BLK_NR)); cbn; try done.
    rewrite <- is_free_group by lia. f_equal. lia.
  - intros Hall. apply (Hnone 0); [lia..|]. intros k Hk. rewrite <- is_free_group by lia. apply Hall. lia.
Qed.


(** Whatever the state, the allocation returns. *)
Lemma get_free_blocks_total bread a len : len <= BITMAP_BLK_NR ->
  exists a' b, sefs_get_free_blocks bread a len = Ok (a', b) /\ 0 <= b < U32_MOD.
Proof.
  intros Hl. unfold sefs_get_free_blocks. rewrite (proj2 (Z.ltb_ge _ _)) by lia. cbn [negb assert_].
  destruct (_ =? _); [by eexists _, _|]. destruct (negb _); [by eexists _, _|].
  destruct (get_first_free_bits _ _ _) as [m p]. eexists _, _. split; [done|]. apply Z.mod_pos_bound. lia.
Qed.

(** ** Inodes *)

Lemma popcount_pos m n : 0 <= n -> 0 < popcount m n -> exists k, 0 <= k < n /\ bit m k = true.
Proof.
  intros Hn Hp. destruct (decide (Forall (fun k => bit m k = false) (seqz 0 n))) as [H | H].
  - rewrite Forall_forall in H. unfold popcount in Hp.
    rewrite (sumz_const 0) in Hp; [lia|]. intros k Hk. by rewrite H.
  - apply not_Forall_Exists in H; [|intros k; apply _]. apply Exists_exists in H as (k & Hk & Hb).
    exists k. apply elem_of_seqz in Hk. split; [lia|]. cbn in Hb. by destruct (bit m k).
Qed.

Lemma get_free_inode_eq bread a :
  let i := find_group (fa_left a) 1 0 in
  i < nr_groups a -> bread i = true ->
  sefs_get_free_inode bread a =
    let '(map, ret) := get_first_free_bits (fa_map a i) BITMAP_BLK_NR 1 in
    if ret =? 0 then (upd_group a i map (bit_left a i) (fa_free a), 0)
    else (upd_group a i map (u32 (bit_left a i - 1)) (u32 (fa_free a - 1)), u64 (ret + i * BITMAP_BLK_NR)).
Proof.
  intros i Hi Hr. unfold sefs_get_free_inode. fold i. by rewrite (proj2 (Z.eqb_neq _ _)), Hr by lia.
Qed.

(** The lowest free inode of the group the allocator takes. *)
Lemma get_free_inode_fit a :
  area_wf a -> let i := find_group (fa_left a) 1 0 in i < nr_groups a ->
  exists p, first_fit (fa_map a i) BITMAP_BLK_NR 1 p /\
    get_first_free_bits (fa_map a i) BITMAP_BLK_NR 1 = (bitmap_clear (fa_map a i) p 1, p).
Proof.
  intros Ha i Hi. pose proof (find_group_range a 1 Ha) as Hir. fold i in Hir.
  pose proof (fa_map_wf a i Ha ltac:(lia)) as Hm. pose proof (block_map_bits _ Hm) as Hb.
  destruct (get_first_free_bits_ok (fa_map a i) BITMAP_BLK_NR 1) as [? | [Hn _]];
    [apply Hm|lia|rewrite Hb; rewrite bbn; lia|rewrite bbn; lia|done|].
  destruct (find_group_spec (fa_left a) 1 0) as (_ & _ & H). fold i in H. rewrite Z.sub_0_r in H.
  assert (length (fa_left a) = length (fa_maps a)) as El by (rewrite (aw_left a Ha); apply length_fmap).
  specialize (H ltac:(unfold nr_groups in Hi; lia)). change (1 <= bit_left a i) in H. rewrite bit_left_eq in H by (done || lia).
  destruct (popcount_pos (fa_map a i) BITMAP_BLK_NR ltac:(rewrite bbn; lia) ltac:(lia)) as (k & Hk & Hbit).
  destruct (Hn k); [lia..|]. intros k' Hk'. by replace k' with k by lia.
Qed.

(** Inode allocation.  Without a free inode the state is unchanged and 0
    is returned; otherwise the lowest free inode of the first group that has
    one is returned and becomes used, and [sefs_put_inode] gives it back,
    unless it is the first inode of its group. *)
Lemma sefs_get_free_inode_correct bread a (Ha : area_wf a) (Hread : forall i, bread i = true) :
  let i := find_group (fa_left a) 1 0 in
  (i = nr_groups a -> sefs_get_free_inode bread a = (a, 0)) /\
  (i < nr_groups a -> is_free a (i * BITMAP_BLK_NR) = false ->
   exists a' ino, sefs_get_free_inode bread a = (a', ino) /\ ino <> 0 /\ area_wf a' /\
     is_free a ino = true /\ (forall k, i * BITMAP_BLK_NR <= k < ino -> is_free a k = false) /\
     (forall k, 0 <= k -> is_free a' k = is_free a k && negb (k =? ino)) /\
     sefs_put_inode bread a' ino = a).
Proof.
  intros i. split.
  { intros Hi. unfold sefs_get_free_inode. fold i. by rewrite Hi, Z.eqb_refl. }
  intros Hi H0. pose proof (find_group_range a 1 Ha) as Hir. fold i in Hir. pose proof (aw_size a Ha) as Hsz.
  destruct (get_free_inode_fit a Ha Hi) as (p & (H1 & H2 & H3 & H4) & E). fold i in H2, H3, H4, E.
  assert (p <> 0) as Hp0.
  { intros ->. replace (i * BITMAP_BLK_NR) with (i * BITMAP_BLK_NR + 0) in H0 by lia.
    rewrite is_free_group, H3 in H0 by (rewrite bbn in *; lia). done. }
  rewrite (get_free_inode_eq bread a Hi (Hread _)). fold i. rewrite E, (proj2 (Z.eqb_neq p 0)) by done.
  eexists _, (i * BITMAP_BLK_NR + p). split; [f_equal; rewrite bbn in *; rewrite u64_id; lia|].
  split; [rewrite bbn in *; lia|]. split; [apply alloc_run_wf; done || lia|].
  split; [apply (alloc_run_free a i p 1); done || lia|]. split; [|split].
  - intros k Hk. apply not_true_iff_false. intros Hf. apply (H4 (k - i * BITMAP_BLK_NR)); [lia|].
    intros k' Hk'. rewrite <- is_free_group by lia. rewrite <- Hf. f_equal. lia.
  - intros k Hk. rewrite (alloc_run_used a i p 1) by (done || lia). do 2 f_equal.
    destruct (Z.eqb_spec k (i * BITMAP_BLK_NR + p)); repeat case_cmp; cbn; done || lia.
  - apply put_alloc_run; done || lia.
Qed.

(** If the first inode of the group the allocator takes is free, the
    allocation fails although inodes are free, and that inode is lost: its
    bit is cleared and no counter changes. *)
Lemma first_inode_of_group_is_lost bread a
    (Ha : area_wf a) (Hread : forall i, bread i = true) (Hi : find_group (fa_left a) 1 0 < nr_groups a)
    (H0 : is_free a (find_group (fa_left a) 1 0 * BITMAP_BLK_NR) = true) :
  exists a', sefs_get_free_inode bread a = (a', 0) /\ fa_left a' = fa_left a /\ fa_free a' = fa_free a /\
    forall k, 0 <= k -> is_free a' k = is_free a k && negb (k =? find_group (fa_left a) 1 0 * BITMAP_BLK_NR).
Proof.
  set (i := find_group (fa_left a) 1 0) in *. pose proof (find_group_range a 1 Ha) as Hir. fold i in Hir.
  destruct (get_free_inode_fit a Ha Hi) as (p & (H1 & H2 & H3 & H4) & E). fold i in H2, H3, H4, E.
  assert (p = 0) as ->.
  { destruct (Z.eq_dec p 0) as [? | Hne]; [done|]. exfalso. apply (H4 0); [lia|]. intros k Hk.
    replace k with 0 by lia. rewrite <- is_free_group, Z.add_0_r by (rewrite bbn; lia). done. }
  rewrite (get_free_inode_eq bread a Hi (Hread _)). fold i. rewrite E, Z.eqb_refl.
  eexists. split; [done|]. split; [|split; [done|]].
  - cbn. apply list_insert_id. unfold bit_left. rewrite nth_lookup.
    destruct (lookup_lt_is_Some_2 (fa_left a) (Z.to_nat i)) as [? ->]; [|done].
    rewrite (aw_left a Ha), length_fmap. unfold nr_groups in Hi. lia.
  - intros k Hk. pose proof (alloc_run_used a i 0 1 Ha ltac:(lia) ltac:(lia) ltac:(lia) k Hk) as Hu.
    rewrite is_free_upd in * by (done || lia). rewrite Hu. do 2 f_equal.
    destruct (Z.eqb_spec k (i * BITMAP_BLK_NR)); repeat case_cmp; cbn; done || lia.
Qed.

(** ** The bitmaps of a new file system *)

(** All ones but the [t] low bits. *)
Definition high_ones (t : Z) : Z := Z.ldiff (Z.ones 64) (Z.ones t).

Lemma high_ones_bits t k : 0 <= t -> 0 <= k < 64 -> Z.testbit (high_ones t) k = (t <=? k).
Proof.
  intros Ht Hk. unfold high_ones. rewrite Z.ldiff_spec, Z.ones_spec_low by lia. cbn.
  destruct (Z.leb_spec t k); [by rewrite Z.ones_spec_high by lia|by rewrite Z.ones_spec_low by lia].
Qed.

Lemma high_ones_range t : 0 <= t -> 0 <= high_ones t < U64_MOD.
Proof.
  intros Ht. apply bits_bound; [apply Z.ldiff_nonneg; left; by vm_compute|].
  intros k Hk. unfold high_ones. by rewrite Z.ldiff_spec, Z.ones_spec_high.
Qed.

Lemma high_ones_succ t : 0 <= t < 64 -> Z.ldiff (high_ones t) (2 ^ t) = high_ones (t + 1).
Proof.
  intros Ht. apply Z.bits_inj'. intros k Hk. rewrite Z.ldiff_spec. destruct (Z_lt_le_dec k 64).
  - rewrite !high_ones_bits by lia. rewrite Z.pow2_bits_eqb by lia.
    destruct (Z.leb_spec t k), (Z.leb_spec (t + 1) k), (Z.eqb_spec t k); cbn; done || lia.
  - by rewrite (testbit_small (high_ones t)), (testbit_small (high_ones (t + 1))) by (done || apply high_ones_range; lia).
Qed.

Lemma clear_line_S fuel line mask nr_used :
  clear_line (S fuel) line mask nr_used =
    if mask =? 0 then (line, nr_used)
    else
      let line := Z.ldiff line mask in
      let nr_used := u32 (nr_used - 1) in
      if nr_used =? 0 then (line, nr_used) else clear_line fuel line (u64 (Z.shiftl mask 1)) nr_used.
Proof. reflexivity. Qed.

Lemma clear_line_spec (n : nat) t nr :
  0 <= t -> t + Z.of_nat n = 64 -> 1 <= nr < U32_MOD ->
  clear_line (S n) (high_ones t) (if t =? 64 then 0 else 2 ^ t) nr =
    (high_ones (Z.min (t + nr) 64), nr - (Z.min (t + nr) 64 - t)).
Proof.
  revert t nr. induction n as [|n IH]; intros t nr Ht Hn Hnr; rewrite clear_line_S; cbv zeta.
  - replace t with 64 by lia. cbn [Z.eqb Pos.eqb]. f_equal; [f_equal|]; lia.
  - rewrite (proj2 (Z.eqb_neq t 64)) by lia. rewrite (proj2 (Z.eqb_neq (2 ^ t) 0)) by (pose proof (Z.pow_pos_nonneg 2 t); lia).
    rewrite high_ones_succ, u32_id by lia. destruct (Z.eqb_spec (nr - 1) 0) as [E | E].
    + replace nr with 1 in * by lia. f_equal; [f_equal|]; lia.
    + replace (u64 (Z.shiftl (2 ^ t) 1)) with (if t + 1 =? 64 then 0 else 2 ^ (t + 1)).
      * rewrite IH by lia. f_equal; [f_equal|]; lia.
      * rewrite Z.shiftl_mul_pow2, <- Z.pow_add_r by lia. unfold u64. change U64_MOD with (2 ^ 64).
        destruct (Z.eqb_spec (t + 1) 64) as [-> | ?]; [by rewrite Z.mod_same|].
        rewrite Z.mod_small; [done|]. split; [apply Z.pow_nonneg; lia|apply Z.pow_lt_mono_r; lia].
Qed.

Lemma filled_block_map w : 0 <= w < U64_MOD -> block_map (filled_block w).
Proof. intros. split; [by apply Forall_replicate|apply length_replicate]. Qed.

Lemma filled_block_bit w k : 0 <= k < 32768 -> bit (filled_block w) k = Z.testbit w (k mod 64).
Proof.
  intros Hk. unfold bit, word, filled_block. rewrite nth_lookup, lookup_replicate_2; [done|].
  Z.div_mod_to_equations; lia.
Qed.

Lemma clear_lines_spec fuel m j nr :
  block_map m -> 0 <= j -> 0 <= nr -> 64 * j + nr <= 32768 -> nr <= 64 * Z.of_nat fuel ->
  (forall k, 64 * j <= k < 32768 -> bit m k = true) ->
  block_map (clear_lines fuel m j nr) /\
  forall k, 0 <= k < 32768 ->
    bit (clear_lines fuel m j nr) k = bit m k && negb ((64 * j <=? k) && (k <? 64 * j + nr)).
Proof.
  revert m j nr. induction fuel as [|fuel IH]; intros m j nr Hm Hj Hnr Hend Hf Hones.
  { cbn. split; [done|]. intros k Hk. replace nr with 0 by lia.
    destruct (Z.leb_spec (64 * j) k), (Z.ltb_spec k (64 * j + 0)); cbn; rewrite ?andb_true_r; done || lia. }
  cbn [clear_lines]. destruct (Z.eqb_spec nr 0) as [-> | Hz]; cbn [negb].
  { split; [done|]. intros k Hk.
    destruct (Z.leb_spec (64 * j) k), (Z.ltb_spec k (64 * j + 0)); cbn; rewrite ?andb_true_r; done || lia. }
  assert (clear_line 65 ULONG_MAX 1 nr = (high_ones (Z.min nr 64), nr - Z.min nr 64)) as ->.
  { pose proof (clear_line_spec 64 0 nr ltac:(lia) ltac:(lia) ltac:(lia)) as E.
    rewrite Z.add_0_l, Z.sub_0_r in E. exact E. }
  set (m1 := set_word m j (high_ones (Z.min nr 64))). destruct Hm as [Hm Hl].
  assert (block_map m1) as Hm1.
  { split; [apply bitmap_wf_set; [done|]; apply high_ones_range; lia|unfold m1; by rewrite length_set_word]. }
  assert (forall k, 0 <= k < 32768 ->
    bit m1 k = bit m k && negb ((64 * j <=? k) && (k <? 64 * j + Z.min nr 64))) as Hb1.
  { intros k Hk. unfold m1, bit at 1. rewrite word_set by (Z.div_mod_to_equations; lia).
    pose proof (Z.div_mod k 64 ltac:(lia)). pose proof (Z.mod_pos_bound k 64 ltac:(lia)).
    destruct (Z.eqb_spec (k / 64) j) as [E | E].
    - rewrite high_ones_bits, Hones by lia. cbn.
      destruct (Z.leb_spec (Z.min nr 64) (k mod 64)), (Z.leb_spec (64 * j) k), (Z.ltb_spec k (64 * j + Z.min nr 64)); cbn; done || lia.
    - fold (bit m k). destruct (Z.leb_spec (64 * j) k), (Z.ltb_spec k (64 * j + Z.min nr 64)); cbn; rewrite ?andb_true_r; done || lia. }
  destruct (IH m1 (j + 1) (nr - Z.min nr 64)) as [G1 G2]; try done; try lia.
  - intros k Hk. rewrite Hb1, Hones by lia. destruct (Z.leb_spec (64 * j) k), (Z.ltb_spec k (64 * j + Z.min nr 64)); cbn; done || lia.
  - split; [done|]. intros k Hk. rewrite G2, Hb1 by lia. rewrite <- andb_assoc. f_equal.
    repeat case_cmp; cbn; done || lia.
Qed.

Lemma nth_replicate_lt {A} (i n : nat) (x d : A) : (i < n)%nat -> nth i (replicate n x) d = x.
Proof. intros. by rewrite nth_lookup, lookup_replicate_2. Qed.

Lemma used_groups_spec fuel nr :
  1 <= nr < U32_MOD -> nr <= 32768 * (Z.of_nat fuel + 1) ->
  exists q r, used_groups fuel nr = (replicate q (filled_block 0), r) /\ nr = 32768 * Z.of_nat q + r /\ 1 <= r <= 32768.
Proof.
  revert nr. induction fuel as [|fuel IH]; intros nr Hnr Hf.
  { exists 0%nat, nr. split; [done|]. lia. }
  cbn [used_groups]. rewrite bbn. destruct (Z.ltb_spec 32768 nr).
  - rewrite u32_id by lia. destruct (IH (nr - 32768)) as (q & r & -> & Hq & Hr); [lia..|].
    exists (S q), r. split; [done|]. lia.
  - exists 0%nat, nr. split; [done|]. lia.
Qed.

Lemma nr_used_eq sb n : sefs_geom sb n ->
  nr_used_blocks sb = sefs_get_data_region_start sb + 1 /\ 2 <= nr_used_blocks sb < journal_sb sb.
Proof.
  intros []. unfold nr_used_blocks, sefs_get_data_region_start. change (2 ^ 29) with 536870912 in *.
  assert (0 <= n / 5) by (Z.div_mod_to_equations; lia). rewrite !u32_id by lia. lia.
Qed.

(** The three kinds of bitmap blocks of a new file system. *)
Lemma write_bfree_blocks_eq sb n : sefs_geom sb n ->
  exists q r, write_bfree_blocks sb =
      replicate q (filled_block 0) ++ [clear_lines 513 (filled_block ULONG_MAX) 0 r] ++
      replicate (Z.to_nat (nr_bfree_blocks sb) - (q + 1)) (filled_block ULONG_MAX) /\
    nr_used_blocks sb = 32768 * Z.of_nat q + r /\ 1 <= r <= 32768 /\ Z.of_nat q + 1 <= nr_bfree_blocks sb.
Proof.
  intros Hg. destruct (nr_used_eq sb n Hg) as [_ Hu]. destruct Hg. change (2 ^ 29) with 536870912 in *. rewrite bbn in *.
  assert (0 <= n / 5) by (Z.div_mod_to_equations; lia).
  destruct (used_groups_spec (Z.to_nat (nr_used_blocks sb)) (nr_used_blocks sb)) as (q & r & E & Hq & Hr); [lia..|].
  exists q, r. split; [|lia]. unfold write_bfree_blocks. rewrite E.
  rewrite length_app, length_replicate. cbn [length]. by rewrite <- app_assoc.
Qed.

Lemma ones_bit k : 0 <= k < 32768 -> bit (filled_block ULONG_MAX) k = true.
Proof.
  intros Hk. rewrite filled_block_bit by done. apply Z.ones_spec_low. pose proof (Z.mod_pos_bound k 64). lia.
Qed.

Lemma partial_block_ok r : 0 <= r <= 32768 ->
  block_map (clear_lines 513 (filled_block ULONG_MAX) 0 r) /\
  forall k, 0 <= k < 32768 -> bit (clear_lines 513 (filled_block ULONG_MAX) 0 r) k = (r <=? k).
Proof.
  intros Hr. destruct (clear_lines_spec 513 (filled_block ULONG_MAX) 0 r) as [H1 H2]; try lia.
  - by apply filled_block_map.
  - intros k Hk. apply ones_bit. lia.
  - split; [done|]. intros k Hk. rewrite H2, ones_bit by done. cbn. repeat case_cmp; cbn; done || lia.
Qed.

(** Exactly the blocks below [nr_used_blocks] are in use. *)
Lemma mkfs_blocks_free sb n ls f k : sefs_geom sb n -> 0 <= k < BITMAP_BLK_NR * nr_bfree_blocks sb ->
  is_free (mk_area (write_bfree_blocks sb) ls f) k = (nr_used_blocks sb <=? k).
Proof.
  intros Hg Hk. destruct (write_bfree_blocks_eq sb n Hg) as (q & r & E & Hq & Hr & Hb). unfold is_free, fa_map. cbn.
  rewrite E. rewrite bbn in *. pose proof (Z.div_mod k 32768 ltac:(lia)). pose proof (Z.mod_pos_bound k 32768 ltac:(lia)).
  assert (0 <= k / 32768) by (Z.div_mod_to_equations; lia).
  destruct (Z.lt_trichotomy (k / 32768) (Z.of_nat q)) as [Hlt | [Heq | Hgt]].
  - rewrite app_nth1 by (rewrite length_replicate; lia). rewrite nth_replicate_lt by lia.
    rewrite filled_block_bit, Z.bits_0 by lia. symmetry. apply Z.leb_gt. lia.
  - rewrite app_nth2 by (rewrite length_replicate; lia). rewrite length_replicate.
    replace (Z.to_nat (k / 32768) - q)%nat with 0%nat by lia. cbn [nth app].
    rewrite (proj2 (partial_block_ok r ltac:(lia))) by lia. apply eq_true_iff_eq. rewrite !Z.leb_le. lia.
  - rewrite app_assoc, app_nth2 by (rewrite length_app, length_replicate; cbn; lia).
    rewrite length_app, length_replicate. cbn [length]. rewrite nth_replicate_lt by nia.
    rewrite ones_bit by lia. symmetry. apply Z.leb_le. lia.
Qed.

(** ** Counting free bits at mount time *)

Definition word_count (w : Z) : Z := sumz (fun i => Z.b2z (Z.testbit w i)) (seqz 0 64).

(** The clear bits of the word come first. *)
Definition prefix_used (w : Z) : Prop :=
  forall k k', 0 <= k <= k' -> k' < 64 -> Z.testbit w k = true -> Z.testbit w k' = true.

Lemma seqz_shift a c n : seqz (a + c) n = (fun i => i + c) <$> seqz a n.
Proof. unfold seqz. rewrite <- list_fmap_compose. apply list_fmap_ext. intros. cbn. lia. Qed.

Lemma sumz_fmap {A B} (f : B -> Z) (g : A -> B) l : sumz f (g <$> l) = sumz (fun x => f (g x)) l.
Proof. induction l as [|x l IH]; [done|]. cbn. by rewrite !sumz_cons, IH. Qed.

Lemma bit_cons w m i : 64 <= i -> bit (w :: m) i = bit m (i - 64).
Proof.
  intros Hi. unfold bit, word. replace ((i - 64) mod 64) with (i mod 64) by (Z.div_mod_to_equations; lia).
  replace (Z.to_nat (i / 64)) with (S (Z.to_nat ((i - 64) / 64))) by (Z.div_mod_to_equations; lia). done.
Qed.

Lemma popcount_words m : popcount m (nbits_of m) = sumz word_count m.
Proof.
  induction m as [|w m IH]; [done|]. unfold popcount, nbits_of in *. cbn [length].
  replace (64 * Z.of_nat (S (length m))) with (64 + 64 * Z.of_nat (length m)) by lia.
  rewrite seqz_app, sumz_app, sumz_cons, <- IH by lia. f_equal.
  rewrite (seqz_shift 0 64), sumz_fmap. apply sumz_ext. intros i Hi%elem_of_seqz. rewrite bit_cons by lia.
  do 2 f_equal. lia.
Qed.

Lemma b2z_sum_le (P : Z -> bool) l :
  sumz (fun i => Z.b2z (P i)) l <= Z.of_nat (length l) /\
  (sumz (fun i => Z.b2z (P i)) l = Z.of_nat (length l) <-> forall i, i ∈ l -> P i = true).
Proof.
  induction l as [|x l [IH1 IH2]].
  { rewrite sumz_nil. split; [done|]. split; [|done]. by intros _ i Hi%elem_of_nil. }
  rewrite sumz_cons. cbn [length]. destruct (P x) eqn:E; cbn [Z.b2z]; split; try lia; split; intros H.
  - intros i [-> | Hi]%elem_of_cons; [done|]. apply IH2; [lia|done].
  - assert (sumz (fun i => Z.b2z (P i)) l = Z.of_nat (length l)); [|lia]. apply IH2. intros. apply H. by right.
  - lia.
  - rewrite H in E by by left. done.
Qed.

Lemma word_count_ctz w : 0 <= w < U64_MOD ->
  word_count w <= 64 - ctzll 64 w /\ (word_count w = 64 - ctzll 64 w <-> prefix_used w).
Proof.
  intros Hw. unfold ctzll. destruct (Z.eqb_spec w 0) as [-> | Hz].
  { assert (word_count 0 = 0) as -> by by vm_compute. split; [lia|]. split; [|done].
    intros _ k k' _ _ H. by rewrite Z.bits_0 in H. }
  destruct (ffs_spec w ltac:(lia)) as (H1 & H2 & H3). set (c := __ffs w) in *. unfold word_count.
  replace 64 with (c + (64 - c)) at 1 3 by lia. rewrite seqz_app, sumz_app by lia.
  rewrite (sumz_const 0 _ (seqz 0 c)) by (intros i Hi%elem_of_seqz; by rewrite H3 by lia).
  destruct (b2z_sum_le (Z.testbit w) (seqz (0 + c) (64 - c))) as [G1 G2]. rewrite length_seqz in G1, G2.
  rewrite Z2Nat.id in G1, G2 by lia. split; [lia|]. split; intros H.
  - assert (forall i, i ∈ seqz (0 + c) (64 - c) -> Z.testbit w i = true) as Hall by (apply G2; lia).
    intros k k' Hk Hk' Ht. apply Hall, elem_of_seqz. destruct (Z_lt_le_dec k c); [by rewrite H3 in Ht by lia|lia].
  - assert (sumz (fun i => Z.b2z (Z.testbit w i)) (seqz (0 + c) (64 - c)) = 64 - c); [|lia].
    apply G2. intros i Hi%elem_of_seqz. apply (H c i); done || lia.
Qed.

(** With the usual value 64 of [__builtin_ctzll] at 0, the number of free bits
    computed at mount time is never too small, and it is exact only when in
    every word the used bits come first. *)
Lemma count_zero_bits_ok m (Hm : block_map m) :
  popcount m BITMAP_BLK_NR <= count_zero_bits 64 m /\
  (popcount m BITMAP_BLK_NR = count_zero_bits 64 m <-> Forall prefix_used m).
Proof.
  destruct Hm as [Hwf Hl]. rewrite <- (block_map_bits m) by done. rewrite popcount_words.
  unfold count_zero_bits. rewrite take_ge by lia. change (SEFS_BLOCK_SIZE * 8) with (64 * Z.of_nat 512). rewrite <- Hl.
  clear Hl. induction Hwf as [|w m Hw Hwf [IH1 IH2]]; [by rewrite !sumz_nil|].
  rewrite !sumz_cons, Forall_cons, <- IH2. cbn [length]. destruct (word_count_ctz w Hw) as [G1 G2].
  split; [lia|]. rewrite <- G2. lia.
Qed.

(** A bitmap whose used bits are those below [r]. *)
Definition used_below (r : Z) (m : list Z) : Prop :=
  block_map m /\ forall k, 0 <= k < 32768 -> bit m k = (r <=? k).

Lemma used_below_count r m : used_below r m -> u32 (count_zero_bits 64 m) = popcount m BITMAP_BLK_NR.
Proof.
  intros [Hm Hb]. destruct (count_zero_bits_ok m Hm) as [_ Heq].
  assert (popcount m BITMAP_BLK_NR = count_zero_bits 64 m) as <-.
  { apply Heq. apply Forall_forall. intros w Hw. apply list_elem_of_lookup_1 in Hw as [j Hj].
    pose proof (lookup_lt_Some _ _ _ Hj) as Hlt. rewrite (proj2 Hm) in Hlt.
    assert (w = word m (Z.of_nat j)) as -> by (unfold word; by rewrite Nat2Z.id, nth_lookup, Hj).
    intros k k' Hk Hk'. rewrite <- !bit_word by lia. rewrite !Hb by lia. rewrite !Z.leb_le. lia. }
  pose proof (popcount_bounds m BITMAP_BLK_NR). rewrite bbn in *. apply u32_id. lia.
Qed.

Lemma fill_super_area_wf maps f :
  Forall (fun m => exists r, used_below r m) maps -> Z.of_nat (length maps) <= 16384 -> 0 <= f < U32_MOD ->
  area_wf (fill_super_area 64 maps f).
Proof.
  intros Hm Hl Hf. split; cbn; [|apply Forall_fmap_ext_1|done|unfold nr_groups; cbn; lia].
  - eapply Forall_impl; [exact Hm|]. by intros m [r [? _]].
  - eapply Forall_impl; [exact Hm|]. intros m [r Hr]. by apply (used_below_count r).
Qed.

Lemma zeros_used_below : used_below 32768 (filled_block 0).
Proof.
  split; [by apply filled_block_map|]. intros k Hk. rewrite filled_block_bit, Z.bits_0 by done.
  symmetry. apply Z.leb_gt. lia.
Qed.

Lemma ones_used_below : used_below 0 (filled_block ULONG_MAX).
Proof.
  split; [by apply filled_block_map|]. intros k Hk. rewrite ones_bit by done. symmetry. apply Z.leb_le. lia.
Qed.

(** The block bitmap of a new SEFS file system: the counters computed when
    it is mounted are exact, and exactly the superblock, inode store, bitmaps
    and the root directory's block are in use.  The journal and the stage area
    are free blocks for the allocator. *)
Lemma mkfs_block_bitmap st_size
    (Hsize : 100 * SEFS_BLOCK_SIZE < st_size <= SEFS_FS_MAX_SIZE) :
  let sb := write_superblock st_size true in
  let a := fill_super_area 64 (write_bfree_blocks sb) (nr_free_blocks sb) in
  area_wf a /\ nr_groups a = nr_bfree_blocks sb /\
  (forall b, 0 <= b < BITMAP_BLK_NR * nr_bfree_blocks sb ->
     is_free a b = (sefs_get_data_region_start sb + 1 <=? b)) /\
  forall b, journal_sb sb <= b < st_size / SEFS_BLOCK_SIZE -> is_free a b = true.
Proof.
  intros sb a. pose proof (write_superblock_ok _ Hsize) as Hg. fold sb in Hg. set (n := st_size / SEFS_BLOCK_SIZE) in *.
  clearbody sb. destruct (write_bfree_blocks_eq sb n Hg) as (q & r & E & Hq & Hr & Hb).
  destruct (nr_used_eq sb n Hg) as [Hu Hu'].
  assert (forall b, 0 <= b < BITMAP_BLK_NR * nr_bfree_blocks sb ->
     is_free a b = (sefs_get_data_region_start sb + 1 <=? b)) as Hfree.
  { intros b Hb'. unfold a, fill_super_area. rewrite (mkfs_blocks_free sb n) by done. by rewrite Hu. }
  assert (length (write_bfree_blocks sb) = Z.to_nat (nr_bfree_blocks sb)) as Hl.
  { rewrite E, !length_app, !length_replicate. cbn. lia. }
  destruct Hg. change (2 ^ 29) with 536870912 in *. assert (0 <= n / 5) by (Z.div_mod_to_equations; lia).
  split_and!; [|unfold a, nr_groups; cbn; lia|done|].
  - apply fill_super_area_wf; [|lia|lia]. rewrite E, !Forall_app. split_and!.
    + apply Forall_replicate. exists 32768. apply zeros_used_below.
    + constructor; [|done]. exists r. apply partial_block_ok. lia.
    + apply Forall_replicate. exists 0. apply ones_used_below.
  - intros b Hb'. rewrite Hfree by (rewrite bbn in *; lia). apply Z.leb_le. lia.
Qed.

(** The inode bitmap of a new SEFS file system: the counters are exact and
    every inode but 0 and the root is free, those behind the inode store
    included.  [nr_free_inodes] is one more than the free inodes of the store:
    the allocation that uses it up returns inode [nr_inodes], whose place is
    the first block of the inode bitmap. *)
Lemma mkfs_inode_bitmap st_size
    (Hsize : 100 * SEFS_BLOCK_SIZE < st_size <= SEFS_FS_MAX_SIZE) :
  let sb := write_superblock st_size true in
  let a := fill_super_area 64 (write_ifree_blocks sb) (nr_free_inodes sb) in
  area_wf a /\ (forall k, 0 <= k < BITMAP_BLK_NR * nr_ifree_blocks sb -> is_free a k = (2 <=? k)) /\
  fa_free a = Z.of_nat (length (seqz 2 (nr_inodes sb - 2))) + 1 /\
  (nr_inodes sb < BITMAP_BLK_NR * nr_ifree_blocks sb ->
   is_free a (nr_inodes sb) = true /\ SEFS_INO_BLOCK (nr_inodes sb) = ifree_first sb).
Proof.
  intros sb a. pose proof (write_superblock_ok _ Hsize) as Hg. fold sb in Hg.
  clearbody sb. destruct Hg. change (2 ^ 29) with 536870912 in *. change SEFS_INODES_PER_BLOCK with 56 in *.
  assert (0 <= (st_size / SEFS_BLOCK_SIZE) / 5) by (Z.div_mod_to_equations; lia).
  set (m0 := <[0%nat:=0xfffffffffffffffc]> (filled_block ULONG_MAX)).
  assert (used_below 2 m0) as H0.
  { split.
    - split; [apply Forall_insert; [by apply filled_block_map|done]|]. unfold m0. by rewrite length_insert.
    - intros k Hk. unfold m0. change (<[0%nat:=?w]> ?m) with (set_word m 0 w). unfold bit. 
      rewrite word_set by (cbn; Z.div_mod_to_equations; lia). destruct (Z.eqb_spec (k / 64) 0) as [E | E].
      + rewrite Z.mod_small by (Z.div_mod_to_equations; lia). change 0xfffffffffffffffc with (high_ones 2).
        apply high_ones_bits; [lia|Z.div_mod_to_equations; lia].
      + fold (bit (filled_block ULONG_MAX) k). rewrite ones_bit by done. symmetry. apply Z.leb_le.
        Z.div_mod_to_equations; lia. }
  assert (forall k, 0 <= k < BITMAP_BLK_NR * nr_ifree_blocks sb -> is_free a k = (2 <=? k)) as Hfree.
  { intros k Hk. rewrite bbn in *. unfold is_free, fa_map, a, fill_super_area, write_ifree_blocks. cbn [fa_maps]. fold m0. rewrite bbn.
    pose proof (Z.div_mod k 32768 ltac:(lia)). pose proof (Z.mod_pos_bound k 32768 ltac:(lia)).
    assert (0 <= k / 32768) by (Z.div_mod_to_equations; lia).
    destruct (Z.to_nat (k / 32768)) as [|g] eqn:Eg; cbn [nth].
    - rewrite (proj2 H0) by lia. f_equal. lia.
    - rewrite nth_replicate_lt by nia. rewrite ones_bit by lia. symmetry. apply Z.leb_le. lia. }
  split; [|split; [done|split]].
  - rewrite bbn in *. apply fill_super_area_wf; [|unfold write_ifree_blocks; cbn [length]; rewrite length_replicate; lia|lia].
    unfold write_ifree_blocks. constructor; [by exists 2|]. apply Forall_replicate. exists 0. apply ones_used_below.
  - cbn. rewrite length_seqz. lia.
  - intros Hlt. split; [rewrite Hfree by lia; apply Z.leb_le; lia|].
    unfold SEFS_INO_BLOCK, ifree_first. change SEFS_INODES_PER_BLOCK with 56.
    rewrite sg_inodes. rewrite u32_id by lia. rewrite Z.mul_comm, Z.div_mul by lia. done.
Qed.

(** ** Examples *)

(** One group with the free bits of [w] in its second word. *)
Definition demo_map (w : Z) : list Z := 0 :: w :: replicate 510 0.
Definition demo_free (w : Z) : free_area := mk_area [demo_map w] [word_count w] 10.

Lemma demo_bits_ok w : 0 <= w < U64_MOD -> block_map (demo_map w).
Proof. intros Hw. split; [|done]. constructor; [done|]. constructor; [done|]. by apply Forall_replicate. Qed.

Lemma demo_free_wf w : 0 <= w < U64_MOD -> area_wf (demo_free w).
Proof.
  intros Hw. pose proof (demo_bits_ok w Hw) as Hm. split; cbn [demo_free fa_maps fa_left fa_free]; [by constructor| |done|done].
  assert (popcount (demo_map w) BITMAP_BLK_NR = word_count w) as E.
  { rewrite <- (block_map_bits _ Hm), popcount_words. unfold demo_map.
    rewrite !sumz_cons, (sumz_const 0 _ (replicate 510 0)); [change (word_count 0) with 0; lia|].
    intros x [-> _]%elem_of_replicate. reflexivity. }
  cbn [fmap list_fmap]. rewrite E. reflexivity.
Qed.

(** The result of a search decides between the two cases. *)
Lemma search_fit m len p :
  block_map m -> 1 <= len -> p <> 0 -> (get_first_free_bits m BITMAP_BLK_NR len).2 = p ->
  first_fit m BITMAP_BLK_NR len p.
Proof.
  intros Hm Hlen Hp E. pose proof (block_map_bits _ Hm) as Hb.
  destruct (get_first_free_bits_ok m BITMAP_BLK_NR len) as [(p' & Hf & E') | [_ E']];
    [apply Hm|lia|rewrite Hb; rewrite bbn; lia|rewrite bbn; lia| |]; rewrite E' in E; cbn in E; congruence.
Qed.

Lemma search_no_fit m len :
  block_map m -> 1 <= len -> bit m 0 = false -> (get_first_free_bits m BITMAP_BLK_NR len).2 = 0 ->
  no_fit m BITMAP_BLK_NR len.
Proof.
  intros Hm Hlen H0 E. pose proof (block_map_bits _ Hm) as Hb.
  destruct (get_first_free_bits_ok m BITMAP_BLK_NR len) as [(p' & Hf & E') | [? E']];
    [apply Hm|lia|rewrite Hb; rewrite bbn; lia|rewrite bbn; lia| |done]. rewrite E' in E. cbn in E. subst p'.
  destruct Hf as (_ & _ & Hr & _). rewrite Hr in H0 by lia. done.
Qed.


