(* ===== verification/SefsFile.v ===== *)
(** * The block index of a SEFS file

    Logical to physical block mapping by extents, with allocation,
    [secure_daemon/src/fs/sefs/inode.c].  The extents live in a chain of index
    blocks; the specification is the flat list of extents. *)

From S2P Require Import Prelude Bio Sjd JournalLog StageArea Layout Bitmap SefsAlloc TxBuild InodeAlloc.

(** ** Data *)

(** [struct sefs_extent] *)
Record sefs_extent := mk_ext { x_bno : Z; x_iblock : Z; x_len : Z }.

(** [(SEFS_BLOCK_SIZE - sizeof(uint64_t)) / sizeof(struct sefs_extent)] with
    packed extents of 14 bytes. *)
Definition SEFS_MAX_EXTENTS : Z := (SEFS_BLOCK_SIZE - 8) / 14.

(** [struct sefs_ei_block] with its address; [next] is the address of the
    following block of the chain, 0 in the last one. *)
Record sefs_ei_block := mk_ei { ei_bno : Z; extents : list sefs_extent }.

(** The index of a file and the block allocator. *)
Record file := mk_file { f_chain : list sefs_ei_block; f_area : free_area }.

Definition no_extent : sefs_extent := mk_ext 0 0 0.
Definition no_block : sefs_ei_block := mk_ei 0 [].
Definition blk (f : file) (ci : Z) : sefs_ei_block := nth (Z.to_nat ci) (f_chain f) no_block.
Definition ext (f : file) (ci ei : Z) : sefs_extent := nth (Z.to_nat ei) (extents (blk f ci)) no_extent.
Definition set_ext (f : file) (ci ei : Z) (x : sefs_extent) (a : free_area) : file :=
  mk_file (<[Z.to_nat ci := mk_ei (ei_bno (blk f ci)) (<[Z.to_nat ei := x]> (extents (blk f ci)))]> (f_chain f)) a.

(** ** Operations *)

Fixpoint ext_search (exts : list sefs_extent) (iblock i : Z) : option Z :=
  match exts with
  | [] => None
  | x :: exts =>
      if (x_bno x =? 0) || (x_iblock x <=? iblock) && (iblock <? u32 (x_iblock x + x_len x))
      then Some i else ext_search exts iblock (i + 1)
  end.

(** [None] for -1. *)
Definition sefs_ext_search (index : sefs_ei_block) (iblock : Z) : option Z :=
  ext_search (extents index) (u32 iblock) 0.

Definition MATCH_EXTENT (blocks : Z) : Z :=
  if blocks =? 1 then 1 else if blocks <=? 8 then 8 else if blocks <=? 32 then 32
  else if blocks <=? 128 then 128 else if blocks <=? 512 then 512 else if blocks <=? 2048 then 2048
  else if blocks <=? 8192 then 8192 else 32768.

(** What [sb_bread] of an index block gives: nothing; the buffer, which is
    current; or, for a buffer that does not count as current, the block as it
    is on disk with the blocks that follow it there. *)
Inductive ei_read := ReadFails | ReadCached | ReadDisk (bs : list sefs_ei_block).

Section operations.

(** Whether reading the bitmap block of a group succeeds, and what reading the
    index block at an address gives. *)
Context (bread : Z -> bool) (eread : Z -> ei_read).

(** [sb_bread] of block [ci] of the chain. *)
Definition read_ei (f : file) (ci : Z) : option file :=
  match eread (ei_bno (blk f ci)) with
  | ReadFails => None
  | ReadCached => Some f
  | ReadDisk bs => Some (mk_file (take (Z.to_nat ci) (f_chain f) ++ bs) (f_area f))
  end.

(** The number of blocks to allocate for [nr] at slot [ei]. *)
Definition alloc_size (f : file) (ci ei nr : Z) : Z :=
  let m := MATCH_EXTENT nr in
  let nr :=
    if (3 <? ei) && (x_len (ext f ci (ei - 1)) =? m) && (x_len (ext f ci (ei - 2)) =? m) &&
       (x_len (ext f ci (ei - 3)) =? m) && (x_len (ext f ci (ei - 4)) =? m)
    then u32 (nr * 4) else nr in
  if negb (ei =? 0) then Z.max (x_len (ext f ci (ei - 1))) (MATCH_EXTENT nr) else MATCH_EXTENT nr.

Definition alloc_file_block (f : file) (ci nr ei : Z) : res (file * Z) :=
  let blks := alloc_size f ci ei nr in
  let* (area, bno) := sefs_get_free_blocks bread (f_area f) (u32 blks) in
  if bno =? 0 then Ok (mk_file (f_chain f) area, -1)
  else
    let prev := ext f ci (ei - 1) in
    let iblock := if negb (ei =? 0) then u32 (x_iblock prev + x_len prev) else x_iblock (ext f ci ei) in
    Ok (set_ext f ci ei (mk_ext bno iblock (blks mod 65536)) area, 0).

(** The next block of the chain after [ci], allocated when there is none;
    memory for its buffer is available.  The buffer of a new block is marked
    dirty but not current, so that the next read of the block may be a
    [ReadDisk] (see [BufferCache.balloc_without_uptodate_lost]). *)
Definition get_next_ei_block (f : file) (ci : Z) : res (file * option Z) :=
  if ci + 1 <? Z.of_nat (length (f_chain f)) then
    match read_ei f (ci + 1) with Some f => Ok (f, Some (ci + 1)) | None => Ok (f, None) end
  else
    let x := ext f ci (SEFS_MAX_EXTENTS - 1) in
    let last := u32 (x_iblock x + x_len x) in
    let* (area, bno) := sefs_get_free_blocks bread (f_area f) 1 in
    if bno =? 0 then Ok (mk_file (f_chain f) area, None)
    else
      let new := mk_ei bno (mk_ext 0 last 0 :: replicate (Z.to_nat (SEFS_MAX_EXTENTS - 1)) no_extent) in
      Ok (mk_file (f_chain f ++ [new]) area, Some (ci + 1)).

(** The loops [search] and [cr_search]: the block and slot for [iblock], from
    block [ci] on. *)
Fixpoint search (fuel : nat) (f : file) (ci iblock : Z) : res (file * option (Z * Z)) :=
  match sefs_ext_search (blk f ci) iblock with
  | Some ei => Ok (f, Some (ci, ei))
  | None =>
      match fuel with
      | O => Blocked
      | S fuel =>
          let* (f, next) := get_next_ei_block f ci in
          match next with
          | None => Ok (f, None)
          | Some ci => search fuel f ci iblock
          end
      end
  end.

Definition search_fuel (f : file) : nat := S (length (f_chain f)).

Definition be_of (x : sefs_extent) : buffer_extent := mk_be (x_iblock x) (x_bno x) (x_len x).

(** The loop [retry]: the last extent seen is slot [ei] of block [ci]. *)
Fixpoint retry (fuel : nat) (f : file) (ci ei iblock create : Z) : res (file * Z) :=
  match fuel with
  | O => Blocked
  | S fuel =>
      let x := ext f ci ei in
      let n_iblock := u32 (x_iblock x + x_len x) in
      let n_create := u32 (create - (n_iblock - iblock)) in
      let* (f, pos) := search (search_fuel f) f ci n_iblock in
      match pos with
      | None => Ok (f, -1)
      | Some (ci, ei) =>
          let* (f, ret) := if x_bno (ext f ci ei) =? 0 then alloc_file_block f ci n_create ei else Ok (f, 0) in
          if negb (ret =? 0) then Ok (f, -1)
          else
            let x := ext f ci ei in
            if u32 (x_iblock x + x_len x) <? u64 (n_iblock + n_create)
            then retry fuel f ci ei iblock create else Ok (f, 0)
      end
  end.

Context (SEFS_MAX_FILESIZE : Z).

(** The result code and the extent. *)
Definition sefs_get_block (f : file) (iblock create : Z) : res (file * Z * option buffer_extent) :=
  if (SEFS_MAX_FILESIZE - 1) / 4096 <? iblock then Ok (f, -1, None)
  else
    match read_ei f 0 with
    | None => Ok (f, -1, None)
    | Some f =>
        let* (f, pos) := search (search_fuel f) f 0 iblock in
        match pos with
        | None => Ok (f, -1, None)
        | Some (ci, ei) =>
            let x := ext f ci ei in
            if create =? 0 then
              if (iblock =? 0) && negb (x_len x =? 0) || negb (x_bno x =? 0) then Ok (f, 0, Some (be_of x))
              else Ok (f, -1, None)
            else if u64 (iblock + create) <=? u32 (x_iblock x + x_len x) then Ok (f, 0, Some (be_of x))
            else if x_bno x =? 0 then
              let* (f, ret) := alloc_file_block f ci create ei in
              if negb (ret =? 0) then Ok (f, -1, None) else Ok (f, 0, Some (be_of (ext f ci ei)))
            else
              let* (f', ret) := retry (S (length (f_chain f) * Z.to_nat SEFS_MAX_EXTENTS)) f ci ei iblock create in
              Ok (f', ret, Some (be_of x))
        end
    end.

End operations.

(** ** The flat view *)

Notation NE := 292 (only parsing).

Lemma ne_eq : SEFS_MAX_EXTENTS = NE.
Proof. reflexivity. Qed.

(** The [k]-th extent of the file. *)
Definition xat (f : file) (k : Z) : sefs_extent := ext f (k / NE) (k mod NE).

(** The slots of the index. *)
Definition slots (f : file) : Z := NE * Z.of_nat (length (f_chain f)).

Definition x_end (x : sefs_extent) : Z := x_iblock x + x_len x.

(** The end of the first [n] extents. *)
Definition fend (f : file) (n : Z) : Z := if n =? 0 then 0 else x_end (xat f (n - 1)).

(** The first [n] slots are in use, map consecutive ranges from 0 on; the
    first free slot of an index block knows where it starts. *)
Record idx_wf (f : file) (n : Z) : Prop := {
  iw_blocks : Forall (fun b => length (extents b) = Z.to_nat NE) (f_chain f);
  iw_count : 0 <= n <= slots f /\ slots f <= n + NE /\ 0 < slots f;
  iw_used k : 0 <= k < n -> 0 < x_bno (xat f k) < U32_MOD /\ 1 <= x_len (xat f k) <= 32768;
  iw_start k : 0 <= k < n -> x_iblock (xat f k) = fend f k;
  iw_unused k : n <= k < slots f ->
    x_bno (xat f k) = 0 /\ x_len (xat f k) = 0 /\ 0 <= x_iblock (xat f k) <= fend f n;
  iw_slot : n < slots f -> n mod NE = 0 -> x_iblock (xat f n) = fend f n;
  iw_end : fend f n < U32_MOD
}.

Lemma fend_S f k : 0 <= k -> fend f (k + 1) = x_end (xat f k).
Proof. intros. unfold fend. rewrite (proj2 (Z.eqb_neq (k + 1) 0)) by lia. do 2 f_equal. lia. Qed.

Lemma fend_step f n k : idx_wf f n -> 0 <= k < n -> fend f (k + 1) = fend f k + x_len (xat f k).
Proof. intros Hw Hk. rewrite fend_S by lia. unfold x_end. by rewrite (iw_start f n Hw). Qed.

Lemma fend_mono f n j k : idx_wf f n -> 0 <= j <= k -> k <= n -> fend f j <= fend f k.
Proof.
  intros Hw Hj Hk. assert (forall d : nat, j + Z.of_nat d <= n -> fend f j <= fend f (j + Z.of_nat d)) as H.
  { induction d as [|d IH]; intros Hd; [by rewrite Z.add_0_r|].
    replace (j + Z.of_nat (S d)) with (j + Z.of_nat d + 1) by lia. rewrite (fend_step f n) by (done || lia).
    pose proof (iw_used f n Hw (j + Z.of_nat d) ltac:(lia)). specialize (IH ltac:(lia)). lia. }
  specialize (H (Z.to_nat (k - j)) ltac:(lia)). replace (j + Z.of_nat (Z.to_nat (k - j))) with k in H by lia. done.
Qed.

Lemma fend_nonneg f n k : idx_wf f n -> 0 <= k <= n -> 0 <= fend f k.
Proof. intros Hw Hk. change 0 with (fend f 0). apply (fend_mono f n); done || lia. Qed.

(** Slot [k] is the place for block [p]: its extent contains [p], or it is the
    first free slot and [p] is past the end. *)
Definition place (f : file) (n p k : Z) : Prop :=
  0 <= k < n /\ fend f k <= p < fend f (k + 1) \/ k = n /\ fend f n <= p.

Lemma place_exists f n p : idx_wf f n -> 0 <= p -> exists k, place f n p k.
Proof.
  intros Hw Hp. assert (forall d : nat, Z.of_nat d <= n ->
    (exists k, 0 <= k < Z.of_nat d /\ fend f k <= p < fend f (k + 1)) \/ fend f (Z.of_nat d) <= p) as H.
  { induction d as [|d IH]; intros Hd; [by right|].
    destruct IH as [(k & Hk & Hpk) | IH]; [lia|left; exists k; lia|].
    destruct (Z_lt_le_dec p (fend f (Z.of_nat d + 1))).
    - left. exists (Z.of_nat d). lia.
    - right. replace (Z.of_nat (S d)) with (Z.of_nat d + 1) by lia. done. }
  pose proof (iw_count f n Hw). destruct (H (Z.to_nat n) ltac:(lia)) as [(k & Hk & Hpk) | He].
  - exists k. left. lia.
  - exists n. right. rewrite Z2Nat.id in He by lia. done.
Qed.

Lemma place_past f n p j k : idx_wf f n -> place f n p k -> 0 <= j < k -> fend f (j + 1) <= p.
Proof.
  intros Hw Hpl Hj. assert (k <= n) by (destruct Hpl as [? | ?]; lia).
  pose proof (fend_mono f n (j + 1) k Hw ltac:(lia) ltac:(lia)). destruct Hpl as [? | [-> ?]]; lia.
Qed.

(** ** The search *)

Definition matches (p : Z) (x : sefs_extent) : bool :=
  (x_bno x =? 0) || (x_iblock x <=? p) && (p <? u32 (x_iblock x + x_len x)).

Lemma ext_search_spec exts p i :
  match ext_search exts p i with
  | Some j => i <= j < i + Z.of_nat (length exts) /\ matches p (nth (Z.to_nat (j - i)) exts no_extent) = true /\
      forall k, i <= k < j -> matches p (nth (Z.to_nat (k - i)) exts no_extent) = false
  | None => forall k, i <= k < i + Z.of_nat (length exts) -> matches p (nth (Z.to_nat (k - i)) exts no_extent) = false
  end.
Proof.
  revert i. induction exts as [|x exts IH]; intros i; cbn [ext_search length]; [intros; lia|].
  fold (matches p x). destruct (matches p x) eqn:E.
  { rewrite Z.sub_diag. cbn. split_and!; [lia..|done|intros; lia]. }
  assert (forall k, i <= k -> k <> i -> nth (Z.to_nat (k - i)) (x :: exts) no_extent = nth (Z.to_nat (k - (i + 1))) exts no_extent) as En.
  { intros k Hk Hne. by replace (Z.to_nat (k - i)) with (S (Z.to_nat (k - (i + 1)))) by lia. }
  assert (matches p (nth (Z.to_nat (i - i)) (x :: exts) no_extent) = false) as E0 by by rewrite Z.sub_diag.
  specialize (IH (i + 1)). destruct (ext_search exts p (i + 1)) as [j|].
  - destruct IH as (H1 & H2 & H3). split; [lia|]. rewrite En by lia. split; [done|].
    intros k Hk. destruct (Z.eq_dec k i) as [-> | ?]; [done|]. rewrite En by lia. apply H3. lia.
  - intros k Hk. destruct (Z.eq_dec k i) as [-> | ?]; [done|]. rewrite En by lia. apply IH. lia.
Qed.

Lemma matches_used f n p k : idx_wf f n -> 0 <= k < n -> 0 <= p ->
  matches p (xat f k) = (fend f k <=? p) && (p <? fend f (k + 1)).
Proof.
  intros Hw Hk Hp. unfold matches. pose proof (iw_used f n Hw k Hk) as [Hb Hl].
  rewrite (proj2 (Z.eqb_neq _ 0)) by lia. cbn. rewrite (fend_step f n), <- (iw_start f n Hw) by (done || lia).
  pose proof (fend_mono f n (k + 1) n Hw ltac:(lia) ltac:(lia)) as Hm. rewrite (fend_step f n), <- (iw_start f n Hw) in Hm by (done || lia).
  pose proof (iw_end f n Hw). pose proof (fend_nonneg f n k Hw ltac:(lia)). rewrite (iw_start f n Hw) in * by done.
  by rewrite u32_id by lia.
Qed.

(** Before the place of [p] nothing matches; its place does. *)
Lemma matches_place f n p k : idx_wf f n -> 0 <= p -> place f n p k -> k < slots f -> matches p (xat f k) = true.
Proof.
  intros Hw Hp Hpl Hk. destruct Hpl as [[Hkn Hr] | [-> He]].
  - rewrite (matches_used f n) by done. apply andb_true_iff. rewrite Z.leb_le, Z.ltb_lt. lia.
  - unfold matches. by rewrite (proj1 (iw_unused f n Hw n ltac:(lia))).
Qed.

Lemma matches_before f n p k j : idx_wf f n -> 0 <= p -> place f n p k -> 0 <= j < k -> matches p (xat f j) = false.
Proof.
  intros Hw Hp Hpl Hj. pose proof (place_past f n p j k Hw Hpl Hj).
  rewrite (matches_used f n) by (done || destruct Hpl; lia). apply andb_false_iff. rewrite Z.ltb_ge. lia.
Qed.

Lemma xat_block f ci e : 0 <= e < NE -> xat f (NE * ci + e) = nth (Z.to_nat e) (extents (blk f ci)) no_extent.
Proof.
  intros He. unfold xat, ext. replace ((NE * ci + e) / NE) with ci by (Z.div_mod_to_equations; lia).
  by replace ((NE * ci + e) mod NE) with e by (Z.div_mod_to_equations; lia).
Qed.

Lemma blk_length f n ci : idx_wf f n -> 0 <= ci < Z.of_nat (length (f_chain f)) -> Z.of_nat (length (extents (blk f ci))) = NE.
Proof.
  intros Hw Hci. assert (length (extents (blk f ci)) = Z.to_nat NE) as ->; [|done].
  apply (Forall_nth (fun b => length (extents b) = Z.to_nat NE)); [apply (iw_blocks f n Hw)|lia].
Qed.

(** The search of one block. *)
Lemma block_search f n p k ci :
  idx_wf f n -> 0 <= p < U32_MOD -> place f n p k -> 0 <= ci < Z.of_nat (length (f_chain f)) -> NE * ci <= k ->
  sefs_ext_search (blk f ci) p = if k <? NE * (ci + 1) then Some (k - NE * ci) else None.
Proof.
  intros Hw Hp Hpl Hci Hk. unfold sefs_ext_search. rewrite u32_id by done.
  pose proof (blk_length f n ci Hw Hci) as Hl. pose proof (ext_search_spec (extents (blk f ci)) p 0) as Hs.
  assert (forall e, 0 <= e < NE -> nth (Z.to_nat (e - 0)) (extents (blk f ci)) no_extent = xat f (NE * ci + e)) as Ex.
  { intros e He. rewrite xat_block by done. by rewrite Z.sub_0_r. }
  destruct (ext_search (extents (blk f ci)) p 0) as [j|].
  - destruct Hs as (H1 & H2 & H3). rewrite Ex in H2 by lia. destruct (Z.ltb_spec k (NE * (ci + 1))).
    + f_equal. destruct (Z.lt_trichotomy j (k - NE * ci)) as [? | [? | ?]]; [|done|].
      * rewrite (matches_before f n p k) in H2 by (done || lia). done.
      * specialize (H3 (k - NE * ci) ltac:(lia)). rewrite Ex in H3 by lia.
        rewrite (matches_place f n) in H3; [done|done|lia| |unfold slots; lia].
        by replace (NE * ci + (k - NE * ci)) with k by lia.
    + rewrite (matches_before f n p k) in H2 by (done || lia). done.
  - destruct (Z.ltb_spec k (NE * (ci + 1))); [|done]. specialize (Hs (k - NE * ci) ltac:(lia)).
    rewrite Ex in Hs by lia. rewrite (matches_place f n) in Hs; [done|done|lia| |unfold slots; lia].
    by replace (NE * ci + (k - NE * ci)) with k by lia.
Qed.

(** The index does not depend on the allocator. *)
Lemma xat_area f a k : xat (mk_file (f_chain f) a) k = xat f k.
Proof. done. Qed.

Lemma idx_wf_ext f f' n :
  length (f_chain f') = length (f_chain f) ->
  Forall (fun b => length (extents b) = Z.to_nat NE) (f_chain f') ->
  (forall k, 0 <= k -> xat f' k = xat f k) -> idx_wf f n -> idx_wf f' n.
Proof.
  intros Hl Hb Hx Hw. assert (slots f' = slots f) as Es by (unfold slots; by rewrite Hl).
  assert (forall k, 0 <= k -> fend f' k = fend f k) as Ef.
  { intros k Hk. unfold fend. destruct (Z.eqb_spec k 0); [done|]. by rewrite Hx by lia. }
  destruct Hw. split; [done|by rewrite Es|..].
  - intros k Hk. rewrite Hx by lia. auto.
  - intros k Hk. rewrite Hx, Ef by lia. auto.
  - intros k Hk. rewrite Hx, Ef by lia. apply iw_unused0. lia.
  - rewrite Es. intros. rewrite Hx, Ef by lia. auto.
  - rewrite Ef by lia. done.
Qed.

Lemma idx_wf_area f a n : idx_wf f n -> idx_wf (mk_file (f_chain f) a) n.
Proof. intros Hw. apply (idx_wf_ext f); [done|apply Hw|done|done]. Qed.

(** The index with a further empty block. *)
Definition grown (f : file) (bno last : Z) (a : free_area) : file :=
  mk_file (f_chain f ++ [mk_ei bno (mk_ext 0 last 0 :: replicate 291 no_extent)]) a.

Lemma xat_grown f bno last a k : 0 <= k ->
  xat (grown f bno last a) k =
    if k <? slots f then xat f k else if k =? slots f then mk_ext 0 last 0
    else no_extent.
Proof.
  intros Hk. unfold xat, ext, blk, grown, slots. cbn [f_chain].
  pose proof (Z.div_mod k NE ltac:(lia)). pose proof (Z.mod_pos_bound k NE ltac:(lia)).
  destruct (Z.ltb_spec k (NE * Z.of_nat (length (f_chain f)))).
  { by rewrite app_nth1 by (Z.div_mod_to_equations; lia). }
  rewrite app_nth2 by lia. destruct (Z.to_nat (k / NE) - length (f_chain f))%nat as [|d] eqn:Ed; cbn [nth extents].
  - destruct (Z.eqb_spec k (NE * Z.of_nat (length (f_chain f)))) as [E | E].
    + by replace (Z.to_nat (k mod NE)) with 0%nat by lia.
    + replace (Z.to_nat (k mod NE)) with (S (Z.to_nat (k mod NE - 1))) by lia. cbn [nth].
      apply nth_replicate_lt. lia.
  - rewrite (proj2 (Z.eqb_neq _ _)) by lia. destruct d; cbn; by destruct (Z.to_nat (k mod NE)).
Qed.

Lemma fend_grown f bno last a k : 0 <= k <= slots f -> fend (grown f bno last a) k = fend f k.
Proof.
  intros Hk. unfold fend. destruct (Z.eqb_spec k 0); [done|].
  by rewrite xat_grown, (proj2 (Z.ltb_lt _ _)) by lia.
Qed.

Lemma slots_grown f bno last a : slots (grown f bno last a) = slots f + NE.
Proof. unfold slots, grown. cbn [f_chain]. rewrite length_app. cbn. lia. Qed.

Lemma grown_wf f n bno a : idx_wf f n -> n = slots f -> idx_wf (grown f bno (fend f n) a) n.
Proof.
  intros Hw Hn. pose proof (fend_nonneg f n n Hw) as Hnn. set (f' := grown f bno (fend f n) a).
  assert (slots f' = slots f + NE) as Es by apply slots_grown.
  assert (forall k, 0 <= k < n -> xat f' k = xat f k) as Hx.
  { intros k Hk. unfold f'. rewrite xat_grown, (proj2 (Z.ltb_lt k (slots f))) by lia. done. }
  assert (forall k, 0 <= k <= n -> fend f' k = fend f k) as Ef.
  { intros k Hk. apply fend_grown. lia. }
  destruct Hw. split; rewrite ?Es.
  - apply Forall_app. split; [done|]. by constructor.
  - lia.
  - intros k Hk. rewrite Hx by lia. auto.
  - intros k Hk. rewrite Hx, Ef by lia. auto.
  - intros k Hk. rewrite Ef by lia. unfold f'. rewrite xat_grown, (proj2 (Z.ltb_ge k (slots f))) by lia.
    destruct (k =? slots f); cbn; lia.
  - intros _ _. rewrite Ef by lia. unfold f'. rewrite xat_grown, (proj2 (Z.ltb_ge n (slots f))) by lia.
    by rewrite (proj2 (Z.eqb_eq n (slots f))).
  - rewrite Ef by lia. done.
Qed.

Section reads.
Context (bread : Z -> bool) (eread : Z -> ei_read).
Hypothesis Heread : forall b, eread b = ReadCached.

Notation next_ei := (get_next_ei_block bread eread).
Notation find := (search bread eread).

(** The block after a full index: a new one, or none. *)
Lemma next_ei_full f n : idx_wf f n -> n = slots f ->
  exists a, next_ei f (slots f / NE - 1) = Ok (mk_file (f_chain f) a, None) \/
    exists bno, next_ei f (slots f / NE - 1) = Ok (grown f bno (fend f n) a, Some (slots f / NE)).
Proof.
  intros Hw Hn. pose proof (iw_count f n Hw) as Hc.
  assert (slots f / NE = Z.of_nat (length (f_chain f))) as EL by (unfold slots; Z.div_mod_to_equations; lia).
  unfold get_next_ei_block. rewrite EL, (proj2 (Z.ltb_ge _ _)) by lia.
  destruct (get_free_blocks_total bread (f_area f) 1) as (a & b & E & Hb); [rewrite bbn; lia|].
  exists a. rewrite E. cbn [res_bind]. destruct (Z.eqb_spec b 0); [by left|right]. exists b.
  unfold grown. rewrite ne_eq. change (Z.to_nat (NE - 1)) with 291%nat.
  assert (ext f (Z.of_nat (length (f_chain f)) - 1) (NE - 1) = xat f (n - 1)) as Ex.
  { unfold xat. rewrite Hn. unfold slots. f_equal; Z.div_mod_to_equations; lia. }
  rewrite Ex. fold (x_end (xat f (n - 1))).
  assert (fend f n = x_end (xat f (n - 1))) as <- by (unfold fend; by rewrite (proj2 (Z.eqb_neq n 0)) by lia).
  rewrite u32_id by (pose proof (iw_end f n Hw); pose proof (fend_nonneg f n n Hw); lia).
  do 4 f_equal. lia.
Qed.

(** The search finds the place of [p] if there is a slot for it. *)
Lemma search_in fuel f n ci p k :
  idx_wf f n -> 0 <= p < U32_MOD -> place f n p k -> 0 <= ci -> NE * ci <= k < slots f ->
  slots f <= NE * (ci + 1 + Z.of_nat fuel) -> find fuel f ci p = Ok (f, Some (k / NE, k mod NE)).
Proof.
  intros Hw Hp Hpl. revert ci. induction fuel as [|fuel IH]; intros ci Hci Hk Hf.
  all: assert (ci < Z.of_nat (length (f_chain f))) by (unfold slots in Hk; lia).
  all: cbn [search]; rewrite (block_search f n p k) by (done || lia).
  all: destruct (Z.ltb_spec k (NE * (ci + 1))); [do 4 f_equal; Z.div_mod_to_equations; lia|].
  { lia. }
  unfold get_next_ei_block, read_ei. rewrite (proj2 (Z.ltb_lt _ _)), Heread by (unfold slots in *; lia). cbn [res_bind].
  apply IH; lia.
Qed.

(** Past a full index the search continues in a new block. *)
Lemma search_full fuel f n ci p :
  idx_wf f n -> 0 <= p < U32_MOD -> n = slots f -> fend f n <= p -> 0 <= ci -> NE * ci < slots f ->
  slots f <= NE * (ci + Z.of_nat fuel) ->
  exists a, find fuel f ci p = Ok (mk_file (f_chain f) a, None) \/
    exists bno, find fuel f ci p = Ok (grown f bno (fend f n) a, Some (n / NE, n mod NE)).
Proof.
  intros Hw Hp Hn He. assert (place f n p n) as Hpl by by right.
  revert ci. induction fuel as [|fuel IH]; intros ci Hci Hk Hf; [lia|].
  assert (ci < Z.of_nat (length (f_chain f))) by (unfold slots in Hk; lia).
  cbn [search]. rewrite (block_search f n p n) by (done || lia). rewrite (proj2 (Z.ltb_ge n _)) by (unfold slots in *; lia).
  destruct (Z_lt_le_dec (ci + 1) (Z.of_nat (length (f_chain f)))).
  - unfold get_next_ei_block, read_ei. rewrite (proj2 (Z.ltb_lt _ _)), Heread by lia. cbn [res_bind].
    apply IH; unfold slots in *; lia.
  - destruct (next_ei_full f n Hw Hn) as (a & [E | (bno & E)]); exists a.
    all: replace ci with (slots f / NE - 1) by (unfold slots; Z.div_mod_to_equations; lia); rewrite E; cbn [res_bind].
    + by left.
    + right. exists bno. pose proof (grown_wf f n bno a Hw Hn) as Hw'.
      pose proof (slots_grown f bno (fend f n) a) as Es.
      assert (slots f / NE = Z.of_nat (length (f_chain f))) as EL by (unfold slots; Z.div_mod_to_equations; lia).
      assert (place (grown f bno (fend f n) a) n p n) as Hpl'.
      { right. split; [done|]. rewrite fend_grown; [done|]. pose proof (iw_count f n Hw). lia. }
      assert (sefs_ext_search (blk (grown f bno (fend f n) a) (slots f / NE)) p = Some 0) as Es0.
      { rewrite (block_search _ n p n) by (try done; rewrite ?EL; unfold slots, grown in *; cbn [f_chain] in *; rewrite ?length_app in *; cbn in *; lia).
        rewrite (proj2 (Z.ltb_lt _ _)) by (rewrite EL; unfold slots in *; lia). f_equal. rewrite EL. unfold slots in *. lia. }
      destruct fuel; cbn [search]; rewrite Es0; do 4 f_equal; rewrite Hn; unfold slots; Z.div_mod_to_equations; lia.
Qed.

End reads.

(** ** Allocation at the end *)

Lemma slots_set f ci ei x a : slots (set_ext f ci ei x a) = slots f.
Proof. unfold slots, set_ext. cbn [f_chain]. by rewrite length_insert. Qed.

Lemma xat_set f n k x a j :
  idx_wf f n -> 0 <= k < slots f -> 0 <= j -> xat (set_ext f (k / NE) (k mod NE) x a) j = if j =? k then x else xat f j.
Proof.
  intros Hw Hk Hj. unfold slots in Hk. pose proof (blk_length f n (k / NE) Hw ltac:(Z.div_mod_to_equations; lia)) as Hl.
  pose proof (Z.div_mod k NE ltac:(lia)). pose proof (Z.mod_pos_bound k NE ltac:(lia)).
  pose proof (Z.div_mod j NE ltac:(lia)). pose proof (Z.mod_pos_bound j NE ltac:(lia)).
  assert (0 <= k / NE) by (Z.div_mod_to_equations; lia). assert (0 <= j / NE) by (Z.div_mod_to_equations; lia).
  assert (forall c, 0 <= c -> blk (set_ext f (k / NE) (k mod NE) x a) c =
    if c =? k / NE then mk_ei (ei_bno (blk f (k / NE))) (<[Z.to_nat (k mod NE) := x]> (extents (blk f (k / NE)))) else blk f c) as Eb.
  { intros c Hc. unfold blk, set_ext. cbn [f_chain]. rewrite !nth_lookup. destruct (Z.eqb_spec c (k / NE)) as [-> | ?].
    - rewrite list_lookup_insert_eq by lia.
      unfold blk. by rewrite !nth_lookup.
    - rewrite list_lookup_insert_ne by lia. done. }
  unfold xat, ext. rewrite Eb by done. destruct (Z.eqb_spec (j / NE) (k / NE)) as [E | E].
  - cbn [extents]. rewrite E, !nth_lookup. destruct (Z.eqb_spec j k) as [-> | ?].
    + rewrite list_lookup_insert_eq by lia. done.
    + rewrite list_lookup_insert_ne by lia. done.
  - rewrite (proj2 (Z.eqb_neq j k)) by congruence. done.
Qed.

Lemma set_wf f n x a :
  idx_wf f n -> n < slots f -> 0 < x_bno x < U32_MOD -> 1 <= x_len x <= 32768 -> x_iblock x = fend f n ->
  fend f n + x_len x < U32_MOD ->
  let f' := set_ext f (n / NE) (n mod NE) x a in
  idx_wf f' (n + 1) /\ (forall k, 0 <= k < n -> xat f' k = xat f k) /\ xat f' n = x.
Proof.
  intros Hw Hn Hb Hl Hi He f'. pose proof (iw_count f n Hw) as Hc.
  assert (forall j, 0 <= j -> xat f' j = if j =? n then x else xat f j) as Hx.
  { intros j Hj. apply (xat_set f n); done || lia. }
  assert (forall k, 0 <= k <= n -> fend f' k = fend f k) as Ef.
  { intros k Hk. unfold fend. destruct (Z.eqb_spec k 0); [done|]. by rewrite Hx, (proj2 (Z.eqb_neq _ n)) by lia. }
  assert (fend f' (n + 1) = fend f n + x_len x) as Ee.
  { rewrite fend_S, Hx, Z.eqb_refl by lia. unfold x_end. lia. }
  assert (slots f' = slots f) as Es by apply slots_set.
  split; [|split; [intros k Hk; by rewrite Hx, (proj2 (Z.eqb_neq k n)) by lia|by rewrite Hx, Z.eqb_refl by lia]].
  split; rewrite ?Es, ?Ee; [|lia| | | | |lia].
  - unfold f', set_ext. cbn [f_chain]. apply Forall_insert; [apply Hw|]. cbn [extents]. rewrite length_insert.
    pose proof (blk_length f n (n / NE) Hw ltac:(unfold slots in *; Z.div_mod_to_equations; lia)). lia.
  - intros k Hk. rewrite Hx by lia. destruct (Z.eqb_spec k n); [done|]. apply Hw. lia.
  - intros k Hk. rewrite Hx, Ef by lia. destruct (Z.eqb_spec k n) as [-> | ?]; [done|]. apply Hw. lia.
  - intros k Hk. rewrite Hx, (proj2 (Z.eqb_neq k n)) by lia.
    destruct (iw_unused f n Hw k) as (? & ? & ?); [lia|]. split_and!; done || lia.
  - intros Hlt Hm. exfalso. unfold slots in *. Z.div_mod_to_equations; lia.
Qed.

Lemma match_extent_bounds n : 1 <= n -> 1 <= MATCH_EXTENT n <= 32768 /\ (n <= 32768 -> n <= MATCH_EXTENT n).
Proof. intros Hn. unfold MATCH_EXTENT. repeat case_cmp; lia. Qed.

(** Enough blocks, but never more than a group. *)
Lemma alloc_size_bounds f n nr : idx_wf f n -> 1 <= nr <= 32768 ->
  nr <= alloc_size f (n / NE) (n mod NE) nr <= 32768.
Proof.
  intros Hw Hnr. unfold alloc_size. pose proof (iw_count f n Hw).
  match goal with |- context [if ?c then u32 (nr * 4) else nr] => set (nr' := if c then u32 (nr * 4) else nr) end.
  assert (nr <= nr') as Hnr' by (unfold nr'; case_match; [rewrite u32_id by lia|]; lia).
  destruct (match_extent_bounds nr') as [H1 H2]; [lia|].
  assert (nr <= MATCH_EXTENT nr').
  { destruct (Z_le_gt_dec nr' 32768); [lia|]. unfold MATCH_EXTENT. repeat case_cmp; lia. }
  destruct (Z.eqb_spec (n mod NE) 0); cbn [negb]; [lia|].
  assert (ext f (n / NE) (n mod NE - 1) = xat f (n - 1)) as ->.
  { unfold xat. f_equal; Z.div_mod_to_equations; lia. }
  pose proof (iw_used f n Hw (n - 1) ltac:(Z.div_mod_to_equations; lia)). lia.
Qed.

Lemma alloc_file_block_ok bread f n nr :
  idx_wf f n -> n < slots f -> 1 <= nr <= 32768 -> fend f n + 32768 < U32_MOD ->
  exists f' ret, alloc_file_block bread f (n / NE) nr (n mod NE) = Ok (f', ret) /\
    (ret = -1 /\ f_chain f' = f_chain f \/
     ret = 0 /\ slots f' = slots f /\ idx_wf f' (n + 1) /\ (forall k, 0 <= k < n -> xat f' k = xat f k) /\
     x_iblock (xat f' n) = fend f n /\ fend f n + nr <= fend f' (n + 1) <= fend f n + 32768).
Proof.
  intros Hw Hn Hnr He. pose proof (alloc_size_bounds f n nr Hw Hnr) as Hs. pose proof (iw_count f n Hw) as Hc.
  unfold alloc_file_block. set (blks := alloc_size f (n / NE) (n mod NE) nr) in *. rewrite (u32_id blks) by lia.
  destruct (get_free_blocks_total bread (f_area f) blks) as (a & b & E & Hb); [rewrite bbn; lia|].
  rewrite E. cbn [res_bind]. destruct (Z.eqb_spec b 0) as [_ | Hb0]; [eexists _, _; split; [done|by left]|].
  assert ((if negb (n mod NE =? 0)
    then u32 (x_iblock (ext f (n / NE) (n mod NE - 1)) + x_len (ext f (n / NE) (n mod NE - 1)))
    else x_iblock (ext f (n / NE) (n mod NE))) = fend f n) as ->.
  { destruct (Z.eqb_spec (n mod NE) 0) as [Hz | Hz]; cbn [negb]; [by apply (iw_slot f n Hw)|].
    assert (ext f (n / NE) (n mod NE - 1) = xat f (n - 1)) as -> by (unfold xat; f_equal; Z.div_mod_to_equations; lia).
    fold (x_end (xat f (n - 1))). rewrite <- fend_S by (Z.div_mod_to_equations; lia). rewrite Z.sub_add.
    apply u32_id. pose proof (iw_end f n Hw). pose proof (fend_nonneg f n n Hw). lia. }
  rewrite (Z.mod_small blks) by lia. set (x := mk_ext b (fend f n) blks).
  destruct (set_wf f n x a Hw Hn) as (H1 & H2 & H3); [unfold x; cbn; lia..|].
  eexists _, _. split; [done|]. right. split; [done|]. split; [apply slots_set|]. split; [done|]. split; [done|].
  rewrite H3. split; [done|]. rewrite fend_S, H3 by lia. unfold x_end, x. cbn. lia.
Qed.

(** ** Looking up and growing a file *)

(** [f'] maps the blocks of [f] as [f] does. *)
Record extends (f : file) (n : Z) (f' : file) (n' : Z) : Prop := {
  ex_wf : idx_wf f' n';
  ex_le : n <= n';
  ex_same k : 0 <= k < n -> xat f' k = xat f k
}.

Lemma extends_refl f n : idx_wf f n -> extends f n f n.
Proof. intros. split; done || lia. Qed.

Lemma extends_trans f n f1 n1 f2 n2 : extends f n f1 n1 -> extends f1 n1 f2 n2 -> extends f n f2 n2.
Proof.
  intros [H1 H2 H3] [G1 G2 G3]. split; [done|lia|]. intros k Hk. rewrite G3, H3 by lia. done.
Qed.

Lemma extends_fend f n f' n' k : extends f n f' n' -> 0 <= k <= n -> fend f' k = fend f k.
Proof.
  intros [_ _ H] Hk. unfold fend. destruct (Z.eqb_spec k 0); [done|]. by rewrite H by lia.
Qed.

Lemma extends_chain f n f' : idx_wf f n -> f_chain f' = f_chain f -> extends f n f' n.
Proof.
  intros Hw E. destruct f' as [c a]. cbn in E. subst c. split; [by apply idx_wf_area|lia|done].
Qed.

Lemma grown_extends f n bno a : idx_wf f n -> n = slots f -> extends f n (grown f bno (fend f n) a) n.
Proof.
  intros Hw Hn. split; [by apply grown_wf|lia|]. intros k Hk. rewrite xat_grown, (proj2 (Z.ltb_lt _ _)) by lia. done.
Qed.

Section get_block.
Context (bread : Z -> bool) (eread : Z -> ei_read).
Hypothesis Heread : forall b, eread b = ReadCached.

(** The search for a block at or past the end. *)
Lemma search_end f n ci p :
  idx_wf f n -> 0 <= p < U32_MOD -> fend f n <= p -> 0 <= ci -> NE * ci <= n -> NE * ci < slots f ->
  exists f' pos, search bread eread (search_fuel f) f ci p = Ok (f', pos) /\ extends f n f' n /\
    (pos = None \/ pos = Some (n / NE, n mod NE) /\ n < slots f').
Proof.
  intros Hw Hp He Hci Hk Hs. assert (place f n p n) as Hpl by by right. pose proof (iw_count f n Hw) as Hc.
  destruct (Z_lt_le_dec n (slots f)).
  - rewrite (search_in bread eread Heread _ f n ci p n) by (try done; unfold search_fuel, slots in *; lia).
    eexists _, _. split; [done|]. split; [by apply extends_refl|]. by right.
  - destruct (search_full bread eread Heread (search_fuel f) f n ci p) as (a & [E | (bno & E)]);
      [done|done|lia|done|done|lia|unfold search_fuel, slots in *; lia| |]; rewrite E; eexists _, _; split; try done.
    + split; [by apply extends_chain|by left].
    + split; [apply grown_extends; done || lia|]. right. split; [done|]. rewrite slots_grown. lia.
Qed.

(** Allocation of [c] blocks at the end. *)
Lemma alloc_end f n f1 c :
  idx_wf f n -> extends f n f1 n -> n < slots f1 -> 1 <= c <= 32768 -> fend f n + 32768 < U32_MOD ->
  exists f' ret n', alloc_file_block bread f1 (n / NE) c (n mod NE) = Ok (f', ret) /\ extends f n f' n' /\
    (ret = -1 \/ ret = 0 /\ n' = n + 1 /\ x_iblock (xat f' n) = fend f n /\
     fend f n + c <= fend f' n' <= fend f n + 32768).
Proof.
  intros Hw Hx Hn Hc He. pose proof (iw_count f n Hw). pose proof (extends_fend f n f1 n n Hx ltac:(lia)) as Ef.
  destruct (alloc_file_block_ok bread f1 n c (ex_wf _ _ _ _ Hx) Hn Hc) as (f' & ret & E & H'); [lia|].
  rewrite E. destruct H' as [[-> Hch] | (-> & Hs & Hw' & Hsame & Hi & Hend)].
  - exists f', (-1), n. split; [done|]. split; [|by left].
    apply (extends_trans f n f1 n); [done|]. apply extends_chain; [apply Hx|done].
  - exists f', 0, (n + 1). split; [done|]. rewrite Ef in *. split; [|by right].
    apply (extends_trans f n f1 n); [done|]. split; [done|lia|done].
Qed.

Lemma retry_ok fuel f n k p create :
  idx_wf f n -> 0 <= k < n -> 0 <= p <= fend f (k + 1) -> fend f (k + 1) < p + create -> 1 <= create <= 32768 ->
  fend f n + 65536 < U32_MOD -> n - k <= Z.of_nat fuel ->
  exists f' ret n', retry bread eread fuel f (k / NE) (k mod NE) p create = Ok (f', ret) /\ extends f n f' n' /\
    (ret = -1 \/ ret = 0 /\ p + create <= fend f' n' <= fend f n + 32768).
Proof.
  intros Hw. revert k. induction fuel as [|fuel IH]; intros k Hk Hp Hlt Hc He Hf; [lia|].
  cbn [retry]. fold (xat f k). fold (x_end (xat f k)). rewrite <- fend_S by lia. set (e := fend f (k + 1)) in *.
  pose proof (iw_count f n Hw) as Hcnt. pose proof (fend_mono f n (k + 1) n Hw ltac:(lia) ltac:(lia)) as Hmono.
  assert (0 <= e) by (apply (fend_nonneg f n); done || lia). fold e in Hmono.
  rewrite (u32_id e), (u32_id (create - (e - p))) by lia. set (c := create - (e - p)).
  assert (NE * (k / NE) <= k) by (Z.div_mod_to_equations; lia). assert (0 <= k / NE) by (Z.div_mod_to_equations; lia).
  destruct (Z.eq_dec (k + 1) n) as [Hkn | Hkn].
  - assert (e = fend f n) as Een by (unfold e; by rewrite Hkn).
    destruct (search_end f n (k / NE) e) as (f1 & pos & E & Hx & Hpos); [done|lia..|].
    rewrite E. cbn [res_bind]. destruct Hpos as [-> | [-> Hn1]].
    { exists f1, (-1), n. split; [done|]. split; [done|by left]. }
    assert (x_bno (ext f1 (n / NE) (n mod NE)) =? 0 = true) as ->.
    { apply Z.eqb_eq. apply (iw_unused f1 n (ex_wf _ _ _ _ Hx)). lia. }
    destruct (alloc_end f n f1 c Hw Hx Hn1) as (f' & ret & n' & E' & Hx' & Hret); [lia..|].
    rewrite E'. cbn [res_bind]. destruct Hret as [-> | (-> & -> & Hi & Hend)]; cbn [Z.eqb negb].
    { exists f', (-1), n'. split; [done|]. split; [done|by left]. }
    fold (xat f' n). fold (x_end (xat f' n)). rewrite <- fend_S by lia.
    rewrite u32_id, u64_id by lia. rewrite (proj2 (Z.ltb_ge _ _)) by lia.
    exists f', 0, (n + 1). split; [done|]. split; [done|right]. lia.
  - pose proof (fend_step f n (k + 1) Hw ltac:(lia)) as Hst. fold e in Hst.
    pose proof (iw_used f n Hw (k + 1) ltac:(lia)) as [Hb Hl].
    pose proof (fend_mono f n (k + 1 + 1) n Hw ltac:(lia) ltac:(lia)) as Hmono'.
    assert (place f n e (k + 1)) as Hpl by (left; split; [lia|fold e; lia]).
    rewrite (search_in bread eread Heread _ f n (k / NE) e (k + 1)) by (try done; unfold search_fuel, slots in *; lia).
    cbn [res_bind]. fold (xat f (k + 1)). rewrite (proj2 (Z.eqb_neq _ 0)) by lia. cbn [res_bind Z.eqb negb]. cbv zeta.
    fold (xat f (k + 1)). fold (x_end (xat f (k + 1))). rewrite <- fend_S by lia. rewrite u32_id, u64_id by lia.
    destruct (Z.ltb_spec (fend f (k + 1 + 1)) (e + c)).
    + apply IH; lia.
    + exists f, 0, n. split; [done|]. split; [by apply extends_refl|right]. lia.
Qed.

Context (SEFS_MAX_FILESIZE : Z).
Notation get_block := (sefs_get_block bread eread SEFS_MAX_FILESIZE).

Lemma search_used f n p k : idx_wf f n -> 0 <= p < U32_MOD -> place f n p k -> k < n ->
  search bread eread (search_fuel f) f 0 p = Ok (f, Some (k / NE, k mod NE)).
Proof.
  intros Hw Hp Hpl Hk. pose proof (iw_count f n Hw).
  apply (search_in bread eread Heread _ f n); try done; try (unfold search_fuel, slots in *; lia).
  destruct Hpl as [? | ?]; lia.
Qed.

(** A block of the file is found, without a change. *)
Lemma get_block_read f n p k :
  idx_wf f n -> 0 <= p < U32_MOD -> place f n p k -> k < n -> p <= (SEFS_MAX_FILESIZE - 1) / 4096 ->
  get_block f p 0 = Ok (f, 0, Some (be_of (xat f k))).
Proof.
  intros Hw Hp Hpl Hk Hm. unfold sefs_get_block, read_ei. rewrite (proj2 (Z.ltb_ge _ _)), Heread by lia.
  rewrite (search_used f n p k) by done. cbn [res_bind Z.eqb]. fold (xat f k).
  assert (0 <= k) by (destruct Hpl as [? | [? ?]]; lia).
  pose proof (iw_used f n Hw k ltac:(lia)) as [Hb _]. rewrite (proj2 (Z.eqb_neq (x_bno _) 0)) by lia.
  cbn [negb]. by rewrite orb_true_r.
Qed.

(** Blocks [[p, p + create)] become part of the file. *)
Lemma get_block_create f n p create :
  idx_wf f n -> 0 <= p <= fend f n -> 1 <= create <= 32768 -> fend f n + 65536 < U32_MOD ->
  p <= (SEFS_MAX_FILESIZE - 1) / 4096 ->
  exists f' ret be n', get_block f p create = Ok (f', ret, be) /\ extends f n f' n' /\
    (ret = -1 \/ ret = 0 /\ p + create <= fend f' n' <= fend f n + 32768 /\
     exists k, be = Some (be_of (xat f' k)) /\ 0 <= k < n' /\ fend f' k <= p < fend f' (k + 1)).
Proof.
  intros Hw Hp Hc He Hm. pose proof (iw_count f n Hw) as Hcnt. destruct (place_exists f n p Hw ltac:(lia)) as [k Hpl].
  unfold sefs_get_block, read_ei. rewrite (proj2 (Z.ltb_ge _ _)), Heread by lia.
  destruct Hpl as [[Hkn Hkp] | [-> Hend]].
  - rewrite (search_used f n p k) by (try done; try lia; by left). cbn [res_bind]. fold (xat f k).
    rewrite (proj2 (Z.eqb_neq create 0)) by lia. fold (x_end (xat f k)). rewrite <- fend_S by lia.
    pose proof (fend_mono f n (k + 1) n Hw ltac:(lia) ltac:(lia)). rewrite u64_id, u32_id by lia.
    destruct (Z.leb_spec (p + create) (fend f (k + 1))).
    { exists f, 0, (Some (be_of (xat f k))), n. split; [done|]. split; [by apply extends_refl|].
      right. split; [done|]. split; [lia|]. by exists k. }
    pose proof (iw_used f n Hw k ltac:(lia)) as [Hb _]. rewrite (proj2 (Z.eqb_neq (x_bno _) 0)) by lia.
    destruct (retry_ok (S (length (f_chain f) * Z.to_nat SEFS_MAX_EXTENTS)) f n k p create)
      as (f' & ret & n' & E & Hx & Hret); [done|lia..|rewrite ne_eq; unfold slots in *; lia|].
    rewrite E. cbn [res_bind]. exists f', ret, (Some (be_of (xat f k))), n'. split; [done|]. split; [done|].
    destruct Hret as [-> | [-> Hret]]; [by left|right]. split; [done|]. split; [done|]. exists k.
    pose proof (ex_le _ _ _ _ Hx). rewrite (ex_same _ _ _ _ Hx) by lia.
    rewrite !(extends_fend f n f' n') by (done || lia). split; [done|]. lia.
  - assert (p = fend f n) as -> by lia.
    destruct (search_end f n 0 (fend f n)) as (f1 & pos & E & Hx & Hpos); [done|lia..|].
    rewrite E. cbn [res_bind]. destruct Hpos as [-> | [-> Hn1]].
    { exists f1, (-1), None, n. split; [done|]. split; [done|by left]. }
    rewrite (proj2 (Z.eqb_neq create 0)) by lia. fold (xat f1 n).
    destruct (iw_unused f1 n (ex_wf _ _ _ _ Hx) n ltac:(lia)) as (U1 & U2 & U3).
    rewrite (extends_fend f n f1 n) in U3 by (done || lia). rewrite U1, U2, Z.add_0_r.
    rewrite u64_id, u32_id by lia. rewrite (proj2 (Z.leb_gt _ _)) by lia. cbn [Z.eqb].
    destruct (alloc_end f n f1 create Hw Hx Hn1) as (f' & ret & n' & E' & Hx' & Hret); [lia..|].
    rewrite E'. cbn [res_bind]. destruct Hret as [-> | (-> & -> & Hi & Hend')]; cbn [Z.eqb negb].
    { exists f', (-1), None, n'. split; [done|]. split; [done|by left]. }
    exists f', 0, (Some (be_of (xat f' n))), (n + 1). split; [done|]. split; [done|right]. split; [done|].
    split; [lia|]. exists n. split; [done|]. rewrite (extends_fend f n f' (n + 1)) by (done || lia). lia.
Qed.

End get_block.

(** ** Growing a file *)

Section inode.
Context (bread : Z -> bool) (eread : Z -> ei_read) (SEFS_MAX_FILESIZE : Z).
Notation get_block := (sefs_get_block bread eread SEFS_MAX_FILESIZE).

(** [sefs_get_block] as the operation of the inode. *)
Definition sefs_i_op (f : file) (_ : bool) (cur cnt : Z) : res (file * Z) :=
  let* (f, ret, _) := get_block f cur cnt in Ok (f, ret).

(** The extent of a block of the file. *)
Definition get_blocks (f : file) (p : Z) : option buffer_extent :=
  match get_block f p 0 with Ok (_, 0, Some be) => Some be | _ => None end.

Hypothesis Heread : forall b, eread b = ReadCached.

Lemma get_blocks_eq f n p k :
  idx_wf f n -> 0 <= k < n -> fend f k <= p < fend f (k + 1) -> 0 <= p <= (SEFS_MAX_FILESIZE - 1) / 4096 ->
  get_blocks f p = Some (be_of (xat f k)).
Proof.
  intros Hw Hk Hp Hm. pose proof (fend_mono f n (k + 1) n Hw ltac:(lia) ltac:(lia)). pose proof (iw_end f n Hw).
  unfold get_blocks. rewrite (get_block_read bread eread Heread _ f n p k); [done|done|lia|by left|lia|lia].
Qed.

Lemma lookup_cases f n p : idx_wf f n -> 0 <= p < fend f n -> fend f n <= (SEFS_MAX_FILESIZE - 1) / 4096 + 1 ->
  exists k, 0 <= k < n /\ fend f k <= p < fend f (k + 1) /\ get_blocks f p = Some (be_of (xat f k)).
Proof.
  intros Hw Hp Hm. destruct (place_exists f n p Hw ltac:(lia)) as [k [[Hk Hr] | [-> ?]]]; [|lia].
  exists k. split; [done|]. split; [done|]. apply (get_blocks_eq f n); done || lia.
Qed.

Lemma lba_of_eq f n p k :
  idx_wf f n -> 0 <= k < n -> fend f k <= p < fend f (k + 1) -> fend f n <= (SEFS_MAX_FILESIZE - 1) / 4096 + 1 ->
  lba_of (get_blocks f) p = x_bno (xat f k) + p - fend f k.
Proof.
  intros Hw Hk Hp Hm. pose proof (fend_mono f n (k + 1) n Hw ltac:(lia) ltac:(lia)). pose proof (fend_nonneg f n k Hw ltac:(lia)).
  unfold lba_of. rewrite (get_blocks_eq f n p k) by (done || lia). unfold be_of. cbn.
  by rewrite (iw_start f n Hw).
Qed.

(** The lookups of a file implement the interface transaction building uses. *)
#[global] Instance sefs_FileMap f n :
  idx_wf f n -> fend f n <= (SEFS_MAX_FILESIZE - 1) / 4096 + 1 ->
  FileMap (get_blocks f) (fun p => 0 <= p < fend f n).
Proof.
  intros Hw Hm. split.
  - intros p Hp. destruct (lookup_cases f n p Hw Hp Hm) as (k & Hk & Hr & E). exists (be_of (xat f k)).
    split; [done|]. unfold be_of. cbn. rewrite (iw_start f n Hw) by done. rewrite <- (fend_step f n) by done.
    pose proof (fend_nonneg f n k Hw ltac:(lia)). pose proof (iw_end f n Hw).
    pose proof (fend_mono f n (k + 1) n Hw ltac:(lia) ltac:(lia)). lia.
  - intros p q be Hp Hq E Hin. destruct (lookup_cases f n p Hw Hp Hm) as (k & Hk & Hr & E'). rewrite E' in E. injection E as <-.
    unfold be_of in *. cbn in *. rewrite (iw_start f n Hw) in * by done. rewrite <- (fend_step f n) in Hin by done.
    rewrite (lba_of_eq f n q k) by done. done.
  - intros p Hp. destruct (lookup_cases f n p Hw Hp Hm) as (k & Hk & Hr & E'). rewrite (lba_of_eq f n p k) by done.
    pose proof (iw_used f n Hw k Hk). rewrite (fend_step f n) in Hr by done. lia.
Qed.

Lemma sefs_alloc_loop_ok fuel f n be cur cnt :
  idx_wf f n -> 0 <= cur <= fend f n -> 1 <= cnt -> fend f n + 2 * cnt + 131072 < U32_MOD ->
  cur + cnt <= (SEFS_MAX_FILESIZE - 1) / 4096 + 1 -> cnt < Z.of_nat fuel ->
  exists f' ret n', alloc_loop sefs_i_op fuel f be cur cnt = Ok (f', ret) /\ extends f n f' n' /\
    (ret = -1 \/ ret = 0 /\ cur + cnt <= fend f' n').
Proof.
  assert (nr_blks_to_alloc = 16384) as En by reflexivity.
  revert f n be cur cnt. induction fuel as [|fuel IH]; intros f n be cur cnt Hw Hcur Hcnt Hb Hm Hf; [lia|].
  cbn [alloc_loop]. unfold sefs_i_op. rewrite En. destruct (Z.ltb_spec 16384 cnt).
  - destruct (get_block_create bread eread Heread SEFS_MAX_FILESIZE f n cur 16384) as (f1 & ret & be1 & n1 & E & Hx & Hret); [done|lia..|].
    rewrite E. cbn [res_bind]. destruct Hret as [-> | (-> & Hend & _)]; cbn [Z.eqb negb].
    { exists f1, (-1), n1. split; [done|]. split; [done|by left]. }
    destruct (IH f1 n1 false (cur + 16384) (cnt - 16384)) as (f' & ret & n' & E' & Hx' & Hret); [apply Hx|lia..|].
    exists f', ret, n'. split; [done|]. split; [by eapply extends_trans|].
    destruct Hret as [-> | [-> ?]]; [by left|right]. split; [done|lia].
  - destruct (get_block_create bread eread Heread SEFS_MAX_FILESIZE f n cur cnt) as (f1 & ret & be1 & n1 & E & Hx & Hret); [done|lia..|].
    rewrite E. cbn [res_bind]. destruct Hret as [-> | (-> & Hend & _)]; cbn [Z.eqb negb].
    { exists f1, (-1), n1. split; [done|]. split; [done|by left]. }
    exists f1, 0, n1. split; [done|]. split; [done|right]. lia.
Qed.

End inode.

(** ** Properties *)

(** C14: the index of a SEFS file implements the mapping that transaction
    building relies on: every block below the end is found in an extent that
    contains it, blocks of one extent are contiguous on disk, and a lookup
    changes nothing.  The buffers of its index blocks can be read and are
    current. *)
Theorem sefs_index_implements_FileMap bread eread SEFS_MAX_FILESIZE f n
    (Heread : forall b, eread b = ReadCached) (Hwf : idx_wf f n)
    (Hmax : fend f n <= (SEFS_MAX_FILESIZE - 1) / 4096 + 1) :
  FileMap (get_blocks bread eread SEFS_MAX_FILESIZE f) (fun p => 0 <= p < fend f n) /\
  forall p, 0 <= p < fend f n -> exists be, sefs_get_block bread eread SEFS_MAX_FILESIZE f p 0 = Ok (f, 0, Some be).
Proof.
  split; [by apply sefs_FileMap|]. intros p Hp.
  destruct (place_exists f n p Hwf ltac:(lia)) as [k [[Hk Hr] | [-> ?]]]; [|lia].
  exists (be_of (xat f k)). pose proof (iw_end f n Hwf). apply (get_block_read _ _ Heread _ f n); try done; try lia. by left.
Qed.

(** Growing a file from [old_size] to [i_size] while the buffers of index blocks
    are current: whatever the allocator returns, the index stays well formed and every block of the file keeps its
    address; on success every block up to the new size is mapped. *)
Lemma inode_alloc_blocks_correct bread eread SEFS_MAX_FILESIZE f n old_size i_size
    (Heread : forall b, eread b = ReadCached) (Hwf : idx_wf f n)
    (Hold : SIZE_TO_BLK_NR old_size <= fend f n) (Hsize : 0 <= old_size <= i_size)
    (Hmax : i_size <= SEFS_MAX_FILESIZE) (Hroom : fend f n + 2 * SIZE_TO_BLK_NR i_size + 131072 < U32_MOD) :
  exists f' ret n', inode_alloc_blocks (sefs_i_op bread eread SEFS_MAX_FILESIZE) f old_size i_size = Ok (f', ret) /\ idx_wf f' n' /\
    (forall p, 0 <= p < fend f n -> p <= (SEFS_MAX_FILESIZE - 1) / 4096 ->
       get_blocks bread eread SEFS_MAX_FILESIZE f' p = get_blocks bread eread SEFS_MAX_FILESIZE f p) /\
    (ret = -1 \/ ret = 0 /\ forall p, 0 <= p < SIZE_TO_BLK_NR i_size ->
       is_Some (get_blocks bread eread SEFS_MAX_FILESIZE f' p)).
Proof.
  assert (SIZE_TO_BLK_NR old_size <= SIZE_TO_BLK_NR i_size /\ 0 <= SIZE_TO_BLK_NR old_size /\
          SIZE_TO_BLK_NR i_size <= (SEFS_MAX_FILESIZE - 1) / 4096 + 1 \/ i_size = 0) as Hs.
  { unfold SIZE_TO_BLK_NR. destruct (Z.eqb_spec i_size 0); [by right|left]. case_cmp; Z.div_mod_to_equations; lia. }
  assert (exists f' ret n', inode_alloc_blocks (sefs_i_op bread eread SEFS_MAX_FILESIZE) f old_size i_size = Ok (f', ret) /\
    extends f n f' n' /\ (ret = -1 \/ ret = 0 /\ SIZE_TO_BLK_NR i_size <= fend f' n')) as (f' & ret & n' & E & Hx & Hret).
  { unfold inode_alloc_blocks. destruct (Z.eqb_spec (SIZE_TO_BLK_NR old_size) (SIZE_TO_BLK_NR i_size)) as [Eq | Hne].
    { exists f, 0, n. split; [done|]. split; [by apply extends_refl|right]. lia. }
    destruct Hs as [Hs | ->]; [|by replace old_size with 0 in Hne by lia]. rewrite (proj2 (Z.ltb_ge _ _)) by lia.
    destruct (sefs_alloc_loop_ok bread eread SEFS_MAX_FILESIZE Heread (S (Z.to_nat (SIZE_TO_BLK_NR i_size - SIZE_TO_BLK_NR old_size)))
      f n true (SIZE_TO_BLK_NR old_size) (SIZE_TO_BLK_NR i_size - SIZE_TO_BLK_NR old_size)) as (f' & ret & n' & E & Hx & Hret);
      [done|lia..|]. exists f', ret, n'. split; [done|]. split; [done|]. destruct Hret as [? | [? ?]]; [by left|right; lia]. }
  exists f', ret, n'. split; [done|]. split; [apply Hx|]. pose proof (ex_le _ _ _ _ Hx). split.
  - intros p Hp Hpm. destruct (place_exists f n p Hwf ltac:(lia)) as [k [[Hk Hr] | [-> ?]]]; [|lia].
    rewrite (get_blocks_eq bread eread SEFS_MAX_FILESIZE Heread f n p k), (get_blocks_eq bread eread SEFS_MAX_FILESIZE Heread f' n' p k);
      try done; try lia; [|apply Hx|rewrite !(extends_fend f n f' n') by (done || lia); done].
    by rewrite (ex_same _ _ _ _ Hx).
  - destruct Hret as [? | [? Hr]]; [by left|right; split; [done|]]. intros p Hp.
    destruct (place_exists f' n' p (ex_wf _ _ _ _ Hx) ltac:(lia)) as [k [[Hk Hr'] | [-> ?]]]; [|lia].
    rewrite (get_blocks_eq bread eread SEFS_MAX_FILESIZE Heread f' n' p k); [done|apply Hx|done|done|].
    destruct Hs as [Hs | Hz]; [lia|]. subst i_size. unfold SIZE_TO_BLK_NR in Hp. cbn in Hp. lia.
Qed.

(** A file of 8 blocks at 100. *)
Definition demo_file : file :=
  mk_file [mk_ei 5 (mk_ext 100 0 8 :: replicate 291 no_extent)] (demo_free 0xff00ff00).

Lemma demo_file_wf : idx_wf demo_file 1.
Proof.
  assert (forall k, 1 <= k < NE -> xat demo_file k = no_extent) as Hx.
  { intros k Hk. unfold xat, ext. rewrite Z.div_small, Z.mod_small by lia. unfold blk, demo_file. cbn [f_chain Z.to_nat nth extents].
    replace (Z.to_nat k) with (S (Z.to_nat (k - 1))) by lia. change (Z.to_nat 0) with 0%nat. cbn [nth extents]. apply nth_replicate_lt. lia. }
  change (slots demo_file) with NE in *. split.
  - by constructor.
  - vm_compute. intuition congruence.
  - intros k Hk. replace k with 0 by lia. vm_compute. intuition congruence.
  - intros k Hk. by replace k with 0 by lia.
  - intros k Hk. change (slots demo_file) with NE in Hk. rewrite Hx by lia. vm_compute. intuition congruence.
  - intros _ Hm. by vm_compute in Hm.
  - by vm_compute.
Qed.

Lemma sefs_index_implements_FileMap_witness :
  FileMap (get_blocks (fun _ => true) (fun _ => ReadCached) 1073741824 demo_file) (fun p => 0 <= p < 8).
Proof.
  exact (proj1 (sefs_index_implements_FileMap (fun _ => true) (fun _ => ReadCached) 1073741824 demo_file 1
    (fun _ => eq_refl) demo_file_wf ltac:(vm_compute; congruence))).
Defined.

