(* ===== verification/SefsDir.v ===== *)
(** * SEFS directories

    Creation, lookup, removal and listing of directory entries,
    [secure_daemon/src/fs/sefs/inode.c] and [secure_daemon/src/fs/sefs/dir.c].
    A directory has up to [SEFS_D_INFO_ENT_MAX] extents of
    [SEFS_DENT_BLOCKS] blocks of entries; an entry is in use when its inode
    number is not 0. *)

From stdpp Require Import strings.
From S2P Require Import Prelude Bio Sjd JournalLog StageArea Layout Bitmap SefsAlloc.

(** ** Data *)

Record sefs_dirent := mk_dirent { d_ino : Z; d_name : string }.
(** [struct sefs_dir_block] *)
Record sefs_dir_block := mk_dblock { db_nr_files : Z; files : list sefs_dirent }.
(** [struct d_info_ent], with the blocks of its extent. *)
Record d_info_ent := mk_ent { en_nr_files : Z; en_bno : Z; en_blocks : list sefs_dir_block }.
(** [struct sefs_d_info_block] *)
Record sefs_d_info_block := mk_dinfo { di_nr_files : Z; ents : list d_info_ent }.

Definition SEFS_DENT_BLOCKS : Z := 8.
(** [struct d_info_ent] takes 20 bytes. *)
Definition SEFS_D_INFO_ENT_MAX : Z := (SEFS_BLOCK_SIZE - 4) / 20.

Definition no_dirent : sefs_dirent := mk_dirent 0 "".
Definition no_dblock : sefs_dir_block := mk_dblock 0 [].
Definition no_ent : d_info_ent := mk_ent 0 0 [].

Section dir.

(** Entries per block; it follows from [OXBOW_FILENAME_MAX], which the kernel
    module defines. *)
Context (SEFS_DENT_PER_BLOCK : Z).

Definition SEFS_DENT_PER_EXT : Z := SEFS_DENT_PER_BLOCK * SEFS_DENT_BLOCKS.
Definition SEFS_DENT_MAX : Z := SEFS_DENT_PER_EXT * SEFS_D_INFO_ENT_MAX.

(** [SEFS_NAME_MAX], the size of the name of an entry; a longer name is cut by
    [strncpy], and [strncmp] compares as many characters. *)
Context (SEFS_NAME_MAX : nat).
Definition cut_name (fname : string) : string := String.substring 0 SEFS_NAME_MAX fname.

(** The mode of each inode of the inode store, and their number. *)
Context (i_mode : Z -> Z) (nr_inodes : Z).

(** [sefs_iget] of an inode that is not cached. *)
Definition sefs_iget (ino : Z) : res (option Z) :=
  if nr_inodes <=? ino then Ok None
  else assert! (negb (i_mode ino =? 0)) in Ok (Some ino).

(** ** Lookup *)

(** The entry of the first file called [fname] in a block. *)
Fixpoint find_name (fs : list sefs_dirent) (fname : string) : option sefs_dirent :=
  match fs with
  | [] => None
  | f :: fs => if String.eqb (d_name f) fname then Some f else find_name fs fname
  end.

Fixpoint lookup_blocks (bs : list sefs_dir_block) (fname : string) : option sefs_dirent :=
  match bs with
  | [] => None
  | b :: bs =>
      if db_nr_files b =? 0 then lookup_blocks bs fname
      else match find_name (files b) fname with
           | Some f => Some f
           | None => lookup_blocks bs fname
           end
  end.

Fixpoint lookup_ents (es : list d_info_ent) (fname : string) : option sefs_dirent :=
  match es with
  | [] => None
  | e :: es =>
      if en_nr_files e =? 0 then lookup_ents es fname
      else match lookup_blocks (en_blocks e) fname with
           | Some f => Some f
           | None => lookup_ents es fname
           end
  end.

Definition sefs_lookup (d : sefs_d_info_block) (fname : string) : res (option Z) :=
  if di_nr_files d =? 0 then Ok None
  else match lookup_ents (ents d) (cut_name fname) with
       | Some f => sefs_iget (d_ino f)
       | None => Ok None
       end.

(** ** Removal *)

(** The first file of a block called [name] is removed.  The comparison is
    [strcmp], which stays inside the entry when the names in the block are
    shorter than [SEFS_NAME_MAX]. *)
Fixpoint remove_name (fs : list sefs_dirent) (name : string) : res (list sefs_dirent * option (option Z)) :=
  match fs with
  | [] => Ok ([], None)
  | f :: fs =>
      if String.eqb (d_name f) name then
        let* inode := sefs_iget (d_ino f) in
        match inode with
        | None => Ok (f :: fs, Some None)
        | Some ino => Ok (mk_dirent 0 (d_name f) :: fs, Some (Some ino))
        end
      else
        let* (fs, r) := remove_name fs name in Ok (f :: fs, r)
  end.

(** The blocks of an extent: the new blocks, the number of entries removed,
    the inode found last and whether the removal goes on. *)
Fixpoint remove_blocks (bs : list sefs_dir_block) (name : string) (inode : option Z) :
    res (list sefs_dir_block * Z * option Z * bool) :=
  match bs with
  | [] => Ok ([], 0, inode, true)
  | b :: bs =>
      if db_nr_files b =? 0 then
        let* (bs, n, inode, go) := remove_blocks bs name inode in Ok (b :: bs, n, inode, go)
      else
        let* (fs, r) := remove_name (files b) name in
        match r with
        | Some None => Ok (b :: bs, 0, None, false)
        | Some (Some ino) =>
            let* (bs, n, inode, go) := remove_blocks bs name (Some ino) in
            Ok (mk_dblock (u32 (db_nr_files b - 1)) fs :: bs, n + 1, inode, go)
        | None =>
            let* (bs, n, inode, go) := remove_blocks bs name inode in Ok (b :: bs, n, inode, go)
        end
  end.

Fixpoint remove_ents (es : list d_info_ent) (name : string) (inode : option Z) :
    res (list d_info_ent * Z * option Z) :=
  match es with
  | [] => Ok ([], 0, inode)
  | e :: es =>
      if en_bno e =? 0 then Ok (e :: es, 0, inode)
      else if en_nr_files e =? 0 then
        let* (es, n, inode) := remove_ents es name inode in Ok (e :: es, n, inode)
      else
        let* (bs, n, inode, go) := remove_blocks (en_blocks e) name inode in
        let e := mk_ent (u32 (en_nr_files e - n)) (en_bno e) bs in
        if go then
          let* (es, n', inode) := remove_ents es name inode in Ok (e :: es, n + n', inode)
        else Ok (e :: es, n, inode)
  end.

Definition sefs_remove_dirent (d : sefs_d_info_block) (name : string) : res (sefs_d_info_block * option Z) :=
  let* (es, n, inode) := remove_ents (ents d) name None in
  Ok (mk_dinfo (u32 (di_nr_files d - n)) es, inode).

(** ** Creation *)

(** The first free entry of a block. *)
Fixpoint put_file (fs : list sefs_dirent) (ino : Z) (fname : string) : option (list sefs_dirent) :=
  match fs with
  | [] => None
  | f :: fs =>
      if d_ino f =? 0 then Some (mk_dirent ino fname :: fs)
      else match put_file fs ino fname with Some fs => Some (f :: fs) | None => None end
  end.

(** *** The blocks of a directory

    An allocated block is one of the blocks of the device, and may be in use
    elsewhere: the blocks are a store, and an extent of the directory is its
    number of files with its first block. *)

Definition store := Z -> sefs_dir_block.

Record dir_state := mk_dir {
  ds_bno : Z;                   (** [d_info_block] of the directory *)
  ds_nr_files : Z;              (** [d_info->nr_files] *)
  ds_ents : list (Z * Z);       (** [nr_files] and [d_ext.bno] of [d_info->ents] *)
  ds_store : store
}.

(** What is in the directory. *)
Definition ext_blocks (e : Z * Z) : list Z := if e.2 =? 0 then [] else seqz e.2 SEFS_DENT_BLOCKS.
Definition ent_of (st : store) (e : Z * Z) : d_info_ent := mk_ent e.1 e.2 (st <$> ext_blocks e).
Definition dir_of (s : dir_state) : sefs_d_info_block :=
  mk_dinfo (ds_nr_files s) (ent_of (ds_store s) <$> ds_ents s).

(** A block with zeros, and [n] blocks from [bno] on overwritten with them. *)
Definition zero_dblock : sefs_dir_block := mk_dblock 0 (replicate (Z.to_nat SEFS_DENT_PER_BLOCK) no_dirent).
Definition scrub (st : store) (bno n : Z) : store :=
  fun b => if (bno <=? b) && (b <? bno + n) then zero_dblock else st b.
Definition set_dblock (st : store) (bno : Z) (x : sefs_dir_block) : store :=
  fun b => if b =? bno then x else st b.

(** The groups the allocators can read, the blocks [sb_bread] returns a buffer
    for, and the same for the blocks of a new extent. *)
Context (bread : Z -> bool) (getbuf scrubbuf : Z -> bool).

(** The allocators of inodes and blocks. *)
Record allocs := mk_allocs { al_inodes : free_area; al_blocks : free_area }.

(** [sefs_new_inode] for a supported mode: the inode with its index block, 0
    when it has none; [None] for an error. *)
Definition sefs_new_inode (al : allocs) (st : store) : res (allocs * store * option (Z * Z)) :=
  if (fa_free (al_inodes al) =? 0) || (fa_free (al_blocks al) =? 0) then Ok (al, st, None)
  else
    let '(ia, ino) := sefs_get_free_inode bread (al_inodes al) in
    if ino =? 0 then Ok (mk_allocs ia (al_blocks al), st, None)
    else
      let* (ba, bno) := sefs_get_free_blocks bread (al_blocks al) 1 in
      if bno =? 0 then Ok (mk_allocs (sefs_put_inode bread ia ino) ba, st, Some (ino, 0))
      else if negb (getbuf bno) then Ok (mk_allocs (sefs_put_inode bread ia ino) ba, st, Some (ino, 0))
      else Ok (mk_allocs ia ba, scrub st bno 1, Some (ino, bno)).

(** The first loop of [sefs_create], over the extents from [ei] on: the first
    one with room, allocated and scrubbed when it is a new one.  [alloc] tells
    whether an extent was allocated.  The scrubbing does not test the buffer. *)
Inductive seek_result := SeekAt (ei : nat) | SeekNoSpace | SeekFull.

Fixpoint seek_ext (es : list (Z * Z)) (ei : nat) (alloc : bool) (st : store) (area : free_area) :
    res (list (Z * Z) * bool * store * free_area * seek_result) :=
  match es with
  | [] => Ok ([], alloc, st, area, SeekFull)
  | (nr, ext) :: es =>
      if ext =? 0 then
        let* (area, bno) := sefs_get_free_blocks bread area SEFS_DENT_BLOCKS in
        let bno := s32 bno in
        if bno =? 0 then Ok ((nr, ext) :: es, alloc, st, area, SeekNoSpace)
        else
          assert! forallb scrubbuf (seqz bno SEFS_DENT_BLOCKS) in
          let st := scrub st bno SEFS_DENT_BLOCKS in
          if nr <? SEFS_DENT_PER_EXT then Ok ((nr, u64 bno) :: es, true, st, area, SeekAt ei)
          else
            let* (es, alloc, st, area, r) := seek_ext es (S ei) true st area in
            Ok ((nr, u64 bno) :: es, alloc, st, area, r)
      else if nr <? SEFS_DENT_PER_EXT then Ok ((nr, ext) :: es, alloc, st, area, SeekAt ei)
      else
        let* (es, alloc, st, area, r) := seek_ext es (S ei) alloc st area in
        Ok ((nr, ext) :: es, alloc, st, area, r)
  end.

(** The second loop, over the blocks [bs] of the extent. *)
Inductive seek_block_result := BlockAt (bno : Z) | BlockUnread | BlockFull.

Fixpoint seek_block (bs : list Z) (st : store) : seek_block_result :=
  match bs with
  | [] => BlockFull
  | bno :: bs =>
      if negb (getbuf bno) then BlockUnread
      else if db_nr_files (st bno) <? SEFS_DENT_PER_BLOCK then BlockAt bno
      else seek_block bs st
  end.

(** [memset] of [sizeof(struct d_info_ent)] bytes from [d_ext] on: the extent
    of the entry, and [nr_files] of the next entry. *)
Definition clear_ext (es : list (Z * Z)) (ei : nat) : list (Z * Z) :=
  alter (fun e => (0, e.2)) (S ei) (alter (fun e => (e.1, 0)) ei es).

(** [sefs_create] once the extent is found, for the inode [ino] with the index
    block [ei_block]. *)
Definition create_at (s : dir_state) (ei : nat) (alloc : bool) (area : free_area) (ino : Z) (fname : string) :
    dir_state * free_area * bool :=
  let '(nr, ext) := default (0, 0) (ds_ents s !! ei) in
  match seek_block (seqz (s32 ext) SEFS_DENT_BLOCKS) (ds_store s) with
  | BlockUnread =>
      if alloc && negb (ext =? 0)
      then (mk_dir (ds_bno s) (ds_nr_files s) (clear_ext (ds_ents s) ei) (ds_store s),
            sefs_put_blocks bread area ext SEFS_DENT_BLOCKS, false)
      else (s, area, false)
  | BlockFull => (s, area, false)
  | BlockAt bno =>
      let b := ds_store s bno in
      match put_file (files b) ino (cut_name fname) with
      | Some fs =>
          (mk_dir (ds_bno s) (u32 (ds_nr_files s + 1)) (<[ei := (u32 (nr + 1), ext)]> (ds_ents s))
             (set_dblock (ds_store s) bno (mk_dblock (u32 (db_nr_files b + 1)) fs)), area, true)
      | None => (s, area, false)
      end
  end.

(** [sefs_create]: the directory, the allocators and the new inode. *)
Definition sefs_create (s : dir_state) (al : allocs) (fname : string) : res (dir_state * allocs * option Z) :=
  if negb (getbuf (ds_bno s)) then Ok (s, al, None)
  else if SEFS_DENT_MAX - 1 <? ds_nr_files s then Ok (s, al, None)
  else
    let* (al, st, new) := sefs_new_inode al (ds_store s) in
    match new with
    | None => Ok (mk_dir (ds_bno s) (ds_nr_files s) (ds_ents s) st, al, None)
    | Some (ino, ei_block) =>
        let* (es, alloc, st, area, r) := seek_ext (ds_ents s) 0 false st (al_blocks al) in
        let s := mk_dir (ds_bno s) (ds_nr_files s) es st in
        let '(s, area, created) :=
          match r with
          | SeekAt ei => create_at s ei alloc area ino fname
          | _ => (s, area, false)
          end in
        if created then Ok (s, mk_allocs (al_inodes al) area, Some ino)
        else Ok (s, mk_allocs (sefs_put_inode bread (al_inodes al) ino) (sefs_put_blocks bread area ei_block 1), None)
    end.

(** ** Listing

    [sefs_iterate] from [pos] = 2: a first pass computes the size of the
    buffer for the names, a second one copies them. *)

Definition name_size (f : sefs_dirent) : Z := Z.of_nat (String.length (d_name f)) + 1.
Definition in_use (f : sefs_dirent) : bool := negb (d_ino f =? 0).

(** First pass over the blocks of an extent from [bi] on: [fi] goes on where
    the previous block ended.  The size, [bi] and [fi] at the end. *)
Fixpoint count_blocks (bs : list sefs_dir_block) (bi fi : Z) (len : Z) : Z * Z * Z :=
  match bs with
  | [] => (len, bi, fi)
  | b :: bs =>
      if d_ino (hd no_dirent (files b)) =? 0 then (len, bi, fi)
      else
        let rest := drop (Z.to_nat fi) (take (Z.to_nat SEFS_DENT_PER_BLOCK) (files b)) in
        let len := len + sumz name_size (List.filter in_use rest) in
        count_blocks bs (bi + 1) (Z.max fi SEFS_DENT_PER_BLOCK) len
  end.

Fixpoint count_ents (es : list d_info_ent) (bi fi len : Z) : Z :=
  match es with
  | [] => len
  | e :: es =>
      if en_bno e =? 0 then len
      else
        let '(len, bi, fi) := count_blocks (drop (Z.to_nat bi) (en_blocks e)) bi fi len in
        count_ents es bi fi len
  end.

(** Second pass: the entries copied. *)
Fixpoint copy_blocks (bs : list sefs_dir_block) : list sefs_dirent :=
  match bs with
  | [] => []
  | b :: bs =>
      if d_ino (hd no_dirent (files b)) =? 0 then []
      else List.filter in_use (take (Z.to_nat SEFS_DENT_PER_BLOCK) (files b)) ++ copy_blocks bs
  end.

Fixpoint copy_ents (es : list d_info_ent) : list sefs_dirent :=
  match es with
  | [] => []
  | e :: es => if en_bno e =? 0 then [] else copy_blocks (en_blocks e) ++ copy_ents es
  end.

(** The returned number of files, the size of the name buffer and the entries
    whose names are written to it. *)
Definition sefs_iterate (d : sefs_d_info_block) : Z * Z * list sefs_dirent :=
  if di_nr_files d =? 0 then (0, 0, [])
  else (di_nr_files d, count_ents (ents d) 0 0 0, copy_ents (ents d)).

End dir.

(** ** The entries of a directory *)

Definition block_slots (bs : list sefs_dir_block) : list sefs_dirent := concat (files <$> bs).
Definition ent_slots (es : list d_info_ent) : list sefs_dirent := concat ((fun e => block_slots (en_blocks e)) <$> es).
Definition slots (d : sefs_d_info_block) : list sefs_dirent := ent_slots (ents d).
Definition live (fs : list sefs_dirent) : list sefs_dirent := List.filter in_use fs.
Definition nlive (fs : list sefs_dirent) : Z := Z.of_nat (length (live fs)).

Lemma live_app a b : live (a ++ b) = live a ++ live b.
Proof. apply List.filter_app. Qed.

Lemma nlive_app a b : nlive (a ++ b) = nlive a + nlive b.
Proof. unfold nlive. rewrite live_app, length_app. lia. Qed.

Lemma nlive_cons f fs : nlive (f :: fs) = (if in_use f then 1 else 0) + nlive fs.
Proof. unfold nlive, live. cbn [List.filter]. destruct (in_use f); cbn [length]; lia. Qed.

Lemma nlive_bounds fs : 0 <= nlive fs <= Z.of_nat (length fs).
Proof.
  unfold nlive, live. induction fs as [|f fs IH]; cbn; [lia|]. destruct (in_use f); cbn [length]; lia.
Qed.

Section invariant.
Context (P : Z).
Hypothesis HP : 1 <= P <= 512.

Definition block_wf (b : sefs_dir_block) : Prop :=
  length (files b) = Z.to_nat P /\ db_nr_files b = nlive (files b).

Record ent_wf (e : d_info_ent) : Prop := {
  ew_nr : en_nr_files e = nlive (block_slots (en_blocks e));
  ew_blocks : Forall block_wf (en_blocks e);
  ew_len : en_bno e = 0 /\ en_blocks e = [] \/ 0 < en_bno e /\ length (en_blocks e) = 8%nat
}.

Record dir_wf (d : sefs_d_info_block) : Prop := {
  dw_nr : di_nr_files d = nlive (slots d);
  dw_ents : Forall ent_wf (ents d);
  dw_len : length (ents d) = 204%nat
}.

(** No free entry carries [name].  Removal leaves the name in the entry it
    frees. *)
Definition unstale (name : string) (fs : list sefs_dirent) : Prop := Forall (fun f => d_ino f = 0 -> d_name f <> name) fs.

(** ** Lookup *)

Lemma find_name_app a b name :
  find_name (a ++ b) name = match find_name a name with Some f => Some f | None => find_name b name end.
Proof. induction a as [|f a IH]; cbn; [done|]. by destruct (String.eqb _ _). Qed.

(** No entry of a block without files has the name. *)
Lemma find_name_empty fs name : unstale name fs -> nlive fs = 0 -> find_name fs name = None.
Proof.
  intros Hc. unfold nlive, live. induction Hc as [|f fs Hf Hc IH]; cbn; [done|].
  unfold in_use at 1. destruct (Z.eqb_spec (d_ino f) 0) as [E | E]; cbn; [|lia]. specialize (Hf E).
  intros Hl. destruct (String.eqb_spec (d_name f) name); [congruence|auto].
Qed.

Lemma lookup_blocks_eq bs name :
  Forall block_wf bs -> unstale name (block_slots bs) -> lookup_blocks bs name = find_name (block_slots bs) name.
Proof.
  unfold block_slots. induction 1 as [|b bs [_ Hb] Hbs IH]; intros Hc; cbn; [done|]. cbn in Hc.
  apply Forall_app in Hc as [Hc1 Hc2]. rewrite find_name_app, IH by done.
  destruct (Z.eqb_spec (db_nr_files b) 0); [|done]. by rewrite (find_name_empty (files b)) by (done || lia).
Qed.

Lemma lookup_ents_eq es name :
  Forall ent_wf es -> unstale name (ent_slots es) -> lookup_ents es name = find_name (ent_slots es) name.
Proof.
  unfold ent_slots. induction 1 as [|e es He Hes IH]; intros Hc; cbn; [done|]. cbn in Hc.
  apply Forall_app in Hc as [Hc1 Hc2]. rewrite find_name_app, IH by done. pose proof (ew_nr e He).
  rewrite lookup_blocks_eq by (done || apply He).
  destruct (Z.eqb_spec (en_nr_files e) 0); [|done]. by rewrite (find_name_empty (block_slots (en_blocks e))) by (done || lia).
Qed.

Lemma sefs_lookup_eq nm i_mode nr_inodes d name :
  dir_wf d -> unstale (cut_name nm name) (slots d) ->
  sefs_lookup nm i_mode nr_inodes d name =
    match find_name (slots d) (cut_name nm name) with Some f => sefs_iget i_mode nr_inodes (d_ino f) | None => Ok None end.
Proof.
  intros Hd Hc. unfold sefs_lookup. rewrite lookup_ents_eq by (done || apply Hd). fold (slots d).
  destruct (Z.eqb_spec (di_nr_files d) 0) as [E | E]; [|done].
  rewrite find_name_empty; [done|done|]. pose proof (dw_nr d Hd). lia.
Qed.

Lemma find_none_unstale fs name : find_name fs name = None -> unstale name fs.
Proof.
  induction fs as [|f fs IH]; cbn; [by constructor|]. destruct (String.eqb_spec (d_name f) name) as [|E]; [done|].
  intros H. constructor; [by intros _|by apply IH].
Qed.

(** ** Insertion of an entry *)

(** [x] takes the place of a free entry. *)
Definition inserted (fs fs' : list sefs_dirent) (x : sefs_dirent) : Prop :=
  exists l1 f l2, fs = l1 ++ f :: l2 /\ d_ino f = 0 /\ fs' = l1 ++ x :: l2.

(** Free entries are added. *)
Definition padded (fs fs' : list sefs_dirent) : Prop :=
  exists l1 k l2, fs = l1 ++ l2 /\ fs' = l1 ++ replicate k no_dirent ++ l2.

Lemma inserted_ctx a b fs fs' x : inserted fs fs' x -> inserted (a ++ fs ++ b) (a ++ fs' ++ b) x.
Proof.
  intros (l1 & f & l2 & -> & Hf & ->). exists (a ++ l1), f, (l2 ++ b). by rewrite <- !app_assoc, <- !app_comm_cons.
Qed.

Lemma padded_ctx a b fs fs' : padded fs fs' -> padded (a ++ fs ++ b) (a ++ fs' ++ b).
Proof. intros (l1 & k & l2 & -> & ->). exists (a ++ l1), k, (l2 ++ b). by rewrite <- !app_assoc. Qed.

Lemma padded_refl fs : padded fs fs.
Proof. exists fs, 0%nat, []. cbn. by rewrite app_nil_r. Qed.

Lemma nlive_inserted fs fs' x : inserted fs fs' x -> d_ino x <> 0 -> nlive fs' = nlive fs + 1.
Proof.
  intros (l1 & f & l2 & -> & Hf & ->) Hx. unfold nlive. rewrite !live_app. cbn. unfold in_use.
  rewrite Hf, (proj2 (Z.eqb_neq (d_ino x) 0)) by done. cbn. rewrite !length_app. cbn. lia.
Qed.

Lemma live_replicate k : live (replicate k no_dirent) = [].
Proof. induction k; [done|]. cbn. done. Qed.

Lemma live_padded fs fs' : padded fs fs' -> live fs' = live fs.
Proof. intros (l1 & k & l2 & -> & ->). by rewrite !live_app, live_replicate. Qed.

Lemma live_inserted fs fs' x : inserted fs fs' x -> d_ino x <> 0 -> live fs' ≡ₚ x :: live fs.
Proof.
  intros (l1 & f & l2 & -> & Hf & ->) Hx. rewrite !live_app. cbn. unfold in_use.
  rewrite Hf, (proj2 (Z.eqb_neq (d_ino x) 0)) by done. cbn. by rewrite Permutation_middle.
Qed.

Lemma find_replicate k name : name <> ""%string -> find_name (replicate k no_dirent) name = None.
Proof.
  intros Hn. induction k as [|k IH]; [done|].
  change (find_name (replicate (S k) no_dirent) name)
    with (if String.eqb "" name then Some no_dirent else find_name (replicate k no_dirent) name).
  destruct (String.eqb_spec ""%string name); [congruence|done].
Qed.

Lemma find_padded fs fs' name : padded fs fs' -> name <> ""%string -> find_name fs' name = find_name fs name.
Proof. intros (l1 & k & l2 & -> & ->) Hn. rewrite !find_name_app, find_replicate by done. by destruct (find_name l1 name). Qed.

Lemma find_inserted fs fs' x name :
  inserted fs fs' x -> unstale name fs -> (d_name x = name -> find_name fs name = None) ->
  find_name fs' name = if String.eqb (d_name x) name then Some x else find_name fs name.
Proof.
  intros (l1 & f & l2 & -> & Hf & ->) Hc Hx. apply Forall_app in Hc as [_ Hc]. apply Forall_cons in Hc as [Hcf _].
  rewrite !find_name_app in *. cbn in *. destruct (String.eqb_spec (d_name x) name) as [<- | Hne].
  - specialize (Hx eq_refl). destruct (find_name l1 (d_name x)); [congruence|]. done.
  - destruct (find_name l1 name); [done|]. specialize (Hcf Hf). destruct (String.eqb_spec (d_name f) name); [congruence|done].
Qed.

Lemma unstale_padded fs fs' name : padded fs fs' -> name <> ""%string -> unstale name fs -> unstale name fs'.
Proof.
  intros (l1 & k & l2 & -> & ->) Hn [H1 H2]%Forall_app. apply Forall_app. split; [done|]. apply Forall_app.
  split; [|done]. apply Forall_replicate. cbn. congruence.
Qed.

Lemma unstale_inserted fs fs' x name : inserted fs fs' x -> d_ino x <> 0 -> unstale name fs -> unstale name fs'.
Proof.
  intros (l1 & f & l2 & -> & Hf & ->) Hx [H1 H2]%Forall_app. apply Forall_cons in H2 as [_ H2].
  apply Forall_app. split; [done|]. by constructor.
Qed.

(** ** Creation *)

Lemma put_file_ok fs ino name :
  nlive fs < Z.of_nat (length fs) ->
  exists fs', put_file fs ino name = Some fs' /\ inserted fs fs' (mk_dirent ino name) /\ length fs' = length fs.
Proof.
  induction fs as [|f fs IH]; cbn [length]; [unfold nlive; cbn; lia|]. intros H. cbn [put_file].
  destruct (Z.eqb_spec (d_ino f) 0) as [E | E].
  - eexists. split; [done|]. split; [by exists [], f, fs|done].
  - destruct IH as (fs' & -> & (l1 & g & l2 & -> & Hg & ->) & Hl).
    { rewrite nlive_cons in H. unfold in_use in H. rewrite (proj2 (Z.eqb_neq _ 0)) in H by done. cbn in H. lia. }
    eexists. split; [done|]. split; [by exists (f :: l1), g, l2|cbn; by rewrite Hl].
Qed.

Lemma block_slots_cons b bs : block_slots (b :: bs) = files b ++ block_slots bs.
Proof. done. Qed.

Lemma ent_slots_cons e es : ent_slots (e :: es) = block_slots (en_blocks e) ++ ent_slots es.
Proof. done. Qed.

Lemma inserted_app_l a fs fs' x : inserted fs fs' x -> inserted (a ++ fs) (a ++ fs') x.
Proof. intros H%(inserted_ctx a []). by rewrite !app_nil_r in H. Qed.

Lemma inserted_app_r b fs fs' x : inserted fs fs' x -> inserted (fs ++ b) (fs' ++ b) x.
Proof. apply (inserted_ctx []). Qed.

Lemma padded_app_l a fs fs' : padded fs fs' -> padded (a ++ fs) (a ++ fs').
Proof. intros H%(padded_ctx a []). by rewrite !app_nil_r in H. Qed.

(** *** The blocks of the directory *)

Section creation.
Context (nm : nat) (bread getbuf scrubbuf : Z -> bool).

(** The blocks of the extents. *)
Definition ents_blocks (es : list (Z * Z)) : list Z := concat (ext_blocks <$> es).

Lemma ents_blocks_cons e es : ents_blocks (e :: es) = ext_blocks e ++ ents_blocks es.
Proof. done. Qed.

Lemma ents_blocks_app es1 es2 : ents_blocks (es1 ++ es2) = ents_blocks es1 ++ ents_blocks es2.
Proof. unfold ents_blocks. by rewrite fmap_app, concat_app. Qed.

Lemma ext_blocks_new nr b : b <> 0 -> ext_blocks (nr, b) = seqz b SEFS_DENT_BLOCKS.
Proof. intros H. unfold ext_blocks. cbn [snd]. by rewrite (proj2 (Z.eqb_neq b 0)). Qed.

Lemma ent_of_agree st st' e : (forall b, b ∈ ext_blocks e -> st' b = st b) -> ent_of st' e = ent_of st e.
Proof. intros H. unfold ent_of. f_equal. apply list_fmap_ext. intros i b Hb%list_elem_of_lookup_2. auto. Qed.

Lemma ents_of_agree st st' es :
  (forall b, b ∈ ents_blocks es -> st' b = st b) -> ent_of st' <$> es = ent_of st <$> es.
Proof.
  induction es as [|e es IH]; intros H; [done|]. cbn. rewrite ents_blocks_cons in H.
  rewrite (ent_of_agree st), IH; [done| |]; intros b Hb; apply H, elem_of_app; auto.
Qed.

(** The entry goes to the first block with room. *)
Lemma seek_block_ok st bs ino name :
  (forall b, getbuf b = true) -> NoDup bs -> Forall block_wf (st <$> bs) -> ino <> 0 ->
  nlive (block_slots (st <$> bs)) < P * Z.of_nat (length bs) ->
  exists b fs, seek_block P getbuf bs st = BlockAt b /\ b ∈ bs /\ put_file (files (st b)) ino name = Some fs /\
    let st' := set_dblock st b (mk_dblock (u32 (db_nr_files (st b) + 1)) fs) in
    Forall block_wf (st' <$> bs) /\
    inserted (block_slots (st <$> bs)) (block_slots (st' <$> bs)) (mk_dirent ino name).
Proof.
  intros Hbuf. induction bs as [|b bs IH]; intros Hnd Hw Hino H; [unfold nlive in H; cbn in H; lia|].
  apply NoDup_cons in Hnd as [Hnin Hnd]. cbn [fmap list_fmap] in *. change (list_fmap _ _ st bs) with (st <$> bs) in *.
  apply Forall_cons in Hw as [[Hl Hn] Hw]. rewrite block_slots_cons, nlive_app in H. cbn [length seek_block] in *.
  rewrite Hbuf. cbn [negb]. pose proof (nlive_bounds (files (st b))) as Hbd.
  destruct (Z.ltb_spec (db_nr_files (st b)) P).
  - destruct (put_file_ok (files (st b)) ino name) as (fs & Hp & Hi & Hl'); [lia|].
    exists b, fs. split; [done|]. split; [by left|]. split; [done|]. set (st' := set_dblock st b _).
    assert (st' <$> bs = st <$> bs) as ->.
    { apply list_fmap_ext. intros i x Hx%list_elem_of_lookup_2. unfold st', set_dblock.
      destruct (Z.eqb_spec x b) as [-> |]; done. }
    assert (st' b = mk_dblock (u32 (db_nr_files (st b) + 1)) fs) as -> by (unfold st', set_dblock; by rewrite Z.eqb_refl).
    rewrite !block_slots_cons. cbn [files]. split; [|by apply inserted_app_r]. constructor; [|done].
    split; cbn [files db_nr_files]; [congruence|]. rewrite (nlive_inserted _ _ _ Hi Hino), Hn. apply u32_id. lia.
  - destruct IH as (b' & fs & -> & Hin & Hp & Hw' & Hi); [done|done|done|lia|].
    exists b', fs. split; [done|]. split; [by right|]. split; [done|]. set (st' := set_dblock st b' _) in *.
    assert (st' b = st b) as ->.
    { unfold st', set_dblock. destruct (Z.eqb_spec b b') as [-> |]; done. }
    rewrite !block_slots_cons. split; [by constructor|by apply inserted_app_l].
Qed.

(** The group the allocator takes has [len] free blocks in a row; otherwise
    [sefs_get_free_blocks] returns blocks in use. *)
Definition fits (a : free_area) (len : Z) : Prop :=
  let i := find_group (fa_left a) len 0 in
  i <> nr_groups a -> bread i = true -> exists p, first_fit (fa_map a i) BITMAP_BLK_NR len p.

Lemma fits_one a : area_wf a -> fits a 1.
Proof.
  intros Ha Hi _. set (i := find_group (fa_left a) 1 0) in *. pose proof (find_group_range a 1 Ha) as Hr. fold i in Hr.
  destruct (get_free_inode_fit a Ha) as (p & Hp & _); [fold i; lia|by exists p].
Qed.

(** What the allocator returns. *)
Lemma alloc_fresh a len : area_wf a -> 1 <= len <= BITMAP_BLK_NR -> fits a len ->
  exists a' b, sefs_get_free_blocks bread a len = Ok (a', b) /\ area_wf a' /\ 0 <= b /\ b + len < 2147483648 /\
    (forall k, b <> 0 -> b <= k < b + len -> is_free a k = true /\ is_free a' k = false) /\
    (forall k, 0 <= k -> is_free a k = false -> is_free a' k = false).
Proof.
  intros Ha Hlen Hfit. pose proof (find_group_range a len Ha) as Hr. pose proof bbn. pose proof (aw_size a Ha).
  assert (find_group (fa_left a) len 0 = nr_groups a \/ bread (find_group (fa_left a) len 0) = false ->
          sefs_get_free_blocks bread a len = Ok (a, 0)) as Hno.
  { intros Hi. unfold sefs_get_free_blocks. rewrite (proj2 (Z.ltb_ge _ _)) by lia. cbn [negb assert_].
    destruct Hi as [-> | ->]; [by rewrite Z.eqb_refl|by destruct (_ =? nr_groups a)]. }
  destruct (Z.eq_dec (find_group (fa_left a) len 0) (nr_groups a)) as [E | E];
    [|destruct (bread (find_group (fa_left a) len 0)) eqn:Eb];
    [rewrite Hno by auto; exists a, 0; split_and!; done || lia| |
     rewrite Hno by auto; exists a, 0; split_and!; done || lia].
  destruct (Hfit E Eb) as (p & Hp). destruct (get_free_blocks_fit bread a len p Ha Hlen) as (a' & b & -> & -> & Hw & _ & Hf & Hf' & _);
    [lia|done|done|]. destruct Hp as (Hp0 & Hp1 & _).
  eexists _, _. split_and!; [done|done|nia|nia| |].
  - intros k _ Hk. rewrite Hf' by nia. rewrite (proj2 (Z.leb_le _ k)), (proj2 (Z.ltb_lt k _)) by lia.
    cbn [andb negb]. rewrite andb_false_r. auto.
  - intros k Hk0 Hk. by rewrite Hf', Hk.
Qed.

(** Blocks of the directory are blocks in use, and have numbers [int] has. *)
Definition blocks_used (bs : list Z) (a : free_area) : Prop :=
  forall b, b ∈ bs -> 0 < b < 2147483648 /\ is_free a b = false.

Lemma scrub_blocks st b : (scrub P st b SEFS_DENT_BLOCKS) <$> seqz b SEFS_DENT_BLOCKS = replicate 8 (zero_dblock P).
Proof.
  change (replicate 8 (zero_dblock P)) with ((fun _ => zero_dblock P) <$> seqz b SEFS_DENT_BLOCKS).
  apply list_fmap_ext. intros i x Hx%list_elem_of_lookup_2. apply elem_of_seqz in Hx.
  unfold scrub. by rewrite (proj2 (Z.leb_le b x)), (proj2 (Z.ltb_lt x _)) by lia.
Qed.

Lemma scrub_other st b n x : ~ (b <= x < b + n) -> scrub P st b n x = st x.
Proof.
  intros H. unfold scrub. destruct (Z.leb_spec b x), (Z.ltb_spec x (b + n)); cbn [andb]; try done. lia.
Qed.

Lemma new_blocks_slots : block_slots (replicate 8 (zero_dblock P)) = replicate (8 * Z.to_nat P) no_dirent.
Proof.
  unfold block_slots, zero_dblock. cbn [replicate fmap list_fmap concat files].
  rewrite app_nil_r, <- !replicate_add. f_equal. lia.
Qed.

(** A new extent. *)
Lemma new_ent_wf st b : 0 < b -> ent_wf (ent_of (scrub P st b SEFS_DENT_BLOCKS) (0, b)).
Proof.
  intros Hb. unfold ent_of. rewrite ext_blocks_new, scrub_blocks by lia. split; cbn [en_nr_files en_blocks en_bno fst snd].
  - rewrite new_blocks_slots. unfold nlive. by rewrite live_replicate.
  - apply Forall_replicate. split; cbn; [by rewrite length_replicate|]. unfold nlive. by rewrite live_replicate.
  - right. by split.
Qed.

(** An extent with room is found at [k], possibly a new one: the entries are
    those of before, free ones added, and the blocks added were free. *)
Record sought (es : list (Z * Z)) (st : store) (area : free_area)
    (es' : list (Z * Z)) (st' : store) (area' : free_area) (k : nat) : Prop := {
  so_room : exists nr ext, es' !! k = Some (nr, ext) /\ ext <> 0 /\ nr < SEFS_DENT_PER_EXT P;
  so_len : length es' = length es;
  so_disjoint : NoDup (ents_blocks es');
  so_used : blocks_used (ents_blocks es') area';
  so_wf : Forall ent_wf (ent_of st' <$> es');
  so_slots : padded (ent_slots (ent_of st <$> es)) (ent_slots (ent_of st' <$> es'));
  so_new : forall b, b ∈ ents_blocks es' -> b ∈ ents_blocks es \/ is_free area b = true
}.

(** A new extent at the head. *)
Lemma sought_new st area area' e b es :
  area_wf area -> e.2 = 0 -> e.1 = 0 -> 0 < b -> b + SEFS_DENT_BLOCKS < 2147483648 ->
  NoDup (ents_blocks es) -> blocks_used (ents_blocks es) area -> Forall ent_wf (ent_of st <$> es) ->
  (forall k, b <> 0 -> b <= k < b + SEFS_DENT_BLOCKS -> is_free area k = true /\ is_free area' k = false) ->
  (forall k, 0 <= k -> is_free area k = false -> is_free area' k = false) ->
  sought (e :: es) st area ((0, b) :: es) (scrub P st b SEFS_DENT_BLOCKS) area' 0.
Proof.
  intros Ha He2 He1 Hb0 Hb Hnd Hu Hw Hnew Hold.
  assert (forall x, x ∈ ents_blocks es -> ~ (b <= x < b + SEFS_DENT_BLOCKS)) as Hsep.
  { intros x Hx Hr. destruct (Hu x Hx) as [_ E]. destruct (Hnew x) as [E' _]; [lia|done|congruence]. }
  assert (ent_of (scrub P st b SEFS_DENT_BLOCKS) <$> es = ent_of st <$> es) as Es.
  { apply ents_of_agree. intros x Hx. apply scrub_other, Hsep, Hx. }
  assert (ents_blocks ((0, b) :: es) = seqz b SEFS_DENT_BLOCKS ++ ents_blocks es) as Eb
    by (rewrite ents_blocks_cons, ext_blocks_new; [done|lia]).
  split.
  - exists 0, b. split; [done|]. unfold SEFS_DENT_PER_EXT, SEFS_DENT_BLOCKS. lia.
  - done.
  - rewrite Eb. apply NoDup_app. split_and!; [apply NoDup_seqz| |done]. intros x Hx%elem_of_seqz Hx'. by apply (Hsep x).
  - rewrite Eb. intros x [Hx%elem_of_seqz | Hx]%elem_of_app.
    + split; [lia|]. apply Hnew; lia.
    + destruct (Hu x Hx) as [? ?]. split; [done|]. apply Hold; [lia|done].
  - cbn [fmap list_fmap]. constructor; [by apply new_ent_wf|]. change (Forall ent_wf (ent_of (scrub P st b SEFS_DENT_BLOCKS) <$> es)). by rewrite Es.
  - rewrite !fmap_cons, !ent_slots_cons, Es. cbn [ent_of en_blocks].
    rewrite ext_blocks_new, scrub_blocks, new_blocks_slots by lia. unfold ext_blocks. rewrite He2. cbn [Z.eqb].
    by exists [], (8 * Z.to_nat P)%nat, (ent_slots (ent_of st <$> es)).
  - rewrite Eb. intros x [Hx%elem_of_seqz | Hx]%elem_of_app; [right; apply Hnew; lia|].
    left. rewrite ents_blocks_cons. apply elem_of_app. by right.
Qed.

(** The search goes past the head. *)
Lemma sought_cons st area area' e es es' st' k :
  NoDup (ext_blocks e ++ ents_blocks es) -> blocks_used (ext_blocks e) area -> ent_wf (ent_of st e) ->
  (forall b, 0 <= b -> is_free area b = false -> is_free area' b = false /\ st' b = st b) ->
  sought es st area es' st' area' k -> sought (e :: es) st area (e :: es') st' area' (S k).
Proof.
  intros (Hn1 & Hn2 & Hn3)%NoDup_app Hu He Hkeep [(nr & ext & Hk & Hx & Hr) Hl Hd Hu' Hw Hp Hn].
  assert (ent_of st' e = ent_of st e) as Ee.
  { apply ent_of_agree. intros b Hb. destruct (Hu b Hb). apply Hkeep; [lia|done]. }
  split.
  - by exists nr, ext.
  - cbn. by rewrite Hl.
  - rewrite ents_blocks_cons. apply NoDup_app. split_and!; [done| |done]. intros b Hb Hb'.
    destruct (Hn b Hb') as [H | H]; [by apply (Hn2 b)|]. destruct (Hu b Hb) as [_ E]. congruence.
  - rewrite ents_blocks_cons. intros b [Hb | Hb]%elem_of_app; [|by apply Hu'].
    destruct (Hu b Hb) as [? ?]. split; [done|]. apply Hkeep; [lia|done].
  - rewrite fmap_cons, Ee. by constructor.
  - rewrite !fmap_cons, !ent_slots_cons, Ee. by apply padded_app_l.
  - rewrite !ents_blocks_cons. intros b [Hb | Hb]%elem_of_app; [left; apply elem_of_app; by left|].
    destruct (Hn b Hb) as [? | ?]; [left; apply elem_of_app; by right|by right].
Qed.

Lemma seek_ext_ok es ei alloc st area :
  (forall b, scrubbuf b = true) -> area_wf area -> fits area SEFS_DENT_BLOCKS ->
  NoDup (ents_blocks es) -> blocks_used (ents_blocks es) area -> Forall ent_wf (ent_of st <$> es) ->
  nlive (ent_slots (ent_of st <$> es)) < SEFS_DENT_PER_EXT P * Z.of_nat (length es) ->
  exists es' alloc' st' area' r, seek_ext P bread scrubbuf es ei alloc st area = Ok (es', alloc', st', area', r) /\
    (forall b, 0 <= b -> is_free area b = false -> is_free area' b = false /\ st' b = st b) /\
    (r = SeekNoSpace /\ es' = es \/ exists k, r = SeekAt (ei + k) /\ sought es st area es' st' area' k).
Proof.
  intros Hbuf Ha Hfit. revert ei. induction es as [|[nr ext] es IH]; intros ei Hnd Hu Hw H.
  { unfold nlive in H. cbn in H. lia. }
  rewrite fmap_cons in Hw. apply Forall_cons in Hw as [He Hw]. rewrite fmap_cons, ent_slots_cons, nlive_app, <- (ew_nr _ He) in H.
  cbn [ent_of en_nr_files fst length] in H. rewrite ents_blocks_cons in Hnd, Hu. cbn [seek_ext].
  assert (blocks_used (ents_blocks es) area) as Hu2 by (intros b Hb; apply Hu, elem_of_app; by right).
  assert (blocks_used (ext_blocks (nr, ext)) area) as Hu1 by (intros b Hb; apply Hu, elem_of_app; by left).
  pose proof Hnd as (_ & _ & Hnd2)%NoDup_app.
  destruct (Z.eqb_spec ext 0) as [-> | Hext].
  - destruct (alloc_fresh area SEFS_DENT_BLOCKS Ha) as (a' & b & -> & Ha' & Hb0 & Hb & Hnew & Hold); [by rewrite bbn|done|].
    cbn [res_bind]. unfold SEFS_DENT_BLOCKS in Hb. rewrite s32_small by lia. destruct (Z.eqb_spec b 0) as [-> | Hne].
    + eexists _, _, _, _, _. split; [done|]. split; [auto|by left].
    + replace (forallb scrubbuf (seqz b SEFS_DENT_BLOCKS)) with true
        by (symmetry; apply forallb_forall; intros; apply Hbuf).
      cbn [assert_]. assert (nr = 0) as -> by (pose proof (ew_nr _ He) as E; cbn in E; done).
      rewrite (proj2 (Z.ltb_lt _ _)) by (unfold SEFS_DENT_PER_EXT, SEFS_DENT_BLOCKS; lia). rewrite u64_id by lia.
      eexists _, _, _, _, _. split; [done|]. split.
      * intros k Hk0 Hk. split; [auto|]. apply scrub_other. intros Hr. destruct (Hnew k) as [E _]; [done|done|congruence].
      * right. exists 0%nat. split; [by rewrite Nat.add_0_r|]. by apply sought_new; lia || done.
  - destruct (Z.ltb_spec nr (SEFS_DENT_PER_EXT P)) as [Hnr | Hnr].
    + eexists _, _, _, _, _. split; [done|]. split; [auto|]. right. exists 0%nat. split; [by rewrite Nat.add_0_r|].
      split; [by exists nr, ext|done|done|done|rewrite fmap_cons; by constructor|apply padded_refl|by left].
    + destruct (IH (S ei)) as (es' & al' & st' & a' & r & -> & Hkeep & Hr); [done|done|done|lia|]. cbn [res_bind].
      eexists _, _, _, _, _. split; [done|]. split; [done|].
      destruct Hr as [[-> ->] | (k & -> & Hs)]; [by left|right]. exists (S k). split; [f_equal; lia|].
      by apply sought_cons.
Qed.

Lemma create_at_ok d nrf es st area k alloc ino name nr ext :
  (forall b, getbuf b = true) -> NoDup (ents_blocks es) -> blocks_used (ents_blocks es) area ->
  Forall ent_wf (ent_of st <$> es) -> es !! k = Some (nr, ext) -> ext <> 0 -> nr < SEFS_DENT_PER_EXT P -> ino <> 0 ->
  exists es' st',
    create_at P nm bread getbuf (mk_dir d nrf es st) k alloc area ino name = (mk_dir d (u32 (nrf + 1)) es' st', area, true) /\
    Forall ent_wf (ent_of st' <$> es') /\ length es' = length es /\ ents_blocks es' = ents_blocks es /\
    inserted (ent_slots (ent_of st <$> es)) (ent_slots (ent_of st' <$> es')) (mk_dirent ino (cut_name nm name)) /\
    (forall b, b ∉ ents_blocks es -> st' b = st b).
Proof.
  intros Hbuf Hnd Hu Hw Hk Hext Hnr Hino. unfold create_at. cbn [ds_ents ds_store ds_bno ds_nr_files]. rewrite Hk. cbn [from_option id].
  pose proof (list_elem_of_split_length _ _ _ Hk) as (l1 & l2 & -> & ->). cbn [ds_ents] in *.
  rewrite ents_blocks_app, ents_blocks_cons, ext_blocks_new in * by done.
  rewrite fmap_app, fmap_cons in Hw. apply Forall_app in Hw as [Hw1 [He Hw2]%Forall_cons].
  apply NoDup_app in Hnd as (Hd1 & Hd2 & (Hd3 & Hd4 & Hd5)%NoDup_app).
  assert (0 < ext < 2147483648) as Hr.
  { apply (Hu ext), elem_of_app. right. apply elem_of_app. left. apply elem_of_seqz. unfold SEFS_DENT_BLOCKS. lia. }
  rewrite s32_small by lia. pose proof (ew_nr _ He) as En. pose proof (ew_blocks _ He) as Hb.
  cbn [ent_of en_nr_files en_blocks fst] in En, Hb. rewrite ext_blocks_new in En, Hb by done.
  pose proof (nlive_bounds (block_slots (st <$> seqz ext SEFS_DENT_BLOCKS))).
  unfold SEFS_DENT_PER_EXT in Hnr. unfold SEFS_DENT_BLOCKS in Hnr at 1.
  destruct (seek_block_ok st (seqz ext SEFS_DENT_BLOCKS) ino (cut_name nm name)) as (b & fs & -> & Hin & -> & Hw' & Hi);
    [done|done|done|done|rewrite length_seqz; unfold SEFS_DENT_BLOCKS in *; lia|].
  set (st' := set_dblock st b _) in *.
  assert (forall x, x <> b -> st' x = st x) as Hst by (intros x Hx; unfold st', set_dblock; by rewrite (proj2 (Z.eqb_neq _ _))).
  assert (ent_of st' <$> l1 = ent_of st <$> l1) as E1.
  { apply ents_of_agree. intros x Hx. apply Hst. intros ->. apply (Hd2 b Hx), elem_of_app. by left. }
  assert (ent_of st' <$> l2 = ent_of st <$> l2) as E2.
  { apply ents_of_agree. intros x Hx. apply Hst. intros ->. by apply (Hd4 b). }
  exists (l1 ++ (u32 (nr + 1), ext) :: l2), st'. split; [by rewrite insert_app_r_alt, Nat.sub_diag by lia|].
  rewrite !fmap_app, !fmap_cons, E1, E2. split_and!.
  - apply Forall_app. split; [done|]. constructor; [|done]. unfold ent_of. rewrite ext_blocks_new by done.
    split; cbn [en_nr_files en_blocks en_bno fst snd]; [|done|right; split; [lia|done]].
    rewrite (nlive_inserted _ _ _ Hi Hino), <- En. apply u32_id. lia.
  - by rewrite !length_app.
  - by rewrite ents_blocks_app, ents_blocks_cons, ext_blocks_new.
  - unfold ent_slots. rewrite !fmap_app, !concat_app, !fmap_cons. cbn [concat ent_of en_blocks].
    rewrite !ext_blocks_new by done. apply inserted_app_l. by apply inserted_app_r.
  - intros x Hx. apply Hst. intros ->. apply Hx, elem_of_app. right. apply elem_of_app. by left.
Qed.

Lemma sefs_new_inode_ok al st :
  (forall b, getbuf b = true) -> area_wf (al_blocks al) ->
  exists al' st' new, sefs_new_inode P bread getbuf al st = Ok (al', st', new) /\
    (forall b, 0 <= b -> is_free (al_blocks al) b = false -> is_free (al_blocks al') b = false /\ st' b = st b) /\
    (forall ino b, new = Some (ino, b) -> ino <> 0 /\ area_wf (al_blocks al') /\
       exists b', sefs_get_free_blocks bread (al_blocks al) 1 = Ok (al_blocks al', b')).
Proof.
  intros Hbuf Ha. unfold sefs_new_inode. destruct (_ || _); [by eexists _, _, _|].
  destruct (sefs_get_free_inode _ _) as [ia ino]. destruct (Z.eqb_spec ino 0); [by eexists _, _, _|].
  destruct (alloc_fresh (al_blocks al) 1 Ha) as (a' & b & -> & Ha' & Hb0 & Hb & Hnew & Hold);
    [by rewrite bbn|by apply fits_one|]. cbn [res_bind]. rewrite Hbuf. cbn [negb].
  destruct (Z.eqb_spec b 0) as [-> | Hne]; eexists _, _, _; (split; [done|]); cbn [al_blocks].
  - split; [auto|]. intros ? ? [= <- <-]. split_and!; [done|done|]. by eexists.
  - split; [|intros ? ? [= <- <-]; split_and!; [done|done|by eexists]]. intros k Hk0 Hk. split; [auto|].
    apply scrub_other. intros Hr. destruct (Hnew k) as [E _]; [done|done|congruence].
Qed.

(** A directory on disk: well formed, its blocks disjoint and in use. *)
Record dir_ok (s : dir_state) (a : free_area) : Prop := {
  do_wf : dir_wf (dir_of s);
  do_disjoint : NoDup (ds_bno s :: ents_blocks (ds_ents s));
  do_used : blocks_used (ds_bno s :: ents_blocks (ds_ents s)) a
}.

(** Creation returns, keeps the counters exact, and adds one entry or none. *)
Lemma sefs_create_entries s al name :
  (forall b, getbuf b = true) -> (forall b, scrubbuf b = true) -> area_wf (al_blocks al) -> dir_ok s (al_blocks al) ->
  (forall a b, sefs_get_free_blocks bread (al_blocks al) 1 = Ok (a, b) -> fits a SEFS_DENT_BLOCKS) ->
  exists s' al' r, sefs_create P nm bread getbuf scrubbuf s al name = Ok (s', al', r) /\
    (forall b, 0 <= b -> is_free (al_blocks al) b = false -> b ∉ ents_blocks (ds_ents s) -> ds_store s' b = ds_store s b) /\
    match r with
    | None => dir_of s' = dir_of s
    | Some ino => ino <> 0 /\ dir_ok s' (al_blocks al') /\
        exists fs, padded (slots (dir_of s)) fs /\ inserted fs (slots (dir_of s')) (mk_dirent ino (cut_name nm name))
    end.
Proof.
  intros Hbuf Hbuf2 Ha [Hd (Hnd0 & Hnd)%NoDup_cons Hu0] Hfit.
  assert (blocks_used (ents_blocks (ds_ents s)) (al_blocks al)) as Hu by (intros b Hb; apply Hu0; by right).
  pose proof (dw_nr _ Hd) as Hn. pose proof (dw_len _ Hd) as Hl. pose proof (dw_ents _ Hd) as Hw.
  cbn [dir_of di_nr_files ents] in Hn, Hl, Hw. rewrite length_fmap in Hl.
  unfold slots in *. cbn [dir_of ents] in *. unfold sefs_create. rewrite Hbuf. cbn [negb].
  destruct (Z.ltb_spec (SEFS_DENT_MAX P - 1) (ds_nr_files s)) as [|Hroom]; [by exists s, al, None|].
  destruct (sefs_new_inode_ok al (ds_store s) Hbuf Ha) as (al1 & st1 & new & -> & Hkeep & Hnew). cbn [res_bind].
  assert (ent_of st1 <$> ds_ents s = ent_of (ds_store s) <$> ds_ents s) as E1.
  { apply ents_of_agree. intros b Hb. destruct (Hu b Hb). apply Hkeep; [lia|done]. }
  destruct new as [[ino ei]|].
  2: { eexists _, al1, None. split; [done|]. split; [intros b Hb0 Hb _; by apply Hkeep|]. unfold dir_of. cbn. by rewrite E1. }
  destruct (Hnew ino ei eq_refl) as (Hino & Ha1 & b1 & Hb1). specialize (Hfit _ _ Hb1).
  unfold SEFS_DENT_MAX in Hroom. change SEFS_D_INFO_ENT_MAX with 204 in Hroom.
  destruct (seek_ext_ok (ds_ents s) 0 false st1 (al_blocks al1)) as (es' & alloc & st2 & area2 & r & -> & Hkeep2 & Hr);
    [done|done|done|done|intros b Hb; destruct (Hu b Hb); split; [done|]; apply Hkeep; [lia|done]
    |by rewrite E1|rewrite E1, <- Hn, Hl; lia|]. cbn [res_bind].
  assert (forall b, 0 <= b -> is_free (al_blocks al) b = false -> st2 b = ds_store s b) as Hkeep3.
  { intros b Hb0 Hb. destruct (Hkeep b Hb0 Hb) as [Hb' <-]. by apply Hkeep2. }
  destruct Hr as [[-> ->] | (k & -> & [(nr & ext & Hk & Hx & Hnr) Hlen Hdis Hused Hwf Hpad Hblk])].
  { eexists _, _, None. split; [done|]. split; [by intros; apply Hkeep3|]. unfold dir_of. cbn. f_equal.
    apply ents_of_agree. intros b Hb. destruct (Hu b Hb). apply Hkeep3; [lia|done]. }
  destruct (create_at_ok (ds_bno s) (ds_nr_files s) es' st2 area2 k alloc ino name nr ext)
    as (es3 & st3 & E & Hw3 & Hl3 & Hb3 & Hi & Hst3); [done..|].
  cbn [Nat.add]. rewrite E. eexists _, _, (Some ino). split; [done|]. cbn [ds_store al_blocks ds_ents ds_bno].
  assert (forall b, 0 <= b -> is_free (al_blocks al) b = false -> b ∉ ents_blocks (ds_ents s) -> b ∉ ents_blocks es') as Hout.
  { intros b Hb0 Hb Hnin [? | Hf]%Hblk; [done|]. destruct (Hkeep b Hb0 Hb). congruence. }
  split; [intros b Hb0 Hb Hnin; rewrite Hst3 by auto; by apply Hkeep3|]. split; [done|].
  rewrite <- E1. split; [|by eexists]. destruct (Hu0 (ds_bno s) ltac:(by left)) as [Hr0 Hf0].
  split; cbn [ds_bno ds_ents].
  - split; cbn [dir_of di_nr_files ents ds_nr_files ds_ents ds_store]; [|done|by rewrite length_fmap, Hl3, Hlen].
    unfold slots. cbn [dir_of ents ds_ents ds_store]. rewrite (nlive_inserted _ _ _ Hi Hino). unfold nlive.
    rewrite (live_padded _ _ Hpad), E1. fold (nlive (ent_slots (ent_of (ds_store s) <$> ds_ents s))). rewrite <- Hn.
    apply u32_id. pose proof (nlive_bounds (ent_slots (ent_of (ds_store s) <$> ds_ents s))).
    unfold SEFS_DENT_PER_EXT, SEFS_DENT_BLOCKS in Hroom. lia.
  - rewrite Hb3. apply NoDup_cons. split; [|done]. apply Hout; [lia|done|done].
  - rewrite Hb3. intros b [-> | Hb]%elem_of_cons; [|by apply Hused]. split; [done|].
    apply Hkeep2; [lia|]. apply Hkeep; [lia|done].
Qed.

End creation.

End invariant.

(** ** Properties *)

(** C15: [sefs_create] in a well-formed directory whose blocks are disjoint
    and in use in the bitmap, with a buffer for every block it reads and 8
    free blocks in a row in the group the allocator takes a new extent from.
    It returns; a block that was in use and is none of the directory's extents
    is unchanged; on failure the directory is unchanged.  On success the
    directory is again well formed, so the three counters of files, of the
    directory, of the extent and of the block, stay equal to the number of
    entries in use, its blocks are disjoint and in use, and exactly one entry
    is added, whose name is the first [SEFS_NAME_MAX] characters of the given
    one.  When no entry, in use or freed, carried that name, [sefs_lookup]
    finds the new inode under it, and under every other name that no freed
    entry carries what it found before. *)
Theorem sefs_create_correct P (HP : 1 <= P <= 512) nm bread getbuf scrubbuf s al name
    (Hbuf : forall b, getbuf b = true) (Hscrub : forall b, scrubbuf b = true)
    (Ha : area_wf (al_blocks al)) (Hs : dir_ok P s (al_blocks al))
    (Hfit : forall a b, sefs_get_free_blocks bread (al_blocks al) 1 = Ok (a, b) -> fits bread a SEFS_DENT_BLOCKS) :
  exists s' al' r, sefs_create P nm bread getbuf scrubbuf s al name = Ok (s', al', r) /\
    (forall b, 0 <= b -> is_free (al_blocks al) b = false -> b ∉ ents_blocks (ds_ents s) -> ds_store s' b = ds_store s b) /\
    match r with
    | None => dir_of s' = dir_of s
    | Some ino =>
        dir_ok P s' (al_blocks al') /\
        live (slots (dir_of s')) ≡ₚ mk_dirent ino (cut_name nm name) :: live (slots (dir_of s)) /\
        (find_name (slots (dir_of s)) (cut_name nm name) = None -> forall i_mode nr_inodes name',
           cut_name nm name' <> ""%string -> unstale (cut_name nm name') (slots (dir_of s)) ->
           sefs_lookup nm i_mode nr_inodes (dir_of s') name' =
             if String.eqb (cut_name nm name) (cut_name nm name') then sefs_iget i_mode nr_inodes ino
             else sefs_lookup nm i_mode nr_inodes (dir_of s) name')
    end.
Proof.
  destruct (sefs_create_entries P HP nm bread getbuf scrubbuf s al name Hbuf Hscrub Ha Hs Hfit)
    as (s' & al' & r & E & Hkeep & Hr).
  exists s', al', r. split; [done|]. split; [done|]. destruct r as [ino|]; [|done].
  destruct Hr as (Hino & Hd' & fs & Hp & Hi). split; [done|]. split.
  - rewrite (live_inserted _ _ _ Hi Hino). by rewrite (live_padded _ _ Hp).
  - intros Hfresh i_mode nr name' Hn' Hu. pose proof (unstale_padded _ _ _ Hp Hn' Hu) as Hu'.
    rewrite (sefs_lookup_eq P nm _ _ (dir_of s')) by (apply Hd' || by apply (unstale_inserted _ _ _ _ Hi)).
    rewrite (sefs_lookup_eq P nm _ _ (dir_of s)) by (apply Hs || done).
    rewrite (find_inserted _ _ _ _ Hi Hu'); cbn [d_name].
    + rewrite (find_padded _ _ _ Hp) by done. by destruct (String.eqb (cut_name nm name) (cut_name nm name')).
    + intros Ec. by rewrite (find_padded _ _ _ Hp), <- Ec.
Qed.

(** ** Stale names *)

Section stale.
Context (i_mode : Z -> Z) (nr_inodes : Z) (name : string).

Lemma remove_name_ok fs fs' r :
  remove_name i_mode nr_inodes fs name = Ok (fs', r) ->
  match r with
  | Some (Some ino) => find_name fs' name = Some (mk_dirent 0 name) /\ find_name fs name <> None
  | Some None => True
  | None => find_name fs name = None
  end.
Proof.
  revert fs' r. induction fs as [|f fs IH]; cbn; intros fs' r H; inv_res; [done|].
  destruct (String.eqb_spec (d_name f) name) as [E | E].
  - unfold sefs_iget in H. destruct (nr_inodes <=? d_ino f); cbn in H; inv_res; [done|].
    cbn. by rewrite String.eqb_refl.
  - destruct (remove_name _ _ fs name) as [[fs1 r1] | |]; cbn in H; inv_res. specialize (IH _ _ eq_refl).
    apply String.eqb_neq in E. by destruct r as [[|]|]; cbn; rewrite ?E.
Qed.

(** The name is in no block where it is the only file. *)
Definition shared_block (b : sefs_dir_block) : Prop :=
  0 <= db_nr_files b < U32_MOD /\ (find_name (files b) name <> None -> db_nr_files b <> 1).

(** [n] entries were removed from counters that add up to [total]. *)
Definition stale_after (total n : Z) (i i' : option Z) (l : option sefs_dirent) : Prop :=
  0 <= n /\ 2 * n <= total /\ (n = 0 /\ i' = i /\ l = None \/ 0 < n /\ l = Some (mk_dirent 0 name)).

Lemma remove_blocks_stale bs i bs' n i' go :
  Forall shared_block bs -> remove_blocks i_mode nr_inodes bs name i = Ok (bs', n, i', go) ->
  if go then stale_after (sumz db_nr_files bs) n i i' (lookup_blocks bs' name) else i' = None.
Proof.
  unfold stale_after. intros Hs. revert i bs' n go.
  induction Hs as [|b bs [Hr Hs] Hbs IH]; cbn [remove_blocks]; intros i bs' n go H; inv_res.
  { rewrite sumz_nil. split_and!; [lia|lia|by left]. }
  rewrite sumz_cons. destruct (Z.eqb_spec (db_nr_files b) 0) as [E0 | E0]; inv_res.
  - destruct r as [[[bs1 n1] i1] go1]. inv_res. apply IH in E. destruct go; [|done]. destruct E as (Hn & Hn2 & H).
    split_and!; [lia|lia|]. cbn. by rewrite (proj2 (Z.eqb_eq _ 0) E0).
  - destruct r as [fs r]. pose proof (remove_name_ok _ _ _ E) as Hf. destruct r as [[ino'|]|]; inv_res;
      [|done|]; destruct r as [[[bs1 n1] i1] go1]; inv_res; apply IH in E1; (destruct go; [|done]);
      destruct E1 as (Hn & Hn2 & H).
    + destruct Hf as [Hf Hne]. specialize (Hs Hne). split_and!; [lia|lia|right]. split; [lia|]. cbn.
      rewrite u32_id by lia. by rewrite (proj2 (Z.eqb_neq (db_nr_files b - 1) 0)), Hf by lia.
    + split_and!; [lia|lia|]. cbn. by rewrite (proj2 (Z.eqb_neq (db_nr_files b) 0)), Hf by done.
Qed.

Definition shared_ent (e : d_info_ent) : Prop :=
  en_nr_files e = sumz db_nr_files (en_blocks e) /\ en_nr_files e < U32_MOD /\ Forall shared_block (en_blocks e).

Lemma shared_ent_nonneg e : shared_ent e -> 0 <= en_nr_files e.
Proof.
  intros (-> & _ & H). apply sumz_nonneg. eapply Forall_impl; [exact H|]. intros y [Hy _]. lia.
Qed.

Lemma remove_ents_stale es i es' n ino :
  Forall shared_ent es -> remove_ents i_mode nr_inodes es name i = Ok (es', n, Some ino) ->
  stale_after (sumz en_nr_files es) n i (Some ino) (if n =? 0 then None else lookup_ents es' name).
Proof.
  unfold stale_after. intros Hs. revert i es' n.
  induction Hs as [|e es He Hes IH]; cbn [remove_ents]; intros i es' n H; inv_res.
  { rewrite sumz_nil. split_and!; [lia|lia|by left]. }
  assert (0 <= sumz en_nr_files es) as Hes0 by (apply sumz_nonneg, (Forall_impl _ _ _ Hes), shared_ent_nonneg).
  pose proof (shared_ent_nonneg e He) as He0. destruct He as (Hr & Hlt & Hs).
  rewrite sumz_cons. destruct (en_bno e =? 0); inv_res; [split_and!; [lia|lia|by left]|].
  destruct (Z.eqb_spec (en_nr_files e) 0) as [E0 | E0]; inv_res.
  - destruct r as [[es1 n1] i1]. inv_res. apply IH in E as (Hn & Hn2 & H).
    split_and!; [lia|lia|]. cbn [lookup_ents]. by rewrite (proj2 (Z.eqb_eq _ 0) E0).
  - destruct r as [[[bs n1] i1] go]. pose proof (remove_blocks_stale _ _ _ _ _ _ Hs E) as Hb.
    destruct go; inv_res; [destruct r as [[es1 n2] i2]|]; inv_res; [|done].
    apply IH in E1 as (Hn & Hn2 & H). destruct Hb as (Hm & Hm2 & Hb). rewrite <- Hr in Hm2.
    split_and!; [lia|lia|]. cbn [lookup_ents en_nr_files en_blocks].
    destruct Hb as [(-> & -> & Hl) | [Hp Hl]]; rewrite u32_id by lia; rewrite Hl.
    + rewrite (proj2 (Z.eqb_neq (en_nr_files e - 0) 0)) by lia. rewrite Z.add_0_l. exact H.
    + right. rewrite (proj2 (Z.eqb_neq (n1 + n2) 0)), (proj2 (Z.eqb_neq (en_nr_files e - n1) 0)) by lia. split; [lia|done].
Qed.

Lemma nlive_blocks P bs : Forall (block_wf P) bs -> nlive (block_slots bs) = sumz db_nr_files bs.
Proof.
  induction 1 as [|b bs [_ Hb] Hbs IH]; [done|]. by rewrite block_slots_cons, nlive_app, sumz_cons, IH, Hb.
Qed.

Lemma nlive_ents P es : Forall (ent_wf P) es -> nlive (ent_slots es) = sumz en_nr_files es.
Proof.
  induction 1 as [|e es He Hes IH]; [done|]. by rewrite ent_slots_cons, nlive_app, sumz_cons, IH, (ew_nr P e He).
Qed.

Lemma length_block_slots P bs : 0 <= P -> Forall (block_wf P) bs ->
  Z.of_nat (length (block_slots bs)) = P * Z.of_nat (length bs).
Proof.
  intros HP. induction 1 as [|b bs [Hb _] Hbs IH]; [cbn; lia|]. rewrite block_slots_cons, length_app. cbn [length]. lia.
Qed.

Lemma ent_nr_bound P e : 1 <= P -> ent_wf P e -> 0 <= en_nr_files e <= P * 8.
Proof.
  intros HP He. pose proof (nlive_bounds (block_slots (en_blocks e))) as Hb. rewrite <- (ew_nr P e He) in Hb.
  rewrite (length_block_slots P) in Hb by (lia || apply He). destruct (ew_len P e He) as [[_ E] | [_ E]]; rewrite E in Hb; cbn in Hb; lia.
Qed.

Lemma sum_nr_bound P es : 1 <= P -> Forall (ent_wf P) es -> 0 <= sumz en_nr_files es <= P * 8 * Z.of_nat (length es).
Proof.
  intros HP. induction 1 as [|e es He Hes IH]; [rewrite sumz_nil; cbn [length]; lia|]. rewrite sumz_cons. cbn [length].
  pose proof (ent_nr_bound P e HP He). lia.
Qed.
End stale.

Lemma cut_name_short n name : (String.length name <= n)%nat -> cut_name n name = name.
Proof.
  unfold cut_name. revert n. induction name as [|c name IH]; intros [|n] H; cbn in *; try done; [lia|]. by rewrite IH by lia.
Qed.

(** [sefs_remove_dirent] frees an entry by clearing its inode number only.
    When every block that has the removed name also holds another file, the
    name stays reachable: a later lookup of the removed file finds the freed
    entry, and [sefs_iget] of inode 0, which has no mode, aborts the daemon. *)
Lemma lookup_after_remove_aborts P nm i_mode nr_inodes d name d' ino
    (HP : 1 <= P <= 512) (Hname : (String.length name < nm)%nat) (Hd : dir_wf P d) (Hroot : i_mode 0 = 0) (Hnr : 0 < nr_inodes)
    (Hshared : forall e b, e ∈ ents d -> b ∈ en_blocks e -> find_name (files b) name <> None -> db_nr_files b <> 1)
    (Hrm : sefs_remove_dirent i_mode nr_inodes d name = Ok (d', Some ino)) :
  sefs_lookup nm i_mode nr_inodes d' name = Abort.
Proof.
  pose proof (nlive_ents P _ (dw_ents P d Hd)) as Hsum. fold (slots d) in Hsum. rewrite <- (dw_nr P d Hd) in Hsum.
  pose proof (sum_nr_bound P (ents d) ltac:(lia) (dw_ents P d Hd)) as Hbd. rewrite (dw_len P d Hd), <- Hsum in Hbd.
  assert (Forall (shared_ent name) (ents d)) as Hs.
  { apply Forall_forall. intros e He. pose proof (proj1 (Forall_forall _ _) (dw_ents P d Hd) e He) as Hw.
    pose proof (ent_nr_bound P e ltac:(lia) Hw). pose proof (ew_blocks P e Hw) as Hbs.
    split; [by rewrite (ew_nr P e Hw), (nlive_blocks P)|]. split; [lia|]. apply Forall_forall. intros b Hb.
    pose proof (proj1 (Forall_forall _ _) Hbs b Hb) as [Hl Hn]. pose proof (nlive_bounds (files b)).
    split; [lia|by apply (Hshared e)]. }
  unfold sefs_remove_dirent in Hrm. inv_res. destruct r as [[es n] i]. inv_res.
  apply remove_ents_stale in E as (Hn0 & Hn & H); [|done]. destruct H as [(_ & ? & _) | [Hp H]]; [done|].
  rewrite (proj2 (Z.eqb_neq n 0)) in H by lia. rewrite <- Hsum in Hn. unfold sefs_lookup. cbn [di_nr_files ents].
  rewrite cut_name_short, u32_id, H by lia. rewrite (proj2 (Z.eqb_neq _ 0)) by lia. unfold sefs_iget. cbn [d_ino].
  rewrite (proj2 (Z.leb_gt nr_inodes 0)) by lia. by rewrite Hroot.
Qed.

(** ** Listing *)

Lemma count_blocks_done P bs bi fi len :
  P <= fi -> exists bi' fi', count_blocks P bs bi fi len = (len, bi', fi') /\ P <= fi'.
Proof.
  revert bi fi. induction bs as [|b bs IH]; cbn [count_blocks]; intros bi fi H; [by eexists _, _|].
  destruct (d_ino _ =? 0); [by eexists _, _|]. cbv zeta.
  replace (drop (Z.to_nat fi) (take (Z.to_nat P) (files b))) with (@nil sefs_dirent)
    by (symmetry; apply drop_ge; rewrite length_take; lia).
  cbn [List.filter]. rewrite sumz_nil, Z.add_0_r. apply IH. lia.
Qed.

Lemma count_ents_done P es bi fi len : P <= fi -> count_ents P es bi fi len = len.
Proof.
  revert bi fi. induction es as [|e es IH]; cbn [count_ents]; intros bi fi H; [done|].
  destruct (en_bno e =? 0); [done|].
  destruct (count_blocks_done P (drop (Z.to_nat bi) (en_blocks e)) bi fi len H) as (bi' & fi' & -> & H'). by apply IH.
Qed.

Lemma name_sizes_nonneg fs : 0 <= sumz name_size fs.
Proof. apply sumz_nonneg, Forall_forall. intros f _. unfold name_size. lia. Qed.

Lemma name_sizes_head fs : d_ino (hd no_dirent fs) <> 0 -> 0 < sumz name_size (live fs).
Proof.
  destruct fs as [|f fs]; [done|]. cbn [hd]. intros H. unfold live. cbn [List.filter]. unfold in_use at 1.
  rewrite (proj2 (Z.eqb_neq _ 0)) by done. cbn [negb]. rewrite sumz_cons.
  pose proof (name_sizes_nonneg (List.filter in_use fs)). unfold name_size at 1. lia.
Qed.

Lemma copy_blocks_free P bs : live (block_slots bs) = [] -> copy_blocks P bs = [].
Proof.
  destruct bs as [|b bs]; [done|]. rewrite block_slots_cons, live_app. intros [H _]%app_eq_nil. cbn.
  destruct (files b) as [|f fs]; [done|]. cbn in *. unfold in_use in H at 1. by destruct (d_ino f =? 0).
Qed.

Lemma copy_ents_free P es : live (ent_slots es) = [] -> copy_ents P es = [].
Proof.
  induction es as [|e es IH]; [done|]. rewrite ent_slots_cons, live_app. intros [H1 H2]%app_eq_nil. cbn.
  destruct (en_bno e =? 0); [done|]. by rewrite copy_blocks_free, IH.
Qed.

(** [sefs_iterate] sizes the buffer of names by the entries of the first
    block of the directory only, because the first pass does not reset its
    position in a block.  A directory whose files are all in that block is
    listed exactly; when the next block is in use too, the names copied to the
    buffer are longer than the buffer. *)
Lemma sefs_iterate_buffer P d e b bs es
    (Hents : ents d = e :: es) (Hblocks : en_blocks e = b :: bs) (Hbno : en_bno e <> 0)
    (HP : 1 <= P) (Hd : dir_wf P d) (Hb : d_ino (hd no_dirent (files b)) <> 0) :
  exists out, sefs_iterate P d = (di_nr_files d, sumz name_size (live (files b)), out) /\
    (live (block_slots bs) = [] -> live (ent_slots es) = [] ->
       out = live (slots d) /\ di_nr_files d = Z.of_nat (length out) /\
       sumz name_size out = sumz name_size (live (files b))) /\
    (d_ino (hd no_dirent (files (hd no_dblock bs))) <> 0 ->
       sumz name_size (live (files b)) < sumz name_size out).
Proof.
  assert (ent_wf P e) as He by (pose proof (dw_ents P d Hd) as H; rewrite Hents in H; by apply Forall_cons in H as [? _]).
  pose proof (ew_blocks P e He) as Hw. rewrite Hblocks in Hw. apply Forall_cons in Hw as [[Hl Hn] Hw].
  assert (slots d = files b ++ block_slots bs ++ ent_slots es) as Hslots.
  { unfold slots. by rewrite Hents, ent_slots_cons, Hblocks, block_slots_cons, app_assoc. }
  unfold sefs_iterate. rewrite (proj2 (Z.eqb_neq (di_nr_files d) 0)).
  2: { rewrite (dw_nr P d Hd), Hslots, nlive_app. pose proof (nlive_bounds (block_slots bs ++ ent_slots es)).
       destruct (files b) as [|f fs]; [done|]. rewrite nlive_cons. pose proof (nlive_bounds fs). cbn in Hb.
       unfold in_use. rewrite (proj2 (Z.eqb_neq _ 0) Hb). cbn [negb]. lia. }
  rewrite Hents. cbn [count_ents copy_ents]. rewrite Hblocks, (proj2 (Z.eqb_neq _ 0) Hbno).
  change (Z.to_nat 0) with 0%nat. rewrite drop_0. cbn [count_blocks copy_blocks]. rewrite (proj2 (Z.eqb_neq _ 0) Hb).
  change (Z.to_nat 0) with 0%nat. rewrite drop_0, (firstn_all2 (files b)) by lia. cbv zeta. fold (live (files b)).
  destruct (count_blocks_done P bs (0 + 1) (Z.max 0 P) (0 + sumz name_size (live (files b)))) as (bi & fi & -> & Hfi); [lia|].
  rewrite count_ents_done, Z.add_0_l by done. eexists. split; [done|]. split.
  - intros H1 H2. rewrite copy_blocks_free, copy_ents_free, !app_nil_r by done. rewrite Hslots, !live_app, H1, H2, !app_nil_r.
    split_and!; [done| |done]. rewrite (dw_nr P d Hd), Hslots. unfold nlive. by rewrite !live_app, H1, H2, !app_nil_r.
  - intros H2. destruct bs as [|b2 bs]; [done|]. cbn [hd] in H2. cbn [copy_blocks]. rewrite (proj2 (Z.eqb_neq _ 0) H2).
    apply Forall_cons in Hw as [[Hl2 _] _]. rewrite (firstn_all2 (files b2)) by lia. fold (live (files b2)).
    rewrite !sumz_app. pose proof (name_sizes_head _ H2). pose proof (name_sizes_nonneg (copy_blocks P bs)).
    pose proof (name_sizes_nonneg (copy_ents P es)). lia.
Qed.

(** ** Witnesses *)

(** A directory of two entries per block in the blocks 100 to 107, with the
    files "a" and "b" in the first one. *)
Definition demo_store : store :=
  fun b => if b =? 100 then mk_dblock 2 [mk_dirent 5 "a"; mk_dirent 6 "b"] else zero_dblock 2.
Definition demo_dir : dir_state := mk_dir 50 2 ((2, 100) :: replicate 203 (0, 0)) demo_store.
Definition demo_allocs : allocs := mk_allocs (demo_free 0xf0) (demo_free 0xf0).

Lemma demo_ents_blocks n : ents_blocks (replicate n (0, 0)) = [].
Proof. by induction n. Qed.

Lemma demo_dir_ok : dir_ok 2 demo_dir (demo_free 0xf0).
Proof.
  assert (ents_blocks (ds_ents demo_dir) = seqz 100 8) as Eb
    by (cbn [demo_dir ds_ents]; by rewrite ents_blocks_cons, demo_ents_blocks, app_nil_r).
  split.
  - split; [by vm_compute| |by vm_compute]. unfold dir_of, demo_dir. cbn [ds_ents ds_store ents]. rewrite fmap_cons, fmap_replicate.
    constructor; [|apply Forall_replicate; split; [done|constructor|by left]].
    split; [by vm_compute| |right; by split]. cbn. repeat (constructor; [by split; vm_compute|]). constructor.
  - rewrite Eb. apply NoDup_cons. split; [|apply NoDup_seqz]. intros H%elem_of_seqz. cbn in H. lia.
  - rewrite Eb. unfold blocks_used.
    apply (proj1 (Forall_forall (fun b => 0 < b < 2147483648 /\ is_free (demo_free 0xf0) b = false) _)). cbn [demo_dir ds_bno]. change (seqz 100 8) with [100; 101; 102; 103; 104; 105; 106; 107].
    repeat (constructor; [split; [lia|by vm_compute]|]). constructor.
Qed.

Lemma demo_fits a b :
  sefs_get_free_blocks (fun _ => true) (al_blocks demo_allocs) 1 = Ok (a, b) -> fits (fun _ => true) a SEFS_DENT_BLOCKS.
Proof.
  intros H Hi. exfalso. apply Hi.
  assert (match sefs_get_free_blocks (fun _ => true) (al_blocks demo_allocs) 1 with
          | Ok (a, _) => find_group (fa_left a) 8 0 = nr_groups a | _ => False end) as Hg by (vm_compute; reflexivity).
  by rewrite H in Hg.
Qed.

Lemma sefs_create_correct_witness :
  exists s' al' ino,
    sefs_create 2 16 (fun _ => true) (fun _ => true) (fun _ => true) demo_dir demo_allocs "c" = Ok (s', al', Some ino) /\
    dir_ok 2 s' (al_blocks al') /\ sefs_lookup 16 (fun i => i) 1000 (dir_of s') "c" = sefs_iget (fun i => i) 1000 ino /\
    sefs_lookup 16 (fun i => i) 1000 (dir_of s') "b" = Ok (Some 6).
Proof.
  destruct (sefs_create_correct 2 ltac:(lia) 16 (fun _ => true) (fun _ => true) (fun _ => true) demo_dir demo_allocs "c"
              (fun _ => eq_refl) (fun _ => eq_refl) (demo_free_wf 0xf0 ltac:(lia)) demo_dir_ok demo_fits)
    as (s' & al' & r & E & _ & Hr).
  assert (match sefs_create 2 16 (fun _ => true) (fun _ => true) (fun _ => true) demo_dir demo_allocs "c"
          with Ok (_, _, Some _) => true | _ => false end = true) as Hs by (vm_compute; reflexivity).
  rewrite E in Hs. destruct r as [ino|]; [|discriminate]. destruct Hr as (Hd & _ & Hr).
  assert (find_name (slots (dir_of demo_dir)) (cut_name 16 "c") = None) as Hf by (vm_compute; reflexivity).
  assert (unstale "b" (slots (dir_of demo_dir))) as Hb
    by (change (slots (dir_of demo_dir)) with (mk_dirent 5 "a" :: mk_dirent 6 "b" :: replicate 14 no_dirent);
        constructor; [discriminate|]; constructor; [discriminate|]; apply Forall_replicate; discriminate).
  exists s', al', ino. split; [exact E|]. split; [exact Hd|]. split.
  - rewrite (Hr Hf); [reflexivity|discriminate|]. apply find_none_unstale. exact Hf.
  - rewrite (Hr Hf); [vm_compute; reflexivity|discriminate|exact Hb].
Defined.
