(* ===== verification/RingMpmc.v ===== *)
(** * Lock-free ring of pending read requests

    [devfs/src/common/ring_buffer_mpmc.c], the bounded queue with many
    producers and consumers between [io_dispatcher.c] and the NVMe pollers of
    [io/nvme.c].  Threads interleave at every access to shared memory, under
    sequential consistency; positions are [size_t] and wrap. *)

From stdpp Require Import base list.
From S2P Require Import Prelude.

(** ** Data *)

Record ring_mpmc_slot := mk_slot { sequence : Z; value : Z }.

Record ring_buffer_mpmc := mk_ring {
  slots : list ring_mpmc_slot;
  capacity : Z;
  mask : Z;
  enqueue_pos : Z;
  dequeue_pos : Z
}.

Definition EINVAL : Z := 22.
Definition EAGAIN : Z := 11.
Definition ENOMEM : Z := 12.

Definition is_power_of_two_size (v : Z) : bool := (1 <? v) && (Z.land v (v - 1) =? 0).

(** [alloc] tells whether [posix_memalign] succeeds. *)
Definition ring_buffer_mpmc_create (alloc : bool) (capacity : Z) : Z * option ring_buffer_mpmc :=
  if negb (is_power_of_two_size capacity) then (- EINVAL, None)
  else if negb alloc then (- ENOMEM, None)
  else (0, Some (mk_ring ((fun i => mk_slot i 0) <$> seqz 0 capacity) capacity (capacity - 1) 0 0)).

(** ** Steps of a thread *)

(** Where a thread is: the shared access it does next, with its locals. *)
Inductive pc :=
| Idle
| EnqLoad (elem : Z)
| EnqSeq (elem pos : Z)
| EnqCas (elem pos : Z)
| EnqWrite (elem pos : Z)
| EnqPublish (elem pos : Z)
| DeqLoad
| DeqSeq (pos : Z)
| DeqCas (pos : Z)
| DeqRead (pos : Z)
| DeqRelease (pos val : Z).

(** What happens in a step: a position is taken by a compare-and-swap, or an
    operation returns. *)
Inductive event :=
| Enq (pos elem : Z)
| EnqRet (pos : Z)
| EnqFull (pos : Z)
| Deq (pos : Z)
| DeqRet (pos val : Z)
| DeqEmpty (pos : Z).

(** What the scheduler and the caller choose: the operation an idle thread
    starts, and whether a weak compare-and-swap fails spuriously. *)
Inductive choice := StartEnq (elem : Z) | StartDeq | Run (spurious : bool).

Definition no_slot : ring_mpmc_slot := mk_slot 0 0.
Definition idx (r : ring_buffer_mpmc) (pos : Z) : nat := Z.to_nat (Z.land pos (mask r)).
Definition slot (r : ring_buffer_mpmc) (pos : Z) : ring_mpmc_slot := nth (idx r pos) (slots r) no_slot.

Definition set_slot (r : ring_buffer_mpmc) (pos : Z) (s : ring_mpmc_slot) : ring_buffer_mpmc :=
  mk_ring (<[idx r pos := s]> (slots r)) (capacity r) (mask r) (enqueue_pos r) (dequeue_pos r).
Definition set_enqueue_pos (r : ring_buffer_mpmc) (p : Z) : ring_buffer_mpmc :=
  mk_ring (slots r) (capacity r) (mask r) p (dequeue_pos r).
Definition set_dequeue_pos (r : ring_buffer_mpmc) (p : Z) : ring_buffer_mpmc :=
  mk_ring (slots r) (capacity r) (mask r) (enqueue_pos r) p.

(** [ring_buffer_mpmc_try_enqueue] *)
Definition try_enqueue_step (r : ring_buffer_mpmc) (p : pc) (spurious : bool) :
    option (ring_buffer_mpmc * pc * option event) :=
  match p with
  | EnqLoad elem => Some (r, EnqSeq elem (enqueue_pos r), None)
  | EnqSeq elem pos =>
      let diff := s64 (s64 (sequence (slot r pos)) - s64 pos) in
      if diff =? 0 then Some (r, EnqCas elem pos, None)
      else if diff <? 0 then Some (r, Idle, Some (EnqFull pos))
      else Some (r, EnqLoad elem, None)
  | EnqCas elem pos =>
      if (enqueue_pos r =? pos) && negb spurious
      then Some (set_enqueue_pos r (u64 (pos + 1)), EnqWrite elem pos, Some (Enq pos elem))
      else Some (r, EnqLoad elem, None)
  | EnqWrite elem pos =>
      Some (set_slot r pos (mk_slot (sequence (slot r pos)) elem), EnqPublish elem pos, None)
  | EnqPublish elem pos =>
      Some (set_slot r pos (mk_slot (u64 (pos + 1)) (value (slot r pos))), Idle, Some (EnqRet pos))
  | _ => None
  end.

(** [ring_buffer_mpmc_try_dequeue] *)
Definition try_dequeue_step (r : ring_buffer_mpmc) (p : pc) (spurious : bool) :
    option (ring_buffer_mpmc * pc * option event) :=
  match p with
  | DeqLoad => Some (r, DeqSeq (dequeue_pos r), None)
  | DeqSeq pos =>
      let diff := s64 (s64 (sequence (slot r pos)) - s64 (u64 (pos + 1))) in
      if diff =? 0 then Some (r, DeqCas pos, None)
      else if diff <? 0 then Some (r, Idle, Some (DeqEmpty pos))
      else Some (r, DeqLoad, None)
  | DeqCas pos =>
      if (dequeue_pos r =? pos) && negb spurious
      then Some (set_dequeue_pos r (u64 (pos + 1)), DeqRead pos, Some (Deq pos))
      else Some (r, DeqLoad, None)
  | DeqRead pos => Some (r, DeqRelease pos (value (slot r pos)), None)
  | DeqRelease pos val =>
      Some (set_slot r pos (mk_slot (u64 (pos + capacity r)) (value (slot r pos))), Idle, Some (DeqRet pos val))
  | _ => None
  end.

Definition thread_step (r : ring_buffer_mpmc) (p : pc) (c : choice) : option (ring_buffer_mpmc * pc * option event) :=
  match p, c with
  | Idle, StartEnq elem => Some (r, EnqLoad elem, None)
  | Idle, StartDeq => Some (r, DeqLoad, None)
  | _, Run spurious =>
      match try_enqueue_step r p spurious with
      | Some x => Some x
      | None => try_dequeue_step r p spurious
      end
  | _, _ => None
  end.

(** [ring_buffer_mpmc_count] and [ring_buffer_mpmc_space] without concurrent
    operations. *)
Definition ring_buffer_mpmc_count (r : ring_buffer_mpmc) : Z := u64 (enqueue_pos r - dequeue_pos r).
Definition ring_buffer_mpmc_space (r : ring_buffer_mpmc) : Z := u64 (capacity r - 1 - ring_buffer_mpmc_count r).

(** ** The system of threads *)

Record sys := mk_sys { ring : ring_buffer_mpmc; threads : list pc; trace : list event }.

Inductive step : sys -> sys -> Prop :=
| step_thread s t p c r' p' e :
    threads s !! t = Some p -> thread_step (ring s) p c = Some (r', p', e) ->
    step s (mk_sys r' (<[t := p']> (threads s)) (trace s ++ option_list e)).

Inductive reachable (cap : Z) : sys -> Prop :=
| reach_create r n : ring_buffer_mpmc_create true cap = (0, Some r) -> reachable cap (mk_sys r (replicate n Idle) [])
| reach_step s s' : reachable cap s -> step s s' -> reachable cap s'.

(** The operations in a trace. *)
Definition enqs (tr : list event) : list (Z * Z) :=
  omap (fun e => match e with Enq p v => Some (p, v) | _ => None end) tr.
Definition deqs (tr : list event) : list Z := omap (fun e => match e with Deq p => Some p | _ => None end) tr.
Definition published (tr : list event) : list Z := omap (fun e => match e with EnqRet p => Some p | _ => None end) tr.
Definition returned (tr : list event) : list (Z * Z) :=
  omap (fun e => match e with DeqRet p v => Some (p, v) | _ => None end) tr.

(** The position a thread owns between its compare-and-swap and the update of
    the sequence number. *)
Definition producing (p : pc) : option Z := match p with EnqWrite _ q | EnqPublish _ q => Some q | _ => None end.
Definition consuming (p : pc) : option Z := match p with DeqRead q | DeqRelease q _ => Some q | _ => None end.

(** ** Lists of owners *)

Lemma omap_delete {A B} (f : A -> option B) l t a :
  l !! t = Some a -> omap f l ≡ₚ option_list (f a) ++ omap f (delete t l).
Proof.
  intros H. rewrite (delete_Permutation l t a H) at 1. cbn. by destruct (f a).
Qed.

Lemma delete_insert_same {A} (l : list A) t b : delete t (<[t := b]> l) = delete t l.
Proof.
  apply list_eq. intros i. rewrite !list_lookup_delete. case_decide; rewrite list_lookup_insert_ne by lia; done.
Qed.

Lemma omap_insert_at {A B} (f : A -> option B) l t a b :
  l !! t = Some a -> omap f (<[t := b]> l) ≡ₚ option_list (f b) ++ omap f (delete t l).
Proof.
  intros H. pose proof (lookup_lt_Some _ _ _ H). rewrite (omap_delete f (<[t:=b]> l) t b) by by apply list_lookup_insert_eq.
  by rewrite delete_insert_same.
Qed.

Lemma omap_same {A B} (f : A -> option B) l t a b :
  l !! t = Some a -> f b = f a -> omap f (<[t := b]> l) ≡ₚ omap f l.
Proof. intros H E. by rewrite (omap_insert_at f l t a b H), (omap_delete f l t a H), E. Qed.

Lemma owner_unique {A B} (f : A -> option B) l t t' a b x :
  NoDup (omap f l) -> l !! t = Some a -> l !! t' = Some b -> f a = Some x -> f b = Some x -> t = t'.
Proof.
  intros Hnd Ha Hb Hfa Hfb. destruct (decide (t = t')) as [|Hne]; [done|exfalso].
  rewrite (omap_delete f l t a Ha), Hfa in Hnd. cbn in Hnd. apply NoDup_cons in Hnd as [Hnd _]. apply Hnd.
  apply list_elem_of_omap. exists b. split; [|done].
  apply list_elem_of_lookup. destruct (decide (t' < t)%nat).
  - exists t'. by rewrite list_lookup_delete_lt.
  - exists (t' - 1)%nat. rewrite list_lookup_delete_ge by lia. by replace (S (t' - 1)) with t' by lia.
Qed.

(** ** Positions and slots *)

Lemma power_of_two cap : is_power_of_two_size cap = true -> exists k, 0 < k /\ cap = 2 ^ k.
Proof.
  unfold is_power_of_two_size. intros [H1 H2]%andb_prop. apply Z.ltb_lt in H1. apply Z.eqb_eq in H2.
  pose proof (Z.log2_spec cap ltac:(lia)) as [Hl Hu]. exists (Z.log2 cap). split; [apply Z.log2_pos; lia|].
  destruct (Z.eq_dec cap (2 ^ Z.log2 cap)) as [|Hne]; [done|exfalso].
  assert (Z.log2 (cap - 1) = Z.log2 cap) as E by (apply Z.log2_unique; [apply Z.log2_nonneg|lia]).
  assert (Z.testbit (Z.land cap (cap - 1)) (Z.log2 cap) = true) as Hb.
  { rewrite Z.land_spec, Z.bit_log2 by lia. by rewrite <- E, Z.bit_log2 by lia. }
  by rewrite H2, Z.bits_0 in Hb.
Qed.

Section invariant.
Context (cap : Z).
Hypothesis Hcap : is_power_of_two_size cap = true.

Lemma cap_ge : 2 <= cap.
Proof. unfold is_power_of_two_size in Hcap. apply andb_prop in Hcap as [H _]. apply Z.ltb_lt in H. lia. Qed.

Lemma land_mask p : Z.land p (cap - 1) = p mod cap.
Proof.
  destruct (power_of_two cap Hcap) as (k & Hk & ->). rewrite <- Z.land_ones by lia. f_equal. by rewrite Z.ones_equiv.
Qed.

Lemma cong_near p q : p mod cap = q mod cap -> - cap < p - q < cap -> p = q.
Proof.
  intros H Hr. pose proof cap_ge. pose proof (Z.div_mod p cap ltac:(lia)). pose proof (Z.div_mod q cap ltac:(lia)).
  rewrite H in *. destruct (Z.lt_trichotomy (p / cap) (q / cap)) as [?|[Heq|?]]; [nia|rewrite Heq in *; lia|nia].
Qed.

Record ring_wf (r : ring_buffer_mpmc) : Prop := {
  rw_cap : capacity r = cap;
  rw_mask : mask r = cap - 1;
  rw_len : length (slots r) = Z.to_nat cap
}.

Lemma idx_eq r p : ring_wf r -> idx r p = Z.to_nat (p mod cap).
Proof. intros [_ Hm _]. unfold idx. by rewrite Hm, land_mask. Qed.

Lemma slot_set r p s q : ring_wf r ->
  slot (set_slot r p s) q = if p mod cap =? q mod cap then s else slot r q.
Proof.
  intros Hr. pose proof cap_ge. pose proof (Z.mod_pos_bound p cap ltac:(lia)). pose proof (Z.mod_pos_bound q cap ltac:(lia)).
  assert (ring_wf (set_slot r p s)) as Hr'.
  { destruct Hr. split; [done|done|]. cbn. by rewrite length_insert. }
  unfold slot. rewrite !idx_eq by done. cbn [set_slot slots]. rewrite idx_eq by done. rewrite !nth_lookup.
  pose proof (rw_len r Hr). destruct (Z.eqb_spec (p mod cap) (q mod cap)) as [-> | Hne].
  - by rewrite list_lookup_insert_eq by lia.
  - by rewrite list_lookup_insert_ne by lia.
Qed.

Lemma slot_cong r p q : ring_wf r -> p mod cap = q mod cap -> slot r p = slot r q.
Proof. intros Hr E. unfold slot. by rewrite !idx_eq, E by done. Qed.

(** ** The invariant *)

(** A slot serves position [p]: it is free, being filled, filled, or being
    emptied. *)
Definition phase (E D : Z) (ev : list (Z * Z)) (prod cons : list Z) (p : Z) (s : ring_mpmc_slot) : Prop :=
  (sequence s = p /\ E <= p < D + cap) \/
  (sequence s = p /\ D <= p < E /\ p ∈ prod) \/
  (sequence s = p + 1 /\ D <= p < E /\ (p, value s) ∈ ev) \/
  (sequence s = p + 1 /\ p < D /\ E <= p + cap /\ p ∈ cons /\ (p, value s) ∈ ev).

Definition thread_ok (r : ring_buffer_mpmc) (ev : list (Z * Z)) (p : pc) : Prop :=
  match p with
  | Idle | EnqLoad _ | DeqLoad => True
  | EnqSeq _ pos => 0 <= pos <= enqueue_pos r
  | EnqCas _ pos => 0 <= pos <= enqueue_pos r /\ pos <= sequence (slot r pos)
  | EnqWrite v pos => 0 <= pos < enqueue_pos r /\ sequence (slot r pos) = pos /\ (pos, v) ∈ ev
  | EnqPublish v pos =>
      0 <= pos < enqueue_pos r /\ sequence (slot r pos) = pos /\ (pos, v) ∈ ev /\ value (slot r pos) = v
  | DeqSeq pos => 0 <= pos <= dequeue_pos r
  | DeqCas pos => 0 <= pos <= dequeue_pos r /\ pos + 1 <= sequence (slot r pos)
  | DeqRead pos => 0 <= pos < dequeue_pos r /\ sequence (slot r pos) = pos + 1 /\ (pos, value (slot r pos)) ∈ ev
  | DeqRelease pos v =>
      0 <= pos < dequeue_pos r /\ sequence (slot r pos) = pos + 1 /\ (pos, value (slot r pos)) ∈ ev /\
      value (slot r pos) = v
  end.

Definition phases (r : ring_buffer_mpmc) (ev : list (Z * Z)) (ts : list pc) : Prop :=
  forall q, 0 <= q -> exists p, p mod cap = q mod cap /\ 0 <= p /\
    phase (enqueue_pos r) (dequeue_pos r) ev (omap producing ts) (omap consuming ts) p (slot r q).

Record inv (s : sys) : Prop := {
  i_ring : ring_wf (ring s);
  i_enq : (enqs (trace s)).*1 = seqz 0 (enqueue_pos (ring s));
  i_deq : deqs (trace s) = seqz 0 (dequeue_pos (ring s));
  i_pos : 0 <= dequeue_pos (ring s) <= enqueue_pos (ring s) /\ enqueue_pos (ring s) <= dequeue_pos (ring s) + cap;
  i_pub : published (trace s) ++ omap producing (threads s) ≡ₚ seqz 0 (enqueue_pos (ring s));
  i_ret : (returned (trace s)).*1 ++ omap consuming (threads s) ≡ₚ seqz 0 (dequeue_pos (ring s));
  i_val : forall pv, pv ∈ returned (trace s) -> pv ∈ enqs (trace s);
  i_slots : phases (ring s) (enqs (trace s)) (threads s);
  i_threads : forall t p, threads s !! t = Some p -> thread_ok (ring s) (enqs (trace s)) p
}.

(** ** Preservation *)

Lemma enqs_app a b : enqs (a ++ b) = enqs a ++ enqs b.
Proof. apply omap_app. Qed.
Lemma deqs_app a b : deqs (a ++ b) = deqs a ++ deqs b.
Proof. apply omap_app. Qed.
Lemma published_app a b : published (a ++ b) = published a ++ published b.
Proof. apply omap_app. Qed.
Lemma returned_app a b : returned (a ++ b) = returned a ++ returned b.
Proof. apply omap_app. Qed.

Ltac trace_app := rewrite ?enqs_app, ?deqs_app, ?published_app, ?returned_app;
  cbn [option_list enqs deqs published returned omap list_omap fmap list_fmap fst]; rewrite ?app_nil_r.

(** Events that take no position and complete no transfer. *)
Definition quiet_event (e : option event) : Prop :=
  match e with None | Some (EnqFull _) | Some (DeqEmpty _) => True | _ => False end.

Lemma inv_local s t p p' e :
  inv s -> threads s !! t = Some p -> producing p' = producing p -> consuming p' = consuming p ->
  thread_ok (ring s) (enqs (trace s)) p' -> quiet_event e ->
  inv (mk_sys (ring s) (<[t := p']> (threads s)) (trace s ++ option_list e)).
Proof.
  intros [H1 H2 H3 H4 H5 H6 H7 H8 H9] Ht Hp Hc Hok He.
  assert (enqs (trace s ++ option_list e) = enqs (trace s) /\ deqs (trace s ++ option_list e) = deqs (trace s) /\
          published (trace s ++ option_list e) = published (trace s) /\
          returned (trace s ++ option_list e) = returned (trace s)) as (E1 & E2 & E3 & E4).
  { destruct e as [[]|]; try done; by trace_app. }
  split; cbn [ring threads trace]; rewrite ?E1, ?E2, ?E3, ?E4; try done.
  - by rewrite (omap_same _ _ _ _ _ Ht Hp).
  - by rewrite (omap_same _ _ _ _ _ Ht Hc).
  - intros q Hq. destruct (H8 q Hq) as (x & Hx & Hx0 & Hph). exists x. split; [done|]. split; [done|].
    unfold phase in *. by rewrite (omap_same _ _ _ _ _ Ht Hp), (omap_same _ _ _ _ _ Ht Hc).
  - intros t' q. destruct (decide (t = t')) as [<- | Hne].
    + rewrite list_lookup_insert_eq by (by eapply lookup_lt_Some). by intros [= <-].
    + rewrite list_lookup_insert_ne by done. apply H9.
Qed.

Lemma thread_ok_mono r r' ev ev' p :
  (forall q, slot r' q = slot r q) -> enqueue_pos r <= enqueue_pos r' -> dequeue_pos r <= dequeue_pos r' -> ev ⊆ ev' ->
  thread_ok r ev p -> thread_ok r' ev' p.
Proof.
  intros Hs HE HD Hev. destruct p; cbn; rewrite ?Hs; try done; try lia.
  all: intros (? & ? & H'); repeat split; try lia; try (by apply Hev); by destruct H' as [H' ?]; try apply Hev.
Qed.

(** The other threads after a step of thread [t]. *)
Lemma threads_insert (P Q : pc -> Prop) (ts : list pc) t p' :
  (forall t' p, ts !! t' = Some p -> P p) -> Q p' -> (forall t' p, t' <> t -> ts !! t' = Some p -> P p -> Q p) ->
  forall t' p, <[t := p']> ts !! t' = Some p -> Q p.
Proof.
  intros HP Hp' HQ t' p. destruct (decide (t = t')) as [<- | Hne].
  - intros H. pose proof (lookup_lt_Some _ _ _ H) as Hlt. rewrite length_insert in Hlt.
    rewrite list_lookup_insert_eq in H by done. by injection H as <-.
  - rewrite list_lookup_insert_ne by done. intros H. by apply (HQ t' p); [|done|apply (HP t')].
Qed.

Lemma elem_of_insert {B} (f : pc -> option B) (ts : list pc) (t : nat) p p' x :
  ts !! t = Some p -> x ∈ omap f ts -> f p <> Some x -> x ∈ omap f (<[t := p']> ts).
Proof.
  intros Ht Hx Hne. rewrite (omap_delete f ts t p Ht) in Hx. rewrite (omap_insert_at f ts t p p' Ht).
  apply elem_of_app. apply elem_of_app in Hx as [Hx | Hx]; [|by right].
  destruct (f p); [|by inversion Hx]. cbn in Hx. apply list_elem_of_singleton in Hx as ->. done.
Qed.

Lemma omap_grow (f : pc -> option Z) (ts : list pc) (t : nat) p p' x l n :
  ts !! t = Some p -> f p = None -> f p' = Some x -> l ++ omap f ts ≡ₚ seqz 0 n -> x = n -> 0 <= n ->
  l ++ omap f (<[t := p']> ts) ≡ₚ seqz 0 (n + 1).
Proof.
  intros Ht Hp Hp' H -> Hn. rewrite seqz_snoc by done. rewrite <- H, (omap_insert_at f ts t p p' Ht), (omap_delete f ts t p Ht), Hp, Hp'.
  cbn. rewrite <- app_assoc. f_equiv. by rewrite Permutation_app_comm.
Qed.

Lemma omap_shrink (f : pc -> option Z) (ts : list pc) (t : nat) p p' x l n :
  ts !! t = Some p -> f p = Some x -> f p' = None -> l ++ omap f ts ≡ₚ seqz 0 n ->
  (l ++ [x]) ++ omap f (<[t := p']> ts) ≡ₚ seqz 0 n.
Proof.
  intros Ht Hp Hp' H. rewrite <- H, (omap_insert_at f ts t p p' Ht), (omap_delete f ts t p Ht), Hp, Hp'. cbn.
  by rewrite <- app_assoc.
Qed.

(** A producer takes the next position. *)
Lemma inv_enq_claim s t elem pos :
  inv s -> threads s !! t = Some (EnqCas elem pos) -> enqueue_pos (ring s) = pos -> pos + 1 < 9223372036854775808 ->
  inv (mk_sys (set_enqueue_pos (ring s) (u64 (pos + 1))) (<[t := EnqWrite elem pos]> (threads s)) (trace s ++ [Enq pos elem])).
Proof.
  intros [H1 H2 H3 H4 H5 H6 H7 H8 H9] Ht HE Hb. pose proof cap_ge as Hc. destruct (H9 _ _ Ht) as [Hpos Hseq].
  rewrite u64_id by lia. set (r' := set_enqueue_pos (ring s) (pos + 1)).
  assert (sequence (slot (ring s) pos) = pos /\ pos < dequeue_pos (ring s) + cap) as [Hs HD].
  { destruct (H8 pos) as (p & Hm & Hp & Hph); [lia|].
    destruct Hph as [(Hs & Hr) | [(Hs & Hr & _) | [(Hs & Hr & _) | (Hs & Hr & Hr2 & _)]]].
    - rewrite Hs. assert (p = pos) as -> by (apply cong_near; [done|lia]). lia.
    - lia.
    - assert (pos = p) by (apply cong_near; [done|lia]). lia.
    - assert (pos = p) by (apply cong_near; [done|lia]). lia. }
  split; cbn [ring threads trace]; trace_app.
  - by destruct H1; split.
  - rewrite fmap_app, H2. cbn. rewrite seqz_snoc, HE by lia. done.
  - done.
  - cbn. lia.
  - cbn. eapply omap_grow; [exact Ht|done|done| |done|lia]. by rewrite <- HE.
  - rewrite (omap_same _ _ _ _ _ Ht); done.
  - intros pv Hpv. apply elem_of_app. left. by apply H7.
  - intros q Hq. destruct (H8 q Hq) as (p & Hm & Hp & Hph). exists p. split; [done|]. split; [done|].
    unfold phase. cbn [set_enqueue_pos enqueue_pos dequeue_pos r']. change (slot r' q) with (slot (ring s) q).
    rewrite (omap_same consuming _ _ _ (EnqWrite elem pos) Ht) by done.
    destruct Hph as [(Hs' & Hr) | [(Hs' & Hr & Hin) | [(Hs' & Hr & Hin) | (Hs' & Hr & Hr2 & Hin & Hv)]]].
    + destruct (decide (p = pos)) as [-> | Hne]; [|left; lia]. right; left. split; [done|]. split; [lia|].
      rewrite (omap_insert_at _ _ _ _ _ Ht). cbn. left.
    + right; left. split; [done|]. split; [lia|]. by eapply elem_of_insert.
    + right; right; left. split; [done|]. split; [lia|]. apply elem_of_app. by left.
    + right; right; right. split; [done|]. split; [lia|]. assert (pos <> p + cap).
      { intros ->. assert (sequence (slot (ring s) q) = p + cap); [|lia].
        rewrite (slot_cong (ring s) q (p + cap)); [done|done|]. rewrite <- Hm.
        rewrite <- (Z.mul_1_l cap) at 2. by rewrite Z.mod_add by lia. }
      split; [lia|]. split; [done|]. apply elem_of_app. by left.
  - eapply threads_insert; [exact H9| |].
    + cbn. change (slot r' pos) with (slot (ring s) pos). split; [lia|]. split; [done|]. apply elem_of_app. right. left.
    + intros t' p _ _. apply thread_ok_mono; [done|cbn; lia|cbn; lia|]. intros x Hx. apply elem_of_app. by left.
Qed.

(** A consumer takes the next position. *)
Lemma inv_deq_claim s t pos :
  inv s -> threads s !! t = Some (DeqCas pos) -> dequeue_pos (ring s) = pos ->
  enqueue_pos (ring s) + 1 < 9223372036854775808 ->
  inv (mk_sys (set_dequeue_pos (ring s) (u64 (pos + 1))) (<[t := DeqRead pos]> (threads s)) (trace s ++ [Deq pos])).
Proof.
  intros [H1 H2 H3 H4 H5 H6 H7 H8 H9] Ht HD Hb. pose proof cap_ge as Hc. destruct (H9 _ _ Ht) as [Hpos Hseq].
  rewrite u64_id by lia. set (r' := set_dequeue_pos (ring s) (pos + 1)).
  assert (sequence (slot (ring s) pos) = pos + 1 /\ pos < enqueue_pos (ring s) /\
          (pos, value (slot (ring s) pos)) ∈ enqs (trace s)) as (Hs & HE & Hv).
  { destruct (H8 pos) as (p & Hm & Hp & Hph); [lia|].
    destruct Hph as [(Hs & Hr) | [(Hs & Hr & _) | [(Hs & Hr & Hv) | (Hs & Hr & Hr2 & _)]]].
    - assert (p = pos) by (apply cong_near; [done|lia]). lia.
    - assert (p = pos) by (apply cong_near; [done|lia]). lia.
    - assert (p = pos) as -> by (apply cong_near; [done|lia]). split; [done|]. split; [lia|done].
    - lia. }
  split; cbn [ring threads trace]; trace_app.
  - by destruct H1; split.
  - done.
  - rewrite H3. cbn. rewrite seqz_snoc, HD by lia. done.
  - cbn. lia.
  - by rewrite (omap_same _ _ _ _ _ Ht).
  - cbn. eapply omap_grow; [exact Ht|done|done| |done|lia]. by rewrite <- HD.
  - done.
  - intros q Hq. destruct (H8 q Hq) as (p & Hm & Hp & Hph). exists p. split; [done|]. split; [done|].
    unfold phase. cbn [set_dequeue_pos enqueue_pos dequeue_pos r']. change (slot r' q) with (slot (ring s) q).
    rewrite (omap_same producing _ _ _ (DeqRead pos) Ht) by done.
    assert (p = pos -> sequence (slot (ring s) q) = pos + 1) as Hpq by (intros ->; by rewrite (slot_cong (ring s) q pos)).
    destruct Hph as [(Hs' & Hr) | [(Hs' & Hr & Hin) | [(Hs' & Hr & Hin) | (Hs' & Hr & Hr2 & Hin & Hv')]]].
    + left. lia.
    + right; left. split; [done|]. split; [|done]. destruct (decide (p = pos)); [|lia]. lia.
    + right; right. destruct (decide (p = pos)) as [-> | Hne]; [right|left; split; [done|split; [lia|done]]].
      split; [done|]. split; [lia|]. split; [lia|]. split; [|done]. rewrite (omap_insert_at _ _ _ _ _ Ht). cbn. left.
    + right; right; right. split; [done|]. split; [lia|]. split; [lia|]. split; [|done]. by eapply elem_of_insert.
  - eapply threads_insert; [exact H9| |].
    + cbn. change (slot r' pos) with (slot (ring s) pos). split; [lia|]. split; [done|]. done.
    + intros t' p _ _. apply thread_ok_mono; [done|cbn; lia|cbn; lia|]. intros x Hx. exact Hx.
Qed.

Lemma cong_succ p q : p mod cap = q mod cap -> p + 1 <> q.
Proof. intros H E. pose proof cap_ge. assert (p = q) by (apply cong_near; [done|lia]). lia. Qed.

Lemma ring_wf_set r p x : ring_wf r -> ring_wf (set_slot r p x).
Proof. intros []. split; [done|done|]. cbn. by rewrite length_insert. Qed.

(** A thread that does not own the updated slot. *)
Lemma thread_ok_set r P x ev p :
  ring_wf r -> sequence (slot r P) <= sequence x ->
  (sequence (slot r P) = P /\ producing p <> Some P) \/ (sequence (slot r P) = P + 1 /\ consuming p <> Some P) ->
  thread_ok r ev p -> thread_ok (set_slot r P x) ev p.
Proof.
  intros Hr Hle Hown. destruct p as [| | |v pos|v pos|v pos| | |pos|pos|pos v]; cbn [thread_ok]; rewrite ?slot_set by done; try done;
    (destruct (Z.eqb_spec (P mod cap) (pos mod cap)) as [E|]; [|exact id]);
    rewrite (slot_cong r pos P) by done; pose proof (cong_succ _ _ E); pose proof (cong_succ _ _ (eq_sym E));
    intros Hok; cbn in Hown; (split; [by destruct Hok|]); try lia;
    exfalso; destruct Hok as (_ & Hs & _), Hown as [[Es Hne] | [Es Hne]]; try lia; apply Hne; f_equal; lia.
Qed.

(** The phases after an update of the slot of position [P]. *)
Lemma phases_set r ev (ts ts' : list pc) P x :
  ring_wf r -> phases r ev ts ->
  (forall q, q ∈ omap producing ts -> q <> P -> q ∈ omap producing ts') ->
  (forall q, q ∈ omap consuming ts -> q <> P -> q ∈ omap consuming ts') ->
  (sequence (slot r P) = P \/ sequence (slot r P) = P + 1) ->
  (exists p, p mod cap = P mod cap /\ 0 <= p /\
     phase (enqueue_pos r) (dequeue_pos r) ev (omap producing ts') (omap consuming ts') p x) ->
  phases (set_slot r P x) ev ts'.
Proof.
  intros Hr Hph Hprod Hcons Hseq Hx q Hq. rewrite slot_set by done. cbn [set_slot enqueue_pos dequeue_pos].
  destruct (Z.eqb_spec (P mod cap) (q mod cap)) as [E | Hne]; [by rewrite <- E|].
  destruct (Hph q Hq) as (p & Hm & Hp & H). exists p. split; [done|]. split; [done|].
  assert (p <> P) as HpP by (intros ->; congruence).
  destruct H as [H | [(H1 & H2 & H) | [H | (H1 & H2 & H3 & H & H4)]]];
    [by left|right; left|by right; right; left|right; right; right]; auto 6.
Qed.

Lemma owned_phase s t p P : inv s -> threads s !! t = Some p ->
  (producing p = Some P -> dequeue_pos (ring s) <= P) /\ (consuming p = Some P -> enqueue_pos (ring s) <= P + cap).
Proof.
  intros Hi Ht. pose proof (i_threads s Hi t p Ht) as Hok. pose proof (i_pos s Hi) as Hpos. pose proof cap_ge as Hc.
  split; intros Hp; destruct p; try done; injection Hp as ->; cbn in Hok; destruct Hok as (Hr & Hs & _);
    destruct (i_slots s Hi P ltac:(lia)) as (q & Hm & Hq & Hph); pose proof (cong_succ _ _ Hm); pose proof (cong_succ _ _ (eq_sym Hm));
    destruct Hph as [(Hs' & ?) | [(Hs' & ? & _) | [(Hs' & ? & _) | (Hs' & ? & ? & _)]]]; lia.
Qed.

(** A producer stores the element. *)
Lemma inv_enq_write s t elem pos :
  inv s -> threads s !! t = Some (EnqWrite elem pos) ->
  inv (mk_sys (set_slot (ring s) pos (mk_slot (sequence (slot (ring s) pos)) elem))
         (<[t := EnqPublish elem pos]> (threads s)) (trace s ++ [])).
Proof.
  intros Hi Ht. pose proof (i_threads s Hi _ _ Ht) as (Hpos & Hseq & Hev).
  destruct (owned_phase s t _ pos Hi Ht) as [HD _]. specialize (HD eq_refl).
  destruct Hi as [H1 H2 H3 H4 H5 H6 H7 H8 H9]. rewrite app_nil_r, Hseq.
  split; cbn [ring threads trace]; try done.
  - by apply ring_wf_set.
  - by rewrite (omap_same _ _ _ _ _ Ht).
  - by rewrite (omap_same _ _ _ _ _ Ht).
  - apply phases_set with (threads s); [done|done| | |by left|].
    + intros q Hq _. by rewrite (omap_same _ _ _ _ _ Ht).
    + intros q Hq _. by rewrite (omap_same _ _ _ _ _ Ht).
    + exists pos. split; [done|]. split; [lia|]. right; left. split; [done|]. split; [lia|].
      rewrite (omap_insert_at _ _ _ _ _ Ht). cbn. left.
  - eapply threads_insert; [exact H9| |].
    + cbn [thread_ok]. rewrite slot_set, Z.eqb_refl by done. done.
    + intros t' p Hne Hp Hok. apply thread_ok_set; [done|cbn; lia| |done]. left. split; [done|]. intros Hown. apply Hne.
      assert (NoDup (omap producing (threads s))) as Hnd.
      { eapply NoDup_app. rewrite H5. apply NoDup_seqz. }
      by eapply (owner_unique producing).
Qed.

(** A producer publishes the slot. *)
Lemma inv_enq_publish s t elem pos :
  inv s -> threads s !! t = Some (EnqPublish elem pos) -> enqueue_pos (ring s) + 1 < 9223372036854775808 ->
  inv (mk_sys (set_slot (ring s) pos (mk_slot (u64 (pos + 1)) (value (slot (ring s) pos))))
         (<[t := Idle]> (threads s)) (trace s ++ [EnqRet pos])).
Proof.
  intros Hi Ht Hb. pose proof (i_threads s Hi _ _ Ht) as (Hpos & Hseq & Hev & Hval).
  destruct (owned_phase s t _ pos Hi Ht) as [HD _]. specialize (HD eq_refl).
  destruct Hi as [H1 H2 H3 H4 H5 H6 H7 H8 H9]. rewrite u64_id, Hval by lia.
  split; cbn [ring threads trace]; trace_app; try done.
  - by apply ring_wf_set.
  - by eapply omap_shrink.
  - by rewrite (omap_same _ _ _ _ _ Ht).
  - apply phases_set with (threads s); [done|done| | |by left|].
    + intros q Hq Hne. eapply elem_of_insert; [done|done|]. cbn. congruence.
    + intros q Hq Hne. eapply elem_of_insert; [done|done|]. done.
    + exists pos. split; [done|]. split; [lia|]. right; right; left. split; [done|]. split; [lia|]. done.
  - eapply threads_insert; [exact H9|done|].
    intros t' p Hne Hp Hok. apply thread_ok_set; [done|cbn; lia| |done]. left. split; [done|]. intros Hown. apply Hne.
    assert (NoDup (omap producing (threads s))) as Hnd.
    { eapply NoDup_app. rewrite H5. apply NoDup_seqz. }
    by eapply (owner_unique producing).
Qed.

(** A consumer releases the slot. *)
Lemma inv_deq_release s t pos val :
  inv s -> threads s !! t = Some (DeqRelease pos val) -> enqueue_pos (ring s) + cap < 9223372036854775808 ->
  inv (mk_sys (set_slot (ring s) pos (mk_slot (u64 (pos + capacity (ring s))) (value (slot (ring s) pos))))
         (<[t := Idle]> (threads s)) (trace s ++ [DeqRet pos val])).
Proof.
  intros Hi Ht Hb. pose proof (i_threads s Hi _ _ Ht) as (Hpos & Hseq & Hev & Hval). pose proof cap_ge as Hc.
  destruct (owned_phase s t _ pos Hi Ht) as [_ HE]. specialize (HE eq_refl).
  destruct Hi as [H1 H2 H3 H4 H5 H6 H7 H8 H9]. rewrite (rw_cap _ H1), u64_id by lia.
  split; cbn [ring threads trace]; trace_app; try done.
  - by apply ring_wf_set.
  - by rewrite (omap_same _ _ _ _ _ Ht).
  - rewrite fmap_app. by eapply omap_shrink.
  - intros pv [Hpv | ->%list_elem_of_singleton]%elem_of_app; [by apply H7|]. by rewrite <- Hval.
  - apply phases_set with (threads s); [done|done| | |by right|].
    + intros q Hq Hne. eapply elem_of_insert; [done|done|]. done.
    + intros q Hq Hne. eapply elem_of_insert; [done|done|]. cbn. congruence.
    + exists (pos + cap). split; [|split; [lia|left; cbn; lia]].
      rewrite <- (Z.mul_1_l cap) at 1. by rewrite Z.mod_add by lia.
  - eapply threads_insert; [exact H9|done|].
    intros t' p Hne Hp Hok. apply thread_ok_set; [done|cbn; lia| |done]. right. split; [done|]. intros Hown. apply Hne.
    assert (NoDup (omap consuming (threads s))) as Hnd.
    { eapply NoDup_app. rewrite H6. apply NoDup_seqz. }
    by eapply (owner_unique consuming).
Qed.

Lemma s64_id x : -9223372036854775808 <= x < 9223372036854775808 -> s64 x = x.
Proof.
  intros H. unfold s64. destruct (Z_lt_le_dec x 0).
  - assert (x mod 18446744073709551616 = x + 18446744073709551616) as -> by (Z.div_mod_to_equations; lia).
    rewrite (proj2 (Z.ltb_ge _ _)) by lia. lia.
  - rewrite Z.mod_small by lia. by rewrite (proj2 (Z.ltb_lt _ _)) by lia.
Qed.

(** So few elements were enqueued that positions are far from the wrap. *)
Definition bounded (s : sys) : Prop := Z.of_nat (length (enqs (trace s))) + cap < 9223372036854775808.

Lemma enqueue_pos_eq s : inv s -> enqueue_pos (ring s) = Z.of_nat (length (enqs (trace s))).
Proof.
  intros Hi. pose proof (i_pos s Hi). pose proof (f_equal length (i_enq s Hi)) as H'. rewrite length_fmap, length_seqz in H'. lia.
Qed.

Lemma bounded_pos s : inv s -> bounded s -> enqueue_pos (ring s) + cap < 9223372036854775808.
Proof. intros Hi. by rewrite enqueue_pos_eq. Qed.

Lemma seq_range s q : inv s -> bounded s -> 0 <= q -> 0 <= sequence (slot (ring s) q) < 9223372036854775808.
Proof.
  intros Hi Hb Hq. destruct (i_slots s Hi q Hq) as (p & _ & Hp & Hph). pose proof (i_pos s Hi). pose proof cap_ge. apply bounded_pos in Hb; [|done].
  destruct Hph as [(Hs & ?) | [(Hs & ? & _) | [(Hs & ? & _) | (Hs & ? & ? & _)]]]; lia.
Qed.

Lemma enq_diff s pos : inv s -> bounded s -> 0 <= pos <= enqueue_pos (ring s) ->
  s64 (s64 (sequence (slot (ring s) pos)) - s64 pos) = sequence (slot (ring s) pos) - pos.
Proof.
  intros Hi Hb Hp. pose proof (seq_range s pos Hi Hb ltac:(lia)). pose proof cap_ge. apply bounded_pos in Hb; [|done].
  rewrite (s64_id (sequence _)), (s64_id pos) by lia. apply s64_id. lia.
Qed.

Lemma deq_diff s pos : inv s -> bounded s -> 0 <= pos <= dequeue_pos (ring s) ->
  s64 (s64 (sequence (slot (ring s) pos)) - s64 (u64 (pos + 1))) = sequence (slot (ring s) pos) - (pos + 1).
Proof.
  intros Hi Hb Hp. pose proof (seq_range s pos Hi Hb ltac:(lia)). pose proof cap_ge. pose proof (i_pos s Hi). apply bounded_pos in Hb; [|done].
  rewrite u64_id by lia. rewrite (s64_id (sequence _)), (s64_id (pos + 1)) by lia. apply s64_id. lia.
Qed.

Lemma ring_step_inv s s' : inv s -> bounded s -> step s s' -> inv s'.
Proof.
  intros Hi Hb Hstep. destruct Hstep as [s t p c r' p' e Ht Hstep].
  pose proof (i_threads s Hi t p Ht) as Hok. pose proof (i_pos s Hi) as Hpos. pose proof cap_ge as Hc.
  pose proof (bounded_pos s Hi Hb) as Hb'.
  destruct p as [|v|v pos|v pos|v pos|v pos| |pos|pos|pos|pos v]; destruct c as [x| |sp]; try done; cbn in Hstep.
  - injection Hstep as <- <- <-. by eapply inv_local.
  - injection Hstep as <- <- <-. by eapply inv_local.
  - injection Hstep as <- <- <-. eapply inv_local; [done|done|done|done|cbn; lia|done].
  - rewrite enq_diff in Hstep by done. destruct (Z.eqb_spec (sequence (slot (ring s) pos) - pos) 0).
    + injection Hstep as <- <- <-. eapply inv_local; [done|done|done|done| |done]. cbn [thread_ok] in *. lia.
    + destruct (_ <? 0); injection Hstep as <- <- <-; by eapply inv_local.
  - destruct (Z.eqb_spec (enqueue_pos (ring s)) pos); destruct sp; cbn in Hstep; injection Hstep as <- <- <-;
      try (by eapply inv_local). apply inv_enq_claim; [done|done|done|lia].
  - injection Hstep as <- <- <-. by apply inv_enq_write.
  - injection Hstep as <- <- <-. by apply (inv_enq_publish s t v); [|..|lia].
  - injection Hstep as <- <- <-. eapply inv_local; [done|done|done|done|cbn; lia|done].
  - rewrite deq_diff in Hstep by done. destruct (Z.eqb_spec (sequence (slot (ring s) pos) - (pos + 1)) 0).
    + injection Hstep as <- <- <-. eapply inv_local; [done|done|done|done| |done]. cbn [thread_ok] in *. lia.
    + destruct (_ <? 0); injection Hstep as <- <- <-; by eapply inv_local.
  - destruct (Z.eqb_spec (dequeue_pos (ring s)) pos); destruct sp; cbn in Hstep; injection Hstep as <- <- <-;
      try (by eapply inv_local). apply inv_deq_claim; [done|done|done|lia].
  - injection Hstep as <- <- <-. eapply inv_local; [done|done|done|done| |done].
    destruct Hok as (? & ? & ?). cbn [thread_ok]. auto.
  - injection Hstep as <- <- <-. by apply inv_deq_release.
Qed.

Lemma create_inv r n : ring_buffer_mpmc_create true cap = (0, Some r) -> inv (mk_sys r (replicate n Idle) []).
Proof.
  unfold ring_buffer_mpmc_create. rewrite Hcap. cbn [negb]. intros [= <-]. pose proof cap_ge as Hc.
  set (r := mk_ring _ _ _ _ _). assert (ring_wf r) as Hr.
  { split; [done|done|]. cbn. by rewrite length_fmap, length_seqz. }
  assert (forall f : pc -> option Z, f Idle = None -> omap f (replicate n Idle) = []) as Ho.
  { intros f Hf. induction n as [|k IH]; [done|]. cbn. by rewrite Hf. }
  split; cbn [ring threads trace]; try done; rewrite ?Ho by done; try done.
  - cbn. lia.
  - intros q Hq. pose proof (Z.mod_pos_bound q cap ltac:(lia)). exists (q mod cap). split; [by rewrite Z.mod_mod by lia|].
    split; [lia|]. left. cbn [enqueue_pos dequeue_pos r]. split; [|lia]. unfold slot. rewrite idx_eq by done. cbn [slots r].
    rewrite nth_lookup, list_lookup_fmap, lookup_seqz by lia. cbn. lia.
  - intros t p [-> _]%lookup_replicate. done.
Qed.

Lemma step_bounded s s' : step s s' -> bounded s' -> bounded s.
Proof. intros [] Hb. unfold bounded in *. cbn [trace] in Hb. rewrite enqs_app, length_app in Hb. lia. Qed.

Lemma reachable_ring_inv s : reachable cap s -> bounded s -> inv s.
Proof.
  induction 1 as [r n Hr | s s' Hs IH Hstep]; intros Hb; [by apply create_inv|].
  pose proof (step_bounded _ _ Hstep Hb). eapply ring_step_inv; [by apply IH|done|done].
Qed.

(** ** Without concurrent operations *)

Definition idle (s : sys) : Prop := Forall (eq Idle) (threads s).

Lemma idle_owners s (f : pc -> option Z) : idle s -> f Idle = None -> omap f (threads s) = [].
Proof. intros H Hf. unfold idle in H. induction H as [|p l <- _ IH]; [done|]. cbn. by rewrite Hf. Qed.

(** A slot is free or filled. *)
Lemma idle_phase s q : inv s -> idle s -> 0 <= q ->
  exists p, p mod cap = q mod cap /\ 0 <= p /\
    (sequence (slot (ring s) q) = p /\ enqueue_pos (ring s) <= p < dequeue_pos (ring s) + cap \/
     sequence (slot (ring s) q) = p + 1 /\ dequeue_pos (ring s) <= p < enqueue_pos (ring s) /\
     (p, value (slot (ring s) q)) ∈ enqs (trace s)).
Proof.
  intros Hi Hid Hq. destruct (i_slots s Hi q Hq) as (p & Hm & Hp & Hph). exists p. split; [done|]. split; [done|].
  unfold phase in Hph. rewrite !idle_owners in Hph by done.
  destruct Hph as [H | [(_ & _ & H) | [H | (_ & _ & _ & H & _)]]]; [by left|by inversion H|by right|by inversion H].
Qed.

End invariant.

(** The elements between the two positions. *)
Definition contents (r : ring_buffer_mpmc) : list Z :=
  (fun p => value (slot r p)) <$> seqz (dequeue_pos r) (enqueue_pos r - dequeue_pos r).

(** An operation run without interruption, with the event of its return. *)
Fixpoint solo (fuel : nat) (r : ring_buffer_mpmc) (p : pc) : option (ring_buffer_mpmc * event) :=
  match fuel with
  | O => None
  | S fuel =>
      match thread_step r p (Run false) with
      | Some (r, Idle, Some e) => Some (r, e)
      | Some (r, p, _) => solo fuel r p
      | None => None
      end
  end.

Definition ring_buffer_mpmc_try_enqueue (r : ring_buffer_mpmc) (elem : Z) := solo 5 r (EnqLoad elem).
Definition ring_buffer_mpmc_try_dequeue (r : ring_buffer_mpmc) := solo 5 r DeqLoad.

Section solo.
Context (cap : Z) (s : sys).
Hypothesis Hcap : is_power_of_two_size cap = true.
Hypothesis Hi : inv cap s.
Hypothesis Hid : idle s.
Hypothesis Hb : bounded cap s.

Notation r := (ring s).
Notation E := (enqueue_pos (ring s)).
Notation D := (dequeue_pos (ring s)).

Lemma length_contents : Z.of_nat (length (contents r)) = E - D.
Proof. unfold contents. rewrite length_fmap, length_seqz. pose proof (i_pos cap s Hi). lia. Qed.

Lemma free_slot : E < D + cap -> sequence (slot r E) = E.
Proof.
  intros H. pose proof (i_pos cap s Hi). destruct (idle_phase cap s E Hi Hid ltac:(lia)) as (p & Hm & Hp & [[Hs Hr] | [Hs [Hr _]]]).
  - assert (p = E) by (apply (cong_near cap Hcap); [done|lia]). lia.
  - assert (p = E) by (apply (cong_near cap Hcap); [done|lia]). lia.
Qed.

Lemma full_slot : E = D + cap -> sequence (slot r E) < E.
Proof.
  intros H. pose proof (i_pos cap s Hi). pose proof (cap_ge cap Hcap).
  destruct (idle_phase cap s E Hi Hid ltac:(lia)) as (p & Hm & Hp & [[Hs Hr] | [Hs [Hr _]]]); [lia|].
  rewrite Hs. pose proof (cong_succ cap Hcap p E Hm). lia.
Qed.

Lemma filled_slot p : D <= p < E -> sequence (slot r p) = p + 1 /\ (p, value (slot r p)) ∈ enqs (trace s).
Proof.
  intros H. pose proof (i_pos cap s Hi). destruct (idle_phase cap s p Hi Hid ltac:(lia)) as (q & Hm & Hq & [[Hs Hr] | (Hs & Hr & Hv)]).
  - assert (q = p) by (apply (cong_near cap Hcap); [done|lia]). lia.
  - assert (q = p) as -> by (apply (cong_near cap Hcap); [done|lia]). done.
Qed.

Lemma empty_slot : D = E -> sequence (slot r D) = D.
Proof.
  intros H. pose proof (i_pos cap s Hi). destruct (idle_phase cap s D Hi Hid ltac:(lia)) as (p & Hm & Hp & [[Hs Hr] | [Hs [Hr _]]]); [|lia].
  assert (p = D) by (apply (cong_near cap Hcap); [done|lia]). lia.
Qed.

Lemma enqueue_alone v :
  exists r' e, ring_buffer_mpmc_try_enqueue r v = Some (r', e) /\
    if Z.of_nat (length (contents r)) <? cap then e = EnqRet E /\ contents r' = contents r ++ [v]
    else e = EnqFull E /\ r' = r.
Proof.
  pose proof (i_pos cap s Hi) as Hp. pose proof (bounded_pos cap s Hi Hb) as HE. pose proof (cap_ge cap Hcap) as Hc.
  pose proof (enq_diff cap Hcap s E Hi Hb ltac:(lia)) as Hd. rewrite length_contents.
  unfold ring_buffer_mpmc_try_enqueue. destruct (Z.ltb_spec (E - D) cap).
  - rewrite free_slot in Hd by lia.
    assert (ring_wf cap (set_enqueue_pos r (E + 1))) as Hw by (destruct (i_ring cap s Hi); by split).
    eexists _, _. split.
    + cbn [solo thread_step try_enqueue_step]. rewrite free_slot, Hd, Z.sub_diag by lia.
      cbn [Z.eqb thread_step try_enqueue_step]. rewrite Z.eqb_refl. cbn [andb negb thread_step try_enqueue_step].
      rewrite u64_id by lia. reflexivity.
    + split; [done|]. unfold contents. cbn [set_slot set_enqueue_pos enqueue_pos dequeue_pos].
      replace (E + 1 - D) with (E - D + 1) by lia. rewrite seqz_snoc, fmap_app by lia. cbn [fmap list_fmap].
      replace (D + (E - D)) with E by lia. f_equal.
      * apply list_fmap_ext. intros i p Hlk. apply list_elem_of_lookup_2 in Hlk. apply elem_of_seqz in Hlk.
        rewrite !(slot_set cap Hcap) by (done || by apply (ring_wf_set cap)).
        rewrite (proj2 (Z.eqb_neq (E mod cap) (p mod cap))); [done|]. intros Hm.
        assert (E = p) by (apply (cong_near cap Hcap); [done|lia]). lia.
      * rewrite !(slot_set cap Hcap), !Z.eqb_refl by (done || by apply (ring_wf_set cap)). done.
  - pose proof (full_slot ltac:(lia)). eexists _, _. split; [|done].
    cbn [solo thread_step try_enqueue_step]. rewrite Hd, (proj2 (Z.eqb_neq _ 0)), (proj2 (Z.ltb_lt _ 0)) by lia. reflexivity.
Qed.

Lemma dequeue_alone :
  exists r' e, ring_buffer_mpmc_try_dequeue r = Some (r', e) /\
    match contents r with
    | [] => e = DeqEmpty D /\ r' = r
    | x :: l => e = DeqRet D x /\ contents r' = l
    end.
Proof.
  pose proof (i_pos cap s Hi) as Hp. pose proof (bounded_pos cap s Hi Hb) as HE. pose proof (cap_ge cap Hcap) as Hc.
  pose proof (deq_diff cap Hcap s D Hi Hb ltac:(lia)) as Hd. unfold ring_buffer_mpmc_try_dequeue.
  unfold contents at 1. destruct (Z.eq_dec D E) as [He | He].
  - rewrite seqz_nil by lia. rewrite (empty_slot He) in Hd. eexists _, _. split; [|done].
    cbn [solo thread_step try_dequeue_step try_enqueue_step]. rewrite (empty_slot He), Hd.
    rewrite (proj2 (Z.eqb_neq _ 0)), (proj2 (Z.ltb_lt _ 0)) by lia. reflexivity.
  - rewrite seqz_cons by lia. cbn [fmap list_fmap]. destruct (filled_slot D ltac:(lia)) as [Hs _]. rewrite Hs, Z.sub_diag in Hd.
    assert (ring_wf cap (set_dequeue_pos r (D + 1))) as Hw by (destruct (i_ring cap s Hi); by split).
    eexists _, _. split.
    + cbn [solo thread_step try_dequeue_step try_enqueue_step]. rewrite Hs, Hd.
      cbn [Z.eqb thread_step try_dequeue_step try_enqueue_step]. rewrite Z.eqb_refl.
      cbn [andb negb thread_step try_dequeue_step try_enqueue_step]. rewrite (u64_id (D + 1)) by lia. reflexivity.
    + split; [done|]. unfold contents. cbn [set_slot set_dequeue_pos enqueue_pos dequeue_pos].
      replace (E - (D + 1)) with (E - D - 1) by lia. apply list_fmap_ext. intros i p Hlk.
      apply list_elem_of_lookup_2 in Hlk. apply elem_of_seqz in Hlk. rewrite (slot_set cap Hcap) by done.
      rewrite (proj2 (Z.eqb_neq (D mod cap) (p mod cap))); [done|]. intros Hm.
      assert (D = p) by (apply (cong_near cap Hcap); [done|lia]). lia.
Qed.

End solo.

(** ** Properties *)

Lemma reachable_cap cap s : reachable cap s -> is_power_of_two_size cap = true.
Proof.
  induction 1 as [r n Hr | ]; [|done]. unfold ring_buffer_mpmc_create in Hr.
  by destruct (is_power_of_two_size cap).
Qed.

Lemma enqs_at cap s p v : inv cap s -> (p, v) ∈ enqs (trace s) -> (enqs (trace s)).*2 !! Z.to_nat p = Some v.
Proof.
  intros Hi [i Hlk]%list_elem_of_lookup. pose proof (i_enq cap s Hi) as He.
  assert (seqz 0 (enqueue_pos (ring s)) !! i = Some p) as Hp by (rewrite <- He, list_lookup_fmap, Hlk; done).
  pose proof (lookup_lt_Some _ _ _ Hp) as Hlt. rewrite length_seqz in Hlt. rewrite lookup_seqz in Hp by lia.
  injection Hp as <-. rewrite Z.add_0_l, Nat2Z.id, list_lookup_fmap, Hlk. done.
Qed.

Lemma deqs_length cap s : inv cap s -> Z.of_nat (length (deqs (trace s))) = dequeue_pos (ring s).
Proof. intros Hi. pose proof (i_pos cap s Hi). rewrite (i_deq cap s Hi), length_seqz. lia. Qed.

Lemma contents_trace cap s : is_power_of_two_size cap = true -> inv cap s -> idle s ->
  contents (ring s) = drop (length (deqs (trace s))) (enqs (trace s)).*2.
Proof.
  intros Hcap Hi Hid. pose proof (i_pos cap s Hi) as Hp. pose proof (deqs_length cap s Hi) as HD.
  pose proof (enqueue_pos_eq cap s Hi) as HE. apply list_eq_same_length with (length (contents (ring s))); [|done|].
  - rewrite length_drop, length_fmap. pose proof (length_contents cap s Hi). lia.
  - intros i x y Hi' Hx Hy. rewrite lookup_drop in Hy. unfold contents in Hx, Hi'. rewrite length_fmap, length_seqz in Hi'.
    rewrite list_lookup_fmap, lookup_seqz in Hx by lia. injection Hx as <-.
    destruct (filled_slot cap s Hcap Hi Hid (dequeue_pos (ring s) + Z.of_nat i)) as [_ Hv]; [lia|].
    apply (enqs_at cap s _ _ Hi) in Hv. rewrite <- HD in Hv at 1.
    replace (Z.to_nat (Z.of_nat (length (deqs (trace s))) + Z.of_nat i)) with (length (deqs (trace s)) + i)%nat in Hv by lia.
    congruence.
Qed.

Lemma owned_seq cap s t p q : inv cap s -> threads s !! t = Some p ->
  (producing p = Some q -> sequence (slot (ring s) q) = q) /\ (consuming p = Some q -> sequence (slot (ring s) q) = q + 1).
Proof.
  intros Hi H. pose proof (i_threads cap s Hi t p H) as Hok.
  split; intros E; destruct p; try done; injection E as ->; by destruct Hok as (_ & -> & _).
Qed.

(** C16: The ring is a FIFO queue under every interleaving of any number of
    producers and consumers, as long as fewer than about [2^63] elements are
    enqueued.  Producers and consumers take the positions 0, 1, 2, ... in this
    order, consumers never overtake producers and producers are at most
    [capacity] ahead; a dequeue that took position [i] returns the [i]-th
    element enqueued, no position is returned twice, and when no operation is
    under way every position taken by a consumer has been returned. *)
Theorem mpmc_ring_fifo cap s (Hreach : reachable cap s) (Hb : bounded cap s) :
  (enqs (trace s)).*1 = seqz 0 (Z.of_nat (length (enqs (trace s)))) /\
  deqs (trace s) = seqz 0 (Z.of_nat (length (deqs (trace s)))) /\
  Z.of_nat (length (deqs (trace s))) <= Z.of_nat (length (enqs (trace s))) <= Z.of_nat (length (deqs (trace s))) + cap /\
  NoDup (returned (trace s)).*1 /\
  (forall pos v, (pos, v) ∈ returned (trace s) ->
     (enqs (trace s)).*2 !! Z.to_nat pos = Some v /\ pos ∈ deqs (trace s)) /\
  (idle s -> (returned (trace s)).*1 ≡ₚ deqs (trace s)).
Proof.
  pose proof (reachable_ring_inv cap (reachable_cap cap s Hreach) s Hreach Hb) as Hi.
  pose proof (i_ret cap s Hi) as Hret. rewrite (deqs_length cap s Hi), <- (enqueue_pos_eq cap s Hi).
  split; [apply Hi|]. split; [apply Hi|]. split; [pose proof (i_pos cap s Hi); lia|]. split.
  { eapply NoDup_app with (k := omap consuming (threads s)). rewrite Hret. apply NoDup_seqz. }
  split.
  - intros pos v Hv. split; [by eapply enqs_at, (i_val cap s Hi)|]. rewrite (i_deq cap s Hi), <- Hret. apply elem_of_app.
    left. by apply (list_elem_of_fmap_2 fst) in Hv.
  - intros Hid. by rewrite (i_deq cap s Hi), <- Hret, (idle_owners s), app_nil_r.
Qed.

(** C17: No two threads ever own the same slot: from the moment a producer or
    consumer has taken a position until it has updated the sequence number,
    every other producer or consumer in that stage works on another slot, so
    the plain accesses to [value] never race. *)
Theorem mpmc_slots_race_free cap s t t' p p' q q' (Hreach : reachable cap s) (Hb : bounded cap s)
    (Ht : threads s !! t = Some p) (Ht' : threads s !! t' = Some p') (Hne : t <> t')
    (Hq : producing p = Some q \/ consuming p = Some q) (Hq' : producing p' = Some q' \/ consuming p' = Some q') :
  idx (ring s) q <> idx (ring s) q'.
Proof.
  pose proof (reachable_cap cap s Hreach) as Hcap. pose proof (reachable_ring_inv cap Hcap s Hreach Hb) as Hi.
  pose proof (i_ring cap s Hi) as Hr. pose proof (cap_ge cap Hcap) as Hc.
  rewrite !(idx_eq cap Hcap) by done. intros E.
  pose proof (Z.mod_pos_bound q cap ltac:(lia)). pose proof (Z.mod_pos_bound q' cap ltac:(lia)).
  assert (q mod cap = q' mod cap) as Hm by lia. pose proof (slot_cong cap Hcap (ring s) q q' Hr Hm) as Hsl.
  pose proof (cong_succ cap Hcap q q' Hm). pose proof (cong_succ cap Hcap q' q (eq_sym Hm)).
  pose proof (owned_seq cap s t p q Hi Ht) as [Hs1 Hs2]. pose proof (owned_seq cap s t' p' q' Hi Ht') as [Hs1' Hs2'].
  rewrite Hsl in Hs1, Hs2. assert (NoDup (omap producing (threads s)) /\ NoDup (omap consuming (threads s))) as [Hp Hco].
  { split; eapply NoDup_app; [rewrite (i_pub cap s Hi)|rewrite (i_ret cap s Hi)]; apply NoDup_seqz. }
  destruct Hq as [Hq | Hq], Hq' as [Hq' | Hq'].
  - specialize (Hs1 Hq). specialize (Hs1' Hq'). assert (q = q') as -> by lia. by apply Hne, (owner_unique producing (threads s) _ _ p p' q').
  - specialize (Hs1 Hq). specialize (Hs2' Hq'). lia.
  - specialize (Hs2 Hq). specialize (Hs1' Hq'). lia.
  - specialize (Hs2 Hq). specialize (Hs2' Hq'). assert (q = q') as -> by lia. by apply Hne, (owner_unique consuming (threads s) _ _ p p' q').
Qed.

(** A failure is justified.  [try_enqueue] reports a full ring only when
    [capacity] elements are in it or the consumer of the slot it needs has not
    finished; [try_dequeue] reports an empty ring only when no element is in it
    or the producer of the next element has not finished. *)
Lemma mpmc_failure_justified cap s t p p' r' e (Hreach : reachable cap s) (Hb : bounded cap s)
    (Ht : threads s !! t = Some p) (Hstep : thread_step (ring s) p (Run false) = Some (r', p', Some e)) :
  match e with
  | EnqFull pos =>
      length (enqs (trace s)) = (length (deqs (trace s)) + Z.to_nat cap)%nat \/ (pos - cap) ∈ omap consuming (threads s)
  | DeqEmpty pos => length (enqs (trace s)) = length (deqs (trace s)) \/ pos ∈ omap producing (threads s)
  | _ => True
  end.
Proof.
  pose proof (reachable_cap cap s Hreach) as Hcap. pose proof (reachable_ring_inv cap Hcap s Hreach Hb) as Hi.
  pose proof (i_pos cap s Hi) as Hpos. pose proof (i_threads cap s Hi t p Ht) as Hok. pose proof (cap_ge cap Hcap) as Hc.
  pose proof (deqs_length cap s Hi) as HD. pose proof (enqueue_pos_eq cap s Hi) as HE.
  destruct p as [|v|v pos|v pos|v pos|v pos| |pos|pos|pos|pos v]; cbn in Hstep; try done;
    try (by injection Hstep as _ _ <-); try (by destruct (_ && _); [injection Hstep as _ _ <-|]).
  - rewrite (enq_diff cap Hcap) in Hstep by done. destruct (Z.eqb_spec (sequence (slot (ring s) pos) - pos) 0); [done|].
    destruct (Z.ltb_spec (sequence (slot (ring s) pos) - pos) 0); [|done]. injection Hstep as _ _ <-. cbn in Hok.
    destruct (i_slots cap s Hi pos ltac:(lia)) as (q & Hm & Hq & Hph). pose proof (cong_succ cap Hcap q pos Hm).
    assert (q < pos -> pos - cap <= q -> q = pos - cap) as Hnear.
    { intros ? ?. destruct (Z.eq_dec q (pos - cap)); [done|]. assert (q = pos) by (apply (cong_near cap Hcap); [done|lia]). lia. }
    destruct Hph as [(Hs & ?) | [(Hs & ? & _) | [(Hs & ? & _) | (Hs & ? & ? & Hin & _)]]]; [lia|left; lia|left; lia|right].
    by rewrite <- Hnear by lia.
  - rewrite (deq_diff cap Hcap) in Hstep by done. destruct (Z.eqb_spec (sequence (slot (ring s) pos) - (pos + 1)) 0); [done|].
    destruct (Z.ltb_spec (sequence (slot (ring s) pos) - (pos + 1)) 0); [|done]. injection Hstep as _ _ <-. cbn in Hok.
    destruct (i_slots cap s Hi pos ltac:(lia)) as (q & Hm & Hq & Hph). pose proof (cong_succ cap Hcap q pos Hm).
    destruct Hph as [(Hs & ?) | [(Hs & ? & Hin) | [(Hs & ? & _) | (Hs & ? & ? & Hin & _)]]]; [left; lia|right|lia|left].
    + by assert (q = pos) as <- by lia.
    + destruct (Z_lt_le_dec (q + cap) (pos + 1)); [lia|]. assert (q = pos) by (apply (cong_near cap Hcap); [done|lia]). lia.
Qed.

(** Without concurrent operations the ring is exactly a bounded queue:
    [try_enqueue] appends the element, or changes nothing when [capacity]
    elements are queued; [try_dequeue] returns and removes the oldest element,
    or changes nothing when there is none; both return after at most five
    accesses.  [ring_buffer_mpmc_count] is the number of elements, and
    [ring_buffer_mpmc_space], which keeps one slot back, wraps around to
    [2^64 - 1] on a full ring. *)
Lemma mpmc_sequential_queue cap s v (Hreach : reachable cap s) (Hb : bounded cap s) (Hid : idle s) :
  contents (ring s) = drop (length (deqs (trace s))) (enqs (trace s)).*2 /\
  (exists r' e, ring_buffer_mpmc_try_enqueue (ring s) v = Some (r', e) /\
     if Z.of_nat (length (contents (ring s))) <? cap
     then e = EnqRet (enqueue_pos (ring s)) /\ contents r' = contents (ring s) ++ [v]
     else e = EnqFull (enqueue_pos (ring s)) /\ r' = ring s) /\
  (exists r' e, ring_buffer_mpmc_try_dequeue (ring s) = Some (r', e) /\
     match contents (ring s) with
     | [] => e = DeqEmpty (dequeue_pos (ring s)) /\ r' = ring s
     | x :: l => e = DeqRet (dequeue_pos (ring s)) x /\ contents r' = l
     end) /\
  ring_buffer_mpmc_count (ring s) = Z.of_nat (length (contents (ring s))) /\
  ring_buffer_mpmc_space (ring s) =
    if Z.of_nat (length (contents (ring s))) =? cap then 18446744073709551615
    else cap - 1 - Z.of_nat (length (contents (ring s))).
Proof.
  pose proof (reachable_cap cap s Hreach) as Hcap. pose proof (reachable_ring_inv cap Hcap s Hreach Hb) as Hi.
  pose proof (i_pos cap s Hi) as Hpos. pose proof (bounded_pos cap s Hi Hb) as Hbp. pose proof (length_contents cap s Hi) as Hl.
  assert (ring_buffer_mpmc_count (ring s) = Z.of_nat (length (contents (ring s)))) as Hcnt.
  { unfold ring_buffer_mpmc_count. rewrite u64_id by lia. lia. }
  split; [by apply (contents_trace cap)|]. split; [by apply enqueue_alone|]. split; [by apply (dequeue_alone cap)|].
  split; [done|]. unfold ring_buffer_mpmc_space. rewrite Hcnt, (rw_cap cap _ (i_ring cap s Hi)).
  destruct (Z.eqb_spec (Z.of_nat (length (contents (ring s)))) cap) as [-> | Hne].
  - replace (cap - 1 - cap) with (-1) by lia. reflexivity.
  - apply u64_id. lia.
Qed.

(** ** Witnesses *)

(** A schedule: which thread takes the next step, and how. *)
Fixpoint run (s : sys) (cs : list (nat * choice)) : option sys :=
  match cs with
  | [] => Some s
  | (t, c) :: cs =>
      match threads s !! t with
      | Some p =>
          match thread_step (ring s) p c with
          | Some (r', p', e) => run (mk_sys r' (<[t := p']> (threads s)) (trace s ++ option_list e)) cs
          | None => None
          end
      | None => None
      end
  end.

Lemma run_reachable cap cs s s' : reachable cap s -> run s cs = Some s' -> reachable cap s'.
Proof.
  revert s. induction cs as [|[t c] cs IH]; cbn; intros s Hs H; [by injection H as <-|].
  destruct (threads s !! t) as [p|] eqn:Ht; [|done]. destruct (thread_step (ring s) p c) as [[[r' p'] e]|] eqn:Hstep; [|done].
  eapply IH; [|done]. eapply reach_step; [done|]. by econstructor.
Qed.

Definition demo_start : sys := mk_sys (mk_ring [mk_slot 0 0; mk_slot 1 0] 2 1 0 0) [Idle; Idle] [].
Definition steps (t : nat) (n : nat) : list (nat * choice) := replicate n (t, Run false).

Lemma demo_start_reachable : reachable 2 demo_start.
Proof. apply (reach_create 2 _ 2). reflexivity. Qed.

(** 7 is queued, thread 0 fills the second slot with 8 while thread 1 empties
    the first one. *)
Definition demo_busy : sys :=
  mk_sys (mk_ring [mk_slot 1 7; mk_slot 1 0] 2 1 2 1) [EnqWrite 8 1; DeqRead 0] [Enq 0 7; EnqRet 0; Enq 1 8; Deq 0].

Lemma demo_busy_reachable : reachable 2 demo_busy.
Proof.
  apply (run_reachable 2 ([(0%nat, StartEnq 7)] ++ steps 0 5 ++ [(0%nat, StartEnq 8)] ++ steps 0 3 ++ [(1%nat, StartDeq)] ++ steps 1 3) demo_start);
    [apply demo_start_reachable|reflexivity].
Qed.

(** 7 and 8 are queued and thread 0 tries to enqueue 9. *)
Definition demo_full : sys :=
  mk_sys (mk_ring [mk_slot 1 7; mk_slot 2 8] 2 1 2 0) [EnqSeq 9 2; Idle] [Enq 0 7; EnqRet 0; Enq 1 8; EnqRet 1].

Lemma demo_full_reachable : reachable 2 demo_full.
Proof.
  apply (run_reachable 2 ([(0%nat, StartEnq 7)] ++ steps 0 5 ++ [(0%nat, StartEnq 8)] ++ steps 0 5 ++ [(0%nat, StartEnq 9)] ++ steps 0 1) demo_start);
    [apply demo_start_reachable|reflexivity].
Qed.

(** 7 was dequeued and 8 is queued. *)
Definition demo_idle : sys :=
  mk_sys (mk_ring [mk_slot 2 7; mk_slot 2 8] 2 1 2 1) [Idle; Idle] [Enq 0 7; EnqRet 0; Enq 1 8; EnqRet 1; Deq 0; DeqRet 0 7].

Lemma demo_idle_reachable : reachable 2 demo_idle.
Proof.
  apply (run_reachable 2 ([(0%nat, StartEnq 7)] ++ steps 0 5 ++ [(0%nat, StartEnq 8)] ++ steps 0 5 ++ [(1%nat, StartDeq)] ++ steps 1 5) demo_start);
    [apply demo_start_reachable|reflexivity].
Qed.

Lemma mpmc_ring_fifo_witness :
  (enqs (trace demo_idle)).*2 !! 0%nat = Some 7 /\ (returned (trace demo_idle)).*1 ≡ₚ deqs (trace demo_idle).
Proof.
  destruct (mpmc_ring_fifo 2 demo_idle demo_idle_reachable eq_refl) as (_ & _ & _ & _ & H1 & H2).
  split; [apply (H1 0 7); vm_compute; left|]. apply H2. repeat constructor.
Defined.

Lemma mpmc_slots_race_free_witness : idx (ring demo_busy) 1 <> idx (ring demo_busy) 0.
Proof.
  apply (mpmc_slots_race_free 2 demo_busy 0 1 (EnqWrite 8 1) (DeqRead 0) 1 0);
    [exact demo_busy_reachable|reflexivity|reflexivity|reflexivity|discriminate|by left|by right].
Defined.

