(* ===== verification/Slab.v ===== *)
(** * The lock-free slab allocator

    [devfs/src/common/oxb_slab.c], the allocator of range nodes in the daemon.
    Free objects form a list through their first words; its head is a pointer
    with a version that a compare-and-swap of 128 bits replaces.  Threads
    interleave at every access to shared memory, under sequential consistency;
    versions are [size_t] and wrap. *)

From stdpp Require Import base list gmap.
From S2P Require Import Prelude.

(** ** Data *)

Record oxb_free_list_head := mk_head { h_obj : Z; h_version : Z }.

(** The allocator; [slabs] holds the entries of the array that are in use,
    [lock] the thread that holds the mutex, and [next] the first word of each
    object of the slabs. *)
Record oxb_slab := mk_slab {
  obj_size : Z;
  objs_per_slab : Z;
  slab_size : Z;
  slabs : list Z;
  slabs_capacity : Z;
  free_list : oxb_free_list_head;
  lock : option nat;
  next : gmap Z Z
}.

Definition INITIAL_SLAB_COUNT : Z := 8192.
Definition DEFAULT_ALIGNMENT : Z := 8.
Definition MAX_SLAB_SIZE : Z := 4096.
Definition MIN_OBJECTS_PER_SLAB : Z := 1.

Definition set_free_list (s : oxb_slab) (h : oxb_free_list_head) : oxb_slab :=
  mk_slab (obj_size s) (objs_per_slab s) (slab_size s) (slabs s) (slabs_capacity s) h (lock s) (next s).
Definition set_lock (s : oxb_slab) (l : option nat) : oxb_slab :=
  mk_slab (obj_size s) (objs_per_slab s) (slab_size s) (slabs s) (slabs_capacity s) (free_list s) l (next s).
Definition set_next (s : oxb_slab) (obj v : Z) : oxb_slab :=
  mk_slab (obj_size s) (objs_per_slab s) (slab_size s) (slabs s) (slabs_capacity s) (free_list s) (lock s) (<[obj := v]> (next s)).

(** ** Memory *)

(** Addresses of the objects of the slab at [a]. *)
Definition objs_of (s : oxb_slab) (a : Z) : list Z := (fun j => a + j * obj_size s) <$> seqz 0 (objs_per_slab s).

(** All objects. *)
Definition objects (s : oxb_slab) : list Z := concat (objs_of s <$> slabs s).

(** What [malloc] promises of a slab: it is not null and does not overlap the
    slabs that were allocated before. *)
Definition fresh_block (s : oxb_slab) (a : Z) : bool :=
  (0 <? a) && forallb (fun b => (a + slab_size s <=? b) || (b + slab_size s <=? a)) (slabs s).

(** A new slab is entered into the array; its memory holds anything. *)
Definition add_slab (s : oxb_slab) (a junk cap : Z) : oxb_slab :=
  mk_slab (obj_size s) (objs_per_slab s) (slab_size s) (slabs s ++ [a]) cap (free_list s) (lock s) (foldr (fun o m => <[o := junk]> m) (next s) (objs_of s a)).

(** ** Initialisation *)

Definition align_up (size alignment : Z) : Z := Z.land (u64 (u64 (size + alignment) - 1)) (u64 (Z.lnot (alignment - 1))).

(** Sizes of an object and of a slab, and objects per slab. *)
Definition slab_sizes (size : Z) : Z * Z * Z :=
  let size := if size <? 8 then 8 else size in
  let size := align_up size DEFAULT_ALIGNMENT in
  let bytes := u64 (size * MIN_OBJECTS_PER_SLAB) in
  let bytes := if MAX_SLAB_SIZE <? bytes then MAX_SLAB_SIZE else bytes in
  let n := bytes / size in
  if n =? 0 then (size, size, 1) else (size, bytes, n).

(** An object is put on the list, alone. *)
Definition push (s : oxb_slab) (obj : Z) : oxb_slab :=
  let old_head := free_list s in
  set_free_list (set_next s obj (h_obj old_head)) (mk_head obj (u64 (h_version old_head + 1))).

(** The loop that fills the list with the slabs that [malloc] returns; a
    failure ends it. *)
Fixpoint prefill (s : oxb_slab) (mallocs : list (option Z)) (junk : Z) : oxb_slab :=
  match mallocs with
  | Some new_slab :: mallocs => prefill (foldl push (add_slab s new_slab junk (slabs_capacity s)) (objs_of s new_slab)) mallocs junk
  | _ => s
  end.

(** [oxb_slab_init]; [mtx] and [arr] tell whether the mutex and the array could
    be made, [mallocs] are the addresses of the initial slabs. *)
Definition oxb_slab_init (size : Z) (mtx arr : bool) (mallocs : list (option Z)) (junk : Z) : res (option oxb_slab) :=
  if size =? 0 then Ok None
  else
    let '(size, bytes, n) := slab_sizes size in
    if negb mtx then Ok None
    else if negb arr then Ok None
    else
      let s := prefill (mk_slab size n bytes [] INITIAL_SLAB_COUNT (mk_head 0 0) None ∅) (take (Z.to_nat INITIAL_SLAB_COUNT) mallocs) junk in
      assert! (negb (Z.of_nat (length (slabs s)) <? INITIAL_SLAB_COUNT)) in Ok (Some s).

(** ** Steps of a thread *)

(** The shared access a thread does next, with its locals.  A thread that
    pushes objects has [todo] left, and returns into the allocation if it came
    from there. *)
Inductive pc :=
| Idle
| AllocLoad
| AllocNext (old : oxb_free_list_head)
| AllocCas (old : oxb_free_list_head) (new_obj : Z)
| GrowLock
| GrowCheck
| GrowSlab
| GrowUnlock (objs : list Z)
| PushLoad (obj : Z) (todo : list Z) (in_alloc : bool)
| PushNext (obj : Z) (todo : list Z) (in_alloc : bool) (old : oxb_free_list_head)
| PushCas (obj : Z) (todo : list Z) (in_alloc : bool) (old : oxb_free_list_head)
| Panic
| Crash.

(** What the callers, the scheduler and [malloc] choose: an idle thread starts
    an operation, or writes to an object it has; a weak compare-and-swap may
    fail; [realloc] and [malloc] may fail. *)
Inductive choice :=
| StartAlloc
| StartFree (ptr : Z)
| UserWrite (ptr v : Z)
| Run (spurious : bool)
| Grow (realloc_ok : bool) (malloc : option Z) (junk : Z).

Definition head_eqb (a b : oxb_free_list_head) : bool := (h_obj a =? h_obj b) && (h_version a =? h_version b).

(** Where the loop over the objects of a slab goes on. *)
Definition push_next (todo : list Z) (in_alloc : bool) : pc :=
  match todo with
  | obj :: todo => PushLoad obj todo in_alloc
  | [] => if in_alloc then AllocLoad else Idle
  end.

(** [oxb_slab_alloc]; the result is the object it returns. *)
Definition alloc_step (s : oxb_slab) (p : pc) (spurious : bool) : option (oxb_slab * pc * option Z) :=
  match p with
  | AllocLoad => Some (s, if h_obj (free_list s) =? 0 then GrowLock else AllocNext (free_list s), None)
  | AllocNext old => Some (s, match next s !! h_obj old with Some v => AllocCas old v | None => Crash end, None)
  | AllocCas old v =>
      if head_eqb (free_list s) old && negb spurious
      then Some (set_free_list s (mk_head v (u64 (h_version old + 1))), Idle, Some (h_obj old))
      else Some (s, AllocLoad, None)
  | _ => None
  end.

(** The push of [oxb_slab_free] and of the loop of [oxb_slab_grow]. *)
Definition push_step (s : oxb_slab) (p : pc) (spurious : bool) : option (oxb_slab * pc * option Z) :=
  match p with
  | PushLoad obj todo k => Some (s, PushNext obj todo k (free_list s), None)
  | PushNext obj todo k old =>
      match next s !! obj with
      | Some _ => Some (set_next s obj (h_obj old), PushCas obj todo k old, None)
      | None => Some (s, Crash, None)
      end
  | PushCas obj todo k old =>
      if head_eqb (free_list s) old && negb spurious
      then Some (set_free_list s (mk_head obj (u64 (h_version old + 1))), push_next todo k, None)
      else Some (s, PushLoad obj todo k, None)
  | _ => None
  end.

(** [oxb_slab_grow] up to the loop, by thread [t]. *)
Definition grow_step (t : nat) (s : oxb_slab) (p : pc) : option (oxb_slab * pc * option Z) :=
  match p with
  | GrowLock => match lock s with None => Some (set_lock s (Some t), GrowCheck, None) | Some _ => None end
  | GrowCheck => Some (if h_obj (free_list s) =? 0 then (s, GrowSlab, None) else (set_lock s None, AllocLoad, None))
  | GrowUnlock objs => Some (set_lock s None, push_next objs true, None)
  | _ => None
  end.

(** The part of [oxb_slab_grow] under the lock; a failure is a panic of the
    allocation. *)
Definition grow_slab (s : oxb_slab) (realloc_ok : bool) (malloc : option Z) (junk : Z) : option (oxb_slab * pc * option Z) :=
  let full := slabs_capacity s <=? Z.of_nat (length (slabs s)) in
  let cap := if full then u64 (slabs_capacity s * 2) else slabs_capacity s in
  if full && negb realloc_ok then Some (set_lock s None, Panic, None)
  else
    match malloc with
    | None => Some (set_lock (mk_slab (obj_size s) (objs_per_slab s) (slab_size s) (slabs s) cap (free_list s) (lock s) (next s)) None, Panic, None)
    | Some a => if fresh_block s a then Some (add_slab s a junk cap, GrowUnlock (objs_of s a), None) else None
    end.

Definition run_step (t : nat) (s : oxb_slab) (p : pc) (spurious : bool) : option (oxb_slab * pc * option Z) :=
  match alloc_step s p spurious with
  | Some x => Some x
  | None => match push_step s p spurious with Some x => Some x | None => grow_step t s p end
  end.

(** ** The system of threads *)

(** The objects in [owned] are those that callers have. *)
Record sys := mk_sys { slab : oxb_slab; threads : list pc; owned : list Z }.

(** A caller gives an object away. *)
Fixpoint remove_one (x : Z) (l : list Z) : option (list Z) :=
  match l with
  | [] => None
  | y :: l => if y =? x then Some l else match remove_one x l with Some l => Some (y :: l) | None => None end
  end.

Definition sys_step (s : sys) (t : nat) (c : choice) : option sys :=
  let set p sl o := Some (mk_sys sl (<[t := p]> (threads s)) o) in
  match threads s !! t with
  | None => None
  | Some p =>
      match p, c with
      | Idle, StartAlloc => set AllocLoad (slab s) (owned s)
      | Idle, StartFree ptr => match remove_one ptr (owned s) with Some o => set (PushLoad ptr [] false) (slab s) o | None => None end
      | Idle, UserWrite ptr v => if bool_decide (ptr ∈ owned s) then set Idle (set_next (slab s) ptr v) (owned s) else None
      | GrowSlab, Grow r m junk => match grow_slab (slab s) r m junk with Some (sl, p, _) => set p sl (owned s) | None => None end
      | _, Run spurious =>
          match run_step t (slab s) p spurious with
          | Some (sl, p, r) => set p sl (match r with Some obj => obj :: owned s | None => owned s end)
          | None => None
          end
      | _, _ => None
      end
  end.

(** [n] steps from the initialised allocator, with any number of threads. *)
Inductive reach (sl : oxb_slab) (nthreads : nat) : nat -> sys -> Prop :=
| reach_init : reach sl nthreads 0 (mk_sys sl (replicate nthreads Idle) [])
| reach_step n s t c s' : reach sl nthreads n s -> sys_step s t c = Some s' -> reach sl nthreads (S n) s'.

(** ** The invariant *)

(** Objects a thread has in its hands to push. *)
Definition hand (p : pc) : list Z :=
  match p with
  | GrowUnlock objs => objs
  | PushLoad obj todo _ | PushNext obj todo _ _ | PushCas obj todo _ _ => obj :: todo
  | _ => []
  end.

Definition hands (ts : list pc) : list Z := concat (hand <$> ts).

(** The list in memory from [o] on. *)
Fixpoint chain (m : gmap Z Z) (o : Z) (l : list Z) : Prop :=
  match l with
  | [] => o = 0
  | x :: l => o = x /\ exists v, m !! x = Some v /\ chain m v l
  end.

Notation version s := (h_version (free_list s)).

(** A head that was read: it is out of date, or still the head. *)
Definition seen (s : oxb_slab) (old : oxb_free_list_head) : Prop := h_version old <= version s /\ (h_version old = version s -> old = free_list s).

Definition thread_ok (s : oxb_slab) (p : pc) : Prop :=
  match p with
  | AllocNext old => seen s old /\ h_obj old ∈ objects s
  | AllocCas old v => seen s old /\ h_obj old ∈ objects s /\ (h_version old = version s -> next s !! h_obj old = Some v)
  | PushNext _ _ _ old => seen s old
  | PushCas obj _ _ old => seen s old /\ next s !! obj = Some (h_obj old)
  | Crash => False
  | _ => True
  end.

(** The thread is between lock and unlock. *)
Definition in_lock (p : pc) : bool := match p with GrowCheck | GrowSlab | GrowUnlock _ => true | _ => false end.

(** Sizes, the array of slabs, and the memory of the objects. *)
Record slab_ok (n : Z) (s : oxb_slab) : Prop := {
  ok_size : 0 < obj_size s /\ 0 <= objs_per_slab s /\ objs_per_slab s * obj_size s <= slab_size s;
  ok_array : INITIAL_SLAB_COUNT <= slabs_capacity s /\ Z.of_nat (length (slabs s)) <= slabs_capacity s <= Z.max INITIAL_SLAB_COUNT (2 * Z.of_nat (length (slabs s))) /\ Z.of_nat (length (slabs s)) <= n;
  ok_version : 0 <= version s <= n;
  ok_nodup : NoDup (objects s);
  ok_pos : Forall (fun x => 0 < x) (objects s);
  ok_mem : Forall (fun x => is_Some (next s !! x)) (objects s)
}.

(** Every object is in the list, with a caller, or in the hands of a thread. *)
Definition placed (s : sys) (l : list Z) : Prop := chain (next (slab s)) (h_obj (free_list (slab s))) l /\ l ++ owned s ++ hands (threads s) ≡ₚ objects (slab s).

Record inv (n : Z) (s : sys) : Prop := {
  i_slab : slab_ok n (slab s);
  i_placed : exists l, placed s l;
  i_threads : Forall (thread_ok (slab s)) (threads s);
  i_lock : forall t p, threads s !! t = Some p -> in_lock p = true -> lock (slab s) = Some t
}.

(** ** Lists *)

Lemma chain_frame m m' o l : (forall x, x ∈ l -> m' !! x = m !! x) -> chain m o l -> chain m' o l.
Proof.
  revert o. induction l as [|x l IH]; intros o Hm; [done|]. intros (-> & v & E & Hc). split; [done|]. exists v. rewrite Hm by set_solver. split; [done|]. apply IH; [|done]. intros y Hy. apply Hm. set_solver.
Qed.

Lemma hands_insert ts t p p' : ts !! t = Some p -> exists R, hands ts ≡ₚ hand p ++ R /\ hands (<[t := p']> ts) ≡ₚ hand p' ++ R /\ forall u q, u <> t -> ts !! u = Some q -> hand q ⊆ R.
Proof.
  intros Et. pose proof (lookup_lt_Some _ _ _ Et) as Hl. exists (hands (take t ts ++ drop (S t) ts)).
  assert (forall q, hands (take t ts ++ q :: drop (S t) ts) ≡ₚ hand q ++ hands (take t ts ++ drop (S t) ts)) as Hp.
  { intros q. unfold hands. rewrite !fmap_app, fmap_cons, !concat_app. cbn [concat]. rewrite !app_assoc. apply Permutation_app_tail, Permutation_app_comm. }
  split_and!.
  - rewrite <- (take_drop_middle ts t p Et) at 1. apply Hp.
  - rewrite insert_take_drop by done. apply Hp.
  - intros u q Hu Eu x Hx. unfold hands. apply list_elem_of_In, in_concat. exists (hand q). split; [|by apply list_elem_of_In]. apply list_elem_of_In, list_elem_of_fmap. exists q. split; [done|]. apply elem_of_app.
    destruct (decide (u < t)%nat) as [Hlt|Hge]; [left|right]; apply list_elem_of_lookup.
    + exists u. by rewrite lookup_take_lt by lia.
    + exists (u - S t)%nat. rewrite lookup_drop. by replace (S t + (u - S t))%nat with u by lia.
Qed.

Lemma remove_one_perm x l l' : remove_one x l = Some l' -> l ≡ₚ x :: l'.
Proof.
  revert l'. induction l as [|y l IH]; intros l'; [done|]. cbn. destruct (Z.eqb_spec y x) as [->|Hne]; [by intros [= ->]|]. destruct (remove_one x l) as [k|]; [|done]. intros [= <-]. rewrite (IH k) by done. apply perm_swap.
Qed.

Lemma forall_insert {P Q : pc -> Prop} (ts : list pc) t p' : Forall P ts -> (forall u q, u <> t -> ts !! u = Some q -> P q -> Q q) -> Q p' -> Forall Q (<[t := p']> ts).
Proof.
  intros HP HPQ Hp'. apply Forall_lookup. intros u q Hu. destruct (decide (u = t)) as [->|Hne]; [by apply list_lookup_insert_Some in Hu as [(_ & <- & _)|[? _]]|].
  rewrite list_lookup_insert_ne in Hu by done. apply (HPQ u); [done|done|]. by apply (Forall_lookup_1 _ _ _ _ HP Hu).
Qed.

(** ** Parts of a step *)

Lemma slab_ok_mono n n' s : slab_ok n s -> n <= n' -> slab_ok n' s.
Proof. intros [H1 H2 H3 H4 H5 H6] Hn. constructor; [done|lia|lia|done..]. Qed.

Lemma slab_ok_lock n s l : slab_ok n s -> slab_ok n (set_lock s l).
Proof. by intros [H1 H2 H3 H4 H5 H6]. Qed.

Definition max_steps : Z := 4611686018427387904.

Lemma slab_ok_head n s o : slab_ok n s -> n + 1 < max_steps -> slab_ok (n + 1) (set_free_list s (mk_head o (u64 (version s + 1)))) /\ u64 (version s + 1) = version s + 1.
Proof.
  unfold max_steps. intros [H1 H2 H3 H4 H5 H6] Hn. assert (u64 (version s + 1) = version s + 1) as E by (apply u64_id; lia). split; [|done]. constructor; [done|cbn; lia|cbn; lia|done..].
Qed.

Lemma slab_ok_next n s x v : slab_ok n s -> slab_ok n (set_next s x v).
Proof.
  intros [H1 H2 H3 H4 H5 H6]. constructor; [done..|]. apply Forall_forall. intros y Hy. rewrite Forall_forall in H6. cbn. destruct (decide (x = y)) as [->|Hne]; [by rewrite lookup_insert_eq|]. rewrite lookup_insert_ne by done. by apply H6.
Qed.

Lemma thread_ok_head s q o : thread_ok s q -> u64 (version s + 1) = version s + 1 -> thread_ok (set_free_list s (mk_head o (u64 (version s + 1)))) q.
Proof.
  intros Hq Ev. assert (forall old, seen s old -> seen (set_free_list s (mk_head o (u64 (version s + 1)))) old) as Hs by (intros old [H1 _]; split; cbn; rewrite Ev; lia).
  destruct q; cbn in Hq |- *; try done.
  - destruct Hq as [H1 H2]. by split; [apply Hs|].
  - destruct Hq as (H1 & H2 & H3). split_and!; [by apply Hs|done|]. rewrite Ev. destruct H1 as [H1 _]. lia.
  - by apply Hs.
  - destruct Hq as [H1 H2]. by split; [apply Hs|].
Qed.

Lemma thread_ok_next n s l q x v : slab_ok n s -> chain (next s) (h_obj (free_list s)) l -> x ∉ l -> x ∉ hand q -> thread_ok s q -> thread_ok (set_next s x v) q.
Proof.
  intros Hok Hc Hl Hh. destruct q as [| |old|old w| | | | | |?|obj todo k old| |]; cbn; try done.
  - intros (H1 & H2 & H3). split_and!; [done|done|]. intros Ev. rewrite lookup_insert_ne; [by apply H3|]. intros ->. destruct H1 as [_ H1]. rewrite (H1 Ev) in H2, Hl. pose proof (ok_pos _ _ Hok) as Hp. rewrite Forall_forall in Hp. apply Hp in H2. destruct l as [|y l]; cbn in Hc; [lia|]. destruct Hc as [<- _]. set_solver.
  - intros [H1 H2]. split; [done|]. rewrite lookup_insert_ne; [done|]. intros ->. apply Hh. cbn. set_solver.
Qed.

(** The other threads keep their place; the lock is that of the thread. *)
Lemma inv_step n n' s t p p' sl' o' : inv n s -> n <= n' -> threads s !! t = Some p -> slab_ok n' sl' -> (exists l, placed (mk_sys sl' (<[t := p']> (threads s)) o') l) -> thread_ok sl' p' ->
  (forall u q, u <> t -> threads s !! u = Some q -> thread_ok (slab s) q -> thread_ok sl' q) -> (in_lock p' = true -> lock sl' = Some t) ->
  lock sl' = lock (slab s) \/ in_lock p = true \/ lock (slab s) = None -> inv n' (mk_sys sl' (<[t := p']> (threads s)) o').
Proof.
  intros [Hok Hpl Hth Hlk] Hn Et Hok' Hpl' Hp' Hq Hlp Hl. constructor; cbn; [done|done| |].
  - by apply (forall_insert (P := thread_ok (slab s))).
  - intros u q Eu Hlq. destruct (decide (u = t)) as [->|Hne]; [apply list_lookup_insert_Some in Eu as [(_ & <- & _)|[? _]]; [by apply Hlp|done]|]. rewrite list_lookup_insert_ne in Eu by done.
    pose proof (Hlk u q Eu Hlq) as H1. destruct Hl as [->|[H2|H2]]; [done| |congruence]. pose proof (Hlk t p Et H2). congruence.
Qed.

Lemma thread_ok_lock s l q : thread_ok s q -> thread_ok (set_lock s l) q.
Proof. by destruct q. Qed.

(** A step of a thread that changes at most the lock. *)
Lemma inv_lock_only n s t p p' lk : inv n s -> threads s !! t = Some p -> hand p' = hand p -> thread_ok (slab s) p' -> (in_lock p' = true -> lk = Some t) ->
  lk = lock (slab s) \/ in_lock p = true \/ lock (slab s) = None -> inv (n + 1) (mk_sys (set_lock (slab s) lk) (<[t := p']> (threads s)) (owned s)).
Proof.
  intros Hi Et Hh Hp' Hlp Hl. apply (inv_step n _ s t p); [done|lia|done| | |by apply thread_ok_lock|intros; by apply thread_ok_lock|done|done].
  - apply slab_ok_lock. apply (slab_ok_mono n); [apply Hi|lia].
  - destruct (i_placed _ _ Hi) as (l & Hc & Hp). exists l. split; [done|]. cbn. destruct (hands_insert (threads s) t p p' Et) as (R & H1 & H2 & _). rewrite H2, Hh, <- H1. done.
Qed.

Lemma set_lock_id s : set_lock s (lock s) = s.
Proof. by destruct s. Qed.

Lemma inv_quiet n s t p p' : inv n s -> threads s !! t = Some p -> hand p' = hand p -> thread_ok (slab s) p' -> (in_lock p' = true -> in_lock p = true) -> inv (n + 1) (mk_sys (slab s) (<[t := p']> (threads s)) (owned s)).
Proof.
  intros Hi Et Hh Hp' Hl. rewrite <- (set_lock_id (slab s)). apply (inv_lock_only n s t p); [done..| |by left]. intros H. apply (i_lock _ _ Hi t p Et), Hl, H.
Qed.

(** ** Steps of the list *)

Lemma head_eqb_true a b : head_eqb a b = true -> a = b.
Proof. unfold head_eqb. intros [H1%Z.eqb_eq H2%Z.eqb_eq]%andb_true_iff. destruct a, b. by f_equal. Qed.

Lemma pop_ok n s t old v : inv n s -> n + 1 < max_steps -> threads s !! t = Some (AllocCas old v) -> free_list (slab s) = old ->
  inv (n + 1) (mk_sys (set_free_list (slab s) (mk_head v (u64 (h_version old + 1)))) (<[t := Idle]> (threads s)) (h_obj old :: owned s)).
Proof.
  intros Hi Hn Et <-. pose proof (Forall_lookup_1 _ _ _ _ (i_threads _ _ Hi) Et) as (_ & Hin & Hv). specialize (Hv eq_refl). destruct (slab_ok_head n (slab s) v (i_slab _ _ Hi) Hn) as [Hok Ev].
  apply (inv_step n _ s t (AllocCas (free_list (slab s)) v)); [done|lia|done|done| |done| |done|by left].
  - destruct (i_placed _ _ Hi) as (l & Hc & Hp). pose proof (ok_pos _ _ (i_slab _ _ Hi)) as Hpos. rewrite Forall_forall in Hpos. apply Hpos in Hin. destruct l as [|x l]; cbn in Hc; [lia|]. destruct Hc as (Ex & w & Ew & Hc).
    exists l. split; [cbn; congruence|]. cbn. rewrite Ex. destruct (hands_insert (threads s) t _ Idle Et) as (R & H1 & H2 & _). rewrite H2. cbn [hand app]. rewrite <- Permutation_middle. cbn [app] in Hp. change (objects (set_free_list _ _)) with (objects (slab s)). rewrite <- Hp, H1. done.
  - intros u q _ _ Hq. by apply thread_ok_head.
Qed.

Lemma push_ok n s t obj todo k old : inv n s -> n + 1 < max_steps -> threads s !! t = Some (PushCas obj todo k old) -> free_list (slab s) = old ->
  inv (n + 1) (mk_sys (set_free_list (slab s) (mk_head obj (u64 (h_version old + 1)))) (<[t := push_next todo k]> (threads s)) (owned s)).
Proof.
  intros Hi Hn Et <-. pose proof (Forall_lookup_1 _ _ _ _ (i_threads _ _ Hi) Et) as (_ & Hv). destruct (slab_ok_head n (slab s) obj (i_slab _ _ Hi) Hn) as [Hok Ev].
  assert (hand (push_next todo k) = todo) as Hh by (by destruct todo, k). assert (in_lock (push_next todo k) = false) as Hnl by (by destruct todo, k).
  apply (inv_step n _ s t (PushCas obj todo k (free_list (slab s)))); [done|lia|done|done| |by destruct todo, k| |by rewrite Hnl|by left].
  - destruct (i_placed _ _ Hi) as (l & Hc & Hp). exists (obj :: l). split; [split; [done|]; by exists (h_obj (free_list (slab s)))|]. cbn. destruct (hands_insert (threads s) t _ (push_next todo k) Et) as (R & H1 & H2 & _).
    change (objects (set_free_list _ _)) with (objects (slab s)). rewrite <- Hp, H1, H2, Hh. cbn [hand app]. rewrite (app_assoc l (owned s) (obj :: _)), <- (Permutation_middle (l ++ owned s)), <- app_assoc. done.
  - intros u q _ _ Hq. by apply thread_ok_head.
Qed.

Lemma placed_nodup n s l : inv n s -> placed s l -> NoDup (l ++ owned s ++ hands (threads s)).
Proof. intros Hi [_ Hp]. rewrite Hp. apply (ok_nodup _ _ (i_slab _ _ Hi)). Qed.

Lemma placed_in n s l x : inv n s -> placed s l -> x ∈ l ++ owned s ++ hands (threads s) -> is_Some (next (slab s) !! x).
Proof. intros Hi [_ Hp] Hx. rewrite Hp in Hx. pose proof (ok_mem _ _ (i_slab _ _ Hi)) as H. rewrite Forall_forall in H. by apply H. Qed.

(** A word of an object that is not in the list is written. *)
Lemma write_ok n s t p p' x v : inv n s -> threads s !! t = Some p -> hand p' = hand p -> (forall l, placed s l -> x ∉ l /\ forall u q, u <> t -> threads s !! u = Some q -> x ∉ hand q) -> thread_ok (set_next (slab s) x v) p' -> in_lock p' = false ->
  inv (n + 1) (mk_sys (set_next (slab s) x v) (<[t := p']> (threads s)) (owned s)).
Proof.
  intros Hi Et Hh Hx Hp' Hl. destruct (i_placed _ _ Hi) as (l & Hc & Hp). destruct (Hx l (conj Hc Hp)) as [Hxl Hxu]. apply (inv_step n _ s t p); [done|lia|done| | |done| |by rewrite Hl|by left].
  - apply slab_ok_next. apply (slab_ok_mono n); [apply Hi|lia].
  - exists l. split.
    + apply (chain_frame (next (slab s))); [|done]. intros y Hy. cbn. rewrite lookup_insert_ne; [done|]. by intros ->.
    + cbn. destruct (hands_insert (threads s) t p p' Et) as (R & H1 & H2 & _). rewrite H2, Hh, <- H1. done.
  - intros u q Hu Eu Hq. apply (thread_ok_next n _ l); [apply Hi|done|done|by apply (Hxu u)|done].
Qed.

Lemma hand_apart n s t p x : inv n s -> threads s !! t = Some p -> x ∈ hand p -> forall l, placed s l -> x ∉ l /\ forall u q, u <> t -> threads s !! u = Some q -> x ∉ hand q.
Proof.
  intros Hi Et Hx l Hl. pose proof (placed_nodup n s l Hi Hl) as Hnd. destruct (hands_insert (threads s) t p p Et) as (R & H1 & _ & H3). rewrite H1 in Hnd.
  apply NoDup_app in Hnd as (_ & Ha & Hb). apply NoDup_app in Hb as (_ & _ & Hb). apply NoDup_app in Hb as (_ & Hb & _). split; [intros H; apply (Ha x H); set_solver|]. intros u q Hu Eu H. apply (Hb x Hx). by apply (H3 u q).
Qed.

Lemma owned_apart n s x : inv n s -> x ∈ owned s -> forall l, placed s l -> x ∉ l /\ x ∉ hands (threads s).
Proof.
  intros Hi Hx l Hl. pose proof (placed_nodup n s l Hi Hl) as Hnd. apply NoDup_app in Hnd as (_ & Ha & Hb). apply NoDup_app in Hb as (_ & Hb & _). split; [intros H; apply (Ha x H); set_solver|by apply Hb].
Qed.

Lemma in_hands ts u q x : ts !! u = Some q -> x ∈ hand q -> x ∈ hands ts.
Proof. intros Eu Hx. destruct (hands_insert ts u q q Eu) as (R & H1 & _). rewrite H1. set_solver. Qed.

Lemma in_hand_object n s t p x : inv n s -> threads s !! t = Some p -> x ∈ hand p -> is_Some (next (slab s) !! x).
Proof. intros Hi Et Hx. destruct (i_placed _ _ Hi) as [l Hl]. apply (placed_in n s l); [done|done|]. pose proof (in_hands _ _ _ _ Et Hx). set_solver. Qed.

(** ** New slabs *)

Lemma objs_of_range s a x : 0 < obj_size s -> objs_per_slab s * obj_size s <= slab_size s -> x ∈ objs_of s a -> a <= x < a + slab_size s.
Proof. intros Hs Hn (j & -> & [H1 H2]%elem_of_seqz)%list_elem_of_fmap. nia. Qed.

Lemma objs_of_nodup s a : 0 < obj_size s -> NoDup (objs_of s a).
Proof. intros Hs. apply NoDup_fmap_2_strong; [|apply NoDup_seqz]. intros i j _ _ E. nia. Qed.

Lemma junk_lookup (m : gmap Z Z) l junk x : foldr (fun o m => <[o := junk]> m) m l !! x = if bool_decide (x ∈ l) then Some junk else m !! x.
Proof.
  induction l as [|y l IH]; [done|]. cbn [foldr]. destruct (decide (y = x)) as [->|Hne]; [rewrite lookup_insert_eq, bool_decide_true by set_solver; done|]. rewrite lookup_insert_ne, IH by done. apply f_equal with (f := fun b : bool => if b then Some junk else m !! x), bool_decide_ext. set_solver.
Qed.

Lemma objects_add s a junk cap : objects (add_slab s a junk cap) = objects s ++ objs_of s a.
Proof. unfold objects, add_slab at 2. cbn [slabs]. rewrite fmap_app, concat_app. cbn. by rewrite app_nil_r. Qed.

Lemma fresh_objs n s a x : slab_ok n s -> fresh_block s a = true -> x ∈ objs_of s a -> 0 < x /\ x ∉ objects s.
Proof.
  intros Hok [Ha%Z.ltb_lt Hf]%andb_true_iff Hx. destruct (ok_size _ _ Hok) as (H1 & H2 & H3). apply objs_of_range in Hx; [|done..]. split; [lia|]. unfold objects. intros (l & Hl & Hxl)%list_elem_of_In%in_concat. apply list_elem_of_In, list_elem_of_fmap in Hl as (b & -> & Hb). apply list_elem_of_In in Hxl.
  apply objs_of_range in Hxl; [|done..]. rewrite forallb_forall in Hf. apply list_elem_of_In, Hf, orb_true_iff in Hb as [Hb%Z.leb_le|Hb%Z.leb_le]; lia.
Qed.

Lemma slab_ok_add n s a junk cap : slab_ok n s -> fresh_block s a = true -> INITIAL_SLAB_COUNT <= cap -> Z.of_nat (length (slabs s)) < cap <= Z.max INITIAL_SLAB_COUNT (2 * (Z.of_nat (length (slabs s)) + 1)) -> slab_ok (n + 1) (add_slab s a junk cap).
Proof.
  intros Hok Hf Hini Hcap. pose proof (fun x => fresh_objs n s a x Hok Hf) as Hx. destruct Hok as [H1 H2 H3 H4 H5 H6]. constructor; [done|cbn; rewrite length_app; cbn; lia|cbn; lia|..]; rewrite objects_add.
  - apply NoDup_app. split_and!; [done| |apply objs_of_nodup; lia]. intros x Hx1 Hx2. by apply Hx in Hx2 as [_ ?].
  - apply Forall_app. split; [done|]. apply Forall_forall. intros x Hx1. by apply Hx.
  - apply Forall_app. cbn. split; apply Forall_forall; intros x Hx1; rewrite junk_lookup; case_bool_decide; try done. rewrite Forall_forall in H6. by apply H6.
Qed.

Lemma add_ok n s t a junk cap : inv n s -> threads s !! t = Some GrowSlab -> fresh_block (slab s) a = true -> INITIAL_SLAB_COUNT <= cap -> Z.of_nat (length (slabs (slab s))) < cap <= Z.max INITIAL_SLAB_COUNT (2 * (Z.of_nat (length (slabs (slab s))) + 1)) ->
  inv (n + 1) (mk_sys (add_slab (slab s) a junk cap) (<[t := GrowUnlock (objs_of (slab s) a)]> (threads s)) (owned s)).
Proof.
  intros Hi Et Hf Hini Hcap. pose proof (fun x => fresh_objs n (slab s) a x (i_slab _ _ Hi) Hf) as Hx.
  assert (forall x, x ∈ objects (slab s) -> next (add_slab (slab s) a junk cap) !! x = next (slab s) !! x) as Hold. { intros x Hx1. cbn. rewrite junk_lookup, bool_decide_false; [done|]. intros Hx2. by apply Hx in Hx2 as [_ ?]. }
  destruct (i_placed _ _ Hi) as (l & Hc & Hp). apply (inv_step n _ s t GrowSlab); [done|lia|done|apply slab_ok_add; [apply Hi|done..]| |done| |intros _; by apply (i_lock _ _ Hi t GrowSlab)|by left].
  - exists l. split; [apply (chain_frame (next (slab s))); [|done]; intros x Hxl; apply Hold; rewrite <- Hp; set_solver|]. cbn [slab threads owned]. destruct (hands_insert (threads s) t _ (GrowUnlock (objs_of (slab s) a)) Et) as (R & H1 & H2 & _).
    rewrite objects_add, H2, <- Hp, H1. cbn [hand app]. rewrite (Permutation_app_comm (objs_of (slab s) a) R). by rewrite !app_assoc.
  - intros u q Hu Eu Hq. destruct q as [| |old|old w| | | | | |?|obj todo k old| |]; cbn [thread_ok] in Hq |- *; rewrite ?objects_add, ?elem_of_app; try done.
    + destruct Hq as [H1 H2]. by split; [|left].
    + destruct Hq as (H1 & H2 & H3). split_and!; [done|by left|]. intros Ev. rewrite Hold by done. by apply H3.
    + destruct Hq as [H1 H2]. split; [done|]. rewrite Hold; [done|]. rewrite <- Hp. pose proof (in_hands _ _ _ obj Eu). cbn [hand] in *. set_solver.
Qed.

(** ** Every step keeps the invariant *)

Lemma grow_slab_ok n s t r m junk sl p' x : inv n s -> n + 1 < max_steps -> threads s !! t = Some GrowSlab -> grow_slab (slab s) r m junk = Some (sl, p', x) -> inv (n + 1) (mk_sys sl (<[t := p']> (threads s)) (owned s)).
Proof.
  unfold grow_slab, max_steps. intros Hi Hn Et. set (full := _ <=? _). set (cap := if full then _ else _). destruct (ok_array _ _ (i_slab _ _ Hi)) as (Hini & Hcap & Hlen).
  assert (INITIAL_SLAB_COUNT <= cap /\ Z.of_nat (length (slabs (slab s))) < cap <= Z.max INITIAL_SLAB_COUNT (2 * Z.of_nat (length (slabs (slab s))))) as [Hini' Hcap'].
  { unfold cap, full. change INITIAL_SLAB_COUNT with 8192 in *. destruct (Z.leb_spec (slabs_capacity (slab s)) (Z.of_nat (length (slabs (slab s))))); [rewrite u64_id by lia|]; lia. }
  destruct (full && negb r); [intros [= <- <- <-]; apply (inv_lock_only n s t GrowSlab); try done; by right; left|]. destruct m as [a|].
  - destruct (fresh_block (slab s) a) eqn:Ef; [|done].
    intros [= <- <- <-]. apply add_ok; [done|done|done|done|lia].
  - intros [= <- <- <-]. apply (inv_step n _ s t GrowSlab); [done|lia|done| | |done|by intros u []|done|by right; left].
    + destruct (i_slab _ _ Hi) as [H1 H2 H3 H4 H5 H6]. constructor; [done|cbn; lia|cbn; lia|done..].
    + destruct (i_placed _ _ Hi) as (l & Hc & Hp). exists l. split; [done|]. cbn. destruct (hands_insert (threads s) t _ Panic Et) as (R & H1 & H2 & _). rewrite H2, <- H1. done.
Qed.

Lemma alloc_step_ok n s t p b sl p' x : inv n s -> n + 1 < max_steps -> threads s !! t = Some p -> alloc_step (slab s) p b = Some (sl, p', x) -> inv (n + 1) (mk_sys sl (<[t := p']> (threads s)) (match x with Some obj => obj :: owned s | None => owned s end)).
Proof.
  intros Hi Hn Et. pose proof (Forall_lookup_1 _ _ _ _ (i_threads _ _ Hi) Et) as Hok. destruct p as [| |old|old v| | | | | | | | |]; cbn [alloc_step]; try done.
  - intros [= <- <- <-]. destruct (i_placed _ _ Hi) as (l & Hc & Hp). destruct (Z.eqb_spec (h_obj (free_list (slab s))) 0) as [E0|E0]; apply (inv_quiet n s t AllocLoad); try done.
    destruct l as [|y l]; [done|]. cbn in Hc. destruct Hc as [Ey _]. cbn. split; [done|]. rewrite <- Hp, Ey. set_solver.
  - intros [= <- <- <-]. destruct Hok as [H1 H2]. pose proof (ok_mem _ _ (i_slab _ _ Hi)) as Hm. rewrite Forall_forall in Hm. destruct (Hm _ H2) as [v Ev]. rewrite Ev. by apply (inv_quiet n s t (AllocNext old)).
  - destruct (head_eqb (free_list (slab s)) old && negb b) eqn:E; intros [= <- <- <-]; [|by apply (inv_quiet n s t (AllocCas old v))]. apply andb_true_iff in E as [E%head_eqb_true _]. by apply pop_ok.
Qed.

Lemma push_step_ok n s t p b sl p' x : inv n s -> n + 1 < max_steps -> threads s !! t = Some p -> push_step (slab s) p b = Some (sl, p', x) -> x = None /\ inv (n + 1) (mk_sys sl (<[t := p']> (threads s)) (owned s)).
Proof.
  intros Hi Hn Et. pose proof (Forall_lookup_1 _ _ _ _ (i_threads _ _ Hi) Et) as Hok. destruct p as [| | | | | | | |obj todo k|obj todo k old|obj todo k old| |]; cbn [push_step]; try done.
  - intros [= <- <- <-]. split; [done|]. by apply (inv_quiet n s t (PushLoad obj todo k)).
  - destruct (in_hand_object n s t _ obj Hi Et) as [v ->]; [by left|]. intros [= <- <- <-]. split; [done|]. apply (write_ok n s t (PushNext obj todo k old)); [done|done|done| | |done].
    + apply (hand_apart n s t (PushNext obj todo k old)); [done|done|by left].
    + cbn. by rewrite lookup_insert_eq.
  - destruct (head_eqb (free_list (slab s)) old && negb b) eqn:E; intros [= <- <- <-]; (split; [done|]); [|by apply (inv_quiet n s t (PushCas obj todo k old))]. apply andb_true_iff in E as [E%head_eqb_true _]. by apply push_ok.
Qed.

Lemma grow_step_ok n s t p sl p' x : inv n s -> threads s !! t = Some p -> grow_step t (slab s) p = Some (sl, p', x) -> x = None /\ inv (n + 1) (mk_sys sl (<[t := p']> (threads s)) (owned s)).
Proof.
  intros Hi Et. destruct p as [| | | | | | |objs| | | | |]; cbn [grow_step]; try done.
  - destruct (lock (slab s)) eqn:El; [done|]. intros [= <- <- <-]. split; [done|]. apply (inv_lock_only n s t GrowLock); try done. by right; right.
  - destruct (_ =? 0); intros [= <- <- <-]; (split; [done|]); [by apply (inv_quiet n s t GrowCheck)|]. apply (inv_lock_only n s t GrowCheck); try done. by right; left.
  - intros [= <- <- <-]. split; [done|]. apply (inv_lock_only n s t (GrowUnlock objs)); try (by destruct objs). by right; left.
Qed.

Lemma free_start_ok n s t ptr o : inv n s -> threads s !! t = Some Idle -> remove_one ptr (owned s) = Some o -> inv (n + 1) (mk_sys (slab s) (<[t := PushLoad ptr [] false]> (threads s)) o).
Proof.
  intros Hi Et Ho%remove_one_perm. apply (inv_step n _ s t Idle); [done|lia|done|apply (slab_ok_mono n); [apply Hi|lia]| |done|done|done|by left].
  destruct (i_placed _ _ Hi) as (l & Hc & Hp). exists l. split; [done|]. cbn. destruct (hands_insert (threads s) t _ (PushLoad ptr [] false) Et) as (R & H1 & H2 & _). rewrite <- Hp, H1, H2, Ho. cbn [hand app]. by rewrite <- (Permutation_middle o).
Qed.

Lemma slab_step_inv n s t c s' : inv n s -> n + 1 < max_steps -> sys_step s t c = Some s' -> inv (n + 1) s'.
Proof.
  unfold sys_step. intros Hi Hn. destruct (threads s !! t) as [p|] eqn:Et; [|done].
  assert (forall b, match run_step t (slab s) p b with Some (sl, p, r) => Some (mk_sys sl (<[t := p]> (threads s)) (match r with Some obj => obj :: owned s | None => owned s end)) | None => None end = Some s' -> inv (n + 1) s') as Hrun.
  { intros b. unfold run_step. destruct (alloc_step (slab s) p b) as [[[sl p1] r]|] eqn:Ea; [intros [= <-]; by apply (alloc_step_ok n s t p b)|]. destruct (push_step (slab s) p b) as [[[sl p1] r]|] eqn:Ep; [intros [= <-]; by apply (push_step_ok n s t p b) in Ep as [-> ?]|].
    destruct (grow_step t (slab s) p) as [[[sl p1] r]|] eqn:Eg; [|done]. intros [= <-]. by apply (grow_step_ok n s t p) in Eg as [-> ?]. }
  destruct p, c; try done; try (by apply Hrun).
  - intros [= <-]. by apply (inv_quiet n s t Idle).
  - destruct (remove_one ptr (owned s)) as [o|] eqn:Eo; [|done]. intros [= <-]. by apply free_start_ok.
  - case_bool_decide as Hin; [|done]. intros [= <-]. apply (write_ok n s t Idle); try done. intros l Hl. destruct (owned_apart n s ptr Hi Hin l Hl) as [H1 H2]. split; [done|]. intros u q _ Eu Hq. by apply H2, (in_hands _ u q).
  - destruct (grow_slab (slab s) realloc_ok malloc junk) as [[[sl p1] r]|] eqn:Eg; [|done]. intros [= <-]. by apply (grow_slab_ok n s t realloc_ok malloc junk sl p1 r).
Qed.

(** ** Initialisation *)

Lemma align_up_8 size : 0 < size <= 9223372036854775808 -> align_up size DEFAULT_ALIGNMENT = 8 * ((size + 7) / 8).
Proof.
  intros H. unfold align_up, DEFAULT_ALIGNMENT. rewrite (u64_id (size + 8)), u64_id by lia. change (u64 (Z.lnot (8 - 1))) with (Z.land (Z.ones 64) (Z.lnot (Z.ones 3))). rewrite Z.land_assoc, Z.land_ones by lia. rewrite Z.mod_small by lia.
  rewrite <- Z.ldiff_land, Z.ldiff_ones_r, Z.shiftl_mul_pow2, Z.shiftr_div_pow2 by lia. replace (size + 8 - 1) with (size + 7) by lia. change (2 ^ 3) with 8. apply Z.mul_comm.
Qed.

Lemma slab_sizes_ok size : 0 < size <= 9223372036854775808 -> exists bytes, slab_sizes size = (bytes, bytes, 1) /\ size <= bytes /\ bytes mod 8 = 0.
Proof.
  intros H. unfold slab_sizes. set (sz := if size <? 8 then 8 else size). assert (0 < sz <= 9223372036854775808 /\ size <= sz) as [Hsz Hle] by (unfold sz; destruct (Z.ltb_spec size 8); lia). rewrite align_up_8 by done.
  set (b := 8 * ((sz + 7) / 8)). assert (sz <= b < sz + 8 /\ b mod 8 = 0) as [Hb Hb8] by (unfold b; Z.div_mod_to_equations; lia). unfold MIN_OBJECTS_PER_SLAB, MAX_SLAB_SIZE. rewrite Z.mul_1_r, u64_id by lia. exists b. split; [|split; [lia|done]].
  destruct (Z.ltb_spec 4096 b); [|by rewrite Z.div_same by lia]. by rewrite Z.div_small by lia.
Qed.

(** The allocator of one thread, with [todo] still to be pushed. *)
Definition filled (n : Z) (s : oxb_slab) (todo : list Z) : Prop := slab_ok n s /\ lock s = None /\ exists l, chain (next s) (h_obj (free_list s)) l /\ l ++ todo ≡ₚ objects s.

Lemma filled_push n s obj todo : filled n s (obj :: todo) -> n + 1 < max_steps -> filled (n + 1) (push s obj) todo.
Proof.
  intros (Hok & Hl & l & Hc & Hp) Hn. pose proof (ok_nodup _ _ Hok) as Hnd. rewrite <- Hp in Hnd. apply NoDup_app in Hnd as (_ & Hnd & _). assert (obj ∉ l) as Hobj by set_solver.
  unfold push. split_and!; [|done|].
  - change (free_list s) with (free_list (set_next s obj (h_obj (free_list s)))) at 2. by apply slab_ok_head, Hn; apply slab_ok_next.
  - exists (obj :: l). split.
    + split; [done|]. exists (h_obj (free_list s)). cbn. rewrite lookup_insert_eq. split; [done|]. apply (chain_frame (next s)); [|done]. intros x Hx. rewrite lookup_insert_ne; [done|]. by intros ->.
    + change (objects (set_free_list (set_next s obj (h_obj (free_list s))) (mk_head obj (u64 (h_version (free_list s) + 1))))) with (objects s). rewrite <- Hp. cbn. by rewrite <- Permutation_middle.
Qed.

(** The slabs do not overlap. *)
Definition apart (bytes a b : Z) : Prop := a + bytes <= b \/ b + bytes <= a.

Lemma filled_prefill mallocs junk : forall n s, filled n s [] -> objs_per_slab s = 1 -> n + 2 * Z.of_nat (length mallocs) < max_steps -> Z.of_nat (length (slabs s)) + Z.of_nat (length mallocs) <= INITIAL_SLAB_COUNT -> slabs_capacity s = INITIAL_SLAB_COUNT ->
  Forall (fun a => 0 < a) mallocs -> pairwise (apart (slab_size s)) (slabs s ++ mallocs) -> filled (n + 2 * Z.of_nat (length mallocs)) (prefill s (Some <$> mallocs) junk) [] /\ slabs (prefill s (Some <$> mallocs) junk) = slabs s ++ mallocs.
Proof.
  induction mallocs as [|a ms IH]; intros n s Hf H1 Hn Hlen Hcap Hpos Hpw; [cbn; rewrite Z.add_0_r, app_nil_r; done|]. cbn [length fmap list_fmap prefill] in *. apply Forall_cons in Hpos as [Ha Hpos].
  destruct Hf as (Hok & Hl & l & Hc & Hp). rewrite app_nil_r in Hp. set (s1 := add_slab s a junk (slabs_capacity s)). assert (objs_of s a = [a]) as Eo. { unfold objs_of. rewrite H1. change (seqz 0 1) with [0]. cbn [fmap list_fmap]. f_equal. lia. }
  assert (fresh_block s a = true) as Hfr. { apply andb_true_iff. split; [by apply Z.ltb_lt|]. apply forallb_forall. intros b Hb%list_elem_of_In. apply pairwise_app in Hpw as (_ & _ & Hpw). rewrite Forall_forall in Hpw. apply Hpw, Forall_cons in Hb as [Hb _]. apply orb_true_iff. rewrite !Z.leb_le. destruct Hb; [by right|by left]. }
  assert (filled (n + 1) s1 [a]) as Hf1.
  { split_and!; [apply slab_ok_add; [done|done|lia|lia]|done|]. exists l. split; [|unfold s1; rewrite objects_add, Eo, Hp; done]. apply (chain_frame (next s)); [|done]. intros x Hx. cbn. rewrite junk_lookup, bool_decide_false; [done|]. intros Hx2. apply (fresh_objs n s a x Hok Hfr) in Hx2 as [_ Hx2]. apply Hx2. by rewrite <- Hp. }
  rewrite Eo. cbn [foldl]. apply filled_push in Hf1; [|lia]. replace (n + 2 * Z.of_nat (S (length ms))) with (n + 1 + 1 + 2 * Z.of_nat (length ms)) by lia.
  destruct (IH _ _ Hf1) as [H2 H3]; [done|lia|cbn; rewrite length_app; cbn; lia|done|done|cbn; by rewrite <- app_assoc|]. split; [done|]. rewrite H3. cbn. by rewrite <- app_assoc.
Qed.

Lemma push_sizes l : forall s, obj_size (foldl push s l) = obj_size s /\ objs_per_slab (foldl push s l) = objs_per_slab s.
Proof. induction l as [|x l IH]; intros s; [done|]. cbn. by destruct (IH (push s x)). Qed.

Lemma prefill_sizes ms junk : forall s, obj_size (prefill s (Some <$> ms) junk) = obj_size s /\ objs_per_slab (prefill s (Some <$> ms) junk) = objs_per_slab s.
Proof. induction ms as [|a ms IH]; intros s; [done|]. cbn [fmap list_fmap prefill]. destruct (IH (foldl push (add_slab s a junk (slabs_capacity s)) (objs_of s a))) as [-> ->]. apply (push_sizes _ (add_slab s a junk (slabs_capacity s))). Qed.

(** What the callers of [malloc] may rely on. *)
Definition mallocs_ok (size : Z) (mallocs : list Z) : Prop :=
  length mallocs = Z.to_nat INITIAL_SLAB_COUNT /\ Forall (fun a => 0 < a) mallocs /\ pairwise (apart (slab_sizes size).1.2) mallocs.

Lemma slab_init_ok size mallocs junk : 0 < size <= 9223372036854775808 -> mallocs_ok size mallocs ->
  exists sl, oxb_slab_init size true true (Some <$> mallocs) junk = Ok (Some sl) /\ size <= obj_size sl /\ objs_per_slab sl = 1 /\ forall k, inv (2 * INITIAL_SLAB_COUNT) (mk_sys sl (replicate k Idle) []).
Proof.
  intros Hsz (Hlen & Hpos & Hpw). destruct (slab_sizes_ok size Hsz) as (bytes & Es & Hb & _). unfold oxb_slab_init. destruct (Z.eqb_spec size 0) as [|_]; [lia|]. rewrite Es in Hpw |- *. cbn [negb fst snd] in Hpw |- *. rewrite take_ge by (rewrite length_fmap; lia).
  set (s0 := mk_slab bytes 1 bytes [] INITIAL_SLAB_COUNT (mk_head 0 0) None ∅). destruct (filled_prefill mallocs junk 0 s0) as [Hf Hs]; try done.
  - split_and!; [|done|by exists []]. constructor; cbn; [lia|unfold INITIAL_SLAB_COUNT; lia|lia|by apply NoDup_nil|by apply Forall_nil|by apply Forall_nil].
  - rewrite Hlen. done.
  - cbn. rewrite Hlen. done.
  - rewrite Hs. cbn [slabs s0 app]. rewrite Hlen. change (negb (Z.of_nat (Z.to_nat INITIAL_SLAB_COUNT) <? INITIAL_SLAB_COUNT)) with true. eexists. split; [done|].
    destruct (prefill_sizes mallocs junk s0) as [-> ->]. split_and!; [done|done|]. intros k. destruct Hf as (Hok & Hl & l & Hc & Hp). rewrite Hlen in Hok. constructor; cbn [slab threads owned].
    + exact Hok.
    + exists l. split; [done|]. cbn [slab threads owned]. assert (hands (replicate k Idle) = []) as -> by (induction k as [|k IH]; [done|by cbn; rewrite <- IH]). by rewrite app_nil_l.
    + by apply Forall_replicate.
    + intros t p [-> _]%lookup_replicate. done.
Qed.

(** ** Correctness *)

Lemma slab_reach_inv sl k n s : inv (2 * INITIAL_SLAB_COUNT) (mk_sys sl (replicate k Idle) []) -> reach sl k n s -> 2 * INITIAL_SLAB_COUNT + Z.of_nat n < max_steps -> inv (2 * INITIAL_SLAB_COUNT + Z.of_nat n) s.
Proof.
  intros H0 Hr. induction Hr as [|n s t c s' Hr IH Hs]; intros Hn; [by rewrite Z.add_0_r|]. replace (2 * INITIAL_SLAB_COUNT + Z.of_nat (S n)) with (2 * INITIAL_SLAB_COUNT + Z.of_nat n + 1) in * by lia. apply (slab_step_inv _ s t c); [apply IH; lia|done|done].
Qed.

Lemma step_sizes s t c s' : sys_step s t c = Some s' -> objs_per_slab (slab s') = objs_per_slab (slab s).
Proof.
  unfold sys_step, run_step, grow_slab. intros H. repeat (case_match; simplify_eq/=; try done).
  all: unfold alloc_step, push_step, grow_step in *; repeat (case_match; simplify_eq/=; try done).
Qed.

Lemma reach_sizes sl k n s : reach sl k n s -> objs_per_slab (slab s) = objs_per_slab sl.
Proof. induction 1 as [|n s t c s' _ IH Hs]; [done|]. by rewrite (step_sizes s t c s' Hs). Qed.

(** The thread [t] runs alone. *)
Definition run (t : nat) (s : sys) (cs : list choice) : option sys := foldl (fun o c => match o with Some s => sys_step s t c | None => None end) (Some s) cs.

Lemma run_at s t p b sl p' r : threads s !! t = Some p -> run_step t (slab s) p b = Some (sl, p', r) -> sys_step s t (Run b) = Some (mk_sys sl (<[t := p']> (threads s)) (match r with Some obj => obj :: owned s | None => owned s end)).
Proof. intros Et E. unfold sys_step. rewrite Et. destruct p; rewrite E; done. Qed.

Lemma run_cons t s c s1 cs : sys_step s t c = Some s1 -> run t s (c :: cs) = run t s1 cs.
Proof. intros E. unfold run. cbn [foldl]. by rewrite E. Qed.

Lemma grow_at s t r m junk sl p' x : threads s !! t = Some GrowSlab -> grow_slab (slab s) r m junk = Some (sl, p', x) -> sys_step s t (Grow r m junk) = Some (mk_sys sl (<[t := p']> (threads s)) (owned s)).
Proof. intros Et E. unfold sys_step. by rewrite Et, E. Qed.

Lemma grow_slab_fresh s a junk : fresh_block s a = true -> exists cap, grow_slab s true (Some a) junk = Some (add_slab s a junk cap, GrowUnlock (objs_of s a), None).
Proof. intros Hf. unfold grow_slab. rewrite andb_false_r, Hf. by eexists. Qed.

Lemma head_eqb_refl h : head_eqb h h = true.
Proof. unfold head_eqb. by rewrite !Z.eqb_refl. Qed.

(** One step of the thread at a known place. *)
Ltac at_place := cbn [slab threads owned]; first [eassumption|apply list_lookup_insert_eq; rewrite ?length_insert; eassumption].
Ltac run_by tac :=
  erewrite run_cons; [|eapply run_at; [at_place|unfold run_step; cbn [alloc_step push_step grow_step set_next set_lock set_free_list add_slab free_list lock next slab h_obj]; rewrite ?head_eqb_refl; cbn [andb negb]; tac; reflexivity]];
  cbn [slab threads owned push_next].
Ltac run_one := run_by idtac.

Lemma pop_alone n s t : inv n s -> threads s !! t = Some AllocLoad -> h_obj (free_list (slab s)) <> 0 ->
  exists s', run t s (replicate 3 (Run false)) = Some s' /\ threads s' !! t = Some Idle /\ owned s' = h_obj (free_list (slab s)) :: owned s.
Proof.
  intros Hi Et H0. pose proof (lookup_lt_Some _ _ _ Et) as Hlt. destruct (i_placed _ _ Hi) as (l & Hc & Hp). destruct l as [|x l]; [done|]. destruct Hc as (Ex & v & Ev & _). rewrite <- Ex in Ev. cbn [replicate].
  run_one. destruct (Z.eqb_spec (h_obj (free_list (slab s))) 0) as [|_]; [done|]. run_one. rewrite Ev. run_one. eexists. split; [done|]. split; [|done]. at_place.
Qed.

(** The steps of an allocation that finds the list empty. *)
Definition grow_run (a junk : Z) : list choice := replicate 3 (Run false) ++ [Grow true (Some a) junk] ++ replicate 7 (Run false).

Lemma grow_alone n s t a junk : inv n s -> objs_per_slab (slab s) = 1 -> threads s !! t = Some AllocLoad -> h_obj (free_list (slab s)) = 0 -> lock (slab s) = None -> fresh_block (slab s) a = true ->
  exists s', run t s (grow_run a junk) = Some s' /\ threads s' !! t = Some Idle /\ owned s' = a :: owned s.
Proof.
  intros Hi H1 Et H0 Hl Hf. pose proof (lookup_lt_Some _ _ _ Et) as Hlt. pose proof (Hf) as [Ha%Z.ltb_lt _]%andb_true_iff. unfold grow_run. cbn [replicate app].
  assert (objs_of (slab s) a = [a]) as Eo. { unfold objs_of. rewrite H1. change (seqz 0 1) with [0]. cbn [fmap list_fmap]. f_equal. lia. }
  run_one. rewrite H0. cbn [Z.eqb]. run_by ltac:(rewrite Hl). run_by ltac:(rewrite H0; cbn [Z.eqb]).
  destruct (grow_slab_fresh (set_lock (slab s) (Some t)) a junk Hf) as (cap & Eg). change (objs_of (set_lock (slab s) (Some t)) a) with (objs_of (slab s) a) in Eg. rewrite Eo in Eg. erewrite run_cons; [|eapply grow_at; [at_place|exact Eg]]. cbn [slab threads owned].
  do 2 run_one. run_by ltac:(rewrite junk_lookup, bool_decide_true by (change (a ∈ objs_of (slab s) a); rewrite Eo; set_solver)). run_one. run_one.
  destruct (Z.eqb_spec a 0) as [|_]; [lia|]. run_by ltac:(rewrite lookup_insert_eq). run_one. eexists. split; [done|]. split; [|done]. at_place.
Qed.

(** C36: in every interleaving of allocations, frees and writes of callers to
    their objects, with fewer than 2^62 steps, each object of the slabs is in
    exactly one place: once on the free list as it is in memory, with one
    caller, or in the hands of one thread that frees it or adds a slab.  So no
    object is given to two callers, and none is lost.  No thread reads or
    writes outside of the slabs, and at most one is inside of the lock. *)
Theorem slab_objects_exclusive size mallocs junk sl k n s : 0 < size <= 9223372036854775808 -> mallocs_ok size mallocs -> oxb_slab_init size true true (Some <$> mallocs) junk = Ok (Some sl) -> reach sl k n s -> 2 * INITIAL_SLAB_COUNT + Z.of_nat n < max_steps ->
  (exists l, chain (next (slab s)) (h_obj (free_list (slab s))) l /\ NoDup (l ++ owned s ++ hands (threads s)) /\ l ++ owned s ++ hands (threads s) ≡ₚ objects (slab s)) /\
  Crash ∉ threads s /\ (forall t t' p p', threads s !! t = Some p -> threads s !! t' = Some p' -> in_lock p = true -> in_lock p' = true -> t = t').
Proof.
  intros Hs Hm Hinit Hr Hn. destruct (slab_init_ok size mallocs junk Hs Hm) as (sl' & E & _ & _ & Hi). replace sl' with sl in * by congruence. pose proof (slab_reach_inv sl k n s (Hi k) Hr Hn) as H. split_and!.
  - destruct (i_placed _ _ H) as (l & Hc & Hp). exists l. split_and!; [done| |done]. by apply (placed_nodup _ s l H).
  - intros (t & Et)%list_elem_of_lookup. by apply (Forall_lookup_1 _ _ _ _ (i_threads _ _ H)) in Et.
  - intros t t' p p' Et Et' Hl Hl'. apply (i_lock _ _ H) in Et, Et'; [congruence|done|done].
Qed.

(** C37: an allocation finishes whenever its thread runs alone long enough,
    whatever the other threads were doing when they stopped: three steps are
    enough with a free object, eleven with none if the lock is free and
    [malloc] returns memory.  The object is the head of the list or the new
    slab. *)
Theorem slab_alloc_finishes size mallocs junk sl k n s t : 0 < size <= 9223372036854775808 -> mallocs_ok size mallocs -> oxb_slab_init size true true (Some <$> mallocs) junk = Ok (Some sl) -> reach sl k n s -> 2 * INITIAL_SLAB_COUNT + Z.of_nat n < max_steps -> threads s !! t = Some AllocLoad ->
  if h_obj (free_list (slab s)) =? 0
  then lock (slab s) = None -> forall a v, fresh_block (slab s) a = true -> exists s', run t s (grow_run a v) = Some s' /\ threads s' !! t = Some Idle /\ owned s' = a :: owned s
  else exists s', run t s (replicate 3 (Run false)) = Some s' /\ threads s' !! t = Some Idle /\ owned s' = h_obj (free_list (slab s)) :: owned s.
Proof.
  intros Hs Hm Hinit Hr Hn Et. destruct (slab_init_ok size mallocs junk Hs Hm) as (sl' & E & _ & E1 & Hi). replace sl' with sl in * by congruence. pose proof (slab_reach_inv sl k n s (Hi k) Hr Hn) as H.
  destruct (Z.eqb_spec (h_obj (free_list (slab s))) 0) as [H0|H0]; [|by apply (pop_alone _ s t H)]. intros Hl a v Hf. apply (grow_alone _ s t a v H); try done. by rewrite (reach_sizes sl k n s Hr).
Qed.

(** ** Witnesses *)

Definition ex_mallocs : list Z := (fun i => 4096 * (i + 1)) <$> seqz 0 INITIAL_SLAB_COUNT.

Lemma ex_apart (n : nat) : forall a, pairwise (apart 4096) ((fun i => 4096 * (i + 1)) <$> seqz a (Z.of_nat n)).
Proof.
  induction n as [|n IH]; intros a; [constructor|]. rewrite seqz_cons by lia. cbn [fmap list_fmap]. constructor; [|replace (Z.of_nat (S n) - 1) with (Z.of_nat n) by lia; apply IH].
  apply Forall_fmap, Forall_forall. intros x [H1 H2]%elem_of_seqz. left. cbn. lia.
Qed.

Lemma ex_mallocs_ok : mallocs_ok 4096 ex_mallocs.
Proof.
  split_and!; [by unfold ex_mallocs; rewrite length_fmap, length_seqz| |apply (ex_apart (Z.to_nat INITIAL_SLAB_COUNT))]. apply Forall_fmap, Forall_forall. intros x [H1 H2]%elem_of_seqz. cbn. lia.
Qed.

Definition ex_sys (sl : oxb_slab) : sys := mk_sys sl [AllocLoad; Idle] [].

Lemma ex_reach sl : reach sl 2 1 (ex_sys sl).
Proof. by apply (reach_step sl 2 0 _ 0 StartAlloc _ (reach_init sl 2)). Qed.

Lemma slab_objects_exclusive_witness : exists sl, oxb_slab_init 4096 true true (Some <$> ex_mallocs) 7 = Ok (Some sl) /\ exists l, chain (next sl) (h_obj (free_list sl)) l /\ l ++ [] ++ hands [AllocLoad; Idle] ≡ₚ objects sl.
Proof.
  destruct (slab_init_ok 4096 ex_mallocs 7 ltac:(lia) ex_mallocs_ok) as (sl & E & _). exists sl. split; [exact E|].
  destruct (slab_objects_exclusive 4096 ex_mallocs 7 sl 2 1 (ex_sys sl) ltac:(lia) ex_mallocs_ok E (ex_reach sl) eq_refl) as [(l & H1 & _ & H2) _]. exists l. exact (conj H1 H2).
Defined.

Lemma slab_alloc_finishes_witness : exists sl, oxb_slab_init 4096 true true (Some <$> ex_mallocs) 7 = Ok (Some sl) /\ threads (ex_sys sl) !! 0%nat = Some AllocLoad /\
  if h_obj (free_list sl) =? 0
  then lock sl = None -> forall a v, fresh_block sl a = true -> exists s', run 0 (ex_sys sl) (grow_run a v) = Some s' /\ threads s' !! 0%nat = Some Idle /\ owned s' = [a]
  else exists s', run 0 (ex_sys sl) (replicate 3 (Run false)) = Some s' /\ threads s' !! 0%nat = Some Idle /\ owned s' = [h_obj (free_list sl)].
Proof.
  destruct (slab_init_ok 4096 ex_mallocs 7 ltac:(lia) ex_mallocs_ok) as (sl & E & _). exists sl. split; [exact E|]. split; [reflexivity|].
  exact (slab_alloc_finishes 4096 ex_mallocs 7 sl 2 1 (ex_sys sl) 0 ltac:(lia) ex_mallocs_ok E (ex_reach sl) eq_refl eq_refl).
Defined.
