(* ===== verification/BufferCache.v ===== *)
(** * The buffer cache of the daemon

    [secure_daemon/src/fs/buffer.c] with [submit_bh] and [bh_end_io] of
    [io_dispatcher.c], and its use by lwext4 ([ext4_blockdev.c],
    [ext4_bcache.c]).  Threads interleave at every access to a buffer head, and
    the device moves data and completes requests on its own.  The bits New,
    Uptodate and Dirty are in one word, [b_state], and [set_buffer_foo] and
    [clear_buffer_foo] change it by [__set_bit] and [__clear_bit], which load
    the word and store it in two steps; the bit of the lock is in a word of its
    own and is changed atomically. *)

From stdpp Require Import base list gmap.
From S2P Require Import Prelude Bio.

(** ** Data *)

(** The bits of [b_state]. *)
Record bstate := mk_state { st_new : bool; st_uptodate : bool; st_dirty : bool }.

#[export] Instance bstate_eq_dec : EqDecision bstate.
Proof. solve_decision. Defined.

Definition state_set_new (w : bstate) (v : bool) : bstate := mk_state v (st_uptodate w) (st_dirty w).
Definition state_set_uptodate (w : bstate) (v : bool) : bstate := mk_state (st_new w) v (st_dirty w).
Definition state_set_dirty (w : bstate) (v : bool) : bstate := mk_state (st_new w) (st_uptodate w) v.

Record buffer_head := mk_bh { b_state : bstate; b_locked : bool; b_count : Z; b_data : block }.

(** [buffer_new], [buffer_uptodate] and [buffer_dirty] *)
Definition b_new (h : buffer_head) : bool := st_new (b_state h).
Definition b_uptodate (h : buffer_head) : bool := st_uptodate (b_state h).
Definition b_dirty (h : buffer_head) : bool := st_dirty (b_state h).

Definition set_state (h : buffer_head) (w : bstate) : buffer_head := mk_bh w (b_locked h) (b_count h) (b_data h).
Definition set_locked (h : buffer_head) (v : bool) : buffer_head := mk_bh (b_state h) v (b_count h) (b_data h).
Definition set_count (h : buffer_head) (v : Z) : buffer_head := mk_bh (b_state h) (b_locked h) v (b_data h).
Definition set_data (h : buffer_head) (v : block) : buffer_head := mk_bh (b_state h) (b_locked h) (b_count h) v.

(** [get_bh] and [put_bh] add and subtract the constant
    [memory_order_acq_rel], which stands in the place of the operand. *)
Definition memory_order_acq_rel : Z := 4.
Definition get_bh (h : buffer_head) : buffer_head := set_count h (b_count h + memory_order_acq_rel).
Definition put_bh (h : buffer_head) : buffer_head := set_count h (b_count h - memory_order_acq_rel).
Definition brelse (h : buffer_head) : buffer_head := if b_count h =? 0 then h else put_bh h.

(** A new buffer; its memory holds anything. *)
Definition new_bh (junk : block) : buffer_head := mk_bh (mk_state true false false) false 0 junk.

(** Where a request of the device is: its data have not moved yet; in
    [bh_end_io] before [clear_buffer_new], before [set_buffer_uptodate], each
    with the word once it is loaded, and before [unlock_buffer]. *)
Inductive phase := Queued | EndNew (r : option bstate) | EndUptodate (r : option bstate) | EndUnlock.

Record io := mk_io { io_write : bool; io_blk : Z; io_phase : phase }.

(** The places where a bit is set or cleared: in [mark_buffer_dirty], in
    [ext4_bcache_set_dirty] on a buffer that was read and on one that was not,
    in [mark_buffer_dirty] on one that was not, and in [sync_dirty_buffer]. *)
Inductive bitop :=
| MarkDirty
| ModClearNew | ModSetUptodate | ModSetDirty
| NewClearNew | NewSetUptodate | NewSetDirty
| NewMark
| SyncClear.

(** Where a thread is, by the access it does next. *)
Inductive pc :=
| Idle
(** [sb_bread] *)
| BreadGet (b : Z) | BreadAlloc (b : Z) | BreadTest (b : Z) | BreadRef (b : Z)
(** [ext4_block_get] *)
| BgetGet (b : Z) | BgetAlloc (b : Z) | BgetTest (b : Z)
(** [slow_bread]; [SlowStuck] waits for a request that was not made *)
| SlowLock (b : Z) | SlowTest (b : Z) | SlowUnlock (b : Z) | SlowRef (b : Z) | SlowSubmit (b : Z) | SlowWait (b : Z) | SlowStuck (b : Z) | SlowDone (b : Z)
(** a buffer in use; its data are changed, and it is marked dirty *)
| Hold (b : Z) | Modified (b : Z)
(** [sb_balloc] and [ext4_block_get_noread]; the buffer is filled *)
| BallocGet (b : Z) | BallocAlloc (b : Z) | NewHold (b : Z) | NewFilled (b : Z)
(** a change of a bit, with the word once it is loaded *)
| Bit (k : bitop) (b : Z) (r : option bstate)
(** [sync_dirty_buffer]; [SyncStuck] waits for a request that was not made *)
| SyncTest (b : Z) | SyncLock (b : Z) | SyncTest2 (b : Z) | SyncSubmit (b : Z) | SyncUnlock (b : Z) | SyncWait (b : Z) | SyncStuck (b : Z)
(** there was no memory for a buffer; [slow_bread] returned no buffer *)
| NoBuffer | Failed.

Record sys := mk_sys { s_disk : disk; s_bhs : gmap Z buffer_head; s_ios : list io; s_threads : list pc }.

(** What a thread chooses: an operation, new contents of a buffer, how it
    gives a buffer back ([brelse], or [ext4_block_set] which does not), the
    contents of new memory, and that an allocation of a buffer or a request
    fails.  [SetDirty] marks a buffer by [ext4_bcache_set_dirty], [Run] by
    [mark_buffer_dirty]. *)
Inductive choice :=
| StartBread (b : Z) | StartBget (b : Z) | StartBalloc (b : Z) | StartSync (b : Z)
| Write (x : block) | Release | Put | SetDirty
| Run | Alloc (junk : block) | NoMem.

Inductive action := Thread (t : nat) (c : choice) | Transfer (i : nat) | Complete (i : nat).

(** ** Steps *)

(** [get_buffer_head] finds the buffer, or it has to be made. *)
Definition get_buffer_head (s : sys) (b : Z) (found absent : pc) : pc := match s_bhs s !! b with Some _ => found | None => absent end.

(** [alloc_buffer]: another thread may have been faster. *)
Definition alloc_buffer (s : sys) (b : Z) (junk : block) : gmap Z buffer_head := match s_bhs s !! b with Some _ => s_bhs s | None => <[b := new_bh junk]> (s_bhs s) end.

(** The change of the word, and where the thread goes on. *)
Definition bit_op (k : bitop) (w : bstate) : bstate :=
  match k with
  | MarkDirty | ModSetDirty | NewSetDirty | NewMark => state_set_dirty w true
  | ModClearNew | NewClearNew => state_set_new w false
  | ModSetUptodate | NewSetUptodate => state_set_uptodate w true
  | SyncClear => state_set_dirty w false
  end.

Definition bit_next (k : bitop) (b : Z) : pc :=
  match k with
  | MarkDirty | ModSetDirty | NewSetDirty => Hold b
  | ModClearNew => Bit ModSetUptodate b None
  | ModSetUptodate => Bit ModSetDirty b None
  | NewClearNew => Bit NewSetUptodate b None
  | NewSetUptodate => Bit NewSetDirty b None
  | NewMark => Idle
  | SyncClear => SyncSubmit b
  end.

(** Steps on the buffer of block [b]: the new buffer, the next place and a
    request, if one is submitted.  [__set_bit] and [__clear_bit]: *)
Definition bit_step (h : buffer_head) (p : pc) (c : choice) : option (buffer_head * pc * option io) :=
  match p, c with
  | Bit k b None, Run => Some (h, Bit k b (Some (b_state h)), None)
  | Bit k b (Some w), Run => Some (set_state h (bit_op k w), bit_next k b, None)
  | _, _ => None
  end.

(** [__sb_bread] *)
Definition sb_bread_step (h : buffer_head) (p : pc) (c : choice) : option (buffer_head * pc * option io) :=
  match p, c with
  | BreadTest b, Run => Some (h, if b_uptodate h then BreadRef b else SlowLock b, None)
  | BreadRef b, Run => Some (get_bh h, Hold b, None)
  | _, _ => None
  end.

(** [ext4_block_get] asks whether the buffer is new, and takes no reference to
    one that is not. *)
Definition ext4_block_get_step (h : buffer_head) (p : pc) (c : choice) : option (buffer_head * pc * option io) :=
  match p, c with
  | BgetTest b, Run => Some (h, if b_new h then BreadTest b else Hold b, None)
  | _, _ => None
  end.

(** [slow_bread]; a buffer that became current meanwhile is returned without a
    reference.  When [submit_bh] has no memory for the request it returns, with
    the buffer still locked. *)
Definition slow_bread_step (h : buffer_head) (p : pc) (c : choice) : option (buffer_head * pc * option io) :=
  match p, c with
  | SlowLock b, Run => if b_locked h then None else Some (set_locked h true, SlowTest b, None)
  | SlowTest b, Run => Some (h, if b_uptodate h then SlowUnlock b else SlowRef b, None)
  | SlowUnlock b, Run => Some (set_locked h false, Hold b, None)
  | SlowRef b, Run => Some (get_bh h, SlowSubmit b, None)
  | SlowSubmit b, Run => Some (h, SlowWait b, Some (mk_io false b Queued))
  | SlowSubmit b, NoMem => Some (h, SlowStuck b, None)
  | SlowWait b, Run | SlowStuck b, Run => if b_locked h then None else Some (h, SlowDone b, None)
  | SlowDone b, Run => if b_uptodate h then Some (h, Hold b, None) else Some (brelse h, Failed, None)
  | _, _ => None
  end.

(** A buffer in use.  [mark_buffer_dirty] does nothing to a dirty buffer;
    [ext4_bcache_set_dirty] changes the three bits. *)
Definition mark_buffer_dirty (h : buffer_head) (set marked : pc) : pc := if b_dirty h then marked else set.

Definition use_step (h : buffer_head) (p : pc) (c : choice) : option (buffer_head * pc * option io) :=
  match p, c with
  | Hold b, Write x => Some (set_data h x, Modified b, None)
  | Modified b, Run => Some (h, mark_buffer_dirty h (Bit MarkDirty b None) (Hold b), None)
  | Modified b, SetDirty => Some (h, Bit ModClearNew b None, None)
  | Hold b, Release => Some (brelse h, Idle, None)
  | Hold b, Put => Some (h, Idle, None)
  | NewHold b, Write x => Some (set_data h x, NewFilled b, None)
  | NewFilled b, SetDirty => Some (h, Bit NewClearNew b None, None)
  | NewFilled b, Run => Some (h, mark_buffer_dirty h (Bit NewMark b None) Idle, None)
  | _, _ => None
  end.

(** [sync_dirty_buffer] *)
Definition sync_dirty_buffer_step (h : buffer_head) (p : pc) (c : choice) : option (buffer_head * pc * option io) :=
  match p, c with
  | SyncTest b, Run => Some (h, if b_dirty h then SyncLock b else Idle, None)
  | SyncLock b, Run => if b_locked h then None else Some (set_locked h true, SyncTest2 b, None)
  | SyncTest2 b, Run => Some (h, if b_dirty h then Bit SyncClear b None else SyncUnlock b, None)
  | SyncSubmit b, Run => Some (h, SyncWait b, Some (mk_io true b Queued))
  | SyncSubmit b, NoMem => Some (h, SyncStuck b, None)
  | SyncUnlock b, Run => Some (set_locked h false, SyncWait b, None)
  | SyncWait b, Run | SyncStuck b, Run => if b_locked h then None else Some (h, Idle, None)
  | _, _ => None
  end.

Definition bh_step (h : buffer_head) (p : pc) (c : choice) : option (buffer_head * pc * option io) :=
  match p with
  | BreadTest _ | BreadRef _ => sb_bread_step h p c
  | BgetTest _ => ext4_block_get_step h p c
  | SlowLock _ | SlowTest _ | SlowUnlock _ | SlowRef _ | SlowSubmit _ | SlowWait _ | SlowStuck _ | SlowDone _ => slow_bread_step h p c
  | Hold _ | Modified _ | NewHold _ | NewFilled _ => use_step h p c
  | Bit _ _ _ => bit_step h p c
  | SyncTest _ | SyncLock _ | SyncTest2 _ | SyncSubmit _ | SyncUnlock _ | SyncWait _ | SyncStuck _ => sync_dirty_buffer_step h p c
  | _ => None
  end.

(** The block a thread works on. *)
Definition block_of (p : pc) : option Z :=
  match p with
  | Idle | NoBuffer | Failed => None
  | BreadGet b | BreadAlloc b | BreadTest b | BreadRef b | BgetGet b | BgetAlloc b | BgetTest b | SlowLock b | SlowTest b | SlowUnlock b | SlowRef b | SlowSubmit b | SlowWait b | SlowStuck b | SlowDone b | Hold b | Modified b
  | BallocGet b | BallocAlloc b | NewHold b | NewFilled b | Bit _ b _ | SyncTest b | SyncLock b | SyncTest2 b | SyncSubmit b | SyncUnlock b | SyncWait b | SyncStuck b => Some b
  end.

Definition thread_step (s : sys) (p : pc) (c : choice) : option (gmap Z buffer_head * pc * option io) :=
  match p, c with
  | Idle, StartBread b => Some (s_bhs s, BreadGet b, None)
  | Idle, StartBget b => Some (s_bhs s, BgetGet b, None)
  | Idle, StartBalloc b => Some (s_bhs s, BallocGet b, None)
  | Idle, StartSync b => Some (s_bhs s, SyncTest b, None)
  | BreadGet b, Run => Some (s_bhs s, get_buffer_head s b (BreadTest b) (BreadAlloc b), None)
  | BreadAlloc b, Alloc junk => Some (alloc_buffer s b junk, BreadTest b, None)
  | BgetGet b, Run => Some (s_bhs s, get_buffer_head s b (BgetTest b) (BgetAlloc b), None)
  | BgetAlloc b, Alloc junk => Some (alloc_buffer s b junk, BgetTest b, None)
  | BallocGet b, Run => Some (s_bhs s, get_buffer_head s b (NewHold b) (BallocAlloc b), None)
  | BallocAlloc b, Alloc junk => Some (alloc_buffer s b junk, NewHold b, None)
  | BreadAlloc b, NoMem | BgetAlloc b, NoMem | BallocAlloc b, NoMem => Some (s_bhs s, NoBuffer, None)
  | _, _ =>
      match block_of p with
      | Some b => match s_bhs s !! b with Some h => match bh_step h p c with Some (h, p, r) => Some (<[b := h]> (s_bhs s), p, r) | None => None end | None => None end
      | None => None
      end
  end.

(** [bh_end_io], one access at a time: the buffer, and the request unless it
    is over. *)
Definition bh_end_io (h : buffer_head) (ph : phase) : option (buffer_head * option phase) :=
  match ph with
  | Queued => None
  | EndNew None => Some (h, Some (EndNew (Some (b_state h))))
  | EndNew (Some w) => Some (set_state h (state_set_new w false), Some (EndUptodate None))
  | EndUptodate None => Some (h, Some (EndUptodate (Some (b_state h))))
  | EndUptodate (Some w) => Some (set_state h (state_set_uptodate w true), Some EndUnlock)
  | EndUnlock => Some (set_locked h false, None)
  end.

Definition upd_disk (d : disk) (b : Z) (x : block) : disk := fun i => if i =? b then x else d i.

Definition sys_step (s : sys) (a : action) : option sys :=
  match a with
  | Thread t c =>
      match s_threads s !! t with
      | Some p => match thread_step s p c with Some (m, p, r) => Some (mk_sys (s_disk s) m (s_ios s ++ option_list r) (<[t := p]> (s_threads s))) | None => None end
      | None => None
      end
  | Transfer i =>
      match s_ios s !! i with
      | Some (mk_io w b Queued) =>
          match s_bhs s !! b with
          | Some h => let ios := <[i := mk_io w b (EndNew None)]> (s_ios s) in
              if w then Some (mk_sys (upd_disk (s_disk s) b (b_data h)) (s_bhs s) ios (s_threads s)) else Some (mk_sys (s_disk s) (<[b := set_data h (s_disk s b)]> (s_bhs s)) ios (s_threads s))
          | None => None
          end
      | _ => None
      end
  | Complete i =>
      match s_ios s !! i with
      | Some (mk_io w b ph) =>
          match s_bhs s !! b with
          | Some h =>
              match bh_end_io h ph with
              | Some (h, Some ph) => Some (mk_sys (s_disk s) (<[b := h]> (s_bhs s)) (<[i := mk_io w b ph]> (s_ios s)) (s_threads s))
              | Some (h, None) => Some (mk_sys (s_disk s) (<[b := h]> (s_bhs s)) (delete i (s_ios s)) (s_threads s))
              | None => None
              end
          | None => None
          end
      | None => None
      end
  end.

Fixpoint run (s : sys) (l : list action) : option sys :=
  match l with
  | [] => Some s
  | a :: l => match sys_step s a with Some s => run s l | None => None end
  end.

(** ** Use of the cache *)

Definition on (b : Z) (p : pc) : bool := match block_of p with Some b' => b' =? b | None => false end.

(** The thread fills a buffer without reading it. *)
Definition is_new (p : pc) : bool :=
  match p with
  | BallocGet _ | BallocAlloc _ | NewHold _ | NewFilled _ | Bit NewClearNew _ _ | Bit NewSetUptodate _ _ | Bit NewSetDirty _ _ | Bit NewMark _ _ => true
  | _ => false
  end.

(** The word loaded from the buffer of block [b] is still there. *)
Definition unchanged (s : sys) (b : Z) (w : bstate) : bool := match s_bhs s !! b with Some h => bool_decide (b_state h = w) | None => true end.

(** A block is filled only while nobody else uses it, and is then marked by
    [ext4_bcache_set_dirty]; and no store of [__set_bit] or [__clear_bit]
    overwrites a word that was changed since it was loaded. *)
Definition allowed (s : sys) (a : action) : bool :=
  match a with
  | Thread _ (StartBalloc b) => negb (existsb (on b) (s_threads s)) && negb (existsb (fun i => io_blk i =? b) (s_ios s))
  | Thread _ (StartBread b) | Thread _ (StartBget b) | Thread _ (StartSync b) => negb (existsb (fun p => on b p && is_new p) (s_threads s))
  | Thread t Run => match s_threads s !! t with Some (NewFilled _) => false | Some (Bit _ b (Some w)) => unchanged s b w | _ => true end
  | Complete i => match s_ios s !! i with Some (mk_io _ b (EndNew (Some w))) | Some (mk_io _ b (EndUptodate (Some w))) => unchanged s b w | _ => true end
  | _ => true
  end.

Inductive reach (d : disk) (n : nat) : sys -> Prop :=
| reach_init : reach d n (mk_sys d ∅ [] (replicate n Idle))
| reach_step s a s' : reach d n s -> allowed s a = true -> sys_step s a = Some s' -> reach d n s'.

(** The contents of a block as the cache presents it: a buffer that is not new
    has them. *)
Definition filled (p : pc) : bool := match p with NewFilled _ | Bit NewClearNew _ _ => true | _ => false end.

Definition view (s : sys) (b : Z) : block :=
  match s_bhs s !! b with
  | Some h => if negb (b_new h) || existsb (fun p => on b p && filled p) (s_threads s) then b_data h else s_disk s b
  | None => s_disk s b
  end.

(** What an action does to the contents. *)
Definition writes (s : sys) (a : action) : option (Z * block) :=
  match a with
  | Thread t (Write x) => match s_threads s !! t with Some p => match block_of p with Some b => Some (b, x) | None => None end | None => None end
  | _ => None
  end.

(** ** The invariant of a block *)

(** The thread holds the lock of its buffer. *)
Definition locking (p : pc) : bool := match p with SlowTest _ | SlowUnlock _ | SlowRef _ | SlowSubmit _ | SlowStuck _ | SyncTest2 _ | Bit SyncClear _ _ | SyncSubmit _ | SyncStuck _ | SyncUnlock _ => true | _ => false end.

(** The contents of the buffer are on their way to the device. *)
Definition pending (p : pc) : bool := match p with Modified _ | NewFilled _ | Bit _ _ _ | SyncSubmit _ | SyncStuck _ => true | _ => false end.

(** No buffer is needed yet. *)
Definition early (p : pc) : bool := match p with BreadGet _ | BreadAlloc _ | BgetGet _ | BgetAlloc _ | BallocGet _ | BallocAlloc _ | SyncTest _ => true | _ => false end.

(** The buffer is about to be marked as current by the thread that filled it. *)
Definition filling (p : pc) : bool := match p with Bit NewSetUptodate _ _ => true | _ => false end.
Definition ending (i : io) : bool := match io_phase i with EndUptodate _ => true | _ => false end.

Definition pc_ok (h : buffer_head) (ios : list io) (p : pc) : Prop :=
  match p with
  | BreadRef _ | SlowUnlock _ | SlowDone _ => b_uptodate h = true
  | Bit NewClearNew _ _ => True
  | Bit NewMark _ _ => False
  | Hold _ | Modified _ | Bit _ _ _ | SyncSubmit _ | SyncStuck _ => b_new h = false
  | SlowRef _ | SlowSubmit _ => b_new h = true
  | SlowWait _ => b_uptodate h = true \/ Exists (fun i => io_write i = false) ios
  | _ => True
  end.

Definition io_ok (h : buffer_head) (d : block) (i : io) : Prop :=
  match io_phase i with
  | Queued => b_new h = negb (io_write i)
  | EndNew _ => b_new h = negb (io_write i) /\ (io_write i = false -> b_data h = d)
  | EndUptodate _ => b_new h = false
  | EndUnlock => b_new h = false /\ b_uptodate h = true
  end.

Definition at_rest (ios : list io) (ps : list pc) : Prop := Forall (fun p => pending p = false) ps /\ Forall (fun i => io_write i = false \/ io_phase i <> Queued) ios.

Record blk_ok (d : block) (h : buffer_head) (ios : list io) (ps : list pc) : Prop := {
  k_lock : (length (filter (fun p => locking p = true) ps) + length ios)%nat = if b_locked h then 1%nat else 0%nat;
  k_dirty : b_dirty h = true -> b_new h = false;
  k_new : b_uptodate h = true -> b_new h = false;
  k_cur : b_new h = false -> b_uptodate h = true \/ Exists (fun i => ending i = true) ios \/ Exists (fun p => filling p = true) ps;
  k_pcs : Forall (pc_ok h ios) ps;
  k_ios : Forall (io_ok h d) ios;
  k_clean : b_new h = false -> b_dirty h = false -> at_rest ios ps -> b_data h = d
}.

(** A thread that fills a block is alone. *)
Definition alone (ios : list io) (ps : list pc) : Prop := forall p, p ∈ ps -> is_new p = true -> ps = [p] /\ ios = [].

Definition pcs (s : sys) (b : Z) : list pc := filter (fun p => on b p = true) (s_threads s).
Definition ios_of (s : sys) (b : Z) : list io := filter (fun i => io_blk i = b) (s_ios s).

Definition blk_inv (s : sys) (b : Z) : Prop :=
  alone (ios_of s b) (pcs s b) /\
  match s_bhs s !! b with
  | Some h => blk_ok (s_disk s b) h (ios_of s b) (pcs s b)
  | None => Forall (fun p => early p = true) (pcs s b) /\ ios_of s b = []
  end.

(** The places a thread may be at. *)
Ltac cases_pc p := destruct p; try match goal with k : bitop |- _ => destruct k end.

Lemma blk_ok_perm d h ios ios' ps ps' : ios ≡ₚ ios' -> ps ≡ₚ ps' -> blk_ok d h ios ps -> blk_ok d h ios' ps'.
Proof.
  intros Hi Hp [H1 H2 HN HC H3 H4 H5]. constructor; [by rewrite <- Hi, <- Hp|done|done|by rewrite <- Hi, <- Hp| |by rewrite <- Hi|].
  - rewrite <- Hp. apply (Forall_impl _ _ _ H3). intros p. cases_pc p; cbn; try done. by rewrite Hi.
  - unfold at_rest. by rewrite <- Hi, <- Hp.
Qed.

Lemma alone_perm ios ios' ps ps' : ios ≡ₚ ios' -> ps ≡ₚ ps' -> alone ios ps -> alone ios' ps'.
Proof.
  intros Hi Hp H p Hin Hn. rewrite <- Hp in Hin. destruct (H p Hin Hn) as [-> ->]. split; [by apply Permutation_singleton_l in Hp|by apply Permutation_nil_l in Hi].
Qed.

(** Where the thread goes. *)
Definition cons_on (p : pc) (ps : list pc) : list pc := match block_of p with Some _ => p :: ps | None => ps end.

Lemma pc_ok_mono h h' ios ios' p : b_new h' = b_new h -> (b_uptodate h = true -> b_uptodate h' = true) -> (Exists (fun i => io_write i = false) ios -> Exists (fun i => io_write i = false) ios') -> pc_ok h ios p -> pc_ok h' ios' p.
Proof. intros Hn Hu Hi. cases_pc p; cbn; rewrite ?Hn; try done. naive_solver. Qed.

Definition lk (p : pc) : nat := if locking p then 1 else 0.
Definition lockval (h : buffer_head) : nat := if b_locked h then 1 else 0.

Lemma lockers_cons p R : length (filter (fun p => locking p = true) (p :: R)) = (lk p + length (filter (fun p => locking p = true) R))%nat.
Proof. rewrite filter_cons. unfold lk. destruct (locking p); [by rewrite decide_True|by rewrite decide_False]. Qed.

Lemma lockers_on p R : length (filter (fun p => locking p = true) (cons_on p R)) = (lk p + length (filter (fun p => locking p = true) R))%nat.
Proof. unfold cons_on. destruct p; cbn [block_of]; try apply lockers_cons; done. Qed.

(** A thread moves from [p] to [p'] and changes its buffer, which stays as
    new as it was. *)
Record moves (d : block) (h : buffer_head) (ios : list io) (p : pc) (h' : buffer_head) (p' : pc) (new : list io) : Prop := {
  m_new : b_new h' = b_new h;
  m_uptodate : b_uptodate h = true -> b_uptodate h' = true;
  m_uptodate' : b_uptodate h' = true -> b_uptodate h = true \/ b_new h = false;
  m_filling : filling p = true -> b_uptodate h' = true \/ filling p' = true;
  m_lock : (lk p' + length new + lockval h = lk p + lockval h')%nat;
  m_pc : pc_ok h' (new ++ ios) p';
  m_ios : Forall (io_ok h' d) new;
  m_dirty : b_dirty h' = true -> b_dirty h = true \/ b_new h = false;
  m_data : b_data h' = b_data h \/ b_new h = false \/ ios = [];
  m_clean : b_dirty h' = true \/ pending p' = true \/ Exists (fun i => io_write i = true /\ io_phase i = Queued) new \/
            (b_data h' = b_data h /\ b_dirty h' = b_dirty h /\ pending p = false) \/ b_new h = true
}.

Lemma blk_move d h ios p R h' p' new : blk_ok d h ios (p :: R) -> moves d h ios p h' p' new -> blk_ok d h' (new ++ ios) (cons_on p' R).
Proof.
  intros [H1 H2 HN HC H3 H4 H5] [Hn Hu Hu' Hf Hl Hp Hi Hd Hdat Hcl]. apply Forall_cons in H3 as [H3 HR]. rewrite lockers_cons in H1. constructor.
  - rewrite lockers_on, length_app. unfold lockval in Hl. lia.
  - intros Hd'. rewrite Hn. destruct (Hd Hd'); auto.
  - intros Hu1. rewrite Hn. destruct (Hu' Hu1); auto.
  - intros Hn'. rewrite Hn in Hn'. destruct (HC Hn') as [?|[H|[H|H]%Exists_cons]]; [by left; auto|right; left; apply Exists_app; by right| |].
    + destruct (Hf H) as [?|Hf']; [by left|]. right; right. unfold cons_on. cases_pc p'; try done. by left.
    + right; right. unfold cons_on. destruct (block_of p'); [by right|done].
  - assert (Forall (pc_ok h' (new ++ ios)) R) by (apply (Forall_impl _ _ _ HR); intros q; apply pc_ok_mono; [done|done|intros; apply Exists_app; by right]). unfold cons_on. destruct (block_of p'); [by constructor|done].
  - apply Forall_app. split; [done|]. apply Forall_forall. intros i Hin. rewrite Forall_forall in H4. specialize (H4 i Hin). unfold io_ok in *. rewrite Hn. destruct (io_phase i); [done| |done|naive_solver].
    destruct H4 as [Ha Hb]. split; [done|]. intros Hw. rewrite Hw in Ha. cbn in Ha. destruct Hdat as [->|[E| ->]]; [auto|congruence|set_solver].
  - intros Hn' Hd' [Hr1 Hr2]. rewrite Hn in Hn'. apply Forall_app in Hr2 as [Hr2 Hr3]. assert (pending p' = false /\ Forall (fun p => pending p = false) R) as [Hp' HRp].
    { unfold cons_on in Hr1. cases_pc p'; cbn in Hr1 |- *; try (by split); by apply Forall_cons in Hr1. }
    destruct Hcl as [H|[H|[H|[(Hda & He & Hpp)|H]]]]; [congruence|congruence| | |congruence].
    + apply Exists_exists in H as (i & Hi1 & Hi2 & Hi3). rewrite Forall_forall in Hr2. destruct (Hr2 i Hi1); congruence.
    + rewrite Hda. apply H5; [done|by rewrite <- He|]. split; [by constructor|done].
Qed.

Ltac solve_moves := constructor; unfold lockval, lk, b_new, b_uptodate, b_dirty in *; cbn in *;
  first [done | solve [repeat case_match; lia] | solve [auto 10] | solve [repeat constructor; auto] | solve [intuition congruence]].

(** A step on a buffer keeps the invariant of its block, when the word it
    stores was not changed since it was loaded. *)
Definition fresh_bit (h : buffer_head) (p : pc) : Prop := match p with Bit _ _ (Some w) => w = b_state h | _ => True end.

Lemma bh_step_ok d h ios p R c h' p' r b : blk_ok d h ios (p :: R) -> alone ios (p :: R) -> (c = Run -> forall b, p <> NewFilled b) -> fresh_bit h p -> block_of p = Some b -> bh_step h p c = Some (h', p', r) ->
  blk_ok d h' (option_list r ++ ios) (cons_on p' R).
Proof.
  intros Hok Hal Hc Hfr Hb Hs. pose proof (k_pcs _ _ _ _ Hok) as [Hp _]%Forall_cons. pose proof (k_lock _ _ _ _ Hok) as Hlk. rewrite lockers_cons in Hlk. pose proof (k_dirty _ _ _ _ Hok) as Hd. pose proof (k_new _ _ _ _ Hok) as Hnw. pose proof (k_cur _ _ _ _ Hok) as Hcur.
  cases_pc p; destruct c; try done; cbn in Hs; injection Hb as ->; cbn in Hp, Hlk, Hfr; try (by destruct (Hc eq_refl b)).
  all: unfold mark_buffer_dirty in Hs; repeat match type of Hs with context [match ?x with _ => _ end] => destruct x eqn:? end; simplify_eq.
  all: try match goal with |- context [brelse ?h] => unfold brelse; destruct (b_count h =? 0) end.
  all: try (eapply (blk_move _ _ _ _ _ _ _ []); [exact Hok|]; solve_moves; fail).
  all: try (eapply (blk_move _ _ _ _ _ _ _ [_]); [exact Hok|]; solve_moves; fail).
  - assert (ios = []) as -> by (apply nil_length_inv; case_match; lia). assert (b_new h' = true) as Hn.
    { destruct (b_new h'); [done|]. destruct (Hcur eq_refl) as [?|[H|H]]; [done|by apply Exists_nil in H|]. apply Exists_exists in H as (q & Hq & Hf). destruct (Hal q Hq) as [E _]; [by cases_pc q|]. injection E as <- _. done. }
    eapply (blk_move _ _ _ _ _ _ _ []); [exact Hok|]. solve_moves.
  - assert (ios = []) as -> by (apply nil_length_inv; lia). assert (b_uptodate h' = true) by (destruct Hp as [?|Hp]; [done|by apply Exists_nil in Hp]).
    eapply (blk_move _ _ _ _ _ _ _ []); [exact Hok|]. solve_moves.
  - destruct (Hal (NewHold b)) as [_ ->]; [set_solver|done|]. eapply (blk_move _ _ _ _ _ _ _ []); [exact Hok|]. solve_moves.
  - destruct (Hal (Bit NewClearNew b (Some (b_state h)))) as [HR ->]; [set_solver|done|]. injection HR as ->. constructor; cbn in *; [done|done|done| |by repeat constructor|constructor|].
    + intros _. right; right. by left.
    + intros _ _ [H _]. by apply Forall_cons in H as [? _].
Qed.

Lemma bh_step_alone h ios p R c h' p' r b : alone ios (p :: R) -> block_of p = Some b -> bh_step h p c = Some (h', p', r) -> alone (option_list r ++ ios) (cons_on p' R).
Proof.
  intros Hal Hb Hs. assert (forall q, q ∈ R -> is_new q = true -> False) as HR. { intros q Hq Hn. destruct (Hal q) as [HE _]; [set_solver|done|]. injection HE as -> ->. set_solver. }
  assert (is_new p' = true -> is_new p = true /\ r = None) as Hn.
  { cases_pc p; destruct c; try done; cbn in Hs; injection Hb as ->; unfold mark_buffer_dirty in Hs; repeat match type of Hs with context [match ?x with _ => _ end] => destruct x eqn:? end; simplify_eq; done. }
  intros q Hq Hq'. unfold cons_on in Hq |- *. destruct (block_of p') eqn:Ep; [|exfalso; by eapply HR]. apply elem_of_cons in Hq as [-> |Hq]; [|exfalso; by eapply HR].
  destruct (Hn Hq') as [Hp ->]. destruct (Hal p) as [HE ->]; [set_solver|done|]. by injection HE as ->.
Qed.

(** The device moves the data of a request. *)
Lemma one_io d h i R ps : blk_ok d h (i :: R) ps -> R = [] /\ b_locked h = true /\ filter (fun p => locking p = true) ps = [].
Proof. intros [H1 _ _ _ _ _ _]. cbn in H1. split_and!; [apply nil_length_inv| |apply nil_length_inv]; case_match; done || lia. Qed.

Lemma transfer_read_ok d h b R ps : blk_ok d h (mk_io false b Queued :: R) ps -> blk_ok d (set_data h d) (mk_io false b (EndNew None) :: R) ps.
Proof.
  intros Hok. destruct (one_io _ _ _ _ _ Hok) as (-> & _ & _). destruct Hok as [H1 H2 HN HC H3 H4 H5]. apply Forall_cons in H4 as [Hu _]. cbn in Hu. constructor; [done|done|done| | | |].
  - unfold b_new in *. cbn. congruence.
  - apply (Forall_impl _ _ _ H3). intros p. apply pc_ok_mono; [done|done|]. intros _. by left.
  - constructor; [|constructor]. by split.
  - unfold b_new in *. cbn. congruence.
Qed.

Lemma transfer_write_ok d h b R ps : blk_ok d h (mk_io true b Queued :: R) ps -> blk_ok (b_data h) h (mk_io true b (EndNew None) :: R) ps.
Proof.
  intros Hok. destruct (one_io _ _ _ _ _ Hok) as (-> & _ & _). destruct Hok as [H1 H2 HN HC H3 H4 H5]. apply Forall_cons in H4 as [Hu _]. constructor; [done|done|done| | | |done].
  - intros Hn. destruct (HC Hn) as [?|[H|?]]; [auto| |auto]. by apply Exists_cons in H as [?|?%Exists_nil].
  - apply (Forall_impl _ _ _ H3). intros p. apply pc_ok_mono; [done|done|]. by intros [?|?%Exists_nil]%Exists_cons.
  - constructor; [|constructor]. by split.
Qed.

(** A step of [bh_end_io]. *)
Definition fresh_phase (h : buffer_head) (ph : phase) : Prop := match ph with EndNew (Some w) | EndUptodate (Some w) => w = b_state h | _ => True end.

Lemma exists_one {A} (P : A -> Prop) x : Exists P [x] <-> P x.
Proof. rewrite Exists_cons, Exists_nil. naive_solver. Qed.

Lemma end_io_ok d h w b ph R ps h' oph : blk_ok d h (mk_io w b ph :: R) ps -> alone (mk_io w b ph :: R) ps -> fresh_phase h ph -> bh_end_io h ph = Some (h', oph) ->
  blk_ok d h' (match oph with Some ph => mk_io w b ph :: R | None => R end) ps.
Proof.
  intros Hok Hal Hfr Hs. destruct (one_io _ _ _ _ _ Hok) as (-> & Hlk & Hl). pose proof Hok as [H1 H2 HN HC H3 H4 H5]. apply Forall_cons in H4 as [Hi _].
  assert (~ Exists (fun p => filling p = true) ps) as Hnf. { intros (q & Hq & Hf)%Exists_exists. destruct (Hal q Hq) as [_ ?]; [by cases_pc q|done]. }
  destruct ph as [|[w0|]|[w0|]|]; cbn in Hs, Hfr; [done|..]; injection Hs as <- <-; subst; rewrite ?exists_one in HC.
  - destruct Hi as [Hn Hdat]. cbn in Hn, Hdat. constructor; [done|done|done|intros _; right; left; by left| | |].
    + apply Forall_forall. intros p Hp. rewrite Forall_forall in H3. specialize (H3 p Hp). assert (locking p = false) as Hlp. { destruct (locking p) eqn:E; [|done]. assert (p ∈ filter (fun p => locking p = true) ps) as H by (by apply list_elem_of_filter). rewrite Hl in H. set_solver. }
      cases_pc p; cbn in Hlp, H3 |- *; try done. destruct H3 as [?|H3]; [by left|right]. rewrite exists_one in *. done.
    + by repeat constructor.
    + intros _ Hd [Hr _]. destruct w; [|by apply Hdat]. apply H5; [done|done|]. split; [done|]. apply Forall_singleton. by right.
  - constructor; [done|done|done| | |constructor; [exact Hi|constructor]|].
    + rewrite exists_one. naive_solver.
    + apply (Forall_impl _ _ _ H3). intros p. apply pc_ok_mono; [done|done|]. by rewrite !exists_one.
    + intros Hn Hd [Hr Hr']. apply H5; [done|done|]. split; [done|]. apply Forall_singleton. by right.
  - cbn in Hi. constructor; [done|done|done|by left| | |].
    + apply (Forall_impl _ _ _ H3). intros p. apply pc_ok_mono; [done|done|]. by rewrite !exists_one.
    + by repeat constructor.
    + intros Hn Hd [Hr Hr']. apply H5; [done|done|]. split; [done|]. apply Forall_singleton. by right.
  - cbn in Hi. constructor; [done|done|done| | |constructor; [exact Hi|constructor]|].
    + rewrite exists_one. naive_solver.
    + apply (Forall_impl _ _ _ H3). intros p. apply pc_ok_mono; [done|done|]. by rewrite !exists_one.
    + intros Hn Hd [Hr Hr']. apply H5; [done|done|]. split; [done|]. apply Forall_singleton. by right.
  - destruct Hi as [Hn Hu]. constructor; [cbn; by rewrite Hl|done|done|by left| |constructor|].
    + apply (Forall_impl _ _ _ H3). intros p Hp. cases_pc p; cbn in *; try done. by left.
    + intros _ Hd [Hr _]. apply H5; [done|done|]. split; [done|]. apply Forall_singleton. by right.
Qed.

Lemma alone_io i i' R ps : alone (i :: R) ps -> alone (i' :: R) ps /\ alone R ps.
Proof. intros H. split; intros p Hp Hn; by destruct (H p Hp Hn) as [_ ?]. Qed.

(** A thread turns to the block. *)
Lemma enter_ok d h ios ps p : blk_ok d h ios ps -> locking p = false -> pending p = false -> pc_ok h ios p -> blk_ok d h ios (p :: ps).
Proof.
  intros [H1 H2 HN HC H3 H4 H5] Hl Hp Hk. constructor; [|done|done| |by constructor|done|].
  - rewrite lockers_cons. unfold lk. by rewrite Hl.
  - intros Hn. destruct (HC Hn) as [?|[?|?]]; [by left|right; by left|right; right; by right].
  - intros Hu Hd [Hr1 Hr2]. apply Forall_cons in Hr1 as [_ Hr1]. by apply H5.
Qed.

(** ** The invariant of the system *)

Definition inv (s : sys) : Prop := forall b, blk_inv s b.

Lemma blk_inv_frame s s' b : s_bhs s' !! b = s_bhs s !! b -> s_disk s' b = s_disk s b -> ios_of s b ≡ₚ ios_of s' b -> pcs s b ≡ₚ pcs s' b -> blk_inv s b -> blk_inv s' b.
Proof.
  unfold blk_inv. intros -> -> Hi Hp [Ha H]. split; [by apply (alone_perm (ios_of s b) _ (pcs s b))|]. destruct (s_bhs s !! b) as [h|]; [by apply (blk_ok_perm _ _ (ios_of s b) _ (pcs s b))|]. destruct H as [H1 H2]. rewrite H2 in Hi. split; [by rewrite <- Hp|by apply Permutation_nil_l in Hi].
Qed.

Lemma pcs_at (ts : list pc) t b : (t < length ts)%nat -> exists R, forall q, filter (fun p => on b p = true) (<[t := q]> ts) ≡ₚ if on b q then q :: R else R.
Proof.
  intros Ht. exists (filter (fun p => on b p = true) (take t ts ++ drop (S t) ts)). intros q. rewrite insert_take_drop by done. rewrite <- Permutation_middle, filter_cons. destruct (on b q); [by rewrite decide_True|by rewrite decide_False].
Qed.

Lemma on_block p b : on b p = true <-> block_of p = Some b.
Proof. unfold on. destruct (block_of p) as [b'|]; [|done]. rewrite Z.eqb_eq. split; [by intros ->|by intros [= ->]]. Qed.

(** A thread goes from [p] to [p'], both at [b] or nowhere. *)
Lemma inv_thread s t p p' m r b : inv s -> s_threads s !! t = Some p -> (forall b', b' <> b -> m !! b' = s_bhs s !! b') -> (block_of p = Some b \/ block_of p = None) -> (block_of p' = Some b \/ block_of p' = None) -> (forall i, r = Some i -> io_blk i = b) ->
  (forall R, pcs s b ≡ₚ cons_on p R -> match m !! b with Some h => blk_ok (s_disk s b) h (option_list r ++ ios_of s b) (cons_on p' R) | None => Forall (fun p => early p = true) (cons_on p' R) /\ r = None /\ ios_of s b = [] end /\ alone (option_list r ++ ios_of s b) (cons_on p' R)) ->
  inv (mk_sys (s_disk s) m (s_ios s ++ option_list r) (<[t := p']> (s_threads s))).
Proof.
  intros Hi Et Hm Hp Hp' Hr Hb b'. pose proof (lookup_lt_Some _ _ _ Et) as Ht. destruct (pcs_at (s_threads s) t b' Ht) as [R HR]. pose proof (HR p) as HRp. rewrite list_insert_id in HRp by done.
  destruct (decide (b' = b)) as [->|Hne].
  - assert (forall q, block_of q = Some b \/ block_of q = None -> (if on b q then q :: R else R) = cons_on q R) as Ec. { intros q Hq. unfold on, cons_on. destruct Hq as [->| ->]; [by rewrite Z.eqb_refl|done]. }
    rewrite Ec in HRp by done. pose proof (HR p') as HRp'. rewrite Ec in HRp' by done. destruct (Hb R HRp) as [H1 H2].
    assert (option_list r ++ ios_of s b ≡ₚ ios_of (mk_sys (s_disk s) m (s_ios s ++ option_list r) (<[t := p']> (s_threads s))) b) as Hios.
    { unfold ios_of. cbn [s_ios]. rewrite filter_app, Permutation_app_comm. apply Permutation_app_head. destruct r as [i|]; [|done]. change (option_list (Some i)) with [i]. rewrite filter_cons, decide_True by (by apply Hr). done. }
    unfold blk_inv. cbn [s_bhs s_disk]. split; [eapply alone_perm; [exact Hios|symmetry; exact HRp'|done]|]. destruct (m !! b) as [h|]; [eapply blk_ok_perm; [exact Hios|symmetry; exact HRp'|done]|].
    destruct H1 as (H1 & -> & H3). split; [unfold pcs; cbn [s_threads]; by rewrite HRp'|]. rewrite H3 in Hios. by apply Permutation_nil_l in Hios.
  - assert (forall q, block_of q = Some b \/ block_of q = None -> on b' q = false) as En. { intros q Hq. unfold on. destruct Hq as [->| ->]; [by apply Z.eqb_neq|done]. }
    apply (blk_inv_frame s); [by apply Hm|done| | |apply Hi].
    + unfold ios_of. cbn [s_ios]. rewrite filter_app. destruct r as [i|]; [|by rewrite app_nil_r]. change (option_list (Some i)) with [i]. rewrite filter_cons, decide_False by (rewrite (Hr i); done). by rewrite app_nil_r.
    + pose proof (HR p') as HRp'. rewrite En in HRp, HRp' by done. unfold pcs. cbn [s_threads]. by rewrite HRp, HRp'.
Qed.

(** A step of a thread on the buffer of its block. *)
Lemma inv_bh_step s t p c h h' p' r b : inv s -> s_threads s !! t = Some p -> (c = Run -> forall b, p <> NewFilled b) -> block_of p = Some b -> s_bhs s !! b = Some h -> fresh_bit h p -> bh_step h p c = Some (h', p', r) ->
  inv (mk_sys (s_disk s) (<[b := h']> (s_bhs s)) (s_ios s ++ option_list r) (<[t := p']> (s_threads s))).
Proof.
  intros Hi Et Hc Hb Eh Hfr Hs. assert ((block_of p' = Some b \/ block_of p' = None) /\ forall i, r = Some i -> io_blk i = b) as [Hp' Hr].
  { cases_pc p; destruct c; try done; cbn in Hs; injection Hb as ->; unfold mark_buffer_dirty in Hs; repeat case_match; simplify_eq; cbn; auto; (split; [auto|]); intros i [= <-]; done. }
  apply (inv_thread s t p p' _ _ b); [done|done| |by left|done|done|]; [intros b' Hb'; by rewrite lookup_insert_ne|].
  intros R HR. rewrite lookup_insert_eq. destruct (Hi b) as [Ha Hok]. rewrite Eh in Hok. unfold cons_on in HR. rewrite Hb in HR. apply (blk_ok_perm _ _ _ (ios_of s b) _ _ (Permutation_refl _) HR) in Hok. apply (alone_perm _ (ios_of s b) _ _ (Permutation_refl _) HR) in Ha.
  split; [by apply (bh_step_ok _ h _ p _ c _ _ _ b)|by apply (bh_step_alone h _ p _ c h' _ _ b)].
Qed.

(** A thread enters a block, with nobody there who fills it. *)
Lemma inv_enter s t p' b : inv s -> s_threads s !! t = Some Idle -> block_of p' = Some b -> early p' = true -> (forall q, q ∈ pcs s b -> is_new q = false) -> (is_new p' = true -> pcs s b = [] /\ ios_of s b = []) ->
  inv (mk_sys (s_disk s) (s_bhs s) (s_ios s ++ option_list None) (<[t := p']> (s_threads s))).
Proof.
  intros Hi Et Hb He Hn Hn'. apply (inv_thread s t Idle p' _ _ b); [done|done|done|by right|by left|done|]. cbn [cons_on block_of]. intros R HR. destruct (Hi b) as [Ha Hok]. unfold cons_on. rewrite Hb. cbn [option_list app]. split.
  - destruct (s_bhs s !! b) as [h|]; [|destruct Hok as [H1 H2]; rewrite HR in H1; split_and!; [by constructor|done|done]]. apply (blk_ok_perm _ _ _ (ios_of s b) _ _ (Permutation_refl _) HR) in Hok. apply enter_ok; [done|by destruct p'..|by destruct p'].
  - intros q [->|Hq]%elem_of_cons Hq'; [destruct (Hn' Hq') as [H1 H2]; rewrite H1 in HR; apply Permutation_nil_l in HR; by subst R|]. rewrite <- HR in Hq. rewrite Hn in Hq' by done. done.
Qed.

Lemma alone_replace ios p q R : alone ios (p :: R) -> is_new q = is_new p -> alone ios (q :: R).
Proof.
  intros Ha Hn x [->|Hx]%elem_of_cons Hx'; [rewrite Hn in Hx'; destruct (Ha p) as [HE ->]; [set_solver|done|]; by injection HE as ->|]. destruct (Ha x) as [HE _]; [set_solver|done|]. injection HE as -> ->. set_solver.
Qed.

Lemma early_lockers ps : Forall (fun p => early p = true) ps -> length (filter (fun p => locking p = true) ps) = 0%nat.
Proof. intros H. induction H as [|p ps He _ IH]; [done|]. rewrite lockers_cons, IH. by destruct p. Qed.

(** The buffer is found, or there is none. *)
Lemma inv_get s t p found absent b : inv s -> s_threads s !! t = Some p -> block_of p = Some b -> block_of found = Some b -> block_of absent = Some b -> lk p = 0%nat -> pending p = false -> early absent = true -> early p = true -> filling p = false ->
  locking found = false -> (forall h ios, pc_ok h ios found) -> is_new found = is_new p -> is_new absent = is_new p ->
  inv (mk_sys (s_disk s) (s_bhs s) (s_ios s ++ option_list None) (<[t := get_buffer_head s b found absent]> (s_threads s))).
Proof.
  intros Hi Et Hb Hbf Hba Hl Hpe Hea Hep Hfi Hlf Hok Hnf Hna. unfold get_buffer_head. apply (inv_thread s t p _ _ _ b); [done|done|done|by left|by left; case_match|done|]. intros R HR. destruct (Hi b) as [Ha Hk]. unfold cons_on in HR. rewrite Hb in HR.
  assert (forall q, block_of q = Some b -> is_new q = is_new p -> alone (ios_of s b) (cons_on q R)) as Hal.
  { intros q Hq Hn. unfold cons_on. rewrite Hq. apply (alone_replace _ p); [|done]. by apply (alone_perm (ios_of s b) _ (pcs s b)). }
  destruct (s_bhs s !! b) as [h|] eqn:Eh; cbn [option_list app]; (split; [|by apply Hal]).
  - apply (blk_ok_perm _ _ _ (ios_of s b) _ _ (Permutation_refl _) HR) in Hk. apply (blk_move _ h _ p R h found []); [done|]. constructor; [done|done|by left|congruence|unfold lk at 1; by rewrite Hlf, Hl|apply Hok|constructor|by left|by left|auto 10].
  - destruct Hk as [H1 H2]. rewrite HR in H1. apply Forall_cons in H1 as [_ H1]. unfold cons_on. rewrite Hba. split_and!; [by constructor|done|done].
Qed.

(** A buffer is made, unless there is one. *)
Lemma inv_alloc s t p p' junk b : inv s -> s_threads s !! t = Some p -> block_of p = Some b -> block_of p' = Some b -> lk p = 0%nat -> pending p = false -> filling p = false -> locking p' = false -> (forall h ios, pc_ok h ios p') -> is_new p' = is_new p ->
  inv (mk_sys (s_disk s) (alloc_buffer s b junk) (s_ios s ++ option_list None) (<[t := p']> (s_threads s))).
Proof.
  intros Hi Et Hb Hb' Hl Hpe Hfi Hl' Hok Hn. unfold alloc_buffer. apply (inv_thread s t p p' _ _ b); [done|done| |by left|by left|done|]; [intros b' Hne; case_match; [done|by rewrite lookup_insert_ne]|].
  intros R HR. destruct (Hi b) as [Ha Hk]. unfold cons_on in HR |- *. rewrite Hb in HR. rewrite Hb'. cbn [option_list app]. split.
  - destruct (s_bhs s !! b) as [h|] eqn:Eh; rewrite ?Eh, ?lookup_insert_eq.
    + apply (blk_ok_perm _ _ _ (ios_of s b) _ _ (Permutation_refl _) HR) in Hk. replace (p' :: R) with (cons_on p' R) by (unfold cons_on; by rewrite Hb'). apply (blk_move _ h _ p R h p' []); [done|]. constructor; [done|done|by left|congruence|unfold lk at 1; by rewrite Hl', Hl|apply Hok|constructor|by left|by left|auto 10].
    + destruct Hk as [H1 ->]. rewrite HR in H1. apply Forall_cons in H1 as [_ H1]. constructor; [|done|done|done|constructor; [apply Hok|]|constructor|done].
      * rewrite lockers_cons, early_lockers by done. unfold lk. by rewrite Hl'.
      * apply (Forall_impl _ _ _ H1). intros q. by destruct q.
  - apply (alone_replace _ p); [|done]. by apply (alone_perm (ios_of s b) _ (pcs s b)).
Qed.

Lemma ios_at (ios : list io) i b : (i < length ios)%nat -> exists R, (forall x, filter (fun y => io_blk y = b) (<[i := x]> ios) ≡ₚ if io_blk x =? b then x :: R else R) /\ filter (fun y => io_blk y = b) (delete i ios) = R.
Proof.
  intros Hi. exists (filter (fun y => io_blk y = b) (take i ios ++ drop (S i) ios)). split; [|by rewrite delete_take_drop]. intros x. rewrite insert_take_drop by done. rewrite <- Permutation_middle, filter_cons. destruct (Z.eqb_spec (io_blk x) b); [by rewrite decide_True|by rewrite decide_False].
Qed.

(** A request of block [b] is changed or removed. *)
Lemma inv_io s i w b dn d' m ios' : inv s -> s_ios s !! i = Some (mk_io w b dn) -> (forall b', b' <> b -> m !! b' = s_bhs s !! b') -> (forall b', b' <> b -> d' b' = s_disk s b') -> (forall b', b' <> b -> filter (fun y => io_blk y = b') ios' ≡ₚ ios_of s b') ->
  (exists R h', ios_of s b ≡ₚ mk_io w b dn :: R /\ m !! b = Some h' /\ exists X, filter (fun y => io_blk y = b) ios' ≡ₚ X /\ (X = R \/ exists y, X = y :: R) /\ forall h ps, s_bhs s !! b = Some h -> blk_ok (s_disk s b) h (mk_io w b dn :: R) ps -> alone (mk_io w b dn :: R) ps -> blk_ok (d' b) h' X ps) ->
  inv (mk_sys d' m ios' (s_threads s)).
Proof.
  intros Hi Ei Hm Hd Hios (R & h' & HR & Eh' & X & HX & HXR & Hok) b'. destruct (decide (b' = b)) as [->|Hne]; [|apply (blk_inv_frame s); [by apply Hm|by apply Hd|symmetry; by apply Hios|done|apply Hi]].
  destruct (Hi b) as [Ha Hb]. apply (alone_perm _ _ (pcs s b) (pcs s b) HR) in Ha; [|done]. unfold blk_inv. cbn [s_bhs s_disk]. rewrite Eh'. split.
  - eapply alone_perm; [symmetry; exact HX|reflexivity|]. destruct HXR as [->|[y ->]]; [by apply (alone_io _ (mk_io w b dn) R) in Ha as [_ Ha]|by apply (alone_io _ y R) in Ha as [Ha _]].
  - destruct (s_bhs s !! b) as [h|] eqn:Eh; [|destruct Hb as [_ Hb]; rewrite Hb in HR; by apply Permutation_nil_l in HR]. apply (blk_ok_perm _ _ X _ (pcs s b) _); [by symmetry|done|]. apply (Hok h); [done|by apply (blk_ok_perm _ _ (ios_of s b) _ (pcs s b))|done].
Qed.

(** The requests of other blocks. *)
Lemma ios_other s i w b ph b' : s_ios s !! i = Some (mk_io w b ph) -> b' <> b -> (forall ph', filter (fun y => io_blk y = b') (<[i := mk_io w b ph']> (s_ios s)) ≡ₚ ios_of s b') /\ filter (fun y => io_blk y = b') (delete i (s_ios s)) ≡ₚ ios_of s b'.
Proof.
  intros Ei Hne. pose proof (lookup_lt_Some _ _ _ Ei) as Hlt. destruct (ios_at (s_ios s) i b' Hlt) as (R & HR & ->). pose proof (HR (mk_io w b ph)) as H. rewrite list_insert_id in H by done. cbn [io_blk] in H. rewrite (proj2 (Z.eqb_neq b b')) in H by done.
  unfold ios_of. split; [|by rewrite H]. intros ph'. rewrite HR, H. cbn [io_blk]. by rewrite (proj2 (Z.eqb_neq b b')).
Qed.

Lemma existsb_false {A} (f : A -> bool) l x : negb (existsb f l) = true -> x ∈ l -> f x = false.
Proof. intros H%negb_true_iff Hx. destruct (f x) eqn:E; [|done]. assert (existsb f l = true) by (apply existsb_exists; exists x; by rewrite <- list_elem_of_In). congruence. Qed.

Lemma no_new s b : negb (existsb (fun p => on b p && is_new p) (s_threads s)) = true -> forall q, q ∈ pcs s b -> is_new q = false.
Proof. intros H q [Hq Hin]%list_elem_of_filter. apply (existsb_false _ _ q) in H; [|done]. cbn in H. rewrite Hq in H. done. Qed.

Lemma nobody s b : negb (existsb (on b) (s_threads s)) && negb (existsb (fun i => io_blk i =? b) (s_ios s)) = true -> pcs s b = [] /\ ios_of s b = [].
Proof.
  intros [H1 H2]%andb_true_iff. split; apply elem_of_nil_inv; intros x Hx; apply list_elem_of_filter in Hx as [Hx Hin].
  - apply (existsb_false _ _ x) in H1; [congruence|done].
  - apply (existsb_false _ _ x) in H2; [|done]. cbn in H2. by rewrite Hx, Z.eqb_refl in H2.
Qed.

(** A buffer cannot be made. *)
Lemma inv_leave s t p b : inv s -> s_threads s !! t = Some p -> block_of p = Some b -> early p = true -> filling p = false -> inv (mk_sys (s_disk s) (s_bhs s) (s_ios s ++ option_list None) (<[t := NoBuffer]> (s_threads s))).
Proof.
  intros Hi Et Hb He Hfi. apply (inv_thread s t p NoBuffer _ _ b); [done|done|done|by left|by right|done|]. intros R HR. destruct (Hi b) as [Ha Hk]. unfold cons_on in HR |- *. rewrite Hb in HR. cbn [block_of option_list app]. split.
  - destruct (s_bhs s !! b) as [h|]; [|destruct Hk as [H1 H2]; rewrite HR in H1; apply Forall_cons in H1 as [_ H1]; by split_and!].
    apply (blk_ok_perm _ _ _ (ios_of s b) _ _ (Permutation_refl _) HR) in Hk. apply (blk_move _ h _ p R h NoBuffer []); [done|].
    constructor; [done|done|by left|congruence|by destruct p|done|constructor|by left|by left|]. right; right; right; left. split_and!; [done|done|by destruct p].
  - apply (alone_perm _ (ios_of s b) _ _ (Permutation_refl _) HR) in Ha. intros q Hq Hn. destruct (Ha q) as [HE _]; [set_solver|done|]. injection HE as -> ->. set_solver.
Qed.

Lemma allowed_thread s t c p : allowed s (Thread t c) = true -> s_threads s !! t = Some p -> (c = Run -> forall b, p <> NewFilled b) /\ (forall b h, c = Run -> block_of p = Some b -> s_bhs s !! b = Some h -> fresh_bit h p).
Proof.
  intros Hal Et. split.
  - intros -> b ->. cbn in Hal. by rewrite Et in Hal.
  - intros b h -> Hb Eh. destruct p; try done. destruct r as [w|]; [|done]. injection Hb as ->. cbn in Hal. rewrite Et in Hal. unfold unchanged in Hal. rewrite Eh in Hal. by apply bool_decide_eq_true in Hal.
Qed.

Lemma thread_step_inv s t c p m p' r : inv s -> allowed s (Thread t c) = true -> s_threads s !! t = Some p -> thread_step s p c = Some (m, p', r) -> inv (mk_sys (s_disk s) m (s_ios s ++ option_list r) (<[t := p']> (s_threads s))).
Proof.
  intros Hi Hal Et Hs. destruct (allowed_thread s t c p Hal Et) as [Hc Hfr].
  assert (forall b, block_of p = Some b -> match s_bhs s !! b with Some h => match bh_step h p c with Some (h, p, r) => Some (<[b := h]> (s_bhs s), p, r) | None => None end | None => None end = Some (m, p', r) -> inv (mk_sys (s_disk s) m (s_ios s ++ option_list r) (<[t := p']> (s_threads s)))) as Hbh.
  { intros b Hb E. destruct (s_bhs s !! b) as [h|] eqn:Eh; [|done]. destruct (bh_step h p c) as [[[h1 p1] r1]|] eqn:Es; [|done]. injection E as <- <- <-. apply (inv_bh_step s t p c h); try done. destruct p; try done. destruct c; try (by destruct r as [w|]). by apply (Hfr b). }
  destruct p, c; try done; try (by apply (Hbh b)); cbn in Hs; injection Hs as <- <- <-.
  - apply (inv_enter s t _ b); try done. by apply no_new.
  - apply (inv_enter s t _ b); try done. by apply no_new.
  - destruct (nobody s b Hal) as [H1 H2]. apply (inv_enter s t _ b); try done. rewrite H1. set_solver.
  - apply (inv_enter s t _ b); try done. by apply no_new.
  - by apply (inv_get s t (BreadGet b)).
  - by apply (inv_alloc s t (BreadAlloc b)).
  - by apply (inv_leave s t (BreadAlloc b) b).
  - by apply (inv_get s t (BgetGet b)).
  - by apply (inv_alloc s t (BgetAlloc b)).
  - by apply (inv_leave s t (BgetAlloc b) b).
  - by apply (inv_get s t (BallocGet b)).
  - by apply (inv_alloc s t (BallocAlloc b)).
  - by apply (inv_leave s t (BallocAlloc b) b).
Qed.

Lemma allowed_complete s i w b ph h : allowed s (Complete i) = true -> s_ios s !! i = Some (mk_io w b ph) -> s_bhs s !! b = Some h -> fresh_phase h ph.
Proof.
  intros Hal Ei Eh. cbn in Hal. rewrite Ei in Hal. destruct ph as [|[w0|]|[w0|]|]; try done; unfold unchanged in Hal; rewrite Eh in Hal; by apply bool_decide_eq_true in Hal.
Qed.

Lemma cache_step_inv s a s' : inv s -> allowed s a = true -> sys_step s a = Some s' -> inv s'.
Proof.
  intros Hi Hal. destruct a as [t c|i|i]; cbn [sys_step].
  - destruct (s_threads s !! t) as [p|] eqn:Et; [|done]. destruct (thread_step s p c) as [[[m p'] r]|] eqn:Es; [|done]. intros [= <-]. by apply (thread_step_inv s t c p).
  - destruct (s_ios s !! i) as [[w b []]|] eqn:Ei; try done. destruct (s_bhs s !! b) as [h|] eqn:Eh; [|done]. pose proof (lookup_lt_Some _ _ _ Ei) as Hlt.
    destruct (ios_at (s_ios s) i b Hlt) as (R & HR & _). pose proof (HR (mk_io w b Queued)) as H. pose proof (HR (mk_io w b (EndNew None))) as H'. rewrite list_insert_id in H by done. cbn [io_blk] in H, H'. rewrite Z.eqb_refl in H, H'.
    destruct w; intros [= <-]; eapply (inv_io s i _ b Queued); try done.
    + intros b' Hne. unfold upd_disk. by rewrite (proj2 (Z.eqb_neq b' b)).
    + intros b' Hne. by apply (ios_other s i true b Queued).
    + exists R, h. split_and!; [done|done|]. exists (mk_io true b (EndNew None) :: R). split_and!; [done|right; by eexists|]. intros h0 ps E Hok _. replace h0 with h in * by congruence. unfold upd_disk. rewrite Z.eqb_refl. by apply transfer_write_ok in Hok.
    + intros b' Hne. by rewrite lookup_insert_ne.
    + intros b' Hne. by apply (ios_other s i false b Queued).
    + exists R, (set_data h (s_disk s b)). rewrite lookup_insert_eq. split_and!; [done|done|]. exists (mk_io false b (EndNew None) :: R). split_and!; [done|right; by eexists|]. intros h0 ps E Hok _. replace h0 with h in * by congruence. by apply transfer_read_ok in Hok.
  - destruct (s_ios s !! i) as [[w b ph]|] eqn:Ei; [|done]. destruct (s_bhs s !! b) as [h|] eqn:Eh; [|done]. destruct (bh_end_io h ph) as [[h' oph]|] eqn:Ee; [|done]. pose proof (lookup_lt_Some _ _ _ Ei) as Hlt.
    pose proof (allowed_complete s i w b ph h Hal Ei Eh) as Hfr. destruct (ios_at (s_ios s) i b Hlt) as (R & HR & HD). pose proof (HR (mk_io w b ph)) as H. rewrite list_insert_id in H by done. cbn [io_blk] in H. rewrite Z.eqb_refl in H.
    destruct oph as [ph'|]; intros [= <-]; apply (inv_io s i w b ph); try done; try (by intros b' Hne; rewrite lookup_insert_ne).
    + intros b' Hne. by apply (ios_other s i w b ph).
    + pose proof (HR (mk_io w b ph')) as H'. cbn [io_blk] in H'. rewrite Z.eqb_refl in H'. exists R, h'. rewrite lookup_insert_eq. split_and!; [done|done|]. exists (mk_io w b ph' :: R). split_and!; [done|right; by eexists|]. intros h0 ps E Hok Ha. replace h0 with h in * by congruence. by apply (end_io_ok _ h w b ph R ps h' (Some ph')).
    + intros b' Hne. by apply (ios_other s i w b ph).
    + exists R, h'. rewrite lookup_insert_eq. split_and!; [done|done|]. exists R. rewrite HD. split_and!; [done|by left|]. intros h0 ps E Hok Ha. replace h0 with h in * by congruence. by apply (end_io_ok _ h w b ph R ps h' None).
Qed.

(** ** Contents *)

Definition local_view (d : block) (h : buffer_head) (ps : list pc) : block := if negb (b_new h) || existsb filled ps then b_data h else d.

Lemma existsb_pcs b ts : existsb (fun p => on b p && filled p) ts = existsb filled (filter (fun p => on b p = true) ts).
Proof. induction ts as [|p ts IH]; [done|]. cbn [existsb]. rewrite filter_cons, IH. destruct (on b p); [by rewrite decide_True|by rewrite decide_False]. Qed.

Lemma view_local s b : view s b = match s_bhs s !! b with Some h => local_view (s_disk s b) h (pcs s b) | None => s_disk s b end.
Proof. unfold view, local_view, pcs. by rewrite existsb_pcs. Qed.

Lemma existsb_perm {A} (f : A -> bool) l l' : l ≡ₚ l' -> existsb f l = existsb f l'.
Proof. intros H. apply eq_iff_eq_true. rewrite !existsb_exists. split; intros (x & Hx & Hf); exists x; split; [|done| |done]; apply list_elem_of_In; apply list_elem_of_In in Hx; [by rewrite <- H|by rewrite H]. Qed.

Lemma local_view_perm d h ps ps' : ps ≡ₚ ps' -> local_view d h ps = local_view d h ps'.
Proof. intros H. unfold local_view. by rewrite (existsb_perm _ _ _ H). Qed.

Lemma not_filled ios ps : alone ios ps -> ios <> [] -> existsb filled ps = false.
Proof.
  intros Ha Hi. destruct (existsb filled ps) eqn:E; [|done]. apply existsb_exists in E as (p & Hp & Hf). destruct (Ha p) as [_ ?]; [by apply list_elem_of_In|by cases_pc p|done].
Qed.

Lemma bh_step_view d h ios p R c h' p' r b : blk_ok d h ios (p :: R) -> (c = Run -> forall b, p <> NewFilled b) -> fresh_bit h p -> block_of p = Some b -> bh_step h p c = Some (h', p', r) ->
  local_view d h' (cons_on p' R) = match c with Write x => x | _ => local_view d h (p :: R) end.
Proof.
  intros Hok Hc Hfr Hb Hs. pose proof (k_pcs _ _ _ _ Hok) as [Hp _]%Forall_cons. unfold local_view.
  cases_pc p; destruct c; try done; cbn in Hs; injection Hb as ->; cbn in Hp, Hfr; try (by destruct (Hc eq_refl b)).
  all: unfold mark_buffer_dirty in Hs; repeat match type of Hs with context [match ?x with _ => _ end] => destruct x eqn:? end; simplify_eq; cbn; try done; unfold b_new in *; cbn in *.
  all: try (unfold brelse; destruct (b_count h =? 0); cbn; done).
  all: try (rewrite Hp; done); try (by rewrite orb_true_r).
  all: match goal with H : st_new _ = _ |- _ => by rewrite H end.
Qed.

(** The contents of a block with a thread at [q]. *)
Definition view_with (d : block) (oh : option buffer_head) (b : Z) (q : pc) (R : list pc) : block :=
  match oh with Some h => local_view d h (if on b q then q :: R else R) | None => d end.

Lemma view_with_plain d oh b q R : filled q = false -> view_with d oh b q R = match oh with Some h => local_view d h R | None => d end.
Proof. intros Hf. unfold view_with, local_view. destruct (on b q); [|done]. cbn [existsb]. by rewrite Hf. Qed.

(** A step of a thread changes the contents of its block only by a write. *)
Lemma thread_step_view s t c p m p' r b : inv s -> allowed s (Thread t c) = true -> s_threads s !! t = Some p -> thread_step s p c = Some (m, p', r) ->
  view (mk_sys (s_disk s) m (s_ios s ++ option_list r) (<[t := p']> (s_threads s))) b = match c with Write x => if on b p then x else view s b | _ => view s b end.
Proof.
  intros Hi Hal Et Hs. destruct (allowed_thread s t c p Hal Et) as [Hc Hfr]. pose proof (lookup_lt_Some _ _ _ Et) as Ht. destruct (pcs_at (s_threads s) t b Ht) as [R HR]. pose proof (HR p) as HRp. rewrite list_insert_id in HRp by done. pose proof (HR p') as HRp'.
  assert (view s b = view_with (s_disk s b) (s_bhs s !! b) b p R) as Ev. { rewrite view_local. unfold view_with. destruct (s_bhs s !! b); [|done]. apply local_view_perm. exact HRp. }
  assert (view (mk_sys (s_disk s) m (s_ios s ++ option_list r) (<[t := p']> (s_threads s))) b = view_with (s_disk s b) (m !! b) b p' R) as ->. { rewrite view_local. unfold view_with. cbn [s_bhs s_disk]. destruct (m !! b); [|done]. apply local_view_perm. exact HRp'. }
  rewrite Ev. clear Ev. destruct (Hi b) as [_ Hok].
  assert (forall b0, block_of p = Some b0 -> match s_bhs s !! b0 with Some h => match bh_step h p c with Some (h, p, r) => Some (<[b0 := h]> (s_bhs s), p, r) | None => None end | None => None end = Some (m, p', r) ->
    view_with (s_disk s b) (m !! b) b p' R = match c with Write x => if on b p then x else view_with (s_disk s b) (s_bhs s !! b) b p R | _ => view_with (s_disk s b) (s_bhs s !! b) b p R end) as Hbh.
  { intros b0 Hb E. destruct (s_bhs s !! b0) as [h|] eqn:Eh; [|done]. destruct (bh_step h p c) as [[[h1 p1] r1]|] eqn:Es; [|done]. injection E as <- <- <-.
    assert (block_of p1 = Some b0 \/ block_of p1 = None) as Hp1 by (cases_pc p; destruct c; try done; cbn in Es; injection Hb as ->; unfold mark_buffer_dirty in Es; repeat case_match; simplify_eq; cbn; auto). assert (fresh_bit h p) as Hfr' by (destruct p; try done; destruct c; try (by destruct r as [w|]); by apply (Hfr b0)).
    destruct (decide (b = b0)) as [->|Hne].
    - assert (on b0 p = true) as Ho by (by apply on_block). unfold view_with. rewrite Ho, Eh, lookup_insert_eq. rewrite Eh in Hok. rewrite Ho in HRp. apply (blk_ok_perm _ _ _ (ios_of s b0) _ _ (Permutation_refl _) HRp) in Hok. rewrite <- (bh_step_view _ _ _ _ _ _ _ _ _ _ Hok Hc Hfr' Hb Es). f_equal. unfold on, cons_on. destruct Hp1 as [->| ->]; [by rewrite Z.eqb_refl|done].
    - assert (on b p = false /\ on b p1 = false) as [Ho Ho1]. { unfold on. rewrite Hb. split; [by apply Z.eqb_neq|]. destruct Hp1 as [->| ->]; [by apply Z.eqb_neq|done]. } unfold view_with. rewrite Ho, Ho1, lookup_insert_ne by done. by destruct c. }
  assert (forall b0 junk, match alloc_buffer s b0 junk !! b with Some h => local_view (s_disk s b) h R | None => s_disk s b end = match s_bhs s !! b with Some h => local_view (s_disk s b) h R | None => s_disk s b end) as Hnew.
  { intros b0 junk. unfold alloc_buffer. destruct (s_bhs s !! b0) as [h|] eqn:Eh; [done|]. destruct (decide (b = b0)) as [->|Hne]; [|by rewrite lookup_insert_ne]. rewrite lookup_insert_eq, Eh. rewrite Eh in Hok. destruct Hok as [Hear _]. unfold local_view. unfold b_new. cbn [b_state st_new new_bh negb orb].
    replace (existsb filled R) with false; [done|]. symmetry. apply not_true_iff_false. intros (q & Hq%list_elem_of_In & Hf)%existsb_exists. rewrite HRp in Hear. rewrite Forall_forall in Hear. assert (early q = true) by (apply Hear; case_match; set_solver). by destruct q. }
  destruct p, c; try done; try (by apply (Hbh b0)); cbn in Hs; injection Hs as <- <- <-; unfold get_buffer_head; try match goal with |- context [match s_bhs s !! ?x with Some _ => ?y | None => ?z end] => destruct (s_bhs s !! x) end; rewrite !view_with_plain by done; done || apply Hnew.
Qed.

(** The device changes no contents. *)
Lemma ios_in s i x : s_ios s !! i = Some x -> exists R, ios_of s (io_blk x) ≡ₚ x :: R.
Proof.
  intros Ei. pose proof (lookup_lt_Some _ _ _ Ei) as Hlt. destruct (ios_at (s_ios s) i (io_blk x) Hlt) as (R & HR & _). pose proof (HR x) as H. rewrite list_insert_id, Z.eqb_refl in H by done. by exists R.
Qed.

(** A request of a block, and a thread that fills it. *)
Lemma io_view s i w b ph h : inv s -> s_ios s !! i = Some (mk_io w b ph) -> s_bhs s !! b = Some h -> io_ok h (s_disk s b) (mk_io w b ph) /\ existsb filled (pcs s b) = false.
Proof.
  intros Hi Ei Eh. destruct (ios_in s i _ Ei) as [R HR]. cbn [io_blk] in HR. destruct (Hi b) as [Ha Hok]. rewrite Eh in Hok. pose proof (k_ios _ _ _ _ Hok) as Hio. rewrite HR in Hio. apply Forall_cons in Hio as [H _]. split; [done|].
  apply (not_filled (ios_of s b)); [done|]. intros E. rewrite E in HR. by apply Permutation_nil_l in HR.
Qed.

Lemma transfer_view s i s' b : inv s -> sys_step s (Transfer i) = Some s' -> view s' b = view s b.
Proof.
  intros Hi. cbn [sys_step]. destruct (s_ios s !! i) as [[w b' []]|] eqn:Ei; try done. destruct (s_bhs s !! b') as [h|] eqn:Eh; [|done].
  destruct (io_view s i w b' Queued h Hi Ei Eh) as [H1 H2]. cbn in H1.
  destruct w; intros [= <-]; rewrite !view_local; cbn [s_bhs s_disk]; (destruct (decide (b = b')) as [->|Hne]; [rewrite ?lookup_insert_eq, ?Eh|rewrite ?lookup_insert_ne by done; try done]); unfold local_view, pcs, b_new in *; cbn in *.
  - by rewrite H1.
  - unfold upd_disk. by rewrite (proj2 (Z.eqb_neq b b')).
  - by rewrite H1, H2.
Qed.

Lemma complete_view s i s' b : inv s -> allowed s (Complete i) = true -> sys_step s (Complete i) = Some s' -> view s' b = view s b.
Proof.
  intros Hi Hal. cbn [sys_step]. destruct (s_ios s !! i) as [[w b' ph]|] eqn:Ei; [|done]. destruct (s_bhs s !! b') as [h|] eqn:Eh; [|done].
  destruct (io_view s i w b' ph h Hi Ei Eh) as [H1 H2]. pose proof (allowed_complete s i w b' ph h Hal Ei Eh) as Hfr.
  assert (forall h' oph, bh_end_io h ph = Some (h', oph) -> local_view (s_disk s b') h' (pcs s b') = local_view (s_disk s b') h (pcs s b')) as Hv.
  { intros h' oph E. unfold local_view, b_new in *. rewrite H2. destruct ph as [|[w0|]|[w0|]|]; cbn in E, Hfr; simplify_eq; cbn; try done. destruct H1 as [Hn Hd]. cbn in Hn, Hd. unfold b_new in Hn. rewrite Hn. destruct w; [done|]. cbn. by apply Hd. }
  destruct (bh_end_io h ph) as [[h' [ph'|]]|]; [| |done]; intros [= <-]; rewrite !view_local; cbn [s_bhs s_disk]; (destruct (decide (b = b')) as [->|Hne]; [rewrite lookup_insert_eq, Eh|by rewrite lookup_insert_ne]); by eapply Hv.
Qed.

Lemma cache_reach_inv d n s : reach d n s -> inv s /\ Failed ∉ s_threads s.
Proof.
  induction 1 as [|s a s' Hr [Hi Hf] Hal Hs].
  - split; [|cbn; intros [E _]%elem_of_replicate; done]. intros b. assert (pcs (mk_sys d ∅ [] (replicate n Idle)) b = []) as Hp. { unfold pcs. cbn. induction n as [|n IH]; [done|]. cbn [replicate]. by rewrite filter_cons, decide_False. }
    unfold blk_inv. rewrite Hp. cbn. rewrite lookup_empty. split; [intros p ?; set_solver|by split].
  - split; [by apply (cache_step_inv s a)|]. destruct a as [t c|i|i]; cbn [sys_step] in Hs; [|repeat case_match; by simplify_eq/=..]. destruct (s_threads s !! t) as [p|] eqn:Et; [|done]. destruct (thread_step s p c) as [[[m p'] r]|] eqn:Es; [|done]. injection Hs as <-. cbn.
    intros (u & Eu)%list_elem_of_lookup. destruct (decide (u = t)) as [->|Hne]; [|rewrite list_lookup_insert_ne in Eu by done; apply Hf, list_elem_of_lookup; by exists u]. apply list_lookup_insert_Some in Eu as [(_ & -> & _)|[? _]]; [|done].
    assert (exists b h, block_of p = Some b /\ s_bhs s !! b = Some h /\ p = SlowDone b /\ b_uptodate h = false) as (b & h & Hb & Eh & -> & Hu). { cases_pc p; destruct c; cbn in Es; try done; unfold get_buffer_head, mark_buffer_dirty in Es; repeat case_match; simplify_eq; by eexists _, _. }
    destruct (Hi b) as [_ Hok]. rewrite Eh in Hok. pose proof (k_pcs _ _ _ _ Hok) as Hk. rewrite Forall_forall in Hk. specialize (Hk (SlowDone b)). cbn in Hk. rewrite Hk in Hu; [done|]. apply list_elem_of_filter. split; [by apply on_block|]. apply list_elem_of_lookup. by exists t.
Qed.


(** ** Examples *)

(** A run in which all actions are allowed. *)
Fixpoint run_allowed (s : sys) (l : list action) : option sys :=
  match l with
  | [] => Some s
  | a :: l => if allowed s a then match sys_step s a with Some s => run_allowed s l | None => None end else None
  end.

Lemma run_allowed_reach d n l : forall s s', reach d n s -> run_allowed s l = Some s' -> reach d n s'.
Proof. induction l as [|a l IH]; intros s s' Hr; cbn; [by intros [= <-]|]. destruct (allowed s a) eqn:Ea; [|done]. destruct (sys_step s a) as [s1|] eqn:Es; [|done]. apply IH. by apply (reach_step d n s a). Qed.

Definition ex_disk : disk := fun i => [i].
Definition by_thread (t : nat) (l : list choice) : list action := Thread t <$> l.
Definition device : list action := Transfer 0 :: replicate 5 (Complete 0).

(** Thread 0 reads block 5, changes it and writes it back. *)
Definition ex_run : list action :=
  by_thread 0 ([StartBread 5; Run; Alloc [0]] ++ replicate 5 Run) ++ device ++ by_thread 0 [Run; Run; Write [7]; Run; Run; Run; Release; StartSync 5; Run; Run; Run; Run; Run; Run] ++ device ++ by_thread 0 [Run].

Definition ex_sys : sys := match run_allowed (mk_sys ex_disk ∅ [] [Idle; Idle]) ex_run with Some s => s | None => mk_sys ex_disk ∅ [] [] end.

Lemma ex_sys_reach : reach ex_disk 2 ex_sys.
Proof. apply (run_allowed_reach ex_disk 2 ex_run (mk_sys ex_disk ∅ [] [Idle; Idle])); [apply (reach_init ex_disk 2)|]. vm_compute. reflexivity. Qed.

Definition ex_bh : buffer_head := mk_bh (mk_state false true false) false 0 [7].


(** A block filled through [sb_balloc] and only marked dirty, as the second
    index block of a file of SEFS is, is lost: the buffer does not count as
    current, and the next [sb_bread] fills it with the old contents of the
    disk, even though it is dirty. *)
Lemma balloc_without_uptodate_lost :
  match run (mk_sys ex_disk ∅ [] [Idle; Idle]) (by_thread 0 [StartBalloc 5; Run; Alloc [0]; Write [7]; Run; Run; Run] ++ by_thread 1 ([StartBread 5] ++ replicate 6 Run) ++ device ++ by_thread 1 [Run; Run]) with
  | Some s => s_threads s = [Idle; Hold 5] /\ exists h, s_bhs s !! 5 = Some h /\ b_dirty h = true /\ b_data h = [5]
  | None => False
  end.
Proof. vm_compute. split; [done|]. by eexists. Qed.

(** The marks of a buffer are not updated atomically.  Thread 0 reads block 5,
    and thread 1 gets the buffer as soon as [bh_end_io] has marked it as not
    new; it changes the contents and marks the buffer dirty between the load
    and the store of [set_buffer_uptodate].  The mark is lost: the contents
    differ from the disk, the buffer is clean, and nothing is under way. *)
Lemma overlapping_update_loses_dirty :
  match run (mk_sys ex_disk ∅ [] [Idle; Idle])
          (by_thread 0 ([StartBread 5; Run; Alloc [0]] ++ replicate 5 Run) ++ [Transfer 0; Complete 0; Complete 0; Complete 0] ++
           by_thread 1 [StartBget 5; Run; Run; Write [7]; Run; Run; Run; Put] ++ [Complete 0; Complete 0] ++ by_thread 0 [Run; Run; Release]) with
  | Some s => s_threads s = [Idle; Idle] /\ s_ios s = [] /\ s_disk s 5 = [5] /\
              exists h, s_bhs s !! 5 = Some h /\ b_dirty h = false /\ b_locked h = false /\ b_data h = [7]
  | None => False
  end.
Proof. vm_compute. split_and!; [done..|]. by eexists. Qed.
