(* ===== verification/DirtyPages.v ===== *)
(** * Dirty pages between libfs and the daemon

    Reads and writes of an application, [libfs/src/filesystem/read_write.c],
    on the mapped file and the page state it shares with the daemon
    ([devfs/include/common/shm.h]): per page the bits dirty, locked, up to date
    and skip-read, and per group of 8192 pages (32 MB) whether the group is
    set up and whether it has dirty pages.  The daemon collects the dirty pages
    of a file as ranges, [secure_daemon/src/libfs/shm.c]. *)

From S2P Require Import Prelude Bio.

(** ** Shared state *)

Definition PAGE_SIZE : Z := 4096.
Definition BITS_IN_PAGE : Z := PAGE_SIZE * 8.
Definition NR_PAGES_IN_PEB : Z := BITS_IN_PAGE / 4.
Definition PEB_COVERAGE : Z := PAGE_SIZE * BITS_IN_PAGE / 4.

Definition SHM_USE_JOURNAL : Z := 2 ^ 12.
Definition SHM_RUNNING_TX : Z := 2 ^ 13.
Definition SHM_I_DELETED : Z := 2 ^ 14.
Definition SHM_DATA_DIRTY : Z := 2 ^ 15.
Definition SHM_RUNNING_TX_REQUESTED : Z := 2 ^ 16.

(** ** Dirty page counters *)

Definition DIRTY_PAGE_UPDATE_GLOBAL_THRESHOLD : Z := 1024.
Definition DIRTY_PAGE_THRESHOLD : Z := 4096.

(** [proc_dirty_counter] of the process and the count of
    [global_dirty_counter]. *)
Record dirty_page_counter := mk_counter { proc_count : Z; proc_prev : Z; global_count : Z }.

Definition increment_dirty_page_count (c : dirty_page_counter) (count : Z) : dirty_page_counter :=
  let cur := u64 (proc_count c + count) in
  let diff := if proc_prev c <=? cur then cur - proc_prev c else 0 in
  if DIRTY_PAGE_UPDATE_GLOBAL_THRESHOLD <=? diff
  then mk_counter cur cur (u64 (global_count c + diff / DIRTY_PAGE_UPDATE_GLOBAL_THRESHOLD * DIRTY_PAGE_UPDATE_GLOBAL_THRESHOLD))
  else mk_counter cur (proc_prev c) (global_count c).

Definition clear_process_dirty_counter (c : dirty_page_counter) : dirty_page_counter :=
  let to_subtract := proc_prev c / DIRTY_PAGE_UPDATE_GLOBAL_THRESHOLD * DIRTY_PAGE_UPDATE_GLOBAL_THRESHOLD in
  mk_counter 0 0 (if to_subtract <=? global_count c then global_count c - to_subtract else 0).

(** The daemon's check: whether to start the background journal. *)
Definition check_and_reset_global_dirty_threshold (c : dirty_page_counter) : dirty_page_counter * bool :=
  if DIRTY_PAGE_THRESHOLD <=? global_count c then (mk_counter (proc_count c) (proc_prev c) 0, true) else (c, false).

(** ** Page state *)

(** [struct shm_shared_state] with the bitmaps behind it, and the counters of
    the writing process. *)
Record shm := mk_shm {
  i_size : Z;
  i_state : Z;
  alloc_bit : Z -> bool;
  group_bit : Z -> bool;
  dirty : Z -> bool;
  locked : Z -> bool;
  uptodate : Z -> bool;
  skipread : Z -> bool;
  counters : dirty_page_counter
}.

Definition set_bit (f : Z -> bool) (p : Z) (b : bool) : Z -> bool := fun q => if q =? p then b else f q.

Definition set_i_size (s : shm) (n : Z) : shm :=
  mk_shm n (i_state s) (alloc_bit s) (group_bit s) (dirty s) (locked s) (uptodate s) (skipread s) (counters s).
Definition set_i_state (s : shm) (n : Z) : shm :=
  mk_shm (i_size s) n (alloc_bit s) (group_bit s) (dirty s) (locked s) (uptodate s) (skipread s) (counters s).
Definition set_group (s : shm) (g : Z -> bool) : shm :=
  mk_shm (i_size s) (i_state s) (alloc_bit s) g (dirty s) (locked s) (uptodate s) (skipread s) (counters s).
Definition set_locked (s : shm) (l : Z -> bool) : shm :=
  mk_shm (i_size s) (i_state s) (alloc_bit s) (group_bit s) (dirty s) l (uptodate s) (skipread s) (counters s).
Definition set_dirty (s : shm) (d : Z -> bool) : shm :=
  mk_shm (i_size s) (i_state s) (alloc_bit s) (group_bit s) d (locked s) (uptodate s) (skipread s) (counters s).
Definition set_uptodate (s : shm) (u : Z -> bool) : shm :=
  mk_shm (i_size s) (i_state s) (alloc_bit s) (group_bit s) (dirty s) (locked s) u (skipread s) (counters s).
Definition set_skipread (s : shm) (k : Z -> bool) : shm :=
  mk_shm (i_size s) (i_state s) (alloc_bit s) (group_bit s) (dirty s) (locked s) (uptodate s) k (counters s).
Definition set_counters (s : shm) (c : dirty_page_counter) : shm :=
  mk_shm (i_size s) (i_state s) (alloc_bit s) (group_bit s) (dirty s) (locked s) (uptodate s) (skipread s) c.

(** Whether a bit of [i_state] of the mask is set. *)
Definition state_has (s : shm) (mask : Z) : bool := negb (Z.land (i_state s) mask =? 0).

Section shm.

(** Groups of the mapping: [OXBOW_MAX_FILE_SIZE] / 32 MB. *)
Context (PEB_NR : Z).

(** The group of a page. *)
Definition peb_of (pg_idx : Z) : Z := u64 (pg_idx * PAGE_SIZE) / PEB_COVERAGE.

(** [shm_alloc_check]: the bits of a group are cleared on first use; a group
    behind the mapping faults. *)
Definition shm_alloc_check (s : shm) (pg_idx : Z) : res shm :=
  let pos := peb_of pg_idx in
  if (pos <? BITS_IN_PAGE) && alloc_bit s pos then Ok s
  else
    let alloc := if pos <? BITS_IN_PAGE then set_bit (alloc_bit s) pos true else alloc_bit s in
    let clr f := fun p => if p / NR_PAGES_IN_PEB =? pos then false else f p in
    assert! (pos <? PEB_NR) in
    Ok (mk_shm (i_size s) (i_state s) alloc (group_bit s) (clr (dirty s)) (clr (locked s)) (clr (uptodate s)) (clr (skipread s)) (counters s)).

Fixpoint alloc_pages (s : shm) (pages : list Z) : res shm :=
  match pages with
  | [] => Ok s
  | pi :: pages => let* s := shm_alloc_check s pi in alloc_pages s pages
  end.

(** [lock_page_bit] spins until the page is unlocked. *)
Definition lock_page_bit (s : shm) (pg_idx : Z) : res shm :=
  wait! (negb (locked s pg_idx)) in Ok (set_locked s (set_bit (locked s) pg_idx true)).
Definition unlock_page_bit (s : shm) (pg_idx : Z) : shm := set_locked s (set_bit (locked s) pg_idx false).
Definition dirty_page_group (s : shm) (pg_idx : Z) : shm :=
  let pos := peb_of pg_idx in
  if BITS_IN_PAGE <=? pos then s else set_group s (set_bit (group_bit s) pos true).
Definition dirty_page_bit (s : shm) (pg_idx : Z) : shm :=
  let prev := dirty s pg_idx in
  let s := set_dirty s (set_bit (dirty s) pg_idx true) in
  if prev then s else set_counters s (increment_dirty_page_count (counters s) 1).
Definition uptodate_page_bit (s : shm) (pg_idx : Z) : shm := set_uptodate s (set_bit (uptodate s) pg_idx true).
Definition set_skipread_bit (s : shm) (pg_idx : Z) : shm := set_skipread s (set_bit (skipread s) pg_idx true).
Definition clear_skipread_bit (s : shm) (pg_idx : Z) : shm := set_skipread s (set_bit (skipread s) pg_idx false).

(** ** Journal hand-over *)

(** The result: whether a message was sent to the daemon. *)
Definition libfs_journal_start (s : shm) : shm * bool :=
  if state_has s (Z.lor SHM_RUNNING_TX SHM_RUNNING_TX_REQUESTED) then (s, false)
  else (set_i_state s (Z.lor (i_state s) SHM_RUNNING_TX_REQUESTED), true).

(** [answer]: the flags the daemon has set meanwhile. *)
Definition libfs_journal_end (s : shm) (answer : Z) : res shm :=
  let s := set_i_state s (Z.lor (i_state s) answer) in
  wait! (state_has s (Z.lor SHM_RUNNING_TX SHM_I_DELETED)) in
  Ok (set_i_state s (Z.ldiff (i_state s) SHM_RUNNING_TX_REQUESTED)).

(** ** Write *)

(** Mapped file contents and buffers are functions from offsets to bytes. *)
Definition memcpy (d : Z -> Z) (dst : Z) (src : Z -> Z) (ofs n : Z) : Z -> Z :=
  fun x => if (dst <=? x) && (x <? dst + n) then src (ofs + (x - dst)) else d x.

Record wstate := mk_w { w_shm : shm; w_data : Z -> Z; cur_ofs : Z; buf_ofs : Z; bytes_remain : Z }.

Definition bytes_to_copy (w : wstate) (pi : Z) : Z :=
  let n := u32 (PAGE_SIZE - (cur_ofs w - pi * PAGE_SIZE)) in
  if bytes_remain w <? n then bytes_remain w else n.

(** One page of [libfs_write]. *)
Definition write_page (f_size f_last_page : Z) (buf : Z -> Z) (w : wstate) (pi : Z) : res wstate :=
  let n := bytes_to_copy w pi in
  let* s := lock_page_bit (w_shm w) pi in
  let s :=
    if (f_last_page <? pi) || ((f_last_page =? 0) && (f_size =? 0)) then set_skipread_bit s pi
    else if n =? PAGE_SIZE then set_skipread_bit s pi
    else clear_skipread_bit s pi in
  let d := memcpy (w_data w) (cur_ofs w) buf (buf_ofs w) n in
  let s := unlock_page_bit (dirty_page_bit (uptodate_page_bit s pi) pi) pi in
  Ok (mk_w s d (cur_ofs w + n) (buf_ofs w + n) (u32 (bytes_remain w - n))).

Fixpoint write_pages (f_size f_last_page : Z) (buf : Z -> Z) (w : wstate) (pages : list Z) : res wstate :=
  match pages with
  | [] => Ok w
  | pi :: pages => let* w := write_page f_size f_last_page buf w pi in write_pages f_size f_last_page buf w pages
  end.

(** The groups marked for a write of more than 32 MB: one page per 32 MB.
    Fuel: the number of groups. *)
Fixpoint mark_groups (fuel : nat) (s : shm) (start end_ temp : Z) : shm :=
  match fuel with
  | O => s
  | S fuel =>
      if start + temp <? end_
      then mark_groups fuel (dirty_page_group s (start + temp)) start end_ (temp + PEB_COVERAGE / PAGE_SIZE)
      else s
  end.

Definition dirty_groups (s : shm) (count start end_ : Z) : shm :=
  if PEB_COVERAGE <? count
  then mark_groups (Z.to_nat (end_ - start + 1)) s start end_ 0
  else
    let s := dirty_page_group s start in
    if negb (end_ =? start) then dirty_page_group s end_ else s.

(** [libfs_write] of a file that is mapped: the shared state, the file and the
    new position.  [uninit]: [journalled] is not initialised for a file
    without journal. *)
Definition libfs_write (s : shm) (data : Z -> Z) (buf : Z -> Z) (count pos : Z) (answer : Z) (uninit : bool) :
    res (shm * (Z -> Z) * Z) :=
  let start := pos / PAGE_SIZE in
  let end_ := u64 (pos + count - 1) / PAGE_SIZE in
  let pages := seqz start (end_ + 1 - start) in
  let* s := alloc_pages s pages in
  let s := set_i_state s (Z.lor (i_state s) SHM_DATA_DIRTY) in
  let '(s, journalled) := if state_has s SHM_USE_JOURNAL then libfs_journal_start s else (s, uninit) in
  let f_size := i_size s in
  let size_updated := f_size <? u64 (pos + count) in
  let f_last_page := if negb (f_size =? 0) then (f_size - 1) / PAGE_SIZE else 0 in
  let s := dirty_groups s count start end_ in
  let* w := write_pages f_size f_last_page buf (mk_w s data pos 0 (u32 count)) pages in
  let s := w_shm w in
  let s := if size_updated then set_i_size s (u64 (pos + count)) else s in
  let* s := if journalled then libfs_journal_end s answer else Ok s in
  Ok (s, w_data w, pos + count).

(** ** Read *)

(** One page of [libfs_read]: buffer, offsets and bytes left. *)
Definition read_page (data : Z -> Z) (r : (Z -> Z) * Z * Z * Z) (pg_idx : Z) : (Z -> Z) * Z * Z * Z :=
  let '(buf, cur, bofs, remain) := r in
  let n := u64 (PAGE_SIZE - u64 (cur - u64 (pg_idx * PAGE_SIZE))) in
  let n := if remain <? n then remain else n in
  (memcpy buf bofs data cur n, u64 (cur + n), u64 (bofs + n), u64 (remain - n)).

(** [libfs_read]: the buffer and the number of bytes; [None] behind the end. *)
Definition libfs_read (s : shm) (data buf : Z -> Z) (count pos : Z) : option ((Z -> Z) * Z) :=
  let start := pos / PAGE_SIZE in
  let end_ := u64 (pos + count - 1) / PAGE_SIZE in
  let size := i_size s in
  if size <? pos then None
  else
    let read_bytes := if size <? u64 (pos + count) then size - pos else count in
    let '(buf, _, _, _) := foldl (read_page data) (buf, pos, 0, read_bytes) (seqz start (end_ + 1 - start)) in
    Some (buf, read_bytes).

End shm.

(** ** Counters *)

(** Counting pages one by one, the global count lags behind by less than 1024
    pages; the daemon's check fires from 4096 pages on, and leaving takes the
    process's share back. *)
Lemma dirty_page_count_estimate (k : nat) :
  Z.of_nat k < 2 ^ 63 ->
  let c := Nat.iter k (fun c => increment_dirty_page_count c 1) (mk_counter 0 0 0) in
  c = mk_counter (Z.of_nat k) (Z.of_nat k / 1024 * 1024) (Z.of_nat k / 1024 * 1024) /\
  (check_and_reset_global_dirty_threshold c).2 = (4096 <=? Z.of_nat k) /\ clear_process_dirty_counter c = mk_counter 0 0 0.
Proof.
  intros Hk c. assert (c = mk_counter (Z.of_nat k) (Z.of_nat k / 1024 * 1024) (Z.of_nat k / 1024 * 1024)) as Ec.
  { unfold c. clear c. induction k as [|k IH]; [done|]. rewrite Nat.iter_succ, IH by lia. unfold increment_dirty_page_count.
    cbn [proc_count proc_prev global_count]. change DIRTY_PAGE_UPDATE_GLOBAL_THRESHOLD with 1024.
    replace (Z.of_nat k + 1) with (Z.of_nat (S k)) by lia. rewrite u64_id by lia.
    rewrite (proj2 (Z.leb_le (Z.of_nat k / 1024 * 1024) (Z.of_nat (S k)))) by (Z.div_mod_to_equations; lia).
    destruct (Z.leb_spec 1024 (Z.of_nat (S k) - Z.of_nat k / 1024 * 1024)); [rewrite u64_id by (Z.div_mod_to_equations; lia)|];
      f_equal; Z.div_mod_to_equations; lia. }
  rewrite Ec. split; [done|]. unfold check_and_reset_global_dirty_threshold, clear_process_dirty_counter. cbn [proc_count proc_prev global_count].
  change DIRTY_PAGE_UPDATE_GLOBAL_THRESHOLD with 1024. change DIRTY_PAGE_THRESHOLD with 4096. rewrite Z.div_mul, Z.leb_refl, Z.sub_diag by lia.
  split; [|done]. destruct (Z.leb_spec 4096 (Z.of_nat k / 1024 * 1024)), (Z.leb_spec 4096 (Z.of_nat k)); try done; exfalso; Z.div_mod_to_equations; lia.
Qed.

(** ** Pages and groups *)

Lemma peb_of_eq p : 0 <= p < 2 ^ 52 -> peb_of p = p / 8192.
Proof.
  intros H. unfold peb_of. change PAGE_SIZE with 4096. change PEB_COVERAGE with 33554432.
  rewrite u64_id by lia. change 33554432 with (8192 * 4096). by rewrite Z.div_mul_cancel_r by lia.
Qed.

Lemma set_bit_eq f p b q : set_bit f p b q = if q =? p then b else f q.
Proof. done. Qed.

(** Data and dirty bits of a run of pages are written; locks are released. *)
Record pages_written (w w' : wstate) (buf : Z -> Z) (pi n : Z) : Prop := {
  pw_data x : w_data w' x = memcpy (w_data w) (cur_ofs w) buf (buf_ofs w) (bytes_remain w) x;
  pw_dirty p : dirty (w_shm w') p = dirty (w_shm w) p || (pi <=? p) && (p <? pi + n);
  pw_locked p : locked (w_shm w') p = locked (w_shm w) p;
  pw_group : group_bit (w_shm w') = group_bit (w_shm w);
  pw_alloc : alloc_bit (w_shm w') = alloc_bit (w_shm w);
  pw_size : i_size (w_shm w') = i_size (w_shm w);
  pw_state : i_state (w_shm w') = i_state (w_shm w)
}.

Lemma write_page_ok f_size f_last buf w pi :
  locked (w_shm w) pi = false -> 0 <= bytes_remain w < U32_MOD ->
  cur_ofs w / 4096 = pi \/ bytes_remain w = 0 /\ cur_ofs w <= 4096 * (pi + 1) ->
  exists w', write_page f_size f_last buf w pi = Ok w' /\
    let n := Z.min (bytes_remain w) (4096 * (pi + 1) - cur_ofs w) in
    cur_ofs w' = cur_ofs w + n /\ buf_ofs w' = buf_ofs w + n /\ bytes_remain w' = bytes_remain w - n /\
    w_data w' = memcpy (w_data w) (cur_ofs w) buf (buf_ofs w) n /\
    (forall p, dirty (w_shm w') p = dirty (w_shm w) p || (p =? pi)) /\
    (forall p, locked (w_shm w') p = locked (w_shm w) p) /\
    group_bit (w_shm w') = group_bit (w_shm w) /\ alloc_bit (w_shm w') = alloc_bit (w_shm w) /\
    i_size (w_shm w') = i_size (w_shm w) /\ i_state (w_shm w') = i_state (w_shm w).
Proof.
  intros Hl Hr Hpi. unfold write_page, lock_page_bit. rewrite Hl. cbn [negb wait_until res_bind].
  assert (bytes_to_copy w pi = Z.min (bytes_remain w) (4096 * (pi + 1) - cur_ofs w)) as E.
  { unfold bytes_to_copy. change PAGE_SIZE with 4096. destruct Hpi as [Hpi|[Hz Hpi]].
    2:{ rewrite Hz. pose proof (u32_range (4096 - (cur_ofs w - pi * 4096))).
        destruct (Z.ltb_spec 0 (u32 (4096 - (cur_ofs w - pi * 4096)))); lia. }
    assert (0 <= cur_ofs w - 4096 * pi < 4096) as Ho by (Z.div_mod_to_equations; lia). rewrite u32_id by lia.
    destruct (Z.ltb_spec (bytes_remain w) (4096 - (cur_ofs w - pi * 4096))); lia. }
  rewrite E. set (n := Z.min _ _).
  assert (0 <= n <= bytes_remain w) by (unfold n; destruct Hpi as [Hpi|[Hz Hpi]]; [Z.div_mod_to_equations|]; lia).
  rewrite (u32_id (bytes_remain w - n)) by lia. eexists. split; [done|]. cbn [w_shm w_data cur_ofs buf_ofs bytes_remain].
  destruct ((f_last <? pi) || (f_last =? 0) && (f_size =? 0)); [|destruct (n =? PAGE_SIZE)];
    unfold dirty_page_bit; destruct (dirty (uptodate_page_bit _ pi) pi); split_and!; try done;
    intros p; cbn; unfold set_bit; destruct (Z.eqb_spec p pi) as [-> | ?]; by rewrite ?orb_true_r, ?orb_false_r.
Qed.

(** All pages are marked; the bytes left at the start are copied, the pages
    behind them get none. *)
Lemma write_pages_ok f_size f_last buf n : forall w pi,
  0 <= bytes_remain w < U32_MOD ->
  cur_ofs w / 4096 = pi \/ bytes_remain w = 0 /\ cur_ofs w <= 4096 * (pi + 1) ->
  cur_ofs w + bytes_remain w <= 4096 * (pi + Z.of_nat n + 1) ->
  (forall p, pi <= p <= pi + Z.of_nat n -> locked (w_shm w) p = false) ->
  exists w', write_pages f_size f_last buf w (seqz pi (Z.of_nat n + 1)) = Ok w' /\ pages_written w w' buf pi (Z.of_nat n + 1).
Proof.
  induction n as [|n IH]; intros w pi Hr Hpi Hend Hl; rewrite seqz_cons by lia; cbn [write_pages];
    destruct (write_page_ok f_size f_last buf w pi (Hl pi ltac:(lia)) Hr Hpi)
      as (w1 & -> & Hc & Hb & Hrm & Hd & Hdi & Hlo & Hg & Ha & Hsz & Hst); cbn [res_bind].
  - replace (Z.min _ _) with (bytes_remain w) in * by lia.
    rewrite seqz_nil by lia. exists w1. split; [done|]. split; try done; [by rewrite Hd|].
    intros p. rewrite Hdi. f_equal. destruct (Z.eqb_spec p pi), (Z.leb_spec pi p), (Z.ltb_spec p (pi + (Z.of_nat 0 + 1))); cbn; lia || done.
  - replace (Z.of_nat (S n) + 1 - 1) with (Z.of_nat n + 1) by lia.
    set (k := Z.min (bytes_remain w) (4096 * (pi + 1) - cur_ofs w)) in *.
    assert (0 <= k <= bytes_remain w) as Hk by (unfold k; destruct Hpi as [Hpi|[Hz Hpi]]; [Z.div_mod_to_equations|]; lia).
    assert (k = Z.min (bytes_remain w) (4096 * (pi + 1) - cur_ofs w)) as Ek by done. clearbody k.
    destruct (IH w1 (pi + 1)) as (w' & E & [P1 P2 P3 P4 P5 P6 P7]).
    + lia.
    + rewrite Hc, Hrm. destruct (decide (k = bytes_remain w)) as [->|Hne]; [right; lia|left].
      replace (cur_ofs w + k) with ((pi + 1) * 4096) by lia. by rewrite Z.div_mul.
    + lia.
    + intros p Hp. rewrite Hlo. apply Hl. lia.
    + exists w'. split; [done|]. split; try congruence.
      * intros x. rewrite P1, Hd, Hc, Hb, Hrm. unfold memcpy.
        destruct (Z.leb_spec (cur_ofs w + k) x), (Z.leb_spec (cur_ofs w) x), (Z.ltb_spec x (cur_ofs w + k + (bytes_remain w - k))),
          (Z.ltb_spec x (cur_ofs w + k)), (Z.ltb_spec x (cur_ofs w + bytes_remain w)); cbn; try lia; try done; f_equal; lia.
      * intros p. rewrite P2, Hdi, <- orb_assoc. f_equal.
        destruct (Z.eqb_spec p pi), (Z.leb_spec pi p), (Z.leb_spec (pi + 1) p), (Z.ltb_spec p (pi + (Z.of_nat (S n) + 1))),
          (Z.ltb_spec p (pi + 1 + (Z.of_nat n + 1))); cbn; lia || done.
Qed.

(** A locked page stops the write. *)
Lemma write_pages_locked f_size f_last buf p pages : forall w,
  p ∈ pages -> locked (w_shm w) p = true -> write_pages f_size f_last buf w pages = Blocked.
Proof.
  induction pages as [|q pages IH]; intros w Hin Hl; [by apply not_elem_of_nil in Hin|]. cbn [write_pages]. unfold write_page, lock_page_bit.
  destruct (locked (w_shm w) q) eqn:Eq; [done|]. cbn [negb wait_until res_bind].
  apply elem_of_cons in Hin as [->|Hin]; [congruence|]. assert (p <> q) by congruence. apply IH; [done|]. cbn [w_shm].
  set (n := bytes_to_copy w q).
  destruct ((f_last <? q) || (f_last =? 0) && (f_size =? 0)); [|destruct (n =? PAGE_SIZE)];
    unfold dirty_page_bit; destruct (dirty (uptodate_page_bit _ q) q); cbn; unfold set_bit;
    (destruct (Z.eqb_spec p q); [done|by rewrite Hl]).
Qed.

(** ** Invariant of the shared state *)

(** The group of a dirty page is marked, and a group that is not set up has no
    dirty or locked page. *)
Record tracked (s : shm) : Prop := {
  tr_group p : 0 <= p -> dirty s p = true -> group_bit s (p / 8192) = true;
  tr_alloc p : 0 <= p -> alloc_bit s (p / 8192) = false -> dirty s p = false /\ locked s p = false
}.

(** Same dirty pages, locks, groups, size and flags. *)
Record same_pages (s s' : shm) : Prop := {
  sp_dirty p : dirty s' p = dirty s p;
  sp_locked p : locked s' p = locked s p;
  sp_group g : group_bit s' g = group_bit s g;
  sp_size : i_size s' = i_size s;
  sp_state : i_state s' = i_state s
}.

Section write.
Context (PEB_NR : Z).
Hypothesis HPEB : PEB_NR <= 32768.

Lemma shm_alloc_check_ok s p :
  tracked s -> 0 <= p < 2 ^ 52 -> p / 8192 < PEB_NR ->
  exists s', shm_alloc_check PEB_NR s p = Ok s' /\ tracked s' /\ same_pages s s' /\
    alloc_bit s' (p / 8192) = true /\ (forall g, alloc_bit s g = true -> alloc_bit s' g = true).
Proof.
  intros [Hg Ha] Hp Hn. unfold shm_alloc_check. rewrite peb_of_eq by done. change BITS_IN_PAGE with 32768.
  change NR_PAGES_IN_PEB with 8192. rewrite (proj2 (Z.ltb_lt (p / 8192) 32768)), (proj2 (Z.ltb_lt _ PEB_NR)) by lia. cbn [andb assert_].
  destruct (alloc_bit s (p / 8192)) eqn:Eb; [exists s; split_and!; done|].
  assert (0 <= p / 8192) by (apply Z.div_pos; lia).
  assert (forall q, q / 8192 = p / 8192 -> dirty s q = false /\ locked s q = false) as Hclr.
  { intros q Hq. apply Ha; [Z.div_mod_to_equations; lia|by rewrite Hq]. }
  assert (forall q, (if q / 8192 =? p / 8192 then false else dirty s q) = dirty s q) as Hd.
  { intros q. destruct (Z.eqb_spec (q / 8192) (p / 8192)) as [E|]; [|done]. by destruct (Hclr q E). }
  assert (forall q, (if q / 8192 =? p / 8192 then false else locked s q) = locked s q) as Hlo.
  { intros q. destruct (Z.eqb_spec (q / 8192) (p / 8192)) as [E|]; [|done]. by destruct (Hclr q E). }
  eexists. split; [done|]. split_and!.
  - split; cbn [dirty locked group_bit alloc_bit]; intros q Hq; rewrite Hd; [by apply Hg|]. unfold set_bit. rewrite Hlo.
    destruct (_ =? _); [done|]. by apply Ha.
  - by split.
  - cbn. unfold set_bit. by rewrite Z.eqb_refl.
  - intros g. cbn. unfold set_bit. by destruct (_ =? _).
Qed.

Lemma same_pages_trans s1 s2 s3 : same_pages s1 s2 -> same_pages s2 s3 -> same_pages s1 s3.
Proof. intros [] []. split; intros; congruence. Qed.

Lemma alloc_pages_ok pages : forall s,
  tracked s -> Forall (fun p => 0 <= p < 2 ^ 52 /\ p / 8192 < PEB_NR) pages ->
  exists s', alloc_pages PEB_NR s pages = Ok s' /\ tracked s' /\ same_pages s s' /\
    (forall p, p ∈ pages -> alloc_bit s' (p / 8192) = true) /\ (forall g, alloc_bit s g = true -> alloc_bit s' g = true).
Proof.
  induction pages as [|p pages IH]; intros s Ht Hp; cbn [alloc_pages].
  { exists s. split; [done|]. split; [done|]. split; [done|]. split; [|done]. intros p Hp'. inversion Hp'. }
  apply Forall_cons in Hp as [[Hp Hn] Hps].
  destruct (shm_alloc_check_ok s p Ht Hp Hn) as (s1 & -> & Ht1 & Hs1 & Hp1 & Hm1). cbn [res_bind].
  destruct (IH s1 Ht1 Hps) as (s2 & -> & Ht2 & Hs2 & Hp2 & Hm2). exists s2. split; [done|]. split; [done|].
  split; [by eapply same_pages_trans|]. split; [|auto]. intros q [-> | Hq]%elem_of_cons; auto.
Qed.

(** The groups of a write of at most 32 MB. *)
Lemma dirty_groups_ok s count pos :
  0 <= pos -> 0 < count <= PEB_COVERAGE -> (pos + count - 1) / 4096 < 2 ^ 28 ->
  let s' := dirty_groups s count (pos / 4096) ((pos + count - 1) / 4096) in
  (forall p, pos / 4096 <= p <= (pos + count - 1) / 4096 -> group_bit s' (p / 8192) = true) /\
  (forall g, group_bit s g = true -> group_bit s' g = true) /\
  dirty s' = dirty s /\ locked s' = locked s /\ alloc_bit s' = alloc_bit s /\ i_size s' = i_size s /\ i_state s' = i_state s.
Proof.
  change PEB_COVERAGE with 33554432. intros Hpos Hc Hm. set (a := pos / 4096). set (b := (pos + count - 1) / 4096) in *.
  assert (0 <= a <= b /\ b <= a + 8192) as Hab by (unfold a, b; Z.div_mod_to_equations; lia).
  assert (forall s p, a <= p <= b ->
            dirty_page_group s p = set_group s (set_bit (group_bit s) (p / 8192) true)) as Hdg.
  { intros s0 p Hp. unfold dirty_page_group. rewrite peb_of_eq by lia. change BITS_IN_PAGE with 32768.
    rewrite (proj2 (Z.leb_gt 32768 (p / 8192))); [done|]. Z.div_mod_to_equations; lia. }
  unfold dirty_groups. change PEB_COVERAGE with 33554432. rewrite (proj2 (Z.ltb_ge 33554432 count)) by lia.
  rewrite (Hdg s a) by lia. destruct (Z.eqb_spec b a) as [Eab|Nab]; cbn [negb].
  - split_and!; try done; intros p; cbn; unfold set_bit; [intros Hp|by destruct (_ =? _)].
    assert (p = a) as -> by lia. by rewrite Z.eqb_refl.
  - rewrite Hdg by lia. split_and!; try done; intros p; cbn; unfold set_bit; [intros Hp|].
    + destruct (Z.eqb_spec (p / 8192) (b / 8192)), (Z.eqb_spec (p / 8192) (a / 8192)); try done.
      exfalso. Z.div_mod_to_equations; lia.
    + by repeat destruct (_ =? _).
Qed.

Lemma journal_end_ok s answer : Z.testbit answer 13 = true ->
  exists s', libfs_journal_end s answer = Ok s' /\ dirty s' = dirty s /\ locked s' = locked s /\ group_bit s' = group_bit s /\
    alloc_bit s' = alloc_bit s /\ i_size s' = i_size s.
Proof.
  intros H. unfold libfs_journal_end. eexists. unfold state_has.
  destruct (Z.eqb_spec (Z.land (i_state (set_i_state s (Z.lor (i_state s) answer))) (Z.lor SHM_RUNNING_TX SHM_I_DELETED)) 0) as [E | E].
  - apply (f_equal (fun z => Z.testbit z 13)) in E. cbn [i_state set_i_state] in E.
    rewrite Z.land_spec, Z.lor_spec, H, orb_true_r, Z.bits_0 in E. done.
  - split; [done|]. done.
Qed.

(** What a write does to the file and the shared state. *)
Record written (s s' : shm) (data data' buf : Z -> Z) (count pos : Z) : Prop := {
  wr_tracked : count <= PEB_COVERAGE -> tracked s';
  wr_data x : data' x = memcpy data pos buf 0 (u32 count) x;
  wr_dirty p : dirty s' p = dirty s p || (pos / 4096 <=? p) && (p <=? (pos + count - 1) / 4096);
  wr_locked p : locked s' p = locked s p;
  wr_size : i_size s' = Z.max (i_size s) (pos + count);
  wr_group g : group_bit s' g = group_bit (dirty_groups s count (pos / 4096) ((pos + count - 1) / 4096)) g
}.

(** Marking groups looks at nothing else and changes nothing else. *)
Definition same_but_group (s s' : shm) : Prop :=
  dirty s' = dirty s /\ locked s' = locked s /\ alloc_bit s' = alloc_bit s /\ i_size s' = i_size s.

Lemma dirty_page_group_frame s p : same_but_group s (dirty_page_group s p).
Proof. unfold dirty_page_group. by destruct (_ <=? _). Qed.

Lemma mark_groups_frame fuel : forall s a b t, same_but_group s (mark_groups fuel s a b t).
Proof.
  induction fuel as [|fuel IH]; intros s a b t; cbn [mark_groups]; [done|]. destruct (_ <? _); [|done].
  destruct (IH (dirty_page_group s (a + t)) a b (t + PEB_COVERAGE / PAGE_SIZE)) as (E1 & E2 & E3 & E4).
  destruct (dirty_page_group_frame s (a + t)) as (F1 & F2 & F3 & F4). unfold same_but_group. split_and!; congruence.
Qed.

Lemma dirty_groups_frame s count a b : same_but_group s (dirty_groups s count a b).
Proof.
  unfold dirty_groups. destruct (_ <? _); [apply mark_groups_frame|]. destruct (negb _); [|apply dirty_page_group_frame].
  destruct (dirty_page_group_frame s a) as (E1 & E2 & E3 & E4).
  destruct (dirty_page_group_frame (dirty_page_group s a) b) as (F1 & F2 & F3 & F4). unfold same_but_group. split_and!; congruence.
Qed.

Definition group_eq (s s' : shm) : Prop := forall g, group_bit s' g = group_bit s g.

Lemma dirty_page_group_ext s s' p : group_eq s s' -> group_eq (dirty_page_group s p) (dirty_page_group s' p).
Proof.
  intros H g. unfold dirty_page_group. destruct (_ <=? _); [apply H|]. cbn. unfold set_bit. by rewrite H.
Qed.

Lemma mark_groups_ext fuel : forall s s' a b t, group_eq s s' -> group_eq (mark_groups fuel s a b t) (mark_groups fuel s' a b t).
Proof.
  induction fuel as [|fuel IH]; intros s s' a b t H; cbn [mark_groups]; [done|]. destruct (_ <? _); [|done].
  by apply IH, dirty_page_group_ext.
Qed.

Lemma dirty_groups_ext s s' count a b : group_eq s s' -> group_eq (dirty_groups s count a b) (dirty_groups s' count a b).
Proof.
  intros H. unfold dirty_groups. destruct (_ <? _); [by apply mark_groups_ext|].
  destruct (negb _); [|by apply dirty_page_group_ext]. by do 2 apply dirty_page_group_ext.
Qed.

Lemma libfs_write_ok s data buf count pos answer uninit :
  tracked s -> 0 <= pos -> 0 < count -> pos + count <= PEB_NR * PEB_COVERAGE ->
  (forall p, pos / 4096 <= p <= (pos + count - 1) / 4096 -> locked s p = false) -> Z.testbit answer 13 = true ->
  exists s' data', libfs_write PEB_NR s data buf count pos answer uninit = Ok (s', data', pos + count) /\
    written s s' data data' buf count pos.
Proof.
  change PEB_COVERAGE with 33554432. intros Ht Hpos Hc Hn Hl Hans. unfold libfs_write. change PAGE_SIZE with 4096.
  rewrite (u64_id (pos + count - 1)), (u64_id (pos + count)) by lia.
  set (a := pos / 4096). set (b := (pos + count - 1) / 4096) in *.
  assert (0 <= a <= b /\ b < 8192 * PEB_NR) as Hab by (unfold a, b; Z.div_mod_to_equations; lia).
  destruct (alloc_pages_ok (seqz a (b + 1 - a)) s Ht) as (s1 & -> & Ht1 & Hs1 & Hal & _).
  { apply Forall_forall. intros p Hp%elem_of_seqz. split; [lia|]. Z.div_mod_to_equations; lia. }
  cbn [res_bind]. set (s2 := set_i_state s1 _).
  set (r := if state_has s2 SHM_USE_JOURNAL then libfs_journal_start s2 else (s2, uninit)).
  assert (same_but_group s2 r.1 /\ group_bit r.1 = group_bit s2) as [Hs3 Hg3].
  { unfold r. destruct (state_has _ _); [|done]. unfold libfs_journal_start. by destruct (state_has _ _). }
  assert (r = (r.1, r.2)) as -> by by destruct r. set (s3 := r.1) in *. set (jn := r.2).
  destruct (dirty_groups_frame s3 count a b) as (D1 & D2 & D3 & D4). set (s4 := dirty_groups s3 count a b) in *.
  destruct Hs3 as (E1 & E2 & E3 & E4). destruct Hs1 as [F1 F2 F3 F4 _].
  pose proof (u32_range count) as Hu. assert (u32 count <= count) as Hle by (apply Z.mod_le; lia).
  set (w0 := mk_w s4 data pos 0 (u32 count)).
  destruct (write_pages_ok (i_size s3) (if negb (i_size s3 =? 0) then (i_size s3 - 1) / 4096 else 0) buf (Z.to_nat (b - a)) w0 a)
    as (w1 & Ew & [P1 P2 P3 P4 P5 P6 _]).
  { cbn. lia. } { by left. } { cbn. unfold b. Z.div_mod_to_equations. lia. }
  { intros p Hp. cbn. rewrite D2, E2. cbn. rewrite F2. apply Hl. lia. }
  replace (Z.of_nat (Z.to_nat (b - a)) + 1) with (b + 1 - a) in * by lia. rewrite Ew. cbn [res_bind].
  set (s5 := if i_size s3 <? pos + count then set_i_size (w_shm w1) (pos + count) else w_shm w1).
  assert (exists s6, (if jn then libfs_journal_end s5 answer else Ok s5) = Ok s6 /\ dirty s6 = dirty s5 /\ locked s6 = locked s5 /\
            group_bit s6 = group_bit s5 /\ alloc_bit s6 = alloc_bit s5 /\ i_size s6 = i_size s5) as (s6 & -> & G1 & G2 & G3 & G4 & G5).
  { destruct jn; [by apply journal_end_ok|]. by exists s5. }
  assert (dirty s5 = dirty (w_shm w1) /\ locked s5 = locked (w_shm w1) /\ group_bit s5 = group_bit (w_shm w1) /\
          alloc_bit s5 = alloc_bit (w_shm w1)) as (I1 & I2 & I3 & I4) by (unfold s5; by destruct (_ <? _)).
  cbn [res_bind]. eexists _, _. split; [done|].
  assert (forall p, dirty s6 p = dirty s p || (a <=? p) && (p <=? b)) as Hd.
  { intros p. rewrite G1, I1, P2. cbn [w0 w_shm]. rewrite D1, E1. cbn. rewrite F1. f_equal. f_equal.
    destruct (Z.ltb_spec p (a + (b + 1 - a))), (Z.leb_spec p b); lia || done. }
  assert (forall p, locked s6 p = locked s p) as Hlk.
  { intros p. rewrite G2, I2, P3. cbn [w0 w_shm]. rewrite D2, E2. cbn. apply F2. }
  assert (group_eq s s3) as Hge by (intros g; rewrite Hg3; apply F3).
  assert (forall g, group_bit s6 g = group_bit (dirty_groups s count a b) g) as Hgr.
  { intros g. rewrite G3, I3, P4. cbn [w0 w_shm]. by apply dirty_groups_ext. }
  split; try done.
  - intros Hsmall. split.
    + intros p Hp Hdp. rewrite Hgr. rewrite Hd in Hdp.
      destruct (dirty_groups_ok s count pos Hpos ltac:(lia)) as (K1 & K2 & _); [fold b; lia|]. fold a b in K1, K2.
      destruct (Z.leb_spec a p), (Z.leb_spec p b); cbn in Hdp; [apply K1; lia|..];
        rewrite orb_false_r in Hdp; by apply K2, (tr_group s Ht).
    + intros p Hp Hap. rewrite G4, I4, P5 in Hap. cbn [w0 w_shm] in Hap. rewrite D3, E3 in Hap. cbn in Hap.
      rewrite Hlk, Hd. destruct (tr_alloc s1 Ht1 p Hp Hap) as [J1 J2]. rewrite F1 in J1. rewrite F2 in J2. rewrite J1. split; [|done]. cbn.
      destruct (Z.leb_spec a p), (Z.leb_spec p b); cbn; try done. rewrite Hal in Hap; [done|]. apply elem_of_seqz. lia.
  - rewrite G5. unfold s5. rewrite E4. cbn [s2 i_size set_i_state]. rewrite F4.
    destruct (Z.ltb_spec (i_size s) (pos + count)); cbn [set_i_size i_size]; [lia|].
    rewrite P6. cbn [w0 w_shm]. rewrite D4, E4. cbn. rewrite F4. lia.
Qed.

Lemma libfs_write_locked s data buf count pos answer uninit p :
  tracked s -> 0 <= pos -> 0 < count -> pos + count <= PEB_NR * PEB_COVERAGE ->
  pos / 4096 <= p <= (pos + count - 1) / 4096 -> locked s p = true ->
  libfs_write PEB_NR s data buf count pos answer uninit = Blocked.
Proof.
  change PEB_COVERAGE with 33554432. intros Ht Hpos Hc Hn Hp Hl. unfold libfs_write. change PAGE_SIZE with 4096.
  rewrite (u64_id (pos + count - 1)), (u64_id (pos + count)) by lia.
  set (a := pos / 4096) in *. set (b := (pos + count - 1) / 4096) in *.
  assert (0 <= a <= b /\ b < 8192 * PEB_NR) as Hab by (unfold a, b; Z.div_mod_to_equations; lia).
  destruct (alloc_pages_ok (seqz a (b + 1 - a)) s Ht) as (s1 & -> & _ & Hs1 & _).
  { apply Forall_forall. intros q Hq%elem_of_seqz. split; [lia|]. Z.div_mod_to_equations; lia. }
  cbn [res_bind]. set (s2 := set_i_state s1 _).
  set (r := if state_has s2 SHM_USE_JOURNAL then libfs_journal_start s2 else (s2, uninit)).
  assert (locked r.1 = locked s2) as Hr.
  { unfold r. destruct (state_has _ _); [|done]. unfold libfs_journal_start. by destruct (state_has _ _). }
  assert (r = (r.1, r.2)) as -> by by destruct r.
  destruct (dirty_groups_frame r.1 count a b) as (_ & D2 & _).
  rewrite (write_pages_locked _ _ _ p); [done|apply elem_of_seqz; lia|].
  cbn [w_shm]. rewrite D2, Hr. cbn. by rewrite (sp_locked _ _ Hs1).
Qed.
End write.

(** ** Reads *)

Lemma read_pages_done data pages : forall buf cur bofs x, 0 <= cur < U64_MOD -> 0 <= bofs < U64_MOD ->
  (foldl (read_page data) (buf, cur, bofs, 0) pages).1.1.1 x = buf x.
Proof.
  induction pages as [|p pages IH]; intros buf cur bofs x Hc Hb; [done|]. cbn [foldl read_page].
  set (n := if 0 <? _ then 0 else _). assert (n = 0) as ->.
  { unfold n. destruct (Z.ltb_spec 0 (u64 (PAGE_SIZE - u64 (cur - u64 (p * PAGE_SIZE))))); [done|].
    pose proof (u64_range (PAGE_SIZE - u64 (cur - u64 (p * PAGE_SIZE)))). lia. }
  rewrite Z.sub_0_r, !Z.add_0_r, (u64_id cur), (u64_id bofs) by lia. change (u64 0) with 0. rewrite IH by done.
  unfold memcpy. destruct (Z.leb_spec bofs x), (Z.ltb_spec x (bofs + 0)); cbn; lia || done.
Qed.

Lemma read_pages_ok data n : forall buf cur bofs remain pi x,
  0 <= cur -> cur / 4096 = pi -> 0 < remain -> cur + remain < 2 ^ 63 -> 0 <= bofs -> bofs + remain < 2 ^ 63 ->
  (cur + remain - 1) / 4096 <= pi + Z.of_nat n ->
  (foldl (read_page data) (buf, cur, bofs, remain) (seqz pi (Z.of_nat n + 1))).1.1.1 x = memcpy buf bofs data cur remain x.
Proof.
  induction n as [|n IH]; intros buf cur bofs remain pi x Hc Hpi Hr Hm Hb Hm' Hend; rewrite seqz_cons by lia; cbn [foldl read_page];
    change PAGE_SIZE with 4096; (assert (0 <= cur - pi * 4096 < 4096) as Ho by (Z.div_mod_to_equations; lia));
    rewrite (u64_id (pi * 4096)), (u64_id (cur - pi * 4096)), (u64_id (4096 - (cur - pi * 4096))) by (Z.div_mod_to_equations; lia).
  all: set (k := if remain <? _ then remain else _).
  all: assert (k = Z.min remain (4096 * (pi + 1) - cur)) as Ek
    by (unfold k; destruct (Z.ltb_spec remain (4096 - (cur - pi * 4096))); lia).
  all: rewrite (u64_id (cur + k)), (u64_id (bofs + k)), (u64_id (remain - k)) by lia.
  - assert (k = remain) as -> by (rewrite Ek; Z.div_mod_to_equations; lia). by rewrite seqz_nil by lia.
  - replace (Z.of_nat (S n) + 1 - 1) with (Z.of_nat n + 1) by lia. destruct (Z.eq_dec k remain) as [-> | Hne].
    + rewrite Z.sub_diag. rewrite read_pages_done by lia. done.
    + rewrite IH; [| lia | | lia | lia | lia | lia | ].
      * unfold memcpy. destruct (Z.leb_spec (bofs + k) x), (Z.leb_spec bofs x), (Z.ltb_spec x (bofs + k + (remain - k))),
          (Z.ltb_spec x (bofs + k)), (Z.ltb_spec x (bofs + remain)); cbn; try lia; try done; f_equal; lia.
      * replace (cur + k) with ((pi + 1) * 4096) by lia. by rewrite Z.div_mul.
      * replace (cur + k + (remain - k) - 1) with (cur + remain - 1) by lia. lia.
Qed.

Lemma libfs_read_ok s data buf count pos :
  0 <= pos <= i_size s -> i_size s < 2 ^ 62 -> 0 < count < 2 ^ 62 ->
  exists buf', libfs_read s data buf count pos = Some (buf', Z.min count (i_size s - pos)) /\
    forall x, buf' x = memcpy buf 0 data pos (Z.min count (i_size s - pos)) x.
Proof.
  intros Hp Hs Hc. unfold libfs_read. change PAGE_SIZE with 4096. rewrite (proj2 (Z.ltb_ge (i_size s) pos)) by lia.
  rewrite (u64_id (pos + count - 1)), (u64_id (pos + count)) by lia.
  assert ((if i_size s <? pos + count then i_size s - pos else count) = Z.min count (i_size s - pos)) as ->
    by (destruct (Z.ltb_spec (i_size s) (pos + count)); lia).
  set (n := Z.min count (i_size s - pos)).
  destruct (foldl (read_page data) (buf, pos, 0, n) (seqz (pos / 4096) ((pos + count - 1) / 4096 + 1 - pos / 4096))) as [[[b c] o] r] eqn:E.
  exists b. split; [done|]. intros x. change b with ((b, c, o, r).1.1.1). rewrite <- E.
  destruct (Z.eq_dec n 0) as [-> | Hn0].
  - rewrite read_pages_done by lia. unfold memcpy. destruct (Z.leb_spec 0 x), (Z.ltb_spec x (0 + 0)); cbn; lia || done.
  - assert (0 <= (pos + count - 1) / 4096 - pos / 4096) by (Z.div_mod_to_equations; lia).
    replace ((pos + count - 1) / 4096 + 1 - pos / 4096) with (Z.of_nat (Z.to_nat ((pos + count - 1) / 4096 - pos / 4096)) + 1) by lia.
    apply read_pages_ok; try lia. transitivity ((pos + count - 1) / 4096); [apply Z.div_le_mono; lia|lia].
Qed.

(** C20: a read sees the writes before it.  A non-empty write within the mapping
    waits for a page that the daemon has locked.  With no page of it locked, and
    with the daemon's answer to the request for a transaction, it returns the
    end of the range; any read after it returns as many bytes as the file has
    from there on, each the written byte where the write copied one and the
    old one elsewhere; the file has grown to the end of the range if it was
    shorter.  The write copies the length modulo 2^32: all bytes of a write of
    less than 4 GB, and only the first ones of a larger one. *)
Theorem read_after_write PEB_NR s data buf count pos answer uninit rbuf count' pos' :
  PEB_NR <= 32768 -> tracked s -> i_size s <= PEB_NR * PEB_COVERAGE ->
  0 <= pos -> 0 < count -> pos + count <= PEB_NR * PEB_COVERAGE -> Z.testbit answer 13 = true ->
  0 <= pos' <= Z.max (i_size s) (pos + count) -> 0 < count' < 2 ^ 62 ->
  let n := Z.min count' (Z.max (i_size s) (pos + count) - pos') in
  let copied := count mod 2 ^ 32 in
  ((exists p, pos / 4096 <= p <= (pos + count - 1) / 4096 /\ locked s p = true) ->
   libfs_write PEB_NR s data buf count pos answer uninit = Blocked) /\
  ((forall p, pos / 4096 <= p <= (pos + count - 1) / 4096 -> locked s p = false) ->
   exists s' data' rbuf',
    libfs_write PEB_NR s data buf count pos answer uninit = Ok (s', data', pos + count) /\
    libfs_read s' data' rbuf count' pos' = Some (rbuf', n) /\
    forall x, 0 <= x < n ->
      rbuf' x = if (pos <=? pos' + x) && (pos' + x <? pos + copied) then buf (pos' + x - pos) else data (pos' + x)).
Proof.
  intros HP Ht Hsz Hpos Hc Hm Ha Hp' Hc' n copied. split.
  { intros (p & Hp & Hl). by apply (libfs_write_locked PEB_NR HP s data buf count pos answer uninit p). }
  change PEB_COVERAGE with 33554432 in *. intros Hl.
  destruct (libfs_write_ok PEB_NR HP s data buf count pos answer uninit) as (s' & data' & Ew & [_ Wd _ _ Ws _]); [done..|].
  destruct (libfs_read_ok s' data' rbuf count' pos') as (rbuf' & Er & Hr); rewrite ?Ws; [lia..|].
  rewrite Ws in Er, Hr. exists s', data', rbuf'. split; [done|]. split; [done|]. intros x Hx. rewrite Hr. unfold memcpy.
  rewrite (proj2 (Z.leb_le 0 x)), (proj2 (Z.ltb_lt x _)) by lia. cbn [andb]. rewrite Wd. unfold memcpy.
  replace (pos' + (x - 0)) with (pos' + x) by lia. by rewrite Z.add_0_l.
Qed.

Definition demo_file : shm :=
  mk_shm 4092 SHM_USE_JOURNAL (fun _ => false) (fun _ => false) (fun _ => false) (fun _ => false) (fun _ => false) (fun _ => false)
    (mk_counter 0 0 0).

(** Ten bytes at 4090 of a file of 4092 bytes, read from 4088 on. *)
Lemma read_after_write_witness :
  exists s' data' rbuf',
    libfs_write 64 demo_file (fun _ => 1) (fun x => 50 + x) 10 4090 SHM_RUNNING_TX false = Ok (s', data', 4100) /\
    libfs_read s' data' (fun _ => 0) 100 4088 = Some (rbuf', 12) /\
    forall x, 0 <= x < 12 -> rbuf' x = if (4090 <=? 4088 + x) && (4088 + x <? 4090 + 10 mod 2 ^ 32) then 50 + (4088 + x - 4090) else 1.
Proof.
  apply (read_after_write 64 demo_file (fun _ => 1) (fun x => 50 + x) 10 4090 SHM_RUNNING_TX false (fun _ => 0) 100 4088);
    try (vm_compute; intuition congruence); try done.
Defined.

(** ** Writes of more than 32 MB *)

Lemma mark_groups_other fuel : forall s a b t g,
  (forall q, a + t <= q < b -> (q - (a + t)) mod 8192 = 0 -> peb_of q <> g) ->
  group_bit (mark_groups fuel s a b t) g = group_bit s g.
Proof.
  induction fuel as [|fuel IH]; intros s a b t g Hq; cbn [mark_groups]; [done|]. destruct (Z.ltb_spec (a + t) b); [|done].
  change (PEB_COVERAGE / PAGE_SIZE) with 8192. rewrite IH.
  - unfold dirty_page_group. destruct (_ <=? _); [done|]. cbn. unfold set_bit. destruct (Z.eqb_spec g (peb_of (a + t))) as [E|]; [|done].
    destruct (Hq (a + t)); [lia|by rewrite Z.sub_diag|done].
  - intros q Hr Hm. apply Hq; [lia|]. replace (q - (a + t)) with (q - (a + (t + 8192)) + 1 * 8192) by lia. by rewrite Z.mod_add.
Qed.

(** The last group of a large write is not marked when the write ends at an
    earlier page of its group than it starts. *)
Lemma large_write_group s count pos :
  0 <= pos -> PEB_COVERAGE < count -> (pos + count - 1) / 4096 < 2 ^ 28 ->
  let a := pos / 4096 in let b := (pos + count - 1) / 4096 in
  b mod 8192 <= a mod 8192 -> group_bit (dirty_groups s count a b) (b / 8192) = group_bit s (b / 8192).
Proof.
  change PEB_COVERAGE with 33554432. intros Hpos Hc Hm a b Hab. unfold dirty_groups. change PEB_COVERAGE with 33554432.
  rewrite (proj2 (Z.ltb_lt 33554432 count)) by done. apply mark_groups_other. intros q Hq Hmod.
  assert (0 <= a) by (unfold a; apply Z.div_pos; lia). rewrite peb_of_eq by lia. clearbody a b. Z.div_mod_to_equations; lia.
Qed.

(** ** Writes of no bytes *)

Lemma alloc_pages_past PEB_NR n : forall s a,
  0 <= a <= PEB_NR * 8192 -> PEB_NR * 8192 < a + Z.of_nat n -> PEB_NR <= 32768 -> alloc_bit s PEB_NR = false ->
  alloc_pages PEB_NR s (seqz a (Z.of_nat n)) = Abort.
Proof.
  induction n as [|n IH]; intros s a Ha Hn HP Hb; [lia|]. rewrite seqz_cons by lia. cbn [alloc_pages].
  unfold shm_alloc_check. rewrite peb_of_eq by lia. change BITS_IN_PAGE with 32768.
  replace (Z.of_nat (S n) - 1) with (Z.of_nat n) by lia. destruct (Z.eq_dec a (PEB_NR * 8192)) as [-> | Hne].
  - rewrite Z.div_mul by lia. rewrite Hb, andb_false_r, (Z.ltb_irrefl PEB_NR). done.
  - assert (a / 8192 < PEB_NR) as Hg by (Z.div_mod_to_equations; lia).
    rewrite (proj2 (Z.ltb_lt (a / 8192) 32768)), (proj2 (Z.ltb_lt _ PEB_NR)) by lia. cbn [andb assert_].
    destruct (alloc_bit s (a / 8192)); cbn [res_bind]; apply IH; try lia; [done|].
    cbn. unfold set_bit. by rewrite (proj2 (Z.eqb_neq PEB_NR (a / 8192))) by lia.
Qed.

(** A write of no bytes at the start of a file faults: the last page is
    computed as [(0 + 0 - 1) / 4096] in 64 bits, and the loop that sets up the
    groups of the pages runs over the end of the mapping. *)
Lemma empty_write_at_start_faults PEB_NR s data buf answer uninit :
  0 < PEB_NR <= 32768 -> alloc_bit s PEB_NR = false ->
  libfs_write PEB_NR s data buf 0 0 answer uninit = Abort.
Proof.
  intros HP Hb. unfold libfs_write. change (0 / PAGE_SIZE) with 0. change (u64 (0 + 0 - 1) / PAGE_SIZE) with 4503599627370495.
  change (4503599627370495 + 1 - 0) with 4503599627370496.
  rewrite <- (Z2Nat.id 4503599627370496) by lia. rewrite alloc_pages_past; [done|lia|rewrite Z2Nat.id; lia|lia|done].
Qed.
