(* ===== verification/DirtyRanges.v ===== *)
(** * Collecting dirty pages as ranges

    [inode_gather_dirty_pagebits] of [secure_daemon/src/libfs/shm.c] turns the
    dirty bits of a file into lists of page ranges, kept in nodes of 340
    ranges; the lists are written to the stage area in a compact form
    ([serialize_and_fill_ird_list] of [secure_daemon/src/fs/sync.c]) that
    [deserialize_ird_compact] reads back. *)

From S2P Require Import Prelude Bio Sjd DirtyPages.

(** ** Range lists *)

Definition RANGE_DIRTY_ENT_MAX : Z := 340.

(** [struct inode_range_dirty]; [count] is the length of [dirty_pages]. *)
Record inode_range_dirty := mk_ird { dirty_pages : list (Z * Z); dirty_blk_nr : Z }.

(** A list of nodes and the cached pointer to its tail. *)
Record ird_list := mk_irds { ird_nodes : list inode_range_dirty; ird_tail : option nat }.

Definition no_ird : inode_range_dirty := mk_ird [] 0.
Definition ird_full (n : inode_range_dirty) : bool := Z.of_nat (length (dirty_pages n)) =? RANGE_DIRTY_ENT_MAX.

(** The node with room at or after node [k]; a new one is added at the end.
    Fuel: the number of nodes. *)
Fixpoint get_next_ird (fuel : nat) (ns : list inode_range_dirty) (k : nat) : list inode_range_dirty * nat :=
  match fuel with
  | O => (ns, k)
  | S fuel =>
      match ns !! k with
      | Some n =>
          if ird_full n then
            match ns !! S k with
            | Some _ => get_next_ird fuel ns (S k)
            | None => (ns ++ [no_ird], S k)
            end
          else (ns, k)
      | None => (ns, k)
      end
  end.

Definition add_ent (rd : Z * Z) (n : inode_range_dirty) : inode_range_dirty :=
  mk_ird (dirty_pages n ++ [rd]) (u32 (dirty_blk_nr n + rd.2)).

Definition add_range_dirty_staging (l : ird_list) (start nr : Z) : ird_list :=
  if nr <=? 0 then l
  else
    let k := default 0%nat (ird_tail l) in
    let '(ns, k) := get_next_ird (length (ird_nodes l)) (ird_nodes l) k in
    mk_irds (alter (add_ent (start, nr)) k ns) (Some k).

(** The lists of the background journal and the number of waiting blocks. *)
Record journal_irds := mk_jirds { jd_list : ird_list; jd_waiting : ird_list; jd_waiting_nr : Z }.

Definition add_range_dirty_journal (l : journal_irds) (start nr : Z) : journal_irds :=
  if nr <=? 0 then l
  else mk_jirds (add_range_dirty_staging (jd_list l) start nr) (add_range_dirty_staging (jd_waiting l) start nr)
         (u32 (jd_waiting_nr l + nr)).

Definition reset_tail (l : ird_list) : ird_list := mk_irds (ird_nodes l) None.

(** The ranges of a list, and its invariant: only the last node has room. *)
Definition ranges (l : ird_list) : list (Z * Z) := concat (dirty_pages <$> ird_nodes l).

Record ird_wf (l : ird_list) : Prop := {
  iw_nodes : exists full n, ird_nodes l = full ++ [n] /\ Forall (fun n => length (dirty_pages n) = 340%nat) full /\
    (length (dirty_pages n) <= 340)%nat;
  iw_tail : (default 0 (ird_tail l) <= length (ird_nodes l) - 1)%nat
}.

(** What a gatherer of ranges relies on. *)
Class RangeSink (L : Type) := {
  sink_add : L -> Z -> Z -> L;
  sink_begin : L -> L;
  sink_reset : L -> L;
  sink_ranges : L -> list (Z * Z);
  sink_wf : L -> Prop;
  sink_add_ok l start nr : sink_wf l -> 0 < nr ->
    sink_wf (sink_add l start nr) /\ sink_ranges (sink_add l start nr) = sink_ranges l ++ [(start, nr)];
  sink_begin_ok l : sink_wf l -> sink_wf (sink_begin l) /\ sink_ranges (sink_begin l) = sink_ranges l;
  sink_reset_ok l : sink_wf l -> sink_wf (sink_reset l) /\ sink_ranges (sink_reset l) = sink_ranges l
}.

Lemma get_next_ird_ok fuel : forall (full : list inode_range_dirty) n k,
  Forall (fun n => length (dirty_pages n) = 340%nat) full -> (length (dirty_pages n) <= 340)%nat ->
  (k <= length full)%nat -> (length full - k < fuel)%nat ->
  get_next_ird fuel (full ++ [n]) k =
    if ird_full n then (full ++ [n; no_ird], S (length full)) else (full ++ [n], length full).
Proof.
  induction fuel as [|fuel IH]; intros full n k Hf Hn Hk Hfu; [lia|]. cbn [get_next_ird].
  destruct (decide (k = length full)) as [-> | Hne].
  - rewrite list_lookup_middle by done. destruct (ird_full n); [|done].
    rewrite lookup_ge_None_2 by (rewrite length_app; cbn; lia). by rewrite <- app_assoc.
  - destruct (lookup_lt_is_Some_2 full k) as [x Hx]; [lia|]. rewrite lookup_app_l, Hx by lia.
    pose proof (proj1 (Forall_lookup _ _) Hf k x Hx) as Hl. cbn in Hl. unfold ird_full at 1. rewrite Hl. cbn.
    destruct (lookup_lt_is_Some_2 (full ++ [n]) (S k)) as [y ->]; [rewrite length_app; cbn; lia|]. apply IH; [done|done|lia|lia].
Qed.

Lemma add_range_ok l start nr : ird_wf l -> 0 < nr ->
  ird_wf (add_range_dirty_staging l start nr) /\ ranges (add_range_dirty_staging l start nr) = ranges l ++ [(start, nr)].
Proof.
  intros [(full & n & El & Hf & Hn) Ht] Hnr. unfold add_range_dirty_staging. rewrite (proj2 (Z.leb_gt nr 0)) by lia.
  rewrite El in *. rewrite length_app in *. cbn [length] in *. rewrite get_next_ird_ok by (done || lia).
  destruct (ird_full n) eqn:E.
  - assert (full ++ [n; no_ird] = (full ++ [n]) ++ [no_ird]) as -> by by rewrite <- app_assoc.
    assert (alter (add_ent (start, nr)) (S (length full)) ((full ++ [n]) ++ [no_ird]) = (full ++ [n]) ++ [add_ent (start, nr) no_ird]) as ->.
    { replace (S (length full)) with (length (full ++ [n]) + 0)%nat by (rewrite length_app; cbn; lia). by rewrite alter_app_r. }
    unfold ird_full, RANGE_DIRTY_ENT_MAX in E. apply Z.eqb_eq in E. split.
    + split; cbn [ird_nodes ird_tail default]; [|rewrite !length_app; cbn; lia]. exists (full ++ [n]), (add_ent (start, nr) no_ird).
      split; [done|]. split; [|cbn; lia]. apply Forall_app. split; [done|]. repeat constructor. lia.
    + unfold ranges. cbn [ird_nodes]. rewrite fmap_app, concat_app. by rewrite El.
  - replace (length full) with (length full + 0)%nat at 1 3 by lia. rewrite alter_app_r. cbn [alter list_alter].
    unfold ird_full, RANGE_DIRTY_ENT_MAX in E. apply Z.eqb_neq in E. split.
    + split; cbn [ird_nodes ird_tail default]; [|rewrite length_app; cbn; lia]. exists full, (add_ent (start, nr) n). split; [done|]. split; [done|].
      cbn. rewrite length_app. cbn. lia.
    + unfold ranges. rewrite El. cbn [ird_nodes]. rewrite !fmap_app, !concat_app. cbn. by rewrite !app_nil_r, app_assoc.
Qed.

#[export] Program Instance staging_sink : RangeSink ird_list := {
  sink_add := add_range_dirty_staging; sink_begin := fun l => l; sink_reset := reset_tail; sink_ranges := ranges; sink_wf := ird_wf
}.
Next Obligation. intros l start nr. apply add_range_ok. Qed.
Next Obligation. done. Qed.
Next Obligation. intros l [H1 H2]. split; [|done]. split; [done|]. cbn. lia. Qed.

(** Both lists of the journal get the same ranges. *)
#[export] Program Instance journal_sink : RangeSink journal_irds := {
  sink_add := add_range_dirty_journal;
  sink_begin := fun l => mk_jirds (jd_list l) (jd_waiting l) 0;
  sink_reset := fun l => mk_jirds (reset_tail (jd_list l)) (reset_tail (jd_waiting l)) (jd_waiting_nr l);
  sink_ranges := fun l => ranges (jd_list l);
  sink_wf := fun l => ird_wf (jd_list l) /\ ird_wf (jd_waiting l) /\ ranges (jd_waiting l) = ranges (jd_list l)
}.
Next Obligation.
  intros l start nr (H1 & H2 & H3) Hn. unfold add_range_dirty_journal. rewrite (proj2 (Z.leb_gt nr 0)) by lia. cbn.
  destruct (add_range_ok _ start nr H1 Hn) as [W1 R1], (add_range_ok _ start nr H2 Hn) as [W2 R2].
  split; [split; [done|split; [done|]]|done]. by rewrite R1, R2, H3.
Qed.
Next Obligation. done. Qed.
Next Obligation.
  intros l ([H1 H2] & [H3 H4] & H5). cbn. split; [|done]. split; [|split; [|done]]; (split; [done|cbn; lia]).
Qed.

(** ** Gathering *)

Section gather.
Context `{RangeSink L}.

(** Shared state, lists and the run being collected: its first page within the
    group and its length. *)
Record gstate := mk_g { g_shm : shm; g_irds : L; g_pos : Z; g_count : Z }.

(** End of a run in group [g]. *)
Definition flush_run (g : Z) (st : gstate) : gstate :=
  if g_count st =? 0 then st
  else mk_g (g_shm st) (sink_add (g_irds st) (g_pos st + g * NR_PAGES_IN_PEB) (g_count st)) (g_pos st) 0.

(** One bit [k] of the word with the bits [word]; [false]: the page is locked
    already. *)
Definition gather_bit (g : Z) (word : Z -> bool) (st : gstate) (k : Z) : gstate * bool :=
  if word k then
    let pos := if g_count st =? 0 then k else g_pos st in
    let p := g * NR_PAGES_IN_PEB + k in
    let s := set_dirty (g_shm st) (set_bit (dirty (g_shm st)) p false) in
    if locked s p then (mk_g s (g_irds st) pos (g_count st + 1), false)
    else (mk_g (set_locked s (set_bit (locked s) p true)) (g_irds st) pos (g_count st + 1), true)
  else (flush_run g st, true).

Fixpoint gather_bits (g : Z) (word : Z -> bool) (st : gstate) (ks : list Z) : gstate * bool :=
  match ks with
  | [] => (st, true)
  | k :: ks =>
      let '(st, ok) := gather_bit g word st k in
      if ok then gather_bits g word st ks else (st, false)
  end.

Definition no_bits (word : Z -> bool) (ks : list Z) : bool := forallb (fun k => negb (word k)) ks.

(** The bytes [byte], ... of word [i]. *)
Fixpoint gather_bytes (g : Z) (word : Z -> bool) (st : gstate) (i : Z) (bytes : list Z) : gstate * bool :=
  match bytes with
  | [] => (st, true)
  | byte :: bytes =>
      let ks := seqz (64 * i + 8 * byte) 8 in
      let '(st, ok) := if no_bits word ks then (flush_run g st, true) else gather_bits g word st ks in
      if ok then gather_bytes g word st i bytes else (st, false)
  end.

Fixpoint gather_words (g : Z) (st : gstate) (ws : list Z) : gstate * bool :=
  match ws with
  | [] => (st, true)
  | i :: ws =>
      let word := fun k => dirty (g_shm st) (g * NR_PAGES_IN_PEB + k) in
      let '(st, ok) :=
        if no_bits word (seqz (64 * i) 64) then (flush_run g st, true)
        else gather_bytes g word st i (seqz 0 8) in
      if ok then gather_words g st ws else (st, false)
  end.

(** [gather_dirty_bits] of group [g]; the result is not used. *)
Definition gather_dirty_bits (s : shm) (l : L) (g : Z) : shm * L :=
  let '(st, ok) := gather_words g (mk_g s (sink_reset l) 0 0) (seqz 0 (NR_PAGES_IN_PEB / 64)) in
  let st := if ok then flush_run g st else st in
  (g_shm st, g_irds st).

(** The first set bit from [a] on. *)
Fixpoint first_set (f : Z -> bool) (a : Z) (n : nat) : option Z :=
  match n with
  | O => None
  | S n => if f a then Some a else first_set f (a + 1) n
  end.

(** One round of the loop over a word of the group bitmap: [__builtin_ctzll],
    then [clear_first_set_bit] of the byte. *)
Definition next_group (f : Z -> bool) (i : Z) : option Z :=
  match first_set f (64 * i) 64 with
  | None => None
  | Some k => first_set f (8 * (8 * i + (k - 64 * i) / 8)) 8
  end.

(** The loop over word [i].  Fuel: the bits of a word. *)
Fixpoint gather_group_word (fuel : nat) (s : shm) (l : L) (i : Z) : shm * L :=
  match fuel with
  | O => (s, l)
  | S fuel =>
      match next_group (group_bit s) i with
      | None => (s, l)
      | Some g =>
          let '(s, l) := gather_dirty_bits (set_group s (set_bit (group_bit s) g false)) l g in
          gather_group_word fuel s l i
      end
  end.

Definition inode_gather_dirty_pagebits (s : shm) (l : L) : shm * L :=
  foldl (fun '(s, l) i => gather_group_word 64 s l i) (s, sink_begin l) (seqz 0 (PAGE_SIZE / 8)).

(** ** One group *)

(** The pages of a list of ranges. *)
Definition range_pages (rs : list (Z * Z)) : list Z := concat ((fun r => seqz r.1 r.2) <$> rs).

Lemma range_pages_app a b : range_pages (a ++ b) = range_pages a ++ range_pages b.
Proof. unfold range_pages. by rewrite fmap_app, concat_app. Qed.

Lemma filter_nil_seqz (f : Z -> bool) a n : (forall p, a <= p < a + n -> f p = false) -> List.filter f (seqz a n) = [].
Proof.
  intros Hf. destruct (List.filter f (seqz a n)) as [|p ps] eqn:E; [done|].
  assert (In p (List.filter f (seqz a n))) as [Hin Hp]%List.filter_In by (rewrite E; by left).
  apply list_elem_of_In, elem_of_seqz in Hin. by rewrite Hf in Hp.
Qed.

(** The dirty pages of group [g] up to bit [a], for the dirty bits [D]. *)
Definition dirty_upto (D : Z -> bool) (g a : Z) : list Z := List.filter D (seqz (g * 8192) a).

(** After the bits below [a] of group [g]: [s0] is the state before. *)
Record gather_inv (s0 : shm) (rs0 : list (Z * Z)) (g a : Z) (st : gstate) : Prop := {
  gi_wf : sink_wf (g_irds st);
  gi_count : 0 <= g_count st;
  gi_pos : g_count st <> 0 -> g_pos st + g_count st = a;
  gi_pages : exists rs, sink_ranges (g_irds st) = rs0 ++ rs /\ Forall (fun r => 0 < r.2) rs /\
    range_pages rs ++ seqz (g_pos st + g * 8192) (g_count st) = dirty_upto (dirty s0) g a;
  gi_dirty p : dirty (g_shm st) p = if (g * 8192 <=? p) && (p <? g * 8192 + a) then false else dirty s0 p;
  gi_locked p : locked (g_shm st) p = locked s0 p || (g * 8192 <=? p) && (p <? g * 8192 + a) && dirty s0 p;
  gi_group : group_bit (g_shm st) = group_bit s0
}.

Lemma dirty_upto_eq D g a : dirty_upto D g a = List.filter D (seqz (g * 8192) a).
Proof. done. Qed.

Lemma dirty_upto_S D g a : 0 <= a ->
  dirty_upto D g (a + 1) = dirty_upto D g a ++ (if D (g * 8192 + a) then [g * 8192 + a] else []).
Proof. intros Ha. unfold dirty_upto. rewrite seqz_snoc, List.filter_app by done. cbn. by destruct (D _). Qed.

Lemma flush_ok s0 rs0 g a st : gather_inv s0 rs0 g a st -> gather_inv s0 rs0 g a (flush_run g st) /\ g_count (flush_run g st) = 0.
Proof.
  intros [H1 H2 H3 (rs & H4 & H5 & H6) H7 H8 H9]. unfold flush_run. destruct (Z.eqb_spec (g_count st) 0) as [E | E].
  - split; [|done]. split; try done. by exists rs.
  - split; [|done]. change NR_PAGES_IN_PEB with 8192.
    destruct (sink_add_ok (g_irds st) (g_pos st + g * 8192) (g_count st) H1 ltac:(lia)) as [W R].
    split; cbn [g_shm g_irds g_pos g_count]; try done. exists (rs ++ [(g_pos st + g * 8192, g_count st)]).
    split; [by rewrite R, H4, app_assoc|]. split; [apply Forall_app; split; [done|]; repeat constructor; cbn; lia|].
    rewrite range_pages_app, seqz_nil, app_nil_r by lia. rewrite <- H6. f_equal. unfold range_pages. cbn. by rewrite app_nil_r.
Qed.

(** A clear bit. *)
Lemma clear_ok s0 rs0 g a st : 0 <= a -> gather_inv s0 rs0 g a st -> g_count st = 0 -> dirty s0 (g * 8192 + a) = false ->
  gather_inv s0 rs0 g (a + 1) st.
Proof.
  intros Ha [H1 H2 H3 (rs & H4 & H5 & H6) H7 H8 H9] Hc Hd. split; try done.
  - exists rs. split; [done|]. split; [done|]. by rewrite dirty_upto_S, Hd, app_nil_r.
  - intros p. rewrite H7. destruct (decide (p = g * 8192 + a)) as [-> | Hne].
    + by rewrite Hd; repeat destruct (_ && _).
    + destruct (Z.leb_spec (g * 8192) p), (Z.ltb_spec p (g * 8192 + a)), (Z.ltb_spec p (g * 8192 + (a + 1))); cbn; lia || done.
  - intros p. rewrite H8. destruct (decide (p = g * 8192 + a)) as [-> | Hne].
    + by rewrite Hd, !andb_false_r.
    + destruct (Z.leb_spec (g * 8192) p), (Z.ltb_spec p (g * 8192 + a)), (Z.ltb_spec p (g * 8192 + (a + 1))); cbn; lia || done.
Qed.

Lemma clears_ok s0 rs0 g n : forall a st, 0 <= a -> gather_inv s0 rs0 g a st -> g_count st = 0 ->
  (forall k, a <= k < a + Z.of_nat n -> dirty s0 (g * 8192 + k) = false) -> gather_inv s0 rs0 g (a + Z.of_nat n) st.
Proof.
  induction n as [|n IH]; intros a st Ha Hi Hc Hd; [by rewrite Z.add_0_r|].
  replace (a + Z.of_nat (S n)) with (a + 1 + Z.of_nat n) by lia.
  apply IH; [lia|apply clear_ok; [done|done|done|apply Hd; lia]|done|]. intros k Hk. apply Hd. lia.
Qed.

(** The next bit of a word read with the bits [word]. *)
Lemma gather_bit_ok s0 rs0 g a st word :
  0 <= a -> gather_inv s0 rs0 g a st -> word a = dirty s0 (g * 8192 + a) ->
  (dirty s0 (g * 8192 + a) = true -> locked s0 (g * 8192 + a) = false) ->
  exists st', gather_bit g word st a = (st', true) /\ gather_inv s0 rs0 g (a + 1) st'.
Proof.
  intros Ha Hi Hw Hl. unfold gather_bit. rewrite Hw. change NR_PAGES_IN_PEB with 8192.
  destruct (dirty s0 (g * 8192 + a)) eqn:Ed.
  - specialize (Hl eq_refl). destruct Hi as [H1 H2 H3 (rs & H4 & H5 & H6) H7 H8 H9]. cbn [locked set_dirty].
    rewrite H8, Hl. rewrite (proj2 (Z.ltb_ge (g * 8192 + a) (g * 8192 + a))), andb_false_r by lia. cbn [orb andb].
    eexists. split; [done|]. split; cbn [g_shm g_irds g_pos g_count].
    + done.
    + lia.
    + destruct (Z.eqb_spec (g_count st) 0) as [E|E]; [lia|]. specialize (H3 E). lia.
    + exists rs. split; [done|]. split; [done|]. rewrite dirty_upto_S, Ed, <- H6, <- app_assoc by lia. f_equal.
      rewrite seqz_snoc by lia. destruct (Z.eqb_spec (g_count st) 0) as [E|E].
      * rewrite E, !(seqz_nil _ 0) by lia. rewrite !app_nil_l. f_equal. lia.
      * specialize (H3 E). f_equal. f_equal. lia.
    + intros p. cbn. unfold set_bit. rewrite H7. destruct (Z.eqb_spec p (g * 8192 + a)) as [-> | Hne].
      * rewrite (proj2 (Z.leb_le _ _)), (proj2 (Z.ltb_lt _ _)) by lia. done.
      * destruct (Z.leb_spec (g * 8192) p), (Z.ltb_spec p (g * 8192 + a)), (Z.ltb_spec p (g * 8192 + (a + 1))); cbn; lia || done.
    + intros p. cbn. unfold set_bit. rewrite H8. destruct (Z.eqb_spec p (g * 8192 + a)) as [-> | Hne].
      * rewrite (proj2 (Z.leb_le (g * 8192) _)), (proj2 (Z.ltb_lt _ (g * 8192 + (a + 1)))) by lia. by rewrite Ed, orb_true_r.
      * destruct (Z.leb_spec (g * 8192) p), (Z.ltb_spec p (g * 8192 + a)), (Z.ltb_spec p (g * 8192 + (a + 1))); cbn; lia || done.
    + done.
  - eexists. split; [done|]. destruct (flush_ok s0 rs0 g a st Hi) as [Hi' Hc']. by apply clear_ok.
Qed.

Lemma gather_bits_ok s0 rs0 g word n : forall a st,
  0 <= a -> gather_inv s0 rs0 g a st ->
  (forall k, a <= k < a + Z.of_nat n -> word k = dirty s0 (g * 8192 + k) /\
     (dirty s0 (g * 8192 + k) = true -> locked s0 (g * 8192 + k) = false)) ->
  exists st', gather_bits g word st (seqz a (Z.of_nat n)) = (st', true) /\ gather_inv s0 rs0 g (a + Z.of_nat n) st'.
Proof.
  induction n as [|n IH]; intros a st Ha Hi Hw.
  { exists st. rewrite seqz_nil, Z.add_0_r by lia. done. }
  rewrite seqz_cons by lia. cbn [gather_bits]. destruct (Hw a ltac:(lia)) as [Hwa Hla].
  destruct (gather_bit_ok s0 rs0 g a st word Ha Hi Hwa Hla) as (st1 & -> & Hi1).
  replace (Z.of_nat (S n) - 1) with (Z.of_nat n) by lia. replace (a + Z.of_nat (S n)) with (a + 1 + Z.of_nat n) by lia.
  apply IH; [lia|done|]. intros k Hk. apply Hw. lia.
Qed.
Lemma no_bits_spec word a n k : no_bits word (seqz a n) = true -> a <= k < a + n -> word k = false.
Proof.
  unfold no_bits. rewrite forallb_forall. intros Hf Hk. specialize (Hf k).
  assert (In k (seqz a n)) as Hin by (apply list_elem_of_In, elem_of_seqz; lia). specialize (Hf Hin). by destruct (word k).
Qed.

(** A run of clear bits ends the current run of pages. *)
Lemma skip_ok s0 rs0 g word a st n :
  0 <= a -> gather_inv s0 rs0 g a st -> no_bits word (seqz a (Z.of_nat n)) = true ->
  (forall k, a <= k < a + Z.of_nat n -> word k = dirty s0 (g * 8192 + k)) ->
  gather_inv s0 rs0 g (a + Z.of_nat n) (flush_run g st).
Proof.
  intros Ha Hi Hnb Hw. destruct (flush_ok s0 rs0 g a st Hi) as [Hi' Hc']. apply clears_ok; [done|done|done|].
  intros k Hk. rewrite <- Hw by done. by eapply no_bits_spec.
Qed.

Lemma gather_bytes_ok s0 rs0 g word i n : forall b st,
  0 <= i -> 0 <= b -> gather_inv s0 rs0 g (64 * i + 8 * b) st ->
  (forall k, 64 * i + 8 * b <= k < 64 * i + 8 * (b + Z.of_nat n) -> word k = dirty s0 (g * 8192 + k) /\
     (dirty s0 (g * 8192 + k) = true -> locked s0 (g * 8192 + k) = false)) ->
  exists st', gather_bytes g word st i (seqz b (Z.of_nat n)) = (st', true) /\
    gather_inv s0 rs0 g (64 * i + 8 * (b + Z.of_nat n)) st'.
Proof.
  induction n as [|n IH]; intros b st Hi0 Hb Hi Hw.
  { exists st. rewrite seqz_nil, Z.add_0_r by lia. done. }
  rewrite seqz_cons by lia. cbn [gather_bytes].
  assert (exists st1, (if no_bits word (seqz (64 * i + 8 * b) 8) then (flush_run g st, true)
                       else gather_bits g word st (seqz (64 * i + 8 * b) 8)) = (st1, true) /\
            gather_inv s0 rs0 g (64 * i + 8 * (b + 1)) st1) as (st1 & -> & Hi1).
  { replace (64 * i + 8 * (b + 1)) with (64 * i + 8 * b + Z.of_nat 8) by lia. destruct (no_bits _ _) eqn:E.
    - eexists. split; [done|]. eapply skip_ok; [lia|done|done|]. intros k Hk. apply Hw. lia.
    - change (seqz (64 * i + 8 * b) 8) with (seqz (64 * i + 8 * b) (Z.of_nat 8)).
      apply gather_bits_ok; [lia|done|]. intros k Hk. apply Hw. lia. }
  replace (Z.of_nat (S n) - 1) with (Z.of_nat n) by lia. replace (b + Z.of_nat (S n)) with (b + 1 + Z.of_nat n) by lia.
  apply IH; [done|lia|done|]. intros k Hk. apply Hw. lia.
Qed.

Lemma gather_words_ok s0 rs0 g n : forall i st,
  0 <= i -> gather_inv s0 rs0 g (64 * i) st -> (forall p, dirty s0 p = true -> locked s0 p = false) ->
  exists st', gather_words g st (seqz i (Z.of_nat n)) = (st', true) /\ gather_inv s0 rs0 g (64 * (i + Z.of_nat n)) st'.
Proof.
  induction n as [|n IH]; intros i st Hi0 Hi Hl.
  { exists st. rewrite seqz_nil, Z.add_0_r by lia. done. }
  rewrite seqz_cons by lia. cbn [gather_words]. change NR_PAGES_IN_PEB with 8192.
  set (word := fun k => dirty (g_shm st) (g * 8192 + k)).
  assert (forall k, 64 * i <= k < 64 * i + 64 -> word k = dirty s0 (g * 8192 + k)) as Hw.
  { intros k Hk. unfold word. rewrite (gi_dirty _ _ _ _ _ Hi).
    by rewrite (proj2 (Z.ltb_ge (g * 8192 + k) (g * 8192 + 64 * i))), andb_false_r by lia. }
  assert (exists st1, (if no_bits word (seqz (64 * i) 64) then (flush_run g st, true) else gather_bytes g word st i (seqz 0 8)) = (st1, true) /\
            gather_inv s0 rs0 g (64 * (i + 1)) st1) as (st1 & -> & Hi1).
  { destruct (no_bits _ _) eqn:E.
    - eexists. split; [done|]. replace (64 * (i + 1)) with (64 * i + Z.of_nat 64) by lia.
      eapply skip_ok; [lia|done|done|]. intros k Hk. apply Hw. lia.
    - destruct (gather_bytes_ok s0 rs0 g word i 8 0 st) as (st1 & E1 & Hi1); [done|done|by rewrite Z.mul_0_r, Z.add_0_r| |].
      + intros k Hk. split; [apply Hw; lia|apply Hl].
      + exists st1. split; [done|]. by replace (64 * (i + 1)) with (64 * i + 8 * (0 + Z.of_nat 8)) by lia. }
  replace (Z.of_nat (S n) - 1) with (Z.of_nat n) by lia. replace (i + Z.of_nat (S n)) with (i + 1 + Z.of_nat n) by lia.
  apply IH; [lia|done|done].
Qed.

(** A whole group: its dirty pages become ranges, are clean and locked. *)
Record gathered (s s' : shm) (l l' : L) (lo n : Z) : Prop := {
  ga_wf : sink_wf l';
  ga_ranges : exists rs, sink_ranges l' = sink_ranges l ++ rs /\ Forall (fun r => 0 < r.2) rs /\
    range_pages rs = List.filter (dirty s) (seqz lo n);
  ga_dirty p : dirty s' p = if (lo <=? p) && (p <? lo + n) then false else dirty s p;
  ga_locked p : locked s' p = locked s p || (lo <=? p) && (p <? lo + n) && dirty s p
}.

Lemma gather_dirty_bits_ok s l g :
  sink_wf l -> (forall p, dirty s p = true -> locked s p = false) ->
  exists s' l', gather_dirty_bits s l g = (s', l') /\ gathered s s' l l' (g * 8192) 8192 /\ group_bit s' = group_bit s.
Proof.
  intros Hw Hl. unfold gather_dirty_bits. destruct (sink_reset_ok l Hw) as [Hw' Hr].
  assert (gather_inv s (sink_ranges l) g (64 * 0) (mk_g s (sink_reset l) 0 0)) as Hi.
  { split; cbn [g_shm g_irds g_pos g_count]; try done.
    - exists []. rewrite app_nil_r. split; [done|]. split; [constructor|]. done.
    - intros p. destruct (Z.leb_spec (g * 8192) p), (Z.ltb_spec p (g * 8192 + 64 * 0)); cbn; lia || done.
    - intros p. destruct (Z.leb_spec (g * 8192) p), (Z.ltb_spec p (g * 8192 + 64 * 0)); cbn; lia || by rewrite orb_false_r. }
  destruct (gather_words_ok s (sink_ranges l) g 128 0 _ ltac:(lia) Hi Hl) as (st & E & Hi').
  change (Z.of_nat 128) with (NR_PAGES_IN_PEB / 64) in E. rewrite E.
  change (64 * (0 + Z.of_nat 128)) with 8192 in Hi'. destruct (flush_ok _ _ _ _ _ Hi') as [[H1 _ _ (rs & H4 & H5 & H6) H7 H8 H9] Hc].
  eexists _, _. split; [done|]. split; [|done]. split; try done. exists rs. split; [done|]. split; [done|].
  rewrite dirty_upto_eq in H6. rewrite <- H6, Hc, (seqz_nil _ 0 ltac:(done)). symmetry. apply app_nil_r.
Qed.

(** ** All groups *)

Lemma first_set_spec f n : forall a,
  match first_set f a n with
  | Some k => a <= k < a + Z.of_nat n /\ f k = true /\ forall j, a <= j < k -> f j = false
  | None => forall j, a <= j < a + Z.of_nat n -> f j = false
  end.
Proof.
  induction n as [|n IH]; intros a; cbn [first_set]; [lia|]. destruct (f a) eqn:E; [split; [lia|]; split; [done|lia]|].
  specialize (IH (a + 1)). destruct (first_set f (a + 1) n) as [k|].
  - destruct IH as (H1 & H2 & H3). split; [lia|]. split; [done|]. intros j Hj. destruct (Z.eq_dec j a) as [-> | ?]; [done|apply H3; lia].
  - intros j Hj. destruct (Z.eq_dec j a) as [-> | ?]; [done|apply IH; lia].
Qed.

(** The two searches find the first set bit of the word. *)
Lemma next_group_eq f i : next_group f i = first_set f (64 * i) 64.
Proof.
  unfold next_group. pose proof (first_set_spec f 64 (64 * i)) as H1. destruct (first_set f (64 * i) 64) as [k|]; [|done].
  destruct H1 as (Hk & Hf & Hmin). set (b := 8 * (8 * i + (k - 64 * i) / 8)).
  assert (64 * i <= b /\ b <= k < b + 8) as Hb by (unfold b; Z.div_mod_to_equations; lia).
  pose proof (first_set_spec f 8 b) as H2. destruct (first_set f b 8) as [j|].
  - destruct H2 as (Hj & Hfj & Hminj). f_equal. destruct (Z.lt_trichotomy j k) as [|[|]]; [|done|].
    + rewrite Hmin in Hfj by lia. done.
    + rewrite Hminj in Hf by lia. done.
  - rewrite H2 in Hf by lia. done.
Qed.

Lemma gathered_refl s l a n :
  sink_wf l -> (forall p, a <= p < a + n -> dirty s p = false) -> gathered s s l l a n.
Proof.
  intros Hw Hd. split; [done| | |].
  - exists []. rewrite app_nil_r. split; [done|]. split; [constructor|]. cbn. symmetry.
    apply filter_nil_seqz. done.
  - intros p. destruct (Z.leb_spec a p), (Z.ltb_spec p (a + n)); cbn; try done. apply Hd. lia.
  - intros p. destruct (Z.leb_spec a p), (Z.ltb_spec p (a + n)); cbn; rewrite ?orb_false_r; try done. by rewrite Hd, orb_false_r by lia.
Qed.

Lemma gathered_app s0 s s' l0 l l' a n m :
  0 <= n -> 0 <= m -> gathered s0 s l0 l a n -> gathered s s' l l' (a + n) m -> gathered s0 s' l0 l' a (n + m).
Proof.
  intros Hn Hm [W1 (rs1 & R1 & F1 & P1) D1 L1] [W2 (rs2 & R2 & F2 & P2) D2 L2]. split; [done| | |].
  - exists (rs1 ++ rs2). rewrite R2, R1, app_assoc. split; [done|]. split; [by apply Forall_app|].
    rewrite range_pages_app, P1, P2, seqz_app, List.filter_app by lia. f_equal.
    apply List.filter_ext_in. intros p Hp%list_elem_of_In%elem_of_seqz. rewrite D1.
    by rewrite (proj2 (Z.ltb_ge p (a + n))), andb_false_r by lia.
  - intros p. rewrite D2, D1. destruct (Z.leb_spec a p), (Z.leb_spec (a + n) p), (Z.ltb_spec p (a + n)), (Z.ltb_spec p (a + n + m)),
      (Z.ltb_spec p (a + (n + m))); cbn; lia || done.
  - intros p. rewrite L2, L1, D1. destruct (Z.leb_spec a p), (Z.leb_spec (a + n) p), (Z.ltb_spec p (a + n)), (Z.ltb_spec p (a + n + m)),
      (Z.ltb_spec p (a + (n + m))); cbn; rewrite ?orb_false_r; lia || done.
Qed.

(** Groups below [a] are done. *)
Record groups_done (s0 s : shm) (l0 l : L) (a : Z) : Prop := {
  gd_gathered : gathered s0 s l0 l 0 (a * 8192);
  gd_group g : group_bit s g = if (0 <=? g) && (g <? a) then false else group_bit s0 g
}.

Lemma groups_skip s0 s l0 l a k :
  tracked s0 -> 0 <= a <= k -> (forall g, a <= g < k -> group_bit s g = false) ->
  groups_done s0 s l0 l a -> groups_done s0 s l0 l k.
Proof.
  intros [Ht _] Ha Hc [Hg Hb]. split.
  - replace (k * 8192) with (a * 8192 + (k - a) * 8192) by lia. eapply gathered_app; [lia|lia|done|].
    apply gathered_refl; [apply Hg|]. intros p Hp. rewrite (ga_dirty _ _ _ _ _ _ Hg).
    rewrite (proj2 (Z.ltb_ge p (0 + a * 8192))), andb_false_r by lia. apply not_true_iff_false. intros Hd%Ht; [|lia].
    assert (a <= p / 8192 < k) as Hk by (Z.div_mod_to_equations; lia). specialize (Hc _ Hk). rewrite Hb in Hc.
    rewrite (proj2 (Z.ltb_ge (p / 8192) a)), andb_false_r in Hc by lia. congruence.
  - intros g. rewrite Hb. destruct (Z.leb_spec 0 g), (Z.ltb_spec g a), (Z.ltb_spec g k); cbn; try lia; try done.
    specialize (Hc g ltac:(lia)). rewrite Hb in Hc. by rewrite (proj2 (Z.ltb_ge g a)), andb_false_r in Hc by lia.
Qed.

Lemma groups_step s0 s l0 l a :
  (forall p, dirty s0 p = true -> locked s0 p = false) -> 0 <= a -> groups_done s0 s l0 l a ->
  exists s' l', gather_dirty_bits (set_group s (set_bit (group_bit s) a false)) l a = (s', l') /\ groups_done s0 s' l0 l' (a + 1).
Proof.
  intros Hl Ha [Hg Hb]. set (s1 := set_group s _). destruct (gather_dirty_bits_ok s1 l a) as (s' & l' & E & Hg' & Hb').
  - apply Hg.
  - change (dirty s1) with (dirty s). change (locked s1) with (locked s). intros p. rewrite (ga_dirty _ _ _ _ _ _ Hg), (ga_locked _ _ _ _ _ _ Hg).
    destruct (_ && _) eqn:Er; [done|]. intros Hd. by rewrite (Hl p Hd).
  - exists s', l'. split; [done|]. split.
    + replace ((a + 1) * 8192) with (a * 8192 + 8192) by lia. eapply gathered_app; [lia|lia|exact Hg|].
      destruct Hg' as [W R D Lk]. by split.
    + intros g. rewrite Hb'. cbn. unfold set_bit. rewrite Hb.
      destruct (Z.eqb_spec g a), (Z.leb_spec 0 g), (Z.ltb_spec g a), (Z.ltb_spec g (a + 1)); cbn; lia || done.
Qed.

Lemma gather_group_word_ok fuel : forall s0 s l0 l i a,
  tracked s0 -> (forall p, dirty s0 p = true -> locked s0 p = false) ->
  0 <= i -> 64 * i <= a <= 64 * i + 64 -> 64 * i + 64 - a <= Z.of_nat fuel -> groups_done s0 s l0 l a ->
  exists s' l', gather_group_word fuel s l i = (s', l') /\ groups_done s0 s' l0 l' (64 * i + 64).
Proof.
  induction fuel as [|fuel IH]; intros s0 s l0 l i a Ht Hl Hi Ha Hf Hd; cbn [gather_group_word].
  { exists s, l. split; [done|]. by replace (64 * i + 64) with a by lia. }
  rewrite next_group_eq. pose proof (first_set_spec (group_bit s) 64 (64 * i)) as Hs.
  destruct (first_set (group_bit s) (64 * i) 64) as [k|].
  - destruct Hs as (Hk & Hset & Hmin).
    assert (a <= k).
    { destruct (Z.le_gt_cases a k) as [|Hlt]; [done|]. rewrite (gd_group _ _ _ _ _ Hd) in Hset.
      rewrite (proj2 (Z.leb_le 0 k)), (proj2 (Z.ltb_lt k a)) in Hset by lia. done. }
    apply (groups_skip _ _ _ _ _ k) in Hd; [|done|lia|intros g Hg; apply Hmin; lia].
    destruct (groups_step s0 s l0 l k Hl ltac:(lia) Hd) as (s1 & l1 & -> & Hd1).
    by apply (IH s0 s1 l0 l1 i (k + 1)); [..|lia|lia|].
  - exists s, l. split; [done|]. apply (groups_skip _ _ _ _ a); [done|lia|intros g Hg; apply Hs; lia|done].
Qed.

Lemma gather_words_fold s0 l0 n : forall s l i,
  tracked s0 -> (forall p, dirty s0 p = true -> locked s0 p = false) -> 0 <= i -> groups_done s0 s l0 l (64 * i) ->
  exists s' l', foldl (fun '(s, l) i => gather_group_word 64 s l i) (s, l) (seqz i (Z.of_nat n)) = (s', l') /\
    groups_done s0 s' l0 l' (64 * (i + Z.of_nat n)).
Proof.
  induction n as [|n IH]; intros s l i Ht Hl Hi Hd.
  { exists s, l. rewrite seqz_nil, Z.add_0_r by lia. done. }
  rewrite seqz_cons by lia. cbn [foldl].
  destruct (gather_group_word_ok 64 s0 s l0 l i (64 * i) Ht Hl Hi ltac:(lia) ltac:(lia) Hd) as (s1 & l1 & -> & Hd1).
  replace (Z.of_nat (S n) - 1) with (Z.of_nat n) by lia. replace (i + Z.of_nat (S n)) with (i + 1 + Z.of_nat n) by lia.
  apply IH; [done|done|lia|]. by replace (64 * (i + 1)) with (64 * i + 64) by lia.
Qed.

(** All dirty pages are collected, in order, each once. *)
Lemma inode_gather_ok s l :
  tracked s -> (forall p, dirty s p = true -> locked s p = false) -> sink_wf l ->
  exists s' l', inode_gather_dirty_pagebits s l = (s', l') /\ groups_done s s' l l' 32768.
Proof.
  intros Ht Hl Hw. unfold inode_gather_dirty_pagebits.
  replace (PAGE_SIZE / 8) with (Z.of_nat 512) by reflexivity. replace 32768 with (64 * (0 + Z.of_nat 512)) by reflexivity. destruct (sink_begin_ok l Hw) as [Hw' Hr].
  destruct (gather_words_fold s l 512 s (sink_begin l) 0 Ht Hl ltac:(lia)) as (s' & l' & E & Hd).
  - split.
    + destruct (gathered_refl s (sink_begin l) 0 0 Hw') as [W R D Lk]; [lia|]. split; [done| |done|done]. by rewrite <- Hr.
    + intros g. destruct (Z.leb_spec 0 g), (Z.ltb_spec g (64 * 0)); cbn; lia || done.
  - exists s', l'. split; [exact E|exact Hd].
Qed.

(** ** Groups that are not marked *)

(** Only pages of group [g] have changed. *)
Definition keeps (g : Z) (s s' : shm) : Prop :=
  group_bit s' = group_bit s /\ forall p, p / 8192 <> g -> dirty s' p = dirty s p.

Lemma keeps_trans g s1 s2 s3 : keeps g s1 s2 -> keeps g s2 s3 -> keeps g s1 s3.
Proof. intros [H1 H2] [H3 H4]. split; [congruence|]. intros p Hp. by rewrite H4, H2. Qed.

Lemma flush_run_shm g st : g_shm (flush_run g st) = g_shm st.
Proof. unfold flush_run. by destruct (_ =? _). Qed.

Lemma gather_bit_keeps g word st k : 0 <= k < 8192 -> keeps g (g_shm st) (g_shm (gather_bit g word st k).1).
Proof.
  intros Hk. unfold gather_bit. change NR_PAGES_IN_PEB with 8192.
  destruct (word k); [|cbn [fst]; by rewrite flush_run_shm].
  assert (forall p, p / 8192 <> g -> set_bit (dirty (g_shm st)) (g * 8192 + k) false p = dirty (g_shm st) p) as Hd.
  { intros p Hp. unfold set_bit. destruct (Z.eqb_spec p (g * 8192 + k)) as [-> | ?]; [|done]. destruct Hp. Z.div_mod_to_equations; lia. }
  destruct (locked _ _); by split.
Qed.

Lemma gather_bits_keeps g word ks : forall st, Forall (fun k => 0 <= k < 8192) ks -> keeps g (g_shm st) (g_shm (gather_bits g word st ks).1).
Proof.
  induction ks as [|k ks IH]; intros st Hks; [done|]. apply Forall_cons in Hks as [Hk Hks]. cbn [gather_bits].
  pose proof (gather_bit_keeps g word st k Hk) as H1. destruct (gather_bit g word st k) as [st1 ok]. destruct ok; [|done].
  eapply keeps_trans; [exact H1|]. by apply IH.
Qed.

Lemma gather_bytes_keeps g word i bs : forall st, 0 <= i < 128 -> Forall (fun b => 0 <= b < 8) bs ->
  keeps g (g_shm st) (g_shm (gather_bytes g word st i bs).1).
Proof.
  induction bs as [|b bs IH]; intros st Hi Hbs; [done|]. apply Forall_cons in Hbs as [Hb Hbs]. cbn [gather_bytes].
  set (r := if no_bits _ _ then _ else _). assert (keeps g (g_shm st) (g_shm r.1)) as H1.
  { unfold r. destruct (no_bits _ _); [cbn [fst]; by rewrite flush_run_shm|]. apply gather_bits_keeps, Forall_forall.
    intros k Hk%elem_of_seqz. lia. }
  destruct r as [st1 ok]. destruct ok; [|done]. eapply keeps_trans; [exact H1|]. by apply IH.
Qed.

Lemma gather_words_keeps g ws : forall st, Forall (fun i => 0 <= i < 128) ws -> keeps g (g_shm st) (g_shm (gather_words g st ws).1).
Proof.
  induction ws as [|i ws IH]; intros st Hws; [done|]. apply Forall_cons in Hws as [Hi Hws]. cbn [gather_words].
  set (r := if no_bits _ _ then _ else _). assert (keeps g (g_shm st) (g_shm r.1)) as H1.
  { unfold r. destruct (no_bits _ _); [cbn [fst]; by rewrite flush_run_shm|]. apply gather_bytes_keeps; [done|].
    apply Forall_forall. intros k Hk%elem_of_seqz. lia. }
  destruct r as [st1 ok]. destruct ok; [|done]. eapply keeps_trans; [exact H1|]. by apply IH.
Qed.

Lemma gather_dirty_bits_keeps s l g : keeps g s (gather_dirty_bits s l g).1.
Proof.
  unfold gather_dirty_bits. pose proof (gather_words_keeps g (seqz 0 128) (mk_g s (sink_reset l) 0 0)) as Hk.
  change (NR_PAGES_IN_PEB / 64) with 128. destruct (gather_words _ _ _) as [st ok]. cbn [fst g_shm] in *.
  assert (keeps g s (g_shm st)) by (apply Hk, Forall_forall; intros i Hi%elem_of_seqz; lia).
  destruct ok; [by rewrite flush_run_shm|done].
Qed.

(** A page whose group is not marked stays as it is. *)
Definition skipped (p : Z) (d : bool) (s : shm) : Prop := group_bit s (p / 8192) = false /\ dirty s p = d.

Lemma gather_group_word_skipped fuel p d : forall s l i, skipped p d s -> skipped p d (gather_group_word fuel s l i).1.
Proof.
  induction fuel as [|fuel IH]; intros s l i [Hg Hd]; [done|]. cbn [gather_group_word]. rewrite next_group_eq.
  pose proof (first_set_spec (group_bit s) 64 (64 * i)) as Hs. destruct (first_set _ _ _) as [g|]; [|done].
  destruct Hs as (_ & Hset & _). assert (p / 8192 <> g) by congruence.
  set (s1 := set_group s _). destruct (gather_dirty_bits_keeps s1 l g) as [K1 K2].
  destruct (gather_dirty_bits s1 l g) as [s2 l2]. cbn [fst] in *. apply IH. split; [|by rewrite K2].
  rewrite K1. cbn. unfold set_bit. destruct (Z.eqb_spec (p / 8192) g); done.
Qed.

Lemma gather_skipped s l p : group_bit s (p / 8192) = false -> dirty (inode_gather_dirty_pagebits s l).1 p = dirty s p.
Proof.
  intros Hg. unfold inode_gather_dirty_pagebits. generalize (sink_begin l) as l0. generalize (seqz 0 (PAGE_SIZE / 8)) as ws.
  intros ws l0. assert (skipped p (dirty s p) s) as Hs by done. revert Hs. generalize (dirty s p) as d. intros d Hs. revert s l0 Hg Hs.
  induction ws as [|i ws IH]; intros s l0 Hg Hs; [apply Hs|]. cbn [foldl].
  pose proof (gather_group_word_skipped 64 p d s l0 i Hs) as H1. destruct (gather_group_word 64 s l0 i) as [s1 l1]. cbn [fst] in *.
  apply IH; [apply H1|done].
Qed.
End gather.

(** What goes wrong with writes of more than 32 MB.  The loop over groups
    steps from the first page by 8192 pages and stops before the last page, so
    a write that ends at an earlier (or the same) page of its group than it
    starts does not mark its last group: the write returns, its last page is
    dirty, and [inode_gather_dirty_pagebits] leaves it so. *)
Lemma large_write_last_group_lost PEB_NR s data buf count pos answer uninit (l : journal_irds) :
  PEB_NR <= 32768 -> tracked s -> (forall p, locked s p = false) ->
  0 <= pos -> PEB_COVERAGE < count < U32_MOD -> pos + count <= PEB_NR * PEB_COVERAGE -> Z.testbit answer 13 = true ->
  let b := (pos + count - 1) / 4096 in
  b mod 8192 <= (pos / 4096) mod 8192 -> group_bit s (b / 8192) = false ->
  exists s' data', libfs_write PEB_NR s data buf count pos answer uninit = Ok (s', data', pos + count) /\
    dirty s' b = true /\ dirty (inode_gather_dirty_pagebits s' l).1 b = true.
Proof.
  change PEB_COVERAGE with 33554432. intros HP Ht Hl Hpos Hc Hm Ha b Hb Hg.
  destruct (libfs_write_ok PEB_NR HP s data buf count pos answer uninit) as (s' & data' & Ew & [_ _ Wd _ _ Wg]); [done|done|lia|done|auto|done|].
  exists s', data'. split; [done|]. assert (pos / 4096 <= b) as Hab by (unfold b; apply Z.div_le_mono; lia).
  assert (dirty s' b = true) as Hd.
  { rewrite Wd. fold b. rewrite (proj2 (Z.leb_le _ b)), Z.leb_refl, orb_true_r by lia. done. }
  split; [done|]. rewrite gather_skipped; [done|]. rewrite Wg. fold b.
  pose proof (large_write_group s count pos) as Hlg. change PEB_COVERAGE with 33554432 in Hlg. fold b in Hlg.
  rewrite Hlg; [done|done|lia|unfold b; Z.div_mod_to_equations; lia|done].
Qed.

Definition clean_shm : shm :=
  mk_shm 0 SHM_USE_JOURNAL (fun _ => false) (fun _ => false) (fun _ => false) (fun _ => false) (fun _ => false) (fun _ => false)
    (mk_counter 0 0 0).
Definition empty_irds : journal_irds := mk_jirds (mk_irds [no_ird] None) (mk_irds [no_ird] None) 0.

