(* ===== verification/IrdFrames.v ===== *)
(** * Range lists on disk

    The waiting dirty ranges of a file go to the stage area as frames of one
    block, [serialize_and_fill_ird_list] of [secure_daemon/src/fs/sync.c]: a
    base page, the number of entries, and per range the distance from the end
    of the previous one and the length.  [deserialize_ird_compact] of
    [secure_daemon/src/libfs/shm.c] reads frames back. *)

From S2P Require Import Prelude Bio Sjd DirtyPages DirtyRanges.

Definition hdr_sz : Z := 10.
Definition ent_sz : Z := 8.
Definition ents_per_block : Z := (PAGE_SIZE - hdr_sz) / ent_sz.

(** Fields of a frame. *)
Definition base_pg (b : block) : Z := rd 8 b 0.
Definition n_entries (b : block) : Z := rd 2 b 8.
Definition ent_delta (b : block) (i : Z) : Z := rd 4 b (hdr_sz + ent_sz * i).
Definition ent_len (b : block) (i : Z) : Z := rd 4 b (hdr_sz + ent_sz * i + 4).

(** ** Writing *)

(** Local variables of the loop; [frames] are the blocks reserved so far, the
    last one is open. *)
Record ser := mk_ser { frames : list block; prev_end : Z; first_in_frame : bool; ent_idx : Z }.

Definition on_last (f : block -> block) (bs : list block) : list block := alter f (length bs - 1)%nat bs.

Section serialize.

(** Old contents of the stage buffers. *)
Context (scratch : nat -> block).

Definition open_frame (st : ser) (start : Z) : ser :=
  mk_ser (frames st ++ [wr 2 (wr 8 (scratch (length (frames st))) 0 start) 8 0]) start false 0.

Definition put_entry_blk (b : block) (i delta len : Z) : block :=
  wr 2 (wr 4 (wr 4 b (hdr_sz + ent_sz * i) delta) (hdr_sz + ent_sz * i + 4) len) 8 (i + 1).

Definition put_entry (st : ser) (start len : Z) : ser :=
  let delta := if prev_end st <=? start then start - prev_end st else 0 in
  mk_ser (on_last (fun b => put_entry_blk b (ent_idx st) (u32 delta) (u32 len)) (frames st))
    (u64 (start + len)) (first_in_frame st) (ent_idx st + 1).

(** One range; a full frame is closed and the range done again.  Fuel: a new
    frame has room. *)
Fixpoint ser_range (fuel : nat) (st : ser) (r : Z * Z) : ser :=
  match fuel with
  | O => st
  | S fuel =>
      let start := r.1 in
      let len := u64 r.2 in
      if len =? 0 then st
      else
        let st := if first_in_frame st then open_frame st start else st in
        if ent_idx st =? ents_per_block then
          ser_range fuel (mk_ser (on_last (fun b => wr 2 b 8 (ent_idx st)) (frames st)) (prev_end st) true (ent_idx st)) r
        else put_entry st start len
  end.

Definition serialize_and_fill_ird_list (ird : list inode_range_dirty) : list block :=
  frames (foldl (fun st n => foldl (ser_range 2) st (dirty_pages n)) (mk_ser [] 0 true 0) ird).

End serialize.

(** The number of blocks reserved for a list. *)
Definition count_ird_dump_blocks (ird : list inode_range_dirty) : Z :=
  let total_entries := foldl (fun t n => u64 (t + Z.of_nat (length (dirty_pages n)))) 0 ird in
  u32 (u64 (total_entries + ents_per_block - 1) / ents_per_block).

(** ** Reading *)

Definition append_ird (ns : list inode_range_dirty) (r : Z * Z) : list inode_range_dirty :=
  match last ns with
  | Some n => if ird_full n then ns ++ [add_ent r no_ird] else alter (add_ent r) (length ns - 1)%nat ns
  | None => ns
  end.

(** Entries [i], ... of a frame; [cur] is the end of the range before. *)
Fixpoint entries (b : block) (n : nat) (i cur : Z) : list (Z * Z) :=
  match n with
  | O => []
  | S n =>
      let start := u64 (cur + ent_delta b i) in
      (start, s32 (ent_len b i)) :: entries b n (i + 1) (u64 (start + ent_len b i))
  end.

Fixpoint deserialize_frames (ns : list inode_range_dirty) (blks : list block) : option (list inode_range_dirty) :=
  match blks with
  | [] => Some ns
  | b :: blks =>
      if PAGE_SIZE <? hdr_sz + n_entries b * ent_sz then None
      else deserialize_frames (foldl append_ird ns (entries b (Z.to_nat (n_entries b)) 0 (base_pg b))) blks
  end.

Definition deserialize_ird_compact (blks : list block) : option (list inode_range_dirty) :=
  deserialize_frames [no_ird] blks.

(** ** One frame *)

Fixpoint entries_end (b : block) (n : nat) (i cur : Z) : Z :=
  match n with
  | O => cur
  | S n => entries_end b n (i + 1) (u64 (u64 (cur + ent_delta b i) + ent_len b i))
  end.

Lemma entries_snoc b n : forall i cur,
  let e := entries_end b n i cur in
  let start := u64 (e + ent_delta b (i + Z.of_nat n)) in
  entries b (S n) i cur = entries b n i cur ++ [(start, s32 (ent_len b (i + Z.of_nat n)))] /\
  entries_end b (S n) i cur = u64 (start + ent_len b (i + Z.of_nat n)).
Proof.
  induction n as [|n IH]; intros i cur; [by rewrite Z.add_0_r|].
  specialize (IH (i + 1) (u64 (u64 (cur + ent_delta b i) + ent_len b i))).
  replace (i + Z.of_nat (S n)) with (i + 1 + Z.of_nat n) by lia. cbn zeta in *. destruct IH as [IH1 IH2].
  split; [|exact IH2]. change (entries b (S (S n)) i cur) with
    ((u64 (cur + ent_delta b i), s32 (ent_len b i)) :: entries b (S n) (i + 1) (u64 (u64 (cur + ent_delta b i) + ent_len b i))).
  rewrite IH1. done.
Qed.

Lemma entries_ext b b' n : forall i cur,
  (forall j, i <= j < i + Z.of_nat n -> ent_delta b' j = ent_delta b j /\ ent_len b' j = ent_len b j) ->
  entries b' n i cur = entries b n i cur /\ entries_end b' n i cur = entries_end b n i cur.
Proof.
  induction n as [|n IH]; intros i cur Hj; [done|]. cbn [entries entries_end].
  destruct (Hj i ltac:(lia)) as [-> ->]. destruct (IH (i + 1) (u64 (u64 (cur + ent_delta b i) + ent_len b i))) as [-> ->]; [|done].
  intros j Hj'. apply Hj. lia.
Qed.

Definition frame_ranges (b : block) : list (Z * Z) := entries b (Z.to_nat (n_entries b)) 0 (base_pg b).
Definition frame_end (b : block) : Z := entries_end b (Z.to_nat (n_entries b)) 0 (base_pg b).

(** A frame with [k] entries. *)
Record frame_ok (b : block) (k : Z) : Prop := {
  fo_block : block_ok b;
  fo_entries : n_entries b = k;
  fo_fits : 0 <= k <= 510
}.

Lemma open_frame_ok b start : block_ok b -> 0 <= start < U64_MOD ->
  let b' := wr 2 (wr 8 b 0 start) 8 0 in frame_ok b' 0 /\ frame_ranges b' = [] /\ frame_end b' = start.
Proof.
  intros Hb Hs b'. assert (n_entries b' = 0) as E by (unfold n_entries, b'; apply field_eq; [apply wr_ok|..]; done || lia).
  split; [split; [|done|lia]; unfold b'; apply wr_ok; [apply wr_ok|..]; done || lia|].
  unfold frame_ranges, frame_end. rewrite E. split; [done|]. unfold entries_end, base_pg, b'. cbn [Z.to_nat].
  rewrite field_ne by field_side. apply field_eq; [done|lia|lia|done].
Qed.

Lemma put_entry_blk_ok b k start len :
  frame_ok b k -> k < 510 -> 0 <= frame_end b <= start -> start - frame_end b < U32_MOD -> 0 < len < 2 ^ 31 -> start + len < U64_MOD ->
  let b' := put_entry_blk b k (start - frame_end b) len in
  frame_ok b' (k + 1) /\ frame_ranges b' = frame_ranges b ++ [(start, len)] /\ frame_end b' = start + len.
Proof.
  intros [Hb Hn Hk] Hk' Hs Hd Hl Hm b'.
  assert (block_ok b') as Hb' by (unfold b', put_entry_blk, hdr_sz, ent_sz; repeat apply wr_ok; done || lia).
  assert (n_entries b' = k + 1) as En.
  { unfold n_entries, b', put_entry_blk, hdr_sz, ent_sz. apply field_eq; [repeat apply wr_ok; done || lia|lia|lia|cbn; lia]. }
  assert (base_pg b' = base_pg b) as Eb.
  { unfold base_pg, b', put_entry_blk, hdr_sz, ent_sz. by fields. }
  assert (forall j, 0 <= j < 0 + Z.of_nat (Z.to_nat k) -> ent_delta b' j = ent_delta b j /\ ent_len b' j = ent_len b j) as Hj.
  { intros j Hj. unfold ent_delta, ent_len, b', put_entry_blk, hdr_sz, ent_sz. split; by fields. }
  assert (ent_delta b' k = start - frame_end b /\ ent_len b' k = len) as [Ed El].
  { unfold ent_delta, ent_len, b', put_entry_blk, hdr_sz, ent_sz. split; fields; done. }
  destruct (entries_ext b b' (Z.to_nat k) 0 (base_pg b) Hj) as [E1 E2].
  pose proof (entries_snoc b' (Z.to_nat k) 0 (base_pg b)) as Es. cbn zeta in Es.
  rewrite E1, E2, Z.add_0_l, Z2Nat.id, Ed, El in Es by lia. destruct Es as [Es1 Es2].
  assert (entries_end b (Z.to_nat k) 0 (base_pg b) = frame_end b) as Ef by (unfold frame_end; by rewrite Hn).
  rewrite Ef in Es1, Es2. replace (frame_end b + (start - frame_end b)) with start in * by lia.
  rewrite (u64_id start) in * by lia. rewrite u64_id in Es2 by lia.
  split; [by split; [..|lia]|]. unfold frame_ranges at 1, frame_end at 1. rewrite En, Eb.
  replace (Z.to_nat (k + 1)) with (S (Z.to_nat k)) by lia. rewrite Es1, Es2. split; [|done].
  unfold frame_ranges. rewrite Hn. do 3 f_equal. apply s32_small. lia.
Qed.

(** ** All frames *)

(** Ranges in ascending order, disjoint, below page 2^32. *)
Fixpoint ird_sorted (prev : Z) (rs : list (Z * Z)) : Prop :=
  match rs with
  | [] => True
  | r :: rs => prev <= r.1 /\ 0 < r.2 < 2 ^ 31 /\ r.1 + r.2 <= 2 ^ 32 /\ ird_sorted (r.1 + r.2) rs
  end.

Record open_ser (rs : list (Z * Z)) (st : ser) (full : list block) (b : block) : Prop := {
  os_frames : frames st = full ++ [b];
  os_full : Forall (fun b => frame_ok b 510) full;
  os_last : frame_ok b (ent_idx st);
  os_used : 0 < ent_idx st;
  os_first : first_in_frame st = false;
  os_end : frame_end b = prev_end st;
  os_ranges : concat (frame_ranges <$> full ++ [b]) = rs;
  os_count : Z.of_nat (length rs) = 510 * Z.of_nat (length full) + ent_idx st
}.

Definition ser_inv (rs : list (Z * Z)) (st : ser) : Prop :=
  (rs = [] /\ st = mk_ser [] 0 true 0) \/ exists full b, open_ser rs st full b.

Lemma on_last_app f full b : on_last f (full ++ [b]) = full ++ [f b].
Proof.
  unfold on_last. rewrite length_app. cbn [length]. replace (length full + 1 - 1)%nat with (length full + 0)%nat by lia. by rewrite alter_app_r.
Qed.

(** The number of entries written again. *)
Lemma close_frame_ok b k : frame_ok b k ->
  frame_ok (wr 2 b 8 k) k /\ frame_ranges (wr 2 b 8 k) = frame_ranges b.
Proof.
  intros [Hb Hn Hk]. assert (n_entries (wr 2 b 8 k) = k) as E by (unfold n_entries; apply field_eq; [done|lia|lia|cbn; lia]).
  split; [split; [by apply wr_ok|done|done]|]. unfold frame_ranges. rewrite E, Hn.
  assert (base_pg (wr 2 b 8 k) = base_pg b) as -> by (unfold base_pg; by fields).
  apply entries_ext. intros j Hj. unfold ent_delta, ent_len, hdr_sz, ent_sz. split; by fields.
Qed.

Section roundtrip.
Context (scratch : nat -> block).
Hypothesis Hscratch : forall i, block_ok (scratch i).

(** The first range of a frame. *)
Lemma new_frame_ok rs full st start nr :
  Forall (fun b => frame_ok b 510) full -> frames st = full -> concat (frame_ranges <$> full) = rs ->
  Z.of_nat (length rs) = 510 * Z.of_nat (length full) -> 0 <= start -> 0 < nr < 2 ^ 31 -> start + nr <= 2 ^ 32 ->
  exists b, open_ser (rs ++ [(start, nr)]) (put_entry (open_frame scratch st start) start nr) full b /\
    prev_end (put_entry (open_frame scratch st start) start nr) = start + nr.
Proof.
  intros Hf Est Hr Hlen Hs Hn Hm. unfold put_entry, open_frame. rewrite Est. cbn [frames prev_end first_in_frame ent_idx].
  destruct (open_frame_ok (scratch (length full)) start (Hscratch _) ltac:(lia)) as (Hok & Hr0 & He0). cbn zeta in *.
  set (b0 := wr 2 _ 8 0) in *. destruct (put_entry_blk_ok b0 0 start nr Hok) as (Hok' & Hr' & He'); [lia..|]. cbn zeta in *.
  rewrite He0, Z.sub_diag in *. rewrite Z.leb_refl, on_last_app, (u32_id nr), (u64_id (start + nr)) by lia.
  change (u32 0) with 0. exists (put_entry_blk b0 0 0 nr). split; [|done]. split; cbn [frames prev_end first_in_frame ent_idx]; try done.
  - rewrite fmap_app, concat_app, Hr. cbn. by rewrite app_nil_r, Hr', Hr0.
  - rewrite length_app. cbn [length]. lia.
Qed.

Lemma ser_range_ok rs st start nr :
  ser_inv rs st -> 0 <= prev_end st <= start -> 0 < nr < 2 ^ 31 -> start + nr <= 2 ^ 32 ->
  ser_inv (rs ++ [(start, nr)]) (ser_range scratch 2 st (start, nr)) /\ prev_end (ser_range scratch 2 st (start, nr)) = start + nr.
Proof.
  intros Hi Hp Hn Hm. cbn [ser_range fst snd]. rewrite (u64_id nr), (proj2 (Z.eqb_neq nr 0)) by lia.
  change ents_per_block with 510. destruct Hi as [[-> ->]|(full & b & [H1 H2 H3 H4 H5 H6 H7 H8])].
  - cbn [first_in_frame]. destruct (new_frame_ok [] [] (mk_ser [] 0 true 0) start nr) as (b & Ho & He); [by constructor|done|done|done|lia..|].
    cbn [open_frame ent_idx]. change (0 =? 510) with false. cbv iota. split; [right; by exists [], b|done].
  - rewrite H5. destruct (Z.eqb_spec (ent_idx st) 510) as [E | E].
    + cbn [first_in_frame ent_idx]. rewrite H1, on_last_app. destruct (close_frame_ok b _ H3) as [Hc1 Hc2].
      cbn [open_frame ent_idx]. change (0 =? 510) with false. cbv iota.
      edestruct (new_frame_ok rs (full ++ [wr 2 b 8 (ent_idx st)]) (mk_ser (full ++ [wr 2 b 8 (ent_idx st)]) (prev_end st) true (ent_idx st)) start nr)
        as (b' & Ho & He); [| done | | | lia.. | split; [right; by eexists _, b'|done] ].
      * apply Forall_app. split; [done|]. constructor; [|constructor]. by rewrite E in *.
      * rewrite <- H7, !fmap_app, !concat_app. cbn. by rewrite Hc2.
      * rewrite length_app. cbn [length]. lia.
    + unfold put_entry. rewrite (proj2 (Z.leb_le (prev_end st) start)), H1, on_last_app, H5 by lia.
      rewrite (u32_id (start - prev_end st)), (u32_id nr), (u64_id (start + nr)) by lia. cbn [prev_end]. split; [|done]. right.
      destruct (put_entry_blk_ok b (ent_idx st) start nr H3) as (Hok & Hr & He); [destruct H3; lia|lia..|]. cbn zeta in *. rewrite H6 in *.
      exists full. eexists. split; cbn [frames prev_end first_in_frame ent_idx]; try done; [lia| |].
      * rewrite <- H7, !fmap_app, !concat_app. cbn. by rewrite !app_nil_r, Hr, app_assoc.
      * rewrite length_app. cbn [length]. lia.
Qed.

Lemma ser_ranges_ok rs' : forall rs st,
  ser_inv rs st -> 0 <= prev_end st -> ird_sorted (prev_end st) rs' -> ser_inv (rs ++ rs') (foldl (ser_range scratch 2) st rs').
Proof.
  induction rs' as [|[start nr] rs' IH]; intros rs st Hi H0 Hs; [by rewrite app_nil_r|].
  cbn [ird_sorted fst snd] in Hs. destruct Hs as (H1 & H2 & H3 & H4).
  destruct (ser_range_ok rs st start nr Hi ltac:(lia) H2 H3) as [Hi' He]. cbn [foldl].
  replace (rs ++ (start, nr) :: rs') with ((rs ++ [(start, nr)]) ++ rs') by by rewrite <- app_assoc.
  apply IH; [done|lia|by rewrite He].
Qed.

Lemma foldl_nodes {A} (f : A -> Z * Z -> A) ns : forall st,
  foldl (fun st n => foldl f st (dirty_pages n)) st ns = foldl f st (concat (dirty_pages <$> ns)).
Proof. induction ns as [|n ns IH]; intros st; [done|]. cbn. by rewrite IH, foldl_app. Qed.

(** Reading back appends the ranges of each frame. *)
Lemma append_ird_ok ns r : ird_wf (mk_irds ns None) ->
  ird_wf (mk_irds (append_ird ns r) None) /\ ranges (mk_irds (append_ird ns r) None) = ranges (mk_irds ns None) ++ [r].
Proof.
  intros [(full & n & El & Hf & Hn) _]. cbn [ird_nodes] in El. subst ns. unfold append_ird. rewrite last_snoc.
  unfold ird_full, RANGE_DIRTY_ENT_MAX. destruct (Z.eqb_spec (Z.of_nat (length (dirty_pages n))) 340) as [E | E].
  - split.
    + split; cbn; [|lia]. exists (full ++ [n]), (add_ent r no_ird). split; [done|]. split; [|cbn; lia].
      apply Forall_app. split; [done|]. repeat constructor. lia.
    + unfold ranges. cbn [ird_nodes]. rewrite fmap_app, concat_app. done.
  - rewrite length_app. cbn [length]. replace (length full + 1 - 1)%nat with (length full + 0)%nat by lia. rewrite alter_app_r. split.
    + split; cbn [ird_nodes ird_tail default]; [|lia]. exists full, (add_ent r n). split; [done|]. split; [done|]. cbn. rewrite length_app. cbn. lia.
    + unfold ranges. cbn [ird_nodes]. rewrite !fmap_app, !concat_app. cbn. by rewrite !app_nil_r, app_assoc.
Qed.

Lemma append_irds_ok rs : forall ns, ird_wf (mk_irds ns None) ->
  ird_wf (mk_irds (foldl append_ird ns rs) None) /\ ranges (mk_irds (foldl append_ird ns rs) None) = ranges (mk_irds ns None) ++ rs.
Proof.
  induction rs as [|r rs IH]; intros ns Hw; [by rewrite app_nil_r|]. cbn [foldl].
  destruct (append_ird_ok ns r Hw) as [Hw' Hr]. destruct (IH _ Hw') as [Hw'' ->]. by rewrite Hr, <- app_assoc.
Qed.

Lemma deserialize_frames_ok blks : forall ns, ird_wf (mk_irds ns None) -> Forall (fun b => exists k, frame_ok b k) blks ->
  exists ns', deserialize_frames ns blks = Some ns' /\ ird_wf (mk_irds ns' None) /\
    ranges (mk_irds ns' None) = ranges (mk_irds ns None) ++ concat (frame_ranges <$> blks).
Proof.
  induction blks as [|b blks IH]; intros ns Hw Hf.
  { exists ns. split; [done|]. split; [done|]. cbn. by rewrite app_nil_r. }
  apply Forall_cons in Hf as [(k & [Hb Hn Hk]) Hf]. cbn [deserialize_frames]. change PAGE_SIZE with 4096. unfold hdr_sz, ent_sz. rewrite Hn.
  rewrite (proj2 (Z.ltb_ge 4096 (10 + k * 8))) by lia. destruct (append_irds_ok (entries b (Z.to_nat k) 0 (base_pg b)) ns Hw) as [Hw' Hr].
  destruct (IH _ Hw' Hf) as (ns' & E & Hw'' & Hr'). exists ns'. split; [done|]. split; [done|].
  rewrite Hr', Hr, <- app_assoc. cbn. unfold frame_ranges at 2. by rewrite Hn.
Qed.

(** As many frames are written as were reserved. *)
Lemma ird_sorted_length rs : forall prev, ird_sorted prev rs -> prev <= 2 ^ 32 -> Z.of_nat (length rs) <= 2 ^ 32 - prev.
Proof.
  induction rs as [|r rs IH]; intros prev Hs Hp; cbn [length ird_sorted] in *; [lia|].
  destruct Hs as (H1 & H2 & H3 & H4). specialize (IH _ H4 ltac:(lia)). lia.
Qed.

Lemma total_entries_eq ns : forall t, 0 <= t -> t + Z.of_nat (length (concat (dirty_pages <$> ns))) < U64_MOD ->
  foldl (fun t n => u64 (t + Z.of_nat (length (dirty_pages n)))) t ns = t + Z.of_nat (length (concat (dirty_pages <$> ns))).
Proof.
  induction ns as [|n ns IH]; intros t Ht Hm; cbn in *; [lia|]. rewrite length_app in *. rewrite u64_id by lia.
  rewrite IH by lia. lia.
Qed.

Lemma dump_blocks_ok rs st : ser_inv rs st -> 
  Z.of_nat (length (frames st)) = (Z.of_nat (length rs) + 510 - 1) / 510.
Proof.
  intros [[-> ->]|(full & b & [H1 _ [_ _ H3] H4 _ _ _ H8])]; [done|]. rewrite H1, H8, length_app. cbn [length]. Z.div_mod_to_equations; lia.
Qed.

Lemma dump_ok ns : ird_sorted 0 (concat (dirty_pages <$> ns)) ->
  exists ns', deserialize_ird_compact (serialize_and_fill_ird_list scratch ns) = Some ns' /\ ird_wf (mk_irds ns' None) /\
    concat (dirty_pages <$> ns') = concat (dirty_pages <$> ns) /\
    Z.of_nat (length (serialize_and_fill_ird_list scratch ns)) = count_ird_dump_blocks ns.
Proof.
  intros Hs. unfold deserialize_ird_compact, serialize_and_fill_ird_list. rewrite foldl_nodes.
  pose proof (ser_ranges_ok (concat (dirty_pages <$> ns)) [] (mk_ser [] 0 true 0) ltac:(by left) ltac:(done) Hs) as Hi. cbn [app] in Hi.
  set (st := foldl _ _ _) in *. set (rs := concat _) in *.
  assert (Forall (fun b => exists k, frame_ok b k) (frames st) /\ concat (frame_ranges <$> frames st) = rs) as [Hf Hr].
  { destruct Hi as [[-> ->]|(full & b & [H1 H2 H3 _ _ _ H7 _])]; [done|]. rewrite H1. split; [|done].
    apply Forall_app. split; [eapply Forall_impl; [exact H2|by eexists]|]. repeat constructor. by eexists. }
  destruct (deserialize_frames_ok (frames st) [no_ird]) as (ns' & -> & Hw & Hr'); [|done|].
  { split; cbn; [|lia]. exists [], no_ird. split; [done|]. split; [constructor|cbn; lia]. }
  exists ns'. split; [done|]. split; [done|]. split; [by rewrite Hr in Hr'|].
  rewrite (dump_blocks_ok rs st Hi). unfold count_ird_dump_blocks. pose proof (ird_sorted_length rs 0 Hs ltac:(lia)).
  rewrite total_entries_eq by (fold rs; lia). fold rs. change ents_per_block with 510. rewrite Z.add_0_l, (u64_id (_ + 510 - 1)) by lia.
  rewrite u32_id; [done|]. split; [apply Z.div_pos; lia|]. apply Z.div_lt_upper_bound; lia.
Qed.
End roundtrip.

(** C19: dirty ranges survive the stage area: for every list of disjoint
    ascending ranges, the frames that [serialize_and_fill_ird_list] writes into
    buffers with any old contents are read back by [deserialize_ird_compact] as
    the same ranges, in well-formed nodes, and their number is the one
    [count_ird_dump_blocks] reserved. *)
Theorem ird_dump_roundtrip (scratch : nat -> block) (ns : list inode_range_dirty) :
  (forall i, block_ok (scratch i)) -> ird_sorted 0 (concat (dirty_pages <$> ns)) ->
  exists ns', deserialize_ird_compact (serialize_and_fill_ird_list scratch ns) = Some ns' /\ ird_wf (mk_irds ns' None) /\
    concat (dirty_pages <$> ns') = concat (dirty_pages <$> ns) /\
    Z.of_nat (length (serialize_and_fill_ird_list scratch ns)) = count_ird_dump_blocks ns.
Proof. intros. by apply dump_ok. Qed.

Definition demo_ranges : list inode_range_dirty := [mk_ird [(3, 2); (9000, 1)] 3; mk_ird [(9001, 4); (100000, 70000)] 70004].

Lemma ird_dump_roundtrip_witness :
  exists ns', deserialize_ird_compact (serialize_and_fill_ird_list (fun _ => zero_block) demo_ranges) = Some ns' /\ ird_wf (mk_irds ns' None) /\
    concat (dirty_pages <$> ns') = [(3, 2); (9000, 1); (9001, 4); (100000, 70000)] /\
    Z.of_nat (length (serialize_and_fill_ird_list (fun _ => zero_block) demo_ranges)) = 1.
Proof.
  apply (ird_dump_roundtrip (fun _ => zero_block) demo_ranges); [intros i; exact zero_block_ok|].
  cbn. lia.
Defined.

(** ** From a write to the stage area *)

(** Strictly ascending, from [lo] on. *)
Fixpoint ascending (lo : Z) (l : list Z) : Prop :=
  match l with
  | [] => True
  | x :: l => lo <= x /\ ascending (x + 1) l
  end.

Lemma ascending_weaken l : forall lo lo', lo' <= lo -> ascending lo l -> ascending lo' l.
Proof. destruct l as [|x l]; intros lo lo' H; cbn; [done|]. intros [H1 H2]. split; [lia|done]. Qed.

Lemma ascending_filter f n : forall a, ascending a (List.filter f (seqz a (Z.of_nat n))).
Proof.
  induction n as [|n IH]; intros a; [by rewrite seqz_nil by lia|]. rewrite seqz_cons by lia. cbn [List.filter].
  replace (Z.of_nat (S n) - 1) with (Z.of_nat n) by lia. destruct (f a); [split; [lia|done]|].
  eapply ascending_weaken; [|apply IH]. lia.
Qed.

Lemma ascending_run n : forall lo s l, ascending lo (seqz s (Z.of_nat n + 1) ++ l) -> lo <= s /\ ascending (s + Z.of_nat n + 1) l.
Proof.
  induction n as [|n IH]; intros lo s l; rewrite seqz_cons by lia; cbn [app ascending]; intros [H1 H2].
  - rewrite seqz_nil in H2 by lia. split; [done|]. by replace (s + Z.of_nat 0 + 1) with (s + 1) by lia.
  - replace (Z.of_nat (S n) + 1 - 1) with (Z.of_nat n + 1) in H2 by lia. apply IH in H2 as [_ H2]. split; [done|].
    by replace (s + Z.of_nat (S n) + 1) with (s + 1 + Z.of_nat n + 1) by lia.
Qed.

Lemma ranges_sorted rs : forall lo, Forall (fun r => 0 < r.2) rs -> 0 <= lo -> ascending lo (range_pages rs) ->
  Forall (fun p => p < 2 ^ 31 - 1) (range_pages rs) -> ird_sorted lo rs.
Proof.
  induction rs as [|[s n] rs IH]; intros lo Hp Hlo Ha Hm; [done|]. apply Forall_cons in Hp as [Hn Hp]. cbn in Hn.
  unfold range_pages in Ha, Hm. cbn in Ha, Hm. fold (range_pages rs) in Ha, Hm.
  apply Forall_app in Hm as [Hm1 Hm2].
  replace (seqz s n) with (seqz s (Z.of_nat (Z.to_nat (n - 1)) + 1)) in Ha by (f_equal; lia).
  apply ascending_run in Ha as [H1 H2]. replace (s + Z.of_nat (Z.to_nat (n - 1)) + 1) with (s + n) in H2 by lia.
  assert (s + n - 1 < 2 ^ 31 - 1) by (eapply (proj1 (Forall_forall _ _) Hm1), elem_of_seqz; lia).
  cbn [ird_sorted fst snd]. split; [done|]. split; [lia|]. split; [lia|]. apply IH; [done|lia|done|done].
Qed.

Lemma gathered_sorted f n rs :
  Forall (fun r => 0 < r.2) rs -> range_pages rs = List.filter f (seqz 0 n) -> 0 <= n < 2 ^ 31 -> ird_sorted 0 rs.
Proof.
  intros Hp E Hn. rewrite <- (Z2Nat.id n) in E by lia. apply ranges_sorted; [done|done|rewrite E; apply ascending_filter|].
  apply Forall_forall. intros p Hpin. rewrite E in Hpin. apply list_elem_of_In, List.filter_In in Hpin as [Hin _].
  apply list_elem_of_In, elem_of_seqz in Hin. lia.
Qed.

(** Pages a file can have: one group bit per 8192 pages. *)
Definition nr_pages : Z := 32768 * 8192.

Lemma empty_irds_wf : sink_wf empty_irds.
Proof.
  assert (ird_wf (mk_irds [no_ird] None)); [|by split; [|split]].
  split; cbn; [|lia]. exists [], no_ird. split; [done|]. split; [constructor|cbn; lia].
Qed.

Lemma gather_dump_ok (scratch : nat -> block) s :
  (forall i, block_ok (scratch i)) -> tracked s -> (forall p, dirty s p = true -> locked s p = false) ->
  exists s' l' ns, inode_gather_dirty_pagebits s empty_irds = (s', l') /\
    deserialize_ird_compact (serialize_and_fill_ird_list scratch (ird_nodes (jd_waiting l'))) = Some ns /\
    range_pages (concat (dirty_pages <$> ns)) = List.filter (dirty s) (seqz 0 nr_pages) /\
    (forall p, 0 <= p < nr_pages -> dirty s' p = false /\ locked s' p = locked s p || dirty s p).
Proof.
  intros Hsc Ht Hl. destruct (inode_gather_ok s empty_irds Ht Hl empty_irds_wf) as (s' & l' & E & [[Hw (rs & Hr & Hp & Hpg) Hd Hlk] _]).
  fold nr_pages in Hpg, Hd, Hlk.
  destruct Hw as (_ & _ & Hw). cbn [sink_ranges journal_sink] in Hr. rewrite <- Hw in Hr. change (sink_ranges empty_irds) with (@nil (Z * Z)) in Hr.
  cbn [app] in Hr. unfold ranges in Hr. destruct (dump_ok scratch Hsc (ird_nodes (jd_waiting l'))) as (ns & En & _ & Er & _).
  { rewrite Hr. eapply gathered_sorted; [done|exact Hpg|]. unfold nr_pages. lia. }
  exists s', l', ns. split; [exact E|]. split; [exact En|]. split; [rewrite Er, Hr; exact Hpg|]. intros p Hpb. rewrite Hd, Hlk.
  rewrite (proj2 (Z.leb_le 0 p)), (proj2 (Z.ltb_lt p (0 + nr_pages))) by lia. split; reflexivity.
Qed.

(** C18: no written page is lost on its way to the stage area.  For every write
    of up to 32 MB within the file's mapping, [libfs_write] returns; the
    daemon's [inode_gather_dirty_pagebits] then moves exactly the dirty pages
    into its lists, clearing the dirty bits and locking the pages; and the
    frames dumped from the waiting list read back as those pages, in order,
    each once, every page of the write among them. *)
Theorem written_pages_staged PEB_NR s data buf count pos answer uninit (scratch : nat -> block) :
  PEB_NR <= 32768 -> (forall i, block_ok (scratch i)) -> tracked s -> (forall p, locked s p = false) ->
  0 <= pos -> 0 < count <= PEB_COVERAGE -> pos + count <= PEB_NR * PEB_COVERAGE -> Z.testbit answer 13 = true ->
  exists s1 data1 s2 l2 ns,
    libfs_write PEB_NR s data buf count pos answer uninit = Ok (s1, data1, pos + count) /\
    inode_gather_dirty_pagebits s1 empty_irds = (s2, l2) /\
    deserialize_ird_compact (serialize_and_fill_ird_list scratch (ird_nodes (jd_waiting l2))) = Some ns /\
    range_pages (concat (dirty_pages <$> ns)) = List.filter (dirty s1) (seqz 0 nr_pages) /\
    (forall p, pos / 4096 <= p <= (pos + count - 1) / 4096 -> p ∈ range_pages (concat (dirty_pages <$> ns))) /\
    (forall p, 0 <= p < nr_pages -> dirty s2 p = false /\ locked s2 p = dirty s1 p).
Proof.
  intros HP Hsc Ht Hl Hpos Hc Hm Ha. pose proof (eq_refl : PEB_COVERAGE = 33554432) as HC.
  destruct (libfs_write_ok PEB_NR HP s data buf count pos answer uninit) as (s1 & data1 & Ew & Hw); [done..|lia|done|auto|done|].
  destruct (gather_dump_ok scratch s1 Hsc) as (s2 & l2 & ns & Eg & Ed & Er & Hp).
  { apply Hw. lia. } { intros p _. rewrite (wr_locked _ _ _ _ _ _ _ Hw). apply Hl. }
  exists s1, data1, s2, l2, ns. split; [exact Ew|]. split; [exact Eg|]. split; [exact Ed|]. split; [exact Er|].
  clear Ew Eg Ed. split.
  - intros p Hpg. rewrite Er. apply list_elem_of_In, List.filter_In. split.
    + apply list_elem_of_In, elem_of_seqz. unfold nr_pages. Z.div_mod_to_equations; lia.
    + rewrite (wr_dirty _ _ _ _ _ _ _ Hw). rewrite (proj2 (Z.leb_le _ _)), (proj2 (Z.leb_le p _)) by lia. apply orb_true_r.
  - clear Er. intros p Hpb. destruct (Hp p Hpb) as [H1 H2]. by rewrite H2, (wr_locked _ _ _ _ _ _ _ Hw), Hl.
Qed.

(** Ten bytes across the pages 0 and 1 of an empty file. *)
Lemma written_pages_staged_witness :
  exists s1 data1 s2 l2 ns,
    libfs_write 64 clean_shm (fun _ => 0) (fun _ => 7) 10 4090 SHM_RUNNING_TX false = Ok (s1, data1, 4100) /\
    inode_gather_dirty_pagebits s1 empty_irds = (s2, l2) /\
    deserialize_ird_compact (serialize_and_fill_ird_list (fun _ => zero_block) (ird_nodes (jd_waiting l2))) = Some ns /\
    range_pages (concat (dirty_pages <$> ns)) = List.filter (dirty s1) (seqz 0 nr_pages) /\
    (forall p, 4090 / 4096 <= p <= (4090 + 10 - 1) / 4096 -> p ∈ range_pages (concat (dirty_pages <$> ns))) /\
    (forall p, 0 <= p < nr_pages -> dirty s2 p = false /\ locked s2 p = dirty s1 p).
Proof.
  apply (written_pages_staged 64 clean_shm (fun _ => 0) (fun _ => 7) 10 4090 SHM_RUNNING_TX false (fun _ => zero_block)).
  - lia.
  - intros i. exact zero_block_ok.
  - split; done.
  - done.
  - lia.
  - split; [lia|vm_compute; congruence].
  - vm_compute; congruence.
  - reflexivity.
Defined.
