(* ===== verification/StageTx.v ===== *)
(** * Staging a file (fsync)

    [stage_file] of [secure_daemon/src/fs/sync.c] for a regular file: the
    inode, the dirty index blocks and the dirty pages of the file are collected
    in the sequence buffers of the thread, tagged with their home blocks, and
    written as one run of blocks in the stage area; ranges that a background
    transaction has taken over but not committed yet follow as frames with
    their data.  Pending blocks are a list: page [i] of the buffers is element
    [i].  [stale] stands for the old contents of a buffer page, by position in
    the transaction.  The NVMe writes of a buffer are complete before it is
    filled again ([stx_drain_until_slot_free]) and before [stage_file] returns,
    so a write is applied when it is issued. *)

From S2P Require Import Prelude Bio Sjd JournalLog Commit Coalesce Checkpoint TxBuild EndToEnd StageArea Layout SefsAlloc DirtyPages DirtyRanges IrdFrames.

(** ** State *)

(** [stage_tx] of [secure_daemon/include/fs/journal.h] with the disk;
    [ext_blk] is the position of the open extent tag block among the pending
    blocks, [s_unlocked] the pages unlocked so far. *)
Record stage_txn := mk_stg {
  nr_blocks : Z; seq_idx : Z; pend : list block; nr_issued : Z; desc_blk_skipped : bool;
  s_start : Z; s_commit_baddr : Z; stage_area_reserved : bool;
  s_ext_blk : option nat; desc_blk_copy : block;
  data_blks_cnt : Z; nr_other_blks : Z; s_unlocked : list Z; s_disk : disk
}.

Definition set_pend (s : stage_txn) (p : list block) : stage_txn :=
  mk_stg (nr_blocks s) (seq_idx s) p (nr_issued s) (desc_blk_skipped s) (s_start s) (s_commit_baddr s) (stage_area_reserved s)
    (s_ext_blk s) (desc_blk_copy s) (data_blks_cnt s) (nr_other_blks s) (s_unlocked s) (s_disk s).
Definition set_desc (s : stage_txn) (d : block) : stage_txn :=
  mk_stg (nr_blocks s) (seq_idx s) (pend s) (nr_issued s) (desc_blk_skipped s) (s_start s) (s_commit_baddr s) (stage_area_reserved s)
    (s_ext_blk s) d (data_blks_cnt s) (nr_other_blks s) (s_unlocked s) (s_disk s).
Definition set_ext (s : stage_txn) (e : option nat) : stage_txn :=
  mk_stg (nr_blocks s) (seq_idx s) (pend s) (nr_issued s) (desc_blk_skipped s) (s_start s) (s_commit_baddr s) (stage_area_reserved s)
    e (desc_blk_copy s) (data_blks_cnt s) (nr_other_blks s) (s_unlocked s) (s_disk s).
Definition set_seq (s : stage_txn) (nb si : Z) : stage_txn :=
  mk_stg nb si (pend s) (nr_issued s) (desc_blk_skipped s) (s_start s) (s_commit_baddr s) (stage_area_reserved s)
    (s_ext_blk s) (desc_blk_copy s) (data_blks_cnt s) (nr_other_blks s) (s_unlocked s) (s_disk s).
(** All pending blocks issued. *)
Definition set_issued (s : stage_txn) (skipped : bool) (d : disk) : stage_txn :=
  mk_stg (nr_blocks s) 0 [] (u32 (nr_issued s + Z.of_nat (length (pend s)))) skipped (s_start s) (s_commit_baddr s)
    (stage_area_reserved s) (s_ext_blk s) (desc_blk_copy s) (data_blks_cnt s) (nr_other_blks s) (s_unlocked s) d.
Definition set_reserved (s : stage_txn) (start commit other : Z) : stage_txn :=
  mk_stg (nr_blocks s) (seq_idx s) (pend s) (nr_issued s) (desc_blk_skipped s) start commit true
    (s_ext_blk s) (desc_blk_copy s) (data_blks_cnt s) other (s_unlocked s) (s_disk s).
Definition set_data_cnt (s : stage_txn) (n : Z) : stage_txn :=
  mk_stg (nr_blocks s) (seq_idx s) (pend s) (nr_issued s) (desc_blk_skipped s) (s_start s) (s_commit_baddr s) (stage_area_reserved s)
    (s_ext_blk s) (desc_blk_copy s) n (nr_other_blks s) (s_unlocked s) (s_disk s).
Definition s_unlock (s : stage_txn) (p : Z) : stage_txn :=
  mk_stg (nr_blocks s) (seq_idx s) (pend s) (nr_issued s) (desc_blk_skipped s) (s_start s) (s_commit_baddr s) (stage_area_reserved s)
    (s_ext_blk s) (desc_blk_copy s) (data_blks_cnt s) (nr_other_blks s) (s_unlocked s ++ [p]) (s_disk s).
Definition s_set_disk (s : stage_txn) (d : disk) : stage_txn :=
  mk_stg (nr_blocks s) (seq_idx s) (pend s) (nr_issued s) (desc_blk_skipped s) (s_start s) (s_commit_baddr s) (stage_area_reserved s)
    (s_ext_blk s) (desc_blk_copy s) (data_blks_cnt s) (nr_other_blks s) (s_unlocked s) d.

(** Fields of the stage descriptor block. *)
Definition sd_set_nr_etag_blks (b : block) (x : Z) : block := wr 4 b 272 x.
Definition sd_set_nr_tags (b : block) (x : Z) : block := wr 4 b 276 x.

Section stage.

(** Blocks of one sequence buffer and number of sequence buffers. *)
Context (nvme_max_blks seq_max : Z) (stale : Z -> block).

(** ** Writes *)

(** [n] blocks of the buffers from page [src] on to [dst]. *)
Definition put_pages (d : disk) (bufs : list block) (dst src n : Z) : disk :=
  fun b => if (dst <=? b) && (b <? dst + n) then bufs !!! Z.to_nat (src + (b - dst)) else d b.

(** One command per sequence buffer.  Fuel: the buffers left. *)
Fixpoint write_seqs (fuel : nat) (d : disk) (bufs : list block) (start nr_blks left n : Z) (skip_first_blk : bool) : disk :=
  match fuel with
  | O => d
  | S fuel =>
      let blks := if left <? nvme_max_blks then left else nvme_max_blks in
      let bi_start := u64 (start + nr_blks - left) in
      let d :=
        if (n =? 0) && skip_first_blk
        then put_pages d bufs (bi_start + 1) (n * nvme_max_blks + 1) (blks - 1)
        else put_pages d bufs bi_start (n * nvme_max_blks) blks in
      if left - blks =? 0 then d
      else write_seqs fuel d bufs start nr_blks (left - blks) (n + 1) skip_first_blk
  end.

Definition nvme_direct_write_async (d : disk) (bufs : list block) (seq_nr start nr_blks : Z) (skip_first_blk : bool) : disk :=
  write_seqs (Z.to_nat seq_nr) d bufs start nr_blks nr_blks 0 skip_first_blk.

(** ** Sequence buffers *)

(** The position of the block among the pending ones. *)
Definition resv_blk (s : stage_txn) : res (stage_txn * nat) :=
  let* s :=
    if nr_blocks s =? 0 then
      let* s :=
        if seq_idx s =? seq_max - 1 then
          let skip_first_blk := negb (desc_blk_skipped s) in
          assert! (negb (s_start s =? 0)) in
          assert! (stage_area_reserved s) in
          assert! (0 <? seq_max) in
          Ok (set_issued s true
                (nvme_direct_write_async (s_disk s) (pend s) seq_max (u64 (s_start s + nr_issued s)) (Z.of_nat (length (pend s)))
                   skip_first_blk))
        else Ok (set_seq s (nr_blocks s) (seq_idx s + 1)) in
      Ok (set_seq s nvme_max_blks (seq_idx s))
    else Ok s in
  let k := length (pend s) in
  Ok (set_seq (set_pend s (pend s ++ [stale (nr_issued s + Z.of_nat k)])) (nr_blocks s - 1) (seq_idx s), k).

(** Fill the block reserved last. *)
Definition fill_last (s : stage_txn) (f : block -> block) : stage_txn := set_pend s (on_last f (pend s)).

Definition copy_blk (s : stage_txn) (src : block) : res stage_txn :=
  let* (s, _) := resv_blk s in Ok (fill_last s (fun _ => src)).

Fixpoint copy_data_blks (s : stage_txn) (page : Z -> block) (iblock_start : Z) (cnt : nat) : res stage_txn :=
  match cnt with
  | O => Ok s
  | S cnt =>
      let* s := copy_blk s (page iblock_start) in
      copy_data_blks (s_unlock s iblock_start) page (iblock_start + 1) cnt
  end.

(** ** Tags *)

Definition write_etags (je : block) (start cnt : Z) : res (block * bool) :=
  assert! (mh_nr je <=? JOURNAL_ETAG_MAX) in
  Ok (fill_tag_etagblk je start cnt).

Definition stx_write_desc_tag (sdb : block) (start cnt : Z) : res (block * bool) :=
  assert! (negb (STAGE_DESC_BLK_TAG_MAX <=? sd_nr_tags sdb)) in
  let nr := sd_nr_tags sdb in
  let sdb := wr_etag sdb (stage_hdr_size + etag_size * nr) start cnt in
  let sdb := sd_set_nr_tags sdb (u32 (nr + 1)) in
  Ok (sdb, sd_nr_tags sdb =? STAGE_DESC_BLK_TAG_MAX).

(** A new extent tag block, empty. *)
Definition stx_new_ext (s : stage_txn) : res stage_txn :=
  let* (s, e) := resv_blk s in
  let s := set_ext (fill_last s (fun b => wr 4 b 4 0)) (Some e) in
  Ok (set_desc s (sd_set_nr_etag_blks (desc_blk_copy s) (u32 (sd_nr_etag_blks (desc_blk_copy s) + 1)))).

Definition stx_wrtag (s : stage_txn) (start cnt : Z) : res stage_txn :=
  match s_ext_blk s with
  | Some e =>
      let* (je, full) := write_etags (pend s !!! e) start cnt in
      let s := set_pend s (<[e := je]> (pend s)) in
      if full then stx_new_ext s else Ok s
  | None =>
      let* (sdb, full) := stx_write_desc_tag (desc_blk_copy s) start cnt in
      let s := set_desc s sdb in
      if full then stx_new_ext s else Ok s
  end.

(** The ranges of one node; [false]: ended early. *)
Fixpoint stage_fill_ird (get_blocks : Z -> option buffer_extent) (s : stage_txn) (dirty_pages : list (Z * Z)) : res (stage_txn * bool) :=
  match dirty_pages with
  | [] => Ok (s, true)
  | (start, cnt) :: rest =>
      if cnt =? 0 then stage_fill_ird get_blocks s rest
      else
        let* (s, ok) := tag_range stx_wrtag (Z.to_nat cnt) get_blocks s start cnt in
        if ok then stage_fill_ird get_blocks s rest else Ok (s, false)
  end.

(** The chain of nodes: it ends at the first empty successor. *)
Fixpoint stage_fill_tags (get_blocks : Z -> option buffer_extent) (s : stage_txn) (irds : list inode_range_dirty) : res stage_txn :=
  match irds with
  | [] => Ok s
  | ird :: next =>
      let* (s, go) := stage_fill_ird get_blocks s (dirty_pages ird) in
      if go then
        match next with
        | n :: _ => match dirty_pages n with [] => Ok s | _ => stage_fill_tags get_blocks s next end
        | [] => Ok s
        end
      else Ok s
  end.

(** Dirty blocks of the file's buffer list. *)
Fixpoint stage_fill_index_blk (s : stage_txn) (private_list : list buffer_head) : res stage_txn :=
  match private_list with
  | [] => Ok s
  | bh :: rest =>
      let* s :=
        if b_dirty bh then
          let* s := copy_blk s (b_data bh) in stx_wrtag s (b_blocknr bh) 1
        else Ok s in
      stage_fill_index_blk s rest
  end.

(** ** Data *)

(** What [build_stage_tx] has cut for one background transaction: its id, the
    id found when it comes to staging it, the ranges, and the numbers of data
    and frame blocks. *)
Record waiting := mk_waiting { w_txid : Z; w_cur_txid : Z; w_irds : list inode_range_dirty; w_data_blks : Z; w_ird_blks : Z }.

Definition stage_fix_blocks (s : stage_txn) (j : stage_ctx) (nr_dirty_blks : Z) (w0 w1 : waiting) : res (stage_txn * stage_ctx) :=
  let nr := u32 (nr_dirty_blks + w_data_blks w0 + w_ird_blks w0 + w_data_blks w1 + w_ird_blks w1) in
  assert! (nr_issued s =? 0) in
  let k := Z.of_nat (length (pend s)) in
  let* (j, start, commit) := stage_reserve_area j (u32 (k + nr + 1)) in
  Ok (set_reserved s start commit k, j).

(** The blocks of one range, a sequence buffer at a time.  Fuel: the blocks. *)
Fixpoint fill_data_range (fuel : nat) (s : stage_txn) (page : Z -> block) (start processed remains : Z) : res stage_txn :=
  match fuel with
  | O => if 0 <? remains then Blocked else Ok s
  | S fuel =>
      if 0 <? remains then
        let to_process := if nr_blocks s =? 0 then Z.min remains nvme_max_blks else Z.min remains (nr_blocks s) in
        let* s := copy_data_blks s page (start + processed) (Z.to_nat to_process) in
        fill_data_range fuel s page start (processed + to_process) (remains - to_process)
      else Ok s
  end.

Fixpoint fill_data_ranges (s : stage_txn) (page : Z -> block) (rs : list (Z * Z)) : res stage_txn :=
  match rs with
  | [] => Ok s
  | (start, cnt) :: rs =>
      if cnt =? 0 then fill_data_ranges s page rs
      else
        let* s := fill_data_range (Z.to_nat cnt) s page start 0 cnt in
        fill_data_ranges (set_data_cnt s (data_blks_cnt s + cnt)) page rs
  end.

Definition stage_fill_data (s : stage_txn) (page : Z -> block) (irds : list inode_range_dirty) : res stage_txn :=
  fill_data_ranges s page (concat (dirty_pages <$> irds)).

Fixpoint copy_frames (s : stage_txn) (fs : list block) : res stage_txn :=
  match fs with
  | [] => Ok s
  | f :: fs => let* s := copy_blk s f in copy_frames s fs
  end.

(** Frames of the ranges, then their data.  Each frame is built in the block
    reserved for it and complete before the next one is reserved. *)
Definition stage_waiting_dirty_data (s : stage_txn) (page : Z -> block) (w : waiting) : res stage_txn :=
  let n := nr_issued s + Z.of_nat (length (pend s)) in
  let fs := serialize_and_fill_ird_list (fun i => stale (n + Z.of_nat i)) (w_irds w) in
  let* s := copy_frames s fs in
  assert! (Z.of_nat (length fs) =? w_ird_blks w) in
  stage_fill_data s page (w_irds w).

(** One background transaction: skipped if it has been committed meanwhile. *)
Definition stage_waiting (s : stage_txn) (page : Z -> block) (w : waiting) : res (stage_txn * bool) :=
  if negb (w_txid w =? w_cur_txid w) then Ok (s, true)
  else let* s := stage_waiting_dirty_data s page w in Ok (s, false).

(** The recent transaction first; the result tells which ones were skipped. *)
Definition stage_waiting_lists (s : stage_txn) (page : Z -> block) (w0 w1 : waiting) : res (stage_txn * bool * bool) :=
  if (w_txid w0 =? -1) && (w_txid w1 =? -1) then Ok (s, false, false)
  else if w_txid w0 =? -1 then
    let* (s, k1) := stage_waiting s page w1 in Ok (s, false, k1)
  else if w_txid w1 =? -1 then
    let* (s, k0) := stage_waiting s page w0 in Ok (s, k0, false)
  else if w_txid w0 <? w_txid w1 then
    let* (s, k1) := stage_waiting s page w1 in
    let* (s, k0) := stage_waiting s page w0 in Ok (s, k0, k1)
  else
    let* (s, k0) := stage_waiting s page w0 in
    let* (s, k1) := stage_waiting s page w1 in Ok (s, k0, k1).

Definition stage_file_data (s : stage_txn) (j : stage_ctx) (get_blocks : Z -> option buffer_extent) (page : Z -> block)
    (private_list : list buffer_head) (irds : list inode_range_dirty) (nr_dirty_blks : Z) (w0 w1 : waiting) :
    res (stage_txn * stage_ctx * bool * bool) :=
  let* s := stage_fill_index_blk s private_list in
  let* s := stage_fill_tags get_blocks s irds in
  let* (s, j) := stage_fix_blocks s j nr_dirty_blks w0 w1 in
  let* s := stage_fill_data s page irds in
  let* (s, k0, k1) := stage_waiting_lists s page w0 w1 in
  Ok (s, j, k0, k1).

(** ** The transaction *)

(** [struct inode] as far as [sefs_stage_inode] copies it. *)
Record staged_inode := mk_si { si_ino : Z; si_mode : Z; si_uid : Z; si_gid : Z; si_size : Z; si_blocks : Z; si_ei_block : Z; si_data : list Z }.

Definition sefs_stage_inode (b : block) (i : staged_inode) : block :=
  let b := wr 2 (wr 2 (wr 2 b 0 (si_mode i)) 2 (si_uid i)) 4 (si_gid i) in
  let b := wr 8 (wr 4 (wr 8 b 8 (si_size i)) 28 (si_blocks i)) 32 (si_ei_block i) in
  let b := splice b 40 (si_data i) in
  wr 4 (wr 4 (wr 8 b 284 (SEFS_INO_BLOCK (si_ino i))) 292 (si_ino i mod SEFS_INODES_PER_BLOCK)) 296 72.

(** The new transaction of [new_stage_tx] with the block for the descriptor
    reserved, and the header [stage_file] fills. *)
Definition stage_start_tx (ino : Z) (d : disk) : res stage_txn :=
  let s := mk_stg nvme_max_blks 0 [] 0 false 0 0 false None zero_block 0 0 [] d in
  let* (s, _) := resv_blk s in
  Ok (set_desc s (wr 4 (wr 4 (wr 4 (wr 8 (wr 4 (desc_blk_copy s) 256 STAGE_DESC_BLK) 260 ino) 272 0) 276 0) 280 0)).

(** [stage_inode], then the blocks and data of the file; [mrc_tx_id] is the
    transaction committed last. *)
Definition build_stage_tx (s : stage_txn) (j : stage_ctx) (i : staged_inode) (mrc_tx_id : Z)
    (get_blocks : Z -> option buffer_extent) (page : Z -> block)
    (private_list : list buffer_head) (irds : list inode_range_dirty) (w0 w1 : waiting) : res (stage_txn * stage_ctx * bool * bool) :=
  let s := set_desc s (sefs_stage_inode (desc_blk_copy s) i) in
  let nr_dirty_blks := foldl (fun c n => u32 (c + dirty_blk_nr n)) 0 irds in
  let s := set_desc s (wr 4 (desc_blk_copy s) 268 mrc_tx_id) in
  stage_file_data s j get_blocks page private_list irds nr_dirty_blks w0 w1.

(** [struct stage_commit_block] *)
Definition commit_block (buf : block) (d0 d1 i0 i1 : Z) : block :=
  wr 1 (wr 4 (wr 4 (wr 4 (wr 4 buf 0 d0) 4 d1) 8 i0) 12 i1) 16 67.

(** The remaining blocks, the descriptor block and the commit block. *)
Definition stage_write_tx (s : stage_txn) (k0 k1 : bool) (w0 w1 : waiting) (commit_buf : block) : res stage_txn :=
  assert! (negb (s_start s =? 0)) in
  assert! (stage_area_reserved s) in
  let s :=
    match pend s with
    | [] => s
    | _ =>
        let s := if desc_blk_skipped s then s else set_pend s (<[0%nat := desc_blk_copy s]> (pend s)) in
        let d := nvme_direct_write_async (s_disk s) (pend s) (seq_idx s + 1) (u64 (s_start s + nr_issued s)) (Z.of_nat (length (pend s))) false in
        set_seq (set_issued s (desc_blk_skipped s) d) nvme_max_blks 0
    end in
  let s := if desc_blk_skipped s then s_set_disk s (upd (s_disk s) (s_start s) (desc_blk_copy s)) else s in
  assert! (negb (nr_blocks s =? 0)) in
  let '(c, written, commit) :=
    if k0 then
      (commit_block commit_buf 0 (w_data_blks w1) 0 (w_ird_blks w1), w_ird_blks w1,
       u64 (s_start s + nr_issued s + w_data_blks w0 + w_ird_blks w0))
    else if k1 then
      (commit_block commit_buf (w_data_blks w0) 0 (w_ird_blks w0) 0, w_ird_blks w0,
       u64 (s_start s + nr_issued s + w_data_blks w1 + w_ird_blks w1))
    else
      (commit_block commit_buf (w_data_blks w0) (w_data_blks w1) (w_ird_blks w0) (w_ird_blks w1), u32 (w_ird_blks w0 + w_ird_blks w1),
       u64 (s_start s + nr_issued s)) in
  assert! (nr_issued s =? u64 (data_blks_cnt s + nr_other_blks s + written)) in
  assert! (length (pend s) =? 0)%nat in
  assert! (s_commit_baddr s =? commit) in
  Ok (s_set_disk s (upd (s_disk s) (s_commit_baddr s) c)).

(** The disk, the stage area and the transaction; [Ok] only, as
    [sefs_stage_inode] does not fail. *)
Definition stage_file (j : stage_ctx) (d : disk) (i : staged_inode) (mrc_tx_id : Z) (get_blocks : Z -> option buffer_extent)
    (page : Z -> block) (private_list : list buffer_head) (irds : list inode_range_dirty) (w0 w1 : waiting) (commit_buf : block) :
    res (stage_txn * stage_ctx) :=
  let* s := stage_start_tx (si_ino i) d in
  let* (s, j, k0, k1) := build_stage_tx s j i mrc_tx_id get_blocks page private_list irds w0 w1 in
  let* s := stage_write_tx s k0 k1 w0 w1 commit_buf in
  Ok (s, j).

End stage.

(** ** Writes *)

Section proofs.
Context (nvme_max_blks seq_max : Z) (stale : Z -> block).
Hypothesis HM : 2 <= nvme_max_blks.
Hypothesis HS : 1 <= seq_max.

Lemma write_seqs_ok bufs start nr skip fuel : forall d left n b,
  0 <= n -> left = nr - n * nvme_max_blks -> 0 < left <= Z.of_nat fuel * nvme_max_blks -> 0 <= start -> start + nr < U64_MOD ->
  write_seqs nvme_max_blks fuel d bufs start nr left n skip b =
    if (start + n * nvme_max_blks + (if (n =? 0) && skip then 1 else 0) <=? b) && (b <? start + nr)
    then bufs !!! Z.to_nat (b - start) else d b.
Proof.
  induction fuel as [|fuel IH]; intros d left n b Hn Hl Hf Hs Hm; [lia|]. cbn [write_seqs].
  rewrite (u64_id (start + nr - left)) by lia. replace (start + nr - left) with (start + n * nvme_max_blks) by lia.
  set (k := if (n =? 0) && skip then 1 else 0).
  set (c := if left <? nvme_max_blks then left else nvme_max_blks).
  assert (c = Z.min left nvme_max_blks) as Ec by (unfold c; destruct (Z.ltb_spec left nvme_max_blks); lia).
  set (d1 := if (n =? 0) && skip then _ else _).
  assert (forall b, d1 b = if (start + n * nvme_max_blks + k <=? b) && (b <? start + n * nvme_max_blks + c)
            then bufs !!! Z.to_nat (b - start) else d b) as Hd1.
  { intros b'. unfold d1, k, put_pages. destruct ((n =? 0) && skip); rewrite ?Z.add_0_r.
    - replace (start + n * nvme_max_blks + 1 + (c - 1)) with (start + n * nvme_max_blks + c) by lia.
      destruct (_ && _); [|done]. do 2 f_equal. lia.
    - destruct (_ && _); [|done]. do 2 f_equal. lia. }
  destruct (Z.eqb_spec (left - c) 0) as [E | E].
  - rewrite Hd1. by replace (start + n * nvme_max_blks + c) with (start + nr) by lia.
  - rewrite IH by nia. rewrite (proj2 (Z.eqb_neq (n + 1) 0)) by lia. cbn [andb]. rewrite Z.add_0_r, Hd1.
    assert (k <= c) by (unfold k; destruct (_ && _); lia).
    destruct (Z.leb_spec (start + (n + 1) * nvme_max_blks) b), (Z.ltb_spec b (start + nr)), (Z.leb_spec (start + n * nvme_max_blks + k) b),
      (Z.ltb_spec b (start + n * nvme_max_blks + c)); cbn; try done; nia.
Qed.

Lemma nvme_write_ok d bufs seq_nr start nr skip b :
  0 < nr <= seq_nr * nvme_max_blks -> 0 <= start -> start + nr < U64_MOD ->
  nvme_direct_write_async nvme_max_blks d bufs seq_nr start nr skip b =
    if (start + (if skip then 1 else 0) <=? b) && (b <? start + nr) then bufs !!! Z.to_nat (b - start) else d b.
Proof.
  intros Hn Hs Hm. unfold nvme_direct_write_async. rewrite write_seqs_ok by nia.
  rewrite Z.mul_0_l, Z.add_0_r. done.
Qed.

(** ** The stream of blocks *)

(** [L] is what the transaction holds so far: the blocks behind the first are
    on disk up to [nr_issued], the others pending. *)
Record stg_inv (s : stage_txn) (L : list block) (d0 : disk) : Prop := {
  sv_len : nr_issued s + Z.of_nat (length (pend s)) = Z.of_nat (length L);
  sv_issued : 0 <= nr_issued s;
  sv_pend : pend s = drop (Z.to_nat (nr_issued s)) L;
  sv_disk b : s_disk s b =
    if (s_start s + 1 <=? b) && (b <? s_start s + nr_issued s) then L !!! Z.to_nat (b - s_start s) else d0 b;
  sv_skip : desc_blk_skipped s = (0 <? nr_issued s);
  sv_pos : Z.of_nat (length (pend s)) = seq_idx s * nvme_max_blks + (nvme_max_blks - nr_blocks s);
  sv_nr : 0 <= nr_blocks s <= nvme_max_blks;
  sv_seq : 0 <= seq_idx s < seq_max;
  sv_resv : if stage_area_reserved s then 0 < s_start s /\ s_start s + U32_MOD <= U64_MOD else nr_issued s = 0;
  sv_small : Z.of_nat (length L) < U32_MOD
}.

(** What reserving and filling blocks leaves alone. *)
Definition same_meta (s s' : stage_txn) : Prop :=
  s_start s' = s_start s /\ s_commit_baddr s' = s_commit_baddr s /\ stage_area_reserved s' = stage_area_reserved s /\
  s_ext_blk s' = s_ext_blk s /\ desc_blk_copy s' = desc_blk_copy s /\ data_blks_cnt s' = data_blks_cnt s /\
  nr_other_blks s' = nr_other_blks s /\ s_unlocked s' = s_unlocked s.

Lemma same_meta_trans s1 s2 s3 : same_meta s1 s2 -> same_meta s2 s3 -> same_meta s1 s3.
Proof. unfold same_meta. intuition congruence. Qed.

(** Whether another block can be reserved: written out, or within the
    buffers. *)
Definition can_resv (s : stage_txn) (n : Z) : Prop :=
  n + 1 < U32_MOD /\ (stage_area_reserved s = true \/ n < seq_max * nvme_max_blks).

Lemma reclaim_inv s L d0 :
  stg_inv s L d0 -> stage_area_reserved s = true -> nr_blocks s = 0 -> seq_idx s = seq_max - 1 ->
  stg_inv (set_seq (set_issued s true (nvme_direct_write_async nvme_max_blks (s_disk s) (pend s) seq_max
             (u64 (s_start s + nr_issued s)) (Z.of_nat (length (pend s))) (negb (desc_blk_skipped s)))) nvme_max_blks 0) L d0.
Proof.
  intros [H1 H2 H3 H4 H5 H6 H7 H8 H9 H10] Hr Hnb Hsi. rewrite Hr in H9. destruct H9 as [H9 H9'].
  rewrite Hnb, Hsi in H6. assert (Z.of_nat (length (pend s)) = seq_max * nvme_max_blks) as Hlp by lia.
  assert (0 < Z.of_nat (length (pend s))) by nia.
  split; cbn [nr_issued pend s_disk desc_blk_skipped seq_idx nr_blocks stage_area_reserved s_start set_seq set_issued length].
  - rewrite u32_id by lia. lia.
  - rewrite u32_id by lia. lia.
  - rewrite u32_id by lia. symmetry. apply drop_ge. lia.
  - intros b. rewrite (u64_id (s_start s + nr_issued s)), (u32_id (nr_issued s + _)), H1 by lia.
    assert (forall x, pend s !!! x = L !!! (Z.to_nat (nr_issued s) + x)%nat) as Hp by (intros x; rewrite H3; apply lookup_total_drop).
    rewrite nvme_write_ok by (rewrite ?Hlp; lia). rewrite H4, H5, Hp. set (k := if negb (0 <? nr_issued s) then 1 else 0).
    assert (k = if nr_issued s =? 0 then 1 else 0) as Ek by (unfold k; destruct (Z.ltb_spec 0 (nr_issued s)), (Z.eqb_spec (nr_issued s) 0); cbn; lia || done).
    destruct (Z.eqb_spec (nr_issued s) 0) as [E0 | E0].
    + destruct (Z.leb_spec (s_start s + nr_issued s + k) b), (Z.ltb_spec b (s_start s + nr_issued s + Z.of_nat (length (pend s)))),
        (Z.leb_spec (s_start s + 1) b), (Z.ltb_spec b (s_start s + nr_issued s)), (Z.ltb_spec b (s_start s + Z.of_nat (length L)));
        cbn; try lia; try done. f_equal. lia.
    + destruct (Z.leb_spec (s_start s + nr_issued s + k) b), (Z.ltb_spec b (s_start s + nr_issued s + Z.of_nat (length (pend s)))),
        (Z.leb_spec (s_start s + 1) b), (Z.ltb_spec b (s_start s + nr_issued s)), (Z.ltb_spec b (s_start s + Z.of_nat (length L)));
        cbn; try lia; try done. f_equal. lia.
  - rewrite u32_id by lia. symmetry. apply Z.ltb_lt. lia.
  - lia.
  - lia.
  - lia.
  - rewrite Hr. lia.
  - done.
Qed.

Lemma append_inv s L d0 x :
  stg_inv s L d0 -> 0 < nr_blocks s -> Z.of_nat (length L) + 1 < U32_MOD ->
  stg_inv (set_seq (set_pend s (pend s ++ [x])) (nr_blocks s - 1) (seq_idx s)) (L ++ [x]) d0.
Proof.
  intros [H1 H2 H3 H4 H5 H6 H7 H8 H9 H10] Hnb Hn.
  split; cbn [nr_issued pend s_disk desc_blk_skipped seq_idx nr_blocks stage_area_reserved s_start set_seq set_pend]; rewrite ?length_app; cbn [length].
  - lia.
  - lia.
  - rewrite H3, drop_app_le by lia. done.
  - intros b. rewrite H4. destruct (_ && _) eqn:E; [|done]. apply andb_prop in E as [E1 E2]. apply Z.leb_le in E1. apply Z.ltb_lt in E2.
    by rewrite lookup_total_app_l by lia.
  - done.
  - lia.
  - lia.
  - lia.
  - done.
  - lia.
Qed.

Lemma resv_ok s L d0 :
  stg_inv s L d0 -> can_resv s (Z.of_nat (length L)) ->
  exists s' k, resv_blk nvme_max_blks seq_max stale s = Ok (s', k) /\ stg_inv s' (L ++ [stale (Z.of_nat (length L))]) d0 /\
    same_meta s s' /\ S k = length (pend s') /\ nr_issued s' <= Z.of_nat (length L).
Proof.
  intros Hi [Hn Hc]. unfold resv_blk.
  set (r := if nr_blocks s =? 0 then _ else _).
  assert (exists s1, r = Ok s1 /\ stg_inv s1 L d0 /\ same_meta s s1 /\ 0 < nr_blocks s1) as (s1 & -> & Hi1 & Hm1 & Hnb).
  { unfold r. pose proof Hi as [H1 H2 H3 H4 H5 H6 H7 H8 H9 H10]. destruct (Z.eqb_spec (nr_blocks s) 0) as [E | E].
    - destruct (Z.eqb_spec (seq_idx s) (seq_max - 1)) as [E' | E'].
      + assert (stage_area_reserved s = true) as Hr.
        { destruct Hc as [Hc|Hc]; [done|]. destruct (stage_area_reserved s); [done|]. rewrite E, E' in H6. nia. }
        pose proof H9 as H9'. rewrite Hr in H9'. rewrite (proj2 (Z.eqb_neq (s_start s) 0)), Hr, (proj2 (Z.ltb_lt 0 seq_max)) by lia.
        cbn [negb assert_ res_bind]. eexists. split; [done|]. split; [by apply reclaim_inv|]. split; [done|cbn; lia].
      + cbn [res_bind]. eexists. split; [done|]. split; [|split; [done|cbn; lia]].
        split; cbn [nr_issued pend s_disk desc_blk_skipped seq_idx nr_blocks stage_area_reserved s_start set_seq]; try done; lia.
    - exists s. split; [done|]. split; [done|]. split; [done|lia]. }
  cbn [res_bind]. eexists _, _. split; [done|]. pose proof (sv_len _ _ _ Hi1) as El. rewrite El.
  split; [by apply append_inv|]. split; [done|]. cbn [pend set_seq set_pend nr_issued]. rewrite length_app. cbn [length]. split; lia.
Qed.

Lemma fill_last_ok s L x d0 f :
  stg_inv s (L ++ [x]) d0 -> nr_issued s <= Z.of_nat (length L) -> stg_inv (fill_last s f) (L ++ [f x]) d0.
Proof.
  intros [H1 H2 H3 H4 H5 H6 H7 H8 H9 H10] Hn.
  assert (on_last f (pend s) = drop (Z.to_nat (nr_issued s)) (L ++ [f x])) as Ep.
  { rewrite H3, !drop_app_le by lia. apply on_last_app. }
  rewrite length_app in *. cbn [length] in *.
  split; cbn [nr_issued pend s_disk desc_blk_skipped seq_idx nr_blocks stage_area_reserved s_start fill_last set_pend]; rewrite ?length_app; cbn [length]; try done.
  - rewrite Ep, length_drop, length_app. cbn [length]. lia.
  - intros b. rewrite H4. destruct (_ && _) eqn:E; [|done]. apply andb_prop in E as [E1 E2]. apply Z.leb_le in E1. apply Z.ltb_lt in E2.
    by rewrite !lookup_total_app_l by lia.
  - rewrite Ep, length_drop, length_app. cbn [length]. lia.
Qed.

Lemma stg_copy_blk_ok s L d0 src :
  stg_inv s L d0 -> can_resv s (Z.of_nat (length L)) ->
  exists s', copy_blk nvme_max_blks seq_max stale s src = Ok s' /\ stg_inv s' (L ++ [src]) d0 /\ same_meta s s' /\
    nr_issued s' <= Z.of_nat (length L).
Proof.
  intros Hi Hc. unfold copy_blk. destruct (resv_ok s L d0 Hi Hc) as (s1 & k & -> & Hi1 & Hm & Hk & Hn). cbn [res_bind].
  eexists. split; [done|]. split; [exact (fill_last_ok s1 L _ d0 (fun _ => src) Hi1 Hn)|]. done.
Qed.

(** ** Data *)

(** As [same_meta], but pages have been unlocked. *)
Definition same_data (s s' : stage_txn) (pages : list Z) (n : Z) : Prop :=
  s_start s' = s_start s /\ s_commit_baddr s' = s_commit_baddr s /\ stage_area_reserved s' = stage_area_reserved s /\
  desc_blk_copy s' = desc_blk_copy s /\ data_blks_cnt s' = data_blks_cnt s + n /\
  nr_other_blks s' = nr_other_blks s /\ s_unlocked s' = s_unlocked s ++ pages /\ (pend s <> [] -> pend s' <> []).

Lemma same_data_refl s : same_data s s [] 0.
Proof. unfold same_data. rewrite app_nil_r, Z.add_0_r. done. Qed.

Lemma same_data_trans s1 s2 s3 p q n m : same_data s1 s2 p n -> same_data s2 s3 q m -> same_data s1 s3 (p ++ q) (n + m).
Proof.
  unfold same_data. intros (A1 & A2 & A3 & A4 & A5 & A6 & A7 & A8) (B1 & B2 & B3 & B4 & B5 & B6 & B7 & B8).
  rewrite B1, B2, B3, B4, B5, B6, B7, A7, <- app_assoc. split_and!; congruence || lia || auto.
Qed.

Lemma same_meta_data s s' L x d0 :
  same_meta s s' -> stg_inv s' (L ++ [x]) d0 -> nr_issued s' <= Z.of_nat (length L) -> same_data s s' [] 0.
Proof.
  intros Hm Hi Hn. assert (pend s' <> []).
  { pose proof (sv_len _ _ _ Hi) as H. rewrite length_app in H. cbn [length] in H. destruct (pend s'); [cbn in H; lia|done]. }
  unfold same_meta, same_data in *. rewrite app_nil_r, Z.add_0_r. intuition.
Qed.

Lemma stg_copy_data_blks_ok page d0 cnt : forall s L start,
  stg_inv s L d0 -> stage_area_reserved s = true -> Z.of_nat (length L) + Z.of_nat cnt + 1 < U32_MOD ->
  exists s', copy_data_blks nvme_max_blks seq_max stale s page start cnt = Ok s' /\
    stg_inv s' (L ++ (page <$> seqz start (Z.of_nat cnt))) d0 /\ same_data s s' (seqz start (Z.of_nat cnt)) 0.
Proof.
  induction cnt as [|cnt IH]; intros s L start Hi Hr Hn; cbn [copy_data_blks].
  { exists s. rewrite seqz_nil by lia. cbn. rewrite app_nil_r. split; [done|]. split; [done|]. apply same_data_refl. }
  destruct (stg_copy_blk_ok s L d0 (page start) Hi) as (s1 & -> & Hi1 & Hm & Hni); [split; [lia|by left]|]. cbn [res_bind].
  destruct (IH (s_unlock s1 start) (L ++ [page start]) (start + 1)) as (s2 & -> & Hi2 & Hd2).
  - destruct Hi1; by split.
  - cbn. destruct Hm as (_ & _ & -> & _). done.
  - rewrite length_app. cbn [length]. lia.
  - exists s2. split; [done|]. rewrite seqz_cons by lia. replace (Z.of_nat (S cnt) - 1) with (Z.of_nat cnt) by lia. cbn [fmap list_fmap].
    rewrite <- app_assoc in Hi2. split; [done|].
    change (start :: seqz (start + 1) (Z.of_nat cnt)) with ([start] ++ seqz (start + 1) (Z.of_nat cnt)).
    eapply (same_data_trans s (s_unlock s1 start) s2 [start] _ 0 0); [|done].
    destruct (same_meta_data _ _ _ _ _ Hm Hi1 Hni) as (A1 & A2 & A3 & A4 & A5 & A6 & A7 & A8).
    rewrite app_nil_r in A7. unfold same_data. cbn. rewrite A7. split_and!; done || lia.
Qed.

Lemma fill_data_range_ok page d0 start cnt fuel : forall s L processed remains,
  stg_inv s L d0 -> stage_area_reserved s = true -> Z.of_nat (length L) + remains + 1 < U32_MOD ->
  0 <= remains <= Z.of_nat fuel -> 0 <= processed -> processed + remains = cnt ->
  exists s', fill_data_range nvme_max_blks seq_max stale fuel s page start processed remains = Ok s' /\
    stg_inv s' (L ++ (page <$> seqz (start + processed) remains)) d0 /\ same_data s s' (seqz (start + processed) remains) 0.
Proof.
  induction fuel as [|fuel IH]; intros s L processed remains Hi Hr Hn Hf Hp Hc; cbn [fill_data_range];
    (destruct (Z.ltb_spec 0 remains);
      [|exists s; rewrite seqz_nil by lia; cbn; rewrite app_nil_r; split; [done|]; split; [done|apply same_data_refl]]); [lia|].
  set (t := if nr_blocks s =? 0 then _ else _).
  assert (0 < t <= remains) as Ht.
  { unfold t. pose proof (sv_nr _ _ _ Hi). destruct (Z.eqb_spec (nr_blocks s) 0); lia. }
  destruct (stg_copy_data_blks_ok page d0 (Z.to_nat t) s L (start + processed) Hi Hr) as (s1 & -> & Hi1 & Hd1); [lia|].
  rewrite Z2Nat.id in Hi1, Hd1 by lia. cbn [res_bind].
  destruct (IH s1 (L ++ (page <$> seqz (start + processed) t)) (processed + t) (remains - t)) as (s2 & -> & Hi2 & Hd2);
    [done|by destruct Hd1 as (_ & _ & -> & _)|rewrite length_app, length_fmap, length_seqz; lia|lia|lia|lia|].
  exists s2. split; [done|]. replace remains with (t + (remains - t)) by lia. rewrite seqz_app, fmap_app by lia.
  rewrite <- app_assoc in Hi2. replace (start + processed + t) with (start + (processed + t)) by lia. split; [done|].
  by apply (same_data_trans s s1 s2 _ _ 0 0).
Qed.

Lemma fill_data_ranges_ok page d0 rs : forall s L,
  stg_inv s L d0 -> stage_area_reserved s = true -> Forall (fun r => 0 <= r.2) rs ->
  Z.of_nat (length L) + Z.of_nat (length (range_pages rs)) + 1 < U32_MOD ->
  exists s', fill_data_ranges nvme_max_blks seq_max stale s page rs = Ok s' /\
    stg_inv s' (L ++ (page <$> range_pages rs)) d0 /\ same_data s s' (range_pages rs) (Z.of_nat (length (range_pages rs))).
Proof.
  induction rs as [|[start cnt] rs IH]; intros s L Hi Hr Hp Hn; cbn [fill_data_ranges].
  { exists s. cbn. rewrite app_nil_r. split; [done|]. split; [done|]. apply same_data_refl. }
  apply Forall_cons in Hp as [Hc Hp]. cbn in Hc. change (range_pages ((start, cnt) :: rs)) with (seqz start cnt ++ range_pages rs) in *.
  rewrite length_app, length_seqz in *. destruct (Z.eqb_spec cnt 0) as [-> | Hne].
  { rewrite seqz_nil by lia. cbn [app]. apply IH; [done|done|done|lia]. }
  destruct (fill_data_range_ok page d0 start cnt (Z.to_nat cnt) s L 0 cnt Hi Hr) as (s1 & -> & Hi1 & Hd1); [lia..|]. cbn [res_bind].
  rewrite Z.add_0_r in *. set (s2 := set_data_cnt s1 (data_blks_cnt s1 + cnt)).
  assert (same_data s s2 (seqz start cnt) cnt) as Hd2.
  { destruct Hd1 as (A1 & A2 & A3 & A4 & A5 & A6 & A7 & A8). unfold same_data, s2. cbn. rewrite A5, Z.add_0_r. split_and!; done. }
  destruct (IH s2 (L ++ (page <$> seqz start cnt))) as (s3 & -> & Hi3 & Hd3).
  - destruct Hi1; by split.
  - by destruct Hd2 as (_ & _ & -> & _).
  - done.
  - rewrite length_app, length_fmap, length_seqz. lia.
  - exists s3. split; [done|]. rewrite fmap_app. rewrite <- app_assoc in Hi3. split; [done|].
    replace (Z.of_nat (Z.to_nat cnt + length (range_pages rs))) with (cnt + Z.of_nat (length (range_pages rs))) by lia.
    by eapply same_data_trans.
Qed.

Lemma copy_frames_ok d0 fs : forall s L,
  stg_inv s L d0 -> stage_area_reserved s = true -> Z.of_nat (length L) + Z.of_nat (length fs) + 1 < U32_MOD ->
  exists s', copy_frames nvme_max_blks seq_max stale s fs = Ok s' /\ stg_inv s' (L ++ fs) d0 /\ same_data s s' [] 0.
Proof.
  induction fs as [|f fs IH]; intros s L Hi Hr Hn; cbn [copy_frames].
  { exists s. rewrite app_nil_r. split; [done|]. split; [done|]. apply same_data_refl. }
  cbn [length] in Hn. destruct (stg_copy_blk_ok s L d0 f Hi) as (s1 & -> & Hi1 & Hm & Hni); [split; [lia|by left]|]. cbn [res_bind].
  destruct (IH s1 (L ++ [f]) Hi1) as (s2 & -> & Hi2 & Hd2); [by destruct Hm as (_ & _ & -> & _)|rewrite length_app; cbn; lia|].
  exists s2. split; [done|]. rewrite <- app_assoc in Hi2. split; [done|].
  apply (same_data_trans s s1 s2 [] [] 0 0); [by eapply same_meta_data|done].
Qed.

(** ** Ranges of background transactions *)

Definition w_ranges (w : waiting) : list (Z * Z) := concat (dirty_pages <$> w_irds w).

(** What [build_stage_tx] hands over for one background transaction. *)
Record waiting_ok (w : waiting) : Prop := {
  wo_none : w_txid w = -1 -> w_data_blks w = 0 /\ w_ird_blks w = 0;
  wo_data : w_txid w <> -1 -> w_data_blks w = Z.of_nat (length (range_pages (w_ranges w)));
  wo_ird : w_txid w <> -1 -> w_ird_blks w = count_ird_dump_blocks (w_irds w);
  wo_sorted : ird_sorted 0 (w_ranges w)
}.

(** The blocks staged for it at position [n]: none if it was committed. *)
Definition wait_blks (page : Z -> block) (n : Z) (w : waiting) : list block :=
  if w_txid w =? w_cur_txid w then
    serialize_and_fill_ird_list (fun i => stale (n + Z.of_nat i)) (w_irds w) ++ (page <$> range_pages (w_ranges w))
  else [].

Definition wait_data (w : waiting) : Z := if w_txid w =? w_cur_txid w then w_data_blks w else 0.
Definition wait_frames (w : waiting) : Z := if w_txid w =? w_cur_txid w then w_ird_blks w else 0.

Hypothesis Hstale : forall i, block_ok (stale i).

Lemma ird_sorted_pos rs : forall lo, ird_sorted lo rs -> Forall (fun r => 0 <= r.2) rs.
Proof. induction rs as [|r rs IH]; intros lo H; [done|]. destruct H as (_ & H & _ & H'). constructor; [lia|by eapply IH]. Qed.

Lemma wait_blks_length page n w : waiting_ok w -> w_txid w <> -1 ->
  Z.of_nat (length (wait_blks page n w)) = wait_frames w + wait_data w.
Proof.
  intros [_ H1 H2 H3] Hne. unfold wait_blks, wait_frames, wait_data. destruct (_ =? _); [|done]. rewrite length_app, length_fmap.
  destruct (dump_ok (fun i => stale (n + Z.of_nat i)) ltac:(intros; apply Hstale) (w_irds w) H3) as (_ & _ & _ & _ & E).
  rewrite H1, H2 by done. lia.
Qed.

Lemma stage_waiting_ok page d0 s L w :
  stg_inv s L d0 -> stage_area_reserved s = true -> waiting_ok w -> w_txid w <> -1 ->
  Z.of_nat (length L) + wait_frames w + wait_data w + 1 < U32_MOD ->
  exists s' pages, stage_waiting nvme_max_blks seq_max stale s page w = Ok (s', negb (w_txid w =? w_cur_txid w)) /\
    stg_inv s' (L ++ wait_blks page (Z.of_nat (length L)) w) d0 /\ same_data s s' pages (wait_data w).
Proof.
  intros Hi Hr Hw Hne Hn. unfold stage_waiting. pose proof (wait_blks_length page (Z.of_nat (length L)) w Hw Hne) as Hl.
  unfold wait_frames, wait_data, wait_blks in *. destruct (w_txid w =? w_cur_txid w); cbn [negb].
  2:{ exists s, []. rewrite app_nil_r. split; [done|]. split; [done|]. apply same_data_refl. }
  unfold stage_waiting_dirty_data. rewrite (sv_len _ _ _ Hi). set (fs := serialize_and_fill_ird_list _ _) in *.
  pose proof Hw as [_ H1 H2 H3]. rewrite length_app, length_fmap in Hl.
  destruct (copy_frames_ok d0 fs s L Hi Hr) as (s1 & -> & Hi1 & Hd1); [lia|]. cbn [res_bind].
  rewrite H1 in * by done. rewrite (proj2 (Z.eqb_eq _ _)) by lia. cbn [assert_].
  destruct (fill_data_ranges_ok page d0 (w_ranges w) s1 (L ++ fs) Hi1) as (s2 & E2 & Hi2 & Hd2).
  - by destruct Hd1 as (_ & _ & -> & _).
  - by eapply ird_sorted_pos.
  - rewrite length_app. lia.
  - unfold stage_fill_data. fold (w_ranges w). rewrite E2. cbn [res_bind]. eexists _, _. split; [done|].
    rewrite <- app_assoc in Hi2. split; [done|]. apply (same_data_trans s s1 s2 [] _ 0 _ Hd1 Hd2).
Qed.

(** Both transactions, in the order they are staged. *)
Definition wait_order (w0 w1 : waiting) : list waiting :=
  if (w_txid w0 =? -1) && (w_txid w1 =? -1) then []
  else if w_txid w0 =? -1 then [w1]
  else if w_txid w1 =? -1 then [w0]
  else if w_txid w0 <? w_txid w1 then [w1; w0] else [w0; w1].

Fixpoint wait_stream (page : Z -> block) (n : Z) (ws : list waiting) : list block :=
  match ws with
  | [] => []
  | w :: ws => wait_blks page n w ++ wait_stream page (n + Z.of_nat (length (wait_blks page n w))) ws
  end.

(** Skipped: cut, but committed before it was staged. *)
Definition wait_skipped (w : waiting) : bool := negb (w_txid w =? -1) && negb (w_txid w =? w_cur_txid w).

(** Both were committed meanwhile, and the second one had something to stage. *)
Definition both_committed (w0 w1 : waiting) : bool :=
  wait_skipped w0 && wait_skipped w1 && (0 <? w_data_blks w1 + w_ird_blks w1).

Lemma wait_total w : waiting_ok w -> 0 <= wait_data w <= w_data_blks w /\ 0 <= wait_frames w <= w_ird_blks w.
Proof.
  intros [H0 H1 H2 _]. unfold wait_data, wait_frames. destruct (Z.eq_dec (w_txid w) (-1)) as [E|E].
  - destruct (H0 E) as [-> ->]. destruct (_ =? _); lia.
  - rewrite H1, H2 by done. unfold count_ird_dump_blocks. pose proof (u32_range (u64
      (foldl (fun t n => u64 (t + Z.of_nat (length (dirty_pages n)))) 0 (w_irds w) + ents_per_block - 1) / ents_per_block)).
    destruct (_ =? _); lia.
Qed.

Lemma stage_waiting_lists_ok page d0 s L w0 w1 :
  stg_inv s L d0 -> stage_area_reserved s = true -> waiting_ok w0 -> waiting_ok w1 ->
  Z.of_nat (length L) + w_data_blks w0 + w_ird_blks w0 + w_data_blks w1 + w_ird_blks w1 + 1 < U32_MOD ->
  exists s' pages,
    stage_waiting_lists nvme_max_blks seq_max stale s page w0 w1 = Ok (s', wait_skipped w0, wait_skipped w1) /\
    stg_inv s' (L ++ wait_stream page (Z.of_nat (length L)) (wait_order w0 w1)) d0 /\ same_data s s' pages (wait_data w0 + wait_data w1).
Proof.
  intros Hi Hr H0 H1 Hn. unfold stage_waiting_lists, wait_order, wait_skipped.
  destruct (wait_total w0 H0) as [B0 F0], (wait_total w1 H1) as [B1 F1].
  assert (forall w, w_txid w = -1 -> waiting_ok w -> wait_data w = 0) as Hz.
  { intros w E Hw. unfold wait_data. destruct (wo_none w Hw E) as [-> _]. by destruct (_ =? _). }
  destruct (Z.eqb_spec (w_txid w0) (-1)) as [E0 | E0], (Z.eqb_spec (w_txid w1) (-1)) as [E1 | E1]; cbn [andb negb].
  - rewrite !Hz by done. exists s, []. cbn. rewrite app_nil_r. split; [done|]. split; [done|]. apply same_data_refl.
  - rewrite (Hz w0) by done. destruct (stage_waiting_ok page d0 s L w1 Hi Hr H1 E1) as (s1 & p1 & -> & Hi1 & Hd1); [lia|].
    cbn [res_bind wait_stream]. rewrite app_nil_r. by exists s1, p1.
  - rewrite (Hz w1) by done. destruct (stage_waiting_ok page d0 s L w0 Hi Hr H0 E0) as (s1 & p1 & -> & Hi1 & Hd1); [lia|].
    cbn [res_bind wait_stream]. rewrite app_nil_r, Z.add_0_r. by exists s1, p1.
  - assert (forall wa wb, waiting_ok wa -> waiting_ok wb -> w_txid wa <> -1 -> w_txid wb <> -1 ->
              Z.of_nat (length L) + wait_frames wa + wait_data wa + wait_frames wb + wait_data wb + 1 < U32_MOD ->
              0 <= wait_frames wa -> 0 <= wait_data wa -> 0 <= wait_frames wb -> 0 <= wait_data wb ->
              exists sa sb pages, stage_waiting nvme_max_blks seq_max stale s page wa = Ok (sa, negb (w_txid wa =? w_cur_txid wa)) /\
                stage_waiting nvme_max_blks seq_max stale sa page wb = Ok (sb, negb (w_txid wb =? w_cur_txid wb)) /\
                stg_inv sb (L ++ wait_stream page (Z.of_nat (length L)) [wa; wb]) d0 /\ same_data s sb pages (wait_data wa + wait_data wb)) as Htwo.
    { intros wa wb Ha Hb Ea Eb Hsz ? ? ? ?. destruct (stage_waiting_ok page d0 s L wa Hi Hr Ha Ea) as (sa & pa & Hsa & Hia & Hda); [lia|].
      pose proof (wait_blks_length page (Z.of_nat (length L)) wa Ha Ea) as Hla.
      destruct (stage_waiting_ok page d0 sa _ wb Hia) as (sb & pb & Hsb & Hib & Hdb); [by destruct Hda as (_ & _ & -> & _)|done|done| |].
      { rewrite length_app. lia. }
      exists sa, sb, (pa ++ pb). split; [done|]. split; [done|]. split; [|by eapply same_data_trans].
      cbn [wait_stream]. rewrite length_app, Nat2Z.inj_add, <- app_assoc in Hib. by rewrite app_nil_r. }
    destruct (w_txid w0 <? w_txid w1).
    + destruct (Htwo w1 w0) as (sa & sb & p & -> & Hb & Hi' & Hd'); [done..|lia|lia|lia|lia|lia|]. cbn [res_bind]. rewrite Hb. cbn [res_bind].
      exists sb, p. split; [done|]. split; [done|]. by rewrite Z.add_comm.
    + destruct (Htwo w0 w1) as (sa & sb & p & -> & Hb & Hi' & Hd'); [done..|lia|lia|lia|lia|lia|]. cbn [res_bind]. rewrite Hb. cbn [res_bind].
      by exists sb, p.
Qed.

(** ** Tags *)

(** The part of the descriptor block that tags do not touch. *)
Definition sd_head (b : block) : list Z * Z * Z * Z := (take 272 b, sd_inode_baddr b, sd_inode_index b, sd_inode_size b).

Lemma take_wr n b off x k : block_ok b -> 0 <= off -> off + Z.of_nat n <= 4096 -> (Z.of_nat k <= off) -> take k (wr n b off x) = take k b.
Proof.
  unfold block_ok, wr, splice. intros Hb Ho Hn Hk. rewrite take_app_le by (rewrite length_take; lia). by rewrite take_take, Nat.min_l by lia.
Qed.

Lemma sd_head_wr n b off x : block_ok b -> 272 <= off -> off + Z.of_nat n <= 284 \/ 300 <= off -> off + Z.of_nat n <= 4096 ->
  sd_head (wr n b off x) = sd_head b.
Proof.
  intros Hb H1 H2 H3. unfold sd_head, sd_inode_baddr, sd_inode_index, sd_inode_size. rewrite take_wr by (done || lia).
  by rewrite !field_ne by (done || lia).
Qed.

Lemma stx_write_desc_tag_ok sdb start cnt :
  block_ok sdb -> 0 <= sd_nr_tags sdb < STAGE_DESC_BLK_TAG_MAX -> 0 <= start < U64_MOD -> 0 <= cnt < U32_MOD ->
  exists sdb', stx_write_desc_tag sdb start cnt = Ok (sdb', sd_nr_tags sdb + 1 =? 316) /\ block_ok sdb' /\
    sd_nr_tags sdb' = sd_nr_tags sdb + 1 /\ sd_nr_etag_blks sdb' = sd_nr_etag_blks sdb /\ sd_head sdb' = sd_head sdb /\
    sd_tags sdb' = sd_tags sdb ++ [mk_etag start cnt].
Proof.
  change STAGE_DESC_BLK_TAG_MAX with 316. intros Hb Hn Hs Hc. unfold stx_write_desc_tag. change STAGE_DESC_BLK_TAG_MAX with 316.
  rewrite (proj2 (Z.leb_gt 316 (sd_nr_tags sdb))) by lia. cbn [negb assert_]. unfold stage_hdr_size, etag_size, sd_set_nr_tags.
  set (w := wr_etag sdb (300 + 12 * sd_nr_tags sdb) start cnt).
  assert (block_ok w) as Hw by (unfold w, wr_etag; repeat apply wr_ok; done || lia).
  assert (sd_nr_tags (wr 4 w 276 (u32 (sd_nr_tags sdb + 1))) = sd_nr_tags sdb + 1) as E.
  { unfold sd_nr_tags at 1. rewrite field_eq by (done || lia || apply u32_range). apply u32_id. lia. }
  rewrite E. eexists. split; [reflexivity|]. split_and!.
  - apply wr_ok; [done|lia|lia].
  - exact E.
  - unfold sd_nr_etag_blks. rewrite field_ne by (done || lia). unfold w, wr_etag. by rewrite !field_ne by (done || lia || (apply wr_ok; done || lia)).
  - rewrite sd_head_wr by (done || lia). unfold w, wr_etag. rewrite !sd_head_wr by (done || lia || (apply wr_ok; done || lia)). done.
  - unfold sd_tags at 1. rewrite E, rd_etags_wr_ne by (unfold stage_hdr_size; done || lia). apply rd_etags_wr_etag; unfold stage_hdr_size; done || lia.
Qed.

(** Extent tag blocks for [k] tags; one is added as soon as a block is full. *)
Definition n_setag (k : Z) : Z := if k <? 316 then 0 else 1 + (k - 316) / 340.

Lemma n_setag_mono k k' : k <= k' -> n_setag k <= n_setag k'.
Proof.
  intros H. unfold n_setag. destruct (Z.ltb_spec k 316), (Z.ltb_spec k' 316); try lia.
  - pose proof (Z.div_pos (k' - 316) 340). lia.
  - pose proof (Z.div_le_mono (k - 316) (k' - 316) 340). lia.
Qed.

(** Before the stage area is reserved: index blocks [X0], extent tag blocks
    [X], tags [T], head [h] of the descriptor block. *)
Record tag_inv (s : stage_txn) (c0 : block) (X0 X : list block) (T : list etag_t) (h : list Z * Z * Z * Z) (d0 : disk) : Prop := {
  tg_stream : stg_inv s (c0 :: X0 ++ X) d0;
  tg_unres : stage_area_reserved s = false;
  tg_desc : block_ok (desc_blk_copy s);
  tg_head : sd_head (desc_blk_copy s) = h;
  tg_netag : sd_nr_etag_blks (desc_blk_copy s) = Z.of_nat (length X);
  tg_nr : sd_nr_tags (desc_blk_copy s) = Z.min 316 (Z.of_nat (length T));
  tg_sd : sd_tags (desc_blk_copy s) = take 316 T;
  tg_tags : concat (je_tags <$> X) = drop 316 T;
  tg_len : Z.of_nat (length X) = n_setag (Z.of_nat (length T));
  tg_ext : s_ext_blk s = if Z.of_nat (length T) <? 316 then None else Some (length X0 + length X)%nat;
  tg_last : 316 <= Z.of_nat (length T) -> exists Xf x, X = Xf ++ [x] /\ block_ok x /\ mh_nr x = (Z.of_nat (length T) - 316) mod 340;
  tg_cnt : data_blks_cnt s = 0 /\ s_unlocked s = []
}.

Lemma unres_pend s L d0 : stg_inv s L d0 -> stage_area_reserved s = false -> pend s = L /\ nr_issued s = 0.
Proof. intros [H1 H2 H3 H4 H5 H6 H7 H8 H9 H10] Hr. rewrite Hr in H9. rewrite H9 in H3. done. Qed.

Lemma set_pend_inv s L L' d0 : stg_inv s L d0 -> stage_area_reserved s = false -> length L' = length L -> stg_inv (set_pend s L') L' d0.
Proof.
  intros Hi Hr Hl. destruct (unres_pend _ _ _ Hi Hr) as [Ep En]. destruct Hi as [H1 H2 H3 H4 H5 H6 H7 H8 H9 H10].
  split; cbn [nr_issued pend s_disk desc_blk_skipped seq_idx nr_blocks stage_area_reserved s_start set_pend]; rewrite ?Hl, ?En in *; try done; try lia.
  intros b. rewrite H4. destruct (Z.leb_spec (s_start s + 1) b), (Z.ltb_spec b (s_start s + 0)); cbn; lia || done.
Qed.

(** A full block: the next one is open and empty. *)
Lemma stx_new_ext_ok s c0 X0 X d0 :
  stg_inv s (c0 :: X0 ++ X) d0 -> stage_area_reserved s = false -> block_ok (desc_blk_copy s) ->
  sd_nr_etag_blks (desc_blk_copy s) = Z.of_nat (length X) -> sd_nr_tags (desc_blk_copy s) <= 316 ->
  Z.of_nat (length (c0 :: X0 ++ X)) < seq_max * nvme_max_blks -> Z.of_nat (length (c0 :: X0 ++ X)) + 1 < U32_MOD ->
  exists s' x, stx_new_ext nvme_max_blks seq_max stale s = Ok s' /\ stg_inv s' (c0 :: X0 ++ X ++ [x]) d0 /\
    stage_area_reserved s' = false /\ block_ok x /\ mh_nr x = 0 /\ je_tags x = [] /\
    s_ext_blk s' = Some (length X0 + length (X ++ [x]))%nat /\ block_ok (desc_blk_copy s') /\
    sd_head (desc_blk_copy s') = sd_head (desc_blk_copy s) /\ sd_nr_etag_blks (desc_blk_copy s') = Z.of_nat (length (X ++ [x])) /\
    sd_nr_tags (desc_blk_copy s') = sd_nr_tags (desc_blk_copy s) /\ sd_tags (desc_blk_copy s') = sd_tags (desc_blk_copy s) /\
    data_blks_cnt s' = data_blks_cnt s /\ s_unlocked s' = s_unlocked s.
Proof.
  intros Hi Hr Hb He Hnt Hroom Hsz. unfold stx_new_ext. destruct (resv_ok s _ d0 Hi) as (s1 & k & -> & Hi1 & Hm & Hk & Hn); [by split; [|right]|].
  cbn [res_bind]. set (y := stale _) in *. set (x := wr 4 y 4 0). assert (block_ok y) as Hy by apply Hstale.
  pose proof (fill_last_ok s1 _ y d0 (fun b => wr 4 b 4 0) Hi1 Hn) as Hi2. cbn beta in Hi2. fold x in Hi2.
  destruct Hm as (A1 & A2 & A3 & A4 & A5 & A6 & A7 & A8).
  assert (stage_area_reserved s1 = false) as Hr1 by congruence. destruct (unres_pend _ _ _ Hi1 Hr1) as [Ep _].
  rewrite Ep, length_app in Hk. cbn [length] in Hk.
  eexists _, x. split; [done|]. cbn [set_desc set_ext fill_last set_pend desc_blk_copy stage_area_reserved s_ext_blk data_blks_cnt s_unlocked].
  rewrite A5, He, (u32_id (Z.of_nat (length X) + 1)) by (cbn [length] in Hsz; rewrite length_app in Hsz; lia).
  set (sdb := desc_blk_copy s) in *. unfold sd_set_nr_etag_blks.
  assert (Z.of_nat (length X) + 1 < U32_MOD) by (cbn [length] in Hsz; rewrite length_app in Hsz; lia).
  assert (mh_nr x = 0) as Hx by (unfold mh_nr, x; apply field_eq; [done|lia|lia|done]). split_and!.
  - replace (c0 :: X0 ++ X ++ [x]) with ((c0 :: X0 ++ X) ++ [x]) by (cbn; by rewrite <- app_assoc). destruct Hi2. by split.
  - done.
  - unfold x. apply wr_ok; [done|lia|lia].
  - done.
  - unfold je_tags. rewrite Hx. unfold rd_etags. by rewrite seqz_nil by lia.
  - f_equal. rewrite length_app. cbn [length]. rewrite length_app in Hk. lia.
  - apply wr_ok; [done|lia|lia].
  - apply sd_head_wr; done || lia.
  - unfold sd_nr_etag_blks. rewrite field_eq by (done || lia). rewrite length_app. cbn [length]. lia.
  - unfold sd_nr_tags. by rewrite field_ne by (done || lia).
  - unfold sd_tags, sd_nr_tags. rewrite field_ne by (done || lia). fold (sd_nr_tags sdb). apply rd_etags_wr_ne; unfold stage_hdr_size; try done; lia.
  - done.
  - done.
Qed.

(** Room for the blocks of [k] tags in the buffers. *)
Definition tag_room (n_index k : Z) : Prop := 1 + n_index + n_setag k <= seq_max * nvme_max_blks /\ 2 + n_index + n_setag k < U32_MOD.

Lemma n_setag_succ k : 0 <= k ->
  n_setag (k + 1) = if (k + 1 =? 316) || ((316 <=? k) && ((k - 316) mod 340 =? 339)) then n_setag k + 1 else n_setag k.
Proof.
  intros Hk. unfold n_setag. destruct (Z.ltb_spec (k + 1) 316), (Z.ltb_spec k 316), (Z.eqb_spec (k + 1) 316), (Z.leb_spec 316 k); try lia; cbn [orb andb].
  - done.
  - replace (k + 1 - 316) with 0 by lia. done.
  - destruct (Z.eqb_spec ((k - 316) mod 340) 339); Z.div_mod_to_equations; lia.
Qed.

(** A tag in the descriptor block. *)
Lemma wrtag_desc_ok s c0 X0 T h d0 start cnt :
  tag_inv s c0 X0 [] T h d0 -> Z.of_nat (length T) < 316 -> 0 <= start < U64_MOD -> 0 <= cnt < U32_MOD ->
  tag_room (Z.of_nat (length X0)) (Z.of_nat (length T) + 1) ->
  exists s' X', stx_wrtag nvme_max_blks seq_max stale s start cnt = Ok s' /\ tag_inv s' c0 X0 X' (T ++ [mk_etag start cnt]) h d0.
Proof.
  intros [H1 H2 H3 H4 H5 H6 H7 H8 H9 H10 H11 H12] Hlt Hs Hc [Hr1 Hr2]. unfold stx_wrtag.
  rewrite H10, (proj2 (Z.ltb_lt _ 316)) by lia. rewrite Z.min_r in H6 by lia.
  destruct (stx_write_desc_tag_ok (desc_blk_copy s) start cnt H3) as (sdb & -> & Hb & Hn & He & Hh & Ht); [change STAGE_DESC_BLK_TAG_MAX with 316; lia|done|done|].
  cbn [res_bind]. rewrite n_setag_succ in Hr1, Hr2 by lia. rewrite (proj2 (Z.leb_gt 316 (Z.of_nat (length T)))), orb_false_r in Hr1, Hr2 by lia.
  assert (n_setag (Z.of_nat (length T)) = 0) as En by (unfold n_setag; by rewrite (proj2 (Z.ltb_lt _ 316)) by lia). rewrite En in *.
  assert (stg_inv (set_desc s sdb) (c0 :: X0 ++ []) d0) as Hi by (destruct H1; by split).
  rewrite H7, take_ge in Ht by lia. rewrite H6 in Hn |- *.
  assert (take 316 (T ++ [mk_etag start cnt]) = T ++ [mk_etag start cnt]) as Et by (apply take_ge; rewrite length_app; cbn; lia).
  assert (drop 316 (T ++ [mk_etag start cnt]) = []) as Ed by (apply drop_ge; rewrite length_app; cbn; lia).
  destruct (Z.eqb_spec (Z.of_nat (length T) + 1) 316) as [E | E].
  - destruct (stx_new_ext_ok (set_desc s sdb) c0 X0 [] d0 Hi H2 Hb) as (s' & x & -> & K1 & K2 & K3 & K4 & K5 & K6 & K7 & K8 & K9 & K10 & K11 & K12 & K13);
      [cbn [set_desc desc_blk_copy]; by rewrite He|cbn [set_desc desc_blk_copy]; lia|cbn [length]; rewrite app_nil_r; lia|cbn [length]; rewrite app_nil_r; lia|].
    exists s', [x]. split; [done|]. cbn [set_desc desc_blk_copy data_blks_cnt s_unlocked app] in *.
    split; rewrite ?length_app; cbn [length app fmap list_fmap concat]; try done; try congruence.
    + rewrite K10, Hn. lia.
    + rewrite K5, Ed. done.
    + by replace (Z.of_nat (length T + 1)) with 316 by lia.
    + by rewrite (proj2 (Z.ltb_ge (Z.of_nat (length T + 1)) 316)) by lia.
    + intros _. exists [], x. split; [done|]. split; [done|]. replace (Z.of_nat (length T + 1) - 316) with 0 by lia. done.
  - exists (set_desc s sdb), []. split; [done|]. cbn [set_desc desc_blk_copy data_blks_cnt s_unlocked].
    split; rewrite ?length_app; cbn [length app fmap list_fmap concat set_desc desc_blk_copy data_blks_cnt s_unlocked s_ext_blk stage_area_reserved]; try done; try congruence; try lia.
    + unfold n_setag. by rewrite (proj2 (Z.ltb_lt (Z.of_nat (length T + 1)) 316)) by lia.
    + rewrite H10. by rewrite !(proj2 (Z.ltb_lt _ 316)) by lia.
Qed.

(** A tag in the open extent tag block. *)
Lemma wrtag_ext_ok s c0 X0 X T h d0 start cnt :
  tag_inv s c0 X0 X T h d0 -> 316 <= Z.of_nat (length T) -> 0 <= start < U64_MOD -> 0 <= cnt < U32_MOD ->
  tag_room (Z.of_nat (length X0)) (Z.of_nat (length T) + 1) ->
  exists s' X', stx_wrtag nvme_max_blks seq_max stale s start cnt = Ok s' /\ tag_inv s' c0 X0 X' (T ++ [mk_etag start cnt]) h d0.
Proof.
  intros [H1 H2 H3 H4 H5 H6 H7 H8 H9 H10 H11 H12] Hge Hs Hc [Hr1 Hr2]. unfold stx_wrtag.
  rewrite H10, (proj2 (Z.ltb_ge _ 316)) by lia. destruct (H11 Hge) as (Xf & x & -> & Hx & Hnx).
  destruct (unres_pend _ _ _ H1 H2) as [Ep En]. set (k := (Z.of_nat (length T) - 316) mod 340) in *.
  assert (0 <= k < 340) as Hk by (apply Z.mod_pos_bound; lia).
  assert (c0 :: X0 ++ Xf ++ [x] = (c0 :: X0 ++ Xf) ++ [x]) as EL by (cbn; by rewrite <- app_assoc).
  assert ((length X0 + length (Xf ++ [x]))%nat = length (c0 :: X0 ++ Xf)) as Ee by (cbn; rewrite !length_app; cbn; lia).
  rewrite Ep, EL, Ee, list_lookup_total_middle by done. unfold write_etags. change JOURNAL_ETAG_MAX with 340.
  rewrite (proj2 (Z.leb_le (mh_nr x) 340)) by lia. cbn [assert_].
  destruct (fill_tag_etagblk_ok x start cnt Hx) as (je & -> & Hje & Hnje & _ & Htje); [change JOURNAL_ETAG_MAX with 340; lia|done|done|].
  change JOURNAL_ETAG_MAX with 340. cbn [res_bind]. rewrite Hnx in *. rewrite insert_app_r_alt, Nat.sub_diag by lia. cbn [insert list_insert].
  assert ((c0 :: X0 ++ Xf) ++ [je] = c0 :: X0 ++ Xf ++ [je]) as EL' by (cbn; by rewrite <- app_assoc). rewrite EL'.
  assert (stg_inv (set_pend s (c0 :: X0 ++ Xf ++ [je])) (c0 :: X0 ++ Xf ++ [je]) d0) as Hi
    by (eapply set_pend_inv; [exact H1|done|cbn; by rewrite !length_app]).
  rewrite n_setag_succ in Hr1, Hr2 by lia. rewrite (proj2 (Z.eqb_neq (_ + 1) 316)), (proj2 (Z.leb_le 316 _)) in Hr1, Hr2 by lia.
  fold k in Hr1, Hr2. cbn [orb andb] in Hr1, Hr2.
  assert (concat (je_tags <$> Xf ++ [je]) = drop 316 (T ++ [mk_etag start cnt])) as Htags.
  { rewrite drop_app_le, <- H8, !fmap_app, !concat_app by lia. cbn. by rewrite !app_nil_r, Htje, app_assoc. }
  rewrite length_app in H9. cbn [length] in H9.
  destruct (Z.eqb_spec (k + 1) 340) as [E | E].
  - rewrite (proj2 (Z.eqb_eq k 339)) in Hr1, Hr2 by lia.
    assert (length (Xf ++ [je]) = length (Xf ++ [x])) as El by (by rewrite !length_app).
    destruct (stx_new_ext_ok (set_pend s (c0 :: X0 ++ Xf ++ [je])) c0 X0 (Xf ++ [je]) d0 Hi H2 H3)
      as (s' & y & -> & K1 & K2 & K3 & K4 & K5 & K6 & K7 & K8 & K9 & K10 & K11 & K12 & K13);
      [cbn [set_pend desc_blk_copy]; by rewrite El|cbn [set_pend desc_blk_copy]; lia|cbn; rewrite !length_app; cbn; lia|cbn; rewrite !length_app; cbn; lia|].
    exists s', ((Xf ++ [je]) ++ [y]). split; [done|]. cbn [set_pend desc_blk_copy data_blks_cnt s_unlocked] in *.
    split; rewrite ?length_app; cbn [length]; try done; try congruence.
    + rewrite K9, !length_app. done.
    + rewrite K10, H6. lia.
    + rewrite K11, H7, take_app_le by lia. done.
    + rewrite fmap_app, concat_app, Htags. cbn. by rewrite K5, !app_nil_r.
    + replace (Z.of_nat (length T + 1)) with (Z.of_nat (length T) + 1) by lia. rewrite n_setag_succ by lia.
      rewrite (proj2 (Z.eqb_neq (_ + 1) 316)), (proj2 (Z.leb_le 316 _)) by lia. fold k. rewrite (proj2 (Z.eqb_eq k 339)) by lia. cbn [orb andb]. lia.
    + rewrite (proj2 (Z.ltb_ge (Z.of_nat (length T + 1)) 316)) by lia. rewrite K6. f_equal. rewrite !length_app. done.
    + intros _. exists (Xf ++ [je]), y. split; [done|]. split; [done|]. rewrite K4. unfold k in E. Z.div_mod_to_equations; lia.
  - rewrite (proj2 (Z.eqb_neq k 339)) in Hr1, Hr2 by lia. exists (set_pend s (c0 :: X0 ++ Xf ++ [je])), (Xf ++ [je]). split; [done|].
    split; rewrite ?length_app; cbn [length set_pend desc_blk_copy data_blks_cnt s_unlocked s_ext_blk stage_area_reserved]; try done.
    + rewrite H5, length_app. done.
    + rewrite H6. lia.
    + rewrite H7, take_app_le by lia. done.
    + replace (Z.of_nat (length T + 1)) with (Z.of_nat (length T) + 1) by lia. rewrite n_setag_succ by lia.
      rewrite (proj2 (Z.eqb_neq (_ + 1) 316)), (proj2 (Z.leb_le 316 _)) by lia. fold k. rewrite (proj2 (Z.eqb_neq k 339)) by lia. cbn [orb andb]. lia.
    + rewrite H10, !(proj2 (Z.ltb_ge _ 316)) by lia. by rewrite length_app.
    + intros _. exists Xf, je. split; [done|]. split; [done|]. rewrite Hnje. unfold k in *. Z.div_mod_to_equations; lia.
Qed.

Lemma wrtag_ok s c0 X0 X T h d0 start cnt :
  tag_inv s c0 X0 X T h d0 -> 0 <= start < U64_MOD -> 0 <= cnt < U32_MOD ->
  tag_room (Z.of_nat (length X0)) (Z.of_nat (length T) + 1) ->
  exists s' X', stx_wrtag nvme_max_blks seq_max stale s start cnt = Ok s' /\ tag_inv s' c0 X0 X' (T ++ [mk_etag start cnt]) h d0.
Proof.
  intros Hi Hs Hc Hr. destruct (Z.lt_ge_cases (Z.of_nat (length T)) 316) as [Hlt | Hge]; [|by eapply wrtag_ext_ok].
  assert (X = []) as ->.
  { pose proof (tg_len _ _ _ _ _ _ _ Hi) as E. unfold n_setag in E. rewrite (proj2 (Z.ltb_lt _ 316)) in E by lia. destruct X; [done|cbn in E; lia]. }
  by apply wrtag_desc_ok.
Qed.

Lemma tag_room_mono n n' k k' : tag_room n' k' -> n <= n' -> k <= k' -> tag_room n k.
Proof. intros [H1 H2] Hn Hk. pose proof (n_setag_mono k k' Hk). split; lia. Qed.

Definition bh_tag (bh : buffer_head) : etag_t := mk_etag (b_blocknr bh) 1.

(** Index blocks, as long as their tags fit in the descriptor block. *)
Lemma stage_fill_index_ok c0 h d0 bhs : forall s X0 T,
  tag_inv s c0 X0 [] T h d0 -> Forall bh_ok bhs ->
  let I := filter (fun bh => b_dirty bh = true) bhs in
  Z.of_nat (length T) + Z.of_nat (length I) < 316 ->
  tag_room (Z.of_nat (length X0) + Z.of_nat (length I)) 0 ->
  exists s', stage_fill_index_blk nvme_max_blks seq_max stale s bhs = Ok s' /\
    tag_inv s' c0 (X0 ++ (b_data <$> I)) [] (T ++ (bh_tag <$> I)) h d0.
Proof.
  induction bhs as [|bh bhs IH]; intros s X0 T Hi Hb I Hlen Hroom; cbn [stage_fill_index_blk].
  { exists s. unfold I. cbn. by rewrite !app_nil_r. }
  apply Forall_cons in Hb as [Hb Hbs]. unfold I in *. rewrite filter_cons in *. destruct (b_dirty bh) eqn:Ed; case_decide; try done; cycle 1.
  { cbn [res_bind]. by apply IH. }
  cbn [length fmap list_fmap] in *. pose proof Hi as [H1 H2 H3 H4 H5 H6 H7 H8 H9 H10 H11 H12].
  assert (tag_room (Z.of_nat (length X0) + 1) 0) as [Hr1 Hr2] by (eapply tag_room_mono; [exact Hroom|lia|lia]). change (n_setag 0) with 0 in *.
  rewrite app_nil_r in H1.
  destruct (stg_copy_blk_ok s (c0 :: X0) d0 (b_data bh) H1) as (s1 & -> & Hi1 & Hm & _); [split; [cbn; lia|right; cbn; lia]|]. cbn [res_bind].
  destruct Hm as (A1 & A2 & A3 & A4 & A5 & A6 & A7 & A8).
  assert (tag_inv s1 c0 (X0 ++ [b_data bh]) [] T h d0) as Hi1'.
  { split; rewrite ?A5, ?A3, ?A4, ?A6, ?A8; try done.
    - by rewrite app_nil_r.
    - rewrite H10, !(proj2 (Z.ltb_lt _ 316)) by lia. done. }
  destruct (wrtag_desc_ok s1 c0 _ T h d0 (b_blocknr bh) 1 Hi1') as (s2 & X2 & -> & Hi2); [lia|done|lia| |].
  { unfold tag_room, n_setag. rewrite (proj2 (Z.ltb_lt _ 316)), length_app by lia. cbn [length]. lia. }
  cbn [res_bind]. assert (X2 = []) as ->.
  { pose proof (tg_len _ _ _ _ _ _ _ Hi2) as E. rewrite length_app in E. cbn [length] in E. unfold n_setag in E.
    rewrite (proj2 (Z.ltb_lt _ 316)) in E by lia. destruct X2; [done|cbn in E; lia]. }
  destruct (IH s2 (X0 ++ [b_data bh]) (T ++ [bh_tag bh]) Hi2 Hbs) as (s3 & -> & Hi3).
  - rewrite length_app. cbn [length]. lia.
  - eapply tag_room_mono; [exact Hroom|rewrite length_app; cbn; lia|lia].
  - exists s3. split; [done|]. by rewrite <- !app_assoc in Hi3.
Qed.

(** Tags of the data, range by range and node by node: at least one for each
    range that is not empty. *)
Definition n_ranges (rs : list (Z * Z)) : nat := length (List.filter (fun r => negb (r.2 =? 0)) rs).
Definition srange_ok (r : Z * Z) : Prop := 0 <= r.1 /\ 0 <= r.2 < U32_MOD /\ r.1 + r.2 < 9223372036854775808.

Lemma stage_fill_ird_ok gb c0 X0 h d0 N rs dom `{!FileMap gb dom} :
  tag_room (Z.of_nat (length X0)) N -> (forall p, p ∈ range_pages rs -> dom p) -> Forall srange_ok rs -> forall s X T,
  tag_inv s c0 X0 X T h d0 -> Z.of_nat (length T) + Z.of_nat (length (range_pages rs)) <= N ->
  exists s' X' T', stage_fill_ird nvme_max_blks seq_max stale gb s rs = Ok (s', true) /\ tag_inv s' c0 X0 X' (T ++ T') h d0 /\
    lbas T' = lba_of gb <$> range_pages rs /\ (n_ranges rs <= length T' <= length (range_pages rs))%nat /\ Forall tag_valid T'.
Proof.
  intros Hroom. induction rs as [|[start cnt] rs IH]; intros Hdom Hrs s X T Hi HN; cbn [stage_fill_ird].
  { exists s, X, []. rewrite app_nil_r. split_and!; done. }
  apply Forall_cons in Hrs as [(Hs & Hc & Hm) Hrs]. cbn [fst snd] in *.
  change (range_pages ((start, cnt) :: rs)) with (seqz start cnt ++ range_pages rs) in *. rewrite length_app, length_seqz in HN |- *.
  assert (forall p, p ∈ range_pages rs -> dom p) as Hdom' by (intros p Hp; apply Hdom, elem_of_app; by right).
  destruct (Z.eqb_spec cnt 0) as [-> | Hne].
  { rewrite seqz_nil by lia. cbn [app]. apply (IH Hdom' Hrs s X T Hi). lia. }
  assert (n_ranges ((start, cnt) :: rs) = S (n_ranges rs)) as -> by (unfold n_ranges; cbn; by rewrite (proj2 (Z.eqb_neq cnt 0))).
  destruct (tag_range_ok (stx_wrtag nvme_max_blks seq_max stale) (fun s T => exists X, tag_inv s c0 X0 X T h d0) N gb dom)
    with (fuel := Z.to_nat cnt) (b := s) (T := T) (start := start) (cnt := cnt) as (s1 & T1 & -> & [X1 Hi1] & HT1 & Hl1 & Hv1); try lia.
  - intros s' T' lba n [X' Hi'] Hlba Hn HN'. destruct (wrtag_ok s' c0 X0 X' T' h d0 lba n Hi') as (s'' & X'' & E & Hi''); [done|done| |].
    + eapply tag_room_mono; [exact Hroom|lia|lia].
    + exists s''. split; [done|]. by exists X''.
  - by exists X.
  - intros p Hp. apply Hdom, elem_of_app. left. apply elem_of_seqz. lia.
  - cbn [res_bind]. destruct (IH Hdom' Hrs s1 X1 (T ++ T1) Hi1) as (s2 & X2 & T2 & -> & Hi2 & HT2 & Hl2 & Hv2); [rewrite length_app; lia|].
    exists s2, X2, (T1 ++ T2). rewrite <- app_assoc in Hi2. split; [done|]. split; [done|]. rewrite lbas_app, HT1, HT2, fmap_app, length_app.
    split; [done|]. split; [|by apply Forall_app]. assert (T1 <> []); [|destruct T1; [done|cbn [length] in *; lia]].
    intros ->. rewrite seqz_cons in HT1 by lia. done.
Qed.

Lemma stage_fill_tags_ok gb c0 X0 h d0 N irds dom `{!FileMap gb dom} :
  tag_room (Z.of_nat (length X0)) N -> (forall p, p ∈ range_pages (concat (dirty_pages <$> irds)) -> dom p) ->
  Forall srange_ok (concat (dirty_pages <$> irds)) -> Forall (fun n => dirty_pages n <> []) (tl irds) -> forall s X T,
  tag_inv s c0 X0 X T h d0 -> Z.of_nat (length T) + Z.of_nat (length (range_pages (concat (dirty_pages <$> irds)))) <= N ->
  exists s' X' T', stage_fill_tags nvme_max_blks seq_max stale gb s irds = Ok s' /\ tag_inv s' c0 X0 X' (T ++ T') h d0 /\
    lbas T' = lba_of gb <$> range_pages (concat (dirty_pages <$> irds)) /\
    (n_ranges (concat (dirty_pages <$> irds)) <= length T' <= length (range_pages (concat (dirty_pages <$> irds))))%nat /\ Forall tag_valid T'.
Proof.
  intros Hroom. induction irds as [|ird irds IH]; intros Hdom Hrs Hne s X T Hi HN; cbn [stage_fill_tags].
  { exists s, X, []. rewrite app_nil_r. split_and!; done. }
  cbn [fmap list_fmap concat tl] in *. rewrite range_pages_app, length_app in *. apply Forall_app in Hrs as [Hr1 Hr2].
  destruct (stage_fill_ird_ok gb c0 X0 h d0 N (dirty_pages ird) dom Hroom) with (s := s) (X := X) (T := T)
    as (s1 & X1 & T1 & -> & Hi1 & HT1 & Hl1 & Hv1); [intros p Hp; apply Hdom, elem_of_app; by left|done|done|lia|]. cbn [res_bind].
  assert (exists s2 X2 T2, stage_fill_tags nvme_max_blks seq_max stale gb s1 irds = Ok s2 /\ tag_inv s2 c0 X0 X2 ((T ++ T1) ++ T2) h d0 /\
    lbas T2 = lba_of gb <$> range_pages (concat (dirty_pages <$> irds)) /\
    (n_ranges (concat (dirty_pages <$> irds)) <= length T2 <= length (range_pages (concat (dirty_pages <$> irds))))%nat /\ Forall tag_valid T2) as (s2 & X2 & T2 & E2 & Hi2 & HT2 & Hl2 & Hv2).
  { apply (IH ltac:(intros p Hp; apply Hdom, elem_of_app; by right) Hr2) with (X := X1); [|done|rewrite length_app; lia].
    destruct irds as [|n irds]; [constructor|]. by apply Forall_cons in Hne as [_ Hne]. }
  assert (match irds with
          | n :: _ => match dirty_pages n with [] => Ok s1 | _ => stage_fill_tags nvme_max_blks seq_max stale gb s1 irds end
          | [] => Ok s1 end = Ok s2) as ->.
  { destruct irds as [|n irds]; [done|]. apply Forall_cons in Hne as [Hne _]. by destruct (dirty_pages n). }
  exists s2, X2, (T1 ++ T2). rewrite <- app_assoc in Hi2. split; [done|]. split; [done|]. rewrite lbas_app, HT1, HT2, fmap_app, length_app.
  split; [done|]. split; [|by apply Forall_app]. unfold n_ranges in *. rewrite List.filter_app, length_app. lia.
Qed.

(** ** The whole transaction *)

(** What the transaction leaves on disk: the blocks [L], the commit block, and
    nothing else. *)
Definition written_tx (d0 d : disk) (start : Z) (L : list block) (commit : Z) (c : block) : Prop :=
  forall b, d b = if b =? commit then c else if (start <=? b) && (b <? start + Z.of_nat (length L))
                  then L !!! Z.to_nat (b - start) else d0 b.

Lemma final_write_ok s L d0 :
  stg_inv s L d0 -> stage_area_reserved s = true -> nr_issued s < Z.of_nat (length L) ->
  let s1 := match pend s with
    | [] => s
    | _ =>
        let s := if desc_blk_skipped s then s else set_pend s (<[0%nat := desc_blk_copy s]> (pend s)) in
        let d := nvme_direct_write_async nvme_max_blks (s_disk s) (pend s) (seq_idx s + 1) (u64 (s_start s + nr_issued s)) (Z.of_nat (length (pend s))) false in
        set_seq (set_issued s (desc_blk_skipped s) d) nvme_max_blks 0
    end in
  let s2 := if desc_blk_skipped s1 then s_set_disk s1 (upd (s_disk s1) (s_start s1) (desc_blk_copy s1)) else s1 in
  nr_blocks s2 = nvme_max_blks /\ pend s2 = [] /\ nr_issued s2 = Z.of_nat (length L) /\ s_start s2 = s_start s /\
  s_commit_baddr s2 = s_commit_baddr s /\ data_blks_cnt s2 = data_blks_cnt s /\ nr_other_blks s2 = nr_other_blks s /\
  forall b, s_disk s2 b = if (s_start s <=? b) && (b <? s_start s + Z.of_nat (length L))
                  then (<[0%nat := desc_blk_copy s]> L) !!! Z.to_nat (b - s_start s) else d0 b.
Proof.
  intros [H1 H2 H3 H4 H5 H6 H7 H8 H9 H10] Hr Hn. rewrite Hr in H9. destruct H9 as [H9 H9'].
  assert (Z.of_nat (length (pend s)) <= (seq_idx s + 1) * nvme_max_blks) as Hfit by lia.
  cbn zeta. assert (exists x p, pend s = x :: p) as (x & p & Ep) by (destruct (pend s) eqn:E; [cbn in H1; lia|by eexists _, _]).
  replace (match pend s with [] => s | _ => _ end) with
    (let s' := if desc_blk_skipped s then s else set_pend s (<[0%nat := desc_blk_copy s]> (pend s)) in
     set_seq (set_issued s' (desc_blk_skipped s') (nvme_direct_write_async nvme_max_blks (s_disk s') (pend s') (seq_idx s' + 1)
       (u64 (s_start s' + nr_issued s')) (Z.of_nat (length (pend s'))) false)) nvme_max_blks 0) by (by rewrite Ep).
  cbn zeta. rewrite H5. assert (forall k, pend s !!! k = L !!! (Z.to_nat (nr_issued s) + k)%nat) as Hp by (intros k; rewrite H3; apply lookup_total_drop).
  destruct (Z.ltb_spec 0 (nr_issued s)) as [Hpos | Hzero].
  - cbn [set_seq set_issued desc_blk_skipped s_set_disk nr_blocks pend nr_issued s_start s_commit_baddr data_blks_cnt nr_other_blks s_disk desc_blk_copy].
    rewrite H5.
    cbn [set_seq set_issued desc_blk_skipped s_set_disk nr_blocks pend nr_issued s_start s_commit_baddr data_blks_cnt nr_other_blks s_disk desc_blk_copy].
    split_and!; try done; [rewrite u32_id by lia; lia|]. intros b. unfold upd. rewrite (u64_id (s_start s + nr_issued s)) by lia.
    destruct (Z.eqb_spec b (s_start s)) as [-> | Hne].
    + rewrite Z.leb_refl, (proj2 (Z.ltb_lt _ _)), Z.sub_diag by lia. cbn [andb Z.to_nat]. rewrite list_lookup_total_insert_eq by lia. done.
    + rewrite nvme_write_ok by lia. rewrite H4, Hp, Z.add_0_r.
      destruct (Z.leb_spec (s_start s + nr_issued s) b), (Z.ltb_spec b (s_start s + nr_issued s + Z.of_nat (length (pend s)))),
        (Z.leb_spec (s_start s + 1) b), (Z.ltb_spec b (s_start s + nr_issued s)), (Z.leb_spec (s_start s) b), (Z.ltb_spec b (s_start s + Z.of_nat (length L)));
        cbn [andb]; try lia; try done; rewrite list_lookup_total_insert_ne by lia; [f_equal; lia|done].
  - assert (nr_issued s = 0) as E0 by lia.
    cbn [set_pend set_seq set_issued desc_blk_skipped s_set_disk nr_blocks pend nr_issued s_start s_commit_baddr data_blks_cnt nr_other_blks s_disk desc_blk_copy seq_idx].
    rewrite H5, length_insert.
    cbn [set_pend set_seq set_issued desc_blk_skipped s_set_disk nr_blocks pend nr_issued s_start s_commit_baddr data_blks_cnt nr_other_blks s_disk desc_blk_copy seq_idx].
    split_and!; try done; [rewrite length_insert, u32_id by lia; lia|]. intros b. rewrite E0, Z.add_0_r, (u64_id (s_start s)) by lia.
    rewrite nvme_write_ok by lia. rewrite H4, Z.add_0_r. rewrite E0 in H1, H3. rewrite H3, drop_0. rewrite H3, drop_0 in H1.
    destruct (Z.leb_spec (s_start s) b), (Z.ltb_spec b (s_start s + Z.of_nat (length L))), (Z.leb_spec (s_start s + 1) b), (Z.ltb_spec b (s_start s + nr_issued s));
      cbn [andb]; try lia; done.
Qed.

Lemma wait_stream_length page n w0 w1 : waiting_ok w0 -> waiting_ok w1 ->
  Z.of_nat (length (wait_stream page n (wait_order w0 w1))) = wait_frames w0 + wait_data w0 + wait_frames w1 + wait_data w1.
Proof.
  intros H0 H1. unfold wait_order.
  assert (forall w, w_txid w = -1 -> waiting_ok w -> wait_data w = 0 /\ wait_frames w = 0) as Hz.
  { intros w E Hw. unfold wait_data, wait_frames. destruct (wo_none w Hw E) as [-> ->]. by destruct (_ =? _). }
  destruct (Z.eqb_spec (w_txid w0) (-1)) as [E0 | E0], (Z.eqb_spec (w_txid w1) (-1)) as [E1 | E1]; cbn [andb wait_stream];
    [| | |destruct (w_txid w0 <? w_txid w1); cbn [wait_stream]];
    rewrite ?length_app, ?Nat2Z.inj_add, ?wait_blks_length by done; cbn [length];
    repeat match goal with E : w_txid ?w = -1 |- _ => destruct (Hz w E ltac:(done)) as [-> ->]; clear E end; lia.
Qed.

(** The last part of [stage_file]. *)
Lemma stage_write_tx_ok s L d0 n w0 w1 commit_buf :
  stg_inv s L d0 -> stage_area_reserved s = true -> nr_issued s < Z.of_nat (length L) ->
  waiting_ok w0 -> waiting_ok w1 -> both_committed w0 w1 = false ->
  n < U32_MOD -> 0 <= data_blks_cnt s + nr_other_blks s ->
  Z.of_nat (length L) = data_blks_cnt s + nr_other_blks s + wait_frames w0 + wait_frames w1 ->
  n = Z.of_nat (length L) - wait_frames w0 - wait_data w0 - wait_frames w1 - wait_data w1 +
      w_data_blks w0 + w_ird_blks w0 + w_data_blks w1 + w_ird_blks w1 + 1 ->
  s_commit_baddr s = s_start s + n - 1 ->
  exists s' c, stage_write_tx nvme_max_blks s (wait_skipped w0) (wait_skipped w1) w0 w1 commit_buf = Ok s' /\
    written_tx d0 (s_disk s') (s_start s) (<[0%nat := desc_blk_copy s]> L) (s_commit_baddr s) c /\
    c = commit_block commit_buf (wait_data w0) (wait_data w1) (wait_frames w0) (wait_frames w1) /\ s_start s' = s_start s.
Proof.
  intros Hi Hr Hn H0 H1 Hk Hsz Hpos Hcnt -> Hcb. unfold stage_write_tx.
  pose proof (sv_resv _ _ _ Hi) as Hst. pose proof (sv_small _ _ _ Hi) as HL. rewrite Hr in Hst.
  rewrite (proj2 (Z.eqb_neq (s_start s) 0)), Hr by lia. cbn [negb assert_].
  destruct (final_write_ok s L d0 Hi Hr Hn) as (F1 & F2 & F3 & F4 & F5 & F6 & F7 & F8).
  set (s2 := if desc_blk_skipped _ then s_set_disk _ _ else _) in *. cbn zeta. fold s2.
  rewrite F1, F2, F3, F4, F5, F6, F7. rewrite (proj2 (Z.eqb_neq nvme_max_blks 0)) by lia. cbn [negb assert_ length].
  assert (forall w, waiting_ok w -> wait_skipped w = false -> wait_data w = w_data_blks w /\ wait_frames w = w_ird_blks w) as Hkeep.
  { intros w Hw. unfold wait_skipped, wait_data, wait_frames. destruct (Z.eqb_spec (w_txid w) (-1)) as [E | E]; cbn [negb andb].
    - destruct (wo_none w Hw E) as [-> ->]. by destruct (_ =? _).
    - by destruct (_ =? _). }
  assert (forall w, waiting_ok w -> wait_skipped w = true -> wait_data w = 0 /\ wait_frames w = 0) as Hdrop.
  { intros w Hw. unfold wait_skipped, wait_data, wait_frames. by destruct (_ =? -1), (_ =? _). }
  destruct (wait_total w0 H0), (wait_total w1 H1).
  set (c := commit_block commit_buf (wait_data w0) (wait_data w1) (wait_frames w0) (wait_frames w1)).
  set (r := if wait_skipped w0 then _ else _).
  assert (r = (c, wait_frames w0 + wait_frames w1, s_commit_baddr s)) as ->.
  { unfold r, c. destruct (wait_skipped w0) eqn:K0.
    - destruct (Hdrop w0 H0 K0) as [E3 E4].
      assert (wait_data w1 = w_data_blks w1 /\ wait_frames w1 = w_ird_blks w1) as [E1 E2].
      { destruct (wait_skipped w1) eqn:K1; [|by apply Hkeep]. destruct (Hdrop w1 H1 K1) as [E5 E6].
        unfold both_committed in Hk. rewrite K0, K1 in Hk. cbn [andb] in Hk. apply Z.ltb_ge in Hk. lia. }
      rewrite E1, E2, E3, E4, (u64_id (_ + _ + _ + _)) by lia. do 2 f_equal; lia.
    - destruct (Hkeep w0 H0 K0) as [E1 E2], (wait_skipped w1) eqn:K1.
      + destruct (Hdrop w1 H1 K1) as [E3 E4]. rewrite E1, E2, E3, E4, (u64_id (_ + _ + _ + _)) by lia. do 2 f_equal; lia.
      + destruct (Hkeep w1 H1 K1) as [E3 E4]. rewrite E1, E2, E3, E4, (u32_id (w_ird_blks w0 + _)), (u64_id (_ + _)) by lia. do 2 f_equal; lia. }
  rewrite (u64_id (data_blks_cnt s + _ + _)), (proj2 (Z.eqb_eq _ _)), Z.eqb_refl by lia. cbn [assert_ Nat.eqb].
  eexists _, c. split; [done|]. split; [|done]. cbn [s_set_disk s_disk]. intros b. unfold upd. destruct (b =? s_commit_baddr s); [done|].
  rewrite F8, length_insert. done.
Qed.

(** ** Staging a file *)

Definition ird_pages (irds : list inode_range_dirty) : list Z := range_pages (concat (dirty_pages <$> irds)).
Definition index_bhs (bhs : list buffer_head) : list buffer_head := filter (fun bh => b_dirty bh = true) bhs.
Definition n_index (bhs : list buffer_head) : Z := Z.of_nat (length (index_bhs bhs)).
Definition n_data (irds : list inode_range_dirty) : Z := Z.of_nat (length (ird_pages irds)).

(** Well-formed input. *)
Record stage_in_ok (i : staged_inode) (gb : Z -> option buffer_extent) (bhs : list buffer_head) (irds : list inode_range_dirty)
    (w0 w1 : waiting) : Prop := {
  fi_data : length (si_data i) = 32%nat;
  fi_bhs : Forall bh_ok bhs;
  fi_index : n_index bhs < 316;
  fi_ranges : Forall srange_ok (concat (dirty_pages <$> irds));
  fi_chain : Forall (fun n => dirty_pages n <> []) (tl irds);
  fi_nr : Forall (fun n => dirty_blk_nr n = Z.of_nat (length (range_pages (dirty_pages n)))) irds;
  fi_map : FileMap gb (fun p => p ∈ ird_pages irds);
  fi_w0 : waiting_ok w0;
  fi_w1 : waiting_ok w1
}.

(** Blocks needed at most. *)
Definition n_waiting (w0 w1 : waiting) : Z := w_data_blks w0 + w_ird_blks w0 + w_data_blks w1 + w_ird_blks w1.
Definition stage_need (bhs : list buffer_head) (irds : list inode_range_dirty) (w0 w1 : waiting) : Z :=
  2 + n_index bhs + n_setag (n_index bhs + n_data irds) + n_data irds + n_waiting w0 w1.

Record stage_room (j : stage_ctx) (need : Z) : Prop := {
  sr_inv : stage_inv j;
  sr_total : need <= stage_total j;
  sr_free : need + stage_gap j need < stage_total j - get_stage_used_blks j
}.

Lemma stage_room_mono j n n' : stage_room j n' -> 0 < n <= n' -> stage_room j n.
Proof.
  intros [H1 H2 H3] Hn. split; [done|lia|]. rewrite gap_eq in * by (done || lia). pose proof H1 as [K1 K2 K3 K4 K5 K6].
  destruct (Z.ltb_spec (stage_end j) (stage_start j + n)), (Z.ltb_spec (stage_end j) (stage_start j + n')); lia.
Qed.

Lemma stage_reserve_ok j n : stage_room j n -> 0 < n ->
  stage_reserve_area j n = Ok ((reserved j n).1, (reserved j n).2, (reserved j n).2 + n - 1) /\
  0 < (reserved j n).2 /\ (reserved j n).2 + n <= stage_end j /\ (reserved j n).2 + U32_MOD <= U64_MOD.
Proof.
  intros [H1 H2 H3] Hn. rewrite stage_reserve_eq by (done || lia). destruct (reserved_ok j n H1 ltac:(lia) H3) as (_ & _ & K1 & K2).
  pose proof H1 as [? ? ? ? ? ?]. destruct (reserved j n) as [j' st]. cbn in *. split; [done|]. lia.
Qed.

(** The descriptor block before the first tag. *)
Definition stage_desc (i : staged_inode) (mrc_tx_id : Z) : block :=
  wr 4 (sefs_stage_inode (wr 4 (wr 4 (wr 4 (wr 8 (wr 4 zero_block 256 STAGE_DESC_BLK) 260 (si_ino i)) 272 0) 276 0) 280 0) i) 268 mrc_tx_id.

Lemma stage_desc_ok i mrc : length (si_data i) = 32%nat ->
  block_ok (stage_desc i mrc) /\ sd_nr_etag_blks (stage_desc i mrc) = 0 /\ sd_nr_tags (stage_desc i mrc) = 0 /\ sd_tags (stage_desc i mrc) = [].
Proof.
  intros Hd. unfold stage_desc, sefs_stage_inode. set (b0 := wr 4 (wr 4 (wr 4 (wr 8 (wr 4 zero_block _ _) _ _) _ _) _ _) _ _).
  assert (block_ok b0) as H0 by (unfold b0; repeat (apply wr_ok; [|lia|lia]); exact zero_block_ok).
  set (b1 := wr 8 _ 32 _). assert (block_ok b1) as H1 by (unfold b1; repeat (apply wr_ok; [|lia|lia]); exact H0).
  set (b2 := splice b1 40 (si_data i)). assert (block_ok b2) as H2 by (unfold block_ok, b2 in *; rewrite length_splice; rewrite ?Hd; lia).
  assert (forall off, 272 <= off -> off + 4 <= 4096 -> rd 4 b2 off = rd 4 b0 off) as Hrd.
  { intros off Ho Ho'. unfold b2, b1. unfold block_ok in H1. rewrite rd_splice_ne by (rewrite ?Hd; unfold b1 in *; lia). fields. done. }
  set (b3 := wr 4 _ 268 mrc). assert (forall off, 272 <= off -> off + 4 <= 284 -> rd 4 b3 off = rd 4 b0 off) as Hrd3.
  { intros off Ho Ho'. unfold b3. fields. apply Hrd; lia. }
  assert (sd_nr_tags b3 = 0) as En.
  { unfold sd_nr_tags. rewrite Hrd3 by lia. unfold b0. fields; try done. }
  split_and!; [unfold b3; repeat (apply wr_ok; [|lia|lia]); exact H2| |exact En|].
  - unfold sd_nr_etag_blks. rewrite Hrd3 by lia. unfold b0. fields; try done.
  - unfold sd_tags. rewrite En. unfold rd_etags. by rewrite seqz_nil by lia.
Qed.

Lemma nr_dirty_eq irds : forall c, 0 <= c ->
  Forall (fun n => dirty_blk_nr n = Z.of_nat (length (range_pages (dirty_pages n)))) irds -> c + n_data irds < U32_MOD ->
  foldl (fun c n => u32 (c + dirty_blk_nr n)) c irds = c + n_data irds.
Proof.
  unfold n_data, ird_pages. induction irds as [|n irds IH]; intros c Hc Hf Hm; [cbn; lia|]. apply Forall_cons in Hf as [Hn Hf].
  cbn [foldl fmap list_fmap concat] in *. rewrite range_pages_app, length_app in *. rewrite Hn, u32_id, IH by (done || lia). lia.
Qed.

(** The stream of [stage_file]: descriptor, index blocks, extent tag blocks,
    data, ranges of background transactions. *)
Definition stage_layout (page : Z -> block) (desc : block) (bhs : list buffer_head) (X : list block) (irds : list inode_range_dirty)
    (w0 w1 : waiting) : list block :=
  let L := desc :: (b_data <$> index_bhs bhs) ++ X ++ (page <$> ird_pages irds) in
  L ++ wait_stream page (Z.of_nat (length L)) (wait_order w0 w1).

(** The home blocks of the index blocks and of the data. *)
Definition stage_homes (gb : Z -> option buffer_extent) (bhs : list buffer_head) (irds : list inode_range_dirty) : list Z :=
  (b_blocknr <$> index_bhs bhs) ++ (lba_of gb <$> ird_pages irds).

(** A descriptor block and the extent tag blocks [X] with the tags [T]. *)
Record tagged (desc : block) (X : list block) (T : list etag_t) : Prop := {
  tt_desc : block_ok desc;
  tt_netag : sd_nr_etag_blks desc = Z.of_nat (length X);
  tt_nr : sd_nr_tags desc = Z.min 316 (Z.of_nat (length T));
  tt_sd : sd_tags desc = take 316 T;
  tt_tags : concat (je_tags <$> X) = drop 316 T;
  tt_len : Z.of_nat (length X) = n_setag (Z.of_nat (length T))
}.

Lemma lbas_bh_tags l : lbas (bh_tag <$> l) = b_blocknr <$> l.
Proof.
  induction l as [|b l IH]; [done|]. rewrite !fmap_cons. change (lbas (bh_tag b :: ?r)) with (tag_blks (bh_tag b) ++ lbas r).
  rewrite <- IH. unfold tag_blks. cbn [bh_tag et_start et_cnt]. by rewrite seqz_cons, seqz_nil by lia.
Qed.

Lemma stage_meta_ok d i mrc gb bhs irds w0 w1 :
  stage_in_ok i gb bhs irds w0 w1 -> tag_room (n_index bhs) (n_index bhs + n_data irds) -> 
  exists s0 s1 s2 c0 X T,
    stage_start_tx nvme_max_blks seq_max stale (si_ino i) d = Ok s0 /\
    stage_fill_index_blk nvme_max_blks seq_max stale
      (set_desc (set_desc s0 (sefs_stage_inode (desc_blk_copy s0) i)) (wr 4 (desc_blk_copy (set_desc s0 (sefs_stage_inode (desc_blk_copy s0) i))) 268 mrc)) bhs = Ok s1 /\
    stage_fill_tags nvme_max_blks seq_max stale gb s1 irds = Ok s2 /\
    tag_inv s2 c0 (b_data <$> index_bhs bhs) X T (sd_head (stage_desc i mrc)) d /\ lbas T = stage_homes gb bhs irds /\ Forall tag_valid T /\
    (length (index_bhs bhs) + n_ranges (concat (dirty_pages <$> irds)) <= length T)%nat.
Proof.
  intros [F1 F2 F3 F4 F5 F6 F7 F8 F9] Hroom. unfold n_index in *.
  set (s := mk_stg nvme_max_blks 0 [] 0 false 0 0 false None zero_block 0 0 [] d).
  assert (stg_inv s [] d) as Hi.
  { split; cbn; try done; try lia. intros b. destruct (Z.leb_spec (0 + 1) b), (Z.ltb_spec b (0 + 0)); cbn; lia || done. }
  destruct (resv_ok s [] d Hi) as (s0 & k & E0 & Hi0 & (A1 & A2 & A3 & A4 & A5 & A6 & A7 & A8) & _ & _); [split; [done|right; cbn; lia]|].
  destruct (stage_desc_ok i mrc F1) as (D1 & D2 & D3 & D4).
  set (sd := set_desc s0 (stage_desc i mrc)).
  assert (tag_inv sd (stale 0) [] [] [] (sd_head (stage_desc i mrc)) d) as Hti.
  { split; cbn [sd set_desc desc_blk_copy stage_area_reserved data_blks_cnt s_unlocked s_ext_blk]; try done.
    - destruct Hi0. by split. }
  destruct (stage_fill_index_ok (stale 0) (sd_head (stage_desc i mrc)) d bhs sd [] [] Hti F2) as (s1 & E1 & Hi1); [cbn; fold (index_bhs bhs); lia| |].
  { eapply tag_room_mono; [exact Hroom|cbn; fold (index_bhs bhs); lia|unfold n_data; lia]. }
  fold (index_bhs bhs) in Hi1. cbn [app] in Hi1.
  destruct (stage_fill_tags_ok gb (stale 0) (b_data <$> index_bhs bhs) (sd_head (stage_desc i mrc)) d (n_index bhs + n_data irds) irds _)
    with (s := s1) (X := @nil block) (T := bh_tag <$> index_bhs bhs) as (s2 & X & T' & E2 & Hi2 & HT & Hl & Hv); try done.
  - by rewrite length_fmap.
  - rewrite length_fmap. unfold n_index, n_data, ird_pages. lia.
  - exists (set_desc s0 (wr 4 (wr 4 (wr 4 (wr 8 (wr 4 (desc_blk_copy s0) 256 STAGE_DESC_BLK) 260 (si_ino i)) 272 0) 276 0) 280 0)), s1, s2, (stale 0), X,
      ((bh_tag <$> index_bhs bhs) ++ T').
    split; [unfold stage_start_tx; fold s; by rewrite E0|]. split.
    { rewrite <- E1. unfold sd, stage_desc. cbn [set_desc desc_blk_copy]. rewrite A5. done. }
    split; [done|]. split; [done|]. split; [|split; [|rewrite length_app, length_fmap; lia]].
    + rewrite lbas_app, HT. unfold stage_homes. by rewrite lbas_bh_tags.
    + apply Forall_app. split; [|done]. apply Forall_fmap, Forall_forall. intros b Hb. unfold index_bhs in Hb.
      apply list_elem_of_filter in Hb as [_ Hb]. pose proof (proj1 (Forall_forall _ _) F2 b Hb) as Hbo. unfold bh_ok in Hbo. cbn. split; [split|]; cbn; lia.
Qed.

Lemma set_reserved_inv s L d0 start commit other :
  stg_inv s L d0 -> stage_area_reserved s = false -> 0 < start -> start + U32_MOD <= U64_MOD ->
  stg_inv (set_reserved s start commit other) L d0.
Proof.
  intros Hi Hr Hs Hs'. destruct (unres_pend _ _ _ Hi Hr) as [_ En]. destruct Hi as [H1 H2 H3 H4 H5 H6 H7 H8 H9 H10].
  split; cbn [nr_issued pend s_disk desc_blk_skipped seq_idx nr_blocks stage_area_reserved s_start set_reserved]; try done.
  intros b. rewrite H4, En. destruct (Z.leb_spec (s_start s + 1) b), (Z.ltb_spec b (s_start s + 0)), (Z.leb_spec (start + 1) b), (Z.ltb_spec b (start + 0)); cbn; lia || done.
Qed.

(** After the stage area is reserved: data and waiting ranges. *)
Lemma stage_data_ok page d s2 c0 X0 X T h j irds w0 w1 :
  tag_inv s2 c0 X0 X T h d -> Forall srange_ok (concat (dirty_pages <$> irds)) -> waiting_ok w0 -> waiting_ok w1 ->
  let n := 2 + Z.of_nat (length X0) + Z.of_nat (length X) + n_data irds + n_waiting w0 w1 in
  stage_room j n -> 
  let L := c0 :: X0 ++ X ++ (page <$> ird_pages irds) in
  exists s3 s4 s5, stage_fix_blocks s2 j (n_data irds) w0 w1 = Ok (s3, (reserved j n).1) /\
    stage_fill_data nvme_max_blks seq_max stale s3 page irds = Ok s4 /\
    stage_waiting_lists nvme_max_blks seq_max stale s4 page w0 w1 = Ok (s5, wait_skipped w0, wait_skipped w1) /\
    stg_inv s5 (L ++ wait_stream page (Z.of_nat (length L)) (wait_order w0 w1)) d /\ stage_area_reserved s5 = true /\
    desc_blk_copy s5 = desc_blk_copy s2 /\ s_start s5 = (reserved j n).2 /\ s_commit_baddr s5 = (reserved j n).2 + n - 1 /\
    data_blks_cnt s5 = n_data irds + wait_data w0 + wait_data w1 /\ nr_other_blks s5 = 1 + Z.of_nat (length X0) + Z.of_nat (length X) /\
    pend s5 <> [].
Proof.
  intros Hi Hrs H0 H1 n Hroom L. pose proof Hi as [T1 T2 _ _ _ _ _ _ _ _ _ [T3 T4]]. destruct (unres_pend _ _ _ T1 T2) as [Ep En].
  destruct (wait_total w0 H0), (wait_total w1 H1). assert (0 < n) as Hn by (unfold n, n_waiting, n_data; lia).
  destruct (stage_reserve_ok j n Hroom Hn) as (Er & Hs & He & Hs'). assert (n < U32_MOD) as Hn32.
  { pose proof (sr_total _ _ Hroom). pose proof (sr_inv _ _ Hroom) as [? ? ? ? ? ?]. lia. }
  assert (Z.of_nat (length (pend s2)) = 1 + Z.of_nat (length X0) + Z.of_nat (length X)) as Hp by (rewrite Ep; cbn; rewrite length_app; lia).
  unfold n_waiting, n_data in n, Hn32.
  set (s3 := set_reserved s2 (reserved j n).2 ((reserved j n).2 + n - 1) (Z.of_nat (length (pend s2)))).
  assert (stg_inv s3 (c0 :: X0 ++ X) d) as Hi3 by (by apply set_reserved_inv).
  destruct (fill_data_ranges_ok page d (concat (dirty_pages <$> irds)) s3 _ Hi3) as (s4 & E4 & Hi4 & Hd4).
  { done. } { eapply Forall_impl; [exact Hrs|]. intros r (_ & Hr & _). lia. }
  { fold (ird_pages irds). cbn [length]. rewrite length_app. unfold n in Hn32. lia. }
  fold (ird_pages irds) in Hi4, Hd4. replace ((c0 :: X0 ++ X) ++ (page <$> ird_pages irds)) with L in Hi4 by (unfold L; cbn; by rewrite <- app_assoc).
  assert (Z.of_nat (length L) = 1 + Z.of_nat (length X0) + Z.of_nat (length X) + n_data irds) as HL.
  { unfold L, n_data. cbn. rewrite !length_app, length_fmap. lia. }
  destruct Hd4 as (B1 & B2 & B3 & B4 & B5 & B6 & _ & B7).
  destruct (stage_waiting_lists_ok page d s4 L w0 w1 Hi4) as (s5 & pg & E5 & Hi5 & (C1 & C2 & C3 & C4 & C5 & C6 & _ & C7)); [by rewrite B3|done|done| |].
  { unfold n, n_data in *. lia. }
  exists s3, s4, s5. split.
  - unfold stage_fix_blocks. rewrite En. cbn [Z.eqb assert_]. unfold n_data. rewrite (u32_id (_ + w_data_blks w0 + _ + _ + _)), Hp by (unfold n in Hn32; lia).
    replace (1 + Z.of_nat (length X0) + Z.of_nat (length X) + _ + 1) with n by (unfold n; lia). rewrite u32_id, Er by lia. cbn [res_bind]. unfold s3. by rewrite Hp.
  - split; [exact E4|]. split; [exact E5|]. split; [exact Hi5|]. rewrite C1, C2, C3, C4, C5, C6, B1, B2, B3, B4, B5, B6. unfold s3. cbn. rewrite T3, Hp.
    split_and!; try done; [unfold n_data; lia|]. apply C7, B7. unfold s3. cbn. by rewrite Ep.
Qed.

Lemma stage_built_ok d j i mrc gb page bhs irds w0 w1 :
  stage_in_ok i gb bhs irds w0 w1 -> tag_room (n_index bhs) (n_index bhs + n_data irds) -> stage_room j (stage_need bhs irds w0 w1) ->
  exists s0 s c0 desc X T,
    let n := 2 + n_index bhs + Z.of_nat (length X) + n_data irds + n_waiting w0 w1 in
    let L := stage_layout page c0 bhs X irds w0 w1 in
    stage_start_tx nvme_max_blks seq_max stale (si_ino i) d = Ok s0 /\
    build_stage_tx nvme_max_blks seq_max stale s0 j i mrc gb page bhs irds w0 w1 = Ok (s, (reserved j n).1, wait_skipped w0, wait_skipped w1) /\
    stg_inv s L d /\ stage_area_reserved s = true /\ nr_issued s < Z.of_nat (length L) /\ n < U32_MOD /\
    desc_blk_copy s = desc /\ s_start s = (reserved j n).2 /\ s_commit_baddr s = s_start s + n - 1 /\ n <= stage_need bhs irds w0 w1 /\
    data_blks_cnt s = n_data irds + wait_data w0 + wait_data w1 /\ nr_other_blks s = 1 + n_index bhs + Z.of_nat (length X) /\
    Z.of_nat (length L) = 1 + n_index bhs + Z.of_nat (length X) + n_data irds + wait_frames w0 + wait_data w0 + wait_frames w1 + wait_data w1 /\
    tagged desc X T /\ sd_head desc = sd_head (stage_desc i mrc) /\ lbas T = stage_homes gb bhs irds /\ Forall tag_valid T /\
    (length (index_bhs bhs) + n_ranges (concat (dirty_pages <$> irds)) <= length T <= length (index_bhs bhs) + length (ird_pages irds))%nat.
Proof.
  intros Hin Hroom Hst. destruct (stage_meta_ok d i mrc gb bhs irds w0 w1 Hin Hroom) as (s0 & s1 & s2 & c0 & X & T & E0 & E1 & E2 & Hi & HT & Hv & HTn).
  pose proof Hi as [T1 T2 T3 T4 T5 T6 T7 T8 T9 _ _ _]. pose proof Hin as [F1 F2 F3 F4 F5 F6 F7 F8 F9].
  assert (Z.of_nat (length T) <= n_index bhs + n_data irds) as HTl.
  { assert (length T <= length (lbas T))%nat.
    { clear -Hv. induction Hv as [|t T [_ Ht] _ IH]; [done|]. change (lbas (t :: T)) with (tag_blks t ++ lbas T). rewrite length_app. unfold tag_blks at 1.
      rewrite length_seqz. cbn. lia. }
    rewrite HT in *. unfold stage_homes in *. rewrite length_app, !length_fmap in *. unfold n_index, n_data. lia. }
  pose proof (n_setag_mono _ _ HTl) as HX. rewrite <- T9 in HX.
  set (n := 2 + n_index bhs + Z.of_nat (length X) + n_data irds + n_waiting w0 w1).
  destruct (wait_total w0 F8), (wait_total w1 F9).
  assert (0 < n <= stage_need bhs irds w0 w1) as Hn by (unfold n, stage_need, n_waiting, n_index, n_data in *; lia).
  pose proof (stage_room_mono j n _ Hst Hn) as Hroom'.
  destruct (stage_data_ok page d s2 c0 (b_data <$> index_bhs bhs) X T _ j irds w0 w1 Hi F4 F8 F9) as (s3 & s4 & s5 & E3 & E4 & E5 & Hi5 & R1 & R2 & R3 & R4 & R5 & R6 & R7).
  { rewrite length_fmap. exact Hroom'. }
  rewrite length_fmap in *. fold (n_index bhs) in *. fold n in E3, R3, R4.
  set (L := c0 :: _) in Hi5. pose proof (wait_stream_length page (Z.of_nat (length L)) w0 w1 F8 F9) as Hwl.
  assert (Z.of_nat (length L) = 1 + n_index bhs + Z.of_nat (length X) + n_data irds) as HL.
  { unfold L, n_data. cbn. rewrite !length_app, !length_fmap. unfold n_index. lia. }
  assert (n < U32_MOD) as Hn32 by (pose proof (sr_total _ _ Hroom'); pose proof (sr_inv _ _ Hroom') as [? ? ? ? ? ?]; lia).
  exists s0, s5, c0, (desc_blk_copy s2), X, T. cbn zeta. fold n. unfold stage_layout. fold L. split_and!; try done.
  - unfold build_stage_tx, stage_file_data. rewrite E1. cbn [res_bind]. rewrite E2. cbn [res_bind].
    rewrite nr_dirty_eq, Z.add_0_l, E3 by (done || (unfold n, n_waiting, n_index in *; lia)). cbn [res_bind]. rewrite E4. cbn [res_bind]. by rewrite E5.
  - pose proof (sv_len _ _ _ Hi5) as H5. assert (0 < Z.of_nat (length (pend s5))) by (destruct (pend s5); [done|cbn; lia]). lia.
  - by rewrite R4, R3.
  - lia.
  - rewrite length_app, Nat2Z.inj_add, Hwl, HL. lia.
  - unfold n_index, n_data in HTl. lia.
Qed.

Lemma stage_file_ok d j i mrc gb page bhs irds w0 w1 commit_buf :
  stage_in_ok i gb bhs irds w0 w1 -> both_committed w0 w1 = false ->
  tag_room (n_index bhs) (n_index bhs + n_data irds) -> stage_room j (stage_need bhs irds w0 w1) ->
  exists s' desc X T,
    let n := 2 + n_index bhs + Z.of_nat (length X) + n_data irds + n_waiting w0 w1 in
    stage_file nvme_max_blks seq_max stale j d i mrc gb page bhs irds w0 w1 commit_buf = Ok (s', (reserved j n).1) /\
    tagged desc X T /\ sd_head desc = sd_head (stage_desc i mrc) /\ lbas T = stage_homes gb bhs irds /\ Forall tag_valid T /\
    (length (index_bhs bhs) + n_ranges (concat (dirty_pages <$> irds)) <= length T <= length (index_bhs bhs) + length (ird_pages irds))%nat /\
    n <= stage_need bhs irds w0 w1 /\ s_start s' = (reserved j n).2 /\
    written_tx d (s_disk s') (reserved j n).2 (stage_layout page desc bhs X irds w0 w1) ((reserved j n).2 + n - 1)
      (commit_block commit_buf (wait_data w0) (wait_data w1) (wait_frames w0) (wait_frames w1)).
Proof.
  intros Hin Hk Hroom Hst.
  destruct (stage_built_ok d j i mrc gb page bhs irds w0 w1 Hin Hroom Hst)
    as (s0 & s & c0 & desc & X & T & E0 & E1 & Hi & R1 & R2 & R3 & R4 & R5 & R6 & R7 & R8 & R9 & HL & R10 & R11 & R12 & R13 & R14).
  pose proof Hin as [_ _ _ _ _ _ _ F8 F9]. destruct (wait_total w0 F8), (wait_total w1 F9).
  set (n := 2 + n_index bhs + Z.of_nat (length X) + n_data irds + n_waiting w0 w1) in *.
  destruct (stage_write_tx_ok s _ d n w0 w1 commit_buf Hi R1 R2 F8 F9 Hk R3) as (s6 & c & E6 & Hw & -> & Hs6).
  { rewrite R8, R9. unfold n_data, n_index. lia. } { rewrite HL, R8, R9. lia. }
  { rewrite HL. unfold n, n_waiting. lia. } { exact R6. }
  exists s6, desc, X, T. cbn zeta. fold n. split_and!; try done; try lia.
  - unfold stage_file. rewrite E0. cbn [res_bind]. rewrite E1. cbn [res_bind]. by rewrite E6.
  - rewrite R6, R5, R4 in Hw. exact Hw.
Qed.
End proofs.
