(* ===== verification/StageReplay.v ===== *)
(** * Replay of a staged file

    What the device reads back from a stage transaction written by
    [stage_file] (secure_daemon/src/fs/sync.c): its checkpoint restores the
    inode, the index blocks and the data of the file, unless dirty index
    blocks and extent tag blocks meet in one transaction. *)

From S2P Require Import Prelude Bio Sjd JournalLog Commit Coalesce Checkpoint TxBuild EndToEnd StageArea Layout SefsAlloc DirtyPages DirtyRanges IrdFrames StageTx.

Section proofs.
Context (nvme_max_blks seq_max : Z) (stale : Z -> block).
Context (HM : 2 <= nvme_max_blks) (HS : 1 <= seq_max) (Hstale : forall i, block_ok (stale i)).
Local Notation stage_file := (stage_file nvme_max_blks seq_max stale).
Local Notation stage_layout := (stage_layout stale).


(** The home blocks with their new contents, in order. *)
Definition stage_writes (gb : Z -> option buffer_extent) (page : Z -> block) (bhs : list buffer_head) (irds : list inode_range_dirty) : list (Z * block) :=
  zip (stage_homes gb bhs irds) ((b_data <$> index_bhs bhs) ++ (page <$> ird_pages irds)).

Lemma checkpoint_inode_head d b c : sd_head b = sd_head c -> sd_inode_size b <= 272 -> checkpoint_inode d b = checkpoint_inode d c.
Proof.
  unfold sd_head, checkpoint_inode. intros E Hs. injection E as E1 E2 E3 E4. rewrite E2, E3, E4 in *. do 2 f_equal.
  replace (Z.to_nat (sd_inode_size c)) with (Z.to_nat (sd_inode_size c) `min` 272)%nat by lia. by rewrite <- !take_take, E1.
Qed.

Lemma written_tx_at d0 d start L commit c k b :
  written_tx d0 d start L commit c -> start + Z.of_nat (length L) <= commit -> L !! k = Some b -> d (start + Z.of_nat k) = b.
Proof.
  intros Hw Hc Hk. pose proof (lookup_lt_Some _ _ _ Hk). rewrite Hw, (proj2 (Z.eqb_neq _ _)), (proj2 (Z.leb_le _ _)), (proj2 (Z.ltb_lt _ _)) by lia. cbn [andb].
  replace (Z.to_nat _) with k by lia. by apply list_lookup_total_correct.
Qed.

(** A run of blocks of the transaction, read by ring position. *)
Lemma written_tx_run a d0 d start L commit c k n :
  written_tx d0 d start L commit c -> start + Z.of_nat (length L) <= commit -> (k + n <= length L)%nat ->
  stage_first a <= start -> commit - 1 <= stage_last a ->
  (fun i => d (aring a true (start + Z.of_nat k + i))) <$> seqz 0 (Z.of_nat n) = take n (drop k L).
Proof.
  intros Hw Hc Hk H1 H2. apply list_eq. intros i. rewrite list_lookup_fmap. destruct (decide (i < n)%nat) as [Hi|Hi].
  - rewrite lookup_take, decide_True, lookup_drop by lia. rewrite lookup_seqz by lia. cbn.
    destruct (lookup_lt_is_Some_2 L (k + i)) as [b Hb]; [lia|]. rewrite Hb. f_equal.
    rewrite aring_id by (cbn; lia). rewrite <- (written_tx_at _ _ _ _ _ _ _ _ Hw Hc Hb). f_equal. lia.
  - rewrite lookup_ge_None_2 by (rewrite length_seqz; lia). symmetry. apply lookup_ge_None. rewrite length_take. lia.
Qed.

(** What a reader of the device finds: it takes the blocks behind the
    descriptor for the extent tag blocks and the next ones for the contents. *)
Lemma staged_parse a d d' start desc X T page bhs irds w0 w1 commit c :
  let I := b_data <$> index_bhs bhs in let D := page <$> ird_pages irds in
  let L := stage_layout page desc bhs X irds w0 w1 in
  tagged desc X T -> written_tx d d' start L commit c -> start + Z.of_nat (length L) <= commit ->
  stage_first a <= start -> commit - 1 <= stage_last a ->
  parse_stage_tx a d' start =
    mk_stx desc (start + Z.of_nat (length X) + 1) (take 316 T ++ concat (je_tags <$> take (length X) (I ++ X))) /\
  src_blks a true d' (start + Z.of_nat (length X) + 1) (Z.of_nat (length (I ++ D))) = take (length (I ++ D)) (drop (length X) (I ++ X ++ D)).
Proof.
  intros I D L Ht Hw Hc H1 H2.
  assert (exists W, L = desc :: (I ++ X ++ D) ++ W) as [W EL] by (unfold L, stage_layout; eexists; reflexivity).
  assert (length L = S (length I + length X + length D + length W)) as El by (rewrite EL; cbn; rewrite !length_app; lia).
  assert (d' (aring a true start) = desc) as Ed.
  { rewrite aring_id by (cbn; lia). replace start with (start + Z.of_nat 0) by lia. apply (written_tx_at _ _ _ _ _ _ 0 _ Hw Hc). by rewrite EL. }
  pose proof (fun k n Hk => written_tx_run a d d' start L commit c k n Hw Hc Hk H1 H2) as Hrun. split.
  - unfold parse_stage_tx. rewrite Ed, (tt_netag _ _ _ Ht), (tt_sd _ _ _ Ht). do 3 f_equal.
    change (fun i => je_tags (d' (aring a true (start + 1 + i)))) with (je_tags ∘ (fun i => d' (aring a true (start + Z.of_nat 1 + i)))).
    rewrite list_fmap_compose, Hrun by lia. rewrite EL. change (drop 1 (desc :: (I ++ X ++ D) ++ W)) with ((I ++ X ++ D) ++ W).
    rewrite <- !app_assoc, (app_assoc I X), take_app_le by (rewrite length_app; lia). done.
  - unfold src_blks. transitivity (take (length I + length D) (drop (S (length X)) L)).
    + rewrite <- Hrun, length_app by lia. apply list_fmap_ext. intros i x _. do 2 f_equal. lia.
    + rewrite EL, length_app. change (drop (S (length X)) (desc :: ?l)) with (drop (length X) l).
      rewrite drop_app_le, take_app_le by (rewrite ?length_drop, !length_app; lia). done.
Qed.

Lemma stage_desc_inode i mrc : length (si_data i) = 32%nat -> sd_inode_size (stage_desc i mrc) = 72.
Proof.
  intros Hd. unfold stage_desc, sefs_stage_inode, sd_inode_size. set (b1 := wr 8 _ 32 _).
  assert (block_ok b1) as H1 by (unfold b1; repeat (apply wr_ok; [|lia|lia]); exact zero_block_ok).
  set (b2 := splice b1 40 (si_data i)).
  assert (block_ok b2) as H2 by (unfold block_ok, b2 in *; rewrite length_splice; rewrite ?Hd; lia).
  fields. done.
Qed.

(** Without index blocks or without extent tag blocks both sides agree. *)
Lemma staged_replay a d d' start desc X T gb page bhs irds w0 w1 commit c i mrc :
  let L := stage_layout page desc bhs X irds w0 w1 in
  tagged desc X T -> sd_head desc = sd_head (stage_desc i mrc) -> length (si_data i) = 32%nat ->
  lbas T = stage_homes gb bhs irds -> Forall tag_valid T ->
  written_tx d d' start L commit c -> start + Z.of_nat (length L) <= commit ->
  area_ok a -> stage_first a <= start -> commit - 1 <= stage_last a ->
  (index_bhs bhs = [] \/ X = []) ->
  ~ in_area a (sd_inode_baddr (stage_desc i mrc)) -> Forall (fun b => ~ in_area a b) (stage_homes gb bhs irds) ->
  replay_stage_tx a d' (parse_stage_tx a d' start) =
    apply_writes (stage_writes gb page bhs irds) (checkpoint_inode d' (stage_desc i mrc)).
Proof.
  intros L Ht Hh Hd HT Hv Hw Hc Ha H1 H2 Hcase Hino Hout.
  destruct (staged_parse a d d' start desc X T page bhs irds w0 w1 commit c Ht Hw Hc H1 H2) as [-> Hsrc]. cbn zeta in Hsrc.
  set (I := b_data <$> index_bhs bhs) in *. set (D := page <$> ird_pages irds) in *.
  assert (length (stage_homes gb bhs irds) = length (I ++ D)) as El by (unfold stage_homes, I, D; by rewrite !length_app, !length_fmap).
  assert (take 316 T ++ concat (je_tags <$> take (length X) (I ++ X)) = T) as ET.
  { destruct Hcase as [E|E].
    - unfold I. rewrite E. cbn [fmap list_fmap app]. rewrite (take_ge X), (tt_tags _ _ _ Ht) by lia. apply take_drop.
    - pose proof (tt_tags _ _ _ Ht) as E2. subst X. rewrite <- (take_drop 316 T) at 2.
      rewrite <- E2. done. }
  assert (take (length (I ++ D)) (drop (length X) (I ++ X ++ D)) = I ++ D) as ED.
  { destruct Hcase as [E|E].
    - unfold I. rewrite E. cbn [fmap list_fmap app]. by rewrite drop_app_length, take_ge.
    - subst X. by rewrite take_ge. }
  pose proof (stage_desc_inode i mrc Hd) as Hsz. assert (sd_inode_baddr desc = sd_inode_baddr (stage_desc i mrc)) as Hb by exact (f_equal (fun h => h.1.1.2) Hh).
  assert (sd_inode_size desc = sd_inode_size (stage_desc i mrc)) as Hz by exact (f_equal snd Hh).
  unfold replay_stage_tx. cbn [sx_sdb sx_src sx_tags]. rewrite ET, (replay_tags_writes a true d').
  - rewrite HT, El, Hsrc, ED. rewrite (checkpoint_inode_head d' desc (stage_desc i mrc)) by (done || lia). done.
  - done.
  - apply checkpoint_inode_agree; [done|]. by rewrite Hb.
  - eapply Forall_impl; [exact Hv|]. intros t [_ ?]. lia.
  - rewrite HT. apply Forall_forall. exact Hout.
Qed.

(** [stage_file] with what it leaves in the stage area. *)
Lemma staged_ok a d j i mrc gb page bhs irds w0 w1 commit_buf :
  stage_in_ok i gb bhs irds w0 w1 -> both_committed w0 w1 = false ->
  tag_room nvme_max_blks seq_max (n_index bhs) (n_index bhs + n_data irds) ->
  stage_room j (stage_need bhs irds w0 w1) -> stage_first a = stage_end j - stage_total j -> stage_end j - 2 <= stage_last a ->
  exists s' j' n desc X T c,
    stage_file j d i mrc gb page bhs irds w0 w1 commit_buf = Ok (s', j') /\
    stage_inv j' /\ live_blks j' = live_blks j ++ seqz (s_start s') n /\ 0 < n <= stage_need bhs irds w0 w1 /\
    (forall b, b ∉ seqz (s_start s') n -> s_disk s' b = d b) /\
    tagged desc X T /\ sd_head desc = sd_head (stage_desc i mrc) /\ lbas T = stage_homes gb bhs irds /\ Forall tag_valid T /\
    (length (index_bhs bhs) + n_ranges (concat (dirty_pages <$> irds)) <= length T <= length (index_bhs bhs) + length (ird_pages irds))%nat /\
    written_tx d (s_disk s') (s_start s') (stage_layout page desc bhs X irds w0 w1) (s_start s' + n - 1) c /\
    s_start s' + Z.of_nat (length (stage_layout page desc bhs X irds w0 w1)) <= s_start s' + n - 1 /\ s_start s' + n <= stage_end j /\
    stage_first a <= s_start s' /\ s_start s' + n - 1 - 1 <= stage_last a.
Proof.
  intros Hin Hkeep Htag Hroom Hf Hl. pose proof Hin as [_ _ _ _ _ _ _ F8 F9].
  destruct (stage_file_ok nvme_max_blks seq_max stale HM HS Hstale d j i mrc gb page bhs irds w0 w1 commit_buf Hin Hkeep Htag Hroom)
    as (s' & desc & X & T & E & Ht & Hh & HT & Hv & HTl & Hn & Hs & Hw).
  set (n := 2 + n_index bhs + Z.of_nat (length X) + n_data irds + n_waiting w0 w1) in *.
  destruct (wait_total w0 F8) as [? ?], (wait_total w1 F9) as [? ?].
  assert (0 < n) as Hn0 by (unfold n, n_waiting, n_index, n_data; lia).
  pose proof (stage_room_mono j n _ Hroom (conj Hn0 Hn)) as [R1 R2 R3].
  destruct (reserved_ok j n R1 (conj Hn0 R2) R3) as (K1 & K2 & K3 & K4). rewrite <- Hs in *.
  assert (Z.of_nat (length (stage_layout page desc bhs X irds w0 w1)) <= n - 1) as HL.
  { unfold StageTx.stage_layout. rewrite length_app, Nat2Z.inj_add, wait_stream_length by done.
    cbn [length]. rewrite !length_app, !length_fmap. unfold n, n_waiting, n_index, n_data. lia. }
  exists s', (reserved j n).1, n, desc, X, T, (commit_block commit_buf (wait_data w0) (wait_data w1) (wait_frames w0) (wait_frames w1)).
  split_and!; try done; try lia.
  intros b Hb. rewrite Hw. rewrite elem_of_seqz in Hb. repeat case_cmp; cbn [andb]; try done; lia.
Qed.

(** An fsync that finds both background transactions it waits for
    committed in the meantime stops at an assertion.  Only one of the two
    skip flags is looked at when the written blocks are counted, so the
    frames of the other transaction are counted although none was written. *)
Lemma staging_both_committed_aborts d j i mrc gb page bhs irds w0 w1 commit_buf :
  stage_in_ok i gb bhs irds w0 w1 -> both_committed w0 w1 = true ->
  tag_room nvme_max_blks seq_max (n_index bhs) (n_index bhs + n_data irds) -> stage_room j (stage_need bhs irds w0 w1) ->
  stage_file j d i mrc gb page bhs irds w0 w1 commit_buf = Abort.
Proof.
  intros Hin [[K0 K1]%andb_true_iff Hpos%Z.ltb_lt]%andb_true_iff Hroom Hst.
  destruct (stage_built_ok nvme_max_blks seq_max stale HM HS Hstale d j i mrc gb page bhs irds w0 w1 Hin Hroom Hst)
    as (s0 & s & c0 & desc & X & T & E0 & E1 & Hi & R1 & R2 & R3 & R4 & R5 & R6 & R7 & R8 & R9 & HL & _).
  pose proof Hin as [_ _ _ _ _ _ _ F8 F9]. destruct (wait_total w0 F8), (wait_total w1 F9).
  unfold StageTx.stage_file. rewrite E0. cbn [res_bind]. rewrite E1. cbn [res_bind]. unfold stage_write_tx.
  pose proof (sv_resv _ _ _ _ _ Hi) as Hs. rewrite R1 in Hs. rewrite (proj2 (Z.eqb_neq (s_start s) 0)), R1, K0 by lia. cbn [negb assert_].
  destruct (final_write_ok nvme_max_blks seq_max HM s _ d Hi R1 R2) as (G1 & _ & G3 & G4 & G5 & G6 & G7 & _).
  set (s2 := if desc_blk_skipped _ then s_set_disk _ _ else _) in *. cbn zeta. fold s2.
  rewrite G1, G3, G6, G7, HL, R8, R9. rewrite (proj2 (Z.eqb_neq nvme_max_blks 0)) by lia. cbn [negb assert_].
  assert (forall w, wait_skipped w = true -> wait_data w = 0 /\ wait_frames w = 0) as Hdrop.
  { intros w. unfold wait_skipped, wait_data, wait_frames. by destruct (_ =? -1), (_ =? _). }
  destruct (Hdrop w0 K0) as [-> ->], (Hdrop w1 K1) as [-> ->].
  rewrite (u64_id (_ + _ + w_ird_blks w1)) by (unfold n_waiting, n_index, n_data in *; lia).
  destruct (Z.eqb_spec (w_ird_blks w1) 0) as [Ez|Ez]; [|by rewrite (proj2 (Z.eqb_neq _ _)) by lia].
  rewrite Ez, (proj2 (Z.eqb_eq _ _)) by lia. cbn [assert_]. destruct (length (pend s2) =? 0)%nat; [|done]. cbn [assert_].
  pose proof (sv_small _ _ _ _ _ Hi) as Hsm. rewrite G4, G5, R6, (proj2 (Z.eqb_neq (_ - 1) _)); [done|].
  rewrite u64_id; unfold n_waiting, n_index, n_data in *; lia.
Qed.
Section replay.
Context (a : src_area) (d : disk) (j : stage_ctx) (i : staged_inode) (mrc : Z) (gb : Z -> option buffer_extent)
  (page : Z -> block) (bhs : list buffer_head) (irds : list inode_range_dirty) (w0 w1 : waiting) (commit_buf : block).
Context (Hin : stage_in_ok i gb bhs irds w0 w1).
Context (Htag : tag_room nvme_max_blks seq_max (n_index bhs) (n_index bhs + n_data irds)).
Context (Hroom : stage_room j (stage_need bhs irds w0 w1)).
Context (Ha : area_ok a) (Hfirst : stage_first a = stage_end j - stage_total j) (Hlast : stage_end j - 2 <= stage_last a).

(** C21: an fsync of a regular file survives a crash.  Given room in the stage
    area and for the tags in the buffers of one transaction, and fewer than 316
    dirty index blocks, [stage_file] stops at an assertion if both background
    transactions it waits for were committed meanwhile and the second one had
    something to stage.  Otherwise it succeeds,
    leaves every block outside its reservation as it was (so earlier staged
    transactions stay intact) and appends the reservation to the live blocks.
    If the file has no dirty index block, or fewer than 316 blocks to tag, and
    inode and homes are outside the areas,
    replaying the transaction the device parses at its start updates the
    inode and writes every dirty index block and every dirty page to its home
    block, in order, and nothing else. *)
Theorem staged_file_replays :
  if both_committed w0 w1 then stage_file j d i mrc gb page bhs irds w0 w1 commit_buf = Abort
  else exists s' j' n, stage_file j d i mrc gb page bhs irds w0 w1 commit_buf = Ok (s', j') /\
    stage_inv j' /\ live_blks j' = live_blks j ++ seqz (s_start s') n /\
    (forall b, b ∈ live_blks j \/ ~ stage_first a <= b < stage_end j -> s_disk s' b = d b) /\
    (n_index bhs = 0 \/ n_index bhs + n_data irds < 316 ->
     ~ in_area a (sd_inode_baddr (stage_desc i mrc)) -> Forall (fun b => ~ in_area a b) (stage_homes gb bhs irds) ->
     replay_stage_tx a (s_disk s') (parse_stage_tx a (s_disk s') (s_start s')) =
       apply_writes (stage_writes gb page bhs irds) (checkpoint_inode (s_disk s') (stage_desc i mrc))).
Proof.
  destruct (both_committed w0 w1) eqn:Hkeep; [by apply staging_both_committed_aborts|].
  destruct (staged_ok a d j i mrc gb page bhs irds w0 w1 commit_buf Hin Hkeep Htag Hroom Hfirst Hlast)
    as (s' & j' & n & desc & X & T & c & E & Hj & Hl & Hn & Hout & Ht & Hh & HT & Hv & HTl & Hw & HL & Be & B1 & B2).
  exists s', j', n. split_and!; try done.
  - intros b Hb. apply Hout. intros Hin'. destruct Hb as [Hb|Hb].
    + pose proof (live_nodup j' Hj) as Hnd. rewrite Hl in Hnd. apply NoDup_app in Hnd as (_ & Hnd & _). by apply (Hnd b).
    + apply Hb. apply elem_of_seqz in Hin'. lia.
  - intros Hfit Hino Hhome. eapply staged_replay; try done; [by destruct Hin|]. destruct Hfit as [Hz|Hz].
    + left. apply nil_length_inv. unfold n_index in Hz. lia.
    + right. pose proof (tt_len _ _ _ Ht) as Hx. unfold n_index, n_data in Hz. unfold n_setag in Hx.
      rewrite (proj2 (Z.ltb_lt _ _)) in Hx by lia. by destruct X.
Qed.

(** Dirty index blocks and extent tag blocks do not fit in one stage
    transaction.  [stage_file] writes the index blocks behind the descriptor
    and the extent tag blocks behind them, but the device takes the first
    blocks behind the descriptor for the extent tag blocks.  With at least
    one dirty index block and 316 or more ranges and index blocks, the fsync
    reports success and the device reads file contents as tags; the first
    home block is then replayed from the wrong block. *)
Lemma staged_index_blocks_read_as_tags
  (Hkeep : both_committed w0 w1 = false) (Hidx : 0 < n_index bhs) (Hmany : 316 <= n_index bhs + Z.of_nat (n_ranges (concat (dirty_pages <$> irds)))) :
  exists s' j' X T, stage_file j d i mrc gb page bhs irds w0 w1 commit_buf = Ok (s', j') /\ X <> [] /\
    lbas T = stage_homes gb bhs irds /\ concat (je_tags <$> X) = drop 316 T /\
    let x := parse_stage_tx a (s_disk s') (s_start s') in
    sx_tags x = take 316 T ++ concat (je_tags <$> take (length X) ((b_data <$> index_bhs bhs) ++ X)) /\
    s_disk s' (aring a true (sx_src x)) =
      (((b_data <$> index_bhs bhs) ++ X ++ (page <$> ird_pages irds)) !!! length X).
Proof.
  destruct (staged_ok a d j i mrc gb page bhs irds w0 w1 commit_buf Hin Hkeep Htag Hroom Hfirst Hlast)
    as (s' & j' & n & desc & X & T & c & E & Hj & Hl & Hn & Hout & Ht & Hh & HT & Hv & HTl & Hw & HL & Be & B1 & B2).
  exists s', j', X, T. destruct (staged_parse a d _ _ _ _ _ page bhs irds w0 w1 _ c Ht Hw HL B1 B2) as [Ex Hsrc]. cbn zeta in *.
  rewrite Ex. cbn [sx_tags sx_src]. split_and!; try done.
  - pose proof (tt_len _ _ _ Ht) as Hx. intros ->. unfold n_setag, n_index in *. rewrite (proj2 (Z.ltb_ge _ _)) in Hx by lia.
    cbn [length] in Hx. Z.div_mod_to_equations; lia.
  - exact (tt_tags _ _ _ Ht).
  - unfold n_index in Hidx. set (I := b_data <$> index_bhs bhs) in *. set (D := page <$> ird_pages irds) in *.
    assert (0 < length I)%nat by (unfold I; rewrite length_fmap; lia). rewrite src_blks_cons in Hsrc by (rewrite length_app; lia).
    apply (f_equal (lookup 0%nat)) in Hsrc. cbn [lookup list_lookup] in Hsrc. symmetry. apply list_lookup_total_correct.
    rewrite Hsrc, lookup_take, decide_True, lookup_drop by (rewrite length_app; lia). f_equal. lia.
Qed.
End replay.

End proofs.

(** A file of extents of one block at [1000 + p], two index blocks of which
    one is dirty, in a stage area of 60 blocks. *)
Definition demo_gb (p : Z) : option buffer_extent := Some (mk_be p (1000 + p) 1).
Definition demo_inode : staged_inode := mk_si 5 1 2 3 4 5 6 (replicate 32 0).
Definition demo_bhs : list buffer_head := [mk_bh 77 (wr 8 zero_block 0 1) true; mk_bh 78 zero_block false].
Definition demo_irds : list inode_range_dirty := [mk_ird [(0, 3); (10, 9)] 12].
Definition demo_page (p : Z) : block := wr 8 zero_block 0 (500 + p).
Definition demo_area60 : stage_ctx := mk_stage 102 102 0 160 60.
Definition demo_wait (txid cur : Z) : waiting := mk_waiting txid cur [mk_ird [(20, 2)] 2] 2 1.
Definition no_wait : waiting := mk_waiting (-1) (-1) [] 0 0.

Lemma demo_gb_ok rs : Forall (fun r : Z * Z => 0 <= r.1 /\ r.1 + r.2 <= 2 ^ 40) rs -> FileMap demo_gb (fun p => p ∈ range_pages rs).
Proof.
  intros Hrs. assert (forall p, p ∈ range_pages rs -> 0 <= p < 2 ^ 40) as Hd.
  { induction Hrs as [|r rs Hr _ IH]; intros p Hp; [by apply elem_of_nil in Hp|].
    change (range_pages (r :: rs)) with (seqz r.1 r.2 ++ range_pages rs) in Hp.
    apply elem_of_app in Hp as [Hp%elem_of_seqz|Hp]; [lia|by apply IH]. }
  split.
  - intros p Hp%Hd. eexists. split; [reflexivity|]. cbn. lia.
  - intros p q be Hp%Hd Hq%Hd [= <-]. cbn. intros Hr. replace q with p by lia. cbn. lia.
  - intros p Hp%Hd. cbn. lia.
Qed.

Lemma demo_in_ok rs w0 w1 :
  Forall (fun r : Z * Z => 0 <= r.1 /\ 0 <= r.2 < U32_MOD /\ r.1 + r.2 <= 2 ^ 40) rs -> waiting_ok w0 -> waiting_ok w1 ->
  stage_in_ok demo_inode demo_gb demo_bhs [mk_ird rs (Z.of_nat (length (range_pages rs)))] w0 w1.
Proof.
  intros Hrs H0 H1. split; try done.
  - constructor; [|constructor; [|constructor]]; vm_compute; split; congruence.
  - cbn. rewrite app_nil_r. eapply Forall_impl; [exact Hrs|]. intros r (? & ? & ?). unfold srange_ok. split_and!; [lia..|]. change (2 ^ 40) with 1099511627776 in *. lia.
  - constructor; [done|constructor].
  - unfold ird_pages. cbn. rewrite app_nil_r. apply demo_gb_ok. eapply Forall_impl; [exact Hrs|]. intros r (? & _ & ?). by split.
Qed.

Lemma demo_wait_ok txid cur : 0 <= txid -> waiting_ok (demo_wait txid cur).
Proof. intros H. split; cbn; try done; lia. Qed.
Lemma no_wait_ok : waiting_ok no_wait.
Proof. split; cbn; done. Qed.

Definition replay_area : src_area := Coalesce.mk_area 100 158 (mk_log 0 10 29 14 27 13).

Lemma replay_area_ok : area_ok replay_area.
Proof. split; intros []; vm_compute; intuition congruence. Qed.

Ltac out_of_area := let H := fresh in intros [H|H]; vm_compute in H; intuition congruence.

Lemma staged_file_replays_witness :
  exists s' j' n, stage_file 4 3 (fun _ => zero_block) demo_area60 (fun _ => zero_block) demo_inode 9 demo_gb demo_page demo_bhs demo_irds
      (demo_wait 3 3) no_wait zero_block = Ok (s', j') /\
    live_blks j' = live_blks demo_area60 ++ seqz (s_start s') n /\
    replay_stage_tx replay_area (s_disk s') (parse_stage_tx replay_area (s_disk s') (s_start s')) =
      apply_writes (stage_writes demo_gb demo_page demo_bhs demo_irds) (checkpoint_inode (s_disk s') (stage_desc demo_inode 9)).
Proof.
  destruct (staged_file_replays 4 3 (fun _ => zero_block) ltac:(lia) ltac:(lia) (fun _ => zero_block_ok) replay_area (fun _ => zero_block)
    demo_area60 demo_inode 9 demo_gb demo_page demo_bhs demo_irds (demo_wait 3 3) no_wait zero_block) as (s' & j' & n & E & _ & Hl & _ & Hr).
  - apply (demo_in_ok [(0, 3); (10, 9)]); [|by apply demo_wait_ok|apply no_wait_ok].
    constructor; [|constructor; [|constructor]]; vm_compute; intuition congruence.
  - vm_compute. intuition congruence.
  - split; [apply stage_inv_intro; lia|vm_compute; congruence|vm_compute; reflexivity].
  - exact replay_area_ok.
  - reflexivity.
  - vm_compute. congruence.
  - exists s', j', n. split; [exact E|]. split; [exact Hl|]. apply Hr.
    + right. vm_compute. reflexivity.
    + out_of_area.
    + repeat (constructor; [out_of_area|]). constructor.
Defined.

(** 316 ranges of one page. *)
Definition many_ranges : list (Z * Z) := (fun k => (2 * k, 1)) <$> seqz 0 316.
Definition many_irds : list inode_range_dirty := [mk_ird many_ranges (Z.of_nat (length (range_pages many_ranges)))].
Definition demo_area1000 : stage_ctx := mk_stage 5002 5002 0 6000 1000.
Definition replay_area1000 : src_area := Coalesce.mk_area 5000 5998 (mk_log 0 10 29 14 27 13).

