(* ===== verification/Ext4Extent.v ===== *)
(** * The extent tree of lwext4

    [secure_daemon/src/fs/lwext4/ext4_extent.c], the block index of a file of
    the default file system: a B+ tree of extents whose root lies in the inode
    and whose other nodes are blocks.  A child is kept with the index entry
    that names its block; a pointer into a node is a position.  The path of a
    lookup is the list of the positions in the index nodes and the position in
    the leaf.  Functions return the error code, the tree as it is then, and
    the block allocator. *)

From S2P Require Import Prelude TxBuild.

Definition EOK : Z := 0.
Definition EIO : Z := 5.
Definition ENOSPC : Z := 28.

(** ** Extents *)

Record extent := mk_extent { first_block : Z; block_count : Z; start_hi : Z; start_lo : Z }.

Definition EXT_INIT_MAX_LEN : Z := 32768.
Definition EXT_UNWRITTEN_MAX_LEN : Z := 32767.
Definition EXT_MAX_BLOCKS : Z := 4294967295.

Definition get_actual_len (ex : extent) : Z :=
  if block_count ex <=? EXT_INIT_MAX_LEN then block_count ex else block_count ex - EXT_INIT_MAX_LEN.

Definition is_unwritten (ex : extent) : bool := EXT_INIT_MAX_LEN <? block_count ex.

Definition set_count (ex : extent) (n : Z) : extent := mk_extent (first_block ex) (u16 n) (start_hi ex) (start_lo ex).
Definition mark_initialized (ex : extent) : extent := set_count ex (get_actual_len ex).
Definition mark_unwritten (ex : extent) : extent := set_count ex (Z.lor (block_count ex) EXT_INIT_MAX_LEN).

Definition ext_pblock (ex : extent) : Z := Z.lor (start_lo ex) (u64 (Z.shiftl (u64 (Z.shiftl (start_hi ex) 31)) 1)).
Definition store_pblock (ex : extent) (pb : Z) : extent :=
  mk_extent (first_block ex) (block_count ex) (Z.land (u16 (Z.shiftr pb 32)) 65535) (Z.land pb 4294967295).

(** A new extent in a local variable. *)
Definition new_extent (first count pb : Z) : extent := store_pblock (mk_extent (u32 first) (u16 count) 0 0) pb.

Definition can_append (ex1 ex2 : extent) : bool :=
  (u64 (ext_pblock ex1 + get_actual_len ex1) =? ext_pblock ex2) &&
  (get_actual_len ex1 + get_actual_len ex2 <=? (if is_unwritten ex1 then EXT_UNWRITTEN_MAX_LEN else EXT_INIT_MAX_LEN)) &&
  (u32 (first_block ex1 + get_actual_len ex1) =? first_block ex2).

Definition can_prepend (ex1 ex2 : extent) : bool :=
  (u64 (ext_pblock ex2 + get_actual_len ex2) =? ext_pblock ex1) &&
  (get_actual_len ex1 + get_actual_len ex2 <=? (if is_unwritten ex1 then EXT_UNWRITTEN_MAX_LEN else EXT_INIT_MAX_LEN)) &&
  (u32 (first_block ex2 + get_actual_len ex2) =? first_block ex1).

(** The merged length, with the unwritten mark of the first extent. *)
Definition grow_count (ex1 ex2 : extent) : extent :=
  let ex := set_count ex1 (get_actual_len ex1 + get_actual_len ex2) in
  if is_unwritten ex1 then mark_unwritten ex else ex.

(** ** Nodes *)

(** An index entry is its first block, the block of the child and the child. *)
Inductive enode : Type :=
| Leaf (max_entries_count : Z) (exts : list extent)
| Node (depth max_entries_count : Z) (ixs : list (Z * Z * enode)).

Notation ix := (Z * Z * enode)%type (only parsing).
Definition ix_first (i : ix) : Z := i.1.1.
Definition ix_leaf (i : ix) : Z := i.1.2.
Definition ix_child (i : ix) : enode := i.2.

Definition eh_depth (t : enode) : Z := match t with Leaf _ _ => 0 | Node d _ _ => d end.
Definition eh_max (t : enode) : Z := match t with Leaf m _ => m | Node _ m _ => m end.
Definition eh_entries (t : enode) : Z :=
  match t with Leaf _ l => Z.of_nat (length l) | Node _ _ l => Z.of_nat (length l) end.

Definition EXT_HAS_FREE_INDEX (t : enode) : bool := eh_entries t <? eh_max t.

Record epath := mk_path { p_idx : list nat; p_ext : option nat }.

(** ** Capacities *)

Section sizes.
Context (block_size : Z).

Definition ext_space_block : Z := u16 ((block_size - 12) / 12).
Definition ext_space_block_idx : Z := u16 ((block_size - 12) / 12).
Definition ext_space_root : Z := (60 - 12) / 12.
Definition ext_space_root_idx : Z := (60 - 12) / 12.

(** [ext4_extent_tree_init] *)
Definition extent_tree_init : enode := Leaf ((15 * 4 - 12) / 12) [].

(** ** Lookup *)

(** [while (l <= r)] of both searches.  Fuel: the entries between [l] and [r]. *)
Fixpoint bsearch (fuel : nat) (key : Z -> Z) (block l r : Z) : Z :=
  match fuel with
  | O => l - 1
  | S fuel =>
      if l <=? r then
        let m := l + (r - l) / 2 in
        if block <? key m then bsearch fuel key block l (m - 1) else bsearch fuel key block (m + 1) r
      else l - 1
  end.

Definition binsearch_idx (l : list ix) (block : Z) : nat :=
  Z.to_nat (bsearch (length l) (fun m => default 0 (ix_first <$> l !! Z.to_nat m)) block 1 (Z.of_nat (length l) - 1)).

Definition binsearch (l : list extent) (block : Z) : option nat :=
  match l with
  | [] => None
  | _ => Some (Z.to_nat (bsearch (length l) (fun m => default 0 (first_block <$> l !! Z.to_nat m)) block 1 (Z.of_nat (length l) - 1)))
  end.

(** The checks of a block read from disk; the magic number is part of the
    representation. *)
Definition ext_check (t : enode) (depth : Z) : bool :=
  (eh_depth t =? depth) && negb (eh_max t =? 0) && (eh_entries t <=? eh_max t).

(** [i] levels above the leaves.  A leaf where the header announces index
    entries, an index node at the bottom, or an index node without entries is
    reported as [EIO]: C would read entries that are not there. *)
Fixpoint find_extent (i : nat) (t : enode) (block : Z) : Z + epath :=
  match i, t with
  | O, Leaf _ l => inr (mk_path [] (binsearch l block))
  | S i, Node _ _ l =>
      let k := binsearch_idx l block in
      match l !! k with
      | Some (_, _, c) =>
          if ext_check c (Z.of_nat i) then
            match find_extent i c block with
            | inl e => inl e
            | inr p => inr (mk_path (k :: p_idx p) (p_ext p))
            end
          else inl EIO
      | None => inl EIO
      end
  | _, _ => inl EIO
  end.

(** ** Access by path *)

Fixpoint leaf_at (t : enode) (ps : list nat) : option (Z * list extent) :=
  match t, ps with
  | Leaf m l, [] => Some (m, l)
  | Node _ _ l, k :: ps => match l !! k with Some (_, _, c) => leaf_at c ps | None => None end
  | _, _ => None
  end.

Fixpoint set_leaf (t : enode) (ps : list nat) (exts : list extent) : enode :=
  match t, ps with
  | Leaf m _, [] => Leaf m exts
  | Node d m l, k :: ps => Node d m (alter (fun i => (i.1, set_leaf i.2 ps exts)) k l)
  | _, _ => t
  end.

(** The nodes of the path, the leaf first. *)
Fixpoint spine (t : enode) (ps : list nat) : list enode :=
  match t, ps with
  | Node _ _ l, k :: ps => match l !! k with Some (_, _, c) => spine c ps ++ [t] | None => [t] end
  | _, _ => [t]
  end.

(** Correct the first blocks above a changed first extent: the lowest index
    entry, and the ones above it while the entry below is the first of its
    node. *)
Fixpoint correct_indexes (t : enode) (ps : list nat) (border : Z) : enode :=
  match t, ps with
  | Node d m l, k :: ps =>
      Node d m (alter (fun i => (if forallb (fun k => Nat.eqb k 0) ps then border else i.1.1, i.1.2, correct_indexes i.2 ps border)) k l)
  | _, _ => t
  end.

(** ** Insertion into a leaf *)

(** [LeafOk l cur ex fix]: the leaf is [l], [path->extent] was at [cur] when
    the indexes were corrected (if [fix]) and is at [ex] at the end. *)
Inductive leaf_result :=
| LeafErr (e : Z)
| LeafSplit
| LeafOk (l : list extent) (cur ex : nat) (fix_idx : bool).

Definition insert_at {A} (n : nat) (x : A) (l : list A) : list A := take n l ++ x :: drop n l.

Definition put_extent (max : Z) (l : list extent) (cur : option nat) (newext : extent) : leaf_result :=
  if Z.of_nat (length l) =? max then LeafSplit
  else
    let ex :=
      match cur with
      | None => 0%nat
      | Some k => if default 0 (first_block <$> l !! k) <? first_block newext then S k else k
      end in
    if Z.of_nat ex >? max - 1 then LeafErr EIO
    else
      let e := store_pblock (mk_extent (first_block newext) (block_count newext) 0 0) (ext_pblock newext) in
      LeafOk (insert_at ex e l) (default ex cur) ex true.

Definition insert_leaf (max : Z) (l : list extent) (cur : option nat) (newext : extent) (no_combine : bool) : leaf_result :=
  match cur with
  | Some k =>
      match l !! k with
      | Some c =>
          if first_block newext =? first_block c then LeafErr EIO
          else if negb no_combine && can_append c newext then LeafOk (<[k := grow_count c newext]> l) k k false
          else if negb no_combine && can_prepend c newext then
            let c' := mk_extent (first_block newext) (block_count c) (start_hi c) (start_lo c) in
            LeafOk (<[k := grow_count c' newext]> l) k k false
          else put_extent max l cur newext
      | None => LeafErr EIO
      end
  | None => put_extent max l cur newext
  end.
End sizes.

(** ** The block allocator *)

(** What [ext4_balloc.c] offers: [balloc_alloc a goal n] is an error code or
    the first of [n] blocks, or it does not return.  [balloc_goal] are the goals
    that lie on the disk. *)
Class Balloc (A : Type) := {
  balloc_goal : Z -> Prop;
  balloc_alloc : A -> Z -> Z -> res (A * (Z + Z));
  balloc_free : A -> Z -> Z -> res A
}.

Section tree.
Context {A : Type} `{!Balloc A}.
(** Block size and [ext4_fs_inode_to_goal_block] of the inode. *)
Context (block_size inode_goal : Z).

(** Goal near the extent of the path, [lb_id] being the block of the leaf (0
    in the inode). *)
Definition ext_find_goal (ex : option extent) (lb_id : Z) (block : Z) : Z :=
  match ex with
  | Some ex =>
      if first_block ex <? block then u64 (ext_pblock ex + (block - first_block ex))
      else u64 (ext_pblock ex - (first_block ex - block))
  | None => if negb (lb_id =? 0) then lb_id else inode_goal
  end.

(** ** Splitting *)

(** Position of the new entry and the new entries of an index node. *)
Definition insert_index (max : Z) (l : list ix) (k : nat) (key blk : Z) (child : enode) : option (list ix) :=
  match l !! k with
  | Some i =>
      if key =? ix_first i then None
      else if Z.of_nat (length l) =? max then None
      else
        let pos := if ix_first i <? key then S k else k in
        if Z.of_nat pos >? max - 1 then None else Some (insert_at pos (key, blk, child) l)
  | None => None
  end.

(** Free the blocks of [npath], the leaf first. *)
Fixpoint free_new (a : A) (blks : list Z) : res A :=
  match blks with
  | [] => Ok a
  | b :: blks => let* a := balloc_free a b 1 in free_new a blks
  end.

(** What is left of a node, and its new right neighbour with its block. *)
Record split_result := mk_split { sp_err : Z; sp_left : enode; sp_right : option (Z * enode); sp_new : list Z }.

(** Split the nodes of the path [ps], [pe] below [t], from the leaf up: the
    entries behind the path go to new nodes, of which the first entry of an
    index node is the new node below.  Only full nodes are split (the copied
    entries reach up to [EXT_MAX_EXTENT]). *)
Fixpoint split_sub (t : enode) (ps : list nat) (pe : nat) (key goal : Z) (a : A) : res (A * split_result) :=
  match t, ps with
  | Leaf m l, [] =>
      let* r := balloc_alloc a goal 1 in
      match r with
      | (a, inl e) => Ok (a, mk_split e t None [])
      | (a, inr b) =>
          if negb (Z.of_nat (length l) =? m) then Abort
          else Ok (a, mk_split EOK (Leaf m (take (S pe) l)) (Some (b, Leaf (ext_space_block block_size) (drop (S pe) l))) [b])
      end
  | Node d m l, k :: ps =>
      match l !! k with
      | None => Abort
      | Some (f, b0, c) =>
          let* (a, r) := split_sub c ps pe key goal a in
          let l' := <[k := (f, b0, sp_left r)]> l in
          match sp_right r with
          | None => Ok (a, mk_split (sp_err r) (Node d m l') None (sp_new r))
          | Some (rb, rc) =>
              let* q := balloc_alloc a goal 1 in
              match q with
              | (a, inl e) => Ok (a, mk_split e (Node d m l') None (sp_new r))
              | (a, inr b) =>
                  if negb (Z.of_nat (length l) =? m) then Abort
                  else
                    Ok (a, mk_split EOK (Node d m (take (S k) l'))
                             (Some (b, Node d (ext_space_block_idx block_size) ((key, rb, rc) :: drop (S k) l')))
                             (sp_new r ++ [b]))
              end
          end
      end
  | _, _ => Abort
  end.

(** [ext4_ext_split_node] for the nodes below the [i]-th of the path, which
    gets the new index entry. *)
Fixpoint split_node (i : nat) (t : enode) (ps : list nat) (pe : nat) (key goal : Z) (a : A) : res (Z * enode * A) :=
  match t, ps with
  | Node d m l, k :: ps =>
      match l !! k with
      | None => Abort
      | Some (f, b0, c) =>
          match i with
          | S i =>
              let* (e, c, a) := split_node i c ps pe key goal a in
              Ok (e, Node d m (<[k := (f, b0, c)]> l), a)
          | O =>
              let* (a, r) := split_sub c ps pe key goal a in
              let l := <[k := (f, b0, sp_left r)]> l in
              match sp_right r with
              | None => let* a := free_new a (sp_new r) in Ok (sp_err r, Node d m l, a)
              | Some (rb, rc) =>
                  match insert_index m l k key rb rc with
                  | None => let* a := free_new a (sp_new r) in Ok (EIO, Node d m l, a)
                  | Some l => Ok (EOK, Node d m l, a)
                  end
              end
          end
      end
  | _, _ => Abort
  end.

(** The first block of the new nodes, and whether the new extent goes there. *)
Definition split_key (max : Z) (l : list extent) (pe : nat) (newext : extent) : Z :=
  if Z.of_nat pe =? max - 1 then first_block newext else default 0 (first_block <$> l !! S pe).

(** The path to the first entry of the new nodes below node [i]. *)
Definition right_path (i : nat) (p : epath) (max : Z) (pe : nat) : epath :=
  mk_path (take i (p_idx p) ++ S (default 0%nat (p_idx p !! i)) :: replicate (length (p_idx p) - i - 1) 0%nat)
    (if Z.of_nat pe =? max - 1 then None else Some 0%nat).

(** Split below node [i] and go on with the path to the new extent. *)
Definition split_at (i : nat) (t : enode) (p : epath) (newext : extent) (a : A) : res (Z * enode * epath * A) :=
  match leaf_at t (p_idx p), p_ext p with
  | Some (m, l), Some pe =>
      let key := split_key m l pe newext in
      let goal := ext_find_goal (l !! pe) 0 (first_block newext) in
      let* (e, t, a) := split_node i t (p_idx p) pe key goal a in
      let p := if (e =? EOK) && negb (first_block newext <? key) then right_path i p m pe else p in
      Ok (e, t, p, a)
  | _, _ => Abort
  end.

(** ** Growing *)

Definition grow_root (t : enode) (newblock : Z) : enode :=
  match t with
  | Leaf m l =>
      Node 1 ext_space_root_idx [(default 0 (first_block <$> l !! 0%nat), newblock, Leaf (ext_space_block block_size) l)]
  | Node d m l =>
      Node (u16 (d + 1)) m [(default 0 (ix_first <$> l !! 0%nat), newblock, Node d (ext_space_block_idx block_size) l)]
  end.

Definition grow_goal (t : enode) : Z :=
  match t with Leaf _ _ => inode_goal | Node _ _ l => default 0 (ix_leaf <$> l !! 0%nat) end.

(** Distance from the leaf of the lowest node with a free entry. *)
Fixpoint free_level (sp : list enode) : option nat :=
  match sp with
  | [] => None
  | t :: sp => if EXT_HAS_FREE_INDEX t then Some 0%nat else S <$> free_level sp
  end.

(** ** Insertion *)

(** [ext4_ext_insert_extent].  Fuel: the passes through [again]. *)
Fixpoint insert_extent (fuel : nat) (t : enode) (p : epath) (newext : extent) (no_combine : bool) (a : A) :
    res (Z * enode * epath * A) :=
  match fuel with
  | O => Blocked
  | S fuel =>
      match leaf_at t (p_idx p) with
      | None => Abort
      | Some (m, l) =>
          match insert_leaf m l (p_ext p) newext no_combine with
          | LeafErr e => Ok (e, t, p, a)
          | LeafOk l' cur ex fix_idx =>
              let t := set_leaf t (p_idx p) l' in
              let t := if fix_idx && Nat.eqb cur 0 then correct_indexes t (p_idx p) (default 0 (first_block <$> l' !! cur)) else t in
              Ok (EOK, t, mk_path (p_idx p) (Some ex), a)
          | LeafSplit =>
              let depth := length (p_idx p) in
              match free_level (spine t (p_idx p)) with
              | None =>
                  let* r := balloc_alloc a (grow_goal t) 1 in
                  match r with
                  | (a, inl e) => Ok (e, t, p, a)
                  | (a, inr b) =>
                      let t := grow_root t b in
                      match find_extent (S depth) t (first_block newext) with
                      | inl e => Ok (e, t, p, a)
                      | inr p =>
                          match depth with
                          | O => insert_extent fuel t p newext no_combine a
                          | _ =>
                              let* (e, t, p, a) := split_at 1 t p newext a in
                              if e =? EOK then insert_extent fuel t p newext no_combine a else Ok (e, t, p, a)
                          end
                      end
                  end
              | Some O => insert_extent fuel t p newext no_combine a
              | Some level =>
                  let* (e, t, p, a) := split_at (depth - level) t p newext a in
                  if e =? EOK then insert_extent fuel t p newext no_combine a else Ok (e, t, p, a)
              end
          end
      end
  end.

(** ** Mapping blocks *)

(** First block of the next extent behind the path. *)
Fixpoint next_allocated (t : enode) (ps : list nat) (pe : option nat) : option Z :=
  match t, ps with
  | Leaf _ l, [] => match pe with Some k => first_block <$> l !! S k | None => None end
  | Node _ _ l, k :: ps =>
      match l !! k with
      | Some (_, _, c) =>
          match next_allocated c ps pe with
          | Some x => Some x
          | None => ix_first <$> l !! S k
          end
      | None => None
      end
  | _, _ => None
  end.

Definition ext_next_allocated_block (t : enode) (p : epath) : Z := default EXT_MAX_BLOCKS (next_allocated t (p_idx p) (p_ext p)).

(** The block of the leaf, 0 in the inode. *)
Fixpoint leaf_block (t : enode) (ps : list nat) (lb_id : Z) : Z :=
  match t, ps with
  | Node _ _ l, k :: ps => match l !! k with Some (_, b, c) => leaf_block c ps b | None => lb_id end
  | _, _ => lb_id
  end.

Definition IN_RANGE (b first len : Z) : bool := (first <=? b) && (b <=? u32 (first + len - 1)).

Record blocks_result := mk_blocks { g_err : Z; g_result : Z; g_count : Z; g_be : buffer_extent; g_tree : enode; g_bal : A }.

Definition ext_be (ex : extent) : buffer_extent := mk_be (first_block ex) (ext_pblock ex) (get_actual_len ex).

(** [ext4_new_meta_blocks]: the blocks allocated and their number. *)
Definition new_meta_blocks (a : A) (goal n_blks : Z) : res (A * (Z + Z) * Z) :=
  let n := if 1 <? n_blks then n_blks else 1 in
  let* r := balloc_alloc a goal n in Ok (r, n).

(** Map new blocks behind the path. *)
Definition map_new_blocks (fuel : nat) (t : enode) (p : epath) (ex : option extent) (iblock max_blocks : Z) (a : A) : res blocks_result :=
  let no_be := mk_be 0 0 0 in
  let allocated := u32 (ext_next_allocated_block t p - iblock) in
  let allocated := if max_blocks <? allocated then max_blocks else allocated in
  let goal := ext_find_goal ex (leaf_block t (p_idx p) 0) iblock in
  let* r := new_meta_blocks a goal allocated in
  match r with
  | (a, inl e, _) => Ok (mk_blocks e 0 0 no_be t a)
  | (a, inr newblock, allocated) =>
      if newblock =? 0 then Ok (mk_blocks EOK 0 0 no_be t a) else
      let newex := new_extent iblock allocated newblock in
      let* (e, t, p, a) := insert_extent fuel t p newex false a in
      if e =? EOK then
        Ok (mk_blocks EOK (ext_pblock newex) (if max_blocks <? allocated then max_blocks else allocated) (ext_be newex) t a)
      else let* a := balloc_free a (ext_pblock newex) (block_count newex) in Ok (mk_blocks e 0 0 no_be t a)
  end.

(** [ext4_extent_get_blocks].  The conversion of an unwritten extent is not
    modelled; no extent of the files considered is unwritten. *)
Definition get_blocks (fuel : nat) (t : enode) (iblock max_blocks : Z) (create : bool) (a : A) : res blocks_result :=
  let no_be := mk_be 0 0 0 in
  match find_extent (Z.to_nat (eh_depth t)) t iblock with
  | inl e => Ok (mk_blocks e 0 0 no_be t a)
  | inr p =>
      match leaf_at t (p_idx p) with
      | None => Abort
      | Some (_, l) =>
          let ex := match p_ext p with Some k => l !! k | None => None end in
          match ex with
          | Some e =>
              if IN_RANGE iblock (first_block e) (get_actual_len e) then
                let allocated := get_actual_len e - (iblock - first_block e) in
                let count := if max_blocks <? allocated then max_blocks else allocated in
                if negb (is_unwritten e) then Ok (mk_blocks EOK (u64 (iblock - first_block e + ext_pblock e)) count (ext_be e) t a)
                else if negb create then Ok (mk_blocks EOK 0 count (ext_be e) t a)
                else Abort
              else if create then map_new_blocks fuel t p ex iblock max_blocks a
              else Ok (mk_blocks EOK 0 0 no_be t a)
          | None =>
              if create then map_new_blocks fuel t p ex iblock max_blocks a
              else Ok (mk_blocks EOK 0 0 no_be t a)
          end
      end
  end.
End tree.
