(* ===== verification/Ext4Tree.v ===== *)
(** * The extent tree as a sorted list

    Invariant and specification of the tree of [Ext4Extent]: read from left to
    right it is a list of extents, in order and disjoint; the first block of
    an index entry is that of the first extent below it.  Lookup finds the
    last extent that starts at or before a block, insertion adds an extent to
    the list, splitting and growing leave the list as it is. *)

From S2P Require Import Prelude TxBuild Ext4Extent.

(** ** Extents in order *)

Record ext_ok (e : extent) : Prop := {
  eo_first : 0 <= first_block e;
  eo_count : 0 < block_count e <= EXT_INIT_MAX_LEN;
  eo_end : first_block e + block_count e <= EXT_MAX_BLOCKS;
  eo_hi : 0 <= start_hi e < 65536;
  eo_lo : 0 <= start_lo e < U32_MOD
}.

Lemma ext_ok_len e : ext_ok e -> get_actual_len e = block_count e /\ is_unwritten e = false.
Proof.
  intros [_ H _ _ _]. unfold get_actual_len, is_unwritten. rewrite (proj2 (Z.leb_le _ _)), (proj2 (Z.ltb_ge _ _)) by lia. done.
Qed.

(** In order from block [lo] on. *)
Fixpoint ordered (lo : Z) (es : list extent) : Prop :=
  match es with
  | [] => True
  | e :: es => lo <= first_block e /\ ext_ok e /\ ordered (first_block e + block_count e) es
  end.

Definition head_key (es : list extent) : option Z := first_block <$> head es.

Lemma ordered_mono lo lo' es : ordered lo es -> lo' <= lo -> ordered lo' es.
Proof. destruct es; [done|]. intros (? & ? & ?) ?. split_and!; [lia|done..]. Qed.

Lemma ordered_app lo es1 es2 :
  ordered lo (es1 ++ es2) <->
  ordered lo es1 /\ ordered lo es2 /\ forall e f, e ∈ es1 -> f ∈ es2 -> first_block e + block_count e <= first_block f.
Proof.
  revert lo. induction es1 as [|e es1 IH]; intros lo; cbn [app ordered].
  { split; [|by intros (_ & ? & _)]. intros H. split_and!; [done..|]. intros e f He. by apply elem_of_nil in He. }
  rewrite IH. split.
  - intros (H1 & H2 & H3 & H4 & H5). pose proof (eo_count e H2).
    assert (forall f, f ∈ es2 -> first_block e + block_count e <= first_block f) as Hf.
    { clear -H4. revert H4. generalize (first_block e + block_count e). induction es2 as [|g es2 IH]; intros lo H4 f Hf; [by apply elem_of_nil in Hf|].
      destruct H4 as (G1 & G2 & G3). pose proof (eo_count g G2). apply elem_of_cons in Hf as [->|Hf]; [done|].
      specialize (IH _ G3 f Hf). lia. }
    split_and!; [done..| |].
    + apply (ordered_mono _ lo _ H4). lia.
    + intros e' f [->|He]%elem_of_cons Hf'; [by apply Hf|by apply H5].
  - intros ((H1 & H2 & H3) & H4 & H5). split_and!; [done..| |].
    + destruct es2 as [|f es2]; [done|]. destruct H4 as (G1 & G2 & G3). split_and!; [|done..].
      apply H5; apply elem_of_cons; by left.
    + intros e' f He Hf. apply H5; [|done]. apply elem_of_cons. by right.
Qed.

Lemma ordered_elem lo es e : ordered lo es -> e ∈ es -> lo <= first_block e /\ ext_ok e.
Proof.
  revert lo. induction es as [|f es IH]; intros lo Ho He; [by apply elem_of_nil in He|].
  destruct Ho as (H1 & H2 & H3). apply elem_of_cons in He as [->|He]; [done|].
  destruct (IH _ H3 He) as [G1 G2]. pose proof (eo_count f H2). split; [lia|done].
Qed.

Lemma ordered_lookup lo es i j a b :
  ordered lo es -> es !! i = Some a -> es !! j = Some b -> (i < j)%nat -> first_block a + block_count a <= first_block b.
Proof.
  intros Ho Ha Hb Hij. rewrite <- (take_drop j es) in Ho. apply ordered_app in Ho as (_ & _ & H). apply H.
  - apply list_elem_of_lookup. exists i. rewrite lookup_take, decide_True by lia. done.
  - apply list_elem_of_lookup. exists 0%nat. by rewrite lookup_drop, Nat.add_0_r.
Qed.

(** ** Binary search *)

Lemma bsearch_ok fuel key block n : forall l r,
  1 <= l <= r + 1 -> r <= n - 1 -> r - l < Z.of_nat fuel ->
  l = 1 \/ key (l - 1) <= block -> r = n - 1 \/ block < key (r + 1) ->
  let p := bsearch fuel key block l r in
  0 <= p <= n - 1 /\ (p = 0 \/ key p <= block) /\ (p = n - 1 \/ block < key (p + 1)).
Proof.
  induction fuel as [|fuel IH]; intros l r Hl Hr Hf H1 H2; cbn [bsearch].
  - assert (r = l - 1) as -> by lia. split; [lia|]. split; [|done]. destruct H1 as [H1|H1]; [left; lia|by right].
  - destruct (Z.leb_spec l r).
    + assert (l <= l + (r - l) / 2 <= r) as Hm by (Z.div_mod_to_equations; lia). set (m := l + (r - l) / 2) in *.
      case_cmp.
      * apply IH; [lia|lia|lia|done|]. right. by replace (m - 1 + 1) with m by lia.
      * apply IH; [lia|lia|lia| |done]. right. by replace (m + 1 - 1) with m by lia.
    + assert (r = l - 1) as -> by lia. split; [lia|]. split; [|done]. destruct H1 as [H1|H1]; [left; lia|by right].
Qed.

(** The position found in a list with at least one entry. *)
Lemma search_pos {X} (key : X -> Z) (l : list X) block :
  l <> [] ->
  let k := Z.to_nat (bsearch (length l) (fun m => default 0 (key <$> l !! Z.to_nat m)) block 1 (Z.of_nat (length l) - 1)) in
  exists x, l !! k = Some x /\ (k = 0%nat \/ key x <= block) /\ (forall y, l !! S k = Some y -> block < key y).
Proof.
  intros Hl. set (f := fun m => _). assert (0 < length l)%nat by (destruct l; [done|cbn; lia]).
  pose proof (bsearch_ok (length l) f block (Z.of_nat (length l)) 1 (Z.of_nat (length l) - 1)) as Hb.
  cbn zeta in Hb. destruct Hb as (H1 & H2 & H3); [lia|lia|lia|by left|by left|].
  set (p := bsearch _ _ _ _ _) in *. cbn zeta. destruct (lookup_lt_is_Some_2 l (Z.to_nat p)) as [x Hx]; [lia|].
  exists x. split; [done|]. split.
  - destruct H2 as [->|H2]; [by left|]. right. unfold f in H2. by rewrite Hx in H2.
  - intros y Hy. destruct H3 as [H3|H3].
    + apply lookup_lt_Some in Hy. lia.
    + unfold f in H3. replace (Z.to_nat (p + 1)) with (S (Z.to_nat p)) in H3 by lia. by rewrite Hy in H3.
Qed.

(** ** The extents of a tree *)

Fixpoint flat (d : nat) (t : enode) : list extent :=
  match d, t with
  | O, Leaf _ l => l
  | S d, Node _ _ l => concat ((fun i => flat d i.2) <$> l)
  | _, _ => []
  end.

Definition flats (d : nat) (l : list ix) : list extent := concat ((fun i => flat d i.2) <$> l).

Lemma flats_app d l1 l2 : flats d (l1 ++ l2) = flats d l1 ++ flats d l2.
Proof. unfold flats. by rewrite fmap_app, concat_app. Qed.

Lemma flats_cons d i l : flats d (i :: l) = flat d i.2 ++ flats d l.
Proof. done. Qed.

Lemma flats_split d l k i : l !! k = Some i -> flats d l = flats d (take k l) ++ flat d i.2 ++ flats d (drop (S k) l).
Proof. intros H. rewrite <- (take_drop_middle l k i H) at 1. by rewrite flats_app, flats_cons. Qed.

(** The blocks of the nodes below the root. *)
Fixpoint blocks (d : nat) (t : enode) : list Z :=
  match d, t with
  | S d, Node _ _ l => concat ((fun i => i.1.2 :: blocks d i.2) <$> l)
  | _, _ => []
  end.

Definition all_first (ps : list nat) : bool := forallb (fun k => Nat.eqb k 0) ps.

Section shape.
(** Capacity of a node in a block. *)
Context (BC : Z).

(** [cap] is the capacity of the node itself: the root is smaller. *)
Fixpoint shape (cap : Z) (d : nat) (t : enode) : Prop :=
  match d, t with
  | O, Leaf m l => m = cap /\ Z.of_nat (length l) <= m
  | S d, Node dep m l =>
      dep = Z.of_nat (S d) /\ m = cap /\ l <> [] /\ Z.of_nat (length l) <= m /\
      Forall (fun i => shape BC d i.2 /\ head_key (flat d i.2) = Some i.1.1) l
  | _, _ => False
  end.

(** Well formed but for the leaf at [ps], which may have no entry, and the
    index entries that follow its first extent. *)
Fixpoint pshape (cap : Z) (d : nat) (t : enode) (ps : list nat) : Prop :=
  match d, t, ps with
  | O, Leaf m l, [] => m = cap /\ Z.of_nat (length l) <= m
  | S d, Node dep m l, k :: ps =>
      dep = Z.of_nat (S d) /\ m = cap /\ Z.of_nat (length l) <= m /\
      (exists f b c, l !! k = Some (f, b, c) /\ pshape BC d c ps /\ (all_first ps = false -> head_key (flat d c) = Some f)) /\
      forall j i, l !! j = Some i -> j <> k -> shape BC d i.2 /\ head_key (flat d i.2) = Some i.1.1
  | _, _, _ => False
  end.

(** The leaf at [ps] between the extents before and after it. *)
Fixpoint focus (d : nat) (t : enode) (ps : list nat) : option (list extent * Z * list extent * list extent) :=
  match d, t, ps with
  | O, Leaf m l, [] => Some ([], m, l, [])
  | S d, Node _ _ l, k :: ps =>
      match l !! k with
      | Some (_, _, c) =>
          match focus d c ps with
          | Some (P, m, es, S') => Some (flats d (take k l) ++ P, m, es, S' ++ flats d (drop (S k) l))
          | None => None
          end
      | None => None
      end
  | _, _, _ => None
  end.

Lemma head_key_app es1 es2 : es1 <> [] -> head_key (es1 ++ es2) = head_key es1.
Proof. by destruct es1. Qed.

Lemma head_key_Some es k : head_key es = Some k -> es <> [].
Proof. by destruct es. Qed.

Lemma focus_Node d dep m l k f b c ps :
  l !! k = Some (f, b, c) ->
  focus (S d) (Node dep m l) (k :: ps) =
    match focus d c ps with
    | Some (P, m, es, S') => Some (flats d (take k l) ++ P, m, es, S' ++ flats d (drop (S k) l))
    | None => None
    end.
Proof. intros H. cbn [focus]. by rewrite H. Qed.

Lemma focus_flat d : forall t ps P m es Q, focus d t ps = Some (P, m, es, Q) -> flat d t = P ++ es ++ Q.
Proof.
  induction d as [|d IH]; intros t ps P m es Q H.
  - destruct t, ps; try done. injection H as <- <- <- <-. by rewrite app_nil_r.
  - destruct t as [|dep m' l], ps as [|k ps]; try done. cbn [focus] in H. destruct (l !! k) as [[[f b] c]|] eqn:El; [|done].
    destruct (focus d c ps) as [[[[P0 m0] es0] S0]|] eqn:Ef; [|done]. injection H as <- <- <- <-.
    change (flat (S d) (Node dep m' l)) with (flats d l). rewrite (flats_split d l k _ El). cbn [snd].
    rewrite (IH _ _ _ _ _ _ Ef). by rewrite <- !app_assoc.
Qed.

Lemma focus_leaf d : forall t ps P m es Q, focus d t ps = Some (P, m, es, Q) -> leaf_at t ps = Some (m, es).
Proof.
  induction d as [|d IH]; intros t ps P m es Q H.
  - destruct t, ps; try done. by injection H as <- <- <- <-.
  - destruct t as [|dep m' l], ps as [|k ps]; try done. cbn [focus] in H. destruct (l !! k) as [[[f b] c]|] eqn:El; [|done].
    destruct (focus d c ps) as [[[[P0 m0] es0] S0]|] eqn:Ef; [|done]. injection H as <- <- <- <-.
    cbn [leaf_at]. rewrite El. by apply (IH _ _ _ _ _ _ Ef).
Qed.

Lemma shape_child cap d dep m l k f b c :
  shape cap (S d) (Node dep m l) -> l !! k = Some (f, b, c) -> shape BC d c /\ head_key (flat d c) = Some f.
Proof. intros (_ & _ & _ & _ & H) Hk. rewrite Forall_lookup in H. by apply (H _ _ Hk). Qed.

(** A leaf on the path of a well-formed tree has entries, unless the tree has none. *)
Lemma focus_nonempty cap d : forall t ps P m es Q, shape cap d t -> focus d t ps = Some (P, m, es, Q) -> flat d t <> [] -> es <> [].
Proof.
  revert cap. induction d as [|d IH]; intros cap t ps P m es Q Hs H Hn.
  - destruct t, ps; try done. by injection H as <- <- <- <-.
  - destruct t as [|dep m' l], ps as [|k ps]; try done. cbn [focus] in H. destruct (l !! k) as [[[f b] c]|] eqn:El; [|done].
    destruct (focus d c ps) as [[[[P0 m0] es0] S0]|] eqn:Ef; [|done]. injection H as <- <- <- <-.
    destruct (shape_child _ _ _ _ _ _ _ _ _ Hs El) as [Hc Hk]. apply (IH BC _ _ _ _ _ _ Hc Ef). by apply head_key_Some in Hk.
Qed.

Lemma shape_check cap d t : 0 < cap -> shape cap d t -> ext_check t (Z.of_nat d) = true.
Proof.
  intros Hc H. unfold ext_check. destruct d, t as [m l|dep m l]; try done.
  - destruct H as [-> H]. cbn [eh_depth eh_max eh_entries]. change (0 =? Z.of_nat 0) with true. rewrite (proj2 (Z.eqb_neq _ _)), (proj2 (Z.leb_le _ _)) by lia. done.
  - destruct H as (-> & -> & _ & H & _). cbn [eh_depth eh_max eh_entries].
    rewrite Z.eqb_refl, (proj2 (Z.eqb_neq _ _)), (proj2 (Z.leb_le _ _)) by lia. done.
Qed.

(** ** Lookup *)

(** The path found for [block]: the leaf starts at or before it, unless it is
    the first leaf, and the next leaf starts behind it. *)
Lemma find_extent_ok (HBC : 0 < BC) cap d : forall t block, shape cap d t -> exists ps P m es Q,
  find_extent d t block = inr (mk_path ps (binsearch es block)) /\ focus d t ps = Some (P, m, es, Q) /\
  (P = [] \/ exists k, head_key es = Some k /\ k <= block) /\ (forall k, head_key Q = Some k -> block < k).
Proof.
  revert cap. induction d as [|d IH]; intros cap t block Hs; destruct t as [m l|dep m l]; try done.
  { exists [], [], m, l, []. split_and!; try done. by left. }
  pose proof Hs as (_ & _ & Hl & _ & Hf). cbn [find_extent].
  destruct (search_pos ix_first l block Hl) as (i & Hi & Hlow & Hhigh). fold (binsearch_idx l block) in Hi, Hlow, Hhigh.
  set (k := binsearch_idx l block) in *. destruct i as [[f b] c]. change (l !! k = Some (f, b, c)) in Hi. rewrite Hi.
  destruct (shape_child _ _ _ _ _ _ _ _ _ Hs Hi) as [Hc Hk]. rewrite (shape_check BC d c HBC Hc).
  destruct (IH BC c block Hc) as (ps & P & m0 & es & Q & E & Ef & HP & HQ). rewrite E.
  exists (k :: ps), (flats d (take k l) ++ P), m0, es, (Q ++ flats d (drop (S k) l)). cbn [p_idx p_ext].
  split_and!; [done|by rewrite (focus_Node _ _ _ _ _ _ _ _ _ Hi), Ef| |].
  - destruct Hlow as [->|Hlow]; [by rewrite take_0|]. destruct HP as [->|HP]; [|by right]. right. exists f. split; [|done].
    rewrite (focus_flat _ _ _ _ _ _ _ Ef) in Hk. cbn [app] in Hk. rewrite head_key_app in Hk; [done|].
    apply (focus_nonempty BC _ _ _ _ _ _ _ Hc Ef). rewrite (focus_flat _ _ _ _ _ _ _ Ef). by apply head_key_Some in Hk.
  - intros x Hx. destruct Q as [|q Q]; [|by apply HQ]. cbn [app] in Hx.
    destruct (l !! S k) as [j|] eqn:Ej; [|rewrite drop_ge in Hx by (by apply lookup_ge_None); done].
    rewrite (drop_S _ _ _ Ej), flats_cons in Hx. rewrite Forall_lookup in Hf. destruct (Hf _ _ Ej) as [_ Hj].
    rewrite head_key_app in Hx by (by apply head_key_Some in Hj). rewrite Hj in Hx. injection Hx as <-. by apply (Hhigh j).
Qed.

(** ** Changing a leaf *)

Lemma shape_pshape cap d : forall t ps P m es Q, shape cap d t -> focus d t ps = Some (P, m, es, Q) -> pshape cap d t ps.
Proof.
  revert cap. induction d as [|d IH]; intros cap t ps P m es Q Hs H.
  - destruct t, ps; try done.
  - destruct t as [|dep m' l], ps as [|k ps]; try done. cbn [focus] in H. destruct (l !! k) as [[[f b] c]|] eqn:El; [|done].
    destruct (focus d c ps) as [[[[P0 m0] es0] S0]|] eqn:Ef; [|done]. destruct (shape_child _ _ _ _ _ _ _ _ _ Hs El) as [Hc Hk].
    destruct Hs as (? & ? & _ & ? & Hf). cbn [pshape]. split_and!; [done..| |].
    + exists f, b, c. split_and!; [done| |done]. by apply (IH BC _ _ _ _ _ _ Hc Ef).
    + intros j i Hj _. rewrite Forall_lookup in Hf. by apply (Hf j).
Qed.

(** Nothing lies before the leaf exactly if it is the first one. *)
Lemma focus_first cap d : forall t ps P m es Q, pshape cap d t ps -> focus d t ps = Some (P, m, es, Q) ->
  if all_first ps then P = [] else P <> [].
Proof.
  revert cap. induction d as [|d IH]; intros cap t ps P m es Q Hs H.
  - destruct t, ps; try done. by injection H as <- <- <- <-.
  - destruct t as [|dep m' l], ps as [|k ps]; try done. cbn [focus] in H. destruct (l !! k) as [[[f b] c]|] eqn:El; [|done].
    destruct (focus d c ps) as [[[[P0 m0] es0] S0]|] eqn:Ef; [|done]. injection H as <- <- <- <-.
    destruct Hs as (_ & _ & _ & (f' & b' & c' & El' & Hp & _) & Hoth). rewrite El in El'. injection El' as <- <- <-.
    specialize (IH BC _ _ _ _ _ _ Hp Ef). cbn [all_first forallb]. fold (all_first ps). destruct k as [|k]; cbn [Nat.eqb andb].
    + rewrite take_0. done.
    + destruct (l !! 0%nat) as [j|] eqn:Ej.
      * destruct (Hoth 0%nat j Ej ltac:(lia)) as [_ Hj]. destruct l as [|j' l]; [done|]. injection Ej as ->. cbn [take]. rewrite flats_cons.
        apply head_key_Some in Hj. intros E. apply app_eq_nil in E as [E _]. by apply app_eq_nil in E as [E _].
      * apply lookup_ge_None in Ej. apply lookup_lt_Some in El. lia.
Qed.

Lemma focus_set_leaf d : forall t ps P m es Q es', focus d t ps = Some (P, m, es, Q) ->
  focus d (set_leaf t ps es') ps = Some (P, m, es', Q).
Proof.
  induction d as [|d IH]; intros t ps P m es Q es' H.
  - destruct t, ps; try done. by injection H as <- <- <- <-.
  - destruct t as [|dep m' l], ps as [|k ps]; try done. cbn [focus] in H. destruct (l !! k) as [[[f b] c]|] eqn:El; [|done].
    destruct (focus d c ps) as [[[[P0 m0] es0] S0]|] eqn:Ef; [|done]. injection H as <- <- <- <-. cbn [set_leaf].
    rewrite (focus_Node d _ _ _ k f b (set_leaf c ps es')) by (by rewrite list_lookup_alter_eq, El).
    rewrite (IH _ _ _ _ _ _ es' Ef), take_alter_ge, drop_alter_lt by lia. done.
Qed.

Lemma flat_correct_indexes d : forall t ps border, flat d (correct_indexes t ps border) = flat d t.
Proof.
  induction d as [|d IH]; intros t ps border; destruct t as [m l|dep m l], ps as [|k ps]; try done.
  cbn [correct_indexes flat]. f_equal. apply list_eq. intros j. rewrite !list_lookup_fmap.
  destruct (decide (j = k)) as [->|Hj].
  - rewrite list_lookup_alter_eq. destruct (l !! k) as [i|]; [|done]. cbn. by rewrite IH.
  - by rewrite list_lookup_alter_ne by done.
Qed.

(** A leaf filled and the indexes corrected: the tree is well formed again. *)
Lemma fill_leaf_ok cap d : forall t ps P m es Q es' border,
  pshape cap d t ps -> focus d t ps = Some (P, m, es, Q) -> head_key es' = Some border -> Z.of_nat (length es') <= m ->
  shape cap d (correct_indexes (set_leaf t ps es') ps border) /\
  flat d (correct_indexes (set_leaf t ps es') ps border) = P ++ es' ++ Q.
Proof.
  intros t ps P m es Q es' border Hs H Hh Hlen. split; [|rewrite flat_correct_indexes; by eapply focus_flat, focus_set_leaf, H].
  revert cap t ps P m es Q Hs H Hlen. induction d as [|d IH]; intros cap t ps P m es Q Hs H Hlen.
  - destruct t, ps; try done. injection H as <- <- <- <-. destruct Hs as [-> _]. cbn. done.
  - destruct t as [|dep m' l], ps as [|k ps]; try done. cbn [focus] in H. destruct (l !! k) as [[[f b] c]|] eqn:El; [|done].
    destruct (focus d c ps) as [[[[P0 m0] es0] S0]|] eqn:Ef; [|done]. injection H as <- <- <- <-.
    destruct Hs as (-> & -> & Hl & (f' & b' & c' & El' & Hp & Hkey) & Hoth). rewrite El in El'. injection El' as <- <- <-.
    cbn [set_leaf correct_indexes shape]. rewrite !length_alter. split_and!; [done|done| |done|].
    { intros E. apply (f_equal length) in E. rewrite !length_alter in E. apply lookup_lt_Some in El. cbn in E. lia. }
    apply Forall_lookup. intros j i Hi. destruct (decide (j = k)) as [->|Hj].
    + rewrite !list_lookup_alter_eq, El in Hi. injection Hi as <-. cbn [fst snd]. split; [by apply (IH BC _ _ _ _ _ _ Hp Ef)|].
      rewrite flat_correct_indexes, (focus_flat _ _ _ _ _ _ _ (focus_set_leaf _ _ _ _ _ _ _ es' Ef)).
      pose proof (focus_first _ _ _ _ _ _ _ _ Hp Ef) as HP. fold (all_first ps). destruct (all_first ps).
      * subst P0. cbn [app]. by rewrite head_key_app by (by apply head_key_Some in Hh).
      * rewrite head_key_app by done. rewrite (focus_flat _ _ _ _ _ _ _ Ef), head_key_app in Hkey by done. by apply Hkey.
    + rewrite !list_lookup_alter_ne in Hi by done. by apply (Hoth j).
Qed.

(** Nothing is corrected if the first extent keeps its block. *)
Lemma correct_indexes_id cap d : forall t ps P m es Q es' border,
  shape cap d t -> focus d t ps = Some (P, m, es, Q) -> head_key es = Some border ->
  correct_indexes (set_leaf t ps es') ps border = set_leaf t ps es'.
Proof.
  revert cap. induction d as [|d IH]; intros cap t ps P m es Q es' border Hs H Hh.
  - destruct t, ps; try done.
  - destruct t as [|dep m' l], ps as [|k ps]; try done. pose proof (shape_pshape _ _ _ _ _ _ _ _ Hs H) as Hps.
    cbn [focus] in H. destruct (l !! k) as [[[f b] c]|] eqn:El; [|done].
    destruct (focus d c ps) as [[[[P0 m0] es0] S0]|] eqn:Ef; [|done]. injection H as <- <- <- <-.
    destruct (shape_child _ _ _ _ _ _ _ _ _ Hs El) as [Hc Hk]. cbn [set_leaf correct_indexes]. f_equal. apply list_eq. intros j.
    destruct (decide (j = k)) as [->|Hj]; [|by rewrite !list_lookup_alter_ne by done].
    rewrite !list_lookup_alter_eq, El. cbn. rewrite (IH BC _ _ _ _ _ _ es' border Hc Ef Hh). fold (all_first ps).
    destruct (all_first ps) eqn:Ea; [|done]. pose proof (focus_first _ _ _ _ _ _ _ _ (shape_pshape _ _ _ _ _ _ _ _ Hc Ef) Ef) as HP.
    rewrite Ea in HP. subst P0. rewrite (focus_flat _ _ _ _ _ _ _ Ef) in Hk. cbn [app] in Hk.
    rewrite head_key_app in Hk by (by apply head_key_Some in Hh). by rewrite Hh in Hk; injection Hk as ->.
Qed.

(** The same when only the rest of the leaf changes. *)
Lemma set_leaf_ok cap d t ps P m es Q es' :
  shape cap d t -> focus d t ps = Some (P, m, es, Q) -> es <> [] -> head_key es' = head_key es -> Z.of_nat (length es') <= m ->
  shape cap d (set_leaf t ps es') /\ flat d (set_leaf t ps es') = P ++ es' ++ Q.
Proof.
  intros Hs H Hn Hh Hl. destruct (head_key es) as [border|] eqn:E; [|by destruct es].
  rewrite <- (correct_indexes_id cap d t ps P m es Q es' border Hs H E).
  by apply (fill_leaf_ok cap d t ps P m es Q es' border (shape_pshape _ _ _ _ _ _ _ _ Hs H) H).
Qed.
End shape.

(** ** Splitting *)

Lemma focus_length d : forall t ps P m es Q, focus d t ps = Some (P, m, es, Q) -> length ps = d.
Proof.
  induction d as [|d IH]; intros t ps P m es Q H.
  - by destruct t, ps.
  - destruct t as [|dep m' l], ps as [|k ps]; try done. cbn [focus] in H. destruct (l !! k) as [[[f b] c]|] eqn:El; [|done].
    destruct (focus d c ps) as [[[[P0 m0] es0] S0]|] eqn:Ef; [|done]. cbn [length]. f_equal. by apply (IH _ _ _ _ _ _ Ef).
Qed.

Lemma all_first_replicate n : all_first (replicate n 0%nat) = true.
Proof. induction n; [done|]. cbn. done. Qed.

Definition bls (d : nat) (l : list ix) : list Z := concat ((fun i => i.1.2 :: blocks d i.2) <$> l).

Lemma bls_app d l1 l2 : bls d (l1 ++ l2) = bls d l1 ++ bls d l2.
Proof. unfold bls. by rewrite fmap_app, concat_app. Qed.

Lemma bls_cons d i l : bls d (i :: l) = i.1.2 :: blocks d i.2 ++ bls d l.
Proof. done. Qed.

(** Permutations by counting. *)
Lemma perm_count (l1 l2 : list Z) : l1 ≡ₚ l2 <-> forall x, count_occ Z.eq_dec l1 x = count_occ Z.eq_dec l2 x.
Proof. apply Permutation_count_occ. Qed.

Lemma count_cons (a x : Z) (l : list Z) : count_occ Z.eq_dec (a :: l) x = ((if Z.eq_dec a x then 1 else 0) + count_occ Z.eq_dec l x)%nat.
Proof. cbn. by destruct (Z.eq_dec a x). Qed.

Ltac perm_solve :=
  rewrite ?perm_count in *; let x := fresh "x" in intros x;
  repeat match goal with H : forall x, count_occ _ _ x = count_occ _ _ x |- _ => specialize (H x) end;
  rewrite ?count_occ_app, ?count_cons, ?count_occ_app, ?count_cons, ?count_occ_app in *; cbn [count_occ] in *; lia.

Lemma head_key_take n es P Q : es <> [] -> head_key (P ++ take (S n) es) = head_key (P ++ es ++ Q).
Proof. intros H. by destruct P, es. Qed.

Section alloc.
Context {A : Type} `{!Balloc A} (block_size : Z).
Notation BC := (ext_space_block block_size).

(** A chain of allocations of single blocks, with goals on the disk. *)
Inductive allocs : A -> list Z -> A -> Prop :=
| allocs_nil a : allocs a [] a
| allocs_snoc a bs a' goal b a'' : allocs a bs a' -> balloc_goal goal -> balloc_alloc a' goal 1 = Ok (a'', inr b) -> allocs a (bs ++ [b]) a''.

(** The next [n] allocations of single blocks with goals on the disk succeed. *)
Fixpoint avail (n : nat) (a : A) : Prop :=
  match n with
  | O => True
  | S n => forall goal, balloc_goal goal -> exists a' b, balloc_alloc a goal 1 = Ok (a', inr b) /\ avail n a'
  end.

Definition full (t : enode) : Prop := eh_entries t = eh_max t.

Lemma split_sub_ok d : forall t ps pe key goal a n P m es Q,
  shape BC BC d t -> focus d t ps = Some (P, m, es, Q) -> (pe < length es)%nat -> Forall full (spine t ps) -> balloc_goal goal -> avail (S d + n) a ->
  exists a' left rb right news,
    split_sub block_size t ps pe key goal a = Ok (a', mk_split EOK left (Some (rb, right)) news) /\ (allocs a news a' /\ length news = S d) /\ avail n a' /\
    shape BC BC d left /\ focus d left ps = Some (P, m, take (S pe) es, []) /\
    pshape BC BC d right (replicate d 0%nat) /\ focus d right (replicate d 0%nat) = Some ([], BC, drop (S pe) es, Q) /\
    (head_key (drop (S pe) es) = Some key -> shape BC BC d right) /\
    blocks d left ++ rb :: blocks d right ≡ₚ news ++ blocks d t.
Proof.
  induction d as [|d IH]; intros t ps pe key goal a n P m es Q Hs Hf Hpe Hfull Hgoal Hav.
  - destruct t as [m' l|], ps; try done. injection Hf as <- <- <- <-. destruct Hs as [-> Hl]. cbn [Nat.add avail] in Hav.
    destruct (Hav goal Hgoal) as (a' & b & E & Hav'). cbn [split_sub]. rewrite E. apply Forall_cons in Hfull as [Hfull _].
    unfold full in Hfull. cbn [eh_entries eh_max] in Hfull. rewrite Hfull, Z.eqb_refl. cbn [negb].
    eexists a', _, b, _, [b]. split; [reflexivity|]. split_and!; try done.
    + rewrite <- (app_nil_l [b]). eapply allocs_snoc; [apply allocs_nil|exact Hgoal|exact E].
    + cbn [shape]. rewrite length_take. split; [done|lia].
    + cbn [replicate pshape]. rewrite length_drop. split; [done|lia].
    + intros _. cbn [shape]. rewrite length_drop. split; [done|lia].
  - destruct t as [|dep m' l], ps as [|k ps]; try done. pose proof Hf as Hf0. cbn [focus] in Hf.
    destruct (l !! k) as [[[f b0] c]|] eqn:El; [|done].
    destruct (focus d c ps) as [[[[P0 m0] es0] Q0]|] eqn:Ef; [|done]. injection Hf as <- <- <- <-.
    destruct (shape_child _ _ _ _ _ _ _ _ _ _ Hs El) as [Hc Hk]. pose proof Hs as (-> & -> & Hl0 & Hl & Hall).
    cbn [spine] in Hfull. rewrite El in Hfull. apply Forall_app in Hfull as [Hfc Hft]. apply Forall_cons in Hft as [Hft _].
    unfold full in Hft. cbn [eh_entries eh_max] in Hft.
    destruct (IH c ps pe key goal a (S n) P0 m0 es0 Q0 Hc Ef Hpe Hfc Hgoal) as (a1 & cl & rb & cr & news & E & [Hal Hnl] & Hav1 & Hsl & Hfl & Hpr & Hfr & Hsr & Hbl).
    { replace (S d + S n)%nat with (S (S d) + n)%nat by lia. done. }
    destruct (Hav1 goal Hgoal) as (a2 & b & E2 & Hav2). cbn [split_sub]. rewrite El, E. cbn [res_bind sp_left sp_right sp_new sp_err]. rewrite E2, Hft, Z.eqb_refl. cbn [negb].
    assert (Hk' := lookup_lt_Some _ _ _ El).
    assert (take (S k) (<[k := (f, b0, cl)]> l) = take k l ++ [(f, b0, cl)]) as Etk.
    { rewrite (insert_take_drop _ _ _ Hk'), take_app_ge by (rewrite length_take; lia). rewrite length_take.
      replace (S k - k `min` length l)%nat with 1%nat by lia. done. }
    rewrite Etk, drop_insert_lt by lia.
    eexists a2, _, b, _, (news ++ [b]). split; [reflexivity|]. split_and!.
    + by eapply allocs_snoc.
    + rewrite length_app, Hnl. cbn [length]. lia.
    + done.
    + cbn [shape]. rewrite length_app, length_take. cbn [length]. split_and!; [done|done|by destruct (take k l)|lia|]. apply Forall_app. split.
      * by apply Forall_take.
      * constructor; [|constructor]. cbn [fst snd]. split; [done|]. rewrite (focus_flat _ _ _ _ _ _ _ Hfl), app_nil_r.
        rewrite (head_key_take pe es0 P0 Q0) by (by destruct es0; [cbn in Hpe; lia|]). by rewrite <- (focus_flat _ _ _ _ _ _ _ Ef).
    + rewrite (focus_Node d _ _ _ k f b0 cl).
      * rewrite Hfl, take_app_le by (rewrite length_take; lia). rewrite take_take, Nat.min_id, (drop_ge (take k l ++ [(f, b0, cl)]) (S k)).
        { by rewrite app_nil_r. } { rewrite length_app, length_take. cbn [length]. lia. }
      * rewrite lookup_app_r by (rewrite length_take; lia). rewrite length_take. by replace (k - k `min` length l)%nat with 0%nat by lia.
    + cbn [replicate pshape]. cbn [length]. rewrite length_drop. split_and!; [done|done|change (ext_space_block_idx block_size) with BC; lia| |].
      * exists key, rb, cr. split_and!; [done|done|]. by rewrite all_first_replicate.
      * intros [|j] i Hj Hne; [done|]. change (drop (S k) l !! j = Some i) in Hj. rewrite lookup_drop in Hj. rewrite Forall_lookup in Hall. by apply (Hall _ _ Hj).
    + cbn [replicate]. rewrite (focus_Node d _ _ _ 0 key rb cr) by done. rewrite Hfr. cbn [take drop]. done.
    + intros Hkey. cbn [shape length]. rewrite length_drop. split_and!; [done|done|done|change (ext_space_block_idx block_size) with BC; lia|]. constructor.
      * cbn [fst snd]. split; [by apply Hsr|]. rewrite (focus_flat _ _ _ _ _ _ _ Hfr). cbn [app]. by rewrite head_key_app by (by apply head_key_Some in Hkey).
      * by apply Forall_drop.
    + change (blocks (S d) (Node ?x ?y ?z)) with (bls d z).
      rewrite <- (take_drop_middle l k _ El) at 3. rewrite !bls_app, !bls_cons. cbn [fst snd]. change (bls d []) with (@nil Z). perm_solve.
Qed.

Lemma spine_length d : forall t ps P m es Q, focus d t ps = Some (P, m, es, Q) -> length (spine t ps) = S d.
Proof.
  induction d as [|d IH]; intros t ps P m es Q H.
  - by destruct t, ps.
  - destruct t as [|dep m' l], ps as [|k ps]; try done. cbn [focus] in H. destruct (l !! k) as [[[f b] c]|] eqn:El; [|done].
    destruct (focus d c ps) as [[[[P0 m0] es0] S0]|] eqn:Ef; [|done]. cbn [spine]. rewrite El, length_app, (IH _ _ _ _ _ _ Ef). cbn. lia.
Qed.

(** The path to the first entries of the new nodes below node [i]. *)
Definition rpath (i d : nat) (ps : list nat) : list nat :=
  take i ps ++ S (default 0%nat (ps !! i)) :: replicate (d - i - 1) 0%nat.

(** Replacing a child that keeps its first block. *)
Lemma shape_replace cap d dep m l k f b c c' :
  shape BC cap (S d) (Node dep m l) -> l !! k = Some (f, b, c) -> shape BC BC d c' -> head_key (flat d c') = Some f ->
  shape BC cap (S d) (Node dep m (<[k := (f, b, c')]> l)).
Proof.
  intros (-> & -> & H1 & H2 & H3) El Hc Hk. assert (Hlt := lookup_lt_Some _ _ _ El). cbn [shape]. rewrite length_insert. split_and!; [done|done| |done|].
  - intros E. apply (f_equal length) in E. rewrite length_insert in E. cbn in E. lia.
  - by apply Forall_insert.
Qed.

Lemma split_top_ok d : forall cap t k ps pe key goal a n P m es Q,
  shape BC cap (S d) t -> focus (S d) t (k :: ps) = Some (P, m, es, Q) -> (pe < length es)%nat ->
  Forall full (take (S d) (spine t (k :: ps))) -> EXT_HAS_FREE_INDEX t = true ->
  (forall e, e ∈ P ++ take (S pe) es -> first_block e < key) -> balloc_goal goal -> avail (S d + n) a ->
  exists t' news a', split_node block_size 0 t (k :: ps) pe key goal a = Ok (EOK, t', a') /\ (allocs a news a' /\ length news = S d) /\ avail n a' /\
    blocks (S d) t' ≡ₚ news ++ blocks (S d) t /\
    (head_key (drop (S pe) es) = Some key ->
       shape BC cap (S d) t' /\ focus (S d) t' (k :: ps) = Some (P, m, take (S pe) es, drop (S pe) es ++ Q)) /\
    (drop (S pe) es = [] ->
       pshape BC cap (S d) t' (rpath 0 (S d) (k :: ps)) /\ focus (S d) t' (rpath 0 (S d) (k :: ps)) = Some (P ++ es, BC, [], Q)).
Proof.
  intros cap t k ps pe key goal a n P m es Q Hs Hf Hpe Hfull Hfree Hkey Hgoal Hav. destruct t as [|dep m' l]; [done|]. cbn [focus] in Hf.
  destruct (l !! k) as [[[f b0] c]|] eqn:El; [|done].
  destruct (focus d c ps) as [[[[P0 m0] es0] Q0]|] eqn:Ef; [|done]. injection Hf as <- <- <- <-.
  destruct (shape_child _ _ _ _ _ _ _ _ _ _ Hs El) as [Hc Hk]. assert (Hlt := lookup_lt_Some _ _ _ El).
  cbn [spine] in Hfull. rewrite El, take_app_le, take_ge in Hfull by (rewrite (spine_length _ _ _ _ _ _ _ Ef); lia).
  destruct (split_sub_ok d c ps pe key goal a n P0 m0 es0 Q0 Hc Ef Hpe Hfull Hgoal Hav) as (a1 & cl & rb & cr & news & E & [Hal Hnl] & Hav1 & Hsl & Hfl & Hpr & Hfr & Hsr & Hbl).
  assert (es0 <> []) as Hes by (by destruct es0; [cbn in Hpe; lia|]).
  assert (head_key (flat d cl) = Some f) as Hkl.
  { rewrite (focus_flat _ _ _ _ _ _ _ Hfl), app_nil_r, (head_key_take pe es0 P0 Q0) by done. by rewrite <- (focus_flat _ _ _ _ _ _ _ Ef). }
  assert (f < key) as Hfk.
  { rewrite (focus_flat _ _ _ _ _ _ _ Hfl), app_nil_r in Hkl. destruct (P0 ++ take (S pe) es0) as [|e r] eqn:Er; [done|]. injection Hkl as <-.
    apply Hkey. rewrite <- app_assoc, Er. apply elem_of_app. right. apply elem_of_cons. by left. }
  pose proof Hs as (-> & -> & Hl0 & Hl & Hall). unfold EXT_HAS_FREE_INDEX in Hfree. cbn [eh_entries eh_max] in Hfree. bool_prop.
  cbn [split_node]. rewrite El, E. cbn [res_bind sp_left sp_right sp_new sp_err]. unfold insert_index.
  rewrite list_lookup_insert_eq by done. unfold ix_first. cbn [fst snd]. rewrite length_insert.
  rewrite (proj2 (Z.eqb_neq key f)), (proj2 (Z.eqb_neq (Z.of_nat (length l)) cap)), (proj2 (Z.ltb_lt f key)) by lia.
  replace (Z.of_nat (S k) >? cap - 1) with false by (symmetry; rewrite Z.gtb_ltb; apply Z.ltb_ge; lia).
  assert (insert_at (S k) (key, rb, cr) (<[k := (f, b0, cl)]> l) = take k l ++ (f, b0, cl) :: (key, rb, cr) :: drop (S k) l) as ->.
  { unfold insert_at. rewrite drop_insert_lt by lia. rewrite (insert_take_drop _ _ _ Hlt), take_app_ge by (rewrite length_take; lia).
    rewrite length_take. replace (S k - k `min` length l)%nat with 1%nat by lia. by rewrite <- app_assoc. }
  set (l2 := take k l ++ _). assert (length l2 = S (length l)) as Hl2.
  { unfold l2. rewrite length_app, length_take. cbn [length]. rewrite length_drop. lia. }
  assert (l2 !! k = Some (f, b0, cl)) as Lk by (unfold l2; rewrite lookup_app_r by (rewrite length_take; lia); rewrite length_take; by replace (k - k `min` length l)%nat with 0%nat by lia).
  assert (l2 !! S k = Some (key, rb, cr)) as LSk by (unfold l2; rewrite lookup_app_r by (rewrite length_take; lia); rewrite length_take; by replace (S k - k `min` length l)%nat with 1%nat by lia).
  assert (take k l2 = take k l) as Tk by (unfold l2; rewrite take_app_le by (rewrite length_take; lia); by rewrite take_take, Nat.min_id).
  assert (drop (S k) l2 = (key, rb, cr) :: drop (S k) l) as Dk.
  { unfold l2. rewrite drop_app_ge by (rewrite length_take; lia). rewrite length_take. by replace (S k - k `min` length l)%nat with 1%nat by lia. }
  exists (Node (Z.of_nat (S d)) cap l2), news, a1. split_and!; try done.
  - change (blocks (S d) (Node ?x ?y ?z)) with (bls d z). rewrite <- (take_drop_middle l k _ El). unfold l2.
    rewrite !bls_app, !bls_cons. cbn [fst snd]. perm_solve.
  - intros Hd. specialize (Hsr Hd). split.
    + cbn [shape]. split_and!; [done|done|by destruct (take k l)|lia|]. unfold l2. apply Forall_app. split; [by apply Forall_take|].
      constructor; [done|]. constructor; [|by apply Forall_drop]. cbn [fst snd]. split; [done|].
      rewrite (focus_flat _ _ _ _ _ _ _ Hfr). cbn [app]. by rewrite head_key_app by (by apply head_key_Some in Hd).
    + rewrite (focus_Node _ _ _ _ _ _ _ _ _ Lk), Hfl, Tk, Dk, flats_cons. cbn [snd]. rewrite (focus_flat _ _ _ _ _ _ _ Hfr). cbn [app]. by rewrite <- app_assoc.
  - intros Hd. change (rpath 0 (S d) (k :: ps)) with (S k :: replicate (d - 0) 0%nat). rewrite Nat.sub_0_r. split.
    + cbn [pshape]. split_and!; [done|done|lia| |].
      * exists key, rb, cr. split_and!; [done|done|]. by rewrite all_first_replicate.
      * intros j i Hj Hne. destruct (decide (j = k)) as [->|Hne'].
        { rewrite Lk in Hj. by injection Hj as <-. }
        rewrite Forall_lookup in Hall. destruct (decide (j < k)%nat).
        { unfold l2 in Hj. rewrite lookup_app_l in Hj by (rewrite length_take; lia). rewrite lookup_take, decide_True in Hj by lia. by apply (Hall j). }
        { replace j with (S k + S (j - S (S k)))%nat in Hj by lia. rewrite <- lookup_drop, Dk in Hj.
          change (drop (S k) l !! (j - S (S k))%nat = Some i) in Hj. rewrite lookup_drop in Hj. by apply (Hall _ _ Hj). }
    + rewrite (focus_Node _ _ _ _ _ _ _ _ _ LSk), Hfr, Hd. f_equal. f_equal; [f_equal; f_equal|].
      * rewrite (take_S_r _ _ _ Lk), Tk, flats_app, flats_cons. cbn [snd]. rewrite (focus_flat _ _ _ _ _ _ _ Hfl), app_nil_r.
        rewrite (take_ge es0) by (apply (f_equal length) in Hd; rewrite length_drop in Hd; cbn in Hd; lia). by rewrite !app_nil_r, <- app_assoc.
      * f_equal. f_equal. replace (S (S k)) with (S k + 1)%nat by lia. rewrite <- drop_drop, Dk. done.
Qed.

Lemma split_node_ok i : forall d cap t ps pe key goal a n P m es Q,
  shape BC cap d t -> focus d t ps = Some (P, m, es, Q) -> (pe < length es)%nat -> (i < d)%nat ->
  Forall full (take (d - i) (spine t ps)) -> (exists x, spine t ps !! (d - i)%nat = Some x /\ EXT_HAS_FREE_INDEX x = true) ->
  (forall e, e ∈ P ++ take (S pe) es -> first_block e < key) -> balloc_goal goal -> avail (d - i + n) a ->
  exists t' news a', split_node block_size i t ps pe key goal a = Ok (EOK, t', a') /\ (allocs a news a' /\ length news = (d - i)%nat) /\ avail n a' /\
    blocks d t' ≡ₚ news ++ blocks d t /\
    (head_key (drop (S pe) es) = Some key ->
       shape BC cap d t' /\ focus d t' ps = Some (P, m, take (S pe) es, drop (S pe) es ++ Q)) /\
    (drop (S pe) es = [] -> pshape BC cap d t' (rpath i d ps) /\ focus d t' (rpath i d ps) = Some (P ++ es, BC, [], Q)).
Proof.
  induction i as [|i IH]; intros d cap t ps pe key goal a n P m es Q Hs Hf Hpe Hi Hfull Hfree Hkey Hgoal Hav.
  - destruct d as [|d]; [lia|]. destruct t as [|dep m' l]; [done|]. destruct ps as [|k ps]; [done|]. rewrite Nat.sub_0_r in *.
    apply split_top_ok; try done. destruct Hfree as (x & Hx & Hfr). cbn [spine] in Hx. cbn [focus] in Hf. destruct (l !! k) as [[[f b0] c]|]; [|done].
    destruct (focus d c ps) as [[[[P0 m0] es0] Q0]|] eqn:Ef; [|done].
    rewrite lookup_app_r, (spine_length _ _ _ _ _ _ _ Ef), Nat.sub_diag in Hx by (rewrite (spine_length _ _ _ _ _ _ _ Ef); lia). by injection Hx as <-.
  - destruct d as [|d]; [lia|]. destruct t as [|dep m' l]; [done|]. destruct ps as [|k ps]; [done|]. cbn [focus] in Hf.
    destruct (l !! k) as [[[f b0] c]|] eqn:El; [|done].
    destruct (focus d c ps) as [[[[P0 m0] es0] Q0]|] eqn:Ef; [|done]. injection Hf as <- <- <- <-.
    destruct (shape_child _ _ _ _ _ _ _ _ _ _ Hs El) as [Hc Hk]. assert (Hlt := lookup_lt_Some _ _ _ El). cbn [Nat.sub] in *.
    cbn [spine] in Hfull, Hfree. rewrite El in Hfull, Hfree. pose proof (spine_length _ _ _ _ _ _ _ Ef) as Hsp.
    rewrite take_app_le in Hfull by lia. setoid_rewrite lookup_app_l in Hfree; [|lia].
    destruct (IH d BC c ps pe key goal a n P0 m0 es0 Q0 Hc Ef Hpe ltac:(lia) Hfull Hfree) as (c' & news & a' & E & [Hal Hnl] & Hav' & Hbl & Hleft & Hright).
    { intros e He. apply Hkey. rewrite <- app_assoc. apply elem_of_app. by right. } { done. } { done. }
    cbn [split_node]. rewrite El, E. cbn [res_bind]. eexists _, news, a'. split; [reflexivity|]. split_and!; [done|done|done| | |].
    + change (blocks (S d) (Node ?x ?y ?z)) with (bls d z). rewrite (insert_take_drop _ _ _ Hlt). rewrite <- (take_drop_middle l k _ El) at 3.
      rewrite !bls_app, !bls_cons. cbn [fst snd]. perm_solve.
    + intros Hd. destruct (Hleft Hd) as [Hsl Hfl]. split.
      * apply (shape_replace cap d dep m' l k f b0 c c' Hs El Hsl). rewrite (focus_flat _ _ _ _ _ _ _ Hfl), <- Hk, (focus_flat _ _ _ _ _ _ _ Ef).
        f_equal. f_equal. by rewrite app_assoc, take_drop.
      * rewrite (focus_Node d _ _ _ k f b0 c') by (by rewrite list_lookup_insert_eq). rewrite Hfl, take_insert_ge, drop_insert_lt by lia. by rewrite <- app_assoc.
    + intros Hd. destruct (Hright Hd) as [Hpr Hfr]. change (rpath (S i) (S d) (k :: ps)) with (k :: rpath i d ps). split.
      * destruct Hs as (-> & -> & _ & Hl & Hall). cbn [pshape]. rewrite length_insert. split_and!; [done|done|done| |].
        -- exists f, b0, c'. split_and!; [by rewrite list_lookup_insert_eq|done|]. intros _.
           rewrite (focus_flat _ _ _ _ _ _ _ Hfr), <- Hk, (focus_flat _ _ _ _ _ _ _ Ef). f_equal. by rewrite <- app_assoc.
        -- intros j x Hj Hne. rewrite list_lookup_insert_ne in Hj by done. rewrite Forall_lookup in Hall. by apply (Hall j).
      * rewrite (focus_Node d _ _ _ k f b0 c') by (by rewrite list_lookup_insert_eq). rewrite Hfr, take_insert_ge, drop_insert_lt by lia. by rewrite <- app_assoc.
Qed.

(** ** Growing *)

Lemma grow_root_ok d t b :
  0 < ext_space_root_idx <= BC -> Z.of_nat (S d) < 65536 -> shape BC ext_space_root_idx d t -> flat d t <> [] ->
  shape BC ext_space_root_idx (S d) (grow_root block_size t b) /\ flat (S d) (grow_root block_size t b) = flat d t /\
  blocks (S d) (grow_root block_size t b) = b :: blocks d t.
Proof.
  intros HBC Hd Hs Hn. destruct d as [|d], t as [m l|dep m l]; try done.
  - destruct Hs as [-> Hl]. cbn [grow_root flat blocks]. cbn [fmap list_fmap concat]. rewrite !app_nil_r. cbn [snd fst]. split_and!; [|done|done].
    cbn [shape length]. split_and!; [done|done|done|lia|]. constructor; [|constructor]. cbn [fst snd]. split; [cbn; split; [done|lia]|].
    cbn [flat]. destruct l as [|e l]; [done|]. done.
  - pose proof Hs as (-> & -> & Hl0 & Hl & Hall). cbn [grow_root].
    assert (flat (S (S d)) (Node (u16 (Z.of_nat (S d) + 1)) ext_space_root_idx [(default 0 (ix_first <$> l !! 0%nat), b, Node (Z.of_nat (S d)) (ext_space_block_idx block_size) l)]) = flat (S d) (Node (Z.of_nat (S d)) ext_space_root_idx l)) as Ef.
    { change (flats (S d) [(default 0 (ix_first <$> l !! 0%nat), b, Node (Z.of_nat (S d)) (ext_space_block_idx block_size) l)] = flats d l). rewrite flats_cons. cbn [snd]. apply app_nil_r. }
    split_and!; [|exact Ef|].
    + cbn [shape length]. split_and!; [unfold u16; rewrite Z.mod_small; lia|done|done|lia|]. constructor; [|constructor]. cbn [fst snd].
      split; [|].
      * split_and!; [done|done|done| |done]. change (ext_space_block_idx block_size) with BC. lia.
      * destruct l as [|[[f b1] c] l]; [done|]. apply Forall_cons in Hall as [[_ Hk] _]. cbn [fst snd] in Hk.
        change (head_key (flats d ((f, b1, c) :: l)) = Some f). rewrite flats_cons. cbn [snd]. by rewrite head_key_app by (by apply head_key_Some in Hk).
    + change (bls (S d) [(default 0 (ix_first <$> l !! 0%nat), b, Node (Z.of_nat (S d)) (ext_space_block_idx block_size) l)] = b :: bls d l). rewrite bls_cons. cbn [fst snd].
      f_equal. apply app_nil_r.
Qed.
End alloc.
