(* ===== verification/Ext4Insert.v ===== *)
(** * Insertion into the extent tree

    What [insert_extent] of [Ext4Extent] does to the mapping of a file: the
    blocks of the new extent are mapped, all others as before.  One case is
    different: an extent that ends where the first extent of the file begins,
    on disk and in the file, is merged with it, and the merged extent keeps the
    old start on disk. *)

From S2P Require Import Prelude TxBuild Ext4Extent Ext4Tree.

(** ** Block numbers *)

Lemma ext_pblock_eq e : 0 <= start_hi e < 65536 -> 0 <= start_lo e < U32_MOD -> ext_pblock e = start_hi e * U32_MOD + start_lo e.
Proof.
  intros Hh Hl. unfold ext_pblock. rewrite !Z.shiftl_mul_pow2 by lia. change (2 ^ 31) with 2147483648. change (2 ^ 1) with 2.
  rewrite (u64_id (start_hi e * 2147483648)), u64_id by lia. pose proof (Z.add_lor_land (start_lo e) (start_hi e * 2147483648 * 2)) as H.
  assert (Z.land (start_lo e) (start_hi e * 2147483648 * 2) = 0) as E; [|lia].
  replace (start_hi e * 2147483648 * 2) with (Z.shiftl (start_hi e) 32) by (rewrite Z.shiftl_mul_pow2 by lia; lia).
  apply Z.bits_inj'. intros i Hi. rewrite Z.land_spec, Z.shiftl_spec, Z.bits_0 by lia. destruct (Z.ltb_spec i 32).
  - rewrite (Z.testbit_neg_r (start_hi e)) by lia. apply andb_false_r.
  - rewrite (Z.bits_above_log2 (start_lo e)); [done|lia|]. destruct (Z.eq_dec (start_lo e) 0) as [->|]; [cbn; lia|].
    apply Z.log2_lt_pow2; [lia|]. eapply Z.lt_le_trans; [apply Hl|]. change U32_MOD with (2 ^ 32). apply Z.pow_le_mono_r; lia.
Qed.

Lemma ext_pblock_range e : ext_ok e -> 0 <= ext_pblock e < 2 ^ 48.
Proof. intros [_ _ _ H1 H2]. rewrite ext_pblock_eq by done. lia. Qed.

Lemma store_pblock_ok e pb : 0 <= pb < 2 ^ 48 ->
  ext_pblock (store_pblock e pb) = pb /\ 0 <= start_hi (store_pblock e pb) < 65536 /\ 0 <= start_lo (store_pblock e pb) < U32_MOD.
Proof.
  intros H. unfold store_pblock. cbn [start_hi start_lo].
  assert (Z.land (u16 (Z.shiftr pb 32)) 65535 = pb / U32_MOD) as Eh.
  { change 65535 with (Z.ones 16). rewrite Z.land_ones, Z.shiftr_div_pow2 by lia. change (2 ^ 32) with U32_MOD. unfold u16.
    change (2 ^ 16) with 65536. rewrite Z.mod_mod, Z.mod_small; [done|Z.div_mod_to_equations; lia|lia]. }
  assert (Z.land pb 4294967295 = pb mod U32_MOD) as El.
  { change 4294967295 with (Z.ones 32). by rewrite Z.land_ones by lia. }
  rewrite Eh, El. assert (0 <= pb / U32_MOD < 65536 /\ 0 <= pb mod U32_MOD < U32_MOD) as [G1 G2] by (Z.div_mod_to_equations; lia).
  rewrite ext_pblock_eq by done. cbn [start_hi start_lo]. split; [|done]. rewrite Z.mul_comm. symmetry. apply Z.div_mod. lia.
Qed.

Lemma new_extent_ok first count pb :
  0 <= first -> 0 < count <= EXT_INIT_MAX_LEN -> first + count <= EXT_MAX_BLOCKS -> 0 <= pb < 2 ^ 48 ->
  let e := new_extent first count pb in
  ext_ok e /\ first_block e = first /\ block_count e = count /\ ext_pblock e = pb.
Proof.
  intros H1 H2 H3 H4. unfold EXT_INIT_MAX_LEN, EXT_MAX_BLOCKS in *.
  destruct (store_pblock_ok (mk_extent (u32 first) (u16 count) 0 0) pb H4) as (E & Eh & El). cbn zeta. unfold new_extent.
  assert (first_block (store_pblock (mk_extent (u32 first) (u16 count) 0 0) pb) = first) as Ef by (apply u32_id; lia).
  assert (block_count (store_pblock (mk_extent (u32 first) (u16 count) 0 0) pb) = count) as Ec by (apply Z.mod_small; lia).
  split; [|done]. split; unfold EXT_INIT_MAX_LEN, EXT_MAX_BLOCKS; rewrite ?Ef, ?Ec; done || lia.
Qed.

(** ** The mapping *)

Definition covers (e : extent) (b : Z) : bool := (first_block e <=? b) && (b <? first_block e + block_count e).

(** The block of the disk for block [b] of the file. *)
Definition ext_map (es : list extent) (b : Z) : option Z :=
  (fun e => ext_pblock e + (b - first_block e)) <$> List.find (fun e => covers e b) es.

Lemma ext_map_app es1 es2 b : ext_map (es1 ++ es2) b = match ext_map es1 b with Some x => Some x | None => ext_map es2 b end.
Proof. induction es1 as [|e es1 IH]; [done|]. unfold ext_map in *. cbn [app List.find]. by destruct (covers e b). Qed.

Lemma ext_map_cons e es b : ext_map (e :: es) b = if covers e b then Some (ext_pblock e + (b - first_block e)) else ext_map es b.
Proof. unfold ext_map. cbn [List.find]. by destruct (covers e b). Qed.

Lemma ext_map_none es b : (forall e, e ∈ es -> covers e b = false) -> ext_map es b = None.
Proof.
  induction es as [|e es IH]; intros H; [done|]. rewrite ext_map_cons, (H e) by (apply elem_of_cons; by left).
  apply IH. intros f Hf. apply H, elem_of_cons. by right.
Qed.

(** The blocks of [e] added. *)
Definition add_map (e : extent) (f : Z -> option Z) (b : Z) : option Z :=
  if covers e b then Some (ext_pblock e + (b - first_block e)) else f b.

(** No block of [e] is mapped. *)
Definition unmapped (es : list extent) (e : extent) : Prop :=
  forall f, f ∈ es -> first_block f + block_count f <= first_block e \/ first_block e + block_count e <= first_block f.

Lemma insert_map P Q e e' b :
  first_block e' = first_block e -> block_count e' = block_count e -> ext_pblock e' = ext_pblock e ->
  unmapped (P ++ Q) e -> ext_map (P ++ e' :: Q) b = add_map e (ext_map (P ++ Q)) b.
Proof.
  intros E1 E2 E3 Hu. unfold add_map. rewrite !ext_map_app, ext_map_cons. unfold covers at 1. rewrite E1, E2, E3. fold (covers e b).
  destruct (covers e b) eqn:Ec; [|done]. rewrite ext_map_none; [done|]. intros f Hf.
  destruct (Hu f) as [H|H]; [apply elem_of_app; by left| |]; unfold covers in *; bool_prop;
    destruct (Z.leb_spec (first_block f) b), (Z.ltb_spec b (first_block f + block_count f)); cbn; done || lia.
Qed.

Lemma insert_ordered lo P Q e :
  ordered lo (P ++ Q) -> lo <= first_block e -> ext_ok e ->
  (forall f, f ∈ P -> first_block f + block_count f <= first_block e) -> (forall f, f ∈ Q -> first_block e + block_count e <= first_block f) ->
  ordered lo (P ++ e :: Q).
Proof.
  intros Ho Hlo He HP HQ. apply ordered_app in Ho as (H1 & H2 & H3). apply ordered_app. split_and!; [done| |].
  - cbn [ordered]. split_and!; [done|done|]. destruct Q as [|f Q]; [done|]. destruct H2 as (G1 & G2 & G3). split_and!; [|done..].
    apply HQ, elem_of_cons. by left.
  - intros f g Hf [->|Hg]%elem_of_cons; [by apply HP|by apply H3].
Qed.

(** ** Merging *)

Lemma can_append_inv c e : ext_ok c -> ext_ok e -> can_append c e = true ->
  ext_pblock c + block_count c = ext_pblock e /\ first_block c + block_count c = first_block e /\ block_count c + block_count e <= EXT_INIT_MAX_LEN.
Proof.
  intros Hc He H. unfold can_append in H. destruct (ext_ok_len c Hc) as [E1 E2], (ext_ok_len e He) as [E3 _]. rewrite E1, E2, E3 in H. bool_prop.
  pose proof (ext_pblock_range c Hc). pose proof Hc as [C1 C2 C3 _ _]. unfold EXT_INIT_MAX_LEN, EXT_MAX_BLOCKS in *.
  rewrite u64_id in * by lia. rewrite u32_id in * by lia. done.
Qed.

Lemma grow_count_ok c e : ext_ok c -> ext_ok e -> block_count c + block_count e <= EXT_INIT_MAX_LEN ->
  first_block c + block_count c + block_count e <= EXT_MAX_BLOCKS ->
  let g := grow_count c e in
  ext_ok g /\ first_block g = first_block c /\ block_count g = block_count c + block_count e /\ ext_pblock g = ext_pblock c.
Proof.
  intros Hc He Hl Hend. cbn zeta. unfold grow_count. destruct (ext_ok_len c Hc) as [-> ->], (ext_ok_len e He) as [-> _].
  pose proof Hc as [H1 H2 H3 H4 H5]. pose proof He as [_ G2 _ _ _]. unfold EXT_INIT_MAX_LEN in *.
  assert (block_count (set_count c (block_count c + block_count e)) = block_count c + block_count e) as E by (apply Z.mod_small; lia).
  split_and!; [|done|done|done]. split; unfold EXT_INIT_MAX_LEN in *; rewrite ?E; cbn [first_block set_count start_hi start_lo]; done || lia.
Qed.

Lemma append_map P Q c e b : ext_ok c -> ext_ok e -> can_append c e = true ->
  unmapped (P ++ c :: Q) e -> ext_map (P ++ grow_count c e :: Q) b = add_map e (ext_map (P ++ c :: Q)) b.
Proof.
  intros Hc He Ha Hu. destruct (can_append_inv c e Hc He Ha) as (A1 & A2 & A3). pose proof He as [_ Hn Hend _ _].
  destruct (grow_count_ok c e Hc He A3) as (_ & G1 & G2 & G3); [lia|]. unfold add_map. rewrite !ext_map_app, !ext_map_cons.
  destruct (covers e b) eqn:Ee.
  - rewrite ext_map_none.
    + assert (covers (grow_count c e) b = true) as ->.
      { unfold covers in *. rewrite G1, G2. bool_prop. pose proof (eo_count c Hc). apply andb_true_iff. split; [apply Z.leb_le|apply Z.ltb_lt]; lia. }
      f_equal. rewrite G1, G3. lia.
    + intros f Hf. destruct (Hu f) as [H'|H']; [apply elem_of_app; by left| |]; unfold covers in *; bool_prop;
        destruct (Z.leb_spec (first_block f) b), (Z.ltb_spec b (first_block f + block_count f)); cbn; done || lia.
  - destruct (ext_map P b); [done|]. assert (covers (grow_count c e) b = covers c b) as ->.
    { unfold covers in *. rewrite G1, G2. destruct (Z.leb_spec (first_block c) b), (Z.ltb_spec b (first_block c + block_count c)),
        (Z.ltb_spec b (first_block c + (block_count c + block_count e))); cbn; try done; lia. }
    by rewrite G1, G3.
Qed.

(** ** Insertion into a leaf *)

(** Position [pe] in the leaf [es] between [P] and [Q] is the one of block
    [b]: its extent is the last that starts at or before [b], or the first of
    all; a leaf without extents lies where [b] belongs. *)
Definition at_floor (P es Q : list extent) (pe : option nat) (b : Z) : Prop :=
  match pe with
  | Some k => exists c, es !! k = Some c /\ (first_block c <= b \/ k = 0%nat /\ P = []) /\ forall f, f ∈ drop (S k) es ++ Q -> b < first_block f
  | None => es = [] /\ (forall f, f ∈ P -> first_block f < b) /\ forall f, f ∈ Q -> b < first_block f
  end.

(** The first extent is not merged with the new one. *)
Definition no_head_merge (es : list extent) (e : extent) : Prop := forall c, head es = Some c -> can_prepend c e = false.

Lemma unmapped_split P Q e : ordered 0 (P ++ Q) -> ext_ok e -> unmapped (P ++ Q) e ->
  (forall f, f ∈ P -> first_block f <= first_block e) -> (forall f, f ∈ Q -> first_block e < first_block f) ->
  (forall f, f ∈ P -> first_block f + block_count f <= first_block e) /\ (forall f, f ∈ Q -> first_block e + block_count e <= first_block f).
Proof.
  intros Ho He Hu HP HQ. pose proof (eo_count e He). split; intros f Hf.
  - destruct (Hu f) as [H'|H']; [apply elem_of_app; by left|done|]. specialize (HP f Hf). lia.
  - destruct (Hu f) as [H'|H']; [apply elem_of_app; by right| |done]. specialize (HQ f Hf).
    destruct (ordered_elem _ _ f Ho) as [_ Hok]; [apply elem_of_app; by right|]. pose proof (eo_count f Hok). lia.
Qed.

(** The extent is added as it is. *)
Lemma insert_between P Q e e' : ordered 0 (P ++ Q) -> ext_ok e -> unmapped (P ++ Q) e ->
  e' = store_pblock (mk_extent (first_block e) (block_count e) 0 0) (ext_pblock e) ->
  (forall f, f ∈ P -> first_block f <= first_block e) -> (forall f, f ∈ Q -> first_block e < first_block f) ->
  ordered 0 (P ++ e' :: Q) /\ forall b, ext_map (P ++ e' :: Q) b = add_map e (ext_map (P ++ Q)) b.
Proof.
  intros Ho He Hu -> HP HQ. destruct (unmapped_split P Q e Ho He Hu HP HQ) as [HP' HQ'].
  destruct (store_pblock_ok (mk_extent (first_block e) (block_count e) 0 0) (ext_pblock e) (ext_pblock_range e He)) as (E & Eh & El).
  pose proof He as [H1 H2 H3 _ _]. split; [|intros b; by apply insert_map]. by apply insert_ordered.
Qed.

Lemma append_ordered P Q c e : ordered 0 (P ++ c :: Q) -> ext_ok e -> can_append c e = true -> unmapped (P ++ c :: Q) e ->
  (forall f, f ∈ Q -> first_block e < first_block f) -> ordered 0 (P ++ grow_count c e :: Q).
Proof.
  intros Ho He Ha Hu HQ. pose proof Ho as (HoP & (Hc0 & Hc & HoQ) & Hx)%ordered_app.
  destruct (can_append_inv c e Hc He Ha) as (A1 & A2 & A3). pose proof He as [_ Hn Hend _ _].
  destruct (grow_count_ok c e Hc He A3) as (Gok & G1 & G2 & G3); [lia|]. apply ordered_app. split_and!; [done| |].
  - cbn [ordered]. rewrite G1, G2. split_and!; [done|done|]. destruct Q as [|q Q]; [done|]. destruct HoQ as (Q1 & Q2 & Q3).
    split_and!; [|done..]. pose proof (eo_count q Q2). specialize (HQ q ltac:(apply elem_of_cons; by left)).
    destruct (Hu q) as [H'|H']; [apply elem_of_app; right; apply elem_of_cons; right; apply elem_of_cons; by left| |]; lia.
  - intros f g Hf [->|Hg]%elem_of_cons; [rewrite G1; apply Hx; [done|]; apply elem_of_cons; by left|].
    apply Hx; [done|]. apply elem_of_cons. by right.
Qed.

(** The leaf [es] between [P] and [Q] became [es'] and maps [e] as well. *)
Record leaf_grown (P : list extent) (m : Z) (es Q : list extent) (e : extent) (es' : list extent) (cur : nat) (fix_idx : bool) : Prop := {
  lg_ordered : ordered 0 (P ++ es' ++ Q);
  lg_map : forall b, ext_map (P ++ es' ++ Q) b = add_map e (ext_map (P ++ es ++ Q)) b;
  lg_len : Z.of_nat (length es') <= m;
  lg_some : es' <> [];
  lg_fix : fix_idx = true /\ cur = 0%nat \/ es <> [] /\ head_key es' = head_key es
}.

Lemma upto_le P es Q k c f : ordered 0 (P ++ es ++ Q) -> es !! k = Some c -> f ∈ P ++ take (S k) es -> first_block f <= first_block c.
Proof.
  intros Ho Ec Hf. rewrite <- (take_drop_middle es k c Ec), <- !app_assoc in Ho. cbn [app] in Ho. rewrite app_assoc in Ho.
  apply ordered_app in Ho as (HoP & _ & Hx). rewrite (take_S_r _ _ _ Ec), app_assoc in Hf.
  apply elem_of_app in Hf as [Hf|Hf%list_elem_of_singleton]; [|by subst].
  specialize (Hx f c Hf ltac:(apply elem_of_cons; by left)). destruct (ordered_elem _ _ f HoP Hf) as [_ Hok]. pose proof (eo_count f Hok). lia.
Qed.

(** Where [put_extent] inserts. *)
Definition put_pos (es : list extent) (pe : option nat) (e : extent) : nat :=
  match pe with
  | None => 0%nat
  | Some k => if default 0 (first_block <$> es !! k) <? first_block e then S k else k
  end.

Lemma put_pos_ok P es Q pe e : ordered 0 (P ++ es ++ Q) -> at_floor P es Q pe (first_block e) ->
  (forall k c, pe = Some k -> es !! k = Some c -> first_block e <> first_block c) ->
  (put_pos es pe e <= length es)%nat /\
  (forall f, f ∈ P ++ take (put_pos es pe e) es -> first_block f <= first_block e) /\
  (forall f, f ∈ drop (put_pos es pe e) es ++ Q -> first_block e < first_block f).
Proof.
  intros Ho Hfl Hne. destruct pe as [k|]; cbn [put_pos at_floor] in *.
  2:{ destruct Hfl as (-> & H1 & H2). cbn. rewrite app_nil_r. split_and!; [lia| |done]. intros f Hf. specialize (H1 f Hf). lia. }
  destruct Hfl as (c & Ec & Hlow & Hhigh). specialize (Hne k c eq_refl Ec). rewrite Ec. cbn [fmap option_fmap option_map default id].
  assert (Hlt := lookup_lt_Some _ _ _ Ec). destruct (Z.ltb_spec (first_block c) (first_block e)) as [Hc|Hc].
  - split_and!; [lia| |done]. intros f Hf. pose proof (upto_le P es Q k c f Ho Ec Hf). lia.
  - destruct Hlow as [Hlow|[-> ->]]; [lia|]. split_and!; [lia|cbn; intros f Hf; by apply elem_of_nil in Hf|]. cbn [drop]. destruct es as [|c' es]; [done|].
    injection Ec as ->. cbn [app]. intros f [->|Hf]%elem_of_cons; [lia|by apply Hhigh].
Qed.

Lemma head_insert_at n (e : extent) es : (0 < n <= length es)%nat -> head_key (insert_at n e es) = head_key es.
Proof. intros H. unfold insert_at. destruct es as [|x es], n; cbn in *; try lia. done. Qed.

Lemma put_extent_ok P m es Q pe e :
  ordered 0 (P ++ es ++ Q) -> at_floor P es Q pe (first_block e) ->
  (forall k c, pe = Some k -> es !! k = Some c -> first_block e <> first_block c) ->
  ext_ok e -> unmapped (P ++ es ++ Q) e -> Z.of_nat (length es) < m ->
  exists es' cur ex fix_idx, put_extent m es pe e = LeafOk es' cur ex fix_idx /\ leaf_grown P m es Q e es' cur fix_idx.
Proof.
  intros Ho Hfl Hne He Hu Hlen. destruct (put_pos_ok P es Q pe e Ho Hfl Hne) as (Hpos & Hb & Ha).
  unfold put_extent. fold (put_pos es pe e). set (n := put_pos es pe e) in *. rewrite (proj2 (Z.eqb_neq _ _)) by lia.
  rewrite Z.gtb_ltb, (proj2 (Z.ltb_ge _ _)) by lia. eexists _, _, _, _. split; [reflexivity|].
  assert (forall x, P ++ insert_at n x es ++ Q = (P ++ take n es) ++ x :: (drop n es ++ Q)) as E1 by (intros x; unfold insert_at; by rewrite <- !app_assoc).
  assert (P ++ es ++ Q = (P ++ take n es) ++ (drop n es ++ Q)) as E2 by (by rewrite <- !app_assoc, (app_assoc (take n es)), take_drop).
  rewrite E2 in Ho, Hu. destruct (insert_between _ _ e _ Ho He Hu eq_refl Hb Ha) as [G1 G2]. split; rewrite ?E1, ?E2; try done.
  - unfold insert_at. rewrite length_app, length_take. cbn [length]. rewrite length_drop. lia.
  - unfold insert_at. by destruct (take n es).
  - destruct pe as [k|]; cbn [default]; [|by left]. destruct k as [|k]; [by left|]. right. cbn [at_floor] in Hfl. destruct Hfl as (c & Ec & _).
    split; [by destruct es|]. apply head_insert_at. split; [|done]. unfold n. cbn [put_pos]. by destruct (_ <? _); lia.
Qed.

(** Result of one attempt. *)
Lemma insert_leaf_ok P m es Q pe e :
  ordered 0 (P ++ es ++ Q) -> at_floor P es Q pe (first_block e) -> ext_ok e -> unmapped (P ++ es ++ Q) e -> no_head_merge (P ++ es ++ Q) e ->
  Z.of_nat (length es) <= m ->
  insert_leaf m es pe e false = LeafSplit /\ Z.of_nat (length es) = m \/
  exists es' cur ex fix_idx, insert_leaf m es pe e false = LeafOk es' cur ex fix_idx /\ leaf_grown P m es Q e es' cur fix_idx.
Proof.
  intros Ho Hfl He Hu Hnm Hlen. pose proof (eo_count e He) as Hn.
  assert (forall k c, pe = Some k -> es !! k = Some c -> first_block e <> first_block c) as Hne.
  { intros k c -> Ec E. destruct (Hu c) as [H'|H']; [apply elem_of_app; right; apply elem_of_app; left; by eapply list_elem_of_lookup_2| |]; [|lia].
    destruct (ordered_elem _ _ c Ho) as [_ Hok]; [apply elem_of_app; right; apply elem_of_app; left; by eapply list_elem_of_lookup_2|].
    pose proof (eo_count c Hok). lia. }
  assert (insert_leaf m es pe e false = put_extent m es pe e \/ exists k c, pe = Some k /\ es !! k = Some c /\ can_append c e = true) as [->|(k & c & -> & Ec & Happ)].
  { destruct pe as [k|]; [|by left]. pose proof Hfl as (c & Ec & Hlow & Hhigh). unfold insert_leaf. rewrite Ec.
    rewrite (proj2 (Z.eqb_neq _ _)) by (by apply (Hne k)). cbn [negb andb]. destruct (can_append c e) eqn:Ea; [right; by exists k, c|left].
    assert (can_prepend c e = false) as ->; [|done]. destruct Hlow as [Hlow|[-> ->]].
    - unfold can_prepend. destruct (ext_ok_len e He) as [-> _]. pose proof He as [? _ ? _ _]. unfold EXT_MAX_BLOCKS in *. rewrite (u32_id (first_block e + block_count e)) by lia.
      rewrite (proj2 (Z.eqb_neq (first_block e + block_count e) _)) by lia. apply andb_false_r.
    - apply Hnm. cbn [app]. destruct es; [done|]. by injection Ec as ->. }
  - destruct (Z.eqb_spec (Z.of_nat (length es)) m) as [E|E].
    + left. split; [|done]. unfold put_extent. by rewrite E, Z.eqb_refl.
    + right. apply put_extent_ok; try done. lia.
  - right. cbn [insert_leaf]. rewrite Ec, (proj2 (Z.eqb_neq _ _)) by (by apply (Hne k)). cbn [negb andb]. rewrite Happ.
    eexists _, _, _, _. split; [reflexivity|]. destruct Hfl as (c' & Ec' & _ & Hhigh). rewrite Ec in Ec'. injection Ec' as <-.
    assert (Hlt := lookup_lt_Some _ _ _ Ec).
    assert (forall x, P ++ <[k := x]> es ++ Q = (P ++ take k es) ++ x :: (drop (S k) es ++ Q)) as E1.
    { intros x. rewrite (insert_take_drop _ _ _ Hlt). by rewrite <- !app_assoc. }
    assert (P ++ es ++ Q = (P ++ take k es) ++ c :: (drop (S k) es ++ Q)) as E2 by (rewrite <- E1; by rewrite list_insert_id).
    rewrite E2 in Ho, Hu. pose proof Ho as (_ & (_ & Hc & _) & _)%ordered_app. split; rewrite ?E1, ?E2.
    + by apply append_ordered.
    + intros b. by apply append_map.
    + by rewrite length_insert.
    + intros E. apply (f_equal length) in E. rewrite length_insert in E. cbn in E. lia.
    + right. split; [by destruct es|]. destruct (can_append_inv c e Hc He Happ) as (_ & A2 & A3). pose proof He as [_ _ Hend _ _].
      destruct (grow_count_ok c e Hc He A3) as (_ & G1 & _); [lia|]. destruct es as [|x es]; [done|]. destruct k; [|done]. injection Ec as ->.
      cbn. by rewrite G1.
Qed.

(** ** The blocks of the tree *)

Lemma blocks_alter d l k (g : ix -> ix) : (forall i, (g i).1.2 = i.1.2 /\ blocks d (g i).2 = blocks d i.2) -> bls d (alter g k l) = bls d l.
Proof.
  intros Hg. unfold bls. f_equal. apply list_eq. intros j. rewrite !list_lookup_fmap. destruct (decide (j = k)) as [->|Hj].
  - rewrite list_lookup_alter_eq. destruct (l !! k) as [i|]; [|done]. cbn. destruct (Hg i) as [-> ->]. done.
  - by rewrite list_lookup_alter_ne by done.
Qed.

Lemma blocks_set_leaf d : forall t ps es, blocks d (set_leaf t ps es) = blocks d t.
Proof.
  induction d as [|d IH]; intros t ps es; destruct t as [m l|dep m l], ps as [|k ps]; try done.
  cbn [set_leaf]. change (blocks (S d) (Node ?x ?y ?z)) with (bls d z). apply blocks_alter. intros i. cbn [fst snd]. by rewrite IH.
Qed.

Lemma blocks_correct_indexes d : forall t ps border, blocks d (correct_indexes t ps border) = blocks d t.
Proof.
  induction d as [|d IH]; intros t ps border; destruct t as [m l|dep m l], ps as [|k ps]; try done.
  cbn [correct_indexes]. change (blocks (S d) (Node ?x ?y ?z)) with (bls d z). apply blocks_alter. intros i. cbn [fst snd]. by rewrite IH.
Qed.

(** ** Insertion into the tree *)

Lemma free_level_ok sp :
  match free_level sp with
  | Some n => Forall (fun t => EXT_HAS_FREE_INDEX t = false) (take n sp) /\ exists x, sp !! n = Some x /\ EXT_HAS_FREE_INDEX x = true
  | None => Forall (fun t => EXT_HAS_FREE_INDEX t = false) sp
  end.
Proof.
  induction sp as [|t sp IH]; [by constructor|]. cbn [free_level]. destruct (EXT_HAS_FREE_INDEX t) eqn:E; [by split; [constructor|exists t]|].
  destruct (free_level sp) as [n|]; cbn; [destruct IH as [H1 H2]; split; [by constructor|done]|by constructor].
Qed.

Section insertion.
Context {A : Type} `{!Balloc A} (block_size inode_goal : Z).
Notation BC := (ext_space_block block_size).

Lemma spine_full cap d : forall t ps P m es Q, shape BC cap d t -> focus d t ps = Some (P, m, es, Q) ->
  Forall (fun x => EXT_HAS_FREE_INDEX x = false -> full x) (spine t ps).
Proof.
  assert (forall x, eh_entries x <= eh_max x -> EXT_HAS_FREE_INDEX x = false -> full x) as Hx.
  { intros x H1 H2. unfold EXT_HAS_FREE_INDEX, full in *. bool_prop. lia. }
  revert cap. induction d as [|d IH]; intros cap t ps P m es Q Hs Hf.
  - destruct t, ps; try done. constructor; [|constructor]. apply Hx. by destruct Hs as [_ Hl].
  - destruct t as [|dep m' l], ps as [|k ps]; try done. cbn [focus] in Hf. destruct (l !! k) as [[[f b] c]|] eqn:El; [|done].
    destruct (focus d c ps) as [[[[P0 m0] es0] S0]|] eqn:Ef; [|done]. destruct (shape_child _ _ _ _ _ _ _ _ _ _ Hs El) as [Hc _].
    cbn [spine]. rewrite El. apply Forall_app. split; [by eapply IH|]. constructor; [|constructor]. apply Hx. by destruct Hs as (_ & _ & _ & Hl & _).
Qed.

Lemma Forall_full l : Forall (fun x => EXT_HAS_FREE_INDEX x = false -> full x) l -> Forall (fun t => EXT_HAS_FREE_INDEX t = false) l -> Forall full l.
Proof. intros H1 H2. induction l; [constructor|]. inversion H1; inversion H2; subst. constructor; auto. Qed.

Lemma avail_le n m (a : A) : avail n a -> (m <= n)%nat -> avail m a.
Proof.
  revert n a. induction m as [|m IH]; intros n a H Hle; [done|]. destruct n as [|n]; [lia|]. intros goal Hgoal.
  destruct (H goal Hgoal) as (a' & b & E & H'). exists a', b. split; [done|]. apply (IH n); [done|lia].
Qed.

(** Position of a block in a tree. *)
Lemma find_floor (HBC : 0 < BC) cap d t b : shape BC cap d t -> ordered 0 (flat d t) -> exists ps pe P m es Q,
  find_extent d t b = inr (mk_path ps pe) /\ focus d t ps = Some (P, m, es, Q) /\ at_floor P es Q pe b /\ (pe = None -> flat d t = []).
Proof.
  intros Hs Ho. destruct (find_extent_ok BC HBC cap d t b Hs) as (ps & P & m & es & Q & E & Ef & HP & HQ).
  exists ps, (binsearch es b), P, m, es, Q. split; [done|]. split; [done|]. pose proof (focus_flat _ _ _ _ _ _ _ Ef) as Hflat.
  destruct (decide (flat d t = [])) as [En|En].
  - split; [|done]. rewrite En in Hflat. destruct P, es, Q; try done. cbn. split_and!; [done|intros f Hf; by apply elem_of_nil in Hf..].
  - pose proof (focus_nonempty BC _ _ _ _ _ _ _ _ Hs Ef En) as Hne. destruct (search_pos first_block es b Hne) as (c & Hc & Hlow & Hhigh).
    destruct es as [|e0 es]; [done|]. cbn [binsearch]. split; [|done]. cbn [at_floor]. set (es' := e0 :: es) in *. exists c. split; [exact Hc|]. split.
    + destruct Hlow as [Hlow|Hlow]; [|by left]. rewrite Hlow in *. destruct HP as [HP|(k & Hk & Hkb)]; [by right|]. left.
      injection Hc as <-. injection Hk as <-. done.
    + intros f Hf. rewrite Hflat in Ho. set (k := Z.to_nat _) in *. apply ordered_app in Ho as (_ & Ho & _).
      rewrite <- (take_drop (S k) es'), <- app_assoc in Ho. apply ordered_app in Ho as (_ & Ho & _). 
      destruct (drop (S k) es' ++ Q) as [|g r] eqn:Eg; [by apply elem_of_nil in Hf|].
      assert (b < first_block g) as Hg.
      { destruct (es' !! S k) as [j|] eqn:Ej.
        - rewrite (drop_S _ _ _ Ej) in Eg. injection Eg as -> _. by apply (Hhigh g).
        - rewrite drop_ge in Eg by (by apply lookup_ge_None). cbn in Eg. subst Q. by apply HQ. }
      destruct Ho as (_ & Hgok & Ho). apply elem_of_cons in Hf as [->|Hf]; [done|].
      destruct (ordered_elem _ _ f Ho Hf) as [Hl _]. pose proof (eo_count g Hgok). lia.
Qed.

Lemma focus_max cap d : forall t ps P m es Q, shape BC cap d t -> focus d t ps = Some (P, m, es, Q) ->
  m = (if d then cap else BC) /\ Z.of_nat (length es) <= m.
Proof.
  revert cap. induction d as [|d IH]; intros cap t ps P m es Q Hs Hf.
  - destruct t, ps; try done. injection Hf as <- <- <- <-. exact Hs.
  - destruct t as [|dep m' l], ps as [|k ps]; try done. cbn [focus] in Hf. destruct (l !! k) as [[[f b] c]|] eqn:El; [|done].
    destruct (focus d c ps) as [[[[P0 m0] es0] S0]|] eqn:Ef; [|done]. injection Hf as <- <- <- <-.
    destruct (shape_child _ _ _ _ _ _ _ _ _ _ Hs El) as [Hc _]. destruct (IH BC c ps _ _ _ _ Hc Ef) as [-> H]. by destruct d.
Qed.

(** The tree [t'] holds the extents of [t] and [e]; [news] are the blocks it
    has in addition. *)
Record inserted (cap : Z) (d : nat) (t : enode) (e : extent) (d' : nat) (t' : enode) (news : list Z) : Prop := {
  in_shape : shape BC cap d' t';
  in_ordered : ordered 0 (flat d' t');
  in_map : forall b, ext_map (flat d' t') b = add_map e (ext_map (flat d t)) b;
  in_blocks : blocks d' t' ≡ₚ news ++ blocks d t
}.

(** A pass that finds room in the leaf. *)
Lemma insert_pass cap d t ps P m es Q pe e fuel a :
  pshape BC cap d t ps -> (es <> [] -> shape BC cap d t) -> focus d t ps = Some (P, m, es, Q) ->
  ordered 0 (P ++ es ++ Q) -> at_floor P es Q pe (first_block e) -> ext_ok e -> unmapped (P ++ es ++ Q) e -> no_head_merge (P ++ es ++ Q) e ->
  Z.of_nat (length es) <= m ->
  insert_leaf m es pe e false = LeafSplit /\ Z.of_nat (length es) = m \/
  exists t' p', insert_extent block_size inode_goal (S fuel) t (mk_path ps pe) e false a = Ok (EOK, t', p', a) /\ inserted cap d t e d t' [].
Proof.
  intros Hps Hsh Hf Ho Hfl He Hu Hnm Hlen. destruct (insert_leaf_ok P m es Q pe e Ho Hfl He Hu Hnm Hlen) as [Hsp|(es' & cur & ex & fx & E & [G1 G2 G3 G4 G5])]; [by left|].
  right. cbn [insert_extent p_idx p_ext]. rewrite (focus_leaf _ _ _ _ _ _ _ Hf), E. cbn zeta. eexists _, _. split; [reflexivity|].
  set (t' := if fx && Nat.eqb cur 0 then _ else _).
  assert (shape BC cap d t' /\ flat d t' = P ++ es' ++ Q) as [S1 S2].
  { unfold t'. destruct (fx && Nat.eqb cur 0) eqn:Eb.
    - apply andb_true_iff in Eb as [-> ->%Nat.eqb_eq]. apply (fill_leaf_ok BC cap d t ps P m es Q es'); try done. by destruct es'.
    - destruct G5 as [[-> ->]|[G5 G6]]; [done|]. apply (set_leaf_ok BC cap d t ps P m es Q es'); auto. }
  split; rewrite ?S2, ?(focus_flat _ _ _ _ _ _ _ Hf); try done.
  unfold t'. cbn [app]. destruct (fx && Nat.eqb cur 0); by rewrite ?blocks_correct_indexes, blocks_set_leaf.
Qed.

Lemma inserted_trans cap d t e d' t1 news t2 news' :
  blocks d' t1 ≡ₚ news ++ blocks d t -> flat d' t1 = flat d t -> inserted cap d' t1 e d' t2 news' -> inserted cap d t e d' t2 (news' ++ news).
Proof. intros Hb Hf [H1 H2 H3 H4]. split; try done; [intros b; by rewrite H3, Hf|]. by rewrite H4, Hb, app_assoc. Qed.

(** Split, then insert. *)
Lemma split_insert cap d t ps P m es Q pe e fuel i a n :
  shape BC cap d t -> focus d t ps = Some (P, m, es, Q) -> ordered 0 (flat d t) -> at_floor P es Q (Some pe) (first_block e) ->
  ext_ok e -> unmapped (flat d t) e -> no_head_merge (flat d t) e -> Z.of_nat (length es) = m -> 2 <= BC ->
  (i < d)%nat -> Forall full (take (d - i) (spine t ps)) -> (exists x, spine t ps !! (d - i)%nat = Some x /\ EXT_HAS_FREE_INDEX x = true) ->
  balloc_goal (ext_find_goal inode_goal (es !! pe) 0 (first_block e)) -> avail (d - i + n) a ->
  exists t1 p1 a1 news t2 p2, split_at block_size inode_goal i t (mk_path ps (Some pe)) e a = Ok (EOK, t1, p1, a1) /\ (allocs a news a1 /\ length news = (d - i)%nat) /\ avail n a1 /\
    insert_extent block_size inode_goal (S fuel) t1 p1 e false a1 = Ok (EOK, t2, p2, a1) /\ inserted cap d t e d t2 news.
Proof.
  intros Hs Hf Ho Hfl He Hu Hnm Hlen HBC Hi Hfull Hfree Hgoal Hav. destruct (focus_max _ _ _ _ _ _ _ _ Hs Hf) as [Hm _]. destruct d as [|d]; [lia|]. cbn in Hm.
  pose proof (focus_flat _ _ _ _ _ _ _ Hf) as Hfe. rewrite Hfe in Ho, Hu, Hnm. pose proof Hfl as (c & Ec & Hlow & Hhigh). assert (Hlt := lookup_lt_Some _ _ _ Ec).
  assert (forall x, x ∈ P ++ es ++ Q -> first_block x <> first_block e) as Hne.
  { intros x Hx E. destruct (ordered_elem _ _ x Ho Hx) as [_ Hok]. pose proof (eo_count x Hok). pose proof (eo_count e He). destruct (Hu x Hx); lia. }
  assert (forall x, x ∈ P ++ take (S pe) es -> x ∈ P ++ es ++ Q) as Hin.
  { intros x [Hx|Hx]%elem_of_app; apply elem_of_app; [by left|right]. apply elem_of_app. left. rewrite <- (take_drop (S pe) es). apply elem_of_app. by left. }
  unfold split_at. cbn [p_idx p_ext]. rewrite (focus_leaf _ _ _ _ _ _ _ Hf). cbn zeta. unfold split_key. destruct (Z.eqb_spec (Z.of_nat pe) (m - 1)) as [El|El].
  - assert (drop (S pe) es = []) as Ed by (apply drop_ge; lia).
    destruct (split_node_ok block_size i (S d) cap t ps pe (first_block e) (ext_find_goal inode_goal (es !! pe) 0 (first_block e)) a n P m es Q Hs Hf Hlt Hi Hfull Hfree)
      as (t1 & news & a1 & E & [Hal Hnl] & Hav1 & Hbl & _ & Hr); [|done|done|].
    { intros x Hx. pose proof (upto_le P es Q pe c x Ho Ec Hx). destruct Hlow as [Hlow|[-> _]]; [|lia]. specialize (Hne x (Hin x Hx)). lia. }
    destruct (Hr Ed) as [Hps1 Hf1]. rewrite E. cbn [res_bind]. rewrite (Z.ltb_irrefl (first_block e)). cbn [negb andb Z.eqb EOK].
    destruct (insert_pass cap (S d) t1 (rpath i (S d) ps) (P ++ es) BC [] Q None e fuel a1 Hps1) as [[_ H0]|(t2 & p2 & E2 & Hins)]; try done.
    + cbn [app]. by rewrite <- app_assoc.
    + split_and!; [done| |].
      * intros f Hx. pose proof (upto_le P es Q pe c f Ho Ec). rewrite take_ge in H by lia. specialize (H Hx).
        assert (f ∈ P ++ es ++ Q) as Hx' by (rewrite app_assoc; apply elem_of_app; by left).
        specialize (Hne f Hx'). destruct Hlow as [Hlow|[-> _]]; [|lia]. lia.
      * intros f Hx. apply Hhigh, elem_of_app. by right.
    + cbn [app]. by rewrite <- app_assoc.
    + cbn [app]. by rewrite <- app_assoc.
    + cbn. lia.
    + cbn in H0. lia.
    + exists t1, (mk_path (rpath i (S d) ps) None), a1, news, t2, p2. split_and!; try done.
      * unfold right_path. rewrite (proj2 (Z.eqb_eq _ _) El). cbn [p_idx]. rewrite (focus_length _ _ _ _ _ _ _ Hf). done.
      * apply (inserted_trans cap (S d) t e (S d) t1 news t2 []); try done. rewrite (focus_flat _ _ _ _ _ _ _ Hf1), Hfe. cbn [app]. by rewrite <- app_assoc.
  - destruct (lookup_lt_is_Some_2 es (S pe)) as [g Hg]; [lia|]. rewrite Hg. cbn [fmap option_fmap option_map default id].
    pose proof (drop_S _ _ _ Hg) as Ed.
    destruct (split_node_ok block_size i (S d) cap t ps pe (first_block g) (ext_find_goal inode_goal (es !! pe) 0 (first_block e)) a n P m es Q Hs Hf Hlt Hi Hfull Hfree)
      as (t1 & news & a1 & E & [Hal Hnl] & Hav1 & Hbl & Hl & _); [|done|done|].
    { intros x Hx. rewrite <- (take_drop (S pe) es), <- app_assoc, Ed, app_assoc in Ho. apply ordered_app in Ho as (Ho & _ & Hx').
      specialize (Hx' x g Hx ltac:(apply elem_of_cons; by left)). destruct (ordered_elem _ _ x Ho Hx) as [_ Hok]. pose proof (eo_count x Hok). lia. }
    destruct Hl as [Hs1 Hf1]; [by rewrite Ed|]. rewrite E. cbn [res_bind].
    assert (first_block e < first_block g) as Heg. { apply Hhigh. rewrite Ed. apply elem_of_app. left. apply elem_of_cons. by left. }
    rewrite (proj2 (Z.ltb_lt _ _) Heg). cbn [negb]. rewrite andb_false_r.
    assert (P ++ take (S pe) es ++ drop (S pe) es ++ Q = P ++ es ++ Q) as Eq by (by rewrite (app_assoc (take _ _)), take_drop).
    destruct (insert_pass cap (S d) t1 ps P m (take (S pe) es) (drop (S pe) es ++ Q) (Some pe) e fuel a1 (shape_pshape _ _ _ _ _ _ _ _ _ Hs1 Hf1))
      as [[_ H0]|(t2 & p2 & E2 & Hins)]; rewrite ?Eq; try done.
    + exists c. split_and!; [|done|].
      * rewrite lookup_take, decide_True by lia. done.
      * rewrite (drop_ge (take _ _)) by (rewrite length_take; lia). done.
    + rewrite length_take. lia.
    + rewrite length_take in H0. lia.
    + exists t1, (mk_path ps (Some pe)), a1, news, t2, p2. split_and!; try done.
      apply (inserted_trans cap (S d) t e (S d) t1 news t2 []); try done. by rewrite (focus_flat _ _ _ _ _ _ _ Hf1), Hfe, Eq.
Qed.

(** ** Growing *)

(** Lookup in the tree with a new root. *)
Lemma find_grown (HBC : ext_space_root_idx <= BC) d t b blk p :
  Z.of_nat (S d) < 65536 -> shape BC ext_space_root_idx d t -> find_extent d t b = inr p ->
  find_extent (S d) (grow_root block_size t blk) b = inr (mk_path (0%nat :: p_idx p) (p_ext p)).
Proof.
  intros Hd Hs Hf. assert (0 < BC) as HB by (change ext_space_root_idx with 4 in HBC; lia).
  destruct d as [|d], t as [m l|dep m l]; try done; cbn [grow_root find_extent]; change (binsearch_idx [(_, _, _)] b) with 0%nat; cbn [lookup list_lookup].
  - assert (ext_check (Leaf BC l) (Z.of_nat 0) = true) as -> by (apply (shape_check BC BC 0 (Leaf BC l) HB); destruct Hs as [-> Hl]; cbn; split; [done|lia]).
    cbn [find_extent] in Hf. by injection Hf as <-.
  - pose proof Hs as (-> & -> & Hl0 & Hl & Hall). 
    assert (ext_check (Node (Z.of_nat (S d)) (ext_space_block_idx block_size) l) (Z.of_nat (S d)) = true) as ->.
    { apply (shape_check BC BC (S d) (Node _ _ l) HB). cbn [shape]. split_and!; try done. change (ext_space_block_idx block_size) with BC. lia. }
    cbn [find_extent] in Hf. by rewrite Hf.
Qed.

Lemma focus_grown d t ps P m es Q blk : focus d t ps = Some (P, m, es, Q) ->
  focus (S d) (grow_root block_size t blk) (0%nat :: ps) = Some (P, if d then BC else m, es, Q).
Proof.
  intros Hf. destruct d as [|d], t as [m' l|dep m' l], ps as [|k ps]; try done.
  - injection Hf as <- <- <- <-. done.
  - cbn [grow_root]. erewrite (focus_Node (S d)) by done. change (focus (S d) (Node ?x ?y ?z) ?w) with (focus (S d) (Node dep m' z) w).
    rewrite Hf. cbn [take drop]. unfold flats. cbn. by rewrite app_nil_r.
Qed.

Lemma spine_grown d t ps P m es Q blk : focus (S d) t ps = Some (P, m, es, Q) -> shape BC ext_space_root_idx (S d) t -> ext_space_root_idx < BC ->
  take (S d) (spine (grow_root block_size t blk) (0%nat :: ps)) = take (S d) (spine t ps) /\
  exists x, spine (grow_root block_size t blk) (0%nat :: ps) !! S d = Some x /\ EXT_HAS_FREE_INDEX x = true.
Proof.
  intros Hf Hs HB. destruct t as [|dep m' l], ps as [|k ps]; try done. cbn [focus] in Hf. destruct (l !! k) as [[[f b] c]|] eqn:El; [|done].
  destruct (focus d c ps) as [[[[P0 m0] es0] S0]|] eqn:Ef; [|done]. cbn [grow_root spine lookup list_lookup]. rewrite El. 
  pose proof (spine_length _ _ _ _ _ _ _ Ef) as Hl. rewrite !take_app_le by (rewrite ?length_app, Hl; cbn; lia). split; [done|].
  rewrite <- app_assoc, lookup_app_r, Hl, Nat.sub_diag by lia. eexists. split; [reflexivity|]. unfold EXT_HAS_FREE_INDEX. cbn [eh_entries eh_max].
  destruct Hs as (_ & -> & _ & Hl' & _). change (ext_space_block_idx block_size) with BC. apply Z.ltb_lt. lia.
Qed.

Lemma spine_head d : forall t ps P m es Q, focus d t ps = Some (P, m, es, Q) -> spine t ps !! 0%nat = Some (Leaf m es).
Proof.
  induction d as [|d IH]; intros t ps P m es Q H.
  - destruct t, ps; try done. by injection H as <- <- <- <-.
  - destruct t as [|dep m' l], ps as [|k ps]; try done. cbn [focus] in H. destruct (l !! k) as [[[f b] c]|] eqn:El; [|done].
    destruct (focus d c ps) as [[[[P0 m0] es0] S0]|] eqn:Ef; [|done]. injection H as <- <- <- <-. cbn [spine]. rewrite El.
    apply lookup_app_l_Some. by apply (IH _ _ _ _ _ _ Ef).
Qed.

(** With a new root there is room in the leaf that was the root, or in the
    index node that was. *)
Lemma grow_insert d t ps P m es Q k e fuel a n b :
  ext_space_root_idx < BC -> Z.of_nat (S d) < 65536 -> shape BC ext_space_root_idx d t -> ordered 0 (flat d t) ->
  focus d t ps = Some (P, m, es, Q) -> at_floor P es Q (Some k) (first_block e) ->
  ext_ok e -> unmapped (flat d t) e -> no_head_merge (flat d t) e -> Z.of_nat (length es) = m -> Forall full (spine t ps) ->
  balloc_goal (ext_find_goal inode_goal (es !! k) 0 (first_block e)) -> avail (d + n) a ->
  let t' := grow_root block_size t b in let p' := mk_path (0%nat :: ps) (Some k) in
  exists t2 p2 a2 news, inserted ext_space_root_idx d t e (S d) t2 (news ++ [b]) /\ (allocs a news a2 /\ (length news <= d)%nat) /\ avail n a2 /\
    (match d with
     | O => insert_extent block_size inode_goal (S fuel) t' p' e false a
     | S _ =>
         let* (err, t, p, a) := split_at block_size inode_goal 1 t' p' e a in
         if err =? EOK then insert_extent block_size inode_goal (S fuel) t p e false a else Ok (err, t, p, a)
     end) = Ok (EOK, t2, p2, a2).
Proof.
  intros HBC Hd Hs Ho Hf Hfl He Hu Hnm Hml Hfull Hgoal Hav t' p'. change ext_space_root_idx with 4 in HBC. pose proof (focus_flat _ _ _ _ _ _ _ Hf) as Hfe.
  assert (flat d t <> []) as Hne. { rewrite Hfe. destruct Hfl as (c & Ec & _). destruct P, es; done. }
  destruct (grow_root_ok block_size d t b) as (Hs' & Hfl' & Hbl'); [change ext_space_root_idx with 4; lia|done..|]. fold t' in Hs', Hfl', Hbl'.
  assert (blocks (S d) t' ≡ₚ [b] ++ blocks d t) as Hb by (by rewrite Hbl').
  destruct (focus_max _ _ _ _ _ _ _ _ Hs Hf) as [Hm _]. pose proof (focus_grown d t ps P m es Q b Hf) as Hf'. fold t' in Hf'. destruct d as [|d].
  - rewrite Hfe in Ho, Hu, Hnm. change ext_space_root_idx with 4 in Hm.
    destruct (insert_pass ext_space_root_idx 1 t' (0%nat :: ps) P BC es Q (Some k) e fuel a (shape_pshape _ _ _ _ _ _ _ _ _ Hs' Hf')) as [[_ H0]|(t2 & p2 & E & Hins)]; try done; try lia.
    exists t2, p2, a, []. split_and!; [|constructor|done|done|done]. by apply (inserted_trans _ 0 t e 1 t' [b] t2 []).
  - rewrite <- Hfl' in Ho, Hu, Hnm. destruct (spine_grown d t ps P m es Q b Hf Hs) as [Hsp Hfree]; [change ext_space_root_idx with 4; lia|]. fold t' in Hsp, Hfree.
    destruct (split_insert ext_space_root_idx (S (S d)) t' (0%nat :: ps) P m es Q k e fuel 1 a n Hs' Hf' Ho Hfl He Hu Hnm Hml) as (t1 & p1 & a1 & news & t2 & p2 & E1 & [Hal Hnl] & Hav1 & E2 & Hins);
      try lia; cbn [Nat.sub]; try done.
    { rewrite Hsp. by apply Forall_take. }
    unfold p'. rewrite E1. cbn [res_bind]. rewrite Z.eqb_refl, E2. exists t2, p2, a1, news. split_and!; [|done|lia|done..].
    by apply (inserted_trans _ (S d) t e (S (S d)) t' [b] t2 news).
Qed.

Lemma allocs_cons a goal b a1 news a2 : balloc_goal goal -> balloc_alloc a goal 1 = Ok (a1, inr b) -> allocs a1 news a2 -> allocs a (b :: news) a2.
Proof.
  intros Hg E H. induction H as [a1|a1 bs a' g b' a'' H IH Hg' E'].
  - apply (allocs_snoc a [] a goal b a1); [constructor|done|done].
  - change (b :: bs ++ [b']) with ((b :: bs) ++ [b']). eapply allocs_snoc; [by apply IH|exact Hg'|done].
Qed.

(** ** Insertion *)

Lemma insert_extent_correct d t p e fuel a n :
  ext_space_root_idx < BC -> Z.of_nat (S d) < 65536 -> shape BC ext_space_root_idx d t -> ordered 0 (flat d t) ->
  find_extent d t (first_block e) = inr p -> ext_ok e -> unmapped (flat d t) e -> no_head_merge (flat d t) e ->
  (forall m es k, leaf_at t (p_idx p) = Some (m, es) -> p_ext p = Some k -> balloc_goal (ext_find_goal inode_goal (es !! k) 0 (first_block e))) ->
  balloc_goal (grow_goal inode_goal t) -> avail (S d + n) a -> (2 <= fuel)%nat ->
  exists d' t' p' a' news, insert_extent block_size inode_goal fuel t p e false a = Ok (EOK, t', p', a') /\
    (d <= d' <= S d)%nat /\ inserted ext_space_root_idx d t e d' t' news /\ (allocs a news a' /\ (length news <= S d)%nat) /\ avail n a'.
Proof.
  intros HBC Hd Hs Ho Hfind He Hu Hnm Hgoal Hgrow Hav Hfuel. change ext_space_root_idx with 4 in HBC.
  destruct (find_floor ltac:(lia) ext_space_root_idx d t (first_block e) Hs Ho) as (ps & pe & P & m & es & Q & Hfind' & Hf & Hfl & Hempty).
  rewrite Hfind in Hfind'. injection Hfind' as ->. pose proof (focus_flat _ _ _ _ _ _ _ Hf) as Hfe. destruct (focus_max _ _ _ _ _ _ _ _ Hs Hf) as [Hm Hlen].
  destruct fuel as [|[|fuel]]; [lia..|]. pose proof Ho as Ho'. pose proof Hu as Hu'. pose proof Hnm as Hnm'. rewrite Hfe in Ho', Hu', Hnm'.
  destruct (insert_pass ext_space_root_idx d t ps P m es Q pe e (S fuel) a (shape_pshape _ _ _ _ _ _ _ _ _ Hs Hf)) as [[Hsp Hml]|(t' & p' & E & Hins)]; try done.
  2:{ exists d, t', p', a, []. split_and!; [done|lia|lia|done|constructor|cbn; lia|]. eapply avail_le; [exact Hav|lia]. }
  assert (exists k, pe = Some k) as [k ->].
  { destruct pe as [k|]; [by exists k|]. rewrite (Hempty eq_refl) in Hfe. destruct P, es; try done. change ext_space_root_idx with 4 in Hm. cbn in Hml. destruct d; lia. }
  pose proof (spine_full _ _ _ _ _ _ _ _ Hs Hf) as Hfull. pose proof (spine_length _ _ _ _ _ _ _ Hf) as Hsl.
  specialize (Hgoal m es k (focus_leaf _ _ _ _ _ _ _ Hf) eq_refl).
  pose proof (free_level_ok (spine t ps)) as Hfr. remember (S fuel) as fu eqn:Efu. cbn [insert_extent p_idx p_ext].
  rewrite (focus_leaf _ _ _ _ _ _ _ Hf), Hsp. cbn zeta. rewrite (focus_length _ _ _ _ _ _ _ Hf). destruct (free_level (spine t ps)) as [lev|].
  - destruct Hfr as [Hfl1 Hfr]. assert (lev < S d)%nat as Hlev by (destruct Hfr as (x & Hx & _); apply lookup_lt_Some in Hx; lia). destruct lev as [|lev].
    { exfalso. destruct Hfr as (x & Hx & Hfree). rewrite (spine_head _ _ _ _ _ _ _ Hf) in Hx. injection Hx as <-.
      unfold EXT_HAS_FREE_INDEX in Hfree. cbn [eh_entries eh_max] in Hfree. bool_prop. lia. }
    destruct (split_insert ext_space_root_idx d t ps P m es Q k e fuel (d - S lev) a n Hs Hf Ho Hfl He Hu Hnm Hml) as (t1 & p1 & a1 & news & t2 & p2 & E1 & [Hal Hnl] & Hav1 & E2 & Hins);
      try lia; replace (d - (d - S lev))%nat with (S lev) by lia; try done.
    { by apply Forall_full; [apply Forall_take|]. } { eapply avail_le; [exact Hav|lia]. }
    rewrite E1. cbn [res_bind]. rewrite Z.eqb_refl, Efu, E2. exists d, t2, p2, a1, news. split_and!; [done|lia|lia|done|done|lia|done].
  - destruct (Hav (grow_goal inode_goal t) Hgrow) as (a0 & b & Eb & Hav0). rewrite Eb. cbn zeta.
    cbn [res_bind]. rewrite (find_grown ltac:(change ext_space_root_idx with 4; lia) d t (first_block e) b _ Hd Hs Hfind). cbn [p_idx p_ext].
    destruct (grow_insert d t ps P m es Q k e fuel a0 n b) as (t2 & p2 & a2 & news & Hins & [Hal Hnl] & Hav2 & E); try done.
    { by apply Forall_full. }
    exists (S d), t2, p2, a2, (b :: news). rewrite Efu. destruct Hins as [I1 I2 I3 I4]. split_and!; [by destruct d|lia|lia| |by eapply allocs_cons|cbn [length]; lia|done].
    split; try done. rewrite I4, <- Permutation_cons_append. done.
Qed.
End insertion.
