(* ===== verification/Ext4Map.v ===== *)
(** * Mapping the blocks of a file

    [ext4_extent_get_blocks] over the tree of [Ext4Extent]: it looks a block
    up or maps new blocks for it.  Above it, [lwext4_get_block] is the
    operation the journal and the page cache call. *)

From S2P Require Import Prelude TxBuild InodeAlloc Ext4Extent Ext4Tree Ext4Insert.

(** ** The operation of the inode *)

Definition EINVAL : Z := 22.

Section get_block.
Context {A : Type} `{!Balloc A} (block_size inode_goal : Z).

(** [ext4_fs_get_inode_dblk_idx_internal] of an inode with extents: the error
    code, the block and the buffer extent, if one is passed; an empty file
    leaves it as it is.  The message about a block that is not found reads the
    buffer extent. *)
Definition get_inode_dblk_idx_internal (fuel : nat) (size : Z) (t : enode) (iblock : Z) (extent_create support_unwritten : bool) (n_blks : Z)
    (be : option buffer_extent) (a : A) : res (Z * Z * option buffer_extent * enode * A) :=
  if size =? 0 then Ok (EOK, 0, be, t, a)
  else
    let* r := get_blocks block_size inode_goal fuel t iblock n_blks extent_create a in
    let be := (fun _ => g_be r) <$> be in
    if negb (g_err r =? EOK) then Ok (g_err r, 0, be, g_tree r, g_bal r)
    else if negb (negb (g_result r =? 0) || support_unwritten) then
      match be with Some _ => Ok (EINVAL, g_result r, be, g_tree r, g_bal r) | None => Abort end
    else Ok (EOK, g_result r, be, g_tree r, g_bal r).

Definition get_inode_dblk_idxs (fuel : nat) (size : Z) (t : enode) (iblock n_blks_create : Z) (be : option buffer_extent) (a : A) :
    res (Z * Z * option buffer_extent * enode * A) :=
  if negb (n_blks_create =? 0) then get_inode_dblk_idx_internal fuel size t iblock true true n_blks_create be a
  else get_inode_dblk_idx_internal fuel size t iblock false false 1 be a.

(** The loop creates all blocks in its first pass. *)
Definition lwext4_get_block (fuel : nat) (size : Z) (t : enode) (be : option buffer_extent) (iblock create : Z) (a : A) :
    res (Z * option buffer_extent * enode * A) :=
  if create =? 0 then
    let* (ret, fblk, be, t, a) := get_inode_dblk_idxs fuel size t (u32 iblock) 0 be a in
    if negb (ret =? EOK) then Ok (ret, be, t, a)
    else assert! (match be with Some be => 1 <=? be_nr be | None => true end) in Ok (0, be, t, a)
  else
    let* (ret, fblk, be, t, a) := get_inode_dblk_idxs fuel size t (u32 iblock) create be a in
    if negb (ret =? EOK) then Ok (ret, be, t, a)
    else assert! (match be with Some be => be_lba be =? fblk | None => true end) in Ok (0, be, t, a).

(** As the operation of the inode. *)
Definition ext4_i_op (fuel : nat) (size : Z) (ta : enode * A) (be : bool) (cur cnt : Z) : res (enode * A * Z) :=
  let* (ret, _, t, a) := lwext4_get_block fuel size ta.1 (if be then Some (mk_be 0 0 0) else None) cur cnt ta.2 in Ok (t, a, ret).
End get_block.

(** ** Lookup *)

Lemma shape_depth BC cap d t : shape BC cap d t -> eh_depth t = Z.of_nat d.
Proof. destruct d, t; try done. by intros (-> & _). Qed.

Lemma IN_RANGE_covers e b : ext_ok e -> 0 <= b -> IN_RANGE b (first_block e) (get_actual_len e) = covers e b.
Proof.
  intros He Hb. unfold IN_RANGE, covers. destruct (ext_ok_len e He) as [-> _]. destruct He as [H1 H2 H3 _ _]. unfold EXT_MAX_BLOCKS in *.
  rewrite u32_id by lia. f_equal. apply Bool.eq_iff_eq_true. rewrite Z.leb_le, Z.ltb_lt. lia.
Qed.

(** Only the extent at the position of a block can map it. *)
Lemma floor_map P es Q k c b : ordered 0 (P ++ es ++ Q) -> at_floor P es Q (Some k) b -> es !! k = Some c ->
  ext_map (P ++ es ++ Q) b = if covers c b then Some (ext_pblock c + (b - first_block c)) else None.
Proof.
  intros Ho (c' & Ec' & Hlow & Hhigh) Ec. rewrite Ec in Ec'. injection Ec' as <-.
  rewrite <- (take_drop_middle es k c Ec), <- !app_assoc in *. cbn [app] in *. rewrite app_assoc in *.
  rewrite ext_map_app, ext_map_cons, ext_map_none.
  - destruct (covers c b); [done|]. apply ext_map_none. intros f Hf. 
    assert (b < first_block f) as H.
    { apply Hhigh. rewrite drop_app_ge by (rewrite length_take; lia). apply lookup_lt_Some in Ec. rewrite length_take.
      replace (S k - k `min` length es)%nat with 1%nat by lia. done. }
    unfold covers. destruct (Z.leb_spec (first_block f) b); [lia|done].
  - apply ordered_app in Ho as (_ & _ & Hx). intros f Hf. specialize (Hx f c Hf ltac:(apply elem_of_cons; by left)).
    destruct Hlow as [Hlow|[-> ->]]; [|by apply elem_of_nil in Hf]. unfold covers. destruct (Z.leb_spec (first_block f) b); [|done].
    destruct (Z.ltb_spec b (first_block f + block_count f)); [lia|done].
Qed.

Section blocks.
Context {A : Type} `{!Balloc A} (block_size inode_goal : Z).
Notation BC := (ext_space_block block_size).
Context (HBC : ext_space_root_idx < BC).
Context (d : nat) (t : enode) (Hs : shape BC ext_space_root_idx d t) (Ho : ordered 0 (flat d t)).

(** The start of [get_blocks]: the path of the block and its extent. *)
Lemma find_block b : 0 <= b -> exists ps pe P m es Q,
  find_extent (Z.to_nat (eh_depth t)) t b = inr (mk_path ps pe) /\ leaf_at t ps = Some (m, es) /\ focus d t ps = Some (P, m, es, Q) /\
  at_floor P es Q pe b /\ flat d t = P ++ es ++ Q /\
  match pe with
  | Some k => exists c, es !! k = Some c /\ ext_ok c /\ c ∈ flat d t /\ ext_map (flat d t) b = if covers c b then Some (ext_pblock c + (b - first_block c)) else None
  | None => flat d t = [] /\ d = 0%nat
  end.
Proof.
  intros Hb. change ext_space_root_idx with 4 in HBC. destruct (find_floor block_size ltac:(lia) _ d t b Hs Ho) as (ps & pe & P & m & es & Q & E & Hf & Hfl & Hn).
  exists ps, pe, P, m, es, Q. rewrite (shape_depth _ _ _ _ Hs), Nat2Z.id. pose proof (focus_flat _ _ _ _ _ _ _ Hf) as Hfe.
  split_and!; try done; [by apply (focus_leaf _ _ _ _ _ _ _ Hf)|]. destruct pe as [k|].
  - pose proof Hfl as (c & Ec & _). assert (c ∈ flat d t) as Hc.
    { rewrite Hfe. apply elem_of_app. right. apply elem_of_app. left. by eapply list_elem_of_lookup_2. }
    exists c. destruct (ordered_elem _ _ _ Ho Hc) as [_ Hok]. split_and!; try done. rewrite Hfe in *. by apply (floor_map P es Q k).
  - split; [by apply Hn|]. destruct d as [|d']; [done|]. destruct t as [|dep m' l]; [done|]. destruct Hs as (_ & _ & Hl0 & _ & Hall).
    destruct l as [|i l]; [done|]. apply Forall_cons in Hall as [[_ Hk] _]. specialize (Hn eq_refl). change (flats d' (i :: l) = []) in Hn.
    rewrite flats_cons in Hn. apply app_eq_nil in Hn as [Hn _]. rewrite Hn in Hk. done.
Qed.

Lemma get_blocks_mapped fuel b pb max_blocks create a : 0 <= b -> 0 < max_blocks -> ext_map (flat d t) b = Some pb ->
  exists e, e ∈ flat d t /\ ext_ok e /\ covers e b = true /\ pb = ext_pblock e + (b - first_block e) /\
    get_blocks block_size inode_goal fuel t b max_blocks create a =
      Ok (mk_blocks EOK pb (Z.min max_blocks (first_block e + block_count e - b)) (mk_be (first_block e) (ext_pblock e) (block_count e)) t a).
Proof.
  intros Hb Hmax Hm. destruct (find_block b Hb) as (ps & pe & P & m & es & Q & E & Hl & Hf & Hfl & Hfe & Hpe).
  unfold get_blocks. rewrite E. cbn [p_idx p_ext]. rewrite Hl. destruct pe as [k|]; [|destruct Hpe as [Hpe _]; by rewrite Hpe in Hm].
  destruct Hpe as (c & Ec & Hok & Hin & Em). rewrite Em in Hm. rewrite Ec, (IN_RANGE_covers c b Hok Hb). destruct (covers c b) eqn:Ecov; [|done].
  injection Hm as <-. exists c. split_and!; try done. unfold ext_be. destruct (ext_ok_len c Hok) as [-> ->]. cbn [negb]. 
  pose proof (ext_pblock_range c Hok). unfold covers in Ecov. bool_prop. destruct Hok as [_ Hn _ _ _]. unfold EXT_INIT_MAX_LEN in *.
  rewrite u64_id by lia. do 2 f_equal; [lia|]. destruct (Z.ltb_spec max_blocks (block_count c - (b - first_block c))); lia.
Qed.

Lemma get_blocks_hole fuel b max_blocks a : 0 <= b -> ext_map (flat d t) b = None ->
  get_blocks block_size inode_goal fuel t b max_blocks false a = Ok (mk_blocks EOK 0 0 (mk_be 0 0 0) t a).
Proof.
  intros Hb Hm. destruct (find_block b Hb) as (ps & pe & P & m & es & Q & E & Hl & Hf & Hfl & Hfe & Hpe).
  unfold get_blocks. rewrite E. cbn [p_idx p_ext]. rewrite Hl. destruct pe as [k|]; [|done].
  destruct Hpe as (c & Ec & Hok & Hin & Em). rewrite Em in Hm. rewrite Ec, (IN_RANGE_covers c b Hok Hb). by destruct (covers c b).
Qed.
End blocks.

(** ** New blocks *)

Lemma head_key_fmap n es : first_block <$> es !! n = head_key (drop n es).
Proof. revert n. induction es as [|e es IH]; intros [|n]; try done. apply IH. Qed.

(** The next mapped block behind the path. *)
Lemma next_allocated_ok BC d : forall cap t ps P m es Q k, shape BC cap d t -> focus d t ps = Some (P, m, es, Q) ->
  next_allocated t ps (Some k) = head_key (drop (S k) es ++ Q).
Proof.
  induction d as [|d IH]; intros cap t ps P m es Q k Hs Hf.
  - destruct t, ps; try done. injection Hf as <- <- <- <-. cbn [next_allocated]. rewrite app_nil_r. apply head_key_fmap.
  - destruct t as [|dep m' l], ps as [|j ps]; try done. cbn [focus] in Hf. destruct (l !! j) as [[[f b] c]|] eqn:El; [|done].
    destruct (focus d c ps) as [[[[P0 m0] es0] Q0]|] eqn:Ef; [|done]. injection Hf as <- <- <- <-.
    destruct (shape_child _ _ _ _ _ _ _ _ _ _ Hs El) as [Hc _]. cbn [next_allocated]. rewrite El, (IH _ _ _ _ _ _ _ _ Hc Ef), app_assoc.
    destruct (drop (S k) es0 ++ Q0) as [|g r]; [|done]. cbn [head_key head fmap option_fmap option_map app].
    destruct (l !! S j) as [i|] eqn:Ei.
    + rewrite (drop_S _ _ _ Ei), flats_cons. destruct Hs as (_ & _ & _ & _ & Hall). rewrite Forall_lookup in Hall. destruct (Hall _ _ Ei) as [_ Hk].
      by rewrite head_key_app, Hk by (by apply head_key_Some in Hk).
    + by rewrite drop_ge by (by apply lookup_ge_None).
Qed.

(** The extents behind [b], up to which new blocks are mapped. *)
Definition next_mapped (es : list extent) (b : Z) : Z := default EXT_MAX_BLOCKS (head_key (filter (fun e => b < first_block e) es)).

Lemma next_mapped_ok es b : ordered 0 es -> b < EXT_MAX_BLOCKS ->
  b < next_mapped es b <= EXT_MAX_BLOCKS /\ (forall e, e ∈ es -> b < first_block e -> next_mapped es b <= first_block e).
Proof.
  intros Ho Hb. unfold next_mapped.
  revert Ho. generalize 0 as lo. induction es as [|e es IH]; intros lo Ho.
  { cbn. split; [lia|]. intros e He. by apply elem_of_nil in He. }
  destruct Ho as (H1 & H2 & H3). rewrite filter_cons. destruct (decide (b < first_block e)) as [Hlt|Hge].
  - cbn. destruct H2 as [_ Hn He _ _]. split; [lia|]. intros f [->|Hf]%elem_of_cons _; [lia|]. destruct (ordered_elem _ _ f H3 Hf) as [Hl _]. lia.
  - destruct (IH _ H3) as [G1 G2]. split; [done|]. intros f [->|Hf]%elem_of_cons; [lia|]. by apply G2.
Qed.

Lemma filter_behind es1 es2 b : (forall f, f ∈ es1 -> first_block f <= b) -> (forall f, f ∈ es2 -> b < first_block f) ->
  filter (fun e => b < first_block e) (es1 ++ es2) = es2.
Proof.
  intros H1 H2. induction es1 as [|e es1 IH]; cbn [app].
  - induction es2 as [|f es2 IH]; [done|]. rewrite filter_cons_True by (apply H2, elem_of_cons; by left). f_equal. apply IH.
    intros g Hg. apply H2, elem_of_cons. by right.
  - rewrite filter_cons_False.
    + apply IH. intros f Hf. apply H1, elem_of_cons. by right.
    + specialize (H1 e ltac:(apply elem_of_cons; by left)). lia.
Qed.

Lemma floor_next P es Q k c b : ordered 0 (P ++ es ++ Q) -> at_floor P es Q (Some k) b -> es !! k = Some c -> first_block c <= b ->
  default EXT_MAX_BLOCKS (head_key (drop (S k) es ++ Q)) = next_mapped (P ++ es ++ Q) b.
Proof.
  intros Ho (c' & Ec' & _ & Hhigh) Ec Hc. unfold next_mapped. do 2 f_equal.
  rewrite <- (take_drop (S k) es) at 2. rewrite <- app_assoc, app_assoc, filter_behind; [done| |done].
  intros f Hf. pose proof (upto_le P es Q k c f Ho Ec Hf). lia.
Qed.

(** Number of blocks mapped for a request at [b]. *)
Definition new_count (es : list extent) (b max_blocks : Z) : Z := Z.min max_blocks (next_mapped es b - b).

Lemma new_unmapped es b n e : ordered 0 es -> ext_map es b = None -> b < EXT_MAX_BLOCKS -> first_block e = b -> block_count e = n ->
  n <= next_mapped es b - b -> unmapped es e.
Proof.
  intros Ho Hm Hb E1 E2 Hn f Hf. destruct (next_mapped_ok es b Ho Hb) as [_ Hx]. rewrite E1, E2.
  destruct (Z.ltb_spec b (first_block f)) as [Hlt|Hge]; [right; specialize (Hx f Hf Hlt); lia|left].
  destruct (Z.leb_spec (first_block f + block_count f) b); [done|]. exfalso.
  assert (covers f b = true) as Hc by (unfold covers; apply andb_true_iff; split; [apply Z.leb_le|apply Z.ltb_lt]; lia).
  unfold ext_map in Hm. destruct (List.find _ es) as [g|] eqn:Eg; [done|]. rewrite (List.find_none _ _ Eg f) in Hc; [done|]. by apply list_elem_of_In.
Qed.

Section create.
Context {A : Type} `{!Balloc A} (block_size inode_goal : Z).
Notation BC := (ext_space_block block_size).
Context (HBC : ext_space_root_idx < BC).
Context (d : nat) (t : enode) (Hs : shape BC ext_space_root_idx d t) (Ho : ordered 0 (flat d t)) (Hd : Z.of_nat (S d) < 65536).

(** The goals of a request at [b] lie on the disk: the place of [b] behind the
    last extent before it, the goal of the inode and the nodes of the tree. *)
Definition floor_of (es : list extent) (b : Z) (c : extent) : Prop :=
  c ∈ es /\ first_block c <= b /\ forall f, f ∈ es -> first_block f <= b -> first_block f <= first_block c.
Record goals_ok (b : Z) : Prop := {
  gk_floor c : floor_of (flat d t) b c -> balloc_goal (u64 (ext_pblock c + (b - first_block c)));
  gk_inode : balloc_goal inode_goal;
  gk_tree x : x ∈ blocks d t -> balloc_goal x
}.

Lemma goals_grow b : goals_ok b -> balloc_goal (grow_goal inode_goal t).
Proof.
  intros [_ H1 H2]. destruct d as [|d'], t as [m l|dep m l]; try done. cbn [grow_goal]. destruct Hs as (_ & _ & Hl & _). destruct l as [|i l]; [done|].
  apply H2. change (ix_leaf i ∈ bls d' (i :: l)). rewrite bls_cons. apply elem_of_cons. by left.
Qed.

Lemma goals_floor b P es Q k c lb : goals_ok b -> flat d t = P ++ es ++ Q -> at_floor P es Q (Some k) b -> es !! k = Some c -> first_block c < b ->
  balloc_goal (ext_find_goal inode_goal (Some c) lb b).
Proof.
  intros Hgk Hfe (c' & Ec' & _ & Hhigh) Ec Hc. rewrite Ec in Ec'. injection Ec' as <-. unfold ext_find_goal. rewrite (proj2 (Z.ltb_lt _ _) Hc). apply Hgk. split_and!; [|lia|].
  - rewrite Hfe. apply elem_of_app. right. apply elem_of_app. left. by eapply list_elem_of_lookup_2.
  - intros f Hf Hfb. rewrite Hfe in Hf, Ho. rewrite <- (take_drop (S k) es), <- app_assoc, app_assoc in Hf. apply elem_of_app in Hf as [Hf|Hf].
    + by apply (upto_le P es Q k c f Ho Ec).
    + specialize (Hhigh f Hf). lia.
Qed.

(** A request for a block without mapping, at or behind the first extent. *)
Lemma get_blocks_new fuel b max_blocks a n :
  0 <= b < EXT_MAX_BLOCKS -> ext_map (flat d t) b = None -> (forall c, head (flat d t) = Some c -> first_block c <= b) ->
  0 < max_blocks <= EXT_INIT_MAX_LEN -> (2 <= fuel)%nat -> goals_ok b ->
  (forall goal, balloc_goal goal -> exists a' pb, balloc_alloc a goal (new_count (flat d t) b max_blocks) = Ok (a', inr pb) /\ 0 < pb < 2 ^ 48 /\ avail (S d + n) a') ->
  let cnt := new_count (flat d t) b max_blocks in
  exists goal a1 pb d' t' a2 news, (balloc_goal goal /\ balloc_alloc a goal cnt = Ok (a1, inr pb)) /\
    get_blocks block_size inode_goal fuel t b max_blocks true a = Ok (mk_blocks EOK pb cnt (mk_be b pb cnt) t' a2) /\
    0 < cnt <= max_blocks /\ (d <= d' <= S d)%nat /\ inserted block_size ext_space_root_idx d t (new_extent b cnt pb) d' t' news /\ (allocs a1 news a2 /\ (length news <= S d)%nat) /\ avail n a2.
Proof.
  intros Hb Hm Hhead Hmax Hfuel Hgk Hal cnt. destruct (find_block block_size HBC d t Hs Ho b ltac:(lia)) as (ps & pe & P & m & es & Q & E & Hl & Hf & Hfl & Hfe & Hpe).
  destruct (next_mapped_ok (flat d t) b Ho ltac:(lia)) as [Hnx _]. assert (0 < cnt <= max_blocks /\ b + cnt <= next_mapped (flat d t) b) as [Hcnt Hend] by (unfold cnt, new_count; lia).
  assert (default EXT_MAX_BLOCKS (next_allocated t ps pe) = next_mapped (flat d t) b) as Hnext.
  { destruct pe as [k|].
    - destruct Hpe as (c & Ec & Hok & Hin & _). rewrite (next_allocated_ok BC d _ _ _ _ _ _ _ k Hs Hf). rewrite Hfe in Ho, Hhead |- *.
      apply (floor_next P es Q k c b Ho Hfl Ec). destruct Hfl as (c' & Ec' & [Hlow|[-> ->]] & _); rewrite Ec in Ec'; injection Ec' as <-; [done|].
      apply Hhead. destruct es; [done|]. by injection Ec as ->.
    - destruct Hpe as [-> ->]. by destruct t, ps. }
  assert (forall k c, pe = Some k -> es !! k = Some c -> first_block c < b) as Hlow.
  { intros k c -> Ec. destruct Hpe as (c' & Ec' & Hok & Hin & Em). rewrite Ec in Ec'. injection Ec' as <-. rewrite Em in Hm.
    pose proof (eo_count c Hok). assert (first_block c <= b) as Hle.
    { destruct Hfl as (c' & Ec' & [Hlow|[-> ->]] & _); rewrite Ec in Ec'; injection Ec' as <-; [done|]. apply Hhead. rewrite Hfe. destruct es; [done|]. by injection Ec as ->. }
    destruct (Z.eq_dec (first_block c) b) as [<-|]; [|lia]. unfold covers in Hm. rewrite Z.leb_refl, (proj2 (Z.ltb_lt _ _)) in Hm by lia. done. }
  assert (get_blocks block_size inode_goal fuel t b max_blocks true a =
    map_new_blocks block_size inode_goal fuel t (mk_path ps pe) (match pe with Some k => es !! k | None => None end) b max_blocks a) as ->.
  { unfold get_blocks. rewrite E. cbn [p_idx p_ext]. rewrite Hl. destruct pe as [k|]; [|done].
    destruct Hpe as (c & Ec & Hok & Hin & Em). rewrite Em in Hm. rewrite Ec, (IN_RANGE_covers c b Hok) by lia. by destruct (covers c b). }
  unfold map_new_blocks. cbn zeta. unfold ext_next_allocated_block. cbn [p_idx p_ext]. rewrite Hnext. unfold EXT_MAX_BLOCKS, EXT_INIT_MAX_LEN in *.
  rewrite u32_id by lia. set (al := if max_blocks <? next_mapped (flat d t) b - b then max_blocks else next_mapped (flat d t) b - b).
  assert (al = cnt) as -> by (unfold al, cnt, new_count; destruct (Z.ltb_spec max_blocks (next_mapped (flat d t) b - b)); lia).
  set (goal := ext_find_goal _ _ _ _).
  assert (balloc_goal goal) as Hgoal.
  { unfold goal. destruct pe as [k|].
    - destruct Hpe as (c & Ec & _). rewrite Ec. apply (goals_floor b P es Q k); try done. by apply (Hlow k).
    - destruct Hpe as [_ ->]. destruct t, ps; try done. apply Hgk. }
  destruct (Hal goal Hgoal) as (a1 & pb & Ea & Hpb & Hav). fold cnt in Ea.
  assert (new_meta_blocks a goal cnt = Ok (a1, inr pb, cnt)) as ->.
  { unfold new_meta_blocks. destruct (Z.ltb_spec 1 cnt); [by rewrite Ea|]. assert (cnt = 1) as -> by lia. by rewrite Ea. }
  cbn [res_bind]. destruct (new_extent_ok b cnt pb) as (Nok & N1 & N2 & N3); [lia|unfold EXT_INIT_MAX_LEN; lia|unfold EXT_MAX_BLOCKS; lia|lia|]. rewrite (proj2 (Z.eqb_neq pb 0)) by lia. set (e := new_extent b cnt pb) in *.
  destruct (insert_extent_correct block_size inode_goal d t (mk_path ps pe) e fuel a1 n) as (d' & t' & p' & a2 & news & Ei & Hd' & Hins & [Hal' Hnl] & Hav'); try done.
  - rewrite N1. rewrite <- E. by rewrite (shape_depth _ _ _ _ Hs), Nat2Z.id.
  - apply (new_unmapped _ b cnt); try done; unfold EXT_MAX_BLOCKS; lia.
  - intros c Hc. specialize (Hhead c Hc). unfold can_prepend. destruct (ext_ok_len e Nok) as [-> _]. rewrite N1, N2.
    rewrite (u32_id (b + cnt)) by lia. rewrite (proj2 (Z.eqb_neq (b + cnt) _)) by lia. apply andb_false_r.
  - rewrite N1. intros m' es' k. cbn [p_idx p_ext]. rewrite Hl. intros [= <- <-] ->. destruct Hpe as (c & Ec & _). rewrite Ec.
    apply (goals_floor b P es Q k); try done. by apply (Hlow k).
  - by apply (goals_grow b).
  - rewrite Ei. cbn [res_bind]. rewrite Z.eqb_refl. exists goal, a1, pb, d', t', a2, news. split_and!; try done; try lia.
    unfold ext_be. destruct (ext_ok_len e Nok) as [-> _]. rewrite N1, N2, N3. rewrite (proj2 (Z.ltb_ge _ _)) by lia. done.
Qed.
End create.

(** ** The file index for the journal *)

Lemma ext_map_elem es e b : ordered 0 es -> e ∈ es -> covers e b = true -> ext_map es b = Some (ext_pblock e + (b - first_block e)).
Proof.
  intros Ho He Hc. apply list_elem_of_split in He as (P & Q & ->). apply ordered_app in Ho as (_ & _ & Hx).
  rewrite ext_map_app, ext_map_none, ext_map_cons, Hc; [done|]. intros f Hf. specialize (Hx f e Hf ltac:(apply elem_of_cons; by left)).
  unfold covers in *. bool_prop. destruct (Z.leb_spec (first_block f) b), (Z.ltb_spec b (first_block f + block_count f)); cbn; done || lia.
Qed.

Lemma covers_unique es e f b : ordered 0 es -> e ∈ es -> f ∈ es -> covers e b = true -> covers f b = true -> e = f.
Proof.
  intros Ho He Hf Ec Fc. apply list_elem_of_split in He as (P & Q & ->). unfold covers in *. bool_prop. apply ordered_app in Ho as (_ & (_ & _ & Ho) & Hx).
  apply elem_of_app in Hf as [Hf|[->|Hf]%elem_of_cons]; [|done|].
  - specialize (Hx f e Hf ltac:(apply elem_of_cons; by left)). lia.
  - destruct (ordered_elem _ _ f Ho Hf) as [Hl _]. lia.
Qed.

Section file_map.
Context {A : Type} `{!Balloc A} (block_size inode_goal : Z).
Notation BC := (ext_space_block block_size).
Context (HBC : ext_space_root_idx < BC).
Context (d : nat) (t : enode) (Hs : shape BC ext_space_root_idx d t) (Ho : ordered 0 (flat d t)).
(** No extent starts at block 0 of the disk. *)
Context (Hnz : forall e, e ∈ flat d t -> 0 < ext_pblock e).
Context (fuel : nat) (size : Z) (be0 : buffer_extent) (a : A).

(** The lookup as the journal sees it. *)
Definition ext4_lookup (p : Z) : option buffer_extent :=
  match lwext4_get_block block_size inode_goal fuel size t (Some be0) p 0 a with
  | Ok (ret, be, _, _) => if ret =? 0 then be else None
  | _ => None
  end.

Lemma ext4_lookup_ok p pb : size <> 0 -> 0 <= p < EXT_MAX_BLOCKS -> ext_map (flat d t) p = Some pb ->
  exists e, e ∈ flat d t /\ ext_ok e /\ covers e p = true /\ pb = ext_pblock e + (p - first_block e) /\
    ext4_lookup p = Some (mk_be (first_block e) (ext_pblock e) (block_count e)).
Proof.
  intros Hsz Hp Hm. destruct (get_blocks_mapped block_size inode_goal HBC d t Hs Ho fuel p pb 1 false a) as (e & Hin & Hok & Hc & -> & E); try done; try lia.
  exists e. split_and!; try done. unfold ext4_lookup, lwext4_get_block, get_inode_dblk_idxs, get_inode_dblk_idx_internal. cbn [Z.eqb negb].
  unfold EXT_MAX_BLOCKS in Hp. rewrite (proj2 (Z.eqb_neq size 0)), u32_id, E by (done || lia). cbn [res_bind g_err g_result g_be g_tree g_bal]. rewrite Z.eqb_refl. cbn [negb].
  unfold covers in Hc. bool_prop. specialize (Hnz e Hin). rewrite (proj2 (Z.eqb_neq (ext_pblock e + (p - first_block e)) 0)) by lia. cbn [negb orb res_bind be_nr fmap option_fmap option_map].
  unfold assert_. pose proof (eo_count e Hok). by rewrite (proj2 (Z.leb_le 1 (block_count e))) by lia.
Qed.

Lemma ext4_file_map_ok : size <> 0 -> FileMap ext4_lookup (fun p => 0 <= p < EXT_MAX_BLOCKS /\ ext_map (flat d t) p <> None).
Proof.
  intros Hsz.
  assert (forall p pb, 0 <= p < EXT_MAX_BLOCKS -> ext_map (flat d t) p = Some pb -> lba_of ext4_lookup p = pb) as Hlba.
  { intros p pb Hp Hm. destruct (ext4_lookup_ok p pb Hsz Hp Hm) as (e & _ & _ & _ & -> & E). unfold lba_of. rewrite E. cbn. lia. }
  split.
  - intros p [Hp Hm]. destruct (ext_map (flat d t) p) as [pb|] eqn:Em; [|done]. destruct (ext4_lookup_ok p pb Hsz Hp Em) as (e & _ & [H1 H2 H3 _ _] & Hc & _ & E).
    eexists. split; [exact E|]. unfold covers in Hc. bool_prop. cbn [be_iblock be_nr]. unfold EXT_MAX_BLOCKS in *. lia.
  - intros p q be [Hp Hm] [Hq Hm'] Hg Hr. destruct (ext_map (flat d t) p) as [pb|] eqn:Em; [|done].
    destruct (ext4_lookup_ok p pb Hsz Hp Em) as (e & Hin & _ & Hc & _ & E). rewrite E in Hg. injection Hg as <-. cbn [be_iblock be_nr be_lba] in *.
    rewrite (Hlba q (ext_pblock e + (q - first_block e))); [lia|done|]. apply ext_map_elem; [done..|]. unfold covers. apply andb_true_iff. split; [apply Z.leb_le|apply Z.ltb_lt]; lia.
  - intros p [Hp Hm]. destruct (ext_map (flat d t) p) as [pb|] eqn:Em; [|done]. rewrite (Hlba p pb) by done.
    destruct (ext4_lookup_ok p pb Hsz Hp Em) as (e & _ & Hok & Hc & -> & _). pose proof (ext_pblock_range e Hok). destruct Hok as [_ Hn _ _ _].
    unfold covers in Hc. bool_prop. unfold EXT_INIT_MAX_LEN in *. lia.
Qed.
End file_map.
