(* ===== verification/Ext4File.v ===== *)
(** * Files of lwext4

    Ownership of the blocks of a file, and the growth of a file by
    [inode_alloc_blocks] over [lwext4_get_block].  The block allocator is an
    interface here; [Ext4Balloc] implements it. *)

From S2P Require Import Prelude TxBuild InodeAlloc Ext4Extent Ext4Tree Ext4Insert Ext4Map.

(** ** Ownership *)

(** What the file index relies on, in states of the allocator with [inv]:
    blocks handed out were not in use, and lie on the disk. *)
Class BallocLaws (A : Type) `{!Balloc A} (inv : A -> Prop) (in_use : A -> Z -> Prop) : Prop := {
  alloc_inv a goal n a' b : inv a -> balloc_goal goal -> 0 < n <= EXT_INIT_MAX_LEN -> balloc_alloc a goal n = Ok (a', inr b) -> inv a';
  alloc_fresh a goal n a' b : inv a -> balloc_goal goal -> 0 < n <= EXT_INIT_MAX_LEN -> balloc_alloc a goal n = Ok (a', inr b) ->
    (forall x, b <= x < b + n -> ~ in_use a x) /\ forall x, in_use a' x <-> in_use a x \/ b <= x < b + n;
  alloc_goal a goal n a' b : inv a -> balloc_goal goal -> 0 < n <= EXT_INIT_MAX_LEN -> balloc_alloc a goal n = Ok (a', inr b) -> forall x, b <= x <= b + n -> balloc_goal x
}.

(** The blocks of the tree and the blocks mapped are in use, and none serves
    twice. *)
Record owned {A} (inv : A -> Prop) (in_use : A -> Z -> Prop) (d : nat) (t : enode) (a : A) : Prop := {
  ow_inv : inv a;
  ow_nodup : NoDup (blocks d t);
  ow_tree x : x ∈ blocks d t -> in_use a x;
  ow_data b pb : ext_map (flat d t) b = Some pb -> in_use a pb /\ pb ∉ blocks d t;
  ow_inj b b' pb : ext_map (flat d t) b = Some pb -> ext_map (flat d t) b' = Some pb -> b = b'
}.

Section ownership.
Context {A : Type} `{!Balloc A} (inv : A -> Prop) (in_use : A -> Z -> Prop) `{!BallocLaws A inv in_use}.

Lemma allocs_fresh a news a' : inv a -> allocs a news a' ->
  inv a' /\ (forall x, x ∈ news -> balloc_goal x) /\ NoDup news /\ (forall x, x ∈ news -> ~ in_use a x) /\ forall x, in_use a' x <-> in_use a x \/ x ∈ news.
Proof.
  intros Ha H. induction H as [a|a bs a' goal b a'' H IH Hgoal E].
  - split_and!; [done|intros x Hx; by apply elem_of_nil in Hx|constructor|intros x Hx; by apply elem_of_nil in Hx|]. intros x. split; [by left|]. intros [Hx|Hx]; [done|by apply elem_of_nil in Hx].
  - destruct (IH Ha) as (Ha' & IHg & IH1 & IH2 & IH3). assert (0 < 1 <= EXT_INIT_MAX_LEN) as H1 by done.
    destruct (alloc_fresh a' goal 1 a'' b Ha' Hgoal H1 E) as [F1 F2]. specialize (F1 b ltac:(lia)). rewrite IH3 in F1. split_and!.
    + by apply (alloc_inv a' goal 1 a'' b).
    + intros x [Hx|Hb%list_elem_of_singleton]%elem_of_app; [by apply IHg|]. subst. apply (alloc_goal a' goal 1 a'' b Ha' Hgoal H1 E). lia.
    + apply NoDup_app. split_and!; [done| |apply NoDup_singleton]. intros x Hx Hb%list_elem_of_singleton. subst. tauto.
    + intros x [Hx|Hb%list_elem_of_singleton]%elem_of_app; [by apply IH2|subst; tauto].
    + intros x. rewrite F2, IH3, elem_of_app, list_elem_of_singleton. assert (b <= x < b + 1 <-> x = b) as -> by lia. tauto.
Qed.

(** Mapping new blocks keeps the blocks of the file apart. *)
Lemma inserted_owned block_size cap d t a goal cnt a1 pb e d' t' news a2 :
  owned inv in_use d t a -> balloc_goal goal -> 0 < cnt <= EXT_INIT_MAX_LEN -> balloc_alloc a goal cnt = Ok (a1, inr pb) -> allocs a1 news a2 ->
  block_count e = cnt -> ext_pblock e = pb -> inserted block_size cap d t e d' t' news ->
  owned inv in_use d' t' a2.
Proof.
  intros [O0 O1 O2 O3 O4] Hgoal Hcnt Ea Hal Hc Hp [_ _ Im Ib]. destruct (alloc_fresh a goal cnt a1 pb O0 Hgoal Hcnt Ea) as [F1 F2].
  destruct (allocs_fresh _ _ _ (alloc_inv a goal cnt a1 pb O0 Hgoal Hcnt Ea) Hal) as (N0 & _ & N1 & N2 & N3).
  assert (forall x, x ∈ blocks d t -> in_use a1 x) as Hold by (intros x Hx; apply F2; left; by apply O2).
  assert (forall x, x ∈ blocks d' t' <-> x ∈ news \/ x ∈ blocks d t) as Hel by (intros x; by rewrite Ib, elem_of_app).
  assert (forall b, covers e b = true -> pb <= ext_pblock e + (b - first_block e) < pb + cnt) as Hr by (intros b Hb; unfold covers in Hb; bool_prop; lia).
  split; [done|..].
  - rewrite Ib. apply NoDup_app. split_and!; [done| |done]. intros x Hx Hx'. by apply (N2 x Hx), Hold.
  - intros x Hx. apply N3. apply Hel in Hx as [Hx|Hx]; [by right|left; by apply Hold].
  - intros b x. rewrite Im. unfold add_map. destruct (covers e b) eqn:Ec.
    + intros [= <-]. specialize (Hr b Ec). split; [apply N3; left; apply F2; by right|]. rewrite Hel. intros [Hx|Hx].
      * apply (N2 _ Hx), F2. by right.
      * apply (F1 _ Hr). by apply O2.
    + intros Hx. destruct (O3 b x Hx) as [G1 G2]. assert (in_use a1 x) as G3 by (apply F2; by left). split; [apply N3; by left|].
      rewrite Hel. intros [Hx'|Hx']; [by apply (N2 _ Hx')|done].
  - intros b b' x. rewrite !Im. unfold add_map. destruct (covers e b) eqn:Ec, (covers e b') eqn:Ec'.
    + intros [= <-] [=]. lia.
    + intros [= <-] Hx. exfalso. apply (F1 _ (Hr b Ec)). by apply (O3 b').
    + intros Hx [= <-]. exfalso. apply (F1 _ (Hr b' Ec')). by apply (O3 b).
    + apply O4.
Qed.
End ownership.

(** ** Growing a file *)

(** The next [n] allocations of up to [nr_blks_to_alloc] blocks succeed. *)
Fixpoint supply {A} `{!Balloc A} (n : nat) (a : A) : Prop :=
  match n with
  | O => True
  | S n => forall goal m, balloc_goal goal -> 0 < m <= nr_blks_to_alloc -> exists a' pb, balloc_alloc a goal m = Ok (a', inr pb) /\ 0 < pb < 2 ^ 48 /\ supply n a'
  end.

(** Exactly the first [n] blocks of the file are mapped. *)
Definition dense (es : list extent) (n : Z) : Prop := forall b, ext_map es b <> None <-> 0 <= b < n.

Section growth.
Context {A : Type} `{!Balloc A} (block_size inode_goal : Z).
Notation BC := (ext_space_block block_size).
Context (HBC : ext_space_root_idx < BC).

Lemma nr_blks_eq : nr_blks_to_alloc = 16384.
Proof. done. Qed.

Lemma supply_avail n (a : A) : supply n a -> avail n a.
Proof.
  revert a. induction n as [|n IH]; intros a H; [done|]. intros goal Hgoal. destruct (H goal 1 Hgoal) as (a' & pb & E & _ & H'); [rewrite nr_blks_eq; lia|].
  exists a', pb. split; [done|by apply IH].
Qed.

Lemma supply_alloc n (a : A) goal m : supply (S n) a -> balloc_goal goal -> 0 < m <= nr_blks_to_alloc ->
  exists a' pb, balloc_alloc a goal m = Ok (a', inr pb) /\ 0 < pb < 2 ^ 48 /\ supply n a'.
Proof. intros H. apply H. Qed.

Lemma supply_le n m (a : A) : supply n a -> (m <= n)%nat -> supply m a.
Proof.
  revert n a. induction m as [|m IH]; intros n a H Hle; [done|]. destruct n as [|n]; [lia|]. intros goal k Hgoal Hk.
  destruct (H goal k Hgoal Hk) as (a' & b & E & Hb & H'). exists a', b. split_and!; [done|lia|lia|]. apply (IH n); [done|lia].
Qed.

Lemma supply_allocs a news (a' : A) : allocs a news a' -> forall n, supply (length news + n) a -> supply n a'.
Proof.
  intros H. induction H as [a|a bs a' goal b a'' H IH Hgoal E]; intros n Hs; [done|]. rewrite length_app in Hs. cbn [length] in Hs.
  assert (supply (S n) a') as H' by (apply IH; by replace (length bs + S n)%nat with (length bs + 1 + n)%nat by lia).
  destruct (H' goal 1 Hgoal) as (a1 & pb & E' & _ & H1); [rewrite nr_blks_eq; lia|]. rewrite E in E'. by injection E' as <- <-.
Qed.

Lemma dense_head es n c : dense es n -> ordered 0 es -> head es = Some c -> first_block c < n.
Proof.
  intros Hd Ho Hc. destruct es as [|e es]; [done|]. injection Hc as ->. destruct Ho as (H1 & H2 & _). pose proof (eo_count c H2).
  apply Hd. rewrite ext_map_cons. unfold covers. rewrite Z.leb_refl, (proj2 (Z.ltb_lt _ _)) by lia. done.
Qed.

Lemma dense_next es n : dense es n -> ordered 0 es -> n < EXT_MAX_BLOCKS -> next_mapped es n = EXT_MAX_BLOCKS.
Proof.
  intros Hd Ho Hn. unfold next_mapped. rewrite <- (app_nil_r es), filter_behind; [done| |intros f Hf; by apply elem_of_nil in Hf].
  intros f Hf. destruct (ordered_elem _ _ f Ho Hf) as [H1 H2]. pose proof (eo_count f H2).
  assert (0 <= first_block f < n); [|lia]. apply Hd. rewrite (ext_map_elem es f); [done..|]. unfold covers. rewrite Z.leb_refl, (proj2 (Z.ltb_lt _ _)) by lia. done.
Qed.

(** The last extent ends where the next block goes. *)
Lemma dense_floor es n c : dense es n -> ordered 0 es -> 0 < n -> floor_of es n c -> ext_map es (n - 1) = Some (ext_pblock c + (n - 1 - first_block c)).
Proof.
  intros Hd Ho Hn (Hc & Hcn & Hmax). destruct (ordered_elem _ _ c Ho Hc) as [H1 H2]. pose proof (eo_count c H2).
  assert (first_block c < n) as Hlt.
  { assert (0 <= first_block c < n); [|lia]. apply Hd. rewrite (ext_map_elem es c); [done..|]. unfold covers. rewrite Z.leb_refl, (proj2 (Z.ltb_lt _ _)) by lia. done. }
  destruct (ext_map es (n - 1)) as [pb|] eqn:Em; [|exfalso; assert (0 <= n - 1 < n) as Hx by lia; apply Hd in Hx; congruence].
  unfold ext_map in Em. destruct (List.find (fun e => covers e (n - 1)) es) as [e|] eqn:Ef; [|done]. apply List.find_some in Ef as [He Hcov].
  apply list_elem_of_In in He. assert (e = c) as ->; [|by injection Em as <-].
  assert (first_block e <= first_block c) as Hec. { apply Hmax; [done|]. unfold covers in Hcov. bool_prop. lia. }
  apply (covers_unique es e c (first_block c) Ho He Hc); unfold covers in *; bool_prop; apply andb_true_iff; split; first [apply Z.leb_le|apply Z.ltb_lt]; lia.
Qed.

Context (inv : A -> Prop) (in_use : A -> Z -> Prop) `{!BallocLaws A inv in_use}.

(** A file whose first [n] blocks are mapped. *)
Record file_ok (d : nat) (t : enode) (a : A) (n : Z) : Prop := {
  fo_shape : shape BC ext_space_root_idx d t;
  fo_ordered : ordered 0 (flat d t);
  fo_dense : dense (flat d t) n;
  fo_pos b pb : ext_map (flat d t) b = Some pb -> 0 < pb;
  fo_owned : owned inv in_use d t a;
  fo_goals : goals_ok inode_goal d t n
}.

(** One call of the operation. *)
Lemma ext4_i_op_grows fuel size d t a be n cnt k :
  file_ok d t a n -> 0 <= n -> 0 < cnt <= nr_blks_to_alloc -> n + cnt <= EXT_MAX_BLOCKS -> Z.of_nat (S d) < 65536 -> size <> 0 -> (2 <= fuel)%nat ->
  supply (S (S d) + k) a ->
  exists d' t' a', ext4_i_op block_size inode_goal fuel size (t, a) be n cnt = Ok (t', a', 0) /\ (d' <= S d)%nat /\ supply k a' /\
    file_ok d' t' a' (n + cnt) /\ forall b, 0 <= b < n -> ext_map (flat d' t') b = ext_map (flat d t) b.
Proof.
  intros [Hs Ho Hden Hpos How Hgk] Hn Hcnt Hend Hd Hsz Hfuel Hsup. rewrite nr_blks_eq in Hcnt. unfold EXT_MAX_BLOCKS in *.
  assert (ext_map (flat d t) n = None) as Hm. { destruct (ext_map (flat d t) n) eqn:E; [|done]. assert (0 <= n < n); [|lia]. apply Hden. by rewrite E. }
  assert (new_count (flat d t) n cnt = cnt) as Hnc by (unfold new_count; rewrite (dense_next _ _ Hden Ho) by (unfold EXT_MAX_BLOCKS; lia); unfold EXT_MAX_BLOCKS; lia).
  destruct (get_blocks_new block_size inode_goal HBC d t Hs Ho Hd fuel n cnt a 0) as (goal & a1 & pb & d' & t' & a2 & news & [Hgoal Ea] & E & _ & Hd' & Hins & [Hal Hnl] & _);
    unfold EXT_MAX_BLOCKS, EXT_INIT_MAX_LEN; try lia; try done.
  { intros c Hc. pose proof (dense_head _ _ _ Hden Ho Hc). lia. }
  { intros goal Hgoal. rewrite Hnc. destruct (supply_alloc (S d + k) a goal cnt Hsup Hgoal) as (a' & pb & Ea & Hpb & Hs'); [rewrite nr_blks_eq; lia|].
    exists a', pb. split_and!; [done|lia|lia|]. rewrite Nat.add_0_r. apply supply_avail. eapply supply_le; [exact Hs'|lia]. }
  rewrite Hnc in *. destruct (supply_alloc (S d + k) a goal cnt Hsup Hgoal) as (a1' & pb' & Ea' & Hpb & Hs'); [rewrite nr_blks_eq; lia|]. rewrite Ea in Ea'. injection Ea' as <- <-.
  destruct (new_extent_ok n cnt pb) as (Nok & N1 & N2 & N3); unfold EXT_MAX_BLOCKS, EXT_INIT_MAX_LEN; try lia.
  assert (0 < cnt <= EXT_INIT_MAX_LEN) as Hcl by (unfold EXT_INIT_MAX_LEN; lia).
  assert (forall b, ext_map (flat d' t') b = if (n <=? b) && (b <? n + cnt) then Some (pb + (b - n)) else ext_map (flat d t) b) as Hmap.
  { intros b. rewrite (in_map _ _ _ _ _ _ _ _ Hins). unfold add_map, covers. by rewrite N1, N2, N3. }
  assert (dense (flat d' t') (n + cnt)) as Hden'.
  { intros b. rewrite Hmap. pose proof (Hden b) as Hb. destruct (Z.leb_spec n b), (Z.ltb_spec b (n + cnt)); cbn [andb]; rewrite ?Hb; split; intros Hx; done || lia. }
  exists d', t', a2. split_and!; [|lia| | |].
  - unfold ext4_i_op, lwext4_get_block, get_inode_dblk_idxs, get_inode_dblk_idx_internal. rewrite (proj2 (Z.eqb_neq cnt 0)), (proj2 (Z.eqb_neq size 0)) by lia. cbn [negb fst snd].
    rewrite u32_id, E by lia. cbn [res_bind g_err g_result g_be g_tree g_bal]. rewrite Z.eqb_refl, orb_true_r. cbn [negb res_bind].
    unfold assert_. destruct be; cbn [fmap option_fmap option_map be_lba]; by rewrite ?Z.eqb_refl.
  - apply (supply_allocs _ _ _ Hal). eapply supply_le; [exact Hs'|lia].
  - pose proof Hins as [I1 I2 _ I4]. split; [done|done|done| | |].
    + intros b x. rewrite Hmap. destruct (Z.leb_spec n b), (Z.ltb_spec b (n + cnt)); cbn [andb]; [intros [= <-]; lia|apply Hpos..].
    + by apply (inserted_owned inv in_use block_size ext_space_root_idx d t a goal cnt a1 pb (new_extent n cnt pb) d' t' news a2).
    + split; [|apply Hgk|].
      * intros c Hc. pose proof (dense_floor _ _ c Hden' I2 ltac:(lia) Hc) as Hf. rewrite Hmap in Hf. rewrite (proj2 (Z.leb_le _ _)), (proj2 (Z.ltb_lt _ _)) in Hf by lia.
        cbn [andb] in Hf. injection Hf as Hf. replace (ext_pblock c + (n + cnt - first_block c)) with (pb + cnt) by lia. rewrite u64_id by lia.
        apply (alloc_goal a goal cnt a1 pb (ow_inv _ _ _ _ _ How) Hgoal Hcl Ea). lia.
      * intros x. rewrite I4, elem_of_app. intros [Hx|Hx]; [|by apply Hgk].
        destruct (allocs_fresh inv in_use _ _ _ (alloc_inv a goal cnt a1 pb (ow_inv _ _ _ _ _ How) Hgoal Hcl Ea) Hal) as (_ & Hgo & _). by apply Hgo.
  - intros b Hb. rewrite Hmap. by rewrite (proj2 (Z.leb_gt _ _)) by lia.
Qed.

(** [c] bounds the number of calls. *)
Lemma ext4_alloc_loop_ok fuel size c : forall lfuel d t a be n cnt,
  file_ok d t a n -> 0 <= n -> 0 < cnt <= nr_blks_to_alloc * Z.of_nat c -> n + cnt <= EXT_MAX_BLOCKS -> Z.of_nat (d + c) < 65536 -> size <> 0 -> (2 <= fuel)%nat ->
  supply (c * (d + c + 2)) a -> cnt < Z.of_nat lfuel ->
  exists d' t' a', alloc_loop (ext4_i_op block_size inode_goal fuel size) lfuel (t, a) be n cnt = Ok (t', a', 0) /\
    file_ok d' t' a' (n + cnt) /\ forall b, 0 <= b < n -> ext_map (flat d' t') b = ext_map (flat d t) b.
Proof.
  rewrite nr_blks_eq. induction c as [|c IH]; intros lfuel d t a be n cnt Hfo Hn Hcnt Hend Hd Hsz Hfuel Hsup Hlf; [lia|].
  destruct lfuel as [|lfuel]; [lia|]. cbn [alloc_loop]. rewrite nr_blks_eq.
  assert (supply (S (S d) + c * (S d + c + 2)) a) as Hsup' by (eapply supply_le; [exact Hsup|lia]).
  destruct (Z.ltb_spec 16384 cnt) as [Hlt|Hge].
  - destruct (ext4_i_op_grows fuel size d t a be n 16384 (c * (S d + c + 2))) as (d1 & t1 & a1 & E & Hd1 & Hsup1 & Hg & Hold); try done; try (rewrite ?nr_blks_eq; lia).
    rewrite E. cbn [res_bind Z.eqb negb].
    destruct (IH lfuel d1 t1 a1 false (n + 16384) (cnt - 16384)) as (d2 & t2 & a2 & E2 & Hg2 & Hold2); try done; try lia.
    { eapply supply_le; [exact Hsup1|]. apply Nat.mul_le_mono_l. lia. }
    exists d2, t2, a2. split; [exact E2|]. replace (n + cnt) with (n + 16384 + (cnt - 16384)) by lia. split; [done|]. intros b Hb. rewrite Hold2 by lia. by apply Hold.
  - destruct (ext4_i_op_grows fuel size d t a be n cnt (c * (S d + c + 2))) as (d1 & t1 & a1 & E & Hd1 & Hsup1 & Hg & Hold); try done; try (rewrite ?nr_blks_eq; lia).
    rewrite E. cbn [res_bind Z.eqb negb]. by exists d1, t1, a1.
Qed.

(** Growing the file from [old_size] to [i_size]. *)
Lemma ext4_grow_ok fuel d t a old_size i_size c :
  file_ok d t a (SIZE_TO_BLK_NR old_size) -> (2 <= fuel)%nat -> 0 <= old_size < i_size -> SIZE_TO_BLK_NR i_size <= EXT_MAX_BLOCKS ->
  SIZE_TO_BLK_NR i_size <= SIZE_TO_BLK_NR old_size + nr_blks_to_alloc * Z.of_nat c -> Z.of_nat (d + c) < 65536 -> supply (c * (d + c + 2)) a ->
  exists d' t' a', inode_alloc_blocks (ext4_i_op block_size inode_goal fuel i_size) (t, a) old_size i_size = Ok (t', a', 0) /\
    file_ok d' t' a' (SIZE_TO_BLK_NR i_size) /\ forall b, 0 <= b < SIZE_TO_BLK_NR old_size -> ext_map (flat d' t') b = ext_map (flat d t) b.
Proof.
  intros Hfo Hfuel Hsz Hmax Hc Hd Hsup. destruct (SIZE_TO_BLK_NR_le old_size i_size ltac:(lia)) as [Hb1 Hb2].
  unfold inode_alloc_blocks. destruct (Z.eqb_spec (SIZE_TO_BLK_NR old_size) (SIZE_TO_BLK_NR i_size)) as [E|E].
  - exists d, t, a. rewrite <- E. by split_and!.
  - rewrite (proj2 (Z.ltb_ge _ _)) by lia. set (o := SIZE_TO_BLK_NR old_size) in *. set (w := SIZE_TO_BLK_NR i_size) in *.
    destruct (ext4_alloc_loop_ok fuel i_size c (S (Z.to_nat (w - o))) d t a true o (w - o)) as (d' & t' & a' & El & Hg & Hold); try done; try lia.
    exists d', t', a'. replace (o + (w - o)) with w in Hg by lia. by split_and!.
Qed.
End growth.

(** ** Properties *)

(** An allocator that hands out the blocks of the disk in order. *)
Definition bump (a goal n : Z) : Z * (Z + Z) := (a + n, inr a).
#[local] Instance bump_balloc : Balloc Z := { balloc_goal _ := True; balloc_alloc a goal n := Ok (bump a goal n); balloc_free a _ _ := Ok a }.

Lemma bump_avail n a : avail n a.
Proof. revert a. induction n as [|n IH]; intros a; [done|]. intros goal _. by exists (a + 1), a. Qed.

(** Four extents in a full root, blocks of 96 bytes. *)
Definition demo_exts : list extent := [new_extent 0 2 100; new_extent 4 2 200; new_extent 8 2 300; new_extent 12 2 400].
Definition demo_tree : enode := Leaf 4 demo_exts.

Lemma demo_ordered : ordered 0 demo_exts.
Proof. cbn. repeat first [done|lia|split]. Qed.

(** C23: mapping new blocks.  For a block of the file without mapping that
    does not lie before the first extent, and enough room on the disk,
    [get_blocks] succeeds with any number of levels and any full nodes on the
    path: as many blocks as were asked for are allocated, fewer only up to the
    next mapped block; exactly they are mapped in addition; the tree is well
    formed, its extents are in order and disjoint, and its new nodes lie in
    the further blocks allocated. *)
Theorem ext4_get_blocks_creates {A} `{!Balloc A} block_size inode_goal d t fuel b max_blocks (a : A) :
  4 < ext_space_block block_size -> Z.of_nat (S d) < 65536 -> shape (ext_space_block block_size) 4 d t -> ordered 0 (flat d t) ->
  0 <= b < EXT_MAX_BLOCKS -> ext_map (flat d t) b = None -> (forall c, head (flat d t) = Some c -> first_block c <= b) ->
  0 < max_blocks <= EXT_INIT_MAX_LEN -> (2 <= fuel)%nat ->
  goals_ok inode_goal d t b -> let cnt := Z.min max_blocks (next_mapped (flat d t) b - b) in
  (forall goal, balloc_goal goal -> exists a' pb, balloc_alloc a goal cnt = Ok (a', inr pb) /\ 0 < pb < 2 ^ 48 /\ avail (S d) a') ->
  exists goal a1 pb d' t' a2 news, balloc_alloc a goal cnt = Ok (a1, inr pb) /\ allocs a1 news a2 /\
    get_blocks block_size inode_goal fuel t b max_blocks true a = Ok (mk_blocks EOK pb cnt (mk_be b pb cnt) t' a2) /\ 0 < cnt /\
    (d <= d' <= S d)%nat /\ shape (ext_space_block block_size) 4 d' t' /\ ordered 0 (flat d' t') /\ blocks d' t' ≡ₚ news ++ blocks d t /\
    forall x, ext_map (flat d' t') x = if (b <=? x) && (x <? b + cnt) then Some (pb + (x - b)) else ext_map (flat d t) x.
Proof.
  intros HBC Hd Hs Ho Hb Hm Hhead Hmax Hfuel Hgk cnt Hal.
  destruct (get_blocks_new block_size inode_goal HBC d t Hs Ho Hd fuel b max_blocks a 0 Hb Hm Hhead Hmax Hfuel Hgk)
    as (goal & a1 & pb & d' & t' & a2 & news & [Hgoal Ea] & E & Hcnt & Hd' & [I1 I2 I3 I4] & [Hal' _] & _); [rewrite Nat.add_0_r; exact Hal|].
  destruct (Hal goal Hgoal) as (a1' & pb' & Ea' & Hpb & _). fold cnt in Ea, E, Hcnt, I3. unfold new_count in *. fold cnt in Ea, E, Hcnt, I3.
  rewrite Ea in Ea'. injection Ea' as <- <-. exists goal, a1, pb, d', t', a2, news. split_and!; try done; try lia.
  destruct (next_mapped_ok _ b Ho (proj2 Hb)) as [Hn _].
  destruct (new_extent_ok b cnt pb) as (_ & N1 & N2 & N3); [lia|lia|unfold cnt; lia|lia|].
  intros x. rewrite I3. unfold add_map, covers. by rewrite N1, N2, N3.
Qed.

Lemma ext4_get_blocks_creates_witness : exists d' t' a2, get_blocks 96 0 2 demo_tree 2 8 true 500 = Ok (mk_blocks EOK 500 2 (mk_be 2 500 2) t' a2) /\
  forall x, ext_map (flat d' t') x = if (2 <=? x) && (x <? 4) then Some (500 + (x - 2)) else ext_map demo_exts x.
Proof.
  destruct (ext4_get_blocks_creates 96 0 0 demo_tree 2 2 8 500) as (goal & a1 & pb & d' & t' & a2 & news & Ea & _ & E & _ & _ & _ & _ & _ & Hm);
    [done|done|done|exact demo_ordered|done|done|by intros c [= <-]|done|lia|by split| |].
  - intros goal _. exists 502, 500. repeat split. apply (bump_avail 1).
  - injection Ea as <- <-. by exists d', t', a2.
Defined.

(** A request before the only extent of a file: the limit for new blocks is
    not the start of this extent but what lies behind it. *)
Lemma get_blocks_first {A} `{!Balloc A} block_size inode_goal fuel c b n (a a' : A) pb l cur ex fix_idx :
  ext_ok c -> 0 <= b < first_block c -> 0 < n <= EXT_INIT_MAX_LEN -> b + n <= EXT_MAX_BLOCKS -> 0 < pb ->
  (forall goal, balloc_alloc a goal n = Ok (a', inr pb)) ->
  insert_leaf 4 [c] (Some 0%nat) (new_extent b n pb) false = LeafOk l cur ex fix_idx ->
  get_blocks block_size inode_goal (S fuel) (Leaf 4 [c]) b n true a = Ok (mk_blocks EOK (ext_pblock (new_extent b n pb)) n (ext_be (new_extent b n pb)) (Leaf 4 l) a').
Proof.
  intros Hc Hb Hn Hend Hpb Hal Hins. pose proof Hc as [C1 C2 C3 _ _]. unfold EXT_INIT_MAX_LEN, EXT_MAX_BLOCKS in *.
  assert (find_extent (Z.to_nat (eh_depth (Leaf 4 [c]))) (Leaf 4 [c]) b = inr (mk_path [] (Some 0%nat))) as E by done.
  unfold get_blocks. rewrite E. cbn [p_idx p_ext leaf_at]. change ([c] !! 0%nat) with (Some c). cbn iota beta. rewrite (IN_RANGE_covers c b Hc) by lia.
  assert (covers c b = false) as -> by (unfold covers; by rewrite (proj2 (Z.leb_gt _ _)) by lia).
  unfold map_new_blocks. cbn zeta. change (ext_next_allocated_block (Leaf 4 [c]) (mk_path [] (Some 0%nat))) with 4294967295.
  rewrite u32_id by lia. set (al := if n <? 4294967295 - b then n else 4294967295 - b). assert (al = n) as -> by (unfold al; destruct (Z.ltb_spec n (4294967295 - b)); lia).
  assert (forall goal, new_meta_blocks a goal n = Ok (a', inr pb, n)) as ->.
  { intros goal. unfold new_meta_blocks. destruct (Z.ltb_spec 1 n); [by rewrite Hal|]. assert (n = 1) as -> by lia. by rewrite Hal. }
  cbn [res_bind]. rewrite (proj2 (Z.eqb_neq pb 0)) by lia. cbn [insert_extent p_idx p_ext leaf_at]. rewrite Hins. cbn [set_leaf correct_indexes res_bind].
  rewrite Z.ltb_irrefl. by destruct (fix_idx && Nat.eqb cur 0).
Qed.

(** The first extent moves.  If the new blocks end where the first extent
    of the file begins, in the file and on the disk, the two extents are
    merged, but the merged extent keeps its old start on the disk: the call
    reports [pb] for block [b], the tree maps [b] to another block, and every
    block [first_block c + i] of the old extent is mapped [n] blocks further
    than before. *)
Lemma ext4_merge_before_shifts {A} `{!Balloc A} block_size inode_goal fuel c n pb (a a' : A) :
  ext_ok c -> 0 < n -> block_count c + n <= EXT_INIT_MAX_LEN -> n <= first_block c -> 0 < pb -> pb + n = ext_pblock c -> (1 <= fuel)%nat ->
  (forall goal, balloc_alloc a goal n = Ok (a', inr pb)) ->
  let b := first_block c - n in
  exists t', get_blocks block_size inode_goal fuel (Leaf 4 [c]) b n true a = Ok (mk_blocks EOK pb n (mk_be b pb n) t' a') /\
    ext_map (flat 0 t') b = Some (pb + n) /\
    forall i, 0 <= i < block_count c -> ext_map [c] (first_block c + i) = Some (pb + n + i) /\
      ext_map (flat 0 t') (first_block c + i) = Some (pb + n + i + n).
Proof.
  intros Hc Hn Hlen Hb Hpb Hadj Hfuel Hal b. pose proof Hc as [C1 C2 C3 C4 C5]. pose proof (ext_pblock_range c Hc) as Hr. unfold EXT_INIT_MAX_LEN, EXT_MAX_BLOCKS in *.
  destruct (new_extent_ok b n pb) as (Nok & N1 & N2 & N3); unfold EXT_INIT_MAX_LEN, EXT_MAX_BLOCKS, b; try lia. fold b in Nok, N1, N2, N3.
  destruct (ext_ok_len c Hc) as [L1 L2], (ext_ok_len _ Nok) as [L3 _]. rewrite N2 in L3.
  destruct fuel as [|fuel]; [lia|]. set (c' := grow_count (mk_extent b (block_count c) (start_hi c) (start_lo c)) (new_extent b n pb)).
  assert (ext_ok (mk_extent b (block_count c) (start_hi c) (start_lo c))) as Hok by (split; unfold EXT_INIT_MAX_LEN, EXT_MAX_BLOCKS, b; cbn; done || lia).
  destruct (grow_count_ok _ _ Hok Nok) as (_ & G1 & G2 & G3); unfold EXT_INIT_MAX_LEN, EXT_MAX_BLOCKS; rewrite ?N2; cbn [block_count first_block]; [unfold b; lia..|].
  fold c' in G1, G2, G3. change (ext_pblock (mk_extent b _ _ _)) with (ext_pblock c) in G3. cbn [first_block block_count] in G1, G2. rewrite N2 in G2.
  exists (Leaf 4 [c']). rewrite (get_blocks_first block_size inode_goal fuel c b n a a' pb [c'] 0 0 false);
    unfold EXT_INIT_MAX_LEN, EXT_MAX_BLOCKS; try done; try (unfold b; lia).
  - unfold ext_be. rewrite N1, N3, L3. split; [done|]. cbn [flat]. rewrite ext_map_cons. unfold covers. rewrite G1, G2, G3.
    rewrite (proj2 (Z.leb_le _ _)), (proj2 (Z.ltb_lt _ _)) by lia. cbn [andb]. split; [f_equal; lia|]. intros i Hi. rewrite !ext_map_cons. unfold covers. rewrite G1, G2, G3.
    rewrite !(proj2 (Z.leb_le _ _)), !(proj2 (Z.ltb_lt _ _)) by (unfold b; lia). cbn [andb]. split; f_equal; unfold b; lia.
  - unfold insert_leaf. change ([c] !! 0%nat) with (Some c). cbn iota beta. rewrite N1, (proj2 (Z.eqb_neq b _)) by (unfold b; lia). cbn [negb andb].
    unfold can_append, can_prepend. rewrite L1, L2, L3, N1, N3. unfold EXT_INIT_MAX_LEN. rewrite (u32_id (first_block c + block_count c)), (u32_id (b + n)), (u64_id (pb + n)) by (unfold b; lia).
    rewrite (proj2 (Z.eqb_neq (first_block c + block_count c) b)), andb_false_r by (unfold b; lia).
    rewrite (proj2 (Z.eqb_eq (pb + n) _)), (proj2 (Z.eqb_eq (b + n) _)), (proj2 (Z.leb_le _ _)) by (unfold b; lia). done.
Qed.

(** New blocks overlap the first extent.  A request that starts before the
    only extent of a file and reaches into it is not cut at its start: the
    call reports and inserts an extent that maps the block
    [first_block c] again, to another block of the disk. *)
Lemma ext4_new_blocks_overlap_first {A} `{!Balloc A} block_size inode_goal fuel c b n pb (a a' : A) :
  ext_ok c -> 0 <= b < first_block c -> first_block c < b + n <= EXT_MAX_BLOCKS -> 0 < n <= EXT_INIT_MAX_LEN -> 0 < pb < 2 ^ 48 ->
  (1 <= fuel)%nat -> (forall goal, balloc_alloc a goal n = Ok (a', inr pb)) ->
  exists t' e, get_blocks block_size inode_goal fuel (Leaf 4 [c]) b n true a = Ok (mk_blocks EOK pb n (mk_be b pb n) t' a') /\
    flat 0 t' = [e; c] /\ covers e (first_block c) = true /\ covers c (first_block c) = true.
Proof.
  intros Hc Hb Hov Hn Hpb Hfuel Hal. pose proof Hc as [C1 C2 C3 _ _]. unfold EXT_INIT_MAX_LEN, EXT_MAX_BLOCKS in *.
  destruct (new_extent_ok b n pb) as (Nok & N1 & N2 & N3); unfold EXT_INIT_MAX_LEN, EXT_MAX_BLOCKS; try lia.
  destruct (ext_ok_len c Hc) as [L1 L2], (ext_ok_len _ Nok) as [L3 _]. rewrite N2 in L3. destruct fuel as [|fuel]; [lia|].
  set (e := store_pblock (mk_extent b n 0 0) pb). exists (Leaf 4 [e; c]), e.
  rewrite (get_blocks_first block_size inode_goal fuel c b n a a' pb [e; c] 0 0 true); unfold EXT_INIT_MAX_LEN, EXT_MAX_BLOCKS; try done; try lia.
  - unfold ext_be. rewrite N1, N3, L3. split_and!; try done; unfold covers, e; cbn [first_block block_count store_pblock];
      apply andb_true_iff; split; first [apply Z.leb_le|apply Z.ltb_lt]; lia.
  - unfold insert_leaf. change ([c] !! 0%nat) with (Some c). cbn iota beta. rewrite N1, (proj2 (Z.eqb_neq b _)) by lia. cbn [negb andb].
    unfold can_append, can_prepend. rewrite L1, L2, L3, N1, N3. rewrite (u32_id (first_block c + block_count c)), (u32_id (b + n)) by lia.
    rewrite (proj2 (Z.eqb_neq (first_block c + block_count c) b)), (proj2 (Z.eqb_neq (b + n) _)), !andb_false_r by lia.
    unfold put_extent. change ([c] !! 0%nat) with (Some c). cbn [length fmap option_fmap option_map default id]. rewrite N1, N2, N3.
    rewrite (proj2 (Z.ltb_ge _ _)) by lia. done.
Qed.

(** C25: the file index serves the journal.  On a well-formed tree,
    [lwext4_get_block] without creation finds for every mapped block an extent
    that contains it, answers for all blocks of an extent agree, and all
    block numbers are valid: what building a transaction relies on. *)
Theorem ext4_extents_are_file_map {A} `{!Balloc A} block_size inode_goal d t fuel size be0 (a : A) :
  4 < ext_space_block block_size -> shape (ext_space_block block_size) 4 d t -> ordered 0 (flat d t) ->
  (forall e, e ∈ flat d t -> 0 < ext_pblock e) -> size <> 0 ->
  FileMap (ext4_lookup block_size inode_goal t fuel size be0 a) (fun p => 0 <= p < EXT_MAX_BLOCKS /\ ext_map (flat d t) p <> None).
Proof. intros HBC Hs Ho Hnz Hsz. by apply ext4_file_map_ok. Qed.

Lemma ext4_extents_are_file_map_witness :
  FileMap (ext4_lookup 96 0 demo_tree 1 4096 (mk_be 0 0 0) 500) (fun p => 0 <= p < EXT_MAX_BLOCKS /\ ext_map demo_exts p <> None).
Proof.
  apply (ext4_extents_are_file_map 96 0 0 demo_tree); [done|done|exact demo_ordered| |done]. apply Forall_forall. by repeat constructor.
Defined.

(** Creating blocks inside an extent.  [lwext4_get_block] compares the
    block found with the start of its extent: a request to create blocks at a
    block that is already mapped fails its assertion unless the block is the
    first of its extent. *)
Lemma ext4_create_inside_extent_aborts {A} `{!Balloc A} block_size inode_goal d t fuel size be0 iblock create (a : A) e :
  4 < ext_space_block block_size -> shape (ext_space_block block_size) 4 d t -> ordered 0 (flat d t) ->
  e ∈ flat d t -> first_block e < iblock < first_block e + block_count e -> 0 < create -> size <> 0 ->
  lwext4_get_block block_size inode_goal fuel size t (Some be0) iblock create a = Abort.
Proof.
  intros HBC Hs Ho He Hi Hcr Hsz. destruct (ordered_elem _ _ e Ho He) as [_ Hok]. pose proof Hok as [E1 E2 E3 _ _]. unfold EXT_MAX_BLOCKS in *.
  assert (ext_map (flat d t) iblock = Some (ext_pblock e + (iblock - first_block e))) as Hm.
  { apply ext_map_elem; [done..|]. unfold covers. apply andb_true_iff. split; [apply Z.leb_le|apply Z.ltb_lt]; lia. }
  destruct (get_blocks_mapped block_size inode_goal HBC d t Hs Ho fuel iblock _ create true a ltac:(lia) Hcr Hm) as (f & Hf & Hfok & Hc & Hpb & E).
  unfold lwext4_get_block, get_inode_dblk_idxs, get_inode_dblk_idx_internal. rewrite (proj2 (Z.eqb_neq create 0)) by lia. cbn [negb].
  rewrite (proj2 (Z.eqb_neq size 0)), u32_id, E by (done || lia). cbn [res_bind g_err g_result g_be g_tree g_bal]. rewrite Z.eqb_refl, orb_true_r. cbn [negb res_bind be_lba fmap option_fmap option_map].
  unfold assert_. rewrite (proj2 (Z.eqb_neq (ext_pblock f) _)); [done|].
  rewrite (covers_unique (flat d t) f e iblock); try done; [lia|]. unfold covers. apply andb_true_iff. split; [apply Z.leb_le|apply Z.ltb_lt]; lia.
Qed.

(** A full disk loses blocks of a file.  If a leaf and the index node
    above it are split and the second allocation fails, the extents already
    moved to the new leaf are gone: the call returns the error and frees the
    new leaf, and the blocks behind the position of the new extent in its leaf
    are no longer mapped. *)
Lemma ext4_split_failure_loses_extents {A} `{!Balloc A} block_size inode_goal cap fuel t k j pe e P m es Q (a a1 a2 a3 : A) b err :
  shape (ext_space_block block_size) cap 2 t -> ordered 0 (flat 2 t) -> focus 2 t [k; j] = Some (P, m, es, Q) ->
  insert_leaf m es (Some pe) e false = LeafSplit -> (pe < length es)%nat -> free_level (spine t [k; j]) = Some 2%nat ->
  (forall goal, balloc_alloc a goal 1 = Ok (a1, inr b)) -> (forall goal, balloc_alloc a1 goal 1 = Ok (a2, inl err)) -> err <> EOK ->
  balloc_free a2 b 1 = Ok a3 ->
  exists t' p', insert_extent block_size inode_goal (S fuel) t (mk_path [k; j] (Some pe)) e false a = Ok (err, t', p', a3) /\
    flat 2 t' = P ++ take (S pe) es ++ Q /\
    forall x i, x ∈ drop (S pe) es -> 0 <= i < block_count x ->
      ext_map (flat 2 t) (first_block x + i) = Some (ext_pblock x + i) /\ ext_map (flat 2 t') (first_block x + i) = None.
Proof.
  intros Hs Ho Hf Hins Hpe Hfree Ha1 Ha2 Herr Ha3.
  pose proof (spine_full block_size _ _ _ _ _ _ _ _ Hs Hf) as Hfull. pose proof (free_level_ok (spine t [k; j])) as Hfr. rewrite Hfree in Hfr. destruct Hfr as [Hnf _].
  pose proof (spine_head _ _ _ _ _ _ _ Hf) as Hsh. pose proof (focus_flat _ _ _ _ _ _ _ Hf) as Hfe. pose proof (focus_leaf _ _ _ _ _ _ _ Hf) as Hl.
  destruct t as [|dep m0 l0]; [done|]. cbn [focus] in Hf. destruct (l0 !! k) as [[[f0 b0] c0]|] eqn:E0; [|done]. destruct c0 as [|dep1 m1 l1]; [done|].
  cbn [focus] in Hf. destruct (l1 !! j) as [[[f1 b1] c1]|] eqn:E1; [|done]. destruct c1 as [m2 es'|]; [|done]. cbn [focus] in Hf.
  injection Hf as <- <- <- <-. rename es' into es. assert (Z.of_nat (length es) = m2) as Hlen.
  { cbn [spine] in Hfull, Hnf, Hsh. rewrite E0, E1 in Hfull, Hnf. cbn [app take] in Hfull, Hnf.
    inversion Hfull as [|? ? H1 _]; subst. inversion Hnf as [|? ? H2 _]; subst. exact (H1 H2). }
  set (t' := Node dep m0 (<[k := (f0, b0, Node dep1 m1 (<[j := (f1, b1, Leaf m2 (take (S pe) es))]> l1))]> l0)).
  assert (focus 2 t' [k; j] = Some (flats 1 (take k l0) ++ flats 0 (take j l1) ++ [], m2, take (S pe) es, flats 0 (drop (S j) l1) ++ flats 1 (drop (S k) l0))) as Hf'.
  { unfold t'. erewrite focus_Node by (apply list_lookup_insert_eq; by eapply lookup_lt_Some). erewrite focus_Node by (apply list_lookup_insert_eq; by eapply lookup_lt_Some).
    cbn [focus]. by rewrite !take_insert_ge, !drop_insert_lt by lia. }
  exists t', (mk_path [k; j] (Some pe)). split; [|split; [by apply (focus_flat _ _ _ _ _ _ _ Hf')|]].
  - cbn [insert_extent p_idx p_ext]. rewrite Hl, Hins, Hfree. cbn [length Nat.sub split_at]. unfold split_at. cbn [p_idx p_ext]. rewrite Hl. cbn [split_node]. rewrite E0.
    cbn [split_sub]. rewrite E1. rewrite Ha1. cbn [res_bind]. rewrite (proj2 (Z.eqb_eq _ _) Hlen). cbn [negb res_bind sp_left sp_right sp_new sp_err]. rewrite Ha2.
    cbn [res_bind sp_left sp_right sp_new sp_err free_new]. rewrite Ha3. cbn [res_bind free_new].
    rewrite (proj2 (Z.eqb_neq err EOK) Herr). cbn [andb]. done.
  - intros x i Hx Hi. pose proof Ho as Ho'. rewrite Hfe in Ho'.
    assert (x ∈ flat 2 (Node dep m0 l0)) as Hxin.
    { rewrite Hfe. apply elem_of_app. right. apply elem_of_app. left. rewrite <- (take_drop (S pe) es). apply elem_of_app. by right. }
    assert (covers x (first_block x + i) = true) as Hc by (unfold covers; apply andb_true_iff; split; [apply Z.leb_le|apply Z.ltb_lt]; lia).
    split; [rewrite (ext_map_elem _ x); [f_equal; lia|done..]|]. rewrite (focus_flat _ _ _ _ _ _ _ Hf'). apply ext_map_none. intros f Hf.
    set (P := flats 1 (take k l0) ++ _) in *. set (Q := flats 0 (drop (S j) l1) ++ _) in *. rewrite <- (take_drop (S pe) es), <- app_assoc, app_assoc in Ho'.
    apply ordered_app in Ho' as (_ & Ho2 & Hx1). apply ordered_app in Ho2 as (_ & _ & Hx2). rewrite app_assoc in Hf. unfold covers.
    destruct (Z.leb_spec (first_block f) (first_block x + i)), (Z.ltb_spec (first_block x + i) (first_block f + block_count f)); cbn [andb]; try done. exfalso.
    apply elem_of_app in Hf as [Hf|Hf]; [|specialize (Hx2 x f Hx Hf); lia]. specialize (Hx1 f x Hf ltac:(apply elem_of_app; by left)). lia.
Qed.

(** A disk with one free block. *)
#[local] Instance last_block : Balloc bool := {
  balloc_goal _ := True;
  balloc_alloc a _ _ := Ok (if a then (false, inr 900) else (false, inl ENOSPC));
  balloc_free _ _ _ := Ok true
}.

(** Full nodes of two entries below a root with one entry. *)
Definition demo_leaf1 : list extent := [new_extent 0 1 100; new_extent 4 1 104].
Definition demo_leaf2 : list extent := [new_extent 8 1 108; new_extent 12 1 112].
Definition demo_full : enode := Node 2 4 [(0, 800, Node 1 2 [(0, 801, Leaf 2 demo_leaf1); (8, 802, Leaf 2 demo_leaf2)])].

