(* ===== verification/Ext4Bitmap.v ===== *)
(** * Bitmaps of lwext4

    [secure_daemon/src/fs/lwext4/ext4_bitmap.c] and its header: bitmaps in an
    array of bytes, for the block and inode allocators.  The specification of
    a bitmap is the set of bits [bbit m]. *)

From S2P Require Import Prelude Bitmap Ext4Extent.

Notation bmap := (list Z) (only parsing).

Definition u8 (x : Z) : Z := x mod 256.
Definition byte (m : bmap) (i : Z) : Z := nth (Z.to_nat i) m 0.
Definition set_byte (m : bmap) (i b : Z) : bmap := <[Z.to_nat i := b]> m.

(** ** Single bits *)

Definition bmap_bit_set (m : bmap) (bit : Z) : bmap :=
  set_byte m (Z.shiftr bit 3) (u8 (Z.lor (byte m (Z.shiftr bit 3)) (Z.shiftl 1 (Z.land bit 7)))).
Definition bmap_bit_clr (m : bmap) (bit : Z) : bmap :=
  set_byte m (Z.shiftr bit 3) (u8 (Z.land (byte m (Z.shiftr bit 3)) (Z.lnot (Z.shiftl 1 (Z.land bit 7))))).
Definition bmap_is_bit_set (m : bmap) (bit : Z) : bool :=
  negb (Z.land (byte m (Z.shiftr bit 3)) (Z.shiftl 1 (Z.land bit 7)) =? 0).
Definition bmap_is_bit_clr (m : bmap) (bit : Z) : bool := negb (bmap_is_bit_set m bit).

(** ** Freeing a range *)

(** [while (i & 7)]: single bits up to a byte boundary; [None] when the count
    is used up. *)
Fixpoint free_head (fuel : nat) (m : bmap) (i bcnt : Z) : bmap * option (Z * Z) :=
  match fuel with
  | O => (m, Some (i, bcnt))
  | S fuel =>
      if Z.land i 7 =? 0 then (m, Some (i, bcnt))
      else if bcnt =? 0 then (m, None)
      else free_head fuel (bmap_bit_clr m i) (i + 1) (bcnt - 1)
  end.

(** [while (bcnt >= 8)]: whole bytes from byte [p] on. *)
Fixpoint free_bytes (fuel : nat) (m : bmap) (p bcnt : Z) : bmap * Z * Z :=
  match fuel with
  | O => (m, p, bcnt)
  | S fuel => if 8 <=? bcnt then free_bytes fuel (set_byte m p 0) (p + 1) (bcnt - 8) else (m, p, bcnt)
  end.

(** The rest, the pointer being at byte [p]. *)
Fixpoint free_tail (n : nat) (m : bmap) (p i : Z) : bmap :=
  match n with
  | O => m
  | S n => free_tail n (bmap_bit_clr m (8 * p + i)) p (i + 1)
  end.

(** The variants for unaligned access are not compiled.  Fuel: at most eight
    bits to a boundary, and a byte for every eight bits. *)
Definition bmap_bits_free (m : bmap) (sbit bcnt : Z) : bmap :=
  match free_head 8 m sbit bcnt with
  | (m, None) => m
  | (m, Some (i, bcnt)) =>
      let '(m, p, bcnt) := free_bytes (Z.to_nat bcnt) m (Z.shiftr i 3) bcnt in
      free_tail (Z.to_nat bcnt) m p 0
  end.

(** ** Searching *)

(** Bits [i] to [n] of the byte at [p]. *)
Fixpoint clr_in_byte (n : nat) (m : bmap) (p i : Z) : option Z :=
  match n with
  | O => None
  | S n => if bmap_is_bit_clr m (8 * p + i) then Some i else clr_in_byte n m p (i + 1)
  end.

(** [while (i & 7)]: [inl] when the search ends here. *)
Fixpoint find_head (fuel : nat) (m : bmap) (sbit i bcnt : Z) : (Z + Z) + (Z * Z) :=
  match fuel with
  | O => inr (i, bcnt)
  | S fuel =>
      if Z.land i 7 =? 0 then inr (i, bcnt)
      else if bcnt =? 0 then inl (inl ENOSPC)
      else if bmap_is_bit_clr m i then inl (inr sbit)
      else find_head fuel m sbit (i + 1) (bcnt - 1)
  end.

(** The bytes and the rest. *)
Fixpoint find_bytes (fuel : nat) (m : bmap) (p sbit bcnt : Z) : Z + Z :=
  match fuel with
  | O => inl ENOSPC
  | S fuel =>
      if 8 <=? bcnt then
        match (if negb (byte m p =? 255) then clr_in_byte 8 m p 0 else None) with
        | Some i => inr (sbit + i)
        | None => find_bytes fuel m (p + 1) (sbit + 8) (bcnt - 8)
        end
      else match clr_in_byte (Z.to_nat bcnt) m p 0 with Some i => inr (sbit + i) | None => inl ENOSPC end
  end.

Definition bmap_bit_find_clr (m : bmap) (sbit ebit : Z) : Z + Z :=
  match find_head 8 m sbit sbit (u32 (ebit - sbit)) with
  | inl r => r
  | inr (i, bcnt) => find_bytes (S (Z.to_nat bcnt)) m (Z.shiftr i 3) i bcnt
  end.

(** The loop of [ext4_bmap_bits_find_clr]. *)
Fixpoint find_run (fuel : nat) (m : bmap) (end_bit n i consecutive_count start_pos : Z) : Z + Z :=
  match fuel with
  | O => inl ENOSPC
  | S fuel =>
      if negb (i <? end_bit) then inl ENOSPC
      else if negb (bmap_is_bit_set m i) then
        let start_pos := if consecutive_count =? 0 then i else start_pos in
        if consecutive_count + 1 =? n then inr start_pos else find_run fuel m end_bit n (i + 1) (consecutive_count + 1) start_pos
      else find_run fuel m end_bit n (i + 1) 0 start_pos
  end.

Definition bmap_bits_find_clr (m : bmap) (start_bit end_bit n : Z) : Z + Z :=
  find_run (S (Z.to_nat (end_bit - start_bit))) m end_bit n start_bit 0 0.

(** ** Ranges *)

Fixpoint bmap_bits_set (m : bmap) (start_bit : Z) (n : nat) : bmap :=
  match n with O => m | S n => bmap_bits_set (bmap_bit_set m start_bit) (start_bit + 1) n end.

Fixpoint bmap_is_bits_clr (m : bmap) (start_bit : Z) (n : nat) : bool :=
  match n with O => true | S n => if bmap_is_bit_set m start_bit then false else bmap_is_bits_clr m (start_bit + 1) n end.

(** ** Bits *)

Definition bbit (m : bmap) (i : Z) : bool := Z.testbit (byte m (i / 8)) (i mod 8).
Definition bmap_wf (m : bmap) : Prop := Forall (fun b => 0 <= b < 256) m.
Definition blen (m : bmap) : Z := 8 * Z.of_nat (length m).

Lemma bit_pos i : Z.shiftr i 3 = i / 8 /\ Z.land i 7 = i mod 8.
Proof. rewrite Z.shiftr_div_pow2 by lia. change 7 with (Z.ones 3). rewrite Z.land_ones by lia. done. Qed.

Lemma byte_set m i j b : 0 <= i < Z.of_nat (length m) -> 0 <= j -> byte (set_byte m i b) j = if j =? i then b else byte m j.
Proof. apply (word_set m i b j). Qed.

Lemma byte_range m i : bmap_wf m -> 0 <= byte m i < 256.
Proof.
  intros Hm. unfold byte. destruct (nth_in_or_default (Z.to_nat i) m 0) as [H | ->]; [|lia].
  unfold bmap_wf in Hm. rewrite Forall_forall in Hm. apply Hm. by apply list_elem_of_In.
Qed.

Lemma u8_bits x j : 0 <= j < 8 -> Z.testbit (u8 x) j = Z.testbit x j.
Proof. intros Hj. unfold u8. change 256 with (2 ^ 8). by rewrite Z.mod_pow2_bits_low by lia. Qed.

Lemma bmap_wf_set m i x : bmap_wf m -> bmap_wf (set_byte m i (u8 x)).
Proof. intros H. apply Forall_insert; [done|]. unfold u8. apply Z.mod_pos_bound. lia. Qed.

(** A byte replaced. *)
Lemma bbit_set_byte m p x j : 0 <= p < Z.of_nat (length m) -> 0 <= j ->
  bbit (set_byte m p (u8 x)) j = if j / 8 =? p then Z.testbit x (j mod 8) else bbit m j.
Proof.
  intros Hp Hj. unfold bbit. rewrite byte_set by (done || (apply Z.div_pos; lia)). destruct (j / 8 =? p); [|done].
  apply u8_bits. apply Z.mod_pos_bound. lia.
Qed.

Lemma one_bit i j : 0 <= i -> 0 <= j -> Z.testbit (Z.shiftl 1 i) j = (j =? i).
Proof.
  intros Hi Hj. rewrite Z.shiftl_spec by done. destruct (Z.eqb_spec j i) as [->|Hne]; [by rewrite Z.sub_diag|].
  change 1 with (2 ^ 0). destruct (Z.ltb_spec j i); [apply Z.testbit_neg_r; lia|]. apply Z.pow2_bits_false. lia.
Qed.

Lemma same_pos i j : (j / 8 =? i / 8) && (j mod 8 =? i mod 8) = (j =? i).
Proof. destruct (Z.eqb_spec j i) as [->|Hne]; [by rewrite !Z.eqb_refl|]. destruct (Z.eqb_spec (j / 8) (i / 8)), (Z.eqb_spec (j mod 8) (i mod 8)); try done. Z.div_mod_to_equations; lia. Qed.

Lemma is_bit_set_ok m i : bmap_is_bit_set m i = bbit m i.
Proof.
  unfold bmap_is_bit_set, bbit. destruct (bit_pos i) as [-> ->]. assert (0 <= i mod 8 < 8) as H by (apply Z.mod_pos_bound; lia).
  set (b := byte m (i / 8)). set (k := i mod 8) in *. destruct (Z.testbit b k) eqn:E.
  - destruct (Z.eqb_spec (Z.land b (Z.shiftl 1 k)) 0) as [E0|]; [|done]. exfalso.
    apply (f_equal (fun x => Z.testbit x k)) in E0. rewrite Z.land_spec, one_bit, Z.eqb_refl, E, Z.bits_0 in E0 by lia. done.
  - destruct (Z.eqb_spec (Z.land b (Z.shiftl 1 k)) 0) as [|Hne]; [done|]. exfalso. apply Hne. apply Z.bits_inj'. intros j Hj.
    rewrite Z.land_spec, one_bit, Z.bits_0 by lia. destruct (Z.eqb_spec j k) as [->|]; [by rewrite E|]. apply andb_false_r.
Qed.

Lemma bit_set_ok m i : bmap_wf m -> 0 <= i < blen m ->
  bmap_wf (bmap_bit_set m i) /\ length (bmap_bit_set m i) = length m /\ forall j, 0 <= j -> bbit (bmap_bit_set m i) j = (j =? i) || bbit m j.
Proof.
  intros Hm Hi. unfold bmap_bit_set, blen in *. destruct (bit_pos i) as [-> ->]. split_and!; [by apply bmap_wf_set|by unfold set_byte; rewrite length_insert|].
  intros j Hj. rewrite bbit_set_byte by (done || (Z.div_mod_to_equations; lia)). rewrite <- (same_pos i j). destruct (Z.eqb_spec (j / 8) (i / 8)) as [E|]; [|done].
  rewrite Z.lor_spec, one_bit by (apply Z.mod_pos_bound; lia). unfold bbit. rewrite E. apply orb_comm.
Qed.

Lemma bit_clr_ok m i : bmap_wf m -> 0 <= i < blen m ->
  bmap_wf (bmap_bit_clr m i) /\ length (bmap_bit_clr m i) = length m /\ forall j, 0 <= j -> bbit (bmap_bit_clr m i) j = negb (j =? i) && bbit m j.
Proof.
  intros Hm Hi. unfold bmap_bit_clr, blen in *. destruct (bit_pos i) as [-> ->]. split_and!; [by apply bmap_wf_set|by unfold set_byte; rewrite length_insert|].
  intros j Hj. rewrite bbit_set_byte by (done || (Z.div_mod_to_equations; lia)). rewrite <- (same_pos i j). destruct (Z.eqb_spec (j / 8) (i / 8)) as [E|]; [|done].
  rewrite Z.land_spec, Z.lnot_spec, one_bit by (apply Z.mod_pos_bound; lia). unfold bbit. rewrite E. apply andb_comm.
Qed.

(** ** Ranges of bits *)

Definition in_range (s n j : Z) : bool := (s <=? j) && (j <? s + n).

Lemma in_range_iff s n j : in_range s n j = true <-> s <= j < s + n.
Proof. unfold in_range. rewrite andb_true_iff, Z.leb_le, Z.ltb_lt. lia. Qed.

Lemma in_range_cons s n j : 0 <= n -> in_range s (n + 1) j = (j =? s) || in_range (s + 1) n j.
Proof. intros Hn. apply Bool.eq_iff_eq_true. rewrite orb_true_iff, !in_range_iff, Z.eqb_eq. lia. Qed.

Lemma in_range_app s n n' j : 0 <= n -> 0 <= n' -> in_range s (n + n') j = in_range s n j || in_range (s + n) n' j.
Proof. intros Hn Hn'. apply Bool.eq_iff_eq_true. rewrite orb_true_iff, !in_range_iff. lia. Qed.

(** The bits of the range are cleared in [m']. *)
Record cleared (m m' : bmap) (s n : Z) : Prop := {
  cl_wf : bmap_wf m';
  cl_len : length m' = length m;
  cl_bit j : 0 <= j -> bbit m' j = negb (in_range s n j) && bbit m j
}.

Lemma cleared_nil m s : bmap_wf m -> cleared m m s 0.
Proof. intros H. split; [done|done|]. intros j _. assert (in_range s 0 j = false) as ->; [|done]. apply not_true_is_false. rewrite in_range_iff. lia. Qed.

Lemma cleared_app m m1 m2 s n n' : 0 <= n -> 0 <= n' -> cleared m m1 s n -> cleared m1 m2 (s + n) n' -> cleared m m2 s (n + n').
Proof.
  intros Hn Hn' [A1 A2 A3] [B1 B2 B3]. split; [done|congruence|]. intros j Hj. rewrite B3, A3, in_range_app by done.
  by destruct (in_range s n j), (in_range (s + n) n' j), (bbit m j).
Qed.

Lemma cleared_one m i : bmap_wf m -> 0 <= i < blen m -> cleared m (bmap_bit_clr m i) i 1.
Proof.
  intros Hm Hi. destruct (bit_clr_ok m i Hm Hi) as (H1 & H2 & H3). split; [done|done|]. intros j Hj. rewrite H3 by done.
  replace (j =? i) with (in_range i 1 j); [done|]. apply Bool.eq_iff_eq_true. rewrite in_range_iff, Z.eqb_eq. lia.
Qed.

Lemma cleared_byte m p : bmap_wf m -> 0 <= p < Z.of_nat (length m) -> cleared m (set_byte m p 0) (8 * p) 8.
Proof.
  intros Hm Hp. change 0 with (u8 0). split; [by apply bmap_wf_set|by unfold set_byte; rewrite length_insert|]. intros j Hj. rewrite bbit_set_byte by done.
  replace (j / 8 =? p) with (in_range (8 * p) 8 j).
  - rewrite Z.bits_0. by destruct (in_range (8 * p) 8 j).
  - apply Bool.eq_iff_eq_true. rewrite in_range_iff, Z.eqb_eq. split; intros; Z.div_mod_to_equations; lia.
Qed.

Lemma cleared_blen m m' s n : cleared m m' s n -> blen m' = blen m.
Proof. intros [_ H _]. unfold blen. by rewrite H. Qed.

Lemma free_head_ok fuel : forall m i bcnt, bmap_wf m -> 0 <= i -> 0 <= bcnt -> i + bcnt <= blen m -> (8 - i mod 8) mod 8 <= Z.of_nat fuel ->
  match free_head fuel m i bcnt with
  | (m', None) => cleared m m' i bcnt
  | (m', Some (i', b')) => i <= i' /\ 0 <= b' /\ i' + b' = i + bcnt /\ i' mod 8 = 0 /\ cleared m m' i (i' - i)
  end.
Proof.
  induction fuel as [|fuel IH]; intros m i bcnt Hm Hi Hb Hl Hf; cbn [free_head].
  { split_and!; [lia..|Z.div_mod_to_equations; lia|]. rewrite Z.sub_diag. by apply cleared_nil. }
  destruct (bit_pos i) as [_ ->]. destruct (Z.eqb_spec (i mod 8) 0) as [E|E].
  { split_and!; [lia..|]. rewrite Z.sub_diag. by apply cleared_nil. }
  destruct (Z.eqb_spec bcnt 0) as [->|Hne]; [by apply cleared_nil|].
  assert (cleared m (bmap_bit_clr m i) i 1) as Hc by (apply cleared_one; [done|lia]).
  specialize (IH (bmap_bit_clr m i) (i + 1) (bcnt - 1) (cl_wf _ _ _ _ Hc) ltac:(lia) ltac:(lia)). rewrite (cleared_blen _ _ _ _ Hc) in IH.
  specialize (IH ltac:(lia) ltac:(Z.div_mod_to_equations; lia)).
  destruct (free_head fuel (bmap_bit_clr m i) (i + 1) (bcnt - 1)) as [m' [[i' b']|]].
  - destruct IH as (I1 & I2 & I3 & I4 & I5). split_and!; [lia..|]. replace (i' - i) with (1 + (i' - (i + 1))) by lia. by apply (cleared_app m (bmap_bit_clr m i) m'); [lia..| |].
  - replace bcnt with (1 + (bcnt - 1)) by lia. by apply (cleared_app m (bmap_bit_clr m i) m'); [lia..| |].
Qed.

Lemma free_bytes_ok fuel : forall m p bcnt, bmap_wf m -> 0 <= p -> 0 <= bcnt <= 8 * Z.of_nat fuel + 7 -> 8 * p + bcnt <= blen m ->
  let '(m', p', b') := free_bytes fuel m p bcnt in p <= p' /\ 0 <= b' < 8 /\ 8 * p' + b' = 8 * p + bcnt /\ cleared m m' (8 * p) (8 * p' - 8 * p).
Proof.
  induction fuel as [|fuel IH]; intros m p bcnt Hm Hp Hb Hl; cbn [free_bytes].
  { split_and!; [lia..|]. rewrite Z.sub_diag. by apply cleared_nil. }
  destruct (Z.leb_spec 8 bcnt).
  - assert (cleared m (set_byte m p 0) (8 * p) 8) as Hc by (apply cleared_byte; [done|unfold blen in Hl; lia]).
    specialize (IH (set_byte m p 0) (p + 1) (bcnt - 8) (cl_wf _ _ _ _ Hc) ltac:(lia) ltac:(lia)). rewrite (cleared_blen _ _ _ _ Hc) in IH. specialize (IH ltac:(lia)).
    destruct (free_bytes fuel (set_byte m p 0) (p + 1) (bcnt - 8)) as [[m' p'] b']. destruct IH as (I1 & I2 & I3 & I4). split_and!; [lia..|].
    replace (8 * p' - 8 * p) with (8 + (8 * p' - 8 * (p + 1))) by lia. apply (cleared_app m (set_byte m p 0) m'); [lia..|done|]. by replace (8 * p + 8) with (8 * (p + 1)) by lia.
  - split_and!; [lia..|]. rewrite Z.sub_diag. by apply cleared_nil.
Qed.

Lemma free_tail_ok n : forall m p i, bmap_wf m -> 0 <= 8 * p + i -> 8 * p + i + Z.of_nat n <= blen m -> cleared m (free_tail n m p i) (8 * p + i) (Z.of_nat n).
Proof.
  induction n as [|n IH]; intros m p i Hm Hp Hl; cbn [free_tail]; [by apply cleared_nil|].
  assert (cleared m (bmap_bit_clr m (8 * p + i)) (8 * p + i) 1) as Hc by (apply cleared_one; [done|lia]).
  replace (Z.of_nat (S n)) with (1 + Z.of_nat n) by lia. apply (cleared_app m (bmap_bit_clr m (8 * p + i))); [lia..|done|]. rewrite <- Z.add_assoc. apply IH.
  - apply Hc. - lia. - rewrite (cleared_blen _ _ _ _ Hc). lia.
Qed.

(** Freeing by bytes clears exactly the bits of the range. *)
Lemma bits_free_ok m s n : bmap_wf m -> 0 <= s -> 0 <= n -> s + n <= blen m -> cleared m (bmap_bits_free m s n) s n.
Proof.
  intros Hm Hs Hn Hl. unfold bmap_bits_free. pose proof (free_head_ok 8 m s n Hm Hs Hn Hl ltac:(Z.div_mod_to_equations; lia)) as Hh.
  destruct (free_head 8 m s n) as [m1 [[i b]|]]; [|done]. destruct Hh as (H1 & H2 & H3 & H4 & Hc1). destruct (bit_pos i) as [-> _].
  assert (i = 8 * (i / 8)) as Ei by (Z.div_mod_to_equations; lia). pose proof (cleared_blen _ _ _ _ Hc1) as Hb1.
  pose proof (free_bytes_ok (Z.to_nat b) m1 (i / 8) b (cl_wf _ _ _ _ Hc1) ltac:(lia) ltac:(lia) ltac:(lia)) as Hb.
  destruct (free_bytes (Z.to_nat b) m1 (i / 8) b) as [[m2 p] b']. destruct Hb as (B1 & B2 & B3 & Hc2). rewrite <- Ei in *. pose proof (cleared_blen _ _ _ _ Hc2) as Hb2.
  pose proof (free_tail_ok (Z.to_nat b') m2 p 0 (cl_wf _ _ _ _ Hc2) ltac:(lia) ltac:(lia)) as Hc3. rewrite Z.add_0_r, Z2Nat.id in Hc3 by lia.
  replace n with ((i - s) + ((8 * p - i) + b')) by lia. apply (cleared_app m m1); [lia..|done|]. replace (s + (i - s)) with i by lia.
  apply (cleared_app m1 m2); [lia..|done|]. by replace (i + (8 * p - i)) with (8 * p) by lia.
Qed.

(** The bits of the range are set in [m']. *)
Record bits_marked (m m' : bmap) (s n : Z) : Prop := {
  mk_wf : bmap_wf m';
  mk_len : length m' = length m;
  mk_bit j : 0 <= j -> bbit m' j = in_range s n j || bbit m j
}.

Lemma bits_set_ok n : forall m s, bmap_wf m -> 0 <= s -> s + Z.of_nat n <= blen m -> bits_marked m (bmap_bits_set m s n) s (Z.of_nat n).
Proof.
  induction n as [|n IH]; intros m s Hm Hs Hl; cbn [bmap_bits_set].
  - split; [done|done|]. intros j _. assert (in_range s (Z.of_nat 0) j = false) as ->; [|done]. apply not_true_is_false. rewrite in_range_iff. lia.
  - destruct (bit_set_ok m s Hm ltac:(lia)) as (H1 & H2 & H3). destruct (IH (bmap_bit_set m s) (s + 1) H1 ltac:(lia)) as [I1 I2 I3]; [unfold blen in *; rewrite H2; lia|].
    split; [done|congruence|]. intros j Hj. rewrite I3, H3 by done. replace (Z.of_nat (S n)) with (Z.of_nat n + 1) by lia. rewrite in_range_cons by lia.
    by destruct (j =? s), (in_range (s + 1) (Z.of_nat n) j).
Qed.

(** [n] clear bits from [p] on. *)
Definition clr_run (m : bmap) (p n : Z) : Prop := forall j, p <= j < p + n -> bbit m j = false.

Lemma is_bits_clr_ok m n : forall s, bmap_is_bits_clr m s n = true <-> clr_run m s (Z.of_nat n).
Proof.
  induction n as [|n IH]; intros s; cbn [bmap_is_bits_clr].
  - split; [|done]. intros _ j Hj. lia.
  - rewrite is_bit_set_ok. destruct (bbit m s) eqn:E.
    + split; [done|]. intros H. by rewrite H in E by lia.
    + rewrite IH. split; intros H j Hj; [|apply H; lia]. destruct (Z.eq_dec j s) as [->|]; [done|]. apply H. lia.
Qed.

(** First fit in [start, end): the first run of [n] clear bits, or none. *)
Definition first_run (m : bmap) (start end_bit n : Z) (r : Z + Z) : Prop :=
  match r with
  | inr p => start <= p /\ p + n <= end_bit /\ clr_run m p n /\ forall q, start <= q < p -> ~ clr_run m q n
  | inl e => e = ENOSPC /\ forall q, start <= q -> q + n <= end_bit -> ~ clr_run m q n
  end.

Lemma find_run_ok m end_bit n start fuel : forall i c sp, 0 < n -> start <= i - c -> 0 <= c < n -> end_bit - i < Z.of_nat fuel ->
  (0 < c -> sp = i - c) -> (forall j, i - c <= j < i -> bbit m j = false) -> (forall q, start <= q < i - c -> ~ clr_run m q n) ->
  first_run m start end_bit n (find_run fuel m end_bit n i c sp).
Proof.
  induction fuel as [|fuel IH]; intros i c sp Hn Hst Hc Hf Hsp Hclr Hno; cbn [find_run].
  { split; [done|]. intros q Hq1 Hq2. destruct (Z.ltb_spec q (i - c)); [apply Hno; lia|lia]. }
  destruct (Z.ltb_spec i end_bit) as [Hi|Hi]; cbn [negb].
  2:{ split; [done|]. intros q Hq1 Hq2. destruct (Z.ltb_spec q (i - c)); [apply Hno; lia|lia]. }
  rewrite is_bit_set_ok. destruct (bbit m i) eqn:Eb; cbn [negb].
  - apply IH; try lia. intros q Hq Hrun. destruct (Z.ltb_spec q (i - c)); [apply (Hno q); [lia|done]|]. rewrite Hrun in Eb by lia. done.
  - set (sp' := if c =? 0 then i else sp). assert (sp' = i - c) as Esp by (unfold sp'; destruct (Z.eqb_spec c 0); [lia|apply Hsp; lia]).
    assert (forall j, i - c <= j < i + 1 -> bbit m j = false) as Hclr' by (intros j Hj; destruct (Z.eq_dec j i) as [->|]; [done|apply Hclr; lia]).
    destruct (Z.eqb_spec (c + 1) n) as [En|En].
    + cbn. rewrite Esp. split_and!; [lia|lia| |done]. intros j Hj. apply Hclr'. lia.
    + apply IH; try lia; [intros j Hj; apply Hclr'; lia|]. intros q Hq. apply Hno. lia.
Qed.

Lemma bits_find_clr_ok m start end_bit n : 0 < n -> first_run m start end_bit n (bmap_bits_find_clr m start end_bit n).
Proof. intros Hn. apply find_run_ok; try lia; intros; lia. Qed.

Lemma is_bit_clr_ok m i : bmap_is_bit_clr m i = negb (bbit m i).
Proof. unfold bmap_is_bit_clr. by rewrite is_bit_set_ok. Qed.

Lemma clr_run_one m p : clr_run m p 1 <-> bbit m p = false.
Proof. split; [intros H; apply H; lia|]. intros H j Hj. by replace j with p by lia. Qed.

Lemma clr_in_byte_ok m p n : forall i,
  match clr_in_byte n m p i with
  | Some k => i <= k < i + Z.of_nat n /\ bbit m (8 * p + k) = false /\ forall q, i <= q < k -> bbit m (8 * p + q) = true
  | None => forall q, i <= q < i + Z.of_nat n -> bbit m (8 * p + q) = true
  end.
Proof.
  induction n as [|n IH]; intros i; cbn [clr_in_byte]; [intros q Hq; lia|]. rewrite is_bit_clr_ok. destruct (bbit m (8 * p + i)) eqn:E; cbn [negb].
  - specialize (IH (i + 1)). destruct (clr_in_byte n m p (i + 1)) as [k|].
    + destruct IH as (H1 & H2 & H3). split_and!; [lia|lia|done|]. intros q Hq. destruct (Z.eq_dec q i) as [->|]; [done|]. apply H3. lia.
    + intros q Hq. destruct (Z.eq_dec q i) as [->|]; [done|]. apply IH. lia.
  - split_and!; [lia|lia|done|]. intros q Hq. lia.
Qed.

Lemma full_byte m p i : byte m p = 255 -> 0 <= i < 8 -> bbit m (8 * p + i) = true.
Proof.
  intros E Hi. unfold bbit. replace ((8 * p + i) / 8) with p by (Z.div_mod_to_equations; lia). replace ((8 * p + i) mod 8) with i by (Z.div_mod_to_equations; lia).
  rewrite E. change 255 with (Z.ones 8). by rewrite Z.ones_spec_low by lia.
Qed.

(** The search from a byte boundary. *)
Lemma find_bytes_ok m fuel : forall p bcnt, 0 <= p -> 0 <= bcnt < 8 * Z.of_nat fuel ->
  first_run m (8 * p) (8 * p + bcnt) 1 (find_bytes fuel m p (8 * p) bcnt).
Proof.
  induction fuel as [|fuel IH]; intros p bcnt Hp Hb; [lia|]. cbn [find_bytes]. destruct (Z.leb_spec 8 bcnt) as [H8|H8].
  - set (c := if negb (byte m p =? 255) then clr_in_byte 8 m p 0 else None).
    assert (match c with
            | Some k => 0 <= k < 8 /\ bbit m (8 * p + k) = false /\ forall q, 0 <= q < k -> bbit m (8 * p + q) = true
            | None => forall q, 0 <= q < 8 -> bbit m (8 * p + q) = true end) as Hc.
    { unfold c. destruct (Z.eqb_spec (byte m p) 255) as [E|E]; cbn [negb]; [intros q Hq; by apply full_byte|apply (clr_in_byte_ok m p 8 0)]. }
    destruct c as [k|].
    + destruct Hc as (H1 & H2 & H3). split_and!; [lia|lia|by apply clr_run_one|]. intros q Hq Hr%clr_run_one.
      specialize (H3 (q - 8 * p) ltac:(lia)). replace (8 * p + (q - 8 * p)) with q in H3 by lia. congruence.
    + replace (8 * p + 8) with (8 * (p + 1)) by lia. specialize (IH (p + 1) (bcnt - 8) ltac:(lia) ltac:(lia)).
      replace (8 * (p + 1) + (bcnt - 8)) with (8 * p + bcnt) in IH by lia.
      assert (forall q, 8 * p <= q < 8 * (p + 1) -> ~ clr_run m q 1) as Hn.
      { intros q Hq Hr%clr_run_one. specialize (Hc (q - 8 * p) ltac:(lia)). replace (8 * p + (q - 8 * p)) with q in Hc by lia. congruence. }
      destruct (find_bytes fuel m (p + 1) (8 * (p + 1)) (bcnt - 8)) as [e|r].
      * destruct IH as [H1 H2]. split; [done|]. intros q Hq1 Hq2. destruct (Z.ltb_spec q (8 * (p + 1))); [by apply Hn|by apply H2].
      * destruct IH as (H1 & H2 & H3 & H4). split_and!; [lia|done|done|]. intros q Hq. destruct (Z.ltb_spec q (8 * (p + 1))); [apply Hn; lia|apply H4; lia].
  - pose proof (clr_in_byte_ok m p (Z.to_nat bcnt) 0) as Hc. rewrite Z2Nat.id in Hc by lia. destruct (clr_in_byte (Z.to_nat bcnt) m p 0) as [k|].
    + destruct Hc as (H1 & H2 & H3). split_and!; [lia|lia|by apply clr_run_one|]. intros q Hq Hr%clr_run_one.
      specialize (H3 (q - 8 * p) ltac:(lia)). replace (8 * p + (q - 8 * p)) with q in H3 by lia. congruence.
    + split; [done|]. intros q Hq1 Hq2 Hr%clr_run_one. specialize (Hc (q - 8 * p) ltac:(lia)). replace (8 * p + (q - 8 * p)) with q in Hc by lia. congruence.
Qed.

(** From a byte boundary the first clear bit is found; from another bit [s]
    the search reports [s] itself when it finds a clear bit up to the next
    boundary. *)
Lemma bit_find_clr_aligned m s e : 0 <= s <= e -> e < U32_MOD -> s mod 8 = 0 -> first_run m s e 1 (bmap_bit_find_clr m s e).
Proof.
  intros Hs He Ha. unfold bmap_bit_find_clr. rewrite u32_id by lia. cbn [find_head]. destruct (bit_pos s) as [E1 E2]. rewrite E2, Ha. cbn [Z.eqb]. rewrite E1.
  assert (s = 8 * (s / 8)) as Es by (Z.div_mod_to_equations; lia). pose proof (find_bytes_ok m (S (Z.to_nat (e - s))) (s / 8) (e - s) ltac:(lia) ltac:(lia)) as H.
  rewrite <- Es in H. by replace (s + (e - s)) with e in H by lia.
Qed.

Lemma find_head_stuck m sbit fuel : forall i bcnt k, 0 <= i -> i <= k -> k < i + bcnt -> k - i < Z.of_nat fuel -> (forall j, i <= j <= k -> j mod 8 <> 0) ->
  bbit m k = false -> (forall j, i <= j < k -> bbit m j = true) -> find_head fuel m sbit i bcnt = inl (inr sbit).
Proof.
  induction fuel as [|fuel IH]; intros i bcnt k Hi Hk Hb Hf Hm Hc Hs; [lia|]. cbn [find_head]. destruct (bit_pos i) as [_ ->].
  rewrite (proj2 (Z.eqb_neq _ _)) by (apply Hm; lia). rewrite (proj2 (Z.eqb_neq bcnt 0)) by lia. rewrite is_bit_clr_ok. destruct (Z.eq_dec i k) as [->|Hne].
  - by rewrite Hc.
  - rewrite Hs by lia. cbn [negb]. apply (IH (i + 1) (bcnt - 1) k); try lia; [|done|]; intros j Hj; [apply Hm; lia|apply Hs; lia].
Qed.

Lemma bit_find_clr_unaligned m s e k : 0 <= s -> s <= k < e -> e < U32_MOD -> s mod 8 <> 0 -> k / 8 = s / 8 ->
  bbit m k = false -> (forall j, s <= j < k -> bbit m j = true) -> bmap_bit_find_clr m s e = inr s.
Proof.
  intros Hs Hk He Ha Hb Hc Hset. unfold bmap_bit_find_clr. rewrite u32_id by lia.
  rewrite (find_head_stuck m s 8 s (e - s) k); try done; try lia; try (Z.div_mod_to_equations; lia). intros j Hj. Z.div_mod_to_equations; lia.
Qed.
