(* ===== verification/Ext4Balloc.v ===== *)
(** * The block allocator of lwext4

    [secure_daemon/src/fs/lwext4/ext4_balloc.c]: bitmaps of the block groups,
    and the counters of free blocks in the group descriptors and the super
    block.  A group is taken as its descriptor has been read (and its bitmap
    initialised); the functions return the error code or the first block. *)

From S2P Require Import Prelude Bitmap Ext4Extent Ext4Bitmap.

(** ** State *)

Record sblock := mk_sblock {
  first_data_block : Z; blocks_per_group : Z; blocks_count : Z; sb_block_size : Z;
  desc_size : Z; huge_file : bool
}.

(** Descriptor and block bitmap of a group. *)
Record bgroup := mk_bgroup { free_blocks_count : Z; block_bitmap : bmap }.

(** Size of an inode in sectors: 48 bits, in blocks if [ib_huge]. *)
Record ino_blocks := mk_ib { ib_cnt : Z; ib_huge : bool }.

Record bstate := mk_bs { groups : list bgroup; sb_free_blocks : Z; inode_blocks : ino_blocks }.

Definition set_group (s : bstate) (bgid : Z) (g : bgroup) : bstate :=
  mk_bs (<[Z.to_nat bgid := g]> (groups s)) (sb_free_blocks s) (inode_blocks s).

(** ** Geometry *)

Section balloc.
Context (sb : sblock).

Definition get_bgid_of_block (baddr : Z) : Z :=
  let baddr := if negb (first_data_block sb =? 0) && negb (baddr =? 0) then baddr - 1 else baddr in
  u32 (baddr / blocks_per_group sb).

Definition get_block_of_bgid (bgid : Z) : Z :=
  (if negb (first_data_block sb =? 0) then 1 else 0) + u32 (bgid * blocks_per_group sb).

Definition addr_to_idx_bg (baddr : Z) : Z :=
  let baddr := if negb (first_data_block sb =? 0) && negb (baddr =? 0) then baddr - 1 else baddr in
  u32 (baddr mod blocks_per_group sb).

Definition bg_idx_to_addr (index bgid : Z) : Z :=
  let index := if negb (first_data_block sb =? 0) then u32 (index + 1) else index in
  u32 (u32 (blocks_per_group sb * bgid) + index).

Definition block_group_cnt : Z :=
  let n := u32 (blocks_count sb / blocks_per_group sb) in
  if negb (blocks_count sb mod blocks_per_group sb =? 0) then u32 (n + 1) else n.

Definition blocks_in_group_cnt (bgid : Z) : Z :=
  if bgid <? u32 (block_group_cnt - 1) then blocks_per_group sb
  else u32 (blocks_count sb - u32 (u32 (block_group_cnt - 1) * blocks_per_group sb)).

(** ** Counters *)

Definition bg_get_free_blocks_count (g : bgroup) : Z := if 32 <? desc_size sb then free_blocks_count g else free_blocks_count g mod 65536.
Definition bg_set_free_blocks_count (g : bgroup) (cnt : Z) : bgroup :=
  mk_bgroup (if 32 <? desc_size sb then u32 cnt else u32 cnt mod 65536) (block_bitmap g).

Fixpoint block_bits_count_loop (fuel : nat) (size bits : Z) : Z :=
  match fuel with O => bits | S fuel => let size := Z.shiftr size 1 in if 256 <? size then block_bits_count_loop fuel size (bits + 1) else bits + 1 end.
Definition inode_block_bits_count (block_size : Z) : Z := block_bits_count_loop 32 block_size 8.

Definition inode_get_blocks_count (i : ino_blocks) : Z :=
  if huge_file sb then
    if ib_huge i then u64 (Z.shiftl (ib_cnt i) (inode_block_bits_count (sb_block_size sb) - 9)) else ib_cnt i
  else u32 (ib_cnt i).

(** The error for a count that does not fit is not looked at by the callers. *)
Definition inode_set_blocks_count (i : ino_blocks) (count : Z) : ino_blocks :=
  if count <=? 4294967295 then mk_ib count false
  else if negb (huge_file sb) then i
  else if count <=? 281474976710655 then mk_ib count false
  else mk_ib (Z.shiftr count (inode_block_bits_count (sb_block_size sb) - 9) mod 281474976710656) true.

Definition EXT4_INODE_BLOCK_SIZE : Z := 512.

(** ** I/O *)

(** Error codes for a group: reading its descriptor and its bitmap, releasing
    the bitmap and the descriptor. *)
Context (rc_get_bg rc_get_blk rc_set_blk rc_put_bg : Z -> Z).

(** A descriptor read past the last group is not one. *)
Definition with_group {B} (s : bstate) (bgid : Z) (k : bgroup -> res (bstate * (Z + B))) : res (bstate * (Z + B)) :=
  if negb (rc_get_bg bgid =? EOK) then Ok (s, inl (rc_get_bg bgid))
  else match groups s !! Z.to_nat bgid with Some g => k g | None => Abort end.

(** ** Allocation *)

(** [success:] *)
Definition alloc_success (s : bstate) (bgid nr_blks alloc : Z) : res (bstate * (Z + Z)) :=
  match groups s !! Z.to_nat bgid with
  | None => Abort
  | Some g =>
      let s := set_group s bgid (bg_set_free_blocks_count g (u32 (bg_get_free_blocks_count g - nr_blks))) in
      let ib := inode_set_blocks_count (inode_blocks s) (u64 (inode_get_blocks_count (inode_blocks s) + u32 (sb_block_size sb / EXT4_INODE_BLOCK_SIZE * nr_blks))) in
      let s := mk_bs (groups s) (u64 (sb_free_blocks s - nr_blks)) ib in
      Ok (s, if rc_put_bg bgid =? EOK then inr alloc else inl (rc_put_bg bgid))
  end.

(** Mark the bits of a range found in the bitmap and finish. *)
Definition alloc_range (s : bstate) (bgid : Z) (g : bgroup) (idx nr_blks : Z) : res (bstate * (Z + Z)) :=
  let s := set_group s bgid (mk_bgroup (free_blocks_count g) (bmap_bits_set (block_bitmap g) idx (Z.to_nat nr_blks))) in
  if negb (rc_set_blk bgid =? EOK) then Ok (s, inl (rc_set_blk bgid))
  else alloc_success s bgid nr_blks (bg_idx_to_addr idx bgid).

(** The positions up to the next multiple of 64. *)
Fixpoint near_goal (fuel : nat) (m : bmap) (tmp_idx end_idx blk_in_bg nr_blks : Z) : option Z :=
  match fuel with
  | O => None
  | S fuel =>
      if negb (tmp_idx <? end_idx) then None
      else if blk_in_bg <? u32 (tmp_idx + nr_blks) then None
      else if bmap_is_bits_clr m tmp_idx (Z.to_nat nr_blks) then Some tmp_idx
      else near_goal fuel m (tmp_idx + 1) end_idx blk_in_bg nr_blks
  end.

(** Where to allocate in the group of the goal. *)
Definition goal_range (m : bmap) (idx_in_bg blk_in_bg nr_blks : Z) : option Z :=
  if (u32 (idx_in_bg + nr_blks) <=? blk_in_bg) && bmap_is_bits_clr m idx_in_bg (Z.to_nat nr_blks) then Some idx_in_bg
  else
    let end_idx := Z.ldiff (u32 (idx_in_bg + 63)) 63 in
    let end_idx := if blk_in_bg <? end_idx then blk_in_bg else end_idx in
    match near_goal 64 m (idx_in_bg + 1) end_idx blk_in_bg nr_blks with
    | Some i => Some i
    | None => match bmap_bits_find_clr m idx_in_bg blk_in_bg nr_blks with inr i => Some i | inl _ => None end
    end.

(** Try other block groups, [count] of them. *)
Fixpoint other_groups (count : nat) (s : bstate) (bgid nr_blks : Z) : res (bstate * (Z + Z)) :=
  match count with
  | O => Ok (s, inl ENOSPC)
  | S count =>
      with_group s bgid (fun g =>
        let next := if negb (rc_put_bg bgid =? EOK) then Ok (s, inl (rc_put_bg bgid)) else other_groups count s (u32 (bgid + 1) mod block_group_cnt) nr_blks in
        if bg_get_free_blocks_count g <? nr_blks then next
        else if negb (rc_get_blk bgid =? EOK) then Ok (s, inl (rc_get_blk bgid))
        else
          match bmap_bits_find_clr (block_bitmap g) (addr_to_idx_bg (get_block_of_bgid bgid)) (blocks_in_group_cnt bgid) nr_blks with
          | inr idx => alloc_range s bgid g idx nr_blks
          | inl _ => if negb (rc_set_blk bgid =? EOK) then Ok (s, inl (rc_set_blk bgid)) else next
          end)
  end.

(** [__ext4_balloc_alloc_block] *)
Definition balloc_alloc_block (s : bstate) (goal nr_blks : Z) : res (bstate * (Z + Z)) :=
  let bg_id := get_bgid_of_block goal in
  with_group s bg_id (fun g =>
    let goal_failed :=
      if negb (rc_put_bg bg_id =? EOK) then Ok (s, inl (rc_put_bg bg_id))
      else other_groups (Z.to_nat block_group_cnt) s (u32 (bg_id + 1) mod block_group_cnt) nr_blks in
    if bg_get_free_blocks_count g <? nr_blks then goal_failed
    else
      let first_in_bg_index := addr_to_idx_bg (get_block_of_bgid bg_id) in
      let idx_in_bg := if addr_to_idx_bg goal <? first_in_bg_index then first_in_bg_index else addr_to_idx_bg goal in
      if negb (rc_get_blk bg_id =? EOK) then Ok (s, inl (rc_get_blk bg_id))
      else
        match goal_range (block_bitmap g) idx_in_bg (blocks_in_group_cnt bg_id) nr_blks with
        | Some idx => alloc_range s bg_id g idx nr_blks
        | None => if negb (rc_set_blk bg_id =? EOK) then Ok (s, inl (rc_set_blk bg_id)) else goal_failed
        end).

(** ** Freeing *)

(** Counters after [cnt] blocks of a group are freed. *)
Definition free_counts (s : bstate) (bgid : Z) (g : bgroup) (cnt : Z) : bstate :=
  let s := set_group s bgid (bg_set_free_blocks_count g (u32 (bg_get_free_blocks_count g + cnt))) in
  let ib := inode_set_blocks_count (inode_blocks s) (u64 (inode_get_blocks_count (inode_blocks s) - u32 (cnt * (sb_block_size sb / EXT4_INODE_BLOCK_SIZE)))) in
  mk_bs (groups s) (u64 (sb_free_blocks s + cnt)) ib.

(** [while (bg_first <= bg_last)]: the error code and the blocks left.  Fuel:
    the groups of the range. *)
Fixpoint free_groups (fuel : nat) (s : bstate) (bg_first bg_last first count : Z) : res (bstate * (Z + Z)) :=
  match fuel with
  | O => Blocked
  | S fuel =>
      if negb (bg_first <=? bg_last) then Ok (s, inr count)
      else
        with_group s bg_first (fun g =>
          let idx_in_bg_first := addr_to_idx_bg first in
          if negb (rc_get_blk bg_first =? EOK) then Ok (s, inl (rc_get_blk bg_first))
          else
            let free_cnt := u32 (sb_block_size sb * 8 - idx_in_bg_first) in
            let free_cnt := if free_cnt <? count then free_cnt else count in
            let g := mk_bgroup (free_blocks_count g) (bmap_bits_free (block_bitmap g) idx_in_bg_first free_cnt) in
            let s := set_group s bg_first g in
            if negb (rc_set_blk bg_first =? EOK) then Ok (s, inl (rc_set_blk bg_first))
            else
              let s := free_counts s bg_first g free_cnt in
              if negb (rc_put_bg bg_first =? EOK) then Ok (s, inr (count - free_cnt))
              else free_groups fuel s (bg_first + 1) bg_last (first + free_cnt) (count - free_cnt))
  end.

(** [__ext4_balloc_free_blocks].  Revoking the blocks, which does nothing
    without a journal of ext4, overwrites the error of the last release. *)
Definition balloc_free_blocks (s : bstate) (first count : Z) : res (bstate * Z) :=
  let bg_first := get_bgid_of_block first in
  let bg_last := get_bgid_of_block (u64 (first + count - 1)) in
  let* (s, r) := free_groups (S (S (Z.to_nat (bg_last - bg_first)))) s bg_first bg_last first count in
  match r with
  | inl rc => Ok (s, rc)
  | inr count => assert! (count =? 0) in Ok (s, EOK)
  end.

(** [__ext4_balloc_free_block] *)
Definition balloc_free_block (s : bstate) (baddr : Z) : res (bstate * (Z + unit)) :=
  let bg_id := get_bgid_of_block baddr in
  let index_in_group := addr_to_idx_bg baddr in
  with_group s bg_id (fun g =>
    if negb (rc_get_blk bg_id =? EOK) then Ok (s, inl (rc_get_blk bg_id))
    else
      let g := mk_bgroup (free_blocks_count g) (bmap_bit_clr (block_bitmap g) index_in_group) in
      let s := set_group s bg_id g in
      if negb (rc_set_blk bg_id =? EOK) then Ok (s, inl (rc_set_blk bg_id))
      else
        let s := free_counts s bg_id g 1 in
        Ok (s, if rc_put_bg bg_id =? EOK then inr tt else inl (rc_put_bg bg_id))).

(** ** A given block *)

(** [ext4_balloc_try_alloc_block]: whether the block was free. *)
Definition balloc_try_alloc_block (s : bstate) (baddr : Z) : res (bstate * (Z + bool)) :=
  let block_group := get_bgid_of_block baddr in
  let index_in_group := addr_to_idx_bg baddr in
  with_group s block_group (fun g =>
    if negb (rc_get_blk block_group =? EOK) then Ok (s, inl (rc_get_blk block_group))
    else
      let free := bmap_is_bit_clr (block_bitmap g) index_in_group in
      let s := if free then set_group s block_group (mk_bgroup (free_blocks_count g) (bmap_bit_set (block_bitmap g) index_in_group)) else s in
      if negb (rc_set_blk block_group =? EOK) then Ok (s, inl (rc_set_blk block_group))
      else if negb free then Ok (s, if rc_put_bg block_group =? EOK then inr false else inl (rc_put_bg block_group))
      else
        let* (s, r) := alloc_success s block_group 1 0 in
        Ok (s, match r with inl e => inl e | inr _ => inr true end)).
End balloc.

(** ** Geometry *)

(** Blocks of more than 1 KiB, a group as large as a bitmap, and block numbers
    of 32 bits. *)
Record geom_ok (sb : sblock) : Prop := {
  go_first : first_data_block sb = 0;
  go_bpg : blocks_per_group sb = 8 * sb_block_size sb;
  go_size : 0 < blocks_per_group sb < 65536;
  go_count : 0 < blocks_count sb < U32_MOD
}.

Section geometry.
Context (sb : sblock) (Hg : geom_ok sb).
Notation bpg := (blocks_per_group sb).

(** Number of groups and of blocks in a group. *)
Definition ngroups : Z := (blocks_count sb + bpg - 1) / bpg.
Definition gblocks (bgid : Z) : Z := Z.min bpg (blocks_count sb - bgid * bpg).

Lemma ngroups_eq : block_group_cnt sb = ngroups /\ 0 < ngroups < U32_MOD /\ (ngroups - 1) * bpg < blocks_count sb <= ngroups * bpg.
Proof.
  destruct Hg as [_ _ H1 H2]. unfold block_group_cnt, ngroups. assert (blocks_count sb / bpg < U32_MOD) as Hq by (apply Z.div_lt_upper_bound; nia).
  assert (0 <= blocks_count sb / bpg) by (apply Z.div_pos; lia). rewrite (u32_id (blocks_count sb / bpg)) by lia.
  pose proof (Z.div_mod (blocks_count sb) bpg ltac:(lia)) as E. pose proof (Z.mod_pos_bound (blocks_count sb) bpg ltac:(lia)) as Hm.
  destruct (Z.eqb_spec (blocks_count sb mod bpg) 0) as [E0|E0]; cbn [negb].
  - assert ((blocks_count sb + bpg - 1) / bpg = blocks_count sb / bpg) as ->; [|nia].
    symmetry. apply (Z.div_unique _ _ _ (bpg - 1)); [left; lia|lia].
  - assert ((blocks_count sb + bpg - 1) / bpg = blocks_count sb / bpg + 1) as ->.
    { symmetry. apply (Z.div_unique _ _ _ (blocks_count sb mod bpg - 1)); [left; lia|lia]. }
    assert (blocks_count sb / bpg + 1 < U32_MOD) as Hq' by nia. rewrite u32_id by lia. split_and!; nia.
Qed.

Lemma group_range bgid : 0 <= bgid < ngroups -> 0 < gblocks bgid <= bpg /\ bgid * bpg + gblocks bgid <= blocks_count sb /\ 0 <= bgid * bpg < U32_MOD.
Proof. intros Hb. destruct ngroups_eq as (_ & Hn & H1). destruct Hg as [_ _ H2 H3]. unfold gblocks. nia. Qed.

Lemma blocks_in_group_eq bgid : 0 <= bgid < ngroups -> blocks_in_group_cnt sb bgid = gblocks bgid.
Proof.
  intros Hb. destruct ngroups_eq as (E & Hn & H1). pose proof (group_range bgid Hb) as Hr. destruct Hg as [_ _ H2 H3]. unfold blocks_in_group_cnt. rewrite E.
  rewrite (u32_id (ngroups - 1)) by lia. unfold gblocks in *. destruct (Z.ltb_spec bgid (ngroups - 1)) as [Hlt|Hge]; [nia|].
  assert (bgid = ngroups - 1) as -> by lia. rewrite (u32_id ((ngroups - 1) * bpg)) by nia. rewrite u32_id by nia. nia.
Qed.

Lemma block_addr_eq bgid idx : 0 <= bgid < ngroups -> 0 <= idx < gblocks bgid -> bg_idx_to_addr sb idx bgid = bgid * bpg + idx.
Proof.
  intros Hb Hi. pose proof (group_range bgid Hb) as Hr. destruct Hg as [H0 _ H2 H3]. unfold bg_idx_to_addr. rewrite H0. cbn [Z.eqb negb].
  rewrite (u32_id (bpg * bgid)) by lia. rewrite u32_id by lia. lia.
Qed.

Lemma first_idx_eq bgid : 0 <= bgid < ngroups -> addr_to_idx_bg sb (get_block_of_bgid sb bgid) = 0.
Proof.
  intros Hb. pose proof (group_range bgid Hb) as Hr. destruct Hg as [H0 _ H2 H3]. unfold addr_to_idx_bg, get_block_of_bgid. rewrite H0. cbn [Z.eqb negb andb].
  rewrite (u32_id (bgid * bpg)) by lia. rewrite Z.add_0_l, Z.mod_mul by lia. done.
Qed.

Lemma block_pos x : 0 <= x < blocks_count sb ->
  get_bgid_of_block sb x = x / bpg /\ addr_to_idx_bg sb x = x mod bpg /\ 0 <= x / bpg < ngroups /\ 0 <= x mod bpg < gblocks (x / bpg).
Proof.
  intros Hx. destruct ngroups_eq as (_ & Hn & H1). destruct Hg as [H0 _ H2 H3]. unfold get_bgid_of_block, addr_to_idx_bg. rewrite H0. cbn [Z.eqb negb andb].
  pose proof (Z.div_mod x bpg ltac:(lia)) as E. pose proof (Z.mod_pos_bound x bpg ltac:(lia)) as Hm. assert (0 <= x / bpg) by (apply Z.div_pos; lia).
  assert (x / bpg < ngroups) by (apply Z.div_lt_upper_bound; nia). rewrite (u32_id (x / bpg)), (u32_id (x mod bpg)) by lia. unfold gblocks. split_and!; nia.
Qed.

(** A goal need only lie in a group. *)
Lemma goal_pos x : 0 <= x < ngroups * bpg ->
  get_bgid_of_block sb x = x / bpg /\ addr_to_idx_bg sb x = x mod bpg /\ 0 <= x / bpg < ngroups /\ 0 <= x mod bpg < bpg.
Proof.
  intros Hx. destruct ngroups_eq as (_ & Hn & H1). destruct Hg as [H0 _ H2 H3]. unfold get_bgid_of_block, addr_to_idx_bg. rewrite H0. cbn [Z.eqb negb andb].
  pose proof (Z.mod_pos_bound x bpg ltac:(lia)) as Hm. assert (0 <= x / bpg) by (apply Z.div_pos; lia).
  assert (x / bpg < ngroups) by (apply Z.div_lt_upper_bound; nia). rewrite (u32_id (x / bpg)), (u32_id (x mod bpg)) by lia. split_and!; lia.
Qed.

Lemma pos_block bgid idx : 0 <= idx < bpg -> (bgid * bpg + idx) / bpg = bgid /\ (bgid * bpg + idx) mod bpg = idx.
Proof.
  intros Hi. split; symmetry; [apply (Z.div_unique _ _ _ idx); [by left|lia]|apply (Z.mod_unique _ _ bgid); [by left|lia]].
Qed.
End geometry.

(** ** Allocation *)

(** A run of [n] clear bits of the group, at or behind [idx]. *)
Definition run_in (m : bmap) (idx blk n i : Z) : Prop := idx <= i /\ i + n <= blk /\ clr_run m i n.

Lemma near_goal_ok m end_idx blk n fuel : forall tmp i, 0 <= tmp -> 0 < n < 2147483648 -> blk < 65536 -> end_idx <= blk ->
  near_goal fuel m tmp end_idx blk n = Some i -> run_in m tmp blk n i.
Proof.
  induction fuel as [|fuel IH]; intros tmp i Ht Hn Hb He H; [done|]. cbn [near_goal] in H. destruct (Z.ltb_spec tmp end_idx); cbn [negb] in H; [|done].
  rewrite u32_id in H by lia. destruct (Z.ltb_spec blk (tmp + n)); [done|]. destruct (bmap_is_bits_clr m tmp (Z.to_nat n)) eqn:Ec.
  - injection H as <-. apply is_bits_clr_ok in Ec. rewrite Z2Nat.id in Ec by lia. split_and!; [lia..|done].
  - destruct (IH (tmp + 1) i ltac:(lia) Hn Hb He H) as (G1 & G2 & G3). split_and!; [lia..|done].
Qed.

Lemma goal_range_ok m idx blk n : 0 <= idx -> idx < 65536 -> 0 < n < 2147483648 -> blk < 65536 ->
  match goal_range m idx blk n with
  | Some i => run_in m idx blk n i
  | None => forall i, ~ run_in m idx blk n i
  end.
Proof.
  intros Hi Hi' Hn Hb. unfold goal_range. rewrite (u32_id (idx + n)) by lia. destruct ((idx + n <=? blk) && bmap_is_bits_clr m idx (Z.to_nat n)) eqn:E.
  { apply andb_true_iff in E as [E1%Z.leb_le E2]. apply is_bits_clr_ok in E2. rewrite Z2Nat.id in E2 by lia. split_and!; [lia..|done]. }
  set (e := if blk <? _ then blk else _). assert (e <= blk) as He by (unfold e; destruct (Z.ltb_spec blk (Z.ldiff (u32 (idx + 63)) 63)); lia).
  destruct (near_goal 64 m (idx + 1) e blk n) as [i|] eqn:En.
  { destruct (near_goal_ok m e blk n 64 (idx + 1) i ltac:(lia) Hn Hb He En) as (G1 & G2 & G3). split_and!; [lia..|done]. }
  pose proof (bits_find_clr_ok m idx blk n ltac:(lia)) as Hf. destruct (bmap_bits_find_clr m idx blk n) as [err|i].
  - destruct Hf as [_ Hf]. intros i (H1 & H2 & H3). by apply (Hf i).
  - destruct Hf as (H1 & H2 & H3 & _). by split_and!.
Qed.

Section alloc.
Context (sb : sblock) (Hg : geom_ok sb).
Notation bpg := (blocks_per_group sb).
Context (rc_get_bg rc_get_blk rc_set_blk rc_put_bg : Z -> Z).
Notation alloc_block := (balloc_alloc_block sb rc_get_bg rc_get_blk rc_set_blk rc_put_bg).
Notation others := (other_groups sb rc_get_bg rc_get_blk rc_set_blk rc_put_bg).

Record bal_ok (s : bstate) : Prop := {
  bo_groups : Z.of_nat (length (groups s)) = ngroups sb;
  bo_bitmap i g : groups s !! i = Some g -> bmap_wf (block_bitmap g) /\ blen (block_bitmap g) = bpg
}.

Definition used (s : bstate) (x : Z) : bool :=
  match groups s !! Z.to_nat (x / bpg) with Some g => bbit (block_bitmap g) (x mod bpg) | None => true end.

(** Blocks [b] to [b + n] taken from the group [bgid]. *)
Record took (s s' : bstate) (bgid idx n : Z) : Prop := {
  tk_ok : bal_ok s';
  tk_fresh x : bgid * bpg + idx <= x < bgid * bpg + idx + n -> used s x = false;
  tk_used x : 0 <= x < blocks_count sb -> used s' x = in_range (bgid * bpg + idx) n x || used s x;
  tk_range : 0 <= bgid * bpg + idx /\ bgid * bpg + idx + n <= blocks_count sb;
  tk_group : 0 <= idx /\ idx + n <= bpg
}.

Lemma set_group_ok s bgid g : bal_ok s -> bmap_wf (block_bitmap g) -> blen (block_bitmap g) = bpg -> bal_ok (set_group s bgid g).
Proof.
  intros [H1 H2] Hw Hl. split; cbn [groups set_group]; [by rewrite length_insert|]. intros i g' Hi. apply list_lookup_insert_Some in Hi as [(_ & <- & _)|[_ Hi]]; [done|by apply (H2 i)].
Qed.

(** Marking the bits of a run of a group. *)
Lemma mark_took s bgid g c idx n sf ib :
  bal_ok s -> 0 <= bgid < ngroups sb -> groups s !! Z.to_nat bgid = Some g -> 0 < n -> run_in (block_bitmap g) 0 (gblocks sb bgid) n idx ->
  took s (mk_bs (<[Z.to_nat bgid := mk_bgroup c (bmap_bits_set (block_bitmap g) idx (Z.to_nat n))]> (groups s)) sf ib) bgid idx n.
Proof.
  intros Hok Hb Hgr Hn (H1 & H2 & Hrun). destruct (bo_bitmap s Hok _ _ Hgr) as [Hw Hl]. destruct (group_range sb Hg bgid Hb) as (R1 & R2 & R3).
  pose proof (bits_set_ok (Z.to_nat n) (block_bitmap g) idx Hw H1 ltac:(lia)) as [M1 M2 M3]. rewrite Z2Nat.id in M3 by lia. assert (0 < bpg) as Hbpg by lia.
  assert (Hlt := lookup_lt_Some _ _ _ Hgr). split.
  - destruct Hok as [O1 O2]. split; cbn [groups]; [by rewrite length_insert|]. intros i g' Hi.
    apply list_lookup_insert_Some in Hi as [(_ & <- & _)|[_ Hi]]; [|by apply (O2 i)]. cbn [block_bitmap]. split; [done|]. unfold blen in *. by rewrite M2.
  - intros x Hx. unfold used. destruct (pos_block sb bgid (x - bgid * bpg) ltac:(lia)) as [E1 E2]. replace (bgid * bpg + (x - bgid * bpg)) with x in * by lia.
    rewrite E1, E2, Hgr. apply Hrun. lia.
  - intros x Hx. unfold used. cbn [groups]. destruct (block_pos sb Hg x Hx) as (_ & _ & P1 & P2). pose proof (Z.div_mod x bpg ltac:(lia)) as Ex.
    destruct (Z.eq_dec (x / bpg) bgid) as [E|Hne].
    + rewrite E, list_lookup_insert_eq, Hgr by done. cbn [block_bitmap]. rewrite M3 by lia. f_equal. apply Bool.eq_iff_eq_true. rewrite !in_range_iff. rewrite E in Ex. lia.
    + rewrite list_lookup_insert_ne by lia. assert (in_range (bgid * bpg + idx) n x = false) as ->; [|done]. apply not_true_is_false. rewrite in_range_iff. intros Hr.
      apply Hne. rewrite <- (proj1 (pos_block sb bgid (x - bgid * bpg) ltac:(lia))). f_equal. lia.
  - lia.
  - lia.
Qed.

(** The counters agree with the bitmaps. *)
Record counts_ok (s : bstate) : Prop := {
  co_group bgid g : 0 <= bgid -> groups s !! Z.to_nat bgid = Some g ->
    free_blocks_count g = count_bits (fun i => negb (bbit (block_bitmap g) i)) (gblocks sb bgid);
  co_total : sb_free_blocks s = count_bits (fun x => negb (used s x)) (blocks_count sb)
}.

Lemma free_count_small g bgid : 0 <= bgid < ngroups sb ->
  free_blocks_count g = count_bits (fun i => negb (bbit (block_bitmap g) i)) (gblocks sb bgid) -> bg_get_free_blocks_count sb g = free_blocks_count g /\ 0 <= free_blocks_count g < 65536.
Proof.
  intros Hb E. destruct (group_range sb Hg bgid Hb) as (R1 & _). destruct Hg as [_ _ H2 _].
  pose proof (count_bits_range (fun i => negb (bbit (block_bitmap g) i)) (gblocks sb bgid) ltac:(lia)) as Hc. split; [|lia].
  unfold bg_get_free_blocks_count. destruct (32 <? desc_size sb); [done|]. apply Z.mod_small. lia.
Qed.

Lemma set_free_small g c : 0 <= c < 65536 -> free_blocks_count (bg_set_free_blocks_count sb g c) = c.
Proof. intros Hc. unfold bg_set_free_blocks_count. cbn [free_blocks_count]. rewrite u32_id by lia. destruct (32 <? desc_size sb); [done|]. apply Z.mod_small. lia. Qed.

(** What an allocation leaves. *)
Record taken (s s' : bstate) (bgid idx n : Z) : Prop := {
  tn_took : took s s' bgid idx n;
  tn_counts : counts_ok s -> counts_ok s'
}.

Lemma mark_counts s bgid g idx n sf c ib s' :
  bal_ok s -> counts_ok s -> 0 <= bgid < ngroups sb -> groups s !! Z.to_nat bgid = Some g -> 0 < n -> run_in (block_bitmap g) 0 (gblocks sb bgid) n idx ->
  c = free_blocks_count g - n -> sf = sb_free_blocks s - n ->
  s' = mk_bs (<[Z.to_nat bgid := mk_bgroup c (bmap_bits_set (block_bitmap g) idx (Z.to_nat n))]> (groups s)) sf ib -> took s s' bgid idx n -> counts_ok s'.
Proof.
  intros Hok [C1 C2] Hb Hgr Hn (I1 & I2 & I3) -> -> Es' [_ T2 T3 T4 _]. destruct (bo_bitmap s Hok _ _ Hgr) as [Hw Hl]. destruct (group_range sb Hg bgid Hb) as (R1 & R2 & R3).
  pose proof (bits_set_ok (Z.to_nat n) (block_bitmap g) idx Hw I1 ltac:(lia)) as [M1 M2 M3]. rewrite Z2Nat.id in M3 by lia. assert (Hlt := lookup_lt_Some _ _ _ Hgr). split.
  - intros b g' Hb' Hl'. rewrite Es' in Hl'. cbn [groups] in Hl'. apply list_lookup_insert_Some in Hl' as [(Eb & <- & _)|[_ Hl']]; [|by apply C1]. assert (b = bgid) as -> by lia.
    cbn [free_blocks_count block_bitmap]. rewrite (C1 bgid g) by (done || lia).
    rewrite (count_range (fun i => negb (bbit (block_bitmap g) i)) (fun i => negb (bbit (bmap_bits_set (block_bitmap g) idx (Z.to_nat n)) i)) (gblocks sb bgid) idx n false); [lia|lia..| |].
    + intros i Hi. rewrite M3, I3 by lia. by rewrite (proj2 (in_range_iff idx n i)) by lia.
    + intros i Hi Hi'. rewrite M3 by lia. assert (in_range idx n i = false) as ->; [|done]. apply not_true_is_false. rewrite in_range_iff. lia.
  - transitivity (sb_free_blocks s - n); [by rewrite Es'|]. rewrite C2. symmetry.
    rewrite (count_range (fun x => negb (used s x)) (fun x => negb (used s' x)) (blocks_count sb) (bgid * bpg + idx) n false); [lia|lia..| |].
    + intros i Hi. rewrite T3, T2 by lia. by rewrite (proj2 (in_range_iff _ n i)) by lia.
    + intros i Hi Hi'. rewrite T3 by lia. assert (in_range (bgid * bpg + idx) n i = false) as ->; [|done]. apply not_true_is_false. rewrite in_range_iff. lia.
Qed.

(** A group with a run has at least as many free blocks. *)
Lemma run_count s bgid g idx n : bal_ok s -> counts_ok s -> 0 <= bgid < ngroups sb -> groups s !! Z.to_nat bgid = Some g -> 0 < n ->
  run_in (block_bitmap g) 0 (gblocks sb bgid) n idx -> n <= free_blocks_count g /\ n <= sb_free_blocks s.
Proof.
  intros Hok Hc Hb Hgr Hn Hrun. pose proof (mark_took s bgid g (free_blocks_count g - n) idx n (sb_free_blocks s - n) (inode_blocks s) Hok Hb Hgr Hn Hrun) as Ht.
  pose proof (mark_counts s bgid g idx n _ _ _ _ Hok Hc Hb Hgr Hn Hrun eq_refl eq_refl eq_refl Ht) as [C1 C2]. assert (Hlt := lookup_lt_Some _ _ _ Hgr).
  destruct (group_range sb Hg bgid Hb) as (R1 & _). destruct Hg as [_ _ _ G]. split.
  - specialize (C1 bgid _ ltac:(lia) (list_lookup_insert_eq _ _ _ Hlt)). cbn [free_blocks_count] in C1.
    match type of C1 with _ = count_bits ?f ?k => pose proof (count_bits_range f k ltac:(lia)) end. lia.
  - cbn [sb_free_blocks] in C2. match type of C2 with _ = count_bits ?f ?k => pose proof (count_bits_range f k ltac:(lia)) end. lia.
Qed.

Lemma alloc_range_ok s bgid g idx n :
  bal_ok s -> 0 <= bgid < ngroups sb -> groups s !! Z.to_nat bgid = Some g -> 0 < n -> run_in (block_bitmap g) 0 (gblocks sb bgid) n idx ->
  exists s' r, alloc_range sb rc_set_blk rc_put_bg s bgid g idx n = Ok (s', r) /\ took s s' bgid idx n /\
    (r = inr (bgid * bpg + idx) /\ (counts_ok s -> counts_ok s') \/ exists e, r = inl e /\ (rc_set_blk bgid = e \/ rc_put_bg bgid = e) /\ e <> EOK).
Proof.
  intros Hok Hb Hgr Hn Hrun. pose proof Hrun as (I1 & I2 & I3). assert (Hlt := lookup_lt_Some _ _ _ Hgr). unfold alloc_range.
  destruct (Z.eqb_spec (rc_set_blk bgid) EOK) as [E|E]; cbn [negb].
  2:{ eexists _, _. split; [reflexivity|]. split; [by apply mark_took|]. right. eauto. }
  unfold alloc_success. cbn [groups set_group]. rewrite list_lookup_insert_eq by done. rewrite (block_addr_eq sb Hg bgid idx Hb) by lia.
  eexists _, _. split; [reflexivity|]. cbn [sb_free_blocks inode_blocks]. rewrite list_insert_insert_eq. unfold bg_set_free_blocks_count. cbn [block_bitmap].
  pose proof (mark_took s bgid g) as Hmark. split; [by apply Hmark|].
  destruct (Z.eqb_spec (rc_put_bg bgid) EOK) as [E'|E']; [left; split; [done|]|right; eauto].
  intros Hc. destruct (run_count s bgid g idx n Hok Hc Hb Hgr Hn Hrun) as [N1 N2]. pose proof (co_group s Hc bgid g ltac:(lia) Hgr) as Cg.
  destruct (free_count_small g bgid Hb Cg) as [F1 F2]. change (bg_get_free_blocks_count sb (mk_bgroup (free_blocks_count g) ?m)) with (bg_get_free_blocks_count sb g). rewrite F1.
  eapply (mark_counts s bgid g idx n _ _ _ _ Hok Hc Hb Hgr Hn Hrun); [| |reflexivity|by apply Hmark].
  - pose proof (set_free_small g (free_blocks_count g - n) ltac:(lia)) as Hs. unfold bg_set_free_blocks_count in Hs. cbn [free_blocks_count] in Hs.
    by rewrite (u32_id (free_blocks_count g - n)) by lia.
  - cbn [sb_free_blocks set_group]. pose proof (co_total s Hc) as Ct. destruct Hg as [_ _ _ G].
    pose proof (count_bits_range (fun x => negb (used s x)) (blocks_count sb) ltac:(lia)). rewrite u64_id by lia. done.
Qed.

(** A result of the allocator: blocks that were free, or an error with nothing
    changed (or, for errors in releasing buffers, with the blocks taken). *)
Definition alloc_post (s : bstate) (n : Z) (s' : bstate) (r : Z + Z) : Prop :=
  match r with
  | inr b => exists bgid idx, b = bgid * bpg + idx /\ took s s' bgid idx n /\ (counts_ok s -> counts_ok s')
  | inl e => e <> EOK /\ (s' = s \/ exists bgid idx, took s s' bgid idx n)
  end.

Lemma alloc_range_post s bgid g idx n :
  bal_ok s -> 0 <= bgid < ngroups sb -> groups s !! Z.to_nat bgid = Some g -> 0 < n -> run_in (block_bitmap g) 0 (gblocks sb bgid) n idx ->
  exists s' r, alloc_range sb rc_set_blk rc_put_bg s bgid g idx n = Ok (s', r) /\ alloc_post s n s' r /\
    (rc_set_blk bgid = EOK -> rc_put_bg bgid = EOK -> exists b, r = inr b).
Proof.
  intros Hok Hb Hgr Hn Hrun. destruct (alloc_range_ok s bgid g idx n Hok Hb Hgr Hn Hrun) as (s' & r & E & Ht & [[-> Hc]|(e & -> & Hrc & He)]); exists s'; eexists; (split; [exact E|]).
  - split; [by exists bgid, idx|eauto].
  - split; [split; [done|right; by exists bgid, idx]|]. intros R1 R2. destruct Hrc; congruence.
Qed.

Lemma group_exists s bgid : bal_ok s -> 0 <= bgid < ngroups sb -> exists g, groups s !! Z.to_nat bgid = Some g.
Proof. intros Hok Hb. apply lookup_lt_is_Some_2. pose proof (bo_groups s Hok). lia. Qed.

(** No group among [bgid], ..., [bgid + k - 1] has a run and counts enough free
    blocks. *)
Definition no_fit (s : bstate) (bgid k n : Z) : Prop := forall j g i, 0 <= j < k ->
  groups s !! Z.to_nat ((bgid + j) mod ngroups sb) = Some g -> n <= bg_get_free_blocks_count sb g ->
  ~ run_in (block_bitmap g) 0 (gblocks sb ((bgid + j) mod ngroups sb)) n i.

Definition rcs_ok : Prop := forall bgid, rc_get_bg bgid = EOK /\ rc_get_blk bgid = EOK /\ rc_set_blk bgid = EOK /\ rc_put_bg bgid = EOK.

Lemma others_post k : forall s bgid n, bal_ok s -> 0 <= bgid < ngroups sb -> 0 < n < 2147483648 ->
  exists s' r, others k s bgid n = Ok (s', r) /\ alloc_post s n s' r /\
    (rcs_ok -> match r with inr _ => True | inl e => e = ENOSPC /\ s' = s /\ no_fit s bgid (Z.of_nat k) n end).
Proof.
  induction k as [|k IH]; intros s bgid n Hok Hb Hn.
  { exists s, (inl ENOSPC). split; [done|]. split; [by split; [|left]|]. intros _. split_and!; [done..|]. intros j g i Hj. lia. }
  destruct (group_exists s bgid Hok Hb) as [g Hgr]. cbn [other_groups]. unfold with_group.
  destruct (Z.eqb_spec (rc_get_bg bgid) EOK) as [E1|E1]; cbn [negb].
  2:{ eexists _, _. split; [reflexivity|]. split; [split; [done|by left]|]. intros Hrc. by destruct (Hrc bgid). }
  rewrite Hgr. destruct (ngroups_eq sb Hg) as (En & Hng & _). rewrite En, u32_id by lia. set (b' := (bgid + 1) mod ngroups sb).
  assert (0 <= b' < ngroups sb) as Hb' by (apply Z.mod_pos_bound; lia). destruct (IH s b' n Hok Hb' Hn) as (s1 & r1 & Es1 & Hp1 & Hc1).
  set (next := if negb (rc_put_bg bgid =? EOK) then _ else _).
  assert (forall (Hhere : forall i, n <= bg_get_free_blocks_count sb g -> ~ run_in (block_bitmap g) 0 (gblocks sb bgid) n i),
    exists s' r, next = Ok (s', r) /\ alloc_post s n s' r /\
      (rcs_ok -> match r with inr _ => True | inl e => e = ENOSPC /\ s' = s /\ no_fit s bgid (Z.of_nat (S k)) n end)) as Hnext.
  { intros Hhere. unfold next. destruct (Z.eqb_spec (rc_put_bg bgid) EOK) as [E2|E2]; cbn [negb].
    - exists s1, r1. split_and!; [done..|]. intros Hrc. specialize (Hc1 Hrc). destruct r1 as [e|]; [|done]. destruct Hc1 as (-> & -> & Hnf). split_and!; [done..|].
      intros j g' i Hj. destruct (Z.eq_dec j 0) as [->|Hj0].
      + rewrite Z.add_0_r, Z.mod_small by lia. rewrite Hgr. intros [= <-]. apply Hhere.
      + specialize (Hnf (j - 1) g' i ltac:(lia)). unfold b' in Hnf. rewrite Zplus_mod_idemp_l in Hnf. by replace (bgid + 1 + (j - 1)) with (bgid + j) in Hnf by lia.
    - eexists _, _. split; [reflexivity|]. split; [split; [done|by left]|]. intros Hrc. by destruct (Hrc bgid) as (_ & _ & _ & ?). }
  destruct (Z.ltb_spec (bg_get_free_blocks_count sb g) n) as [Hlt|Hge]; [apply Hnext; lia|].
  destruct (Z.eqb_spec (rc_get_blk bgid) EOK) as [E3|E3]; cbn [negb].
  2:{ eexists _, _. split; [reflexivity|]. split; [split; [done|by left]|]. intros Hrc. by destruct (Hrc bgid) as (_ & ? & _). }
  rewrite (first_idx_eq sb Hg bgid Hb), (blocks_in_group_eq sb Hg bgid Hb).
  pose proof (bits_find_clr_ok (block_bitmap g) 0 (gblocks sb bgid) n ltac:(lia)) as Hf. destruct (bmap_bits_find_clr (block_bitmap g) 0 (gblocks sb bgid) n) as [e|idx].
  - destruct Hf as [_ Hf]. destruct (Z.eqb_spec (rc_set_blk bgid) EOK) as [E4|E4]; cbn [negb].
    + apply Hnext. intros i _ (F1 & F2 & F3). by apply (Hf i).
    + eexists _, _. split; [reflexivity|]. split; [split; [done|by left]|]. intros Hrc. by destruct (Hrc bgid) as (_ & _ & ? & _).
  - destruct Hf as (F1 & F2 & F3 & _). destruct (alloc_range_post s bgid g idx n Hok Hb Hgr ltac:(lia)) as (s' & r & E & Hp & Hr); [by split_and!|].
    exists s', r. split_and!; [done..|]. intros Hrc. destruct (Hrc bgid) as (_ & _ & R3 & R4). by destruct (Hr R3 R4) as [b ->].
Qed.

Lemma alloc_block_post s goal n : bal_ok s -> 0 <= goal < ngroups sb * bpg -> 0 < n < 2147483648 ->
  exists s' r, alloc_block s goal n = Ok (s', r) /\ alloc_post s n s' r /\
    (rcs_ok -> match r with inr _ => True | inl e => e = ENOSPC /\ s' = s /\ forall bgid g i, 0 <= bgid < ngroups sb ->
      groups s !! Z.to_nat bgid = Some g -> n <= bg_get_free_blocks_count sb g -> ~ run_in (block_bitmap g) 0 (gblocks sb bgid) n i end).
Proof.
  intros Hok Hgoal Hn. destruct (goal_pos sb Hg goal Hgoal) as (B1 & B2 & B3 & B4). unfold balloc_alloc_block. rewrite B1, B2. set (bgid := goal / bpg) in *.
  destruct (group_exists s bgid Hok B3) as [g Hgr]. unfold with_group. destruct (Z.eqb_spec (rc_get_bg bgid) EOK) as [E1|E1]; cbn [negb].
  2:{ eexists _, _. split; [reflexivity|]. split; [split; [done|by left]|]. intros Hrc. by destruct (Hrc bgid). }
  rewrite Hgr. destruct (ngroups_eq sb Hg) as (En & Hng & _). rewrite En, u32_id by lia. set (b' := (bgid + 1) mod ngroups sb).
  assert (0 <= b' < ngroups sb) as Hb' by (apply Z.mod_pos_bound; lia). destruct (others_post (Z.to_nat (ngroups sb)) s b' n Hok Hb' Hn) as (s1 & r1 & Es1 & Hp1 & Hc1).
  set (failed := if negb (rc_put_bg bgid =? EOK) then _ else _).
  assert (exists s' r, failed = Ok (s', r) /\ alloc_post s n s' r /\
    (rcs_ok -> match r with inr _ => True | inl e => e = ENOSPC /\ s' = s /\ forall bgid g i, 0 <= bgid < ngroups sb ->
      groups s !! Z.to_nat bgid = Some g -> n <= bg_get_free_blocks_count sb g -> ~ run_in (block_bitmap g) 0 (gblocks sb bgid) n i end)) as Hfailed.
  { unfold failed. destruct (Z.eqb_spec (rc_put_bg bgid) EOK) as [E2|E2]; cbn [negb].
    - exists s1, r1. split_and!; [done..|]. intros Hrc. specialize (Hc1 Hrc). destruct r1 as [e|]; [|done]. destruct Hc1 as (-> & -> & Hnf). split_and!; [done..|].
      intros b g' i Hb Hgr'. specialize (Hnf ((b - b') mod ngroups sb) g' i). rewrite Zplus_mod_idemp_r in Hnf. replace (b' + (b - b')) with b in Hnf by lia.
      rewrite (Z.mod_small b) in Hnf by lia. apply Hnf; [|done]. rewrite Z2Nat.id by lia. apply Z.mod_pos_bound. lia.
    - eexists _, _. split; [reflexivity|]. split; [split; [done|by left]|]. intros Hrc. by destruct (Hrc bgid) as (_ & _ & _ & ?). }
  destruct (Z.ltb_spec (bg_get_free_blocks_count sb g) n) as [Hlt|Hge]; [exact Hfailed|]. rewrite (first_idx_eq sb Hg bgid B3), (proj2 (Z.ltb_ge _ _)) by lia.
  destruct (Z.eqb_spec (rc_get_blk bgid) EOK) as [E3|E3]; cbn [negb].
  2:{ eexists _, _. split; [reflexivity|]. split; [split; [done|by left]|]. intros Hrc. by destruct (Hrc bgid) as (_ & ? & _). }
  rewrite (blocks_in_group_eq sb Hg bgid B3). destruct (group_range sb Hg bgid B3) as (R1 & _). pose proof (go_size sb Hg) as Hsz.
  pose proof (goal_range_ok (block_bitmap g) (goal mod bpg) (gblocks sb bgid) n ltac:(lia) ltac:(lia) Hn ltac:(lia)) as Hf.
  destruct (goal_range (block_bitmap g) (goal mod bpg) (gblocks sb bgid) n) as [idx|].
  - destruct Hf as (F1 & F2 & F3). destruct (alloc_range_post s bgid g idx n Hok B3 Hgr ltac:(lia)) as (s' & r & E & Hp & Hr); [split_and!; [lia..|done]|].
    exists s', r. split_and!; [done..|]. intros Hrc. destruct (Hrc bgid) as (_ & _ & R3 & R4). by destruct (Hr R3 R4) as [b ->].
  - destruct (Z.eqb_spec (rc_set_blk bgid) EOK) as [E4|E4]; cbn [negb]; [exact Hfailed|].
    eexists _, _. split; [reflexivity|]. split; [split; [done|by left]|]. intros Hrc. by destruct (Hrc bgid) as (_ & _ & ? & _).
Qed.

(** ** Freeing *)

(** Blocks [b] to [b + n] given back. *)
Record gave (s s' : bstate) (b n : Z) : Prop := {
  gv_ok : bal_ok s';
  gv_used x : 0 <= x < blocks_count sb -> used s' x = negb (in_range b n x) && used s x;
  gv_counts : counts_ok s -> (forall x, b <= x < b + n -> used s x = true) -> counts_ok s'
}.

Lemma gave_nil s b : bal_ok s -> gave s s b 0.
Proof.
  intros H. split; [done| |done]. intros x _. assert (in_range b 0 x = false) as ->; [|done]. apply not_true_is_false. rewrite in_range_iff. lia.
Qed.

Lemma gave_app s s1 s2 b n n' : 0 <= b -> 0 <= n -> 0 <= n' -> b + n + n' <= blocks_count sb -> gave s s1 b n -> gave s1 s2 (b + n) n' -> gave s s2 b (n + n').
Proof.
  intros Hb Hn Hn' Hl [A1 A2 A3] [B1 B2 B3]. split; [done| |].
  - intros x Hx. rewrite B2, A2, in_range_app by done. by destruct (in_range b n x), (in_range (b + n) n' x), (used s x).
  - intros Hc Hu. apply B3; [apply A3; [done|]; intros x Hx; apply Hu; lia|]. intros x Hx. rewrite A2, Hu by lia.
    assert (in_range b n x = false) as ->; [|done]. apply not_true_is_false. rewrite in_range_iff. lia.
Qed.

(** A range of one group. *)
Lemma free_group_ok s bgid g idx n :
  bal_ok s -> 0 <= bgid < ngroups sb -> groups s !! Z.to_nat bgid = Some g -> 0 <= idx -> 0 < n -> idx + n <= gblocks sb bgid ->
  let g' := mk_bgroup (free_blocks_count g) (bmap_bits_free (block_bitmap g) idx n) in
  gave s (free_counts sb (set_group s bgid g') bgid g' n) (bgid * bpg + idx) n.
Proof.
  intros Hok Hb Hgr Hi Hn Hend g'. destruct (bo_bitmap s Hok _ _ Hgr) as [Hw Hl]. destruct (group_range sb Hg bgid Hb) as (R1 & R2 & R3).
  pose proof (bits_free_ok (block_bitmap g) idx n Hw Hi ltac:(lia) ltac:(lia)) as [M1 M2 M3]. assert (Hlt := lookup_lt_Some _ _ _ Hgr).
  set (s' := free_counts sb (set_group s bgid g') bgid g' n).
  assert (groups s' = <[Z.to_nat bgid := bg_set_free_blocks_count sb g' (u32 (bg_get_free_blocks_count sb g' + n))]> (groups s)) as Egr.
  { unfold s', free_counts. cbn [groups set_group]. apply list_insert_insert_eq. }
  assert (forall x, 0 <= x < blocks_count sb -> used s' x = negb (in_range (bgid * bpg + idx) n x) && used s x) as Hus.
  { intros x Hx. unfold used. rewrite Egr. destruct (block_pos sb Hg x Hx) as (_ & _ & P1 & P2). pose proof (Z.div_mod x bpg ltac:(lia)) as Ex.
    destruct (Z.eq_dec (x / bpg) bgid) as [E|Hne].
    - rewrite E, list_lookup_insert_eq, Hgr by done. cbn [block_bitmap bg_set_free_blocks_count g']. rewrite M3 by lia. do 2 f_equal.
      apply Bool.eq_iff_eq_true. rewrite !in_range_iff. rewrite E in Ex. lia.
    - rewrite list_lookup_insert_ne by lia. assert (in_range (bgid * bpg + idx) n x = false) as ->; [|done]. apply not_true_is_false. rewrite in_range_iff. intros Hr.
      apply Hne. rewrite <- (proj1 (pos_block sb bgid (x - bgid * bpg) ltac:(lia))). f_equal. lia. }
  split; [|exact Hus|].
  - destruct Hok as [O1 O2]. split; rewrite Egr; [by rewrite length_insert|]. intros i g1 Hi1. apply list_lookup_insert_Some in Hi1 as [(_ & <- & _)|[_ Hi1]]; [|by apply (O2 i)].
    cbn [block_bitmap bg_set_free_blocks_count g']. split; [done|]. unfold blen in *. by rewrite M2.
  - intros [C1 C2] Hu. pose proof (C1 bgid g ltac:(lia) Hgr) as Cg. destruct (free_count_small g bgid Hb Cg) as [F1 F2].
    assert (count_bits (fun i => negb (bbit (block_bitmap g') i)) (gblocks sb bgid) = free_blocks_count g + n) as Ec.
    { rewrite Cg. apply (count_range (fun i => negb (bbit (block_bitmap g) i)) _ _ idx n true); try lia.
      - intros i Hi'. cbn [block_bitmap g']. rewrite M3, (proj2 (in_range_iff idx n i)) by lia. cbn [negb andb]. split; [|done].
        specialize (Hu (bgid * bpg + i) ltac:(lia)). unfold used in Hu. destruct (pos_block sb bgid i ltac:(lia)) as [E1 E2]. rewrite E1, E2, Hgr in Hu. by rewrite Hu.
      - intros i Hi' Ho. cbn [block_bitmap g']. rewrite M3 by lia. assert (in_range idx n i = false) as ->; [|done]. apply not_true_is_false. rewrite in_range_iff. lia. }
    pose proof (count_bits_range (fun i => negb (bbit (block_bitmap g') i)) (gblocks sb bgid) ltac:(lia)) as Hcr. pose proof (go_size sb Hg) as Hsz. split.
    + intros b g1 Hb1 Hl1. rewrite Egr in Hl1. apply list_lookup_insert_Some in Hl1 as [(Eb & <- & _)|[_ Hl1]]; [|by apply C1]. assert (b = bgid) as -> by lia.
      change (bg_get_free_blocks_count sb g') with (bg_get_free_blocks_count sb g). rewrite F1, u32_id by lia. rewrite set_free_small by lia. symmetry. exact Ec.
    + transitivity (u64 (sb_free_blocks s + n)); [done|]. rewrite C2.
      assert (count_bits (fun x => negb (used s' x)) (blocks_count sb) = count_bits (fun x => negb (used s x)) (blocks_count sb) + n) as Et.
      { apply (count_range (fun x => negb (used s x)) _ _ (bgid * bpg + idx) n true); try lia.
        - intros i Hi'. rewrite Hus, Hu, (proj2 (in_range_iff _ n i)) by lia. done.
        - intros i Hi' Ho. rewrite Hus by lia. assert (in_range (bgid * bpg + idx) n i = false) as ->; [|done]. apply not_true_is_false. rewrite in_range_iff. lia. }
      rewrite Et. pose proof (go_count sb Hg). pose proof (count_bits_range (fun x => negb (used s' x)) (blocks_count sb) ltac:(lia)). apply u64_id. lia.
Qed.

Lemma free_groups_ok (Hrc : rcs_ok) fuel : forall s first count bg_last, bal_ok s -> 0 <= first -> 0 < count -> first + count <= blocks_count sb ->
  bg_last = (first + count - 1) / bpg -> bg_last - first / bpg + 1 < Z.of_nat fuel ->
  exists s', free_groups sb rc_get_bg rc_get_blk rc_set_blk rc_put_bg fuel s (first / bpg) bg_last first count = Ok (s', inr 0) /\ gave s s' first count.
Proof.
  pose proof (go_size sb Hg) as Hsz. pose proof (go_bpg sb Hg) as Hbs.
  induction fuel as [|fuel IH]; intros s first count bg_last Hok Hf Hc Hend -> Hfuel.
  { pose proof (Z.div_le_mono first (first + count - 1) bpg ltac:(lia) ltac:(lia)). lia. }
  destruct (block_pos sb Hg first ltac:(lia)) as (B1 & B2 & B3 & B4). destruct (group_exists s (first / bpg) Hok B3) as [g Hgr].
  pose proof (Z.div_le_mono first (first + count - 1) bpg ltac:(lia) ltac:(lia)) as Hle. destruct (Hrc (first / bpg)) as (R1 & R2 & R3 & R4).
  cbn [free_groups]. rewrite (proj2 (Z.leb_le _ _) Hle). cbn [negb]. unfold with_group. rewrite R1, Hgr, R2, R3, R4, B2. cbn [Z.eqb negb].
  replace (sb_block_size sb * 8 - first mod bpg) with (bpg - first mod bpg) by lia. rewrite (u32_id (bpg - first mod bpg)) by (pose proof (Z.mod_pos_bound first bpg); lia).
  pose proof (Z.div_mod first bpg ltac:(lia)) as Ef. pose proof (Z.mod_pos_bound first bpg ltac:(lia)) as Hm. set (bgid := first / bpg) in *. set (idx := first mod bpg) in *.
  assert (first = bgid * bpg + idx) as Ef' by lia. set (n := if bpg - idx <? count then bpg - idx else count).
  assert (0 < n <= count /\ idx + n <= gblocks sb bgid) as [Hn Hg'].
  { unfold n, gblocks. destruct (Z.ltb_spec (bpg - idx) count); lia. }
  pose proof (free_group_ok s bgid g idx n Hok B3 Hgr ltac:(lia) ltac:(lia) Hg') as Hgv. cbn zeta in Hgv. rewrite <- Ef' in Hgv.
  set (s1 := free_counts sb _ bgid _ n) in *. destruct (Z.eq_dec n count) as [En|En].
  - assert ((first + count - 1) / bpg = bgid) as El.
    { replace (first + count - 1) with (bgid * bpg + (idx + count - 1)) by lia. apply pos_block. unfold gblocks in Hg'. lia. }
    rewrite En, Z.sub_diag, El. destruct fuel as [|fuel]; [lia|]. cbn [free_groups]. rewrite (proj2 (Z.leb_gt (bgid + 1) bgid)) by lia. cbn [negb].
    exists s1. split; [done|]. by rewrite En in Hgv.
  - assert (n = bpg - idx) as En' by (unfold n in *; destruct (bpg - idx <? count); [done|lia]).
    assert ((first + n) / bpg = bgid + 1) as E1. { replace (first + n) with ((bgid + 1) * bpg + 0) by lia. apply pos_block. lia. }
    destruct (IH s1 (first + n) (count - n) ((first + count - 1) / bpg)) as (s2 & E2 & Hgv2); try lia; [apply Hgv|f_equal; lia|].
    rewrite E1 in E2. exists s2. split; [exact E2|]. replace count with (n + (count - n)) by lia. by apply (gave_app s s1); [lia..|done|].
Qed.

Lemma free_blocks_ok (Hrc : rcs_ok) s first count : bal_ok s -> 0 <= first -> 0 < count -> first + count <= blocks_count sb ->
  exists s', balloc_free_blocks sb rc_get_bg rc_get_blk rc_set_blk rc_put_bg s first count = Ok (s', EOK) /\ gave s s' first count.
Proof.
  intros Hok Hf Hc Hend. pose proof (go_count sb Hg) as Hgc. unfold balloc_free_blocks. rewrite (u64_id (first + count - 1)) by lia.
  destruct (block_pos sb Hg first ltac:(lia)) as (-> & _). destruct (block_pos sb Hg (first + count - 1) ltac:(lia)) as (-> & _).
  pose proof (go_size sb Hg) as Hsz. pose proof (Z.div_le_mono first (first + count - 1) bpg ltac:(lia) ltac:(lia)) as Hle.
  destruct (free_groups_ok Hrc (S (S (Z.to_nat ((first + count - 1) / bpg - first / bpg)))) s first count ((first + count - 1) / bpg)) as (s' & E & Hgv); try done; [lia|].
  exists s'. rewrite E. by cbn [res_bind].
Qed.
End alloc.

(** The result in terms of the blocks of the disk. *)
Lemma alloc_block_ok sb rc_get_bg rc_get_blk rc_set_blk rc_put_bg s goal n :
  geom_ok sb -> bal_ok sb s -> counts_ok sb s -> 0 <= goal < ngroups sb * blocks_per_group sb -> 0 < n < 2147483648 ->
  exists s' r, balloc_alloc_block sb rc_get_bg rc_get_blk rc_set_blk rc_put_bg s goal n = Ok (s', r) /\
    match r with
    | inr b => 0 <= b /\ b + n <= blocks_count sb /\ b / blocks_per_group sb = (b + n - 1) / blocks_per_group sb /\ (forall x, b <= x < b + n -> used sb s x = false) /\
        (forall x, 0 <= x < blocks_count sb -> used sb s' x = in_range b n x || used sb s x) /\ bal_ok sb s' /\ counts_ok sb s'
    | inl e => e <> EOK /\ (s' = s \/ exists bgid idx, took sb s s' bgid idx n) /\
        (rcs_ok rc_get_bg rc_get_blk rc_set_blk rc_put_bg -> e = ENOSPC /\ s' = s /\
           forall b, 0 <= b -> b + n <= blocks_count sb -> b / blocks_per_group sb = (b + n - 1) / blocks_per_group sb ->
             ~ forall x, b <= x < b + n -> used sb s x = false)
    end.
Proof.
  intros Hg Hok Hc Hgoal Hn. destruct (alloc_block_post sb Hg rc_get_bg rc_get_blk rc_set_blk rc_put_bg s goal n Hok Hgoal Hn) as (s' & r & E & Hp & Hcomp).
  exists s', r. split; [exact E|]. destruct r as [e|b].
  - destruct Hp as [He Hs]. split_and!; [done..|]. intros Hrc. destruct (Hcomp Hrc) as (-> & -> & Hno). split_and!; [done..|]. intros b Hb Hend Hgr Hfree.
    destruct (block_pos sb Hg b ltac:(lia)) as (_ & _ & P1 & P2). destruct (block_pos sb Hg (b + n - 1) ltac:(lia)) as (_ & _ & _ & P3). rewrite <- Hgr in P3.
    pose proof (go_size sb Hg) as Hsz. pose proof (Z.div_mod b (blocks_per_group sb) ltac:(lia)) as D1. pose proof (Z.div_mod (b + n - 1) (blocks_per_group sb) ltac:(lia)) as D2.
    rewrite <- Hgr in D2. set (bgid := b / blocks_per_group sb) in *. set (idx := b mod blocks_per_group sb) in *. destruct (group_exists sb s bgid Hok P1) as [g Hl].
    assert (run_in (block_bitmap g) 0 (gblocks sb bgid) n idx) as Hrun.
    { split_and!; [lia|lia|]. intros j Hj. specialize (Hfree (bgid * blocks_per_group sb + j) ltac:(lia)). unfold used in Hfree.
      destruct (pos_block sb bgid j) as [E1 E2]; [pose proof (group_range sb Hg bgid P1); lia|]. by rewrite E1, E2, Hl in Hfree. }
    apply (Hno bgid g idx P1 Hl); [|done]. destruct (run_count sb Hg s bgid g idx n Hok Hc P1 Hl ltac:(lia) Hrun) as [N1 _].
    destruct (free_count_small sb Hg g bgid P1 (co_group _ _ Hc bgid g ltac:(lia) Hl)) as [-> _]. done.
  - destruct Hp as (bgid & idx & -> & [T1 T2 T3 T4 T5] & Hc'). split_and!; [apply T4|apply T4| |done|done|done|by apply Hc'].
    destruct (pos_block sb bgid idx ltac:(lia)) as [-> _]. destruct (pos_block sb bgid (idx + n - 1) ltac:(lia)) as [E1 _]. rewrite <- E1 at 1. f_equal. lia.
Qed.

(** ** Properties *)

(** A disk of 100 blocks in two groups, with bitmaps of 8 bytes; the first two
    blocks are in use. *)
Definition demo_sb : sblock := mk_sblock 0 64 100 8 64 false.
Definition demo_bs : bstate := mk_bs [mk_bgroup 62 [3; 0; 0; 0; 0; 0; 0; 0]; mk_bgroup 36 (replicate 8 0)] 98 (mk_ib 0 false).
Definition no_error (bgid : Z) : Z := EOK.

Lemma demo_geom : geom_ok demo_sb.
Proof. split; cbn; done || lia. Qed.

Lemma demo_bal_ok : bal_ok demo_sb demo_bs.
Proof. split; [done|]. intros [|[|i]] g [= <-]; split; try done; by repeat constructor. Qed.

Lemma demo_counts : counts_ok demo_sb demo_bs.
Proof.
  split; [|by vm_compute]. intros bgid g Hb Hl. destruct (Z.to_nat bgid) as [|[|i]] eqn:E; [| |done].
  - assert (bgid = 0) as -> by lia. injection Hl as <-. by vm_compute.
  - assert (bgid = 1) as -> by lia. injection Hl as <-. by vm_compute.
Qed.

Lemma demo_rcs : rcs_ok no_error no_error no_error no_error.
Proof. by intros bgid. Qed.

(** C24: block allocation.  Whatever errors reading and releasing buffers give,
    a success hands out [nr_blks] blocks of the disk that were free, marks
    exactly them, and keeps all counters equal to what the bitmaps say; an
    error leaves everything as it was or, if it came after the bitmap was
    changed, only marks free blocks.  Without such errors the allocation fails
    only if no group has so many adjacent free blocks. *)
Theorem ext4_alloc_block_correct sb rc_get_bg rc_get_blk rc_set_blk rc_put_bg s goal n :
  geom_ok sb -> bal_ok sb s -> counts_ok sb s -> 0 <= goal < ngroups sb * blocks_per_group sb -> 0 < n < 2147483648 ->
  exists s' r, balloc_alloc_block sb rc_get_bg rc_get_blk rc_set_blk rc_put_bg s goal n = Ok (s', r) /\
    match r with
    | inr b => 0 <= b /\ b + n <= blocks_count sb /\ b / blocks_per_group sb = (b + n - 1) / blocks_per_group sb /\ (forall x, b <= x < b + n -> used sb s x = false) /\
        (forall x, 0 <= x < blocks_count sb -> used sb s' x = in_range b n x || used sb s x) /\ bal_ok sb s' /\ counts_ok sb s'
    | inl e => e <> EOK /\ (s' = s \/ exists bgid idx, took sb s s' bgid idx n) /\
        (rcs_ok rc_get_bg rc_get_blk rc_set_blk rc_put_bg -> e = ENOSPC /\ s' = s /\
           forall b, 0 <= b -> b + n <= blocks_count sb -> b / blocks_per_group sb = (b + n - 1) / blocks_per_group sb ->
             ~ forall x, b <= x < b + n -> used sb s x = false)
    end.
Proof. apply alloc_block_ok. Qed.

Lemma ext4_alloc_block_correct_witness : exists s', balloc_alloc_block demo_sb no_error no_error no_error no_error demo_bs 63 20 = Ok (s', inr 64) /\ counts_ok demo_sb s'.
Proof.
  destruct (ext4_alloc_block_correct demo_sb no_error no_error no_error no_error demo_bs 63 20 demo_geom demo_bal_ok demo_counts) as (s' & r & E & H); [done|lia|].
  exists s'. vm_compute in E. injection E as <- <-. split; [by vm_compute|]. apply H.
Defined.

(** Freeing undoes allocation.  Giving back the blocks of an allocation
    frees exactly them, in one or several groups: every block is free or in
    use as before, and all counters are what they were. *)
Lemma ext4_alloc_free_roundtrip sb rc_get_bg rc_get_blk rc_set_blk rc_put_bg s goal n s1 b :
  geom_ok sb -> bal_ok sb s -> counts_ok sb s -> rcs_ok rc_get_bg rc_get_blk rc_set_blk rc_put_bg ->
  0 <= goal < ngroups sb * blocks_per_group sb -> 0 < n < 2147483648 ->
  balloc_alloc_block sb rc_get_bg rc_get_blk rc_set_blk rc_put_bg s goal n = Ok (s1, inr b) ->
  exists s2, balloc_free_blocks sb rc_get_bg rc_get_blk rc_set_blk rc_put_bg s1 b n = Ok (s2, EOK) /\ bal_ok sb s2 /\ counts_ok sb s2 /\
    (forall x, 0 <= x < blocks_count sb -> used sb s2 x = used sb s x) /\ sb_free_blocks s2 = sb_free_blocks s.
Proof.
  intros Hg Hok Hc Hrc Hgoal Hn E. destruct (alloc_block_post sb Hg rc_get_bg rc_get_blk rc_set_blk rc_put_bg s goal n Hok Hgoal Hn) as (s' & r & E' & Hp & _).
  rewrite E in E'. injection E' as <- <-. destruct Hp as (bgid & idx & -> & [T1 T2 T3 T4 T5] & Hc'). specialize (Hc' Hc).
  destruct (free_blocks_ok sb Hg rc_get_bg rc_get_blk rc_set_blk rc_put_bg Hrc s1 _ n T1 (proj1 T4) ltac:(lia) (proj2 T4)) as (s2 & E2 & [G1 G2 G3]).
  assert (counts_ok sb s2) as Hc2. { apply G3; [done|]. intros x Hx. rewrite T3 by lia. by rewrite (proj2 (in_range_iff _ n x)) by lia. }
  assert (forall x, 0 <= x < blocks_count sb -> used sb s2 x = used sb s x) as Hsame.
  { intros x Hx. rewrite G2, T3 by done. destruct (in_range _ n x) eqn:Er; [|done]. apply in_range_iff in Er. by rewrite T2. }
  exists s2. split_and!; try done. rewrite (co_total _ _ Hc2), (co_total _ _ Hc). unfold count_bits. apply sumz_ext. intros x Hx%elem_of_seqz. by rewrite Hsame by lia.
Qed.

(** Block numbers have 32 bits.  On a disk with more blocks than that, the
    number computed for a block of a group behind the limit is that of a
    block 2^32 blocks before: the caller gets a block other than the one
    marked in the bitmap. *)
Lemma ext4_block_number_wraps sb bgid idx :
  first_data_block sb = 0 -> 0 <= idx < blocks_per_group sb -> 0 <= bgid < U32_MOD -> U32_MOD <= bgid * blocks_per_group sb + idx < 2 * U32_MOD ->
  bg_idx_to_addr sb idx bgid = bgid * blocks_per_group sb + idx - U32_MOD.
Proof.
  intros H0 Hi Hb Hr. unfold bg_idx_to_addr. rewrite H0. cbn [Z.eqb negb]. unfold u32. rewrite Zplus_mod_idemp_l.
  symmetry. apply (Z.mod_unique _ _ 1); [left; lia|lia].
Qed.


(** A goal behind the last group.  The goal for the block after an extent
    that ends with the disk is the number of blocks; if all groups are full
    size, there is no group for it, and what is read as its descriptor is
    not one. *)
Lemma ext4_goal_past_end_aborts sb rc_get_bg rc_get_blk rc_set_blk rc_put_bg s n :
  geom_ok sb -> bal_ok sb s -> blocks_count sb = ngroups sb * blocks_per_group sb -> rc_get_bg (ngroups sb) = EOK ->
  balloc_alloc_block sb rc_get_bg rc_get_blk rc_set_blk rc_put_bg s (blocks_count sb) n = Abort.
Proof.
  intros Hg Hok Hfull Hrc. destruct (ngroups_eq sb Hg) as (_ & Hn & _). pose proof (go_size sb Hg) as Hsz. pose proof (go_first sb Hg) as H0.
  assert (get_bgid_of_block sb (blocks_count sb) = ngroups sb) as Hb.
  { unfold get_bgid_of_block. rewrite H0. cbn [Z.eqb negb andb]. rewrite Hfull, Z.div_mul by lia. apply u32_id. lia. }
  unfold balloc_alloc_block. rewrite Hb. unfold with_group. rewrite Hrc. cbn [Z.eqb negb]. rewrite (proj2 (lookup_ge_None (groups s) (Z.to_nat (ngroups sb)))); [done|].
  pose proof (bo_groups _ _ Hok). lia.
Qed.

