(* ===== verification/Ext4Disk.v ===== *)
(** * Files of lwext4 on the block allocator

    The allocator of [Ext4Balloc] implements the interface the file index of
    [Ext4File] is proved against.  Together: growing a file on a disk with
    enough free groups maps all its blocks, and the index then serves
    transaction building. *)

From S2P Require Import Prelude TxBuild InodeAlloc Bitmap Ext4Extent Ext4Tree Ext4Insert Ext4Map Ext4File Ext4Bitmap Ext4Balloc.

Lemma filter_ne_length (l : list Z) x : NoDup l -> (length l <= S (length (filter (fun j => j <> x) l)))%nat.
Proof.
  induction l as [|y l IH]; intros Hnd; [cbn; lia|]. apply NoDup_cons in Hnd as [Hy Hnd]. destruct (decide (y = x)) as [->|Hne].
  - rewrite filter_cons_False by (intros H; by apply H). cbn [length]. assert (filter (fun j => j <> x) l = l) as ->; [|lia]. clear IH Hnd.
    induction l as [|z l IH]; [done|]. apply not_elem_of_cons in Hy as [Hz Hy]. rewrite filter_cons_True by congruence. f_equal. by apply IH.
  - rewrite filter_cons_True by done. cbn [length]. specialize (IH Hnd). lia.
Qed.

Section disk.
Context (sb : sblock) (rc_get_bg rc_get_blk rc_set_blk rc_put_bg : Z -> Z).
Notation bpg := (blocks_per_group sb).

(** The allocator of the extent tree. *)
#[local] Instance ext4_balloc : Balloc bstate := {
  balloc_goal goal := 0 <= goal < ngroups sb * bpg;
  balloc_alloc := balloc_alloc_block sb rc_get_bg rc_get_blk rc_set_blk rc_put_bg;
  balloc_free s b n :=
    let* (s, _) := balloc_free_blocks sb rc_get_bg rc_get_blk rc_set_blk rc_put_bg s b n in Ok s
}.

(** The bitmaps are consistent, the super block is in use, and no extent can end
    with the last group: the disk ends within it or its last block is in
    use. *)
Record disk_ok (s : bstate) : Prop := {
  dk_bal : bal_ok sb s;
  dk_counts : counts_ok sb s;
  dk_super : used sb s 0 = true;
  dk_end : blocks_count sb < ngroups sb * bpg \/ used sb s (blocks_count sb - 1) = true
}.

Definition in_use (s : bstate) (x : Z) : Prop := 0 <= x < blocks_count sb /\ used sb s x = true.

Context (Hg : geom_ok sb).

(** A successful allocation. *)
Lemma disk_alloc s goal n s' b : disk_ok s -> balloc_goal goal -> 0 < n <= EXT_INIT_MAX_LEN -> balloc_alloc s goal n = Ok (s', inr b) ->
  disk_ok s' /\ 0 < b /\ b + n <= blocks_count sb /\ b / bpg = (b + n - 1) / bpg /\ (forall x, b <= x < b + n -> used sb s x = false) /\
  forall x, 0 <= x < blocks_count sb -> used sb s' x = in_range b n x || used sb s x.
Proof.
  intros [D1 D2 D3 D4] Hgoal Hn E. unfold EXT_INIT_MAX_LEN in Hn. cbn [balloc_alloc ext4_balloc] in E.
  destruct (alloc_block_ok sb rc_get_bg rc_get_blk rc_set_blk rc_put_bg s goal n Hg D1 D2 Hgoal ltac:(lia)) as (s1 & r & E1 & H). rewrite E1 in E. injection E as <- ->.
  destruct H as (H1 & H2 & Hgrp & H3 & H4 & H5 & H6). pose proof (go_count sb Hg). assert (0 < b) as Hb.
  { destruct (Z.eq_dec b 0) as [->|]; [|lia]. specialize (H3 0 ltac:(lia)). congruence. }
  split_and!; try done. split; [done..| |].
  - rewrite H4, D3 by lia. apply orb_true_r.
  - destruct D4 as [D4|D4]; [by left|right]. rewrite H4, D4 by lia. apply orb_true_r.
Qed.

#[local] Instance ext4_balloc_laws : BallocLaws bstate disk_ok in_use.
Proof.
  split; intros s goal n s' b Hd Hgoal Hn E; destruct (disk_alloc s goal n s' b Hd Hgoal Hn E) as (H1 & H2 & H3 & _ & H4 & H5); [done| |].
  - split; [intros x Hx [_ Hu]; by rewrite H4 in Hu|]. intros x. unfold in_use. split.
    + intros [Hx Hu]. rewrite H5 in Hu by done. destruct (in_range b n x) eqn:Er; [right; by apply in_range_iff|by left].
    + intros [[Hx Hu]|Hx].
      * split; [done|]. rewrite H5, Hu by done. apply orb_true_r.
      * split; [lia|]. rewrite H5 by lia. by rewrite (proj2 (in_range_iff b n x) Hx).
  - intros x Hx. cbn. destruct (ngroups_eq sb Hg) as (_ & _ & [_ He]). destruct (dk_end s Hd) as [Hl|Hl]; [lia|].
    destruct (decide (b + n = blocks_count sb)) as [Eb|]; [|lia]. rewrite H4 in Hl by lia. done.
Qed.

(** ** Room on the disk *)

Context (Hrc : rcs_ok rc_get_bg rc_get_blk rc_set_blk rc_put_bg) (Hsize : nr_blks_to_alloc <= bpg).

(** A whole group is free. *)
Definition free_group (s : bstate) (bgid : Z) : Prop :=
  0 <= bgid /\ (bgid + 1) * bpg <= blocks_count sb /\ forall x, bgid * bpg <= x < (bgid + 1) * bpg -> used sb s x = false.

(** Every allocation uses up at most one free group. *)
Lemma free_groups_supply n : forall s l, disk_ok s -> NoDup l -> (n <= length l)%nat -> Forall (free_group s) l -> supply n s.
Proof.
  pose proof (go_size sb Hg) as Hsz. rewrite nr_blks_eq in Hsize.
  induction n as [|n IH]; intros s l Hd Hnd Hlen Hfree; [done|]. intros goal m Hgoal Hm. rewrite nr_blks_eq in Hm. pose proof Hd as [D1 D2 D3 D4].
  destruct (alloc_block_ok sb rc_get_bg rc_get_blk rc_set_blk rc_put_bg s goal m Hg D1 D2 Hgoal ltac:(lia)) as (s' & r & E & H).
  destruct r as [e|b].
  - exfalso. destruct H as (_ & _ & H). destruct (H Hrc) as (_ & _ & Hno). destruct l as [|j l]; [cbn in Hlen; lia|]. apply Forall_cons in Hfree as [(F1 & F2 & F3) _].
    apply (Hno (j * bpg)); [nia|nia| |intros x Hx; apply F3; lia]. destruct (pos_block sb j 0 ltac:(lia)) as [E1 _]. rewrite Z.add_0_r in E1. rewrite E1.
    destruct (pos_block sb j (m - 1) ltac:(lia)) as [E2 _]. by replace (j * bpg + m - 1) with (j * bpg + (m - 1)) by lia.
  - assert (balloc_alloc s goal m = Ok (s', inr b)) as Ea by exact E.
    destruct (disk_alloc s goal m s' b Hd Hgoal ltac:(unfold EXT_INIT_MAX_LEN; lia) Ea) as (H1 & H2 & H3 & Hgrp & H4 & H5). pose proof (go_count sb Hg).
    exists s', b. split_and!; [done|lia|lia|]. apply (IH s' (filter (fun j => j <> b / bpg) l)); [done|by apply NoDup_filter| |].
    + pose proof (filter_ne_length l (b / bpg) Hnd). lia.
    + apply Forall_forall. intros j [Hj Hjl]%list_elem_of_filter. rewrite Forall_forall in Hfree. destruct (Hfree j Hjl) as (F1 & F2 & F3). split_and!; [done..|].
      intros x Hx. rewrite H5, F3 by (nia || done). rewrite orb_false_r. apply not_true_is_false. rewrite in_range_iff. intros Hr. apply Hj.
      pose proof (Z.div_le_mono b x bpg ltac:(lia) ltac:(lia)). pose proof (Z.div_le_mono x (b + m - 1) bpg ltac:(lia) ltac:(lia)).
      destruct (pos_block sb j (x - j * bpg) ltac:(lia)) as [E1 _]. replace (j * bpg + (x - j * bpg)) with x in E1 by lia. lia.
Qed.

(** ** Properties *)

Lemma FileMap_mono gb (dom dom' : Z -> Prop) : (forall p, dom' p -> dom p) -> FileMap gb dom -> FileMap gb dom'.
Proof. intros Hd [F1 F2 F3]. split; [intros p Hp; by apply F1, Hd|intros p q be Hp Hq; apply F2; by apply Hd|intros p Hp; by apply F3, Hd]. Qed.

(** C22: growing a file of lwext4 without I/O errors.  On a disk with consistent
    bitmaps whose last group is not of full size or has its last block in use,
    with groups of at least the size of one allocation and one wholly free group
    for each allocation the growth may take (with [c] requests on a tree of
    depth [d], [d + c + 2] for each request), [inode_alloc_blocks] of a file whose blocks are all mapped
    returns 0 and leaves such a file, with the new size: a well-formed extent
    tree in which exactly the blocks below the size are mapped, the old ones to
    where they were; bitmaps and counters consistent; every node and block
    marked in the bitmaps and none shared; and an index that gives transaction
    building the home of every page. *)
Theorem ext4_file_grows_on_disk inode_goal fuel d t s old_size i_size c l :
  file_ok (sb_block_size sb) inode_goal disk_ok in_use d t s (SIZE_TO_BLK_NR old_size) -> (2 <= fuel)%nat ->
  0 <= old_size < i_size -> SIZE_TO_BLK_NR i_size <= EXT_MAX_BLOCKS -> SIZE_TO_BLK_NR i_size <= SIZE_TO_BLK_NR old_size + nr_blks_to_alloc * Z.of_nat c ->
  Z.of_nat (d + c) < 65536 -> NoDup l -> (c * (d + c + 2) <= length l)%nat -> Forall (free_group s) l ->
  exists d' t' s', inode_alloc_blocks (ext4_i_op (sb_block_size sb) inode_goal fuel i_size) (t, s) old_size i_size = Ok (t', s', 0) /\
    file_ok (sb_block_size sb) inode_goal disk_ok in_use d' t' s' (SIZE_TO_BLK_NR i_size) /\
    (forall b, 0 <= b < SIZE_TO_BLK_NR old_size -> ext_map (flat d' t') b = ext_map (flat d t) b) /\
    forall be0, FileMap (ext4_lookup (sb_block_size sb) inode_goal t' fuel i_size be0 s') (fun p => 0 <= p < SIZE_TO_BLK_NR i_size).
Proof.
  intros Hfo Hfuel Hsz Hmax Hc Hd Hnd Hlen Hfree.
  assert (ext_space_root_idx < ext_space_block (sb_block_size sb)) as HBC.
  { rewrite nr_blks_eq in Hsize. destruct Hg as [_ G1 G2 _]. change ext_space_root_idx with 4. unfold ext_space_block, u16. rewrite Z.mod_small; Z.div_mod_to_equations; lia. }
  pose proof (free_groups_supply _ s l (ow_inv _ _ _ _ _ (fo_owned _ _ _ _ _ _ _ _ Hfo)) Hnd Hlen Hfree) as Hsup.
  destruct (ext4_grow_ok (sb_block_size sb) inode_goal HBC disk_ok in_use fuel d t s old_size i_size c Hfo Hfuel Hsz Hmax Hc Hd Hsup) as (d' & t' & s' & E & Hfo' & Hold).
  exists d', t', s'. split_and!; try done. intros be0. pose proof Hfo' as [S1 S2 S3 S4 _ _].
  eapply FileMap_mono; [|apply (ext4_file_map_ok (sb_block_size sb) inode_goal HBC d' t' S1 S2); [|lia]].
  - intros p Hp. split; [lia|]. by apply S3.
  - intros e He. destruct (ordered_elem _ _ e S2 He) as [_ Hok]. pose proof (eo_count e Hok). apply (S4 (first_block e)).
    rewrite (ext_map_elem _ e); [f_equal; lia|done..|]. unfold covers. by rewrite Z.leb_refl, (proj2 (Z.ltb_lt _ _)) by lia.
Qed.
End disk.

(** A disk of four groups and a part of one, with only the super block in
    use. *)
Definition disk_sb : sblock := mk_sblock 0 16384 65636 2048 64 false.
Definition zeros : bmap := replicate 2048 0.
Definition disk_bs : bstate :=
  mk_bs [mk_bgroup 16383 (1 :: replicate 2047 0); mk_bgroup 16384 zeros; mk_bgroup 16384 zeros; mk_bgroup 16384 zeros; mk_bgroup 100 zeros] 65635 (mk_ib 0 false).

Lemma zero_bits m i : Forall (fun b => b = 0) m -> bbit m i = false.
Proof.
  intros H. unfold bbit, byte. destruct (nth_in_or_default (Z.to_nat (i / 8)) m 0) as [Hin | ->]; [|apply Z.bits_0].
  rewrite Forall_forall in H. rewrite (H _ (proj2 (list_elem_of_In _ _) Hin)). apply Z.bits_0.
Qed.

Lemma zeros_0 n : Forall (fun b => b = 0) (replicate n 0).
Proof. by apply Forall_replicate. Qed.

Lemma super_bits i : 0 <= i -> bbit (1 :: replicate 2047 0) i = (i =? 0).
Proof.
  intros Hi. unfold bbit, byte. destruct (Z.ltb_spec i 8) as [H|H].
  - rewrite Z.div_small, Z.mod_small by lia. change (nth (Z.to_nat 0) (1 :: replicate 2047 0) 0) with (Z.shiftl 1 0). by apply one_bit.
  - rewrite (proj2 (Z.eqb_neq i 0)) by lia. assert (Z.to_nat (i / 8) = S (Z.to_nat (i / 8 - 1))) as -> by (Z.div_mod_to_equations; lia). cbn [nth].
    pose proof (zero_bits (replicate 2047 0) (8 * (i / 8 - 1) + i mod 8) (zeros_0 _)) as Hz. unfold bbit, byte in Hz.
    assert ((8 * (i / 8 - 1) + i mod 8) / 8 = i / 8 - 1 /\ (8 * (i / 8 - 1) + i mod 8) mod 8 = i mod 8) as [E1 E2] by (split; Z.div_mod_to_equations; lia).
    by rewrite E1, E2 in Hz.
Qed.

Lemma disk_group k g : groups disk_bs !! k = Some g ->
  k = 0%nat /\ g = mk_bgroup 16383 (1 :: replicate 2047 0) \/ (1 <= k <= 3)%nat /\ g = mk_bgroup 16384 zeros \/ k = 4%nat /\ g = mk_bgroup 100 zeros.
Proof. destruct k as [|[|[|[|[|k]]]]]; intros [= <-]; auto with lia. Qed.

Lemma disk_used x : 0 <= x < 65636 -> used disk_sb disk_bs x = (x =? 0).
Proof.
  intros Hx. unfold used. change (blocks_per_group disk_sb) with 16384. assert (0 <= x / 16384 < 5) as Hr by (Z.div_mod_to_equations; lia).
  destruct (groups disk_bs !! Z.to_nat (x / 16384)) as [g|] eqn:E.
  2:{ apply lookup_ge_None in E. cbn [groups disk_bs length] in E. lia. }
  destruct (disk_group _ _ E) as [[H ->]|[[H ->]|[H ->]]]; cbn [block_bitmap].
  - rewrite super_bits by (Z.div_mod_to_equations; lia). assert (x / 16384 = 0) by lia. replace (x mod 16384) with x by (Z.div_mod_to_equations; lia). done.
  - unfold zeros. rewrite zero_bits by apply zeros_0. symmetry. apply Z.eqb_neq. intros ->. rewrite Z.div_0_l in H; lia.
  - unfold zeros. rewrite zero_bits by apply zeros_0. symmetry. apply Z.eqb_neq. intros ->. rewrite Z.div_0_l in H; lia.
Qed.

Lemma count_all f n : 0 <= n -> (forall i, 0 <= i < n -> f i = true) -> count_bits f n = n.
Proof. intros Hn H. unfold count_bits. rewrite (sumz_const 1); [rewrite length_seqz; lia|]. intros x Hx%elem_of_seqz. by rewrite H by lia. Qed.

Lemma count_but_first f n : 0 < n -> (forall i, 0 <= i < n -> f i = negb (i =? 0)) -> count_bits f n = n - 1.
Proof.
  intros Hn H. rewrite (count_range (fun _ => true) f n 0 1 false); try lia.
  - rewrite count_all; [lia|lia|done].
  - intros i Hi. rewrite H by lia. by assert (i = 0) as -> by lia.
  - intros i Hi Hi'. rewrite H by lia. by rewrite (proj2 (Z.eqb_neq i 0)) by lia.
Qed.

Lemma disk_geom : geom_ok disk_sb.
Proof. split; cbn; done || lia. Qed.

Lemma disk_bs_ok : disk_ok disk_sb disk_bs.
Proof.
  split.
  - split; [done|]. intros k g E. destruct (disk_group _ _ E) as [[_ ->]|[[_ ->]|[_ ->]]]; cbn [block_bitmap]; unfold zeros, blen; cbn [length]; rewrite ?length_replicate; split;
      try done; try (by apply Forall_replicate); constructor; [done|by apply Forall_replicate].
  - split.
    + intros bgid g Hb E. destruct (disk_group _ _ E) as [[H ->]|[[H ->]|[H ->]]]; cbn [free_blocks_count block_bitmap].
      * assert (bgid = 0) as -> by lia. change (gblocks disk_sb 0) with 16384. symmetry. apply count_but_first; [lia|]. intros i Hi. by rewrite super_bits by lia.
      * assert (gblocks disk_sb bgid = 16384) as -> by (unfold gblocks; cbn; lia). symmetry. apply count_all; [lia|]. intros i Hi. unfold zeros. by rewrite zero_bits by apply zeros_0.
      * assert (gblocks disk_sb bgid = 100) as -> by (unfold gblocks; cbn; lia). symmetry. apply count_all; [lia|]. intros i Hi. unfold zeros. by rewrite zero_bits by apply zeros_0.
    + change (sb_free_blocks disk_bs) with (blocks_count disk_sb - 1). symmetry. apply count_but_first; [done|]. intros i Hi. by rewrite disk_used.
  - by rewrite disk_used.
  - left. vm_compute. reflexivity.
Qed.

Lemma ext4_file_grows_on_disk_witness : exists d' t' s',
  inode_alloc_blocks (@ext4_i_op bstate (ext4_balloc disk_sb no_error no_error no_error no_error) 2048 1 2 40960) (extent_tree_init, disk_bs) 0 40960 = Ok (t', s', 0) /\
  dense (flat d' t') 10 /\ disk_ok disk_sb s'.
Proof.
  destruct (ext4_file_grows_on_disk disk_sb no_error no_error no_error no_error disk_geom demo_rcs ltac:(done) 1 2 0 extent_tree_init disk_bs 0 40960 1 [1; 2; 3])
    as (d' & t' & s' & E & [_ _ H _ H' _] & _ & _).
  - split; [done|done| |done| |].
    + intros b. split; [done|]. change (SIZE_TO_BLK_NR 0) with 0. lia.
    + split; [exact disk_bs_ok|constructor|intros x Hx; by apply elem_of_nil in Hx|done|done].
    + split; [|done|intros x Hx; by apply elem_of_nil in Hx]. intros c [Hc _]. by apply elem_of_nil in Hc.
  - lia. - lia. - done. - done. - done.
  - apply NoDup_cons. split; [by rewrite !elem_of_cons, elem_of_nil; lia|]. apply NoDup_cons. split; [by rewrite elem_of_cons, elem_of_nil; lia|apply NoDup_singleton].
  - cbn. lia.
  - repeat constructor; cbn; try lia; intros x Hx; rewrite disk_used by lia; apply Z.eqb_neq; lia.
  - exists d', t', s'. split_and!; [exact E|exact H|apply H'].
Defined.
