(* ===== verification/Ext4Dir.v ===== *)
(** * Directory blocks of lwext4

    [secure_daemon/src/fs/lwext4/ext4_dir.c]: a directory block is a sequence
    of entries, each with its distance to the next one, an inode number (0 for
    a free entry), a type and a name.  The operations work on the bytes of the
    block; the lemmas describe them on the list of entries the block holds.
    Checksums of directory blocks are off ([ext4_mkfs] clears the feature) and
    the revision level is 1. *)

From S2P Require Import Prelude Bio Sjd Ext4Extent Ext4Map.

(** ** Entries in a block *)

Definition ENOENT : Z := 2.
Definition dir_block_size : Z := 4096.

Definition en_get_inode (b : block) (o : Z) : Z := rd 4 b o.
Definition en_get_entry_len (b : block) (o : Z) : Z := rd 2 b (o + 4).
Definition en_get_name_len (b : block) (o : Z) : Z := rd 1 b (o + 6).
Definition en_get_inode_type (b : block) (o : Z) : Z := rd 1 b (o + 7).
Definition en_set_inode (b : block) (o ino : Z) : block := wr 4 b o ino.
Definition en_set_entry_len (b : block) (o len : Z) : block := wr 2 b (o + 4) len.
Definition en_set_name_len (b : block) (o len : Z) : block := wr 1 b (o + 6) len.
Definition en_set_inode_type (b : block) (o t : Z) : block := wr 1 b (o + 7) t.

(** [n] bytes from [o]. *)
Definition slice (b : block) (o n : Z) : list Z := take (Z.to_nat n) (drop (Z.to_nat o) b).

Notation zlen l := (Z.of_nat (length l)).

(** The child an entry is written for: its inode number and mode. *)
Record dir_child := mk_child { c_index : Z; c_mode : Z }.

Definition EXT4_DIRENTRY_DIR_CSUM : Z := 222.

Definition de_type (mode : Z) : Z :=
  let t := Z.land mode 61440 in
  if t =? 16384 then 2 else if t =? 32768 then 1 else if t =? 40960 then 7 else if t =? 8192 then 3
  else if t =? 24576 then 4 else if t =? 4096 then 5 else if t =? 49152 then 6 else 0.

Definition dir_write_entry (b : block) (o entry_len : Z) (child : dir_child) (name : list Z) : res block :=
  assert! (entry_len <=? dir_block_size) in
  let b := en_set_inode_type b o (de_type (c_mode child)) in
  let b := en_set_inode b o (c_index child) in
  let b := en_set_entry_len b o entry_len in
  let b := en_set_name_len b o (zlen name) in
  Ok (splice b (o + 8) name).

(** Lengths are rounded up to a multiple of 4. *)
Definition required_len (name_len : Z) : Z :=
  let required_len := u16 (8 + name_len) in
  if negb (required_len mod 4 =? 0) then u16 (required_len + (4 - required_len mod 4)) else required_len.

Definition used_size (used_len : Z) : Z :=
  let sz := u16 (8 + used_len) in
  if negb (used_len mod 4 =? 0) then u16 (sz + (4 - used_len mod 4)) else sz.

(** [ext4_dir_try_insert_entry]: the loop from the entry at [o].  Fuel: the
    entries of the block. *)
Fixpoint try_insert_loop (fuel : nat) (b : block) (o : Z) (child : dir_child) (name : list Z) : res (block * Z) :=
  match fuel with
  | O => Blocked
  | S fuel =>
      if negb (o <? dir_block_size) then Ok (b, ENOSPC)
      else
        let inode := en_get_inode b o in
        let rec_len := en_get_entry_len b o in
        let itype := en_get_inode_type b o in
        if (inode =? 0) && negb (itype =? EXT4_DIRENTRY_DIR_CSUM) && (required_len (zlen name) <=? rec_len) then
          let* b := dir_write_entry b o rec_len child name in Ok (b, EOK)
        else
          let sz := used_size (en_get_name_len b o) in
          let free_space := u16 (rec_len - sz) in
          if negb (inode =? 0) && (required_len (zlen name) <=? free_space) then
            let b := en_set_entry_len b o sz in
            let* b := dir_write_entry b (o + sz) free_space child name in Ok (b, EOK)
          else try_insert_loop fuel b (o + rec_len) child name
  end.

Definition dir_try_insert_entry (b : block) (child : dir_child) (name : list Z) : res (block * Z) :=
  try_insert_loop (S (Z.to_nat dir_block_size)) b 0 child name.

(** [ext4_dir_find_in_block]: the offset of the entry. *)
Fixpoint find_in_block_loop (fuel : nat) (b : block) (o : Z) (name : list Z) : res (Z + Z) :=
  match fuel with
  | O => Blocked
  | S fuel =>
      if negb (o <? dir_block_size) then Ok (inl ENOENT)
      else if dir_block_size <? o + zlen name then Ok (inl ENOENT)
      else if negb (en_get_inode b o =? 0) && (en_get_name_len b o =? zlen name) && bool_decide (slice b (o + 8) (zlen name) = name) then Ok (inr o)
      else if en_get_entry_len b o =? 0 then Ok (inl EINVAL)
      else find_in_block_loop fuel b (o + en_get_entry_len b o) name
  end.

Definition dir_find_in_block (b : block) (name : list Z) : res (Z + Z) := find_in_block_loop (S (Z.to_nat dir_block_size)) b 0 name.

(** The direct predecessor of the entry at [pos]: its offset and length. *)
Fixpoint find_pred (fuel : nat) (b : block) (offset de_len pos : Z) : res (Z * Z) :=
  match fuel with
  | O => Blocked
  | S fuel =>
      if offset + de_len <? pos then
        let offset := offset + en_get_entry_len b offset in
        find_pred fuel b offset (en_get_entry_len b offset) pos
      else Ok (offset, de_len)
  end.

(** [ext4_dir_remove_entry], with the entry found at [pos]. *)
Definition dir_remove_at (b : block) (pos : Z) : res block :=
  let b := en_set_inode b pos 0 in
  if negb (pos =? 0) then
    let* (offset, de_len) := find_pred (S (Z.to_nat dir_block_size)) b 0 (en_get_entry_len b 0) pos in
    assert! (de_len + offset =? pos) in
    Ok (en_set_entry_len b offset (u16 (de_len + en_get_entry_len b pos)))
  else Ok b.

(** ** Bytes *)

Lemma rd_slice n b o : rd n b o = un_le (slice b o (Z.of_nat n)).
Proof. unfold rd, slice. by rewrite Nat2Z.id. Qed.

Lemma length_slice b o n : 0 <= o -> 0 <= n -> o + n <= zlen b -> zlen (slice b o n) = n.
Proof. intros. unfold slice. rewrite length_take, length_drop. lia. Qed.

Lemma slice_splice_ne b p bs o n :
  0 <= p -> 0 <= o -> p + zlen bs <= zlen b -> o + n <= p \/ p + zlen bs <= o -> slice (splice b p bs) o n = slice b o n.
Proof.
  intros Hp Ho Hl Hd. unfold slice, splice. apply list_eq. intros i.
  destruct (decide (i < Z.to_nat n)%nat); [|rewrite !lookup_take_ge by lia; done].
  rewrite !lookup_take_lt, !lookup_drop by lia.
  destruct Hd as [Hd|Hd].
  - rewrite lookup_app_l by (rewrite length_take; lia). by rewrite lookup_take_lt by lia.
  - rewrite lookup_app_r by (rewrite length_take; lia). rewrite length_take, Nat.min_l by lia.
    rewrite lookup_app_r by lia. rewrite lookup_drop. f_equal. lia.
Qed.

Lemma slice_splice_eq b p bs : 0 <= p -> p <= zlen b -> slice (splice b p bs) p (zlen bs) = bs.
Proof.
  intros Hp Hl. unfold slice, splice. rewrite drop_app_ge by (rewrite length_take; lia).
  rewrite length_take, Nat.min_l, Nat.sub_diag, drop_0 by lia. rewrite Nat2Z.id. by rewrite take_app_length.
Qed.

Lemma slice_splice_in b p bs k n : 0 <= p -> p <= zlen b -> 0 <= k -> k + n <= zlen bs -> slice (splice b p bs) (p + k) n = slice bs k n.
Proof.
  intros Hp Hl Hk Hn. unfold slice, splice. rewrite drop_app_ge by (rewrite length_take; lia). rewrite length_take, Nat.min_l by lia.
  replace (Z.to_nat (p + k) - Z.to_nat p)%nat with (Z.to_nat k) by lia. destruct (Z.le_gt_cases n 0); [by replace (Z.to_nat n) with O by lia|].
  rewrite drop_app_le by lia. rewrite take_app_le; [done|]. rewrite length_drop. lia.
Qed.

Lemma drop_take_drop_aux {A} (l : list A) (k m n o : nat) : (k + n <= m)%nat -> take n (drop k (take m (drop o l))) = take n (drop (o + k) l).
Proof.
  intros H. apply list_eq. intros i. destruct (decide (i < n)%nat); [|by rewrite !lookup_take_ge by lia].
  rewrite !lookup_take_lt, !lookup_drop, lookup_take_lt, lookup_drop by lia. f_equal. lia.
Qed.

Lemma slice_slice b o m k n : 0 <= o -> 0 <= k -> k + n <= m -> slice (slice b o m) k n = slice b (o + k) n.
Proof.
  intros Ho Hk Hn. unfold slice. destruct (Z.le_gt_cases n 0); [by replace (Z.to_nat n) with O by lia|].
  rewrite drop_take_drop_aux by lia. by rewrite Z2Nat.inj_add by lia.
Qed.

(** [b'] differs from [b] only between [p] and [q]. *)
Definition keeps (b b' : block) (p q : Z) : Prop :=
  block_ok b' /\ forall o n, 0 <= o -> o + n <= p \/ q <= o -> slice b' o n = slice b o n.

Lemma bkeeps_trans b b1 b2 p q p1 q1 p2 q2 :
  keeps b b1 p1 q1 -> keeps b1 b2 p2 q2 -> p <= p1 -> p <= p2 -> q1 <= q -> q2 <= q -> keeps b b2 p q.
Proof. intros [_ H1] [H2 H3] ? ? ? ?. split; [done|]. intros o n Ho Hd. rewrite H3, H1; [done|lia..]. Qed.

Lemma keeps_weaken b b' p q p1 q1 : keeps b b' p1 q1 -> p <= p1 -> q1 <= q -> keeps b b' p q.
Proof. intros [H1 H2] Hp Hq. split; [done|]. intros o n Ho Hd. apply H2; lia. Qed.

Lemma splice_keeps b p bs : block_ok b -> 0 <= p -> p + zlen bs <= 4096 -> keeps b (splice b p bs) p (p + zlen bs).
Proof.
  unfold block_ok. intros Hb Hp Hl. split; [unfold block_ok; rewrite length_splice; lia|]. intros o n Ho Hd. apply slice_splice_ne; lia.
Qed.

Lemma wr_keeps n b p x : block_ok b -> 0 <= p -> p + Z.of_nat n <= 4096 -> keeps b (wr n b p x) p (p + Z.of_nat n).
Proof. intros Hb Hp Hl. unfold wr. pose proof (splice_keeps b p (le n x) Hb Hp) as H. rewrite length_le in H. by apply H. Qed.

Lemma keeps_rd n b b' p q o : keeps b b' p q -> 0 <= o -> o + Z.of_nat n <= p \/ q <= o -> rd n b' o = rd n b o.
Proof. intros [_ H] Ho Hd. rewrite !rd_slice. by rewrite H by lia. Qed.

(** ** Lists of entries *)

Record dent := mk_dent { d_ino : Z; d_len : Z; d_type : Z; d_name : list Z }.

Record dent_at (b : block) (o : Z) (d : dent) : Prop := {
  da_ino : en_get_inode b o = d_ino d;
  da_len : en_get_entry_len b o = d_len d;
  da_nlen : en_get_name_len b o = zlen (d_name d);
  da_type : en_get_inode_type b o = d_type d;
  da_name : slice b (o + 8) (zlen (d_name d)) = d_name d
}.

(** An entry has room for its name and is aligned. *)
Record dent_ok (d : dent) : Prop := {
  do_name : zlen (d_name d) < 256;
  do_room : 8 + zlen (d_name d) <= d_len d;
  do_len : d_len d <= 4096;
  do_align : d_len d mod 4 = 0
}.

(** The block holds the entries [es] from [o] to [e]. *)
Fixpoint dents (b : block) (o : Z) (es : list dent) (e : Z) : Prop :=
  match es with
  | [] => o = e
  | d :: es => dent_at b o d /\ dent_ok d /\ dents b (o + d_len d) es e
  end.

(** A directory block with the entries [es]. *)
Definition dir_block (b : block) (es : list dent) : Prop := block_ok b /\ dents b 0 es 4096.

Lemma dents_le b o es e : dents b o es e -> o + 8 * zlen es <= e.
Proof.
  revert o. induction es as [|d es IH]; intros o H; cbn [dents length] in H |- *; [lia|]. destruct H as (_ & [_ H _ _] & H'). apply IH in H'. lia.
Qed.

Lemma dents_app b o es1 es2 e : dents b o (es1 ++ es2) e <-> dents b o es1 (o + sumz d_len es1) /\ dents b (o + sumz d_len es1) es2 e.
Proof.
  revert o. induction es1 as [|d es1 IH]; intros o; cbn [dents app].
  - rewrite sumz_nil, Z.add_0_r. tauto.
  - rewrite sumz_cons, Z.add_assoc. rewrite IH. tauto.
Qed.

Lemma dents_sum b o es e : dents b o es e -> o + sumz d_len es = e.
Proof. revert o. induction es as [|d es IH]; intros o H; cbn in H; [rewrite sumz_nil; lia|]. destruct H as (_ & _ & H). rewrite sumz_cons. apply IH in H. lia. Qed.

Lemma dent_at_keeps b b' p q o d : keeps b b' p q -> dent_ok d -> dent_at b o d -> 0 <= o -> o + d_len d <= p \/ q <= o -> dent_at b' o d.
Proof.
  intros Hk [Hn Hr Hl Ha] [H1 H2 H3 H4 H5] Ho Hd. unfold en_get_inode, en_get_entry_len, en_get_name_len, en_get_inode_type in *.
  split; unfold en_get_inode, en_get_entry_len, en_get_name_len, en_get_inode_type; rewrite ?(keeps_rd _ b b' p q) by (done || lia); try done.
  destruct Hk as [_ Hk]. rewrite Hk by lia. done.
Qed.

Lemma dents_keeps b b' p q o es e : keeps b b' p q -> dents b o es e -> 0 <= o -> e <= p \/ q <= o -> dents b' o es e.
Proof.
  intros Hk. revert o. induction es as [|d es IH]; intros o H Ho Hd; [done|]. destruct H as (H1 & H2 & H3). pose proof (dents_le _ _ _ _ H3) as Hle. pose proof (do_room d H2).
  cbn [dents]. split_and!; [apply (dent_at_keeps b b' p q); try done; lia|done|apply IH; try done; lia].
Qed.

(** Writing an entry. *)
Lemma dir_write_entry_ok b o len child name :
  block_ok b -> 0 <= o -> o + len <= 4096 -> 8 + zlen name <= len -> zlen name < 256 -> 0 <= c_index child < U32_MOD ->
  exists b', dir_write_entry b o len child name = Ok b' /\ keeps b b' o (o + 8 + zlen name) /\
    dent_at b' o (mk_dent (c_index child) len (de_type (c_mode child)) name).
Proof.
  intros Hb Ho Hl Hn Hn' Hi. unfold dir_write_entry, dir_block_size. rewrite (proj2 (Z.leb_le len 4096)) by lia. cbn [assert_].
  unfold en_set_inode_type, en_set_inode, en_set_entry_len, en_set_name_len. set (b1 := wr 1 b (o + 7) _). set (b2 := wr 4 b1 o _). set (b3 := wr 2 b2 (o + 4) _).
  set (b4 := wr 1 b3 (o + 6) _). set (b5 := splice b4 (o + 8) name).
  assert (0 <= de_type (c_mode child) < 256) as Ht by (unfold de_type; repeat (case_match; [lia|]); lia).
  assert (block_ok b1 /\ block_ok b2 /\ block_ok b3 /\ block_ok b4) as (H1 & H2 & H3 & H4) by (split_and!; repeat (apply wr_ok; try lia); done).
  pose proof (splice_keeps b4 (o + 8) name H4 ltac:(lia) ltac:(lia)) as K5. fold b5 in K5.
  pose proof (wr_keeps 1 b3 (o + 6) (zlen name) H3 ltac:(lia) ltac:(lia)) as K4. fold b4 in K4.
  pose proof (wr_keeps 2 b2 (o + 4) len H2 ltac:(lia) ltac:(lia)) as K3. fold b3 in K3.
  pose proof (wr_keeps 4 b1 o (c_index child) H1 ltac:(lia) ltac:(lia)) as K2. fold b2 in K2.
  pose proof (wr_keeps 1 b (o + 7) (de_type (c_mode child)) Hb ltac:(lia) ltac:(lia)) as K1. fold b1 in K1.
  exists b5. split; [done|]. split.
  { apply (bkeeps_trans b b4 b5 _ _ o (o + 8) (o + 8) (o + 8 + zlen name)); try done; try lia.
    apply (bkeeps_trans b b3 b4 _ _ o (o + 8) (o + 6) (o + 6 + 1)); try done; try lia.
    apply (bkeeps_trans b b2 b3 _ _ o (o + 8) (o + 4) (o + 4 + 2)); try done; try lia.
    apply (bkeeps_trans b b1 b2 _ _ (o + 7) (o + 7 + 1) o (o + 4)); try done; lia. }
  unfold block_ok in H1, H2, H3, H4, Hb.
  split; cbn [d_ino d_len d_type d_name]; unfold en_get_inode, en_get_entry_len, en_get_name_len, en_get_inode_type; rewrite ?(keeps_rd _ b4 b5 _ _ _ K5) by lia.
  - rewrite (keeps_rd _ b3 b4 _ _ _ K4), (keeps_rd _ b2 b3 _ _ _ K3) by lia. unfold b2. rewrite rd_wr_eq by lia. apply Z.mod_small. cbn. lia.
  - rewrite (keeps_rd _ b3 b4 _ _ _ K4) by lia. unfold b3. rewrite rd_wr_eq by lia. apply Z.mod_small. cbn. lia.
  - unfold b4. rewrite rd_wr_eq by lia. apply Z.mod_small. cbn. lia.
  - rewrite (keeps_rd _ b3 b4 _ _ _ K4), (keeps_rd _ b2 b3 _ _ _ K3), (keeps_rd _ b1 b2 _ _ _ K2) by lia. unfold b1. rewrite rd_wr_eq by lia. apply Z.mod_small. cbn. lia.
  - apply slice_splice_eq; lia.
Qed.

Lemma set_len_at b o d len : block_ok b -> 0 <= o -> o + 8 <= 4096 -> dent_at b o d -> 0 <= len < 65536 ->
  keeps b (en_set_entry_len b o len) (o + 4) (o + 6) /\ dent_at (en_set_entry_len b o len) o (mk_dent (d_ino d) len (d_type d) (d_name d)).
Proof.
  intros Hb Ho Ho' [H1 H2 H3 H4 H5] Hl. unfold en_set_entry_len. pose proof (wr_keeps 2 b (o + 4) len Hb ltac:(lia) ltac:(lia)) as K.
  split; [by replace (o + 6) with (o + 4 + Z.of_nat 2) by lia|]. unfold en_get_inode, en_get_entry_len, en_get_name_len, en_get_inode_type in *.
  split; cbn [d_ino d_len d_type d_name]; unfold en_get_inode, en_get_entry_len, en_get_name_len, en_get_inode_type.
  2:{ unfold block_ok in Hb. rewrite rd_wr_eq by lia. apply Z.mod_small. cbn. lia. }
  1-3: by rewrite (keeps_rd _ _ _ _ _ _ K) by lia. destruct K as [_ K]. by rewrite K by lia.
Qed.

Lemma set_inode_at b o d ino : block_ok b -> 0 <= o -> o + 8 <= 4096 -> dent_at b o d -> 0 <= ino < U32_MOD ->
  keeps b (en_set_inode b o ino) o (o + 4) /\ dent_at (en_set_inode b o ino) o (mk_dent ino (d_len d) (d_type d) (d_name d)).
Proof.
  intros Hb Ho Ho' [H1 H2 H3 H4 H5] Hl. unfold en_set_inode. pose proof (wr_keeps 4 b o ino Hb ltac:(lia) ltac:(lia)) as K.
  split; [done|]. unfold en_get_inode, en_get_entry_len, en_get_name_len, en_get_inode_type in *.
  split; cbn [d_ino d_len d_type d_name]; unfold en_get_inode, en_get_entry_len, en_get_name_len, en_get_inode_type.
  1:{ unfold block_ok in Hb. rewrite rd_wr_eq by lia. apply Z.mod_small. cbn. lia. }
  1-3: by rewrite (keeps_rd _ _ _ _ _ _ K) by lia. destruct K as [_ K]. by rewrite K by lia.
Qed.

(** ** Insertion *)

(** The length of an entry for a name. *)
Definition dsize (name : list Z) : Z := (8 + zlen name + 3) / 4 * 4.

Lemma required_len_eq name : zlen name < 256 -> required_len (zlen name) = dsize name.
Proof.
  intros Hn. unfold required_len, dsize, u16. rewrite (Z.mod_small (8 + zlen name)) by lia. destruct (Z.eqb_spec ((8 + zlen name) mod 4) 0); cbn [negb]; [Z.div_mod_to_equations; lia|].
  rewrite Z.mod_small by (Z.div_mod_to_equations; lia). Z.div_mod_to_equations; lia.
Qed.

Lemma used_size_eq name : zlen name < 256 -> used_size (zlen name) = dsize name.
Proof.
  intros Hn. unfold used_size, dsize, u16. rewrite (Z.mod_small (8 + zlen name)) by lia. destruct (Z.eqb_spec (zlen name mod 4) 0); cbn [negb]; [Z.div_mod_to_equations; lia|].
  rewrite Z.mod_small by (Z.div_mod_to_equations; lia). Z.div_mod_to_equations; lia.
Qed.

Lemma dsize_bounds name : 8 + zlen name <= dsize name < 12 + zlen name /\ dsize name mod 4 = 0.
Proof. unfold dsize. split; [Z.div_mod_to_equations; lia|]. apply Z.mod_mul. lia. Qed.

(** An entry with room for a new one of length [req], and the two entries then. *)
Definition has_room (req : Z) (d : dent) : bool :=
  if d_ino d =? 0 then negb (d_type d =? EXT4_DIRENTRY_DIR_CSUM) && (req <=? d_len d) else req <=? d_len d - dsize (d_name d).

Definition with_new (d : dent) (new : Z -> dent) : list dent :=
  if d_ino d =? 0 then [new (d_len d)] else [mk_dent (d_ino d) (dsize (d_name d)) (d_type d) (d_name d); new (d_len d - dsize (d_name d))].

(** What an insertion does to the entries. *)
Fixpoint place (req : Z) (new : Z -> dent) (es : list dent) : option (list dent) :=
  match es with
  | [] => None
  | d :: es => if has_room req d then Some (with_new d new ++ es) else (d ::.) <$> place req new es
  end.

Definition new_dent (child : dir_child) (name : list Z) (len : Z) : dent := mk_dent (c_index child) len (de_type (c_mode child)) name.

(** Insertion into the first entry of the rest of a block. *)
Lemma insert_here b o d es child name : block_ok b -> 0 <= o -> dent_at b o d -> dent_ok d -> dents b (o + d_len d) es 4096 ->
  has_room (dsize name) d = true -> zlen name < 256 -> 0 <= c_index child < U32_MOD -> d_ino d <> 0 ->
  exists b', (let* b' := dir_write_entry (en_set_entry_len b o (dsize (d_name d))) (o + dsize (d_name d)) (d_len d - dsize (d_name d)) child name in Ok (b', EOK)) = Ok (b', EOK) /\
    keeps b b' o 4096 /\ dents b' o (with_new d (new_dent child name) ++ es) 4096.
Proof.
  intros Hb Ho Hat Hok Hes Hroom Hn Hi Hne. unfold has_room in Hroom. unfold with_new. rewrite (proj2 (Z.eqb_neq _ _) Hne) in Hroom |- *. apply Z.leb_le in Hroom.
  pose proof (dents_le _ _ _ _ Hes) as Hle. destruct (dsize_bounds name) as [Hs Hs']. destruct (dsize_bounds (d_name d)) as [Ht Ht']. pose proof Hok as [K1 K2 K3 K4].
  destruct (set_len_at b o d (dsize (d_name d)) Hb Ho ltac:(lia) Hat ltac:(lia)) as [Hk1 Hat1]. set (b1 := en_set_entry_len b o _) in *. pose proof (proj1 Hk1) as Hb1.
  destruct (dir_write_entry_ok b1 (o + dsize (d_name d)) (d_len d - dsize (d_name d)) child name Hb1 ltac:(lia) ltac:(lia) ltac:(lia) Hn Hi) as (b2 & E & Hk2 & Hat2).
  exists b2. rewrite E. cbn [res_bind]. split; [done|]. split; [apply (bkeeps_trans b b1 b2 _ _ _ _ _ _ Hk1 Hk2); lia|].
  cbn [app dents d_len new_dent d_name]. split_and!.
  - apply (dent_at_keeps b1 b2 _ _ _ _ Hk2); [split; cbn; lia || done|done|lia|cbn; lia].
  - split; cbn; lia || done.
  - done.
  - split; cbn; try lia. rewrite Zminus_mod, K4, Ht'. done.
  - replace (o + dsize (d_name d) + (d_len d - dsize (d_name d))) with (o + d_len d) by lia.
    apply (dents_keeps b1 b2 _ _ _ _ _ Hk2); [|lia|lia]. apply (dents_keeps b b1 _ _ _ _ _ Hk1); [done|lia|lia].
Qed.

Lemma try_insert_loop_ok fuel : forall b o es child name,
  block_ok b -> 0 <= o -> dents b o es 4096 -> zlen name < 256 -> 0 <= c_index child < U32_MOD -> (length es < fuel)%nat ->
  exists b', try_insert_loop fuel b o child name = Ok (b', if place (dsize name) (new_dent child name) es then EOK else ENOSPC) /\
    match place (dsize name) (new_dent child name) es with
    | Some es' => keeps b b' o 4096 /\ dents b' o es' 4096
    | None => b' = b
    end.
Proof.
  induction fuel as [|fuel IH]; intros b o es child name Hb Ho Hes Hn Hi Hf; [lia|]. cbn [try_insert_loop]. unfold dir_block_size. pose proof (dents_le _ _ _ _ Hes) as Hle.
  destruct es as [|d es]; cbn [dents] in Hes.
  { subst o. cbn [Z.ltb Z.compare Pos.compare Pos.compare_cont negb place]. by exists b. }
  destruct Hes as (Hat & Hok & Hes). pose proof Hok as [K1 K2 K3 K4]. pose proof (dents_le _ _ _ _ Hes) as Hle'. rewrite (proj2 (Z.ltb_lt o 4096)) by lia. cbn [negb place].
  rewrite (da_ino _ _ _ Hat), (da_len _ _ _ Hat), (da_nlen _ _ _ Hat), (da_type _ _ _ Hat), required_len_eq, used_size_eq by done.
  destruct (dsize_bounds (d_name d)) as [Ht Ht']. destruct (dsize_bounds name) as [Hs Hs'].
  assert (dsize (d_name d) <= d_len d) as Hfit by (unfold dsize in *; Z.div_mod_to_equations; lia).
  unfold u16. rewrite (Z.mod_small (d_len d - _)) by lia.
  assert (length es < fuel)%nat as Hf' by (cbn in Hf; lia).
  destruct (IH b (o + d_len d) es child name Hb ltac:(lia) Hes Hn Hi Hf') as (b' & E & H).
  destruct (has_room (dsize name) d) eqn:Hroom.
  - pose proof Hroom as Hroom'. unfold has_room in Hroom. destruct (Z.eqb_spec (d_ino d) 0) as [Hz|Hz]; cbn [andb negb].
    + rewrite Hroom. apply andb_true_iff in Hroom as [_ Hlen%Z.leb_le].
      destruct (dir_write_entry_ok b o (d_len d) child name Hb Ho ltac:(lia) ltac:(lia) Hn Hi) as (b1 & E1 & Hk & Hat1). exists b1. rewrite E1. cbn [res_bind]. split; [done|].
      unfold with_new. rewrite (proj2 (Z.eqb_eq _ _) Hz). split; [apply (keeps_weaken _ _ _ _ _ _ Hk); lia|]. cbn [app dents d_len new_dent d_name].
      split_and!; [done|split; cbn; lia || done|]. apply (dents_keeps b b1 _ _ _ _ _ Hk); [done|lia|lia].
    + rewrite Hroom. by apply insert_here.
  - unfold has_room in Hroom. assert ((d_ino d =? 0) && negb (d_type d =? EXT4_DIRENTRY_DIR_CSUM) && (dsize name <=? d_len d) = false /\
      negb (d_ino d =? 0) && (dsize name <=? d_len d - dsize (d_name d)) = false) as [-> ->].
    { destruct (d_ino d =? 0); cbn [andb negb] in *; [by rewrite Hroom|by rewrite Hroom]. }
    exists b'. rewrite E. destruct (place _ _ es) as [es'|]; cbn [fmap option_fmap option_map]; [|done]. split; [done|]. destruct H as [Hk He]. split.
    + apply (keeps_weaken _ _ _ _ _ _ Hk); lia.
    + cbn [dents]. split_and!; [apply (dent_at_keeps b b' _ _ _ _ Hk); lia || done|done|done].
Qed.

(** A block with an entry more, or no room for it. *)
Lemma try_insert_ok b es child name : dir_block b es -> zlen name < 256 -> 0 <= c_index child < U32_MOD ->
  match place (dsize name) (new_dent child name) es with
  | Some es' => exists b', dir_try_insert_entry b child name = Ok (b', EOK) /\ dir_block b' es'
  | None => dir_try_insert_entry b child name = Ok (b, ENOSPC)
  end.
Proof.
  intros [Hb Hes] Hn Hi. unfold dir_try_insert_entry, dir_block_size. pose proof (dents_le _ _ _ _ Hes) as Hle.
  destruct (try_insert_loop_ok (S (Z.to_nat 4096)) b 0 es child name Hb ltac:(lia) Hes Hn Hi ltac:(lia)) as (b' & E & H).
  destruct (place _ _ es) as [es'|]; [exists b'; split; [done|]; split; [apply H|apply H]|]. by subst b'.
Qed.

(** ** Search *)

Definition has_name (name : list Z) (d : dent) : bool := negb (d_ino d =? 0) && bool_decide (d_name d = name).

Lemma find_in_block_loop_ok fuel : forall b o es name, dents b o es 4096 -> 0 <= o -> (length es < fuel)%nat ->
  (exists pre d post, es = pre ++ d :: post /\ has_name name d = true /\ Forall (fun d => has_name name d = false) pre /\
    find_in_block_loop fuel b o name = Ok (inr (o + sumz d_len pre))) \/
  Forall (fun d => has_name name d = false) es /\ find_in_block_loop fuel b o name = Ok (inl ENOENT).
Proof.
  induction fuel as [|fuel IH]; intros b o es name Hes Ho Hf; [lia|]. cbn [find_in_block_loop]. unfold dir_block_size.
  destruct es as [|d es]; cbn [dents] in Hes; [subst o; right; by rewrite Z.ltb_irrefl|].
  destruct Hes as (Hat & Hok & Hes). pose proof Hok as [K1 K2 K3 K4]. pose proof (dents_le _ _ _ _ Hes) as Hle. rewrite (proj2 (Z.ltb_lt o 4096)) by lia. cbn [negb].
  destruct (Z.ltb_spec 4096 (o + zlen name)) as [Hlt|Hge].
  { right. split; [|done]. assert (forall es o', dents b o' es 4096 -> o <= o' -> Forall (fun d => has_name name d = false) es) as Hno.
    { clear -Hlt. induction es as [|d es IH]; intros o' H Ho'; constructor; destruct H as (Hat & [K1 K2 K3 K4] & H); pose proof (dents_le _ _ _ _ H).
      - unfold has_name. rewrite bool_decide_eq_false_2 by (intros <-; lia). apply andb_false_r.
      - apply (IH _ H). lia. }
    apply (Hno _ o); [done|lia]. }
  rewrite (da_ino _ _ _ Hat), (da_nlen _ _ _ Hat), (da_len _ _ _ Hat). rewrite (proj2 (Z.eqb_neq (d_len d) 0)) by lia.
  assert (negb (d_ino d =? 0) && (zlen (d_name d) =? zlen name) && bool_decide (slice b (o + 8) (zlen name) = name) = has_name name d) as ->.
  { unfold has_name. rewrite <- andb_assoc. f_equal. destruct (Z.eqb_spec (zlen (d_name d)) (zlen name)) as [E|E]; cbn [andb].
    - rewrite <- E, (da_name _ _ _ Hat). done.
    - symmetry. apply bool_decide_eq_false_2. congruence. }
  destruct (has_name name d) eqn:Hh; [left; exists [], d, es; split_and!; [done..|by rewrite Z.add_0_r]|].
  destruct (IH b (o + d_len d) es name Hes ltac:(lia) ltac:(cbn in Hf; lia)) as [(pre & d' & post & -> & H1 & H2 & E)|[H1 E]]; [left|right; by split; [constructor|]].
  exists (d :: pre), d', post. split_and!; [done..|by constructor|]. rewrite E, sumz_cons. by rewrite Z.add_assoc.
Qed.

Lemma find_in_block_ok b es name : dir_block b es ->
  (exists pre d post, es = pre ++ d :: post /\ has_name name d = true /\ Forall (fun d => has_name name d = false) pre /\
    dir_find_in_block b name = Ok (inr (sumz d_len pre)) /\ dent_at b (sumz d_len pre) d) \/
  Forall (fun d => has_name name d = false) es /\ dir_find_in_block b name = Ok (inl ENOENT).
Proof.
  intros [Hb Hes]. pose proof (dents_le _ _ _ _ Hes) as Hle.
  destruct (find_in_block_loop_ok (S (Z.to_nat 4096)) b 0 es name Hes ltac:(lia) ltac:(lia)) as [(pre & d & post & E & H1 & H2 & H3)|H]; [left|by right].
  exists pre, d, post. split_and!; [done..|]. rewrite E in Hes. apply dents_app in Hes as [_ H]. apply H.
Qed.

(** ** Removal *)

Definition set_ino (d : dent) (ino : Z) : dent := mk_dent ino (d_len d) (d_type d) (d_name d).
Definition set_dlen (d : dent) (len : Z) : dent := mk_dent (d_ino d) len (d_type d) (d_name d).

(** The entries without [d]: its room goes to the entry before it. *)
Definition removed (pre : list dent) (d : dent) (post : list dent) : list dent :=
  match reverse pre with
  | [] => set_ino d 0 :: post
  | p :: r => reverse r ++ set_dlen p (d_len p + d_len d) :: post
  end.

Lemma find_pred_ok fuel : forall b o pre p e, dents b o (pre ++ [p]) e -> (length pre < fuel)%nat ->
  find_pred fuel b o (en_get_entry_len b o) e = Ok (o + sumz d_len pre, d_len p).
Proof.
  induction fuel as [|fuel IH]; intros b o pre p e H Hf; [lia|]. cbn [find_pred]. destruct pre as [|d pre]; cbn [app dents] in H; destruct H as (Hat & Hok & H); rewrite (da_len _ _ _ Hat).
  - rewrite H, Z.ltb_irrefl, sumz_nil. by rewrite Z.add_0_r.
  - pose proof (dents_le _ _ _ _ H) as Hle. rewrite length_app in Hle. cbn in Hle. rewrite (proj2 (Z.ltb_lt _ _)) by lia. rewrite (IH b (o + d_len d) pre p e H) by (cbn in Hf; lia).
    rewrite sumz_cons. by rewrite Z.add_assoc.
Qed.

Lemma remove_ok b pre d post : dir_block b (pre ++ d :: post) ->
  exists b', dir_remove_at b (sumz d_len pre) = Ok b' /\ dir_block b' (removed pre d post).
Proof.
  intros [Hb Hes]. apply dents_app in Hes as [Hpre (Hat & Hok & Hpost)]. rewrite Z.add_0_l in *. pose proof Hok as [K1 K2 K3 K4].
  pose proof (dents_le _ _ _ _ Hpre) as Hle. pose proof (dents_le _ _ _ _ Hpost) as Hle'.
  destruct (set_inode_at b (sumz d_len pre) d 0 Hb ltac:(lia) ltac:(lia) Hat ltac:(lia)) as [Hk Hat']. unfold dir_remove_at. set (b1 := en_set_inode b _ 0) in *. pose proof (proj1 Hk) as Hb1.
  assert (dents b1 0 pre (sumz d_len pre)) as Hpre1 by (apply (dents_keeps _ _ _ _ _ _ _ Hk Hpre); lia).
  assert (dents b1 (sumz d_len pre + d_len d) post 4096) as Hpost1 by (apply (dents_keeps _ _ _ _ _ _ _ Hk Hpost); lia).
  unfold removed. destruct (reverse pre) as [|p r] eqn:Er.
  { apply (f_equal reverse) in Er. rewrite reverse_involutive in Er. cbn in Er. subst pre. rewrite sumz_nil in *. cbn [Z.eqb negb]. exists b1. split; [done|].
    split; [done|]. cbn [dents set_ino d_len]. split_and!; [done|split; cbn; done|done]. }
  apply (f_equal reverse) in Er. rewrite reverse_involutive, reverse_cons in Er. remember (reverse r) as pre'. subst pre. clear Heqpre' r.
  rewrite sumz_app, sumz_cons, sumz_nil, Z.add_0_r in *. pose proof Hpre1 as H1. apply dents_app in H1 as [H1 (Hatp & Hokp & _)]. rewrite Z.add_0_l in *.
  pose proof Hokp as [P1 P2 P3 P4]. pose proof (dents_le _ _ _ _ H1) as Hle1. rewrite (proj2 (Z.eqb_neq _ 0)) by lia. cbn [negb].
  assert (zlen (pre' ++ [p]) <= 512) as Hln by lia. rewrite length_app in Hln. cbn [length] in Hln.
  rewrite (find_pred_ok _ b1 0 pre' p _ Hpre1) by (unfold dir_block_size; lia). cbn [res_bind]. rewrite (proj2 (Z.eqb_eq _ _)) by lia. cbn [assert_]. rewrite (da_len _ _ _ Hat'). cbn [d_len].
  unfold u16. rewrite Z.mod_small by lia. rewrite Z.add_0_l in *.
  destruct (set_len_at b1 (sumz d_len pre') p (d_len p + d_len d) Hb1 ltac:(lia) ltac:(lia) Hatp ltac:(lia)) as [Hk2 Hat2]. eexists. split; [done|]. split; [apply Hk2|].
  apply dents_app. rewrite Z.add_0_l. split; [apply (dents_keeps _ _ _ _ _ _ _ Hk2 H1); lia|]. cbn [dents set_dlen d_len d_name]. split_and!; [done| |].
  - split; cbn; try lia. rewrite Z.add_mod, P4, K4 by lia. done.
  - rewrite Z.add_assoc. apply (dents_keeps _ _ _ _ _ _ _ Hk2 Hpost1); lia.
Qed.

(** ** The names of a block *)

(** Names and inode numbers of the entries in use. *)
Definition live (es : list dent) : list (list Z * Z) := (fun d => (d_name d, d_ino d)) <$> filter (fun d => d_ino d <> 0) es.

Lemma dlive_app es1 es2 : live (es1 ++ es2) = live es1 ++ live es2.
Proof. unfold live. by rewrite filter_app, fmap_app. Qed.

Lemma live_cons d es : live (d :: es) = (if d_ino d =? 0 then [] else [(d_name d, d_ino d)]) ++ live es.
Proof.
  unfold live. destruct (Z.eqb_spec (d_ino d) 0) as [H|H]; [by rewrite filter_cons_False by (rewrite H; tauto)|by rewrite filter_cons_True].
Qed.

Lemma place_live req new es es' name ino : place req new es = Some es' -> (forall l, d_ino (new l) = ino /\ d_name (new l) = name) -> ino <> 0 ->
  exists l1 l2, live es = l1 ++ l2 /\ live es' = l1 ++ (name, ino) :: l2.
Proof.
  intros E Hnew Hne. revert es' E. induction es as [|d es IH]; intros es' E; cbn [place] in E; [done|]. destruct (has_room req d).
  - injection E as <-. unfold with_new. rewrite live_cons. destruct (Hnew (d_len d)) as [E1 E2]. destruct (Hnew (d_len d - dsize (d_name d))) as [E3 E4].
    destruct (Z.eqb_spec (d_ino d) 0) as [Hz|Hz]; cbn [app].
    + exists [], (live es). rewrite live_cons, E1, E2, (proj2 (Z.eqb_neq _ _) Hne). done.
    + exists [(d_name d, d_ino d)], (live es). rewrite !live_cons, E3, E4. cbn [d_ino d_name]. by rewrite (proj2 (Z.eqb_neq _ _) Hz), (proj2 (Z.eqb_neq _ _) Hne).
  - destruct (place req new es) as [es1|] eqn:Ep; [|done]. injection E as <-. destruct (IH es1 eq_refl) as (l1 & l2 & H1 & H2).
    exists ((if d_ino d =? 0 then [] else [(d_name d, d_ino d)]) ++ l1), l2. rewrite !live_cons, H1, H2. by rewrite <- !app_assoc.
Qed.

Lemma removed_live pre d post : live (removed pre d post) = live pre ++ live post.
Proof.
  unfold removed. destruct (reverse pre) as [|p r] eqn:Er; apply (f_equal reverse) in Er; rewrite reverse_involutive in Er.
  - cbn in Er. subst pre. by rewrite live_cons.
  - rewrite Er, reverse_cons, !dlive_app, !live_cons. cbn [set_dlen d_ino d_name]. change (live []) with (@nil (list Z * Z)). rewrite app_nil_r. by rewrite <- app_assoc.
Qed.

Lemma no_name_live name es : Forall (fun d => has_name name d = false) es <-> forall ino, (name, ino) ∉ live es.
Proof.
  rewrite Forall_forall. unfold live, has_name. split.
  - intros H ino Hin. apply list_elem_of_fmap in Hin as (d & [= -> ->] & [Hne Hd]%list_elem_of_filter). specialize (H d Hd). cbn in H.
    rewrite (proj2 (Z.eqb_neq _ _) Hne), bool_decide_eq_true_2 in H; done.
  - intros H d Hd. apply not_true_is_false. intros [Hne%negb_true_iff%Z.eqb_neq He%bool_decide_eq_true]%andb_true_iff. apply (H (d_ino d)).
    apply list_elem_of_fmap. exists d. split; [by rewrite He|]. by apply list_elem_of_filter.
Qed.

