(* ===== verification/Ext4Hash.v ===== *)
(** * Name hashes of lwext4

    [secure_daemon/src/fs/lwext4/ext4_hash.c]: the hash functions of the
    directory index (the original one, half MD4 and TEA), computed in 32 bits.
    They are shown equal to reference definitions: the rounds by their tables,
    the words of a name in closed form.  A hash is even and never the
    end-of-directory mark. *)

From S2P Require Import Prelude Ext4Extent.

Notation word4 := (Z * Z * Z * Z)%type (only parsing).

(** ** Half MD4 *)

Definition F (x y z : Z) : Z := Z.lor (Z.land x y) (Z.land (Z.lnot x) z).
Definition G (x y z : Z) : Z := Z.lor (Z.lor (Z.land x y) (Z.land x z)) (Z.land y z).
Definition H (x y z : Z) : Z := Z.lxor (Z.lxor x y) z.
Definition ROTATE_LEFT (x n : Z) : Z := Z.lor (u32 (Z.shiftl x n)) (Z.shiftr x (32 - n)).

Definition FF (a b c d x s : Z) : Z := ROTATE_LEFT (u32 (a + (F b c d + x))) s.
Definition GG (a b c d x s : Z) : Z := ROTATE_LEFT (u32 (a + (G b c d + x + 1518500249))) s.
Definition HH (a b c d x s : Z) : Z := ROTATE_LEFT (u32 (a + (H b c d + x + 1859775393))) s.

(** The rounds of [ext2_half_md4] on the registers [a], [b], [c], [d]. *)
Definition half_md4_round1 (regs : word4) (x : nat -> Z) : word4 :=
  let '(a, b, c, d) := regs in
  let a := FF a b c d (x 0%nat) 3 in
  let d := FF d a b c (x 1%nat) 7 in
  let c := FF c d a b (x 2%nat) 11 in
  let b := FF b c d a (x 3%nat) 19 in
  let a := FF a b c d (x 4%nat) 3 in
  let d := FF d a b c (x 5%nat) 7 in
  let c := FF c d a b (x 6%nat) 11 in
  let b := FF b c d a (x 7%nat) 19 in
  (a, b, c, d).

Definition half_md4_round2 (regs : word4) (x : nat -> Z) : word4 :=
  let '(a, b, c, d) := regs in
  let a := GG a b c d (x 1%nat) 3 in
  let d := GG d a b c (x 3%nat) 5 in
  let c := GG c d a b (x 5%nat) 9 in
  let b := GG b c d a (x 7%nat) 13 in
  let a := GG a b c d (x 0%nat) 3 in
  let d := GG d a b c (x 2%nat) 5 in
  let c := GG c d a b (x 4%nat) 9 in
  let b := GG b c d a (x 6%nat) 13 in
  (a, b, c, d).

Definition half_md4_round3 (regs : word4) (x : nat -> Z) : word4 :=
  let '(a, b, c, d) := regs in
  let a := HH a b c d (x 3%nat) 3 in
  let d := HH d a b c (x 7%nat) 9 in
  let c := HH c d a b (x 2%nat) 11 in
  let b := HH b c d a (x 6%nat) 15 in
  let a := HH a b c d (x 1%nat) 3 in
  let d := HH d a b c (x 5%nat) 9 in
  let c := HH c d a b (x 0%nat) 11 in
  let b := HH b c d a (x 4%nat) 15 in
  (a, b, c, d).

Definition ext2_half_md4 (hash : word4) (data : list Z) : word4 :=
  let '(h0, h1, h2, h3) := hash in
  let x i := nth i data 0 in
  let '(a, b, c, d) := half_md4_round3 (half_md4_round2 (half_md4_round1 hash x) x) x in
  (u32 (h0 + a), u32 (h1 + b), u32 (h2 + c), u32 (h3 + d)).

(** ** TEA *)

Fixpoint tea_rounds (n : nat) (i x y : Z) (data : list Z) : Z * Z :=
  match n with
  | O => (x, y)
  | S n =>
      let sum := u32 (i * 2654435769) in
      let mix v k0 k1 := Z.lxor (Z.lxor (u32 (u32 (Z.shiftl v 4) + nth k0 data 0)) (u32 (v + sum))) (u32 (Z.shiftr v 5 + nth k1 data 0)) in
      let x := u32 (x + mix y 0%nat 1%nat) in
      let y := u32 (y + mix x 2%nat 3%nat) in
      tea_rounds n (i + 1) x y data
  end.

Definition ext2_tea (hash : word4) (data : list Z) : word4 :=
  let '(h0, h1, h2, h3) := hash in
  let (x, y) := tea_rounds 16 1 h0 h1 data in
  (u32 (h0 + x), u32 (h1 + y), h2, h3).

(** ** The original hash *)

(** A byte as [signed char] or [unsigned char]. *)
Definition char_val (unsigned_char : bool) (c : Z) : Z := if unsigned_char then c else if c <? 128 then c else c - 256.

Fixpoint legacy_loop (name : list Z) (unsigned_char : bool) (h1 h2 : Z) : Z :=
  match name with
  | [] => h1
  | c :: name =>
      let h0 := u32 (h2 + Z.lxor h1 (u32 (char_val unsigned_char c * 7152373))) in
      let h0 := if negb (Z.land h0 2147483648 =? 0) then u32 (h0 - 2147483647) else h0 in
      legacy_loop name unsigned_char h0 h1
  end.

Definition ext2_legacy_hash (name : list Z) (unsigned_char : bool) : Z :=
  u32 (Z.shiftl (legacy_loop name unsigned_char 312737325 934013177) 1).

(** ** Words of the name *)

(** [for (i = 0; i < len; i++)]: the words written, what is left of [dlen], and
    the word begun. *)
Fixpoint prep_loop (src : list Z) (len : nat) (i : Z) (unsigned_char : bool) (padding buf_val dlen : Z) : list Z * Z * Z :=
  match len, src with
  | S len, c :: src =>
      let buf_val := if i mod 4 =? 0 then padding else buf_val in
      let buf_val := u32 (u32 (Z.shiftl buf_val 8) + char_val unsigned_char c) in
      if i mod 4 =? 3 then
        let '(ws, dlen, v) := prep_loop src len (i + 1) unsigned_char padding padding (dlen - 4) in (buf_val :: ws, dlen, v)
      else prep_loop src len (i + 1) unsigned_char padding buf_val dlen
  | _, _ => ([], dlen, buf_val)
  end.

(** [while (dlen >= 0)] *)
Fixpoint prep_pad (fuel : nat) (padding dlen : Z) : list Z :=
  match fuel with
  | O => []
  | S fuel => if 0 <=? dlen then padding :: prep_pad fuel padding (dlen - 4) else []
  end.

(** The words written to [dst]; [src] is the rest of the name. *)
Definition ext2_prep_hashbuf (src : list Z) (dlen : Z) (unsigned_char : bool) : list Z :=
  let slen := Z.of_nat (length src) in
  let padding := u32 (Z.lor (Z.lor (Z.lor slen (Z.shiftl slen 8)) (Z.shiftl slen 16)) (Z.shiftl slen 24)) in
  let len := if dlen <? slen then dlen else slen in
  let '(ws, dlen', buf_val) := prep_loop src (Z.to_nat len) 0 unsigned_char padding padding dlen in
  let dlen' := dlen' - 4 in
  ws ++ (if 0 <=? dlen' then [buf_val] else []) ++ prep_pad (Z.to_nat dlen) padding (dlen' - 4).

(** ** The hash of a name *)

Definition ENOTSUP : Z := 95.
Definition EXT2_HTREE_EOF : Z := 2147483647.

(** [while (len > 0)], [step] bytes at a time.  Fuel: the length. *)
Fixpoint hash_loop (fuel : nat) (mix : word4 -> list Z -> word4) (step : Z) (name : list Z) (unsigned_char : bool) (hash : word4) : word4 :=
  match fuel, name with
  | S fuel, _ :: _ =>
      let hash := mix hash (ext2_prep_hashbuf name step unsigned_char) in
      hash_loop fuel mix step (drop (Z.to_nat step) name) unsigned_char hash
  | _, _ => hash
  end.

Definition word4_1 (w : word4) : Z := let '(_, x, _, _) := w in x.
Definition word4_0 (w : word4) : Z := let '(x, _, _, _) := w in x.

(** [ext2_htree_hash]: the error code or the major hash. *)
Definition ext2_htree_hash (name : list Z) (hash_seed : option word4) (hash_version : Z) : Z + Z :=
  let len := Z.of_nat (length name) in
  if (len <? 1) || (255 <? len) then inl ENOTSUP
  else
    let hash := default (1732584193, 4023233417, 2562383102, 271733878) hash_seed in
    let major :=
      if hash_version =? 5 then Some (word4_0 (hash_loop (length name) ext2_tea 16 name true hash))
      else if hash_version =? 2 then Some (word4_0 (hash_loop (length name) ext2_tea 16 name false hash))
      else if hash_version =? 3 then Some (ext2_legacy_hash name true)
      else if hash_version =? 0 then Some (ext2_legacy_hash name false)
      else if hash_version =? 4 then Some (word4_1 (hash_loop (length name) ext2_half_md4 32 name true hash))
      else if hash_version =? 1 then Some (word4_1 (hash_loop (length name) ext2_half_md4 32 name false hash))
      else None in
    match major with
    | None => inl ENOTSUP
    | Some major =>
        let major := Z.land major 4294967294 in
        inr (if major =? Z.shiftl EXT2_HTREE_EOF 1 then Z.shiftl (EXT2_HTREE_EOF - 1) 1 else major)
    end.

(** ** Bounds *)

Lemma land_even_mask x : Z.even (Z.land x 4294967294) = true /\ 0 <= Z.land x 4294967294 < 4294967296.
Proof.
  split; [rewrite <- Z.negb_odd, <- Z.bit0_odd, Z.land_spec; by rewrite andb_false_r|]. split; [apply Z.land_nonneg; lia|].
  assert (Z.land x 4294967294 = Z.land (Z.land x 4294967294) (Z.ones 32)) as -> by (rewrite <- Z.land_assoc; done).
  rewrite Z.land_ones by lia. apply Z.mod_pos_bound. lia.
Qed.

(** A hash is even and below the end mark. *)
Lemma htree_hash_ok name seed version : 1 <= Z.of_nat (length name) <= 255 -> 0 <= version <= 5 ->
  exists h, ext2_htree_hash name seed version = inr h /\ Z.even h = true /\ 0 <= h < 2 * EXT2_HTREE_EOF.
Proof.
  intros Hn Hv. unfold ext2_htree_hash. rewrite (proj2 (Z.ltb_ge _ 1)), (proj2 (Z.ltb_ge 255 _)) by lia. cbn [orb].
  set (m := if version =? 5 then _ else _).
  assert (exists major, m = Some major) as [major ->]. { subst m. repeat match goal with |- context [version =? ?k] => destruct (Z.eqb_spec version k); [by eexists|] end. lia. }
  eexists. split; [done|]. pose proof (land_even_mask major) as [H1 H2]. destruct (Z.eqb_spec (Z.land major 4294967294) (Z.shiftl EXT2_HTREE_EOF 1)) as [E|E]; [done|].
  unfold EXT2_HTREE_EOF in *. change (Z.shiftl 2147483647 1) with 4294967294 in E. split; [done|]. apply Z.even_spec in H1 as [q Hq]. lia.
Qed.

(** ** Reference definitions *)

(** Rotation of a word. *)
Definition rotl32 (x n : Z) : Z := x * 2 ^ n mod 2 ^ 32 + x / 2 ^ (32 - n).

(** A round of half MD4: [f], the constant, the shifts and the order of the
    words.  Each step changes one register; the registers take turns. *)
Definition md4_step (f : Z -> Z -> Z -> Z) (k : Z) (r : word4) (xs : Z * Z) : word4 :=
  let '(a, b, c, d) := r in (d, rotl32 ((a + f b c d + xs.1 + k) mod 2 ^ 32) xs.2, b, c).
Definition md4_round (f : Z -> Z -> Z -> Z) (k : Z) (shifts : list Z) (order : list nat) (data : list Z) (r : word4) : word4 :=
  foldl (md4_step f k) r (zip ((fun i => nth i data 0) <$> order) (shifts ++ shifts)).
Definition add4 (r r' : word4) : word4 :=
  let '(a, b, c, d) := r in let '(a', b', c', d') := r' in
  ((a + a') mod 2 ^ 32, (b + b') mod 2 ^ 32, (c + c') mod 2 ^ 32, (d + d') mod 2 ^ 32).
Definition half_md4_ref (r : word4) (data : list Z) : word4 :=
  add4 r (md4_round H 0x6ED9EBA1 [3; 9; 11; 15] [3; 7; 2; 6; 1; 5; 0; 4]%nat data
         (md4_round G 0x5A827999 [3; 5; 9; 13] [1; 3; 5; 7; 0; 2; 4; 6]%nat data
         (md4_round F 0 [3; 7; 11; 19] [0; 1; 2; 3; 4; 5; 6; 7]%nat data r))).

(** TEA with 16 cycles: the key is the first four words, the text the first two
    registers. *)
Definition tea_half (k0 k1 sum v w : Z) : Z :=
  (v + Z.lxor (Z.lxor ((16 * w + k0) mod 2 ^ 32) ((w + sum) mod 2 ^ 32)) ((w / 32 + k1) mod 2 ^ 32)) mod 2 ^ 32.
Definition tea_cycle (data : list Z) (xy : Z * Z) (i : Z) : Z * Z :=
  let sum := i * 0x9E3779B9 in
  let k j := nth j data 0 in
  let x := tea_half (k 0%nat) (k 1%nat) sum xy.1 xy.2 in
  (x, tea_half (k 2%nat) (k 3%nat) sum xy.2 x).
Definition tea_ref (r : word4) (data : list Z) : word4 :=
  let '(a, b, c, d) := r in
  let xy := foldl (tea_cycle data) (a, b) (seqz 1 16) in
  ((a + xy.1) mod 2 ^ 32, (b + xy.2) mod 2 ^ 32, c, d).

(** The [k]-th word of the rest of a name: its bytes, the first one highest,
    behind the length repeated in every byte. *)
Definition name_word (uns : bool) (src : list Z) (k : nat) : Z :=
  foldl (fun v c => v * 256 + char_val uns c) (Z.of_nat (length src) * 0x01010101) (take 4 (drop (4 * k) src)) mod 2 ^ 32.

(** All parts of [n] words of a name, in order. *)
Definition parts_ref (mix : word4 -> list Z -> word4) (n : nat) (uns : bool) (name : list Z) (r : word4) : word4 :=
  foldl (fun r j => let src := drop (4 * n * j) name in mix r (name_word uns src <$> seq 0 n)) r
    (seq 0 (Z.to_nat ((Z.of_nat (length name) + 4 * Z.of_nat n - 1) / (4 * Z.of_nat n)))).

(** The original hash: two words, the newer one reduced to 31 bits. *)
Definition legacy_ref (uns : bool) (name : list Z) : Z :=
  let h := foldl (fun '(h1, h2) c =>
      let h := (h2 + Z.lxor h1 (char_val uns c * 0x6D22F5 mod 2 ^ 32)) mod 2 ^ 32 in
      (if h <? 2 ^ 31 then h else (h - (2 ^ 31 - 1)) mod 2 ^ 32, h1)) (0x12A3FE2D, 0x37ABE8F9) name in
  2 * h.1 mod 2 ^ 32.

(** The major hash before it is made even. *)
Definition major_ref (name : list Z) (seed : option word4) (version : Z) : Z :=
  let r := default (0x67452301, 0xEFCDAB89, 0x98BADCFE, 0x10325476) seed in
  let uns := 3 <=? version in
  match version mod 3 with
  | 0 => legacy_ref uns name
  | 1 => word4_1 (parts_ref half_md4_ref 8 uns name r)
  | _ => word4_0 (parts_ref tea_ref 4 uns name r)
  end.

Definition htree_ref (name : list Z) (seed : option word4) (version : Z) : option Z :=
  if (1 <=? length name)%nat && (length name <=? 255)%nat && (0 <=? version) && (version <=? 5)
  then Some (Z.min (2 * (major_ref name seed version / 2)) (2 ^ 32 - 4)) else None.

(** ** Equivalence *)

Lemma rotate_left_ref x n : 0 <= n <= 32 -> 0 <= x < U32_MOD -> ROTATE_LEFT x n = rotl32 x n.
Proof.
  intros Hn Hx. unfold ROTATE_LEFT, rotl32, u32. rewrite Z.shiftl_mul_pow2, Z.shiftr_div_pow2 by lia.
  change U32_MOD with (2 ^ 32) in *. rewrite <- Z.lxor_lor, <- Z.add_nocarry_lxor; [done|..];
    (assert (x * 2 ^ n mod 2 ^ 32 = (x mod 2 ^ (32 - n)) * 2 ^ n) as ->
      by (replace (2 ^ 32) with (2 ^ (32 - n) * 2 ^ n) by (rewrite <- Z.pow_add_r by lia; f_equal; lia);
          rewrite Z.mul_mod_distr_r by lia; done));
    apply Z.bits_inj'; intros i Hi; rewrite Z.land_spec, Z.bits_0, <- Z.shiftr_div_pow2, Z.shiftr_spec by lia;
    (destruct (Z.ltb_spec i n); [by rewrite Z.mul_pow2_bits_low by lia|]);
    rewrite (Z.bits_above_log2 x (i + (32 - n))), andb_false_r; try done; try lia;
    (destruct (Z.eq_dec x 0) as [->|]; [change (Z.log2 0) with 0; lia|apply Z.log2_lt_pow2; [lia|]]);
    (eapply Z.lt_le_trans; [apply Hx|apply Z.pow_le_mono_r; lia]).
Qed.

Lemma rotate_sum y s : 0 <= s <= 32 -> ROTATE_LEFT (u32 y) s = rotl32 (y mod 2 ^ 32) s.
Proof. intros Hs. apply rotate_left_ref; [done|apply u32_range]. Qed.

Lemma md4_step_F a b c d x s : 0 <= s <= 32 -> md4_step F 0 (a, b, c, d) (x, s) = (d, FF a b c d x s, b, c).
Proof. intros Hs. unfold md4_step, FF. rewrite rotate_sum by done. cbn [fst snd]. do 5 f_equal. lia. Qed.
Lemma md4_step_G a b c d x s : 0 <= s <= 32 -> md4_step G 0x5A827999 (a, b, c, d) (x, s) = (d, GG a b c d x s, b, c).
Proof. intros Hs. unfold md4_step, GG. rewrite rotate_sum by done. cbn [fst snd]. do 5 f_equal. lia. Qed.
Lemma md4_step_H a b c d x s : 0 <= s <= 32 -> md4_step H 0x6ED9EBA1 (a, b, c, d) (x, s) = (d, HH a b c d x s, b, c).
Proof. intros Hs. unfold md4_step, HH. rewrite rotate_sum by done. cbn [fst snd]. do 5 f_equal. lia. Qed.

Lemma half_md4_ok r data : ext2_half_md4 r data = half_md4_ref r data.
Proof.
  assert (forall r, half_md4_round1 r (fun i => nth i data 0) = md4_round F 0 [3; 7; 11; 19] [0; 1; 2; 3; 4; 5; 6; 7]%nat data r) as E1.
  { intros [[[a b] c] d]. unfold md4_round. cbn [zip zip_with fmap list_fmap app foldl]. by do 8 rewrite md4_step_F by lia. }
  assert (forall r, half_md4_round2 r (fun i => nth i data 0) = md4_round G 0x5A827999 [3; 5; 9; 13] [1; 3; 5; 7; 0; 2; 4; 6]%nat data r) as E2.
  { intros [[[a b] c] d]. unfold md4_round. cbn [zip zip_with fmap list_fmap app foldl]. by do 8 rewrite md4_step_G by lia. }
  assert (forall r, half_md4_round3 r (fun i => nth i data 0) = md4_round H 0x6ED9EBA1 [3; 9; 11; 15] [3; 7; 2; 6; 1; 5; 0; 4]%nat data r) as E3.
  { intros [[[a b] c] d]. unfold md4_round. cbn [zip zip_with fmap list_fmap app foldl]. by do 8 rewrite md4_step_H by lia. }
  unfold ext2_half_md4, half_md4_ref. rewrite E1, E2, E3. destruct r as [[[h0 h1] h2] h3]. cbv zeta.
  by destruct (md4_round H _ _ _ data _) as [[[a b] c] d].
Qed.

Lemma tea_ok r data : ext2_tea r data = tea_ref r data.
Proof.
  destruct r as [[[a b] c] d]. unfold ext2_tea, tea_ref. change (seqz 1 16) with (seqz 1 (Z.of_nat 16)).
  assert (forall n i x y, tea_rounds n i x y data = foldl (tea_cycle data) (x, y) (seqz i (Z.of_nat n))) as E.
  { induction n as [|n IH]; intros i x y; [done|]. rewrite seqz_cons by lia. cbn [tea_rounds foldl]. rewrite IH.
    replace (Z.of_nat (S n) - 1) with (Z.of_nat n) by lia. f_equal. unfold tea_cycle, tea_half. cbn [fst snd].
    assert (forall v w k0 k1, u32 (v + Z.lxor (Z.lxor (u32 (u32 (Z.shiftl w 4) + k0)) (u32 (w + u32 (i * 2654435769)))) (u32 (Z.shiftr w 5 + k1))) =
      (v + Z.lxor (Z.lxor ((16 * w + k0) mod 2 ^ 32) ((w + i * 0x9E3779B9) mod 2 ^ 32)) ((w / 32 + k1) mod 2 ^ 32)) mod 2 ^ 32) as Em.
    { intros v w k0 k1. unfold u32. change U32_MOD with (2 ^ 32). rewrite Z.shiftl_mul_pow2, Z.shiftr_div_pow2 by lia.
      rewrite Zplus_mod_idemp_l, Zplus_mod_idemp_r. change (2 ^ 4) with 16. change (2 ^ 5) with 32. by rewrite (Z.mul_comm w 16). }
    by rewrite !Em. }
  rewrite E. by destruct (foldl _ _ _).
Qed.

Lemma legacy_ok name uns : ext2_legacy_hash name uns = legacy_ref uns name.
Proof.
  unfold ext2_legacy_hash, legacy_ref. rewrite Z.shiftl_mul_pow2, Z.mul_comm by lia. change (2 ^ 1) with 2.
  change (u32 ?x) with (x mod 2 ^ 32). do 2 f_equal.
  generalize 0x12A3FE2D 0x37ABE8F9. induction name as [|c name IH]; intros h1 h2; [done|]. cbn [legacy_loop foldl].
  rewrite <- IH. f_equal. unfold u32. change U32_MOD with (2 ^ 32). set (h := (h2 + _) mod 2 ^ 32).
  assert (0 <= h < 2 ^ 32) as Hh by (apply Z.mod_pos_bound; lia). clearbody h. change 2147483648 with (2 ^ 31).
  destruct (Z.ltb_spec h (2 ^ 31)) as [Hl|Hl].
  - assert (Z.land h (2 ^ 31) = 0) as ->; [|done]. apply Z.bits_inj'. intros i Hi. rewrite Z.land_spec, Z.pow2_bits_eqb, Z.bits_0 by lia.
    destruct (Z.eqb_spec 31 i) as [<-|]; [|apply andb_false_r]. rewrite Z.bits_above_log2; [done|lia|].
    destruct (Z.eq_dec h 0) as [->|]; [done|]. apply Z.log2_lt_pow2; lia.
  - destruct (Z.eqb_spec (Z.land h (2 ^ 31)) 0) as [E|E]; [|done]. exfalso.
    assert (Z.testbit (Z.land h (2 ^ 31)) 31 = false) as Hb by (by rewrite E, Z.bits_0).
    rewrite Z.land_spec, Z.pow2_bits_true, andb_true_r, Z.testbit_odd, Z.shiftr_div_pow2 in Hb by lia.
    assert (h / 2 ^ 31 = 1) as Eh by (Z.div_mod_to_equations; lia). by rewrite Eh in Hb.
Qed.

(** *** The words of a name *)

Definition word_val (uns : bool) (v : Z) (bs : list Z) : Z := foldl (fun v c => v * 256 + char_val uns c) v bs.

Lemma word_val_mod uns bs : forall v, word_val uns (u32 v) bs mod 2 ^ 32 = word_val uns v bs mod 2 ^ 32.
Proof.
  unfold word_val. induction bs as [|c bs IH]; intros v; cbn [foldl].
  - unfold u32. change U32_MOD with (2 ^ 32). apply Zmod_mod.
  - rewrite <- (IH (v * 256 + _)), <- (IH (u32 v * 256 + _)). do 2 f_equal. unfold u32.
    rewrite <- Zplus_mod_idemp_l, Zmult_mod_idemp_l, Zplus_mod_idemp_l. done.
Qed.

Lemma word_val_snoc uns v bs c : word_val uns v (bs ++ [c]) = word_val uns v bs * 256 + char_val uns c.
Proof. unfold word_val. by rewrite foldl_app. Qed.

(** The loop inside a word: [bs] are its bytes so far, four bytes end it. *)
Lemma prep_loop_ok uns padding len : forall src bs buf_val dlen i,
  (len <= length src)%nat -> (length bs < 4)%nat -> i mod 4 = Z.of_nat (length bs) -> 0 <= i ->
  buf_val = word_val uns padding bs mod 2 ^ 32 -> padding = padding mod 2 ^ 32 ->
  let bytes := bs ++ take len src in
  let q := (length bytes / 4)%nat in
  prep_loop src len i uns padding buf_val dlen =
    ((fun k => word_val uns padding (take 4 (drop (4 * k) bytes)) mod 2 ^ 32) <$> seq 0 q, dlen - 4 * Z.of_nat q,
     word_val uns padding (drop (4 * q) bytes) mod 2 ^ 32).
Proof.
  induction len as [|len IH]; intros src bs buf_val dlen i Hlen Hbs Hi Hi0 -> Hpad; cbn zeta.
  { rewrite take_0, app_nil_r. rewrite (Nat.div_small (length bs) 4) by done. cbn [seq fmap list_fmap]. rewrite drop_0, Z.sub_0_r. by destruct src. }
  destruct src as [|c src]; [cbn in Hlen; lia|]. cbn [prep_loop take]. cbn [length] in Hlen.
  assert (u32 (u32 (Z.shiftl (if i mod 4 =? 0 then padding else word_val uns padding bs mod 2 ^ 32) 8) + char_val uns c) =
    word_val uns padding (bs ++ [c]) mod 2 ^ 32) as ->.
  { assert ((if i mod 4 =? 0 then padding else word_val uns padding bs mod 2 ^ 32) = word_val uns padding bs mod 2 ^ 32) as ->.
    { destruct (Z.eqb_spec (i mod 4) 0); [|done]. destruct bs; [done|cbn in *; lia]. }
    rewrite word_val_snoc, Z.shiftl_mul_pow2 by lia. change (2 ^ 8) with 256. unfold u32. change U32_MOD with (2 ^ 32).
    rewrite Zplus_mod_idemp_l, <- Zplus_mod_idemp_l, Zmult_mod_idemp_l, Zplus_mod_idemp_l. done. }
  replace (bs ++ c :: take len src) with ((bs ++ [c]) ++ take len src) by (by rewrite <- (assoc_L (++))).
  destruct (Z.eqb_spec (i mod 4) 3) as [E3|E3].
  - assert (length (bs ++ [c]) = 4%nat) as E4 by (rewrite length_app; cbn; lia).
    rewrite (IH src [] padding (dlen - 4) (i + 1)); [|lia|cbn; lia|cbn; Z.div_mod_to_equations; lia|lia|done|done]. cbn zeta. cbn [app].
    set (w := bs ++ [c]) in *. set (b' := take len src). rewrite length_app, E4.
    replace (4 + length b')%nat with (length b' + 1 * 4)%nat by lia. rewrite Nat.div_add by lia. set (q := (length b' / 4)%nat).
    replace (q + 1)%nat with (S q) by lia. cbn [seq]. rewrite fmap_cons, <- fmap_S_seq, <- list_fmap_compose.
    assert (forall k, drop (4 * S k) (w ++ b') = drop (4 * k) b') as Ed.
    { intros k. rewrite drop_app_ge by lia. f_equal. lia. }
    f_equal; [f_equal; [f_equal|lia]|by rewrite Ed].
    + rewrite drop_0, take_app_le, take_ge by lia. done.
    + apply list_fmap_ext. intros k x _. cbn [compose]. by rewrite Ed.
  - rewrite (IH src (bs ++ [c]) _ dlen (i + 1)); [done|lia|rewrite length_app; cbn; lia| |lia|done|done].
    rewrite length_app. cbn [length]. Z.div_mod_to_equations. lia.
Qed.

(** The length in every byte of the padding. *)
Lemma padding_ok n : 0 <= n <= 255 -> u32 (Z.lor (Z.lor (Z.lor n (Z.shiftl n 8)) (Z.shiftl n 16)) (Z.shiftl n 24)) = n * 0x01010101.
Proof.
  intros Hn. assert (forall x k, 0 <= x < 2 ^ k -> 0 < k -> Z.lor x (Z.shiftl n k) = x + n * 2 ^ k) as Hl.
  { intros x k Hx Hk. rewrite Z.shiftl_mul_pow2 by lia. rewrite <- Z.lxor_lor, <- Z.add_nocarry_lxor; [done|..];
      apply Z.bits_inj'; intros i Hi; rewrite Z.land_spec, Z.bits_0; (destruct (Z.ltb_spec i k); [by rewrite Z.mul_pow2_bits_low, andb_false_r by lia|]);
      (rewrite Z.bits_above_log2; [done|lia|]); (destruct (Z.eq_dec x 0) as [->|]; [cbn; lia|apply Z.log2_lt_pow2; [lia|]]);
      (eapply Z.lt_le_trans; [apply Hx|apply Z.pow_le_mono_r; lia]). }
  change (2 ^ 8) with 256 in *. rewrite (Hl n 8) by lia. rewrite (Hl _ 16) by lia. rewrite (Hl _ 24) by lia. rewrite u32_id; lia.
Qed.

Lemma prep_pad_ok fuel padding : forall dlen, dlen <= Z.of_nat fuel -> fuel <> 0%nat -> prep_pad fuel padding dlen = replicate (Z.to_nat (dlen / 4 + 1)) padding.
Proof.
  induction fuel as [|fuel IH]; intros dlen Hd Hf; [done|]. cbn [prep_pad]. destruct (Z.leb_spec 0 dlen).
  - assert (Z.to_nat (dlen / 4 + 1) = S (Z.to_nat ((dlen - 4) / 4 + 1))) as -> by (Z.div_mod_to_equations; lia). cbn [replicate]. f_equal.
    destruct fuel as [|fuel]; [|apply IH; lia]. cbn [prep_pad]. assert (Z.to_nat ((dlen - 4) / 4 + 1) = 0%nat) as -> by (Z.div_mod_to_equations; lia). done.
  - assert (Z.to_nat (dlen / 4 + 1) = 0%nat) as -> by (Z.div_mod_to_equations; lia). done.
Qed.

Lemma prep_hashbuf_ok src n uns : (0 < n)%nat -> (length src <= 255)%nat ->
  ext2_prep_hashbuf src (4 * Z.of_nat n) uns = name_word uns src <$> seq 0 n.
Proof.
  intros Hn Hs. unfold ext2_prep_hashbuf. rewrite padding_ok by lia. set (pad := Z.of_nat (length src) * 0x01010101).
  assert (pad = pad mod 2 ^ 32) as Hpad by (unfold pad; rewrite Z.mod_small; lia).
  set (len := Z.to_nat (if 4 * Z.of_nat n <? Z.of_nat (length src) then 4 * Z.of_nat n else Z.of_nat (length src))).
  assert (len = Nat.min (4 * n) (length src)) as El by (unfold len; destruct (Z.ltb_spec (4 * Z.of_nat n) (Z.of_nat (length src))); lia).
  rewrite (prep_loop_ok uns pad len src [] pad (4 * Z.of_nat n) 0); [|lia|cbn; lia|done|done|done|done]. cbn zeta. cbn [app].
  rewrite length_take. replace (Nat.min len (length src)) with len by lia. set (q := (len / 4)%nat).
  assert (4 * q <= len < 4 * q + 4)%nat as Hq by (unfold q; pose proof (Nat.div_mod_eq len 4); pose proof (Nat.mod_upper_bound len 4); lia).
  rewrite prep_pad_ok by lia. apply list_eq. intros k. rewrite list_lookup_fmap.
  assert (forall k, (k < q)%nat -> word_val uns pad (take 4 (drop (4 * k) (take len src))) mod 2 ^ 32 = name_word uns src k) as Hw.
  { intros k' Hk. unfold name_word, word_val. do 2 f_equal. replace len with (4 * k' + (len - 4 * k'))%nat by lia.
    rewrite <- take_drop_commute, take_take. f_equal. lia. }
  destruct (decide (k < n)%nat) as [Hk|Hk].
  2:{ rewrite (lookup_ge_None_2 (seq 0 n)) by (rewrite length_seq; lia). apply lookup_ge_None_2.
      rewrite !length_app, length_fmap, length_seq, length_replicate. destruct (Z.leb_spec 0 (4 * Z.of_nat n - 4 * Z.of_nat q - 4)); cbn [length]; Z.div_mod_to_equations; lia. }
  rewrite lookup_seq_lt by done. cbn [fmap option_fmap option_map]. rewrite Nat.add_0_l.
  destruct (decide (k < q)%nat) as [Hkq|Hkq].
  { rewrite lookup_app_l by (rewrite length_fmap, length_seq; lia). rewrite list_lookup_fmap, lookup_seq_lt by done. cbn. f_equal. by apply Hw. }
  rewrite lookup_app_r, length_fmap, length_seq by (rewrite length_fmap, length_seq; lia).
  rewrite (proj2 (Z.leb_le 0 (4 * Z.of_nat n - 4 * Z.of_nat q - 4))) by lia. destruct (decide (k = q)) as [->|Hne].
  - rewrite Nat.sub_diag. cbn [app lookup list_lookup]. f_equal. unfold name_word, word_val. fold pad. do 2 f_equal.
    destruct (decide (len = 4 * n)%nat) as [E4|E4]; [lia|]. rewrite (take_ge src) by lia. rewrite take_ge; [done|]. rewrite length_drop. lia.
  - rewrite lookup_app_r by (cbn [length]; lia). cbn [length]. rewrite lookup_replicate_2 by (Z.div_mod_to_equations; lia). f_equal.
    unfold name_word. rewrite (drop_ge src) by lia. exact Hpad.
Qed.

Lemma hash_loop_ok mix n uns : (0 < n)%nat -> forall fuel name r, (length name <= fuel)%nat -> (length name <= 255)%nat ->
  hash_loop fuel mix (4 * Z.of_nat n) name uns r = parts_ref mix n uns name r.
Proof.
  intros Hn. induction fuel as [|fuel IH]; intros name r Hf Hl.
  { destruct name; [|cbn in Hf; lia]. unfold parts_ref. cbn [length hash_loop].
    assert (Z.to_nat ((Z.of_nat 0 + 4 * Z.of_nat n - 1) / (4 * Z.of_nat n)) = 0%nat) as -> by (rewrite Z.div_small; lia). done. }
  destruct name as [|c name].
  { unfold parts_ref. cbn [length hash_loop].
    assert (Z.to_nat ((Z.of_nat 0 + 4 * Z.of_nat n - 1) / (4 * Z.of_nat n)) = 0%nat) as -> by (rewrite Z.div_small; lia). done. }
  cbn [hash_loop]. set (nm := c :: name) in *. assert (0 < length nm)%nat as Hp by (cbn; lia). clearbody nm. clear c name.
  rewrite IH, prep_hashbuf_ok by (done || rewrite length_drop; lia). unfold parts_ref. rewrite length_drop.
  replace (Z.to_nat (4 * Z.of_nat n)) with (4 * n)%nat by lia. set (L := length nm) in *.
  assert (Z.to_nat ((Z.of_nat L + 4 * Z.of_nat n - 1) / (4 * Z.of_nat n)) =
          S (Z.to_nat ((Z.of_nat (L - 4 * n) + 4 * Z.of_nat n - 1) / (4 * Z.of_nat n)))) as ->.
  { destruct (decide (L <= 4 * n)%nat).
    - replace (L - 4 * n)%nat with 0%nat by lia. rewrite (Z.div_small (Z.of_nat 0 + _ - 1)) by lia.
      replace (Z.of_nat L + 4 * Z.of_nat n - 1) with (Z.of_nat L - 1 + 1 * (4 * Z.of_nat n)) by lia. rewrite Z.div_add, Z.div_small by lia. done.
    - replace (Z.of_nat L + 4 * Z.of_nat n - 1) with (Z.of_nat (L - 4 * n) + 4 * Z.of_nat n - 1 + 1 * (4 * Z.of_nat n)) by lia.
      rewrite Z.div_add by lia. assert (0 <= (Z.of_nat (L - 4 * n) + 4 * Z.of_nat n - 1) / (4 * Z.of_nat n)) by (apply Z.div_pos; lia). lia. }
  cbn [seq foldl]. rewrite Nat.mul_0_r, drop_0. rewrite <- fmap_S_seq, foldl_fmap.
  match goal with |- foldl ?f _ _ = foldl ?g _ _ => enough (forall js a, foldl f a js = foldl g a js) by done end.
  induction js as [|j js IHl]; intros a; cbn [foldl]; [done|]. rewrite IHl. rewrite drop_drop. by replace (4 * n * S j)%nat with (4 * n + 4 * n * j)%nat by lia.
Qed.

(** The last mix of a name that is not empty. *)
Lemma parts_ref_last mix n uns name r (P : word4 -> Prop) : (0 < n)%nat -> (0 < length name)%nat ->
  (forall r data, P (mix r data)) -> P (parts_ref mix n uns name r).
Proof.
  intros Hn Hl HP. unfold parts_ref. set (k := Z.to_nat _).
  assert (k = S (Nat.pred k)) as ->.
  { assert (1 <= (Z.of_nat (length name) + 4 * Z.of_nat n - 1) / (4 * Z.of_nat n)) by (apply Z.div_le_lower_bound; lia). lia. }
  rewrite seq_S, foldl_app. apply HP.
Qed.

Lemma clip_ok m : 0 <= m < 2 ^ 32 ->
  (if Z.land m 4294967294 =? Z.shiftl EXT2_HTREE_EOF 1 then Z.shiftl (EXT2_HTREE_EOF - 1) 1 else Z.land m 4294967294) =
    Z.min (2 * (m / 2)) (2 ^ 32 - 4).
Proof.
  intros Hm. assert (Z.land m 4294967294 = 2 * (m / 2)) as ->.
  { change 4294967294 with (Z.shiftl (Z.ones 31) 1). change (m / 2) with (m / 2 ^ 1). rewrite <- Z.shiftr_div_pow2 by lia.
    apply Z.bits_inj'. intros i Hi. rewrite Z.land_spec, Z.shiftl_spec by lia. destruct (Z.eq_dec i 0) as [->|Hi0].
    - rewrite (Z.testbit_neg_r (Z.ones 31)), andb_false_r by lia. symmetry. apply Z.testbit_even_0.
    - replace i with (Z.succ (i - 1)) at 3 by lia. rewrite Z.testbit_even_succ, Z.shiftr_spec by lia. replace (i - 1 + 1) with i by lia.
      destruct (Z.ltb_spec (i - 1) 31).
      + by rewrite Z.ones_spec_low, andb_true_r by lia.
      + rewrite Z.ones_spec_high, andb_false_r by lia. symmetry. apply Z.bits_above_log2; [lia|].
        destruct (Z.eq_dec m 0) as [->|]; [cbn; lia|]. apply Z.log2_lt_pow2; [lia|]. eapply Z.lt_le_trans; [apply Hm|apply Z.pow_le_mono_r; lia]. }
  change (Z.shiftl EXT2_HTREE_EOF 1) with 4294967294. change (Z.shiftl (EXT2_HTREE_EOF - 1) 1) with 4294967292.
  destruct (Z.eqb_spec (2 * (m / 2)) 4294967294); Z.div_mod_to_equations; lia.
Qed.

Lemma parts_ref_ext mix mix' n uns name r : (forall r data, mix r data = mix' r data) -> parts_ref mix n uns name r = parts_ref mix' n uns name r.
Proof. intros Hm. unfold parts_ref. generalize (seq 0 (Z.to_nat ((Z.of_nat (length name) + 4 * Z.of_nat n - 1) / (4 * Z.of_nat n)))).
  intros l. revert r. induction l as [|j l IH]; intros r; [done|]. cbn [foldl]. rewrite Hm. apply IH.
Qed.

Lemma major_ref_range name seed version : (0 < length name)%nat -> 0 <= major_ref name seed version < 2 ^ 32.
Proof.
  intros Hl. unfold major_ref.
  assert (0 <= legacy_ref (3 <=? version) name < 2 ^ 32) by (apply Z.mod_pos_bound; lia).
  assert (forall r, 0 <= word4_1 (parts_ref half_md4_ref 8 (3 <=? version) name r) < 2 ^ 32).
  { intros r. apply (parts_ref_last _ _ _ _ _ (fun w => 0 <= word4_1 w < 2 ^ 32)); [lia|done|]. intros [[[a b] c] d] data.
    unfold half_md4_ref, add4. destruct (md4_round H _ _ _ data _) as [[[a' b'] c'] d']. apply Z.mod_pos_bound. lia. }
  assert (forall r, 0 <= word4_0 (parts_ref tea_ref 4 (3 <=? version) name r) < 2 ^ 32).
  { intros r. apply (parts_ref_last _ _ _ _ _ (fun w => 0 <= word4_0 w < 2 ^ 32)); [lia|done|]. intros [[[a b] c] d] data.
    apply Z.mod_pos_bound. lia. }
  destruct (version mod 3) as [|[| |]|]; done.
Qed.

(** C27: the hash of a name.  [ext2_htree_hash] computes the reference hash: for
    names of 1 to 255 bytes and the six versions, the legacy recurrence, or 16
    cycles of TEA or the three rounds of half MD4 given by their tables of
    shifts, orders and constants, over all parts of the name as words in which
    missing bytes are filled with the length; the result rounded down to an
    even number and kept below the end mark.  Every other length or version is
    refused. *)
Theorem htree_hash_correct name seed version :
  ext2_htree_hash name seed version = match htree_ref name seed version with Some h => inr h | None => inl ENOTSUP end /\
  forall h, htree_ref name seed version = Some h -> Z.even h = true /\ 0 <= h < 2 * EXT2_HTREE_EOF.
Proof.
  unfold htree_ref, ext2_htree_hash. cbv zeta.
  destruct (Nat.leb_spec 1 (length name)) as [H1|H1], (Nat.leb_spec (length name) 255) as [H2|H2]; cbn [andb];
    try (split; [|done]; destruct (Z.ltb_spec (Z.of_nat (length name)) 1), (Z.ltb_spec 255 (Z.of_nat (length name))); cbn [orb]; done || lia).
  pose proof (major_ref_range name seed version ltac:(lia)) as Hr.
  rewrite (proj2 (Z.ltb_ge _ 1)), (proj2 (Z.ltb_ge 255 _)) by lia. cbn [orb].
  set (r := default _ seed). set (m := if version =? 5 then _ else _).
  assert (m = if (0 <=? version) && (version <=? 5) then Some (major_ref name seed version) else None) as ->.
  { assert (forall uns, hash_loop (length name) ext2_tea 16 name uns r = parts_ref tea_ref 4 uns name r) as Ht.
    { intros uns. rewrite <- (parts_ref_ext ext2_tea tea_ref) by apply tea_ok. by apply (hash_loop_ok ext2_tea 4); lia. }
    assert (forall uns, hash_loop (length name) ext2_half_md4 32 name uns r = parts_ref half_md4_ref 8 uns name r) as Hm.
    { intros uns. rewrite <- (parts_ref_ext ext2_half_md4 half_md4_ref) by apply half_md4_ok. by apply (hash_loop_ok ext2_half_md4 8); lia. }
    unfold m, major_ref. fold r.
    repeat match goal with |- context [version =? ?k] => destruct (Z.eqb_spec version k) as [->|]; [cbn; rewrite ?Ht, ?Hm, ?legacy_ok; done|] end.
    destruct (Z.leb_spec 0 version), (Z.leb_spec version 5); cbn [andb]; done || lia. }
  destruct ((0 <=? version) && (version <=? 5)); [|done]. rewrite clip_ok by done. split; [done|]. intros h [= <-].
  set (mj := major_ref name seed version) in *. unfold EXT2_HTREE_EOF. split; [|Z.div_mod_to_equations; lia].
  destruct (Z.min_spec (2 * (mj / 2)) (2 ^ 32 - 4)) as [[_ ->]|[_ ->]]; [by rewrite Z.even_mul|done].
Qed.
