(* ===== verification/Ext4Htree.v ===== *)
(** * The directory index of lwext4

    [secure_daemon/src/fs/lwext4/ext4_dir_idx.c]: the blocks of a directory
    are numbered from 0.  Block 0 is the root of the index, which refers to
    blocks with entries or, on a second level, to further index blocks.  The
    entries of an index block are sorted by hash; the lowest bit of a hash says
    that names with the same hash continue from the block before.  The
    operations work on the bytes of the blocks. *)

From S2P Require Import Prelude Bio Sjd Ext4Extent Ext4Map Ext4Dir Ext4Hash.

Definition EXT4_ERR_BAD_DX_DIR : Z := -25000.
Definition ENOTDIR : Z := 20.

(** ** Index blocks *)

(** The fields of the root info and of an array of index entries at [eo], whose
    first hash field holds limit and count. *)
Definition rinfo_hash_version (b : block) : Z := rd 1 b 28.
Definition rinfo_indirect_levels (b : block) : Z := rd 1 b 30.
Definition rinfo_unused_flags (b : block) : Z := rd 1 b 31.

Definition climit_get_limit (b : block) (eo : Z) : Z := rd 2 b eo.
Definition climit_get_count (b : block) (eo : Z) : Z := rd 2 b (eo + 2).
Definition dx_entry_get_hash (b : block) (eo i : Z) : Z := rd 4 b (eo + 8 * i).
Definition dx_entry_get_block (b : block) (eo i : Z) : Z := rd 4 b (eo + 8 * i + 4).
Definition climit_set_limit (b : block) (eo x : Z) : block := wr 2 b eo x.
Definition climit_set_count (b : block) (eo x : Z) : block := wr 2 b (eo + 2) x.
Definition dx_entry_set_hash (b : block) (eo i x : Z) : block := wr 4 b (eo + 8 * i) x.
Definition dx_entry_set_block (b : block) (eo i x : Z) : block := wr 4 b (eo + 8 * i + 4) x.

(** Where the entries start in the root and in the other index blocks, and how
    many there are. *)
Definition root_en : Z := 32.
Definition node_en : Z := 8.
Definition root_limit : Z := (dir_block_size - 2 * 12 - 8) / 8.
Definition node_limit : Z := (dir_block_size - 8) / 8.

(** A position in an index block, [struct ext4_dir_idx_block]. *)
Record dx_block := mk_dxb { dxb_blk : Z; dxb_entries : Z; dxb_position : Z }.

(** [dx_blocks]: the root and the block of the second level. *)
Record dx_path := mk_dxp { dx0 : dx_block; dx1 : option dx_block }.
Definition dx_cur (p : dx_path) : dx_block := default (dx0 p) (dx1 p).

Section htree.
(** Hash seed and the flag for unsigned characters of the super block; errors
    of block reads; error and contents of a block appended to the directory;
    where the blocks of the directory are on disk; [qsort]. *)
Context (hash_seed : word4) (unsigned_hash : bool) (rc_read : Z -> Z) (append_rc : Z -> Z) (stale : Z -> block) (fblk : Z -> Z).

(** A name with its hash and length in the sort buffer, and the bytes of the entry. *)
Record sort_entry := mk_se { se_hash : Z; se_rec_len : Z; se_bytes : list Z }.
Context (qsort : list sort_entry -> list sort_entry).

(** A block of the directory; outside of it there is none. *)
Definition get_blk (d : list block) (iblk : Z) : Z + block :=
  if negb (rc_read iblk =? EOK) then inl (rc_read iblk)
  else match d !! Z.to_nat iblk with Some b => inr b | None => inl EINVAL end.

(** The block in memory. *)
Definition blk_data (d : list block) (iblk : Z) : block := default [] (d !! Z.to_nat iblk).

Definition set_blk (d : list block) (iblk : Z) (b : block) : list block := <[Z.to_nat iblk := b]> d.

(** ** Search *)

Definition hash_string (version : Z) (name : list Z) : Z + Z := ext2_htree_hash name (Some hash_seed) version.

(** [ext4_dir_hinfo_init]: the version and the hash of the name. *)
Definition hinfo_init (root : block) (name : list Z) : Z + (Z * Z) :=
  let v := rinfo_hash_version root in
  if negb (v =? 0) && negb (v =? 1) && negb (v =? 2) then inl EXT4_ERR_BAD_DX_DIR
  else if negb (rinfo_unused_flags root =? 0) then inl EXT4_ERR_BAD_DX_DIR
  else if 1 <? rinfo_indirect_levels root then inl EXT4_ERR_BAD_DX_DIR
  else if negb (climit_get_limit root root_en =? root_limit) then inl EXT4_ERR_BAD_DX_DIR
  else
    let v := if (v <=? 2) && unsigned_hash then v + 3 else v in
    match hash_string v name with inl e => inl e | inr h => inr (v, h) end.

(** The binary search in an index block: [while (p <= q)]. *)
Fixpoint dx_search (fuel : nat) (b : block) (eo hash p q : Z) : Z :=
  match fuel with
  | O => p - 1
  | S fuel =>
      if p <=? q then
        let m := p + (q - p) / 2 in
        if hash <? dx_entry_get_hash b eo m then dx_search fuel b eo hash p (m - 1) else dx_search fuel b eo hash (m + 1) q
      else p - 1
  end.

Definition dx_node_search (b : block) (eo limit hash : Z) : option Z :=
  let cnt := climit_get_count b eo in
  if (cnt =? 0) || (limit <? cnt) then None else Some (dx_search (Z.to_nat cnt) b eo hash 1 (cnt - 1)).

(** [ext4_dir_dx_get_leaf]; there are at most two levels. *)
Definition dx_get_leaf (d : list block) (root : block) (hash : Z) : Z + dx_path :=
  match dx_node_search root root_en (climit_get_limit root root_en) hash with
  | None => inl EXT4_ERR_BAD_DX_DIR
  | Some at0 =>
      if rinfo_indirect_levels root =? 0 then inr (mk_dxp (mk_dxb 0 root_en at0) None)
      else
        let n_blk := dx_entry_get_block root root_en at0 in
        match get_blk d n_blk with
        | inl r => inl r
        | inr b =>
            let limit := climit_get_limit b node_en in
            if negb (limit =? node_limit) then inl EXT4_ERR_BAD_DX_DIR
            else
              match dx_node_search b node_en limit hash with
              | None => inl EXT4_ERR_BAD_DX_DIR
              | Some at1 => inr (mk_dxp (mk_dxb 0 root_en at0) (Some (mk_dxb n_blk node_en at1)))
              end
        end
  end.

Definition dx_next (x : dx_block) : dx_block := mk_dxb (dxb_blk x) (dxb_entries x) (dxb_position x + 1).

(** The block of a position. *)
Definition dxb_data (d : list block) (x : dx_block) : block := blk_data d (dxb_blk x).

(** Whether the names with the hash go on at the position. *)
Definition dx_collision (d : list block) (hash : Z) (x : dx_block) : bool :=
  let current_hash := dx_entry_get_hash (dxb_data d x) (dxb_entries x) (dxb_position x) in
  negb (Z.land hash 1 =? 0) || (Z.land current_hash 4294967294 =? hash).

Definition dx_in_node (d : list block) (x : dx_block) : bool := dxb_position x <? climit_get_count (dxb_data d x) (dxb_entries x).

(** [ext4_dir_dx_next_block]: [ENOENT] if there is a block to search, with the
    path to it. *)
Definition dx_next_block (d : list block) (hash : Z) (p : dx_path) : Z * dx_path :=
  match dx1 p with
  | None =>
      let x := dx_next (dx0 p) in
      let p := mk_dxp x None in
      if negb (dx_in_node d x) then (EOK, p) else if negb (dx_collision d hash x) then (EOK, p) else (ENOENT, p)
  | Some n =>
      let n := dx_next n in
      if dx_in_node d n then
        let p := mk_dxp (dx0 p) (Some n) in
        if negb (dx_collision d hash n) then (EOK, p) else (ENOENT, p)
      else
        let x := dx_next (dx0 p) in
        let p := mk_dxp x (Some n) in
        if negb (dx_in_node d x) then (EOK, p)
        else if negb (dx_collision d hash x) then (EOK, p)
        else
          let blk := dx_entry_get_block (dxb_data d x) (dxb_entries x) (dxb_position x) in
          match get_blk d blk with
          | inl r => (r, p)
          | inr b => (ENOENT, mk_dxp x (Some (mk_dxb blk node_en 0)))
          end
  end.

Definition dx_leaf (d : list block) (p : dx_path) : Z :=
  let x := dx_cur p in dx_entry_get_block (dxb_data d x) (dxb_entries x) (dxb_position x).

(** [do .. while (rc == ENOENT)] of [ext4_dir_dx_find_entry].  Fuel: the blocks
    of the directory. *)
Fixpoint dx_find_loop (fuel : nat) (d : list block) (hash : Z) (name : list Z) (p : dx_path) : res (Z + Z * Z) :=
  match fuel with
  | O => Blocked
  | S fuel =>
      match get_blk d (dx_leaf d p) with
      | inl rc => Ok (inl rc)
      | inr b =>
          let* r := dir_find_in_block b name in
          match r with
          | inr o => Ok (inr (dx_leaf d p, o))
          | inl rc =>
              if negb (rc =? ENOENT) then Ok (inl rc)
              else
                let (rc, p) := dx_next_block d hash p in
                if rc <? 0 then Ok (inl rc) else if rc =? ENOENT then dx_find_loop fuel d hash name p else Ok (inl ENOENT)
          end
      end
  end.

(** [ext4_dir_dx_find_entry]: the block and the offset of the entry. *)
Definition dx_find_entry (d : list block) (name : list Z) : res (Z + Z * Z) :=
  match get_blk d 0 with
  | inl rc => Ok (inl rc)
  | inr root =>
      match hinfo_init root name with
      | inl _ => Ok (inl EXT4_ERR_BAD_DX_DIR)
      | inr (_, hash) =>
          match dx_get_leaf d root hash with
          | inl _ => Ok (inl EXT4_ERR_BAD_DX_DIR)
          | inr p => dx_find_loop (S (length d)) d hash name p
          end
      end
  end.

(** ** Changes of the index *)

(** [ext4_dir_dx_insert_entry]: a new entry behind the position. *)
Definition dx_insert_entry (d : list block) (x : dx_block) (hash iblock : Z) : list block :=
  let b := dxb_data d x in
  let eo := dxb_entries x in
  let new := dxb_position x + 1 in
  let count := climit_get_count b eo in
  let b := splice b (eo + 8 * (new + 1)) (slice b (eo + 8 * new) (8 * (count - new))) in
  let b := dx_entry_set_block b eo new iblock in
  let b := dx_entry_set_hash b eo new hash in
  set_blk d (dxb_blk x) (climit_set_count b eo (count + 1)).

(** A new block of the directory, or the error. *)
Definition append_dblk (d : list block) : Z + (list block * Z) :=
  let iblk := zlen d in
  if negb (append_rc iblk =? EOK) then inl (append_rc iblk) else inr (d ++ [stale iblk], iblk).

(** [ext4_dir_dx_split_index]: make room in the index block of the path. *)
Definition dx_split_index (d : list block) (p : dx_path) : Z * list block * dx_path :=
  let x := dx_cur p in
  let e := dxb_entries x in
  let leaf_limit := climit_get_limit (dxb_data d x) e in
  let leaf_count := climit_get_count (dxb_data d x) e in
  if negb (leaf_limit =? leaf_count) then (EOK, d, p)
  else
    let root := dxb_data d (dx0 p) in
    match dx1 p with
    | Some n =>
        if climit_get_limit root root_en =? climit_get_count root root_en then (ENOSPC, d, p)
        else
          match append_dblk d with
          | inl r => (r, d, p)
          | inr (d, new_iblk) =>
              let b := dxb_data d n in
              let new_node := splice (stale new_iblk) 0 [0; 0; 0; 0; 0; 16; 0; 0] in
              let count_left := leaf_count / 2 in
              let count_right := leaf_count - count_left in
              let hash_right := dx_entry_get_hash b e count_left in
              let new_node := splice new_node node_en (slice b (e + 8 * count_left) (8 * count_right)) in
              let b := climit_set_count b e count_left in
              let new_node := climit_set_count new_node node_en count_right in
              let new_node := climit_set_limit new_node node_en node_limit in
              let d := set_blk (set_blk d (dxb_blk n) b) new_iblk new_node in
              let n := if count_left <=? dxb_position n then mk_dxb new_iblk node_en (dxb_position n - count_left) else n in
              (EOK, dx_insert_entry d (dx0 p) hash_right new_iblk, mk_dxp (dx0 p) (Some n))
          end
    | None =>
        match append_dblk d with
        | inl r => (r, d, p)
        | inr (d, new_iblk) =>
            let new_node := splice (stale new_iblk) 0 [0; 0; 0; 0; 0; 16; 0; 0] in
            let new_node := splice new_node node_en (slice root e (8 * leaf_count)) in
            let new_node := climit_set_limit new_node node_en node_limit in
            let root := climit_set_count root e 1 in
            let root := dx_entry_set_block root e 0 new_iblk in
            let root := wr 1 root 30 1 in
            (EOK, set_blk (set_blk d 0 root) new_iblk new_node, mk_dxp (dx0 p) (Some (mk_dxb new_iblk node_en (dxb_position (dx0 p)))))
        end
    end.

(** ** Splitting a block of entries *)

(** Load all valid entries to the buffer. *)
Fixpoint dx_collect (fuel : nat) (version : Z) (b : block) (o : Z) : res (Z + list sort_entry) :=
  match fuel with
  | O => Blocked
  | S fuel =>
      if negb (o <? dir_block_size) then Ok (inr [])
      else
        let next := dx_collect fuel version b (o + en_get_entry_len b o) in
        if negb (en_get_inode b o =? 0) && negb (en_get_name_len b o =? 0) then
          let len := en_get_name_len b o in
          match hash_string version (slice b (o + 8) len) with
          | inl rc => Ok (inl rc)
          | inr hash =>
              let rec_len := 8 + len in
              let rec_len := if negb (rec_len mod 4 =? 0) then rec_len + (4 - rec_len mod 4) else rec_len in
              let* r := next in
              match r with inl rc => Ok (inl rc) | inr es => Ok (inr (mk_se hash rec_len (slice b o rec_len) :: es)) end
          end
        else next
  end.

(** The entries up to the middle, by size: their number and the next hash. *)
Fixpoint dx_half (es : list sort_entry) (i : nat) (current_size : Z) : nat * Z :=
  match es with
  | [] => (0%nat, 0)
  | e :: es => if dir_block_size / 2 <? current_size + se_rec_len e then (i, se_hash e) else dx_half es (S i) (current_size + se_rec_len e)
  end.

(** Copy entries to a block; the last one takes the rest of it. *)
Fixpoint dx_fill (b : block) (off : Z) (es : list sort_entry) : block :=
  match es with
  | [] => b
  | e :: es =>
      let b := splice b off (se_bytes e) in
      let b := en_set_entry_len b off (if es is [] then dir_block_size - off else se_rec_len e) in
      dx_fill b (off + se_rec_len e) es
  end.

(** [ext4_dir_dx_split_data]: the error or the new block.  Without an entry
    behind the middle [mid] is 0, and [sort[mid - 1]], an index computed in 32
    bits without sign, is an invalid access 64 GB behind the array. *)
Definition dx_split_data (d : list block) (version old_iblk : Z) (x : dx_block) : res (list block * (Z + Z)) :=
  let old := blk_data d old_iblk in
  let* r := dx_collect (S (Z.to_nat dir_block_size)) version old 0 in
  match r with
  | inl rc => Ok (d, inl rc)
  | inr es =>
      let sort := qsort es in
      match append_dblk d with
      | inl rc => Ok (d, inl rc)
      | inr (d, new_iblk) =>
          assert! (negb (fblk new_iblk =? fblk old_iblk)) in
          let '(mid, new_hash) := dx_half sort 0 0 in
          match mid with
          | O => Abort
          | S k =>
              let continued := if new_hash =? default 0 (se_hash <$> sort !! k) then 1 else 0 in
              let d := set_blk d old_iblk (dx_fill old 0 (take mid sort)) in
              let d := set_blk d new_iblk (dx_fill (stale new_iblk) 0 (drop mid sort)) in
              Ok (dx_insert_entry d x (u32 (new_hash + continued)) new_iblk, inr new_iblk)
          end
      end
  end.

(** ** Adding and removing entries *)

(** Insert an entry into a block of the directory. *)
Definition insert_into (d : list block) (iblk : Z) (child : dir_child) (name : list Z) : res (list block * Z) :=
  let* (b, r) := dir_try_insert_entry (blk_data d iblk) child name in
  Ok (set_blk d iblk b, r).

(** [ext4_dir_dx_add_entry].  After a failure of [ext4_dir_dx_get_leaf] the
    cleanup uses the path, and after one of [ext4_dir_dx_split_index] the target
    block, which are not initialised.  The result of the last insertion is not
    looked at. *)
Definition dx_add_entry (d : list block) (child : dir_child) (name : list Z) : res (list block * Z) :=
  match get_blk d 0 with
  | inl r => Ok (d, r)
  | inr root =>
      match hinfo_init root name with
      | inl _ => Ok (d, EXT4_ERR_BAD_DX_DIR)
      | inr (version, hash) =>
          match dx_get_leaf d root hash with
          | inl _ => Abort
          | inr p =>
              let leaf := dx_leaf d p in
              match d !! Z.to_nat leaf with
              | None => Ok (d, EINVAL)
              | Some _ =>
                  let '(r, d, p) := dx_split_index d p in
                  assert! (r =? EOK) in
                  if negb (rc_read leaf =? EOK) then Ok (d, rc_read leaf)
                  else
                    let* (d, r) := insert_into d leaf child name in
                    if r =? EOK then Ok (d, EOK)
                    else
                      let x := dx_cur p in
                      let* (d, r) := dx_split_data d version leaf x in
                      match r with
                      | inl r => Ok (d, r)
                      | inr new_iblk =>
                          let blk_hash := dx_entry_get_hash (dxb_data d x) (dxb_entries x) (dxb_position x + 1) in
                          let* (d, _) := insert_into d (if blk_hash <=? hash then new_iblk else leaf) child name in
                          Ok (d, EOK)
                      end
              end
          end
      end
  end.

(** ** Directories *)

(** The inode of a directory: whether its mode says so, the flag of the index
    (the feature is on), and its blocks. *)
Record dir_file := mk_dir { df_is_dir : bool; df_index : bool; df_blocks : list block }.

Definition df_clear_index (x : dir_file) : dir_file := mk_dir (df_is_dir x) false (df_blocks x).

(** [ext4_dir_add_entry]: a corrupted index is switched off. *)
Definition dir_add_entry (x : dir_file) (child : dir_child) (name : list Z) : res (dir_file * Z) :=
  if df_index x then
    let* (d, r) := dx_add_entry (df_blocks x) child name in
    let x := mk_dir (df_is_dir x) true d in
    if negb (r =? EXT4_ERR_BAD_DX_DIR) then Ok (x, r) else Ok (df_clear_index x, r)
  else Ok (x, EINVAL).

(** [ext4_dir_find_entry]: the block and the offset of the entry. *)
Definition dir_find_entry (x : dir_file) (name : list Z) : res (dir_file * (Z + Z * Z)) :=
  if df_index x then
    let* r := dx_find_entry (df_blocks x) name in
    match r with
    | inl rc => if negb (rc =? EXT4_ERR_BAD_DX_DIR) then Ok (x, inl rc) else Ok (df_clear_index x, inl EINVAL)
    | inr e => Ok (x, inr e)
    end
  else Ok (x, inl EINVAL).

(** [ext4_dir_remove_entry]. *)
Definition dir_remove_entry (x : dir_file) (name : list Z) : res (dir_file * Z) :=
  if negb (df_is_dir x) then Ok (x, ENOTDIR)
  else
    let* (x, r) := dir_find_entry x name in
    match r with
    | inl rc => Ok (x, rc)
    | inr (iblk, o) =>
        let* b := dir_remove_at (blk_data (df_blocks x) iblk) o in
        Ok (mk_dir (df_is_dir x) (df_index x) (set_blk (df_blocks x) iblk b), EOK)
    end.

(** [ext4_dir_dx_init] of an empty directory: root and one block of entries. *)
Definition dx_init (d : list block) (dir parent : dir_child) (hash_version : Z) : res (list block * Z) :=
  match append_dblk d with
  | inl rc => Ok (d, rc)
  | inr (d, iblock) =>
      let root := splice (stale iblock) 0 (replicate 32 0) in
      let* root := dir_write_entry root 0 12 dir [46] in
      let* root := dir_write_entry root 12 (dir_block_size - 12) parent [46; 46] in
      let root := wr 1 root 28 hash_version in
      let root := wr 1 root 30 0 in
      let root := wr 1 root 29 8 in
      let root := climit_set_count root root_en 1 in
      let root := climit_set_limit root root_en root_limit in
      match append_dblk d with
      | inl rc => Ok (set_blk d iblock root, rc)
      | inr (d, iblock') =>
          let be := en_set_entry_len (stale iblock') 0 dir_block_size in
          let be := en_set_inode be 0 0 in
          let root := dx_entry_set_block root root_en 0 iblock' in
          Ok (set_blk (set_blk d iblock' be) iblock root, EOK)
      end
  end.

End htree.
