(* ===== verification/Ext4Index.v ===== *)
(** * Index blocks of lwext4 directories as sorted lists

    What the index operations of [Ext4Htree] do to the list of (hash, block)
    pairs the index stands for, in both of its forms. *)

From S2P Require Import Prelude Bio Sjd Ext4Extent Ext4Map Ext4Dir Ext4Hash Ext4Htree.

Definition by_hash : list (Z * Z) -> Prop := pairwise (fun x y => x.1 <= y.1).

Lemma pairwise_lookup {A} (R : A -> A -> Prop) l (i j : nat) x y : pairwise R l -> l !! i = Some x -> l !! j = Some y -> (i < j)%nat -> R x y.
Proof.
  intros H. revert i j. induction H as [|z l Hz Hl IH]; intros i j Hi Hj Hij; [done|]. destruct j as [|j]; [lia|]. destruct i as [|i].
  - injection Hi as ->. rewrite Forall_forall in Hz. apply Hz. by apply (list_elem_of_lookup_2 _ j).
  - apply (IH i j); [done|done|lia].
Qed.

Lemma by_hash_lookup l (i j : nat) x y : by_hash l -> l !! i = Some x -> l !! j = Some y -> (i < j)%nat -> x.1 <= y.1.
Proof. apply (pairwise_lookup (fun x y : Z * Z => x.1 <= y.1)). Qed.

(** ** An index block *)

(** The block holds the entries [es] at [eo]; the hash of the first one is not stored. *)
Record dx_node (b : block) (eo lim : Z) (es : list (Z * Z)) : Prop := {
  nd_ok : block_ok b;
  nd_eo : 0 <= eo;
  nd_fit : eo + 8 * lim <= 4096;
  nd_limit : climit_get_limit b eo = lim;
  nd_count : climit_get_count b eo = zlen es;
  nd_len : 1 <= zlen es <= lim;
  nd_entry : forall i e, es !! i = Some e -> dx_entry_get_block b eo (Z.of_nat i) = e.2 /\ (i <> 0%nat -> dx_entry_get_hash b eo (Z.of_nat i) = e.1);
  nd_range : Forall (fun e => 0 <= e.1 < U32_MOD /\ 0 <= e.2 < U32_MOD) es
}.

Lemma dx_search_ok fuel b eo lim es h : dx_node b eo lim es -> by_hash es -> forall p q, 1 <= p -> p <= q + 1 -> q + 1 <= zlen es -> q - p + 1 <= Z.of_nat fuel ->
  (forall i e, es !! i = Some e -> 1 <= Z.of_nat i < p -> e.1 <= h) -> (forall i e, es !! i = Some e -> q < Z.of_nat i -> h < e.1) ->
  let k := dx_search fuel b eo h p q in
  0 <= k < zlen es /\ (forall i e, es !! i = Some e -> 1 <= Z.of_nat i <= k -> e.1 <= h) /\ (forall i e, es !! i = Some e -> k < Z.of_nat i -> h < e.1).
Proof.
  intros Hn Hs. induction fuel as [|fuel IH]; intros p q Hp Hpq Hq Hf Hlo Hhi; cbn zeta; cbn [dx_search].
  { split_and!; try lia; intros i e Hi Hk; [apply (Hlo i); [done|lia]|apply (Hhi i); [done|lia]]. }
  destruct (Z.leb_spec p q) as [Hle|Hgt]; [|split_and!; try lia; intros i e Hi Hk; [apply (Hlo i); [done|lia]|apply (Hhi i); [done|lia]]].
  set (m := p + (q - p) / 2). assert (p <= m <= q) as Hm by (subst m; Z.div_mod_to_equations; lia).
  destruct (lookup_lt_is_Some_2 es (Z.to_nat m) ltac:(lia)) as [em Em]. pose proof (proj2 (nd_entry _ _ _ _ Hn _ _ Em) ltac:(lia)) as Eh. rewrite Z2Nat.id in Eh by lia. rewrite Eh.
  destruct (Z.ltb_spec h em.1) as [Hlt|Hge].
  - apply IH; try lia; [done|]. intros i e Hi Hk. destruct (decide (i = Z.to_nat m)) as [->|]; [congruence|].
    pose proof (by_hash_lookup es (Z.to_nat m) i em e Hs Em Hi ltac:(lia)). lia.
  - apply IH; try lia; [|done]. intros i e Hi Hk. destruct (decide (i = Z.to_nat m)) as [->|]; [replace e with em by congruence; lia|].
    pose proof (by_hash_lookup es i (Z.to_nat m) e em Hs Hi Em ltac:(lia)). lia.
Qed.

(** The last entry that is not behind the hash. *)
Lemma dx_node_search_ok b eo lim es h e0 : dx_node b eo lim es -> by_hash es -> head es = Some e0 -> e0.1 <= h ->
  exists l1 e l2, es = l1 ++ e :: l2 /\ dx_node_search b eo lim h = Some (zlen l1) /\ e.1 <= h /\ Forall (fun x => h < x.1) l2.
Proof.
  intros Hn Hs H0 Hh. pose proof (nd_len _ _ _ _ Hn) as Hl. unfold dx_node_search. rewrite (nd_count _ _ _ _ Hn).
  rewrite (proj2 (Z.eqb_neq (zlen es) 0)), (proj2 (Z.ltb_ge lim (zlen es))) by lia. cbn [orb].
  destruct (dx_search_ok (Z.to_nat (zlen es)) b eo lim es h Hn Hs 1 (zlen es - 1)) as (Hk & Hlo & Hhi); try lia.
  { intros i e Hi Hk. apply lookup_lt_Some in Hi. lia. }
  set (k := dx_search _ _ _ _ _ _) in *. destruct (lookup_lt_is_Some_2 es (Z.to_nat k) ltac:(lia)) as [e Ek].
  exists (take (Z.to_nat k) es), e, (drop (S (Z.to_nat k)) es). split_and!.
  - symmetry. by apply take_drop_middle.
  - f_equal. rewrite length_take. lia.
  - destruct (Z.eq_dec k 0) as [Hz|Hz]; [|apply (Hlo (Z.to_nat k)); [done|lia]]. rewrite Hz in Ek. change (es !! 0%nat = Some e) in Ek. rewrite <- head_lookup in Ek. assert (e = e0) as -> by congruence. done.
  - apply Forall_forall. intros x Hx. apply list_elem_of_lookup in Hx as [i Hi]. rewrite lookup_drop in Hi. apply (Hhi _ _ Hi). lia.
Qed.

(** ** The whole index *)

Inductive shape :=
| Flat (es : list (Z * Z))
| Deep (rs : list (Z * Z)) (ns : list (list (Z * Z))).

(** The hashes and blocks of entries, and the index blocks of the second level. *)
Definition flat (sh : shape) : list (Z * Z) := match sh with Flat es => es | Deep rs ns => concat ns end.
Definition inner (sh : shape) : list Z := match sh with Flat _ => [] | Deep rs _ => snd <$> rs end.

Definition child_node (d : list block) (r : Z * Z) (es : list (Z * Z)) : Prop :=
  exists b, d !! Z.to_nat r.2 = Some b /\ dx_node b node_en node_limit es /\ fst <$> head es = Some r.1.

Record idx (d : list block) (version : Z) (sh : shape) : Prop := {
  ix_root : exists root, d !! 0%nat = Some root /\ rinfo_hash_version root = version /\ rinfo_unused_flags root = 0 /\
    match sh with
    | Flat es => rinfo_indirect_levels root = 0 /\ dx_node root root_en root_limit es
    | Deep rs ns => rinfo_indirect_levels root = 1 /\ dx_node root root_en root_limit rs /\ Forall2 (child_node d) rs ns
    end;
  ix_version : 0 <= version <= 2;
  ix_inner : NoDup (0 :: inner sh);
  ix_sorted : by_hash (flat sh);
  ix_first : fst <$> head (flat sh) = Some 0
}.

(** The position of the entry [e] behind [F1] and in front of [F2]. *)
Definition at_leaf (sh : shape) (x : dx_block) (F1 : list (Z * Z)) (e : Z * Z) (F2 : list (Z * Z)) : Prop :=
  match sh with
  | Flat es => es = F1 ++ e :: F2 /\ x = mk_dxb 0 root_en (zlen F1)
  | Deep rs ns => exists R1 r R2 N1 l1 l2 N2, rs = R1 ++ r :: R2 /\ ns = N1 ++ (l1 ++ e :: l2) :: N2 /\ length R1 = length N1 /\
      F1 = concat N1 ++ l1 /\ F2 = l2 ++ concat N2 /\ x = mk_dxb r.2 node_en (zlen l1)
  end.

(** The same with the position in the root. *)
Definition idx_at (sh : shape) (p : dx_path) (F1 : list (Z * Z)) (e : Z * Z) (F2 : list (Z * Z)) : Prop :=
  match sh with
  | Flat es => es = F1 ++ e :: F2 /\ p = mk_dxp (mk_dxb 0 root_en (zlen F1)) None
  | Deep rs ns => exists R1 r R2 N1 l1 l2 N2, rs = R1 ++ r :: R2 /\ ns = N1 ++ (l1 ++ e :: l2) :: N2 /\ length R1 = length N1 /\
      F1 = concat N1 ++ l1 /\ F2 = l2 ++ concat N2 /\ p = mk_dxp (mk_dxb 0 root_en (zlen R1)) (Some (mk_dxb r.2 node_en (zlen l1)))
  end.

Lemma idx_at_leaf sh p F1 e F2 : idx_at sh p F1 e F2 -> at_leaf sh (dx_cur p) F1 e F2.
Proof.
  destruct sh as [es|rs ns]; cbn; [by intros [-> ->]|]. intros (R1 & r & R2 & N1 & l1 & l2 & N2 & -> & -> & Hl & -> & -> & ->). by exists R1, r, R2, N1, l1, l2, N2.
Qed.

Lemma at_leaf_flat sh x F1 e F2 : at_leaf sh x F1 e F2 -> flat sh = F1 ++ e :: F2.
Proof.
  destruct sh as [es|rs ns]; cbn; [by intros [-> _]|]. intros (R1 & r & R2 & N1 & l1 & l2 & N2 & -> & -> & Hl & -> & -> & ->).
  rewrite concat_app. cbn [concat]. by rewrite <- !app_assoc.
Qed.

Lemma by_hash_app l1 l2 : by_hash (l1 ++ l2) <-> by_hash l1 /\ by_hash l2 /\ forall x y, x ∈ l1 -> y ∈ l2 -> x.1 <= y.1.
Proof.
  unfold by_hash. rewrite pairwise_app. split; intros (H1 & H2 & H3); split_and!; try done.
  - intros x y Hx Hy. rewrite Forall_forall in H3. specialize (H3 x Hx). rewrite Forall_forall in H3. by apply H3.
  - apply Forall_forall. intros x Hx. apply Forall_forall. intros y Hy. by apply H3.
Qed.

Lemma by_hash_cons x l : by_hash (x :: l) <-> by_hash l /\ forall y, y ∈ l -> x.1 <= y.1.
Proof.
  rewrite (by_hash_app [x] l). split; [intros (_ & H1 & H2); split; [done|]; intros y Hy; apply H2; [by left|done]|].
  intros [H1 H2]. split_and!; [repeat constructor|done|]. intros z y Hz%list_elem_of_singleton Hy. subst z. by apply H2.
Qed.

Lemma child_node_head d r es : child_node d r es -> exists e es', es = e :: es' /\ e.1 = r.1.
Proof. intros (b & _ & _ & Hh). destruct es as [|e es]; [done|]. injection Hh as Hh. by exists e, es. Qed.

(** The heads of the blocks of the second level are the hashes of the root. *)
Lemma children_sorted d rs ns : Forall2 (child_node d) rs ns -> by_hash (concat ns) -> by_hash rs.
Proof.
  induction 1 as [|r es rs ns Hc Hcs IH]; intros Hs; [constructor|]. cbn [concat] in Hs. apply by_hash_app in Hs as (Hs1 & Hs2 & Hs3). apply by_hash_cons. split; [by apply IH|].
  intros y Hy. destruct (child_node_head _ _ _ Hc) as (e & es' & -> & He). rewrite <- He. apply list_elem_of_lookup in Hy as [i Hy].
  destruct (Forall2_lookup_l _ _ _ _ _ Hcs Hy) as (n & Hn & Hcn). destruct (child_node_head _ _ _ Hcn) as (e' & es'' & -> & <-).
  apply Hs3; [by left|]. apply list_elem_of_In, in_concat. exists (e' :: es''). split; [apply list_elem_of_In; by apply (list_elem_of_lookup_2 _ i)|by left].
Qed.

(** Everything behind a root entry that is behind the hash is behind it. *)
Lemma children_behind d rs ns h : Forall2 (child_node d) rs ns -> by_hash (concat ns) -> Forall (fun r => h < r.1) rs -> Forall (fun x => h < x.1) (concat ns).
Proof.
  induction 1 as [|r es rs ns Hc Hcs IH]; intros Hs Hr; [done|]. cbn [concat] in *. apply by_hash_app in Hs as (Hs1 & Hs2 & Hs3). apply Forall_cons in Hr as [Hr1 Hr2].
  apply Forall_app. split; [|by apply IH]. destruct (child_node_head _ _ _ Hc) as (e & es' & -> & He). apply by_hash_cons in Hs1 as [_ Hs1].
  constructor; [lia|]. apply Forall_forall. intros x Hx. specialize (Hs1 x Hx). lia.
Qed.

Section index.
Context (rc_read : Z -> Z) (Hread : forall i, rc_read i = EOK).

Lemma get_blk_ok d i b : d !! Z.to_nat i = Some b -> get_blk rc_read d i = inr b.
Proof. intros H. unfold get_blk. by rewrite Hread, H. Qed.

Lemma blk_data_ok d i b : d !! Z.to_nat i = Some b -> blk_data d i = b.
Proof. intros E. exact (f_equal (default []) E). Qed.

Lemma dxb_data_ok d x b : d !! Z.to_nat (dxb_blk x) = Some b -> dxb_data d x = b.
Proof. apply blk_data_ok. Qed.

(** ** Search in the index *)

Lemma dx_get_leaf_ok d version sh root h : idx d version sh -> d !! 0%nat = Some root -> 0 <= h ->
  exists p F1 e F2, dx_get_leaf rc_read d root h = inr p /\ idx_at sh p F1 e F2 /\ e.1 <= h /\ Forall (fun x => h < x.1) F2.
Proof.
  intros [(root' & E & Hv & Hf & Hsh) Hver Hin Hs H0] E' Hh. assert (root' = root) as -> by congruence. clear E. unfold dx_get_leaf. destruct sh as [es|rs ns]; cbn [flat] in *.
  - destruct Hsh as [Hl Hn]. rewrite (nd_limit _ _ _ _ Hn). destruct (head es) as [e0|] eqn:Eh; [|done]. injection H0 as H0.
    destruct (dx_node_search_ok _ _ _ es h e0 Hn Hs Eh ltac:(lia)) as (l1 & e & l2 & -> & -> & He & Hl2). rewrite Hl. cbn [Z.eqb].
    exists (mk_dxp (mk_dxb 0 root_en (zlen l1)) None), l1, e, l2. done.
  - destruct Hsh as (Hl & Hn & Hc). rewrite (nd_limit _ _ _ _ Hn). pose proof (children_sorted _ _ _ Hc Hs) as Hrs.
    assert (exists r0, head rs = Some r0 /\ r0.1 = 0) as (r0 & Er & Hr0).
    { destruct Hc as [|r es rs ns Hc Hcs]; [done|]. destruct (child_node_head _ _ _ Hc) as (e & es' & -> & He). exists r. split; [done|]. cbn in H0. injection H0 as H0. congruence. }
    destruct (dx_node_search_ok _ _ _ rs h r0 Hn Hrs Er ltac:(lia)) as (R1 & r & R2 & -> & -> & Hr & HR2). rewrite Hl. cbn [Z.eqb].
    apply Forall2_app_inv_l in Hc as (N1 & N2' & Hc1 & Hc2 & ->). apply Forall2_cons_inv_l in Hc2 as (es & N2 & Hc & Hc2 & ->).
    pose proof (nd_entry _ _ _ _ Hn (length R1) r ltac:(by rewrite list_lookup_middle)) as [Eb _]. rewrite Eb.
    rewrite concat_app in Hs. cbn [concat] in Hs. apply by_hash_app in Hs as (_ & Hs & _). apply by_hash_app in Hs as (Hs1 & Hs2 & _).
    destruct (child_node_head _ _ _ Hc) as (e0 & es' & -> & He0). destruct Hc as (b & Ed & Hnb & _). rewrite (get_blk_ok _ _ _ Ed), (nd_limit _ _ _ _ Hnb), Z.eqb_refl. cbn [negb].
    destruct (dx_node_search_ok _ _ _ (e0 :: es') h e0 Hnb Hs1 eq_refl ltac:(lia)) as (l1 & e & l2 & El & -> & He & Hl2).
    eexists _, (concat N1 ++ l1), e, (l2 ++ concat N2). split; [done|]. split_and!; [|done|].
    + exists R1, r, R2, N1, l1, l2, N2. rewrite El. split_and!; try done. by apply Forall2_length in Hc1.
    + apply Forall_app. split; [done|]. by apply (children_behind d R2).
Qed.

Lemma at_leaf_node d version sh x F1 e F2 : idx d version sh -> at_leaf sh x F1 e F2 ->
  exists b lim l1 l2, d !! Z.to_nat (dxb_blk x) = Some b /\ dx_node b (dxb_entries x) lim (l1 ++ e :: l2) /\ dxb_position x = zlen l1.
Proof.
  intros [(root & E & _ & _ & Hsh) _ _ _ _] Hat. destruct sh as [es|rs ns]; cbn [at_leaf] in Hat.
  - destruct Hat as [-> ->]. destruct Hsh as [_ Hn]. by exists root, root_limit, F1, F2.
  - destruct Hat as (R1 & r & R2 & N1 & l1 & l2 & N2 & -> & -> & Hl & -> & -> & ->). destruct Hsh as (_ & _ & Hc).
    apply Forall2_app_inv in Hc as [_ Hc]; [|done]. apply Forall2_cons in Hc as [(b & Ed & Hn & _) _]. by exists b, node_limit, l1, l2.
Qed.

Lemma at_leaf_blk sh x F1 e F2 : at_leaf sh x F1 e F2 -> dxb_blk x ∈ 0 :: inner sh.
Proof.
  destruct sh as [es|rs ns]; cbn; [intros [_ ->]; by left|]. intros (R1 & r & R2 & N1 & l1 & l2 & N2 & -> & _ & _ & _ & _ & ->). right. cbn [dxb_blk]. apply (list_elem_of_fmap_2 snd). rewrite elem_of_app, elem_of_cons. tauto.
Qed.

Lemma dx_leaf_ok d version sh p F1 e F2 : idx d version sh -> at_leaf sh (dx_cur p) F1 e F2 -> dx_leaf d p = e.2.
Proof.
  intros Hi Hat. destruct (at_leaf_node _ _ _ _ _ _ _ Hi Hat) as (b & lim & l1 & l2 & E & Hn & Hp). unfold dx_leaf. cbn zeta. rewrite (dxb_data_ok _ _ _ E), Hp.
  apply (nd_entry _ _ _ _ Hn (length l1)). by rewrite list_lookup_middle.
Qed.

Lemma dx_in_node_ok d blk b eo lim es k : d !! Z.to_nat blk = Some b -> dx_node b eo lim es -> dx_in_node d (mk_dxb blk eo k) = (k <? zlen es).
Proof. intros E Hn. unfold dx_in_node. rewrite (dxb_data_ok d (mk_dxb blk eo k) b E). cbn [dxb_blk dxb_entries dxb_position]. by rewrite (nd_count _ _ _ _ Hn). Qed.

Lemma dx_collision_ok d blk b eo lim l1 e l2 h : d !! Z.to_nat blk = Some b -> dx_node b eo lim (l1 ++ e :: l2) -> l1 <> [] -> Z.even h = true ->
  dx_collision d h (mk_dxb blk eo (zlen l1)) = (Z.land e.1 4294967294 =? h).
Proof.
  intros E Hn Hl Hh. unfold dx_collision. rewrite (dxb_data_ok d (mk_dxb blk eo (zlen l1)) b E). cbn [dxb_blk dxb_entries dxb_position].
  rewrite (proj2 (nd_entry _ _ _ _ Hn (length l1) e ltac:(by rewrite list_lookup_middle)) ltac:(by destruct l1)).
  change 1 with (Z.ones 1). rewrite Z.land_ones by lia. change (2 ^ 1) with 2. rewrite Zmod_even, Hh. done.
Qed.

(** The next block, if the names with the hash go on there. *)
Lemma dx_next_block_ok d version sh p F1 e F2 h : idx d version sh -> idx_at sh p F1 e F2 -> Z.even h = true ->
  match F2 with
  | [] => (dx_next_block rc_read d h p).1 = EOK
  | e' :: F2' =>
      if Z.land e'.1 4294967294 =? h then exists p', dx_next_block rc_read d h p = (ENOENT, p') /\ idx_at sh p' (F1 ++ [e]) e' F2'
      else (dx_next_block rc_read d h p).1 = EOK
  end.
Proof.
  intros [(root & E & _ & _ & Hsh) _ _ _ _] Hat Hh. destruct sh as [es|rs ns]; cbn [idx_at] in Hat.
  - destruct Hat as [-> ->]. destruct Hsh as [_ Hn]. unfold dx_next_block, dx_next. cbn [dx0 dx1 dxb_blk dxb_entries dxb_position].
    rewrite (dx_in_node_ok d 0 root _ _ _ _ E Hn), length_app. cbn [length]. destruct F2 as [|e' F2]; cbn [length].
    { by rewrite (proj2 (Z.ltb_ge _ _)) by lia. }
    rewrite (proj2 (Z.ltb_lt _ _)) by lia. cbn [negb]. rewrite (cons_middle e F1 (e' :: F2)), app_assoc in Hn.
    replace (zlen F1 + 1) with (zlen (F1 ++ [e])) by (rewrite length_app; cbn; lia).
    rewrite (dx_collision_ok d 0 root _ _ _ _ _ h E Hn) by (done || by destruct F1). destruct (_ =? h); cbn [negb]; [|done]. eexists. split; [done|]. split; [by rewrite <- app_assoc|done].
  - destruct Hat as (R1 & r & R2 & N1 & l1 & l2 & N2 & -> & -> & Hl & -> & -> & ->). destruct Hsh as (_ & Hn & Hc). pose proof Hc as Hc'.
    apply Forall2_app_inv in Hc as [_ Hc]; [|done]. apply Forall2_cons in Hc as [(b & Ed & Hb & _) Hc2].
    unfold dx_next_block, dx_next. cbn [dx0 dx1 dxb_blk dxb_entries dxb_position]. rewrite (dx_in_node_ok d r.2 b _ _ _ _ Ed Hb), length_app. cbn [length].
    destruct l2 as [|e' l2]; cbn [length app].
    + rewrite (proj2 (Z.ltb_ge _ _)) by lia. rewrite (dx_in_node_ok d 0 root _ _ _ _ E Hn), length_app. cbn [length]. destruct Hc2 as [|r' n' R2 N2 Hc3 Hc2]; cbn [concat length].
      { by rewrite (proj2 (Z.ltb_ge _ _)) by lia. }
      rewrite (proj2 (Z.ltb_lt _ _)) by lia. cbn [negb]. rewrite (cons_middle r R1 (r' :: R2)), app_assoc in Hn. replace (zlen R1 + 1) with (zlen (R1 ++ [r])) by (rewrite length_app; cbn; lia).
      rewrite (dx_collision_ok d 0 root _ _ _ _ _ h E Hn) by (done || by destruct R1). destruct (child_node_head _ _ _ Hc3) as (e' & es' & -> & He). cbn [app]. rewrite He.
      destruct (_ =? h); cbn [negb]; [|done]. destruct Hc3 as (b' & Ed' & Hb' & _). rewrite (dxb_data_ok d (mk_dxb 0 root_en _) root E).
      rewrite (proj1 (nd_entry _ _ _ _ Hn (length (R1 ++ [r])) r' ltac:(by rewrite list_lookup_middle))). rewrite (get_blk_ok _ _ _ Ed').
      eexists. split; [done|]. exists (R1 ++ [r]), r', R2, (N1 ++ [l1 ++ [e]]), [], es', N2. rewrite !length_app, concat_app. cbn [concat length app].
      split_and!; try done; try lia; rewrite <- ?app_assoc; cbn [app]; try done; by rewrite ?app_nil_r, <- ?app_assoc.
    + rewrite (proj2 (Z.ltb_lt _ _)) by lia. rewrite (cons_middle e l1 (e' :: l2)), app_assoc in Hb. replace (zlen l1 + 1) with (zlen (l1 ++ [e])) by (rewrite length_app; cbn; lia).
      rewrite (dx_collision_ok d r.2 b _ _ _ _ _ h Ed Hb) by (done || by destruct l1). destruct (_ =? h); cbn [negb]; [|done]. eexists. split; [done|].
      exists R1, r, R2, N1, (l1 ++ [e]), l2, N2. split_and!; try done; by rewrite <- ?app_assoc.
Qed.

(** ** A new entry *)

Lemma node_insert d x b lim l1 e l2 s blk :
  d !! Z.to_nat (dxb_blk x) = Some b -> dx_node b (dxb_entries x) lim (l1 ++ e :: l2) -> dxb_position x = zlen l1 ->
  zlen (l1 ++ e :: l2) < lim -> 0 <= s < U32_MOD -> 0 <= blk < U32_MOD ->
  exists b', dx_insert_entry d x s blk = set_blk d (dxb_blk x) b' /\ dx_node b' (dxb_entries x) lim (l1 ++ e :: (s, blk) :: l2) /\
    keeps b b' (dxb_entries x) (dxb_entries x + 8 * lim).
Proof.
  intros E Hn Hp Hl Hs Hb. unfold dx_insert_entry. rewrite (dxb_data_ok _ _ _ E), Hp, (nd_count _ _ _ _ Hn). set (eo := dxb_entries x) in *.
  rewrite length_app in *. cbn [length] in *. pose proof Hn as [N1 N2 N3 N4 N5 N6 N7 N8]. rewrite length_app in N5, N6. cbn [length] in N5, N6.
  set (new := zlen l1 + 1). replace (zlen (l1 ++ e :: l2)) with (new + zlen l2) by (rewrite length_app; cbn; lia).
  replace (Z.of_nat (length l1 + S (length l2))) with (new + zlen l2) in * by lia. replace (new + zlen l2 - new) with (zlen l2) by lia.
  set (bs := slice b (eo + 8 * new) (8 * zlen l2)). pose proof N1 as N1'. unfold block_ok in N1'.
  assert (zlen bs = 8 * zlen l2) as Lbs by (apply length_slice; lia).
  set (b1 := splice b (eo + 8 * (new + 1)) bs). pose proof (splice_keeps b (eo + 8 * (new + 1)) bs N1 ltac:(lia) ltac:(lia)) as K1. fold b1 in K1. pose proof (proj1 K1) as O1.
  unfold dx_entry_set_block, dx_entry_set_hash, climit_set_count.
  pose proof (wr_keeps 4 b1 (eo + 8 * new + 4) blk O1 ltac:(lia) ltac:(lia)) as K2. set (b2 := wr 4 b1 _ blk) in *. pose proof (proj1 K2) as O2.
  pose proof (wr_keeps 4 b2 (eo + 8 * new) s O2 ltac:(lia) ltac:(lia)) as K3. set (b3 := wr 4 b2 _ s) in *. pose proof (proj1 K3) as O3.
  pose proof (wr_keeps 2 b3 (eo + 2) (new + zlen l2 + 1) O3 ltac:(lia) ltac:(lia)) as K4. set (b4 := wr 2 b3 _ _) in *. pose proof (proj1 K4) as O4.
  exists b4. split; [done|].
  assert (forall o n, 0 <= o -> o + Z.of_nat n <= eo + 8 * new -> o + Z.of_nat n <= eo + 2 \/ eo + 4 <= o -> rd n b4 o = rd n b o) as Hlow.
  { intros o n Ho H1 H2. rewrite (keeps_rd _ _ _ _ _ _ K4), (keeps_rd _ _ _ _ _ _ K3), (keeps_rd _ _ _ _ _ _ K2), (keeps_rd _ _ _ _ _ _ K1) by lia. done. }
  assert (forall o n, eo + 8 * (new + 1) <= o -> o + Z.of_nat n <= eo + 8 * (new + 1) + 8 * zlen l2 -> rd n b4 o = rd n b (o - 8)) as Hhigh.
  { intros o n H1 H2. rewrite (keeps_rd _ _ _ _ _ _ K4), (keeps_rd _ _ _ _ _ _ K3), (keeps_rd _ _ _ _ _ _ K2) by lia. rewrite !rd_slice. f_equal. unfold b1.
    replace o with (eo + 8 * (new + 1) + (o - (eo + 8 * (new + 1)))) at 1 by lia. rewrite slice_splice_in by lia. unfold bs. rewrite slice_slice by lia. f_equal. lia. }
  split.
  - split; try done; try lia.
    + unfold climit_get_limit. by rewrite Hlow by lia.
    + unfold climit_get_count, b4. unfold block_ok in O3. rewrite rd_wr_eq by lia. rewrite length_app. cbn [length]. rewrite Z.mod_small by (cbn; lia). lia.
    + rewrite length_app. cbn [length]. lia.
    + intros i e' Hi. unfold dx_entry_get_block, dx_entry_get_hash. destruct (lt_eq_lt_dec i (S (length l1))) as [[Hlt| ->]|Hgt].
      * assert ((l1 ++ e :: l2) !! i = Some e') as Hi'.
        { rewrite <- Hi. destruct (decide (i < length l1)%nat); [by rewrite !lookup_app_l|]. assert (i = length l1) as -> by lia. by rewrite !list_lookup_middle. }
        destruct (N7 i e' Hi') as [H1 H2]. unfold dx_entry_get_block, dx_entry_get_hash in H1, H2. split; [rewrite Hlow by lia; done|]. intros Hne. rewrite Hlow by lia. by apply H2.
      * rewrite lookup_app_r in Hi by lia. replace (S (length l1) - length l1)%nat with 1%nat in Hi by lia. injection Hi as <-. cbn [fst snd].
        replace (Z.of_nat (S (length l1))) with new by lia. unfold block_ok in O1, O2. split; [|intros _].
        -- rewrite (keeps_rd _ _ _ _ _ _ K4), (keeps_rd _ _ _ _ _ _ K3) by lia. unfold b2. rewrite rd_wr_eq by lia. apply Z.mod_small. cbn. lia.
        -- rewrite (keeps_rd _ _ _ _ _ _ K4) by lia. unfold b3. rewrite rd_wr_eq by lia. apply Z.mod_small. cbn. lia.
      * assert ((l1 ++ e :: l2) !! (i - 1)%nat = Some e') as Hi'.
        { rewrite <- Hi, !lookup_app_r by lia. replace (i - length l1)%nat with (S (S (i - length l1 - 2))) by lia. replace (i - 1 - length l1)%nat with (S (i - length l1 - 2)) by lia. done. }
        pose proof (lookup_lt_Some _ _ _ Hi') as Hlt. rewrite length_app in Hlt. cbn in Hlt.
        destruct (N7 _ e' Hi') as [H1 H2]. unfold dx_entry_get_block, dx_entry_get_hash in H1, H2. split; [|intros _]; rewrite Hhigh by lia.
        -- rewrite <- H1. f_equal. lia.
        -- rewrite <- H2 by lia. f_equal. lia.
    + apply Forall_app in N8 as [N81 N82]. apply Forall_cons in N82 as [N82 N83]. apply Forall_app. split; [done|]. apply Forall_cons. split; [done|]. by apply Forall_cons.
  - refine (bkeeps_trans b b3 b4 _ _ eo (eo + 8 * lim) _ _ _ K4 _ _ _ _); try lia. refine (bkeeps_trans b b2 b3 _ _ eo (eo + 8 * lim) _ _ _ K3 _ _ _ _); try lia.
    apply (bkeeps_trans b b1 b2 _ _ _ _ _ _ K1 K2); lia.
Qed.

Lemma children_frame d d' rs ns : Forall2 (child_node d) rs ns -> (forall r, r ∈ rs -> d' !! Z.to_nat r.2 = d !! Z.to_nat r.2) -> Forall2 (child_node d') rs ns.
Proof.
  induction 1 as [|r es rs ns (b & E & Hn & Hh) Hcs IH]; intros Hf; constructor; [|apply IH; intros r' Hr'; apply Hf; by right].
  exists b. split; [rewrite Hf; [done|by left]|done].
Qed.

Lemma by_hash_insert F1 e s blk F2 : by_hash (F1 ++ e :: F2) -> e.1 <= s -> Forall (fun x => s <= x.1) F2 -> by_hash (F1 ++ e :: (s, blk) :: F2).
Proof.
  intros Hs He HF. apply by_hash_app in Hs as (H1 & H2 & H3). apply by_hash_cons in H2 as [H2 H4]. rewrite Forall_forall in HF. apply by_hash_app. split_and!; [done| |].
  - apply by_hash_cons. split; [apply by_hash_cons; split; done|]. intros y [->|Hy]%elem_of_cons; [done|by apply H4].
  - intros x y Hx [->|[->|Hy]%elem_of_cons]%elem_of_cons; [apply H3; [done|by left]| |apply H3; [done|by right]].
    specialize (H3 x e Hx ltac:(by left)). cbn. lia.
Qed.

Lemma insert_first (F1 : list (Z * Z)) e F2 F2' : fst <$> head (F1 ++ e :: F2) = Some 0 -> fst <$> head (F1 ++ e :: F2') = Some 0.
Proof. by destruct F1. Qed.

Lemma set_blk_eq d i b : 0 <= i < zlen d -> set_blk d i b !! Z.to_nat i = Some b.
Proof. intros Hi. unfold set_blk. apply list_lookup_insert_eq. lia. Qed.

Lemma set_blk_ne d i b (j : nat) : j <> Z.to_nat i -> set_blk d i b !! j = d !! j.
Proof. intros Hj. unfold set_blk. by apply list_lookup_insert_ne. Qed.

(** The index with an entry more. *)
Record index_grown (d : list block) (version : Z) (sh : shape) (x : dx_block) (F1 : list (Z * Z)) (e : Z * Z) (s blk : Z) (F2 : list (Z * Z)) (d' : list block) (sh' : shape) : Prop := {
  ig_idx : idx d' version sh';
  ig_flat : flat sh' = F1 ++ e :: (s, blk) :: F2;
  ig_inner : inner sh' = inner sh;
  ig_at : at_leaf sh' x F1 e ((s, blk) :: F2);
  ig_len : length d' = length d;
  ig_same : forall i, i <> Z.to_nat (dxb_blk x) -> d' !! i = d !! i;
  ig_blk : dxb_blk x ∈ 0 :: inner sh;
  ig_hash : dx_entry_get_hash (dxb_data d' x) (dxb_entries x) (dxb_position x + 1) = s
}.

Lemma inserted_hash d x b lim l1 e s blk l2 : d !! Z.to_nat (dxb_blk x) = Some b -> dx_node b (dxb_entries x) lim (l1 ++ e :: (s, blk) :: l2) -> dxb_position x = zlen l1 ->
  dx_entry_get_hash (dxb_data d x) (dxb_entries x) (dxb_position x + 1) = s.
Proof.
  intros E Hn Hp. rewrite (dxb_data_ok _ _ _ E), Hp. replace (zlen l1 + 1) with (Z.of_nat (S (length l1))) by lia.
  apply (nd_entry _ _ _ _ Hn (S (length l1)) (s, blk)); [|done]. rewrite lookup_app_r by lia. by replace (S (length l1) - length l1)%nat with 1%nat by lia.
Qed.

Lemma dx_insert_ok d version sh x F1 e F2 s blk : idx d version sh -> at_leaf sh x F1 e F2 ->
  climit_get_count (dxb_data d x) (dxb_entries x) < climit_get_limit (dxb_data d x) (dxb_entries x) -> 0 <= s < U32_MOD -> 0 <= blk < U32_MOD ->
  e.1 <= s -> Forall (fun x => s <= x.1) F2 -> exists sh', index_grown d version sh x F1 e s blk F2 (dx_insert_entry d x s blk) sh'.
Proof.
  intros Hi Hat Hroom Hs Hb He HF. pose proof (at_leaf_flat _ _ _ _ _ Hat) as Hfl. pose proof Hi as [(root & E & Hv & Hf & Hsh) Hver Hnd Hso H0]. rewrite Hfl in Hso, H0.
  pose proof (by_hash_insert F1 e s blk F2 Hso He HF) as Hso'. pose proof (insert_first F1 e F2 ((s, blk) :: F2) H0) as H0'.
  destruct sh as [es|rs ns]; cbn [at_leaf] in Hat.
  - destruct Hat as [-> ->]. destruct Hsh as [Hl Hn]. set (x := mk_dxb 0 root_en (zlen F1)) in *. rewrite (dxb_data_ok d x root E), (nd_count root (dxb_entries x) _ _ Hn), (nd_limit root (dxb_entries x) _ _ Hn) in Hroom.
    destruct (node_insert d x root root_limit F1 e F2 s blk E Hn eq_refl Hroom Hs Hb) as (b' & -> & Hn' & Hk).
    assert (set_blk d (dxb_blk x) b' !! 0%nat = Some b') as E' by (apply (set_blk_eq d 0); apply lookup_lt_Some in E; lia).
    exists (Flat (F1 ++ e :: (s, blk) :: F2)). split; try done.
    + split; try done. exists b'. unfold rinfo_hash_version, rinfo_unused_flags, rinfo_indirect_levels in *.
      change (dxb_entries x) with 32 in Hk. rewrite !(keeps_rd _ _ _ _ _ _ Hk) by lia. done.
    + apply length_insert.
    + intros i Hne. by apply set_blk_ne.
    + by left.
    + by apply (inserted_hash _ _ b' root_limit F1 e s blk F2).
  - destruct Hat as (R1 & r & R2 & N1 & l1 & l2 & N2 & -> & -> & HlR & -> & -> & ->). destruct Hsh as (Hl & Hn & Hc). set (x := mk_dxb r.2 node_en (zlen l1)) in *.
    apply Forall2_app_inv in Hc as [Hc1 Hc]; [|done]. apply Forall2_cons in Hc as [(b & Ed & Hb' & Hh) Hc2].
    rewrite (dxb_data_ok d x b Ed), (nd_count b (dxb_entries x) _ _ Hb'), (nd_limit b (dxb_entries x) _ _ Hb') in Hroom.
    destruct (node_insert d x b node_limit l1 e l2 s blk Ed Hb' eq_refl Hroom Hs Hb) as (b' & -> & Hn' & Hk). pose proof (nd_range _ _ _ _ Hn) as Hrg.
    cbn [inner] in Hnd. rewrite fmap_app, fmap_cons in Hnd. apply NoDup_cons in Hnd as [Hn0 Hnd]. rewrite elem_of_app, elem_of_cons in Hn0.
    assert (forall r', r' ∈ R1 \/ r' ∈ R2 -> r'.2 <> r.2) as Hdiff.
    { apply NoDup_app in Hnd as (_ & Hd1 & Hd2%NoDup_cons). intros r' [Hr|Hr] Eq; apply (list_elem_of_fmap_2 snd) in Hr; [apply (Hd1 _ Hr); rewrite Eq; by left|]. rewrite Eq in Hr. tauto. }
    apply Forall_app in Hrg as [Hg1 Hg2]. apply Forall_cons in Hg2 as [Hg Hg2]. rewrite Forall_forall in Hg1, Hg2.
    assert (forall r', r' ∈ R1 \/ r' ∈ R2 -> set_blk d (dxb_blk x) b' !! Z.to_nat r'.2 = d !! Z.to_nat r'.2) as Hsame.
    { intros r' Hr. apply set_blk_ne. cbn [dxb_blk x]. pose proof (Hdiff r' Hr). assert (0 <= r'.2) by (destruct Hr as [Hr|Hr]; [apply (Hg1 r' Hr)|apply (Hg2 r' Hr)]). lia. }
    assert (set_blk d (dxb_blk x) b' !! Z.to_nat (dxb_blk x) = Some b') as E' by (apply set_blk_eq; apply lookup_lt_Some in Ed; cbn [dxb_blk x] in *; lia).
    exists (Deep (R1 ++ r :: R2) (N1 ++ (l1 ++ e :: (s, blk) :: l2) :: N2)). split; try done.
    + split; cbn [flat inner]; try done.
      * exists root. split; [rewrite set_blk_ne; [done|]; cbn [dxb_blk x]; destruct (Z.eq_dec r.2 0); [exfalso; apply Hn0; right; by left|lia]|]. split_and!; try done.
        apply Forall2_app; [by apply (children_frame d); [|intros r' Hr; apply Hsame; by left]|]. constructor; [|by apply (children_frame d); [|intros r' Hr; apply Hsame; by right]].
        exists b'. split_and!; [done|done|]. by destruct l1.
      * rewrite fmap_app, fmap_cons. apply NoDup_cons. split; [by rewrite elem_of_app, elem_of_cons|done].
      * rewrite concat_app. cbn [concat]. rewrite <- !app_assoc in *. done.
      * rewrite concat_app. cbn [concat]. rewrite <- !app_assoc in *. done.
    + cbn [flat]. rewrite concat_app. cbn [concat]. by rewrite <- !app_assoc.
    + exists R1, r, R2, N1, l1, ((s, blk) :: l2), N2. done.
    + apply length_insert.
    + intros i Hne. by apply set_blk_ne.
    + cbn [inner dxb_blk x]. right. rewrite fmap_app, fmap_cons, elem_of_app. right. by left.
    + by apply (inserted_hash _ _ b' node_limit l1 e s blk l2).
Qed.

(** ** Splitting an index block *)

Lemma node_take b eo lim es k : dx_node b eo lim es -> (1 <= k <= length es)%nat ->
  dx_node (climit_set_count b eo (Z.of_nat k)) eo lim (take k es) /\ keeps b (climit_set_count b eo (Z.of_nat k)) eo (eo + 8 * lim).
Proof.
  intros [N1 N2 N3 N4 N5 N6 N7 N8] Hk. unfold climit_set_count. pose proof (wr_keeps 2 b (eo + 2) (Z.of_nat k) N1 ltac:(lia) ltac:(lia)) as K.
  split; [|apply (keeps_weaken _ _ _ _ _ _ K); lia]. split; try done.
  - apply K.
  - unfold climit_get_limit. by rewrite (keeps_rd _ _ _ _ _ _ K) by lia.
  - unfold climit_get_count. unfold block_ok in N1. rewrite rd_wr_eq by lia. rewrite length_take, Z.mod_small; [lia|]. cbn. lia.
  - rewrite length_take. lia.
  - intros i e [Hi Hik]%lookup_take_Some. destruct (N7 i e Hi) as [H1 H2]. unfold dx_entry_get_block, dx_entry_get_hash in *.
    split; [by rewrite (keeps_rd _ _ _ _ _ _ K) by lia|]. intros Hne. rewrite (keeps_rd _ _ _ _ _ _ K) by lia. by apply H2.
  - by apply Forall_take.
Qed.

(** Entries copied to another index block, whose limit and count are then set. *)
Lemma node_copy b eo lim es k nb b' : dx_node b eo lim es -> (k < length es)%nat -> zlen es - Z.of_nat k <= node_limit -> block_ok nb ->
  keeps (splice nb node_en (slice b (eo + 8 * Z.of_nat k) (8 * (zlen es - Z.of_nat k)))) b' node_en (node_en + 4) ->
  climit_get_limit b' node_en = node_limit -> climit_get_count b' node_en = zlen es - Z.of_nat k -> dx_node b' node_en node_limit (drop k es).
Proof.
  intros [N1 N2 N3 N4 N5 N6 N7 N8] Hk Hlim Hnb Hkeep Hl Hc. change node_limit with 511 in *. change node_en with 8 in *. unfold block_ok in N1, Hnb. split; try done.
  - apply Hkeep.
  - by rewrite length_drop, Hc, Nat2Z.inj_sub by lia.
  - rewrite length_drop. lia.
  - intros i e Hi. rewrite lookup_drop in Hi. pose proof (lookup_lt_Some _ _ _ Hi) as Hlt. destruct (N7 _ e Hi) as [H1 H2]. unfold dx_entry_get_block, dx_entry_get_hash in *.
    assert (forall o, 0 <= o -> o + 4 <= 8 * (zlen es - Z.of_nat k) -> 4 <= o -> rd 4 b' (8 + o) = rd 4 b (eo + 8 * Z.of_nat k + o)) as Hrd.
    { intros o Ho Ho1 Ho2. rewrite (keeps_rd _ _ _ _ _ _ Hkeep) by lia. rewrite !rd_slice, slice_splice_in; [by rewrite slice_slice by lia|lia|lia|lia|].
      rewrite length_slice; lia. }
    split.
    + rewrite <- H1. replace (8 + 8 * Z.of_nat i + 4) with (8 + (8 * Z.of_nat i + 4)) by lia. rewrite Hrd by lia. f_equal. lia.
    + intros Hne. rewrite <- H2 by lia. rewrite Hrd by lia. f_equal. lia.
  - by apply Forall_drop.
Qed.

Lemma set_blk_app_l d s i b : 0 <= i < zlen d -> set_blk (d ++ [s]) i b = set_blk d i b ++ [s].
Proof. intros Hi. unfold set_blk. apply insert_app_l. lia. Qed.

Lemma set_blk_new d s b : set_blk (d ++ [s]) (zlen d) b = d ++ [b].
Proof. unfold set_blk. rewrite Nat2Z.id, insert_app_r_alt by lia. by rewrite Nat.sub_diag. Qed.

Lemma length_set_blk d i b : length (set_blk d i b) = length d.
Proof. apply length_insert. Qed.

Context (append_rc : Z -> Z) (stale : Z -> block) (Happend : forall i, append_rc i = EOK) (Hstale : forall i, block_ok (stale i)).

Lemma append_dblk_ok d : append_dblk append_rc stale d = inr (d ++ [stale (zlen d)], zlen d).
Proof. unfold append_dblk. by rewrite Happend. Qed.

(** The same entries in an index with room at the position. *)
Record index_split (d : list block) (version : Z) (sh : shape) (F1 : list (Z * Z)) (e : Z * Z) (F2 : list (Z * Z)) (d' : list block) (p' : dx_path) (sh' : shape) : Prop := {
  is_idx : idx d' version sh';
  is_flat : flat sh' = F1 ++ e :: F2;
  is_inner : length d' = length d /\ inner sh' = inner sh \/ length d' = S (length d) /\ inner sh' ≡ₚ zlen d :: inner sh;
  is_at : at_leaf sh' (dx_cur p') F1 e F2;
  is_same : forall i, (i < length d)%nat -> Z.of_nat i ∉ 0 :: inner sh -> d' !! i = d !! i;
  is_room : climit_get_count (dxb_data d' (dx_cur p')) (dxb_entries (dx_cur p')) < climit_get_limit (dxb_data d' (dx_cur p')) (dxb_entries (dx_cur p'))
}.

(** The root becomes a tree of two levels. *)
Lemma split_flat d version F1 e F2 : idx d version (Flat (F1 ++ e :: F2)) -> zlen (F1 ++ e :: F2) = root_limit -> zlen d < U32_MOD ->
  exists d' p' sh', dx_split_index append_rc stale d (mk_dxp (mk_dxb 0 root_en (zlen F1)) None) = (EOK, d', p') /\ index_split d version (Flat (F1 ++ e :: F2)) F1 e F2 d' p' sh'.
Proof.
  intros [(root & E & Hv & Hf & Hl & Hn) Hver Hnd Hso H0] Hfull Hd. unfold dx_split_index, dx_cur. cbn [dx0 dx1 default dxb_entries dxb_position]. cbn [flat] in *.
  rewrite (dxb_data_ok d (mk_dxb 0 root_en (zlen F1)) root E), (nd_count _ _ _ _ Hn), (nd_limit _ _ _ _ Hn), Hfull, Z.eqb_refl. cbn [negb]. rewrite append_dblk_ok.
  pose proof (lookup_lt_Some _ _ _ E) as Hlt. set (es := F1 ++ e :: F2) in *. rewrite (set_blk_app_l d _ 0) by lia.
  change root_limit with 508 in *. change root_en with 32 in *. change node_limit with 511 in *. change node_en with 8 in *.
  set (nb := splice (stale (zlen d)) 0 _). assert (block_ok nb) as Hnb by (apply (splice_keeps (stale (zlen d)) 0); [apply Hstale|lia|cbn; lia]).
  pose proof Hn as [N1 _ _ N4 N5 _ _ _]. rewrite Hfull in N5.
  set (b1 := splice nb 8 (slice root 32 (8 * 508))). assert (zlen (slice root 32 (8 * 508)) = 4064) as Lsl by (apply length_slice; unfold block_ok in N1; cbn; lia).
  pose proof (splice_keeps nb 8 (slice root 32 (8 * 508)) Hnb ltac:(cbn; lia) ltac:(rewrite Lsl; cbn; lia)) as K1. fold b1 in K1.
  pose proof (wr_keeps 2 b1 8 511 (proj1 K1) ltac:(cbn; lia) ltac:(cbn; lia)) as K2. unfold climit_set_limit. set (b2 := wr 2 b1 _ _) in *. pose proof (proj1 K1) as O1. unfold block_ok in O1, Hnb.
  assert (dx_node b2 8 511 es) as Hnew.
  { apply (node_copy root 32 508 es 0 nb b2 Hn); [subst es; rewrite length_app; cbn; lia|change node_limit with 511; lia|done| | |]; change node_en with 8; change node_limit with 511.
    - rewrite Z.mul_0_r, Z.add_0_r, Z.sub_0_r, Hfull. apply (keeps_weaken _ _ _ _ _ _ K2); lia.
    - unfold climit_get_limit, b2. by rewrite rd_wr_eq by (cbn; lia).
    - unfold climit_get_count in *. rewrite (keeps_rd _ _ _ _ _ _ K2) by (cbn; lia). rewrite Z.sub_0_r, Hfull, <- N5, !rd_slice. unfold b1.
      rewrite slice_splice_in by (rewrite ?Lsl; cbn; lia). by rewrite slice_slice by (cbn; lia). }
  pose proof (wr_keeps 2 root (32 + 2) 1 N1 ltac:(cbn; lia) ltac:(cbn; lia)) as R1. unfold climit_set_count. set (r1 := wr 2 root _ _) in *. pose proof (proj1 R1) as P1.
  pose proof (wr_keeps 4 r1 (32 + 8 * 0 + 4) (zlen d) P1 ltac:(cbn; lia) ltac:(cbn; lia)) as R2. unfold dx_entry_set_block. set (r2 := wr 4 r1 _ _) in *. pose proof (proj1 R2) as P2.
  pose proof (wr_keeps 1 r2 30 1 P2 ltac:(lia) ltac:(lia)) as R3. set (r3 := wr 1 r2 _ _) in *. pose proof (proj1 R3) as P3. unfold block_ok in P1, P2, N1.
  change (32 + 8 * 0 + 4) with 36 in *.
  assert (dx_node r3 32 508 [(0, zlen d)]) as Hr.
  { split; try done; try lia.
    - unfold climit_get_limit in *. by rewrite (keeps_rd _ _ _ _ _ _ R3), (keeps_rd _ _ _ _ _ _ R2), (keeps_rd _ _ _ _ _ _ R1) by lia.
    - unfold climit_get_count. rewrite (keeps_rd _ _ _ _ _ _ R3), (keeps_rd _ _ _ _ _ _ R2) by lia. unfold r1. by rewrite rd_wr_eq by lia.
    - intros [|i] e' Hi; [|done]. injection Hi as <-. split; [|done]. unfold dx_entry_get_block. cbn [fst snd]. rewrite (keeps_rd _ _ _ _ _ _ R3) by lia. unfold r2. rewrite rd_wr_eq by lia. apply Z.mod_small. cbn. lia.
    - constructor; [cbn; lia|constructor]. }
  set (d0 := set_blk d 0 r3). assert (length d0 = length d) as Ld0 by apply length_set_blk. replace (zlen d) with (zlen d0) by lia. rewrite set_blk_new.
  assert ((d0 ++ [b2]) !! 0%nat = Some r3) as E0 by (rewrite lookup_app_l by lia; apply (set_blk_eq d 0); lia).
  assert ((d0 ++ [b2]) !! Z.to_nat (zlen d0) = Some b2) as En by (rewrite Nat2Z.id; by apply list_lookup_middle).
  eexists _, _, (Deep [(0, zlen d0)] [es]). split; [done|]. split; cbn [flat inner concat]; rewrite ?app_nil_r; try done.
  - split; cbn [flat inner concat]; rewrite ?app_nil_r; try done.
    + exists r3. split; [done|]. unfold rinfo_hash_version, rinfo_unused_flags, rinfo_indirect_levels in *.
      rewrite (keeps_rd _ _ _ _ _ _ R3), (keeps_rd _ _ _ _ _ _ R2), (keeps_rd _ _ _ _ _ _ R1) by lia. split; [done|].
      rewrite (keeps_rd _ _ _ _ _ _ R3), (keeps_rd _ _ _ _ _ _ R2), (keeps_rd _ _ _ _ _ _ R1) by lia. split; [done|]. split; [unfold r3; by rewrite rd_wr_eq by lia|].
      rewrite <- Ld0 in Hr. split; [done|]. constructor; [|constructor]. exists b2. done.
    + cbn. apply NoDup_cons. split; [rewrite list_elem_of_singleton; lia|apply NoDup_singleton].
  - right. rewrite length_app. cbn [length]. split; [lia|]. by rewrite Ld0.
  - exists [], (0, zlen d0), [], [], F1, F2, []. by rewrite app_nil_r.
  - intros i Hi Hne. rewrite lookup_app_l by lia. apply set_blk_ne. rewrite elem_of_cons in Hne. lia.
  - unfold dx_cur. cbn [dx1 default from_option id dxb_entries]. rewrite (dxb_data_ok _ (mk_dxb (zlen d0) 8 (zlen F1)) b2 En), (nd_count _ _ _ _ Hnew), (nd_limit _ _ _ _ Hnew), Hfull. done.
Qed.

Lemma children_bound d rs ns r : Forall2 (child_node d) rs ns -> r ∈ rs -> (Z.to_nat r.2 < length d)%nat.
Proof. intros Hc Hr. apply list_elem_of_lookup in Hr as [i Hr]. destruct (Forall2_lookup_l _ _ _ _ _ Hc Hr) as (es & _ & b & E & _). by apply lookup_lt_Some in E. Qed.

(** The two halves of an index block of the second level. *)
Lemma halves_ok b es nb : dx_node b node_en node_limit es -> zlen es = node_limit -> block_ok nb ->
  let b1 := splice nb node_en (slice b (node_en + 8 * 255) (8 * 256)) in
  let b2 := climit_set_limit (climit_set_count b1 node_en 256) node_en node_limit in
  dx_node b2 node_en node_limit (drop 255 es).
Proof.
  intros Hn Hfull Hnb b1 b2. change node_limit with 511 in *. change node_en with 8 in *. pose proof (nd_ok _ _ _ _ Hn) as N1. unfold block_ok in N1.
  assert (zlen (slice b (8 + 8 * 255) (8 * 256)) = 2048) as Lsl by (apply length_slice; lia).
  pose proof (splice_keeps nb 8 _ Hnb ltac:(lia) ltac:(rewrite Lsl; lia)) as K1. fold b1 in K1. pose proof (proj1 K1) as O1. unfold climit_set_limit, climit_set_count in b2.
  pose proof (wr_keeps 2 b1 (8 + 2) 256 O1 ltac:(lia) ltac:(lia)) as K2. set (b11 := wr 2 b1 _ _) in *. pose proof (proj1 K2) as O2.
  pose proof (wr_keeps 2 b11 8 511 O2 ltac:(lia) ltac:(lia)) as K3. fold b2 in K3. unfold block_ok in O1, O2.
  apply (node_copy b 8 511 es 255 nb b2 Hn); change node_en with 8; change node_limit with 511; [lia|lia|done| | |].
  - rewrite Hfull. change (511 - Z.of_nat 255) with 256. change (8 + 8 * Z.of_nat 255) with (8 + 8 * 255). fold b1. refine (bkeeps_trans b1 b11 b2 _ _ _ _ _ _ K2 K3 _ _ _ _); lia.
  - unfold climit_get_limit, b2. by rewrite rd_wr_eq by lia.
  - unfold climit_get_count. rewrite (keeps_rd _ _ _ _ _ _ K3) by lia. unfold b11. rewrite rd_wr_eq by lia. rewrite Hfull. done.
Qed.

(** A split position: where the entry is now. *)
Lemma halves_at R1 r R2 N1 l1 e l2 N2 h n :
  length R1 = length N1 -> zlen (l1 ++ e :: l2) = node_limit ->
  at_leaf (Deep (R1 ++ r :: (h, n) :: R2) (N1 ++ take 255 (l1 ++ e :: l2) :: drop 255 (l1 ++ e :: l2) :: N2))
    (if 255 <=? zlen l1 then mk_dxb n node_en (zlen l1 - 255) else mk_dxb r.2 node_en (zlen l1)) (concat N1 ++ l1) e (l2 ++ concat N2).
Proof.
  intros HR Hfull. change node_limit with 511 in *. rewrite length_app in Hfull. cbn [length] in Hfull. destruct (Z.leb_spec 255 (zlen l1)) as [Hle|Hgt]; cbn [at_leaf].
  - exists (R1 ++ [r]), (h, n), R2, (N1 ++ [take 255 l1]), (drop 255 l1), l2, N2. rewrite take_app_le, drop_app_le by lia. rewrite !length_app, length_drop, concat_app. cbn [length concat].
    rewrite app_nil_r. split_and!; try (rewrite <- ?app_assoc; done); try lia.
    + by rewrite <- app_assoc, take_drop.
    + f_equal. lia.
  - exists R1, r, ((h, n) :: R2), N1, l1, (take (254 - length l1) l2), (drop (254 - length l1) l2 :: N2). rewrite take_app_ge, drop_app_ge by lia.
    replace (255 - length l1)%nat with (S (254 - length l1)) by lia. cbn [take drop concat]. split_and!; try done. by rewrite app_assoc, take_drop.
Qed.

Lemma split_deep d version R1 r R2 N1 l1 e l2 N2 :
  let sh := Deep (R1 ++ r :: R2) (N1 ++ (l1 ++ e :: l2) :: N2) in
  idx d version sh -> length R1 = length N1 -> zlen (l1 ++ e :: l2) = node_limit -> zlen (R1 ++ r :: R2) < root_limit -> zlen d < U32_MOD ->
  exists d' p' sh', dx_split_index append_rc stale d (mk_dxp (mk_dxb 0 root_en (zlen R1)) (Some (mk_dxb r.2 node_en (zlen l1)))) = (EOK, d', p') /\
    index_split d version sh (concat N1 ++ l1) e (l2 ++ concat N2) d' p' sh'.
Proof.
  intros sh [(root & E & Hv & Hf & Hl & Hn & Hc) Hver Hnd Hso H0] HR Hfull Hroom Hd. pose proof (halves_at R1 r R2 N1 l1 e l2 N2) as Hat. set (es := l1 ++ e :: l2) in *.
  pose proof (fun r' => children_bound d _ _ r' Hc) as Hbd. pose proof (nd_range _ _ _ _ Hn) as Hrg. rewrite Forall_forall in Hrg. pose proof Hc as Hc0.
  apply Forall2_app_inv in Hc as [Hc1 Hc]; [|done]. apply Forall2_cons in Hc as [(b & Ed & Hb & Hh) Hc2].
  unfold dx_split_index, dx_cur. cbn [dx0 dx1 default from_option id dxb_entries dxb_position dxb_blk].
  rewrite (dxb_data_ok d (mk_dxb r.2 node_en (zlen l1)) b Ed), (nd_count _ _ _ _ Hb), (nd_limit _ _ _ _ Hb), Hfull, Z.eqb_refl. cbn [negb].
  rewrite (dxb_data_ok d (mk_dxb 0 root_en (zlen R1)) root E), (nd_count _ _ _ _ Hn), (nd_limit _ _ _ _ Hn), (proj2 (Z.eqb_neq _ _)) by lia. rewrite append_dblk_ok.
  pose proof (lookup_lt_Some _ _ _ E) as Hlt. pose proof (lookup_lt_Some _ _ _ Ed) as Hltr. pose proof (Hrg r ltac:(rewrite elem_of_app, elem_of_cons; tauto)) as Hr.
  rewrite (dxb_data_ok (d ++ _) (mk_dxb r.2 node_en (zlen l1)) b) by (cbn [dxb_blk]; rewrite lookup_app_l by lia; done). change (node_limit / 2) with 255. change (node_limit - 255) with 256.
  destruct (lookup_lt_is_Some_2 es 255%nat ltac:(change node_limit with 511 in Hfull; lia)) as [em Em].
  pose proof (proj2 (nd_entry _ _ _ _ Hb 255%nat em Em)) as Hm. change (Z.of_nat 255) with 255 in Hm. rewrite Hm by done. clear Hm.
  set (nb := splice (stale (zlen d)) 0 _). assert (block_ok nb) as Hnb by (apply (splice_keeps (stale (zlen d)) 0); [apply Hstale|lia|cbn; lia]).
  pose proof (halves_ok b es nb Hb Hfull Hnb) as Hright. cbn zeta in Hright. set (rb := climit_set_limit _ _ _) in *.
  destruct (node_take b node_en node_limit es 255 Hb ltac:(change node_limit with 511 in Hfull; lia)) as [Hleft _]. change (Z.of_nat 255) with 255 in Hleft. set (lb := climit_set_count b node_en 255) in *.
  rewrite set_blk_app_l by lia. set (d0 := set_blk d r.2 lb). assert (length d0 = length d) as Ld0 by apply length_set_blk. replace (zlen d) with (zlen d0) in * by lia. rewrite set_blk_new.
  assert (r.2 <> 0) as Hr0.
  { cbn [inner sh] in Hnd. apply NoDup_cons in Hnd as [Hnd _]. intros Eq. apply Hnd. rewrite <- Eq, fmap_app, fmap_cons, elem_of_app. right. by left. }
  assert ((d0 ++ [rb]) !! 0%nat = Some root) as E1 by (rewrite lookup_app_l by lia; unfold d0; rewrite set_blk_ne by lia; done).
  pose proof (nd_range _ _ _ _ Hb) as Hrb. rewrite Forall_forall in Hrb. pose proof (Hrb em (list_elem_of_lookup_2 _ _ _ Em)) as Hem.
  destruct (node_insert (d0 ++ [rb]) (mk_dxb 0 root_en (zlen R1)) root root_limit R1 r R2 em.1 (zlen d0) E1 Hn eq_refl Hroom ltac:(lia) ltac:(lia)) as (root' & -> & Hn' & Hk). cbn [dxb_blk dxb_entries] in *.
  rewrite (set_blk_app_l d0 rb 0) by lia. set (d' := set_blk d0 0 root' ++ [rb]).
  assert (d' !! 0%nat = Some root') as Er by (unfold d'; rewrite lookup_app_l by (rewrite length_set_blk; lia); apply (set_blk_eq d0 0); lia).
  assert (d' !! Z.to_nat (zlen d0) = Some rb) as En by (unfold d'; rewrite Nat2Z.id; apply list_lookup_middle; by rewrite length_set_blk).
  assert (d' !! Z.to_nat r.2 = Some lb) as El.
  { unfold d'. rewrite lookup_app_l by (rewrite length_set_blk; lia). rewrite set_blk_ne by lia. unfold d0. apply set_blk_eq. lia. }
  assert (forall i : nat, (i < length d)%nat -> Z.of_nat i <> 0 -> Z.of_nat i <> r.2 -> d' !! i = d !! i) as Hsame.
  { intros i Hi Hi0 Hir. unfold d'. rewrite lookup_app_l by (rewrite length_set_blk; lia). rewrite set_blk_ne by lia. unfold d0. apply set_blk_ne. lia. }
  exists d', (mk_dxp (mk_dxb 0 root_en (zlen R1)) (Some (if 255 <=? zlen l1 then mk_dxb (zlen d0) node_en (zlen l1 - 255) else mk_dxb r.2 node_en (zlen l1)))),
    (Deep (R1 ++ r :: (em.1, zlen d0) :: R2) (N1 ++ take 255 es :: drop 255 es :: N2)).
  split; [done|]. cbn [sh inner flat] in *. rewrite fmap_app, fmap_cons in Hnd.
  assert (snd <$> (R1 ++ r :: (em.1, zlen d0) :: R2) ≡ₚ zlen d0 :: (snd <$> (R1 ++ r :: R2))) as Hperm by (rewrite !fmap_app, !fmap_cons; cbn [snd]; solve_Permutation).
  assert (concat (N1 ++ take 255 es :: drop 255 es :: N2) = concat (N1 ++ es :: N2)) as Hcc by (rewrite !concat_app; cbn [concat]; by rewrite (app_assoc (take 255 es)), take_drop).
  assert (forall r', r' ∈ R1 \/ r' ∈ R2 -> d' !! Z.to_nat r'.2 = d !! Z.to_nat r'.2) as Hfr.
  { intros r' Hr'. assert (r' ∈ R1 ++ r :: R2) as Hin by (rewrite elem_of_app, elem_of_cons; tauto). pose proof (Hrg _ Hin). pose proof (Hbd _ Hin).
    apply NoDup_cons in Hnd as [Hnd0 Hnd]. apply NoDup_app in Hnd as (_ & Hd1 & Hd2%NoDup_cons). rewrite elem_of_app, elem_of_cons in Hnd0.
    apply Hsame; [lia| |]; rewrite Z2Nat.id by lia; intros Eq; destruct Hr' as [Hr'|Hr']; apply (list_elem_of_fmap_2 snd) in Hr'; rewrite Eq in Hr'; try tauto.
    apply (Hd1 _ Hr'). by left. }
  split; cbn [inner flat].
  - split; cbn [inner flat]; try done.
    + exists root'. split; [done|]. unfold rinfo_hash_version, rinfo_unused_flags, rinfo_indirect_levels in *. change root_en with 32 in *. rewrite !(keeps_rd _ _ _ _ _ _ Hk) by lia. split_and!; try done.
      apply Forall2_app; [by apply (children_frame d); [|intros r' Hr'; apply Hfr; by left]|].
      constructor; [exists lb; split_and!; [done|done|]; by destruct es|]. constructor; [|by apply (children_frame d); [|intros r' Hr'; apply Hfr; by right]].
      exists rb. split_and!; [done|done|]. by rewrite head_lookup, lookup_drop, Nat.add_0_r, Em.
    + rewrite Hperm, fmap_app, fmap_cons. apply NoDup_cons in Hnd as [Hnd0 Hnd]. assert (zlen d0 ∉ (snd <$> R1) ++ r.2 :: (snd <$> R2)) as Hni.
      { rewrite <- fmap_cons, <- fmap_app. intros (r' & Eq & Hin)%list_elem_of_fmap. pose proof (Hrg _ Hin). pose proof (Hbd _ Hin). lia. }
      apply NoDup_cons. split; [rewrite elem_of_cons; intros [Eq|Hin]; [lia|by apply Hnd0]|]. by apply NoDup_cons.
    + by rewrite Hcc.
    + by rewrite Hcc.
  - rewrite Hcc, concat_app. cbn [concat]. unfold es. by rewrite <- !app_assoc.
  - right. unfold d'. rewrite length_app, length_set_blk. cbn [length]. split; [lia|]. by replace (zlen d) with (zlen d0) by lia.
  - by apply Hat.
  - intros i Hi Hni. unfold sh in Hni. cbn [inner] in Hni. rewrite elem_of_cons, fmap_app, fmap_cons, elem_of_app, elem_of_cons in Hni. apply Hsame; [done|tauto|tauto].
  - cbn [dx_cur dx1 default from_option id]. destruct (255 <=? zlen l1); cbn [dxb_entries].
    + rewrite (dxb_data_ok d' (mk_dxb (zlen d0) node_en (zlen l1 - 255)) rb En), (nd_count _ _ _ _ Hright), (nd_limit _ _ _ _ Hright), length_drop. change node_limit with 511 in *. lia.
    + rewrite (dxb_data_ok d' (mk_dxb r.2 node_en (zlen l1)) lb El), (nd_count _ _ _ _ Hleft), (nd_limit _ _ _ _ Hleft), length_take. change node_limit with 511 in *. lia.
Qed.

(** Room for another index block in the root. *)
Definition index_room (sh : shape) : Prop := match sh with Flat _ => True | Deep rs _ => zlen rs < root_limit end.

Lemma split_index_stay d version sh p F1 e F2 : idx d version sh -> idx_at sh p F1 e F2 ->
  climit_get_limit (dxb_data d (dx_cur p)) (dxb_entries (dx_cur p)) <> climit_get_count (dxb_data d (dx_cur p)) (dxb_entries (dx_cur p)) ->
  dx_split_index append_rc stale d p = (EOK, d, p) /\ index_split d version sh F1 e F2 d p sh.
Proof.
  intros Hi Hat Hne. pose proof (idx_at_leaf _ _ _ _ _ Hat) as Hat'. destruct (at_leaf_node _ _ _ _ _ _ _ Hi Hat') as (b & lim & l1 & l2 & E & Hn & Hp).
  split; [unfold dx_split_index; by rewrite (proj2 (Z.eqb_neq _ _) Hne)|]. split; try done; [by apply (at_leaf_flat _ (dx_cur p))|by left|].
  rewrite (dxb_data_ok _ _ _ E) in *. rewrite (nd_count _ _ _ _ Hn), (nd_limit _ _ _ _ Hn) in *. pose proof (nd_len _ _ _ _ Hn). lia.
Qed.

Lemma dx_split_index_ok d version sh p F1 e F2 : idx d version sh -> idx_at sh p F1 e F2 -> index_room sh -> zlen d < U32_MOD ->
  exists d' p' sh', dx_split_index append_rc stale d p = (EOK, d', p') /\ index_split d version sh F1 e F2 d' p' sh'.
Proof.
  intros Hi Hat Hroom Hd.
  destruct (Z.eq_dec (climit_get_limit (dxb_data d (dx_cur p)) (dxb_entries (dx_cur p))) (climit_get_count (dxb_data d (dx_cur p)) (dxb_entries (dx_cur p)))) as [Eq|Hne];
    [|exists d, p, sh; by apply split_index_stay].
  pose proof Hi as [(root & E & _ & _ & Hsh) _ _ _ _]. destruct sh as [es|rs ns]; cbn [idx_at] in Hat.
  - destruct Hat as [-> ->]. apply split_flat; [done| |done]. destruct Hsh as [_ Hn]. unfold dx_cur in Eq. cbn [dx1 dx0 default from_option id dxb_entries] in Eq.
    rewrite (dxb_data_ok d (mk_dxb 0 root_en (zlen F1)) root E), (nd_count _ _ _ _ Hn), (nd_limit _ _ _ _ Hn) in Eq. done.
  - destruct Hat as (R1 & r & R2 & N1 & l1 & l2 & N2 & -> & -> & Hl & -> & -> & ->). apply split_deep; try done. destruct Hsh as (_ & _ & Hc).
    apply Forall2_app_inv in Hc as [_ Hc]; [|done]. apply Forall2_cons in Hc as [(b & Ed & Hb & _) _]. unfold dx_cur in Eq. cbn [dx1 dx0 default from_option id dxb_entries] in Eq.
    rewrite (dxb_data_ok d (mk_dxb r.2 node_en (zlen l1)) b Ed), (nd_count _ _ _ _ Hb), (nd_limit _ _ _ _ Hb) in Eq. done.
Qed.

End index.
