(* ===== verification/Ext4Front.v ===== *)
(** * The entries in front of a directory index

    Every block of an indexed directory also reads as a block of directory
    entries: the root as the entries [.] and [..], the other index blocks as
    one free entry.  The changes of the index ([Ext4Htree]) leave these bytes
    as they are, so that the directory iterator can walk over all blocks. *)

From S2P Require Import Prelude Bio Sjd Ext4Extent Ext4Map Ext4Dir Ext4Hash Ext4Htree Ext4Index.

(** ** Equal first bytes *)

Definition low (k : Z) (b b' : block) : Prop := k <= zlen b' /\ forall o n, 0 <= o -> o + n <= k -> slice b' o n = slice b o n.

Lemma low_refl k b : k <= zlen b -> low k b b.
Proof. by split. Qed.

Lemma low_trans k b1 b2 b3 : low k b1 b2 -> low k b2 b3 -> low k b1 b3.
Proof. intros [_ H1] [H2 H3]. split; [done|]. intros o n Ho Hn. by rewrite H3, H1. Qed.

Lemma low_splice k b p bs : 0 <= k <= p -> k <= zlen b -> low k b (splice b p bs).
Proof.
  intros Hk Hb. split; [unfold splice; rewrite !length_app, length_take; lia|]. intros o n Ho Hn. unfold slice, splice. apply list_eq. intros i.
  destruct (decide (i < Z.to_nat n)%nat); [|rewrite !lookup_take_ge by lia; done]. rewrite !lookup_take_lt, !lookup_drop by lia.
  rewrite lookup_app_l by (rewrite length_take; lia). by rewrite lookup_take_lt by lia.
Qed.

Lemma low_then_wr k n b0 b p x : 0 <= k <= p -> low k b0 b -> low k b0 (wr n b p x).
Proof. intros Hk Hl. apply (low_trans k b0 b); [done|]. apply low_splice; [done|]. apply Hl. Qed.

Lemma low_then_splice k b0 b p bs : 0 <= k <= p -> low k b0 b -> low k b0 (splice b p bs).
Proof. intros Hk Hl. apply (low_trans k b0 b); [done|]. apply low_splice; [done|]. apply Hl. Qed.

(** The bytes used by the entries in front of the index in block [i]. *)
Definition front (i : Z) : Z := if i =? 0 then 24 else 8.

(** All blocks of [d] keep them in [d']. *)
Definition lows (d d' : list block) : Prop := forall i (b : block), 0 <= i -> d !! Z.to_nat i = Some b -> front i <= zlen b -> exists b' : block, d' !! Z.to_nat i = Some b' /\ low (front i) b b'.

Lemma lows_refl d : lows d d.
Proof. intros i b Hi E Hf. exists b. split; [done|]. by apply low_refl. Qed.

Lemma lows_trans d1 d2 d3 : lows d1 d2 -> lows d2 d3 -> lows d1 d3.
Proof.
  intros H1 H2 i b Hi E Hf. destruct (H1 i b Hi E Hf) as (b2 & E2 & L2). destruct (H2 i b2 Hi E2 (proj1 L2)) as (b3 & E3 & L3). exists b3. split; [done|]. by apply (low_trans _ b b2).
Qed.

Lemma lows_app d bs : lows d (d ++ bs).
Proof. intros i b Hi E Hf. exists b. split; [by apply lookup_app_l_Some|by apply low_refl]. Qed.

Lemma lows_set d i b b' : 0 <= i -> d !! Z.to_nat i = Some b -> low (front i) b b' -> lows d (set_blk d i b').
Proof.
  intros Hi E Hl j c Hj Ec Hf. unfold set_blk. destruct (Z.eq_dec j i) as [->|Hne].
  - exists b'. split; [apply list_lookup_insert_eq; by apply lookup_lt_Some in E|]. assert (c = b) as -> by congruence. done.
  - exists c. rewrite list_lookup_insert_ne by lia. split; [done|by apply low_refl].
Qed.

(** ** Changes of the index *)

Lemma lows_insert d x s blk b : 0 <= dxb_blk x -> d !! Z.to_nat (dxb_blk x) = Some b -> front (dxb_blk x) <= zlen b -> front (dxb_blk x) <= dxb_entries x -> 0 <= dxb_position x ->
  lows d (dx_insert_entry d x s blk).
Proof.
  intros Hb E Hf He Hp. unfold dx_insert_entry. rewrite (dxb_data_ok _ _ _ E). apply (lows_set d _ b); [done..|].
  assert (8 <= front (dxb_blk x)) by (unfold front; destruct (_ =? _); lia). unfold climit_set_count, dx_entry_set_hash, dx_entry_set_block.
  repeat (apply low_then_wr; [lia|]). apply low_then_splice; [lia|]. by apply low_refl.
Qed.

(** The bytes of a free entry that takes the block. *)
Definition fake_entry : list Z := [0; 0; 0; 0; 0; 16; 0; 0].

Section front.
Context (append_rc : Z -> Z) (stale : Z -> block) (Happend : forall i, append_rc i = EOK) (Hstale : forall i, block_ok (stale i)).

(** A path as the search returns it. *)
Definition path_ok (d : list block) (p : dx_path) : Prop :=
  dxb_blk (dx0 p) = 0 /\ dxb_entries (dx0 p) = root_en /\ 0 <= dxb_position (dx0 p) /\ (exists b : block, d !! 0%nat = Some b /\ 24 <= zlen b) /\
  match dx1 p with
  | Some n => 0 < dxb_blk n < zlen d /\ dxb_entries n = node_en /\ 0 <= dxb_position n /\ exists b : block, d !! Z.to_nat (dxb_blk n) = Some b /\ 8 <= zlen b
  | None => True
  end.

Lemma split_index_lows d p d' p' : path_ok d p -> dx_split_index append_rc stale d p = (EOK, d', p') ->
  lows d d' /\ (length d' = length d \/ exists b, length d' = S (length d) /\ d' !! length d = Some b /\ low 8 (splice (stale (zlen d)) 0 fake_entry) b).
Proof.
  destruct p as [[b0 e0 p0] n]. intros (H1 & H2 & H3 & (rb & Er & Hr) & Hn) E. cbn in H1, H2, H3, Hn. subst b0 e0. unfold dx_split_index in E. cbn zeta in E.
  destruct (negb _) in E; [injection E as <- <-; split; [apply lows_refl|by left]|]. cbn [dx0 dx1] in E.
  assert (8 <= zlen (splice (stale (zlen d)) 0 fake_entry)) as Hfk by (pose proof (Hstale (zlen d)) as Hs; unfold block_ok in Hs; rewrite length_splice; [lia|lia|cbn; lia]).
  destruct n as [[bn en pn]|].
  - destruct Hn as (G1 & G2 & G3 & nb & En & Gn). cbn in G1, G2, G3, En. subst en. destruct (_ =? _) in E; [done|]. rewrite (append_dblk_ok append_rc stale Happend) in E. cbn [dxb_blk dxb_entries dxb_position dx_cur dx1 default from_option id] in E.
    injection E as <- <-. assert ((d ++ [stale (zlen d)]) !! Z.to_nat bn = Some nb) as En' by (by apply lookup_app_l_Some).
    rewrite (dxb_data_ok (d ++ [stale (zlen d)]) (mk_dxb bn node_en pn) nb En'), (dxb_data_ok d (mk_dxb bn node_en pn) nb En). set (bl := climit_set_count nb _ _). set (br := climit_set_limit _ _ _).
    assert (low 8 nb bl) as L1 by (apply low_then_wr; [unfold node_en; lia|by apply low_refl]).
    assert (low 8 (splice (stale (zlen d)) 0 fake_entry) br) as L2.
    { unfold br, climit_set_limit, climit_set_count. do 2 (apply low_then_wr; [unfold node_en; lia|]). apply low_then_splice; [unfold node_en; lia|]. by apply low_refl. }
    clearbody bl br. rewrite (set_blk_app_l d) by lia. rewrite <- (length_set_blk d bn bl), set_blk_new, length_set_blk. set (d1 := set_blk d bn bl ++ [br]).
    assert (lows d d1) as Ld1. { apply (lows_trans d (set_blk d bn bl)); [|apply lows_app]. apply (lows_set d bn nb bl); [lia|done|]. unfold front. by rewrite (proj2 (Z.eqb_neq bn 0)) by lia. }
    assert (length d1 = S (length d)) as Hl1 by (unfold d1; rewrite length_app, length_set_blk; cbn; lia).
    destruct (Ld1 0 rb ltac:(lia) Er Hr) as (rb' & Er' & Lr').
    assert (lows d1 (dx_insert_entry d1 (mk_dxb 0 root_en p0) (dx_entry_get_hash nb node_en (climit_get_count nb node_en / 2)) (zlen d))) as Ld2.
    { apply (lows_insert d1 (mk_dxb 0 root_en p0) _ _ rb'); cbn [dxb_blk dxb_entries dxb_position]; [lia|done|apply Lr'|unfold front, root_en; cbn; lia|done]. }
    split; [by apply (lows_trans d d1)|]. right. assert (d1 !! Z.to_nat (zlen d) = Some br) as Enew. { rewrite Nat2Z.id. unfold d1. rewrite lookup_app_r by (rewrite length_set_blk; lia). by rewrite length_set_blk, Nat.sub_diag. }
    destruct (Ld2 (zlen d) br ltac:(lia) Enew) as (b' & Eb' & Lb'); [unfold front; destruct (_ =? _) eqn:Ez; [apply Z.eqb_eq in Ez; lia|apply L2]|].
    assert (front (zlen d) = 8) as Ef by (unfold front; rewrite (proj2 (Z.eqb_neq _ _)) by lia; done). rewrite Ef in Lb'. rewrite Nat2Z.id in Eb'. exists b'. split_and!; [|done|by apply (low_trans 8 _ br)].
    unfold dx_insert_entry. by rewrite length_set_blk.
  - rewrite (append_dblk_ok append_rc stale Happend) in E. cbn [dxb_blk dxb_entries dxb_position dx_cur dx0 dx1 default from_option id] in E. injection E as <- <-.
    rewrite (dxb_data_ok d (mk_dxb 0 root_en p0) rb Er). set (rb' := wr 1 _ 30 1). set (br := climit_set_limit _ _ _).
    assert (low 24 rb rb') as L1. { unfold rb', dx_entry_set_block, climit_set_count. repeat (apply low_then_wr; [unfold root_en; lia|]). by apply low_refl. }
    assert (low 8 (splice (stale (zlen d)) 0 fake_entry) br) as L2. { unfold br, climit_set_limit. apply low_then_wr; [unfold node_en; lia|]. apply low_then_splice; [unfold node_en; lia|]. by apply low_refl. }
    clearbody rb' br. assert (0 < zlen d) by (apply lookup_lt_Some in Er; lia). rewrite (set_blk_app_l d) by lia. rewrite <- (length_set_blk d 0 rb'), set_blk_new, length_set_blk. split.
    + apply (lows_trans d (set_blk d 0 rb')); [|apply lows_app]. by apply (lows_set d 0 rb rb').
    + right. exists br. rewrite length_app, length_set_blk. cbn [length]. split_and!; [lia| |done]. rewrite lookup_app_r by (rewrite length_set_blk; lia). by rewrite length_set_blk, Nat.sub_diag.
Qed.

(** ** The entries *)

Definition fake_dent : dent := mk_dent 0 4096 0 [].

Record frame_ok (d : list block) (sh : shape) : Prop := {
  fr_root : exists (b : block) dot dotdot, d !! 0%nat = Some b /\ dir_block b [dot; dotdot] /\ d_len dot = 12 /\ d_name dot = [46] /\ d_name dotdot = [46; 46] /\ d_ino dot <> 0 /\ d_ino dotdot <> 0;
  fr_inner i : i ∈ inner sh -> exists b : block, d !! Z.to_nat i = Some b /\ dir_block b [fake_dent]
}.

Lemma dent_at_low k b b' o x : low k b b' -> 0 <= o -> o + 8 + zlen (d_name x) <= k -> dent_at b o x -> dent_at b' o x.
Proof.
  intros [_ Hl] Ho Hk [H1 H2 H3 H4 H5]. unfold en_get_inode, en_get_entry_len, en_get_name_len, en_get_inode_type in *.
  split; unfold en_get_inode, en_get_entry_len, en_get_name_len, en_get_inode_type; rewrite ?rd_slice, ?Hl by (cbn; lia); rewrite <- ?rd_slice; done.
Qed.

Lemma dots_low b b' dot dotdot : low 24 b b' -> block_ok b' -> dir_block b [dot; dotdot] -> d_len dot = 12 -> d_name dot = [46] -> d_name dotdot = [46; 46] -> dir_block b' [dot; dotdot].
Proof.
  intros Hl Hb' [Hb (A1 & O1 & A2 & O2 & He)] Hlen Hn1 Hn2. split; [done|]. cbn [dents]. split_and!; try done; [apply (dent_at_low 24 b); rewrite ?Hn1; cbn; done || lia|].
  rewrite Hlen in *. apply (dent_at_low 24 b); rewrite ?Hn2; cbn; done || lia.
Qed.

Lemma fake_low b b' : low 8 b b' -> block_ok b' -> dent_at b 0 fake_dent -> dir_block b' [fake_dent].
Proof.
  intros Hl Hb' Hat. split; [done|]. cbn [dents]. split_and!; [apply (dent_at_low 8 b); done|split; done|done].
Qed.

Lemma fake_new b : block_ok b -> dent_at (splice b 0 fake_entry) 0 fake_dent.
Proof.
  intros Hb. unfold block_ok in Hb. assert (forall o n, 0 <= o -> o + n <= 8 -> slice (splice b 0 fake_entry) o n = slice fake_entry o n) as Hs.
  { intros o n Ho Hn. rewrite <- (Z.add_0_l o) at 1. apply slice_splice_in; cbn; lia. }
  split; unfold en_get_inode, en_get_entry_len, en_get_name_len, en_get_inode_type; rewrite ?rd_slice, ?Hs by (cbn; lia); done.
Qed.

(** Every index block of an index is a block. *)
Lemma idx_block_ok d version sh i : idx d version sh -> i ∈ 0 :: inner sh -> exists b : block, d !! Z.to_nat i = Some b /\ block_ok b.
Proof.
  intros [(root & E & _ & _ & Hsh) _ _ _ _] [->|Hi]%elem_of_cons.
  - exists root. split; [done|]. destruct sh as [es|rs ns]; [destruct Hsh as [_ Hn]|destruct Hsh as (_ & Hn & _)]; apply Hn.
  - destruct sh as [es|rs ns]; [by apply not_elem_of_nil in Hi|]. destruct Hsh as (_ & _ & Hc). cbn [inner] in Hi. apply list_elem_of_fmap in Hi as (r & -> & Hr). apply list_elem_of_lookup in Hr as [k Hr].
    destruct (Forall2_lookup_l _ _ _ _ _ Hc Hr) as (n & _ & b & Eb & Hn & _). exists b. split; [done|apply Hn].
Qed.

Lemma frame_lows d d' version sh sh' : frame_ok d sh -> lows d d' -> idx d' version sh' -> (forall i, i ∈ inner sh -> 0 < i) ->
  (forall i, i ∈ inner sh' -> i ∈ inner sh \/ exists b : block, d' !! Z.to_nat i = Some b /\ dent_at b 0 fake_dent) -> frame_ok d' sh'.
Proof.
  intros [(b & dot & dotdot & E & Hb & H1 & H2 & H3 & H4 & H5) Hin] Hl Hi Hpos Hnew. split.
  - destruct (idx_block_ok d' version sh' 0 Hi ltac:(by left)) as (b' & E' & Hb'). destruct (Hl 0 b ltac:(lia) E ltac:(destruct Hb as [Hb _]; unfold block_ok, front in *; cbn; lia)) as (b1 & E1 & L1).
    assert (b1 = b') as -> by (assert (Some b1 = Some b') as [= ->]; [rewrite <- E1, <- E'|]; done). exists b', dot, dotdot. split_and!; try done. by apply (dots_low b).
  - intros i Hi'. destruct (idx_block_ok d' version sh' i Hi ltac:(by right)) as (b' & E' & Hb'). exists b'. split; [done|]. destruct (Hnew i Hi') as [Hold|(b1 & E1 & Hat)].
    + specialize (Hpos i Hold). destruct (Hin i Hold) as (b0 & E0 & Hb0). destruct (Hl i b0 ltac:(lia) E0) as (b1 & E1 & L1); [destruct Hb0 as [Hb0 _]; unfold block_ok, front in *; destruct (_ =? _); lia|].
      assert (b1 = b') as -> by (assert (Some b1 = Some b') as [= ->]; [rewrite <- E1, <- E'|]; done). unfold front in L1. rewrite (proj2 (Z.eqb_neq i 0)) in L1 by lia. apply (fake_low b0); [done|done|]. apply Hb0.
    + assert (b1 = b') as -> by (assert (Some b1 = Some b') as [= ->]; [rewrite <- E1, <- E'|]; done). apply (fake_low b'); [apply low_refl; unfold block_ok in Hb'; lia|done|done].
Qed.

Lemma frame_same d d' sh : frame_ok d sh -> (forall i, i ∈ 0 :: inner sh -> d' !! Z.to_nat i = d !! Z.to_nat i) -> frame_ok d' sh.
Proof.
  intros [(b & dot & dotdot & E & H) Hin] Hd. split.
  - exists b, dot, dotdot. split; [|done]. rewrite <- E. apply (Hd 0). by left.
  - intros i Hi. destruct (Hin i Hi) as (b1 & E1 & H1). exists b1. split; [|done]. rewrite <- E1. apply Hd. by right.
Qed.

Lemma frame_insert d version sh x F1 e F2 s blk sh' : idx d version sh -> frame_ok d sh -> (forall i, i ∈ inner sh -> 0 < i) -> at_leaf sh x F1 e F2 ->
  idx (dx_insert_entry d x s blk) version sh' -> inner sh' = inner sh -> frame_ok (dx_insert_entry d x s blk) sh'.
Proof.
  intros Hi Hf Hin Hat Hi' Es. pose proof (at_leaf_blk _ _ _ _ _ Hat) as Hx. destruct (idx_block_ok d version sh _ Hi Hx) as (b & E & Hb). unfold block_ok in Hb.
  apply (frame_lows d _ version sh sh'); try done; [|intros i; rewrite Es; tauto].
  assert (front (dxb_blk x) <= dxb_entries x /\ 0 <= dxb_position x /\ 0 <= dxb_blk x) as (H1 & H2 & H3).
  { destruct sh as [es|rs ns]; cbn [at_leaf] in Hat; [destruct Hat as [_ ->]; cbn; unfold root_en; lia|]. destruct Hat as (R1 & r & R2 & N1 & l1 & l2 & N2 & -> & _ & _ & _ & _ & ->). cbn [dxb_blk dxb_entries dxb_position].
    assert (0 < r.2) by (apply Hin; cbn [inner]; apply (list_elem_of_fmap_2 snd); rewrite elem_of_app, elem_of_cons; tauto). unfold front, node_en. rewrite (proj2 (Z.eqb_neq _ _)) by lia. lia. }
  apply (lows_insert d x s blk b); try done. unfold front in *. destruct (_ =? _); lia.
Qed.

Lemma idx_at_path d version sh p F1 e F2 : idx d version sh -> (forall i, i ∈ inner sh -> 0 < i < zlen d) -> idx_at sh p F1 e F2 -> path_ok d p.
Proof.
  intros Hi Hin Hat. destruct (idx_block_ok d version sh 0 Hi ltac:(by left)) as (rb & Er & Hrb). unfold block_ok in Hrb. destruct sh as [es|rs ns]; cbn [idx_at] in Hat.
  - destruct Hat as [_ ->]. split_and!; cbn; try done; [lia|]. exists rb. split; [done|lia].
  - destruct Hat as (R1 & r & R2 & N1 & l1 & l2 & N2 & -> & _ & _ & _ & _ & ->). assert (r.2 ∈ inner (Deep (R1 ++ r :: R2) ns)) as Hr by (cbn [inner]; apply list_elem_of_fmap_2; rewrite elem_of_app, elem_of_cons; tauto).
    destruct (idx_block_ok d version _ r.2 Hi ltac:(by right)) as (b & E & Hb). unfold block_ok in Hb. unfold path_ok. cbn [dx0 dx1 dxb_blk dxb_entries dxb_position]. split_and!; try done; try lia; try (apply (Hin _ Hr)).
    + exists rb. split; [done|lia].
    + exists b. split; [done|lia].
Qed.

Lemma frame_split d version sh p F1 e F2 d' p' sh' : idx d version sh -> frame_ok d sh -> (forall i, i ∈ inner sh -> 0 < i < zlen d) -> idx_at sh p F1 e F2 ->
  dx_split_index append_rc stale d p = (EOK, d', p') -> index_split d version sh F1 e F2 d' p' sh' -> frame_ok d' sh'.
Proof.
  intros Hi Hf Hin Hat E [S1 S2 S3 S4 S5 S6]. destruct (split_index_lows d p d' p' (idx_at_path _ _ _ _ _ _ _ Hi Hin Hat) E) as [Hl Hn].
  apply (frame_lows d d' version sh sh'); [done|done|done|intros i Hi'; by apply Hin|]. intros i Hi'. destruct S3 as [[_ Es]|[Hlen Es]]; [rewrite Es in Hi'; by left|].
  rewrite Es, elem_of_cons in Hi'. destruct Hi' as [->|Hi']; [right|by left]. destruct Hn as [Hn|(b & _ & Eb & Hlow)]; [lia|]. exists b. rewrite Nat2Z.id. split; [done|].
  apply (dent_at_low 8 _ _ _ _ Hlow); [lia|cbn; lia|]. apply fake_new, Hstale.
Qed.
End front.
