(* ===== verification/Ext4DirMap.v ===== *)
(** * Directories of lwext4 as finite maps

    A directory with an index stands for a finite map from names to inode
    numbers.  The operations of [Ext4Htree] implement search, insertion and
    deletion of such a map, and the cases in which they do not are stated. *)

From stdpp Require Import gmap sorting.
From S2P Require Import Prelude Bio Sjd Ext4Extent Ext4Map Ext4Dir Ext4Hash Ext4Htree Ext4Index Ext4Front.

Section dirmap.
Context (hash_seed : word4) (unsigned_hash : bool).

(** The version used for a stored version, and the hash of a name. *)
Definition used_version (version : Z) : Z := if unsigned_hash then version + 3 else version.
Definition nhash (version : Z) (name : list Z) : Z :=
  match hash_string hash_seed (used_version version) name with inr h => h | inl _ => 0 end.

Definition name_ok (name : list Z) : Prop := 1 <= zlen name <= 255.

Lemma nhash_ok version name : 0 <= version <= 2 -> name_ok name ->
  hash_string hash_seed (used_version version) name = inr (nhash version name) /\ Z.even (nhash version name) = true /\ 0 <= nhash version name < 4294967294.
Proof.
  intros Hv Hn. unfold nhash, hash_string, used_version. destruct (htree_hash_ok name (Some hash_seed) (if unsigned_hash then version + 3 else version) Hn) as (h & -> & H); [destruct unsigned_hash; lia|done].
Qed.

(** ** Blocks of entries *)

(** The entries [es] of a block, with names whose hashes are between the marks
    [lo] and [hi] of the index. *)
Definition leaf_ok (d : list block) (version lo hi blk : Z) (es : list dent) : Prop :=
  (exists b, d !! Z.to_nat blk = Some b /\ dir_block b es) /\
  Forall (fun x => name_ok x.1 /\ Z.land lo 4294967294 <= nhash version x.1 < hi) (live es).

Definition next_mark (fl : list (Z * Z)) : Z := default 4294967296 (fst <$> head fl).

Fixpoint leaves_ok (d : list block) (version : Z) (fl : list (Z * Z)) (les : list (list dent)) : Prop :=
  match fl, les with
  | [], [] => True
  | e :: fl, es :: les => leaf_ok d version e.1 (next_mark fl) e.2 es /\ leaves_ok d version fl les
  | _, _ => False
  end.

Lemma leaves_length d version fl les : leaves_ok d version fl les -> length fl = length les.
Proof. revert les. induction fl as [|e fl IH]; intros [|es les] H; try done. cbn. f_equal. by apply IH, H. Qed.

(** Another state of the directory with the same blocks of entries. *)
Lemma leaves_frame d d' version fl les : leaves_ok d version fl les -> (forall e, e ∈ fl -> d' !! Z.to_nat e.2 = d !! Z.to_nat e.2) -> leaves_ok d' version fl les.
Proof.
  revert les. induction fl as [|e fl IH]; intros [|es les] H Hf; try done. destruct H as [[(b & E & Hb) Hn] H]. split; [|apply IH; [done|]; intros e' He'; apply Hf; by right].
  split; [|done]. exists b. split; [|done]. rewrite Hf; [done|by left].
Qed.

(** The list split at a block. *)
Lemma leaves_split d version F1 e F2 les : leaves_ok d version (F1 ++ e :: F2) les ->
  exists L1 es L2, les = L1 ++ es :: L2 /\ length L1 = length F1 /\ leaf_ok d version e.1 (next_mark F2) e.2 es /\ leaves_ok d version F2 L2.
Proof.
  revert les. induction F1 as [|e1 F1 IH]; intros [|es les] H; try done.
  - exists [], es, les. by destruct H.
  - destruct H as [_ H]. destruct (IH les H) as (L1 & es' & L2 & -> & Hl & H1 & H2). exists (es :: L1), es', L2. cbn. split_and!; [done|by f_equal|done..].
Qed.

(** Replace a block of entries, in any state that keeps the others. *)
Lemma leaves_replace d d' version F1 e F2 F2' L1 es L2 L2' : leaves_ok d version (F1 ++ e :: F2) (L1 ++ es :: L2) -> length L1 = length F1 ->
  leaves_ok d' version (e :: F2') L2' -> (forall e', e' ∈ F1 -> d' !! Z.to_nat e'.2 = d !! Z.to_nat e'.2) -> leaves_ok d' version (F1 ++ e :: F2') (L1 ++ L2').
Proof.
  intros H Hl H' Hf. revert L1 H Hl. induction F1 as [|e1 F1 IH]; intros [|es1 L1] H Hl; try done. destruct H as [[(b & E & Hb) Hn] H]. cbn [app leaves_ok]. split.
  - assert (next_mark (F1 ++ e :: F2') = next_mark (F1 ++ e :: F2)) as -> by (by destruct F1). split; [|done]. exists b. split; [|done]. rewrite Hf; [done|by left].
  - apply IH; [|done|by injection Hl]. intros e' He'. apply Hf. by right.
Qed.

(** ** Search *)

Context (rc_read : Z -> Z) (Hread : forall i, rc_read i = EOK).

Lemma land_hash_mask x : 0 <= x < U32_MOD -> Z.land x 4294967294 = x - x mod 2.
Proof.
  intros Hx. change 4294967294 with (Z.land (Z.ones 32) (Z.lnot (Z.ones 1))). rewrite Z.land_assoc, Z.land_ones, Z.mod_small by lia.
  rewrite <- Z.ldiff_land, Z.ldiff_ones_r, Z.shiftl_mul_pow2, Z.shiftr_div_pow2 by lia. change (2 ^ 1) with 2. Z.div_mod_to_equations; lia.
Qed.

(** No block behind the end of a chain has a name with the hash. *)
Lemma no_later d version e F2 les h name : leaves_ok d version (e :: F2) les -> by_hash (e :: F2) -> Forall (fun x => 0 <= x.1 < U32_MOD) (e :: F2) ->
  Z.even h = true -> h < e.1 -> Z.land e.1 4294967294 <> h -> nhash version name = h -> Forall (fun es => forall ino, (name, ino) ∉ live es) les.
Proof.
  intros Hl Hs Hr Hev Hlt Hne Hh. assert (h + 2 <= e.1) as He.
  { apply Forall_cons in Hr as [Hr _]. rewrite land_hash_mask in Hne by done. apply Z.even_spec in Hev as [k ->]. Z.div_mod_to_equations. lia. }
  clear Hlt Hne. remember (e :: F2) as fl. assert (Forall (fun x => h + 2 <= x.1) fl) as Hlo.
  { subst fl. constructor; [done|]. apply by_hash_cons in Hs as [_ Hs]. apply Forall_forall. intros x Hx. specialize (Hs x Hx). lia. }
  clear Heqfl Hs He. revert les Hl. induction fl as [|x fl IH]; intros [|es les] Hl; try done. apply Forall_cons in Hr as [Hr1 Hr2]. apply Forall_cons in Hlo as [Hlo1 Hlo2].
  destruct Hl as [[_ Hn] Hl]. constructor; [|by apply IH]. intros ino Hin. rewrite Forall_forall in Hn. destruct (Hn _ Hin) as [_ [Hge _]]. cbn [fst] in Hge. rewrite land_hash_mask in Hge by done.
  Z.div_mod_to_equations. lia.
Qed.

(** Where a name is found. *)
Definition found_at (d : list block) (iblk o : Z) (name : list Z) (pre : list dent) (x : dent) (post : list dent) : Prop :=
  exists b, d !! Z.to_nat iblk = Some b /\ dir_block b (pre ++ x :: post) /\ o = sumz d_len pre /\ dent_at b o x /\ has_name name x = true.

Lemma dx_find_loop_ok d version sh name h : idx d version sh -> Forall (fun x => 0 <= x.1 < U32_MOD) (flat sh) -> nhash version name = h -> Z.even h = true ->
  forall fuel F2 F1 e p es L2, (length F2 < fuel)%nat -> idx_at sh p F1 e F2 -> Forall (fun x => h < x.1) F2 -> leaf_ok d version e.1 (next_mark F2) e.2 es -> leaves_ok d version F2 L2 ->
  (exists G1 e' G2 M1 pre x post M2 o, e :: F2 = G1 ++ e' :: G2 /\ es :: L2 = M1 ++ (pre ++ x :: post) :: M2 /\ length M1 = length G1 /\
    dx_find_loop rc_read fuel d h name p = Ok (inr (e'.2, o)) /\ found_at d e'.2 o name pre x post) \/
  dx_find_loop rc_read fuel d h name p = Ok (inl ENOENT) /\ Forall (fun es => forall ino, (name, ino) ∉ live es) (es :: L2).
Proof.
  intros Hi Hr Hh Hev. induction fuel as [|fuel IH]; intros F2 F1 e p es L2 Hf Hat Hlt Hleaf Hls; [lia|]. cbn [dx_find_loop].
  rewrite (dx_leaf_ok d version sh p F1 e F2 Hi (idx_at_leaf _ _ _ _ _ Hat)). pose proof Hleaf as [(b & E & Hb) Hn]. rewrite (get_blk_ok rc_read Hread d e.2 b E).
  destruct (find_in_block_ok b es name Hb) as [(pre & x & post & -> & Hx & _ & -> & Hat')|[Hno ->]]; cbn [res_bind].
  { left. exists [], e, F2, [], pre, x, post, L2, (sumz d_len pre). split_and!; try done. exists b. done. }
  rewrite Z.eqb_refl. cbn [negb]. rewrite no_name_live in Hno. pose proof (dx_next_block_ok rc_read Hread d version sh p F1 e F2 h Hi Hat Hev) as Hnx.
  pose proof (at_leaf_flat _ _ _ _ _ (idx_at_leaf _ _ _ _ _ Hat)) as Hfl. pose proof (ix_sorted _ _ _ Hi) as Hs. rewrite Hfl in Hs, Hr. apply by_hash_app in Hs as (_ & Hs & _). apply by_hash_cons in Hs as [Hs _].
  apply Forall_app in Hr as [_ Hr]. apply Forall_cons in Hr as [_ Hr].
  destruct F2 as [|e' F2].
  { right. destruct L2; [|done]. destruct (dx_next_block rc_read d h p) as [rc p']. cbn [fst] in Hnx. rewrite Hnx. split; [done|]. by repeat constructor. }
  destruct L2 as [|es' L2]; [done|]. destruct (Z.eqb_spec (Z.land e'.1 4294967294) h) as [Heq|Hne].
  - destruct Hnx as (p' & -> & Hat'). cbn [Z.ltb]. change (ENOENT <? 0) with false. change (ENOENT =? ENOENT) with true. apply Forall_cons in Hlt as [_ Hlt]. destruct Hls as [Hl1 Hl2].
    destruct (IH F2 (F1 ++ [e]) e' p' es' L2 ltac:(cbn in Hf; lia) Hat' Hlt Hl1 Hl2) as [(G1 & e1 & G2 & M1 & pre & x & post & M2 & o & E1 & E2 & E3 & E4 & E5)|[E1 E2]].
    + left. exists (e :: G1), e1, G2, (es :: M1), pre, x, post, M2, o. rewrite E1, E2. cbn. split_and!; [done|done|by f_equal|done|done].
    + right. split; [done|]. by constructor.
  - right. destruct (dx_next_block rc_read d h p) as [rc p']. cbn [fst] in Hnx. rewrite Hnx. split; [done|]. constructor; [done|]. apply Forall_cons in Hlt as [Hlt1 _].
    by apply (no_later d version e' F2 (es' :: L2) h name).
Qed.

Lemma no_earlier d version F1 e F2 L1 L2 h name : leaves_ok d version (F1 ++ e :: F2) (L1 ++ L2) -> length L1 = length F1 -> by_hash (F1 ++ e :: F2) -> e.1 <= h ->
  nhash version name = h -> Forall (fun es => forall ino, (name, ino) ∉ live es) L1.
Proof.
  intros Hl Hlen Hs He Hh. revert L1 Hl Hlen Hs. induction F1 as [|x F1 IH]; intros [|es L1] Hl Hlen Hs; try done. destruct Hl as [[_ Hn] Hl]. cbn [app] in Hs. apply by_hash_cons in Hs as [Hs Hs1].
  constructor; [|apply IH; [done|by injection Hlen|done]]. intros ino Hin. rewrite Forall_forall in Hn. destruct (Hn _ Hin) as [_ [_ Hlt]]. cbn [fst] in Hlt.
  assert (next_mark (F1 ++ e :: F2) <= e.1); [|lia]. destruct F1 as [|y F1]; cbn; [lia|]. cbn [app] in Hs. apply by_hash_cons in Hs as [_ Hs]. apply Hs. rewrite elem_of_app, elem_of_cons. tauto.
Qed.

Lemma flat_range d version sh : idx d version sh -> Forall (fun x => 0 <= x.1 < U32_MOD /\ 0 <= x.2 < U32_MOD) (flat sh).
Proof.
  intros [(root & _ & _ & _ & Hsh) _ _ _ _]. destruct sh as [es|rs ns]; cbn [flat]; [apply Hsh|]. destruct Hsh as (_ & _ & Hc). clear -Hc.
  induction Hc as [|r es rs ns (b & _ & Hn & _) Hcs IH]; [done|]. cbn [concat]. apply Forall_app. split; [apply Hn|done].
Qed.

(** ** Directories *)

(** A directory with an index over the blocks of entries [les]; every block is
    used once, and the index blocks read as entries too. *)
Record dir_state (d : list block) (version : Z) (sh : shape) (les : list (list dent)) : Prop := {
  ds_idx : idx d version sh;
  ds_leaves : leaves_ok d version (flat sh) les;
  ds_blocks : 0 :: inner sh ++ (snd <$> flat sh) ≡ₚ seqz 0 (zlen d);
  ds_frame : frame_ok d sh
}.

Definition entries (les : list (list dent)) : list (list Z * Z) := concat (live <$> les).

(** The directory stands for the map [M]. *)
Definition is_dir (d : list block) (version : Z) (M : gmap (list Z) Z) : Prop :=
  exists sh les, dir_state d version sh les /\ map_to_list M ≡ₚ entries les.

Lemma elem_of_entries x les : x ∈ entries les <-> exists es, es ∈ les /\ x ∈ live es.
Proof.
  unfold entries. rewrite list_elem_of_In, in_concat. split.
  - intros (l & Hl & Hx). apply list_elem_of_In, list_elem_of_fmap in Hl as (es & -> & Hes). exists es. split; [done|by apply list_elem_of_In].
  - intros (es & Hes & Hx). exists (live es). split; [apply list_elem_of_In; by apply list_elem_of_fmap_2|by apply list_elem_of_In].
Qed.

Lemma entries_app l1 l2 : entries (l1 ++ l2) = entries l1 ++ entries l2.
Proof. unfold entries. by rewrite fmap_app, concat_app. Qed.

Lemma entries_cons es les : entries (es :: les) = live es ++ entries les.
Proof. done. Qed.

Lemma hinfo_init_ok d version sh root name : idx d version sh -> d !! 0%nat = Some root -> name_ok name ->
  hinfo_init hash_seed unsigned_hash root name = inr (used_version version, nhash version name).
Proof.
  intros [(root' & E & Hv & Hf & Hsh) Hver _ _ _] E' Hn. assert (root' = root) as -> by congruence. unfold hinfo_init. rewrite Hv, Hf.
  assert (negb (version =? 0) && negb (version =? 1) && negb (version =? 2) = false) as -> by (destruct (Z.eqb_spec version 0), (Z.eqb_spec version 1), (Z.eqb_spec version 2); cbn; done || lia).
  assert ((1 <? rinfo_indirect_levels root) = false /\ climit_get_limit root root_en = root_limit) as [-> ->].
  { destruct sh as [es|rs ns]; [destruct Hsh as [-> Hn']|destruct Hsh as (-> & Hn' & _)]; split; try done; apply Hn'. }
  rewrite !Z.eqb_refl. cbn [negb]. rewrite (proj2 (Z.leb_le version 2)) by lia. cbn [andb]. destruct (nhash_ok version name Hver Hn) as [E1 _]. unfold used_version in *. by rewrite E1.
Qed.

(** The search finds the block of the name, if there is one. *)
Lemma dx_find_ok d version sh les name : dir_state d version sh les -> name_ok name ->
  (exists F1 e F2 L1 pre x post L2 o, flat sh = F1 ++ e :: F2 /\ les = L1 ++ (pre ++ x :: post) :: L2 /\ length L1 = length F1 /\
    dx_find_entry hash_seed unsigned_hash rc_read d name = Ok (inr (e.2, o)) /\ found_at d e.2 o name pre x post) \/
  dx_find_entry hash_seed unsigned_hash rc_read d name = Ok (inl ENOENT) /\ forall ino, (name, ino) ∉ entries les.
Proof.
  intros [Hi Hl Hb] Hn. pose proof Hi as [(root & E & _) Hver _ Hs _]. unfold dx_find_entry. rewrite (get_blk_ok rc_read Hread d 0 root E), (hinfo_init_ok d version sh root name Hi E Hn).
  destruct (nhash_ok version name Hver Hn) as (_ & Hev & Hh). destruct (dx_get_leaf_ok rc_read Hread d version sh root (nhash version name) Hi E ltac:(lia)) as (p & F1 & e & F2 & -> & Hat & He & HF2).
  pose proof (at_leaf_flat _ _ _ _ _ (idx_at_leaf _ _ _ _ _ Hat)) as Hfl. rewrite Hfl in Hl, Hs. destruct (leaves_split _ _ _ _ _ _ Hl) as (L1 & es & L2 & -> & Hlen & Hleaf & Hls).
  assert (length F2 < S (length d))%nat as Hfuel.
  { apply Permutation_length in Hb. rewrite length_seqz, Nat2Z.id in Hb. rewrite Hfl in Hb. cbn [length] in Hb. rewrite length_app, length_fmap, length_app in Hb. cbn [length] in Hb. lia. }
  pose proof (flat_range _ _ _ Hi) as Hr. assert (Forall (fun x => 0 <= x.1 < U32_MOD) (flat sh)) as Hr' by (apply (Forall_impl _ _ _ Hr); tauto).
  destruct (dx_find_loop_ok d version sh name (nhash version name) Hi Hr' eq_refl Hev (S (length d)) F2 F1 e p es L2 Hfuel Hat HF2 Hleaf Hls)
    as [(G1 & e' & G2 & M1 & pre & x & post & M2 & o & E1 & E2 & E3 & E4 & E5)|[E1 E2]].
  - left. exists (F1 ++ G1), e', G2, (L1 ++ M1), pre, x, post, M2, o. rewrite Hfl, E1, E2, <- !app_assoc, !length_app. split_and!; try done. lia.
  - right. split; [done|]. intros ino Hin. apply elem_of_entries in Hin as (es' & Hes' & Hin). pose proof (no_earlier _ _ _ _ _ _ _ _ name Hl Hlen Hs He eq_refl) as Hno.
    rewrite elem_of_app in Hes'. rewrite Forall_forall in Hno, E2. destruct Hes' as [Hes'|Hes']; [by apply (Hno _ Hes' ino)|by apply (E2 _ Hes' ino)].
Qed.

(** ** Changing a block of entries *)

Lemma idx_frame d d' version sh : idx d version sh -> (forall i, i ∈ 0 :: inner sh -> d' !! Z.to_nat i = d !! Z.to_nat i) -> idx d' version sh.
Proof.
  intros [(root & E & Hv & Hf & Hsh) H1 H2 H3 H4] Hd. split; try done. exists root. split; [pose proof (Hd 0 ltac:(by left)) as H0; change (d' !! 0%nat = d !! 0%nat) in H0; by rewrite H0|]. split_and!; try done.
  destruct sh as [es|rs ns]; [done|]. destruct Hsh as (Hl & Hn & Hc). split_and!; try done. apply (children_frame d); [done|]. intros r Hr. apply Hd. right. by apply list_elem_of_fmap_2.
Qed.

Lemma blocks_distinct d version sh les F1 e F2 : dir_state d version sh les -> flat sh = F1 ++ e :: F2 ->
  0 <= e.2 < zlen d /\ (forall i, i ∈ 0 :: inner sh -> 0 <= i /\ i <> e.2) /\ (forall e', e' ∈ F1 \/ e' ∈ F2 -> 0 <= e'.2 /\ e'.2 <> e.2).
Proof.
  intros [_ _ Hb _] Hfl. rewrite Hfl, fmap_app, fmap_cons, app_comm_cons in Hb. assert (forall i, i ∈ (0 :: inner sh) ++ (snd <$> F1) ++ e.2 :: (snd <$> F2) -> 0 <= i < zlen d) as Hin.
  { intros i. rewrite Hb, elem_of_seqz. lia. }
  pose proof (NoDup_seqz 0 (zlen d)) as Hnd. rewrite <- Hb in Hnd. apply NoDup_app in Hnd as (_ & Hd1 & Hnd). apply NoDup_app in Hnd as (_ & Hd2 & Hnd). apply NoDup_cons in Hnd as [Hd3 _]. split_and!.
  - apply Hin. rewrite !elem_of_app, !elem_of_cons. tauto.
  - apply Hin. rewrite !elem_of_app, !elem_of_cons. tauto.
  - intros i Hi. split; [apply Hin; rewrite elem_of_app; tauto|]. intros ->. apply (Hd1 _ Hi). rewrite elem_of_app, elem_of_cons. tauto.
  - intros e' He'. assert (e'.2 ∈ snd <$> F1 \/ e'.2 ∈ snd <$> F2) as He2 by (destruct He' as [H|H]; [left|right]; by apply list_elem_of_fmap_2).
    split; [apply Hin; rewrite !elem_of_app, !elem_of_cons; tauto|]. intros Eq. rewrite Eq in He2. destruct He2 as [H|H]; [|done]. apply (Hd2 _ H). by left.
Qed.

Lemma replace_leaf d version sh F1 e F2 L1 es L2 b' es' : dir_state d version sh (L1 ++ es :: L2) -> flat sh = F1 ++ e :: F2 -> length L1 = length F1 ->
  dir_block b' es' -> Forall (fun x => name_ok x.1 /\ Z.land e.1 4294967294 <= nhash version x.1 < next_mark F2) (live es') ->
  dir_state (set_blk d e.2 b') version sh (L1 ++ es' :: L2).
Proof.
  intros Hd Hfl Hlen Hb' Hn'. pose proof (blocks_distinct _ _ _ _ _ _ _ Hd Hfl) as (Hr & Hin & Hlf). destruct Hd as [Hi Hl Hb Hf]. rewrite Hfl in Hl. split.
  - apply (idx_frame d); [done|]. intros i Hi'. apply set_blk_ne. destruct (Hin i Hi'). lia.
  - rewrite Hfl. apply (leaves_replace d _ version F1 e F2 F2 L1 es L2); [done|done| |].
    + destruct (leaves_split _ _ _ _ _ _ Hl) as (L1' & es1 & L2' & Eq & Hlen' & _ & Hls). apply app_inj_1 in Eq as [<- [= <- <-]]; [|lia]. split.
      * split; [|done]. exists b'. split; [|done]. by apply set_blk_eq.
      * apply (leaves_frame d); [done|]. intros e' He'. apply set_blk_ne. destruct (Hlf e' (or_intror He')). lia.
    + intros e' He'. apply set_blk_ne. destruct (Hlf e' (or_introl He')). lia.
  - by rewrite length_set_blk.
  - apply (frame_same d); [done|]. intros i Hi'. apply set_blk_ne. destruct (Hin i Hi'). lia.
Qed.

(** ** Removal *)

Lemma dir_block_lookup d version sh les F1 e F2 L1 es L2 : dir_state d version sh les -> flat sh = F1 ++ e :: F2 -> les = L1 ++ es :: L2 -> length L1 = length F1 ->
  exists b, d !! Z.to_nat e.2 = Some b /\ dir_block b es /\ Forall (fun x => name_ok x.1 /\ Z.land e.1 4294967294 <= nhash version x.1 < next_mark F2) (live es).
Proof.
  intros [_ Hl _ _] Hfl -> Hlen. rewrite Hfl in Hl. destruct (leaves_split _ _ _ _ _ _ Hl) as (L1' & es1 & L2' & Eq & Hlen' & [(b & E & Hb) Hn] & _).
  apply app_inj_1 in Eq as [<- [= <- <-]]; [|lia]. by exists b.
Qed.

(** The directory of an inode stands for the map. *)
Definition is_dir_file (x : dir_file) (version : Z) (M : gmap (list Z) Z) : Prop := df_is_dir x = true /\ df_index x = true /\ is_dir (df_blocks x) version M.

Lemma dir_remove_ok x version M name : is_dir_file x version M -> name_ok name ->
  match M !! name with
  | Some ino => exists x', dir_remove_entry hash_seed unsigned_hash rc_read x name = Ok (x', EOK) /\ is_dir_file x' version (delete name M)
  | None => dir_remove_entry hash_seed unsigned_hash rc_read x name = Ok (x, ENOENT)
  end.
Proof.
  destruct x as [isd ix d]. intros (Ed & Ei & sh & les & Hd & HM) Hn. cbn in Ed, Ei, Hd. subst isd ix. unfold dir_remove_entry, dir_find_entry. cbn [df_is_dir df_index df_blocks negb].
  destruct (dx_find_ok d version sh les name Hd Hn) as [(F1 & e & F2 & L1 & pre & x & post & L2 & o & Hfl & -> & Hlen & -> & (b & E & Hb & -> & Hat & Hx))|[-> Hno]]; cbn [res_bind].
  - apply andb_true_iff in Hx as [Hx1%negb_true_iff%Z.eqb_neq Hx2%bool_decide_eq_true].
    assert (live (pre ++ x :: post) = live pre ++ (name, d_ino x) :: live post) as Hlive by (rewrite dlive_app, live_cons, (proj2 (Z.eqb_neq _ _) Hx1), <- Hx2; done).
    assert (M !! name = Some (d_ino x)) as HMx.
    { apply elem_of_map_to_list. rewrite HM. apply elem_of_entries. exists (pre ++ x :: post). rewrite elem_of_app, elem_of_cons, Hlive, elem_of_app, elem_of_cons. tauto. }
    rewrite HMx. cbn [df_is_dir df_index df_blocks]. rewrite (blk_data_ok _ _ _ E). destruct (remove_ok b pre x post Hb) as (b' & -> & Hb'). cbn [res_bind]. eexists. split; [done|]. split; [done|]. split; [done|].
    destruct (dir_block_lookup d version sh _ F1 e F2 L1 _ L2 Hd Hfl eq_refl Hlen) as (b0 & _ & _ & Hnm).
    exists sh, (L1 ++ removed pre x post :: L2). split.
    + apply (replace_leaf d version sh F1 e F2 L1 (pre ++ x :: post) L2); try done. rewrite removed_live. rewrite Hlive in Hnm. apply Forall_app in Hnm as [H1 H2]. apply Forall_cons in H2 as [_ H2]. by apply Forall_app.
    + apply (Permutation_cons_inv (a := (name, d_ino x))). rewrite (map_to_list_delete M name (d_ino x) HMx), HM, !entries_app, !entries_cons, Hlive, removed_live. solve_Permutation.
  - destruct (M !! name) as [ino|] eqn:HMx; [|done]. apply elem_of_map_to_list in HMx. rewrite HM in HMx. by apply Hno in HMx.
Qed.

(** ** Splitting a block of entries *)

(** The bytes of an entry without its slack. *)
Record entry_bytes (bs : list Z) (x : dent) : Prop := {
  eb_len : zlen bs = dsize (d_name x);
  eb_ino : un_le (slice bs 0 4) = d_ino x;
  eb_nlen : un_le (slice bs 6 1) = zlen (d_name x);
  eb_type : un_le (slice bs 7 1) = d_type x;
  eb_name : slice bs 8 (zlen (d_name x)) = d_name x
}.

Record se_for (version : Z) (se : sort_entry) (x : dent) : Prop := {
  sf_hash : se_hash se = nhash version (d_name x);
  sf_len : se_rec_len se = dsize (d_name x);
  sf_bytes : entry_bytes (se_bytes se) x;
  sf_name : name_ok (d_name x);
  sf_ino : d_ino x <> 0
}.

Lemma dent_bytes b o x : block_ok b -> 0 <= o -> o + d_len x <= 4096 -> dent_at b o x -> dent_ok x -> entry_bytes (slice b o (dsize (d_name x))) x.
Proof.
  intros Hb Ho Hl [H1 H2 H3 H4 H5] [K1 K2 K3 K4]. destruct (dsize_bounds (d_name x)) as [Hs Hs']. assert (dsize (d_name x) <= d_len x) as Hfit by (unfold dsize in *; Z.div_mod_to_equations; lia).
  unfold block_ok in Hb. unfold en_get_inode, en_get_name_len, en_get_inode_type in *. rewrite !rd_slice in *.
  split; [apply length_slice; lia|..]; rewrite slice_slice by lia; try done. by rewrite Z.add_0_r.
Qed.

Lemma dx_collect_ok version b fuel : forall o es, 0 <= version <= 2 -> block_ok b -> 0 <= o -> dents b o es 4096 -> Forall (fun x => name_ok x.1) (live es) -> (length es < fuel)%nat ->
  exists ses, dx_collect hash_seed fuel (used_version version) b o = Ok (inr ses) /\ Forall2 (se_for version) ses (filter (fun x => d_ino x <> 0) es).
Proof.
  induction fuel as [|fuel IH]; intros o es Hv Hb Ho Hes Hn Hf; [lia|]. cbn [dx_collect]. unfold dir_block_size. destruct es as [|x es]; cbn [dents] in Hes.
  { subst o. exists []. by rewrite Z.ltb_irrefl. }
  destruct Hes as (Hat & Hok & Hes). pose proof Hok as [K1 K2 K3 K4]. pose proof (dents_le _ _ _ _ Hes) as Hle. rewrite (proj2 (Z.ltb_lt o 4096)) by lia. cbn [negb].
  rewrite (da_ino _ _ _ Hat), (da_nlen _ _ _ Hat), (da_len _ _ _ Hat). rewrite live_cons in Hn. apply Forall_app in Hn as [Hn1 Hn2].
  destruct (IH (o + d_len x) es Hv Hb ltac:(lia) Hes Hn2 ltac:(cbn in Hf; lia)) as (ses & E & Hses).
  destruct (Z.eqb_spec (d_ino x) 0) as [Hz|Hz]; cbn [negb andb]; [exists ses; split; [done|]; by rewrite filter_cons_False by (rewrite Hz; tauto)|].
  apply Forall_cons in Hn1 as [Hn1 _]. cbn [fst] in Hn1. pose proof Hn1 as [Hn1a _]. rewrite (proj2 (Z.eqb_neq (zlen (d_name x)) 0)) by lia. cbn [negb]. rewrite (da_name _ _ _ Hat).
  destruct (nhash_ok version (d_name x) Hv Hn1) as [-> _]. rewrite E. cbn [res_bind].
  assert ((if negb ((8 + zlen (d_name x)) mod 4 =? 0) then 8 + zlen (d_name x) + (4 - (8 + zlen (d_name x)) mod 4) else 8 + zlen (d_name x)) = dsize (d_name x)) as ->.
  { unfold dsize. destruct (Z.eqb_spec ((8 + zlen (d_name x)) mod 4) 0); cbn [negb]; Z.div_mod_to_equations; lia. }
  eexists. split; [done|]. rewrite filter_cons_True by done. constructor; [|done]. split; try done. apply dent_bytes; try done. lia.
Qed.

(** Entries packed from [off], the last one with the rest of the block. *)
Fixpoint repack (off : Z) (ds : list dent) : list dent :=
  match ds with
  | [] => []
  | x :: ds' => set_dlen x (match ds' with [] => 4096 - off | _ => dsize (d_name x) end) :: repack (off + dsize (d_name x)) ds'
  end.

Lemma fill_one version b off se x len : se_for version se x -> block_ok b -> 0 <= off -> off mod 4 = 0 -> dsize (d_name x) <= len -> off + len <= 4096 ->
  let b' := en_set_entry_len (splice b off (se_bytes se)) off len in
  keeps b b' off (off + dsize (d_name x)) /\ dent_at b' off (set_dlen x len).
Proof.
  intros [_ _ [E1 E2 E3 E4 E5] [Hn Hn'] _] Hb Ho Ha Hl Hfit. destruct (dsize_bounds (d_name x)) as [Hs _]. cbn zeta.
  pose proof (splice_keeps b off (se_bytes se) Hb Ho ltac:(lia)) as K1. set (b1 := splice b off _) in *. pose proof (proj1 K1) as O1. unfold block_ok in Hb.
  assert (dent_at b1 off (set_dlen x (en_get_entry_len b1 off))) as Hat.
  { split; cbn [set_dlen d_ino d_len d_type d_name]; unfold en_get_inode, en_get_name_len, en_get_inode_type; rewrite ?rd_slice; try done; unfold b1.
    - rewrite <- (Z.add_0_r off) at 2. rewrite slice_splice_in by lia. done.
    - rewrite slice_splice_in by lia. done.
    - rewrite slice_splice_in by lia. done.
    - rewrite slice_splice_in by lia. done. }
  destruct (set_len_at b1 off _ len O1 Ho ltac:(lia) Hat ltac:(lia)) as [K2 Hat2]. split; [|done]. refine (bkeeps_trans b b1 _ _ _ _ _ _ _ K1 K2 _ _ _ _); lia.
Qed.

Lemma dx_fill_ok version ses : forall ds b off, Forall2 (se_for version) ses ds -> ses <> [] -> block_ok b -> 0 <= off -> off mod 4 = 0 -> off + sumz (fun x => dsize (d_name x)) ds <= 4096 ->
  keeps b (dx_fill b off ses) off 4096 /\ dents (dx_fill b off ses) off (repack off ds) 4096.
Proof.
  induction ses as [|se ses IH]; intros ds b off Hf Hne Hb Ho Ha Hsum; [done|]. inversion Hf as [|? x ? ds' Hse Hf']; subst. rewrite sumz_cons in Hsum. cbn beta in Hsum. cbn [dx_fill repack]. unfold dir_block_size.
  destruct (dsize_bounds (d_name x)) as [Hs Hs']. pose proof (sf_name _ _ _ Hse) as [Hn Hn'].
  assert (0 <= sumz (fun x => dsize (d_name x)) ds') as Hpos by (apply sumz_nonneg, Forall_forall; intros y _; pose proof (dsize_bounds (d_name y)); lia).
  destruct Hf' as [|se' x' ses' ds'' Hse' Hf''].
  - destruct (fill_one version b off se x (4096 - off) Hse Hb Ho Ha ltac:(lia) ltac:(lia)) as [K Hat]. cbn [dx_fill repack dents set_dlen d_len]. split; [apply (keeps_weaken _ _ _ _ _ _ K); lia|]. split_and!; [done| |lia].
    split; cbn; try lia. Z.div_mod_to_equations; lia.
  - rewrite (sf_len _ _ _ Hse). destruct (fill_one version b off se x (dsize (d_name x)) Hse Hb Ho Ha ltac:(lia) ltac:(lia)) as [K Hat]. set (b1 := en_set_entry_len _ _ _) in *.
    destruct (IH (x' :: ds'') b1 (off + dsize (d_name x)) ltac:(by constructor) ltac:(done) (proj1 K) ltac:(lia) ltac:(rewrite Z.add_mod, Ha, Hs' by lia; done) ltac:(lia)) as [K2 Hd2].
    split; [refine (bkeeps_trans b b1 _ _ _ _ _ _ _ K K2 _ _ _ _); lia|].
    change (match x' :: ds'' with [] => 4096 - off | _ :: _ => dsize (d_name x) end) with (dsize (d_name x)). cbn [dents]. split_and!.
    + apply (dent_at_keeps b1 _ _ _ _ _ K2); [split; cbn; try lia; done|done|done|cbn; lia].
    + split; cbn; lia || done.
    + done.
Qed.

Lemma repack_live off ds : Forall (fun x => d_ino x <> 0) ds -> live (repack off ds) = (fun x => (d_name x, d_ino x)) <$> ds.
Proof. revert off. induction ds as [|x ds IH]; intros off H; [done|]. apply Forall_cons in H as [H1 H2]. cbn [repack]. rewrite live_cons. cbn [set_dlen d_ino d_name]. rewrite (proj2 (Z.eqb_neq _ _) H1), IH by done. done. Qed.

(** A packed block has its free space in one piece. *)
Lemma repack_place req new ds : forall off, Forall (fun x => d_ino x <> 0) ds -> ds <> [] -> off + sumz (fun x => dsize (d_name x)) ds + req <= 4096 -> is_Some (place req new (repack off ds)).
Proof.
  induction ds as [|x ds IH]; intros off H Hne Hsum; [done|]. apply Forall_cons in H as [H1 H2]. rewrite sumz_cons in Hsum. cbn beta in Hsum. cbn [repack place].
  destruct (has_room req _) eqn:Hr; [by eexists|]. destruct ds as [|y ds].
  - exfalso. unfold has_room in Hr. cbn [set_dlen d_ino d_len d_name] in Hr. rewrite (proj2 (Z.eqb_neq _ _) H1), sumz_nil in *. apply Z.leb_gt in Hr. lia.
  - destruct (IH (off + dsize (d_name x)) H2 ltac:(done) ltac:(lia)) as [es' ->]. by eexists.
Qed.

Lemma dx_half_ok ses : forall i cur, Forall (fun se => 0 <= se_rec_len se <= 264) ses -> cur <= 2048 -> 2048 < cur + sumz se_rec_len ses ->
  exists s1 x s2, ses = s1 ++ x :: s2 /\ dx_half ses i cur = ((i + length s1)%nat, se_hash x) /\ cur + sumz se_rec_len s1 <= 2048 < cur + sumz se_rec_len s1 + se_rec_len x.
Proof.
  induction ses as [|se ses IH]; intros i cur Hr Hc Hs; [rewrite sumz_nil in Hs; lia|]. apply Forall_cons in Hr as [Hr1 Hr2]. rewrite sumz_cons in Hs. cbn [dx_half]. change (dir_block_size / 2) with 2048.
  destruct (Z.ltb_spec 2048 (cur + se_rec_len se)) as [Hlt|Hge].
  - exists [], se, ses. rewrite sumz_nil. cbn. split_and!; try done; try lia. f_equal. lia.
  - destruct (IH (S i) (cur + se_rec_len se) Hr2 Hge ltac:(lia)) as (s1 & x & s2 & -> & -> & H). exists (se :: s1), x, s2. rewrite sumz_cons. split_and!; try done; try lia. f_equal. cbn. lia.
Qed.

(** The mark between two parts of sorted entries. *)
Definition split_mark (s1 : list sort_entry) (x : sort_entry) : Z :=
  u32 (se_hash x + (if se_hash x =? default 0 (se_hash <$> last s1) then 1 else 0)).

Lemma split_mark_ok s1 x s2 : pairwise (fun a b => se_hash a <= se_hash b) (s1 ++ x :: s2) -> s1 <> [] -> Forall (fun a => Z.even (se_hash a) = true /\ 0 <= se_hash a < 4294967294) (s1 ++ x :: s2) ->
  let s := split_mark s1 x in
  0 <= s < U32_MOD /\ se_hash x <= s <= se_hash x + 1 /\ Z.land s 4294967294 = se_hash x /\ Forall (fun a => se_hash a < s) s1 /\ Forall (fun a => se_hash x <= se_hash a) (x :: s2) /\
  (s = se_hash x -> Forall (fun a => se_hash a < se_hash x) s1).
Proof.
  intros Hp Hne Hr s. destruct s1 as [|w s1 _] using rev_ind; [done|]. clear Hne. apply pairwise_app in Hp as (Hp1 & Hp2 & Hp3). apply pairwise_app in Hp1 as (_ & _ & Hp4).
  apply Forall_app in Hr as [Hr1 Hr2]. apply Forall_cons in Hr2 as [[Hx1 Hx2] _]. inversion Hp2 as [|? ? Hx3 _]; subst.
  rewrite !Forall_forall in Hp3, Hp4. assert (se_hash w <= se_hash x) as Hwx.
  { pose proof (Hp3 w ltac:(rewrite elem_of_app, list_elem_of_singleton; tauto)) as H1. apply Forall_cons in H1 as [H1 _]. done. }
  assert (forall a, a ∈ s1 -> se_hash a <= se_hash w) as Haw. { intros a Ha. pose proof (Hp4 a Ha) as H1. apply Forall_cons in H1 as [H1 _]. done. }
  assert (s = u32 (se_hash x + (if se_hash x =? se_hash w then 1 else 0))) as Es by (unfold s, split_mark; by rewrite last_snoc). clearbody s.
  apply Z.even_spec in Hx1 as [k Hk].
  destruct (Z.eqb_spec (se_hash x) (se_hash w)) as [Eq|Neq]; rewrite u32_id in Es by lia; subst s; (split; [lia|]; split; [lia|]; split).
  - rewrite land_hash_mask by lia. Z.div_mod_to_equations; lia.
  - split_and!; [|constructor; [lia|done]|lia]. apply Forall_app. split; [apply Forall_forall; intros a Ha; pose proof (Haw a Ha); lia|]. constructor; [lia|constructor].
  - rewrite land_hash_mask by lia. Z.div_mod_to_equations; lia.
  - assert (Forall (fun a => se_hash a < se_hash x) (s1 ++ [w])) as Hlt.
    { apply Forall_app. split; [apply Forall_forall; intros a Ha; pose proof (Haw a Ha); lia|]. constructor; [lia|constructor]. }
    split_and!; [|constructor; [lia|done]|done]. apply (Forall_impl _ _ _ Hlt). intros a. cbn. lia.
Qed.

(** Bytes the entries in use need. *)
Definition used_bytes (es : list dent) : Z := sumz (fun x => dsize (d_name x)) (filter (fun x => d_ino x <> 0) es).

Lemma sumz_perm {A} (f : A -> Z) l1 l2 : l1 ≡ₚ l2 -> sumz f l1 = sumz f l2.
Proof. induction 1; rewrite ?sumz_cons; try lia. Qed.

Lemma used_bytes_le b o es e : dents b o es e -> used_bytes es <= e - o.
Proof.
  unfold used_bytes. revert o. induction es as [|x es IH]; intros o H; cbn [dents] in H; [rewrite filter_nil, sumz_nil; lia|]. destruct H as (_ & [K1 K2 K3 K4] & H). apply IH in H.
  assert (dsize (d_name x) <= d_len x) by (clear H IH; unfold dsize; Z.div_mod_to_equations; lia).
  destruct (decide (d_ino x <> 0)); [rewrite filter_cons_True by done; rewrite sumz_cons; lia|rewrite filter_cons_False by done; lia].
Qed.

Lemma se_for_sum version ses ds : Forall2 (se_for version) ses ds -> sumz se_rec_len ses = sumz (fun x => dsize (d_name x)) ds.
Proof. induction 1 as [|se x ses ds H Hs IH]; [done|]. rewrite !sumz_cons, IH. by rewrite (sf_len _ _ _ H). Qed.

Lemma se_for_inos version ses ds : Forall2 (se_for version) ses ds -> Forall (fun x => d_ino x <> 0) ds.
Proof. induction 1 as [|se x ses ds H Hs IH]; constructor; [apply H|done]. Qed.

(** The names of one part, from the hashes of its sort entries. *)
Lemma se_for_names version ses ds (P : Z -> Prop) : Forall2 (se_for version) ses ds -> Forall (fun se => P (se_hash se)) ses ->
  Forall (fun x => name_ok x.1 /\ P (nhash version x.1)) ((fun x => (d_name x, d_ino x)) <$> ds).
Proof.
  induction 1 as [|se x ses ds H Hs IH]; intros HP; [constructor|]. apply Forall_cons in HP as [HP1 HP2]. rewrite fmap_cons. constructor; [|by apply IH].
  cbn [fst]. rewrite <- (sf_hash _ _ _ H). split; [apply H|done].
Qed.

Context (append_rc : Z -> Z) (stale : Z -> block) (Happend : forall i, append_rc i = EOK) (Hstale : forall i, block_ok (stale i)).
Context (fblk : Z -> Z) (qsort : list sort_entry -> list sort_entry).
Context (Hqperm : forall l, qsort l ≡ₚ l) (Hqsort : forall l, pairwise (fun a b => se_hash a <= se_hash b) (qsort l)).

(** The entries of a block in two sorted parts. *)
Record halves (version : Z) (es : list dent) (s1 : list sort_entry) (x : sort_entry) (s2 : list sort_entry) (D1 D2 : list dent) : Prop := {
  hv_left : Forall2 (se_for version) s1 D1;
  hv_right : Forall2 (se_for version) (x :: s2) D2;
  hv_perm : D1 ++ D2 ≡ₚ filter (fun x => d_ino x <> 0) es;
  hv_left_size : 0 < sumz (fun x => dsize (d_name x)) D1 <= 2048;
  hv_right_size : 0 < sumz (fun x => dsize (d_name x)) D2 <= 3000;
  hv_sorted : pairwise (fun a b => se_hash a <= se_hash b) (s1 ++ x :: s2);
  hv_range : Forall (fun a => Z.even (se_hash a) = true /\ 0 <= se_hash a < 4294967294) (s1 ++ x :: s2)
}.

Lemma halves_exist version b es : 0 <= version <= 2 -> dir_block b es -> Forall (fun x => name_ok x.1) (live es) -> 2048 < used_bytes es ->
  exists ses s1 x s2 D1 D2, dx_collect hash_seed (S (Z.to_nat dir_block_size)) (used_version version) b 0 = Ok (inr ses) /\ qsort ses = s1 ++ x :: s2 /\
    dx_half (qsort ses) 0 0 = (length s1, se_hash x) /\ s1 <> [] /\ halves version es s1 x s2 D1 D2.
Proof.
  intros Hv [Hb Hes] Hn Hused. pose proof (dents_le _ _ _ _ Hes) as Hle.
  destruct (dx_collect_ok version b (S (Z.to_nat dir_block_size)) 0 es Hv Hb ltac:(lia) Hes Hn ltac:(unfold dir_block_size; lia)) as (ses & E & Hses). exists ses.
  assert (exists ds, filter (fun x => d_ino x <> 0) es ≡ₚ ds /\ Forall2 (se_for version) (qsort ses) ds) as (ds & Hperm & Hq).
  { destruct (Permutation_Forall2 (symmetry (Hqperm ses)) Hses) as (ds & H1 & H2). by exists ds. }
  pose proof (used_bytes_le _ _ _ _ Hes) as Hub. unfold used_bytes in Hused, Hub. rewrite (sumz_perm _ _ _ Hperm), <- (se_for_sum _ _ _ Hq) in Hused, Hub.
  assert (Forall (fun se => 12 <= se_rec_len se <= 264) (qsort ses)) as Hlen.
  { apply Forall_forall. intros se Hse. apply list_elem_of_lookup in Hse as [i Hi]. destruct (Forall2_lookup_l _ _ _ _ _ Hq Hi) as (x & _ & Hx). rewrite (sf_len _ _ _ Hx).
    pose proof (dsize_bounds (d_name x)) as [H1 H2]. destruct (sf_name _ _ _ Hx) as [H3 H4]. Z.div_mod_to_equations; lia. }
  assert (Forall (fun se => 0 <= se_rec_len se <= 264) (qsort ses)) as Hlen' by (apply (Forall_impl _ _ _ Hlen); intros; lia).
  assert (Forall (fun a => Z.even (se_hash a) = true /\ 0 <= se_hash a < 4294967294) (qsort ses)) as Hrng.
  { apply Forall_forall. intros se Hse. apply list_elem_of_lookup in Hse as [i Hi]. destruct (Forall2_lookup_l _ _ _ _ _ Hq Hi) as (x & _ & Hx). rewrite (sf_hash _ _ _ Hx).
    apply (nhash_ok version (d_name x) Hv (sf_name _ _ _ Hx)). }
  pose proof (Hqsort ses) as Hso. destruct (dx_half_ok (qsort ses) 0 0 Hlen' ltac:(lia) ltac:(lia)) as (s1 & x & s2 & Eq & Eh & Hmid). rewrite Eq in *.
  apply Forall2_app_inv_l in Hq as (D1 & D2 & Hq1 & Hq2 & ->). rewrite sumz_app, sumz_cons in Hub. apply Forall_app in Hlen as [Hl1 Hl2]. apply Forall_cons in Hl2 as [Hlx Hl2].
  assert (0 <= sumz se_rec_len s2) as Hs2 by (apply sumz_nonneg, (Forall_impl _ _ _ Hl2); intros; lia).
  exists s1, x, s2, D1, D2. split_and!; try done.
  - intros ->. rewrite sumz_nil in Hmid. lia.
  - split; try done; [rewrite <- (se_for_sum _ _ _ Hq1)|rewrite <- (se_for_sum _ _ _ Hq2), sumz_cons]; lia.
Qed.

Lemma se_for_hashes version ses ds (P : Z -> Prop) : Forall2 (se_for version) ses ds -> Forall (fun x => P (nhash version (d_name x))) ds -> Forall (fun se => P (se_hash se)) ses.
Proof. induction 1 as [|se x ses ds H Hs IH]; intros HP; [constructor|]. apply Forall_cons in HP as [HP1 HP2]. constructor; [by rewrite (sf_hash _ _ _ H)|by apply IH]. Qed.

Lemma leaf_not_inner d version sh les e : dir_state d version sh les -> e ∈ flat sh -> 0 <= e.2 < zlen d /\ e.2 ∉ 0 :: inner sh.
Proof.
  intros Hd He. apply list_elem_of_split in He as (F1 & F2 & Hfl). destruct (blocks_distinct _ _ _ _ _ _ _ Hd Hfl) as (Hr & Hin & _). split; [done|]. intros Hi. by destruct (Hin _ Hi).
Qed.

Lemma inner_bound d version sh les i : dir_state d version sh les -> i ∈ 0 :: inner sh -> 0 <= i < zlen d.
Proof. intros [_ _ Hb] Hi. assert (i ∈ seqz 0 (zlen d)) as H%elem_of_seqz; [|lia]. rewrite <- Hb, app_comm_cons, elem_of_app. by left. Qed.

(** The new mark is between the marks around the block, and so are the names
    of the two parts. *)
Lemma inner_pos d version sh les i : dir_state d version sh les -> i ∈ inner sh -> 0 < i < zlen d.
Proof.
  intros Hd Hi. pose proof (inner_bound _ _ _ _ i Hd ltac:(by right)) as Hr. enough (i <> 0) by lia. intros ->.
  pose proof (NoDup_seqz 0 (zlen d)) as Hnd. rewrite <- (ds_blocks _ _ _ _ Hd) in Hnd. apply NoDup_cons in Hnd as [Hnd _]. apply Hnd. rewrite elem_of_app. by left.
Qed.

Lemma halves_marks version es s1 x s2 D1 D2 lo hi : halves version es s1 x s2 D1 D2 -> s1 <> [] -> 0 <= lo < U32_MOD ->
  Forall (fun x => name_ok x.1 /\ Z.land lo 4294967294 <= nhash version x.1 < hi) (live es) ->
  let s := split_mark s1 x in
  0 <= s < U32_MOD /\ lo <= s <= hi /\ Forall (fun x => name_ok x.1 /\ Z.land lo 4294967294 <= nhash version x.1 < s) ((fun x => (d_name x, d_ino x)) <$> D1) /\
  Forall (fun x => name_ok x.1 /\ Z.land s 4294967294 <= nhash version x.1 < hi) ((fun x => (d_name x, d_ino x)) <$> D2).
Proof.
  intros [H1 H2 Hperm _ _ Hso Hr] Hne Hlo Hn s. pose proof (split_mark_ok s1 x s2 Hso Hne Hr) as (Hs & Hx & Hland & Hlt & Hge & Hcont). fold s in Hs, Hx, Hland, Hlt, Hcont. clearbody s.
  assert (Forall (fun x => Z.land lo 4294967294 <= nhash version (d_name x) < hi) (D1 ++ D2)) as Hd.
  { rewrite Hperm. unfold live in Hn. rewrite Forall_fmap in Hn. apply (Forall_impl _ _ _ Hn). intros y [_ Hy]. done. }
  apply Forall_app in Hd as [Hd1 Hd2]. apply (se_for_hashes _ _ _ (fun h => Z.land lo 4294967294 <= h < hi) H1) in Hd1. apply (se_for_hashes _ _ _ (fun h => Z.land lo 4294967294 <= h < hi) H2) in Hd2.
  assert (lo <= s <= hi) as Hmark.
  { apply Forall_cons in Hd2 as [Hx2 _]. rewrite land_hash_mask in Hx2 by done. split; [|lia]. destruct s1 as [|w s1]; [done|]. apply Forall_cons in Hd1 as [Hw _]. rewrite land_hash_mask in Hw by done.
    destruct (Z.eq_dec s (se_hash x)) as [Eq|]; [|Z.div_mod_to_equations; lia]. apply Hcont in Eq as Hc. apply Forall_cons in Hc as [Hc _]. Z.div_mod_to_equations; lia. }
  split_and!; try lia; try apply Hmark.
  - apply (se_for_names version s1 D1 (fun h => Z.land lo 4294967294 <= h < s) H1). apply Forall_and in Hd1 as [Hd1 _]. apply Forall_and. split; [done|done].
  - apply (se_for_names version (x :: s2) D2 (fun h => Z.land s 4294967294 <= h < hi) H2). rewrite Hland. apply Forall_and in Hd2 as [_ Hd2]. apply Forall_and. split; done.
Qed.

(** A block of entries becomes two, with the new one behind the mark [s]. *)
Lemma split_state d version sh x F1 e F2 L1 es L2 A B left right s : dir_state d version sh (L1 ++ es :: L2) -> at_leaf sh x F1 e F2 -> length L1 = length F1 -> zlen d < U32_MOD ->
  climit_get_count (dxb_data d x) (dxb_entries x) < climit_get_limit (dxb_data d x) (dxb_entries x) ->
  dir_block A left -> dir_block B right -> 0 <= s < U32_MOD -> e.1 <= s <= next_mark F2 ->
  Forall (fun x => name_ok x.1 /\ Z.land e.1 4294967294 <= nhash version x.1 < s) (live left) ->
  Forall (fun x => name_ok x.1 /\ Z.land s 4294967294 <= nhash version x.1 < next_mark F2) (live right) ->
  let d' := dx_insert_entry (set_blk d e.2 A ++ [B]) x s (zlen d) in
  exists sh', dir_state d' version sh' (L1 ++ left :: right :: L2) /\ flat sh' = F1 ++ e :: (s, zlen d) :: F2 /\ zlen d' = zlen d + 1 /\
    dx_entry_get_hash (dxb_data d' x) (dxb_entries x) (dxb_position x + 1) = s.
Proof.
  intros Hd Hat Hlen Hzd Hroom HA HB Hs Hmark Hleft Hright d'. pose proof (at_leaf_flat _ _ _ _ _ Hat) as Hfl. pose proof (blocks_distinct _ _ _ _ _ _ _ Hd Hfl) as (Hr & Hin & Hlf).
  assert (forall e', e' ∈ flat sh -> 0 <= e'.2 < zlen d /\ e'.2 ∉ 0 :: inner sh) as Hni by (intros e' He'; by apply (leaf_not_inner d version sh (L1 ++ es :: L2))).
  pose proof (fun i => inner_bound _ _ _ _ i Hd) as Hib. pose proof Hd as [Hi Hl Hb Hf]. set (d1 := set_blk d e.2 A ++ [B]) in *.
  assert (forall i, 0 <= i < zlen d -> i <> e.2 -> d1 !! Z.to_nat i = d !! Z.to_nat i) as Hd1.
  { intros i Hi1 Hi2. unfold d1. rewrite lookup_app_l by (rewrite length_set_blk; lia). apply set_blk_ne. lia. }
  assert (d1 !! Z.to_nat e.2 = Some A /\ d1 !! Z.to_nat (zlen d) = Some B) as [HdA HdB].
  { unfold d1. split; [rewrite lookup_app_l by (rewrite length_set_blk; lia); by apply set_blk_eq|]. rewrite Nat2Z.id, lookup_app_r by (rewrite length_set_blk; lia). by rewrite length_set_blk, Nat.sub_diag. }
  assert (idx d1 version sh) as Hi1. { apply (idx_frame d); [done|]. intros i Hi'. apply Hd1; [by apply Hib|]. by destruct (Hin i Hi'). }
  assert (dxb_data d1 x = dxb_data d x) as Hx.
  { destruct (at_leaf_node _ _ _ _ _ _ _ Hi Hat) as (b & lim & l1 & l2 & E & _). destruct (at_leaf_node _ _ _ _ _ _ _ Hi1 Hat) as (b1 & lim1 & l11 & l21 & E1 & _).
    rewrite (dxb_data_ok _ _ _ E), (dxb_data_ok _ _ _ E1). assert (dxb_blk x ∈ 0 :: inner sh) as Hxi by (by eapply at_leaf_blk). rewrite Hd1 in E1; [congruence|by apply Hib|by destruct (Hin _ Hxi)]. }
  pose proof (ix_sorted _ _ _ Hi) as Hso. rewrite Hfl in Hso. apply by_hash_app in Hso as (_ & Hso & _). apply by_hash_cons in Hso as [Hso _].
  assert (Forall (fun x => s <= x.1) F2) as HF2.
  { clear -Hmark Hso. destruct F2 as [|y F2]; constructor; cbn in Hmark; [lia|]. apply by_hash_cons in Hso as [_ Hso]. apply Forall_forall. intros z Hz. specialize (Hso z Hz). lia. }
  destruct (dx_insert_ok d1 version sh x F1 e F2 s (zlen d) Hi1 Hat ltac:(by rewrite Hx) Hs ltac:(lia) ltac:(lia) HF2) as (sh' & [G1 G2 G3 G4 G5 G6 G7 G8]). fold d' in G1, G5, G6, G8.
  assert (length d' = S (length d)) as Hld by (rewrite G5; unfold d1; rewrite length_app, length_set_blk; cbn; lia).
  assert (forall i, 0 <= i -> i ∉ 0 :: inner sh -> d' !! Z.to_nat i = d1 !! Z.to_nat i) as Hd'. { intros i Hi0 Hi'. apply G6. intros Eq. apply Hi'. replace i with (dxb_blk x); [done|]. pose proof (Hib _ G7). lia. }
  assert (zlen d ∉ 0 :: inner sh) as Hnew by (intros Hi'; apply Hib in Hi'; lia).
  assert (forall e', e' ∈ F1 \/ e' ∈ F2 -> d' !! Z.to_nat e'.2 = d !! Z.to_nat e'.2) as Hoth.
  { intros e' He'. assert (e' ∈ flat sh) as Hef by (rewrite Hfl, elem_of_app, elem_of_cons; tauto). destruct (Hni _ Hef) as [He1 He2]. rewrite Hd' by (lia || done). apply Hd1; [done|]. by destruct (Hlf e' He'). }
  exists sh'. split; [|split_and!; [done|lia|done]]. rewrite Hfl in Hl. split; [done| | |].
  - rewrite G2. apply (leaves_replace d d' version F1 e F2 ((s, zlen d) :: F2) L1 es L2); try done; [|intros e' He'; by apply Hoth; left].
    destruct (leaves_split _ _ _ _ _ _ Hl) as (L1' & es1 & L2' & Eq & Hlen' & _ & Hls). apply app_inj_1 in Eq as [<- [= <- <-]]; [|lia]. cbn [leaves_ok fst snd]. split_and!.
    + split; [|done]. exists A. split; [|done]. rewrite Hd'; [done|lia|]. apply Hni. rewrite Hfl, elem_of_app, elem_of_cons. tauto.
    + split; [|done]. exists B. split; [|done]. rewrite Hd'; [done|lia|done].
    + apply (leaves_frame d); [done|]. intros e' He'. by apply Hoth; right.
  - rewrite G3, G2, Hld. replace (Z.of_nat (S (length d))) with (zlen d + 1) by lia. rewrite seqz_snoc, <- Hb, Hfl, !fmap_app, !fmap_cons by lia. cbn [snd]. rewrite Z.add_0_l. solve_Permutation.
  - apply (frame_insert d1 version sh x F1 e F2); try done; [|intros i Hi'; by apply (inner_pos d version sh (L1 ++ es :: L2))]. apply (frame_same d); [done|]. intros i Hi'. apply Hd1; [by apply Hib|]. by destruct (Hin i Hi').
Qed.

(** What a split leaves: two blocks with the names of the old one and room for
    any new name. *)
Record leaf_split (d : list block) (version : Z) (sh : shape) (x : dx_block) (F1 : list (Z * Z)) (e : Z * Z) (F2 : list (Z * Z)) (L1 : list (list dent)) (es : list dent) (L2 : list (list dent))
    (d' : list block) (sh' : shape) (s : Z) (left right : list dent) : Prop := {
  ls_state : dir_state d' version sh' (L1 ++ left :: right :: L2);
  ls_flat : flat sh' = F1 ++ e :: (s, zlen d) :: F2;
  ls_live : live left ++ live right ≡ₚ live es;
  ls_left : forall req new, req <= 264 -> is_Some (place req new left);
  ls_right : forall req new, req <= 264 -> is_Some (place req new right);
  ls_hash : dx_entry_get_hash (dxb_data d' x) (dxb_entries x) (dxb_position x + 1) = s
}.

Lemma dir_block_fill version ses ds b : Forall2 (se_for version) ses ds -> block_ok b -> 0 < sumz (fun x => dsize (d_name x)) ds <= 3000 ->
  dir_block (dx_fill b 0 ses) (repack 0 ds) /\ live (repack 0 ds) = ((fun x => (d_name x, d_ino x)) <$> ds) /\ forall req new, req <= 264 -> is_Some (place req new (repack 0 ds)).
Proof.
  intros Hf Hb Hsum. pose proof (se_for_inos _ _ _ Hf) as Hino. assert (ds <> []) as Hds by (intros ->; rewrite sumz_nil in Hsum; lia).
  assert (ses <> []) as Hses by (intros ->; by inversion Hf; subst). destruct (dx_fill_ok version ses ds b 0 Hf Hses Hb ltac:(lia) eq_refl ltac:(lia)) as [[Hk _] Hd].
  split_and!; [done|by apply repack_live|]. intros req new Hreq. apply repack_place; try done. lia.
Qed.

Lemma dx_split_data_ok d version sh x F1 e F2 L1 es L2 : dir_state d version sh (L1 ++ es :: L2) -> at_leaf sh x F1 e F2 -> length L1 = length F1 -> zlen d < U32_MOD ->
  climit_get_count (dxb_data d x) (dxb_entries x) < climit_get_limit (dxb_data d x) (dxb_entries x) -> fblk (zlen d) <> fblk e.2 -> 2048 < used_bytes es ->
  exists d' sh' s left right, dx_split_data hash_seed append_rc stale fblk qsort d (used_version version) e.2 x = Ok (d', inr (zlen d)) /\ leaf_split d version sh x F1 e F2 L1 es L2 d' sh' s left right.
Proof.
  intros Hd Hat Hlen Hzd Hroom Hfb Hused. pose proof (at_leaf_flat _ _ _ _ _ Hat) as Hfl. destruct (dir_block_lookup d version sh _ F1 e F2 L1 es L2 Hd Hfl eq_refl Hlen) as (b & E & Hb & Hn).
  pose proof (blocks_distinct _ _ _ _ _ _ _ Hd Hfl) as (Hr & _). pose proof (ix_version _ _ _ (ds_idx _ _ _ _ Hd)) as Hv. pose proof (flat_range _ _ _ (ds_idx _ _ _ _ Hd)) as Hrg.
  rewrite Hfl in Hrg. apply Forall_app in Hrg as [_ Hrg]. apply Forall_cons in Hrg as [[Hrg _] _].
  assert (Forall (fun x => name_ok x.1) (live es)) as Hn' by (apply (Forall_impl _ _ _ Hn); tauto).
  destruct (halves_exist version b es Hv Hb Hn' Hused) as (ses & s1 & x0 & s2 & D1 & D2 & Ec & Eq & Eh & Hne & Hh). pose proof (halves_marks _ _ _ _ _ _ _ _ _ Hh Hne Hrg Hn) as (Hs & Hm & HnL & HnR).
  unfold dx_split_data. rewrite (blk_data_ok _ _ _ E), Ec. cbn [res_bind]. rewrite (append_dblk_ok append_rc stale Happend), (proj2 (Z.eqb_neq _ _) Hfb), Eh. cbn [negb].
  destruct s1 as [|w s1'] eqn:Es1; [done|]. rewrite <- Es1 in *. assert (length s1 = S (length s1')) as Hl1 by (by rewrite Es1).
  assert (qsort ses !! length s1' = last s1) as Hlast. { rewrite Eq, lookup_app_l by lia. rewrite last_lookup. f_equal. lia. }
  rewrite Hl1, Hlast. rewrite <- Hl1, Eq, take_app_length, drop_app_length. fold (split_mark s1 x0). set (s := split_mark s1 x0) in *. clearbody s.
  destruct (dir_block_fill version s1 D1 b (hv_left _ _ _ _ _ _ _ Hh) (proj1 Hb) ltac:(pose proof (hv_left_size _ _ _ _ _ _ _ Hh); lia)) as (HA & HlA & HpA).
  destruct (dir_block_fill version (x0 :: s2) D2 (stale (zlen d)) (hv_right _ _ _ _ _ _ _ Hh) (Hstale _) (hv_right_size _ _ _ _ _ _ _ Hh)) as (HB & HlB & HpB).
  rewrite (set_blk_app_l d), <- (length_set_blk d e.2 (dx_fill b 0 s1)), set_blk_new, length_set_blk by lia. rewrite <- HlA in HnL. rewrite <- HlB in HnR.
  destruct (split_state d version sh x F1 e F2 L1 es L2 _ _ _ _ s Hd Hat Hlen Hzd Hroom HA HB Hs Hm HnL HnR) as (sh' & H1 & H2 & _ & H4).
  eexists _, sh', s, (repack 0 D1), (repack 0 D2). split; [done|]. split; try done. rewrite HlA, HlB, <- fmap_app. unfold live. by rewrite (hv_perm _ _ _ _ _ _ _ Hh).
Qed.

(** Entries that fill no more than half of a block have no middle. *)
Lemma dx_half_none ses : forall i cur, Forall (fun se => 0 <= se_rec_len se) ses -> cur + sumz se_rec_len ses <= 2048 -> dx_half ses i cur = (0%nat, 0).
Proof.
  induction ses as [|se ses IH]; intros i cur Hr Hs; [done|]. apply Forall_cons in Hr as [Hr1 Hr2]. rewrite sumz_cons in Hs. cbn [dx_half]. change (dir_block_size / 2) with 2048.
  pose proof (sumz_nonneg se_rec_len ses Hr2). rewrite (proj2 (Z.ltb_ge _ _)) by lia. apply IH; [done|lia].
Qed.

Lemma split_data_aborts d version es iblk x b : 0 <= version <= 2 -> d !! Z.to_nat iblk = Some b -> dir_block b es -> Forall (fun x => name_ok x.1) (live es) -> used_bytes es <= 2048 ->
  dx_split_data hash_seed append_rc stale fblk qsort d (used_version version) iblk x = Abort.
Proof.
  intros Hv E [Hb Hes] Hn Hused. unfold dx_split_data. pose proof (dents_le _ _ _ _ Hes) as Hle.
  destruct (dx_collect_ok version b (S (Z.to_nat dir_block_size)) 0 es Hv Hb ltac:(lia) Hes Hn ltac:(unfold dir_block_size; lia)) as (ses & Ec & Hses).
  rewrite (blk_data_ok _ _ _ E), Ec. cbn [res_bind]. rewrite (append_dblk_ok append_rc stale Happend). destruct (negb _); [|done].
  rewrite dx_half_none; [done| |].
  - rewrite Hqperm. clear -Hses. induction Hses as [|se y ses ds H Hs IH]; constructor; [|done]. rewrite (sf_len _ _ _ H). pose proof (dsize_bounds (d_name y)). lia.
  - rewrite (sumz_perm _ _ _ (Hqperm ses)), (se_for_sum _ _ _ Hses). unfold used_bytes in Hused. lia.
Qed.

(** ** Insertion *)

Lemma insert_leaf d version sh F1 e F2 L1 es L2 child name es' M :
  dir_state d version sh (L1 ++ es :: L2) -> flat sh = F1 ++ e :: F2 -> length L1 = length F1 -> name_ok name -> 0 < c_index child < U32_MOD ->
  Z.land e.1 4294967294 <= nhash version name < next_mark F2 -> place (dsize name) (new_dent child name) es = Some es' ->
  map_to_list M ≡ₚ entries (L1 ++ es :: L2) -> M !! name = None ->
  exists d', insert_into d e.2 child name = Ok (d', EOK) /\ is_dir d' version (<[name := c_index child]> M).
Proof.
  intros Hd Hfl Hlen Hn Hc Hh Hp HM HMn. destruct (dir_block_lookup d version sh _ F1 e F2 L1 es L2 Hd Hfl eq_refl Hlen) as (b & E & Hb & Hnm).
  unfold insert_into. rewrite (blk_data_ok _ _ _ E). pose proof (try_insert_ok b es child name Hb ltac:(destruct Hn; lia) ltac:(lia)) as Ht. rewrite Hp in Ht. destruct Ht as (b' & -> & Hb'). cbn [res_bind].
  eexists. split; [done|]. destruct (place_live _ _ _ _ name (c_index child) Hp ltac:(done) ltac:(lia)) as (l1 & l2 & El & El'). exists sh, (L1 ++ es' :: L2). split.
  - apply (replace_leaf d version sh F1 e F2 L1 es L2); try done. rewrite El'. rewrite El in Hnm. apply Forall_app in Hnm as [H1 H2]. apply Forall_app. split; [done|]. by constructor.
  - rewrite map_to_list_insert, HM, !entries_app, !entries_cons, El, El' by done. solve_Permutation.
Qed.

Lemma split_index_state d version sh p F1 e F2 d' p' sh' les : dir_state d version sh les -> idx_at sh p F1 e F2 -> dx_split_index append_rc stale d p = (EOK, d', p') ->
  index_split d version sh F1 e F2 d' p' sh' -> dir_state d' version sh' les.
Proof.
  intros Hd Hat Ed Hsp. pose proof (at_leaf_flat _ _ _ _ _ (idx_at_leaf _ _ _ _ _ Hat)) as Hfl. pose proof Hsp as [H1 H2 H3 H4 H5 H6]. pose proof (fun e => leaf_not_inner _ _ _ _ e Hd) as Hni.
  pose proof (fun i => inner_pos _ _ _ _ i Hd) as Hpos. destruct Hd as [Hi Hl Hb Hf]. split; [done| | |by apply (frame_split append_rc stale Happend Hstale d version sh p F1 e F2 d' p' sh')].
  - rewrite H2, <- Hfl. apply (leaves_frame d); [done|]. intros e' He'. destruct (Hni e' He') as [He1 He2]. apply H5; [lia|]. by rewrite Z2Nat.id by lia.
  - rewrite H2, <- Hfl. destruct H3 as [[-> ->]|[-> ->]]; [done|]. replace (Z.of_nat (S (length d))) with (zlen d + 1) by lia. rewrite seqz_snoc, <- Hb, Z.add_0_l by lia. solve_Permutation.
Qed.

Context (Hfblk : forall i j, fblk i = fblk j -> i = j).

(** No room for another index block. *)
Definition index_full (d : list block) : bool :=
  (rinfo_indirect_levels (blk_data d 0) =? 1) && (climit_get_count (blk_data d 0) root_en =? root_limit).

(** A block in which the name has no place although not more than half of it
    is in use. *)
Definition fragmented (d : list block) (child : dir_child) (name : list Z) : Prop :=
  exists i b es, d !! i = Some b /\ dir_block b es /\ dir_try_insert_entry b child name = Ok (b, ENOSPC) /\ used_bytes es <= 2048.

Lemma not_full_room d version sh : idx d version sh -> index_full d = false -> index_room sh.
Proof.
  intros [(root & E & _ & _ & Hsh) _ _ _ _]. unfold index_full. rewrite (blk_data_ok d 0 root E). destruct sh as [es|rs ns]; [done|]. destruct Hsh as (-> & Hn & _). cbn [Z.eqb andb index_room].
  change (Pos.eqb 1 1) with true. rewrite (nd_count _ _ _ _ Hn). intros H%Z.eqb_neq. pose proof (nd_len _ _ _ _ Hn). lia.
Qed.

Lemma next_mark_behind h F2 : h < U32_MOD -> Forall (fun x => h < x.1) F2 -> h < next_mark F2.
Proof. intros Hh [|y F H _]; cbn; [done|lia]. Qed.

Lemma land_hash_mask_le x : 0 <= x < U32_MOD -> Z.land x 4294967294 <= x.
Proof. intros Hx. rewrite land_hash_mask by done. Z.div_mod_to_equations. lia. Qed.

(** A name in one of the two parts of its block. *)
Lemma insert_half d version sh x F1 e F2 L1 es L2 d' sh' s left right child name M : leaf_split d version sh x F1 e F2 L1 es L2 d' sh' s left right ->
  length L1 = length F1 -> name_ok name -> 0 < c_index child < U32_MOD -> 0 <= s < U32_MOD -> Z.land e.1 4294967294 <= nhash version name < next_mark F2 ->
  map_to_list M ≡ₚ entries (L1 ++ es :: L2) -> M !! name = None ->
  exists d'', insert_into d' (if s <=? nhash version name then zlen d else e.2) child name = Ok (d'', EOK) /\ is_dir d'' version (<[name := c_index child]> M).
Proof.
  intros [Hd Hfl Hlv Hl Hr _] Hlen Hn Hc Hs Hh HM HMn. assert (dsize name <= 264) as Hsz by (destruct (dsize_bounds name), Hn; Z.div_mod_to_equations; lia).
  assert (map_to_list M ≡ₚ entries (L1 ++ left :: right :: L2)) as HM'. { rewrite HM, !entries_app, !entries_cons, <- Hlv. solve_Permutation. }
  destruct (Z.leb_spec s (nhash version name)) as [Hle|Hlt].
  - destruct (Hr (dsize name) (new_dent child name) Hsz) as [es' Hp]. change (zlen d) with ((s, zlen d).2).
    apply (insert_leaf d' version sh' (F1 ++ [e]) (s, zlen d) F2 (L1 ++ [left]) right L2 child name es' M); try done.
    + by rewrite <- app_assoc.
    + by rewrite <- app_assoc.
    + rewrite !length_app. cbn. lia.
    + cbn [fst]. pose proof (land_hash_mask_le s Hs). lia.
    + by rewrite <- app_assoc.
  - destruct (Hl (dsize name) (new_dent child name) Hsz) as [es' Hp].
    apply (insert_leaf d' version sh' F1 e ((s, zlen d) :: F2) L1 left (right :: L2) child name es' M); try done. cbn. lia.
Qed.

(** The name has no place in its block. *)
Lemma add_by_split d version sh x F1 e F2 L1 es L2 child name M : dir_state d version sh (L1 ++ es :: L2) -> at_leaf sh x F1 e F2 -> length L1 = length F1 -> zlen d < U32_MOD ->
  climit_get_count (dxb_data d x) (dxb_entries x) < climit_get_limit (dxb_data d x) (dxb_entries x) -> name_ok name -> 0 < c_index child < U32_MOD ->
  Z.land e.1 4294967294 <= nhash version name < next_mark F2 -> map_to_list M ≡ₚ entries (L1 ++ es :: L2) -> M !! name = None -> 2048 < used_bytes es ->
  exists d', (let* (d, r) := dx_split_data hash_seed append_rc stale fblk qsort d (used_version version) e.2 x in
    match r with
    | inl r => Ok (d, r)
    | inr new_iblk =>
        let* (d, _) := insert_into d (if dx_entry_get_hash (dxb_data d x) (dxb_entries x) (dxb_position x + 1) <=? nhash version name then new_iblk else e.2) child name in Ok (d, EOK)
    end) = Ok (d', EOK) /\ is_dir d' version (<[name := c_index child]> M).
Proof.
  intros Hd Hat Hlen Hzd Hroom Hn Hc Hmk HM HMn Hused. pose proof (at_leaf_flat _ _ _ _ _ Hat) as Hfl. destruct (blocks_distinct _ _ _ _ _ _ _ Hd Hfl) as [Hr _].
  assert (fblk (zlen d) <> fblk e.2) as Hfb by (intros Eq; apply Hfblk in Eq; lia).
  destruct (dx_split_data_ok d version sh x F1 e F2 L1 es L2 Hd Hat Hlen Hzd Hroom Hfb Hused) as (d' & sh' & s & left & right & -> & Hls). cbn [res_bind]. rewrite (ls_hash _ _ _ _ _ _ _ _ _ _ _ _ _ _ _ Hls).
  pose proof (flat_range _ _ _ (ds_idx _ _ _ _ (ls_state _ _ _ _ _ _ _ _ _ _ _ _ _ _ _ Hls))) as Hrg. rewrite (ls_flat _ _ _ _ _ _ _ _ _ _ _ _ _ _ _ Hls) in Hrg.
  apply Forall_app in Hrg as [_ Hrg]. apply Forall_cons in Hrg as [_ Hrg]. apply Forall_cons in Hrg as [[Hs _] _].
  destruct (insert_half _ _ _ _ _ _ _ _ _ _ _ _ _ _ _ child name M Hls Hlen Hn Hc Hs Hmk HM HMn) as (d'' & -> & Hd''). by exists d''.
Qed.

(** The root has at most 508 index blocks with at most 511 blocks of entries
    each. *)
Definition max_dir_blocks : Z := 1 + 508 + 508 * 511.

Lemma concat_len {A} (k : Z) (ls : list (list A)) : Forall (fun l => zlen l <= k) ls -> zlen (concat ls) <= zlen ls * k.
Proof. induction 1 as [|l ls Hl _ IH]; [done|]. cbn [concat]. rewrite length_app, length_cons. lia. Qed.

Lemma dir_small d version sh les : dir_state d version sh les -> zlen d <= max_dir_blocks.
Proof.
  intros [[(root & _ & _ & _ & Hsh) _ _ _ _] _ Hb _]. apply Permutation_length in Hb. rewrite length_seqz, length_cons, length_app, length_fmap in Hb. unfold max_dir_blocks. destruct sh as [es|rs ns]; cbn [inner flat] in Hb.
  - destruct Hsh as [_ Hn]. pose proof (nd_len _ _ _ _ Hn) as Hl. change root_limit with 508 in Hl. cbn in Hb. lia.
  - destruct Hsh as (_ & Hn & Hc). pose proof (nd_len _ _ _ _ Hn) as Hl. change root_limit with 508 in Hl. pose proof (Forall2_length _ _ _ Hc) as Hlen.
    assert (zlen (concat ns) <= zlen ns * 511) as Hns. { apply concat_len. apply (Forall2_Forall_r _ _ _ _ Hc). apply Forall_true. intros r es (b & _ & Hn' & _). pose proof (nd_len _ _ _ _ Hn') as H. change node_limit with 511 in H. lia. }
    rewrite length_fmap in Hb. lia.
Qed.

Lemma is_dir_small d version M : is_dir d version M -> zlen d <= max_dir_blocks.
Proof. intros (sh & les & Hd & _). by apply (dir_small d version sh les). Qed.

Lemma dx_add_ok d version M child name : is_dir d version M -> name_ok name -> 0 < c_index child < U32_MOD -> index_full d = false -> M !! name = None ->
  (exists d', dx_add_entry hash_seed unsigned_hash rc_read append_rc stale fblk qsort d child name = Ok (d', EOK) /\ is_dir d' version (<[name := c_index child]> M)) \/
  dx_add_entry hash_seed unsigned_hash rc_read append_rc stale fblk qsort d child name = Abort /\ fragmented d child name.
Proof.
  intros (sh & les & Hd & HM) Hn Hc Hfull HMn. assert (zlen d + 1 < U32_MOD) as Hzd by (apply dir_small in Hd; unfold max_dir_blocks in Hd; lia). pose proof (ds_idx _ _ _ _ Hd) as Hi. pose proof Hi as [(root & E & _) Hver _ _ _].
  unfold dx_add_entry. rewrite (get_blk_ok rc_read Hread d 0 root E), (hinfo_init_ok d version sh root name Hi E Hn).
  destruct (nhash_ok version name Hver Hn) as (_ & Hev & Hh). destruct (dx_get_leaf_ok rc_read Hread d version sh root (nhash version name) Hi E ltac:(lia)) as (p & F1 & e & F2 & -> & Hat & He & HF2).
  rewrite (dx_leaf_ok d version sh p F1 e F2 Hi (idx_at_leaf _ _ _ _ _ Hat)). pose proof (at_leaf_flat _ _ _ _ _ (idx_at_leaf _ _ _ _ _ Hat)) as Hfl.
  pose proof (ds_leaves _ _ _ _ Hd) as Hl. rewrite Hfl in Hl. destruct (leaves_split _ _ _ _ _ _ Hl) as (L1 & es & L2 & -> & Hlen & [(b & Eb & Hb) Hnm] & _). rewrite Eb.
  destruct (dx_split_index_ok append_rc stale Happend Hstale d version sh p F1 e F2 Hi Hat (not_full_room _ _ _ Hi Hfull) ltac:(lia)) as (d1 & p1 & sh1 & Esp & Hsp).
  pose proof (split_index_state _ _ _ _ _ _ _ _ _ _ _ Hd Hat Esp Hsp) as Hd1. rewrite Esp. cbn [Z.eqb negb]. destruct (blocks_distinct _ _ _ _ _ _ _ Hd1 (is_flat _ _ _ _ _ _ _ _ _ Hsp)) as [Hr1 _].
  assert (zlen d1 <= zlen d + 1) as Hz1 by (destruct (is_inner _ _ _ _ _ _ _ _ _ Hsp) as [[-> _]|[-> _]]; lia).
  destruct (dir_block_lookup d1 version sh1 _ F1 e F2 L1 es L2 Hd1 (is_flat _ _ _ _ _ _ _ _ _ Hsp) eq_refl Hlen) as (b1 & Eb1 & Hb1 & _).
  pose proof (flat_range _ _ _ Hi) as Hrg. rewrite Hfl in Hrg. apply Forall_app in Hrg as [_ Hrg]. apply Forall_cons in Hrg as [[Hrg _] _].
  assert (Z.land e.1 4294967294 <= nhash version name < next_mark F2) as Hmk. { split; [pose proof (land_hash_mask_le _ Hrg); lia|]. apply next_mark_behind; [lia|done]. }
  change (EOK =? EOK) with true. rewrite Hread. cbn [negb Z.eqb]. change (EOK =? EOK) with true. cbn [negb].
  destruct (place (dsize name) (new_dent child name) es) as [es'|] eqn:Hp.
  { destruct (insert_leaf d1 version sh1 F1 e F2 L1 es L2 child name es' M Hd1 (is_flat _ _ _ _ _ _ _ _ _ Hsp) Hlen Hn Hc Hmk Hp HM HMn) as (d' & -> & Hd'). left. exists d'. done. }
  pose proof (try_insert_ok b es child name Hb ltac:(destruct Hn; lia) ltac:(lia)) as Ht. pose proof (try_insert_ok b1 es child name Hb1 ltac:(destruct Hn; lia) ltac:(lia)) as Ht1. rewrite Hp in Ht, Ht1.
  assert (insert_into d1 e.2 child name = Ok (d1, ENOSPC)) as ->. { unfold insert_into, set_blk. rewrite (blk_data_ok _ _ _ Eb1), Ht1. cbn [res_bind]. by rewrite (list_insert_id d1 _ _ Eb1). }
  cbn [res_bind]. change (ENOSPC =? EOK) with false. cbn match.
  destruct (Z.ltb_spec 2048 (used_bytes es)) as [Hused|Hused].
  - left. apply (add_by_split d1 version sh1 (dx_cur p1) F1 e F2 L1 es L2 child name M); try done; [apply (is_at _ _ _ _ _ _ _ _ _ Hsp)|lia|apply (is_room _ _ _ _ _ _ _ _ _ Hsp)].
  - right. split; [|by exists (Z.to_nat e.2), b, es]. rewrite (split_data_aborts d1 version es e.2 _ b1); try done. apply (Forall_impl _ _ _ Hnm). tauto.
Qed.

Lemma dir_add_ok x version M child name : is_dir_file x version M -> name_ok name -> 0 < c_index child < U32_MOD -> index_full (df_blocks x) = false -> M !! name = None ->
  (exists x', dir_add_entry hash_seed unsigned_hash rc_read append_rc stale fblk qsort x child name = Ok (x', EOK) /\ is_dir_file x' version (<[name := c_index child]> M)) \/
  dir_add_entry hash_seed unsigned_hash rc_read append_rc stale fblk qsort x child name = Abort /\ fragmented (df_blocks x) child name.
Proof.
  destruct x as [isd ix d]. intros (Ed & Ei & Hd) Hn Hc Hf HM. cbn in *. subst isd ix. unfold dir_add_entry. cbn [df_index df_blocks].
  destruct (dx_add_ok d version M child name Hd Hn Hc Hf HM) as [(d' & -> & Hd')|[-> Hfr]]; [|by right]. left. cbn [res_bind]. eexists. split; [done|]. done.
Qed.

(** ** A new directory *)

Context (Hbytes : forall i, Forall (fun x => 0 <= x < 256) (stale i)).

Ltac wlen := lia || (rewrite length_wr by wlen; wlen).
Ltac rd_step := rewrite rd_wr_ne by wlen.

Lemma init_root root0 hash_version blk : block_ok root0 -> rd 1 root0 31 = 0 -> 0 <= hash_version <= 2 -> 0 <= blk < U32_MOD ->
  let root := wr 1 root0 28 hash_version in
  let root := wr 1 root 30 0 in
  let root := wr 1 root 29 8 in
  let root := climit_set_count root root_en 1 in
  let root := climit_set_limit root root_en root_limit in
  let root := dx_entry_set_block root root_en 0 blk in
  rinfo_hash_version root = hash_version /\ rinfo_unused_flags root = 0 /\ rinfo_indirect_levels root = 0 /\ dx_node root root_en root_limit [(0, blk)].
Proof.
  intros Hb H31 Hv Hblk. cbn zeta. unfold block_ok in Hb. unfold rinfo_hash_version, rinfo_unused_flags, rinfo_indirect_levels, climit_set_count, climit_set_limit, dx_entry_set_block.
  change root_en with 32. change (32 + 2) with 34. change (32 + 8 * 0 + 4) with 36. split_and!.
  - do 5 rd_step. rewrite rd_wr_eq by lia. apply Z.mod_small. lia.
  - by do 6 rd_step.
  - do 4 rd_step. by rewrite rd_wr_eq by wlen.
  - change root_limit with 508. split; [|lia|lia|..|cbn; lia| |].
    + unfold block_ok. wlen.
    + unfold climit_get_limit. rd_step. by rewrite rd_wr_eq by wlen.
    + unfold climit_get_count. do 2 rd_step. by rewrite rd_wr_eq by wlen.
    + intros [|i] e' Hi; [|done]. injection Hi as <-. split; [|done]. unfold dx_entry_get_block. change (32 + 8 * Z.of_nat 0 + 4) with 36. rewrite rd_wr_eq by wlen. apply Z.mod_small. cbn. lia.
    + repeat constructor; cbn; lia.
Qed.

(** The block of a new directory: one free entry. *)
Lemma init_leaf b : block_ok b -> Forall (fun x => 0 <= x < 256) b -> exists x, dir_block (en_set_inode (en_set_entry_len b 0 dir_block_size) 0 0) [x] /\ d_ino x = 0.
Proof.
  intros Hb Hby. set (n := en_get_name_len b 0). assert (0 <= n < 256) as Hn.
  { unfold n, en_get_name_len, rd. assert (Forall (fun x => 0 <= x < 256) (take 1 (drop (Z.to_nat (0 + 6)) b))) as H by (by apply Forall_take, Forall_drop). apply un_le_bound in H. rewrite length_take in H.
    assert (256 ^ Z.of_nat (1 `min` length (drop (Z.to_nat (0 + 6)) b)) <= 256 ^ 1) by (apply Z.pow_le_mono_r; lia). lia. }
  assert (zlen (slice b (0 + 8) n) = n) as Hl by (unfold block_ok in Hb; apply length_slice; lia).
  assert (dent_at b 0 (mk_dent (en_get_inode b 0) (en_get_entry_len b 0) (en_get_inode_type b 0) (slice b (0 + 8) n))) as Hat by (split; cbn [d_ino d_len d_type d_name]; by rewrite ?Hl).
  destruct (set_len_at b 0 _ dir_block_size Hb ltac:(lia) ltac:(lia) Hat ltac:(done)) as [[Hb1 _] Hat1]. destruct (set_inode_at _ 0 _ 0 Hb1 ltac:(lia) ltac:(lia) Hat1 ltac:(lia)) as [[Hb2 _] Hat2].
  exists (mk_dent 0 dir_block_size (en_get_inode_type b 0) (slice b (0 + 8) n)). split; [|done]. split; [done|]. cbn [dents]. split_and!; [done| |done]. split; cbn [d_ino d_len d_type d_name]; unfold dir_block_size; lia || done.
Qed.

Lemma dx_init_ok dir parent hash_version : 0 < c_index dir < U32_MOD -> 0 < c_index parent < U32_MOD -> 0 <= hash_version <= 2 ->
  exists d, dx_init append_rc stale [] dir parent hash_version = Ok (d, EOK) /\ is_dir d hash_version ∅ /\ index_full d = false.
Proof.
  intros Hd Hp Hv. unfold dx_init. rewrite (append_dblk_ok append_rc stale Happend). cbn [length app]. change (Z.of_nat 0) with 0. pose proof (Hstale 0) as Hb0.
  assert (zlen (replicate 32 0) = 32) as Hrl by done. pose proof (splice_keeps (stale 0) 0 (replicate 32 0) Hb0 ltac:(lia) ltac:(lia)) as [Hb1 _].
  assert (rd 1 (splice (stale 0) 0 (replicate 32 0)) 31 = 0) as H31. { rewrite rd_slice. unfold block_ok in Hb0. rewrite <- (Z.add_0_l 31) at 1. rewrite slice_splice_in by lia. done. }
  set (r1 := splice _ _ _) in *. clearbody r1.
  destruct (dir_write_entry_ok r1 0 12 dir [46] Hb1 ltac:(lia) ltac:(lia) ltac:(cbn; lia) ltac:(cbn; lia) ltac:(lia)) as (r2 & -> & K2 & A2). cbn [res_bind].
  destruct (dir_write_entry_ok r2 12 (dir_block_size - 12) parent [46; 46] (proj1 K2) ltac:(lia) ltac:(unfold dir_block_size; lia) ltac:(unfold dir_block_size; cbn; lia) ltac:(cbn; lia) ltac:(lia)) as (r3 & -> & K3 & A3). cbn [res_bind].
  rewrite (append_dblk_ok append_rc stale Happend). cbn [length app]. change (Z.of_nat 1) with 1.
  assert (rd 1 r3 31 = 0) as H31' by (rewrite (keeps_rd 1 _ _ _ _ 31 K3), (keeps_rd 1 _ _ _ _ 31 K2) by (cbn; lia); done).
  destruct (init_root r3 hash_version 1 (proj1 K3) H31' Hv ltac:(lia)) as (R1 & R2 & R3 & R4). destruct (init_leaf (stale 1) (Hstale 1) (Hbytes 1)) as (x & Hx & Hx0).
  assert (low 24 r3 (dx_entry_set_block (climit_set_limit (climit_set_count (wr 1 (wr 1 (wr 1 r3 28 hash_version) 30 0) 29 8) root_en 1) root_en root_limit) root_en 0 1)) as Hlow.
  { unfold dx_entry_set_block, climit_set_limit, climit_set_count, root_en. repeat (apply low_then_wr; [lia|]). apply low_refl. destruct K3 as [K3 _]. unfold block_ok in K3. lia. }
  assert (dir_block r3 [mk_dent (c_index dir) 12 (de_type (c_mode dir)) [46]; mk_dent (c_index parent) (dir_block_size - 12) (de_type (c_mode parent)) [46; 46]]) as Hdots.
  { split; [apply K3|]. cbn [dents d_len]. split_and!; [|split; done|done|split; done|done]. apply (dent_at_keeps r2 r3 _ _ _ _ K3); [split; done|done|done|cbn; lia]. }
  pose proof (dots_low _ _ _ _ Hlow (nd_ok _ _ _ _ R4) Hdots eq_refl eq_refl eq_refl) as Hfr.
  set (root := dx_entry_set_block _ _ _ _) in *. set (be := en_set_inode _ _ _) in *. clearbody root be. exists [root; be]. split; [done|].
  split; [|unfold index_full; rewrite (blk_data_ok [root; be] 0 root eq_refl), R3; done].
  exists (Flat [(0, 1)]), [[x]]. split; [split; [| | |split; [eexists _, _, _; split_and!; [done|exact Hfr|done..|cbn; lia|cbn; lia]|intros i Hi; by apply not_elem_of_nil in Hi]]|].
  - split; try done; [exists root; done|cbn; constructor; [set_solver|constructor]|repeat constructor].
  - cbn. split; [|done]. split; [by exists be|]. rewrite live_cons, Hx0. constructor.
  - cbn. by rewrite !seqz_cons, seqz_nil by lia.
  - rewrite map_to_list_empty, entries_cons, live_cons, Hx0. done.
Qed.

(** ** Histories *)

(** Search in a directory that stands for a map. *)
Lemma dir_lookup_ok x version M name : is_dir_file x version M -> name_ok name ->
  match M !! name with
  | Some ino => exists iblk o, dir_find_entry hash_seed unsigned_hash rc_read x name = Ok (x, inr (iblk, o)) /\ en_get_inode (blk_data (df_blocks x) iblk) o = ino
  | None => dir_find_entry hash_seed unsigned_hash rc_read x name = Ok (x, inl ENOENT)
  end.
Proof.
  destruct x as [isd ix d]. intros (Ed & Ei & sh & les & Hd & HM) Hn. cbn in Ed, Ei, Hd. subst isd ix. unfold dir_find_entry. cbn [df_is_dir df_index df_blocks].
  destruct (dx_find_ok d version sh les name Hd Hn) as [(F1 & e & F2 & L1 & pre & x & post & L2 & o & Hfl & -> & Hlen & -> & (b & E & Hb & -> & Hat & Hx))|[-> Hno]]; cbn [res_bind].
  - apply andb_true_iff in Hx as [Hx1%negb_true_iff%Z.eqb_neq Hx2%bool_decide_eq_true].
    assert (M !! name = Some (d_ino x)) as ->.
    { apply elem_of_map_to_list. rewrite HM. apply elem_of_entries. exists (pre ++ x :: post). split; [rewrite elem_of_app, elem_of_cons; tauto|].
      rewrite dlive_app, live_cons, (proj2 (Z.eqb_neq _ _) Hx1), Hx2, elem_of_app. right. by left. }
    eexists _, _. split; [done|]. rewrite (blk_data_ok _ _ _ E). apply Hat.
  - destruct (M !! name) as [ino|] eqn:HMx; [|done]. apply elem_of_map_to_list in HMx. rewrite HM in HMx. by apply Hno in HMx.
Qed.

(** The states of a directory under the operations, with the map of the names
    added and not removed. *)
Inductive dir_history (version : Z) : dir_file -> gmap (list Z) Z -> Prop :=
| dh_init dir parent d : 0 < c_index dir < U32_MOD -> 0 < c_index parent < U32_MOD ->
    dx_init append_rc stale [] dir parent version = Ok (d, EOK) -> dir_history version (mk_dir true true d) ∅
| dh_add x M child name x' r : dir_history version x M -> name_ok name -> 0 < c_index child < U32_MOD -> M !! name = None -> index_full (df_blocks x) = false ->
    dir_add_entry hash_seed unsigned_hash rc_read append_rc stale fblk qsort x child name = Ok (x', r) -> dir_history version x' (<[name := c_index child]> M)
| dh_remove x M name x' r : dir_history version x M -> name_ok name ->
    dir_remove_entry hash_seed unsigned_hash rc_read x name = Ok (x', r) -> dir_history version x' (delete name M).

Lemma history_is_dir version x M : 0 <= version <= 2 -> dir_history version x M -> is_dir_file x version M.
Proof.
  intros Hv. induction 1 as [dir parent d H1 H2 E|x M child name x' r Hh IH Hn Hc HM Hf E|x M name x' r Hh IH Hn E].
  - destruct (dx_init_ok dir parent version H1 H2 Hv) as (d1 & E1 & Hd & _). rewrite E1 in E. by injection E as <-.
  - destruct (dir_add_ok x version M child name IH Hn Hc Hf HM) as [(x1 & E1 & Hx)|[E1 _]]; rewrite E1 in E; [by injection E as <- <-|done].
  - pose proof (dir_remove_ok x version M name IH Hn) as Hr. destruct (M !! name) as [ino|] eqn:HM.
    + destruct Hr as (x1 & E1 & Hx). rewrite E1 in E. by injection E as <- <-.
    + rewrite Hr in E. injection E as <- <-. by rewrite delete_id.
Qed.

(** C26: after any history of insertions and removals on a new indexed directory, the search for a name finds an entry with the inode number of the name exactly if the name was added and not removed, and reports ENOENT otherwise, over any number of splits of blocks and of the index. *)
Theorem ext4_dir_finds_history version x M name : 0 <= version <= 2 -> dir_history version x M -> name_ok name ->
  match M !! name with
  | Some ino => exists iblk o, dir_find_entry hash_seed unsigned_hash rc_read x name = Ok (x, inr (iblk, o)) /\ en_get_inode (blk_data (df_blocks x) iblk) o = ino
  | None => dir_find_entry hash_seed unsigned_hash rc_read x name = Ok (x, inl ENOENT)
  end.
Proof. intros Hv Hh Hn. apply (dir_lookup_ok x version M name); [by apply history_is_dir|done]. Qed.

(** Ext4_dir_add_entry on a directory that stands for a map adds the new name to the map, splitting the block of the name and the index where needed; the only other outcome is the access far behind the sort array, on a block in which the name has no place although not more than half of it is in use. *)
Lemma ext4_dir_add x version M child name : is_dir_file x version M -> name_ok name -> 0 < c_index child < U32_MOD -> index_full (df_blocks x) = false -> M !! name = None ->
  (exists x', dir_add_entry hash_seed unsigned_hash rc_read append_rc stale fblk qsort x child name = Ok (x', EOK) /\ is_dir_file x' version (<[name := c_index child]> M)) \/
  dir_add_entry hash_seed unsigned_hash rc_read append_rc stale fblk qsort x child name = Abort /\ fragmented (df_blocks x) child name.
Proof. apply dir_add_ok. Qed.

(** Ext4_dir_remove_entry on an indexed directory that stands for a map deletes the name from the map, and reports ENOENT without a change if the map does not have it. *)
Lemma ext4_dir_remove x version M name : is_dir_file x version M -> name_ok name ->
  match M !! name with
  | Some ino => exists x', dir_remove_entry hash_seed unsigned_hash rc_read x name = Ok (x', EOK) /\ is_dir_file x' version (delete name M)
  | None => dir_remove_entry hash_seed unsigned_hash rc_read x name = Ok (x, ENOENT)
  end.
Proof. apply dir_remove_ok. Qed.

End dirmap.

(** ** Instances *)

(** A device without errors whose blocks hold zeroes, and a sort by hash. *)
Definition ex_seed : word4 := (1, 2, 3, 4).
Definition ex_stale (i : Z) : block := replicate 4096 0.
Definition se_le (a b : sort_entry) : Prop := se_hash a <= se_hash b.

#[export] Instance se_le_dec a b : Decision (se_le a b).
Proof. apply Z.le_dec. Defined.

Lemma ex_stale_ok i : block_ok (ex_stale i).
Proof. unfold block_ok, ex_stale. by rewrite length_replicate. Qed.

Lemma ex_stale_bytes i : Forall (fun x => 0 <= x < 256) (ex_stale i).
Proof. apply Forall_replicate. lia. Qed.

Lemma merge_sort_sorted l : pairwise (fun a b => se_hash a <= se_hash b) (merge_sort se_le l).
Proof.
  assert (StronglySorted se_le (merge_sort se_le l)) as H. { apply StronglySorted_merge_sort; [intros a b c; unfold se_le; lia|intros a b; unfold se_le; lia]. }
  induction H; by constructor.
Qed.

(** The operations of the instance. *)
Definition ex_init : res (dir_file * Z) :=
  let* (d, r) := dx_init (fun _ => EOK) ex_stale [] (mk_child 12 16384) (mk_child 2 16384) 1 in Ok (mk_dir true true d, r).
Definition ex_add : dir_file -> dir_child -> list Z -> res (dir_file * Z) := dir_add_entry ex_seed false (fun _ => EOK) (fun _ => EOK) ex_stale (fun i => i) (merge_sort se_le).
Definition ex_remove : dir_file -> list Z -> res (dir_file * Z) := dir_remove_entry ex_seed false (fun _ => EOK).
Definition ex_find : dir_file -> list Z -> res (dir_file * (Z + Z * Z)) := dir_find_entry ex_seed false (fun _ => EOK).
Definition ex_history : dir_file -> gmap (list Z) Z -> Prop := dir_history ex_seed false (fun _ => EOK) (fun _ => EOK) ex_stale (fun i => i) (merge_sort se_le) 1.

Lemma ex_history_is_dir x M : ex_history x M -> is_dir_file ex_seed false x 1 M.
Proof.
  apply (history_is_dir ex_seed false (fun _ => EOK) (fun _ => eq_refl) (fun _ => EOK) ex_stale (fun _ => eq_refl) ex_stale_ok (fun i => i) (merge_sort se_le)
    (merge_sort_Permutation _) merge_sort_sorted (fun i j E => E) ex_stale_bytes). lia.
Qed.

(** A directory with one name. *)
Definition ex_dir : res (dir_file * Z) := let* (x, _) := ex_init in ex_add x (mk_child 13 32768) [97].

Lemma ex_one_name : exists x, ex_dir = Ok (x, EOK) /\ ex_history x (<[ [97] := 13 ]> ∅) /\ index_full (df_blocks x) = false.
Proof.
  destruct ex_dir as [[x r]| |] eqn:E; [|by vm_compute in E..]. exists x. assert (r = EOK) as -> by (vm_compute in E; by injection E as _ <-). split; [done|]. split.
  2: { vm_compute in E. injection E as <-. by vm_compute. }
  unfold ex_dir in E. destruct ex_init as [[x0 r0]| |] eqn:E0; [|done..]. cbn [res_bind] in E.
  apply (dh_add _ _ _ _ _ _ _ _ x0 ∅ (mk_child 13 32768) [97] x EOK); [|split; cbn; lia|cbn; lia|done|vm_compute in E0; injection E0 as <- <-; by vm_compute..|done].
  unfold ex_init in E0. destruct (dx_init _ _ _ _ _ _) as [[d r]| |] eqn:E1; [|done..]. cbn [res_bind] in E0. injection E0 as <- <-.
  apply (dh_init _ _ _ _ _ _ _ _ (mk_child 12 16384) (mk_child 2 16384)); [cbn; lia..|]. rewrite E1. f_equal. f_equal. vm_compute in E1. by injection E1 as _ <-.
Qed.

Lemma ext4_dir_finds_history_witness : exists x, ex_history x (<[ [97] := 13 ]> ∅) /\
  (exists iblk o, ex_find x [97] = Ok (x, inr (iblk, o)) /\ en_get_inode (blk_data (df_blocks x) iblk) o = 13) /\ ex_find x [98] = Ok (x, inl ENOENT).
Proof.
  destruct ex_one_name as (x & _ & Hx & _). exists x. split; [done|].
  pose proof (ext4_dir_finds_history ex_seed false (fun _ => EOK) (fun _ => eq_refl) (fun _ => EOK) ex_stale (fun _ => eq_refl) ex_stale_ok (fun i => i) (merge_sort se_le)
    (merge_sort_Permutation _) merge_sort_sorted (fun i j E => E) ex_stale_bytes 1 x (<[ [97] := 13 ]> ∅)) as H. split.
  - apply (H [97] ltac:(lia) Hx). split; cbn; lia.
  - apply (H [98] ltac:(lia) Hx). split; cbn; lia.
Defined.

(** ** A fragmented block *)

(** Names of one character and long ones, added in turn; then the long ones are
    removed. *)
Definition ex_short (i : nat) : list Z := [97 + Z.of_nat i].
Definition ex_long (i : nat) : list Z := replicate 240 (97 + Z.of_nat i).

Fixpoint ex_add_all (d : dir_file) (names : list (list Z)) : res dir_file :=
  match names with [] => Ok d | n :: names => let* (d, _) := ex_add d (mk_child 20 32768) n in ex_add_all d names end.
Fixpoint ex_remove_all (d : dir_file) (names : list (list Z)) : res dir_file :=
  match names with [] => Ok d | n :: names => let* (d, _) := ex_remove d n in ex_remove_all d names end.

Definition ex_fragmented : res dir_file :=
  let* (d, _) := ex_init in
  let* d := ex_add_all d (concat ((fun i => [ex_short i; ex_long i]) <$> seq 0 15) ++ [ex_short 15]) in
  ex_remove_all d (ex_long <$> seq 0 15).

(** A new directory to which 31 names were added and from which 15 of them were removed has 16 short names in a block with no piece of 264 free bytes; adding a name of 255 characters to it then makes ext4_dir_dx_split_data look for a middle that is not there and access the sort array at index 2^32 - 1. *)
Lemma ext4_dir_fragmented_add_aborts :
  match ex_fragmented with Ok d => length (df_blocks d) = 2%nat /\ ex_add d (mk_child 40 32768) (replicate 255 120) = Abort | _ => False end.
Proof. by vm_compute. Qed.
