(* ===== verification/Ext4DirIter.v ===== *)
(** * Walking over a directory of lwext4

    The directory iterator of [ext4_dir.c] visits the entries of all blocks of a
    directory, index blocks included.  [ext4_has_children] and [ext4_iterate] of
    [ext4.c] use it: the first asks whether a directory has a name other than
    [.] and [..], the second lists the names and inode numbers in two passes,
    one for the sizes of the buffers and one that fills them. *)

From stdpp Require Import gmap sorting.
From S2P Require Import Prelude Bio Sjd Ext4Extent Ext4Map Ext4Dir Ext4Hash Ext4Htree Ext4Index Ext4Front Ext4DirMap.

(** The iterator: the block it holds, its position in the directory and the
    offset of the current entry in the block. *)
Record dir_iter := mk_iter { it_blk : option Z; it_off : Z; it_curr : option Z }.

Definition EXT4_DIR_DX_INIT_BCNT : Z := 2.
Definition INT_MAX : Z := 2147483647.

Definition is_dots (name : list Z) : bool :=
  (zlen name =? 1) && (default 0 (name !! 0%nat) =? 46) ||
  (zlen name =? 2) && (default 0 (name !! 0%nat) =? 46) && (default 0 (name !! 1%nat) =? 46).

Section iter.
(** Errors when a block is read and when it is released; the reference to an
    inode; whether memory is found. *)
Context (rc_read rc_put get_ref : Z -> Z) (malloc : Z -> bool).

(** ** The iterator *)

(** [ext4_dir_iterator_set]. *)
Definition iterator_set (d : list block) (it : dir_iter) : dir_iter * Z :=
  let off_in_block := it_off it mod dir_block_size in
  let b := blk_data d (default 0 (it_blk it)) in
  let it := mk_iter (it_blk it) (it_off it) None in
  if negb (off_in_block mod 4 =? 0) then (it, EIO)
  else if dir_block_size - 8 <? off_in_block then (it, EIO)
  else
    let length := en_get_entry_len b off_in_block in
    if dir_block_size <? off_in_block + length then (it, EIO)
    else if length - 8 <? en_get_name_len b off_in_block then (it, EIO)
    else (mk_iter (it_blk it) (it_off it) (Some off_in_block), EOK).

(** The size the iterator works with. *)
Definition iter_size (x : dir_file) : Z :=
  let size := dir_block_size * zlen (df_blocks x) in
  if df_index x then if size <? EXT4_DIR_DX_INIT_BCNT * dir_block_size then EXT4_DIR_DX_INIT_BCNT * dir_block_size else size else size.

(** The block of the iterator is released. *)
Definition iter_release (it : dir_iter) : Z := match it_blk it with Some k => rc_put k | None => EOK end.

(** [ext4_dir_iterator_seek]. *)
Definition iterator_seek (x : dir_file) (it : dir_iter) (pos : Z) : dir_iter * Z :=
  if iter_size x <=? pos then
    if negb (iter_release it =? EOK) then (mk_iter None (it_off it) None, iter_release it)
    else (mk_iter None pos None, EOK)
  else
    let current_blk_idx := it_off it / dir_block_size in
    let next_blk_idx := u32 (pos / dir_block_size) in
    if bool_decide (it_blk it = None) || negb (current_blk_idx =? next_blk_idx) then
      if negb (iter_release it =? EOK) then (mk_iter None (it_off it) None, iter_release it)
      else
        match get_blk rc_read (df_blocks x) next_blk_idx with
        | inl r => (mk_iter None (it_off it) None, r)
        | inr _ => iterator_set (df_blocks x) (mk_iter (Some next_blk_idx) pos None)
        end
    else iterator_set (df_blocks x) (mk_iter (it_blk it) pos None).

(** [ext4_dir_iterator_init]. *)
Definition iterator_init (x : dir_file) (pos : Z) : dir_iter * Z := iterator_seek x (mk_iter None 0 None) pos.

(** The entry the iterator is at. *)
Definition iter_data (x : dir_file) (it : dir_iter) : block := blk_data (df_blocks x) (default 0 (it_blk it)).

(** [ext4_dir_iterator_next]; it is called with a current entry. *)
Fixpoint iterator_next (fuel : nat) (x : dir_file) (it : dir_iter) : res (dir_iter * Z) :=
  match fuel with
  | O => Blocked
  | S fuel =>
      match it_curr it with
      | None => Abort
      | Some o =>
          let skip := en_get_entry_len (iter_data x it) o in
          let '(it, r) := iterator_seek x it (u64 (it_off it + skip)) in
          match it_curr it with
          | None => Ok (it, r)
          | Some o => if negb (en_get_inode (iter_data x it) o =? 0) then Ok (it, r) else if r =? EOK then iterator_next fuel x it else Ok (it, r)
          end
      end
  end.

(** Every step moves over 8 bytes of the directory at least. *)
Definition iter_fuel (x : dir_file) : nat := S (S (Z.to_nat (512 * zlen (df_blocks x)))).

Definition curr_name (x : dir_file) (it : dir_iter) (o : Z) : list Z := slice (iter_data x it) (o + 8) (en_get_name_len (iter_data x it) o).

(** ** [ext4_has_children] *)

Fixpoint has_children_loop (fuel : nat) (x : dir_file) (it : dir_iter) : res (Z + bool) :=
  match fuel with
  | O => Blocked
  | S fuel =>
      let fini (found : bool) := Ok (if iter_release it =? EOK then inr found else inl (iter_release it)) in
      match it_curr it with
      | None => fini false
      | Some o =>
          if negb (en_get_inode (iter_data x it) o =? 0) && negb (is_dots (curr_name x it o)) then fini true
          else
            let* (it, rc) := iterator_next (iter_fuel x) x it in
            if negb (rc =? EOK) then Ok (inl rc) else has_children_loop fuel x it
      end
  end.

Definition has_children (x : dir_file) : res (Z + bool) :=
  if negb (df_is_dir x) then Ok (inr false)
  else
    let '(it, rc) := iterator_init x 0 in
    if negb (rc =? EOK) then Ok (inl rc) else has_children_loop (iter_fuel x) x it.

(** ** [ext4_iterate] *)

(** The first pass: bytes of the names with their terminators, and entries.
    An error of the iterator ends the directory. *)
Fixpoint iterate_sizes (fuel : nat) (x : dir_file) (act_curr_pos name_len nr : Z) : res (Z + Z * Z) :=
  match fuel with
  | O => Blocked
  | S fuel =>
      let '(it, ret) := iterator_init x act_curr_pos in
      if negb (ret =? EOK) then Ok (inl (- EIO))
      else
        match it_curr it with
        | None => Ok (inr (name_len, nr))
        | Some o =>
            let next name_len nr :=
              let* (it, ret) := iterator_next (iter_fuel x) x it in
              if negb (ret =? EOK) then Ok (inr (name_len, nr)) else iterate_sizes fuel x (it_off it) name_len nr in
            if is_dots (curr_name x it o) then next name_len nr
            else
              let cinode := en_get_inode (iter_data x it) o in
              if negb (get_ref cinode =? EOK) then Ok (inl (- EIO))
              else
                let name_len := name_len + (en_get_name_len (iter_data x it) o + 1) in
                assert! (name_len <=? INT_MAX) in next name_len (u32 (nr + 1))
        end
  end.

(** The second pass fills the buffers: [i] inode numbers and the bytes before
    [name] are written. *)
Fixpoint iterate_fill (fuel : nat) (x : dir_file) (act_curr_pos : Z) (inos : list Z) (i : Z) (names : list Z) (name : Z) : res (Z + list Z * list Z) :=
  match fuel with
  | O => Blocked
  | S fuel =>
      let '(it, ret) := iterator_init x act_curr_pos in
      if negb (ret =? EOK) then Ok (inl (- EIO))
      else
        match it_curr it with
        | None => Ok (inr (inos, names))
        | Some o =>
            let next inos i names name :=
              let* (it, ret) := iterator_next (iter_fuel x) x it in
              if negb (ret =? EOK) then Ok (inr (inos, names)) else iterate_fill fuel x (it_off it) inos i names name in
            if is_dots (curr_name x it o) then next inos i names name
            else
              let cinode := en_get_inode (iter_data x it) o in
              if negb (get_ref cinode =? EOK) then Ok (inl (- EIO))
              else
                let n := en_get_name_len (iter_data x it) o in
                assert! (i <? zlen inos) in
                assert! (name + n + 1 <=? zlen names) in
                next (<[Z.to_nat i := cinode]> inos) (i + 1) (splice (splice names name (curr_name x it o)) (name + n) [0]) (name + n + 1)
        end
  end.

(** The names, their length, the inode numbers and how many there are.  The
    caller starts with a length of 0, and fresh memory is cleared or
    overwritten. *)
Definition ext4_iterate (x : dir_file) : res (Z + list Z * Z * list Z * Z) :=
  let* r := iterate_sizes (iter_fuel x) x 0 0 0 in
  match r with
  | inl e => Ok (inl e)
  | inr (name_len, nr) =>
      if negb (malloc (8 * nr)) then Ok (inl (- EIO))
      else if negb (malloc name_len) then Ok (inl (- EIO))
      else
        let* r := iterate_fill (iter_fuel x) x 0 (replicate (Z.to_nat nr) 0) 0 (replicate (Z.to_nat name_len) 0) 0 in
        match r with
        | inl e => Ok (inl e)
        | inr (inos, names) => Ok (inr (names, name_len, inos, nr))
        end
  end.

(** ** Entries from a position on *)

Context (Hread : forall i, rc_read i = EOK) (Hput : forall i, rc_put i = EOK).

(** The entries [l] are what is left of the directory at [pos]. *)
Definition rest_at (d : list block) (pos : Z) (l : list dent) : Prop :=
  (l = [] /\ pos = 4096 * zlen d) \/
  exists (k : nat) o es ess (b : block), pos = 4096 * Z.of_nat k + o /\ 0 <= o < 4096 /\ o mod 4 = 0 /\ d !! k = Some b /\ dents b o es 4096 /\ Forall2 dir_block (drop (S k) d) ess /\ l = es ++ concat ess.

Lemma rest_at_block d k ess : Forall2 dir_block (drop k d) ess -> (k <= length d)%nat -> rest_at d (4096 * Z.of_nat k) (concat ess).
Proof.
  intros Hf Hk. destruct (drop k d) as [|b d'] eqn:Ed.
  - apply Forall2_nil_inv_l in Hf as ->. left. split; [done|]. assert (length (drop k d) = 0%nat) as Hl by (by rewrite Ed). rewrite length_drop in Hl. lia.
  - apply Forall2_cons_inv_l in Hf as (es & ess' & Hb & Hf & ->). right. exists k, 0, es, ess', b. split_and!; try done; try lia; [|apply Hb|].
    + replace k with (k + 0)%nat by lia. by rewrite <- lookup_drop, Ed.
    + replace (S k) with (k + 1)%nat by lia. by rewrite <- drop_drop, Ed.
Qed.

(** The entry at a position. *)
Record entry_at (d : list block) (pos : Z) (x : dent) : Prop := {
  ea_pos : 0 <= pos < 4096 * zlen d;
  ea_blk : exists b : block, d !! Z.to_nat (pos / 4096) = Some b /\ dent_at b (pos mod 4096) x;
  ea_ok : dent_ok x;
  ea_fit : pos mod 4096 + d_len x <= 4096;
  ea_align : (pos mod 4096) mod 4 = 0
}.

Lemma rest_at_cons d pos x l : rest_at d pos (x :: l) -> entry_at d pos x /\ rest_at d (pos + d_len x) l.
Proof.
  intros [[? _]|(k & o & es & ess & b & -> & Ho & Ha & E & Hd & Hf & Hl)]; [done|]. destruct es as [|y es]; [cbn in Hd; lia|]. injection Hl as -> ->. cbn [dents] in Hd. destruct Hd as (Hat & Hok & Hd).
  assert ((4096 * Z.of_nat k + o) / 4096 = Z.of_nat k /\ (4096 * Z.of_nat k + o) mod 4096 = o) as [Ediv Emod] by (Z.div_mod_to_equations; lia).
  pose proof (dents_le _ _ _ _ Hd) as Hle. pose proof (lookup_lt_Some _ _ _ E) as Hk. split.
  - split; rewrite ?Ediv, ?Emod, ?Nat2Z.id; try done; try lia. by exists b.
  - destruct es as [|z es].
    + cbn in Hd. replace (4096 * Z.of_nat k + o + d_len y) with (4096 * Z.of_nat (S k)) by lia. apply rest_at_block; [done|lia].
    + right. exists k, (o + d_len y), (z :: es), ess, b. split_and!; try done; try lia; [|destruct Hok, Hd as (_ & [? ? ?] & Hd); apply dents_le in Hd; lia|].
      * destruct Hok as [H1 H2 H3 H4]. lia.
      * destruct Hok as [H1 H2 H3 H4]. Z.div_mod_to_equations. lia.
Qed.

Lemma rest_at_len x pos l : rest_at (df_blocks x) pos l -> 0 <= pos /\ pos + 8 * zlen l <= 4096 * zlen (df_blocks x).
Proof.
  revert pos. induction l as [|e l IH]; intros pos Hr.
  - destruct Hr as [[_ ->]|(k & o & es & ess & b & -> & Ho & Ha & E & Hd & Hf & Hl)]; [cbn; lia|]. destruct es as [|y es]; [cbn in Hd; lia|done].
  - apply rest_at_cons in Hr as [[Hp _ [? ? ? ?] _ _] Hr]. apply IH in Hr. rewrite length_cons. lia.
Qed.

(** The names with their terminators. *)
Definition pack (l : list (list Z * Z)) : list Z := concat ((fun e => e.1 ++ [0]) <$> l).

Lemma pack_len l : zlen (pack l) = sumz (fun e => zlen e.1 + 1) l.
Proof. induction l as [|e l IH]; [done|]. unfold pack in *. cbn [fmap list_fmap concat]. rewrite sumz_cons, !length_app. cbn. lia. Qed.

Section walk.
Context (x : dir_file) (Hsize : 2 <= zlen (df_blocks x) < U32_MOD).

(** The iterator at a position with the entries [l] left. *)
Definition iter_for (pos : Z) (l : list dent) : dir_iter :=
  match l with [] => mk_iter None pos None | _ :: _ => mk_iter (Some (pos / 4096)) pos (Some (pos mod 4096)) end.

Lemma iter_size_ok : iter_size x = 4096 * zlen (df_blocks x).
Proof. unfold iter_size, dir_block_size, EXT4_DIR_DX_INIT_BCNT. destruct (df_index x); [|done]. by rewrite (proj2 (Z.ltb_ge _ _)) by lia. Qed.

Lemma iter_release_ok it : iter_release it = EOK.
Proof. unfold iter_release. by destruct (it_blk it). Qed.

Lemma iterator_set_ok pos e : entry_at (df_blocks x) pos e ->
  iterator_set (df_blocks x) (mk_iter (Some (pos / 4096)) pos None) = (mk_iter (Some (pos / 4096)) pos (Some (pos mod 4096)), EOK).
Proof.
  intros [Hp (b & E & Hat) Hok Hfit Ha]. unfold iterator_set, dir_block_size. cbn [it_off it_blk default from_option id]. rewrite Ha, (blk_data_ok _ _ _ E), (da_len _ _ _ Hat), (da_nlen _ _ _ Hat). destruct Hok as [H1 H2 H3 H4].
  change (0 =? 0) with true. cbn [negb]. by rewrite (proj2 (Z.ltb_ge (4096 - 8) _)), (proj2 (Z.ltb_ge 4096 _)), (proj2 (Z.ltb_ge (d_len e - 8) _)) by lia.
Qed.

Lemma seek_ok it pos l : it_blk it = None \/ it_blk it = Some (it_off it / 4096) -> rest_at (df_blocks x) pos l ->
  iterator_seek x it pos = (iter_for pos l, EOK).
Proof.
  intros Hit Hr. unfold iterator_seek. rewrite iter_size_ok, iter_release_ok. change (negb (EOK =? EOK)) with false. cbn match. destruct l as [|e l].
  { destruct Hr as [[_ ->]|(k & o & es & ess & b & -> & Ho & Ha & E & Hd & Hf & Hl)]; [by rewrite Z.leb_refl|]. destruct es as [|y es]; [cbn in Hd; lia|done]. }
  apply rest_at_cons in Hr as [He _]. pose proof He as [Hp (b & E & _) _ _ _]. rewrite (proj2 (Z.leb_gt _ _)) by lia. unfold dir_block_size.
  assert (0 <= pos / 4096 < U32_MOD) as Hq by (Z.div_mod_to_equations; lia). rewrite u32_id by done. unfold get_blk. rewrite Hread, E. change (negb (EOK =? EOK)) with false. cbn match.
  destruct Hit as [->| ->].
  - rewrite bool_decide_true by done. cbn [orb]. by apply (iterator_set_ok pos e).
  - rewrite bool_decide_false by done. cbn [orb]. destruct (Z.eqb_spec (it_off it / 4096) (pos / 4096)) as [Eq|Ne]; cbn [negb]; [rewrite Eq|]; by apply (iterator_set_ok pos e).
Qed.

Lemma init_ok pos l : rest_at (df_blocks x) pos l -> iterator_init x pos = (iter_for pos l, EOK).
Proof. intros Hr. apply seek_ok; [by left|done]. Qed.

(** The entries from the next one in use on. *)
Fixpoint skip_free (l : list dent) : list dent :=
  match l with [] => [] | e :: l' => if d_ino e =? 0 then skip_free l' else l end.

Lemma entry_data pos e l : rest_at (df_blocks x) pos (e :: l) -> dent_at (iter_data x (iter_for pos (e :: l))) (pos mod 4096) e.
Proof. intros [[_ (b & E & Hat) _ _ _] _]%rest_at_cons. unfold iter_data. cbn [it_blk iter_for default from_option id]. by rewrite (blk_data_ok _ _ _ E). Qed.

Lemma next_ok fuel : forall pos e l, rest_at (df_blocks x) pos (e :: l) -> (length l < fuel)%nat ->
  exists pos', iterator_next fuel x (iter_for pos (e :: l)) = Ok (iter_for pos' (skip_free l), EOK) /\ rest_at (df_blocks x) pos' (skip_free l).
Proof.
  induction fuel as [|fuel IH]; intros pos e l Hr Hf; [lia|]. cbn [iterator_next iter_for it_curr it_off]. pose proof (entry_data _ _ _ Hr) as Hat. cbn [iter_for] in Hat. rewrite (da_len _ _ _ Hat).
  pose proof (rest_at_len _ _ _ Hr) as Hlen. apply rest_at_cons in Hr as [He Hr]. pose proof (rest_at_len _ _ _ Hr) as Hlen'. rewrite u64_id by lia. rewrite (seek_ok (mk_iter (Some (pos / 4096)) pos (Some (pos mod 4096))) _ l (or_intror eq_refl) Hr).
  destruct l as [|e' l]; cbn [iter_for it_curr skip_free]; [by eexists|]. pose proof (entry_data _ _ _ Hr) as Hat'. cbn [iter_for] in Hat'. rewrite (da_ino _ _ _ Hat').
  destruct (Z.eqb_spec (d_ino e') 0) as [H0|H0]; cbn [negb]; [|by eexists]. change (EOK =? EOK) with true. cbn match. apply (IH (pos + d_len e) e' l Hr). cbn in Hf. lia.
Qed.

Definition head_used (l : list dent) : Prop := match l with [] => True | e :: _ => d_ino e <> 0 end.

Lemma skip_free_live l : live (skip_free l) = live l.
Proof. induction l as [|e l IH]; [done|]. cbn [skip_free]. destruct (d_ino e =? 0) eqn:E; [|done]. by rewrite live_cons, E, IH. Qed.

Lemma skip_free_head l : head_used (skip_free l).
Proof. induction l as [|e l IH]; [done|]. cbn [skip_free]. destruct (Z.eqb_spec (d_ino e) 0); done. Qed.

Lemma skip_free_len l : (length (skip_free l) <= length l)%nat.
Proof. induction l as [|e l IH]; [done|]. cbn [skip_free]. destruct (d_ino e =? 0); cbn in *; lia. Qed.

(** The names other than the dots. *)
Definition listed (l : list dent) : list (list Z * Z) := filter (fun e => is_dots e.1 = false) (live l).

Lemma listed_skip l : listed (skip_free l) = listed l.
Proof. unfold listed. by rewrite skip_free_live. Qed.

Lemma listed_cons e l : d_ino e <> 0 -> listed (e :: l) = if is_dots (d_name e) then listed l else (d_name e, d_ino e) :: listed l.
Proof.
  intros H0. unfold listed. rewrite live_cons, (proj2 (Z.eqb_neq _ _) H0). cbn [app]. rewrite filter_cons. cbn [fst]. destruct (is_dots (d_name e)); [by rewrite decide_False|by rewrite decide_True].
Qed.

Lemma curr_name_ok pos e l : rest_at (df_blocks x) pos (e :: l) -> curr_name x (iter_for pos (e :: l)) (pos mod 4096) = d_name e.
Proof. intros Hr. pose proof (entry_data _ _ _ Hr) as Hat. unfold curr_name. rewrite (da_nlen _ _ _ Hat). apply (da_name _ _ _ Hat). Qed.

Lemma fuel_ok pos l : rest_at (df_blocks x) pos l -> (length l < iter_fuel x)%nat.
Proof. intros Hr%rest_at_len. unfold iter_fuel. lia. Qed.

Lemma next_fuel_ok pos e l : rest_at (df_blocks x) pos (e :: l) ->
  exists pos', iterator_next (iter_fuel x) x (iter_for pos (e :: l)) = Ok (iter_for pos' (skip_free l), EOK) /\ rest_at (df_blocks x) pos' (skip_free l).
Proof. intros Hr. apply next_ok; [done|]. apply fuel_ok in Hr. cbn in Hr. lia. Qed.

Lemma has_children_loop_ok fuel : forall pos l, rest_at (df_blocks x) pos l -> head_used l -> (length l < fuel)%nat ->
  has_children_loop fuel x (iter_for pos l) = Ok (inr (negb (bool_decide (listed l = [])))).
Proof.
  induction fuel as [|fuel IH]; intros pos l Hr Hh Hf; [lia|]. cbn [has_children_loop]. rewrite iter_release_ok. destruct l as [|e l]; [done|]. pose proof (entry_data _ _ _ Hr) as Hat. pose proof (curr_name_ok _ _ _ Hr) as Hn.
  destruct (next_fuel_ok _ _ _ Hr) as (pos' & En & Hr'). cbn [it_curr iter_for] in *. rewrite (da_ino _ _ _ Hat), Hn, (proj2 (Z.eqb_neq _ _) Hh), (listed_cons _ _ Hh). cbn [negb andb]. destruct (is_dots (d_name e)); [|done].
  cbn [negb]. rewrite En. cbn [res_bind]. change (negb (EOK =? EOK)) with false. cbn match. rewrite IH; [by rewrite listed_skip|done|apply skip_free_head|]. pose proof (skip_free_len l). cbn in Hf. lia.
Qed.

Context (Href : forall i, get_ref i = EOK).

Lemma iterate_sizes_ok fuel : forall pos l name_len nr, rest_at (df_blocks x) pos l -> head_used l -> (length l < fuel)%nat ->
  name_len + sumz (fun e => zlen e.1 + 1) (listed l) <= INT_MAX -> 0 <= nr -> nr + zlen (listed l) < U32_MOD ->
  iterate_sizes fuel x pos name_len nr = Ok (inr (name_len + sumz (fun e => zlen e.1 + 1) (listed l), nr + zlen (listed l))).
Proof.
  induction fuel as [|fuel IH]; intros pos l name_len nr Hr Hh Hf Hm Hn0 Hn; [lia|]. cbn [iterate_sizes]. rewrite (init_ok pos l Hr). change (negb (EOK =? EOK)) with false. cbn match.
  destruct l as [|e l]; [cbn; by rewrite !Z.add_0_r|]. pose proof (entry_data _ _ _ Hr) as Hat. pose proof (curr_name_ok _ _ _ Hr) as Hnm. destruct (next_fuel_ok _ _ _ Hr) as (pos' & En & Hr'). cbn [it_curr iter_for] in *.
  pose proof (skip_free_len l) as Hsl. cbn in Hf. rewrite Hnm, (da_ino _ _ _ Hat), (da_nlen _ _ _ Hat), Href, En. rewrite (listed_cons _ _ Hh) in *. destruct (is_dots (d_name e)) eqn:Hd.
  - cbn [res_bind]. change (negb (EOK =? EOK)) with false. cbn match. replace (it_off (iter_for pos' (skip_free l))) with pos' by (by destruct (skip_free l)). rewrite (IH pos' (skip_free l)); rewrite ?listed_skip; try done; [apply skip_free_head|lia].
  - rewrite sumz_cons in *. cbn [fst] in *. rewrite length_cons in *. change (negb (EOK =? EOK)) with false. cbn match. assert (0 <= sumz (fun e => zlen e.1 + 1) (listed l)) by (apply sumz_nonneg, Forall_true; intros; lia).
    rewrite (proj2 (Z.leb_le _ _)) by lia. cbn [res_bind assert_]. change (negb (EOK =? EOK)) with false. cbn match. replace (it_off (iter_for pos' (skip_free l))) with pos' by (by destruct (skip_free l)).
    rewrite u32_id by lia. rewrite (IH pos' (skip_free l)); rewrite ?listed_skip; try done; try lia; [|apply skip_free_head]. do 3 f_equal; lia.
Qed.

Lemma splice_fill dn nm r : (length nm <= length r)%nat -> splice (dn ++ r) (zlen dn) nm = dn ++ nm ++ drop (length nm) r.
Proof. intros Hl. unfold splice. rewrite Nat2Z.id, take_app_length. f_equal. f_equal. by rewrite drop_app_add. Qed.

Lemma iterate_fill_ok fuel : forall pos l di ri dn rn, rest_at (df_blocks x) pos l -> head_used l -> (length l < fuel)%nat ->
  length ri = length (listed l) -> length rn = length (pack (listed l)) ->
  iterate_fill fuel x pos (di ++ ri) (zlen di) (dn ++ rn) (zlen dn) = Ok (inr (di ++ (listed l).*2, dn ++ pack (listed l))).
Proof.
  induction fuel as [|fuel IH]; intros pos l di ri dn rn Hr Hh Hf Hri Hrn; [lia|]. cbn [iterate_fill]. rewrite (init_ok pos l Hr). change (negb (EOK =? EOK)) with false. cbn match.
  destruct l as [|e l]; [cbn in *; apply nil_length_inv in Hri as ->, Hrn as ->; done|]. pose proof (entry_data _ _ _ Hr) as Hat. pose proof (curr_name_ok _ _ _ Hr) as Hnm. destruct (next_fuel_ok _ _ _ Hr) as (pos' & En & Hr'). cbn [it_curr iter_for] in *.
  pose proof (skip_free_len l) as Hsl. cbn in Hf. rewrite Hnm, (da_ino _ _ _ Hat), (da_nlen _ _ _ Hat), Href, En. rewrite (listed_cons _ _ Hh) in *. destruct (is_dots (d_name e)) eqn:Hd.
  - cbn [res_bind]. change (negb (EOK =? EOK)) with false. cbn match. replace (it_off (iter_for pos' (skip_free l))) with pos' by (by destruct (skip_free l)). rewrite (IH pos' (skip_free l)); rewrite ?listed_skip; try done; [apply skip_free_head|lia].
  - change (negb (EOK =? EOK)) with false. cbn match. destruct ri as [|r ri]; [done|]. unfold pack in *. cbn [fmap list_fmap concat fst snd] in *. fold (pack (listed l)) in *. rewrite !length_app in Hrn. cbn [length] in *.
    rewrite !length_app. cbn [length]. rewrite (proj2 (Z.ltb_lt _ _)), (proj2 (Z.leb_le _ _)) by lia. cbn [res_bind assert_]. change (negb (EOK =? EOK)) with false. cbn match.
    replace (it_off (iter_for pos' (skip_free l))) with pos' by (by destruct (skip_free l)).
    rewrite (splice_fill dn (d_name e) rn), app_assoc by lia. replace (zlen dn + zlen (d_name e)) with (zlen (dn ++ d_name e)) by (rewrite length_app; lia). rewrite splice_fill by (rewrite length_drop; cbn; lia).
    rewrite drop_drop, Nat2Z.id. replace (length di) with (length di + 0)%nat by lia. rewrite insert_app_r. cbn [insert list_insert length].
    replace (di ++ d_ino e :: ri) with ((di ++ [d_ino e]) ++ ri) by (by rewrite <- app_assoc). replace (Z.of_nat (length di + 0) + 1) with (zlen (di ++ [d_ino e])) by (rewrite length_app; cbn; lia).
    rewrite app_assoc. replace (zlen (dn ++ d_name e) + 1) with (zlen ((dn ++ d_name e) ++ [0])) by (rewrite !length_app; cbn; lia).
    rewrite (IH pos' (skip_free l)); rewrite ?listed_skip; try done; [|apply skip_free_head|lia|lia|rewrite length_drop; fold (pack (listed l)); lia]. fold (pack (listed l)); by rewrite <- !app_assoc.
Qed.
End walk.

(** ** The blocks of an indexed directory *)

Section dir.
Context (hash_seed : word4) (unsigned_hash : bool).
Notation is_dir_file := (is_dir_file hash_seed unsigned_hash).

Definition holds_dents (d : list block) (p : Z * list dent) : Prop := exists b : block, d !! Z.to_nat p.1 = Some b /\ dir_block b p.2.

Lemma leaves_blocks d version fl : forall les, leaves_ok hash_seed unsigned_hash d version fl les -> Forall (holds_dents d) (zip (snd <$> fl) les).
Proof.
  induction fl as [|e fl IH]; intros [|es les] H; [constructor|destruct H|destruct H|]. cbn [leaves_ok] in H. destruct H as [[(b & E & Hb) _] H]. cbn [fmap list_fmap zip_with]. constructor; [by exists b|by apply IH].
Qed.

Lemma entries_perm les les' : les ≡ₚ les' -> entries les ≡ₚ entries les'.
Proof. intros H. unfold entries. induction H; cbn; [done|by apply Permutation_app_head|apply Permutation_app_swap_app|by etrans]. Qed.

Lemma live_concat ess : live (concat ess) = entries ess.
Proof. induction ess as [|es ess IH]; [done|]. cbn [concat]. by rewrite dlive_app, IH, entries_cons. Qed.

(** Pairs with consecutive block numbers are the blocks in order. *)
Lemma in_order d P : forall k, P.*1 = seqz (Z.of_nat k) (zlen (drop k d)) -> Forall (holds_dents d) P -> Forall2 dir_block (drop k d) P.*2.
Proof.
  induction P as [|[i es] P IH]; intros k Hs Hf.
  - destruct (drop k d) as [|b d'] eqn:Ed; [constructor|]. rewrite length_cons, seqz_cons in Hs by lia. done.
  - apply Forall_cons in Hf as [(b & E & Hb) Hf]. cbn [fst snd] in *. destruct (drop k d) as [|b' d'] eqn:Ed; [by rewrite seqz_nil in Hs by (cbn; lia)|].
    rewrite length_cons, seqz_cons in Hs by lia. cbn [fmap list_fmap fst] in Hs. injection Hs as -> Hs. assert (b' = b) as ->.
    { rewrite Nat2Z.id in E. assert (drop k d !! 0%nat = Some b) as H by (rewrite lookup_drop; by rewrite Nat.add_0_r). rewrite Ed in H. by injection H. }
    assert (drop (S k) d = d') as Ed' by (replace (S k) with (k + 1)%nat by lia; by rewrite <- drop_drop, Ed). constructor; [done|]. rewrite <- Ed'. apply IH; [|done]. rewrite Hs, Ed'. f_equal; lia.
Qed.

(** All blocks hold entries: the root the dots, the other index blocks nothing,
    and the leaves the names of the map. *)
Lemma dir_dents x version M : is_dir_file x version M ->
  exists dot dotdot ess, Forall2 dir_block (df_blocks x) ([dot; dotdot] :: ess) /\ ess <> [] /\ d_ino dot <> 0 /\ d_ino dotdot <> 0 /\ d_name dot = [46] /\ d_name dotdot = [46; 46] /\ entries ess ≡ₚ map_to_list M.
Proof.
  intros (_ & _ & sh & les & [Hi Hl Hb [(b & dot & dotdot & E0 & Hb0 & _ & Hn1 & Hn2 & Hd1 & Hd2) Hin]] & HM). set (d := df_blocks x) in *. clearbody d.
  pose proof (leaves_length _ _ _ _ _ _ Hl) as Hlen. destruct d as [|b1 d1] eqn:Ed; [done|]. rewrite <- Ed in *. assert (zlen d = 1 + zlen d1) as Hzd by (rewrite Ed; cbn; lia).
  rewrite Hzd, seqz_cons in Hb by lia. apply Permutation_cons_inv in Hb. replace (1 + zlen d1 - 1) with (zlen d1) in Hb by lia.
  set (P := ((fun i => (i, [fake_dent])) <$> inner sh) ++ zip (snd <$> flat sh) les). assert (P.*1 = inner sh ++ (snd <$> flat sh)) as HP1.
  { unfold P. rewrite fmap_app, <- list_fmap_compose, fst_zip by (rewrite length_fmap; lia). f_equal. rewrite <- (list_fmap_id (inner sh)) at 2. by apply list_fmap_ext. }
  assert (Forall (holds_dents d) P) as HP. { apply Forall_app. split; [|by apply (leaves_blocks d version)]. apply Forall_fmap, Forall_forall. intros i Hi'. apply Hin in Hi' as (b' & E' & Hb'). by exists b'. }
  rewrite <- HP1 in Hb. symmetry in Hb. destruct (Permutation_map_inv _ _ Hb) as (P' & HP' & Hperm). assert (Forall2 dir_block (drop 1 d) P'.*2) as Hord.
  { apply (in_order d P' 1); [rewrite Ed; cbn [drop]; by symmetry|]. by rewrite <- Hperm. }
  exists dot, dotdot, P'.*2. split_and!; try done.
  - rewrite Ed in E0, Hord |- *. constructor; [|done]. by injection E0 as ->.
  - intros Hnil. assert (length (flat sh) <> 0%nat) as Hf by (destruct (flat sh) as [|? ?] eqn:Ef; [pose proof (ix_first _ _ _ Hi) as H1; by rewrite Ef in H1|done]).
    apply Hf. apply fmap_nil_inv in Hnil. rewrite Hnil in Hperm. apply Permutation_nil_r in Hperm. apply app_eq_nil in Hperm as [_ Hz]. apply (f_equal length) in Hz. rewrite length_zip_with, length_fmap, Hlen, Nat.min_id in Hz. cbn in Hz. lia.
  - rewrite HM, <- (entries_perm P.*2 P'.*2) by (by rewrite Hperm). unfold P. rewrite fmap_app, entries_app, <- list_fmap_compose, snd_zip by (rewrite length_fmap; lia).
    replace (entries (_ <$> inner sh)) with (@nil (list Z * Z)); [done|]. clear. induction (inner sh) as [|i l IH]; [done|]. cbn [fmap list_fmap compose snd]. by rewrite entries_cons, <- IH.
Qed.

Lemma dir_walk x version M : is_dir_file x version M ->
  2 <= zlen (df_blocks x) /\ exists l, rest_at (df_blocks x) 0 l /\ head_used l /\ listed l ≡ₚ filter (fun e => is_dots e.1 = false) (map_to_list M).
Proof.
  intros (dot & dotdot & ess & Hf & Hne & Hd1 & Hd2 & Hn1 & Hn2 & HM)%dir_dents. split; [apply Forall2_length in Hf; rewrite Hf; destruct ess; [done|cbn; lia]|].
  exists ([dot; dotdot] ++ concat ess). split_and!; [|done|].
  - change ([dot; dotdot] ++ concat ess) with (concat ([dot; dotdot] :: ess)). apply (rest_at_block (df_blocks x) 0); [by rewrite drop_0|lia].
  - cbn [app]. rewrite !listed_cons, Hn1, Hn2 by done. change (is_dots [46]) with true. change (is_dots [46; 46]) with true. cbn match. unfold listed. rewrite live_concat. by apply filter_Permutation.
Qed.

Lemma rest_at_sum x l : forall pos, rest_at (df_blocks x) pos l -> 0 <= pos /\ pos + sumz (fun e => zlen e.1 + 1) (listed l) <= 4096 * zlen (df_blocks x) /\ zlen (listed l) <= zlen l.
Proof.
  induction l as [|e l IH]; intros pos Hr; [pose proof (rest_at_len x pos [] Hr) as Hl; change (listed []) with (@nil (list Z * Z)); rewrite sumz_nil; cbn in *; lia|]. apply rest_at_cons in Hr as [[Hp _ [? ? ? ?] _ _] Hr]. apply IH in Hr as (H1 & H2 & H3). rewrite length_cons.
  destruct (Z.eq_dec (d_ino e) 0) as [H0|H0].
  - unfold listed in *. rewrite live_cons, H0. cbn [Z.eqb app]. lia.
  - rewrite (listed_cons _ _ H0). destruct (is_dots (d_name e)); [lia|]. rewrite sumz_cons, length_cons. cbn [fst]. lia.
Qed.

Lemma dir_file_small x version M : is_dir_file x version M -> zlen (df_blocks x) <= max_dir_blocks.
Proof. intros (_ & _ & Hd). by apply (is_dir_small hash_seed unsigned_hash (df_blocks x) version M). Qed.

Lemma has_children_ok x version M : is_dir_file x version M ->
  exists found, has_children x = Ok (inr found) /\ (found = true <-> exists name ino, M !! name = Some ino /\ is_dots name = false).
Proof.
  intros Hx. destruct (dir_walk x version M Hx) as (H2 & l & Hr & Hh & Hl). pose proof (dir_file_small x version M Hx) as Hz. assert (2 <= zlen (df_blocks x) < U32_MOD) as Hs by (unfold max_dir_blocks in Hz; lia). eexists. split.
  - unfold has_children. destruct Hx as (-> & _). cbn [negb]. rewrite (init_ok x Hs 0 l Hr). change (negb (EOK =? EOK)) with false. cbn match. apply has_children_loop_ok; try done. by apply (fuel_ok x Hs 0).
  - rewrite negb_true_iff, bool_decide_eq_false. split.
    + intros Hne. destruct (listed l) as [|[name ino] l'] eqn:El; [done|]. assert ((name, ino) ∈ filter (fun e => is_dots e.1 = false) (map_to_list M)) as Hin by (rewrite <- Hl; by left).
      apply list_elem_of_filter in Hin as [Hd Hin]. apply elem_of_map_to_list in Hin. by exists name, ino.
    + intros (name & ino & HM & Hd) El. rewrite El in Hl. assert ((name, ino) ∈ filter (fun e => is_dots e.1 = false) (map_to_list M)) as Hin by (apply list_elem_of_filter; split; [done|]; by apply elem_of_map_to_list).
      rewrite <- Hl in Hin. by apply not_elem_of_nil in Hin.
Qed.

Context (Href : forall i, get_ref i = EOK) (Hmalloc : forall n, malloc n = true).

(** C33: listing a directory that stands for a map returns every name but the
    dots once, with its inode number: the second pass stays within the buffers
    the first pass has measured and fills them, and the names are terminated by
    a zero byte each.  The index blocks contribute nothing. *)
Theorem ext4_iterate_lists x version M : is_dir_file x version M ->
  exists l, l ≡ₚ filter (fun e => is_dots e.1 = false) (map_to_list M) /\ ext4_iterate x = Ok (inr (pack l, zlen (pack l), l.*2, zlen l)).
Proof.
  intros Hx. destruct (dir_walk x version M Hx) as (H2 & l & Hr & Hh & Hl). pose proof (dir_file_small x version M Hx) as Hz. unfold max_dir_blocks in Hz. assert (2 <= zlen (df_blocks x) < U32_MOD) as Hs by lia. exists (listed l). split; [done|].
  pose proof (rest_at_sum x l 0 Hr) as (_ & Hsum & Hcnt). pose proof (rest_at_len x 0 l Hr) as [_ Hlen]. pose proof (fuel_ok x Hs 0 l Hr) as Hf. unfold ext4_iterate.
  rewrite (iterate_sizes_ok x Hs Href (iter_fuel x) 0 l 0 0) by (done || lia || (unfold INT_MAX in *; lia)). cbn [res_bind]. rewrite !Hmalloc, !Z.add_0_l. cbn [negb]. rewrite <- pack_len, !Nat2Z.id.
  pose proof (iterate_fill_ok x Hs Href (iter_fuel x) 0 l [] (replicate (length (listed l)) 0) [] (replicate (length (pack (listed l))) 0) Hr Hh Hf) as Hfill. rewrite !length_replicate in Hfill. cbn [app] in Hfill.
  change (zlen []) with 0 in Hfill. by rewrite Hfill.
Qed.

(** C34: after any history of insertions and removals on a new directory, each of
    its blocks is a well-formed sequence of directory entries, the index blocks
    included, and there are no more blocks than the index can have, so that all
    offsets fit into 31 bits. *)
Theorem ext4_dir_blocks_well_formed append_rc stale fblk qsort version x M : (forall i, append_rc i = EOK) -> (forall i, block_ok (stale i)) -> (forall i, Forall (fun x => 0 <= x < 256) (stale i)) -> (forall i j, fblk i = fblk j -> i = j) ->
  (forall l, qsort l ≡ₚ l) -> (forall l, pairwise (fun a b => se_hash a <= se_hash b) (qsort l)) -> 0 <= version <= 2 -> dir_history hash_seed unsigned_hash rc_read append_rc stale fblk qsort version x M ->
  Forall (fun b => exists es, dir_block b es) (df_blocks x) /\ 2 <= zlen (df_blocks x) <= max_dir_blocks /\ 4096 * max_dir_blocks <= INT_MAX.
Proof.
  intros Ha Hs Hb Hfb Hp Hq Hv Hh. apply history_is_dir in Hh; [|done..]. split; [|split; [|done]].
  - destruct (dir_dents x version M Hh) as (dot & dotdot & ess & Hf & _). apply (Forall2_Forall_l _ _ _ _ Hf). apply Forall_true. eauto.
  - split; [by apply (dir_walk x version M)|by apply (dir_file_small x version M)].
Qed.
End dir.
End iter.

Lemma ext4_dir_blocks_well_formed_witness : exists x, ex_history x (<[ [97] := 13 ]> ∅) /\ Forall (fun b => exists es, dir_block b es) (df_blocks x).
Proof.
  destruct ex_one_name as (x & _ & Hh & _). exists x. split; [exact Hh|].
  exact (proj1 (ext4_dir_blocks_well_formed (fun _ => EOK) (fun _ => eq_refl) ex_seed false (fun _ => EOK) ex_stale (fun i => i) (merge_sort se_le) 1 x _ (fun _ => eq_refl) ex_stale_ok ex_stale_bytes (fun i j E => E) (merge_sort_Permutation _) merge_sort_sorted ltac:(split; discriminate) Hh)).
Defined.

Lemma ext4_iterate_lists_witness : exists x, is_dir_file ex_seed false x 1 (<[ [97] := 13 ]> ∅) /\
  exists l, l ≡ₚ filter (fun e => is_dots e.1 = false) (map_to_list (<[ [97] := 13 ]> (∅ : gmap (list Z) Z))) /\ ext4_iterate (fun _ => EOK) (fun _ => EOK) (fun _ => EOK) (fun _ => true) x = Ok (inr (pack l, zlen (pack l), l.*2, zlen l)).
Proof.
  destruct ex_one_name as (x & E & Hh & _). exists x. assert (is_dir_file ex_seed false x 1 (<[ [97] := 13 ]> ∅)) as Hx by (by apply ex_history_is_dir).
  split; [done|]. exact (ext4_iterate_lists (fun _ => EOK) (fun _ => EOK) (fun _ => EOK) (fun _ => true) (fun _ => eq_refl) (fun _ => eq_refl) ex_seed false (fun _ => eq_refl) (fun _ => eq_refl) x 1 _ Hx).
Defined.
