(* ===== verification/Ext4Ialloc.v ===== *)
(** * The inode allocator of lwext4

    [secure_daemon/src/fs/lwext4/ext4_ialloc.c]: bitmaps of the inodes of the
    block groups with the counters of the group descriptors and the super
    block.  A clear bit is taken for a free inode only if the inode itself
    looks unused; otherwise the allocator sets the bit and goes on. *)

From S2P Require Import Prelude Bitmap Ext4Extent Ext4Bitmap Ext4Balloc.

(** ** State *)

Record isblock := mk_isb { isb : sblock; inodes_per_group : Z; inodes_count : Z }.

(** Descriptor and inode bitmap of a group. *)
Record igroup := mk_ig { free_inodes_count : Z; used_dirs_count : Z; itable_unused : Z; inode_bitmap : bmap }.

Record istate := mk_is { igroups : list igroup; sb_free_inodes : Z; last_inode_bg_id : Z }.

Definition set_igroup (s : istate) (bgid : Z) (g : igroup) : istate := mk_is (<[Z.to_nat bgid := g]> (igroups s)) (sb_free_inodes s) (last_inode_bg_id s).
Definition set_sb_free (s : istate) (n : Z) : istate := mk_is (igroups s) n (last_inode_bg_id s).

Definition ig_set_bitmap (g : igroup) (m : bmap) : igroup := mk_ig (free_inodes_count g) (used_dirs_count g) (itable_unused g) m.

Section ialloc.
Context (sb : isblock).

(** ** Numbers *)

Definition inode_to_bgidx (inode : Z) : Z := u32 (inode - 1) mod inodes_per_group sb.
Definition bgidx_to_inode (index bgid : Z) : Z := u32 (bgid * inodes_per_group sb + (index + 1)).
Definition get_bgid_of_inode (inode : Z) : Z := u32 (inode - 1) / inodes_per_group sb.

Definition inodes_in_group_cnt (bgid : Z) : Z :=
  let cnt := block_group_cnt (isb sb) in
  if bgid <? u32 (cnt - 1) then inodes_per_group sb else u32 (inodes_count sb - u32 (u32 (cnt - 1) * inodes_per_group sb)).

(** A counter of a descriptor: the upper half exists only in large ones. *)
Definition cnt_field (n : Z) : Z := if 32 <? desc_size (isb sb) then u32 n else u32 n mod 65536.

Definition bg_get_free_inodes_count (g : igroup) : Z := cnt_field (free_inodes_count g).
Definition bg_set_free_inodes_count (g : igroup) (cnt : Z) : igroup := mk_ig (cnt_field cnt) (used_dirs_count g) (itable_unused g) (inode_bitmap g).
Definition bg_get_used_dirs_count (g : igroup) : Z := cnt_field (used_dirs_count g).
Definition bg_set_used_dirs_count (g : igroup) (cnt : Z) : igroup := mk_ig (free_inodes_count g) (cnt_field cnt) (itable_unused g) (inode_bitmap g).
Definition bg_get_itable_unused (g : igroup) : Z := cnt_field (itable_unused g).
Definition bg_set_itable_unused (g : igroup) (cnt : Z) : igroup := mk_ig (free_inodes_count g) (used_dirs_count g) (cnt_field cnt) (inode_bitmap g).

(** Error codes of the buffers of a group, and of reading an inode. *)
Context (rc_get_bg rc_get_blk rc_set_blk rc_put_bg : Z -> Z) (rc_inode : Z -> Z).

(** Whether the inode on disk looks used: a link count or a mode. *)
Context (logically_used : Z -> bool).

(** ** Allocation *)

(** [while (1)]: a clear bit whose inode is unused.  The results are the group,
    the counters of the super block and of the group as they are held in
    variables, and the index, if there is one.  Fuel: the inodes of the group. *)
Fixpoint find_inode (fuel : nat) (g : igroup) (sb_free free_inodes bgid inodes_in_bg search_start : Z) : res (igroup * Z * Z * (Z + option Z)) :=
  match fuel with
  | O => Blocked
  | S fuel =>
      match bmap_bit_find_clr (inode_bitmap g) search_start inodes_in_bg with
      | inl _ => Ok (g, sb_free, free_inodes, inr None)
      | inr idx_in_bg =>
          let inode_index := bgidx_to_inode idx_in_bg bgid in
          if negb (rc_inode inode_index =? EOK) then Ok (g, sb_free, free_inodes, inl (rc_inode inode_index))
          else if logically_used inode_index then
            let g := ig_set_bitmap g (bmap_bit_set (inode_bitmap g) idx_in_bg) in
            let g := if 0 <? free_inodes then bg_set_free_inodes_count g (free_inodes - 1) else g in
            let free_inodes := if 0 <? free_inodes then free_inodes - 1 else free_inodes in
            let sb_free := if 0 <? sb_free then sb_free - 1 else sb_free in
            find_inode fuel g sb_free free_inodes bgid inodes_in_bg (idx_in_bg + 1)
          else Ok (g, sb_free, free_inodes, inr (Some idx_in_bg))
      end
  end.

(** The inode [idx_in_bg] of the group is taken.  The result of releasing the
    bitmap is not looked at. *)
Definition take_inode (s : istate) (g : igroup) (free_inodes bgid idx_in_bg : Z) (is_dir : bool) : istate * (Z + Z) :=
  let inodes_in_bg := inodes_in_group_cnt bgid in
  let used_dirs := bg_get_used_dirs_count g in
  let g := ig_set_bitmap g (bmap_bit_set (inode_bitmap g) idx_in_bg) in
  let g := bg_set_free_inodes_count g (u32 (free_inodes - 1)) in
  let g := if is_dir then bg_set_used_dirs_count g (u32 (used_dirs + 1)) else g in
  let free := u32 (inodes_in_bg - bg_get_itable_unused g) in
  let g := if free <=? idx_in_bg then bg_set_itable_unused g (u32 (inodes_in_bg - (idx_in_bg + 1))) else g in
  let s := set_igroup s bgid g in
  if negb (rc_put_bg bgid =? EOK) then (s, inl (rc_put_bg bgid))
  else (mk_is (igroups s) (u32 (sb_free_inodes s - 1)) bgid, inr (bgidx_to_inode idx_in_bg bgid)).

(** [while (bgid <= bg_count)].  Fuel: the groups, once up to the end and once
    from the start. *)
Fixpoint alloc_groups (fuel : nat) (s : istate) (bgid bg_count : Z) (rewind is_dir : bool) : res (istate * (Z + Z)) :=
  match fuel with
  | O => Blocked
  | S fuel =>
      if negb (bgid <=? bg_count) then Ok (s, inl ENOSPC)
      else if bgid =? bg_count then
        if rewind then Ok (s, inl ENOSPC) else alloc_groups fuel s 0 (last_inode_bg_id s) true is_dir
      else if negb (rc_get_bg bgid =? EOK) then Ok (s, inl (rc_get_bg bgid))
      else
        match igroups s !! Z.to_nat bgid with
        | None => Abort
        | Some g =>
            let free_inodes := bg_get_free_inodes_count g in
            if 0 <? free_inodes then
              if negb (rc_get_blk bgid =? EOK) then Ok (s, inl (rc_get_blk bgid))
              else
                let inodes_in_bg := inodes_in_group_cnt bgid in
                let* (p, r) := find_inode (S (Z.to_nat inodes_in_bg)) g (sb_free_inodes s) free_inodes bgid inodes_in_bg 0 in
                let '(g, sb_free, free_inodes) := p in
                let s := set_sb_free (set_igroup s bgid g) sb_free in
                match r with
                | inl rc => Ok (s, inl rc)
                | inr None =>
                    if negb (rc_set_blk bgid =? EOK) then Ok (s, inl (rc_set_blk bgid))
                    else if negb (rc_put_bg bgid =? EOK) then Ok (s, inl (rc_put_bg bgid))
                    else alloc_groups fuel s (bgid + 1) bg_count rewind is_dir
                | inr (Some idx_in_bg) => Ok (take_inode s g free_inodes bgid idx_in_bg is_dir)
                end
            else alloc_groups fuel s (bgid + 1) bg_count rewind is_dir
        end
  end.

(** [__ext4_ialloc_alloc_inode] *)
Definition ialloc_alloc_inode (s : istate) (is_dir : bool) : res (istate * (Z + Z)) :=
  let bg_count := block_group_cnt (isb sb) in
  alloc_groups (S (S (Z.to_nat bg_count + Z.to_nat (last_inode_bg_id s)))) s (last_inode_bg_id s) bg_count false is_dir.

(** ** Freeing *)

(** [__ext4_ialloc_free_inode] *)
Definition ialloc_free_inode (s : istate) (index : Z) (is_dir : bool) : res (istate * Z) :=
  let block_group := get_bgid_of_inode index in
  if negb (rc_get_bg block_group =? EOK) then Ok (s, rc_get_bg block_group)
  else
    match igroups s !! Z.to_nat block_group with
    | None => Abort
    | Some g =>
        if negb (rc_get_blk block_group =? EOK) then Ok (s, rc_get_blk block_group)
        else
          let g := ig_set_bitmap g (bmap_bit_clr (inode_bitmap g) (inode_to_bgidx index)) in
          if negb (rc_set_blk block_group =? EOK) then Ok (set_igroup s block_group g, rc_set_blk block_group)
          else
            let g := if is_dir then bg_set_used_dirs_count g (u32 (bg_get_used_dirs_count g - 1)) else g in
            let g := bg_set_free_inodes_count g (u32 (bg_get_free_inodes_count g + 1)) in
            let s := set_igroup s block_group g in
            if negb (rc_put_bg block_group =? EOK) then Ok (s, rc_put_bg block_group)
            else Ok (set_sb_free s (u32 (sb_free_inodes s + 1)), EOK)
    end.
End ialloc.

(** ** Correctness *)

(** All groups have the same number of inodes, of which a bitmap block has
    room for, and inode numbers have 32 bits. *)
Record igeom_ok (sb : isblock) : Prop := {
  gi_groups : 0 < block_group_cnt (isb sb);
  gi_ipg : 0 < inodes_per_group sb < 65536;
  gi_count : inodes_count sb = block_group_cnt (isb sb) * inodes_per_group sb;
  gi_small : inodes_count sb < U32_MOD
}.

Section correct.
Context (sb : isblock) (Hg : igeom_ok sb).
Notation ipg := (inodes_per_group sb).
Notation ngr := (block_group_cnt (isb sb)).

Definition clear_bits (g : igroup) : Z := count_bits (fun i => negb (bbit (inode_bitmap g) i)) ipg.

(** Exact counters; no inode in use in the unused part of the table. *)
Record igroup_ok (g : igroup) : Prop := {
  go_wf : bmap_wf (inode_bitmap g);
  go_len : ipg <= blen (inode_bitmap g);
  go_free : free_inodes_count g = clear_bits g;
  go_dirs : 0 <= used_dirs_count g < 65536;
  go_unused : 0 <= itable_unused g <= ipg;
  go_tail i : ipg - itable_unused g <= i < ipg -> bbit (inode_bitmap g) i = false
}.

Record ial_ok (s : istate) : Prop := {
  io_groups : Z.of_nat (length (igroups s)) = ngr;
  io_ok : Forall igroup_ok (igroups s);
  io_total : sb_free_inodes s = sumz free_inodes_count (igroups s);
  io_last : 0 <= last_inode_bg_id s < ngr
}.

(** The inodes in use. *)
Definition iused (s : istate) (ino : Z) : bool :=
  match igroups s !! Z.to_nat ((ino - 1) / ipg) with Some g => bbit (inode_bitmap g) ((ino - 1) mod ipg) | None => true end.

Lemma ino_range bgid idx : 0 <= bgid < ngr -> 0 <= idx < ipg -> 0 <= bgid * ipg + idx < inodes_count sb.
Proof. destruct Hg as [G1 G2 G3 G4]. intros. rewrite G3. nia. Qed.

Lemma bgidx_to_inode_eq bgid idx : 0 <= bgid < ngr -> 0 <= idx < ipg -> bgidx_to_inode sb idx bgid = bgid * ipg + idx + 1.
Proof. intros Hb Hi. pose proof (ino_range bgid idx Hb Hi). destruct Hg as [G1 G2 G3 G4]. unfold bgidx_to_inode. rewrite u32_id; lia. Qed.

Lemma ino_pos bgid idx : 0 <= idx < ipg -> (bgid * ipg + idx + 1 - 1) / ipg = bgid /\ (bgid * ipg + idx + 1 - 1) mod ipg = idx.
Proof.
  intros Hi. replace (bgid * ipg + idx + 1 - 1) with (bgid * ipg + idx) by lia.
  split; symmetry; [apply (Z.div_unique _ _ _ idx); [by left|lia]|apply (Z.mod_unique _ _ bgid); [by left|lia]].
Qed.

(** Group and index of an inode number. *)
Lemma pos_ino ino : 1 <= ino <= inodes_count sb ->
  exists bgid idx, 0 <= bgid < ngr /\ 0 <= idx < ipg /\ ino = bgid * ipg + idx + 1 /\ get_bgid_of_inode sb ino = bgid /\ inode_to_bgidx sb ino = idx.
Proof.
  intros Hi. destruct Hg as [G1 G2 G3 G4]. exists ((ino - 1) / ipg), ((ino - 1) mod ipg). unfold get_bgid_of_inode, inode_to_bgidx. rewrite u32_id by lia.
  pose proof (Z.div_mod (ino - 1) ipg ltac:(lia)) as E. pose proof (Z.mod_pos_bound (ino - 1) ipg ltac:(lia)) as Hm. assert (0 <= (ino - 1) / ipg) by (apply Z.div_pos; lia).
  assert ((ino - 1) / ipg < ngr) by (apply Z.div_lt_upper_bound; [lia|nia]). split_and!; try lia; done.
Qed.

Lemma inodes_in_group_eq bgid : 0 <= bgid < ngr -> inodes_in_group_cnt sb bgid = ipg.
Proof.
  intros Hb. destruct Hg as [G1 G2 G3 G4]. unfold inodes_in_group_cnt. assert (ngr < U32_MOD) by nia. rewrite (u32_id (ngr - 1)) by lia.
  destruct (Z.ltb_spec bgid (ngr - 1)); [done|]. rewrite (u32_id ((ngr - 1) * ipg)) by nia. rewrite u32_id by nia. rewrite G3. lia.
Qed.

Lemma cnt_field_small n : 0 <= n < 65536 -> cnt_field sb n = n.
Proof. intros Hn. unfold cnt_field. rewrite u32_id by lia. destruct (_ <? _); [done|]. apply Z.mod_small. lia. Qed.

Lemma clear_bits_range g : 0 <= clear_bits g <= ipg.
Proof. destruct Hg. apply count_bits_range. lia. Qed.

(** One bit of a bitmap changes. *)
Lemma clear_bits_one g g' idx c : 0 <= idx < ipg -> bbit (inode_bitmap g) idx = c -> (forall j, 0 <= j -> bbit (inode_bitmap g') j = if j =? idx then negb c else bbit (inode_bitmap g) j) ->
  clear_bits g' = clear_bits g + (if c then 1 else -1).
Proof.
  intros Hi Hc Hj. unfold clear_bits. rewrite (count_range (fun i => negb (bbit (inode_bitmap g) i)) (fun i => negb (bbit (inode_bitmap g') i)) ipg idx 1 c); try lia; [by destruct c| |].
  - intros i Hi'. assert (i = idx) as -> by lia. rewrite Hj, Z.eqb_refl, Hc by lia. by rewrite negb_involutive.
  - intros i Hi1 Hi2. rewrite Hj by lia. by rewrite (proj2 (Z.eqb_neq i idx)) by lia.
Qed.

Lemma igroup_lookup s bgid : ial_ok s -> 0 <= bgid < ngr -> exists g, igroups s !! Z.to_nat bgid = Some g /\ igroup_ok g.
Proof.
  intros [H1 H2 _ _] Hb. destruct (lookup_lt_is_Some_2 (igroups s) (Z.to_nat bgid) ltac:(lia)) as [g E]. exists g. split; [done|]. rewrite Forall_lookup in H2. by apply (H2 _ _ E).
Qed.

Lemma iused_at s bgid idx g : 0 <= bgid -> igroups s !! Z.to_nat bgid = Some g -> 0 <= idx < ipg -> iused s (bgid * ipg + idx + 1) = bbit (inode_bitmap g) idx.
Proof. intros Hb E Hi. unfold iused. destruct (ino_pos bgid idx Hi) as [-> ->]. by rewrite E. Qed.

(** A group changes in one bit. *)
Lemma iused_set s s' bgid g g' idx c : 0 <= bgid < ngr -> 0 <= idx < ipg -> igroups s !! Z.to_nat bgid = Some g -> igroups s' = <[Z.to_nat bgid := g']> (igroups s) ->
  (forall j, 0 <= j -> bbit (inode_bitmap g') j = if j =? idx then c else bbit (inode_bitmap g) j) ->
  forall x, 1 <= x <= inodes_count sb -> iused s' x = if x =? bgid * ipg + idx + 1 then c else iused s x.
Proof.
  intros Hb Hi E Es' Hj x Hx. destruct (pos_ino x Hx) as (b & i & Hb1 & Hi1 & -> & _). unfold iused at 1. destruct (ino_pos b i Hi1) as [-> ->]. rewrite Es'.
  destruct (Z.eq_dec b bgid) as [->|Hne].
  - rewrite list_lookup_insert_eq by (apply lookup_lt_Some in E; done). rewrite Hj, (iused_at s bgid i g) by (done || lia). destruct (Z.eqb_spec i idx) as [->|]; [by rewrite Z.eqb_refl|].
    by rewrite (proj2 (Z.eqb_neq _ _)) by lia.
  - rewrite list_lookup_insert_ne by lia. rewrite (proj2 (Z.eqb_neq _ _)) by (destruct Hg; nia). unfold iused. destruct (ino_pos b i Hi1) as [-> ->]. done.
Qed.

Lemma sumz_insert {A} (f : A -> Z) l i x y : l !! i = Some x -> sumz f (<[i := y]> l) = sumz f l - f x + f y.
Proof.
  revert i. induction l as [|z l IH]; intros [|i] E; try done; cbn in E.
  - injection E as ->. change (<[0%nat := y]> (x :: l)) with (y :: l). rewrite !sumz_cons. lia.
  - change (<[S i := y]> (z :: l)) with (z :: <[i := y]> l). rewrite !sumz_cons, (IH i E). lia.
Qed.

Context (rc_get_bg rc_get_blk rc_set_blk rc_put_bg rc_inode : Z -> Z) (logically_used : Z -> bool).

(** No errors of buffers. *)
Definition ircs_ok : Prop := forall i, rc_get_bg i = EOK /\ rc_get_blk i = EOK /\ rc_set_blk i = EOK /\ rc_put_bg i = EOK /\ rc_inode i = EOK.

(** The inodes with clear bits look unused. *)
Definition healthy (s : istate) : Prop := forall x, 1 <= x <= inodes_count sb -> iused s x = false -> logically_used x = false.

(** The inode [ino] was free and is taken. *)
Record itook (s s' : istate) (ino : Z) (is_dir : bool) : Prop := {
  it_range : 1 <= ino <= inodes_count sb;
  it_free : iused s ino = false;
  it_used x : 1 <= x <= inodes_count sb -> iused s' x = (x =? ino) || iused s x;
  it_ok : ial_ok s';
  it_total : sb_free_inodes s' = sb_free_inodes s - 1;
  it_group : exists g g', igroups s !! Z.to_nat ((ino - 1) / ipg) = Some g /\ igroups s' = <[Z.to_nat ((ino - 1) / ipg) := g']> (igroups s) /\
    used_dirs_count g' = used_dirs_count g + Z.b2z is_dir
}.

Lemma set_igroup_ok s s' bgid g g' : ial_ok s -> 0 <= bgid < ngr -> igroups s !! Z.to_nat bgid = Some g -> igroup_ok g' -> igroups s' = <[Z.to_nat bgid := g']> (igroups s) ->
  sb_free_inodes s' = sb_free_inodes s - free_inodes_count g + free_inodes_count g' -> 0 <= last_inode_bg_id s' < ngr -> ial_ok s'.
Proof.
  intros [H1 H2 H3 H4] Hb E Hg' Es' Ef Hl. split; [by rewrite Es', length_insert|rewrite Es'; by apply Forall_insert| |done].
  by rewrite Ef, H3, Es', (sumz_insert _ _ _ _ _ E).
Qed.

Lemma total_le s : ial_ok s -> sb_free_inodes s <= inodes_count sb.
Proof.
  intros Hok. rewrite (io_total _ Hok), (gi_count _ Hg), <- (io_groups _ Hok). pose proof (io_ok _ Hok) as Hall. clear -Hall Hg.
  induction Hall as [|x l Hx Hl IH]; [rewrite sumz_nil; cbn; lia|]. rewrite sumz_cons. cbn [length]. rewrite (go_free _ Hx). pose proof (clear_bits_range x). lia.
Qed.

Lemma take_inode_ok (Hrc : ircs_ok) s bgid g idx is_dir : ial_ok s -> 0 <= bgid < ngr -> igroups s !! Z.to_nat bgid = Some g -> 0 <= idx < ipg -> bbit (inode_bitmap g) idx = false ->
  (is_dir = true -> used_dirs_count g < 65535) ->
  exists s', take_inode sb rc_put_bg s g (free_inodes_count g) bgid idx is_dir = (s', inr (bgid * ipg + idx + 1)) /\ itook s s' (bgid * ipg + idx + 1) is_dir.
Proof.
  intros Hok Hb E Hi Hbit Hd. destruct (igroup_lookup s bgid Hok Hb) as (g0 & E0 & Hgo). assert (g0 = g) as -> by congruence. pose proof Hgo as [W1 W2 W3 W4 W5 W6].
  destruct (bit_set_ok (inode_bitmap g) idx W1 ltac:(lia)) as (B1 & B2 & B3). pose proof (gi_ipg _ Hg) as Hipg.
  set (g' := mk_ig (free_inodes_count g - 1) (used_dirs_count g + (if is_dir then 1 else 0)) (if ipg - itable_unused g <=? idx then ipg - (idx + 1) else itable_unused g) (bmap_bit_set (inode_bitmap g) idx)).
  assert (clear_bits g' = clear_bits g - 1) as Hclear.
  { rewrite (clear_bits_one g g' idx false); [lia|done|done|]. intros j Hj. cbn [g' inode_bitmap]. rewrite B3 by done. by destruct (j =? idx). }
  pose proof (clear_bits_range g) as Hcr. pose proof (clear_bits_range g') as Hcr'.
  assert (igroup_ok g') as Hgo'.
  { split; cbn [g' inode_bitmap free_inodes_count used_dirs_count itable_unused]; try done.
    - unfold blen in *. lia.
    - rewrite W3. symmetry. exact Hclear.
    - destruct is_dir; [specialize (Hd eq_refl)|]; lia.
    - destruct (_ <=? _); lia.
    - intros i Hi'. rewrite B3 by (destruct (_ <=? _); lia). destruct (Z.leb_spec (ipg - itable_unused g) idx); (rewrite (proj2 (Z.eqb_neq i idx)) by lia); cbn [orb]; apply W6; lia. }
  assert (sb_free_inodes s = sumz free_inodes_count (igroups s)) as Htot by apply Hok.
  assert (1 <= sb_free_inodes s < U32_MOD) as Hsb.
  { rewrite Htot. pose proof (sumz_insert free_inodes_count _ _ _ g' E) as Hsi. assert (0 <= sumz free_inodes_count (<[Z.to_nat bgid:=g']> (igroups s))) as Hnn.
    { apply sumz_nonneg, Forall_insert; [apply (Forall_impl _ _ _ (io_ok _ Hok)); intros x Hx; rewrite (go_free _ Hx); apply clear_bits_range|rewrite (go_free _ Hgo'); lia]. }
    assert (free_inodes_count g' = free_inodes_count g - 1) as Ef by done. split; [lia|].
    pose proof (total_le s Hok). pose proof (gi_small _ Hg). lia. }
  set (s' := mk_is (<[Z.to_nat bgid := g']> (igroups s)) (sb_free_inodes s - 1) bgid).
  exists s'. split.
  - unfold take_inode. destruct (Hrc bgid) as (_ & _ & _ & -> & _). cbn [Z.eqb negb]. change (EOK =? EOK) with true. cbn [negb].
    rewrite (bgidx_to_inode_eq bgid idx Hb Hi), (inodes_in_group_eq bgid Hb). f_equal. unfold s'. unfold set_igroup. cbn [igroups sb_free_inodes]. rewrite (u32_id (sb_free_inodes s - 1)) by lia. f_equal. f_equal.
    unfold bg_get_used_dirs_count, bg_set_free_inodes_count, bg_set_used_dirs_count, bg_get_itable_unused, bg_set_itable_unused, ig_set_bitmap. cbn [free_inodes_count used_dirs_count itable_unused inode_bitmap].
    rewrite W3. rewrite (u32_id (clear_bits g - 1)), (cnt_field_small (clear_bits g - 1)), (cnt_field_small (used_dirs_count g)) by lia.
    rewrite (u32_id (used_dirs_count g + 1)) by lia. rewrite (u32_id (ipg - (idx + 1))), (cnt_field_small (ipg - (idx + 1))) by lia.
    unfold g'. rewrite W3. destruct is_dir; [rewrite (cnt_field_small (used_dirs_count g + 1)) by (specialize (Hd eq_refl); lia)|]; cbn [itable_unused free_inodes_count used_dirs_count inode_bitmap]; rewrite (cnt_field_small (itable_unused g)), (u32_id (ipg - itable_unused g)) by lia;
      destruct (_ <=? idx); rewrite ?Z.add_0_r; done.
  - pose proof (ino_range bgid idx Hb Hi). split; [lia|by rewrite (iused_at s bgid idx g) by (done || lia)| |apply (set_igroup_ok s s' bgid g g'); try done; cbn; lia|done|].
    2:{ destruct (ino_pos bgid idx Hi) as [-> _]. exists g, g'. done. }
    intros x Hx. rewrite (iused_set s s' bgid g g' idx true Hb Hi E eq_refl); [by destruct (x =? _)|by intros j Hj; cbn [g' inode_bitmap]; rewrite B3 by done; destruct (j =? idx)|done].
Qed.

(** The first clear bit of a healthy group. *)
Lemma find_inode_ok (Hrc : ircs_ok) s bgid g sbf free : ial_ok s -> healthy s -> 0 <= bgid < ngr -> igroups s !! Z.to_nat bgid = Some g -> 0 < free_inodes_count g ->
  exists idx, find_inode sb rc_inode logically_used (S (Z.to_nat ipg)) g sbf free bgid ipg 0 = Ok (g, sbf, free, inr (Some idx)) /\ 0 <= idx < ipg /\ bbit (inode_bitmap g) idx = false.
Proof.
  intros Hok Hh Hb E Hf. destruct (igroup_lookup s bgid Hok Hb) as (g0 & E0 & Hgo). assert (g0 = g) as -> by congruence. pose proof (gi_ipg _ Hg) as Hipg. cbn [find_inode].
  pose proof (bit_find_clr_aligned (inode_bitmap g) 0 ipg ltac:(lia) ltac:(lia) eq_refl) as Hr. destruct (bmap_bit_find_clr (inode_bitmap g) 0 ipg) as [e|idx].
  - exfalso. destruct Hr as [_ Hr]. rewrite (go_free _ Hgo) in Hf. unfold clear_bits, count_bits in Hf. rewrite (sumz_const 0) in Hf; [lia|].
    intros i Hi%elem_of_seqz. destruct (bbit (inode_bitmap g) i) eqn:Eb; [done|]. exfalso. apply (Hr i); [lia..|]. by apply clr_run_one.
  - destruct Hr as (R1 & R2 & R3 & _). apply clr_run_one in R3. exists idx. rewrite (bgidx_to_inode_eq bgid idx Hb) by lia. destruct (Hrc (bgid * ipg + idx + 1)) as (_ & _ & _ & _ & ->).
    change (EOK =? EOK) with true. cbn [negb]. pose proof (ino_range bgid idx Hb ltac:(lia)). rewrite (Hh (bgid * ipg + idx + 1)); [split_and!; [done|lia|lia|done]|lia|].
    by rewrite (iused_at s bgid idx g) by (done || lia).
Qed.

Notation alloc := (alloc_groups sb rc_get_bg rc_get_blk rc_set_blk rc_put_bg rc_inode logically_used).

Definition dirs_room (s : istate) (is_dir : bool) : Prop := is_dir = true -> Forall (fun g => used_dirs_count g < 65535) (igroups s).

Lemma alloc_groups_ok (Hrc : ircs_ok) s is_dir (Hok : ial_ok s) (Hh : healthy s) (Hd : dirs_room s is_dir) fuel : forall bgid bg_count (rewind : bool), 0 <= bgid <= bg_count -> bg_count <= ngr ->
  (bg_count - bgid) + (if rewind then 0 else 1 + last_inode_bg_id s) < Z.of_nat fuel ->
  (exists ino s', alloc fuel s bgid bg_count rewind is_dir = Ok (s', inr ino) /\ itook s s' ino is_dir) \/
  alloc fuel s bgid bg_count rewind is_dir = Ok (s, inl ENOSPC) /\
    forall b g, (bgid <= b < bg_count \/ rewind = false /\ 0 <= b < last_inode_bg_id s) -> igroups s !! Z.to_nat b = Some g -> free_inodes_count g <= 0.
Proof.
  pose proof (io_last _ Hok) as Hlast. induction fuel as [|fuel IH]; intros bgid bg_count rewind Hb Hn Hf; [destruct rewind; lia|]. cbn [alloc_groups].
  rewrite (proj2 (Z.leb_le bgid bg_count)) by lia. cbn [negb]. destruct (Z.eqb_spec bgid bg_count) as [->|Hne].
  { destruct rewind.
    - right. split; [done|]. intros b g [Hb'|[? _]]; [lia|done].
    - destruct (IH 0 (last_inode_bg_id s) true ltac:(lia) ltac:(lia) ltac:(lia)) as [H|[E Hno]]; [by left|right]. split; [done|]. intros b g [Hb'|[_ Hb']] Eg; [lia|]. apply (Hno b g); [by left|done]. }
  destruct (Hrc bgid) as (-> & -> & -> & -> & _). change (EOK =? EOK) with true. cbn [negb]. destruct (igroup_lookup s bgid Hok ltac:(lia)) as (g & E & Hgo). rewrite E.
  assert (bg_get_free_inodes_count sb g = free_inodes_count g) as ->. { unfold bg_get_free_inodes_count. apply cnt_field_small. rewrite (go_free _ Hgo). pose proof (clear_bits_range g). pose proof (gi_ipg _ Hg). lia. }
  destruct (Z.ltb_spec 0 (free_inodes_count g)) as [Hpos|Hzero].
  - rewrite (inodes_in_group_eq bgid) by lia. destruct (find_inode_ok Hrc s bgid g (sb_free_inodes s) (free_inodes_count g) Hok Hh ltac:(lia) E Hpos) as (idx & -> & Hi & Hbit). cbn [res_bind].
    unfold set_sb_free, set_igroup. cbn [igroups sb_free_inodes last_inode_bg_id]. rewrite (list_insert_id _ _ _ E). destruct s as [gs sf lb]. cbn [igroups sb_free_inodes last_inode_bg_id] in *.
    destruct (take_inode_ok Hrc (mk_is gs sf lb) bgid g idx is_dir Hok ltac:(lia) E Hi Hbit) as (s' & -> & Ht); [|left; by exists (bgid * ipg + idx + 1), s'].
    intros Hdir. specialize (Hd Hdir). rewrite Forall_lookup in Hd. by apply (Hd _ _ E).
  - destruct (IH (bgid + 1) bg_count rewind ltac:(lia) Hn ltac:(lia)) as [H|[E1 Hno]]; [by left|right]. split; [done|]. intros b g' Hb' Eg'. destruct (Z.eq_dec b bgid) as [->|Hnb]; [congruence|].
    apply (Hno b g'); [|done]. destruct Hb' as [Hb'|Hb']; [left; lia|by right].
Qed.

Lemma no_free_all_used s : ial_ok s -> (forall b g, 0 <= b < ngr -> igroups s !! Z.to_nat b = Some g -> free_inodes_count g <= 0) -> forall x, 1 <= x <= inodes_count sb -> iused s x = true.
Proof.
  intros Hok Hno x Hx. destruct (pos_ino x Hx) as (b & i & Hb & Hi & -> & _). destruct (igroup_lookup s b Hok Hb) as (g & E & Hgo). rewrite (iused_at s b i g) by (done || lia).
  destruct (bbit (inode_bitmap g) i) eqn:Eb; [done|]. specialize (Hno b g Hb E). rewrite (go_free _ Hgo) in Hno. exfalso.
  pose proof (clear_bits_one g (ig_set_bitmap g (bmap_bit_set (inode_bitmap g) i)) i false Hi Eb) as H1. pose proof (clear_bits_range (ig_set_bitmap g (bmap_bit_set (inode_bitmap g) i))) as H2. rewrite H1 in H2; [lia|].
  intros j Hj. cbn [ig_set_bitmap inode_bitmap]. destruct (bit_set_ok (inode_bitmap g) i (go_wf _ Hgo) ltac:(pose proof (go_len _ Hgo); lia)) as (_ & _ & ->); [by destruct (j =? i)|done].
Qed.

(** The allocator of a healthy file system. *)
Lemma alloc_inode_ok (Hrc : ircs_ok) s is_dir : ial_ok s -> healthy s -> dirs_room s is_dir ->
  (exists ino s', ialloc_alloc_inode sb rc_get_bg rc_get_blk rc_set_blk rc_put_bg rc_inode logically_used s is_dir = Ok (s', inr ino) /\ itook s s' ino is_dir) \/
  ialloc_alloc_inode sb rc_get_bg rc_get_blk rc_set_blk rc_put_bg rc_inode logically_used s is_dir = Ok (s, inl ENOSPC) /\ forall x, 1 <= x <= inodes_count sb -> iused s x = true.
Proof.
  intros Hok Hh Hd. pose proof (io_last _ Hok) as Hl. unfold ialloc_alloc_inode.
  destruct (alloc_groups_ok Hrc s is_dir Hok Hh Hd (S (S (Z.to_nat ngr + Z.to_nat (last_inode_bg_id s)))) (last_inode_bg_id s) ngr false ltac:(lia) ltac:(lia) ltac:(lia)) as [H|[E Hno]]; [by left|right].
  split; [done|]. apply (no_free_all_used s Hok). intros b g Hb Eg. apply (Hno b g); [|done]. destruct (Z.lt_ge_cases b (last_inode_bg_id s)); [right|left]; [split; [done|lia]|lia].
Qed.

(** The inode [ino] was used and is free. *)
Record igave (s s' : istate) (ino : Z) : Prop := {
  iv_used x : 1 <= x <= inodes_count sb -> iused s' x = negb (x =? ino) && iused s x;
  iv_ok : ial_ok s';
  iv_total : sb_free_inodes s' = sb_free_inodes s + 1
}.

Lemma free_inode_ok (Hrc : ircs_ok) s ino (is_dir : bool) : ial_ok s -> 1 <= ino <= inodes_count sb -> iused s ino = true ->
  (is_dir = true -> forall g, igroups s !! Z.to_nat ((ino - 1) / ipg) = Some g -> 0 < used_dirs_count g) ->
  exists s', ialloc_free_inode sb rc_get_bg rc_get_blk rc_set_blk rc_put_bg s ino is_dir = Ok (s', EOK) /\ igave s s' ino /\
    forall i g g', igroups s !! i = Some g -> igroups s' !! i = Some g' -> used_dirs_count g' = used_dirs_count g - (if bool_decide (i = Z.to_nat ((ino - 1) / ipg)) then Z.b2z is_dir else 0).
Proof.
  intros Hok Hr Hu Hd. destruct (pos_ino ino Hr) as (bgid & idx & Hb & Hi & Eino & Eb & Ei). destruct (igroup_lookup s bgid Hok Hb) as (g & E & Hgo). pose proof Hgo as [W1 W2 W3 W4 W5 W6].
  assert ((ino - 1) / ipg = bgid) as Ediv by (rewrite Eino; apply ino_pos; lia). rewrite Ediv in *. rewrite Eino, (iused_at s bgid idx g) in Hu by (done || lia).
  destruct (bit_clr_ok (inode_bitmap g) idx W1 ltac:(lia)) as (B1 & B2 & B3). pose proof (gi_ipg _ Hg) as Hipg.
  set (g' := mk_ig (free_inodes_count g + 1) (used_dirs_count g - Z.b2z is_dir) (itable_unused g) (bmap_bit_clr (inode_bitmap g) idx)).
  assert (clear_bits g' = clear_bits g + 1) as Hclear.
  { rewrite (clear_bits_one g g' idx true); [lia|done|done|]. intros j Hj. cbn [g' inode_bitmap]. rewrite B3 by done. by destruct (j =? idx). }
  pose proof (clear_bits_range g) as Hcr. pose proof (clear_bits_range g') as Hcr'. assert (Z.b2z is_dir <= used_dirs_count g) as Hdir by (destruct is_dir; cbn; [specialize (Hd eq_refl g E)|]; lia).
  assert (igroup_ok g') as Hgo'.
  { split; cbn [g' inode_bitmap free_inodes_count used_dirs_count itable_unused]; try done.
    - unfold blen in *. lia.
    - rewrite W3. symmetry. exact Hclear.
    - destruct is_dir; cbn in *; lia.
    - intros i Hi'. rewrite B3 by lia. rewrite (W6 i Hi'). by rewrite andb_false_r. }
  set (s' := mk_is (<[Z.to_nat bgid := g']> (igroups s)) (sb_free_inodes s + 1) (last_inode_bg_id s)). assert (ial_ok s') as Hok'.
  { apply (set_igroup_ok s s' bgid g g'); try done; cbn; [lia|]. apply Hok. }
  assert (0 <= sb_free_inodes s < U32_MOD - 1) as Hsb.
  { pose proof (io_total _ Hok') as Ht. cbn [s' sb_free_inodes] in Ht. split.
    - rewrite (io_total _ Hok). apply sumz_nonneg, (Forall_impl _ _ _ (io_ok _ Hok)). intros x Hx. rewrite (go_free _ Hx). apply clear_bits_range.
    - pose proof (total_le s' Hok') as Hle. cbn [s' sb_free_inodes] in Hle. destruct Hg; lia. }
  exists s'. split_and!.
  - unfold ialloc_free_inode. rewrite Eb, Ei. destruct (Hrc bgid) as (-> & -> & -> & -> & _). change (EOK =? EOK) with true. cbn [negb]. rewrite E.
    unfold bg_get_used_dirs_count, bg_set_free_inodes_count, bg_set_used_dirs_count, bg_get_free_inodes_count, set_sb_free, set_igroup, ig_set_bitmap.
    destruct is_dir; cbn [free_inodes_count used_dirs_count itable_unused inode_bitmap igroups sb_free_inodes last_inode_bg_id]; cbn in Hdir;
      rewrite W3, (cnt_field_small (clear_bits g)), (u32_id (clear_bits g + 1)), (cnt_field_small (clear_bits g + 1)), (u32_id (sb_free_inodes s + 1)) by lia.
    + rewrite (cnt_field_small (used_dirs_count g)), (u32_id (used_dirs_count g - 1)), (cnt_field_small (used_dirs_count g - 1)) by lia. unfold s', g'. by rewrite W3.
    + unfold s', g'. cbn [Z.b2z]. rewrite W3, Z.sub_0_r. done.
  - split; [|done|done]. intros x Hx. rewrite (iused_set s s' bgid g g' idx false Hb Hi E eq_refl); [rewrite Eino; by destruct (x =? _)|by intros j Hj; cbn [g' inode_bitmap]; rewrite B3 by done; destruct (j =? idx)|done].
  - intros i gi gi' Ei1 Ei2. cbn [s' igroups] in Ei2. apply list_lookup_insert_Some in Ei2 as [(Eq & <- & _)|[Hne Ei2]].
    + subst i. rewrite bool_decide_true by done. assert (gi = g) as -> by congruence. done.
    + rewrite bool_decide_false by done. assert (gi = gi') as -> by congruence. lia.
Qed.

(** An inode that looks used is never allocated. *)
Lemma find_inode_unused fuel : forall g sbf free bgid n start g' sbf' free' idx,
  find_inode sb rc_inode logically_used fuel g sbf free bgid n start = Ok (g', sbf', free', inr (Some idx)) -> logically_used (bgidx_to_inode sb idx bgid) = false.
Proof.
  induction fuel as [|fuel IH]; intros g sbf free bgid n start g' sbf' free' idx E; [done|]. cbn [find_inode] in E. destruct (bmap_bit_find_clr _ _ _) as [|i]; [done|].
  destruct (negb _); [done|]. destruct (logically_used (bgidx_to_inode sb i bgid)) eqn:Eu; [by apply IH in E|]. by injection E as <- <- <- <-.
Qed.

Lemma alloc_groups_unused fuel : forall s bgid n rewind is_dir s' ino, alloc fuel s bgid n rewind is_dir = Ok (s', inr ino) -> logically_used ino = false.
Proof.
  induction fuel as [|fuel IH]; intros s bgid n rewind is_dir s' ino E; [done|]. cbn [alloc_groups] in E. destruct (negb (bgid <=? n)); [done|]. destruct (bgid =? n).
  { destruct rewind; [done|]. by apply IH in E. }
  destruct (negb (rc_get_bg bgid =? EOK)); [done|]. destruct (igroups s !! Z.to_nat bgid) as [g|]; [|done]. destruct (0 <? _); [|by apply IH in E]. destruct (negb (rc_get_blk bgid =? EOK)); [done|].
  destruct (find_inode _ _ _ _ _ _ _ _ _ _) as [[[[g1 sb1] f1] r1]| |] eqn:Ef; [|done..]. cbn [res_bind] in E. destruct r1 as [e|[idx|]]; [done| |].
  - unfold take_inode in E. destruct (negb (rc_put_bg bgid =? EOK)); [done|]. injection E as _ <-. by apply find_inode_unused in Ef.
  - destruct (negb (rc_set_blk bgid =? EOK)); [done|]. destruct (negb (rc_put_bg bgid =? EOK)); [done|]. by apply IH in E.
Qed.
End correct.

(** C35: the inode allocator never returns an inode that looks used on disk,
    whatever the bitmaps, the counters and the I/O errors.  Without I/O errors,
    with exact counters, every inode of a clear bit unused on disk and no group
    with 65535 directories, it returns an inode that was free, marks exactly
    that one in the bitmaps and keeps all counters exact; it fails only if every
    inode is in use. *)
Theorem ext4_alloc_inode_correct sb rc_get_bg rc_get_blk rc_set_blk rc_put_bg rc_inode logically_used s is_dir :
  (forall s' ino, ialloc_alloc_inode sb rc_get_bg rc_get_blk rc_set_blk rc_put_bg rc_inode logically_used s is_dir = Ok (s', inr ino) -> logically_used ino = false) /\
  (igeom_ok sb -> ircs_ok rc_get_bg rc_get_blk rc_set_blk rc_put_bg rc_inode -> ial_ok sb s -> healthy sb logically_used s -> dirs_room s is_dir ->
   (exists ino s', ialloc_alloc_inode sb rc_get_bg rc_get_blk rc_set_blk rc_put_bg rc_inode logically_used s is_dir = Ok (s', inr ino) /\
     1 <= ino <= inodes_count sb /\ iused sb s ino = false /\ (forall x, 1 <= x <= inodes_count sb -> iused sb s' x = (x =? ino) || iused sb s x) /\ ial_ok sb s' /\ sb_free_inodes s' = sb_free_inodes s - 1) \/
   ialloc_alloc_inode sb rc_get_bg rc_get_blk rc_set_blk rc_put_bg rc_inode logically_used s is_dir = Ok (s, inl ENOSPC) /\ forall x, 1 <= x <= inodes_count sb -> iused sb s x = true).
Proof.
  split; [intros s' ino E; by eapply alloc_groups_unused|].
  intros Hg Hrc Hok Hh Hd. destruct (alloc_inode_ok sb Hg rc_get_bg rc_get_blk rc_set_blk rc_put_bg rc_inode logically_used Hrc s is_dir Hok Hh Hd) as [(ino & s' & E & [T1 T2 T3 T4 T5 _])|H]; [left|by right].
  by exists ino, s'.
Qed.

(** Freeing the inode just allocated gives back the set of inodes in use, the count of free inodes and the counts of directories of all groups. *)
Lemma ext4_inode_alloc_free_roundtrip sb rc_get_bg rc_get_blk rc_set_blk rc_put_bg rc_inode logically_used s is_dir s1 ino :
  igeom_ok sb -> ircs_ok rc_get_bg rc_get_blk rc_set_blk rc_put_bg rc_inode -> ial_ok sb s -> healthy sb logically_used s -> dirs_room s is_dir ->
  ialloc_alloc_inode sb rc_get_bg rc_get_blk rc_set_blk rc_put_bg rc_inode logically_used s is_dir = Ok (s1, inr ino) ->
  exists s2, ialloc_free_inode sb rc_get_bg rc_get_blk rc_set_blk rc_put_bg s1 ino is_dir = Ok (s2, EOK) /\ ial_ok sb s2 /\ sb_free_inodes s2 = sb_free_inodes s /\
    (forall x, 1 <= x <= inodes_count sb -> iused sb s2 x = iused sb s x) /\ used_dirs_count <$> igroups s2 = used_dirs_count <$> igroups s.
Proof.
  intros Hg Hrc Hok Hh Hd E. destruct (alloc_inode_ok sb Hg rc_get_bg rc_get_blk rc_set_blk rc_put_bg rc_inode logically_used Hrc s is_dir Hok Hh Hd) as [(ino' & s' & E' & [T1 T2 T3 T4 T5 T6])|[E' _]]; [|congruence].
  rewrite E in E'. injection E' as <- <-. destruct T6 as (g & g' & Eg & Es1 & Hdir). assert (Hlt := lookup_lt_Some _ _ _ Eg).
  destruct (free_inode_ok sb Hg rc_get_bg rc_get_blk rc_set_blk rc_put_bg rc_inode Hrc s1 ino is_dir T4 T1) as (s2 & E2 & [V1 V2 V3] & Hdirs).
  { rewrite T3 by done. by rewrite Z.eqb_refl. }
  { intros -> g0 Eg0. rewrite Es1, list_lookup_insert_eq in Eg0 by done. injection Eg0 as <-. cbn in Hdir. pose proof (io_ok _ _ Hok) as Hall. rewrite Forall_lookup in Hall. pose proof (go_dirs _ _ (Hall _ _ Eg)). lia. }
  exists s2. split_and!; [done|done|lia| |].
  - intros x Hx. rewrite V1, T3 by done. destruct (Z.eqb_spec x ino) as [->|]; [by rewrite T2|done].
  - assert (length (igroups s1) = length (igroups s2)) as Hl by (pose proof (io_groups _ _ T4); pose proof (io_groups _ _ V2); lia).
    apply list_eq. intros i. rewrite !list_lookup_fmap. destruct (igroups s2 !! i) as [g2|] eqn:E2i; destruct (igroups s !! i) as [g0|] eqn:E0i; try done.
    + destruct (lookup_lt_is_Some_2 (igroups s1) i) as [g1 E1i]; [apply lookup_lt_Some in E2i; lia|]. cbn. f_equal. rewrite (Hdirs i g1 g2 E1i E2i).
      rewrite Es1 in E1i. apply list_lookup_insert_Some in E1i as [(Eq & <- & _)|[Hne E1i]]; [subst i; rewrite bool_decide_true by done; assert (g0 = g) as -> by congruence; lia|].
      rewrite bool_decide_false by done. assert (g0 = g1) as -> by congruence. lia.
    + exfalso. apply lookup_lt_Some in E2i. apply lookup_ge_None in E0i. rewrite <- Hl, Es1, length_insert in E2i. lia.
    + exfalso. apply lookup_lt_Some in E0i. apply lookup_ge_None in E2i. rewrite <- Hl, Es1, length_insert in E2i. lia.
Qed.

(** ** A small file system *)

Definition ex_isb : isblock := mk_isb (mk_sblock 0 32768 32768 4096 64 true) 16 16.
Definition ex_is : istate := mk_is [mk_ig 13 1 13 [7; 0]] 13 0.

Lemma ex_igeom : igeom_ok ex_isb.
Proof. by split; vm_compute. Qed.

Lemma ex_ircs : ircs_ok (fun _ => EOK) (fun _ => EOK) (fun _ => EOK) (fun _ => EOK) (fun _ => EOK).
Proof. done. Qed.

Lemma ex_ial_ok : ial_ok ex_isb ex_is.
Proof.
  split; [done| |done|by vm_compute]. constructor; [|constructor]. split; try done; [by repeat constructor|]. intros i Hi. cbn in Hi.
  assert (i = 3 \/ i = 4 \/ i = 5 \/ i = 6 \/ i = 7 \/ i = 8 \/ i = 9 \/ i = 10 \/ i = 11 \/ i = 12 \/ i = 13 \/ i = 14 \/ i = 15) as H by lia. by repeat (destruct H as [->|H]; [done|]); subst i.
Qed.

Lemma ex_healthy : healthy ex_isb (fun x => x <=? 3) ex_is.
Proof. intros x Hx Hu. apply Z.leb_gt. destruct (Z.lt_ge_cases 3 x); [done|]. exfalso. cbn in Hx. assert (x = 1 \/ x = 2 \/ x = 3) as [-> | [-> | ->]] by lia; by vm_compute in Hu. Qed.

Lemma ext4_alloc_inode_correct_witness : exists ino s', ialloc_alloc_inode ex_isb (fun _ => EOK) (fun _ => EOK) (fun _ => EOK) (fun _ => EOK) (fun _ => EOK) (fun x => x <=? 3) ex_is true = Ok (s', inr ino) /\
  iused ex_isb ex_is ino = false /\ sb_free_inodes s' = 12.
Proof.
  destruct (ext4_alloc_inode_correct ex_isb (fun _ => EOK) (fun _ => EOK) (fun _ => EOK) (fun _ => EOK) (fun _ => EOK) (fun x => x <=? 3) ex_is true) as [_ H0].
  destruct (H0 ex_igeom ex_ircs ex_ial_ok ex_healthy)
    as [(ino & s' & E & _ & H1 & _ & _ & H2)|[_ H]].
  - intros _. by repeat constructor.
  - exists ino, s'. split_and!; [done|done|]. by rewrite H2.
  - exfalso. specialize (H 16 ltac:(cbn; lia)). by vm_compute in H.
Defined.

(** The self-healing search continues behind a bit that is not on a byte boundary, where the bitmap search reports its start instead of the clear bit it found. With one inode to heal in front of an inode in use, the inode in use is counted off as well: after the allocation, the group and the super block count 12 free inodes where the bitmap has 13. *)
Lemma ext4_selfheal_miscounts :
  let s := mk_is [mk_ig 15 0 0 [2; 0]] 15 0 in
  match ialloc_alloc_inode ex_isb (fun _ => EOK) (fun _ => EOK) (fun _ => EOK) (fun _ => EOK) (fun _ => EOK) (fun x => x <=? 2) s false with
  | Ok (mk_is [g] sb_free _, inr ino) => ino = 3 /\ sb_free = 12 /\ free_inodes_count g = 12 /\ clear_bits ex_isb g = 13
  | _ => False
  end.
Proof. by vm_compute. Qed.
