(* ===== verification/Ext4Names.v ===== *)
(** * Names and inodes of lwext4

    The directory operations of the inode layer: [lwext4_lookup], [_create],
    [_unlink], [_rename_new] and [_rename_old] of [ext4_inode.c] with
    [ext4_link] and [ext4_unlink] of [ext4.c], the allocation and release of
    inodes in [ext4_fs.c], and the table of inodes in memory of [fs/inode.c].
    The operations on the contents of directories come in through an interface,
    so that the theorems do not depend on their layout.  Extents and directory
    indexes are on; there are no extended attributes. *)

From stdpp Require Import gmap sorting.
From S2P Require Import Prelude Bio Sjd Ext4Extent Ext4Map Ext4Dir Ext4Hash Ext4Htree Ext4Index Ext4Front Ext4DirMap Ext4DirIter Bitmap Ext4Bitmap Ext4Balloc Ext4Ialloc.

(** ** Directories *)

(** The operations on the directory of an inode: the number a name stands for,
    a new entry, a removed entry, the blocks of a new directory, a new parent,
    and whether there are other entries than the dots. *)
Class DirOps := {
  dop_find : Z -> dir_file -> list Z -> res (dir_file * (Z + Z));
  dop_add : Z -> dir_file -> dir_child -> list Z -> res (dir_file * Z);
  dop_remove : Z -> dir_file -> list Z -> res (dir_file * Z);
  dop_init : Z -> dir_file -> dir_child -> dir_child -> res (dir_file * Z);
  dop_reset_parent : Z -> dir_file -> Z -> dir_file * Z;
  dop_has_children : Z -> dir_file -> res (Z + bool)
}.

(** What they promise of a directory that stands for a map. *)
Class DirSpec (D : DirOps) := {
  dsp_map : Z -> dir_file -> gmap (list Z) Z -> Prop;
  dsp_room : Z -> dir_file -> dir_child -> list Z -> Prop;
  dsp_flags ino x M : dsp_map ino x M -> df_is_dir x = true /\ df_index x = true;
  dsp_find ino x M name : dsp_map ino x M -> name_ok name -> dop_find ino x name = Ok (x, match M !! name with Some c => inr c | None => inl ENOENT end);
  dsp_add ino x M child name : dsp_map ino x M -> name_ok name -> M !! name = None -> 0 < c_index child < U32_MOD -> dsp_room ino x child name ->
    exists x', dop_add ino x child name = Ok (x', EOK) /\ dsp_map ino x' (<[name := c_index child]> M);
  dsp_remove ino x M name c : dsp_map ino x M -> name_ok name -> M !! name = Some c -> exists x', dop_remove ino x name = Ok (x', EOK) /\ dsp_map ino x' (delete name M);
  dsp_init ino self parent : 0 < c_index self < U32_MOD -> 0 < c_index parent < U32_MOD ->
    exists x', dop_init ino (mk_dir true false []) self parent = Ok (x', EOK) /\ dsp_map ino (mk_dir true true (df_blocks x')) ∅;
  dsp_children ino x M : dsp_map ino x M -> exists found, dop_has_children ino x = Ok (inr found) /\ (found = true <-> exists name c, M !! name = Some c /\ is_dots name = false);
  dsp_no_children ino x : df_is_dir x = false -> dop_has_children ino x = Ok (inr false)
}.

(** ** Inodes *)

Definition ENOMEM : Z := 12.
Definition ENOTEMPTY : Z := 39.
Definition EXT4_LINK_MAX : Z := 65000.
Definition EXT4_DIRECTORY_FILENAME_LEN : Z := 255.

(** An inode of the inode table.  The blocks are those of a directory. *)
Record einode := mk_ei { ei_mode : Z; ei_links : Z; ei_extents : bool; ei_index : bool; ei_blocks : list block }.

(** An inode in memory: reference count, link count, mode, [I_NEW],
    [I_IN_JTX_DIRTY_LIST] and [I_DELETED]. *)
Record minode := mk_mi { i_count : Z; i_nlink : Z; i_mode : Z; i_new : bool; i_jtx : bool; i_deleted : bool }.

(** The inode table (inodes that were never used are not in the map), the
    table of inodes in memory, and the inode allocator. *)
Record nfs := mk_nfs { n_inodes : gmap Z einode; n_cache : gmap Z minode; n_alloc : istate }.

Definition set_ei (s : nfs) (ino : Z) (e : einode) : nfs := mk_nfs (<[ino := e]> (n_inodes s)) (n_cache s) (n_alloc s).
Definition set_mi (s : nfs) (ino : Z) (m : minode) : nfs := mk_nfs (n_inodes s) (<[ino := m]> (n_cache s)) (n_alloc s).
Definition set_alloc (s : nfs) (a : istate) : nfs := mk_nfs (n_inodes s) (n_cache s) a.

Definition get_ei (s : nfs) (ino : Z) : res einode := match n_inodes s !! ino with Some e => Ok e | None => Abort end.
Definition get_mi (s : nfs) (ino : Z) : res minode := match n_cache s !! ino with Some m => Ok m | None => Abort end.

Definition ei_set_links (e : einode) (n : Z) : einode := mk_ei (ei_mode e) (u16 n) (ei_extents e) (ei_index e) (ei_blocks e).
Definition ei_set_index (e : einode) : einode := mk_ei (ei_mode e) (ei_links e) (ei_extents e) true (ei_blocks e).
Definition mi_set_count (m : minode) (n : Z) : minode := mk_mi n (i_nlink m) (i_mode m) (i_new m) (i_jtx m) (i_deleted m).
Definition mi_set_nlink (m : minode) (n : Z) : minode := mk_mi (i_count m) (u32 n) (i_mode m) (i_new m) (i_jtx m) (i_deleted m).

(** Types of files; the numbers of the kernel and of lwext4 are the same. *)
Definition mode_type (mode : Z) : Z := Z.land mode 61440.
Definition S_ISDIR (mode : Z) : bool := mode_type mode =? 16384.
Definition S_ISREG (mode : Z) : bool := mode_type mode =? 32768.
Definition S_ISLNK (mode : Z) : bool := mode_type mode =? 40960.
Definition known_type (mode : Z) : bool := existsb (fun t => mode_type mode =? t) [32768; 16384; 40960; 8192; 24576; 4096; 49152].

Definition mode_e2k (mode : Z) : Z := Z.lor (if known_type mode then mode_type mode else 0) (Z.land mode 4095).

(** The mode of a new inode: [get_filetype], [ext4_fs_correspond_inode_mode]
    and the permissions. *)
Definition new_mode (mode : Z) : Z :=
  if S_ISDIR mode then Z.lor 511 16384
  else if S_ISLNK mode then Z.lor 511 40960
  else Z.lor 438 (if known_type mode then mode_type mode else 32768).

(** The directory of an inode. *)
Definition ei_dir (e : einode) : dir_file := mk_dir (S_ISDIR (ei_mode e)) (ei_index e) (ei_blocks e).
Definition ei_set_dir (e : einode) (x : dir_file) : einode := mk_ei (ei_mode e) (ei_links e) (ei_extents e) (df_index x) (df_blocks x).

Section names.
Context `{D : DirOps}.
(** Super block and error codes of the allocator; whether memory is found for
    an inode; free blocks; whether there is a journal. *)
Context (sb : isblock) (rc_get_bg rc_get_blk rc_set_blk rc_put_bg rc_inode : Z -> Z).
Context (alloc_ok : Z -> bool) (free_blocks : Z) (use_journal : bool).

(** An inode that looks used to the allocator. *)
Definition looks_used (s : nfs) (ino : Z) : bool :=
  match n_inodes s !! ino with Some e => (0 <? ei_links e) || negb (ei_mode e =? 0) | None => false end.

(** ** Inodes in memory *)

(** [mark_inode_dirty]: the running transaction gets a reference, once. *)
Definition mark_inode_dirty (s : nfs) (ino : Z) : res nfs :=
  let* m := get_mi s ino in
  if use_journal && negb (i_jtx m) then Ok (set_mi s ino (mk_mi (i_count m + 1) (i_nlink m) (i_mode m) (i_new m) true (i_deleted m))) else Ok s.

(** [iget_locked]; the result tells whether there is an inode. *)
Definition iget_locked (s : nfs) (ino : Z) : nfs * bool :=
  match n_cache s !! ino with
  | Some m => (set_mi s ino (mi_set_count m (i_count m + 1)), true)
  | None => if alloc_ok ino then (set_mi s ino (mk_mi 1 1 0 true false false), true) else (s, false)
  end.

(** [ext4_free_inode] with [ext4_fs_free_inode]; the result is only logged. *)
Definition free_inode (s : nfs) (ino : Z) : res nfs :=
  let* e := get_ei s ino in
  if ei_extents e then
    let* (a, _) := ialloc_free_inode sb rc_get_bg rc_get_blk rc_set_blk rc_put_bg (n_alloc s) ino (S_ISDIR (ei_mode e)) in Ok (set_alloc s a)
  else Ok s.

(** [iput_final].  [ext4_fs_free_inode] marks the inode dirty, after which the
    transaction would have the address of memory that is released next, unless
    the inode is in its list already. *)
Definition iput_final (s : nfs) (ino : Z) (m : minode) : res nfs :=
  let s := mk_nfs (n_inodes s) (delete ino (n_cache s)) (n_alloc s) in
  if i_nlink m =? 0 then assert! (negb use_journal || i_jtx m) in free_inode s ino else Ok s.

Definition iput (s : nfs) (ino : Z) : res nfs :=
  let* m := get_mi s ino in
  if i_count m =? 1 then iput_final s ino m else Ok (set_mi s ino (mi_set_count m (i_count m - 1))).

Definition evict_inode (s : nfs) (ino : Z) : res nfs :=
  let* m := get_mi s ino in iput (set_mi s ino (mk_mi (i_count m) (i_nlink m) (i_mode m) (i_new m) (i_jtx m) true)) ino.

Definition unlock_new_inode (s : nfs) (ino : Z) : res nfs :=
  let* m := get_mi s ino in Ok (set_mi s ino (mk_mi (i_count m) (i_nlink m) (i_mode m) false (i_jtx m) (i_deleted m))).

(** The commit of a transaction drops its reference to a deleted inode. *)
Definition jtx_deleted (s : nfs) (ino : Z) : res nfs :=
  let* m := get_mi s ino in if i_deleted m then iput s ino else Ok s.

(** [ext4_iget]; after a failed read the inode stays in the table, no longer
    marked as new. *)
Definition ext4_iget (s : nfs) (ino : Z) : res (nfs * bool) :=
  if inodes_count sb <=? ino then Ok (s, false)
  else
    let '(s, found) := iget_locked s ino in
    if negb found then Ok (s, false)
    else
      let* m := get_mi s ino in
      if negb (i_new m) then Ok (s, true)
      else if negb (rc_inode ino =? EOK) then let* s := unlock_new_inode s ino in Ok (s, false)
      else
        let* e := get_ei s ino in
        let i_mode := mode_e2k (ei_mode e) in
        assert! (S_ISDIR i_mode || S_ISREG i_mode) in
        let* s := unlock_new_inode (set_mi s ino (mk_mi (i_count m) (ei_links e) i_mode (i_new m) (i_jtx m) (i_deleted m))) ino in
        Ok (s, true).

(** ** New inodes *)

(** [ext4_fs_alloc_inode_ox] *)
Definition alloc_inode_ox (s : nfs) (mode : Z) : res (nfs * (Z + Z)) :=
  let is_dir := S_ISDIR mode in
  let* (a, r) := ialloc_alloc_inode sb rc_get_bg rc_get_blk rc_set_blk rc_put_bg rc_inode (looks_used s) (n_alloc s) is_dir in
  let s := set_alloc s a in
  match r with
  | inl rc => Ok (s, inl rc)
  | inr index =>
      let '(s, found) := iget_locked s index in
      if negb found then Ok (s, inl ENOMEM)
      else
        let* m := get_mi s index in
        if negb (i_new m) then
          let* (a, _) := ialloc_free_inode sb rc_get_bg rc_get_blk rc_set_blk rc_put_bg (n_alloc s) index is_dir in
          let* s := iput (set_alloc s a) index in Ok (s, inl EIO)
        else if negb (rc_inode index =? EOK) then
          let* (a, _) := ialloc_free_inode sb rc_get_bg rc_get_blk rc_set_blk rc_put_bg (n_alloc s) index is_dir in
          Ok (set_alloc s a, inl (rc_inode index))
        else
          let* s := mark_inode_dirty (set_ei s index (mk_ei (new_mode mode) 0 false false [])) index in Ok (s, inr index)
  end.

(** [ext4_fs_inode_blocks_init] *)
Definition inode_blocks_init (s : nfs) (ino : Z) : res nfs :=
  let* e := get_ei s ino in
  if S_ISREG (ei_mode e) || S_ISDIR (ei_mode e) then mark_inode_dirty (set_ei s ino (mk_ei (ei_mode e) (ei_links e) true (ei_index e) [])) ino
  else Ok s.

(** [ext4_set_new_inode] *)
Definition set_new_inode (s : nfs) (ino mode : Z) : res (nfs * Z) :=
  if negb (S_ISDIR mode) && negb (S_ISREG mode) && negb (S_ISLNK mode) then Ok (s, - EINVAL)
  else if (sb_free_inodes (n_alloc s) =? 0) || (free_blocks =? 0) then Ok (s, - ENOSPC)
  else
    let* m := get_mi s ino in
    let nlink := if S_ISDIR mode then 2 else if S_ISREG mode then 1 else i_nlink m in
    let* s := unlock_new_inode (set_mi s ino (mk_mi (i_count m) nlink mode (i_new m) (i_jtx m) (i_deleted m))) ino in
    Ok (s, 0).

(** ** Links *)

(** [ext4_fs_inode_links_count_inc] *)
Definition links_count_inc (s : nfs) (ino : Z) : res nfs :=
  let* e := get_ei s ino in
  let link := u16 (ei_links e + 1) in
  let e := ei_set_links e link in
  if ei_index e && (1 <? link) && ((EXT4_LINK_MAX <=? link) || (link =? 2)) then Ok (set_ei s ino (ei_set_links e 1)) else Ok (set_ei s ino e).

(** [ext4_fs_inode_links_count_dec] *)
Definition links_count_dec (s : nfs) (ino : Z) : res nfs :=
  let* e := get_ei s ino in
  let links := ei_links e in
  if negb (S_ISDIR (ei_mode e)) then if 0 <? links then Ok (set_ei s ino (ei_set_links e (links - 1))) else Ok s
  else if 2 <? links then Ok (set_ei s ino (ei_set_links e (links - 1)))
  else Ok s.

(** [ext4_link].  A directory without an index is not searched, so that the
    search for the parent always fails. *)
Definition ext4_link (s : nfs) (parent ch : Z) (n : list Z) (rename : bool) : res (nfs * Z) :=
  if EXT4_DIRECTORY_FILENAME_LEN <? zlen n then Ok (s, EINVAL)
  else
    let* pe := get_ei s parent in
    let* ce := get_ei s ch in
    let* (x, r) := dop_add parent (ei_dir pe) (mk_child ch (ei_mode ce)) n in
    let s := set_ei s parent (ei_set_dir pe x) in
    if negb (r =? EOK) then Ok (s, r)
    else
      let* ce := get_ei s ch in
      let is_dir := S_ISDIR (ei_mode ce) in
      if is_dir && negb rename then
        let* (x, r) := dop_init ch (ei_dir ce) (mk_child ch (ei_mode ce)) (mk_child parent (ei_mode pe)) in
        let ce := ei_set_dir ce x in
        let s := set_ei s ch ce in
        if negb (r =? EOK) then Ok (s, r)
        else
          let* s := mark_inode_dirty (set_ei s ch (ei_set_index ce)) ch in
          let* ce := get_ei s ch in
          let* s := links_count_inc (set_ei s ch (ei_set_links ce 2)) parent in
          let* s := mark_inode_dirty s ch in
          let* s := mark_inode_dirty s parent in
          Ok (s, EOK)
      else
        let* (s, r) :=
          (if is_dir then
             let* (s, r) :=
               (if negb (ei_index ce) then
                  let* (x, res) := dop_find ch (ei_dir ce) [46; 46] in
                  let s := set_ei s ch (ei_set_dir ce x) in Ok (s, match res with inl _ => EIO | inr _ => EOK end)
                else
                  let '(x, r) := dop_reset_parent ch (ei_dir ce) parent in Ok (set_ei s ch (ei_set_dir ce x), r)) in
             if negb (r =? EOK) then Ok (s, r)
             else let* s := links_count_inc s parent in let* s := mark_inode_dirty s parent in Ok (s, EOK)
           else Ok (s, EOK)) in
        if negb (r =? EOK) then Ok (s, r)
        else if negb rename then let* s := links_count_inc s ch in let* s := mark_inode_dirty s ch in Ok (s, EOK)
        else Ok (s, EOK).

(** [ext4_unlink] *)
Definition ext4_unlink (s : nfs) (parent child : Z) (name : list Z) : res (nfs * Z) :=
  let* ce := get_ei s child in
  let* h := dop_has_children child (ei_dir ce) in
  match h with
  | inl rc => Ok (s, rc)
  | inr true => Ok (s, ENOTEMPTY)
  | inr false =>
      let* pe := get_ei s parent in
      let* (x, rc) := dop_remove parent (ei_dir pe) name in
      let s := set_ei s parent (ei_set_dir pe x) in
      if negb (rc =? EOK) then Ok (s, rc)
      else
        let* s := (if S_ISDIR (ei_mode ce) then let* s := links_count_dec s parent in mark_inode_dirty s parent else Ok s) in
        let* ce := get_ei s child in
        let* s := (if negb (ei_links ce =? 0) then let* s := links_count_dec s child in mark_inode_dirty s child else Ok s) in
        Ok (s, EOK)
  end.

(** ** Operations of directory inodes *)

(** The number a name stands for. *)
Definition find_entry (s : nfs) (dir : Z) (name : list Z) : res (nfs * (Z + Z)) :=
  let* e := get_ei s dir in
  let* (x, r) := dop_find dir (ei_dir e) name in
  Ok (set_ei s dir (ei_set_dir e x), r).

(** [lwext4_lookup] *)
Definition lwext4_lookup (s : nfs) (dir : Z) (fname : list Z) : res (nfs * option Z) :=
  let* (s, r) := find_entry s dir fname in
  match r with
  | inl _ => Ok (s, None)
  | inr child_inum => let* (s, found) := ext4_iget s child_inum in Ok (s, if found : bool then Some child_inum else None)
  end.

(** [lwext4_create]: the new inode, or an error. *)
Definition lwext4_create (s : nfs) (dir mode : Z) (fname : list Z) : res (nfs * (Z + Z)) :=
  let* (s, r) := alloc_inode_ox s mode in
  match r with
  | inl _ => Ok (s, inl (- 1))
  | inr child =>
      let* s := inode_blocks_init s child in
      let* (s, ret) := ext4_link s dir child fname false in
      if negb (ret =? EOK) then let* s := iput s child in Ok (s, inl ret)
      else
        let* (s, ret) := set_new_inode s child mode in
        if negb (ret =? 0) then let* s := iput s child in Ok (s, inl ret)
        else
          let* s := mark_inode_dirty s child in
          let* s := (if S_ISDIR mode then let* m := get_mi s dir in Ok (set_mi s dir (mi_set_nlink m (i_nlink m + 1))) else Ok s) in
          let* s := mark_inode_dirty s dir in
          Ok (s, inr child)
  end.

(** [lwext4_unlink] *)
Definition lwext4_unlink (s : nfs) (dir : Z) (name : list Z) : res (nfs * Z) :=
  let* (s, r) := find_entry s dir name in
  match r with
  | inl _ => Ok (s, - 1)
  | inr child_ino =>
      let* (s, found) := ext4_iget s child_ino in
      if negb found then Ok (s, - 1)
      else
        let* (s, r) := ext4_unlink s dir child_ino name in
        if negb (r =? EOK) then let* s := iput s child_ino in Ok (s, - 1)
        else
          let* m := get_mi s child_ino in
          let s := set_mi s child_ino (mi_set_nlink m (i_nlink m - 1)) in
          let* s :=
            (if S_ISDIR (i_mode m) then
               let* d := get_mi s dir in
               let s := set_mi s dir (mi_set_nlink d (i_nlink d - 1)) in
               let* m := get_mi s child_ino in
               mark_inode_dirty (set_mi s child_ino (mi_set_nlink m (i_nlink m - 1))) dir
             else Ok s) in
          let* m := get_mi s child_ino in
          let* s := mark_inode_dirty s child_ino in
          if 1 <=? i_nlink m then let* s := iput s child_ino in Ok (s, 0)
          else let* s := evict_inode s child_ino in Ok (s, 0)
  end.

(** [lwext4_rename_new]: a failure of [ext4_link] is only logged. *)
Definition lwext4_rename_new (s : nfs) (dir : Z) (name : list Z) (ino : Z) : res (nfs * Z) :=
  let link s :=
    let* (s, found) := ext4_iget s ino in
    if negb found then Ok (s, - 1)
    else
      let* (s, _) := ext4_link s dir ino name false in
      let* m := get_mi s ino in
      let* s := (if S_ISDIR (i_mode m) then let* d := get_mi s dir in Ok (set_mi s dir (mi_set_nlink d (i_nlink d + 1))) else Ok s) in
      let* s := mark_inode_dirty s dir in
      Ok (s, 0) in
  let* (s, r) := find_entry s dir name in
  match r with
  | inr existing_ino =>
      if existing_ino =? ino then Ok (s, 0)
      else
        let* (s, ret) := lwext4_unlink s dir name in
        if ret <? 0 then Ok (s, ret) else link s
  | inl _ => link s
  end.

(** [lwext4_rename_old] *)
Definition lwext4_rename_old (s : nfs) (dir : Z) (name : list Z) (ino : Z) : res (nfs * Z) :=
  let* (s, r) := find_entry s dir name in
  match r with
  | inl _ => Ok (s, - 1)
  | inr found_ino =>
      if negb (found_ino =? ino) then Ok (s, - 1)
      else
        let* (s, found) := ext4_iget s ino in
        if negb found then Ok (s, - 1)
        else
          let* e := get_ei s dir in
          let* (x, ret) := dop_remove dir (ei_dir e) name in
          let s := set_ei s dir (ei_set_dir e x) in
          if negb (ret =? EOK) then Ok (s, - 1)
          else
            let* m := get_mi s ino in
            if S_ISDIR (i_mode m) then
              let* d := get_mi s dir in
              let* s := mark_inode_dirty (set_mi s dir (mi_set_nlink d (i_nlink d - 1))) dir in Ok (s, 0)
            else Ok (s, 0)
  end.
End names.

(** ** The directories of lwext4 *)

(** [ext4_dir_dx_reset_parent_inode]: the entry of the parent is at offset 12
    of the root. *)
Definition dx_reset_parent (rc_read rc_put : Z -> Z) (x : dir_file) (parent_inode : Z) : dir_file * Z :=
  match get_blk rc_read (df_blocks x) 0 with
  | inl rc => (x, rc)
  | inr root => (mk_dir (df_is_dir x) (df_index x) (set_blk (df_blocks x) 0 (en_set_inode root 12 parent_inode)), rc_put 0)
  end.

(** The parameters of [Ext4Htree] for every directory, by inode number. *)
Definition htree_ops (hash_seed : word4) (unsigned_hash : bool) (rc_read rc_put append_rc : Z -> Z -> Z) (stale : Z -> Z -> block) (fblk : Z -> Z -> Z)
    (qsort : list sort_entry -> list sort_entry) (hash_version : Z) : DirOps := {|
  dop_find ino x name :=
    let* (x, r) := dir_find_entry hash_seed unsigned_hash (rc_read ino) x name in
    Ok (x, match r with inl rc => inl rc | inr (iblk, o) => inr (en_get_inode (blk_data (df_blocks x) iblk) o) end);
  dop_add ino x child name := dir_add_entry hash_seed unsigned_hash (rc_read ino) (append_rc ino) (stale ino) (fblk ino) qsort x child name;
  dop_remove ino x name := dir_remove_entry hash_seed unsigned_hash (rc_read ino) x name;
  dop_init ino x self parent := let* (d, r) := dx_init (append_rc ino) (stale ino) (df_blocks x) self parent hash_version in Ok (mk_dir (df_is_dir x) (df_index x) d, r);
  dop_reset_parent ino x parent := dx_reset_parent (rc_read ino) (rc_put ino) x parent;
  dop_has_children ino x := has_children (rc_read ino) (rc_put ino) x
|}.

(** ** A small file system *)

(** Errors when blocks are appended to the directories. *)
Definition ex_dops (append_rc : Z -> Z -> Z) : DirOps := htree_ops ex_seed false (fun _ _ => EOK) (fun _ _ => EOK) append_rc (fun _ => ex_stale) (fun _ i => i) (merge_sort se_le) 1.

(** The root directory has inode 2; of the 16 inodes 1, 2, 3 and 16 are in use. *)
Definition ex_root : list block := match dx_init (fun _ => EOK) ex_stale [] (mk_child 2 16877) (mk_child 2 16877) 1 with Ok (d, _) => d | _ => [] end.
Definition ex_alloc : istate := mk_is [mk_ig 12 1 0 [7; 128]] 12 0.
Definition ex_fs (root : list block) (a : istate) : nfs := mk_nfs {[ 2 := mk_ei 16877 2 true true root ]} {[ 2 := mk_mi 1 2 16877 false false false ]} a.

Definition no_rc (i : Z) : Z := EOK.
Definition ex_create (append_rc : Z -> Z -> Z) : nfs -> Z -> Z -> list Z -> res (nfs * (Z + Z)) :=
  @lwext4_create (ex_dops append_rc) ex_isb no_rc no_rc no_rc no_rc no_rc (fun _ => true) 100 true.
Definition ex_lookup : nfs -> Z -> list Z -> res (nfs * option Z) := @lwext4_lookup (ex_dops (fun _ => no_rc)) ex_isb no_rc (fun _ => true).
Definition ex_unlink : nfs -> Z -> list Z -> res (nfs * Z) := @lwext4_unlink (ex_dops (fun _ => no_rc)) ex_isb no_rc no_rc no_rc no_rc no_rc (fun _ => true) true.
Definition ex_rename_new (append_rc : Z -> Z -> Z) : nfs -> Z -> list Z -> Z -> res (nfs * Z) := @lwext4_rename_new (ex_dops append_rc) ex_isb no_rc no_rc no_rc no_rc no_rc (fun _ => true) true.
Definition ex_rename_old : nfs -> Z -> list Z -> Z -> res (nfs * Z) := @lwext4_rename_old (ex_dops (fun _ => no_rc)) ex_isb no_rc (fun _ => true) true.
