(* ===== verification/Ext4NameSpace.v ===== *)
(** * The name space of lwext4

    The operations of [Ext4Names] on a tree of directories: an abstract state
    has for every inode in use a file or the map of a directory, and lookup,
    creation, removal and renaming change it as expected under the conditions
    stated.  The theorems use the interface [DirSpec] only; the directories of
    [Ext4Htree] and [Ext4DirIter] are an instance of it. *)

From stdpp Require Import gmap sorting.
From S2P Require Import Prelude Bio Sjd Ext4Extent Ext4Map Ext4Dir Ext4Hash Ext4Htree Ext4Index Ext4Front Ext4DirMap Ext4DirIter Bitmap Ext4Bitmap Ext4Balloc Ext4Ialloc Ext4Names.

(** ** Abstract states *)

Inductive node := NFile | NDir (M : gmap (list Z) Z).

Definition mode_is (n : node) (mode : Z) : bool := match n with NFile => S_ISREG mode | NDir _ => S_ISDIR mode end.

Section space.
Context `{D : DirOps} `{P : !DirSpec D}.
Context (sb : isblock) (rc_get_bg rc_get_blk rc_set_blk rc_put_bg rc_inode : Z -> Z).
Context (alloc_ok : Z -> bool) (free_blocks : Z) (use_journal : bool).

Definition node_ok (ino : Z) (e : einode) (n : node) : Prop :=
  mode_is n (ei_mode e) = true /\ match n with NFile => True | NDir M => dsp_map ino (ei_dir e) M end.

(** The inodes of [A] are in use, and have a file or the directory of the map.
    Names lead to inodes of [A].  Inodes in memory are in use, and those of [A]
    are complete. *)
Record ns (s : nfs) (A : gmap Z node) : Prop := {
  ns_node ino n : A !! ino = Some n -> 0 < ino < inodes_count sb /\ iused sb (n_alloc s) ino = true /\ exists e, n_inodes s !! ino = Some e /\ node_ok ino e n;
  ns_names dir M name c : A !! dir = Some (NDir M) -> M !! name = Some c -> is_Some (A !! c);
  ns_cache ino m : n_cache s !! ino = Some m -> 1 <= i_count m /\ 0 < ino <= inodes_count sb /\ iused sb (n_alloc s) ino = true;
  ns_mode ino m n : n_cache s !! ino = Some m -> A !! ino = Some n -> i_new m = false /\ mode_is n (i_mode m) = true
}.

(** ** Quiet changes *)

(** Link counts of inodes, and references to inodes in memory. *)
Definition esame (e e' : einode) : Prop := ei_mode e' = ei_mode e /\ ei_extents e' = ei_extents e /\ ei_index e' = ei_index e /\ ei_blocks e' = ei_blocks e.
Definition msame (m m' : minode) : Prop := i_count m <= i_count m' /\ i_nlink m' = i_nlink m /\ i_mode m' = i_mode m /\ i_new m' = i_new m /\ i_deleted m' = i_deleted m /\
  (i_jtx m' = i_jtx m \/ i_count m < i_count m').

Definition quiet (s s' : nfs) : Prop :=
  (forall i, option_Forall2 esame (n_inodes s !! i) (n_inodes s' !! i)) /\ (forall i, option_Forall2 msame (n_cache s !! i) (n_cache s' !! i)) /\ n_alloc s' = n_alloc s.

#[local] Instance esame_refl : Reflexive esame.
Proof. done. Qed.
#[local] Instance msame_refl : Reflexive msame.
Proof. intros m. unfold msame. split_and!; lia || auto. Qed.
#[local] Instance esame_trans : Transitive esame.
Proof. intros a b c (?&?&?&?) (?&?&?&?). split_and!; congruence. Qed.
#[local] Instance msame_trans : Transitive msame.
Proof. intros a b c (?&?&?&?&?&Ha) (?&?&?&?&?&Hb). split_and!; try (congruence || lia). destruct Ha as [Ha|Ha], Hb as [Hb|Hb]; [left; congruence|right; lia..]. Qed.

#[local] Instance quiet_refl : Reflexive quiet.
Proof. intros s. split_and!; done. Qed.
#[local] Instance quiet_trans : Transitive quiet.
Proof. intros a b c (A1 & A2 & A3) (B1 & B2 & B3). split_and!; [intros i; by etrans; [apply A1|apply B1]|intros i; by etrans; [apply A2|apply B2]|congruence]. Qed.

Lemma quiet_inode s s' i e : quiet s s' -> n_inodes s !! i = Some e -> exists e', n_inodes s' !! i = Some e' /\ esame e e'.
Proof. intros (H & _ & _) E. specialize (H i). rewrite E in H. inversion H as [? e' Hs Eq|]; subst. eauto. Qed.

Lemma quiet_cache s s' i m : quiet s s' -> n_cache s !! i = Some m -> exists m', n_cache s' !! i = Some m' /\ msame m m'.
Proof. intros (_ & H & _) E. specialize (H i). rewrite E in H. inversion H as [? e' Hs Eq|]; subst. eauto. Qed.

Lemma quiet_cache_inv s s' i m' : quiet s s' -> n_cache s' !! i = Some m' -> exists m, n_cache s !! i = Some m /\ msame m m'.
Proof. intros (_ & H & _) E. specialize (H i). rewrite E in H. inversion H as [e ? Hs Eq|]; subst. eauto. Qed.

Lemma esame_node ino e e' n : esame e e' -> node_ok ino e n -> node_ok ino e' n.
Proof. intros (H1 & H2 & H3 & H4) [Hm Hn]. split; [by rewrite H1|]. destruct n; [done|]. unfold ei_dir in *. by rewrite H1, H3, H4. Qed.

Lemma ns_quiet s s' A : ns s A -> quiet s s' -> ns s' A.
Proof.
  intros [N1 N2 N3 N4] Hq. pose proof Hq as (_ & _ & Ha). split; [| |intros ino m E|intros ino m n E EA].
  - intros ino n E. destruct (N1 ino n E) as (H1 & H2 & e & Ee & Hn). rewrite Ha. destruct (quiet_inode _ _ _ _ Hq Ee) as (e' & Ee' & Hs). split_and!; try lia; [done|]. exists e'. split; [done|]. by apply (esame_node ino e).
  - done.
  - rewrite Ha. destruct (quiet_cache_inv _ _ _ _ Hq E) as (m0 & E0 & Hs). destruct (N3 ino m0 E0) as (H1 & H2 & H3). destruct Hs as (? & _). split_and!; lia || done.
  - destruct (quiet_cache_inv _ _ _ _ Hq E) as (m0 & E0 & (_ & _ & -> & -> & _)). by apply (N4 ino m0 n).
Qed.

Lemma quiet_set_mi s ino m m' : n_cache s !! ino = Some m -> msame m m' -> quiet s (set_mi s ino m').
Proof. intros E Hs. split_and!; [done| |done]. intros i. cbn. destruct (Z.eq_dec i ino) as [->|Hne]; [rewrite E, lookup_insert_eq; by constructor|by rewrite lookup_insert_ne by done]. Qed.

Lemma quiet_set_ei s ino e e' : n_inodes s !! ino = Some e -> esame e e' -> quiet s (set_ei s ino e').
Proof. intros E Hs. split_and!; [|done|done]. intros i. cbn. destruct (Z.eq_dec i ino) as [->|Hne]; [rewrite E, lookup_insert_eq; by constructor|by rewrite lookup_insert_ne by done]. Qed.

Lemma mark_ok s ino m : n_cache s !! ino = Some m -> exists s' m', mark_inode_dirty use_journal s ino = Ok s' /\ quiet s s' /\ n_inodes s' = n_inodes s /\ n_cache s' !! ino = Some m' /\ msame m m' /\
  (use_journal = true -> i_jtx m' = true /\ (i_jtx m = false -> i_count m' = i_count m + 1)).
Proof.
  intros E. unfold mark_inode_dirty, get_mi. rewrite E. cbn [res_bind]. destruct (use_journal && negb (i_jtx m)) eqn:Ej.
  - apply andb_true_iff in Ej as [-> Ej%negb_true_iff]. assert (msame m (mk_mi (i_count m + 1) (i_nlink m) (i_mode m) (i_new m) true (i_deleted m))) as Hs by (unfold msame; cbn; split_and!; try (lia || done); right; lia).
    eexists _, _. split_and!; [done|by apply (quiet_set_mi s ino m)|done|cbn; by rewrite lookup_insert_eq|done|done].
  - exists s, m. split_and!; try done. intros ->. cbn in Ej. apply negb_false_iff in Ej. rewrite Ej. done.
Qed.

Lemma links_inc_ok s ino e : n_inodes s !! ino = Some e -> exists s', links_count_inc s ino = Ok s' /\ quiet s s' /\ n_cache s' = n_cache s.
Proof.
  intros E. unfold links_count_inc, get_ei. rewrite E. cbn [res_bind]. destruct (_ && _); (eexists; split_and!; [done| |done]; by apply (quiet_set_ei s ino e)).
Qed.

Lemma links_dec_ok s ino e : n_inodes s !! ino = Some e -> exists s', links_count_dec s ino = Ok s' /\ quiet s s' /\ n_cache s' = n_cache s.
Proof.
  intros E. unfold links_count_dec, get_ei. rewrite E. cbn [res_bind]. destruct (negb _); [destruct (0 <? _)|destruct (2 <? _)]; (eexists; split_and!; [done| |done]); try done; by apply (quiet_set_ei s ino e).
Qed.

(** ** Directories and inodes in memory *)

Lemma mode_type_e2k mode : mode_type (mode_e2k mode) = if known_type mode then mode_type mode else 0.
Proof.
  unfold mode_e2k, mode_type. rewrite Z.land_lor_distr_l, <- (Z.land_assoc mode 4095 61440). change (Z.land 4095 61440) with 0. rewrite Z.land_0_r, Z.lor_0_r.
  destruct (known_type mode); [|done]. by rewrite <- Z.land_assoc, Z.land_diag.
Qed.

Lemma mode_is_e2k n mode : mode_is n mode = true -> mode_is n (mode_e2k mode) = true.
Proof.
  unfold mode_is, S_ISREG, S_ISDIR. intros H. rewrite mode_type_e2k. assert (known_type mode = true) as ->; [|done].
  unfold known_type. apply existsb_exists. destruct n; apply Z.eqb_eq in H; [exists 32768|exists 16384]; (split; [cbn; tauto|by apply Z.eqb_eq]).
Qed.

Lemma mode_is_known n mode : mode_is n mode = true -> S_ISDIR mode || S_ISREG mode = true.
Proof. destruct n; cbn; intros ->; [apply orb_true_r|done]. Qed.

Lemma ei_set_dir_id e : ei_set_dir e (ei_dir e) = e.
Proof. by destruct e. Qed.

Lemma set_ei_id s ino e : n_inodes s !! ino = Some e -> set_ei s ino e = s.
Proof. intros E. unfold set_ei. rewrite insert_id by done. by destruct s. Qed.

Lemma ns_dir s A dir M : ns s A -> A !! dir = Some (NDir M) -> exists e, n_inodes s !! dir = Some e /\ S_ISDIR (ei_mode e) = true /\ dsp_map dir (ei_dir e) M.
Proof. intros [N1 _ _ _] E. destruct (N1 _ _ E) as (_ & _ & e & Ee & Hm & Hd). by exists e. Qed.

Lemma find_entry_ok s A dir M name : ns s A -> A !! dir = Some (NDir M) -> name_ok name ->
  find_entry s dir name = Ok (s, match M !! name with Some c => inr c | None => inl ENOENT end).
Proof.
  intros Hs E Hn. destruct (ns_dir _ _ _ _ Hs E) as (e & Ee & _ & Hd). unfold find_entry, get_ei. rewrite Ee. cbn [res_bind]. rewrite (dsp_find _ _ _ _ Hd Hn). cbn [res_bind].
  by rewrite ei_set_dir_id, set_ei_id.
Qed.

(** A change of an inode in memory that is complete. *)
Lemma ns_set_mi s A ino m : ns s A -> 1 <= i_count m -> 0 < ino <= inodes_count sb -> iused sb (n_alloc s) ino = true -> (forall n, A !! ino = Some n -> i_new m = false /\ mode_is n (i_mode m) = true) ->
  ns (set_mi s ino m) A.
Proof.
  intros [N1 N2 N3 N4] Hc Hr Hu Hm. split; [done|done| |]; cbn.
  - intros i m' E. destruct (Z.eq_dec i ino) as [->|Hne]; [rewrite lookup_insert_eq in E; injection E as <-; split_and!; lia || done|]. rewrite lookup_insert_ne in E by done. by apply (N3 i m').
  - intros i m' n E EA. destruct (Z.eq_dec i ino) as [->|Hne]; [rewrite lookup_insert_eq in E; injection E as <-; by apply Hm|]. rewrite lookup_insert_ne in E by done. by apply (N4 i m' n).
Qed.

Context (Halloc : forall i, alloc_ok i = true) (Hrc : ircs_ok rc_get_bg rc_get_blk rc_set_blk rc_put_bg rc_inode).

(** The inode in memory that [ext4_iget] returns. *)
Definition got (s : nfs) (ino : Z) (m' : minode) : Prop :=
  match n_cache s !! ino with
  | Some m => m' = mi_set_count m (i_count m + 1)
  | None => exists e, n_inodes s !! ino = Some e /\ m' = mk_mi 1 (ei_links e) (mode_e2k (ei_mode e)) false false false
  end.

Lemma iget_ok s A c n : ns s A -> A !! c = Some n -> exists m', ext4_iget sb rc_inode alloc_ok s c = Ok (set_mi s c m', true) /\ ns (set_mi s c m') A /\ got s c m' /\ 1 <= i_count m' /\ mode_is n (i_mode m') = true.
Proof.
  intros Hs EA. destruct (ns_node _ _ Hs _ _ EA) as (Hr & Hu & e & Ee & Hm & _). unfold ext4_iget, iget_locked, got. rewrite (proj2 (Z.leb_gt _ _)) by lia. destruct (n_cache s !! c) as [m|] eqn:Ec.
  - destruct (ns_cache _ _ Hs _ _ Ec) as (Hc & _). destruct (ns_mode _ _ Hs _ _ _ Ec EA) as [Hnew Hmode]. cbn [negb]. unfold get_mi. cbn [n_cache set_mi]. rewrite lookup_insert_eq. cbn [res_bind mi_set_count i_new]. rewrite Hnew. cbn [negb].
    eexists. split; [done|]. assert (1 <= i_count m + 1) by lia. split_and!; try done. apply ns_set_mi; try done; [lia|]. intros n' En'. replace n' with n by congruence. done.
  - rewrite Halloc. cbn [negb]. unfold get_mi. cbn [n_cache set_mi]. rewrite lookup_insert_eq. cbn [res_bind i_new negb]. destruct (Hrc c) as (_ & _ & _ & _ & ->). change (negb (EOK =? EOK)) with false. cbn match.
    unfold get_ei. cbn [n_inodes set_mi]. rewrite Ee. cbn [res_bind]. pose proof (mode_is_e2k _ _ Hm) as Hk. rewrite (mode_is_known _ _ Hk). cbn [assert_]. unfold unlock_new_inode, get_mi. cbn [n_cache set_mi]. rewrite lookup_insert_eq. cbn [res_bind i_count i_nlink i_mode i_jtx i_deleted].
    unfold set_mi. cbn [n_inodes n_cache n_alloc]. rewrite !insert_insert_eq. eexists. split; [done|]. split_and!; [|by exists e|cbn; lia|done].
    apply ns_set_mi; try done; [lia|]. intros n' En'. replace n' with n by congruence. done.
Qed.

Lemma lookup_ok s A dir M name : ns s A -> A !! dir = Some (NDir M) -> name_ok name ->
  match M !! name with
  | Some c => exists s', lwext4_lookup sb rc_inode alloc_ok s dir name = Ok (s', Some c) /\ ns s' A /\ n_inodes s' = n_inodes s /\ is_Some (n_cache s' !! c)
  | None => lwext4_lookup sb rc_inode alloc_ok s dir name = Ok (s, None)
  end.
Proof.
  intros Hs E Hn. unfold lwext4_lookup. rewrite (find_entry_ok s A dir M name Hs E Hn). cbn [res_bind]. destruct (M !! name) as [c|] eqn:EM; [|done]. destruct (ns_names _ _ Hs _ _ _ _ E EM) as [n En].
  destruct (iget_ok s A c n Hs En) as (m & -> & Hs' & _). cbn [res_bind]. eexists. split_and!; try done. cbn. by rewrite lookup_insert_eq.
Qed.

(** ** Changes of the abstract state *)

Lemma ei_dir_set e x : S_ISDIR (ei_mode e) = true -> df_is_dir x = true -> ei_dir (ei_set_dir e x) = x.
Proof. intros He Hx. unfold ei_dir, ei_set_dir. cbn. rewrite He, <- Hx. by destruct x. Qed.

Lemma ns_set_dir s A dir M e x M' : ns s A -> A !! dir = Some (NDir M) -> n_inodes s !! dir = Some e -> dsp_map dir x M' -> (forall name c, M' !! name = Some c -> is_Some (A !! c)) ->
  ns (set_ei s dir (ei_set_dir e x)) (<[dir := NDir M']> A).
Proof.
  intros Hs E Ee Hx HM'. destruct (ns_dir _ _ _ _ Hs E) as (e0 & Ee0 & Hdir & _). replace e0 with e in * by congruence. pose proof (dsp_flags _ _ _ Hx) as [Hf _]. pose proof Hs as [N1 N2 N3 N4]. split; cbn.
  - intros i n En. destruct (Z.eq_dec i dir) as [->|Hne].
    + rewrite lookup_insert_eq in En. injection En as <-. destruct (N1 _ _ E) as (H1 & H2 & _). split_and!; try lia; [done|]. eexists. rewrite lookup_insert_eq. split; [done|]. split; [done|]. by rewrite ei_dir_set.
    + rewrite lookup_insert_ne in En by done. rewrite lookup_insert_ne by done. by apply N1.
  - intros i M1 name c En Ec. rewrite lookup_insert_is_Some'. destruct (Z.eq_dec i dir) as [->|Hne].
    + rewrite lookup_insert_eq in En. injection En as <-. right. by apply (HM' name).
    + rewrite lookup_insert_ne in En by done. right. by apply (N2 i M1 name).
  - done.
  - intros i m n Em En. destruct (Z.eq_dec i dir) as [->|Hne].
    + rewrite lookup_insert_eq in En. injection En as <-. by apply (N4 dir m (NDir M)).
    + rewrite lookup_insert_ne in En by done. by apply (N4 i m n).
Qed.

Lemma ns_add s A ino e n : ns s A -> 0 < ino < inodes_count sb -> iused sb (n_alloc s) ino = true -> n_inodes s !! ino = Some e -> node_ok ino e n ->
  (forall m, n_cache s !! ino = Some m -> i_new m = false /\ mode_is n (i_mode m) = true) -> (n = NFile \/ n = NDir ∅) -> A !! ino = None -> ns s (<[ino := n]> A).
Proof.
  intros [N1 N2 N3 N4] Hr Hu Ee Hn Hm Hkind Hfree. split; [| |done|].
  - intros i n' En. destruct (Z.eq_dec i ino) as [->|Hne]; [rewrite lookup_insert_eq in En; injection En as <-; split_and!; try lia; [done|by exists e]|]. rewrite lookup_insert_ne in En by done. by apply N1.
  - intros i M name c En Ec. rewrite lookup_insert_is_Some'. destruct (Z.eq_dec i ino) as [->|Hne]; [rewrite lookup_insert_eq in En; injection En as ->; destruct Hkind as [|[= ->]]; [done|by rewrite lookup_empty in Ec]|].
    rewrite lookup_insert_ne in En by done. right. by apply (N2 i M name).
  - intros i m n' Em En. destruct (Z.eq_dec i ino) as [->|Hne]; [rewrite lookup_insert_eq in En; injection En as <-; by apply Hm|]. rewrite lookup_insert_ne in En by done. by apply (N4 i m n').
Qed.

Lemma ns_del s A c : ns s A -> (forall dir M name, A !! dir = Some (NDir M) -> dir <> c -> M !! name <> Some c) -> ns s (delete c A).
Proof.
  intros [N1 N2 N3 N4] Hc. split; [| |done|].
  - intros i n En. apply lookup_delete_Some in En as [_ En]. by apply N1.
  - intros i M name c' En Ec. apply lookup_delete_Some in En as [Hne En]. rewrite lookup_delete_ne; [by apply (N2 i M name)|]. intros ->. by apply (Hc i M name).
  - intros i m n Em En. apply lookup_delete_Some in En as [_ En]. by apply (N4 i m n).
Qed.

(** ** Links *)

(** Entries with this name find room in the directory. *)
Definition room (s : nfs) (dir : Z) (name : list Z) : Prop := forall e child, n_inodes s !! dir = Some e -> dsp_room dir (ei_dir e) child name.

Lemma link_file_ok s dir M ch ce pe name : n_inodes s !! dir = Some pe -> dsp_map dir (ei_dir pe) M -> ch <> dir -> n_inodes s !! ch = Some ce -> S_ISDIR (ei_mode ce) = false ->
  name_ok name -> M !! name = None -> 0 < ch < U32_MOD -> room s dir name -> is_Some (n_cache s !! ch) ->
  exists s' x', ext4_link use_journal s dir ch name false = Ok (s', EOK) /\ dsp_map dir x' (<[name := ch]> M) /\ quiet (set_ei s dir (ei_set_dir pe x')) s'.
Proof.
  intros Ep Hd Hne Ec Hf Hn HM Hch Hroom [m Em]. unfold ext4_link, EXT4_DIRECTORY_FILENAME_LEN. destruct Hn as [Hn1 Hn2]. rewrite (proj2 (Z.ltb_ge 255 _)) by lia. unfold get_ei. rewrite Ep, Ec. cbn [res_bind].
  destruct (dsp_add dir (ei_dir pe) M (mk_child ch (ei_mode ce)) name Hd (conj Hn1 Hn2) HM ltac:(cbn; lia) (Hroom _ _ Ep)) as (x' & -> & Hx'). cbn [res_bind]. change (negb (EOK =? EOK)) with false. cbn match.
  cbn [n_inodes set_ei]. rewrite lookup_insert_ne by done. rewrite Ec. cbn [res_bind]. rewrite Hf. cbn [andb res_bind]. change (negb (EOK =? EOK)) with false. cbn [negb].
  destruct (links_inc_ok (set_ei s dir (ei_set_dir pe x')) ch ce) as (s1 & -> & Hq1 & Hc1); [cbn; by rewrite lookup_insert_ne by done|]. cbn [res_bind].
  destruct (mark_ok s1 ch m) as (s2 & m2 & -> & Hq2 & _); [by rewrite Hc1|]. cbn [res_bind]. exists s2, x'. split_and!; [done|done|by etrans].
Qed.

Lemma link_dir_ok s dir M ch ce pe name : n_inodes s !! dir = Some pe -> dsp_map dir (ei_dir pe) M -> ch <> dir -> n_inodes s !! ch = Some ce -> ei_dir ce = mk_dir true false [] ->
  name_ok name -> M !! name = None -> 0 < ch < U32_MOD -> 0 < dir < U32_MOD -> room s dir name -> is_Some (n_cache s !! ch) -> is_Some (n_cache s !! dir) ->
  exists s' x' ce', ext4_link use_journal s dir ch name false = Ok (s', EOK) /\ dsp_map dir x' (<[name := ch]> M) /\ dsp_map ch (ei_dir ce') ∅ /\ ei_mode ce' = ei_mode ce /\
    quiet (set_ei (set_ei s dir (ei_set_dir pe x')) ch ce') s'.
Proof.
  intros Ep Hd Hne Ec Hf Hn HM Hch Hdir Hroom [m Em] [md Emd]. unfold ext4_link, EXT4_DIRECTORY_FILENAME_LEN. destruct Hn as [Hn1 Hn2]. rewrite (proj2 (Z.ltb_ge 255 _)) by lia. unfold get_ei. rewrite Ep, Ec. cbn [res_bind].
  destruct (dsp_add dir (ei_dir pe) M (mk_child ch (ei_mode ce)) name Hd (conj Hn1 Hn2) HM ltac:(cbn; lia) (Hroom _ _ Ep)) as (x' & -> & Hx'). cbn [res_bind]. change (negb (EOK =? EOK)) with false. cbn match.
  cbn [n_inodes set_ei]. rewrite lookup_insert_ne by done. rewrite Ec. cbn [res_bind]. assert (S_ISDIR (ei_mode ce) = true) as Hcd by (by injection Hf). rewrite Hcd. cbn [andb negb].
  rewrite Hf. destruct (dsp_init ch (mk_child ch (ei_mode ce)) (mk_child dir (ei_mode pe)) ltac:(cbn; lia) ltac:(cbn; lia)) as (y & -> & Hy). cbn [res_bind]. change (negb (EOK =? EOK)) with false. cbn match.
  set (s0 := set_ei s dir (ei_set_dir pe x')). set (ce1 := ei_set_index (ei_set_dir ce y)). unfold set_ei at 2. cbn [n_inodes n_cache n_alloc]. 
  set (s1 := set_ei _ ch ce1). destruct (mark_ok s1 ch m) as (s2 & m2 & -> & Hq2 & Hi2 & Em2 & _); [done|]. cbn [res_bind]. rewrite Hi2. assert (n_inodes s1 !! ch = Some ce1) as Ec1 by (cbn; by rewrite lookup_insert_eq). rewrite Ec1. cbn [res_bind].
  assert (quiet s2 (set_ei s2 ch (ei_set_links ce1 2))) as Hq3 by (apply (quiet_set_ei s2 ch ce1); [by rewrite Hi2|done]).
  assert (n_inodes s1 !! dir = Some (ei_set_dir pe x')) as Ed1 by (cbn; rewrite !lookup_insert_ne by done; by rewrite lookup_insert_eq).
  destruct (quiet_inode _ _ _ _ (transitivity Hq2 Hq3) Ed1) as (pe3 & Ed3 & _). destruct (links_inc_ok _ dir pe3 Ed3) as (s4 & -> & Hq4 & _). cbn [res_bind].
  assert (quiet s1 s4) as Hq by (etrans; [done|by etrans]). destruct (quiet_cache _ _ ch m Hq Em) as (m4 & Em4 & _). destruct (mark_ok s4 ch m4 Em4) as (s5 & m5 & -> & Hq5 & _). cbn [res_bind].
  destruct (quiet_cache _ _ dir md (transitivity Hq Hq5) Emd) as (d5 & Ed5 & _). destruct (mark_ok s5 dir d5 Ed5) as (s6 & m6 & -> & Hq6 & _). cbn [res_bind].
  exists s6, x', ce1. split_and!; [done|done| |done|].
  - replace (ei_dir ce1) with (mk_dir true true (df_blocks y)); [done|]. unfold ce1, ei_dir, ei_set_index, ei_set_dir. cbn. by rewrite Hcd.
  - change (quiet (set_ei s0 ch ce1) s6). replace (set_ei s0 ch ce1) with s1 by (unfold s1, s0, set_ei; cbn; by rewrite ?insert_insert_eq). etrans; [exact Hq|by etrans].
Qed.

(** ** Creation *)

Lemma ns_set_ei s A ino e : ns s A -> A !! ino = None -> ns (set_ei s ino e) A.
Proof. intros [N1 N2 N3 N4] E. split; try done. intros i n En. cbn. rewrite lookup_insert_ne by congruence. by apply N1. Qed.

Lemma ns_set_alloc s A a : ns s A -> (forall i, 0 < i <= inodes_count sb -> iused sb (n_alloc s) i = true -> iused sb a i = true) -> ns (set_alloc s a) A.
Proof.
  intros [N1 N2 N3 N4] H. split; try done; cbn.
  - intros i n En. destruct (N1 i n En) as (H1 & H2 & H3). split_and!; try lia; [apply H; [lia|done]|done].
  - intros i m Em. destruct (N3 i m Em) as (H1 & H2 & H3). split_and!; try lia. by apply H.
Qed.

Lemma quiet_set_both s s' ino m : quiet s s' -> quiet (set_mi s ino m) (set_mi s' ino m).
Proof. intros (Q1 & Q2 & Q3). split_and!; [done| |done]. intros i. cbn. destruct (Z.eq_dec i ino) as [->|Hne]; [by rewrite !lookup_insert_eq|by rewrite !lookup_insert_ne by done]. Qed.

(** The inode [ino] is new in [s3]. *)
Record fresh (s : nfs) (A : gmap Z node) (mode ino : Z) (s3 : nfs) : Prop := {
  fr_ns : ns s3 A;
  fr_free : A !! ino = None;
  fr_uncached : n_cache s !! ino = None;
  fr_range : 1 <= ino <= inodes_count sb;
  fr_was : iused sb (n_alloc s) ino = false;
  fr_used : iused sb (n_alloc s3) ino = true;
  fr_inodes : n_inodes s3 = <[ino := mk_ei (new_mode mode) 0 true false []]> (n_inodes s);
  fr_new : exists m, n_cache s3 !! ino = Some m /\ i_nlink m = 1;
  fr_cache i : is_Some (n_cache s !! i) -> is_Some (n_cache s3 !! i);
  fr_total : sb_free_inodes (n_alloc s3) = sb_free_inodes (n_alloc s) - 1
}.

Context (Hg : igeom_ok sb).

Lemma new_mode_dir mode : S_ISDIR mode = true -> new_mode mode = 16895.
Proof. unfold new_mode. by intros ->. Qed.

Lemma new_mode_reg mode : S_ISREG mode = true -> new_mode mode = 33206.
Proof.
  unfold new_mode, S_ISDIR, S_ISREG, S_ISLNK, known_type. intros H%Z.eqb_eq. rewrite H. done.
Qed.

Lemma alloc_ox_ok s A mode : ns s A -> ial_ok sb (n_alloc s) -> healthy sb (looks_used s) (n_alloc s) -> dirs_room (n_alloc s) (S_ISDIR mode) -> S_ISREG mode || S_ISDIR mode = true ->
  (exists ino s2 s3, alloc_inode_ox sb rc_get_bg rc_get_blk rc_set_blk rc_put_bg rc_inode alloc_ok use_journal s mode = Ok (s2, inr ino) /\ inode_blocks_init use_journal s2 ino = Ok s3 /\ fresh s A mode ino s3) \/
  alloc_inode_ox sb rc_get_bg rc_get_blk rc_set_blk rc_put_bg rc_inode alloc_ok use_journal s mode = Ok (s, inl ENOSPC) /\ forall i, 1 <= i <= inodes_count sb -> iused sb (n_alloc s) i = true.
Proof.
  intros Hs Hal Hh Hd Hm. unfold alloc_inode_ox. destruct (alloc_inode_ok sb Hg rc_get_bg rc_get_blk rc_set_blk rc_put_bg rc_inode (looks_used s) Hrc (n_alloc s) (S_ISDIR mode) Hal Hh Hd) as [(ino & a & -> & Ht)|[-> Hall]].
  2: { right. cbn [res_bind]. split; [|done]. by destruct s. }
  left. cbn [res_bind]. pose proof Ht as [T1 T2 T3 T4 T5 T6]. assert (n_cache s !! ino = None) as Hnc. { destruct (n_cache s !! ino) as [m|] eqn:E; [|done]. destruct (ns_cache _ _ Hs _ _ E) as (_ & _ & H). congruence. }
  assert (A !! ino = None) as HA. { destruct (A !! ino) as [n|] eqn:E; [|done]. destruct (ns_node _ _ Hs _ _ E) as (_ & H & _). congruence. }
  unfold iget_locked. cbn [n_cache set_alloc]. rewrite Hnc, Halloc. cbn [negb]. unfold get_mi at 1. cbn [n_cache set_mi]. rewrite lookup_insert_eq. cbn [res_bind i_new negb]. destruct (Hrc ino) as (_ & _ & _ & _ & ->). change (negb (EOK =? EOK)) with false. cbn match.
  set (s1 := set_ei _ ino _). assert (iused sb a ino = true) as Hu by (rewrite T3 by lia; by rewrite Z.eqb_refl). assert (ns s1 A) as Hs1.
  { apply ns_set_ei; [|done]. apply ns_set_mi; cbn; try done; [|lia|intros n En; congruence]. apply ns_set_alloc; [done|]. intros i Hi Hui. rewrite T3 by lia. by rewrite Hui, orb_true_r. }
  destruct (mark_ok s1 ino (mk_mi 1 1 0 true false false)) as (s2 & m2 & -> & Hq2 & Hi2 & Em2 & Hm2 & _); [cbn; by rewrite lookup_insert_eq|]. cbn [res_bind]. exists ino, s2. pose proof Hm2 as Hl2.
  unfold inode_blocks_init, get_ei. rewrite Hi2. cbn [n_inodes s1 set_ei set_mi set_alloc]. rewrite lookup_insert_eq. cbn [res_bind ei_mode]. assert (S_ISREG (new_mode mode) || S_ISDIR (new_mode mode) = true) as ->.
  { apply orb_true_iff in Hm as [H|H]; [by rewrite (new_mode_reg _ H)|by rewrite (new_mode_dir _ H)]. }
  cbn [ei_links ei_index]. set (s2' := set_ei s2 ino _). destruct (mark_ok s2' ino m2) as (s3 & m3 & -> & Hq3 & Hi3 & Em3 & Hm3 & _); [done|]. exists s3. split_and!; try done. assert (ns s2' A) as Hs2 by (apply ns_set_ei; [by apply (ns_quiet s1)|done]).
  pose proof Hq2 as (_ & _ & Ha2). pose proof Hq3 as (_ & _ & Ha3). assert (n_alloc s3 = a) as Ha by (rewrite Ha3; cbn; by rewrite Ha2). split; try done; rewrite ?Ha; try done.
  - by apply (ns_quiet s2').
  - rewrite Hi3. cbn [n_inodes s2' set_ei]. rewrite Hi2. cbn. by rewrite insert_insert_eq.
  - exists m3. split; [done|]. destruct Hl2 as (_ & Hl2 & _), Hm3 as (_ & -> & _). by rewrite Hl2.
  - intros i [m Em]. destruct (Z.eq_dec i ino) as [->|Hne]; [by exists m3|]. destruct (quiet_cache s1 s2 i m Hq2) as (m' & Em' & _); [cbn; by rewrite lookup_insert_ne by done|]. destruct (quiet_cache s2' s3 i m' Hq3 Em') as (m'' & Em'' & _). by exists m''.
Qed.

(** The last part of a creation: the inode in memory is completed. *)
Lemma create_finish s4 A' dir M ino mode : S_ISREG mode || S_ISDIR mode = true -> sb_free_inodes (n_alloc s4) <> 0 -> free_blocks <> 0 -> is_Some (n_cache s4 !! ino) -> is_Some (n_cache s4 !! dir) -> A' !! dir = Some (NDir M) ->
  (forall m m5, n_cache s4 !! ino = Some m -> i_count m5 = i_count m -> i_mode m5 = mode -> i_new m5 = false -> ns (set_mi s4 ino m5) A') ->
  exists s', (let* (s, ret) := set_new_inode free_blocks s4 ino mode in
    if negb (ret =? 0) then let* s := iput sb rc_get_bg rc_get_blk rc_set_blk rc_put_bg use_journal s ino in Ok (s, inl ret)
    else
      let* s := mark_inode_dirty use_journal s ino in
      let* s := (if S_ISDIR mode then let* m := get_mi s dir in Ok (set_mi s dir (mi_set_nlink m (i_nlink m + 1))) else Ok s) in
      let* s := mark_inode_dirty use_journal s dir in
      Ok (s, inr ino)) = Ok (s', inr ino) /\ ns s' A'.
Proof.
  intros Hm Hfree Hblk [m Em] [md Emd] HA Hns. unfold set_new_inode. assert (negb (S_ISDIR mode) && negb (S_ISREG mode) && negb (S_ISLNK mode) = false) as ->.
  { apply orb_true_iff in Hm as [-> | ->]; [by rewrite andb_false_r|done]. }
  rewrite (proj2 (Z.eqb_neq _ _) Hfree), (proj2 (Z.eqb_neq _ _) Hblk). cbn [orb]. unfold get_mi at 1. rewrite Em. cbn [res_bind]. unfold unlock_new_inode, get_mi at 1. cbn [n_cache set_mi]. rewrite lookup_insert_eq. cbn [res_bind i_count i_nlink i_mode i_jtx i_deleted].
  change (negb (0 =? 0)) with false. cbn match. unfold set_mi at 1 2. cbn [n_inodes n_cache n_alloc]. rewrite insert_insert_eq. set (m5 := mk_mi _ _ _ _ _ _). fold (set_mi s4 ino m5). pose proof (Hns m m5 Em eq_refl eq_refl eq_refl) as Hs5.
  destruct (mark_ok (set_mi s4 ino m5) ino m5) as (s6 & m6 & -> & Hq6 & _); [cbn; by rewrite lookup_insert_eq|]. cbn [res_bind]. pose proof (ns_quiet _ _ _ Hs5 Hq6) as Hs6.
  assert (is_Some (n_cache (set_mi s4 ino m5) !! dir)) as [d5 Ed5] by (cbn; rewrite lookup_insert_is_Some'; by right; exists md). destruct (quiet_cache _ _ _ _ Hq6 Ed5) as (d6 & Ed6 & _).
  assert (exists s7 d7, (if S_ISDIR mode then let* m := get_mi s6 dir in Ok (set_mi s6 dir (mi_set_nlink m (i_nlink m + 1))) else Ok s6) = Ok s7 /\ ns s7 A' /\ n_cache s7 !! dir = Some d7) as (s7 & d7 & -> & Hs7 & Ed7).
  { destruct (S_ISDIR mode); [|by eauto]. unfold get_mi. rewrite Ed6. cbn [res_bind]. eexists _, _. split; [done|]. split; [|cbn; by rewrite lookup_insert_eq]. destruct (ns_cache _ _ Hs6 _ _ Ed6) as (C1 & C2 & C3).
    apply ns_set_mi; try done. intros n En. by apply (ns_mode _ _ Hs6 dir d6 n). }
  cbn [res_bind]. destruct (mark_ok s7 dir d7 Ed7) as (s8 & d8 & -> & Hq8 & _). cbn [res_bind]. exists s8. split; [done|]. by apply (ns_quiet s7).
Qed.

Definition new_node (mode : Z) : node := if S_ISDIR mode then NDir ∅ else NFile.

(** Linking the new inode gives the state that [create_finish] completes. *)
Lemma create_link s A s3 ino mode dir M name : ns s A -> fresh s A mode ino s3 -> A !! dir = Some (NDir M) -> name_ok name -> M !! name = None -> room s dir name -> is_Some (n_cache s !! dir) -> S_ISREG mode || S_ISDIR mode = true -> ino < inodes_count sb ->
  exists s4, ext4_link use_journal s3 dir ino name false = Ok (s4, EOK) /\ n_alloc s4 = n_alloc s3 /\ (exists m, n_cache s4 !! ino = Some m /\ i_nlink m = 1) /\ is_Some (n_cache s4 !! dir) /\
    forall m m5, n_cache s4 !! ino = Some m -> i_count m5 = i_count m -> i_mode m5 = mode -> i_new m5 = false -> ns (set_mi s4 ino m5) (<[dir := NDir (<[name := ino]> M)]> (<[ino := new_node mode]> A)).
Proof.
  intros Hs [F1 F2 F3 F4 F5 F6 F7 F8 F9 F10] EA Hn HM Hroom Hdc Hm Hlast. assert (is_Some (n_cache s3 !! ino)) as Fi by (destruct F8 as (m3 & -> & _); by eexists). destruct (ns_dir _ _ _ _ Hs EA) as (pe & Ep & _ & Hpd). assert (ino <> dir) as Hne by congruence.
  destruct (ns_node _ _ Hs _ _ EA) as (Hdr & _). pose proof (gi_small _ Hg) as Hsm. assert (n_inodes s3 !! dir = Some pe) as Ep3 by (rewrite F7, lookup_insert_ne by done; done).
  assert (n_inodes s3 !! ino = Some (mk_ei (new_mode mode) 0 true false [])) as Ei3 by (by rewrite F7, lookup_insert_eq). assert (room s3 dir name) as Hroom3 by (intros e c Ee; apply Hroom; congruence).
  assert (exists s4 x' ce', ext4_link use_journal s3 dir ino name false = Ok (s4, EOK) /\ dsp_map dir x' (<[name := ino]> M) /\ node_ok ino ce' (new_node mode) /\ quiet (set_ei (set_ei s3 ino ce') dir (ei_set_dir pe x')) s4) as (s4 & x' & ce' & -> & Hx' & Hce & Hq).
  { unfold new_node. destruct (S_ISDIR mode) eqn:Hdir.
    - destruct (link_dir_ok s3 dir M ino (mk_ei (new_mode mode) 0 true false []) pe name Ep3 Hpd Hne Ei3) as (s4 & x' & ce' & E & Hx & Hc & Emode & Hq); try done; [|lia|lia|by apply F9|].
      { unfold ei_dir. cbn. by rewrite (new_mode_dir _ Hdir). }
      exists s4, x', ce'. split_and!; [done|done| |]; [split; [rewrite Emode; cbn; by rewrite (new_mode_dir _ Hdir)|done]|]. unfold set_ei in *. cbn in *. by rewrite insert_insert_ne in Hq by done.
    - rewrite orb_false_r in Hm. destruct (link_file_ok s3 dir M ino (mk_ei (new_mode mode) 0 true false []) pe name Ep3 Hpd Hne Ei3) as (s4 & x' & E & Hx & Hq); try done; [cbn; by rewrite (new_mode_reg _ Hm)|lia|].
      exists s4, x', (mk_ei (new_mode mode) 0 true false []). split_and!; [done|done|split; [cbn; by rewrite (new_mode_reg _ Hm)|done]|]. by rewrite (set_ei_id s3 ino). }
  exists s4. pose proof Hq as (_ & _ & Ha). cbn in Ha. split; [done|]. split; [done|]. destruct F8 as (m3 & Em3 & Hl3). destruct (F9 _ Hdc) as [d3 Ed3]. destruct (quiet_cache _ _ ino m3 Hq Em3) as (m4 & Em4 & Hm4). destruct (quiet_cache _ _ dir d3 Hq Ed3) as (d4 & Ed4 & _).
  split; [exists m4; split; [done|]; destruct Hm4 as (_ & -> & _); done|]. split; [by exists d4|]. intros m m5 Em Hc5 Hmode5 Hnew5. replace m with m4 in * by congruence. destruct (ns_cache _ _ F1 _ _ Em3) as (Hcnt & _). destruct Hm4 as (Hle & _).
  apply (ns_quiet (set_mi (set_ei (set_ei s3 ino ce') dir (ei_set_dir pe x')) ino m5)); [|by apply quiet_set_both].
  change (ns (set_ei (set_mi (set_ei s3 ino ce') ino m5) dir (ei_set_dir pe x')) (<[dir := NDir (<[name := ino]> M)]> (<[ino := new_node mode]> A))). apply (ns_set_dir _ _ dir M).
  - apply (ns_add _ _ ino ce'); try done; [|lia|cbn; by rewrite lookup_insert_eq| |unfold new_node; destruct (S_ISDIR mode); auto].
    + apply ns_set_mi; try done; [by apply ns_set_ei|lia|lia|intros n En; congruence].
    + intros m' Em'. cbn in Em'. rewrite lookup_insert_eq in Em'. injection Em' as <-. split; [done|]. rewrite Hmode5. unfold new_node, mode_is. destruct (S_ISDIR mode) eqn:Hd; [done|]. by rewrite orb_false_r in Hm.
  - by rewrite lookup_insert_ne.
  - cbn. by rewrite lookup_insert_ne by done.
  - done.
  - intros nm c. rewrite lookup_insert_is_Some'. intros [[_ <-]|[_ Ec]]%lookup_insert_Some; [by left|right]. by apply (ns_names _ _ Hs dir M nm).
Qed.

(** Without another free inode or a free block, the last part fails, and the
    directory keeps the entry. *)
Lemma create_full s4 A' dir M name ino mode : S_ISREG mode || S_ISDIR mode = true -> sb_free_inodes (n_alloc s4) = 0 \/ free_blocks = 0 -> (exists m, n_cache s4 !! ino = Some m /\ i_nlink m = 1) ->
  A' !! dir = Some (NDir M) -> name_ok name -> M !! name = Some ino ->
  (forall m m5, n_cache s4 !! ino = Some m -> i_count m5 = i_count m -> i_mode m5 = mode -> i_new m5 = false -> ns (set_mi s4 ino m5) A') ->
  exists s', (let* (s, ret) := set_new_inode free_blocks s4 ino mode in
    if negb (ret =? 0) then let* s := iput sb rc_get_bg rc_get_blk rc_set_blk rc_put_bg use_journal s ino in Ok (s, inl ret)
    else
      let* s := mark_inode_dirty use_journal s ino in
      let* s := (if S_ISDIR mode then let* m := get_mi s dir in Ok (set_mi s dir (mi_set_nlink m (i_nlink m + 1))) else Ok s) in
      let* s := mark_inode_dirty use_journal s dir in
      Ok (s, inr ino)) = Ok (s', inl (- ENOSPC)) /\ find_entry s' dir name = Ok (s', inr ino).
Proof.
  intros Hm Hfull (m & Em & Hl) HA Hn HM Hns. unfold set_new_inode. assert (negb (S_ISDIR mode) && negb (S_ISREG mode) && negb (S_ISLNK mode) = false) as ->.
  { apply orb_true_iff in Hm as [-> | ->]; [by rewrite andb_false_r|done]. }
  assert ((sb_free_inodes (n_alloc s4) =? 0) || (free_blocks =? 0) = true) as -> by (destruct Hfull as [-> | ->]; [done|apply orb_true_r]). cbn [res_bind]. change (negb (- ENOSPC =? 0)) with true. cbn match.
  destruct (ns_dir _ _ _ _ (Hns m (mk_mi (i_count m) 1 mode false false false) Em eq_refl eq_refl eq_refl) HA) as (e & Ee & _ & Hd). cbn [n_inodes set_mi] in Ee.
  assert (forall s', n_inodes s' = n_inodes s4 -> find_entry s' dir name = Ok (s', inr ino)) as Hfind.
  { intros s' E. unfold find_entry, get_ei. rewrite E, Ee. cbn [res_bind]. rewrite (dsp_find _ _ _ _ Hd Hn), HM. cbn [res_bind]. by rewrite ei_set_dir_id, set_ei_id by (by rewrite E). }
  unfold iput, get_mi. rewrite Em. cbn [res_bind]. destruct (i_count m =? 1).
  - unfold iput_final. rewrite Hl. cbn [Z.eqb res_bind]. eexists. split; [done|]. by apply Hfind.
  - cbn [res_bind]. eexists. split; [done|]. by apply Hfind.
Qed.

(** The new inode was the last one, or there is no free block. *)
Definition exhausted (s : nfs) : bool := (sb_free_inodes (n_alloc s) =? 1) || (free_blocks =? 0).

Notation create := (lwext4_create sb rc_get_bg rc_get_blk rc_set_blk rc_put_bg rc_inode alloc_ok free_blocks use_journal).

Lemma create_ok s A dir M name mode : ns s A -> A !! dir = Some (NDir M) -> name_ok name -> M !! name = None -> room s dir name -> is_Some (n_cache s !! dir) -> S_ISREG mode || S_ISDIR mode = true ->
  ial_ok sb (n_alloc s) -> healthy sb (looks_used s) (n_alloc s) -> dirs_room (n_alloc s) (S_ISDIR mode) -> iused sb (n_alloc s) (inodes_count sb) = true ->
  (exists s' ino, A !! ino = None /\
    if exhausted s then create s dir mode name = Ok (s', inl (- ENOSPC)) /\ find_entry s' dir name = Ok (s', inr ino)
    else create s dir mode name = Ok (s', inr ino) /\ ns s' (<[dir := NDir (<[name := ino]> M)]> (<[ino := new_node mode]> A))) \/
  create s dir mode name = Ok (s, inl (- 1)) /\ forall i, 1 <= i <= inodes_count sb -> iused sb (n_alloc s) i = true.
Proof.
  intros Hs EA Hn HM Hroom Hdc Hm Hal Hh Hd Hlast. unfold lwext4_create. destruct (alloc_ox_ok s A mode Hs Hal Hh Hd Hm) as [(ino & s2 & s3 & -> & E3 & Hf)|[-> Hall]]; [left|by right]. cbn [res_bind]. rewrite E3. cbn [res_bind].
  assert (ino < inodes_count sb) as Hlt. { pose proof (fr_range _ _ _ _ _ Hf). pose proof (fr_was _ _ _ _ _ Hf). destruct (Z.eq_dec ino (inodes_count sb)) as [->|]; [congruence|lia]. }
  destruct (create_link s A s3 ino mode dir M name Hs Hf EA Hn HM Hroom Hdc Hm Hlt) as (s4 & -> & Ha & Hi & Hd4 & Hns). cbn [res_bind]. change (negb (EOK =? EOK)) with false. cbn match.
  unfold exhausted. pose proof (fr_total _ _ _ _ _ Hf) as Ht. rewrite <- Ha in Ht. destruct ((sb_free_inodes (n_alloc s) =? 1) || (free_blocks =? 0)) eqn:Ex.
  - destruct (create_full s4 (<[dir := NDir (<[name := ino]> M)]> (<[ino := new_node mode]> A)) dir (<[name := ino]> M) name ino mode Hm) as (s' & -> & Hs'); try done; [|by rewrite lookup_insert_eq..|].
    + apply orb_true_iff in Ex as [Ex%Z.eqb_eq|Ex%Z.eqb_eq]; [left; lia|by right].
    + exists s', ino. split_and!; [apply (fr_free _ _ _ _ _ Hf)|done..].
  - apply orb_false_iff in Ex as [Ex1%Z.eqb_neq Ex2%Z.eqb_neq]. destruct Hi as (mi & Emi & _).
    destruct (create_finish s4 (<[dir := NDir (<[name := ino]> M)]> (<[ino := new_node mode]> A)) dir (<[name := ino]> M) ino mode Hm) as (s' & -> & Hs'); try done; [lia|by rewrite lookup_insert_eq|].
    exists s', ino. split_and!; [apply (fr_free _ _ _ _ _ Hf)|done..].
Qed.

(** ** Removal *)

(** The reference of the transaction is not the only one. *)
Definition held (m : minode) : Prop := 1 <= i_count m /\ (i_jtx m = true -> 2 <= i_count m).

Lemma held_same m m' : msame m m' -> held m -> held m'.
Proof. intros (H1 & _ & _ & _ & _ & H2) [H3 H4]. split; [lia|]. intros Hj. destruct H2 as [H2|H2]; [|lia]. rewrite H2 in Hj. specialize (H4 Hj). lia. Qed.

Lemma got_held s A c m : ns s A -> got s c m -> held m.
Proof.
  intros Hs. unfold got. destruct (n_cache s !! c) as [m0|] eqn:E.
  - intros ->. destruct (ns_cache _ _ Hs _ _ E) as (H & _). split; cbn; [lia|]. intros _. lia.
  - intros (e & _ & ->). done.
Qed.

Lemma unlink_link_ok s A dir M name c n ce pe : ns s A -> n_inodes s !! dir = Some pe -> dsp_map dir (ei_dir pe) M -> name_ok name -> M !! name = Some c -> c <> dir -> n_inodes s !! c = Some ce -> node_ok c ce n ->
  match n with NFile => True | NDir M' => forall nm i, M' !! nm = Some i -> is_dots nm = true end -> is_Some (n_cache s !! c) -> is_Some (n_cache s !! dir) ->
  exists s' x', ext4_unlink use_journal s dir c name = Ok (s', EOK) /\ dsp_map dir x' (delete name M) /\ quiet (set_ei s dir (ei_set_dir pe x')) s'.
Proof.
  intros Hs Ep Hpd Hn HM Hne Ec [Hmode Hnode] Hempty [m Em] [md Emd]. unfold ext4_unlink, get_ei. rewrite Ec. cbn [res_bind]. assert (dop_has_children c (ei_dir ce) = Ok (inr false)) as ->.
  { destruct n as [|M']; [apply dsp_no_children; cbn; cbn in Hmode; unfold S_ISDIR, S_ISREG in *; apply Z.eqb_eq in Hmode; by rewrite Hmode|]. destruct (dsp_children _ _ _ Hnode) as ([|] & -> & Hf); [|done].
    destruct (proj1 Hf eq_refl) as (nm & i & Ei & Hd). by rewrite (Hempty _ _ Ei) in Hd. }
  cbn [res_bind]. rewrite Ep. cbn [res_bind]. destruct (dsp_remove _ _ _ _ _ Hpd Hn HM) as (x' & -> & Hx'). cbn [res_bind]. change (negb (EOK =? EOK)) with false. cbn match.
  set (s0 := set_ei s dir (ei_set_dir pe x')). assert (exists s1, (if S_ISDIR (ei_mode ce) then let* s2 := links_count_dec s0 dir in mark_inode_dirty use_journal s2 dir else Ok s0) = Ok s1 /\ quiet s0 s1) as (s1 & -> & Hq1).
  { destruct (S_ISDIR (ei_mode ce)); [|by exists s0]. destruct (links_dec_ok s0 dir (ei_set_dir pe x')) as (s2 & -> & Hq & Hc); [cbn; by rewrite lookup_insert_eq|]. cbn [res_bind].
    destruct (mark_ok s2 dir md) as (s3 & m3 & -> & Hq3 & _); [by rewrite Hc|]. exists s3. split; [done|by etrans]. }
  cbn [res_bind]. destruct (quiet_inode s0 s1 c ce Hq1) as (ce1 & -> & _); [cbn; by rewrite lookup_insert_ne by done|]. cbn [res_bind]. destruct (quiet_cache s0 s1 c m Hq1 Em) as (m1 & Em1 & _).
  destruct (negb (ei_links ce1 =? 0)); [|by exists s1, x']. destruct (quiet_inode s0 s1 c ce Hq1) as (ce2 & Ec2 & _); [cbn; by rewrite lookup_insert_ne by done|].
  destruct (links_dec_ok s1 c ce2 Ec2) as (s2 & -> & Hq2 & Hc2). cbn [res_bind]. destruct (mark_ok s2 c m1) as (s3 & m3 & -> & Hq3 & _); [by rewrite Hc2|]. cbn [res_bind]. exists s3, x'. split_and!; [done|done|]. etrans; [done|by etrans].
Qed.

(** The link counts that the last name of a file and an empty directory have. *)
Definition last_link (n : node) : Z := match n with NFile => 1 | NDir _ => 2 end.

(** No other name leads to the inode. *)
Definition only_name (A : gmap Z node) (dir : Z) (name : list Z) (c : Z) : Prop := forall d M nm, A !! d = Some (NDir M) -> M !! nm = Some c -> d = dir /\ nm = name.

Context (Hjournal : use_journal = true).

(** The last part of a removal: the inode in memory loses its links. *)
Lemma unlink_finish s A' dir c n m : ns s A' -> n_cache s !! c = Some m -> held m -> c <> dir -> A' !! c = None -> mode_is n (i_mode m) = true -> i_nlink m = last_link n -> is_Some (n_cache s !! dir) ->
  exists s' m', (let* m := get_mi s c in
    let s := set_mi s c (mi_set_nlink m (i_nlink m - 1)) in
    let* s :=
      (if S_ISDIR (i_mode m) then
         let* d := get_mi s dir in
         let s := set_mi s dir (mi_set_nlink d (i_nlink d - 1)) in
         let* m := get_mi s c in
         mark_inode_dirty use_journal (set_mi s c (mi_set_nlink m (i_nlink m - 1))) dir
       else Ok s) in
    let* m := get_mi s c in
    let* s := mark_inode_dirty use_journal s c in
    if 1 <=? i_nlink m then let* s := iput sb rc_get_bg rc_get_blk rc_set_blk rc_put_bg use_journal s c in Ok (s, 0)
    else let* s := evict_inode sb rc_get_bg rc_get_blk rc_set_blk rc_put_bg use_journal s c in Ok (s, 0)) = Ok (s', 0) /\ ns s' A' /\ n_cache s' !! c = Some m' /\ i_deleted m' = true /\ i_nlink m' = 0 /\ is_Some (n_cache s' !! dir).
Proof.
  intros Hs Em Hheld Hne Hfree Hmode Hlink [md Emd]. destruct (ns_cache _ _ Hs _ _ Em) as (Hc & Hr & Hu). unfold get_mi at 1. rewrite Em. cbn [res_bind].
  assert (forall s m0, ns s A' -> iused sb (n_alloc s) c = true -> held m0 -> ns (set_mi s c m0) A') as Hset by (intros s0 m0 H0 Hu0 [Hh _]; apply ns_set_mi; try done; intros n0 En0; congruence).
  assert (exists s1 m1, (if S_ISDIR (i_mode m) then let* d := get_mi (set_mi s c (mi_set_nlink m (i_nlink m - 1))) dir in
      let s := set_mi (set_mi s c (mi_set_nlink m (i_nlink m - 1))) dir (mi_set_nlink d (i_nlink d - 1)) in let* m := get_mi s c in mark_inode_dirty use_journal (set_mi s c (mi_set_nlink m (i_nlink m - 1))) dir
    else Ok (set_mi s c (mi_set_nlink m (i_nlink m - 1)))) = Ok s1 /\ ns s1 A' /\ n_cache s1 !! c = Some m1 /\ held m1 /\ i_nlink m1 = 0 /\ is_Some (n_cache s1 !! dir)) as (s1 & m1 & E1 & Hs1 & Em1 & Hh1 & Hn1 & [d1 Ed1]).
  { assert (S_ISDIR (i_mode m) = match n with NFile => false | NDir _ => true end) as ->. { destruct n; cbn in Hmode; [|done]. unfold S_ISDIR, S_ISREG in *. apply Z.eqb_eq in Hmode. by rewrite Hmode. }
    destruct n as [|M']; cbn in Hlink.
    - eexists _, _. split; [done|]. split; [apply Hset; try done|]. cbn. rewrite lookup_insert_eq, lookup_insert_ne by done. split_and!; try done; cbn; by rewrite Hlink.
    - unfold get_mi at 1. cbn [n_cache set_mi]. rewrite lookup_insert_ne by done. rewrite Emd. cbn [res_bind]. unfold get_mi. cbn [n_cache set_mi]. rewrite lookup_insert_ne, lookup_insert_eq by done. cbn [res_bind].
      destruct (mark_ok (set_mi (set_mi (set_mi s c (mi_set_nlink m (i_nlink m - 1))) dir (mi_set_nlink md (i_nlink md - 1))) c (mi_set_nlink (mi_set_nlink m (i_nlink m - 1)) (i_nlink (mi_set_nlink m (i_nlink m - 1)) - 1))) dir (mi_set_nlink md (i_nlink md - 1)))
        as (s2 & d2 & -> & Hq2 & _ & Ed2 & _); [cbn; rewrite lookup_insert_ne, lookup_insert_eq by done; done|].
      set (m2 := mi_set_nlink (mi_set_nlink m (i_nlink m - 1)) _) in *. destruct (quiet_cache _ _ c m2 Hq2) as (m3 & Em3 & Hm3); [cbn; by rewrite lookup_insert_eq|]. exists s2, m3. split_and!; [done| |done|by apply (held_same m2)|destruct Hm3 as (_ & -> & _); cbn; rewrite Hlink; done|by exists d2].
      eapply ns_quiet; [|exact Hq2]. apply Hset; try done. destruct (ns_cache _ _ Hs _ _ Emd) as (D1 & D2 & D3). apply ns_set_mi; try done; [by apply Hset|]. intros n0 En0. by apply (ns_mode _ _ Hs dir md n0). }
  cbv zeta in E1 |- *. rewrite E1. cbn [res_bind]. unfold get_mi at 1. rewrite Em1. cbn [res_bind]. destruct (mark_ok s1 c m1 Em1) as (s2 & m2 & -> & Hq2 & _ & Em2 & Hm2 & Hj). cbn [res_bind]. rewrite Hn1. change (1 <=? 0) with false. cbn match.
  unfold evict_inode, get_mi. rewrite Em2. cbn [res_bind]. unfold iput, get_mi. cbn [n_cache set_mi]. rewrite lookup_insert_eq. cbn [res_bind i_count]. pose proof (held_same _ _ Hm2 Hh1) as [_ Hh2]. destruct (Hj Hjournal) as [Hj2 _].
  specialize (Hh2 Hj2). rewrite (proj2 (Z.eqb_neq _ _)) by lia. cbn [res_bind]. eexists _, _. split; [done|]. unfold set_mi. cbn [n_inodes n_cache n_alloc]. rewrite insert_insert_eq. split_and!; [|by rewrite lookup_insert_eq|done|cbn; destruct Hm2 as (_ & -> & _); done|rewrite lookup_insert_ne by done; destruct (quiet_cache _ _ _ _ Hq2 Ed1) as (d2 & Ed2 & _); by exists d2].
  pose proof (ns_quiet _ _ _ Hs1 Hq2) as Hs2. destruct (ns_cache _ _ Hs2 _ _ Em2) as (_ & _ & Hu2). apply (ns_set_mi s2 A' c); try done; [cbn; lia|]. intros n0 En0. congruence.
Qed.

(** A name is added to and removed from a directory. *)
Definition add_name (A : gmap Z node) (dir : Z) (name : list Z) (c : Z) : gmap Z node := match A !! dir with Some (NDir M) => <[dir := NDir (<[name := c]> M)]> A | _ => A end.
Definition del_name (A : gmap Z node) (dir : Z) (name : list Z) : gmap Z node := match A !! dir with Some (NDir M) => <[dir := NDir (delete name M)]> A | _ => A end.

Definition no_children (n : node) : Prop := match n with NFile => True | NDir M => forall nm i, M !! nm = Some i -> is_dots nm = true end.

Lemma unlink_ok s A dir M name c n : ns s A -> A !! dir = Some (NDir M) -> name_ok name -> M !! name = Some c -> A !! c = Some n -> c <> dir -> no_children n -> only_name A dir name c -> (forall m, got s c m -> i_nlink m = last_link n) -> is_Some (n_cache s !! dir) ->
  exists s' m, lwext4_unlink sb rc_get_bg rc_get_blk rc_set_blk rc_put_bg rc_inode alloc_ok use_journal s dir name = Ok (s', 0) /\ ns s' (delete c (del_name A dir name)) /\
    n_cache s' !! c = Some m /\ i_deleted m = true /\ i_nlink m = 0 /\ is_Some (n_cache s' !! dir).
Proof.
  intros Hs EA Hn HM Ec Hne Hempty Honly Hlink [md Emd]. unfold lwext4_unlink. rewrite (find_entry_ok s A dir M name Hs EA Hn), HM. cbn [res_bind]. destruct (iget_ok s A c n Hs Ec) as (m1 & -> & Hs1 & Hgot & Hc1 & Hm1). cbn [res_bind negb].
  destruct (ns_dir _ _ _ _ Hs1 EA) as (pe & Ep & _ & Hpd). destruct (ns_node _ _ Hs1 _ _ Ec) as (_ & _ & ce & Ece & Hce). set (s1 := set_mi s c m1) in *. assert (n_cache s1 !! c = Some m1) as Em1 by (cbn; by rewrite lookup_insert_eq).
  destruct (unlink_link_ok s1 A dir M name c n ce pe Hs1 Ep Hpd Hn HM Hne Ece Hce) as (s2 & x' & -> & Hx' & Hq); [by destruct n|by exists m1|cbn; rewrite lookup_insert_ne by done; by exists md|]. cbn [res_bind]. change (negb (EOK =? EOK)) with false. cbn match.
  assert (ns s2 (delete c (del_name A dir name))) as Hs2.
  { eapply ns_quiet; [|exact Hq]. apply ns_del. { unfold del_name. rewrite EA. apply (ns_set_dir s1 A dir M pe); try done. intros nm i [_ Ei]%lookup_delete_Some. by apply (ns_names _ _ Hs dir M nm). }
    intros d M1 nm. unfold del_name. rewrite EA. intros Ed _ Enm. destruct (Z.eq_dec d dir) as [->|Hd]; [rewrite lookup_insert_eq in Ed; injection Ed as <-; apply lookup_delete_Some in Enm as [Hnm Enm]; by destruct (Honly _ _ _ EA Enm)|].
    rewrite lookup_insert_ne in Ed by done. by destruct (Honly _ _ _ Ed Enm). }
  destruct (quiet_cache _ _ c m1 Hq Em1) as (m2 & Em2 & Hm2). assert (n_cache (set_ei s1 dir (ei_set_dir pe x')) !! dir = Some md) as Emd1 by (cbn; by rewrite lookup_insert_ne by done). destruct (quiet_cache _ _ dir md Hq Emd1) as (d2 & Ed2 & _).
  destruct (unlink_finish s2 (delete c (del_name A dir name)) dir c n m2) as (s3 & m3 & E3 & Hs3 & Em3 & Hd3 & Hn3 & Hc3); try done; [apply (held_same m1); [done|by apply (got_held s A c)]|by rewrite lookup_delete_eq| | |cbv zeta in E3 |- *; rewrite E3; by exists s3, m3].
  - destruct Hm2 as (_ & _ & -> & _). done.
  - destruct Hm2 as (_ & -> & _). by apply Hlink.
Qed.

(** Other names keep a directory. *)
Lemma unlink_nonempty s A dir M name c M' nm i : ns s A -> A !! dir = Some (NDir M) -> name_ok name -> M !! name = Some c -> A !! c = Some (NDir M') -> M' !! nm = Some i -> is_dots nm = false -> (forall m, got s c m -> i_nlink m <> 0) ->
  exists s', lwext4_unlink sb rc_get_bg rc_get_blk rc_set_blk rc_put_bg rc_inode alloc_ok use_journal s dir name = Ok (s', - 1) /\ ns s' A.
Proof.
  intros Hs EA Hn HM Ec Ei Hnm Hlink. unfold lwext4_unlink. rewrite (find_entry_ok s A dir M name Hs EA Hn), HM. cbn [res_bind]. destruct (iget_ok s A c _ Hs Ec) as (m1 & -> & Hs1 & Hgot & Hc1 & Hm1). cbn [res_bind negb].
  destruct (ns_dir _ _ _ _ Hs1 Ec) as (ce & Ece & _ & Hcd). unfold ext4_unlink, get_ei. rewrite Ece. cbn [res_bind]. destruct (dsp_children _ _ _ Hcd) as ([|] & -> & Hf). 2: { assert (false = true); [|done]. apply Hf. by exists nm, i. }
  cbn [res_bind]. change (negb (ENOTEMPTY =? EOK)) with true. cbn match. unfold iput, get_mi. cbn [n_cache set_mi]. rewrite lookup_insert_eq. cbn [res_bind]. destruct (Z.eqb_spec (i_count m1) 1) as [H1|H1].
  - unfold iput_final. rewrite (proj2 (Z.eqb_neq _ _) (Hlink _ Hgot)). cbn [res_bind]. eexists. split; [done|]. destruct Hs as [N1 N2 N3 N4]. split; cbn; [done|done| |]; rewrite delete_insert_eq.
    + intros j m [_ E]%lookup_delete_Some. by apply (N3 j m).
    + intros j m n [_ E]%lookup_delete_Some. by apply (N4 j m n).
  - cbn [res_bind]. eexists. split; [done|]. destruct (ns_cache _ _ Hs1 c m1) as (_ & C2 & C3); [cbn; by rewrite lookup_insert_eq|]. apply ns_set_mi; try done; [cbn; lia|]. intros n En. apply (ns_mode _ _ Hs1 c m1 n); [cbn; by rewrite lookup_insert_eq|done].
Qed.

(** ** Renaming *)

(** The first half of renaming, whatever comes of adding the name: its result is
    not looked at. *)
Notation rename_link s dir c name := (let* (s, found) := ext4_iget sb rc_inode alloc_ok s c in
    if negb found then Ok (s, - 1)
    else
      let* (s, _) := ext4_link use_journal s dir c name false in
      let* m := get_mi s c in
      let* s := (if S_ISDIR (i_mode m) then let* d := get_mi s dir in Ok (set_mi s dir (mi_set_nlink d (i_nlink d + 1))) else Ok s) in
      let* s := mark_inode_dirty use_journal s dir in
      Ok (s, 0)).

Lemma rename_linked s A A' dir c name : ns s A -> A !! c = Some NFile -> is_Some (n_cache s !! dir) -> c <> dir ->
  (forall m1, ns (set_mi s c m1) A -> exists s2 s3 r, ext4_link use_journal (set_mi s c m1) dir c name false = Ok (s2, r) /\ quiet s3 s2 /\ n_cache s3 = n_cache (set_mi s c m1) /\ ns s3 A') ->
  exists s', rename_link s dir c name = Ok (s', 0) /\ ns s' A' /\ forall i, is_Some (n_cache s !! i) -> is_Some (n_cache s' !! i).
Proof.
  intros Hs Ec [md Emd] Hne Hlink. destruct (iget_ok s A c _ Hs Ec) as (m1 & -> & Hs1 & Hgot & Hc1 & Hm1). cbn [res_bind negb].
  destruct (Hlink m1 Hs1) as (s2 & s3 & r & -> & Hq & Hc3 & Hs3). cbn [res_bind]. pose proof (ns_quiet _ _ _ Hs3 Hq) as Hs2.
  assert (forall md, S_ISREG md = true -> S_ISDIR md = false) as Hreg by (intros md0; unfold S_ISDIR, S_ISREG; intros H%Z.eqb_eq; by rewrite H).
  destruct (quiet_cache _ _ c m1 Hq) as (m2 & Em2 & Hm2); [rewrite Hc3; cbn; by rewrite lookup_insert_eq|]. destruct (quiet_cache _ _ dir md Hq) as (d2 & Ed2 & _); [rewrite Hc3; cbn; by rewrite lookup_insert_ne by done|].
  unfold get_mi. rewrite Em2. cbn [res_bind]. destruct Hm2 as (_ & _ & -> & _). rewrite (Hreg _ Hm1). cbn [res_bind]. destruct (mark_ok s2 dir d2 Ed2) as (s4 & d3 & -> & Hq3 & _ & Ed3 & _). cbn [res_bind]. exists s4. split_and!; [done|by apply (ns_quiet s2)|].
  intros i [m Em]. assert (is_Some (n_cache s3 !! i)) as [m' Em'] by (rewrite Hc3; cbn; rewrite lookup_insert_is_Some'; right; by exists m).
  destruct (quiet_cache _ _ i m' (transitivity Hq Hq3) Em') as (m'' & -> & _). by eexists.
Qed.

Notation rename_new := (lwext4_rename_new sb rc_get_bg rc_get_blk rc_set_blk rc_put_bg rc_inode alloc_ok use_journal).

Lemma rename_new_ok s A dir M name c : ns s A -> A !! dir = Some (NDir M) -> name_ok name -> M !! name = None -> A !! c = Some NFile -> room s dir name -> is_Some (n_cache s !! dir) ->
  exists s', rename_new s dir name c = Ok (s', 0) /\ ns s' (add_name A dir name c) /\ forall i, is_Some (n_cache s !! i) -> is_Some (n_cache s' !! i).
Proof.
  intros Hs EA Hn HM Ec Hroom Hdc. unfold lwext4_rename_new. rewrite (find_entry_ok s A dir M name Hs EA Hn), HM. cbn [res_bind]. assert (c <> dir) as Hne by congruence. apply (rename_linked s A); try done.
  intros m1 Hs1. destruct (ns_dir _ _ _ _ Hs1 EA) as (pe & Ep & _ & Hpd). destruct (ns_node _ _ Hs1 _ _ Ec) as (Hcr & _ & ce & Ece & Hce & _). pose proof (gi_small _ Hg) as Hsm. cbn in Hce.
  destruct (link_file_ok (set_mi s c m1) dir M c ce pe name Ep Hpd Hne Ece) as (s2 & x' & -> & Hx' & Hq); try done; [unfold S_ISDIR, S_ISREG in *; apply Z.eqb_eq in Hce; by rewrite Hce|lia|cbn; rewrite lookup_insert_eq; by exists m1|].
  eexists _, _, _. split_and!; [done|done|done|]. unfold add_name. rewrite EA. apply (ns_set_dir _ A dir M pe); try done. intros nm i. rewrite lookup_insert_Some. intros [[_ <-]|[_ Ei]]; [by rewrite Ec|by apply (ns_names _ _ Hs dir M nm)].
Qed.

(** Adding the name fails and leaves the directory as it was. *)
Definition no_room (s : nfs) (dir : Z) (M : gmap (list Z) Z) (c : Z) (name : list Z) : Prop := exists pe ce x r, n_inodes s !! dir = Some pe /\ n_inodes s !! c = Some ce /\
  dop_add dir (ei_dir pe) (mk_child c (ei_mode ce)) name = Ok (x, r) /\ r <> EOK /\ dsp_map dir x M.

Lemma rename_new_fails s A dir M name c : ns s A -> A !! dir = Some (NDir M) -> name_ok name -> M !! name = None -> A !! c = Some NFile -> no_room s dir M c name -> is_Some (n_cache s !! dir) ->
  exists s', rename_new s dir name c = Ok (s', 0) /\ ns s' A /\ forall i, is_Some (n_cache s !! i) -> is_Some (n_cache s' !! i).
Proof.
  intros Hs EA Hn HM Ec (pe & ce & x & r & Ep & Ece & Eadd & Hr & Hx) Hdc. unfold lwext4_rename_new. rewrite (find_entry_ok s A dir M name Hs EA Hn), HM. cbn [res_bind]. assert (c <> dir) as Hne by congruence. apply (rename_linked s A); try done.
  intros m1 Hs1. unfold ext4_link, EXT4_DIRECTORY_FILENAME_LEN. destruct Hn as [Hn1 Hn2]. rewrite (proj2 (Z.ltb_ge 255 _)) by lia. unfold get_ei. cbn [n_inodes set_mi]. rewrite Ep, Ece. cbn [res_bind]. rewrite Eadd. cbn [res_bind].
  rewrite (proj2 (Z.eqb_neq _ _) Hr). cbn [negb]. eexists _, _, _. split_and!; [done|done|done|]. rewrite <- (insert_id A dir (NDir M)) by done. apply (ns_set_dir _ A dir M pe); try done. intros nm i Ei. by apply (ns_names _ _ Hs dir M nm).
Qed.

Lemma rename_old_ok s A dir M name c n : ns s A -> A !! dir = Some (NDir M) -> name_ok name -> M !! name = Some c -> A !! c = Some n -> c <> dir -> is_Some (n_cache s !! dir) ->
  exists s', lwext4_rename_old sb rc_inode alloc_ok use_journal s dir name c = Ok (s', 0) /\ ns s' (del_name A dir name).
Proof.
  intros Hs EA Hn HM Ec Hne [md Emd]. unfold lwext4_rename_old. rewrite (find_entry_ok s A dir M name Hs EA Hn), HM. cbn [res_bind]. rewrite Z.eqb_refl. cbn [negb]. destruct (iget_ok s A c _ Hs Ec) as (m1 & -> & Hs1 & _). cbn [res_bind negb].
  destruct (ns_dir _ _ _ _ Hs1 EA) as (pe & Ep & _ & Hpd). unfold get_ei. rewrite Ep. cbn [res_bind]. destruct (dsp_remove _ _ _ _ _ Hpd Hn HM) as (x' & -> & Hx'). cbn [res_bind]. change (negb (EOK =? EOK)) with false. cbn match.
  set (s2 := set_ei _ dir _). assert (ns s2 (del_name A dir name)) as Hs2. { unfold del_name. rewrite EA. apply (ns_set_dir _ A dir M pe); try done. intros nm i [_ Ei]%lookup_delete_Some. by apply (ns_names _ _ Hs dir M nm). }
  unfold get_mi. cbn [n_cache s2 set_ei set_mi]. rewrite lookup_insert_eq. cbn [res_bind]. destruct (S_ISDIR (i_mode m1)); [|by exists s2]. rewrite lookup_insert_ne by done. rewrite Emd. cbn [res_bind].
  destruct (ns_cache _ _ Hs2 dir md) as (C1 & C2 & C3); [cbn; by rewrite lookup_insert_ne by done|]. assert (ns (set_mi s2 dir (mi_set_nlink md (i_nlink md - 1))) (del_name A dir name)) as Hs3.
  { apply ns_set_mi; try done. intros n0 En0. apply (ns_mode _ _ Hs2 dir md n0); [cbn; by rewrite lookup_insert_ne by done|done]. }
  destruct (mark_ok (set_mi s2 dir (mi_set_nlink md (i_nlink md - 1))) dir (mi_set_nlink md (i_nlink md - 1))) as (s4 & m4 & -> & Hq4 & _); [cbn; by rewrite lookup_insert_eq|]. cbn [res_bind]. exists s4. split; [done|]. by eapply ns_quiet.
Qed.

(** ** Histories *)

(** The operations on a file system that starts with [s0] and [A0], with the
    changes of the abstract state. *)
Inductive names_history (s0 : nfs) (A0 : gmap Z node) : nfs -> gmap Z node -> Prop :=
| nh_start : names_history s0 A0 s0 A0
| nh_lookup s A dir M name s' r : names_history s0 A0 s A -> A !! dir = Some (NDir M) -> name_ok name ->
    lwext4_lookup sb rc_inode alloc_ok s dir name = Ok (s', r) -> names_history s0 A0 s' A
| nh_create s A dir M name mode s' r : names_history s0 A0 s A -> A !! dir = Some (NDir M) -> name_ok name -> M !! name = None -> room s dir name -> is_Some (n_cache s !! dir) -> S_ISREG mode || S_ISDIR mode = true ->
    ial_ok sb (n_alloc s) -> healthy sb (looks_used s) (n_alloc s) -> dirs_room (n_alloc s) (S_ISDIR mode) -> exhausted s = false -> iused sb (n_alloc s) (inodes_count sb) = true ->
    create s dir mode name = Ok (s', r) -> names_history s0 A0 s' (match r with inr ino => add_name (<[ino := new_node mode]> A) dir name ino | inl _ => A end)
| nh_unlink s A dir M name c n s' r : names_history s0 A0 s A -> A !! dir = Some (NDir M) -> name_ok name -> M !! name = Some c -> A !! c = Some n -> c <> dir -> no_children n -> only_name A dir name c ->
    (forall m, got s c m -> i_nlink m = last_link n) -> is_Some (n_cache s !! dir) ->
    lwext4_unlink sb rc_get_bg rc_get_blk rc_set_blk rc_put_bg rc_inode alloc_ok use_journal s dir name = Ok (s', r) -> names_history s0 A0 s' (delete c (del_name A dir name))
| nh_unlink_none s A dir M name s' r : names_history s0 A0 s A -> A !! dir = Some (NDir M) -> name_ok name -> M !! name = None ->
    lwext4_unlink sb rc_get_bg rc_get_blk rc_set_blk rc_put_bg rc_inode alloc_ok use_journal s dir name = Ok (s', r) -> names_history s0 A0 s' A
| nh_unlink_nonempty s A dir M name c M' nm i s' r : names_history s0 A0 s A -> A !! dir = Some (NDir M) -> name_ok name -> M !! name = Some c -> A !! c = Some (NDir M') -> M' !! nm = Some i -> is_dots nm = false ->
    (forall m, got s c m -> i_nlink m <> 0) -> lwext4_unlink sb rc_get_bg rc_get_blk rc_set_blk rc_put_bg rc_inode alloc_ok use_journal s dir name = Ok (s', r) -> names_history s0 A0 s' A
| nh_rename_new s A dir M name c s' r : names_history s0 A0 s A -> A !! dir = Some (NDir M) -> name_ok name -> M !! name = None -> A !! c = Some NFile -> room s dir name -> is_Some (n_cache s !! dir) ->
    lwext4_rename_new sb rc_get_bg rc_get_blk rc_set_blk rc_put_bg rc_inode alloc_ok use_journal s dir name c = Ok (s', r) -> names_history s0 A0 s' (add_name A dir name c)
| nh_rename_old s A dir M name c n s' r : names_history s0 A0 s A -> A !! dir = Some (NDir M) -> name_ok name -> M !! name = Some c -> A !! c = Some n -> c <> dir -> is_Some (n_cache s !! dir) ->
    lwext4_rename_old sb rc_inode alloc_ok use_journal s dir name c = Ok (s', r) -> names_history s0 A0 s' (del_name A dir name).

Lemma history_ns s0 A0 s A : ns s0 A0 -> names_history s0 A0 s A -> ns s A.
Proof.
  intros H0. induction 1 as [|s A dir M name s' r _ Hs EA Hn E|s A dir M name mode s' r _ Hs EA Hn HM Hroom Hdc Hm Hal Hh Hd Hex Hlast E|s A dir M name c n s' r _ Hs EA Hn HM Ec Hne Hempty Honly Hlink Hdc E
    |s A dir M name s' r _ Hs EA Hn HM E|s A dir M name c M' nm i s' r _ Hs EA Hn HM Ec Ei Hnm Hlink E|s A dir M name c s' r _ Hs EA Hn HM Ec Hroom Hdc E|s A dir M name c n s' r _ Hs EA Hn HM Ec Hne Hdc E]; [done|..].
  - pose proof (lookup_ok s A dir M name Hs EA Hn) as H. destruct (M !! name); [|rewrite H in E; by injection E as <- _]. destruct H as (s1 & E1 & Hs1 & _). rewrite E1 in E. by injection E as <- _.
  - destruct (create_ok s A dir M name mode Hs EA Hn HM Hroom Hdc Hm Hal Hh Hd Hlast) as [(s1 & ino1 & Hfree & H1)|[E1 _]]; [|rewrite E1 in E; by injection E as <- <-].
    rewrite Hex in H1. destruct H1 as [E1 Hs1]. rewrite E1 in E. injection E as <- <-. unfold add_name. rewrite lookup_insert_ne, EA by congruence. done.
  - destruct (unlink_ok s A dir M name c n Hs EA Hn HM Ec Hne Hempty Honly Hlink Hdc) as (s1 & m1 & E1 & Hs1 & _). rewrite E1 in E. by injection E as <- _.
  - unfold lwext4_unlink in E. rewrite (find_entry_ok s A dir M name Hs EA Hn), HM in E. by injection E as <- _.
  - destruct (unlink_nonempty s A dir M name c M' nm i Hs EA Hn HM Ec Ei Hnm Hlink) as (s1 & E1 & Hs1). rewrite E1 in E. by injection E as <- _.
  - destruct (rename_new_ok s A dir M name c Hs EA Hn HM Ec Hroom Hdc) as (s1 & E1 & Hs1 & _). rewrite E1 in E. by injection E as <- _.
  - destruct (rename_old_ok s A dir M name c n Hs EA Hn HM Ec Hne Hdc) as (s1 & E1 & Hs1). rewrite E1 in E. by injection E as <- _.
Qed.

(** C28: the operations on directories implement a tree of names: from a state
    that stands for the tree [A0], any sequence of lookups, creations, removals
    and first and second halves of renamings leads to a state that stands for
    the tree changed accordingly, and a lookup in it finds exactly the names of
    the tree with their inodes.  Without I/O errors, with memory for inodes and
    with a journal, each step is allowed if its names have 1 to 255 characters
    and its directory is in memory, and further: a creation, of a file or a
    directory under a new name, if the directory has room, the counters and
    bitmaps of the inode allocator are exact, the super block counts another
    free inode and a free block and the last inode is in use (it may find no
    inode and then changes nothing); a removal if it takes the only name of a
    file or of an empty directory, with the link count that belongs to it, or
    names nothing or a directory that is not empty; a renaming for files only,
    to a new name in a directory with room. *)
Theorem ext4_name_space_refines s0 A0 s A : ns s0 A0 -> names_history s0 A0 s A -> ns s A /\ forall dir M name, A !! dir = Some (NDir M) -> name_ok name ->
  match M !! name with
  | Some c => exists s', lwext4_lookup sb rc_inode alloc_ok s dir name = Ok (s', Some c)
  | None => lwext4_lookup sb rc_inode alloc_ok s dir name = Ok (s, None)
  end.
Proof.
  intros H0 Hh. pose proof (history_ns s0 A0 s A H0 Hh) as Hs. split; [done|]. intros dir M name EA Hn. pose proof (lookup_ok s A dir M name Hs EA Hn) as H. destruct (M !! name); [|done]. destruct H as (s' & E & _). by exists s'.
Qed.

(** C29: creating a file or directory under a new name.  Without I/O errors,
    with the directory in memory and room in it, exact inode bitmaps and counters
    and the last inode in use: if the super block counts another free inode and
    a free block, a fresh inode is returned, and the name and an empty node are
    added to the tree; if all inodes are in use, the creation fails without any
    change; if the new inode is the last one, or there is no free block, the
    creation reports that there is no space, but the name is left in the
    directory and leads to the new inode. *)
Theorem ext4_create_correct s A dir M name mode : ns s A -> A !! dir = Some (NDir M) -> name_ok name -> M !! name = None -> room s dir name -> is_Some (n_cache s !! dir) -> S_ISREG mode || S_ISDIR mode = true ->
  ial_ok sb (n_alloc s) -> healthy sb (looks_used s) (n_alloc s) -> dirs_room (n_alloc s) (S_ISDIR mode) -> iused sb (n_alloc s) (inodes_count sb) = true ->
  (exists s' ino, A !! ino = None /\
    if (sb_free_inodes (n_alloc s) =? 1) || (free_blocks =? 0)
    then create s dir mode name = Ok (s', inl (- ENOSPC)) /\ find_entry s' dir name = Ok (s', inr ino)
    else create s dir mode name = Ok (s', inr ino) /\ ns s' (<[dir := NDir (<[name := ino]> M)]> (<[ino := new_node mode]> A))) \/
  create s dir mode name = Ok (s, inl (- 1)) /\ forall i, 1 <= i <= inodes_count sb -> iused sb (n_alloc s) i = true.
Proof. apply create_ok. Qed.

(** C30: removing the last name of a file or of an empty directory succeeds,
    takes the name and the node out of the tree, and leaves the inode in memory
    marked as deleted with no links, to be freed by the journal. *)
Theorem ext4_unlink_correct s A dir M name c n : ns s A -> A !! dir = Some (NDir M) -> name_ok name -> M !! name = Some c -> A !! c = Some n -> c <> dir -> no_children n -> only_name A dir name c -> (forall m, got s c m -> i_nlink m = last_link n) -> is_Some (n_cache s !! dir) ->
  exists s' m, lwext4_unlink sb rc_get_bg rc_get_blk rc_set_blk rc_put_bg rc_inode alloc_ok use_journal s dir name = Ok (s', 0) /\ ns s' (delete c (del_name A dir name)) /\
    n_cache s' !! c = Some m /\ i_deleted m = true /\ i_nlink m = 0 /\ is_Some (n_cache s' !! dir).
Proof. apply unlink_ok. Qed.

End space.

(** ** The instance *)

Section instance.
Context (hash_seed : word4) (unsigned_hash : bool) (rc_read rc_put append_rc : Z -> Z -> Z) (stale : Z -> Z -> block) (fblk : Z -> Z -> Z) (qsort : list sort_entry -> list sort_entry) (version : Z).
Context (Hread : forall i j, rc_read i j = EOK) (Hput : forall i j, rc_put i j = EOK) (Happend : forall i j, append_rc i j = EOK) (Hstale : forall i j, block_ok (stale i j)) (Hbytes : forall i j, Forall (fun x => 0 <= x < 256) (stale i j)).
Context (Hfblk : forall ino i j, fblk ino i = fblk ino j -> i = j) (Hqperm : forall l, qsort l ≡ₚ l) (Hqsort : forall l, pairwise (fun a b => se_hash a <= se_hash b) (qsort l)) (Hversion : 0 <= version <= 2).

Notation ops := (htree_ops hash_seed unsigned_hash rc_read rc_put append_rc stale fblk qsort version).

Lemma htree_find ino x M name : is_dir_file hash_seed unsigned_hash x version M -> name_ok name -> @dop_find ops ino x name = Ok (x, match M !! name with Some c => inr c | None => inl ENOENT end).
Proof.
  intros Hx Hn. cbn. pose proof (dir_lookup_ok hash_seed unsigned_hash (rc_read ino) (Hread ino) x version M name Hx Hn) as H. destruct (M !! name) as [c|]; [|by rewrite H]. destruct H as (iblk & o & -> & <-). done.
Qed.

Lemma htree_add ino x M child name : is_dir_file hash_seed unsigned_hash x version M -> name_ok name -> M !! name = None -> 0 < c_index child < U32_MOD -> index_full (df_blocks x) = false /\ ~ fragmented (df_blocks x) child name ->
  exists x', @dop_add ops ino x child name = Ok (x', EOK) /\ is_dir_file hash_seed unsigned_hash x' version (<[name := c_index child]> M).
Proof.
  intros Hx Hn HM Hc [Hf Hfr]. destruct (dir_add_ok hash_seed unsigned_hash (rc_read ino) (Hread ino) (append_rc ino) (stale ino) (Happend ino) (Hstale ino) (fblk ino) qsort Hqperm Hqsort (Hfblk ino) x version M child name Hx Hn Hc Hf HM) as [H|[_ H]]; done.
Qed.

Lemma htree_remove ino x M name c : is_dir_file hash_seed unsigned_hash x version M -> name_ok name -> M !! name = Some c -> exists x', @dop_remove ops ino x name = Ok (x', EOK) /\ is_dir_file hash_seed unsigned_hash x' version (delete name M).
Proof. intros Hx Hn HM. pose proof (dir_remove_ok hash_seed unsigned_hash (rc_read ino) (Hread ino) x version M name Hx Hn) as H. by rewrite HM in H. Qed.

Lemma htree_init ino self parent : 0 < c_index self < U32_MOD -> 0 < c_index parent < U32_MOD ->
  exists x', @dop_init ops ino (mk_dir true false []) self parent = Ok (x', EOK) /\ is_dir_file hash_seed unsigned_hash (mk_dir true true (df_blocks x')) version ∅.
Proof.
  intros Hs Hp. destruct (dx_init_ok hash_seed unsigned_hash (rc_read ino) (Hread ino) (append_rc ino) (stale ino) (Happend ino) (Hstale ino) (fblk ino) qsort Hqperm Hqsort (Hfblk ino) (Hbytes ino) self parent version Hs Hp Hversion) as (d & E & Hd & _). cbn. rewrite E. cbn [res_bind]. eexists. split; [done|]. split; [done|]. by split.
Qed.

(** The interface holds of the directories of lwext4. *)
#[local] Instance htree_spec : DirSpec ops := {|
  dsp_map ino x M := is_dir_file hash_seed unsigned_hash x version M;
  dsp_room ino x child name := index_full (df_blocks x) = false /\ ~ fragmented (df_blocks x) child name;
  dsp_flags ino x M H := conj (proj1 H) (proj1 (proj2 H));
  dsp_find := htree_find;
  dsp_add := htree_add;
  dsp_remove := htree_remove;
  dsp_init := htree_init;
  dsp_children ino x M H := has_children_ok (rc_read ino) (rc_put ino) (fun _ => EOK) (fun _ => true) (Hread ino) (Hput ino) hash_seed unsigned_hash x version M H;
  dsp_no_children ino x H := ltac:(cbn; unfold has_children; by rewrite H)
|}.
End instance.

(** ** The small file system *)

Definition ex_spec : DirSpec (ex_dops (fun _ => no_rc)) :=
  htree_spec ex_seed false (fun _ _ => EOK) (fun _ _ => EOK) (fun _ => no_rc) (fun _ => ex_stale) (fun _ i => i) (merge_sort se_le) 1 (fun _ _ => eq_refl) (fun _ _ => eq_refl) (fun _ _ => eq_refl)
    (fun _ => ex_stale_ok) (fun _ => ex_stale_bytes) (fun _ _ _ E => E) (merge_sort_Permutation _) merge_sort_sorted (conj Z.le_0_1 (Z.le_succ_diag_r 1)).

Notation ex_is_ns := (@ns _ ex_spec ex_isb).
Notation ex_has_room := (@room _ ex_spec).

Lemma ex_root_dir : is_dir_file ex_seed false (mk_dir true true ex_root) 1 ∅.
Proof.
  destruct (dx_init_ok ex_seed false (fun _ => EOK) (fun _ => eq_refl) (fun _ => EOK) ex_stale (fun _ => eq_refl) ex_stale_ok (fun i => i) (merge_sort se_le) (merge_sort_Permutation _) merge_sort_sorted (fun i j E => E) ex_stale_bytes
    (mk_child 2 16877) (mk_child 2 16877) 1 ltac:(cbn; lia) ltac:(cbn; lia) ltac:(lia)) as (d & E & Hd & _). unfold ex_root. rewrite E. by split_and!.
Qed.

Lemma ex_ns : ex_is_ns (ex_fs ex_root ex_alloc) {[ 2 := NDir ∅ ]}.
Proof.
  split.
  - intros ino n [<- <-]%lookup_singleton_Some. split; [done|]. split; [by vm_compute|]. exists (mk_ei 16877 2 true true ex_root). split; [apply lookup_singleton_eq|]. split; [done|exact ex_root_dir].
  - intros dir M name c [<- [= <-]]%lookup_singleton_Some Ec. by rewrite lookup_empty in Ec.
  - intros ino m Em. unfold ex_fs, n_cache in Em. apply lookup_singleton_Some in Em as [<- <-]. split; [done|]. split; [done|by vm_compute].
  - intros ino m n Em. unfold ex_fs, n_cache in Em. apply lookup_singleton_Some in Em as [<- <-]. intros [_ <-]%lookup_singleton_Some. done.
Qed.

(** Room for a name, by evaluation. *)
Lemma room_eval s dir e name : n_inodes s !! dir = Some e -> index_full (ei_blocks e) = false ->
  (forall child, forallb (fun b => match dir_try_insert_entry b child name with Ok (_, r) => negb (r =? ENOSPC) | _ => true end) (ei_blocks e) = true) -> ex_has_room s dir name.
Proof.
  intros Ee Hf Hall e' child Ee'. replace e' with e by congruence. split; [done|]. intros (i & b & es & Ei & _ & Et & _). specialize (Hall child). rewrite forallb_forall in Hall. specialize (Hall b). rewrite Et in Hall.
  assert (negb (ENOSPC =? ENOSPC) = true); [|done]. apply Hall. apply list_elem_of_In. by apply list_elem_of_lookup_2 in Ei.
Qed.

Lemma ex_ialloc_ok : ial_ok ex_isb ex_alloc.
Proof. split; [done| |done|by vm_compute]. constructor; [|constructor]. split; try done; [by repeat constructor|]. intros i Hi. cbn in Hi. lia. Qed.

Lemma ex_fs_healthy : healthy ex_isb (looks_used (ex_fs ex_root ex_alloc)) ex_alloc.
Proof. intros x Hx Hu. unfold looks_used. cbn. rewrite lookup_singleton_ne; [done|]. intros <-. by vm_compute in Hu. Qed.

Lemma ex_fs_room : ex_has_room (ex_fs ex_root ex_alloc) 2 [97].
Proof. apply (room_eval _ _ (mk_ei 16877 2 true true ex_root)); [apply lookup_singleton_eq|by vm_compute|]. intros [i m]. by vm_compute. Qed.

(** The conditions of a creation in it. *)
Ltac ex_side :=
  lazymatch goal with
  | |- room _ _ _ => exact ex_fs_room
  | |- ial_ok _ _ => exact ex_ialloc_ok
  | |- healthy _ _ _ => exact ex_fs_healthy
  | |- dirs_room _ _ => intros H; discriminate H
  | |- name_ok _ => split; discriminate
  | |- is_Some _ => eexists; apply lookup_singleton_eq
  | |- iused _ _ _ = _ => vm_compute; reflexivity
  | |- _ => first [apply lookup_singleton_eq|apply lookup_empty|reflexivity]
  end.

Lemma ext4_create_correct_witness : exists s' ino, ex_create (fun _ => no_rc) (ex_fs ex_root ex_alloc) 2 33188 [97] = Ok (s', inr ino) /\ ex_is_ns s' (<[2 := NDir (<[ [97] := ino ]> ∅)]> (<[ino := NFile]> {[ 2 := NDir ∅ ]})).
Proof.
  destruct (@ext4_create_correct _ ex_spec ex_isb no_rc no_rc no_rc no_rc no_rc (fun _ => true) 100 true (fun _ => eq_refl) ex_ircs ex_igeom (ex_fs ex_root ex_alloc) {[ 2 := NDir ∅ ]} 2 ∅ [97] 33188 ex_ns) as [(s' & ino & _ & E & Hs)|[E _]].
  all: try ex_side. 1: exists s', ino; split; [exact E|exact Hs]. exfalso. by vm_compute in E.
Defined.

(** The file system with the file [a]. *)
Definition ex_tree : gmap Z node := <[2 := NDir (<[ [97] := 4 ]> ∅)]> (<[4 := NFile]> {[ 2 := NDir ∅ ]}).

(** What is evaluated of the state: the inodes in memory, and room for [b]. *)
Record ex_file (s : nfs) : Prop := {
  ef_ns : ex_is_ns s ex_tree;
  ef_root : n_cache s !! 2 = Some (mk_mi 2 2 16877 false true false);
  ef_file : n_cache s !! 4 = Some (mk_mi 2 1 33188 false true false);
  ef_room : ex_has_room s 2 [98]
}.

Lemma ex_file_created : exists s, ex_create (fun _ => no_rc) (ex_fs ex_root ex_alloc) 2 33188 [97] = Ok (s, inr 4) /\ ex_file s.
Proof.
  destruct (@create_ok _ ex_spec ex_isb no_rc no_rc no_rc no_rc no_rc (fun _ => true) 100 true (fun _ => eq_refl) ex_ircs ex_igeom (ex_fs ex_root ex_alloc) {[ 2 := NDir ∅ ]} 2 ∅ [97] 33188 ex_ns) as [(s & ino & _ & E & Hs)|[E _]].
  1-10: ex_side. 2: { exfalso. by vm_compute in E. }
  change (ex_create (fun _ => no_rc) (ex_fs ex_root ex_alloc) 2 33188 [97] = Ok (s, inr ino)) in E.
  set (f := fun (x : res (nfs * (Z + Z))) => match x with Ok (s, r) => Some (r, n_cache s !! 2, n_cache s !! 4) | _ => None end).
  assert (f (ex_create (fun _ => no_rc) (ex_fs ex_root ex_alloc) 2 33188 [97]) = Some (inr 4, Some (mk_mi 2 2 16877 false true false), Some (mk_mi 2 1 33188 false true false))) as Hf by (by vm_compute).
  set (g := fun (x : res (nfs * (Z + Z))) child => match x with Ok (s, _) => match n_inodes s !! 2 with Some e => negb (index_full (ei_blocks e)) && forallb (fun b => match dir_try_insert_entry b child [98] with Ok (_, r) => negb (r =? ENOSPC) | _ => true end) (ei_blocks e) | None => false end | _ => false end).
  assert (forall child, g (ex_create (fun _ => no_rc) (ex_fs ex_root ex_alloc) 2 33188 [97]) child = true) as Hroom by (intros [i m]; by vm_compute).
  rewrite E in Hf, Hroom |- *. unfold f in Hf. injection Hf as -> H2 H4. exists s. split; [reflexivity|]. split; [exact Hs|exact H2|exact H4|]. unfold g in Hroom. clear Hs E H2 H4. destruct (n_inodes s !! 2) as [e|] eqn:Ee; [|discriminate (Hroom (mk_child 1 1))].
  apply (room_eval s 2 e [98] Ee); [|intros child; exact (proj2 (proj1 (andb_true_iff _ _) (Hroom child)))]. apply negb_true_iff. exact (proj1 (proj1 (andb_true_iff _ _) (Hroom (mk_child 1 1)))).
Qed.

Lemma ex_tree_root : ex_tree !! 2 = Some (NDir (<[ [97] := 4 ]> ∅)).
Proof. apply lookup_insert_eq. Qed.

Lemma ex_tree_file : ex_tree !! 4 = Some NFile.
Proof. unfold ex_tree. rewrite lookup_insert_ne by discriminate. apply lookup_insert_eq. Qed.

Lemma ex_tree_only : only_name ex_tree 2 [97] 4.
Proof.
  intros d M nm Ed Enm. unfold ex_tree in Ed. apply lookup_insert_Some in Ed as [[<- [= <-]]|[_ Ed]]; [|apply lookup_insert_Some in Ed as [[_ ?]|[_ [_ [= <-]]%lookup_singleton_Some]]; [done|by rewrite lookup_empty in Enm]].
  apply lookup_insert_Some in Enm as [[<- _]|[_ Enm]]; [done|by rewrite lookup_empty in Enm].
Qed.

Lemma ex_name_ok c : name_ok [c].
Proof. split; discriminate. Qed.

Lemma ex_cached s i m : n_cache s !! i = Some m -> is_Some (n_cache s !! i).
Proof. intros ->. by eexists. Qed.

Lemma ex_has_a : (<[ [97] := 4 ]> ∅ : gmap (list Z) Z) !! [97] = Some 4.
Proof. apply lookup_insert_eq. Qed.

Lemma ex_no_b : (<[ [97] := 4 ]> ∅ : gmap (list Z) Z) !! [98] = None.
Proof. by rewrite lookup_insert_ne, lookup_empty by discriminate. Qed.

Lemma ext4_unlink_correct_witness : exists s s' m, ex_create (fun _ => no_rc) (ex_fs ex_root ex_alloc) 2 33188 [97] = Ok (s, inr 4) /\ ex_unlink s 2 [97] = Ok (s', 0) /\ n_cache s' !! 4 = Some m /\ i_deleted m = true.
Proof.
  destruct ex_file_created as (s & E & [H1 H2 H3 H4]). assert (forall m, got s 4 m -> i_nlink m = last_link NFile) as Hl by (clear E; intros m; unfold got; rewrite H3; by intros ->).
  destruct (@ext4_unlink_correct _ ex_spec ex_isb no_rc no_rc no_rc no_rc no_rc (fun _ => true) 100 true (fun _ => eq_refl) ex_ircs eq_refl s ex_tree 2 (<[ [97] := 4 ]> ∅) [97] 4 NFile H1 ex_tree_root (ex_name_ok 97) ex_has_a ex_tree_file
    ltac:(discriminate) I ex_tree_only Hl (ex_cached _ _ _ H2)) as (s' & m & Eu & _ & Em & Hd & _).
  exists s, s', m. split; [exact E|]. split; [exact Eu|]. split; [exact Em|exact Hd].
Defined.


Lemma ext4_name_space_refines_witness : exists s, ex_create (fun _ => no_rc) (ex_fs ex_root ex_alloc) 2 33188 [97] = Ok (s, inr 4) /\ (exists s', ex_lookup s 2 [97] = Ok (s', Some 4)) /\ ex_lookup s 2 [98] = Ok (s, None).
Proof.
  destruct ex_file_created as (s & E & _). exists s. split; [exact E|].
  destruct (@ext4_name_space_refines _ ex_spec ex_isb no_rc no_rc no_rc no_rc no_rc (fun _ => true) 100 true (fun _ => eq_refl) ex_ircs ex_igeom eq_refl (ex_fs ex_root ex_alloc) {[ 2 := NDir ∅ ]} s ex_tree ex_ns) as [_ H].
  - replace ex_tree with (add_name (<[4 := new_node 33188]> {[ 2 := NDir ∅ ]}) 2 [97] 4) by (unfold add_name; rewrite lookup_insert_ne, lookup_singleton_eq by discriminate; reflexivity).
    apply (nh_create _ _ _ _ _ _ _ _ _ _ _ (ex_fs ex_root ex_alloc) {[ 2 := NDir ∅ ]} 2 ∅ [97] 33188 s (inr 4)). 1: constructor. 1-11: ex_side. exact E.
  - pose proof (H 2 _ [97] ex_tree_root (ex_name_ok 97)) as Ha. pose proof (H 2 _ [98] ex_tree_root (ex_name_ok 98)) as Hb. rewrite ex_has_a in Ha. rewrite ex_no_b in Hb. split; [exact Ha|exact Hb].
Defined.

(** ** Failures *)

(** A creation that fails after the entry was added does not remove the
    entry.  If no block can be appended to a new directory, or if a new file
    takes the last free inode, the creation reports that there is no space, but
    the name is found afterwards; the directory has no blocks, and the link
    count of the file is 1. *)
Lemma ext4_failed_create_leaves_name :
  match ex_create (fun ino _ => if ino =? 2 then EOK else ENOSPC) (ex_fs ex_root ex_alloc) 2 16877 [97] with
  | Ok (s, r) => r = inl ENOSPC /\ (let* (_, r) := ex_lookup s 2 [97] in Ok r) = Ok (Some 4) /\ ei_blocks <$> n_inodes s !! 4 = Some []
  | _ => False
  end /\
  match ex_create (fun _ => no_rc) (ex_fs ex_root (mk_is [mk_ig 1 1 0 [247; 255]] 1 0)) 2 33188 [97] with
  | Ok (s, r) => r = inl (- ENOSPC) /\ (let* (_, r) := ex_lookup s 2 [97] in Ok r) = Ok (Some 4) /\ ei_links <$> n_inodes s !! 4 = Some 1
  | _ => False
  end.
Proof. by vm_compute. Qed.

(** A root directory with a block that has no room for another long name. *)
Definition ex_full : list block :=
  match ex_add_all (mk_dir true true ex_root) ((fun i => replicate 250 (97 + Z.of_nat i)) <$> seq 0 15) with Ok x => df_blocks x | _ => [] end.

(** A renaming loses the file when the new name cannot be added: the first
    half only logs the error and reports success, after which the second half
    removes the old name.  No name is left, and the inode keeps its link. *)
Lemma ext4_rename_loses_file :
  match (let* (s, r) := ex_create (fun _ => no_rc) (ex_fs ex_full ex_alloc) 2 33188 [65] in
         let* (s, r1) := ex_rename_new (fun _ _ => ENOSPC) s 2 (replicate 240 66) 4 in
         let* (s, r2) := ex_rename_old s 2 [65] 4 in
         let* (s, l1) := ex_lookup s 2 [65] in
         let* (s, l2) := ex_lookup s 2 (replicate 240 66) in Ok (s, (r, r1, r2), (l1, l2))) with
  | Ok (s, rs, ls) => rs = (inr 4, 0, 0) /\ ls = (None, None) /\ ei_links <$> n_inodes s !! 4 = Some 1
  | _ => False
  end.
Proof. by vm_compute. Qed.

(** Renaming a directory initialises it once more: two blocks are appended, the
    entry of the parent still leads to the old one, and the link count is 2
    again.  Here a directory with a subdirectory moves from inode 4 to 5. *)
Lemma ext4_rename_dir_reinitialises :
  match (let* (s, _) := ex_create (fun _ => no_rc) (ex_fs ex_root ex_alloc) 2 16877 [97] in
         let* (s, _) := ex_create (fun _ => no_rc) s 2 16877 [98] in
         let* (s, _) := ex_create (fun _ => no_rc) s 4 16877 [99] in
         let* (s, _) := ex_create (fun _ => no_rc) s 6 16877 [100] in
         let* (s1, r1) := ex_rename_new (fun _ => no_rc) s 5 [99] 6 in
         let* (s2, r2) := ex_rename_old s1 4 [99] 6 in Ok (s, s2, r1, r2)) with
  | Ok (s, s2, r1, r2) => r1 = 0 /\ r2 = 0 /\ (fun e => (length (ei_blocks e), ei_links e)) <$> n_inodes s !! 6 = Some (2%nat, 3) /\
      (fun e => (length (ei_blocks e), ei_links e, en_get_inode (blk_data (ei_blocks e) 0) 12)) <$> n_inodes s2 !! 6 = Some (4%nat, 2, 4)
  | _ => False
  end.
Proof. by vm_compute. Qed.

