(* ===== verification/Ext4Reuse.v ===== *)
(** * Inode numbers are used once

    [ext4_fs_free_inode] leaves the mode of the inode in the inode table, and
    the inode allocator takes only inodes without links and mode.  So a number
    that a creation has returned is never returned again, whatever the other
    operations do. *)

From stdpp Require Import gmap sorting.
From S2P Require Import Prelude Bio Sjd Ext4Extent Ext4Map Ext4Dir Ext4Hash Ext4Htree Ext4Index Ext4Front Ext4DirMap Ext4DirIter Bitmap Ext4Bitmap Ext4Balloc Ext4Ialloc Ext4Names.

(** Cases of an equation with a sequence of operations. *)
Ltac ok_case E :=
  match type of E with
  | res_bind ?c _ = Ok _ => destruct c as [?| |] eqn:?; cbn [res_bind] in E; [|discriminate E|discriminate E]
  | assert_ ?b _ = Ok _ => destruct b eqn:?; cbn [assert_] in E; [|discriminate E]
  | (if ?b then _ else _) = Ok _ => destruct b eqn:?
  | match ?x with _ => _ end = Ok _ => destruct x eqn:?
  | Ok _ = Ok _ => injection E as; subst
  end.
Ltac ok_cases E := repeat (ok_case E).

Section reuse.
Context `{D : DirOps}.
Context (sb : isblock) (rc_get_bg rc_get_blk rc_set_blk rc_put_bg rc_inode : Z -> Z).
Context (alloc_ok : Z -> bool) (free_blocks : Z) (use_journal : bool).

(** The inode [i] has a mode. *)
Definition has_mode (i : Z) (s : nfs) : Prop := exists e, n_inodes s !! i = Some e /\ ei_mode e <> 0.

Section one.
Context (i : Z).
Notation has := (has_mode i).

Lemma has_same s s' : n_inodes s' = n_inodes s -> has s -> has s'.
Proof. intros E [e [H1 H2]]. exists e. by rewrite E. Qed.

Lemma has_set s j e' : (j = i -> ei_mode e' <> 0) -> has s -> has (set_ei s j e').
Proof. intros Hm [e [H1 H2]]. unfold has_mode. cbn. destruct (Z.eq_dec j i) as [->|Hne]; [rewrite lookup_insert_eq; eauto|rewrite lookup_insert_ne by done; eauto]. Qed.

Lemma has_get s j e : get_ei s j = Ok e -> has s -> j = i -> ei_mode e <> 0.
Proof. unfold get_ei. intros E [e0 [H1 H2]] ->. rewrite H1 in E. by injection E as <-. Qed.

Lemma has_set_get s0 s j e e' : get_ei s0 j = Ok e -> has s0 -> ei_mode e' = ei_mode e -> has s -> has (set_ei s j e').
Proof. intros E H0 Em. apply has_set. intros Hj. rewrite Em. by apply (has_get s0 j). Qed.

Lemma has_mark s j s' : mark_inode_dirty use_journal s j = Ok s' -> has s -> has s'.
Proof. unfold mark_inode_dirty. intros E. ok_cases E; by apply has_same. Qed.

Lemma has_free s j s' : free_inode sb rc_get_bg rc_get_blk rc_set_blk rc_put_bg s j = Ok s' -> has s -> has s'.
Proof. unfold free_inode. intros E. ok_cases E; by apply has_same. Qed.

Lemma has_iput s j s' : iput sb rc_get_bg rc_get_blk rc_set_blk rc_put_bg use_journal s j = Ok s' -> has s -> has s'.
Proof. unfold iput, iput_final. intros E Hs. ok_cases E; try by apply (has_same s). apply has_free in E; [done|]. by apply (has_same s). Qed.

Lemma has_evict s j s' : evict_inode sb rc_get_bg rc_get_blk rc_set_blk rc_put_bg use_journal s j = Ok s' -> has s -> has s'.
Proof. unfold evict_inode. intros E Hs. ok_case E. apply has_iput in E; [done|]. by apply (has_same s). Qed.

Lemma has_unlock s j s' : unlock_new_inode s j = Ok s' -> has s -> has s'.
Proof. unfold unlock_new_inode. intros E. ok_cases E; by apply has_same. Qed.

Lemma has_iget_locked s j s' b : iget_locked alloc_ok s j = (s', b) -> has s -> has s'.
Proof. unfold iget_locked. intros E Hs. destruct (n_cache s !! j); [|destruct (alloc_ok j)]; injection E as <- <-; by apply (has_same s). Qed.

Lemma has_iget s j s' b : ext4_iget sb rc_inode alloc_ok s j = Ok (s', b) -> has s -> has s'.
Proof.
  unfold ext4_iget. intros E Hs. ok_cases E; try done; try (by eapply has_iget_locked).
  - eapply has_unlock; [done|]. by eapply has_iget_locked.
  - eapply has_unlock; [done|]. eapply has_same; [|by eapply has_iget_locked]. done.
Qed.

Lemma has_links_inc s j s' : links_count_inc s j = Ok s' -> has s -> has s'.
Proof. unfold links_count_inc. intros E Hs. ok_cases E; by eapply has_set_get. Qed.

Lemma has_links_dec s j s' : links_count_dec s j = Ok s' -> has s -> has s'.
Proof. unfold links_count_dec. intros E Hs. ok_cases E; done || by eapply has_set_get. Qed.

Lemma has_find s dir name s' r : find_entry s dir name = Ok (s', r) -> has s -> has s'.
Proof. unfold find_entry. intros E Hs. ok_cases E. by eapply has_set_get. Qed.

(** Cases inside of the steps of a sequence. *)
Ltac inner_cases :=
  repeat match goal with
  | H : (if ?b then _ else _) = Ok _ |- _ => ok_cases H
  | H : res_bind _ _ = Ok _ |- _ => ok_cases H
  | H : (let '(_, _) := ?p in _) = Ok _ |- _ => ok_cases H
  end.

(** A state that is known to keep the mode is followed through the steps. *)
Ltac known s := lazymatch goal with H : has_mode _ s |- _ => idtac end.
Ltac learn s tac := tryif known s then fail else assert (has_mode i s) by tac.
Ltac from_get := match goal with G : get_ei _ _ = Ok ?e |- _ => eapply (has_set_get _ _ _ e); [exact G|eassumption|reflexivity|eassumption] end.
Ltac follow :=
  repeat match goal with
  | H : mark_inode_dirty _ _ _ = Ok ?s' |- _ => learn s' ltac:(eapply has_mark; [exact H|eassumption])
  | H : iput _ _ _ _ _ _ _ _ = Ok ?s' |- _ => learn s' ltac:(eapply has_iput; [exact H|eassumption])
  | H : evict_inode _ _ _ _ _ _ _ _ = Ok ?s' |- _ => learn s' ltac:(eapply has_evict; [exact H|eassumption])
  | H : unlock_new_inode _ _ = Ok ?s' |- _ => learn s' ltac:(eapply has_unlock; [exact H|eassumption])
  | H : links_count_inc _ _ = Ok ?s' |- _ => learn s' ltac:(eapply has_links_inc; [exact H|eassumption])
  | H : links_count_dec _ _ = Ok ?s' |- _ => learn s' ltac:(eapply has_links_dec; [exact H|eassumption])
  | H : find_entry _ _ _ = Ok (?s', _) |- _ => learn s' ltac:(eapply has_find; [exact H|eassumption])
  | H : ext4_iget _ _ _ _ _ = Ok (?s', _) |- _ => learn s' ltac:(eapply has_iget; [exact H|eassumption])
  | H : iget_locked _ _ _ = (?s', _) |- _ => learn s' ltac:(eapply has_iget_locked; [exact H|eassumption])
  | H : context [set_ei ?s ?j ?e] |- _ => learn (set_ei s j e) ltac:(idtac; from_get)
  | H : context [set_mi ?s ?j ?m] |- _ => learn (set_mi s j m) ltac:(apply (has_same s); [reflexivity|eassumption])
  | H : context [set_alloc ?s ?a] |- _ => learn (set_alloc s a) ltac:(apply (has_same s); [reflexivity|eassumption])
  | |- has_mode _ (set_ei ?s ?j ?e) => learn (set_ei s j e) ltac:(idtac; from_get)
  | |- has_mode _ (set_mi ?s ?j ?m) => learn (set_mi s j m) ltac:(apply (has_same s); [reflexivity|eassumption])
  | |- has_mode _ (set_alloc ?s ?a) => learn (set_alloc s a) ltac:(apply (has_same s); [reflexivity|eassumption])
  end.

Lemma has_link s parent ch n rename s' r : ext4_link use_journal s parent ch n rename = Ok (s', r) -> has s -> has s'.
Proof. unfold ext4_link. intros E Hs. ok_cases E; inner_cases; follow; assumption. Qed.

Lemma has_unlink s parent ch n s' r : ext4_unlink use_journal s parent ch n = Ok (s', r) -> has s -> has s'.
Proof. unfold ext4_unlink. intros E Hs. ok_cases E; inner_cases; follow; assumption. Qed.

Lemma new_mode_nonzero mode : new_mode mode <> 0.
Proof. unfold new_mode. destruct (S_ISDIR mode); [done|]. destruct (S_ISLNK mode); [done|]. intros [H _]%Z.lor_eq_0_iff. done. Qed.

Lemma has_alloc_ox s mode s' r : alloc_inode_ox sb rc_get_bg rc_get_blk rc_set_blk rc_put_bg rc_inode alloc_ok use_journal s mode = Ok (s', r) -> has s -> has s'.
Proof.
  unfold alloc_inode_ox. intros E Hs. ok_cases E; follow; try assumption. eapply has_mark; [eassumption|]. apply has_set; [intros _; apply new_mode_nonzero|assumption].
Qed.

Lemma has_blocks_init s ino s' : inode_blocks_init use_journal s ino = Ok s' -> has s -> has s'.
Proof. unfold inode_blocks_init. intros E Hs. ok_cases E; follow; assumption. Qed.

Lemma has_set_new s ino mode s' r : set_new_inode free_blocks s ino mode = Ok (s', r) -> has s -> has s'.
Proof. unfold set_new_inode. intros E Hs. ok_cases E; follow; assumption. Qed.

(** The part of a creation behind the allocation. *)
Lemma has_created s1 s2 s3 s4 dir child mode fname r s' res :
  inode_blocks_init use_journal s1 child = Ok s2 -> ext4_link use_journal s2 dir child fname false = Ok (s3, EOK) -> set_new_inode free_blocks s3 child mode = Ok (s4, r) ->
  (if negb (r =? 0) then let* s := iput sb rc_get_bg rc_get_blk rc_set_blk rc_put_bg use_journal s4 child in Ok (s, inl r)
   else
     let* s := mark_inode_dirty use_journal s4 child in
     let* s := (if S_ISDIR mode then let* m := get_mi s dir in Ok (set_mi s dir (mi_set_nlink m (i_nlink m + 1))) else Ok s) in
     let* s := mark_inode_dirty use_journal s dir in
     Ok (s, inr child)) = Ok (s', res) -> has s1 -> has s'.
Proof.
  intros E1 E2 E3 E4 Hs. apply has_blocks_init in E1; [|assumption]. apply has_link in E2; [|assumption]. apply has_set_new in E3; [|assumption]. ok_cases E4; inner_cases; follow; assumption.
Qed.

Lemma has_create_rest s1 dir child mode fname s' r : has s1 ->
  (let* s := inode_blocks_init use_journal s1 child in
   let* (s, ret) := ext4_link use_journal s dir child fname false in
   if negb (ret =? EOK) then let* s := iput sb rc_get_bg rc_get_blk rc_set_blk rc_put_bg use_journal s child in Ok (s, inl ret)
   else
     let* (s, ret) := set_new_inode free_blocks s child mode in
     if negb (ret =? 0) then let* s := iput sb rc_get_bg rc_get_blk rc_set_blk rc_put_bg use_journal s child in Ok (s, inl ret)
     else
       let* s := mark_inode_dirty use_journal s child in
       let* s := (if S_ISDIR mode then let* m := get_mi s dir in Ok (set_mi s dir (mi_set_nlink m (i_nlink m + 1))) else Ok s) in
       let* s := mark_inode_dirty use_journal s dir in
       Ok (s, inr child)) = Ok (s', r) -> has s'.
Proof.
  intros Hs E. destruct (inode_blocks_init use_journal s1 child) as [s2| |] eqn:E1; [|done..]. cbn [res_bind] in E. destruct (ext4_link use_journal s2 dir child fname false) as [[s3 r3]| |] eqn:E2; [|done..]. cbn [res_bind] in E.
  destruct (Z.eqb_spec r3 EOK) as [->|Hne]; cbn [negb] in E.
  - destruct (set_new_inode free_blocks s3 child mode) as [[s4 r4]| |] eqn:E3; [|done..]. cbn [res_bind] in E. by apply (has_created s1 s2 s3 s4 dir child mode fname r4 s' r).
  - apply has_blocks_init in E1; [|assumption]. apply has_link in E2; [|assumption]. ok_cases E. by eapply has_iput.
Qed.

Lemma has_create s dir mode fname s' r : lwext4_create sb rc_get_bg rc_get_blk rc_set_blk rc_put_bg rc_inode alloc_ok free_blocks use_journal s dir mode fname = Ok (s', r) -> has s -> has s'.
Proof.
  unfold lwext4_create. intros E Hs. destruct (alloc_inode_ox _ _ _ _ _ _ _ _ _ _) as [[s1 r1]| |] eqn:E1; [|done..]. cbn [res_bind] in E. apply has_alloc_ox in E1; [|assumption]. destruct r1 as [e|child]; [by injection E as <- _|].
  by apply (has_create_rest s1 dir child mode fname s' r).
Qed.

Lemma has_lookup s dir name s' r : lwext4_lookup sb rc_inode alloc_ok s dir name = Ok (s', r) -> has s -> has s'.
Proof. unfold lwext4_lookup. intros E Hs. ok_cases E; follow; assumption. Qed.

Lemma has_lwext4_unlink s dir name s' r : lwext4_unlink sb rc_get_bg rc_get_blk rc_set_blk rc_put_bg rc_inode alloc_ok use_journal s dir name = Ok (s', r) -> has s -> has s'.
Proof.
  unfold lwext4_unlink. intros E Hs. ok_cases E; inner_cases; follow; try assumption;
    match goal with H : ext4_unlink _ _ _ _ _ = Ok (?s2, _) |- _ => apply has_unlink in H; [|assumption] end; follow; assumption.
Qed.

Lemma has_rename_new s dir name ino s' r : lwext4_rename_new sb rc_get_bg rc_get_blk rc_set_blk rc_put_bg rc_inode alloc_ok use_journal s dir name ino = Ok (s', r) -> has s -> has s'.
Proof.
  unfold lwext4_rename_new. intros E Hs. ok_cases E; inner_cases; follow; try assumption;
    repeat match goal with H : lwext4_unlink _ _ _ _ _ _ _ _ _ _ _ = Ok _ |- _ => apply has_lwext4_unlink in H; [|assumption] end; follow; try assumption;
    match goal with H : ext4_link _ _ _ _ _ _ = Ok _ |- _ => apply has_link in H; [|assumption] end; follow; assumption.
Qed.

Lemma has_rename_old s dir name ino s' r : lwext4_rename_old sb rc_inode alloc_ok use_journal s dir name ino = Ok (s', r) -> has s -> has s'.
Proof. unfold lwext4_rename_old. intros E Hs. ok_cases E; inner_cases; follow; assumption. Qed.

Lemma has_jtx s ino s' : jtx_deleted sb rc_get_bg rc_get_blk rc_set_blk rc_put_bg use_journal s ino = Ok s' -> has s -> has s'.
Proof. unfold jtx_deleted. intros E Hs. ok_cases E; follow; assumption. Qed.
End one.

Lemma alloc_ox_fresh s mode s' ino : alloc_inode_ox sb rc_get_bg rc_get_blk rc_set_blk rc_put_bg rc_inode alloc_ok use_journal s mode = Ok (s', inr ino) -> ~ has_mode ino s /\ has_mode ino s'.
Proof.
  unfold alloc_inode_ox. intros E. destruct (ialloc_alloc_inode _ _ _ _ _ _ _ _ _) as [[a r]| |] eqn:Ea; [|done..]. cbn [res_bind] in E. destruct r as [e|index]; [done|].
  assert (index = ino) as ->. { ok_cases E; congruence. }
  apply alloc_groups_unused in Ea. split.
  - intros [e [He Hm]]. unfold looks_used in Ea. rewrite He in Ea. apply orb_false_iff in Ea as [_ Ea%negb_false_iff%Z.eqb_eq]. done.
  - destruct (iget_locked alloc_ok (set_alloc s a) ino) as [s1 found]. destruct found; [|done]. cbn [negb] in E. ok_cases E; try congruence.
    eapply has_mark; [eassumption|]. eexists. split; [cbn; by rewrite lookup_insert_eq|]. apply new_mode_nonzero.
Qed.

Lemma create_fresh s dir mode fname s' ino : lwext4_create sb rc_get_bg rc_get_blk rc_set_blk rc_put_bg rc_inode alloc_ok free_blocks use_journal s dir mode fname = Ok (s', inr ino) -> ~ has_mode ino s /\ has_mode ino s'.
Proof.
  unfold lwext4_create. intros E. destruct (alloc_inode_ox _ _ _ _ _ _ _ _ _ _) as [[s1 r1]| |] eqn:E1; [|done..]. cbn [res_bind] in E. destruct r1 as [e|child]; [done|].
  assert (child = ino) as ->. { ok_cases E; congruence. }
  destruct (alloc_ox_fresh _ _ _ _ E1) as [H1 H2]. split; [done|]. by apply (has_create_rest ino s1 dir ino mode fname s' (inr ino)).
Qed.

(** ** All operations *)

(** The life of a file system from [s0] on, with the inodes created. *)
Inductive life (s0 : nfs) : list Z -> nfs -> Prop :=
| life_start : life s0 [] s0
| life_create l s dir mode name s' ino : life s0 l s -> lwext4_create sb rc_get_bg rc_get_blk rc_set_blk rc_put_bg rc_inode alloc_ok free_blocks use_journal s dir mode name = Ok (s', inr ino) -> life s0 (ino :: l) s'
| life_create_fails l s dir mode name s' e : life s0 l s -> lwext4_create sb rc_get_bg rc_get_blk rc_set_blk rc_put_bg rc_inode alloc_ok free_blocks use_journal s dir mode name = Ok (s', inl e) -> life s0 l s'
| life_lookup l s dir name s' r : life s0 l s -> lwext4_lookup sb rc_inode alloc_ok s dir name = Ok (s', r) -> life s0 l s'
| life_unlink l s dir name s' r : life s0 l s -> lwext4_unlink sb rc_get_bg rc_get_blk rc_set_blk rc_put_bg rc_inode alloc_ok use_journal s dir name = Ok (s', r) -> life s0 l s'
| life_rename_new l s dir name ino s' r : life s0 l s -> lwext4_rename_new sb rc_get_bg rc_get_blk rc_set_blk rc_put_bg rc_inode alloc_ok use_journal s dir name ino = Ok (s', r) -> life s0 l s'
| life_rename_old l s dir name ino s' r : life s0 l s -> lwext4_rename_old sb rc_inode alloc_ok use_journal s dir name ino = Ok (s', r) -> life s0 l s'
| life_commit l s ino s' : life s0 l s -> jtx_deleted sb rc_get_bg rc_get_blk rc_set_blk rc_put_bg use_journal s ino = Ok s' -> life s0 l s'
| life_put l s ino s' : life s0 l s -> iput sb rc_get_bg rc_get_blk rc_set_blk rc_put_bg use_journal s ino = Ok s' -> life s0 l s'.

Lemma life_modes s0 l s : life s0 l s -> NoDup l /\ Forall (fun i => has_mode i s) l.
Proof.
  induction 1 as [|l s dir mode name s' ino _ [IH1 IH2] E|l s dir mode name s' e _ [IH1 IH2] E|l s dir name s' r _ [IH1 IH2] E|l s dir name s' r _ [IH1 IH2] E|l s dir name ino s' r _ [IH1 IH2] E|l s dir name ino s' r _ [IH1 IH2] E|l s ino s' _ [IH1 IH2] E|l s ino s' _ [IH1 IH2] E].
  - by repeat constructor.
  - destruct (create_fresh _ _ _ _ _ _ E) as [H1 H2]. split; [constructor; [|done]; intros Hin; rewrite Forall_forall in IH2; by apply H1, IH2|]. constructor; [done|]. apply (Forall_impl _ _ _ IH2). intros i. by eapply has_create.
  - split; [done|]. apply (Forall_impl _ _ _ IH2). intros i. by eapply has_create.
  - split; [done|]. apply (Forall_impl _ _ _ IH2). intros i. by eapply has_lookup.
  - split; [done|]. apply (Forall_impl _ _ _ IH2). intros i. by eapply has_lwext4_unlink.
  - split; [done|]. apply (Forall_impl _ _ _ IH2). intros i. by eapply has_rename_new.
  - split; [done|]. apply (Forall_impl _ _ _ IH2). intros i. by eapply has_rename_old.
  - split; [done|]. apply (Forall_impl _ _ _ IH2). intros i. by eapply has_jtx.
  - split; [done|]. apply (Forall_impl _ _ _ IH2). intros i. by eapply has_iput.
Qed.

(** C32: in the whole life of a file system no inode number is given out twice,
    not even after its file was removed and the inode freed: the allocator
    skips inodes that have a mode in the inode table, and no operation ever
    clears a mode.  This holds for any directories, errors and limits.  So the
    number of creations is bounded by the size of the inode table. *)
Theorem ext4_inodes_never_reused s0 l s : life s0 l s -> NoDup l.
Proof. intros H. by apply (life_modes s0 l s). Qed.
End reuse.

Lemma ext4_inodes_never_reused_witness : exists s, @life (ex_dops (fun _ => no_rc)) ex_isb no_rc no_rc no_rc no_rc no_rc (fun _ => true) 100 true (ex_fs ex_root ex_alloc) [5; 4] s /\ NoDup [5; 4].
Proof.
  assert ((let* (s1, r1) := ex_create (fun _ => no_rc) (ex_fs ex_root ex_alloc) 2 33188 [97] in
           let* (s2, _) := ex_unlink s1 2 [97] in
           let* s3 := jtx_deleted ex_isb no_rc no_rc no_rc no_rc true s2 4 in
           let* (_, r4) := ex_create (fun _ => no_rc) s3 2 33188 [97] in Ok (r1, r4)) = Ok (inr 4, inr 5)) as H by (vm_compute; reflexivity).
  destruct (ex_create (fun _ => no_rc) (ex_fs ex_root ex_alloc) 2 33188 [97]) as [[s1 r1]| |] eqn:E1; cbn [res_bind] in H; [|discriminate H..].
  destruct (ex_unlink s1 2 [97]) as [[s2 r2]| |] eqn:E2; cbn [res_bind] in H; [|discriminate H..].
  destruct (jtx_deleted ex_isb no_rc no_rc no_rc no_rc true s2 4) as [s3| |] eqn:E3; cbn [res_bind] in H; [|discriminate H..].
  destruct (ex_create (fun _ => no_rc) s3 2 33188 [97]) as [[s4 r4]| |] eqn:E4; cbn [res_bind] in H; [|discriminate H..]. injection H as -> ->. exists s4.
  assert (@life (ex_dops (fun _ => no_rc)) ex_isb no_rc no_rc no_rc no_rc no_rc (fun _ => true) 100 true (ex_fs ex_root ex_alloc) [5; 4] s4) as Hl.
  { eapply life_create; [|exact E4]. eapply life_commit; [|exact E3]. eapply life_unlink; [|exact E2]. eapply life_create; [|exact E1]. constructor. }
  split; [exact Hl|]. exact (@ext4_inodes_never_reused _ _ _ _ _ _ _ _ _ _ _ _ _ Hl).
Defined.
